(* ===== verification/_CoqProject ===== *)
-Q . S2P
Prelude.v
Stream.v
RustStd.v
Crates.v
Uuid.v
Address.v
Vless.v
Addons.v
Orca.v
Mux.v
TlsRecord.v
ClientHello.v
Handshake.v
Reality.v
RealityServer.v
Vision.v
Whitelist.v
Socks.v
Client.v
Tunnel.v
Modes.v
Direct.v
Brutal.v
VecBuf.v
SessionCache.v
Codec.v
TlsLayer.v
Deframer.v
DeframerFeed.v
Wire.v
Enums.v
Messages.v
MessageLaws.v
Payloads.v
PayloadLaws.v
HelloBridge.v
Ciphers.v
Suites.v
Errors.v
Common.v
CommonLaws.v
Hkdf.v
KeySchedule.v
KeyScheduleLaws.v
Transcript.v
Tls12.v
Persist.v
Ticketer.v
KeyLogFile.v
QuicKeys.v
Conn.v
Context.v
Sign.v
Frames.v
ClientBase.v
ClientTls13.v
ClientTls13Laws.v
ClientTls12.v
ClientHs.v
ServerBase.v
ServerExt.v
ServerTls13.v
ServerTls12.v
ServerHs.v
Samples.v
WebPki.v
Builders.v
ServerLaws.v
Trust.v
ClientTls12Laws.v
ServerTls12Laws.v
TrafficLaws.v
CompleteIo.v
EndToEnd.v
Quic.v
TlsStream.v
