(* ===== verification/Prelude.v ===== *)
(** * OrcaX: a verification development

    OrcaX is the Rust part of a VPN application: a client that accepts SOCKS5
    connections on the local host and carries them, multiplexed and disguised
    as ordinary TLS traffic, to a server.  This library models that code as
    functions and step machines and proves what it promises.

    ** The program

    Three crates under src/orcax and a patched TLS library:

    - protocol: the message formats.  VLESS requests (vless.rs, addons.rs,
      address.rs), the native frames and authentication messages (orca.rs), the
      stream table of a connection (mux.rs);
    - transport: what makes a connection look like TLS and authenticates it.
      Raw records (tls_record.rs), the ClientHello parser (client_hello.rs),
      Reality authentication hidden in the session identifier (reality.rs,
      reality_cert.rs, server.rs), the key exchange of the native protocol
      (handshake.rs), Vision padding of inner TLS (vision.rs);
    - client: the binary (main.rs: SOCKS5 front end, start-up, TCP pool, QUIC,
      WebSocket), the blocking tunnel (tunnel.rs), split tunnelling
      (whitelist.rs), a congestion controller (brutal.rs);
    - rustls-fork: rustls 0.22 with a Reality extension (rustls/src/reality.rs
      and the places of server/tls13.rs that call it).  Every TLS connection of
      the client runs through it.

    A connection of the client goes: [Socks] reads the request and consults
    [Whitelist]; [Modes] and [Client] have authenticated a link with
    [Handshake] and a uuid ([Uuid]) and open a stream on it with frames of
    [Orca] that carry an [Address].  The bytes of a link travel in the TLS
    fork: [Conn] joins the deframer ([Deframer]), the state machine of the
    client ([ClientHs]) or of the server ([ServerHs]) and the state both share
    ([Common]), whose record layer ([TlsLayer]) has the ciphers ([Ciphers])
    that the key schedule ([KeySchedule], [Tls12]) installs.  The Reality
    server checks the ClientHello ([ClientHello], [Reality], [RealityServer]),
    reads [Vless] or [Orca] requests, keeps its streams in [Mux], and pads with
    [Vision].

    ** Files

    - [Prelude]: outcomes of Rust code, machine integers, byte lists, shared
      lemmas, tactics and hint databases.  [Stream]: sockets and their reads,
      as sequences of pieces with errors and stalls.  [RustStd]: strings,
      UTF-8, numbers and IP addresses as text.  [Crates]: the external crates as
      classes of operations and classes of laws, with concrete instances.
    - protocol: [Uuid] (main.rs [parse_uuid], the [format!] of vless.rs and
      handshake.rs), [Address] (address.rs), [Vless] (vless.rs), [Addons]
      (addons.rs), [Orca] (orca.rs), [Mux] (mux.rs).
    - transport: [TlsRecord] (tls_record.rs), [ClientHello] (client_hello.rs),
      [Handshake] (handshake.rs), [Reality] (transport/src/reality.rs, and the
      module [Fork] for rustls/src/reality.rs), [RealityServer]
      (reality_cert.rs, server.rs), [Vision] (vision.rs).
    - client: [Whitelist] (whitelist.rs), [Socks], [Client], [Modes] and
      [Direct] (main.rs), [Tunnel] (tunnel.rs), [Brutal] (brutal.rs, on the
      binary64 numbers of the Standard Library's [SpecFloat]), [Trust] (the
      verifiers and TLS configurations of main.rs and tunnel.rs).
    - The fork, bytes and records: [VecBuf] (vecbuf.rs), [SessionCache]
      (limited_cache.rs, client/handy.rs), [Codec] (msgs/codec.rs, base.rs,
      macros.rs, alert.rs, ccs.rs), [TlsLayer] (msgs/message.rs,
      msgs/fragmenter.rs, record_layer.rs), [Deframer] and [DeframerFeed]
      (msgs/deframer.rs).
    - The fork, messages: [Wire] (laws of composed codecs), [Enums] (enums.rs,
      msgs/enums.rs), [Messages] and [Payloads] (msgs/handshake.rs, verify.rs,
      x509.rs) with [MessageLaws] and [PayloadLaws], [HelloBridge] (the fork's
      hello in the parser of the transport crate), [Errors] (error.rs).
    - The fork, cryptography: [Ciphers] (crypto/cipher.rs, crypto/ring/tls13.rs,
      tls12.rs), [Suites] (suites.rs, versions.rs, crypto/ring/mod.rs), [Hkdf]
      (crypto/hash.rs, hmac.rs, tls13.rs, tls12.rs), [KeySchedule] and
      [KeyScheduleLaws] (tls13/key_schedule.rs), [Transcript] (hash_hs.rs),
      [Tls12] (tls12/mod.rs), [Persist] (msgs/persist.rs), [Ticketer]
      (ticketer.rs, crypto/ring/ticketer.rs), [KeyLogFile] (key_log_file.rs),
      [QuicKeys] (quic.rs, crypto/ring/quic.rs), [Sign] (crypto/ring/sign.rs,
      kx.rs).
    - The fork, certificates and configurations: [WebPki] (webpki/, the
      [NoClientAuth] of verify.rs, the table of algorithms of
      crypto/ring/mod.rs), [Builders] (builder.rs, client/builder.rs,
      server/builder.rs, [default_provider]), [Trust] (what keys, verifiers,
      builders and handshakes give together).
    - The fork, connections: [Common] and [CommonLaws] (common_state.rs), [Conn]
      and [CompleteIo] (conn.rs, check.rs), [TlsStream] (stream.rs), [Quic]
      (the connections of quic.rs), [Context] (the argument of every
      handler, with crypto/mod.rs, crypto/signer.rs, rand.rs), [Frames] (what
      handlers leave alone), [ClientBase], [ClientTls13], [ClientTls12],
      [ClientHs] (client/), [ServerBase], [ServerExt], [ServerTls13],
      [ServerTls12], [ServerHs] (server/), with [ClientTls13Laws],
      [ClientTls12Laws], [ServerLaws], [ServerTls12Laws], [TrafficLaws],
      [EndToEnd] for the theorems and [Samples] for concrete parameters.

    Definitions keep the names of the source; a Rust struct is a record, an
    enum an inductive type, a method a function that takes and returns the
    state.  Rust's three ways to end are the constructors of [result]: [Ok],
    [Err] with the error, [Panic].  Code that threads a state runs in a small
    monad: [Cm] over [CommonState], [Cx] over the shared state, the data of one
    side and the world.  A trait object of the source is a record of functions
    or a class ([ServerCertVerifier], [SupportedKxGroup], [Signer],
    [StoresServerSessions], [ServerTicketer], ...).  The boxed handshake states
    of the source are one inductive type per protocol ([Tls13State],
    [Tls12State], [ClientState], [ServerState]) with a handler for each.
    A w-bit integer is a [Z], with the cast or
    the wrap-around written where the source has it; where a build with and one
    without overflow checks differ, the class [Profile] says which is meant.
    Bytes are a list of [Z] with the predicate of being below 256 where it
    matters.  A socket is the list of pieces its peer sends: statements about
    "every way the bytes arrive" quantify over it.

    ** What is proved

    - Formats: encoders and decoders are inverse for every segmentation of the
      stream (frames, VLESS requests, TLS records, every handshake message and
      extension, session values, uuid text, addresses), what was read
      re-encodes to the bytes read, and parsers never panic on arbitrary input.
    - Vision: the bulk reader equals a byte-at-a-time automaton, so its result
      does not depend on how the stream is cut; it always terminates; writer
      and reader compose to the identity over a session of contents that the
      16-bit length describes.
    - Authentication of the native protocols: a client with the right keys is
      accepted by Reality and by the handshake, what is accepted was checked
      (name, short identifier, time, tag), stale messages are refused; the
      client's connection code and the server's agree.
    - State: the invariants of the stream table in every reachable state,
      whatever the peer registers, the routing of streams to links, fresh stream
      identifiers, the life cycle of the tunnel with concurrent calls of [start]
      and [stop] ([stop_ends_start]), the two directions of a WebSocket session
      under every interleaving of its four tasks ([cdn_session_orderly]),
      reconnection and fall-back.
    - Relaying: the reader task delivers to each stream what was sent on it;
      the tunnel's relay loop conserves both directions.
    - The congestion window stays between its bounds, is its formula after every
      acknowledgement and 1.05 of itself after every loss ([brutal_window]).
    - TLS fork, lower half: the chunked buffer with all its operations refines a
      byte queue, the cache is bounded and evicts in order, a ticket is taken once,
      every record is sealed with the number of the records sealed before it under
      the same installed key and sealing stops before the counter wraps
      ([nonces_never_reused]), the deframer refines a queue without positions and
      does not depend on the pieces ([deframer_chunking]), handshake messages are
      joined from any records.
    - TLS fork, keys: the expansion loops equal the RFC formulas, labels are
      separated, both ends derive the same keys and keep them through key
      updates ([tls12_keys_agree] for TLS 1.2), the transcript is one list of bytes, tickets open for the
      lifetime of their key under every interleaving, ages do not overflow.
    - TLS fork, connections: [process_new_packets] always ends; a TLS 1.3
      client in traffic has checked the chain, the signature and the Finished
      code of its transcript ([client_authenticates]); a TLS 1.3 server
      likewise, with Reality also the code in the session id
      ([server_authenticates]), and its ServerHello proves it
      ([reality_hello]); the TLS 1.2 states likewise
      ([client12_authenticates], [server12_authenticates]); data crosses from
      either state machine to the other for every segmentation
      ([data_crosses]), and through the blocking streams for every way the
      transport cuts, fails and flushes ([streams_carry]).  The clock moves
      freely between the messages of a run ([timed_runs]).  [connections_run]
      evaluates whole connections on concrete parameters, as a test of the model.
    - TLS fork, QUIC: packets sealed by one side open on the other through every
      key update ([quic_packets_cross]), header protection is undone
      ([header_protection_roundtrip]); [quic_connections_run] evaluates whole
      handshakes on concrete parameters.
    - TLS fork, trust: the webpki verifiers accept exactly what their checks
      accept and never panic ([server_verifier_exact]); a signature by any
      private key that can be loaded passes them with its certificate
      ([loaded_key_trusted]); a configuration that the builders accept starts a
      handshake ([built_configs_start]); a client built with root certificates is
      in traffic only with a server that they vouch for at the time at which it
      checked the chain ([anchored_client]; of a
      client that proved itself to a server, [client_proof_vouched]);
      what the key log file got is read back ([log_read_back]).
    - Deviations found on the way are theorems as well: in the program
      [padded_frame_loses_byte], [padding_delivered], [long_frame_splits],
      [long_content_misread], [parse_uuid_panics_iff], [tunnel_never_forwards],
      [second_start_revives], [socks5_token_bypass], [cdn_data_after_close],
      [cdn_half_close_drops], [eight_sessions_store_nothing]; in the fork [push_bound],
      [take_pending_stale], [soft_limit_recursion],
      [alert_overtakes_key_update], [certificate_error_eq_refl],
      [idle_ticket_accepted], [zero_lifetime_kept], [deframe_error_forgotten],
      [middlebox_ccs_dropped], [complete_io_spins],
      [reality_not_checked_in_tls12], [empty_write_reads], [torn_line]; where
      both meet [losses_compound] and [clients_trust_anyone].

    ** Fuel and parameters

    Loops that are not structural take fuel.  [Vision.feed_loop] and the loops
    of [ClientHello] get the length of their input plus one, [Addons.parse_loop]
    and [Codec.read_items] the length of their input, [VecBuf.read_loop] the
    number of chunks plus one, the deframer's turns the bytes it holds, the
    expansion loops of [Hkdf] the blocks they fill, [Conn.process_loop] the
    bytes in the deframer plus one: each turn consumes at least that unit or
    ends.  The relay loop of [Tunnel] needs one turn more than its client has
    pieces left.  Running out is a value of its own, and theorems show it does
    not occur at that fuel ([feed_total], [parse_client_hello_total],
    [addons_parse_total], [read_vec_total], [vecbuf_refines_queue],
    [relay_conserves], [process_new_packets_ends]).  The monitor retries
    forever in the source; [monitor_restores] gives the number of attempts after
    which it has a connection.  [send_single_fragment] calls itself through
    [send_warning_alert]; its depth is bounded by a constant, and
    [soft_limit_recursion] shows that the one state that would go deeper never
    returns.  [complete_io] takes its turns as an argument, since
    [complete_io_spins] shows that none are enough when the peer closes during the
    handshake: from the second turn on it neither reads nor writes; the runs of [EndToEnd]
    exchange a fixed number of flights, more than any of them needs.  The
    operations of [TlsStream] take the same turns; [streams_carry] shows that
    there are enough of them for a transport that makes progress, and that more
    change nothing.

    Cryptography, base64, certificate generation, CIDR blocks, host name syntax
    and the digests and AEADs of ring are not under src/ as readable code: they
    are parameters, and [HexLaws], [X25519Laws], [HkdfLaws], [AeadLaws],
    [HmacLaws], [CipherLaws], [RingAeadLaws], [HashingLaws], [RingHkdfLaws],
    [TicketLaws], [RingQuicLaws], [RingAgreementLaws], [Certifies] state their
    documented behaviour, each with a concrete instance.  [RingSigning] and
    [WebPki] are the operations of ring and of the webpki crate that the code
    calls, without laws.  Verifiers, certificate resolvers, session stores,
    signers and key exchange groups are parameters of the handshakes without
    laws; [WebPki], [SessionCache] and [Sign] give the implementations of this
    library for them.  Clocks,
    random draws, the key log and the outcomes of connection attempts are
    arguments or part of the world.

    ** Not modelled

    The one-function C interface, the QUIC and WebSocket endpoints of the client
    and its verifier for the rustls of quinn (calls of other libraries), the
    set-up of sockets and processes, logging; of the fork, the aws-lc binding (a
    second provider with the same tables), the [Connection] enums and getters that
    forward, texts for display, [hpke.rs] (traits without an implementation), tools,
    tests, benchmarks and examples; the Flutter application and its platform code
    (another language).  Left in the plan: completeness of an honest handshake for
    every configuration instead of the runs of [EndToEnd] and [Quic]. *)
From Stdlib Require Export ZifyBool.
From stdpp Require Export base tactics list gmap strings numbers.

#[global] Open Scope Z_scope.

(** ** Outcomes of Rust code

    A Rust function that returns [Result<A, E>] ends in a value, in an error,
    or it panics (slice out of range, failed [unwrap], arithmetic overflow in
    a checked build).  The three are kept apart, so that "never panics" is a
    statement of the model. *)

Inductive result (E A : Type) : Type :=
| Ok (a : A)
| Err (e : E)
| Panic.
Arguments Ok {E A} a.
Arguments Err {E A} e.
Arguments Panic {E A}.

#[export] Instance result_ret E : MRet (result E) := fun A a => Ok a.
#[export] Instance result_bind E : MBind (result E) := fun A B f m =>
  match m with Ok a => f a | Err e => Err e | Panic => Panic end.
#[export] Instance result_fmap E : FMap (result E) := fun A B f m =>
  match m with Ok a => Ok (f a) | Err e => Err e | Panic => Panic end.

(** [if !cond { return Err(e) }]. *)
Definition ensure {E} (b : bool) (e : E) : result E unit :=
  if b then Ok tt else Err e.

(** [opt.ok_or(e)?] and [res.map_err(|_| e)?]. *)
Definition ok_or {E A} (o : option A) (e : E) : result E A :=
  match o with Some a => Ok a | None => Err e end.
Definition map_err {E F A} (f : E -> F) (m : result E A) : result F A :=
  match m with Ok a => Ok a | Err e => Err (f e) | Panic => Panic end.

(** [opt.unwrap()]. *)
Definition unwrap {E A} (o : option A) : result E A :=
  match o with Some a => Ok a | None => Panic end.

Definition no_panic {E A} (m : result E A) : Prop := m <> Panic.
Definition is_ok {E A} (m : result E A) : bool :=
  match m with Ok _ => true | _ => false end.

(** ** Machine integers

    A [w]-bit unsigned integer is a [Z]; [as u8], [as u16], ... are the
    truncating casts. *)

Definition u8 (z : Z) : Z := z mod 2 ^ 8.
Definition u16 (z : Z) : Z := z mod 2 ^ 16.
Definition u32 (z : Z) : Z := z mod 2 ^ 32.
Definition u64 (z : Z) : Z := z mod 2 ^ 64.
Definition i32 (z : Z) : Z := (z + 2 ^ 31) mod 2 ^ 32 - 2 ^ 31.

(** Arithmetic overflow panics in a build with overflow checks (the debug
    profile, which the tests use) and wraps in a release build. *)
Class Profile := overflow_checks : bool.

Definition arith {E} `{Profile} (w : Z) (z : Z) : result E Z :=
  if (0 <=? z) && (z <? 2 ^ w) then Ok z
  else if overflow_checks then Panic else Ok (z mod 2 ^ w).

(** ** Bytes *)

Abbreviation bytes := (list Z).

Definition is_byte (b : Z) : Prop := 0 <= b < 256.
Definition wf_bytes (l : bytes) : Prop := Forall is_byte l.

#[export] Instance is_byte_dec b : Decision (is_byte b).
Proof. unfold is_byte. apply _. Defined.
#[export] Instance wf_bytes_dec l : Decision (wf_bytes l).
Proof. unfold wf_bytes. apply _. Defined.

(** Big-endian integers of [n] bytes: [uN::to_be_bytes], [uN::from_be_bytes]. *)
Fixpoint be_encode (n : nat) (z : Z) : bytes :=
  match n with
  | O => []
  | S k => be_encode k (z / 256) ++ [z mod 256]
  end.
Definition be_decode (l : bytes) : Z :=
  foldl (fun acc b => acc * 256 + b) 0 l.

(** The bytes of an ASCII literal. *)
Fixpoint ascii_bytes (s : string) : bytes :=
  match s with
  | EmptyString => []
  | String a s' => Z.of_N (Ascii.N_of_ascii a) :: ascii_bytes s'
  end.

Definition zlen {A} (l : list A) : Z := Z.of_nat (length l).

(** ** Slices: [s[i]], [s[a..b]], [dst.copy_from_slice(src)] *)

Definition idx {E} (l : bytes) (i : nat) : result E Z := unwrap (l !! i).
Definition slice {E} (l : bytes) (a b : nat) : result E bytes :=
  if (a <=? b)%nat && (b <=? length l)%nat then Ok (take (b - a) (drop a l))
  else Panic.
(** [dst[a..b].copy_from_slice(src)]: the two lengths must agree. *)
Definition copy_into {E} (dst : bytes) (a b : nat) (src : bytes) : result E bytes :=
  if (a <=? b)%nat && (b <=? length dst)%nat && (length src =? b - a)%nat
  then Ok (take a dst ++ src ++ drop b dst)
  else Panic.

(** ** Automation *)

Create HintDb orcax.

Lemma bind_ok_inv {E A B} (m : result E A) (f : A -> result E B) b :
  (m ≫= f) = Ok b -> exists a, m = Ok a /\ f a = Ok b.
Proof. destruct m; cbn; [eauto | done | done]. Qed.

Lemma ensure_ok_inv {E} b (e : E) u : ensure b e = Ok u -> b = true.
Proof. by destruct b. Qed.

Lemma ensure_true {E} b (e : E) : b = true -> ensure b e = Ok tt.
Proof. by intros ->. Qed.

Lemma bind_ok {E A B} (m : result E A) (f : A -> result E B) a :
  m = Ok a -> (m ≫= f) = f a.
Proof. by intros ->. Qed.

Lemma ok_or_inv {E A} (o : option A) (e : E) a : ok_or o e = Ok a -> o = Some a.
Proof. destruct o; by inversion 1. Qed.

(** Takes a monadic hypothesis [_ = Ok _] apart. *)
Ltac inv_ok :=
  repeat match goal with
  | H : (_ ≫= _) = Ok _ |- _ =>
      let a := fresh "a" in let Ha := fresh "Ha" in
      apply bind_ok_inv in H as (a & Ha & H)
  | H : ensure _ _ = Ok ?u |- _ => apply ensure_ok_inv in H; try clear u
  | H : ok_or _ _ = Ok _ |- _ => apply ok_or_inv in H
  | H : @mret _ _ _ _ = Ok _ |- _ => unfold mret, result_ret in H
  | H : Ok _ = Ok _ |- _ => injection H; clear H; intros; subst
  | H : Err _ = Ok _ |- _ => discriminate H
  | H : Panic = Ok _ |- _ => discriminate H
  end.

Lemma no_panic_ok {E A} (a : A) : no_panic (Ok (E:=E) a).
Proof. done. Qed.
Lemma no_panic_ret {E A} (a : A) : no_panic (mret (M:=result E) a).
Proof. done. Qed.
Lemma no_panic_err {E A} (e : E) : no_panic (Err (A:=A) e).
Proof. done. Qed.
Lemma no_panic_ensure {E} b (e : E) : no_panic (ensure b e).
Proof. by destruct b. Qed.
Lemma no_panic_ok_or {E A} (o : option A) (e : E) : no_panic (ok_or o e).
Proof. by destruct o. Qed.
Lemma no_panic_bind {E A B} (m : result E A) (f : A -> result E B) :
  no_panic m -> (forall a, m = Ok a -> no_panic (f a)) -> no_panic (m ≫= f).
Proof. destruct m; cbn; intros H1 H2; [by apply H2 | done | done]. Qed.
Lemma no_panic_idx {E} (l : bytes) i : (i < length l)%nat -> no_panic (idx (E:=E) l i).
Proof.
  unfold no_panic, idx. intros H. destruct (lookup_lt_is_Some_2 l i H) as [b ->]. done.
Qed.
Lemma no_panic_slice {E} (l : bytes) a b :
  (a <= b <= length l)%nat -> no_panic (slice (E:=E) l a b).
Proof.
  unfold no_panic, slice. intros [H1 H2].
  apply Nat.leb_le in H1, H2. by rewrite H1, H2.
Qed.
#[export] Hint Resolve no_panic_ok no_panic_ret no_panic_err no_panic_ensure no_panic_ok_or : orcax.

Lemma idx_inv {E} (l : bytes) i b : idx (E:=E) l i = Ok b -> l !! i = Some b.
Proof. unfold idx. destruct (l !! i); by inversion 1. Qed.

Lemma idx_ok {E} (l : bytes) i b : l !! i = Some b -> idx (E:=E) l i = Ok b.
Proof. unfold idx. by intros ->. Qed.

Lemma idx_not_err {E} (l : bytes) i (e : E) : idx l i <> Err e.
Proof. unfold idx. by destruct (l !! i). Qed.
Lemma slice_not_err {E} (l : bytes) a b (e : E) : slice l a b <> Err e.
Proof. unfold slice. by case_match. Qed.
Lemma ensure_err_inv {E} b (e e' : E) : ensure b e = Err e' -> b = false /\ e' = e.
Proof. destruct b; by inversion 1. Qed.

Lemma slice_ok {E} (l : bytes) a b :
  (a <= b <= length l)%nat -> slice (E:=E) l a b = Ok (take (b - a) (drop a l)).
Proof.
  unfold slice. intros [H1 H2]. apply Nat.leb_le in H1, H2. by rewrite H1, H2.
Qed.

Lemma slice_inv {E} (l : bytes) a b s :
  slice (E:=E) l a b = Ok s ->
  (a <= b <= length l)%nat /\ s = take (b - a) (drop a l) /\ length s = (b - a)%nat.
Proof.
  unfold slice. intros H.
  destruct ((a <=? b)%nat && (b <=? length l)%nat) eqn:Hb; [|done].
  apply andb_true_iff in Hb as [H1 H2]. apply Nat.leb_le in H1, H2.
  injection H as <-. split; [lia|]. split; [done|].
  rewrite length_take, length_drop. lia.
Qed.

(** Discharges [no_panic] goals of straight-line monadic code: guards become
    hypotheses, indices and ranges become arithmetic goals for [lia]. *)
Ltac step_no_panic :=
  match goal with
  | |- no_panic (_ ≫= _) => apply no_panic_bind; [| intros ? ?]
  | |- no_panic (if ?b then _ else _) => destruct b eqn:?
  | |- no_panic (idx _ _) => apply no_panic_idx
  | |- no_panic (slice _ _ _) => apply no_panic_slice
  | |- no_panic (match ?x with _ => _ end) => destruct x eqn:?
  | |- no_panic (let '(_, _) := ?x in _) => destruct x eqn:?
  | |- no_panic _ => solve [auto with orcax nocore]
  end.
Ltac use_guards :=
  repeat match goal with
  | H : ensure _ _ = Ok ?u |- _ => apply ensure_ok_inv in H; try clear u
  end.
Ltac solve_no_panic := repeat step_no_panic; use_guards; try lia.

(** ** Integers *)

Lemma u8_small z : 0 <= z < 256 -> u8 z = z.
Proof. apply Z.mod_small. Qed.
Lemma u16_small z : 0 <= z < 65536 -> u16 z = z.
Proof. apply Z.mod_small. Qed.
Lemma u32_small z : 0 <= z < 2 ^ 32 -> u32 z = z.
Proof. apply Z.mod_small. Qed.
Lemma u8_byte z : is_byte (u8 z).
Proof. unfold u8, is_byte. change 256 with (2 ^ 8). apply Z.mod_pos_bound. lia. Qed.
#[export] Hint Resolve u8_byte : orcax.

(** ** Byte lists *)

Lemma wf_bytes_nil : wf_bytes [].
Proof. constructor. Qed.
Lemma wf_bytes_cons b l : is_byte b -> wf_bytes l -> wf_bytes (b :: l).
Proof. by constructor. Qed.
Lemma wf_bytes_app l1 l2 : wf_bytes (l1 ++ l2) <-> wf_bytes l1 /\ wf_bytes l2.
Proof. apply Forall_app. Qed.
Lemma wf_bytes_app_2 l1 l2 : wf_bytes l1 -> wf_bytes l2 -> wf_bytes (l1 ++ l2).
Proof. intros. by apply wf_bytes_app. Qed.
Lemma wf_bytes_take n l : wf_bytes l -> wf_bytes (take n l).
Proof. apply Forall_take. Qed.
Lemma wf_bytes_drop n l : wf_bytes l -> wf_bytes (drop n l).
Proof. apply Forall_drop. Qed.
Lemma wf_bytes_lookup l i b : wf_bytes l -> l !! i = Some b -> is_byte b.
Proof. intros Hl Hi. by eapply Forall_lookup_1. Qed.
#[export] Hint Resolve wf_bytes_nil wf_bytes_cons wf_bytes_app_2 wf_bytes_take wf_bytes_drop
  wf_bytes_lookup : orcax.

Lemma be_encode_length n z : length (be_encode n z) = n.
Proof. revert z; induction n as [|n IH]; intros z; cbn; [done|]. rewrite length_app, IH; cbn; lia. Qed.

Lemma be_encode_wf n z : wf_bytes (be_encode n z).
Proof.
  revert z; induction n as [|n IH]; intros z; cbn; [constructor|].
  apply wf_bytes_app_2; [apply IH|]. constructor; [|constructor].
  unfold is_byte. pose proof (Z.mod_pos_bound z 256). lia.
Qed.
#[export] Hint Resolve be_encode_wf : orcax.

Lemma be_decode_snoc l b : be_decode (l ++ [b]) = be_decode l * 256 + b.
Proof. unfold be_decode. by rewrite foldl_app. Qed.

Lemma be_decode_encode n z : be_decode (be_encode n z) = z mod 256 ^ Z.of_nat n.
Proof.
  revert z; induction n as [|n IH]; intros z.
  - cbn. by rewrite Z.mod_1_r.
  - cbn [be_encode]. rewrite be_decode_snoc, IH.
    rewrite Nat2Z.inj_succ, Z.pow_succ_r by lia.
    rewrite Z.rem_mul_r by (try lia; apply Z.pow_pos_nonneg; lia). lia.
Qed.

Lemma be_encode_decode l : wf_bytes l -> be_encode (length l) (be_decode l) = l.
Proof.
  induction l as [|b l IH] using rev_ind; intros Hl; [done|].
  apply wf_bytes_app in Hl as [Hl Hb]. inversion Hb as [|? ? Hb' _]; subst.
  unfold is_byte in Hb'.
  rewrite length_app, Nat.add_comm. cbn [length Nat.add be_encode].
  rewrite be_decode_snoc, Z.div_add_l by lia.
  rewrite (Z.div_small b 256), Z.add_0_r, IH by done.
  by rewrite Z.add_comm, Z.mod_add, Z.mod_small by lia.
Qed.

Lemma be_decode_bound l : wf_bytes l -> 0 <= be_decode l < 256 ^ zlen l.
Proof.
  unfold zlen. induction l as [|b l IH] using rev_ind; intros Hl; [done|].
  apply wf_bytes_app in Hl as [Hl Hb]. inversion Hb as [|? ? Hb' _]; subst.
  unfold is_byte in Hb'. specialize (IH Hl).
  rewrite be_decode_snoc, length_app. cbn [length]. rewrite Nat2Z.inj_add, Z.pow_add_r by lia.
  change (256 ^ Z.of_nat 1) with 256. lia.
Qed.

Lemma be_decode_2 a b : be_decode [a; b] = a * 256 + b.
Proof. done. Qed.

Lemma be_decode_encode_2 z : 0 <= z < 65536 -> be_decode (be_encode 2 z) = z.
Proof. intros. rewrite be_decode_encode. by apply Z.mod_small. Qed.
Lemma be_decode_encode_4 z : 0 <= z < 2 ^ 32 -> be_decode (be_encode 4 z) = z.
Proof. intros. rewrite be_decode_encode. by apply Z.mod_small. Qed.
Lemma be_decode_encode_8 z : 0 <= z < 2 ^ 64 -> be_decode (be_encode 8 z) = z.
Proof. intros. rewrite be_decode_encode. by apply Z.mod_small. Qed.

Lemma zlen_app {A} (l1 l2 : list A) : zlen (l1 ++ l2) = zlen l1 + zlen l2.
Proof. unfold zlen. rewrite length_app. lia. Qed.
Lemma zlen_nonneg {A} (l : list A) : 0 <= zlen l.
Proof. unfold zlen. lia. Qed.

Lemma take_drop_slice {A} (l : list A) a b :
  (a <= b)%nat -> take a l ++ take (b - a) (drop a l) = take b l.
Proof. intros H. rewrite <- (take_drop a (take b l)), take_take, take_drop_commute.
  rewrite Nat.min_l by lia. f_equal. f_equal. f_equal. lia. Qed.

Lemma lor_shift_add a b s : 0 <= s -> 0 <= a < 2 ^ s -> 0 <= b -> Z.lor a (Z.shiftl b s) = a + b * 2 ^ s.
Proof.
  intros Hs Ha Hb. rewrite <- Z.shiftl_mul_pow2 by done.
  assert (Z.land a (Z.shiftl b s) = 0) as H0.
  { apply Z.bits_inj'. intros n Hn. rewrite Z.land_spec, Z.bits_0, Z.shiftl_spec by done.
    destruct (Z.lt_ge_cases n s); [rewrite (Z.testbit_neg_r b) by lia; apply andb_false_r|].
    destruct (Z.eq_dec a 0) as [->|]; [by rewrite Z.bits_0|].
    rewrite (Z.bits_above_log2 a n); [done|lia|]. apply Z.lt_le_trans with s; [apply Z.log2_lt_pow2; lia|done]. }
  by rewrite Z.add_nocarry_lxor, Z.lxor_lor.
Qed.

(** A position past a known prefix. *)
Lemma idx_app {E} (pre l : bytes) n i : n = length pre -> idx (E:=E) (pre ++ l) (n + i) = idx l i.
Proof. intros ->. unfold idx. by rewrite lookup_app_r, Nat.add_comm, Nat.add_sub by lia. Qed.
Lemma idx_app_0 {E} (pre l : bytes) n : n = length pre -> idx (E:=E) (pre ++ l) n = idx l 0.
Proof. intros Hn. rewrite <- (idx_app pre l n 0 Hn). by rewrite Nat.add_0_r. Qed.
Lemma slice_app_at {E} (pre p l : bytes) a b :
  a = length pre -> b = (a + length p)%nat -> slice (E:=E) (pre ++ p ++ l) a b = Ok p.
Proof.
  intros -> ->. rewrite slice_ok by (rewrite !length_app; lia).
  by rewrite drop_app_length, Nat.add_comm, Nat.add_sub, take_app_length.
Qed.

Lemma copy_into_app {E} (pre mid post src : bytes) a b :
  a = length pre -> b = (a + length mid)%nat -> length src = length mid ->
  copy_into (E:=E) (pre ++ mid ++ post) a b src = Ok (pre ++ src ++ post).
Proof.
  intros -> -> Hl. unfold copy_into. rewrite !length_app.
  destruct (_ && _) eqn:Hb; [|lia].
  rewrite take_app_length, <- (drop_drop (pre ++ mid ++ post)). by rewrite !drop_app_length.
Qed.
