(* ===== verification/Stream.v ===== *)
(** * Byte streams: the [AsyncRead]/[AsyncWrite] operations the code uses

    A peer's half of a connection is the sequence of pieces in which its bytes
    arrive.  [Data d] is one readable piece (a TCP segment, a TLS record),
    [IoError] a failed read, [Stall] a pause longer than any time-out of the
    program.  The end of the sequence is the end of the stream.  A function
    that reads is a state-passing function on [sock]; [read] returns what one
    piece holds, [read_exact] loops over pieces as tokio's and std's do. *)
From S2P Require Import Prelude.

Inductive chunk : Type :=
| Data (d : bytes)
| IoError
| Stall.

Inductive io_error : Type :=
| UnexpectedEof
| IoFailure
| TimedOut.

Record sock : Type := Sock {
  rx : list chunk;      (* what the peer will send *)
  tx : bytes;           (* what has been written to the peer *)
  tx_open : bool        (* whether a write still succeeds *)
}.

Definition Io (E A : Type) : Type := sock -> result E A * sock.

#[export] Instance io_ret E : MRet (Io E) := fun A a s => (Ok a, s).
#[export] Instance io_bind E : MBind (Io E) := fun A B f m s =>
  match m s with
  | (Ok a, s') => f a s'
  | (Err e, s') => (Err e, s')
  | (Panic, s') => (Panic, s')
  end.

(** A computation that does not touch the stream. *)
Definition lift {E A} (m : result E A) : Io E A := fun s => (m, s).
(** [.map_err(f)?] on an I/O result. *)
Definition io_map_err {E F A} (f : E -> F) (m : Io E A) : Io F A := fun s =>
  let '(r, s') := m s in (map_err f r, s').

Fixpoint poll (timeout : bool) (cap : nat) (r : list chunk) : result io_error bytes * list chunk :=
  match r with
  | [] => (Ok [], [])
  | Stall :: r' => if timeout then (Err TimedOut, r') else poll timeout cap r'
  | IoError :: r' => (Err IoFailure, r')
  | Data d :: r' =>
      if (length d <=? cap)%nat then (Ok d, r') else (Ok (take cap d), Data (drop cap d) :: r')
  end.

(** [stream.read(&mut buf)], and the same under [tokio::time::timeout]. *)
Definition read (cap : nat) : Io io_error bytes := fun s =>
  let '(res, r) := poll false cap (rx s) in (res, Sock r (tx s) (tx_open s)).
Definition read_timeout (cap : nat) : Io io_error bytes := fun s =>
  let '(res, r) := poll true cap (rx s) in (res, Sock r (tx s) (tx_open s)).

(** The zero-initialised buffer after a read of [d] into its front. *)
Definition filled (cap : nat) (d : bytes) : bytes := d ++ replicate (cap - length d) 0.

Fixpoint take_exact (n : nat) (r : list chunk) : result io_error bytes * list chunk :=
  match n with
  | O => (Ok [], r)
  | S _ =>
    match r with
    | [] => (Err UnexpectedEof, [])
    | Stall :: r' => take_exact n r'
    | IoError :: r' => (Err IoFailure, r')
    | Data d :: r' =>
        if (length d =? 0)%nat then (Err UnexpectedEof, r')
        else if (n <? length d)%nat then (Ok (take n d), Data (drop n d) :: r')
        else let '(res, r'') := take_exact (n - length d) r' in
             ((fun rest => d ++ rest) <$> res, r'')
    end
  end.

(** [stream.read_exact(&mut buf)] for a buffer of [n] bytes. *)
Definition read_exact (n : nat) : Io io_error bytes := fun s =>
  let '(res, r) := take_exact n (rx s) in (res, Sock r (tx s) (tx_open s)).

(** [stream.write_all(&buf)]. *)
Definition write_all (b : bytes) : Io io_error unit := fun s =>
  if tx_open s then (Ok tt, Sock (rx s) (tx s ++ b) true) else (Err IoFailure, s).

(** [stream.flush()]: nothing is buffered, so it only finds out whether the
    stream is still writable. *)
Definition flush : Io io_error unit := fun s => if tx_open s then (Ok tt, s) else (Err IoFailure, s).

(** ** Streams that only deliver bytes *)

(** No read fails, and no piece is empty. *)
Definition clean (r : list chunk) : Prop :=
  Forall (fun c => match c with Data d => d <> [] | IoError => False | Stall => True end) r.

Fixpoint pending (r : list chunk) : bytes :=
  match r with
  | [] => []
  | Data d :: r' => d ++ pending r'
  | _ :: r' => pending r'
  end.

Definition reader (b : bytes) : sock := Sock [Data b] [] true.

#[export] Instance clean_dec r : Decision (clean r).
Proof.
  unfold clean. apply Forall_dec. intros [d| |].
  - apply (_ : Decision (d <> [])).
  - apply (_ : Decision False).
  - apply (_ : Decision True).
Defined.

(** Every piece holds bytes. *)
Definition wf_stream (r : list chunk) : Prop :=
  Forall (fun c => match c with Data d => wf_bytes d | _ => True end) r.
#[export] Instance wf_stream_dec r : Decision (wf_stream r).
Proof.
  unfold wf_stream. apply Forall_dec. intros [d| |].
  - apply (_ : Decision (wf_bytes d)).
  - apply (_ : Decision True).
  - apply (_ : Decision True).
Defined.

Lemma take_exact_clean n r k a b :
  clean r -> pending r = a ++ b -> length a = n ->
  exists r', take_exact n (r ++ k) = (Ok a, r' ++ k) /\ clean r' /\ pending r' = b.
Proof.
  revert n a; induction r as [|c r IH]; intros n a Hc Hp Hl.
  { cbn in Hp. symmetry in Hp. apply app_nil in Hp as [-> ->]. cbn in Hl; subst n.
    exists []. by destruct k. }
  destruct n as [|n'].
  { destruct a; [|done]. cbn in Hp. exists (c :: r). by split_and!. }
  inversion Hc as [|? ? Hd Hc']; subst. destruct c as [d| |]; [|done|].
  2: { cbn in Hp |- *. by apply IH. }
  cbn [take_exact app]. assert (length d <> 0)%nat as Hdl by (destruct d; cbn; done || lia). clear Hd.
  destruct (Nat.eqb_spec (length d) 0) as [?|_]; [lia|]. cbn in Hp.
  destruct (Nat.ltb_spec (S n') (length d)) as [Hlt|Hge].
  - assert (a = take (S n') d) as ->.
    { rewrite <- (take_app_length a b), Hl, <- Hp, take_app_le by lia. done. }
    exists (Data (drop (S n') d) :: r). split; [done|]. split.
    + constructor; [|done]. intros Hd. apply (f_equal length) in Hd.
      rewrite length_drop in Hd. cbn in Hd; lia.
    + cbn. apply (app_inv_head (take (S n') d)). by rewrite app_assoc, take_drop.
  - assert (a = d ++ drop (length d) a) as Ha.
    { rewrite <- (take_drop (length d) a) at 1. f_equal.
      apply (f_equal (take (length d))) in Hp.
      rewrite take_app_length, take_app_le in Hp by lia. done. }
    rewrite Ha, <- app_assoc in Hp. apply app_inv_head in Hp.
    destruct (IH (S n' - length d)%nat _ Hc' Hp) as (r' & Hr & ? & ?).
    { rewrite length_drop. lia. }
    rewrite Hr. exists r'. split; [|done]. by cbn; rewrite <- Ha.
Qed.

Lemma take_exact_short n r :
  clean r -> (length (pending r) < n)%nat -> exists r', take_exact n r = (Err UnexpectedEof, r').
Proof.
  revert n; induction r as [|c r IH]; intros n Hc Hl.
  { destruct n; [lia|]. by exists []. }
  destruct n as [|n']; [lia|].
  inversion Hc as [|? ? Hd Hc']; subst. destruct c as [d| |]; [|done|by apply IH].
  cbn [take_exact]. cbn [pending] in Hl. rewrite length_app in Hl.
  assert (length d <> 0)%nat by (destruct d; cbn; done || lia).
  destruct (Nat.eqb_spec (length d) 0); [lia|].
  destruct (Nat.ltb_spec (S n') (length d)); [lia|].
  destruct (IH (S n' - length d)%nat Hc') as [r' Hr]; [lia|].
  rewrite Hr. by exists r'.
Qed.

Lemma take_exact_length n r b r' : take_exact n r = (Ok b, r') -> length b = n.
Proof.
  revert n b r'; induction r as [|c r IH]; intros n b r' H.
  { destruct n; cbn in H; by simplify_eq. }
  destruct n as [|n']; [cbn in H; by simplify_eq|].
  destruct c as [d| |]; cbn [take_exact] in H; [|done|by eapply IH].
  destruct (Nat.eqb_spec (length d) 0); [done|].
  destruct (Nat.ltb_spec (S n') (length d)).
  { injection H as <- <-. rewrite length_take. lia. }
  destruct (take_exact (S n' - length d) r) as [res r2] eqn:Hr.
  destruct res; cbn in H; simplify_eq. rewrite length_app, (IH _ _ _ Hr). lia.
Qed.

Lemma take_exact_no_panic n r : (take_exact n r).1 <> Panic.
Proof.
  revert n; induction r as [|c r IH]; intros [|n]; try done.
  destruct c as [d| |]; cbn [take_exact]; [|done|apply IH].
  case_match; [done|]. case_match; [done|].
  specialize (IH (S n - length d)%nat). destruct (take_exact (S n - length d) r) as [[] ?]; done.
Qed.

Lemma take_exact_wf n r b r' :
  wf_stream r -> take_exact n r = (Ok b, r') -> wf_bytes b /\ wf_stream r'.
Proof.
  revert n b r'; induction r as [|c r IH]; intros n b r' Hw H.
  { destruct n; cbn in H; simplify_eq; split; auto with orcax. }
  destruct n as [|n']; [cbn in H; simplify_eq; split; auto with orcax|].
  inversion Hw as [|? ? Hd Hw']; subst.
  destruct c as [d| |]; cbn [take_exact] in H; [|done|by eapply IH].
  destruct (Nat.eqb_spec (length d) 0); [done|].
  destruct (Nat.ltb_spec (S n') (length d)).
  { injection H as <- <-. split; [auto with orcax|]. constructor; auto with orcax. }
  destruct (take_exact (S n' - length d) r) as [res r2] eqn:Hr.
  destruct res; cbn in H; simplify_eq. destruct (IH _ _ _ Hw' Hr). split; auto with orcax.
Qed.

Lemma poll_wf t cap r b r' :
  wf_stream r -> poll t cap r = (Ok b, r') -> wf_bytes b /\ wf_stream r'.
Proof.
  intros Hw; induction Hw as [|c r Hc Hw IH]; cbn; intros H.
  { simplify_eq. split; auto with orcax. constructor. }
  destruct c as [d| |]; [|done|].
  - destruct (Nat.leb_spec (length d) cap); simplify_eq; [done|].
    split; [auto with orcax|]. constructor; auto with orcax.
  - destruct t; [done|]. by apply IH.
Qed.

(** Reading past the remaining pauses of an exhausted prefix. *)
Lemma poll_stalls cap r d k :
  clean r -> pending r = [] -> (length d <= cap)%nat ->
  poll false cap (r ++ Data d :: k) = (Ok d, k).
Proof.
  intros Hc Hp Hd. induction r as [|c r IH]; cbn.
  - destruct (Nat.leb_spec (length d) cap); [done|lia].
  - inversion Hc; subst. destruct c as [e| |]; [|done|by apply IH].
    cbn in Hp. apply app_nil in Hp as [-> _]. done.
Qed.

(** All the bytes of a clean stream of [Data] pieces, whatever the pieces. *)
Lemma read_exact_clean n r k t o a b :
  clean r -> pending r = a ++ b -> length a = n ->
  exists r', read_exact n (Sock (r ++ k) t o) = (Ok a, Sock (r' ++ k) t o) /\ clean r' /\ pending r' = b.
Proof.
  intros Hc Hp Hl. destruct (take_exact_clean n r k a b Hc Hp Hl) as (r' & Hr & ?).
  exists r'. unfold read_exact. cbn [rx tx tx_open]. by rewrite Hr.
Qed.

Lemma read_stalls cap r d k t o :
  clean r -> pending r = [] -> (length d <= cap)%nat ->
  read cap (Sock (r ++ Data d :: k) t o) = (Ok d, Sock k t o).
Proof. intros. unfold read. cbn [rx tx tx_open]. by rewrite poll_stalls. Qed.

Lemma read_exact_short n s :
  clean (rx s) -> (length (pending (rx s)) < n)%nat ->
  exists s', read_exact n s = (Err UnexpectedEof, s').
Proof.
  intros Hc Hl. destruct (take_exact_short n _ Hc Hl) as [r' Hr].
  unfold read_exact. rewrite Hr. eauto.
Qed.

Lemma read_exact_inv n s b s' :
  read_exact n s = (Ok b, s') -> length b = n /\ tx s' = tx s /\ tx_open s' = tx_open s.
Proof.
  unfold read_exact. destruct (take_exact n (rx s)) as [res r] eqn:Hr.
  intros H; simplify_eq. split; [by eapply take_exact_length|done].
Qed.

(** ** Absence of panics in stream code *)

Definition io_no_panic {E A} (m : Io E A) : Prop := forall s, (m s).1 <> Panic.

Lemma io_no_panic_ret {E A} (a : A) : io_no_panic (mret (M:=Io E) a).
Proof. intros s H. discriminate H. Qed.
Lemma io_no_panic_bind {E A B} (m : Io E A) (f : A -> Io E B) :
  io_no_panic m -> (forall a s s', m s = (Ok a, s') -> (f a s').1 <> Panic) -> io_no_panic (m ≫= f).
Proof.
  intros Hm Hf s. unfold mbind, io_bind. specialize (Hm s).
  destruct (m s) as [[a|e|] s'] eqn:Hs; cbn in *; [by eapply Hf|done|done].
Qed.
Lemma io_no_panic_lift {E A} (m : result E A) : no_panic m -> io_no_panic (lift m).
Proof. intros H s. exact H. Qed.
Lemma io_no_panic_map_err {E F A} (f : E -> F) (m : Io E A) :
  io_no_panic m -> io_no_panic (io_map_err f m).
Proof.
  intros Hm s. specialize (Hm s). unfold io_map_err. destruct (m s) as [[] ?]; done.
Qed.
Lemma io_no_panic_read_exact n : io_no_panic (read_exact n).
Proof.
  intros s. pose proof (take_exact_no_panic n (rx s)) as H. unfold read_exact.
  by destruct (take_exact n (rx s)) as [res r].
Qed.
Lemma poll_no_panic t cap r : (poll t cap r).1 <> Panic.
Proof. induction r as [|[d| |] r IH]; cbn; repeat case_match; done. Qed.
Lemma io_no_panic_read cap : io_no_panic (read cap).
Proof.
  intros s. pose proof (poll_no_panic false cap (rx s)). unfold read.
  by destruct (poll false cap (rx s)).
Qed.
Lemma io_no_panic_read_timeout cap : io_no_panic (read_timeout cap).
Proof.
  intros s. pose proof (poll_no_panic true cap (rx s)). unfold read_timeout.
  by destruct (poll true cap (rx s)).
Qed.
Lemma io_no_panic_write_all b : io_no_panic (write_all b).
Proof. intros s. unfold write_all. by destruct (tx_open s). Qed.
#[export] Hint Resolve io_no_panic_ret io_no_panic_map_err io_no_panic_read_exact
  io_no_panic_read io_no_panic_read_timeout io_no_panic_write_all : orcax.

Lemma poll_length t cap r b r' : poll t cap r = (Ok b, r') -> (length b <= cap)%nat.
Proof.
  revert r'; induction r as [|c r IH]; intros r' H; cbn in H; [injection H as <- <-; cbn; lia|].
  destruct c as [d| |]; [|done|].
  - destruct (Nat.leb_spec (length d) cap); simplify_eq; [done|]. rewrite length_take; lia.
  - destruct t; [done|]. by eapply IH.
Qed.

Lemma io_bind_ok {E A B} (m : Io E A) (f : A -> Io E B) s a s' :
  m s = (Ok a, s') -> (m ≫= f) s = f a s'.
Proof. unfold mbind, io_bind. by intros ->. Qed.
Lemma io_bind_err {E A B} (m : Io E A) (f : A -> Io E B) s e s' :
  m s = (Err e, s') -> (m ≫= f) s = (Err e, s').
Proof. unfold mbind, io_bind. by intros ->. Qed.
Lemma io_lift_ok {E A B} (m : result E A) (f : A -> Io E B) a s :
  m = Ok a -> (lift m ≫= f) s = f a s.
Proof. by intros ->. Qed.
Lemma io_lift_err {E A B} (m : result E A) (f : A -> Io E B) e s :
  m = Err e -> (lift m ≫= f) s = (Err e, s).
Proof. by intros ->. Qed.
Lemma io_map_err_ok {E F A} (f : E -> F) (m : Io E A) s a s' :
  m s = (Ok a, s') -> io_map_err f m s = (Ok a, s').
Proof. unfold io_map_err. by intros ->. Qed.
Lemma io_map_err_err {E F A} (f : E -> F) (m : Io E A) s e s' :
  m s = (Err e, s') -> io_map_err f m s = (Err (f e), s').
Proof. unfold io_map_err. by intros ->. Qed.

Lemma io_bind_inv {E A B} (m : Io E A) (f : A -> Io E B) s b s' :
  (m ≫= f) s = (Ok b, s') -> exists a s1, m s = (Ok a, s1) /\ f a s1 = (Ok b, s').
Proof. unfold mbind, io_bind. destruct (m s) as [[] ?] eqn:?; naive_solver. Qed.

Lemma filled_length cap d : (length d <= cap)%nat -> length (filled cap d) = cap.
Proof. intros. unfold filled. rewrite length_app, length_replicate. lia. Qed.

(** ** What one read consumes *)

(** Pieces and bytes not yet read: a measure for loops that read. *)
Definition unread (r : list chunk) : nat := (length r + length (pending r))%nat.

Lemma poll_data timed cap r d r' :
  (0 < cap)%nat -> poll timed cap r = (Ok d, r') -> pending r = d ++ pending r' /\ (d <> [] -> (unread r' < unread r)%nat).
Proof.
  intros Hcap. revert d r'. unfold unread. induction r as [|c r IH]; intros d r' H; cbn in H; [by simplify_eq|].
  destruct c as [e| |]; [|done|].
  - cbn [pending length]. rewrite length_app. destruct (Nat.leb_spec (length e) cap); simplify_eq.
    + split; [done|]. lia.
    + cbn [pending length]. rewrite app_assoc, take_drop. split; [done|]. rewrite length_app, length_drop. lia.
  - destruct timed; [done|]. destruct (IH _ _ H) as [Hp Hu]. cbn [pending length]. split; [done|]. intros Hd. specialize (Hu Hd). lia.
Qed.
Lemma poll_err timed cap r e r' :
  poll timed cap r = (Err e, r') -> pending r = pending r' /\ (unread r' < unread r)%nat.
Proof.
  unfold unread. induction r as [|c r IH]; intros H; cbn in H; [done|]. destruct c as [d| |].
  - by destruct (length d <=? cap)%nat.
  - simplify_eq. cbn [pending length]. split; [done|]. lia.
  - destruct timed; [simplify_eq|]; cbn [pending length]; [split; [done|]; lia|]. destruct (IH H). split; [done|]. lia.
Qed.
Lemma poll_blocks cap r r' : poll false cap r = (Err TimedOut, r') -> False.
Proof. induction r as [|[d| |] r IH]; cbn; intros H; [done| |done|by apply IH]. by destruct (length d <=? cap)%nat. Qed.
Lemma poll_clean timed cap r res r' :
  (0 < cap)%nat -> clean r -> poll timed cap r = (res, r') ->
  clean r' /\ match res with Ok [] => pending r' = [] | Ok _ => True | Err e => e = TimedOut | Panic => False end.
Proof.
  intros Hcap Hc. revert res r'. induction Hc as [|c r Hd Hc IH]; intros res r' H; cbn in H.
  { simplify_eq. split; [by apply Forall_nil|done]. }
  destruct c as [d| |]; [|done|].
  - destruct (Nat.leb_spec (length d) cap); simplify_eq; [by destruct d|]. split.
    + apply Forall_cons_iff. split; [|done]. intros E. apply (f_equal length) in E. rewrite length_drop in E. cbn in E. lia.
    + destruct d as [|b d]; [cbn in *; lia|]. destruct cap; [lia|]. done.
  - destruct timed; [by simplify_eq|]. by apply IH.
Qed.

(** ** Weakest preconditions

    [wp m Q R s]: run from [s], [m] does not panic, a value satisfies [Q]
    together with the stream it leaves, an error satisfies [R]. *)
Definition wp {E A} (m : Io E A) (Q : A -> sock -> Prop) (R : E -> Prop) (s : sock) : Prop :=
  match m s with
  | (Ok a, s') => Q a s'
  | (Err e, _) => R e
  | (Panic, _) => False
  end.

Lemma wp_ret {E A} (a : A) Q (R : E -> Prop) s : Q a s -> wp (mret a) Q R s.
Proof. done. Qed.
Lemma wp_bind {E A B} (m : Io E A) (f : A -> Io E B) Q R s :
  wp m (fun a => wp (f a) Q R) R s -> wp (m ≫= f) Q R s.
Proof. unfold wp, mbind, io_bind. by destruct (m s) as [[] ?]. Qed.
Lemma wp_lift {E A} (m : result E A) Q R s :
  no_panic m -> (forall a, m = Ok a -> Q a s) -> (forall e, m = Err e -> R e) -> wp (lift m) Q R s.
Proof. unfold wp, lift. destruct m; naive_solver. Qed.
Lemma wp_map_err {E F A} (f : E -> F) (m : Io E A) Q R s :
  wp m Q (fun e => R (f e)) s -> wp (io_map_err f m) Q R s.
Proof. unfold wp, io_map_err. by destruct (m s) as [[] ?]. Qed.
Lemma wp_read_exact n Q (R : io_error -> Prop) s :
  wf_stream (rx s) ->
  (forall b s', length b = n -> wf_bytes b -> wf_stream (rx s') -> tx s' = tx s ->
                tx_open s' = tx_open s -> Q b s') ->
  (forall e, R e) -> wp (read_exact n) Q R s.
Proof.
  intros Hw HQ HR. pose proof (io_no_panic_read_exact n s) as Hnp. unfold wp.
  destruct (read_exact n s) as [[b|e|] s'] eqn:Hr; [|done|done].
  apply read_exact_inv in Hr as Hi. unfold read_exact in Hr.
  destruct (take_exact n (rx s)) as [res r] eqn:Ht. simplify_eq.
  destruct (take_exact_wf _ _ _ _ Hw Ht). by apply HQ; naive_solver.
Qed.
Lemma wp_poll (t : bool) cap Q (R : io_error -> Prop) s :
  wf_stream (rx s) ->
  (forall b s', (length b <= cap)%nat -> wf_bytes b -> wf_stream (rx s') -> tx s' = tx s ->
                tx_open s' = tx_open s -> Q b s') ->
  (forall e, R e) -> wp (if t then read_timeout cap else read cap) Q R s.
Proof.
  intros Hw HQ HR. pose proof (poll_no_panic t cap (rx s)) as Hnp.
  unfold wp. replace ((if t then read_timeout cap else read cap) s)
    with (let '(res, r) := poll t cap (rx s) in (res, Sock r (tx s) (tx_open s))) by by destruct t.
  destruct (poll t cap (rx s)) as [[b|e|] r] eqn:Hr; [|done|done].
  destruct (poll_wf _ _ _ _ _ Hw Hr). apply HQ; try done. by eapply poll_length.
Qed.
Lemma wp_read cap Q (R : io_error -> Prop) s :
  wf_stream (rx s) ->
  (forall b s', (length b <= cap)%nat -> wf_bytes b -> wf_stream (rx s') -> tx s' = tx s ->
                tx_open s' = tx_open s -> Q b s') ->
  (forall e, R e) -> wp (read cap) Q R s.
Proof. apply (wp_poll false). Qed.
Lemma wp_read_timeout cap Q (R : io_error -> Prop) s :
  wf_stream (rx s) ->
  (forall b s', (length b <= cap)%nat -> wf_bytes b -> wf_stream (rx s') -> tx s' = tx s ->
                tx_open s' = tx_open s -> Q b s') ->
  (forall e, R e) -> wp (read_timeout cap) Q R s.
Proof. apply (wp_poll true). Qed.
Lemma wp_write_all b Q (R : io_error -> Prop) s :
  (tx_open s = true -> Q tt (Sock (rx s) (tx s ++ b) true)) -> R IoFailure -> wp (write_all b) Q R s.
Proof. unfold wp, write_all. destruct (tx_open s); auto. Qed.
Lemma wp_no_panic {E A} (m : Io E A) Q R s : wp m Q R s -> (m s).1 <> Panic.
Proof. unfold wp. by destruct (m s) as [[] ?]. Qed.
Lemma wp_not_err {E A} (m : Io E A) Q (R : E -> Prop) s e : wp m Q R s -> ~ R e -> (m s).1 <> Err e.
Proof. unfold wp. destruct (m s) as [[] ?]; cbn; intros H1 H2 H3; naive_solver. Qed.

(** One symbolic step; reads leave their facts in the context. *)
Ltac wp_step :=
  match goal with
  | |- wp (_ ≫= _) _ _ _ => apply wp_bind
  | |- wp (mret _) _ _ _ => apply wp_ret
  | |- wp (io_map_err _ _) _ _ _ => apply wp_map_err
  | |- wp (read_exact _) _ _ _ => apply wp_read_exact; [done|intros ? ? ? ? ? ? ?|intros ?]
  | |- wp (read _) _ _ _ => apply wp_read; [done|intros ? ? ? ? ? ? ?|intros ?]
  | |- wp (read_timeout _) _ _ _ => apply wp_read_timeout; [done|intros ? ? ? ? ? ? ?|intros ?]
  | |- wp (write_all _) _ _ _ => apply wp_write_all; [intros ?|]
  | |- wp (lift _) _ _ _ => apply wp_lift; [|intros ? ?|intros ? ?]
  | |- wp (if ?b then _ else _) _ _ _ => destruct b eqn:?
  | |- wp (let '(_, _) := ?x in _) _ _ _ => destruct x eqn:?
  end.
