(* ===== verification/RustStd.v ===== *)
(** * The parts of Rust's standard library the code relies on

    Strings are their UTF-8 bytes.  This file models UTF-8 validation, ASCII
    case, splitting and trimming, decimal and hexadecimal numbers, and the
    textual form of IP addresses (std's [net::parser] and [Display]). *)
From S2P Require Import Prelude.

(** ** UTF-8 ([str::from_utf8], [String::from_utf8]) *)

Definition between (lo hi b : Z) : bool := (lo <=? b) && (b <=? hi).
Definition cont (b : Z) : bool := between 0x80 0xBF b.

(** Well-formed byte sequences (Unicode table 3-7). *)
Fixpoint utf8_valid (l : bytes) : bool :=
  match l with
  | [] => true
  | b0 :: t0 =>
    if b0 <? 0x80 then utf8_valid t0 else
    match t0 with
    | [] => false
    | b1 :: t1 =>
      if between 0xC2 0xDF b0 then cont b1 && utf8_valid t1 else
      match t1 with
      | [] => false
      | b2 :: t2 =>
        if between 0xE0 0xEF b0 then
          between (if b0 =? 0xE0 then 0xA0 else 0x80) (if b0 =? 0xED then 0x9F else 0xBF) b1
          && cont b2 && utf8_valid t2
        else
        match t2 with
        | [] => false
        | b3 :: t3 =>
          between 0xF0 0xF4 b0
          && between (if b0 =? 0xF0 then 0x90 else 0x80) (if b0 =? 0xF4 then 0x8F else 0xBF) b1
          && cont b2 && cont b3 && utf8_valid t3
        end
      end
    end
  end.

Definition from_utf8 (l : bytes) : option bytes := if utf8_valid l then Some l else None.

Definition is_ascii (l : bytes) : Prop := Forall (fun b => 0 <= b < 128) l.

(** ** ASCII strings *)

Definition to_ascii_lowercase : bytes -> bytes :=
  map (fun b => if between 65 90 b then b + 32 else b).

Definition is_ascii_hexdigit (b : Z) : bool :=
  between 48 57 b || between 65 70 b || between 97 102 b.

(** [s.split(c)]: always at least one piece. *)
Fixpoint split_on (c : Z) (s : bytes) : list bytes :=
  match s with
  | [] => [[]]
  | b :: s' =>
      match split_on c s' with
      | p :: ps => if b =? c then [] :: p :: ps else (b :: p) :: ps
      | [] => [[]]
      end
  end.

(** [s.replace(old, new)] for a one-byte pattern. *)
Definition replace_byte (c : Z) (new : bytes) (s : bytes) : bytes :=
  flat_map (fun b => if b =? c then new else [b]) s.

Fixpoint starts_with (p s : bytes) : bool :=
  match p, s with
  | [], _ => true
  | a :: p', b :: s' => (a =? b) && starts_with p' s'
  | _ :: _, [] => false
  end.
Definition ends_with (p s : bytes) : bool := starts_with (rev p) (rev s).

(** Length in bytes of the white-space character ([char::is_whitespace]) at the
    front of a string, 0 when there is none. *)
Definition ws_front (s : bytes) : nat :=
  match s with
  | b0 :: s1 =>
    if between 9 13 b0 || (b0 =? 32) then 1%nat else
    match s1 with
    | b1 :: s2 =>
      if (b0 =? 0xC2) && ((b1 =? 0x85) || (b1 =? 0xA0)) then 2%nat else
      match s2 with
      | b2 :: _ =>
        if ((b0 =? 0xE1) && (b1 =? 0x9A) && (b2 =? 0x80))
           || ((b0 =? 0xE2) && (b1 =? 0x80)
               && (between 0x80 0x8A b2 || (b2 =? 0xA8) || (b2 =? 0xA9) || (b2 =? 0xAF)))
           || ((b0 =? 0xE2) && (b1 =? 0x81) && (b2 =? 0x9F))
           || ((b0 =? 0xE3) && (b1 =? 0x80) && (b2 =? 0x80))
        then 3%nat else 0%nat
      | [] => 0%nat
      end
    | [] => 0%nat
    end
  | [] => 0%nat
  end.

Fixpoint trim_start_fuel (fuel : nat) (s : bytes) : bytes :=
  match fuel with
  | O => s
  | S f => match ws_front s with O => s | n => trim_start_fuel f (drop n s) end
  end.
Definition trim_start (s : bytes) : bytes := trim_start_fuel (length s) s.

(** The suffix of [n] bytes is one white-space character. *)
Definition ws_back (s : bytes) : nat :=
  let at_end n := (ws_front (drop (length s - n) s) =? n)%nat in
  if (1 <=? length s)%nat && at_end 1%nat then 1%nat
  else if (2 <=? length s)%nat && at_end 2%nat then 2%nat
  else if (3 <=? length s)%nat && at_end 3%nat then 3%nat else 0%nat.
Fixpoint trim_end_fuel (fuel : nat) (s : bytes) : bytes :=
  match fuel with
  | O => s
  | S f => match ws_back s with O => s | n => trim_end_fuel f (take (length s - n) s) end
  end.
Definition trim_end (s : bytes) : bytes := trim_end_fuel (length s) s.
Definition trim (s : bytes) : bytes := trim_end (trim_start s).

(** ** Numbers *)

Definition digit_char (d : Z) : Z := if d <? 10 then 48 + d else 87 + d.
Definition digit_val (radix b : Z) : option Z :=
  let v := if between 48 57 b then b - 48
           else if between 97 122 b then b - 87
           else if between 65 90 b then b - 55 else 99 in
  if v <? radix then Some v else None.

Fixpoint to_radix_fuel (fuel : nat) (radix z : Z) : bytes :=
  match fuel with
  | O => []
  | S f => if z <? radix then [digit_char z]
           else to_radix_fuel f radix (z / radix) ++ [digit_char (z mod radix)]
  end.
(** [format!("{}", z)] and [format!("{:x}", z)] for an unsigned integer of at most 64 bits. *)
Definition dec (z : Z) : bytes := to_radix_fuel 20 10 z.
Definition hex_lower (z : Z) : bytes := to_radix_fuel 16 16 z.

Fixpoint parse_digits (radix acc : Z) (s : bytes) : option Z :=
  match s with
  | [] => Some acc
  | b :: s' => match digit_val radix b with
               | Some d => parse_digits radix (acc * radix + d) s'
               | None => None
               end
  end.
(** [uN::from_str_radix]: an optional [+], at least one digit, no overflow. *)
Definition from_str_radix (w radix : Z) (s : bytes) : option Z :=
  let s' := match s with b :: r => if (b =? 43) && (0 <? zlen r) then r else s | [] => s end in
  match s' with
  | [] => None
  | _ => match parse_digits radix 0 s' with
         | Some z => if z <? 2 ^ w then Some z else None
         | None => None
         end
  end.
Definition parse_u16 (s : bytes) : option Z := from_str_radix 16 10 s.

(** ** IP addresses *)

Inductive IpAddr : Type :=
| V4 (octets : bytes)      (* 4 bytes *)
| V6 (octets : bytes).     (* 16 bytes *)

Definition dot : Z := 46.
Definition colon : Z := 58.

(** [Parser::read_number]. *)
Fixpoint read_digits (radix : Z) (max : nat) (acc : Z) (n : nat) (s : bytes)
  : option (Z * nat * bytes) :=
  match s with
  | [] => Some (acc, n, [])
  | b :: s' =>
      match digit_val radix b with
      | None => Some (acc, n, s)
      | Some d => if (max <=? n)%nat then None else read_digits radix max (acc * radix + d) (S n) s'
      end
  end.
Definition read_number (radix : Z) (max : nat) (bound : Z) (zero_prefix : bool) (s : bytes)
  : option (Z * bytes) :=
  match read_digits radix max 0 0 s with
  | None => None
  | Some (z, n, s') =>
      if (n =? 0)%nat then None
      else if negb zero_prefix && match s with 48 :: _ => true | _ => false end && (1 <? n)%nat
      then None
      else if z <? bound then Some (z, s') else None
  end.

Definition read_given (c : Z) (s : bytes) : option bytes :=
  match s with b :: s' => if b =? c then Some s' else None | [] => None end.
(** [Parser::read_separator]: the separator comes before every group but the first. *)
Definition read_sep {A} (c : Z) (first : bool) (p : bytes -> option (A * bytes)) (s : bytes)
  : option (A * bytes) :=
  if first then p s else match read_given c s with Some s' => p s' | None => None end.

Definition read_octet (s : bytes) : option (Z * bytes) := read_number 10 3 256 false s.
Definition read_ipv4 (s : bytes) : option (bytes * bytes) :=
  '(a, s) ← read_octet s;
  '(b, s) ← read_sep dot false read_octet s;
  '(c, s) ← read_sep dot false read_octet s;
  '(d, s) ← read_sep dot false read_octet s;
  Some ([a; b; c; d], s).

(** [read_groups]: the groups read, whether they end in an IPv4 part, the rest. *)
Fixpoint read_groups (limit : nat) (first : bool) (s : bytes) : bytes * bool * bytes :=
  match limit with
  | O => ([], false, s)
  | S l =>
    let v4 := if (0 <? l)%nat then read_sep colon first read_ipv4 s else None in
    match v4 with
    | Some ([a; b; c; d], s') => ([a * 256 + b; c * 256 + d], true, s')
    | _ =>
      match read_sep colon first (read_number 16 4 65536 true) s with
      | None => ([], false, s)
      | Some (g, s') => let '(gs, v, s'') := read_groups l false s' in (g :: gs, v, s'')
      end
    end
  end.
Definition segments_to_octets (gs : bytes) : bytes := flat_map (be_encode 2) gs.
Definition read_ipv6 (s : bytes) : option (bytes * bytes) :=
  let '(head, v4, s1) := read_groups 8 true s in
  if (length head =? 8)%nat then Some (segments_to_octets head, s1)
  else if v4 then None
  else
    s2 ← read_given colon s1;
    s3 ← read_given colon s2;
    let limit := (8 - (length head + 1))%nat in
    let '(tail, _, s4) := read_groups limit true s3 in
    Some (segments_to_octets (head ++ replicate (8 - length head - length tail) 0 ++ tail), s4).

Definition all_read {A} (o : option (A * bytes)) : option A :=
  match o with Some (a, []) => Some a | _ => None end.
(** [s.parse::<Ipv4Addr>()] and [s.parse::<IpAddr>()]. *)
Definition parse_ipv4 (s : bytes) : option bytes :=
  if 15 <? zlen s then None else all_read (read_ipv4 s).
Definition parse_ip (s : bytes) : option IpAddr :=
  all_read (match read_ipv4 s with
            | Some (o, r) => Some (V4 o, r)
            | None => match read_ipv6 s with Some (o, r) => Some (V6 o, r) | None => None end
            end).

(** [Display for Ipv4Addr] and [Display for Ipv6Addr]. *)
Fixpoint join (sep : bytes) (ps : list bytes) : bytes :=
  match ps with
  | [] => []
  | [p] => p
  | p :: ps' => p ++ sep ++ join sep ps'
  end.
Definition display_ipv4 (o : bytes) : bytes := join [dot] (map dec o).

Fixpoint to_segments (o : bytes) : bytes :=
  match o with a :: b :: o' => be_decode [a; b] :: to_segments o' | _ => [] end.
Fixpoint longest_zero_run (i : nat) (cur best : nat * nat) (gs : bytes) : nat * nat :=
  match gs with
  | [] => best
  | g :: gs' =>
      if g =? 0 then
        let cur' := ((if (cur.2 =? 0)%nat then i else cur.1), S cur.2) in
        longest_zero_run (S i) cur' (if (best.2 <? cur'.2)%nat then cur' else best) gs'
      else longest_zero_run (S i) (0%nat, 0%nat) best gs'
  end.
Definition display_groups (gs : bytes) : bytes := join [colon] (map hex_lower gs).
Definition display_ipv6 (o : bytes) : bytes :=
  let gs := to_segments o in
  if bool_decide (take 12 o = replicate 10 0 ++ [255; 255])
  then ascii_bytes "::ffff:" ++ display_ipv4 (drop 12 o)
  else
    let '(start, len) := longest_zero_run 0 (0%nat, 0%nat) (0%nat, 0%nat) gs in
    if (1 <? len)%nat
    then display_groups (take start gs) ++ [colon; colon] ++ display_groups (drop (start + len) gs)
    else display_groups gs.

(** ** Checks against std's documented results *)

Example parse_ipv4_ok : parse_ipv4 (ascii_bytes "127.0.0.1") = Some [127; 0; 0; 1].
Proof. reflexivity. Qed.
Example parse_ipv4_octal : parse_ipv4 (ascii_bytes "127.0.0.01") = None.
Proof. reflexivity. Qed.
Example parse_ipv4_big : parse_ipv4 (ascii_bytes "1.2.3.256") = None.
Proof. reflexivity. Qed.
Example parse_ip_v6 :
  parse_ip (ascii_bytes "2001:db8::1") = Some (V6 [0x20; 1; 0xd; 0xb8; 0; 0; 0; 0; 0; 0; 0; 0; 0; 0; 0; 1]).
Proof. reflexivity. Qed.
Example parse_ip_v6_mapped :
  parse_ip (ascii_bytes "::ffff:1.2.3.4") = Some (V6 (replicate 10 0 ++ [255; 255; 1; 2; 3; 4])).
Proof. reflexivity. Qed.
Example display_ipv6_run :
  display_ipv6 [0x20; 1; 0xd; 0xb8; 0; 0; 0; 0; 0; 0; 0; 0; 0; 0; 0; 1] = ascii_bytes "2001:db8::1".
Proof. reflexivity. Qed.
Example trim_spaces : trim (ascii_bytes " a b  ") = ascii_bytes "a b".
Proof. reflexivity. Qed.
Example split_commas : split_on 44 (ascii_bytes "a,,b") = [ascii_bytes "a"; []; ascii_bytes "b"].
Proof. reflexivity. Qed.

(** ** Lemmas *)

Lemma utf8_valid_ascii l : is_ascii l -> utf8_valid l = true.
Proof.
  induction 1 as [|b l Hb Hl IH]; [done|]. cbn.
  destruct (Z.ltb_spec b 128); [done|lia].
Qed.

Lemma utf8_valid_app l1 l2 : utf8_valid l1 = true -> utf8_valid (l1 ++ l2) = utf8_valid l2.
Proof.
  remember (length l1) as n eqn:Hn. revert l1 Hn.
  induction (lt_wf n) as [n _ IH]. intros [|b0 t0] Hn H; [done|]. cbn in H |- *.
  destruct (b0 <? 128); [eapply IH; eauto; cbn in Hn; lia|].
  destruct t0 as [|b1 t1]; [done|]. cbn in H |- *.
  destruct (between 194 223 b0).
  { destruct (cont b1); [|done]. eapply IH; eauto; cbn in Hn; lia. }
  destruct t1 as [|b2 t2]; [done|]. cbn in H |- *.
  destruct (between 224 239 b0).
  { do 2 (apply andb_true_iff in H as [H ?]). rewrite H.
    replace (cont b2) with true by done. eapply IH; eauto; cbn in Hn; lia. }
  destruct t2 as [|b3 t3]; [done|]. cbn in H |- *.
  do 4 (apply andb_true_iff in H as [H ?]).
  rewrite H. replace (cont b2) with true by done. replace (cont b3) with true by done.
  match goal with E : between _ _ b1 = true |- _ => rewrite E end.
  eapply IH; eauto; cbn in Hn; lia.
Qed.

Lemma from_utf8_inv l s : from_utf8 l = Some s -> s = l /\ utf8_valid l = true.
Proof. unfold from_utf8. destruct (utf8_valid l); by inversion 1. Qed.

Lemma starts_with_spec p s : starts_with p s = true <-> exists r, s = p ++ r.
Proof.
  revert s; induction p as [|a p IH]; intros s; cbn; [naive_solver|].
  destruct s as [|b s]; [naive_solver|].
  rewrite andb_true_iff, Z.eqb_eq, IH. naive_solver.
Qed.
Lemma ends_with_spec p s : ends_with p s = true <-> exists r, s = r ++ p.
Proof.
  unfold ends_with. rewrite starts_with_spec. split; intros [r Hr].
  - exists (rev r). apply (f_equal (@rev Z)) in Hr.
    by rewrite rev_involutive, rev_app_distr, rev_involutive in Hr.
  - exists (rev r). by rewrite Hr, rev_app_distr.
Qed.

Lemma split_on_nonempty c s : split_on c s <> [].
Proof. destruct s; cbn; [done|]. by repeat case_match. Qed.
Lemma split_on_app c a b : split_on c (a ++ c :: b) = split_on c a ++ split_on c b.
Proof.
  induction a as [|x a IH]; cbn [app split_on].
  - destruct (split_on c b) eqn:Hb; [by apply split_on_nonempty in Hb|]. by rewrite Z.eqb_refl.
  - rewrite IH. destruct (split_on c a) as [|p ps] eqn:Ha; [by apply split_on_nonempty in Ha|].
    cbn. by destruct (x =? c).
Qed.
Lemma split_on_none c s : c ∉ s -> split_on c s = [s].
Proof.
  induction s as [|b s IH]; [done|]. intros [Hb Hs]%not_elem_of_cons. cbn. rewrite IH by done.
  by destruct (Z.eqb_spec b c); [congruence|].
Qed.

(** Every octet is printed and read back unchanged in front of anything that
    is not a digit. *)
Definition octets : list Z := seqZ 0 256.

Lemma octets_forall (P : Z -> Prop) b : Forall P octets -> is_byte b -> P b.
Proof.
  intros H Hb. rewrite Forall_forall in H. apply H, list_elem_of_In, elem_of_seqZ.
  unfold is_byte in Hb. lia.
Qed.

Definition stops_number (s : bytes) : Prop :=
  match s with [] => True | b :: _ => digit_val 10 b = None end.

Lemma read_digits_app radix max acc n d s z m :
  read_digits radix max acc n d = Some (z, m, []) ->
  match s with [] => True | b :: _ => digit_val radix b = None end ->
  read_digits radix max acc n (d ++ s) = Some (z, m, s).
Proof.
  revert acc n; induction d as [|b d IH]; intros acc n H Hs; cbn in *.
  - simplify_eq. destruct s as [|c s]; [done|]. cbn. by rewrite Hs.
  - destruct (digit_val radix b); [|done]. destruct (max <=? n)%nat; [done|]. by apply IH.
Qed.

Lemma read_octet_app d s z :
  read_octet d = Some (z, []) -> stops_number s -> read_octet (d ++ s) = Some (z, s).
Proof.
  unfold read_octet, read_number. intros H Hs.
  destruct (read_digits 10 3 0 0 d) as [[[z' n] r]|] eqn:Hd; [|done].
  assert (d <> []) by (intros ->; cbn in Hd; simplify_eq; done).
  destruct (n =? 0)%nat eqn:Hn; [done|].
  assert (Hr : r = []) by (repeat case_match; by simplify_eq). subst r.
  rewrite (read_digits_app _ _ _ _ d s z' n Hd Hs), Hn.
  destruct d as [|c d]; [done|]. cbn [app].
  repeat case_match; by simplify_eq.
Qed.

Lemma read_octet_dec b : is_byte b -> read_octet (dec b) = Some (b, []).
Proof.
  intros Hb. assert (Forall (fun z => read_octet (dec z) = Some (z, [])) octets) as H.
  { apply (bool_decide_unpack _). vm_compute. exact I. }
  by apply (octets_forall _ b H).
Qed.

Lemma dec_octet_length b : is_byte b -> (1 <= length (dec b) <= 3)%nat.
Proof.
  intros Hb. assert (Forall (fun z => (1 <= length (dec z) <= 3)%nat) octets) as H.
  { apply (bool_decide_unpack _). vm_compute. exact I. }
  by apply (octets_forall _ b H).
Qed.

Lemma display_ipv4_4 a b c d :
  display_ipv4 [a; b; c; d] = dec a ++ [dot] ++ dec b ++ [dot] ++ dec c ++ [dot] ++ dec d.
Proof. done. Qed.

Lemma parse_display_ipv4 a b c d :
  wf_bytes [a; b; c; d] -> parse_ipv4 (display_ipv4 [a; b; c; d]) = Some [a; b; c; d].
Proof.
  unfold wf_bytes. rewrite !Forall_cons_iff. intros (Ha & Hb & Hc & Hd & _). unfold parse_ipv4.
  assert (zlen (display_ipv4 [a; b; c; d]) <= 15) as Hlen.
  { rewrite display_ipv4_4. unfold zlen. rewrite !length_app. cbn [length].
    pose proof (dec_octet_length a Ha). pose proof (dec_octet_length b Hb).
    pose proof (dec_octet_length c Hc). pose proof (dec_octet_length d Hd). lia. }
  destruct (Z.ltb_spec 15 (zlen (display_ipv4 [a; b; c; d]))); [lia|].
  rewrite display_ipv4_4. unfold read_ipv4.
  rewrite (read_octet_app (dec a) _ a) by (done || by apply read_octet_dec).
  cbn [mbind option_bind read_sep read_given app].
  change (dot =? dot) with true. cbv iota.
  rewrite (read_octet_app (dec b) _ b) by (done || by apply read_octet_dec).
  cbn [mbind option_bind read_sep read_given app].
  change (dot =? dot) with true. cbv iota.
  rewrite (read_octet_app (dec c) _ c) by (done || by apply read_octet_dec).
  cbn [mbind option_bind read_sep read_given app].
  change (dot =? dot) with true. cbv iota.
  rewrite read_octet_dec by done. done.
Qed.

Lemma to_ascii_lowercase_idemp s : to_ascii_lowercase (to_ascii_lowercase s) = to_ascii_lowercase s.
Proof.
  unfold to_ascii_lowercase. rewrite map_map. apply map_ext. intros b. unfold between.
  repeat case_match; try done; lia.
Qed.
