(* ===== verification/Crates.v ===== *)
(** * Third-party crates

    The operations of external crates the code calls, as classes of operations,
    and what their documentation promises, as classes of laws.  Theorems take
    both as parameters.  The instances at the end are concrete functions that
    satisfy the laws; only witnesses use them. *)
From S2P Require Import Prelude RustStd.

(** ** hex *)

Class Hex := {
  hex_encode : bytes -> bytes;            (* hex::encode *)
  hex_decode : bytes -> option bytes      (* hex::decode *)
}.
Class HexLaws (h : Hex) : Prop := {
  hex_encode_digits l :
    wf_bytes l -> hex_encode l = flat_map (fun b => [digit_char (b / 16); digit_char (b mod 16)]) l;
  hex_decode_encode l : wf_bytes l -> hex_decode (hex_encode l) = Some l;
  hex_decode_sound s l : hex_decode s = Some l -> wf_bytes l /\ length s = (2 * length l)%nat
}.

(** ** x25519, HKDF-SHA256, AEADs, HMAC *)

(** [x25519_dalek]: a secret's public key, and the shared secret. *)
Class X25519 := {
  public_key : bytes -> bytes;
  diffie_hellman : bytes -> bytes -> bytes
}.
Class X25519Laws (x : X25519) : Prop := {
  dh_agree a b : diffie_hellman a (public_key b) = diffie_hellman b (public_key a);
  public_key_length a : length a = 32%nat -> length (public_key a) = 32%nat
}.

(** [Hkdf::<Sha256>::new(Some(salt), ikm)] then [expand(info, okm)] into a
    buffer of [len] bytes; [None] for an output that is too long. *)
Class Hkdf := { hkdf_expand : bytes -> bytes -> bytes -> nat -> option bytes }.
Class HkdfLaws (h : Hkdf) : Prop := {
  hkdf_expand_ok salt ikm info len :
    (len <= 255 * 32)%nat -> exists okm, hkdf_expand salt ikm info len = Some okm /\ length okm = len
}.

(** An AEAD with a detached tag: [seal key nonce aad plaintext] is the pair of
    ciphertext and tag; [open] checks the tag. *)
Class Aead := {
  seal : bytes -> bytes -> bytes -> bytes -> bytes * bytes;
  open_sealed : bytes -> bytes -> bytes -> bytes -> bytes -> option bytes
}.
Class AeadLaws (a : Aead) : Prop := {
  open_seal k n ad p : open_sealed k n ad (seal k n ad p).1 (seal k n ad p).2 = Some p;
  seal_length k n ad p : length (seal k n ad p).1 = length p;
  seal_tag_length k n ad p : length (seal k n ad p).2 = 16%nat;
  open_length k n ad c t p : open_sealed k n ad c t = Some p -> length p = length c;
  seal_wf k n ad p : wf_bytes p -> wf_bytes (seal k n ad p).1 /\ wf_bytes (seal k n ad p).2;
  open_wf k n ad c t p : open_sealed k n ad c t = Some p -> wf_bytes c -> wf_bytes p
}.

(** HMAC-SHA256 (32 bytes) and HMAC-SHA512 (64 bytes). *)
Class Hmac := { hmac_sha256 : bytes -> bytes -> bytes; hmac_sha512 : bytes -> bytes -> bytes }.
Class HmacLaws (h : Hmac) : Prop := {
  hmac_sha256_length k m : length (hmac_sha256 k m) = 32%nat;
  hmac_sha512_length k m : length (hmac_sha512 k m) = 64%nat
}.

(** ** Concrete instances for witnesses *)

Definition hex_encode_std (l : bytes) : bytes :=
  flat_map (fun b => [digit_char (b / 16); digit_char (b mod 16)]) l.
Fixpoint hex_decode_std (s : bytes) : option bytes :=
  match s with
  | [] => Some []
  | a :: b :: s' =>
      match digit_val 16 a, digit_val 16 b, hex_decode_std s' with
      | Some x, Some y, Some l => Some (x * 16 + y :: l)
      | _, _, _ => None
      end
  | _ => None
  end.
Definition std_hex : Hex := {| hex_encode := hex_encode_std; hex_decode := hex_decode_std |}.

Definition toy_x25519 : X25519 :=
  {| public_key := fun a => a; diffie_hellman := fun a b => zip_with (fun x y => (x + y) mod 256) a b |}.
Definition toy_hkdf : Hkdf :=
  {| hkdf_expand := fun salt ikm info len =>
       Some (take len (ikm ++ salt ++ info ++ replicate len 7)) |}.
Definition toy_tag (k n ad p : bytes) : bytes :=
  take 16 (be_encode 4 (be_decode k + be_decode p) ++ be_encode 12 (be_decode n + be_decode ad)).
Definition toy_aead : Aead :=
  {| seal := fun k n ad p => (p, toy_tag k n ad p);
     open_sealed := fun k n ad c t => if bool_decide (t = toy_tag k n ad c) then Some c else None |}.
Definition toy_hmac : Hmac :=
  {| hmac_sha256 := fun k m => be_encode 32 (be_decode (k ++ m));
     hmac_sha512 := fun k m => be_encode 64 (be_decode (k ++ m)) |}.

(** ** The instances satisfy the laws *)

Lemma digit_val_char d : 0 <= d < 16 -> digit_val 16 (digit_char d) = Some d.
Proof.
  intros. unfold digit_val, digit_char, between.
  destruct (Z.ltb_spec d 10); repeat case_match; try lia; f_equal; lia.
Qed.
Lemma digit_val_bound b d : digit_val 16 b = Some d -> 0 <= d < 16.
Proof. unfold digit_val, between. intros H. repeat case_match; simplify_eq; lia. Qed.

#[export] Instance std_hex_laws : HexLaws std_hex.
Proof.
  split.
  - done.
  - intros l H. induction H as [|b l Hb Hl IH]; [done|]. cbn. unfold is_byte in Hb.
    pose proof (Z.mod_pos_bound b 16 ltac:(lia)). pose proof (Z.div_mod b 16 ltac:(lia)).
    rewrite !digit_val_char by lia. cbn in IH. unfold hex_encode_std in IH. rewrite IH.
    do 2 f_equal. lia.
  - intros s. cbn. remember (length s) as n eqn:Hn. revert s Hn.
    induction (lt_wf n) as [n _ IH]. intros [|a [|b s]] Hn l; cbn; intros H; simplify_eq.
    { split; [constructor|done]. }
    destruct (digit_val 16 a) as [x|] eqn:Hx; [|done]. destruct (digit_val 16 b) as [y|] eqn:Hy; [|done].
    destruct (hex_decode_std s) as [l'|] eqn:Hs; [|done]. simplify_eq.
    apply digit_val_bound in Hx, Hy. destruct (IH (length s) ltac:(cbn; lia) s eq_refl l' Hs).
    split; [|cbn; lia]. apply wf_bytes_cons; [unfold is_byte; lia|done].
Qed.

#[export] Instance toy_x25519_laws : X25519Laws toy_x25519.
Proof.
  split; [|done]. intros a b. cbn. revert b; induction a as [|x a IH]; intros [|y b]; try done.
  cbn. rewrite IH. do 2 f_equal. lia.
Qed.
#[export] Instance toy_hkdf_laws : HkdfLaws toy_hkdf.
Proof.
  split. intros salt ikm info len _. eexists; split; [done|].
  rewrite length_take, !length_app, length_replicate. lia.
Qed.
#[export] Instance toy_aead_laws : AeadLaws toy_aead.
Proof.
  split; unfold toy_aead; cbn [seal open_sealed fst snd]; intros.
  - by rewrite bool_decide_eq_true_2.
  - done.
  - unfold toy_tag. by rewrite length_take, length_app, !be_encode_length.
  - case_bool_decide; by simplify_eq.
  - unfold toy_tag. auto with orcax.
  - case_bool_decide; by simplify_eq.
Qed.
#[export] Instance toy_hmac_laws : HmacLaws toy_hmac.
Proof. split; intros; apply be_encode_length. Qed.
