(* ===== verification/Uuid.v ===== *)
(** * UUIDs as text

    The canonical 8-4-4-4-12 form the server side prints (vless.rs and
    handshake.rs contain the same [format!]) and the client's reader
    [parse_uuid] (client/src/main.rs). *)
From S2P Require Import Prelude RustStd Crates.

Definition hyphen : Z := 45.

(** [format!("{}-{}-{}-{}-{}", &hex[0..8], ..., &hex[20..32])] over [hex::encode]. *)
Definition format_uuid {E} `{Hex} (uuid_bytes : bytes) : result E bytes :=
  let uuid_hex := hex_encode uuid_bytes in
  p1 ← slice uuid_hex 0 8;
  p2 ← slice uuid_hex 8 12;
  p3 ← slice uuid_hex 12 16;
  p4 ← slice uuid_hex 16 20;
  p5 ← slice uuid_hex 20 32;
  Ok (join [hyphen] [p1; p2; p3; p4; p5]).

(** The loop of [parse_uuid]: byte [i] is read from [hex[2i..2i+2]]. *)
Fixpoint parse_uuid_loop {E} (hex : bytes) (i n : nat) : result E bytes :=
  match n with
  | O => Ok []
  | S n' =>
      s ← slice hex (i * 2) (i * 2 + 2);
      rest ← parse_uuid_loop hex (S i) n';
      Ok (default 0 (from_str_radix 8 16 s) :: rest)
  end.

(** [parse_uuid]. *)
Definition parse_uuid {E} (s : bytes) : result E bytes :=
  let hex := List.filter is_ascii_hexdigit s in
  parse_uuid_loop hex 0 16.

(** ** Lemmas *)

Section with_hex.
Context `{HL : !HexLaws H}.

Lemma hex_encode_length l : wf_bytes l -> length (hex_encode l) = (2 * length l)%nat.
Proof.
  intros Hl. rewrite hex_encode_digits by done. clear Hl.
  induction l as [|b l IH]; [done|]. cbn in IH |- *. rewrite IH. lia.
Qed.

Lemma format_uuid_ok {E} b :
  wf_bytes b -> length b = 16%nat ->
  let h := hex_encode b in
  format_uuid (E:=E) b =
    Ok (join [hyphen] [take 8 h; take 4 (drop 8 h); take 4 (drop 12 h); take 4 (drop 16 h);
                       take 12 (drop 20 h)]).
Proof.
  intros Hb Hl h. pose proof (hex_encode_length b Hb) as Hh. rewrite Hl in Hh. fold h in Hh.
  unfold format_uuid. fold h.
  rewrite !slice_ok by lia. reflexivity.
Qed.

Lemma format_uuid_no_panic {E} b :
  wf_bytes b -> length b = 16%nat -> no_panic (format_uuid (E:=E) b).
Proof. intros. by rewrite format_uuid_ok. Qed.
Lemma format_uuid_not_err {E} b (e : E) :
  wf_bytes b -> length b = 16%nat -> format_uuid b <> Err e.
Proof. intros. by rewrite format_uuid_ok. Qed.

Lemma digit_char_hex d : 0 <= d < 16 -> is_ascii_hexdigit (digit_char d) = true.
Proof.
  intros. unfold is_ascii_hexdigit, digit_char, between. destruct (Z.ltb_spec d 10); lia.
Qed.

Lemma hex_encode_hexdigits b :
  wf_bytes b -> Forall (fun c => is_ascii_hexdigit c = true) (hex_encode b).
Proof.
  intros Hb. rewrite hex_encode_digits by done.
  induction Hb as [|x b Hx Hb IH]; [constructor|]. unfold is_byte in Hx. cbn.
  pose proof (Z.mod_pos_bound x 16 ltac:(lia)). pose proof (Z.div_mod x 16 ltac:(lia)).
  repeat constructor; [apply digit_char_hex; lia..|done].
Qed.

Lemma filter_hexdigits l :
  Forall (fun c => is_ascii_hexdigit c = true) l -> List.filter is_ascii_hexdigit l = l.
Proof. induction 1 as [|c l Hc Hl IH]; [done|]. cbn. by rewrite Hc, IH. Qed.

Lemma filter_hyphen l : List.filter is_ascii_hexdigit (hyphen :: l) = List.filter is_ascii_hexdigit l.
Proof. done. Qed.

Lemma from_str_radix_hex_byte b :
  is_byte b -> from_str_radix 8 16 [digit_char (b / 16); digit_char (b mod 16)] = Some b.
Proof.
  intros Hb. assert (Forall (fun b => from_str_radix 8 16 [digit_char (b / 16); digit_char (b mod 16)] = Some b) octets) as Ho.
  { apply (bool_decide_unpack _). vm_compute. exact I. }
  by apply (octets_forall _ b Ho).
Qed.

Lemma parse_uuid_loop_hex {E} pre b i :
  wf_bytes b -> length pre = (i * 2)%nat ->
  parse_uuid_loop (E:=E) (pre ++ hex_encode b) i (length b) = Ok b.
Proof.
  intros Hb. rewrite (hex_encode_digits b Hb). revert pre i.
  induction Hb as [|x b Hx Hb IH]; intros pre i Hl; [done|].
  cbn [length parse_uuid_loop flat_map]. rewrite slice_ok by (rewrite !length_app; cbn; lia).
  replace (i * 2 + 2 - i * 2)%nat with 2%nat by lia. rewrite <- Hl, drop_app_length.
  cbn [mbind result_bind]. rewrite app_assoc, IH by (rewrite length_app; cbn; lia).
  cbn [mbind result_bind]. cbn [take app]. by rewrite from_str_radix_hex_byte by done.
Qed.

Lemma parse_format_uuid {E} b s :
  wf_bytes b -> length b = 16%nat -> format_uuid (E:=E) b = Ok s -> parse_uuid (E:=E) s = Ok b.
Proof.
  intros Hb Hl Hs. rewrite format_uuid_ok in Hs by done. injection Hs as <-.
  unfold parse_uuid. cbn [join app]. repeat rewrite ?List.filter_app, ?filter_hyphen.
  pose proof (hex_encode_hexdigits b Hb) as Hd.
  pose proof (hex_encode_length b Hb) as Hh. rewrite Hl in Hh.
  set (h := hex_encode b) in *.
  rewrite !filter_hexdigits by (repeat first [apply Forall_take | apply Forall_drop]; done).
  assert (take 8 h ++ take 4 (drop 8 h) ++ take 4 (drop 12 h) ++ take 4 (drop 16 h) ++ take 12 (drop 20 h) = h) as ->.
  { rewrite (app_assoc (take 8 h)), take_take_drop, (app_assoc (take (8 + 4) h)).
    rewrite (take_take_drop h (8 + 4)), (app_assoc (take _ h)), (take_take_drop h (8 + 4 + 4)).
    rewrite (take_take_drop h (8 + 4 + 4 + 4)). apply take_ge. lia. }
  rewrite <- Hl. by apply (parse_uuid_loop_hex []).
Qed.
End with_hex.

Lemma parse_uuid_loop_outcome {E} hex i n :
  if ((i + n) * 2 <=? length hex)%nat || (n =? 0)%nat
  then exists b, parse_uuid_loop (E:=E) hex i n = Ok b /\ length b = n
  else parse_uuid_loop (E:=E) hex i n = Panic.
Proof.
  revert i; induction n as [|n IH]; intros i; cbn [parse_uuid_loop].
  { rewrite orb_true_r. by exists []. }
  specialize (IH (S i)). rewrite orb_false_r.
  destruct (Nat.leb_spec ((i + S n) * 2) (length hex)) as [Hle|Hgt].
  - rewrite slice_ok by lia. cbn [mbind result_bind].
    destruct (Nat.leb_spec ((S i + n) * 2) (length hex)); [|lia].
    destruct IH as (b & -> & <-). eexists. by split.
  - destruct (Nat.leb_spec ((S i + n) * 2) (length hex)); [lia|].
    unfold slice. destruct (Nat.leb_spec (i * 2 + 2) (length hex)).
    + rewrite orb_false_l in IH. destruct (Nat.eqb_spec n 0); [lia|].
      destruct (i * 2 <=? i * 2 + 2)%nat; [|done]. cbn [andb mbind result_bind]. by rewrite IH.
    + by rewrite andb_false_r.
Qed.

(** ** Properties *)

(** The server's canonical UUID text and the client's [parse_uuid] are inverse: for
    every 16-byte UUID the server-side [format!] does not panic, produces the lower-case
    8-4-4-4-12 form (36 characters, hyphens at 8, 13, 18 and 23), and the client reads the
    same 16 bytes back from it. *)
Theorem uuid_text_roundtrip {E} `{HL : !HexLaws H} (b : bytes) :
  wf_bytes b -> length b = 16%nat ->
  exists s, format_uuid (E:=E) b = Ok s /\ length s = 36%nat /\
    (forall i, i ∈ [8; 13; 18; 23]%nat -> s !! i = Some hyphen) /\
    parse_uuid (E:=E) s = Ok b.
Proof.
  intros Hb Hl. eexists. split; [by apply format_uuid_ok|].
  pose proof (hex_encode_length b Hb) as Hh. rewrite Hl in Hh.
  split; [|split].
  - cbn [join]. repeat rewrite ?length_app, ?length_take, ?length_drop. rewrite Hh. done.
  - set (h := hex_encode b) in *. do 32 (destruct h as [|? h]; [done|]). destruct h; [|done].
    intros i Hi. rewrite !list_elem_of_In in Hi. by destruct Hi as [<-|[<-|[<-|[<-|[]]]]].
  - eapply parse_format_uuid; [done|done|]. by apply format_uuid_ok.
Qed.

Lemma uuid_text_roundtrip_witness :
  exists s, format_uuid (E:=unit) (H:=std_hex) (seqZ 240 16) = Ok s /\ length s = 36%nat /\
    (forall i, i ∈ [8; 13; 18; 23]%nat -> s !! i = Some hyphen) /\
    parse_uuid (E:=unit) s = Ok (seqZ 240 16).
Proof.
  apply (uuid_text_roundtrip (HL:=std_hex_laws)); [|done]. by apply (bool_decide_unpack _).
Defined.

(** The client's [parse_uuid] panics exactly when its argument holds fewer than 32
    hexadecimal digits; otherwise it yields 16 bytes, whatever else the argument contains. *)
Theorem parse_uuid_panics_iff {E} (s : bytes) :
  let hex := List.filter is_ascii_hexdigit s in
  (parse_uuid (E:=E) s = Panic <-> (length hex < 32)%nat) /\
  ((32 <= length hex)%nat <-> exists b, parse_uuid (E:=E) s = Ok b /\ length b = 16%nat).
Proof.
  intros hex. unfold parse_uuid. fold hex.
  pose proof (parse_uuid_loop_outcome (E:=E) hex 0 16) as H. cbn [Nat.add Nat.eqb] in H.
  rewrite orb_false_r in H. destruct (Nat.leb_spec (16 * 2) (length hex)).
  - destruct H as (b & -> & Hb). split; split; intros; try done; try lia. by exists b.
  - rewrite H. split; split; intros; try done; try lia. by destruct H1 as (? & ? & ?).
Qed.
