(* ===== verification/Address.v ===== *)
(** * Target addresses (orcax/protocol/src/address.rs)

    [Address], [TargetAddr] and its parser and printers, and the serialisation
    of a target that [Frame::stream_open] and [Frame::udp_datagram] inline. *)
From S2P Require Import Prelude RustStd.

(** ** Data *)

Inductive Address : Type :=
| IPv4 (octets : bytes)      (* Ipv4Addr: 4 bytes *)
| Domain (name : bytes)      (* String *)
| IPv6 (octets : bytes).     (* Ipv6Addr: 16 bytes *)

Record TargetAddr : Type := { addr : Address; port : Z }.

Inductive addr_error : Type :=
| AddressTooShort (n : nat)
| TruncatedIPv4
| TruncatedDomainLength
| TruncatedDomain
| InvalidUtf8
| TruncatedIPv6
| UnknownAddressType (t : Z).

#[export] Instance Address_eq_dec : EqDecision Address.
Proof. solve_decision. Defined.
#[export] Instance TargetAddr_eq_dec : EqDecision TargetAddr.
Proof. solve_decision. Defined.

(** ** Operations *)

(** [TargetAddr::parse]. *)
Definition parse (data : bytes) : result addr_error (TargetAddr * nat) :=
  _ ← ensure (4 <=? length data)%nat (AddressTooShort (length data));
  d0 ← idx data 0;
  d1 ← idx data 1;
  let port := be_decode [d0; d1] in
  addr_type ← idx data 2;
  '(addr, consumed) ←
    (if addr_type =? 1 then
       _ ← ensure (7 <=? length data)%nat TruncatedIPv4;
       ip ← slice data 3 7;
       Ok (IPv4 ip, 7%nat)
     else if addr_type =? 2 then
       _ ← ensure (4 <=? length data)%nat TruncatedDomainLength;
       d3 ← idx data 3;
       let domain_len := Z.to_nat d3 in
       _ ← ensure (4 + domain_len <=? length data)%nat TruncatedDomain;
       raw ← slice data 4 (4 + domain_len);
       domain ← ok_or (from_utf8 raw) InvalidUtf8;
       Ok (Domain domain, (4 + domain_len)%nat)
     else if addr_type =? 3 then
       _ ← ensure (19 <=? length data)%nat TruncatedIPv6;
       octets ← slice data 3 19;
       Ok (IPv6 octets, 19%nat)
     else Err (UnknownAddressType addr_type));
  Ok ({| addr := addr; port := port |}, consumed).

(** [TargetAddr::to_socket_string]. *)
Definition to_socket_string (t : TargetAddr) : bytes :=
  match addr t with
  | IPv4 ip => display_ipv4 ip ++ [colon] ++ dec (port t)
  | Domain d => d ++ [colon] ++ dec (port t)
  | IPv6 ip => ascii_bytes "[" ++ display_ipv6 ip ++ ascii_bytes "]:" ++ dec (port t)
  end.

(** [TargetAddr::to_socket_addr]. *)
Definition to_socket_addr (t : TargetAddr) : option (IpAddr * Z) :=
  match addr t with
  | IPv4 ip => Some (V4 ip, port t)
  | IPv6 ip => Some (V6 ip, port t)
  | Domain _ => None
  end.

(** The address block [Frame::stream_open] and [Frame::udp_datagram] push:
    port, type byte, address.  The domain length is cast [as u8]. *)
Definition push_target (t : TargetAddr) : bytes :=
  be_encode 2 (port t) ++
  match addr t with
  | IPv4 ip => 1 :: ip
  | Domain d => 2 :: u8 (zlen d) :: d
  | IPv6 ip => 3 :: ip
  end.

(** ** Well-formed targets: what the Rust types guarantee, and a domain whose
    length fits the length byte. *)
Definition wf_addr (a : Address) : Prop :=
  match a with
  | IPv4 ip => wf_bytes ip /\ length ip = 4%nat
  | Domain d => wf_bytes d /\ utf8_valid d = true /\ zlen d < 256
  | IPv6 ip => wf_bytes ip /\ length ip = 16%nat
  end.
Definition wf_target (t : TargetAddr) : Prop := wf_addr (addr t) /\ 0 <= port t < 65536.

#[export] Instance wf_addr_dec a : Decision (wf_addr a).
Proof. destruct a; unfold wf_addr; apply _. Defined.
#[export] Instance wf_target_dec t : Decision (wf_target t).
Proof. unfold wf_target; apply _. Defined.

(** ** Lemmas *)

Lemma parse_no_panic_aux data : wf_bytes data -> no_panic (parse data).
Proof.
  intros Hwf. unfold parse. solve_no_panic.
Qed.

Lemma push_target_length t :
  wf_target t ->
  length (push_target t) =
    match addr t with IPv4 _ => 7 | Domain d => 4 + length d | IPv6 _ => 19 end%nat.
Proof.
  intros [Ha _]. unfold push_target. rewrite length_app, be_encode_length.
  destruct (addr t); destruct Ha as [_ Ha]; cbn; lia.
Qed.

Lemma push_target_wf t : wf_target t -> wf_bytes (push_target t).
Proof.
  intros [Ha _]. apply wf_bytes_app_2; [apply be_encode_wf|].
  destruct (addr t); destruct Ha as [Hb Ha]; repeat apply wf_bytes_cons;
    unfold is_byte; auto; try lia. apply u8_byte.
Qed.

Lemma be_encode_2 z : be_encode 2 z = [(z / 256) mod 256; z mod 256].
Proof. done. Qed.

Lemma parse_push t rest :
  wf_target t -> parse (push_target t ++ rest) = Ok (t, length (push_target t)).
Proof.
  intros Hwf. rewrite push_target_length by done. destruct Hwf as [Ha Hp].
  destruct t as [a p]. cbn [addr port] in *.
  assert (Hport : be_decode [(p / 256) mod 256; p mod 256] = p).
  { rewrite <- be_encode_2. by apply be_decode_encode_2. }
  unfold push_target. cbn [addr port]. rewrite be_encode_2. unfold parse.
  destruct a as [ip|d|ip].
  - destruct Ha as [_ Hl]. destruct ip as [|a [|b [|c [|e [|? ?]]]]]; try done.
    cbn -[be_decode]. by rewrite Hport.
  - destruct Ha as (_ & Hu & Hl). cbn -[be_decode Nat.leb slice]. rewrite Hport.
    rewrite u8_small by (unfold zlen in *; lia).
    unfold zlen. rewrite Nat2Z.id, ensure_true.
    2: { cbn -[Nat.leb]. rewrite length_app. apply Nat.leb_le. lia. }
    cbn -[be_decode Nat.leb slice]. rewrite slice_ok.
    2: { cbn. rewrite length_app. lia. }
    cbn -[be_decode take]. rewrite Nat.sub_0_r, drop_0, take_app_length.
    unfold from_utf8. rewrite Hu. done.
  - destruct Ha as [_ Hl]. do 16 (destruct ip as [|? ip]; [done|]). destruct ip; [|done].
    cbn -[be_decode]. by rewrite Hport.
Qed.

Lemma port_bytes d0 d1 : is_byte d0 -> is_byte d1 -> be_encode 2 (be_decode [d0; d1]) = [d0; d1].
Proof. intros. apply (be_encode_decode [d0; d1]). auto with orcax. Qed.

Lemma slice_cons4 {E} d0 d1 d2 d3 (rest : bytes) n :
  (n <= length rest)%nat -> slice (E:=E) (d0 :: d1 :: d2 :: d3 :: rest) 4 (4 + n) = Ok (take n rest).
Proof.
  intros. rewrite slice_ok by (cbn; lia). replace (4 + n - 4)%nat with n by lia. done.
Qed.

(** What [parse] accepts, by address type. *)
Lemma parse_cases d0 d1 d2 d3 rest t n :
  parse (d0 :: d1 :: d2 :: d3 :: rest) = Ok (t, n) ->
  port t = be_decode [d0; d1] /\
  ((d2 = 1 /\ n = 7%nat /\ (3 <= length rest)%nat /\ addr t = IPv4 (d3 :: take 3 rest))
   \/ (d2 = 2 /\ n = (4 + Z.to_nat d3)%nat /\ (Z.to_nat d3 <= length rest)%nat /\
       utf8_valid (take (Z.to_nat d3) rest) = true /\ addr t = Domain (take (Z.to_nat d3) rest))
   \/ (d2 = 3 /\ n = 19%nat /\ (15 <= length rest)%nat /\ addr t = IPv6 (d3 :: take 15 rest))).
Proof.
  unfold parse. intros H. inv_ok. cbn [idx lookup list_lookup unwrap] in *. inv_ok.
  destruct a3 as [ad k]. inv_ok. cbn [port addr]. split; [done|].
  cbn [length] in *.
  destruct (Z.eqb_spec a2 1); [left|destruct (Z.eqb_spec a2 2); [right; left|
    destruct (Z.eqb_spec a2 3); [right; right|done]]]; subst; inv_ok;
    repeat match goal with
    | H : slice _ 4 _ = Ok _ |- _ => rewrite slice_cons4 in H by lia
    | H : slice _ 3 _ = Ok _ |- _ => rewrite slice_ok in H by (cbn; lia)
    | H : from_utf8 _ = Some _ |- _ => apply from_utf8_inv in H as [-> ?]
    end; inv_ok; split_and!; auto; lia.
Qed.

Lemma parse_ok_inv data t n :
  wf_bytes data -> parse data = Ok (t, n) ->
  wf_target t /\ (n <= length data)%nat /\ take n data = push_target t.
Proof.
  intros Hwf H.
  destruct data as [|d0 [|d1 [|d2 [|d3 rest]]]]; try (unfold parse in H; inv_ok; cbn in *; lia).
  unfold wf_bytes in Hwf. rewrite !Forall_cons_iff in Hwf. destruct Hwf as (Hb0 & Hb1 & _ & Hb3 & Hr).
  apply parse_cases in H as [Hp Hc].
  pose proof (port_bytes d0 d1 Hb0 Hb1) as Hport. rewrite <- Hp in Hport.
  assert (0 <= port t < 65536) as Hpb.
  { rewrite Hp. apply (be_decode_bound [d0; d1]). auto with orcax. }
  unfold wf_target, push_target. rewrite Hport. unfold is_byte in Hb3.
  destruct Hc as [(-> & -> & Hl & ->)|[(-> & -> & Hl & Hu & ->)|(-> & -> & Hl & ->)]];
    cbn [wf_addr length app take]; split_and!; try done; try lia;
    try (apply wf_bytes_cons; [done|]); auto with orcax;
    rewrite ?length_take_le by lia; try lia.
  - unfold zlen. rewrite length_take. lia.
  - replace (zlen (take (Z.to_nat d3) rest)) with d3 by (unfold zlen; rewrite length_take; lia).
    by rewrite u8_small by lia.
Qed.

(** ** Properties *)

(** [TargetAddr::parse] never panics, and on any byte string it accepts exactly the
    encodings of well-formed targets: it returns [(t, n)] if and only if the input starts
    with the [n]-byte encoding of [t].  Parsing is therefore the inverse of the address
    blocks the frame builders write, whatever payload follows. *)
Theorem parse_exact (data : bytes) (t : TargetAddr) (n : nat) :
  wf_bytes data ->
  no_panic (parse data) /\
  (parse data = Ok (t, n) <->
   wf_target t /\ exists rest, data = push_target t ++ rest /\ n = length (push_target t)).
Proof.
  intros Hwf. split; [by apply parse_no_panic_aux|]. split.
  - intros H. apply parse_ok_inv in H as (Ht & Hn & Htake); [|done]. split; [done|].
    exists (drop n data). rewrite <- Htake, take_drop, length_take. split; [done|lia].
  - intros (Ht & rest & -> & ->). by apply parse_push.
Qed.

Definition ex_target : TargetAddr := {| addr := Domain (ascii_bytes "example.com"); port := 443 |}.

Lemma parse_exact_witness :
  parse (push_target ex_target ++ [71; 69; 84]) = Ok (ex_target, 15%nat).
Proof.
  apply (parse_exact (push_target ex_target ++ [71; 69; 84]) ex_target 15).
  - by apply (bool_decide_unpack _).
  - split; [by apply (bool_decide_unpack _)|]. exists [71; 69; 84]. done.
Defined.
