(* ===== verification/Vless.v ===== *)
(** * VLESS v0 requests (orcax/protocol/src/vless.rs)

    [Command], [VlessRequest], [parse_request] over a stream, the two-byte
    response, FPv1 detection.  [vless_packet] is the request a client sends,
    in the layout the source documents. *)
From S2P Require Import Prelude Stream RustStd Crates Uuid Address.

(** ** Data *)

Definition MAX_ADDONS_LEN : nat := 256.

Inductive Command : Type := Tcp | Udp | Mux.
#[export] Instance Command_eq_dec : EqDecision Command.
Proof. solve_decision. Defined.

Inductive vless_error : Type :=
| ShortHeader
| UnsupportedVersion (v : Z)
| AddonsTooLarge (n : nat)
| ShortAddons
| MissingCommand
| UnsupportedCommand (b : Z)
| ReadFailed (e : io_error)
| TruncatedAddress
| BadAddress (e : addr_error).

Record VlessRequest : Type := {
  uuid : bytes;
  uuid_bytes : bytes;
  command : Command;
  target : option TargetAddr;
  addons : bytes;
  initial_payload : bytes
}.

(** ** Operations *)

(** [Command::from_byte] and [command as u8]. *)
Definition command_from_byte (b : Z) : result vless_error Command :=
  if b =? 1 then Ok Tcp else if b =? 2 then Ok Udp else if b =? 3 then Ok Mux
  else Err (UnsupportedCommand b).
Definition command_byte (c : Command) : Z := match c with Tcp => 1 | Udp => 2 | Mux => 3 end.

(** [parse_request]. *)
Definition parse_request `{Hex} : Io vless_error VlessRequest :=
  hdr ← io_map_err (fun _ => ShortHeader) (read_exact 18);
  v ← lift (idx hdr 0);
  _ ← lift (ensure (v =? 0) (UnsupportedVersion v));
  uuid_bytes ← lift (slice hdr 1 17);
  uuid ← lift (format_uuid uuid_bytes);
  alen ← lift (idx hdr 17);
  let addons_len := Z.to_nat alen in
  _ ← lift (ensure (addons_len <=? MAX_ADDONS_LEN)%nat (AddonsTooLarge addons_len));
  addons ← (if (0 <? addons_len)%nat
            then io_map_err (fun _ => ShortAddons) (read_exact addons_len)
            else mret []);
  cmd_buf ← io_map_err (fun _ => MissingCommand) (read_exact 1);
  c ← lift (idx cmd_buf 0);
  command ← lift (command_from_byte c);
  rest ← io_map_err ReadFailed (read (Z.to_nat 16384));
  _ ← lift (ensure (negb ((length rest <? 3)%nat && negb (bool_decide (command = Mux))))
                   TruncatedAddress);
  '(target, initial_payload) ←
    (if bool_decide (command = Mux) then mret (None, rest)
     else
       '(a, consumed) ← lift (map_err BadAddress (parse rest));
       payload ← lift (slice rest consumed (length rest));
       mret (Some a, payload));
  mret {| uuid := uuid; uuid_bytes := uuid_bytes; command := command; target := target;
          addons := addons; initial_payload := initial_payload |}.

(** [create_response]. *)
Definition create_response : bytes := [0; 0].

(** [is_fpv1]. *)
Definition is_fpv1 (addons : bytes) : bool :=
  match addons with a :: b :: _ => (a =? 0xF0) && (b =? 0x99) | _ => false end.

(** ** The request a client sends: preamble, then the address block. *)
Definition vless_preamble (uuid addons : bytes) (c : Command) : bytes :=
  [0] ++ uuid ++ [zlen addons] ++ addons ++ [command_byte c].

(** ** Lemmas *)

Lemma command_from_byte_byte c : command_from_byte (command_byte c) = Ok c.
Proof. by destruct c. Qed.


(** The part of [parse_request] before the address: a clean prefix of the
    stream that holds the preamble is read whole, in whatever pieces. *)
Definition after_preamble `{Hex} (u ad : bytes) (c : Command) : Io vless_error VlessRequest :=
  uuid ← lift (format_uuid u);
  rest ← io_map_err ReadFailed (read (Z.to_nat 16384));
  _ ← lift (ensure (negb ((length rest <? 3)%nat && negb (bool_decide (c = Mux))))
                   TruncatedAddress);
  '(target, initial_payload) ←
    (if bool_decide (c = Mux) then mret (None, rest)
     else
       '(a, consumed) ← lift (map_err BadAddress (parse rest));
       payload ← lift (slice rest consumed (length rest));
       mret (Some a, payload));
  mret {| uuid := uuid; uuid_bytes := u; command := c; target := target;
          addons := ad; initial_payload := initial_payload |}.

Lemma parse_request_preamble `{HL : !HexLaws H} u ad c r k t o :
  wf_bytes u -> length u = 16%nat -> (length ad < 256)%nat ->
  clean r -> pending r = vless_preamble u ad c ->
  exists r', clean r' /\ pending r' = [] /\
    parse_request (Sock (r ++ k) t o) = after_preamble u ad c (Sock (r' ++ k) t o).
Proof.
  intros Hu Hul Had Hc Hp. unfold vless_preamble in Hp.
  assert (Hsplit : pending r = ([0] ++ u ++ [zlen ad]) ++ (ad ++ [command_byte c])).
  { rewrite Hp. by rewrite <- !app_assoc. }
  destruct (read_exact_clean 18 r k t o _ _ Hc Hsplit) as (r1 & Hr1 & Hc1 & Hp1).
  { rewrite !length_app. cbn. lia. }
  unfold parse_request.
  rewrite (io_bind_ok _ _ _ _ _ (io_map_err_ok _ _ _ _ _ Hr1)).
  rewrite (io_lift_ok _ _ 0), (io_lift_ok _ _ tt) by done.
  assert (Hs : slice (E:=vless_error) ([0] ++ u ++ [zlen ad]) 1 17 = Ok u).
  { rewrite slice_ok by (rewrite !length_app; cbn; lia). change (take (17 - 1) (drop 1 ([0] ++ u ++ [zlen ad]))) with (take 16 (u ++ [zlen ad])).
    by rewrite take_app_le, take_ge by lia. }
  rewrite (io_lift_ok _ _ _ _ Hs).
  destruct (format_uuid (E:=vless_error) u) as [us|?|] eqn:Hfu;
    [|by rewrite format_uuid_ok in Hfu..].
  rewrite (io_lift_ok _ _ us) by done.
  assert (Hi : idx (E:=vless_error) ([0] ++ u ++ [zlen ad]) 17 = Ok (zlen ad)).
  { apply idx_ok. rewrite app_assoc, lookup_app_r by (rewrite !length_app; cbn; lia).
    rewrite length_app. cbn. by rewrite Hul. }
  rewrite (io_lift_ok _ _ _ _ Hi). unfold zlen. rewrite Nat2Z.id.
  rewrite (io_lift_ok _ _ tt) by (apply ensure_true; unfold MAX_ADDONS_LEN; lia).
  assert (exists r2, (if (0 <? length ad)%nat
            then io_map_err (fun _ => ShortAddons) (read_exact (length ad))
            else mret []) (Sock (r1 ++ k) t o) = (Ok ad, Sock (r2 ++ k) t o)
     /\ clean r2 /\ pending r2 = [command_byte c]) as (r2 & Hr2 & Hc2 & Hp2).
  { destruct (Nat.ltb_spec 0 (length ad)).
    - destruct (read_exact_clean (length ad) r1 k t o ad _ Hc1 Hp1 eq_refl) as (r2 & Hr2 & ? & ?).
      exists r2. split; [|done]. by apply io_map_err_ok.
    - assert (ad = []) as -> by (destruct ad; cbn in *; done || lia). exists r1. by split. }
  rewrite (io_bind_ok _ _ _ _ _ Hr2).
  destruct (read_exact_clean 1 r2 k t o [command_byte c] [] Hc2 Hp2 eq_refl) as (r3 & Hr3 & Hc3 & Hp3).
  rewrite (io_bind_ok _ _ _ _ _ (io_map_err_ok _ _ _ _ _ Hr3)).
  rewrite (io_lift_ok _ _ (command_byte c)) by done.
  rewrite (io_lift_ok _ _ _ _ (command_from_byte_byte c)).
  exists r3. split; [done|]. split; [done|]. unfold after_preamble.
  by rewrite Hfu.
Qed.

Lemma after_preamble_tcp `{HL : !HexLaws H} u ad c t payload r k tr o :
  wf_bytes u -> length u = 16%nat -> wf_target t -> c <> Mux ->
  zlen (push_target t ++ payload) <= 16384 -> clean r -> pending r = [] ->
  exists us, format_uuid (E:=vless_error) u = Ok us /\
  after_preamble u ad c (Sock (r ++ Data (push_target t ++ payload) :: k) tr o) =
    (Ok {| uuid := us; uuid_bytes := u; command := c; target := Some t; addons := ad;
           initial_payload := payload |}, Sock k tr o).
Proof.
  intros Hu Hul Ht Hc Hlen Hcl Hpe.
  destruct (format_uuid (E:=vless_error) u) as [us|?|] eqn:Hfu; [|by rewrite format_uuid_ok in Hfu..].
  exists us. split; [done|]. unfold after_preamble. rewrite (io_lift_ok _ _ us) by done.
  erewrite io_bind_ok.
  2: { apply io_map_err_ok, read_stalls; [done|done|]. unfold zlen in Hlen. lia. }
  pose proof (push_target_length t Ht) as Hl.
  rewrite (io_lift_ok _ _ tt).
  2: { apply ensure_true. rewrite length_app, Hl. destruct (addr t); lia. }
  rewrite bool_decide_eq_false_2 by done.
  unfold mbind at 1, io_bind at 1.
  rewrite (io_lift_ok _ _ (t, length (push_target t))) by (by rewrite parse_push).
  rewrite (io_lift_ok _ _ payload).
  - done.
  - rewrite slice_ok by (rewrite length_app; lia). rewrite drop_app_length, length_app.
    f_equal. rewrite take_ge by lia. done.
Qed.

Lemma push_target_prefix_free t t' rest rest' :
  wf_target t -> wf_target t' -> push_target t ++ rest = push_target t' ++ rest' -> t = t'.
Proof.
  intros Ht Ht' Heq. pose proof (parse_push t rest Ht) as H1.
  rewrite Heq, parse_push in H1 by done. by injection H1.
Qed.

Lemma parse_strict_prefix t n :
  wf_target t -> (n < length (push_target t))%nat -> exists e, parse (take n (push_target t)) = Err e.
Proof.
  intros Ht Hn. pose proof (push_target_wf t Ht) as Hw.
  assert (Hw' : wf_bytes (take n (push_target t))) by auto with orcax.
  pose proof (parse_no_panic_aux _ Hw') as Hnp.
  destruct (parse (take n (push_target t))) as [[t' m]|e|] eqn:Hp; [|by exists e|done].
  exfalso. apply parse_ok_inv in Hp as (Ht' & Hm & Htake); [|done].
  rewrite length_take in Hm.
  assert (Heq : t = t').
  { apply (push_target_prefix_free t t' [] (drop m (push_target t))); [done|done|].
    rewrite app_nil_r, <- Htake, take_take, Nat.min_l by lia. by rewrite take_drop. }
  subst t'. apply (f_equal length) in Htake. rewrite !length_take in Htake. lia.
Qed.

(** Closes the side conditions of the symbolic execution of [parse_request]. *)
Ltac parse_request_side :=
  repeat match goal with
  | H : slice _ _ _ = Ok _ |- _ => apply slice_inv in H as (? & ? & ?); subst
  | H : idx _ _ = Ok _ |- _ => apply idx_inv in H; apply wf_bytes_lookup in H; [|done]
  end;
  match goal with
  | H : idx _ _ = Err _ |- _ => by apply idx_not_err in H
  | H : slice _ _ _ = Err _ |- _ => by apply slice_not_err in H
  | H : format_uuid _ = Err _ |- _ => apply format_uuid_not_err in H; [done|auto with orcax|done]
  | H : ensure _ _ = Err _ |- _ =>
      apply ensure_err_inv in H as [? ->]; unfold MAX_ADDONS_LEN, is_byte in *; done || lia
  | H : command_from_byte _ = Err _ |- _ => unfold command_from_byte in H; repeat case_match; by simplify_eq
  | H : map_err _ (parse _) = Err _ |- _ => unfold map_err in H; case_match; by simplify_eq
  | |- no_panic (format_uuid _) => apply format_uuid_no_panic; [auto with orcax|done]
  | |- no_panic (command_from_byte _) => unfold command_from_byte; solve_no_panic
  | |- no_panic (map_err _ (parse ?b)) =>
      pose proof (parse_no_panic_aux b ltac:(done)); by destruct (parse b)
  | H : map_err _ (parse ?b) = Ok _ |- no_panic (slice ?b _ _) =>
      let Hp := fresh in destruct (parse b) as [[? ?]| |] eqn:Hp; [|done|done];
      apply parse_ok_inv in Hp as (? & ? & ?); [|done]; cbn in H; simplify_eq; apply no_panic_slice; lia
  | |- no_panic _ => solve_no_panic
  end.

(** ** Properties *)

(** A well-formed TCP or UDP request is parsed to exactly the fields the client
    encoded - canonical UUID, raw UUID, command, target, addons, and the piggybacked bytes
    after the address - when the 18-byte preamble, the addons and the command byte arrive in
    any pieces and the address block arrives in one piece.  Nothing of what follows is
    consumed. *)
Theorem parse_request_roundtrip `{HL : !HexLaws H} u ad c t payload r k tr o :
  wf_bytes u -> length u = 16%nat -> (length ad < 256)%nat -> c <> Mux -> wf_target t ->
  zlen (push_target t ++ payload) <= 16384 ->
  clean r -> pending r = vless_preamble u ad c ->
  exists us, format_uuid (E:=vless_error) u = Ok us /\
  parse_request (Sock (r ++ Data (push_target t ++ payload) :: k) tr o) =
    (Ok {| uuid := us; uuid_bytes := u; command := c; target := Some t; addons := ad;
           initial_payload := payload |}, Sock k tr o).
Proof.
  intros Hu Hul Had Hcm Ht Hlen Hc Hp.
  destruct (parse_request_preamble u ad c r (Data (push_target t ++ payload) :: k) tr o)
    as (r' & Hc' & Hp' & ->); try done.
  by apply after_preamble_tcp.
Qed.

Definition ex_uuid : bytes := [0x55; 0x0e; 0x84; 0x00; 0xe2; 0x9b; 0x41; 0xd4; 0xa7; 0x16; 0x44; 0x66; 0x55; 0x44; 0x00; 0x00].

Lemma parse_request_roundtrip_witness :
  exists us, format_uuid (E:=vless_error) (H:=std_hex) ex_uuid = Ok us /\
  parse_request (H:=std_hex)
    (Sock ([Data [0]; Stall; Data (drop 1 (vless_preamble ex_uuid [10; 2] Tcp))] ++
           Data (push_target ex_target ++ [71; 69; 84]) :: []) [] true) =
    (Ok {| uuid := us; uuid_bytes := ex_uuid; command := Tcp; target := Some ex_target;
           addons := [10; 2]; initial_payload := [71; 69; 84] |}, Sock [] [] true).
Proof.
  apply (parse_request_roundtrip (HL:=std_hex_laws)); try done; by apply (bool_decide_unpack _).
Defined.

(** A request whose address block is split over two reads is rejected although it is
    complete: if the first read after the command byte returns only a strict prefix of the
    encoded target, [parse_request] returns an error whatever follows. *)
Theorem parse_request_split_address `{HL : !HexLaws H} u ad c t n r k tr o :
  wf_bytes u -> length u = 16%nat -> (length ad < 256)%nat -> c <> Mux -> wf_target t ->
  (n < length (push_target t))%nat ->
  clean r -> pending r = vless_preamble u ad c ->
  exists e s', parse_request (Sock (r ++ Data (take n (push_target t)) :: k) tr o) = (Err e, s').
Proof.
  intros Hu Hul Had Hcm Ht Hn Hc Hp.
  destruct (parse_request_preamble u ad c r (Data (take n (push_target t)) :: k) tr o)
    as (r' & Hc' & Hp' & ->); try done.
  destruct (format_uuid (E:=vless_error) u) as [us|?|] eqn:Hfu; [|by rewrite format_uuid_ok in Hfu..].
  unfold after_preamble. rewrite (io_lift_ok _ _ us) by done.
  assert (Hb : (length (push_target t) <= 260)%nat).
  { rewrite push_target_length by done. destruct Ht as [Ha _].
    destruct (addr t); try lia. destruct Ha as (_ & _ & Ha). unfold zlen in Ha. lia. }
  erewrite io_bind_ok.
  2: { apply io_map_err_ok, read_stalls; [done|done|]. rewrite length_take. lia. }
  rewrite bool_decide_eq_false_2 by done. rewrite andb_true_r.
  destruct (negb (length (take n (push_target t)) <? 3)%nat) eqn:Hshort.
  - rewrite (io_lift_ok _ _ tt) by done.
    destruct (parse_strict_prefix t n Ht Hn) as [e He].
    unfold mbind at 1, io_bind at 1. rewrite (io_lift_err _ _ (BadAddress e)); [eauto|]. by rewrite He.
  - rewrite (io_lift_err _ _ TruncatedAddress) by done. eauto.
Qed.

Lemma parse_request_split_address_witness :
  exists e s', parse_request (H:=std_hex)
    (Sock ([Data (vless_preamble ex_uuid [] Tcp)] ++
           Data (take 5 (push_target ex_target)) :: [Data (drop 5 (push_target ex_target))]) [] true) = (Err e, s').
Proof.
  apply (parse_request_split_address (HL:=std_hex_laws) ex_uuid [] Tcp ex_target 5);
    try done; try (by apply (bool_decide_unpack _)); cbn; lia.
Defined.

(** [parse_request] never panics on any stream of bytes, failing reads included, and
    the "addons too large" error is unreachable: the length byte cannot exceed the limit. *)
Theorem parse_request_safe `{HL : !HexLaws H} (s : sock) :
  wf_stream (rx s) ->
  (parse_request s).1 <> Panic /\ forall n, (parse_request s).1 <> Err (AddonsTooLarge n).
Proof.
  intros Hw.
  assert (wp parse_request (fun _ _ => True)
            (fun e => match e with AddonsTooLarge _ => False | _ => True end) s) as Hwp.
  { unfold parse_request. repeat wp_step; try done; parse_request_side. }
  split; [by eapply wp_no_panic|]. intros n. eapply wp_not_err; [done|]. tauto.
Qed.

Lemma parse_request_safe_witness :
  (parse_request (H:=std_hex) (reader [1; 2])).1 <> Panic.
Proof. apply (parse_request_safe (HL:=std_hex_laws) (reader [1; 2])). by repeat constructor. Defined.
