(* ===== verification/Addons.v ===== *)
(** * VLESS addons (orcax/protocol/src/addons.rs)

    The hand-written protobuf reader: [read_varint] and [Addons::parse], against
    the protobuf wire format as a reference encoder. *)
From S2P Require Import Prelude RustStd.

(** ** Data *)

Record Addons : Type := { flow : bytes }.
Definition default_addons : Addons := {| flow := [] |}.

(** The loop of [parse] cannot fail; with the fuel below it cannot run out either. *)
Inductive diverged : Type := OutOfFuel.

Definition VISION : bytes := ascii_bytes "xtls-rprx-vision".
Definition VISION_UDP443 : bytes := ascii_bytes "xtls-rprx-vision-udp443".

(** ** Operations *)

(** [Addons::is_vision]. *)
Definition is_vision (a : Addons) : bool :=
  bool_decide (flow a = VISION) || bool_decide (flow a = VISION_UDP443).

(** [read_varint]: [for (i, &b) in data.iter().take(10).enumerate()]. *)
Fixpoint read_varint_loop (data : bytes) (val shift : Z) (i : Z) : option (Z * Z) :=
  match data with
  | [] => None
  | b :: data' =>
      let val := Z.lor val (u64 (Z.shiftl (Z.land b 0x7F) shift)) in
      if Z.land b 0x80 =? 0 then Some (val, i + 1)
      else read_varint_loop data' val (shift + 7) (i + 1)
  end.
Definition read_varint (data : bytes) : option (Z * Z) := read_varint_loop (take 10 data) 0 0 0.

(** [i.saturating_add(len as usize)] on a 64-bit target. *)
Definition saturating_add_usize (a b : Z) : Z := Z.min (a + b) (2 ^ 64 - 1).

(** [&data[i..]]. *)
Definition tail_from {E} (data : bytes) (i : Z) : result E bytes :=
  if i <=? zlen data then Ok (drop (Z.to_nat i) data) else Panic.

(** One iteration of the [while] loop: [None] is [break], [Some (i, out)] goes on. *)
Definition parse_step (data : bytes) (i : Z) (out : Addons) : result diverged (option (Z * Addons)) :=
  tag ← idx data (Z.to_nat i);
  let i := i + 1 in
  let field := Z.shiftr tag 3 in
  let wire := Z.land tag 0x07 in
  if ((field =? 1) || (field =? 2)) && (wire =? 2) then
    t ← tail_from data i;
    match read_varint t with
    | None => Ok None
    | Some (len, consumed) =>
        let i := i + consumed in
        let stop := saturating_add_usize i len in
        if zlen data <? stop then Ok None
        else if field =? 1 then
          raw ← slice data (Z.to_nat i) (Z.to_nat stop);
          Ok (Some (stop, match from_utf8 raw with Some s => {| flow := s |} | None => out end))
        else Ok (Some (stop, out))
    end
  else if wire =? 0 then
    t ← tail_from data i;
    match read_varint t with
    | None => Ok None
    | Some (_, consumed) => Ok (Some (i + consumed, out))
    end
  else if wire =? 2 then
    t ← tail_from data i;
    match read_varint t with
    | None => Ok None
    | Some (len, consumed) =>
        let i := i + consumed in
        let stop := saturating_add_usize i len in
        if zlen data <? stop then Ok None else Ok (Some (stop, out))
    end
  else Ok None.

Fixpoint parse_loop (fuel : nat) (data : bytes) (i : Z) (out : Addons) : result diverged Addons :=
  if i <? zlen data then
    match fuel with
    | O => Err OutOfFuel
    | S f =>
        r ← parse_step data i out;
        match r with
        | None => Ok out
        | Some (i', out') => parse_loop f data i' out'
        end
    end
  else Ok out.

(** [Addons::parse]; every iteration consumes at least the tag byte. *)
Definition parse_addons (data : bytes) : result diverged Addons :=
  parse_loop (length data) data 0 default_addons.

(** ** The protobuf wire format *)

Fixpoint varint_fuel (fuel : nat) (n : Z) : bytes :=
  match fuel with
  | O => []
  | S f => if n <? 128 then [n] else (n mod 128 + 128) :: varint_fuel f (n / 128)
  end.
(** Base-128 varint of a 64-bit number: at most ten bytes. *)
Definition varint (n : Z) : bytes := varint_fuel 10 n.

Inductive field : Type :=
| VarintField (num v : Z)
| LenField (num : Z) (payload : bytes).

Definition encode_field (f : field) : bytes :=
  match f with
  | VarintField num v => varint (num * 8) ++ varint v
  | LenField num p => varint (num * 8 + 2) ++ varint (zlen p) ++ p
  end.
Definition encode_message (fs : list field) : bytes := flat_map encode_field fs.

(** The last [Flow] field that is a string wins; the others are skipped. *)
Definition apply_field (a : Addons) (f : field) : Addons :=
  match f with
  | LenField num p => if (num =? 1) && utf8_valid p then {| flow := p |} else a
  | VarintField _ _ => a
  end.
Definition message_addons (fs : list field) : Addons := foldl apply_field default_addons fs.

(** Fields whose tag is one byte. *)
Definition wf_field (f : field) : Prop :=
  match f with
  | VarintField num v => 1 <= num <= 15 /\ 0 <= v < 2 ^ 64
  | LenField num p => 1 <= num <= 15
  end.
#[export] Instance wf_field_dec f : Decision (wf_field f).
Proof. destruct f; unfold wf_field; apply _. Defined.

(** ** Lemmas *)

Lemma land_7f b : Z.land b 0x7F = b mod 128.
Proof. apply (Z.land_ones b 7). lia. Qed.
Lemma land_80_lo b : 0 <= b < 128 -> Z.land b 0x80 = 0.
Proof.
  intros. assert (Forall (fun b => b < 128 -> Z.land b 0x80 = 0) octets) as Ho.
  { apply (bool_decide_unpack _). vm_compute. exact I. }
  apply (octets_forall _ b Ho); unfold is_byte; lia.
Qed.
Lemma land_80_hi b : 128 <= b < 256 -> Z.land b 0x80 <> 0.
Proof.
  intros. assert (Forall (fun b => 128 <= b -> Z.land b 0x80 <> 0) octets) as Ho.
  { apply (bool_decide_unpack _). vm_compute. exact I. }
  apply (octets_forall _ b Ho); unfold is_byte; lia.
Qed.

Lemma varint_fuel_length f n : (length (varint_fuel f n) <= f)%nat.
Proof. revert n; induction f as [|f IH]; intros n; cbn; [lia|]. case_match; cbn; [lia|]. specialize (IH (n / 128)). lia. Qed.

Lemma read_varint_loop_varint f n rest val shift i :
  0 <= n -> n < 2 ^ (7 * Z.of_nat f) -> 0 <= shift -> 0 <= val < 2 ^ shift ->
  val + n * 2 ^ shift < 2 ^ 64 -> (0 < f)%nat ->
  read_varint_loop (varint_fuel f n ++ rest) val shift i =
    Some (val + n * 2 ^ shift, i + zlen (varint_fuel f n)).
Proof.
  revert n val shift i; induction f as [|f IH]; intros n val shift i Hn Hf Hs Hv Hb Hpos; [lia|].
  cbn [varint_fuel]. destruct (Z.ltb_spec n 128) as [Hlt|Hge]; cbn [app read_varint_loop].
  - rewrite land_80_lo, land_7f, (Z.mod_small n) by lia. cbn [Z.eqb].
    unfold u64. rewrite Z.mod_small by (rewrite Z.shiftl_mul_pow2 by lia; nia).
    by rewrite lor_shift_add by lia.
  - pose proof (Z.mod_pos_bound n 128 ltac:(lia)) as Hm. pose proof (Z.div_mod n 128 ltac:(lia)) as Hd.
    destruct (Z.eqb_spec (Z.land (n mod 128 + 128) 0x80) 0) as [Hz|_].
    { apply land_80_hi in Hz; [done|lia]. }
    assert (H7 : Z.land (n mod 128 + 128) 0x7F = n mod 128).
    { rewrite land_7f. clear - Hm. revert Hm. generalize (n mod 128). intros m Hm.
      replace (m + 128) with (m + 1 * 128) by lia. rewrite Z.mod_add by lia. by apply Z.mod_small. }
    rewrite H7. unfold u64. rewrite (Z.mod_small (Z.shiftl _ _)).
    2: { rewrite Z.shiftl_mul_pow2 by lia. nia. }
    rewrite lor_shift_add by lia.
    destruct f as [|f']; [cbn in Hf; lia|].
    rewrite IH.
    + f_equal. f_equal; [rewrite Z.pow_add_r by lia; change (2 ^ 7) with 128; nia|].
      unfold zlen. cbn [length]. lia.
    + apply Z.div_pos; lia.
    + apply Z.div_lt_upper_bound; [lia|]. rewrite <- (Z.pow_add_r 2 7) by lia.
      eapply Z.lt_le_trans; [exact Hf|]. apply Z.pow_le_mono_r; lia.
    + lia.
    + rewrite Z.pow_add_r by lia. change (2 ^ 7) with 128. nia.
    + rewrite Z.pow_add_r by lia. change (2 ^ 7) with 128. nia.
    + lia.
Qed.

Lemma read_varint_varint n rest :
  0 <= n < 2 ^ 64 -> read_varint (varint n ++ rest) = Some (n, zlen (varint n)).
Proof.
  intros Hn. unfold read_varint, varint.
  rewrite take_app_ge by apply varint_fuel_length.
  rewrite read_varint_loop_varint; [f_equal; f_equal; lia|lia| |lia|lia|lia|lia].
  eapply Z.lt_trans; [apply Hn|]. apply Z.pow_lt_mono_r; lia.
Qed.

Lemma varint_small n : 0 <= n < 128 -> varint n = [n].
Proof. intros. unfold varint. cbn. by destruct (Z.ltb_spec n 128); [|lia]. Qed.

Lemma tag_field num w : 0 <= num -> 0 <= w < 8 -> Z.shiftr (num * 8 + w) 3 = num.
Proof.
  intros. rewrite Z.shiftr_div_pow2 by lia. change (2 ^ 3) with 8.
  rewrite Z.div_add_l by lia. rewrite (Z.div_small w) by lia. lia.
Qed.
Lemma tag_wire num w : 0 <= w < 8 -> Z.land (num * 8 + w) 0x07 = w.
Proof.
  intros. rewrite (Z.land_ones _ 3) by lia. change (2 ^ 3) with 8.
  rewrite Z.add_comm, Z.mod_add by lia. by apply Z.mod_small.
Qed.

Lemma idx_pre {E} (pre : bytes) b l : idx (E:=E) (pre ++ b :: l) (Z.to_nat (zlen pre)) = Ok b.
Proof. unfold zlen. rewrite Nat2Z.id. apply idx_ok. by rewrite lookup_app_r, Nat.sub_diag. Qed.
Lemma tail_from_pre {E} (pre l : bytes) : tail_from (E:=E) (pre ++ l) (zlen pre) = Ok l.
Proof.
  unfold tail_from. rewrite zlen_app. pose proof (zlen_nonneg l).
  destruct (Z.leb_spec (zlen pre) (zlen pre + zlen l)); [|lia].
  unfold zlen. by rewrite Nat2Z.id, drop_app_length.
Qed.
Lemma tail_from_tag {E} (pre : bytes) b l : tail_from (E:=E) (pre ++ b :: l) (zlen pre + 1) = Ok l.
Proof.
  replace (pre ++ b :: l) with ((pre ++ [b]) ++ l) by (by rewrite <- app_assoc).
  replace (zlen pre + 1) with (zlen (pre ++ [b])) by (by rewrite zlen_app). apply tail_from_pre.
Qed.
Lemma slice_pre {E} (pre p l : bytes) :
  slice (E:=E) (pre ++ p ++ l) (Z.to_nat (zlen pre)) (Z.to_nat (zlen pre + zlen p)) = Ok p.
Proof.
  unfold zlen. replace (Z.to_nat (Z.of_nat (length pre) + Z.of_nat (length p))) with (length pre + length p)%nat by lia.
  rewrite Nat2Z.id, slice_ok by (rewrite !length_app; lia).
  rewrite drop_app_length. replace (length pre + length p - length pre)%nat with (length p) by lia.
  by rewrite take_app_length.
Qed.

Lemma parse_step_field pre f rest out :
  wf_field f -> zlen (pre ++ encode_field f ++ rest) < 2 ^ 63 ->
  parse_step (pre ++ encode_field f ++ rest) (zlen pre) out =
    Ok (Some (zlen (pre ++ encode_field f), apply_field out f)).
Proof.
  intros Hf Hlen. destruct f as [num v|num p]; cbn [wf_field] in Hf; cbn [encode_field apply_field] in *.
  - destruct Hf as [Hnum Hv]. rewrite (varint_small (num * 8)) in * by lia. cbn [app].
    unfold parse_step. rewrite idx_pre. cbn [mbind result_bind].
    replace (num * 8) with (num * 8 + 0) by lia. rewrite tag_field, tag_wire by lia.
    rewrite andb_false_r. cbn [Z.eqb]. rewrite tail_from_tag. cbn [mbind result_bind].
    rewrite read_varint_varint by done. rewrite zlen_app. do 3 f_equal. unfold zlen; cbn [length]. lia.
  - rewrite (varint_small (num * 8 + 2)) in * by lia. cbn [app] in *. pose proof (zlen_nonneg p) as Hp.
    assert (Hpl : zlen p < 2 ^ 63).
    { rewrite zlen_app in Hlen. unfold zlen in *. cbn [length] in Hlen. rewrite !length_app in Hlen. lia. }
    set (pre2 := pre ++ (num * 8 + 2) :: varint (zlen p)).
    assert (Hz2 : zlen pre + 1 + zlen (varint (zlen p)) = zlen pre2).
    { unfold pre2. rewrite zlen_app. unfold zlen; cbn [length]. lia. }
    assert (Hd : pre ++ ((num * 8 + 2) :: ((varint (zlen p) ++ p) ++ rest)) = pre2 ++ p ++ rest).
    { unfold pre2. by rewrite <- !app_assoc. }
    assert (Hstop : saturating_add_usize (zlen pre2) (zlen p) = zlen pre2 + zlen p).
    { unfold saturating_add_usize. rewrite Hd, zlen_app, zlen_app in Hlen. pose proof (zlen_nonneg rest). lia. }
    assert (Hnot : (zlen (pre2 ++ p ++ rest) <? zlen pre2 + zlen p) = false).
    { rewrite !zlen_app. pose proof (zlen_nonneg rest). lia. }
    assert (Hend : zlen pre2 + zlen p = zlen (pre ++ ((num * 8 + 2) :: (varint (zlen p) ++ p)))).
    { unfold pre2. rewrite !zlen_app. unfold zlen; cbn [length]. rewrite length_app. lia. }
    unfold parse_step. rewrite idx_pre. cbn [mbind result_bind].
    rewrite tag_field, tag_wire by lia. rewrite andb_true_r. cbn [Z.eqb Pos.eqb].
    rewrite tail_from_tag. cbn [mbind result_bind]. rewrite <- app_assoc, read_varint_varint by lia.
    rewrite app_assoc, Hz2, Hstop, Hd, Hnot.
    destruct (Z.eqb_spec num 1) as [->|].
    { cbn [orb andb]. rewrite slice_pre. cbn [mbind result_bind]. unfold from_utf8. rewrite Hend.
      by destruct (utf8_valid p). }
    cbn [orb andb]. rewrite Hend. by destruct (num =? 2).
Qed.

Lemma encode_field_nonempty f : wf_field f -> (1 <= length (encode_field f))%nat.
Proof.
  destruct f; cbn [wf_field encode_field]; intros; rewrite varint_small by lia; cbn; lia.
Qed.

Lemma parse_loop_message fs fuel pre out :
  Forall wf_field fs -> zlen (pre ++ encode_message fs) < 2 ^ 63 ->
  (length (encode_message fs) <= fuel)%nat ->
  parse_loop fuel (pre ++ encode_message fs) (zlen pre) out = Ok (foldl apply_field out fs).
Proof.
  intros Hfs. revert fuel pre out. induction Hfs as [|f fs Hf Hfs IH]; intros fuel pre out Hlen Hfuel.
  - cbn [encode_message flat_map]. rewrite app_nil_r. destruct fuel; cbn [parse_loop];
      by rewrite Z.ltb_irrefl.
  - pose proof (encode_field_nonempty f Hf). cbn [encode_message flat_map] in *.
    fold (encode_message fs) in *. rewrite length_app in Hfuel.
    destruct fuel as [|fuel]; [lia|]. cbn [parse_loop].
    destruct (Z.ltb_spec (zlen pre) (zlen (pre ++ encode_field f ++ encode_message fs))).
    2: { rewrite !zlen_app in *. unfold zlen in *. lia. }
    rewrite parse_step_field by done. cbn [mbind result_bind foldl].
    rewrite app_assoc. apply IH; [by rewrite <- app_assoc|lia].
Qed.

Lemma read_varint_loop_bounds data val shift i v c :
  wf_bytes data -> 0 <= val -> 0 <= shift -> read_varint_loop data val shift i = Some (v, c) ->
  0 <= v /\ i + 1 <= c <= i + zlen data.
Proof.
  intros Hw. revert val shift i. induction Hw as [|b data Hb Hw IH]; intros val shift i Hv Hs; [done|].
  cbn [read_varint_loop]. unfold zlen in *. cbn [length].
  assert (0 <= Z.lor val (u64 (Z.shiftl (Z.land b 127) shift))).
  { apply Z.lor_nonneg. split; [done|]. unfold u64. apply Z.mod_pos_bound. lia. }
  destruct (Z.eqb_spec (Z.land b 128) 0); intros ?; simplify_eq; [lia|].
  destruct (IH _ (shift + 7) (i + 1) ltac:(eassumption) ltac:(lia) ltac:(eassumption)). lia.
Qed.
Lemma read_varint_bounds data v c :
  wf_bytes data -> read_varint data = Some (v, c) -> 0 <= v /\ 1 <= c <= zlen data.
Proof.
  intros Hw H. apply read_varint_loop_bounds in H; [|auto with orcax|lia|lia].
  unfold zlen in *. rewrite length_take in H. lia.
Qed.

Lemma tail_from_ok {E} data i : 0 <= i <= zlen data -> tail_from (E:=E) data i = Ok (drop (Z.to_nat i) data).
Proof. intros. unfold tail_from. by destruct (Z.leb_spec i (zlen data)); [|lia]. Qed.

Lemma parse_step_progress data i out :
  wf_bytes data -> zlen data < 2 ^ 63 -> 0 <= i < zlen data ->
  exists r, parse_step data i out = Ok r /\
    match r with None => True | Some (i', _) => i < i' <= zlen data end.
Proof.
  intros Hw Hl Hi. unfold parse_step.
  destruct (lookup_lt_is_Some_2 data (Z.to_nat i)) as [tag Ht]; [unfold zlen in *; lia|].
  rewrite (idx_ok _ _ _ Ht). cbn [mbind result_bind]. rewrite tail_from_ok by lia. cbn [mbind result_bind].
  destruct (read_varint (drop (Z.to_nat (i + 1)) data)) as [[len c]|] eqn:Hv.
  2: { repeat case_match; eexists; split; done. }
  apply read_varint_bounds in Hv as [Hlen Hc]; [|auto with orcax].
  assert (Hd : zlen (drop (Z.to_nat (i + 1)) data) = zlen data - (i + 1)).
  { unfold zlen in *. rewrite length_drop. lia. }
  rewrite Hd in Hc.
  set (stop := saturating_add_usize (i + 1 + c) len).
  assert (Hstop : i + 1 + c <= stop) by (unfold stop, saturating_add_usize; lia).
  destruct (Z.ltb_spec (zlen data) stop).
  { repeat case_match; eexists; (split; [done|]); cbn; done || lia. }
  rewrite (slice_ok data (Z.to_nat (i + 1 + c))) by (unfold zlen in *; lia). cbn [mbind result_bind].
  repeat case_match; eexists; (split; [done|]); cbn; done || lia.
Qed.

Lemma parse_loop_total fuel data i out :
  wf_bytes data -> zlen data < 2 ^ 63 -> 0 <= i -> zlen data - i <= Z.of_nat fuel ->
  exists a, parse_loop fuel data i out = Ok a.
Proof.
  intros Hw Hl. revert i out. induction fuel as [|fuel IH]; intros i out Hi Hf; cbn [parse_loop];
    destruct (Z.ltb_spec i (zlen data)); try lia; eauto.
  destruct (parse_step_progress data i out Hw Hl) as (r & -> & Hr); [lia|]. cbn [mbind result_bind].
  destruct r as [[i' out']|]; [apply IH; lia|eauto].
Qed.

(** ** Properties *)

(** [Addons::parse] reads every protobuf message whose field numbers fit a one-byte
    tag: it ignores unknown varint and length-delimited fields wherever they stand and
    returns the last [Flow] string.  (The loop runs once per field; the length of the input
    is enough fuel.) *)
Theorem addons_parse_message (fs : list field) :
  Forall wf_field fs -> zlen (encode_message fs) < 2 ^ 63 ->
  parse_addons (encode_message fs) = Ok (message_addons fs).
Proof. intros. by apply (parse_loop_message fs _ [] default_addons). Qed.

Definition ex_fields : list field :=
  [VarintField 7 300; LenField 2 [0xDE; 0xAD]; LenField 1 VISION; LenField 15 [1; 2; 3]].
Lemma addons_parse_message_witness :
  parse_addons (encode_message ex_fields) = Ok {| flow := VISION |}.
Proof.
  apply (addons_parse_message ex_fields); [|done]. by apply (bool_decide_unpack _).
Defined.

(** [Addons::parse] terminates without a panic on every byte string: no index or range
    of the loop is out of bounds, malformed lengths included. *)
Theorem addons_parse_total (data : bytes) :
  wf_bytes data -> zlen data < 2 ^ 63 -> exists a, parse_addons data = Ok a.
Proof. intros. apply parse_loop_total; unfold zlen; lia || done. Qed.

Lemma addons_parse_total_witness : exists a, parse_addons [0x0A; 0x64; 1; 2; 3] = Ok a.
Proof. apply addons_parse_total; [|done]. by apply (bool_decide_unpack _). Defined.

(** A field number above 15 is not skipped but derails the parser: in a valid message
    with field 99 before [Flow], the two-byte tag is taken for a tag and a length, and the
    negotiated Vision flow is lost. *)
Theorem addons_long_tag_loses_flow :
  let msg := encode_message [LenField 99 [0xAA; 0xBB; 0xCC]; LenField 1 VISION] in
  exists a, parse_addons msg = Ok a /\ is_vision a = false /\
    is_vision (message_addons [LenField 99 [0xAA; 0xBB; 0xCC]; LenField 1 VISION]) = true.
Proof. eexists. split; [vm_compute; reflexivity|]. split; vm_compute; reflexivity. Qed.
