(* ===== verification/Orca.v ===== *)
(** * The OrcaX frame protocol (orcax/protocol/src/orca.rs)

    Frame types and flags, the frame builders, [encode]/[decode] over a stream,
    random padding, the two authentication messages, and the detector of inner
    TLS 1.3 traffic. *)
From S2P Require Import Prelude Stream RustStd Address.

(** ** Data *)

Definition MAX_FRAME_SIZE : Z := 65535.
Definition MAX_PADDING : nat := 256.

Inductive FrameType : Type :=
| FtData | StreamOpen | StreamClose | Ping | Pong | GoAway | WindowUpdate | UdpDatagram | Passthrough.
#[export] Instance FrameType_eq_dec : EqDecision FrameType.
Proof. solve_decision. Defined.

Definition FIN : Z := 0x01.
Definition RST : Z := 0x02.
Definition PADDED : Z := 0x04.
Definition UDP : Z := 0x08.

Record Frame : Type := {
  frame_type : FrameType;
  flags : Z;
  stream_id : Z;
  payload : bytes
}.
#[export] Instance Frame_eq_dec : EqDecision Frame.
Proof. solve_decision. Defined.

Inductive frame_error : Type :=
| UnknownFrameType (b : Z)
| ShortFrameHeader
| FrameTooLarge (n : Z)
| ShortFramePayload.

(** ** Frame types *)

(** [FrameType::from_byte] and [frame_type as u8]. *)
Definition frame_type_from_byte (b : Z) : result frame_error FrameType :=
  if b =? 0x00 then Ok FtData else if b =? 0x01 then Ok StreamOpen
  else if b =? 0x02 then Ok StreamClose else if b =? 0x03 then Ok Ping
  else if b =? 0x04 then Ok Pong else if b =? 0x05 then Ok GoAway
  else if b =? 0x06 then Ok WindowUpdate else if b =? 0x07 then Ok UdpDatagram
  else if b =? 0x08 then Ok Passthrough else Err (UnknownFrameType b).
Definition frame_type_byte (t : FrameType) : Z :=
  match t with
  | FtData => 0x00 | StreamOpen => 0x01 | StreamClose => 0x02 | Ping => 0x03 | Pong => 0x04
  | GoAway => 0x05 | WindowUpdate => 0x06 | UdpDatagram => 0x07 | Passthrough => 0x08
  end.

(** ** Builders *)

Definition data_frame (sid : Z) (p : bytes) : Frame :=
  {| frame_type := FtData; flags := 0; stream_id := sid; payload := p |}.
Definition stream_open (sid : Z) (target : TargetAddr) : Frame :=
  {| frame_type := StreamOpen; flags := 0; stream_id := sid; payload := [1] ++ push_target target |}.
Definition stream_close (sid : Z) : Frame :=
  {| frame_type := StreamClose; flags := FIN; stream_id := sid; payload := [] |}.
Definition udp_datagram (target : TargetAddr) (d : bytes) : Frame :=
  {| frame_type := UdpDatagram; flags := UDP; stream_id := 0;
     payload := push_target target ++ be_encode 2 (u16 (zlen d)) ++ d |}.
Definition ping : Frame := {| frame_type := Ping; flags := 0; stream_id := 0; payload := [] |}.
Definition pong : Frame := {| frame_type := Pong; flags := 0; stream_id := 0; payload := [] |}.
Definition passthrough (tls_version cipher_suite : Z) : Frame :=
  {| frame_type := Passthrough; flags := 0; stream_id := 0;
     payload := be_encode 2 tls_version ++ be_encode 2 cipher_suite |}.

(** ** Wire format *)

(** [Frame::encode]: the length field is [payload.len() as u16]. *)
Definition encode (f : Frame) : bytes :=
  [frame_type_byte (frame_type f); flags f] ++ be_encode 4 (stream_id f)
  ++ be_encode 2 (u16 (zlen (payload f))) ++ payload f.

(** The removal of padding in [Frame::decode]. *)
Definition strip_padding (fl : Z) (p : bytes) : bytes :=
  if negb (Z.land fl PADDED =? 0) && (0 <? length p)%nat then
    let pad_len := Z.to_nat (List.last p 0) in
    if (pad_len <? length p)%nat then take (length p - pad_len - 1) p else p
  else p.

(** [Frame::decode]. *)
Definition decode : Io frame_error Frame :=
  hdr ← io_map_err (fun _ => ShortFrameHeader) (read_exact 8);
  b0 ← lift (idx hdr 0);
  ft ← lift (frame_type_from_byte b0);
  fl ← lift (idx hdr 1);
  sid ← lift (slice hdr 2 6);
  len ← lift (slice hdr 6 8);
  let length := be_decode len in
  _ ← lift (ensure (negb (MAX_FRAME_SIZE <? length)) (FrameTooLarge length));
  p ← (if 0 <? length
       then io_map_err (fun _ => ShortFramePayload) (read_exact (Z.to_nat length))
       else mret []);
  mret {| frame_type := ft; flags := fl; stream_id := be_decode sid; payload := strip_padding fl p |}.

(** [n] calls of [Frame::decode] on one connection. *)
Fixpoint decode_frames (n : nat) : Io frame_error (list Frame) :=
  match n with
  | O => mret []
  | S k => f ← decode; fs ← decode_frames k; mret (f :: fs)
  end.

(** [Frame::with_padding(min, max)]: [pad_len] is the number [gen_range] drew,
    [noise] the random bytes of the padding.  The last byte of the padding is
    overwritten with [pad_len as u8]. *)
Definition with_padding {E} (pad_len : nat) (noise : bytes) (f : Frame) (min max : nat) : result E Frame :=
  if (Nat.min max MAX_PADDING <? min)%nat then Panic
  else
    let padding := match noise with [] => [] | _ => removelast noise ++ [u8 (Z.of_nat pad_len)] end in
    Ok {| frame_type := frame_type f; flags := Z.lor (flags f) PADDED; stream_id := stream_id f;
          payload := payload f ++ padding |}.

(** What [gen_range(min..=max.min(MAX_PADDING))] and [fill] may draw. *)
Definition padding_draw (min max pad_len : nat) (noise : bytes) : Prop :=
  (min <= pad_len <= Nat.min max MAX_PADDING)%nat /\ length noise = pad_len /\ wf_bytes noise.

#[export] Instance padding_draw_dec min max pad noise : Decision (padding_draw min max pad noise).
Proof. unfold padding_draw; apply _. Defined.

(** ** Authentication messages *)

Record ClientAuth : Type := { ca_ephemeral_pub : bytes; encrypted_uuid : bytes }.
Record ServerAuth : Type := { sa_ephemeral_pub : bytes; status : Z }.
Inductive auth_error : Type := ShortClientAuth | ShortServerAuth | AuthIo (e : io_error).

Definition CLIENT_AUTH_SIZE : nat := 48.
Definition SERVER_AUTH_SIZE : nat := 33.
Definition STATUS_OK : Z := 0.
Definition STATUS_AUTH_FAILED : Z := 1.
Definition STATUS_DEVICE_LIMIT : Z := 2.
Definition STATUS_BANNED : Z := 3.
Definition STATUS_SERVER_ERROR : Z := 4.

Definition client_auth_read : Io auth_error ClientAuth :=
  buf ← io_map_err (fun _ => ShortClientAuth) (read_exact CLIENT_AUTH_SIZE);
  e ← lift (slice buf 0 32);
  u ← lift (slice buf 32 48);
  mret {| ca_ephemeral_pub := e; encrypted_uuid := u |}.
Definition client_auth_write (a : ClientAuth) : Io auth_error unit :=
  buf ← lift (copy_into (replicate CLIENT_AUTH_SIZE 0) 0 32 (ca_ephemeral_pub a));
  buf ← lift (copy_into buf 32 48 (encrypted_uuid a));
  io_map_err AuthIo (write_all buf).
Definition server_auth_read : Io auth_error ServerAuth :=
  buf ← io_map_err (fun _ => ShortServerAuth) (read_exact SERVER_AUTH_SIZE);
  e ← lift (slice buf 0 32);
  st ← lift (idx buf 32);
  mret {| sa_ephemeral_pub := e; status := st |}.
Definition server_auth_write (a : ServerAuth) : Io auth_error unit :=
  buf ← lift (copy_into (replicate SERVER_AUTH_SIZE 0) 0 32 (sa_ephemeral_pub a));
  buf ← lift (copy_into buf 32 33 [status a]);
  io_map_err AuthIo (write_all buf).

(** ** Detection of inner TLS 1.3 *)

Definition TLS_HANDSHAKE : Z := 0x16.
Definition TLS_APPLICATION_DATA : Z := 0x17.

(** The ServerHello branch of [detect_inner_tls13]; [Ok None] falls through. *)
Definition detect_server_hello {E} (data : bytes) : result E (option (Z * Z)) :=
  d3 ← idx data 3;
  d4 ← idx data 4;
  let record_len := Z.to_nat (be_decode [d3; d4]) in
  if (5 + record_len <=? length data)%nat && (38 <? record_len)%nat then
    d5 ← idx data 5;
    if d5 =? 0x02 then
      if (43 <? length data)%nat then
        sid ← idx data 43;
        let cipher_offset := (44 + Z.to_nat sid)%nat in
        if (cipher_offset + 1 <? length data)%nat then
          c0 ← idx data cipher_offset;
          c1 ← idx data (cipher_offset + 1);
          let cipher := be_decode [c0; c1] in
          if (0x1301 <=? cipher) && (cipher <=? 0x1303) then Ok (Some (0x0304, cipher)) else Ok None
        else Ok None
      else Ok None
    else Ok None
  else Ok None.

(** [detect_inner_tls13]. *)
Definition detect_inner_tls13 {E} (data : bytes) : result E (option (Z * Z)) :=
  if (length data <? 5)%nat then Ok None
  else
    record_type ← idx data 0;
    d1 ← idx data 1;
    d2 ← idx data 2;
    let version := be_decode [d1; d2] in
    hello ← (if (record_type =? TLS_HANDSHAKE) && (version =? 0x0303)
             then detect_server_hello data else Ok None);
    match hello with
    | Some r => Ok (Some r)
    | None =>
        if (record_type =? TLS_APPLICATION_DATA) && (version =? 0x0303)
        then Ok (Some (0x0304, 0x1301)) else Ok None
    end.

(** ** Well-formed frames *)

Definition wf_frame (f : Frame) : Prop :=
  is_byte (flags f) /\ 0 <= stream_id f < 2 ^ 32 /\ wf_bytes (payload f) /\ zlen (payload f) <= 65535.
Definition unpadded (f : Frame) : Prop := Z.land (flags f) PADDED = 0.
#[export] Instance wf_frame_dec f : Decision (wf_frame f).
Proof. unfold wf_frame; apply _. Defined.
#[export] Instance unpadded_dec f : Decision (unpadded f).
Proof. unfold unpadded; apply _. Defined.

(** ** Lemmas *)

Lemma frame_type_from_byte_byte t : frame_type_from_byte (frame_type_byte t) = Ok t.
Proof. by destruct t. Qed.

(** Decoding what [encode] wrote, whatever the flags: only the padding rule
    stands between the payload sent and the payload delivered. *)
Lemma decode_encode f r k t o rest :
  wf_frame f -> clean r -> pending r = encode f ++ rest ->
  exists r', clean r' /\ pending r' = rest /\
    decode (Sock (r ++ k) t o) =
      (Ok {| frame_type := frame_type f; flags := flags f; stream_id := stream_id f;
             payload := strip_padding (flags f) (payload f) |}, Sock (r' ++ k) t o).
Proof.
  intros (Hfl & Hsid & Hwf & Hlen) Hc Hp. pose proof (zlen_nonneg (payload f)) as Hnn.
  unfold encode in Hp. rewrite u16_small in Hp by lia.
  set (hdr := [frame_type_byte (frame_type f); flags f] ++ be_encode 4 (stream_id f)
              ++ be_encode 2 (zlen (payload f))).
  assert (Hsplit : pending r = hdr ++ (payload f ++ rest)).
  { rewrite Hp. unfold hdr. by rewrite <- !app_assoc. }
  destruct (read_exact_clean 8 r k t o hdr _ Hc Hsplit eq_refl) as (r1 & Hr1 & Hc1 & Hp1).
  unfold decode. rewrite (io_bind_ok _ _ _ _ _ (io_map_err_ok _ _ _ _ _ Hr1)).
  rewrite (io_lift_ok _ _ (frame_type_byte (frame_type f))) by done.
  rewrite (io_lift_ok _ _ _ _ (frame_type_from_byte_byte _)).
  rewrite (io_lift_ok _ _ (flags f)) by done.
  rewrite (io_lift_ok _ _ (be_encode 4 (stream_id f))) by done.
  rewrite (io_lift_ok _ _ (be_encode 2 (zlen (payload f)))) by done.
  rewrite be_decode_encode_2, be_decode_encode_4 by lia.
  rewrite (io_lift_ok _ _ tt) by (apply ensure_true; unfold MAX_FRAME_SIZE; lia).
  assert (exists r2, (if 0 <? zlen (payload f)
            then io_map_err (fun _ => ShortFramePayload) (read_exact (Z.to_nat (zlen (payload f))))
            else mret []) (Sock (r1 ++ k) t o) = (Ok (payload f), Sock (r2 ++ k) t o)
      /\ clean r2 /\ pending r2 = rest) as (r2 & Hr2 & Hc2 & Hp2).
  { destruct (Z.ltb_spec 0 (zlen (payload f))).
    - unfold zlen. rewrite Nat2Z.id.
      destruct (read_exact_clean _ r1 k t o _ _ Hc1 Hp1 eq_refl) as (r2 & Hr2 & ? & ?).
      exists r2. split; [|done]. by apply io_map_err_ok.
    - exists r1. assert (payload f = []) as Hnil.
      { destruct (payload f); [done|]. unfold zlen in *. cbn in *. lia. }
      rewrite Hnil in *. by split. }
  rewrite (io_bind_ok _ _ _ _ _ Hr2). by exists r2.
Qed.

Lemma strip_unpadded f : unpadded f -> strip_padding (flags f) (payload f) = payload f.
Proof. unfold unpadded, strip_padding. by intros ->. Qed.

Lemma decode_frames_encode fs r k t o :
  Forall (fun f => wf_frame f /\ unpadded f) fs -> clean r -> pending r = flat_map encode fs ->
  exists r', clean r' /\ pending r' = [] /\
    decode_frames (length fs) (Sock (r ++ k) t o) = (Ok fs, Sock (r' ++ k) t o).
Proof.
  intros Hfs. revert r. induction Hfs as [|f fs [Hf Hu] Hfs IH]; intros r Hc Hp.
  { exists r. by split_and!. }
  cbn [flat_map length decode_frames] in *.
  destruct (decode_encode f r k t o _ Hf Hc Hp) as (r1 & Hc1 & Hp1 & Hd).
  destruct (IH r1 Hc1 Hp1) as (r2 & Hc2 & Hp2 & Hds).
  exists r2. split; [done|]. split; [done|].
  rewrite strip_unpadded in Hd by done.
  rewrite (io_bind_ok _ _ _ _ _ Hd), (io_bind_ok _ _ _ _ _ Hds). by destruct f.
Qed.

Lemma lor_padded fl : is_byte fl -> is_byte (Z.lor fl PADDED) /\ Z.land (Z.lor fl PADDED) PADDED <> 0.
Proof.
  intros Hb.
  assert (Forall (fun fl => is_byte (Z.lor fl PADDED) /\ Z.land (Z.lor fl PADDED) PADDED <> 0) octets) as Ho.
  { apply (bool_decide_unpack _). vm_compute. exact I. }
  by apply (octets_forall _ fl Ho).
Qed.

(** The padding [with_padding] appends is [pad_len] bytes long and ends in [pad_len as u8]. *)
Lemma with_padding_ok {E} pad noise f min max :
  padding_draw min max pad noise ->
  exists padding, with_padding (E:=E) pad noise f min max =
      Ok {| frame_type := frame_type f; flags := Z.lor (flags f) PADDED; stream_id := stream_id f;
            payload := payload f ++ padding |} /\
    length padding = pad /\ wf_bytes padding /\
    (pad <> 0%nat -> List.last (payload f ++ padding) 0 = u8 (Z.of_nat pad)).
Proof.
  intros (Hr & Hl & Hw). unfold with_padding.
  destruct (Nat.ltb_spec (Nat.min max MAX_PADDING) min); [lia|].
  destruct noise as [|x noise].
  { exists []. split; [done|]. cbn in Hl. split_and!; auto with orcax; lia. }
  eexists; split; [done|].
  pose proof (app_removelast_last 0 (l:=x :: noise) ltac:(done)) as Happ.
  assert (Hrl : length (removelast (x :: noise)) = (pad - 1)%nat).
  { apply (f_equal length) in Happ. rewrite length_app in Happ. cbn [length] in *. lia. }
  split_and!.
  - rewrite length_app, Hrl. cbn in *. lia.
  - apply wf_bytes_app_2; [|by auto with orcax].
    rewrite Happ in Hw. by apply wf_bytes_app in Hw as [? _].
  - intros _. by rewrite app_assoc, last_last.
Qed.

Lemma strip_padded fl p padding :
  Z.land fl PADDED <> 0 -> p <> [] -> (0 < length padding < 256)%nat ->
  List.last (p ++ padding) 0 = u8 (Z.of_nat (length padding)) ->
  strip_padding fl (p ++ padding) = removelast p.
Proof.
  intros Hf Hp Hl Hlast. unfold strip_padding.
  destruct (Z.eqb_spec (Z.land fl PADDED) 0); [done|].
  assert (0 < length p)%nat by (destruct p; cbn; done || lia).
  rewrite Hlast, u8_small, Nat2Z.id by lia. rewrite length_app.
  destruct (Nat.ltb_spec 0 (length p + length padding)); [|lia].
  destruct (Nat.ltb_spec (length padding) (length p + length padding)); [|lia].
  cbn [negb andb]. rewrite removelast_firstn_len, take_app_le by lia. f_equal. lia.
Qed.

Lemma copy_into_ok {E} dst a b src :
  (a <= b <= length dst)%nat -> length src = (b - a)%nat ->
  copy_into (E:=E) dst a b src = Ok (take a dst ++ src ++ drop b dst).
Proof. intros H1 H2. unfold copy_into. by replace (_ && _ && _) with true by lia. Qed.

(** ** Properties *)

(** C9: Frames survive the wire: any sequence of frames without the padding flag, each with
    at most 65535 bytes of payload (all that the 16-bit length field describes),
    encoded back to back and delivered in arbitrary pieces, is decoded to the same
    sequence, and nothing is left over.  For longer payloads see [long_frame_splits]. *)
Theorem frames_roundtrip (fs : list Frame) (r : list chunk) (t : bytes) (o : bool) :
  Forall (fun f => wf_frame f /\ unpadded f) fs -> clean r -> pending r = flat_map encode fs ->
  exists r', pending r' = [] /\ decode_frames (length fs) (Sock r t o) = (Ok fs, Sock r' t o).
Proof.
  intros Hfs Hc Hp. destruct (decode_frames_encode fs r [] t o Hfs Hc Hp) as (r' & _ & ? & Hd).
  rewrite !app_nil_r in Hd. by exists r'.
Qed.

Definition ex_frames : list Frame := [data_frame 42 [104; 105]; stream_open 1 ex_target; ping; stream_close 1].
Lemma frames_roundtrip_witness :
  exists r', pending r' = [] /\
    decode_frames 4 (Sock (map (fun b => Data [b]) (flat_map encode ex_frames)) [] true) = (Ok ex_frames, Sock r' [] true).
Proof.
  apply (frames_roundtrip ex_frames); [by apply (bool_decide_unpack _)..|reflexivity].
Defined.

(** A longer payload does not: [encode] cuts the length to 16 bits, so that the reader
    takes a prefix of the payload for all of it, and the rest for the next frame. *)
Theorem long_frame_splits (f : Frame) (r : list chunk) (t : bytes) (o : bool) :
  is_byte (flags f) -> unpadded f -> 0 <= stream_id f < 2 ^ 32 -> wf_bytes (payload f) -> 65536 <= zlen (payload f) -> clean r -> pending r = encode f ->
  let n := Z.to_nat (zlen (payload f) mod 65536) in
  exists r', pending r' = drop n (payload f) /\ drop n (payload f) <> [] /\
    decode (Sock r t o) = (Ok {| frame_type := frame_type f; flags := flags f; stream_id := stream_id f; payload := take n (payload f) |}, Sock r' t o).
Proof.
  intros Hfl Hu Hs Hw Hlen Hc Hp n. pose proof (Z.mod_pos_bound (zlen (payload f)) 65536 ltac:(lia)) as Hb.
  set (g := {| frame_type := frame_type f; flags := flags f; stream_id := stream_id f; payload := take n (payload f) |}).
  assert (n < length (payload f))%nat as Hn by (unfold n, zlen in *; lia).
  assert (zlen (take n (payload f)) = zlen (payload f) mod 65536) as Hz by (unfold zlen; rewrite length_take_le by lia; unfold n; rewrite Z2Nat.id by lia; done).
  assert (encode f = encode g ++ drop n (payload f)) as He.
  { unfold encode. cbn [g frame_type flags stream_id payload]. rewrite Hz. unfold u16. rewrite (Z.mod_small (_ mod _)) by lia. rewrite <- !app_assoc, take_drop. done. }
  rewrite He in Hp. destruct (decode_encode g r [] t o (drop n (payload f))) as (r' & _ & Hp' & Hd); [split; [done|]; split; [done|]; cbn [g payload]; split; [by apply wf_bytes_take|lia]|done|done|].
  rewrite !app_nil_r, strip_unpadded in Hd by done. exists r'. split; [done|]. split; [|done]. intros E. apply (f_equal length) in E. rewrite length_drop in E. cbn in E. lia.
Qed.

(** A padded frame does not survive [Frame::decode]: the sender's padding is [pad]
    bytes with its length in the last one, the receiver removes [pad + 1] bytes, so the last
    byte of every non-empty payload is lost. *)
Theorem padded_frame_loses_byte (f : Frame) (pad min max : nat) (noise : bytes) (r : list chunk) (t : bytes) (o : bool) :
  wf_frame f -> payload f <> [] -> padding_draw min max pad noise -> (0 < pad < 256)%nat ->
  zlen (payload f) + Z.of_nat pad <= 65535 -> clean r ->
  exists g, with_padding (E:=frame_error) pad noise f min max = Ok g /\
    (pending r = encode g ->
     exists s', decode (Sock r t o) =
       (Ok {| frame_type := frame_type f; flags := Z.lor (flags f) PADDED; stream_id := stream_id f;
              payload := removelast (payload f) |}, s')).
Proof.
  intros (Hfl & Hsid & Hw & Hlen) Hne Hd Hpad Htot Hc.
  destruct (with_padding_ok (E:=frame_error) pad noise f min max Hd) as (padding & Hg & Hpl & Hpw & Hlast).
  destruct (lor_padded (flags f) Hfl) as [Hb Hf].
  eexists; split; [exact Hg|]. intros Hp. rewrite <- (app_nil_r (encode _)) in Hp.
  match type of Hp with pending r = encode ?g ++ [] =>
    destruct (decode_encode g r [] t o [] ltac:(split_and!; cbn; auto with orcax; rewrite ?zlen_app; unfold zlen in *; lia) Hc Hp)
      as (r' & _ & _ & Hdec) end.
  rewrite !app_nil_r in Hdec. eexists. rewrite Hdec. cbn [frame_type flags stream_id payload].
  rewrite strip_padded by (rewrite ?Hpl; auto; lia). done.
Qed.

Lemma padded_frame_loses_byte_witness :
  exists g, with_padding (E:=frame_error) 4 [9; 9; 9; 9] (stream_open 1 ex_target) 4 128 = Ok g /\
    (pending (rx (reader (encode g))) = encode g ->
     exists s', decode (reader (encode g)) =
       (Ok {| frame_type := StreamOpen; flags := PADDED; stream_id := 1;
              payload := removelast (payload (stream_open 1 ex_target)) |}, s')).
Proof.
  eexists. split; [reflexivity|].
  destruct (padded_frame_loses_byte (stream_open 1 ex_target) 4 4 128 [9; 9; 9; 9]
    (rx (reader (encode {| frame_type := StreamOpen; flags := 4; stream_id := 1;
        payload := payload (stream_open 1 ex_target) ++ [9; 9; 9; 4] |}))) [] true) as (g & Hg & Hdec);
    try (by apply (bool_decide_unpack _)); try done; try (cbn; lia).
  injection Hg as <-. exact Hdec.
Defined.

(** The target of a [StreamOpen] frame reaches the peer intact: decoding the encoded
    frame gives a payload of the TCP command byte followed by an address block that
    [TargetAddr::parse] reads back as the same target, to its last byte. *)
Theorem stream_open_delivers_target (sid : Z) (tgt : TargetAddr) (r : list chunk) (t : bytes) (o : bool) :
  0 <= sid < 2 ^ 32 -> wf_target tgt -> clean r -> pending r = encode (stream_open sid tgt) ->
  exists f s', decode (Sock r t o) = (Ok f, s') /\ stream_id f = sid /\ frame_type f = StreamOpen /\
    exists block, payload f = 1 :: block /\ parse block = Ok (tgt, length block).
Proof.
  intros Hsid Ht Hc Hp. rewrite <- (app_nil_r (encode _)) in Hp.
  assert (Hb : (length (push_target tgt) <= 260)%nat).
  { rewrite push_target_length by done. destruct Ht as [Ha _].
    destruct (addr tgt); try lia. destruct Ha as (_ & _ & Ha). unfold zlen in Ha. lia. }
  destruct (decode_encode (stream_open sid tgt) r [] t o []) as (r' & _ & _ & Hd); [|done|done|].
  { unfold wf_frame, is_byte. cbn [flags stream_id payload stream_open]. split; [lia|]. split; [lia|].
    split; [apply wf_bytes_cons; [unfold is_byte; lia|by apply push_target_wf]|].
    unfold zlen. cbn [length app]. lia. }
  rewrite !app_nil_r in Hd. eexists _, _. split; [exact Hd|].
  split; [done|]. split; [done|]. exists (push_target tgt). split; [done|].
  rewrite <- (app_nil_r (push_target tgt)) at 1. by apply parse_push.
Qed.

Lemma stream_open_delivers_target_witness :
  exists f s', decode (reader (encode (stream_open 7 ex_target))) = (Ok f, s') /\ stream_id f = 7 /\
    frame_type f = StreamOpen /\
    exists block, payload f = 1 :: block /\ parse block = Ok (ex_target, length block).
Proof.
  apply stream_open_delivers_target; try done; try (by apply (bool_decide_unpack _)); try reflexivity.
Defined.

(** [Frame::decode] never panics, whatever the stream delivers, and its "frame too
    large" error is unreachable: a 16-bit length cannot exceed [MAX_FRAME_SIZE]. *)
Theorem decode_safe (s : sock) :
  wf_stream (rx s) -> (decode s).1 <> Panic /\ forall n, (decode s).1 <> Err (FrameTooLarge n).
Proof.
  intros Hw.
  assert (wp decode (fun _ _ => True)
            (fun e => match e with FrameTooLarge _ => False | _ => True end) s) as Hwp.
  { unfold decode. repeat wp_step; try done;
    repeat match goal with H : slice _ _ _ = Ok _ |- _ => apply slice_inv in H as (? & ? & ?); subst end;
    match goal with
    | H : idx _ _ = Err _ |- _ => by apply idx_not_err in H
    | H : slice _ _ _ = Err _ |- _ => by apply slice_not_err in H
    | H : frame_type_from_byte _ = Err _ |- _ => unfold frame_type_from_byte in H; repeat case_match; by simplify_eq
    | |- no_panic (frame_type_from_byte _) => unfold frame_type_from_byte; solve_no_panic
    | Hb : length ?b = 8%nat, H : ensure _ _ = Err _ |- _ =>
        apply ensure_err_inv in H as [? ->];
        pose proof (be_decode_bound (take (8 - 6) (drop 6 b)) ltac:(auto with orcax)) as Hbd;
        unfold zlen in Hbd; rewrite length_take, length_drop, Hb in Hbd;
        change (256 ^ Z.of_nat ((8 - 6) `min` (8 - 6))) with 65536 in Hbd; unfold MAX_FRAME_SIZE in *; lia
    | |- no_panic _ => solve_no_panic
    end. }
  split; [by eapply wp_no_panic|]. intros n. eapply wp_not_err; [done|]. tauto.
Qed.

Lemma decode_safe_witness : (decode (reader [9; 0; 1])).1 <> Panic.
Proof. apply (decode_safe (reader [9; 0; 1])). repeat constructor; unfold is_byte; lia. Defined.

(** The authentication messages round-trip: what [ClientAuth::write] (48 bytes) and
    [ServerAuth::write] (33 bytes) put on the wire, their readers return unchanged. *)
Theorem auth_messages_roundtrip (eph uid : bytes) (st : Z) :
  length eph = 32%nat -> length uid = 16%nat ->
  (exists w, client_auth_write {| ca_ephemeral_pub := eph; encrypted_uuid := uid |} (Sock [] [] true) = (Ok tt, Sock [] w true) /\
     length w = CLIENT_AUTH_SIZE /\
     (client_auth_read (reader w)).1 = Ok {| ca_ephemeral_pub := eph; encrypted_uuid := uid |}) /\
  (exists w, server_auth_write {| sa_ephemeral_pub := eph; status := st |} (Sock [] [] true) = (Ok tt, Sock [] w true) /\
     length w = SERVER_AUTH_SIZE /\
     (server_auth_read (reader w)).1 = Ok {| sa_ephemeral_pub := eph; status := st |}).
Proof.
  intros He Hu.
  do 32 (destruct eph as [|? eph]; [done|]). destruct eph; [|done].
  do 16 (destruct uid as [|? uid]; [done|]). destruct uid; [|done].
  split; eexists; split_and!; reflexivity.
Qed.

Lemma auth_messages_roundtrip_witness :
  (client_auth_read (reader (replicate 32 0xAB ++ replicate 16 0xCD))).1 =
    Ok {| ca_ephemeral_pub := replicate 32 0xAB; encrypted_uuid := replicate 16 0xCD |}.
Proof.
  destruct (auth_messages_roundtrip (replicate 32 0xAB) (replicate 16 0xCD) 0 eq_refl eq_refl)
    as [(w & Hw & _ & Hr) _]. injection Hw as <-. exact Hr.
Defined.

(** A record that carries a ServerHello: record header with length [len],
    handshake type 2, 37 bytes of length, version and random, the session id,
    the chosen cipher suite, and whatever follows. *)
Definition server_hello_record (len : Z) (skip sid : bytes) (cipher : Z) (rest : bytes) : bytes :=
  [TLS_HANDSHAKE; 3; 3] ++ be_encode 2 len ++ [2] ++ skip ++ [zlen sid] ++ sid ++ be_encode 2 cipher ++ rest.

Lemma detect_server_hello_no_panic {E} data :
  (5 <= length data)%nat -> no_panic (detect_server_hello (E:=E) data).
Proof. intros. unfold detect_server_hello. solve_no_panic. Qed.

Lemma server_hello_record_length len skip sid cipher rest :
  length (server_hello_record len skip sid cipher rest) =
    (9 + length skip + length sid + length rest)%nat.
Proof. unfold server_hello_record. rewrite !length_app, !be_encode_length. cbn. lia. Qed.

Lemma detect_server_hello_build {E} len skip sid cipher rest :
  length skip = 37%nat -> zlen sid < 256 -> 0 <= cipher < 65536 -> 38 < len < 65536 ->
  len <= 41 + zlen sid + zlen rest ->
  detect_server_hello (E:=E) (server_hello_record len skip sid cipher rest) =
    Ok (if (0x1301 <=? cipher) && (cipher <=? 0x1303) then Some (0x0304, cipher) else None).
Proof.
  intros Hsk Hsid Hci Hlen Hhi. pose proof (zlen_nonneg sid) as Hs0.
  pose proof (server_hello_record_length len skip sid cipher rest) as Hl. rewrite Hsk in Hl.
  set (data := server_hello_record len skip sid cipher rest) in *.
  assert (H3 : data !! 3%nat = Some ((len / 256) mod 256)) by done.
  assert (H4 : data !! 4%nat = Some (len mod 256)) by done.
  assert (H5 : data !! 5%nat = Some 2) by done.
  assert (Htail : drop 43 data = zlen sid :: sid ++ be_encode 2 cipher ++ rest).
  { unfold data, server_hello_record.
    rewrite (app_assoc [TLS_HANDSHAKE; 3; 3]), (app_assoc (_ ++ be_encode 2 len)), (app_assoc (_ ++ [2])).
    rewrite drop_app_ge; rewrite !length_app, be_encode_length, Hsk; cbn; done || lia. }
  assert (H43 : data !! 43%nat = Some (zlen sid)).
  { by rewrite <- (Nat.add_0_r 43), <- lookup_drop, Htail. }
  assert (Hc : forall i, data !! (44 + length sid + i)%nat = (be_encode 2 cipher ++ rest) !! i).
  { intros i. replace (44 + length sid + i)%nat with (43 + S (length sid + i))%nat by lia.
    rewrite <- lookup_drop, Htail.
    transitivity ((sid ++ be_encode 2 cipher ++ rest) !! (length sid + i)%nat); [done|].
    rewrite lookup_app_r by lia. f_equal. lia. }
  unfold detect_server_hello. rewrite (idx_ok _ _ _ H3), (idx_ok _ _ _ H4). cbn [mbind result_bind].
  rewrite <- be_encode_2, be_decode_encode_2 by lia.
  destruct (Nat.leb_spec (5 + Z.to_nat len) (length data)); [|unfold zlen in *; lia].
  destruct (Nat.ltb_spec 38 (Z.to_nat len)); [|lia]. cbn [andb].
  rewrite (idx_ok _ _ _ H5). cbn [mbind result_bind Z.eqb Pos.eqb].
  destruct (Nat.ltb_spec 43 (length data)); [|lia].
  rewrite (idx_ok _ _ _ H43). cbn [mbind result_bind]. unfold zlen. rewrite Nat2Z.id.
  destruct (Nat.ltb_spec (44 + length sid + 1) (length data)); [|lia].
  pose proof (Hc 0%nat) as Hc0. pose proof (Hc 1%nat) as Hc1. rewrite Nat.add_0_r in Hc0.
  rewrite be_encode_2 in Hc0, Hc1. rewrite (idx_ok _ _ _ Hc0), (idx_ok _ _ _ Hc1).
  cbn [mbind result_bind]. rewrite <- be_encode_2, be_decode_encode_2 by lia.
  by destruct (_ && _).
Qed.

(** [detect_inner_tls13] never panics on any bytes; it reports TLS 1.3 for a ServerHello
    record, with any session id, exactly when the chosen suite is one of 0x1301-0x1303, and
    returns that suite; and whatever it reports has version 0x0304 and such a suite. *)
Theorem detect_inner_tls13_spec {E} (data : bytes) :
  no_panic (detect_inner_tls13 (E:=E) data) /\
  (forall v c, detect_inner_tls13 (E:=E) data = Ok (Some (v, c)) -> v = 0x0304 /\ 0x1301 <= c <= 0x1303) /\
  (forall len skip sid cipher rest,
     data = server_hello_record len skip sid cipher rest ->
     length skip = 37%nat -> zlen sid < 256 -> 0 <= cipher < 65536 -> 38 < len < 65536 ->
     len <= 41 + zlen sid + zlen rest ->
     detect_inner_tls13 (E:=E) data =
       Ok (if (0x1301 <=? cipher) && (cipher <=? 0x1303) then Some (0x0304, cipher) else None)).
Proof.
  split_and!.
  - unfold detect_inner_tls13. destruct (Nat.ltb_spec (length data) 5); [done|].
    repeat step_no_panic; try lia. by apply detect_server_hello_no_panic.
  - intros v c. unfold detect_inner_tls13, detect_server_hello. intros Hd.
    repeat (case_match; inv_ok; simplify_eq; try lia; try done).
  - intros len skip sid cipher rest -> ? ? ? ? ?. unfold detect_inner_tls13. rewrite server_hello_record_length.
    destruct (Nat.ltb_spec (9 + length skip + length sid + length rest) 5); [lia|].
    rewrite (idx_ok _ 0 TLS_HANDSHAKE), (idx_ok _ 1 3), (idx_ok _ 2 3) by done.
    cbn [mbind result_bind].
    change ((TLS_HANDSHAKE =? TLS_HANDSHAKE) && (be_decode [3; 3] =? 0x0303)) with true. cbv iota.
    rewrite detect_server_hello_build by done. cbn [mbind result_bind].
    by destruct (_ && _).
Qed.

Lemma detect_inner_tls13_spec_witness :
  detect_inner_tls13 (E:=unit) (server_hello_record 48 (replicate 37 0) [] 0x1301 (replicate 8 0)) =
    Ok (Some (0x0304, 0x1301)).
Proof.
  by apply (detect_inner_tls13_spec _) with (len := 48) (skip := replicate 37 0) (sid := []) (cipher := 0x1301)
    (rest := replicate 8 0).
Defined.
