(* ===== verification/Mux.v ===== *)
(** * The stream multiplexer (orcax/protocol/src/mux.rs)

    The stream table of one connection.  Operations are state-passing; a step
    relation collects everything a connection does to its table, and the
    invariants hold in every reachable state. *)
From S2P Require Import Prelude Address.

(** ** Data *)

Definition DEFAULT_WINDOW_SIZE : Z := 262144.
Definition MAX_STREAMS : Z := 256.

Inductive StreamState : Type := Open | HalfClosedLocal | HalfClosedRemote | Closed.
#[export] Instance StreamState_eq_dec : EqDecision StreamState.
Proof. solve_decision. Defined.

Record MuxStream : Type := {
  ms_id : Z;
  ms_state : StreamState;
  ms_target : option TargetAddr;
  ms_window : Z;
  ms_sent : Z;
  ms_received : Z;
  ms_udp : bool
}.

Record Multiplexer : Type := {
  streams : gmap Z MuxStream;
  next_stream_id : Z;
  max_streams : Z
}.

Inductive mux_error : Type := MaxStreamsReached (n : Z) | MaxStreams | StreamExists (id : Z).

(** ** Operations *)

Section operations.
Context `{Profile}.

Definition new_server : Multiplexer := {| streams := ∅; next_stream_id := 2; max_streams := MAX_STREAMS |}.
Definition new_client : Multiplexer := {| streams := ∅; next_stream_id := 1; max_streams := MAX_STREAMS |}.

Definition new_stream (id : Z) (target : option TargetAddr) (is_udp : bool) : MuxStream :=
  {| ms_id := id; ms_state := Open; ms_target := target; ms_window := DEFAULT_WINDOW_SIZE;
     ms_sent := 0; ms_received := 0; ms_udp := is_udp |}.

(** [open_stream]: [HashMap::insert] replaces an entry that is already there. *)
Definition open_stream (m : Multiplexer) (target : option TargetAddr) (is_udp : bool)
  : result mux_error (Z * Multiplexer) :=
  _ ← ensure (negb (max_streams m <=? Z.of_nat (size (streams m)))) (MaxStreamsReached (max_streams m));
  let id := next_stream_id m in
  next ← arith 32 (next_stream_id m + 2);
  Ok (id, {| streams := <[id := new_stream id target is_udp]> (streams m);
             next_stream_id := next; max_streams := max_streams m |}).

(** [register_remote_stream]. *)
Definition register_remote_stream (m : Multiplexer) (id : Z) (target : option TargetAddr) (is_udp : bool)
  : result mux_error Multiplexer :=
  _ ← ensure (negb (max_streams m <=? Z.of_nat (size (streams m)))) MaxStreams;
  _ ← ensure (bool_decide (streams m !! id = None)) (StreamExists id);
  Ok {| streams := <[id := new_stream id target is_udp]> (streams m);
        next_stream_id := next_stream_id m; max_streams := max_streams m |}.

Definition set_streams (m : Multiplexer) (s : gmap Z MuxStream) : Multiplexer :=
  {| streams := s; next_stream_id := next_stream_id m; max_streams := max_streams m |}.

Definition set_state (st : StreamState) (s : MuxStream) : MuxStream :=
  {| ms_id := ms_id s; ms_state := st; ms_target := ms_target s; ms_window := ms_window s;
     ms_sent := ms_sent s; ms_received := ms_received s; ms_udp := ms_udp s |}.

(** [close_stream]: mark closed, then remove. *)
Definition close_stream (m : Multiplexer) (id : Z) : Multiplexer :=
  set_streams m (delete id (alter (set_state Closed) id (streams m))).

(** [get_stream] hands out a mutable reference: the entry, and what the caller
    writes through it. *)
Definition get_stream (m : Multiplexer) (id : Z) : option MuxStream := streams m !! id.
Definition write_stream (m : Multiplexer) (id : Z) (f : MuxStream -> MuxStream) : Multiplexer :=
  set_streams m (alter f id (streams m)).

Definition stream_count (m : Multiplexer) : nat := size (streams m).

(** [is_open]. *)
Definition is_open (m : Multiplexer) (id : Z) : bool :=
  match streams m !! id with
  | Some s => bool_decide (ms_state s = Open) || bool_decide (ms_state s = HalfClosedRemote)
  | None => false
  end.

(** [record_sent] and [record_received]. *)
Definition record_sent (m : Multiplexer) (id n : Z) : result mux_error Multiplexer :=
  match streams m !! id with
  | None => Ok m
  | Some s =>
      sent ← arith 64 (ms_sent s + n);
      Ok (set_streams m (<[id := {| ms_id := ms_id s; ms_state := ms_state s; ms_target := ms_target s;
        ms_window := ms_window s; ms_sent := sent; ms_received := ms_received s; ms_udp := ms_udp s |}]> (streams m)))
  end.
Definition record_received (m : Multiplexer) (id n : Z) : result mux_error Multiplexer :=
  match streams m !! id with
  | None => Ok m
  | Some s =>
      received ← arith 64 (ms_received s + n);
      Ok (set_streams m (<[id := {| ms_id := ms_id s; ms_state := ms_state s; ms_target := ms_target s;
        ms_window := ms_window s; ms_sent := ms_sent s; ms_received := received; ms_udp := ms_udp s |}]> (streams m)))
  end.

(** [total_bytes]: the loop over [streams.values()]. *)
Fixpoint total_loop (l : list (Z * MuxStream)) (sent received : Z) : result mux_error (Z * Z) :=
  match l with
  | [] => Ok (sent, received)
  | (_, s) :: l' =>
      sent ← arith 64 (sent + ms_sent s);
      received ← arith 64 (received + ms_received s);
      total_loop l' sent received
  end.
Definition total_bytes (m : Multiplexer) : result mux_error (Z * Z) :=
  total_loop (map_to_list (streams m)) 0 0.

(** The values of the types of a stream's fields. *)
Definition typed (s : MuxStream) : Prop :=
  0 <= ms_id s < 2 ^ 32 /\ 0 <= ms_window s < 2 ^ 32 /\ 0 <= ms_sent s < 2 ^ 64 /\ 0 <= ms_received s < 2 ^ 64.

(** What may be assumed of the users of a table, and the code does not enforce: that
    the peer opens streams of its own parity only ("odd = client-initiated, even =
    server-initiated"), and that no caller changes the identifier of a stream. *)
Record users : Type := { peer_parity : bool; ids_kept : bool }.

(** Everything a connection does to its table.  A caller writes any values of their
    types through [get_stream]. *)
Inductive mux_step (a : users) (own : bool) : Multiplexer -> Multiplexer -> Prop :=
| step_open m t u id m' : open_stream m t u = Ok (id, m') -> mux_step a own m m'
| step_register m id t u m' :
    0 <= id < 2 ^ 32 -> (peer_parity a = true -> Z.odd id <> own) ->
    register_remote_stream m id t u = Ok m' -> mux_step a own m m'
| step_close m id : mux_step a own m (close_stream m id)
| step_write m id f :
    (forall s, typed s -> typed (f s)) -> (ids_kept a = true -> forall s, ms_id (f s) = ms_id s) ->
    mux_step a own m (write_stream m id f)
| step_sent m id n m' : 0 <= n < 2 ^ 64 -> record_sent m id n = Ok m' -> mux_step a own m m'
| step_received m id n m' : 0 <= n < 2 ^ 64 -> record_received m id n = Ok m' -> mux_step a own m m'.

Definition new_mux (own : bool) : Multiplexer := if own then new_client else new_server.

(** ** Invariants *)

Record mux_inv (a : users) (own : bool) (m : Multiplexer) : Prop := {
  inv_bound : Z.of_nat (size (streams m)) <= max_streams m;
  inv_max : max_streams m = MAX_STREAMS;
  inv_next : 0 <= next_stream_id m < 2 ^ 32 /\ Z.odd (next_stream_id m) = own;
  inv_entry id s : streams m !! id = Some s ->
    0 <= id < 2 ^ 32 /\ typed s /\ (ids_kept a = true -> ms_id s = id)
}.

(** Until the identifier counter wraps, every identifier of our parity in the
    table is below the counter. *)
Definition own_below (own : bool) (m : Multiplexer) : Prop :=
  forall id, is_Some (streams m !! id) -> Z.odd id = own -> id < next_stream_id m.

(** The bytes of all streams, as mathematical integers. *)
Definition sent_sum (m : Multiplexer) : Z := map_fold (fun _ s acc => ms_sent s + acc) 0 (streams m).
Definition received_sum (m : Multiplexer) : Z := map_fold (fun _ s acc => ms_received s + acc) 0 (streams m).

(** ** Lemmas *)

Lemma arith_ok {E} w z (z' : Z) : 0 <= w -> arith (E:=E) w z = Ok z' -> 0 <= z' < 2 ^ w.
Proof.
  intros Hw. unfold arith. destruct ((0 <=? z) && (z <? 2 ^ w)) eqn:Hb.
  - intros [= <-]. lia.
  - destruct overflow_checks; [done|]. intros [= <-]. apply Z.mod_pos_bound.
    apply Z.pow_pos_nonneg; lia.
Qed.
Lemma arith_small {E} w z : 0 <= z < 2 ^ w -> arith (E:=E) w z = Ok z.
Proof. intros. unfold arith. by replace ((0 <=? z) && (z <? 2 ^ w)) with true by lia. Qed.

Lemma arith_odd {E} z z' : arith (E:=E) 32 (z + 2) = Ok z' -> Z.odd z' = Z.odd z.
Proof.
  unfold arith. case_match; [|destruct overflow_checks; [done|]]; intros [= <-].
  - by rewrite Z.odd_add, xorb_false_r.
  - rewrite Z.mod_eq by lia. rewrite Z.odd_sub, Z.odd_mul, Z.odd_add. cbn. by rewrite !xorb_false_r.
Qed.

Lemma new_stream_entry id t u :
  0 <= id < 2 ^ 32 -> 0 <= id < 2 ^ 32 /\ typed (new_stream id t u) /\ ms_id (new_stream id t u) = id.
Proof. unfold typed. cbn. unfold DEFAULT_WINDOW_SIZE. lia. Qed.

Lemma size_insert_bound (s : gmap Z MuxStream) id x mx :
  negb (mx <=? Z.of_nat (size s)) = true -> Z.of_nat (size (<[id := x]> s)) <= mx.
Proof. intros Hb. rewrite map_size_insert. destruct (s !! id); cbn; lia. Qed.

Lemma size_alter_eq (f : MuxStream -> MuxStream) id (s : gmap Z MuxStream) : size (alter f id s) = size s.
Proof. by rewrite <- !size_dom, dom_alter_L. Qed.

Lemma size_delete_bound id (s : gmap Z MuxStream) : (size (delete id s) <= size s)%nat.
Proof. rewrite map_size_delete. destruct (s !! id); cbn; lia. Qed.

Lemma alter_entry (f : MuxStream -> MuxStream) (P : Z -> MuxStream -> Prop) id (s : gmap Z MuxStream) :
  (forall i x, P i x -> P i (f x)) ->
  (forall i x, s !! i = Some x -> P i x) ->
  forall i x, alter f id s !! i = Some x -> P i x.
Proof. intros Hf Hs i x Hi. apply lookup_alter_Some in Hi as [(<- & y & Hy & ->) | [_ Hi]]; auto. Qed.

Lemma insert_entry (P : Z -> MuxStream -> Prop) id y (s : gmap Z MuxStream) :
  P id y -> (forall i x, s !! i = Some x -> P i x) ->
  forall i x, <[id := y]> s !! i = Some x -> P i x.
Proof. intros Hy Hs i x Hi. apply lookup_insert_Some in Hi as [[<- <-] | [_ Hi]]; auto. Qed.

(** Both recording operations replace one entry by one that keeps its
    identifier. *)
Lemma record_sent_inv m id n m' :
  record_sent m id n = Ok m' ->
  m' = m \/ exists s sent, streams m !! id = Some s /\ arith (E:=mux_error) 64 (ms_sent s + n) = Ok sent /\
    m' = set_streams m (<[id := {| ms_id := ms_id s; ms_state := ms_state s; ms_target := ms_target s;
        ms_window := ms_window s; ms_sent := sent; ms_received := ms_received s; ms_udp := ms_udp s |}]> (streams m)).
Proof. unfold record_sent. destruct (streams m !! id); intros; inv_ok; [right | by left]. eauto. Qed.
Lemma record_received_inv m id n m' :
  record_received m id n = Ok m' ->
  m' = m \/ exists s received, streams m !! id = Some s /\
    arith (E:=mux_error) 64 (ms_received s + n) = Ok received /\
    m' = set_streams m (<[id := {| ms_id := ms_id s; ms_state := ms_state s; ms_target := ms_target s;
        ms_window := ms_window s; ms_sent := ms_sent s; ms_received := received; ms_udp := ms_udp s |}]> (streams m)).
Proof. unfold record_received. destruct (streams m !! id); intros; inv_ok; [right | by left]. eauto. Qed.

Lemma open_stream_inv m t u id m' :
  open_stream m t u = Ok (id, m') ->
  negb (max_streams m <=? Z.of_nat (size (streams m))) = true /\ id = next_stream_id m /\
  exists next, arith (E:=mux_error) 32 (next_stream_id m + 2) = Ok next /\
    m' = {| streams := <[id := new_stream id t u]> (streams m);
            next_stream_id := next; max_streams := max_streams m |}.
Proof. unfold open_stream. intros. inv_ok. eauto. Qed.

Lemma replace_entry_inv a own m id s s' :
  mux_inv a own m -> streams m !! id = Some s ->
  typed s' /\ ms_id s' = ms_id s ->
  mux_inv a own (set_streams m (<[id := s']> (streams m))).
Proof.
  intros [Hb Hm Hn He] Hs [Ht Hid]. split; cbn; [|done..|].
  - rewrite map_size_insert, Hs. done.
  - apply (insert_entry (fun id s => 0 <= id < 2 ^ 32 /\ typed s /\ (ids_kept a = true -> ms_id s = id))); [|done]. rewrite Hid. by destruct (He _ _ Hs) as (? & _ & ?).
Qed.

Lemma mux_inv_step a own m m' : mux_inv a own m -> mux_step a own m m' -> mux_inv a own m'.
Proof.
  intros Hinv Hstep. destruct Hinv as [Hb Hm Hn He] eqn:Heq. clear Heq.
  destruct Hstep as [m t u id m' Ho | m id t u m' Hid Hpar Hr | m id | m id f Hf Hkeep | m id n m' Hn' Hr | m id n m' Hn' Hr].
  - apply open_stream_inv in Ho as (Hlt & -> & next & Hnext & ->).
    split; cbn; [by apply size_insert_bound | done | |apply insert_entry; [|done]; destruct (new_stream_entry (next_stream_id m) t u); tauto].
    split; [by apply (arith_ok (E:=mux_error) 32) in Hnext | by rewrite (arith_odd _ _ Hnext); tauto].
  - unfold register_remote_stream in Hr. inv_ok.
    split; cbn; [by apply size_insert_bound | done.. | apply insert_entry; [|done]; destruct (new_stream_entry id t u); tauto].
  - unfold close_stream. split; cbn; [|done..|].
    + pose proof (size_delete_bound id (alter (set_state Closed) id (streams m))) as Hd.
      rewrite size_alter_eq in Hd. lia.
    + intros i x Hi. apply lookup_delete_Some in Hi as [_ Hi]. revert i x Hi. by apply alter_entry.
  - split; cbn; [by rewrite size_alter_eq | done.. |]. apply alter_entry; [|done]. intros i x (H1 & H2 & H3). split; [done|]. split; [by apply Hf|]. intros Hk. rewrite Hkeep by done. auto.
  - apply record_sent_inv in Hr as [-> | (s & sent & Hs & Ha & ->)]; [done|].
    apply (arith_ok (E:=mux_error)) in Ha; [|done].
    apply (replace_entry_inv a own m id s); [done..|]. destruct (He _ _ Hs) as (_ & Ht & _). unfold typed in *. cbn. tauto.
  - apply record_received_inv in Hr as [-> | (s & sent & Hs & Ha & ->)]; [done|].
    apply (arith_ok (E:=mux_error)) in Ha; [|done].
    apply (replace_entry_inv a own m id s); [done..|]. destruct (He _ _ Hs) as (_ & Ht & _). unfold typed in *. cbn. tauto.
Qed.

Lemma mux_inv_new a own : mux_inv a own (new_mux own).
Proof. split; destruct own; cbn; try done; intros ? ? H0; by rewrite lookup_empty in H0. Qed.

(** [n] steps move the counter by at most [2 n]. *)
Lemma step_counter a own m m' :
  mux_step a own m m' -> next_stream_id m + 2 < 2 ^ 32 -> 0 <= next_stream_id m ->
  next_stream_id m <= next_stream_id m' <= next_stream_id m + 2.
Proof.
  intros Hs Hlt H0. destruct Hs as [m t u id m' Ho | m id t u m' Hid Hpar Hr | | | m id n m' Hn Hr | m id n m' Hn Hr]; cbn; try lia.
  - apply open_stream_inv in Ho as (_ & -> & next & Hnext & ->). cbn.
    rewrite arith_small in Hnext by lia. injection Hnext as <-. lia.
  - unfold register_remote_stream in Hr. inv_ok. cbn. lia.
  - apply record_sent_inv in Hr as [-> | (s & sent & Hs & Ha & ->)]; cbn; lia.
  - apply record_received_inv in Hr as [-> | (s & sent & Hs & Ha & ->)]; cbn; lia.
Qed.

Lemma own_below_step a own m m' :
  peer_parity a = true -> mux_inv a own m -> next_stream_id m + 2 < 2 ^ 32 ->
  own_below own m -> mux_step a own m m' -> own_below own m'.
Proof.
  intros Hpeer Hinv Hlt Hb Hs.
  destruct Hs as [m t u id m' Ho | m id t u m' Hid Hpar Hr | m id | m id f Hf Hkeep | m id n m' Hn Hr | m id n m' Hn Hr];
    unfold own_below in *; cbn.
  - apply open_stream_inv in Ho as (_ & -> & next & Hnext & ->). cbn.
    rewrite arith_small in Hnext by (destruct (inv_next _ _ _ Hinv); lia). injection Hnext as <-.
    intros i Hi Hodd. apply lookup_insert_is_Some in Hi as [<- | [_ Hi]]; [lia|].
    specialize (Hb i Hi Hodd). lia.
  - intros i Hi Hodd. unfold register_remote_stream in Hr. inv_ok. cbn in *.
    apply lookup_insert_is_Some in Hi as [<- | [_ Hi]]; [by destruct (Hpar Hpeer) | auto].
  - intros i Hi. apply lookup_delete_is_Some in Hi as [_ Hi]. rewrite lookup_alter_is_Some in Hi. auto.
  - intros i Hi. rewrite lookup_alter_is_Some in Hi. auto.
  - apply record_sent_inv in Hr as [-> | (s & sent & Hs & Ha & ->)]; [done|]. cbn.
    intros i Hi. apply lookup_insert_is_Some in Hi as [<- | [_ Hi]]; eauto.
  - apply record_received_inv in Hr as [-> | (s & sent & Hs & Ha & ->)]; [done|]. cbn.
    intros i Hi. apply lookup_insert_is_Some in Hi as [<- | [_ Hi]]; eauto.
Qed.

(** A history of [n] steps, seen from its last state. *)
Lemma history_inv a own n m :
  peer_parity a = true -> relations.nsteps (mux_step a own) n (new_mux own) m -> Z.of_nat n < 2 ^ 31 - 2 ->
  mux_inv a own m /\ next_stream_id m <= 2 + 2 * Z.of_nat n /\ own_below own m.
Proof.
  intros Hpeer. revert m. induction n as [|n IH]; intros m Hs Hn.
  - inversion Hs; subst. split; [apply mux_inv_new|]. split; [by destruct own|].
    intros id [x Hx]. destruct own; cbn in Hx; by rewrite lookup_empty in Hx.
  - apply nsteps_inv_r in Hs as (m1 & Hs & Hstep).
    destruct (IH m1 Hs ltac:(lia)) as (Hinv & Hnext & Hb).
    destruct (inv_next _ _ _ Hinv) as [H0 _].
    pose proof (step_counter a own m1 m Hstep ltac:(lia) ltac:(lia)).
    split; [by eapply mux_inv_step|]. split; [lia|]. apply (own_below_step a own m1 m); auto; lia.
Qed.

(** The loop of [total_bytes] computes the sums when they fit. *)
Lemma total_loop_sum l a b :
  Forall (fun p => 0 <= ms_sent p.2 /\ 0 <= ms_received p.2) l -> 0 <= a -> 0 <= b ->
  a + foldr (fun p acc => ms_sent p.2 + acc) 0 l < 2 ^ 64 ->
  b + foldr (fun p acc => ms_received p.2 + acc) 0 l < 2 ^ 64 ->
  total_loop l a b = Ok (a + foldr (fun p acc => ms_sent p.2 + acc) 0 l,
                         b + foldr (fun p acc => ms_received p.2 + acc) 0 l).
Proof.
  intros Hl. revert a b. induction Hl as [|[k s] l [H1 H2] Hl IH]; intros a b Ha Hb Hsa Hsb; cbn in *.
  - by rewrite !Z.add_0_r.
  - assert (0 <= foldr (fun (p : Z * MuxStream) acc => ms_sent p.2 + acc) 0 l /\
            0 <= foldr (fun (p : Z * MuxStream) acc => ms_received p.2 + acc) 0 l) as [Hp1 Hp2].
    { clear -Hl. induction Hl as [|p l [H1 H2] Hl IH]; cbn; lia. }
    rewrite arith_small by lia. cbn. rewrite arith_small by lia. cbn.
    rewrite IH by lia. do 2 f_equal; lia.
Qed.

Lemma map_fold_as_foldr (f : MuxStream -> Z) (s : gmap Z MuxStream) :
  map_fold (fun _ x acc => f x + acc) 0 s = foldr (fun p acc => f p.2 + acc) 0 (map_to_list s).
Proof. rewrite map_fold_foldr. apply foldr_ext; [intros [??]; done | done..]. Qed.

Lemma total_bytes_sums a own m :
  mux_inv a own m -> sent_sum m < 2 ^ 64 -> received_sum m < 2 ^ 64 ->
  total_bytes m = Ok (sent_sum m, received_sum m).
Proof.
  intros Hinv. unfold sent_sum, received_sum, total_bytes. rewrite !map_fold_as_foldr. intros H1 H2.
  rewrite total_loop_sum; [done | | lia..].
  apply Forall_forall. intros [k s] Hin%list_elem_of_In. apply elem_of_map_to_list in Hin.
  destruct (inv_entry _ _ _ Hinv _ _ Hin) as (_ & (_ & _ & ? & ?) & _). cbn. lia.
Qed.

Lemma map_fold_replace (f : MuxStream -> Z) (s : gmap Z MuxStream) id x y :
  s !! id = Some x ->
  map_fold (fun _ z acc => f z + acc) 0 (<[id := y]> s)
  = map_fold (fun _ z acc => f z + acc) 0 s - f x + f y.
Proof.
  intros Hx. rewrite <- insert_delete_eq.
  rewrite map_fold_insert_L; [|intros; lia | apply lookup_delete_eq].
  rewrite (map_fold_delete_L _ _ id x s); [lia | intros; lia | done].
Qed.

Lemma map_fold_nonneg (f : MuxStream -> Z) (s : gmap Z MuxStream) :
  (forall id x, s !! id = Some x -> 0 <= f x) -> 0 <= map_fold (fun _ z acc => f z + acc) 0 s.
Proof.
  induction s as [|i x s Hi IH] using map_ind; intros Hf; [by rewrite map_fold_empty|].
  rewrite map_fold_insert_L; [|intros; lia | done].
  assert (0 <= f x) by (apply (Hf i); apply lookup_insert_eq).
  enough (0 <= map_fold (fun _ z acc => f z + acc) 0 s) by lia.
  apply IH. intros id y Hy. apply (Hf id). rewrite lookup_insert_ne; [done | congruence].
Qed.

Lemma entry_le_sum a own m id s : mux_inv a own m -> streams m !! id = Some s -> ms_sent s <= sent_sum m.
Proof.
  intros Hinv Hs. unfold sent_sum. rewrite (map_fold_delete_L _ _ id s); [|intros; lia | done].
  enough (0 <= map_fold (fun _ z acc => ms_sent z + acc) 0 (delete id (streams m))) by lia.
  apply map_fold_nonneg. intros i x Hx. apply lookup_delete_Some in Hx as [_ Hx].
  destruct (inv_entry _ _ _ Hinv _ _ Hx) as (_ & (_ & _ & ? & _) & _). lia.
Qed.

(** ** The multiplexer's contract *)

(** C10: In every state a connection can reach, whatever identifiers its peer
    registers and whatever values of their types callers write through
    [get_stream], the table holds at most [MAX_STREAMS] streams under 32-bit
    identifiers, with 64-bit byte counters, and the next identifier keeps the side's
    parity (odd on a client, even on a server), even after the counter wraps; if no
    caller changes the identifier of a stream, each stream is stored under its
    own. *)
Theorem mux_reachable_inv a own m : rtc (mux_step a own) (new_mux own) m -> mux_inv a own m.
Proof.
  revert m. apply rtc_ind_r; [apply mux_inv_new | intros; by eapply mux_inv_step].
Qed.

(** Within the first [2^31 - 2] operations of a connection whose peer opens
    streams of its own parity only, [open_stream] on a table that is not full
    succeeds with an identifier that was free and is of our parity; it adds
    exactly one open stream and leaves every other stream as it was. *)
Theorem open_stream_fresh a own n m t u :
  peer_parity a = true -> relations.nsteps (mux_step a own) n (new_mux own) m -> Z.of_nat n < 2 ^ 31 - 2 ->
  Z.of_nat (stream_count m) < MAX_STREAMS ->
  exists id m', open_stream m t u = Ok (id, m') /\
    get_stream m id = None /\ Z.odd id = own /\
    get_stream m' id = Some (new_stream id t u) /\ is_open m' id = true /\
    stream_count m' = S (stream_count m) /\
    (forall id', id' <> id -> get_stream m' id' = get_stream m id').
Proof.
  intros Hpeer Hs Hn Hc. destruct (history_inv a own n m Hpeer Hs Hn) as (Hinv & Hnext & Hb).
  destruct (inv_next _ _ _ Hinv) as [H0 Hodd].
  assert (streams m !! next_stream_id m = None) as Hfree.
  { apply eq_None_not_Some. intros Hx. specialize (Hb _ Hx Hodd). lia. }
  unfold open_stream, get_stream, is_open, stream_count in *. rewrite (inv_max _ _ _ Hinv).
  rewrite ensure_true by lia. cbn. rewrite arith_small by lia. cbn.
  do 2 eexists. split; [done|]. cbn. rewrite lookup_insert_eq.
  rewrite map_size_insert, Hfree. repeat split; try done.
  intros id' Hne. by rewrite lookup_insert_ne.
Qed.

(** A server whose peer registers a stream under the identifier the server
    will use next overwrites it: [open_stream] returns that same identifier,
    the peer's stream and its target are gone, and the table has not grown. *)
Theorem open_stream_clobbers_remote t u t' u' :
  exists m m', register_remote_stream new_server 2 t u = Ok m /\
    get_stream m 2 = Some (new_stream 2 t u) /\
    open_stream m t' u' = Ok (2, m') /\
    get_stream m' 2 = Some (new_stream 2 t' u') /\ stream_count m' = stream_count m.
Proof. unfold register_remote_stream, open_stream, get_stream, stream_count. cbn. by repeat esplit. Qed.

(** Recording [n] sent bytes on an open stream makes the total over all
    streams grow by exactly [n] and leaves the received total alone, as long as
    the totals fit 64 bits. *)
Theorem record_sent_total a own m id n :
  mux_inv a own m -> is_Some (get_stream m id) -> 0 <= n ->
  sent_sum m + n < 2 ^ 64 -> received_sum m < 2 ^ 64 ->
  exists m', record_sent m id n = Ok m' /\ mux_inv a own m' /\
    total_bytes m' = Ok (sent_sum m + n, received_sum m).
Proof.
  intros Hinv [s Hs] Hn H1 H2. unfold get_stream in *. pose proof (entry_le_sum a own m id s Hinv Hs) as Hle.
  destruct (inv_entry _ _ _ Hinv _ _ Hs) as (Hid & (Hid2 & Hwin & Hse & Hre) & _).
  unfold record_sent. rewrite Hs, arith_small by lia. cbn.
  eexists. split; [done|].
  match goal with |- _ /\ total_bytes ?m' = _ => assert (mux_inv a own m') as Hinv' end.
  { apply (replace_entry_inv a own m id s); [done..|]. unfold typed. cbn. lia. }
  split; [done|].
  erewrite total_bytes_sums; [|done|..]; unfold sent_sum, received_sum in *; cbn in *;
    rewrite !(map_fold_replace _ _ id s) by done; cbn; [|lia..]. do 2 f_equal; lia.
Qed.
End operations.

(** ** Witnesses *)

(** A peer that uses our parity, and a caller that changes an identifier. *)
Definition any_users : users := {| peer_parity := false; ids_kept := false |}.
Lemma mux_reachable_inv_witness :
  exists m, rtc (mux_step (H:=false) any_users false) (new_mux false) m /\ stream_count m = 1%nat /\ mux_inv any_users false m.
Proof.
  assert (rtc (mux_step (H:=false) any_users false) (new_mux false)
            (match register_remote_stream new_server 2 None false with Ok m => m | _ => new_server end)) as Hr.
  { eapply rtc_l; [|apply rtc_refl]. apply (step_register (H:=false) any_users false new_server 2 None false); [lia|discriminate|reflexivity]. }
  eexists. split; [exact Hr|]. split; [vm_compute; reflexivity|]. exact (mux_reachable_inv any_users false _ Hr).
Defined.

Lemma open_stream_fresh_witness :
  exists id m', open_stream (H:=false) new_client None false = Ok (id, m') /\ Z.odd id = true /\ stream_count m' = 1%nat.
Proof.
  destruct (open_stream_fresh (H:=false) {| peer_parity := true; ids_kept := false |} true 0 new_client None false) as (id & m' & H1 & _ & H3 & _ & _ & H6 & _).
  - reflexivity.
  - apply relations.nsteps_O.
  - reflexivity.
  - vm_compute. reflexivity.
  - exists id, m'. split; [exact H1|]. split; [exact H3|]. rewrite H6. vm_compute. reflexivity.
Defined.

Definition ex_mux : Multiplexer := {| streams := {[3 := new_stream 3 None false]}; next_stream_id := 1; max_streams := 256 |}.

Lemma ex_mux_inv : mux_inv any_users true ex_mux.
Proof.
  split; [vm_compute; congruence | done | done |]. cbn. intros id s Hs.
  apply lookup_singleton_Some in Hs as [<- <-]. unfold typed. cbn. unfold DEFAULT_WINDOW_SIZE. lia.
Qed.

Lemma record_sent_total_witness :
  exists m', record_sent (H:=true) ex_mux 3 100 = Ok m' /\ total_bytes (H:=true) m' = Ok (100, 0).
Proof.
  destruct (record_sent_total (H:=true) any_users true ex_mux 3 100) as (m' & H1 & _ & H3).
  - exact ex_mux_inv.
  - vm_compute. eauto.
  - lia.
  - vm_compute. reflexivity.
  - vm_compute. reflexivity.
  - exists m'. split; [exact H1|]. rewrite H3. vm_compute. reflexivity.
Defined.
