(* ===== verification/TlsRecord.v ===== *)
(** * TLS records (orcax/transport/src/tls_record.rs)

    The record reader and the record writer, and what one makes of the other's
    output for payloads of every length. *)
From S2P Require Import Prelude Stream.

Definition CONTENT_HANDSHAKE : Z := 0x16.
Definition CONTENT_CCS : Z := 0x14.
Definition CONTENT_APPLICATION : Z := 0x17.
Definition HANDSHAKE_CLIENT_HELLO : Z := 0x01.
Definition HANDSHAKE_SERVER_HELLO : Z := 0x02.
Definition MAX_RECORD_SIZE : Z := 16384 + 256.

Record TlsRecordHeader : Type := {
  content_type : Z;
  legacy_version : bytes;
  rec_length : Z
}.

Inductive record_error : Type := ShortHeader | RecordTooLarge (n : Z) | ShortPayload.

(** [read_tls_record]. *)
Definition read_tls_record : Io record_error (TlsRecordHeader * bytes) :=
  hdr ← io_map_err (fun _ => ShortHeader) (read_exact 5);
  h0 ← lift (idx hdr 0);
  h1 ← lift (idx hdr 1);
  h2 ← lift (idx hdr 2);
  h3 ← lift (idx hdr 3);
  h4 ← lift (idx hdr 4);
  let header := {| content_type := h0; legacy_version := [h1; h2]; rec_length := be_decode [h3; h4] |} in
  _ ← lift (ensure (negb (MAX_RECORD_SIZE <? rec_length header)) (RecordTooLarge (rec_length header)));
  payload ← io_map_err (fun _ => ShortPayload) (read_exact (Z.to_nat (rec_length header)));
  mret (header, payload).

(** [build_tls_record]: the length field is [payload.len() as u16]. *)
Definition build_tls_record (content_type : Z) (payload : bytes) : bytes :=
  [content_type] ++ [0x03; 0x03] ++ be_encode 2 (u16 (zlen payload)) ++ payload.

(** ** Lemmas *)

Lemma u16_range z : 0 <= u16 z < 65536.
Proof. apply Z.mod_pos_bound. lia. Qed.

Lemma read_header ct b3 b4 r k t o rest :
  clean r -> pending r = [ct; 3; 3; b3; b4] ++ rest ->
  exists r', clean r' /\ pending r' = rest /\
    read_tls_record (Sock (r ++ k) t o) =
      ((_ ← lift (ensure (negb (MAX_RECORD_SIZE <? be_decode [b3; b4])) (RecordTooLarge (be_decode [b3; b4])));
        payload ← io_map_err (fun _ => ShortPayload) (read_exact (Z.to_nat (be_decode [b3; b4])));
        mret ({| content_type := ct; legacy_version := [3; 3]; rec_length := be_decode [b3; b4] |}, payload))
       : Io record_error (TlsRecordHeader * bytes)) (Sock (r' ++ k) t o).
Proof.
  intros Hc Hp. destruct (read_exact_clean 5 r k t o _ _ Hc Hp eq_refl) as (r' & Hr & Hc' & Hp').
  exists r'. split; [done|]. split; [done|]. unfold read_tls_record.
  by rewrite (io_bind_ok _ _ _ _ _ (io_map_err_ok _ _ _ _ _ Hr)).
Qed.

(** ** The record layer's contract *)

(** What [read_tls_record] makes of the output of [build_tls_record], for
    every payload and every way the bytes arrive.  A payload of up to 16640
    bytes comes back whole and the stream is left at the next record.  A longer
    one is refused, unless its length modulo 65536 happens to be small: the
    16-bit length field then names only a prefix, and the remaining bytes of
    the payload are left to be read as the next record. *)
Theorem tls_record_roundtrip (ct : Z) (p rest : bytes) (r : list chunk) (t : bytes) (o : bool) :
  clean r -> pending r = build_tls_record ct p ++ rest ->
  let n := Z.to_nat (u16 (zlen p)) in
  exists s', read_tls_record (Sock r t o) =
      ((if MAX_RECORD_SIZE <? Z.of_nat n then Err (RecordTooLarge (Z.of_nat n))
        else Ok ({| content_type := ct; legacy_version := [3; 3]; rec_length := Z.of_nat n |}, take n p)), s') /\
    pending (rx s') = (if MAX_RECORD_SIZE <? Z.of_nat n then p else drop n p) ++ rest /\
    (zlen p <= MAX_RECORD_SIZE -> take n p = p /\ drop n p = []).
Proof.
  intros Hc Hp n. unfold build_tls_record in Hp.
  pose proof (u16_range (zlen p)) as Hu. assert (Z.of_nat n = u16 (zlen p)) as Hn by (unfold n; lia).
  assert (Hlen : be_decode (be_encode 2 (u16 (zlen p))) = Z.of_nat n)
    by (rewrite be_decode_encode_2; [done | lia]).
  destruct (be_encode 2 (u16 (zlen p))) as [|b3 [|b4 [|? ?]]] eqn:Hb;
    pose proof (be_encode_length 2 (u16 (zlen p))) as Hl; rewrite Hb in Hl; try done. clear Hl.
  rewrite <- app_assoc in Hp. cbn [app] in Hp.
  destruct (read_header ct b3 b4 r [] t o (p ++ rest) Hc Hp) as (r1 & Hc1 & Hp1 & Hrd).
  rewrite !app_nil_r in Hrd. rewrite Hlen in Hrd.
  assert (Hsmall : zlen p <= MAX_RECORD_SIZE -> take n p = p /\ drop n p = []).
  { unfold MAX_RECORD_SIZE. intros Hz. rewrite u16_small in Hn by (pose proof (zlen_nonneg p); lia).
    unfold zlen in Hn. split; [apply take_ge | apply drop_ge]; lia. }
  destruct (Z.ltb_spec MAX_RECORD_SIZE (Z.of_nat n)) as [Hbig|Hok].
  - eexists. split; [exact Hrd|]. by cbn.
  - assert (n <= length p)%nat as Hle.
    { unfold u16, zlen in Hn. pose proof (Z.mod_le (Z.of_nat (length p)) 65536 ltac:(lia) ltac:(lia)).
      change (2 ^ 16) with 65536 in Hn. lia. }
    rewrite <- (take_drop n p), <- app_assoc in Hp1 at 1.
    destruct (read_exact_clean n r1 [] t o _ _ Hc1 Hp1 ltac:(rewrite length_take; lia)) as (r2 & Hr2 & _ & Hp2).
    rewrite !app_nil_r in Hr2. exists (Sock r2 t o). split; [|by cbn; split].
    rewrite Hrd. cbn [ensure negb]. rewrite io_lift_ok with (a := tt) by done.
    rewrite Nat2Z.id. by rewrite (io_bind_ok _ _ _ _ _ (io_map_err_ok _ _ _ _ _ Hr2)).
Qed.

Lemma tls_record_roundtrip_witness :
  exists s', read_tls_record (Sock [Data [0x16; 3]; Stall; Data [3; 0; 2; 1]; Data [2; 9]] [] true) =
    (Ok ({| content_type := 0x16; legacy_version := [3; 3]; rec_length := 2 |}, [1; 2]), s') /\ pending (rx s') = [9].
Proof.
  destruct (tls_record_roundtrip 0x16 [1; 2] [9] [Data [0x16; 3]; Stall; Data [3; 0; 2; 1]; Data [2; 9]] [] true)
    as (s' & H1 & H2 & _); [by apply (bool_decide_unpack _) | reflexivity |].
  exists s'. split; [exact H1 | exact H2].
Defined.
