(* ===== verification/ClientHello.v ===== *)
(** * The ClientHello parser (orcax/transport/src/client_hello.rs)

    The parser's positions are naturals, its two [while] loops take fuel, and
    running out of fuel is an error of its own that is shown not to occur. *)
From S2P Require Import Prelude RustStd.

Record ClientHelloInfo : Type := {
  raw : bytes;
  random : bytes;
  session_id : bytes;
  session_id_offset : nat;
  sni : option bytes;
  x25519_key : option bytes;
  cipher_suites : list Z
}.

Inductive hello_error : Type :=
| HandshakeTooShort
| NotClientHello (ty : Z)
| HelloTruncated (have need : nat)
| MissingVersion
| MissingRandom
| MissingSessionIdLength
| TruncatedSessionId
| MissingCipherSuitesLength
| InvalidCipherSuites
| MissingCompression
| HelloDiverged.

(** ** Operations *)

(** [u16::from_be_bytes([d[i], d[i + 1]])]. *)
Definition be16_at (d : bytes) (i : nat) : result hello_error Z :=
  a ← idx d i; b ← idx d (i + 1); Ok (be_decode [a; b]).

(** [parse_sni]. *)
Definition parse_sni (data : bytes) : result hello_error (option bytes) :=
  if (length data <? 5)%nat then Ok None else
  _ ← be16_at data 0;
  name_type ← idx data 2;
  if negb (name_type =? 0) then Ok None else
  n ← be16_at data 3;
  let name_len := Z.to_nat n in
  if (length data <? 5 + name_len)%nat then Ok None else
  name ← slice data 5 (5 + name_len);
  Ok (from_utf8 name).

(** [parse_key_share]: the [while] loop, then the function. *)
Fixpoint key_share_loop (fuel : nat) (data : bytes) (pos fin : nat) : result hello_error (option bytes) :=
  match fuel with
  | O => Err HelloDiverged
  | S fuel' =>
    if (pos + 4 <=? fin)%nat then
      group ← be16_at data pos;
      n ← be16_at data (pos + 2);
      let key_len := Z.to_nat n in
      let pos := (pos + 4)%nat in
      if (length data <? pos + key_len)%nat then Ok None
      else if (group =? 0x001d) && (key_len =? 32)%nat then
        key ← slice data pos (pos + 32);
        Ok (Some key)
      else key_share_loop fuel' data (pos + key_len) fin
    else Ok None
  end.
Definition parse_key_share (data : bytes) : result hello_error (option bytes) :=
  if (length data <? 2)%nat then Ok None else
  n ← be16_at data 0;
  let list_len := Z.to_nat n in
  key_share_loop (S (length data)) data 2 (Nat.min (2 + list_len) (length data)).

(** The cipher suite loop, [for i in (0..cs_len).step_by(2)]. *)
Fixpoint suites_loop (body : bytes) (pos count : nat) : result hello_error (list Z) :=
  match count with
  | O => Ok []
  | S count' =>
      s ← be16_at body pos;
      l ← suites_loop body (pos + 2) count';
      Ok (s :: l)
  end.

(** The extension loop. *)
Fixpoint ext_loop (fuel : nat) (body : bytes) (pos ext_end : nat) (sni key : option bytes)
  : result hello_error (option bytes * option bytes) :=
  match fuel with
  | O => Err HelloDiverged
  | S fuel' =>
    if (pos + 4 <=? ext_end)%nat && (pos + 4 <=? length body)%nat then
      ext_type ← be16_at body pos;
      n ← be16_at body (pos + 2);
      let ext_data_len := Z.to_nat n in
      let pos := (pos + 4)%nat in
      if (length body <? pos + ext_data_len)%nat then Ok (sni, key) else
      ext_data ← slice body pos (pos + ext_data_len);
      '(sni, key) ←
        (if ext_type =? 0x0000 then s ← parse_sni ext_data; Ok (s, key)
         else if ext_type =? 0x0033 then k ← parse_key_share ext_data; Ok (sni, k)
         else Ok (sni, key));
      ext_loop fuel' body (pos + ext_data_len) ext_end sni key
    else Ok (sni, key)
  end.

Definition parse_extensions (body : bytes) (pos : nat) : result hello_error (option bytes * option bytes) :=
  if (pos + 2 <? length body)%nat then
    n ← be16_at body pos;
    let pos := (pos + 2)%nat in
    ext_loop (S (length body)) body pos (pos + Z.to_nat n) None None
  else Ok (None, None).

(** [parse_client_hello], from the cipher suites at [pos] to the end. *)
Definition parse_suites_and_rest (body : bytes) (pos : nat)
  : result hello_error (list Z * (option bytes * option bytes)) :=
  _ ← ensure (pos + 2 <=? length body)%nat MissingCipherSuitesLength;
  n ← be16_at body pos;
  let cs_len := Z.to_nat n in
  let pos := (pos + 2)%nat in
  _ ← ensure (negb ((length body <? pos + cs_len)%nat || negb (cs_len mod 2 =? 0)%nat)) InvalidCipherSuites;
  suites ← suites_loop body pos (cs_len / 2);
  let pos := (pos + cs_len)%nat in
  _ ← ensure (pos + 1 <=? length body)%nat MissingCompression;
  c ← idx body pos;
  let pos := (pos + (1 + Z.to_nat c))%nat in
  exts ← parse_extensions body pos;
  Ok (suites, exts).

(** [parse_client_hello]. *)
Definition parse_client_hello (data : bytes) : result hello_error ClientHelloInfo :=
  _ ← ensure (4 <=? length data)%nat HandshakeTooShort;
  hs_type ← idx data 0;
  _ ← ensure (hs_type =? 0x01) (NotClientHello hs_type);
  d1 ← idx data 1;
  d2 ← idx data 2;
  d3 ← idx data 3;
  let hs_len := Z.to_nat (Z.lor (Z.lor (Z.shiftl d1 16) (Z.shiftl d2 8)) d3) in
  _ ← ensure (4 + hs_len <=? length data)%nat (HelloTruncated (length data) (4 + hs_len));
  raw ← slice data 0 (4 + hs_len);
  body ← slice data 4 (4 + hs_len);
  _ ← ensure (2 <=? length body)%nat MissingVersion;
  _ ← ensure (34 <=? length body)%nat MissingRandom;
  random ← slice body 2 34;
  _ ← ensure (35 <=? length body)%nat MissingSessionIdLength;
  sl ← idx body 34;
  let session_id_len := Z.to_nat sl in
  let session_id_offset := (4 + 2 + 32 + 1)%nat in
  _ ← ensure (35 + session_id_len <=? length body)%nat TruncatedSessionId;
  session_id ← slice body 35 (35 + session_id_len);
  let pos := (35 + session_id_len)%nat in
  '(cipher_suites, (sni, x25519_key)) ← parse_suites_and_rest body pos;
  Ok {| raw := raw; random := random; session_id := session_id; session_id_offset := session_id_offset;
        sni := sni; x25519_key := x25519_key; cipher_suites := cipher_suites |}.

(** ** The wire format, written down (RFC 8446, section 4.1.2) *)

Definition encode_ext (e : Z * bytes) : bytes := be_encode 2 e.1 ++ be_encode 2 (zlen e.2) ++ e.2.
Definition encode_hello_body (rnd sid : bytes) (suites : list Z) (comp : bytes) (exts : list (Z * bytes)) : bytes :=
  [3; 3] ++ rnd ++ [zlen sid] ++ sid ++
  be_encode 2 (2 * zlen suites) ++ flat_map (be_encode 2) suites ++
  [zlen comp] ++ comp ++
  be_encode 2 (zlen (flat_map encode_ext exts)) ++ flat_map encode_ext exts.
Definition encode_hello (rnd sid : bytes) (suites : list Z) (comp : bytes) (exts : list (Z * bytes)) : bytes :=
  let body := encode_hello_body rnd sid suites comp exts in
  [1] ++ be_encode 3 (zlen body) ++ body.

(** A server_name extension with one host name, and a key_share extension. *)
Definition sni_ext (name : bytes) : bytes := be_encode 2 (zlen name + 3) ++ [0] ++ be_encode 2 (zlen name) ++ name.
Definition encode_share (s : Z * bytes) : bytes := be_encode 2 s.1 ++ be_encode 2 (zlen s.2) ++ s.2.
Definition key_share_ext (shares : list (Z * bytes)) : bytes :=
  be_encode 2 (zlen (flat_map encode_share shares)) ++ flat_map encode_share shares.

(** The key a client means: its first x25519 share. *)
Definition first_x25519 (shares : list (Z * bytes)) : option bytes :=
  snd <$> List.find (fun s => (s.1 =? 0x001d) && (length s.2 =? 32)%nat) shares.

(** ** Lemmas *)

Lemma be16_at_ok d i pre z post :
  d = pre ++ be_encode 2 z ++ post -> i = length pre -> 0 <= z < 65536 -> be16_at d i = Ok z.
Proof.
  intros -> -> Hz. unfold be16_at. rewrite (idx_app_0 pre _ (length pre)), (idx_app pre _ (length pre)) by done. cbn.
  f_equal. exact (be_decode_encode_2 z Hz).
Qed.

Lemma be16_at_no_panic d i : (i + 2 <= length d)%nat -> no_panic (be16_at d i).
Proof. intros. unfold be16_at. solve_no_panic. Qed.
Lemma be16_at_not_err d i e : be16_at d i <> Err e.
Proof. unfold be16_at, idx. destruct (d !! i); [|done]. cbn. by destruct (d !! (i + 1)%nat). Qed.
Lemma be16_at_range d i z : wf_bytes d -> be16_at d i = Ok z -> 0 <= z < 65536.
Proof.
  intros Hd H. unfold be16_at in H. inv_ok.
  match goal with |- 0 <= be_decode ?l < _ => apply (be_decode_bound l) end.
  repeat match goal with H : idx _ _ = Ok _ |- _ => apply idx_inv in H end. eauto with orcax.
Qed.

(** Runs a read that stays inside its slice. *)
Ltac read16 d i v :=
  let H := fresh in
  destruct (be16_at d i) as [v|?|] eqn:H;
  [clear H | by apply be16_at_not_err in H | by apply be16_at_no_panic in H; [|lia]]; cbn [mbind result_bind].
Ltac read8 d i v :=
  let H := fresh in
  destruct (idx d i) as [v|?|] eqn:H;
  [clear H | by apply idx_not_err in H | by apply no_panic_idx in H; [|lia]]; cbn [mbind result_bind].

Lemma parse_sni_total data : exists o, parse_sni data = Ok o.
Proof.
  unfold parse_sni. destruct (Nat.ltb_spec (length data) 5) as [|Hl]; [eauto|].
  read16 data 0%nat m.
  read8 data 2%nat c. destruct (negb (c =? 0)); [eauto|].
  read16 data 3%nat n. destruct (Nat.ltb_spec (length data) (5 + Z.to_nat n)); [eauto|].
  rewrite slice_ok by lia. eauto.
Qed.

(** Every turn of a loop advances, so fuel beyond the remaining length is not
    used up; all reads are inside the data. *)
Lemma key_share_loop_total fuel data pos fin :
  (fin <= length data)%nat -> (fin - pos < fuel)%nat ->
  exists o, key_share_loop fuel data pos fin = Ok o /\ (forall k, o = Some k -> length k = 32%nat).
Proof.
  intros Hfin. revert pos. induction fuel as [|fuel IH]; intros pos Hf; cbn [key_share_loop].
  { lia. }
  destruct (Nat.leb_spec (pos + 4) fin) as [Hle|]; [|by exists None].
  read16 data pos g. read16 data (pos + 2)%nat n. destruct (Nat.ltb_spec (length data) (pos + 4 + Z.to_nat n)); [by exists None|].
  destruct ((g =? 29) && (Z.to_nat n =? 32)%nat) eqn:Hk.
  - rewrite slice_ok by lia. eexists. split; [done|]. intros k [= <-].
    rewrite length_take, length_drop. lia.
  - apply IH. lia.
Qed.

Lemma parse_key_share_total data :
  exists o, parse_key_share data = Ok o /\ (forall k, o = Some k -> length k = 32%nat).
Proof.
  unfold parse_key_share. destruct (Nat.ltb_spec (length data) 2); [by exists None|].
  read16 data 0%nat n. apply key_share_loop_total; lia.
Qed.

Lemma ext_loop_total fuel body pos ext_end s k :
  (length body - pos < fuel)%nat -> (forall x, k = Some x -> length x = 32%nat) ->
  exists s' k', ext_loop fuel body pos ext_end s k = Ok (s', k') /\ (forall x, k' = Some x -> length x = 32%nat).
Proof.
  revert pos s k. induction fuel as [|fuel IH]; intros pos s k Hf Hk; cbn [ext_loop]; [lia|].
  destruct ((pos + 4 <=? ext_end)%nat && (pos + 4 <=? length body)%nat) eqn:Hc; [|eauto].
  read16 body pos ty. read16 body (pos + 2)%nat n. destruct (Nat.ltb_spec (length body) (pos + 4 + Z.to_nat n)); [eauto|].
  rewrite slice_ok by lia. cbn. set (d := take _ _).
  destruct (ty =? 0); [destruct (parse_sni_total d) as [o ->]; cbn; apply IH; auto; lia|].
  destruct (ty =? 51); [destruct (parse_key_share_total d) as (o & -> & Ho); cbn; apply IH; auto; lia|].
  cbn. apply IH; auto; lia.
Qed.

Lemma parse_extensions_total body pos :
  exists s k, parse_extensions body pos = Ok (s, k) /\ (forall x, k = Some x -> length x = 32%nat).
Proof.
  unfold parse_extensions. destruct (Nat.ltb_spec (pos + 2) (length body)); [|by exists None, None].
  read16 body pos n. apply ext_loop_total; [lia | done].
Qed.

Lemma suites_loop_total body pos count :
  (pos + 2 * count <= length body)%nat -> exists l, suites_loop body pos count = Ok l.
Proof.
  revert pos; induction count as [|count IH]; intros pos Hl; cbn [suites_loop]; [eauto|].
  read16 body pos n. destruct (IH (pos + 2)%nat ltac:(lia)) as [l ->]. cbn. eauto.
Qed.

Definition hello_total {A} (m : result hello_error A) : Prop := m <> Panic /\ m <> Err HelloDiverged.

Lemma hello_total_bind {A B} (m : result hello_error A) (f : A -> result hello_error B) :
  hello_total m -> (forall a, m = Ok a -> hello_total (f a)) -> hello_total (m ≫= f).
Proof. destruct m; intros [H1 H2] Hf; cbn; [by apply Hf | split; congruence | done]. Qed.
Lemma hello_total_ensure b e : e <> HelloDiverged -> hello_total (ensure b e).
Proof. intros. destruct b; split; cbn; congruence. Qed.
Lemma hello_total_idx d i : (i < length d)%nat -> hello_total (idx d i).
Proof. intros H. split; [by apply no_panic_idx | apply idx_not_err]. Qed.
Lemma hello_total_slice d a b : (a <= b <= length d)%nat -> hello_total (slice d a b).
Proof. intros H. rewrite slice_ok by done. done. Qed.
Lemma hello_total_be16 d i : (i + 2 <= length d)%nat -> hello_total (be16_at d i).
Proof. intros H. split; [by apply be16_at_no_panic | apply be16_at_not_err]. Qed.
Lemma hello_total_ok {A} (a : A) : hello_total (Ok a).
Proof. done. Qed.
Lemma hello_total_ex {A} (m : result hello_error A) : (exists a, m = Ok a) -> hello_total m.
Proof. by intros [a ->]. Qed.
#[export] Hint Resolve hello_total_ok hello_total_ensure : orcax.

Ltac step_total :=
  match goal with
  | |- hello_total (_ ≫= _) => apply hello_total_bind; [|intros ? ?]
  | |- hello_total (idx _ _) => apply hello_total_idx
  | |- hello_total (slice _ _ _) => apply hello_total_slice
  | |- hello_total (be16_at _ _) => apply hello_total_be16
  | |- hello_total (ensure _ _) => by apply hello_total_ensure
  | |- hello_total (Ok _) => apply hello_total_ok
  | H : slice _ _ _ = Ok _ |- _ => apply slice_inv in H as (? & ? & ?)
  | H : ensure _ _ = Ok _ |- _ => apply ensure_ok_inv in H
  | |- hello_total (match ?x with _ => _ end) => destruct x
  end.

Lemma parse_suites_total body pos : hello_total (parse_suites_and_rest body pos).
Proof.
  unfold parse_suites_and_rest. repeat step_total; try lia.
  - apply hello_total_ex, suites_loop_total.
    match goal with |- context [(?n / 2)%nat] => pose proof (Nat.div_mod n 2 ltac:(lia)); lia end.
  - apply hello_total_ex. destruct (parse_extensions_total body (pos + 2 + Z.to_nat a0 + (1 + Z.to_nat a4))) as (s & k & -> & _).
    eauto.
Qed.

Lemma parse_suites_key body pos cs s k :
  parse_suites_and_rest body pos = Ok (cs, (s, k)) -> forall x, k = Some x -> length x = 32%nat.
Proof.
  unfold parse_suites_and_rest. intros H x Hx. inv_ok.
  match goal with H : parse_extensions ?b ?p = Ok _ |- _ =>
    destruct (parse_extensions_total b p) as (s' & k' & He & Hk); rewrite He in H end.
  simplify_eq. by apply Hk.
Qed.

(** *** Parsing what the wire format writes *)

Lemma encode_ext_length ty d : length (encode_ext (ty, d)) = (4 + length d)%nat.
Proof. unfold encode_ext. rewrite !length_app, !be_encode_length. cbn. lia. Qed.

Lemma be_encode_2_bytes z : exists a b, be_encode 2 z = [a; b].
Proof.
  pose proof (be_encode_length 2 z). destruct (be_encode 2 z) as [|a [|b [|? ?]]]; try done. eauto.
Qed.

Lemma parse_sni_ext name :
  utf8_valid name = true -> zlen name < 65536 -> parse_sni (sni_ext name) = Ok (Some name).
Proof.
  intros Hu Hz. unfold parse_sni, sni_ext. unfold zlen in Hz.
  pose proof (be_decode_encode_2 (zlen name) ltac:(unfold zlen; lia)) as Hn.
  destruct (be_encode_2_bytes (zlen name + 3)) as (a & b & ->).
  destruct (be_encode_2_bytes (zlen name)) as (c & d & Hcd). rewrite Hcd in *.
  destruct (Nat.ltb_spec (length ([a; b] ++ [0] ++ [c; d] ++ name)) 5) as [Hl|_]; [cbn in Hl; lia|].
  cbn [app be16_at idx lookup list_lookup mbind result_bind unwrap negb Z.eqb Nat.add].
  rewrite Hn. unfold zlen. rewrite Nat2Z.id.
  rewrite (proj2 (Nat.ltb_ge _ _)) by (cbn; lia).
  rewrite slice_ok by (cbn; lia). cbn [skipn mbind result_bind].
  rewrite drop_0, take_ge by lia. unfold from_utf8. by rewrite Hu.
Qed.

Lemma key_share_loop_shares fuel pre shares fin :
  Forall (fun s => 0 <= s.1 < 65536 /\ zlen s.2 < 65536) shares ->
  fin = length (pre ++ flat_map encode_share shares) -> (length shares < fuel)%nat ->
  key_share_loop fuel (pre ++ flat_map encode_share shares) (length pre) fin = Ok (first_x25519 shares).
Proof.
  intros Hs. revert pre fuel fin. induction Hs as [|[g k] shares [Hg Hk] Hs IH]; intros pre fuel fin -> Hf;
    (destruct fuel as [|fuel]; [cbn in Hf; lia|]); cbn [key_share_loop flat_map]; cbn [fst snd] in *.
  { cbn. rewrite app_nil_r. destruct (Nat.leb_spec (length pre + 4) (length pre)); [lia | done]. }
  set (rest := flat_map encode_share shares) in *.
  assert (length (encode_share (g, k)) = (4 + length k)%nat) as Hel by apply encode_ext_length.
  destruct (Nat.leb_spec (length pre + 4) (length (pre ++ encode_share (g, k) ++ rest))) as [_|Hl];
    [|rewrite !length_app in Hl; lia].
  unfold zlen in Hk. assert (Hrw : encode_share (g, k) = be_encode 2 g ++ be_encode 2 (zlen k) ++ k) by done.
  rewrite (be16_at_ok _ (length pre) pre g (be_encode 2 (zlen k) ++ k ++ rest)); [|by rewrite Hrw, <- !app_assoc | reflexivity | exact Hg].
  cbn [mbind result_bind].
  rewrite (be16_at_ok _ (length pre + 2) (pre ++ be_encode 2 g) (zlen k) (k ++ rest));
    [| by rewrite Hrw, <- !app_assoc | by rewrite length_app, be_encode_length | unfold zlen; lia].
  cbn [mbind result_bind]. replace (Z.to_nat (zlen k)) with (length k) by (unfold zlen; lia).
  destruct (Nat.ltb_spec (length (pre ++ encode_share (g, k) ++ rest)) (length pre + 4 + length k)) as [Hl|_];
    [rewrite !length_app in Hl; lia|].
  unfold first_x25519. cbn [List.find fst snd].
  destruct ((g =? 29) && (length k =? 32)%nat) eqn:Hx.
  - replace (pre ++ encode_share (g, k) ++ rest)
      with ((pre ++ be_encode 2 g ++ be_encode 2 (zlen k)) ++ k ++ rest) by by rewrite Hrw, <- !app_assoc.
    rewrite slice_app_at; [done | rewrite !length_app, !be_encode_length; lia | lia].
  - replace (pre ++ encode_share (g, k) ++ rest) with ((pre ++ encode_share (g, k)) ++ rest)
      by by rewrite <- app_assoc.
    replace (length pre + 4 + length k)%nat with (length (pre ++ encode_share (g, k)))
      by (rewrite length_app; lia).
    apply IH; [done | cbn in Hf; lia].
Qed.

Lemma flat_map_share_length shares : (length shares <= length (flat_map encode_share shares))%nat.
Proof.
  induction shares as [|[g k] shares IH]; cbn; [lia|].
  rewrite length_app. pose proof (encode_ext_length g k) as He. unfold encode_ext, encode_share in *. lia.
Qed.

Lemma parse_key_share_ext shares :
  Forall (fun s => 0 <= s.1 < 65536 /\ zlen s.2 < 65536) shares ->
  zlen (flat_map encode_share shares) < 65536 ->
  parse_key_share (key_share_ext shares) = Ok (first_x25519 shares).
Proof.
  intros Hs Hz. unfold parse_key_share, key_share_ext. set (l := flat_map encode_share shares) in *.
  assert (length (be_encode 2 (zlen l) ++ l) = (2 + length l)%nat) as Hlen
    by (rewrite length_app, be_encode_length; lia).
  destruct (Nat.ltb_spec (length (be_encode 2 (zlen l) ++ l)) 2); [lia|].
  unfold zlen in Hz. rewrite (be16_at_ok _ 0 [] (zlen l) l) by (done || unfold zlen; lia).
  cbn [mbind result_bind]. replace (Z.to_nat (zlen l)) with (length l) by (unfold zlen; lia).
  pose proof (flat_map_share_length shares) as Hsl. fold l in Hsl.
  pose proof (key_share_loop_shares (S (length (be_encode 2 (zlen l) ++ l))) (be_encode 2 (zlen l)) shares
    (Nat.min (2 + length l) (length (be_encode 2 (zlen l) ++ l))) Hs) as Hloop.
  rewrite be_encode_length in Hloop. apply Hloop; fold l; lia.
Qed.

(** What the loop makes of one extension. *)
Definition apply_ext (acc : option bytes * option bytes) (e : Z * bytes) : option bytes * option bytes :=
  if e.1 =? 0 then (match parse_sni e.2 with Ok o => o | _ => None end, acc.2)
  else if e.1 =? 0x33 then (acc.1, match parse_key_share e.2 with Ok o => o | _ => None end)
  else acc.

Definition wf_ext (e : Z * bytes) : Prop := 0 <= e.1 < 65536 /\ zlen e.2 < 65536.
#[export] Instance wf_ext_dec e : Decision (wf_ext e).
Proof. unfold wf_ext. apply _. Defined.

Lemma ext_loop_exts fuel pre exts fin acc :
  Forall wf_ext exts -> fin = length (pre ++ flat_map encode_ext exts) -> (length exts < fuel)%nat ->
  ext_loop fuel (pre ++ flat_map encode_ext exts) (length pre) fin acc.1 acc.2 = Ok (foldl apply_ext acc exts).
Proof.
  intros Hs. revert pre fuel fin acc. induction Hs as [|[ty d] exts [Hty Hd] Hs IH]; intros pre fuel fin acc -> Hf;
    (destruct fuel as [|fuel]; [cbn in Hf; lia|]); cbn [ext_loop flat_map foldl]; cbn [fst snd] in *.
  { cbn. rewrite app_nil_r. destruct (Nat.leb_spec (length pre + 4) (length pre)); [lia |]. by destruct acc. }
  set (rest := flat_map encode_ext exts) in *.
  pose proof (encode_ext_length ty d) as Hel.
  destruct (Nat.leb_spec (length pre + 4) (length (pre ++ encode_ext (ty, d) ++ rest))) as [_|Hl];
    [|rewrite !length_app in Hl; lia].
  unfold zlen in Hd. assert (Hrw : encode_ext (ty, d) = be_encode 2 ty ++ be_encode 2 (zlen d) ++ d) by done.
  cbn [andb]. rewrite (be16_at_ok _ (length pre) pre ty (be_encode 2 (zlen d) ++ d ++ rest));
    [|by rewrite Hrw, <- !app_assoc | reflexivity | exact Hty].
  cbn [mbind result_bind].
  rewrite (be16_at_ok _ (length pre + 2) (pre ++ be_encode 2 ty) (zlen d) (d ++ rest));
    [| by rewrite Hrw, <- !app_assoc | by rewrite length_app, be_encode_length | unfold zlen; lia].
  cbn [mbind result_bind]. replace (Z.to_nat (zlen d)) with (length d) by (unfold zlen; lia).
  destruct (Nat.ltb_spec (length (pre ++ encode_ext (ty, d) ++ rest)) (length pre + 4 + length d)) as [Hl|_];
    [rewrite !length_app in Hl; lia|].
  replace (slice (pre ++ encode_ext (ty, d) ++ rest) (length pre + 4) (length pre + 4 + length d))
    with (@Ok hello_error _ d).
  2: { symmetry. replace (pre ++ encode_ext (ty, d) ++ rest)
      with ((pre ++ be_encode 2 ty ++ be_encode 2 (zlen d)) ++ d ++ rest) by by rewrite Hrw, <- !app_assoc.
    apply slice_app_at; [rewrite !length_app, !be_encode_length; lia | done]. }
  cbn [mbind result_bind]. rewrite app_assoc.
  replace (length pre + 4 + length d)%nat with (length (pre ++ encode_ext (ty, d))) by (rewrite length_app; lia).
  assert (Hf' : (length exts < fuel)%nat) by (cbn in Hf; lia). unfold apply_ext at 2. cbn [fst snd].
  destruct (ty =? 0); [|destruct (ty =? 51)].
  - destruct (parse_sni_total d) as [o ->]. cbn [mbind result_bind]. by apply (IH _ _ _ (o, acc.2)).
  - destruct (parse_key_share_total d) as (o & -> & _). cbn [mbind result_bind]. by apply (IH _ _ _ (acc.1, o)).
  - cbn [mbind result_bind]. by apply IH.
Qed.

Lemma suites_loop_suites pre suites post :
  Forall (fun s => 0 <= s < 65536) suites ->
  suites_loop (pre ++ flat_map (be_encode 2) suites ++ post) (length pre) (length suites) = Ok suites.
Proof.
  intros Hs. revert pre. induction Hs as [|s suites Hb Hs IH]; intros pre; cbn [suites_loop length flat_map]; [done|].
  rewrite (be16_at_ok _ (length pre) pre s (flat_map (be_encode 2) suites ++ post));
    [| by rewrite <- !app_assoc | done | done].
  cbn [mbind result_bind]. specialize (IH (pre ++ be_encode 2 s)).
  rewrite length_app, be_encode_length, <- !app_assoc in IH. rewrite <- app_assoc, IH. done.
Qed.

Lemma hs_len_be d1 d2 d3 :
  is_byte d1 -> is_byte d2 -> is_byte d3 ->
  Z.lor (Z.lor (Z.shiftl d1 16) (Z.shiftl d2 8)) d3 = be_decode [d1; d2; d3].
Proof.
  unfold is_byte. intros H1 H2 H3. rewrite <- Z.lor_assoc, (Z.lor_comm _ d3), (lor_shift_add d3 d2 8) by lia.
  rewrite Z.lor_comm, lor_shift_add by lia. cbn. lia.
Qed.

Record wf_hello (rnd sid : bytes) (suites : list Z) (comp : bytes) (exts : list (Z * bytes)) : Prop := {
  wf_rnd : length rnd = 32%nat;
  wf_sid : zlen sid < 256;
  wf_suites : Forall (fun s => 0 <= s < 65536) suites /\ 2 * zlen suites < 65536;
  wf_comp : zlen comp < 256;
  wf_exts : Forall wf_ext exts /\ zlen (flat_map encode_ext exts) < 65536
}.

Lemma flat_map_be2_length suites : length (flat_map (be_encode 2) suites) = (2 * length suites)%nat.
Proof. induction suites as [|s l IH]; cbn [flat_map length]; [done|]. rewrite length_app, be_encode_length. lia. Qed.
Lemma flat_map_ext_length exts : (length exts <= length (flat_map encode_ext exts))%nat.
Proof. induction exts as [|[ty d] l IH]; cbn [flat_map length]; [done|]. rewrite length_app, encode_ext_length. lia. Qed.

Lemma parse_extensions_exts pre exts :
  Forall wf_ext exts -> zlen (flat_map encode_ext exts) < 65536 ->
  parse_extensions (pre ++ be_encode 2 (zlen (flat_map encode_ext exts)) ++ flat_map encode_ext exts) (length pre)
  = Ok (foldl apply_ext (None, None) exts).
Proof.
  intros Hw Hz. unfold parse_extensions. pose proof (flat_map_ext_length exts) as Hl.
  set (l := flat_map encode_ext exts) in *. unfold zlen in Hz.
  destruct (Nat.ltb_spec (length pre + 2) (length (pre ++ be_encode 2 (zlen l) ++ l))) as [_|Hs].
  - rewrite (be16_at_ok _ (length pre) pre (zlen l) l) by (done || unfold zlen; lia).
    cbn [mbind result_bind]. replace (Z.to_nat (zlen l)) with (length l) by (unfold zlen; lia).
    pose proof (ext_loop_exts (S (length (pre ++ be_encode 2 (zlen l) ++ l))) (pre ++ be_encode 2 (zlen l)) exts
      (length pre + 2 + length l) (None, None) Hw) as Hloop.
    assert (length (pre ++ be_encode 2 (zlen l)) = (length pre + 2)%nat) as Hpos
      by (by rewrite length_app, be_encode_length).
    fold l in Hloop. rewrite <- app_assoc, Hpos in Hloop. apply Hloop.
    + rewrite !length_app, be_encode_length. lia.
    + rewrite !length_app, be_encode_length. lia.
  - rewrite !length_app, be_encode_length in Hs. assert (length exts = 0)%nat by lia. by destruct exts.
Qed.

Lemma parse_suites_built pre rnd sid suites comp exts :
  wf_hello rnd sid suites comp exts ->
  parse_suites_and_rest (pre ++ be_encode 2 (2 * zlen suites) ++ flat_map (be_encode 2) suites ++
     [zlen comp] ++ comp ++ be_encode 2 (zlen (flat_map encode_ext exts)) ++ flat_map encode_ext exts) (length pre)
  = Ok (suites, foldl apply_ext (None, None) exts).
Proof.
  intros [_ _ [Hs Hsl] Hcl [He Hel]]. unfold parse_suites_and_rest.
  set (l := flat_map encode_ext exts) in *. pose proof (flat_map_be2_length suites) as Hfl.
  set (cs := flat_map (be_encode 2) suites) in *. unfold zlen in Hsl, Hcl.
  set (tl := [zlen comp] ++ comp ++ be_encode 2 (zlen l) ++ l).
  assert (1 <= length tl)%nat by (unfold tl; rewrite length_app; cbn; lia).
  rewrite (ensure_true _ MissingCipherSuitesLength) by (rewrite !length_app, be_encode_length; lia). cbn [mbind result_bind].
  rewrite (be16_at_ok _ (length pre) pre (2 * zlen suites) (cs ++ tl)) by (done || unfold zlen; lia).
  cbn [mbind result_bind]. replace (Z.to_nat (2 * zlen suites)) with (2 * length suites)%nat by (unfold zlen; lia).
  rewrite (ensure_true _ InvalidCipherSuites).
  2: { rewrite (Nat.mul_comm 2 (length suites)), Nat.Div0.mod_mul. rewrite !length_app, be_encode_length, Hfl. lia. }
  cbn [mbind result_bind]. rewrite (Nat.mul_comm 2 (length suites)), Nat.div_mul by lia.
  pose proof (suites_loop_suites (pre ++ be_encode 2 (2 * zlen suites)) suites tl Hs) as Hloop.
  fold cs in Hloop. rewrite <- !app_assoc, length_app, be_encode_length in Hloop. rewrite Hloop. cbn [mbind result_bind].
  rewrite (ensure_true _ MissingCompression) by (rewrite !length_app, be_encode_length, Hfl; lia). cbn [mbind result_bind].
  replace (length pre + 2 + length suites * 2)%nat with (length (pre ++ be_encode 2 (2 * zlen suites) ++ cs))
    by (rewrite !length_app, be_encode_length, Hfl; lia).
  replace (pre ++ be_encode 2 (2 * zlen suites) ++ cs ++ tl) with ((pre ++ be_encode 2 (2 * zlen suites) ++ cs) ++ tl)
    by by rewrite <- !app_assoc.
  rewrite idx_app_0 by done. cbn [idx tl app lookup list_lookup unwrap mbind result_bind].
  replace (Z.to_nat (zlen comp)) with (length comp) by (unfold zlen; lia).
  pose proof (parse_extensions_exts ((pre ++ be_encode 2 (2 * zlen suites) ++ cs) ++ [zlen comp] ++ comp) exts He Hel) as Hx.
  fold l in Hx. rewrite <- app_assoc, (length_app (pre ++ _)) in Hx. cbn [length app] in Hx.
  unfold tl. cbn [app Nat.add]. by rewrite Hx.
Qed.

Lemma encode_hello_body_length rnd sid suites comp exts :
  wf_hello rnd sid suites comp exts -> 35 + zlen sid <= zlen (encode_hello_body rnd sid suites comp exts) < 2 ^ 24.
Proof.
  intros [Hr Hs [_ Hcs] Hc [_ He]]. unfold encode_hello_body, zlen in *.
  rewrite !length_app, flat_map_be2_length, !be_encode_length, Hr. cbn [length]. lia.
Qed.

Lemma parse_encode_hello rnd sid suites comp exts rest :
  wf_hello rnd sid suites comp exts ->
  let '(s, k) := foldl apply_ext (None, None) exts in
  parse_client_hello (encode_hello rnd sid suites comp exts ++ rest) =
  Ok {| raw := encode_hello rnd sid suites comp exts; random := rnd; session_id := sid; session_id_offset := 39;
        sni := s; x25519_key := k; cipher_suites := suites |}.
Proof.
  intros Hw. pose proof (encode_hello_body_length _ _ _ _ _ Hw) as Hbl. pose proof (wf_rnd _ _ _ _ _ Hw) as Hr.
  pose proof (parse_suites_built ([3; 3] ++ rnd ++ [zlen sid] ++ sid) _ _ _ _ _ Hw) as Hsuites.
  destruct (foldl apply_ext (None, None) exts) as [s k]. unfold encode_hello.
  assert (Hbody : encode_hello_body rnd sid suites comp exts
    = ([3; 3] ++ rnd ++ [zlen sid] ++ sid) ++ be_encode 2 (2 * zlen suites) ++ flat_map (be_encode 2) suites ++
     [zlen comp] ++ comp ++ be_encode 2 (zlen (flat_map encode_ext exts)) ++ flat_map encode_ext exts)
    by (unfold encode_hello_body; by rewrite <- !app_assoc).
  rewrite <- Hbody in Hsuites.
  set (body := encode_hello_body rnd sid suites comp exts) in *.
  set (l0 := be_encode 2 (2 * zlen suites) ++ _) in Hbody.
  pose proof (be_encode_wf 3 (zlen body)) as Hw3. pose proof (be_encode_length 3 (zlen body)) as Hl3.
  pose proof (be_decode_encode 3 (zlen body)) as Hd3.
  rewrite Z.mod_small in Hd3 by (change (256 ^ Z.of_nat 3) with (2 ^ 24); pose proof (zlen_nonneg sid); lia).
  destruct (be_encode 3 (zlen body)) as [|d1 [|d2 [|d3 [|? ?]]]]; try done. clear Hl3.
  unfold wf_bytes in Hw3. rewrite !Forall_cons_iff in Hw3. destruct Hw3 as (H1 & H2 & H3 & _).
  unfold parse_client_hello.
  rewrite (ensure_true _ HandshakeTooShort) by (rewrite !length_app; cbn; lia).
  cbn [app idx lookup list_lookup unwrap mbind result_bind Z.eqb ensure Pos.eqb].
  rewrite hs_len_be, Hd3 by done. replace (Z.to_nat (zlen body)) with (length body) by (unfold zlen; lia).
  rewrite ensure_true by (cbn [length]; rewrite length_app; lia). cbn [mbind result_bind].
  change (1 :: d1 :: d2 :: d3 :: body ++ rest) with ([1; d1; d2; d3] ++ body ++ rest).
  replace (slice ([1; d1; d2; d3] ++ body ++ rest) 0 (4 + length body)) with (@Ok hello_error _ ([1; d1; d2; d3] ++ body)).
  2: { symmetry. rewrite app_assoc. by apply (slice_app_at [] ([1; d1; d2; d3] ++ body) rest). }
  cbn [mbind result_bind]. rewrite (slice_app_at [1; d1; d2; d3] body rest) by done.
  unfold zlen in Hbl.
  cbn [mbind result_bind]. rewrite (ensure_true _ MissingVersion), (ensure_true _ MissingRandom) by lia.
  rewrite (ensure_true _ MissingSessionIdLength) by lia. cbn [mbind result_bind].
  assert (Hsl : slice (E:=hello_error) body 2 34 = Ok rnd).
  { rewrite Hbody, <- !app_assoc. apply (slice_app_at [3; 3] rnd); [done | by rewrite Hr]. }
  assert (Hix : idx (E:=hello_error) body 34 = Ok (zlen sid)).
  { rewrite Hbody. replace (([3; 3] ++ rnd ++ [zlen sid] ++ sid) ++ l0) with (([3; 3] ++ rnd) ++ zlen sid :: (sid ++ l0))
      by by rewrite <- !app_assoc. rewrite (idx_app_0 ([3; 3] ++ rnd)) by (rewrite length_app, Hr; done). done. }
  assert (Hsid : slice (E:=hello_error) body 35 (35 + length sid) = Ok sid).
  { rewrite Hbody. replace (([3; 3] ++ rnd ++ [zlen sid] ++ sid) ++ l0) with (([3; 3] ++ rnd ++ [zlen sid]) ++ sid ++ l0)
      by by rewrite <- !app_assoc. apply slice_app_at; [by rewrite !length_app, Hr | done]. }
  rewrite Hsl. cbn [mbind result_bind]. rewrite Hix. cbn [mbind result_bind].
  replace (Z.to_nat (zlen sid)) with (length sid) by (unfold zlen; lia).
  rewrite (ensure_true _ TruncatedSessionId) by lia. cbn [mbind result_bind]. rewrite Hsid. cbn [mbind result_bind].
  replace (length ([3; 3] ++ rnd ++ [zlen sid] ++ sid)) with (35 + length sid)%nat in Hsuites
    by (rewrite !length_app, Hr; cbn; lia).
  by rewrite Hsuites.
Qed.

Definition other_ext (e : Z * bytes) : Prop := e.1 <> 0 /\ e.1 <> 0x33.
#[export] Instance other_ext_dec e : Decision (other_ext e).
Proof. unfold other_ext. apply _. Defined.

Lemma apply_other acc exts : Forall other_ext exts -> foldl apply_ext acc exts = acc.
Proof.
  induction 1 as [|[ty d] exts [H1 H2] Hs IH]; [done|]. cbn [fst foldl] in *. unfold apply_ext at 2. cbn [fst].
  by rewrite (proj2 (Z.eqb_neq _ _) H1), (proj2 (Z.eqb_neq _ _) H2).
Qed.

(** Where the fields of a successful parse lie in the message. *)
Lemma parse_fields (data : bytes) (i : ClientHelloInfo) :
  parse_client_hello data = Ok i ->
  (exists rest, data = raw i ++ rest) /\
  session_id_offset i = 39%nat /\
  (39 + length (session_id i) <= length (raw i))%nat /\
  take (length (session_id i)) (drop 39 (raw i)) = session_id i /\
  length (random i) = 32%nat /\ take 32 (drop 6 (raw i)) = random i /\
  (forall k, x25519_key i = Some k -> length k = 32%nat).
Proof.
  unfold parse_client_hello. intros H. inv_ok.
  match goal with H : (let '(_, _) := ?p in _) = _ |- _ => destruct p as [cs [s k]] end. inv_ok.
  cbn [raw random session_id session_id_offset x25519_key].
  repeat match goal with H : slice _ _ _ = Ok _ |- _ => apply slice_inv in H as (? & ? & ?) end. subst.
  set (n := Z.to_nat _) in *. rewrite drop_0, Nat.sub_0_r in *.
  assert (take (4 + n - 4) (drop 4 data) = drop 4 (take (4 + n) data)) as Hbody
    by (rewrite take_drop_commute; do 2 f_equal; lia).
  rewrite Hbody, !drop_drop in *. rewrite length_drop in *. cbn [Nat.add Nat.sub] in *.
  split; [exists (drop (4 + n) data); by rewrite take_drop|]. split; [done|]. split; [lia|].
  split; [by f_equal|]. split; [done|]. split; [done|]. by eapply parse_suites_key.
Qed.

Lemma apply_exts_known e1 name e2 shares e3 :
  Forall other_ext e1 -> Forall other_ext e2 -> Forall other_ext e3 ->
  utf8_valid name = true -> zlen name < 65536 ->
  Forall wf_ext shares -> zlen (flat_map encode_share shares) < 65536 ->
  foldl apply_ext (None, None) (e1 ++ [(0, sni_ext name)] ++ e2 ++ [(0x33, key_share_ext shares)] ++ e3)
  = (Some name, first_x25519 shares).
Proof.
  intros H1 H2 H3 Hu Hn Hs Hsl. rewrite !foldl_app.
  rewrite (apply_other _ e1), (apply_other _ e2), (apply_other _ e3) by done.
  cbn [foldl]. unfold apply_ext. cbn [fst snd Z.eqb Pos.eqb].
  by rewrite parse_sni_ext, parse_key_share_ext by done.
Qed.

(** ** The parser's contract *)

(** [parse_client_hello] is total: on any bytes it ends in a value or in
    one of its errors; no index or slice is out of range and no loop runs
    forever. *)
Theorem parse_client_hello_total (data : bytes) :
  exists out, parse_client_hello data = out /\ out <> Panic /\ out <> Err HelloDiverged.
Proof.
  eexists. split; [done|]. change (hello_total (parse_client_hello data)).
  unfold parse_client_hello. repeat (step_total; try lia).
  apply parse_suites_total.
Qed.

(** What a successful parse reports is what the message holds: [raw] is
    the front of the input, the random is its bytes 6 to 37, the session id
    lies at the reported offset 39 inside [raw], and a reported key share has
    32 bytes.  Reality's authentication zeroes exactly that range. *)
Theorem parse_client_hello_sound (data : bytes) (i : ClientHelloInfo) :
  parse_client_hello data = Ok i ->
  (exists rest, data = raw i ++ rest) /\
  session_id_offset i = 39%nat /\
  (39 + length (session_id i) <= length (raw i))%nat /\
  take (length (session_id i)) (drop 39 (raw i)) = session_id i /\
  length (random i) = 32%nat /\ take 32 (drop 6 (raw i)) = random i /\
  (forall k, x25519_key i = Some k -> length k = 32%nat).
Proof. apply parse_fields. Qed.

(** A ClientHello in the wire format, with any other extensions before,
    between and after a server_name and a key_share extension, and any bytes
    behind it, parses to the fields it was built from: random, session id,
    host name, the first x25519 share, and all cipher suites in order. *)
Theorem client_hello_roundtrip rnd sid suites comp e1 name e2 shares e3 rest :
  let exts := e1 ++ [(0, sni_ext name)] ++ e2 ++ [(0x33, key_share_ext shares)] ++ e3 in
  wf_hello rnd sid suites comp exts ->
  Forall other_ext e1 -> Forall other_ext e2 -> Forall other_ext e3 ->
  utf8_valid name = true -> zlen name < 65536 ->
  Forall wf_ext shares -> zlen (flat_map encode_share shares) < 65536 ->
  parse_client_hello (encode_hello rnd sid suites comp exts ++ rest) =
  Ok {| raw := encode_hello rnd sid suites comp exts; random := rnd; session_id := sid; session_id_offset := 39;
        sni := Some name; x25519_key := first_x25519 shares; cipher_suites := suites |}.
Proof.
  intros exts Hw H1 H2 H3 Hu Hn Hs Hsl. pose proof (parse_encode_hello rnd sid suites comp exts rest Hw) as Hp.
  pose proof (apply_exts_known e1 name e2 shares e3 H1 H2 H3 Hu Hn Hs Hsl) as Hf. fold exts in Hf.
  by rewrite Hf in Hp.
Qed.

(** ** Witnesses *)

Definition ex_name : bytes := ascii_bytes "ozon.ru".
Definition ex_exts : list (Z * bytes) :=
  [(43, [2; 3; 4])] ++ [(0, sni_ext ex_name)] ++ [] ++ [(0x33, key_share_ext [(0x0017, [1; 2]); (0x001d, replicate 32 0xCD)])] ++ [(10, [])].
Definition ex_hello : bytes := encode_hello (replicate 32 0x42) (replicate 32 0xAB) [0x1301; 0x1302] [0] ex_exts.

Lemma ex_hello_wf : wf_hello (replicate 32 0x42) (replicate 32 0xAB) [0x1301; 0x1302] [0] ex_exts.
Proof. split; try done; (split; [|done]); by apply (bool_decide_unpack _). Qed.

Definition ex_info : ClientHelloInfo :=
  {| raw := ex_hello; random := replicate 32 0x42; session_id := replicate 32 0xAB; session_id_offset := 39;
     sni := Some ex_name; x25519_key := Some (replicate 32 0xCD); cipher_suites := [0x1301; 0x1302] |}.

Lemma client_hello_roundtrip_witness : parse_client_hello (ex_hello ++ [7; 7]) = Ok ex_info.
Proof.
  unfold ex_hello, ex_info.
  apply (client_hello_roundtrip (replicate 32 0x42) (replicate 32 0xAB) [0x1301; 0x1302] [0]
    [(43, [2; 3; 4])] ex_name [] [(0x0017, [1; 2]); (0x001d, replicate 32 0xCD)] [(10, [])] [7; 7]);
    [exact ex_hello_wf | by apply (bool_decide_unpack _).. | reflexivity | reflexivity |
     by apply (bool_decide_unpack _) | reflexivity].
Defined.

Lemma parse_client_hello_sound_witness : take 32 (drop 39 (raw ex_info)) = session_id ex_info.
Proof.
  destruct (parse_client_hello_sound ex_hello ex_info) as (_ & _ & _ & H & _); [vm_compute; reflexivity | exact H].
Defined.
