(* ===== verification/Handshake.v ===== *)
(** * The OrcaX handshake, version 2 (orcax/transport/src/handshake.rs)

    The clock and the freshly drawn key pairs are arguments; the cryptographic
    crates are the operations of [Crates]. *)
From S2P Require Import Prelude RustStd Crates Uuid.

Definition MAX_TIME_DRIFT : Z := 15.

Inductive handshake_error : Type :=
| HkdfExpandFailed
| CipherInit
| BadAuthPayloadSize
| AuthDecryptionFailed
| TimestampDrift (drift : Z).

Record HandshakeResult : Type := {
  uuid : bytes;
  server_ephemeral_pub : bytes
}.

Section operations.
Context `{Hex, X25519, Hkdf, Aead}.

(** [auth_message_bytes]. *)
Definition auth_message_bytes (client_ephemeral_pub encrypted_payload : bytes) : bytes :=
  client_ephemeral_pub ++ encrypted_payload.

Definition AUTH_SALT : bytes := ascii_bytes "orcax-v2".
Definition AUTH_INFO : bytes := ascii_bytes "ORCAX-AUTH-V2".

(** [server_handshake]; [now] is the server's clock in seconds, [server_secret]
    its fresh ephemeral key. *)
Definition server_handshake (static_key client_ephemeral_pub encrypted_payload : bytes) (now : Z) (server_secret : bytes)
  : result handshake_error HandshakeResult :=
  let shared_secret := diffie_hellman static_key client_ephemeral_pub in
  key_material ← ok_or (hkdf_expand AUTH_SALT shared_secret AUTH_INFO 44) HkdfExpandFailed;
  key ← slice key_material 0 32;
  nonce ← slice key_material 32 44;
  _ ← ensure (length key =? 32)%nat CipherInit;
  _ ← ensure (length encrypted_payload =? 40)%nat BadAuthPayloadSize;
  ciphertext ← slice encrypted_payload 0 24;
  tag ← slice encrypted_payload 24 40;
  plaintext ← ok_or (open_sealed key nonce [] ciphertext tag) AuthDecryptionFailed;
  uuid_bytes ← slice plaintext 0 16;
  timestamp_bytes ← slice plaintext 16 24;
  let client_timestamp := be_decode timestamp_bytes in
  let drift := if client_timestamp <? now then now - client_timestamp else client_timestamp - now in
  _ ← ensure (negb (MAX_TIME_DRIFT <? drift)) (TimestampDrift drift);
  uuid ← format_uuid uuid_bytes;
  Ok {| uuid := uuid; server_ephemeral_pub := public_key server_secret |}.

(** [client_encrypt_uuid]; its [unwrap]s panic on failure. *)
Definition client_encrypt_uuid {E} (server_static_pub uuid_bytes client_secret : bytes) (timestamp : Z)
  : result E (bytes * bytes) :=
  let client_public := public_key client_secret in
  let shared_secret := diffie_hellman client_secret server_static_pub in
  key_material ← unwrap (hkdf_expand AUTH_SALT shared_secret AUTH_INFO 44);
  key ← slice key_material 0 32;
  nonce ← slice key_material 32 44;
  let plaintext := uuid_bytes ++ be_encode 8 timestamp in
  _ ← (if (length key =? 32)%nat then Ok tt else Panic);
  let '(ciphertext, tag) := seal key nonce [] plaintext in
  Ok (client_public, ciphertext ++ tag).

(** ** Lemmas *)

Context `{HL : !HexLaws H} `{XL : !X25519Laws H0} `{KL : !HkdfLaws H1} `{AL : !AeadLaws H2}.

Definition key_of (km : bytes) : bytes := take 32 km.
Definition nonce_of (km : bytes) : bytes := take 12 (drop 32 km).

(** Both sides cut the same key and nonce out of 44 bytes of key material. *)
Lemma cut_key_material {E A} km (f : bytes -> bytes -> result E A) :
  length km = 44%nat ->
  (key ← slice km 0 32; nonce ← slice km 32 44; f key nonce) = f (key_of km) (nonce_of km).
Proof. intros Hl. rewrite !slice_ok by lia. done. Qed.
Lemma key_of_length km : length km = 44%nat -> (length (key_of km) =? 32)%nat = true.
Proof. intros. unfold key_of. rewrite length_take. lia. Qed.

Definition drift_of (now ts : Z) : Z := Z.abs (now - ts).

(** What the server does with an authentic payload. *)
Lemma server_handshake_authentic sk cpub u ts km now ss :
  hkdf_expand AUTH_SALT (diffie_hellman sk cpub) AUTH_INFO 44 = Some km -> length km = 44%nat ->
  length u = 16%nat -> 0 <= ts < 2 ^ 64 ->
  let '(c, t) := seal (key_of km) (nonce_of km) [] (u ++ be_encode 8 ts) in
  server_handshake sk cpub (c ++ t) now ss =
  if MAX_TIME_DRIFT <? drift_of now ts then Err (TimestampDrift (drift_of now ts))
  else uuid ← format_uuid u; Ok {| uuid := uuid; server_ephemeral_pub := public_key ss |}.
Proof.
  intros Hk Hl Hul Hts. unfold server_handshake. rewrite Hk. cbn [ok_or mbind result_bind].
  pose proof (seal_length (key_of km) (nonce_of km) [] (u ++ be_encode 8 ts)) as Hc.
  pose proof (seal_tag_length (key_of km) (nonce_of km) [] (u ++ be_encode 8 ts)) as Ht.
  pose proof (open_seal (key_of km) (nonce_of km) [] (u ++ be_encode 8 ts)) as Ho.
  destruct (seal (key_of km) (nonce_of km) [] (u ++ be_encode 8 ts)) as [c t]. cbn [fst snd] in *.
  rewrite length_app, be_encode_length, Hul in Hc.
  rewrite cut_key_material, key_of_length by done. cbn [ensure mbind result_bind].
  rewrite (ensure_true _ BadAuthPayloadSize) by (rewrite length_app; lia). cbn [mbind result_bind].
  rewrite (slice_app_at [] c t 0 24) by (done || cbn; lia). cbn [mbind result_bind].
  replace (c ++ t) with (c ++ t ++ []) by by rewrite app_nil_r.
  rewrite (slice_app_at c t [] 24 40) by lia. cbn [mbind result_bind].
  rewrite Ho. cbn [ok_or mbind result_bind].
  rewrite (slice_app_at [] u (be_encode 8 ts) 0 16) by (done || cbn; lia). cbn [mbind result_bind].
  replace (u ++ be_encode 8 ts) with (u ++ be_encode 8 ts ++ []) by by rewrite app_nil_r.
  rewrite (slice_app_at u (be_encode 8 ts) [] 16 24) by (done || rewrite ?be_encode_length; lia).
  cbn [mbind result_bind]. rewrite be_decode_encode_8 by done.
  replace (if ts <? now then now - ts else ts - now) with (drift_of now ts)
    by (unfold drift_of; destruct (Z.ltb_spec ts now); lia).
  by destruct (MAX_TIME_DRIFT <? drift_of now ts).
Qed.

Lemma client_encrypt_ok {E} spub u secret ts :
  exists km, hkdf_expand AUTH_SALT (diffie_hellman secret spub) AUTH_INFO 44 = Some km /\ length km = 44%nat /\
    client_encrypt_uuid (E:=E) spub u secret ts =
    Ok (public_key secret, let '(c, t) := seal (key_of km) (nonce_of km) [] (u ++ be_encode 8 ts) in c ++ t).
Proof.
  destruct (hkdf_expand_ok AUTH_SALT (diffie_hellman secret spub) AUTH_INFO 44) as (km & Hk & Hl); [cbn; lia|].
  exists km. split; [done|]. split; [done|]. unfold client_encrypt_uuid. rewrite Hk. cbn [unwrap mbind result_bind].
  rewrite cut_key_material, key_of_length by done. cbn [mbind result_bind].
  by destruct (seal _ _ _ _).
Qed.

(** The client's 40 bytes, and what the server makes of them in time. *)
Lemma client_payload {E} spub u secret ts :
  length u = 16%nat ->
  exists payload, client_encrypt_uuid (E:=E) spub u secret ts = Ok (public_key secret, payload) /\ length payload = 40%nat.
Proof.
  intros Hul. destruct (client_encrypt_ok (E:=E) spub u secret ts) as (km & _ & _ & ->).
  pose proof (seal_length (key_of km) (nonce_of km) [] (u ++ be_encode 8 ts)) as Hc.
  pose proof (seal_tag_length (key_of km) (nonce_of km) [] (u ++ be_encode 8 ts)) as Ht.
  destruct (seal _ _ _ _) as [c t]. cbn [fst snd] in *. rewrite length_app, be_encode_length, Hul in Hc.
  eexists. split; [done|]. rewrite length_app. lia.
Qed.
Lemma client_payload_accepted {E F} sk secret u text ts now ss :
  wf_bytes u -> length u = 16%nat -> format_uuid (E:=F) u = Ok text -> 0 <= ts < 2 ^ 64 -> Z.abs (now - ts) <= 15 ->
  exists payload, client_encrypt_uuid (E:=E) (public_key sk) u secret ts = Ok (public_key secret, payload) /\
    length payload = 40%nat /\
    server_handshake sk (public_key secret) payload now ss = Ok {| uuid := text; server_ephemeral_pub := public_key ss |}.
Proof.
  intros Hu Hul Htext Hts Hnow. destruct (client_payload (E:=E) (public_key sk) u secret ts Hul) as (payload & Hp & Hpl).
  exists payload. split; [done|]. split; [done|].
  destruct (client_encrypt_ok (E:=E) (public_key sk) u secret ts) as (km & Hk & Hl & Henc).
  rewrite dh_agree in Hk. pose proof (server_handshake_authentic sk _ u ts km now ss Hk Hl Hul Hts) as Hs.
  rewrite Hp in Henc. destruct (seal _ _ _ _) as [c t]. injection Henc as ->.
  unfold MAX_TIME_DRIFT, drift_of in Hs. rewrite (proj2 (Z.ltb_ge _ _) Hnow) in Hs. rewrite Hs.
  pose proof (format_uuid_ok (E:=F) u Hu Hul) as Hf. pose proof (format_uuid_ok (E:=handshake_error) u Hu Hul) as Hf'.
  cbv zeta in Hf, Hf'. rewrite Hf'. rewrite Hf in Htext. cbn [mbind result_bind]. congruence.
Qed.

(** ** The handshake's contract *)

(** C5: A client that encrypts its UUID for the server's static key is
    authenticated by the holder of that key, whatever ephemeral secret it draws,
    as long as the two clocks are at most 15 seconds apart: the server reports
    the UUID's text, from which the same 16 bytes are read back. *)
Theorem handshake_authenticates sk secret u ts now ss :
  wf_bytes u -> length u = 16%nat -> 0 <= ts < 2 ^ 64 -> Z.abs (now - ts) <= 15 ->
  exists payload text,
    client_encrypt_uuid (E:=handshake_error) (public_key sk) u secret ts = Ok (public_key secret, payload) /\
    length payload = 40%nat /\
    server_handshake sk (public_key secret) payload now ss
      = Ok {| uuid := text; server_ephemeral_pub := public_key ss |} /\
    parse_uuid (E:=handshake_error) text = Ok u.
Proof.
  intros Hu Hul Hts Hnow. pose proof (format_uuid_ok (E:=handshake_error) u Hu Hul) as Hf. cbn zeta in Hf.
  destruct (client_payload_accepted (E:=handshake_error) sk secret u _ ts now ss Hu Hul Hf Hts Hnow) as (payload & H1' & H2' & H3').
  eexists _, _. split; [done|]. split; [done|]. split; [done|]. by eapply parse_format_uuid.
Qed.

(** The same authentic message is refused once the clocks are more than 15
    seconds apart in either direction, so a recorded message cannot be replayed
    later than that; the error reports the exact drift. *)
Theorem handshake_rejects_stale sk secret u ts now ss :
  length u = 16%nat -> 0 <= ts < 2 ^ 64 -> 15 < Z.abs (now - ts) ->
  exists payload,
    client_encrypt_uuid (E:=handshake_error) (public_key sk) u secret ts = Ok (public_key secret, payload) /\
    server_handshake sk (public_key secret) payload now ss = Err (TimestampDrift (Z.abs (now - ts))).
Proof.
  intros Hul Hts Hnow. destruct (client_encrypt_ok (E:=handshake_error) (public_key sk) u secret ts) as (km & Hk & Hl & ->).
  rewrite dh_agree in Hk. pose proof (server_handshake_authentic sk _ u ts km now ss Hk Hl Hul Hts) as Hs.
  destruct (seal _ _ _ _) as [c t]. eexists. split; [done|]. rewrite Hs. unfold drift_of, MAX_TIME_DRIFT.
  by rewrite (proj2 (Z.ltb_lt _ _) Hnow).
Qed.

(** C6: On arbitrary input the server never panics, and it accepts only what
    authenticates: an accepted payload has 40 bytes whose first 24 open, under
    the key both sides derive and with the last 16 as tag, to a UUID and a
    timestamp at most 15 seconds from the server's clock, and the reported text
    is that UUID's. *)
Theorem server_handshake_sound sk cpub payload now ss :
  wf_bytes payload ->
  server_handshake sk cpub payload now ss <> Panic /\
  (forall r, server_handshake sk cpub payload now ss = Ok r ->
   exists km u ts_bytes,
     hkdf_expand AUTH_SALT (diffie_hellman sk cpub) AUTH_INFO 44 = Some km /\
     length payload = 40%nat /\
     open_sealed (key_of km) (nonce_of km) [] (take 24 payload) (drop 24 payload) = Some (u ++ ts_bytes) /\
     length u = 16%nat /\ length ts_bytes = 8%nat /\ Z.abs (now - be_decode ts_bytes) <= 15 /\
     format_uuid (E:=handshake_error) u = Ok (uuid r)).
Proof.
  intros Hw. destruct (hkdf_expand_ok AUTH_SALT (diffie_hellman sk cpub) AUTH_INFO 44) as (km & Hk & Hl); [cbn; lia|].
  unfold server_handshake. rewrite Hk. cbn [ok_or mbind result_bind].
  rewrite cut_key_material, key_of_length by done. cbn [ensure mbind result_bind].
  destruct (Nat.eqb_spec (length payload) 40) as [Hp|]; cbn [ensure mbind result_bind]; [|done].
  rewrite !(slice_ok payload) by lia. cbn [mbind result_bind]. rewrite drop_0, (take_ge (drop 24 payload)) by (rewrite length_drop; lia).
  change (24 - 0)%nat with 24%nat.
  destruct (open_sealed _ _ _ _ _) as [pt|] eqn:Ho; cbn [ok_or mbind result_bind]; [|done].
  pose proof (open_length _ _ _ _ _ _ Ho) as Hpl. rewrite length_take, Hp in Hpl. cbn in Hpl.
  pose proof (open_wf _ _ _ _ _ _ Ho ltac:(auto with orcax)) as Hpw.
  rewrite !(slice_ok pt) by lia. cbn [mbind result_bind]. rewrite drop_0. change (16 - 0)%nat with 16%nat.
  rewrite (take_ge (drop 16 pt)) by (rewrite length_drop; lia).
  set (ts := be_decode (drop 16 pt)). replace (if ts <? now then now - ts else ts - now) with (drift_of now ts)
    by (unfold drift_of; destruct (Z.ltb_spec ts now); lia).
  destruct (Z.ltb_spec MAX_TIME_DRIFT (drift_of now ts)) as [|Hd]; cbn [negb ensure mbind result_bind]; [done|].
  assert (length (take 16 pt) = 16%nat) as Hul by (rewrite length_take; lia).
  pose proof (format_uuid_ok (E:=handshake_error) (take 16 pt) ltac:(auto with orcax) Hul) as Hf. cbn zeta in Hf.
  rewrite Hf. cbn [mbind result_bind]. split; [done|]. intros r [= <-]. cbn [uuid].
  exists km, (take 16 pt), (drop 16 pt). rewrite take_drop, length_drop. repeat split; auto with lia.
Qed.
End operations.

(** ** Witnesses *)

Definition ex_key (b : Z) : bytes := replicate 32 b.

Lemma handshake_authenticates_witness :
  exists payload text,
    client_encrypt_uuid (E:=handshake_error) (H0:=toy_x25519) (H1:=toy_hkdf) (H2:=toy_aead) (ex_key 7) (seqZ 1 16) (ex_key 9) 1700000000
      = Ok (ex_key 9, payload) /\
    server_handshake (H:=std_hex) (H0:=toy_x25519) (H1:=toy_hkdf) (H2:=toy_aead) (ex_key 7) (ex_key 9) payload 1700000015 (ex_key 1)
      = Ok {| uuid := text; server_ephemeral_pub := ex_key 1 |}.
Proof.
  destruct (handshake_authenticates (HL:=std_hex_laws) (XL:=toy_x25519_laws) (KL:=toy_hkdf_laws) (AL:=toy_aead_laws)
    (ex_key 7) (ex_key 9) (seqZ 1 16) 1700000000 1700000015 (ex_key 1)) as (payload & text & H1 & _ & H3 & _);
    [by apply (bool_decide_unpack _) | reflexivity | lia | lia |].
  exists payload, text. split; [exact H1 | exact H3].
Defined.

Lemma handshake_rejects_stale_witness :
  exists payload,
    server_handshake (H:=std_hex) (H0:=toy_x25519) (H1:=toy_hkdf) (H2:=toy_aead) (ex_key 7) (ex_key 9) payload 1700000016 (ex_key 1)
      = Err (TimestampDrift 16).
Proof.
  destruct (handshake_rejects_stale (H:=std_hex) (XL:=toy_x25519_laws) (KL:=toy_hkdf_laws) (AL:=toy_aead_laws)
    (ex_key 7) (ex_key 9) (seqZ 1 16) 1700000000 1700000016 (ex_key 1)) as (payload & _ & H3);
    [reflexivity | lia | lia |].
  exists payload. exact H3.
Defined.

Lemma server_handshake_sound_witness :
  server_handshake (H:=std_hex) (H0:=toy_x25519) (H1:=toy_hkdf) (H2:=toy_aead) (ex_key 7) (ex_key 9) (replicate 40 1) 0 (ex_key 1) <> Panic.
Proof.
  apply (server_handshake_sound (HL:=std_hex_laws) (KL:=toy_hkdf_laws) (AL:=toy_aead_laws)).
  by apply (bool_decide_unpack _).
Defined.
