(* ===== verification/Reality.v ===== *)
(** * Reality authentication

    The server side of orcax/transport/src/reality.rs, the client side of
    orcax/rustls-fork/rustls/src/reality.rs (module [Fork]), and their
    agreement.  Clocks are arguments.  AES-256-GCM is one [Aead]: the server
    calls it through aes_gcm, the client through ring. *)
From S2P Require Import Prelude RustStd Crates ClientHello.

Record RealityConfig : Type := {
  private_key : bytes;
  short_ids : list bytes;
  server_names : list bytes;
  dest : bytes;
  max_time_diff : Z
}.

Record RealityAuth : Type := {
  version : bytes;
  timestamp : Z;
  short_id : bytes
}.

Inductive reality_error : Type :=
| SniNotInWhitelist (sni : bytes)
| NoKeyShare
| HkdfFailed
| BadSessionIdLength (n : nat)
| AadTooShort
| KeyInitFailed
| DecryptionFailed
| AuthTooShort (n : nat)
| ShortIdNotInWhitelist
| RealityDrift (diff limit : Z)
| InvalidHexShortId
| ShortIdTooLong (n : nat)
| InvalidBase64
| BadPrivateKeyLength (n : nat)
| General.

(** [for b in &mut v[a..b] { *b = 0 }]. *)
Definition zero_range {E} (v : bytes) (a b : nat) : result E bytes :=
  copy_into v a b (replicate (b - a) 0).

Section operations.
Context `{Hex, X25519, Hkdf, Aead, Hmac}.

Definition REALITY_INFO : bytes := ascii_bytes "REALITY".

(** [Aes256Gcm::decrypt] on [ciphertext || tag]. *)
Definition aead_decrypt (key nonce aad msg : bytes) : option bytes :=
  if (length msg <? 16)%nat then None
  else open_sealed key nonce aad (take (length msg - 16) msg) (drop (length msg - 16) msg).

(** [verify_client_hello]; [now] is the server's clock in seconds. *)
Definition verify_client_hello (config : RealityConfig) (info : ClientHelloInfo) (now : Z)
  : result reality_error RealityAuth :=
  let sni := default [] (sni info) in
  _ ← ensure (existsb (fun s => bool_decide (s = sni)) (server_names config)) (SniNotInWhitelist sni);
  client_pub ← ok_or (x25519_key info) NoKeyShare;
  let shared_secret := diffie_hellman (private_key config) client_pub in
  salt ← slice (random info) 0 20;
  auth_key ← ok_or (hkdf_expand salt shared_secret REALITY_INFO 32) HkdfFailed;
  _ ← ensure (length (session_id info) =? 32)%nat (BadSessionIdLength (length (session_id info)));
  let sid_start := session_id_offset info in
  let sid_end := (sid_start + 32)%nat in
  aad ← (if (sid_end <=? length (raw info))%nat then zero_range (raw info) sid_start sid_end else Err AadTooShort);
  _ ← ensure (length auth_key =? 32)%nat KeyInitFailed;
  nonce ← slice (random info) 20 32;
  plaintext ← ok_or (aead_decrypt auth_key nonce aad (session_id info)) DecryptionFailed;
  _ ← ensure (16 <=? length plaintext)%nat (AuthTooShort (length plaintext));
  version ← slice plaintext 0 4;
  ts ← slice plaintext 4 8;
  let timestamp := be_decode ts in
  short_id ← slice plaintext 8 16;
  _ ← ensure (existsb (fun sid => bool_decide (sid = short_id)) (short_ids config)) ShortIdNotInWhitelist;
  let now := u32 now in
  let diff := if timestamp <? now then now - timestamp else timestamp - now in
  _ ← ensure (negb (u32 (max_time_diff config) <? diff)) (RealityDrift diff (max_time_diff config));
  Ok {| version := version; timestamp := timestamp; short_id := short_id |}.

(** [server_hello_auth]. *)
Definition server_hello_auth {E} (auth_key server_random_prefix client_random : bytes) : result E bytes :=
  slice (hmac_sha256 auth_key (server_random_prefix ++ client_random)) 0 12.

(** [derive_auth_key]. *)
Definition derive_auth_key {E} (private_key client_public client_random : bytes) : result E bytes :=
  let shared_secret := diffie_hellman private_key client_public in
  salt ← slice client_random 0 20;
  unwrap (hkdf_expand salt shared_secret REALITY_INFO 32).

(** [parse_short_id]: at most 8 bytes, zero-padded. *)
Definition parse_short_id (hex_str : bytes) : result reality_error bytes :=
  b ← ok_or (hex_decode hex_str) InvalidHexShortId;
  _ ← ensure (negb (8 <? length b)%nat) (ShortIdTooLong (length b));
  copy_into (replicate 8 0) 0 (length b) b.

(** [parse_private_key], over base64's decoder. *)
Definition parse_private_key (base64_decode : bytes -> option bytes) (b64 : bytes) : result reality_error bytes :=
  b ← ok_or (base64_decode b64) InvalidBase64;
  _ ← ensure (length b =? 32)%nat (BadPrivateKeyLength (length b));
  copy_into (replicate 32 0) 0 32 b.
End operations.

Module Fork.

Record RealityConfig : Type := {
  private_key : bytes;
  verify_client_flag : bool;
  dest : option bytes;
  short_ids : list bytes
}.

Record RealityClientConfig : Type := { server_public_key : bytes; client_short_id : bytes }.

Definition new (private_key : bytes) : RealityConfig :=
  {| private_key := private_key; verify_client_flag := true; dest := None; short_ids := [] |}.
Definition with_verify_client (c : RealityConfig) (verify : bool) : RealityConfig :=
  {| private_key := private_key c; verify_client_flag := verify; dest := dest c; short_ids := short_ids c |}.
Definition with_dest (c : RealityConfig) (d : bytes) : RealityConfig :=
  {| private_key := private_key c; verify_client_flag := verify_client_flag c; dest := Some d; short_ids := short_ids c |}.
Definition with_short_ids (c : RealityConfig) (s : list bytes) : RealityConfig :=
  {| private_key := private_key c; verify_client_flag := verify_client_flag c; dest := dest c; short_ids := s |}.

Section operations.
Context `{Aead, Hmac}.

(** [RealityConfig::validate]. *)
Definition validate (c : RealityConfig) : result reality_error unit :=
  ensure (length (private_key c) =? 32)%nat General.

(** [encrypt_session_id]: always an error, after the key length check. *)
Definition encrypt_session_id (c : RealityClientConfig) : result reality_error bytes :=
  _ ← ensure (length (server_public_key c) =? 32)%nat General;
  Err General.

(** [encrypt_session_id_with_key]; [now] is the client's clock. *)
Definition encrypt_session_id_with_key (c : RealityClientConfig) (auth_key client_random raw_hello : bytes)
    (session_id_offset : nat) (now : Z) : result reality_error bytes :=
  let plaintext := replicate 16 0 in
  let timestamp := u32 now in
  plaintext ← copy_into plaintext 4 8 (be_encode 4 timestamp);
  let sid_len := Nat.min (length (client_short_id c)) 8 in
  sid ← slice (client_short_id c) 0 sid_len;
  plaintext ← copy_into plaintext 8 (8 + sid_len) sid;
  aad ← (if (session_id_offset + 32 <? length raw_hello)%nat
         then zero_range raw_hello session_id_offset (session_id_offset + 32) else Ok raw_hello);
  _ ← ensure (length auth_key =? 32)%nat General;
  nonce ← slice client_random 20 32;
  let '(ct, tag) := seal auth_key nonce aad plaintext in
  out ← slice (ct ++ tag) 0 32;
  copy_into (replicate 32 0) 0 32 out.

(** [inject_auth]: the server random after the call. *)
Definition inject_auth (server_random : bytes) (config : RealityConfig) (client_random : bytes)
  : result reality_error bytes :=
  _ ← validate config;
  prefix ← slice server_random 0 20;
  let tag := hmac_sha256 (private_key config) (prefix ++ client_random) in
  t ← slice tag 0 12;
  copy_into server_random 20 32 t.

(** [verify_client]. *)
Definition verify_client (session_id client_random : bytes) (config : RealityConfig) : result reality_error bool :=
  if (length session_id <? 8)%nat || negb (length (private_key config) =? 32)%nat then Ok false else
  let tag := hmac_sha256 (private_key config) client_random in
  a ← slice tag 0 8;
  b ← slice session_id 0 8;
  Ok (bool_decide (a = b)).
End operations.
End Fork.

(** ** Lemmas *)

Section lemmas.
Context `{HL : !HexLaws hex} `{XL : !X25519Laws x25519} `{KL : !HkdfLaws hkdf} `{AL : !AeadLaws aead} `{ML : !HmacLaws hmac}.


Lemma zero_range_app {E} (pre mid post : bytes) a b :
  a = length pre -> b = (a + length mid)%nat ->
  zero_range (E:=E) (pre ++ mid ++ post) a b = Ok (pre ++ replicate (length mid) 0 ++ post).
Proof.
  intros Ha Hb. unfold zero_range. replace (b - a)%nat with (length mid) by lia.
  apply copy_into_app; [done | done |]. apply length_replicate.
Qed.

(** The eight bytes a short identifier stands for. *)
Definition pad8 (sid : bytes) : bytes := take 8 sid ++ replicate (8 - length (take 8 sid)) 0.

Lemma pad8_length sid : length (pad8 sid) = 8%nat.
Proof. unfold pad8. rewrite length_app, length_replicate, length_take. lia. Qed.

(** The plaintext the client seals. *)
Definition auth_plaintext (now : Z) (sid : bytes) : bytes := replicate 4 0 ++ be_encode 4 (u32 now) ++ pad8 sid.

Lemma auth_plaintext_length now sid : length (auth_plaintext now sid) = 16%nat.
Proof. unfold auth_plaintext. by rewrite !length_app, length_replicate, be_encode_length, pad8_length. Qed.

(** A ClientHello around its 32-byte session identifier. *)
Definition hello_head (rnd : bytes) (n : Z) : bytes := [1] ++ be_encode 3 n ++ [3; 3] ++ rnd ++ [32].
Definition hello_tail (suites : list Z) (comp : bytes) (exts : list (Z * bytes)) : bytes :=
  be_encode 2 (2 * zlen suites) ++ flat_map (be_encode 2) suites ++ [zlen comp] ++ comp ++
  be_encode 2 (zlen (flat_map encode_ext exts)) ++ flat_map encode_ext exts.
Lemma encode_hello_split rnd sid suites comp exts :
  length sid = 32%nat ->
  encode_hello rnd sid suites comp exts =
  hello_head rnd (35 + zlen rnd + zlen (hello_tail suites comp exts)) ++ sid ++ hello_tail suites comp exts.
Proof.
  intros Hl. unfold encode_hello, hello_head, encode_hello_body. fold (hello_tail suites comp exts).
  assert (zlen sid = 32) as -> by (unfold zlen; lia).
  replace (zlen ([3; 3] ++ rnd ++ [32] ++ sid ++ hello_tail suites comp exts))
    with (35 + zlen rnd + zlen (hello_tail suites comp exts))
    by (rewrite !zlen_app; unfold zlen in *; cbn [length]; lia).
  by rewrite <- !app_assoc.
Qed.
Lemma hello_head_length rnd n : length rnd = 32%nat -> length (hello_head rnd n) = 39%nat.
Proof. intros Hr. unfold hello_head. rewrite !length_app, be_encode_length, Hr. done. Qed.
Lemma hello_tail_length suites comp exts : (1 <= length (hello_tail suites comp exts))%nat.
Proof. unfold hello_tail. rewrite length_app, be_encode_length. lia. Qed.

(** The associated data of both sides: the message with zeros for the session
    identifier. *)
Definition hello_aad rnd suites comp exts : bytes :=
  hello_head rnd (35 + zlen rnd + zlen (hello_tail suites comp exts)) ++ replicate 32 0 ++ hello_tail suites comp exts.

Lemma zero_hello {E} rnd sid suites comp exts :
  length rnd = 32%nat -> length sid = 32%nat ->
  zero_range (E:=E) (encode_hello rnd sid suites comp exts) 39 71 = Ok (hello_aad rnd suites comp exts) /\
  (71 < length (encode_hello rnd sid suites comp exts))%nat.
Proof.
  intros Hr Hl. rewrite encode_hello_split by done. pose proof (hello_head_length rnd (35 + zlen rnd + zlen (hello_tail suites comp exts)) Hr) as Hh.
  split.
  - unfold hello_aad. rewrite zero_range_app; [by rewrite Hl | done | lia].
  - rewrite !length_app, Hh, Hl. pose proof (hello_tail_length suites comp exts). lia.
Qed.

(** What the client computes. *)
Lemma encrypt_session_id_ok c key rnd sid suites comp exts now :
  length key = 32%nat -> length rnd = 32%nat -> length sid = 32%nat ->
  let '(ct, tag) := seal key (drop 20 rnd) (hello_aad rnd suites comp exts) (auth_plaintext now (Fork.client_short_id c)) in
  Fork.encrypt_session_id_with_key c key rnd (encode_hello rnd sid suites comp exts) 39 now = Ok (ct ++ tag) /\
  length ct = 16%nat /\ length tag = 16%nat.
Proof.
  intros Hk Hr Hl. unfold Fork.encrypt_session_id_with_key. set (sh := Fork.client_short_id c).
  assert (copy_into (E:=reality_error) (replicate 16 0) 4 8 (be_encode 4 (u32 now))
    = Ok (replicate 4 0 ++ be_encode 4 (u32 now) ++ replicate 8 0)) as ->.
  { apply (copy_into_app (replicate 4 0) (replicate 4 0) (replicate 8 0)); done. }
  cbn [mbind result_bind]. rewrite (slice_ok sh) by lia. rewrite drop_0, Nat.sub_0_r. cbn [mbind result_bind].
  replace (take (Nat.min (length sh) 8) sh) with (take 8 sh).
  2: { destruct (Nat.le_gt_cases (length sh) 8); [rewrite !take_ge by lia; done | by rewrite Nat.min_r by lia]. }
  assert (copy_into (E:=reality_error) (replicate 4 0 ++ be_encode 4 (u32 now) ++ replicate 8 0) 8 (8 + Nat.min (length sh) 8) (take 8 sh)
    = Ok (auth_plaintext now sh)) as ->.
  { replace (replicate 8 0) with (replicate (Nat.min (length sh) 8) 0 ++ replicate (8 - Nat.min (length sh) 8) 0)
      by (rewrite <- replicate_add; f_equal; lia).
    rewrite app_assoc. rewrite copy_into_app; [|by rewrite length_app, length_replicate, be_encode_length | by rewrite length_replicate
      | rewrite length_take, length_replicate; lia].
    unfold auth_plaintext, pad8. rewrite length_take, <- app_assoc, (Nat.min_comm 8). done. }
  cbn [mbind result_bind]. destruct (zero_hello (E:=reality_error) rnd sid suites comp exts Hr Hl) as [Hz Hlen].
  change (39 + 32)%nat with 71%nat. rewrite (proj2 (Nat.ltb_lt _ _) Hlen), Hz. cbn [mbind result_bind].
  rewrite Hk. cbn [Nat.eqb ensure mbind result_bind]. rewrite (slice_ok rnd) by lia. cbn [mbind result_bind].
  rewrite (take_ge (drop 20 rnd)) by (rewrite length_drop; lia).
  pose proof (seal_length key (drop 20 rnd) (hello_aad rnd suites comp exts) (auth_plaintext now sh)) as Hct.
  pose proof (seal_tag_length key (drop 20 rnd) (hello_aad rnd suites comp exts) (auth_plaintext now sh)) as Htag.
  destruct (seal _ _ _ _) as [ct tag]. cbn [fst snd] in *. rewrite auth_plaintext_length in Hct.
  rewrite slice_ok by (rewrite length_app; lia). cbn [mbind result_bind].
  rewrite drop_0, take_ge by (rewrite length_app; lia). unfold copy_into. rewrite length_app, Hct, Htag. cbn.
  by rewrite app_nil_r.
Qed.

Lemma existsb_elem (x : bytes) (l : list bytes) : existsb (fun y => bool_decide (y = x)) l = true <-> x ∈ l.
Proof.
  rewrite existsb_exists. setoid_rewrite bool_decide_eq_true. rewrite list_elem_of_In. naive_solver.
Qed.

Lemma abs_diff (a b : Z) : (if a <? b then b - a else a - b) = Z.abs (b - a).
Proof. destruct (Z.ltb_spec a b); lia. Qed.

Lemma derive_auth_key_ok {E} sk pub rnd :
  length rnd = 32%nat ->
  exists key, hkdf_expand (take 20 rnd) (diffie_hellman sk pub) REALITY_INFO 32 = Some key /\
    derive_auth_key (E:=E) sk pub rnd = Ok key /\ length key = 32%nat.
Proof.
  intros Hr. destruct (hkdf_expand_ok (take 20 rnd) (diffie_hellman sk pub) REALITY_INFO 32) as (key & Hk & Hl); [cbn; lia|].
  exists key. split; [done|]. split; [|done]. unfold derive_auth_key. rewrite slice_ok by lia. cbn [mbind result_bind].
  rewrite drop_0, Nat.sub_0_r, Hk. done.
Qed.

(** The server on a session identifier that opens to [pt]. *)
Lemma verify_opened config info now key pub aad pt :
  default [] (sni info) ∈ server_names config -> x25519_key info = Some pub -> length (random info) = 32%nat ->
  hkdf_expand (take 20 (random info)) (diffie_hellman (private_key config) pub) REALITY_INFO 32 = Some key ->
  length key = 32%nat -> length (session_id info) = 32%nat -> session_id_offset info = 39%nat ->
  (71 <= length (raw info))%nat -> zero_range (E:=reality_error) (raw info) 39 71 = Ok aad ->
  aead_decrypt key (drop 20 (random info)) aad (session_id info) = Some pt -> length pt = 16%nat ->
  verify_client_hello config info now =
  (_ ← ensure (existsb (fun sid => bool_decide (sid = drop 8 pt)) (short_ids config)) ShortIdNotInWhitelist;
   let diff := Z.abs (u32 now - be_decode (take 4 (drop 4 pt))) in
   _ ← ensure (negb (u32 (max_time_diff config) <? diff)) (RealityDrift diff (max_time_diff config));
   Ok {| version := take 4 pt; timestamp := be_decode (take 4 (drop 4 pt)); short_id := drop 8 pt |}).
Proof.
  intros Hsni Hx Hr Hk Hkl Hs Ho Hraw Hz Hd Hpt. unfold verify_client_hello.
  rewrite (ensure_true _ (SniNotInWhitelist _)) by by apply existsb_elem.
  rewrite Hx. cbn [ok_or mbind result_bind]. rewrite (slice_ok (random info) 0 20) by lia. cbn [mbind result_bind].
  rewrite drop_0, Nat.sub_0_r, Hk. cbn [ok_or mbind result_bind]. rewrite Hs, Ho. cbn [Nat.eqb ensure mbind result_bind].
  change (39 + 32)%nat with 71%nat. rewrite (proj2 (Nat.leb_le _ _) Hraw), Hz. cbn [mbind result_bind].
  rewrite Hkl. cbn [Nat.eqb ensure mbind result_bind]. rewrite (slice_ok (random info)) by lia. cbn [mbind result_bind].
  rewrite (take_ge (drop 20 _)) by (rewrite length_drop; lia). rewrite Hd. cbn [ok_or mbind result_bind].
  rewrite (ensure_true _ (AuthTooShort _)) by lia. cbn [mbind result_bind]. rewrite !(slice_ok pt) by lia.
  cbn [mbind result_bind]. rewrite drop_0, abs_diff, (take_ge (drop 8 pt)) by (rewrite length_drop; lia). done.
Qed.

Lemma aead_decrypt_seal key nonce aad p :
  length p = 16%nat ->
  aead_decrypt key nonce aad ((seal key nonce aad p).1 ++ (seal key nonce aad p).2) = Some p.
Proof.
  intros Hp. unfold aead_decrypt. pose proof (seal_length key nonce aad p) as Hc. pose proof (seal_tag_length key nonce aad p) as Ht.
  pose proof (open_seal key nonce aad p) as Ho. destruct (seal key nonce aad p) as [c t]. cbn [fst snd] in *.
  rewrite length_app, Ht, Nat.add_sub. destruct (Nat.ltb_spec (length c + 16) 16); [lia|].
  by rewrite take_app_length, drop_app_length.
Qed.

Lemma wf_hello_sid rnd sid sid' suites comp exts :
  length sid' = length sid -> wf_hello rnd sid suites comp exts -> wf_hello rnd sid' suites comp exts.
Proof. intros Hl [H1 H2 H3 H4 H5]. split; try done. unfold zlen in *. lia. Qed.

(** ** The authentication's contract *)

(** C3: A client that holds the server's public key and a permitted short
    identifier, names a server of the configuration, and whose clock is within the
    configured difference of the server's (both cut to 32 bits) is let in.  It derives the auth key from its key share's secret,
    seals its clock and short identifier into the session identifier of a
    ClientHello (built with any 32-byte placeholder, and with any further
    extensions), and sends the message; the server, from the bytes alone,
    parses it and accepts it, and learns the client's time and the short
    identifier, zero-padded to 8 bytes. *)
Theorem reality_client_accepted config cc secret rnd sid0 suites comp e1 name e2 shares e3 now_c now_s rest :
  let exts := e1 ++ [(0, sni_ext name)] ++ e2 ++ [(0x33, key_share_ext shares)] ++ e3 in
  wf_hello rnd sid0 suites comp exts -> length sid0 = 32%nat ->
  Forall other_ext e1 -> Forall other_ext e2 -> Forall other_ext e3 ->
  utf8_valid name = true -> zlen name < 65536 ->
  Forall wf_ext shares -> zlen (flat_map encode_share shares) < 65536 ->
  first_x25519 shares = Some (public_key secret) ->
  name ∈ server_names config -> pad8 (Fork.client_short_id cc) ∈ short_ids config ->
  Z.abs (u32 now_s - u32 now_c) <= u32 (max_time_diff config) ->
  exists key sid info,
    derive_auth_key (E:=reality_error) secret (public_key (private_key config)) rnd = Ok key /\
    Fork.encrypt_session_id_with_key cc key rnd (encode_hello rnd sid0 suites comp exts) 39 now_c = Ok sid /\
    parse_client_hello (encode_hello rnd sid suites comp exts ++ rest) = Ok info /\
    verify_client_hello config info now_s =
      Ok {| version := [0; 0; 0; 0]; timestamp := u32 now_c; short_id := pad8 (Fork.client_short_id cc) |}.
Proof.
  intros exts Hw Hsid0 H1 H2 H3 Hu Hn Hs Hsl Hkey Hsni Hshort Htime.
  pose proof (wf_rnd _ _ _ _ _ Hw) as Hr.
  destruct (derive_auth_key_ok (E:=reality_error) secret (public_key (private_key config)) rnd Hr) as (key & Hk & Hd & Hkl).
  pose proof (encrypt_session_id_ok cc key rnd sid0 suites comp exts now_c Hkl Hr Hsid0) as Henc.
  pose proof (aead_decrypt_seal key (drop 20 rnd) (hello_aad rnd suites comp exts) _ (auth_plaintext_length now_c (Fork.client_short_id cc))) as Hopen.
  destruct (seal _ _ _ _) as [ct tag]. cbn [fst snd] in Hopen. destruct Henc as (Henc & Hct & Htag).
  assert (length (ct ++ tag) = 32%nat) as Hsid by (rewrite length_app; lia).
  pose proof (parse_encode_hello rnd (ct ++ tag) suites comp exts rest
    (wf_hello_sid rnd sid0 _ _ _ _ (eq_trans Hsid (eq_sym Hsid0)) Hw)) as Hparse.
  pose proof (apply_exts_known e1 name e2 shares e3 H1 H2 H3 Hu Hn Hs Hsl) as Hf. fold exts in Hf.
  rewrite Hf, Hkey in Hparse. exists key, (ct ++ tag). eexists. split; [done|]. split; [done|]. split; [exact Hparse|].
  destruct (zero_hello (E:=reality_error) rnd (ct ++ tag) suites comp exts Hr Hsid) as [Hz Hlen].
  erewrite (verify_opened config _ now_s key (public_key secret) (hello_aad rnd suites comp exts) _);
    cbn [raw random session_id session_id_offset sni x25519_key default]; try done; try lia.
  2: by rewrite dh_agree in Hk.
  2: apply auth_plaintext_length.
  change (drop 8 (auth_plaintext now_c (Fork.client_short_id cc))) with (pad8 (Fork.client_short_id cc)).
  rewrite (ensure_true _ ShortIdNotInWhitelist) by by apply existsb_elem. cbn [mbind result_bind].
  change (take 4 (drop 4 (auth_plaintext now_c (Fork.client_short_id cc)))) with (be_encode 4 (u32 now_c)).
  rewrite be_decode_encode_4 by (apply Z.mod_pos_bound; lia).
  by rewrite ensure_true by lia.
Qed.

(** C4: The server's verdict on any parsed ClientHello is sound: it never
    panics, and it accepts only a message whose SNI is whitelisted, whose key
    share and 32-byte session identifier are there, whose session identifier
    opens under the derived key with the zeroed message as associated data,
    whose short identifier is whitelisted, and whose timestamp is at most
    [max_time_diff as u32] seconds away: the limit is truncated to 32 bits. *)
Theorem verify_client_hello_sound config data info now :
  parse_client_hello data = Ok info ->
  verify_client_hello config info now <> Panic /\
  (forall auth, verify_client_hello config info now = Ok auth ->
   default [] (sni info) ∈ server_names config /\
   short_id auth ∈ short_ids config /\
   Z.abs (u32 now - timestamp auth) <= u32 (max_time_diff config) /\
   length (session_id info) = 32%nat /\
   exists pub key aad pt,
     x25519_key info = Some pub /\
     derive_auth_key (E:=reality_error) (private_key config) pub (random info) = Ok key /\
     zero_range (E:=reality_error) (raw info) 39 71 = Ok aad /\
     aead_decrypt key (drop 20 (random info)) aad (session_id info) = Some pt /\
     version auth = take 4 pt /\ timestamp auth = be_decode (take 4 (drop 4 pt)) /\ short_id auth = drop 8 pt).
Proof.
  intros Hp. destruct (parse_fields data info Hp) as (_ & Ho & Hraw & _ & Hr & _ & _).
  set (v := verify_client_hello config info now). assert (v = verify_client_hello config info now) as Hv by done.
  clearbody v. revert Hv. unfold verify_client_hello.
  destruct (existsb _ (server_names config)) eqn:Hsni; cbn [ensure mbind result_bind]; [|by intros ->].
  apply existsb_elem in Hsni. destruct (x25519_key info) as [pub|] eqn:Hx; cbn [ok_or mbind result_bind]; [|by intros ->].
  destruct (derive_auth_key_ok (E:=reality_error) (private_key config) pub (random info) Hr) as (key & Hk & Hd & Hkl).
  rewrite (slice_ok (random info) 0 20) by lia. cbn [mbind result_bind]. rewrite drop_0, Nat.sub_0_r, Hk.
  cbn [ok_or mbind result_bind].
  destruct (Nat.eqb_spec (length (session_id info)) 32) as [Hs|]; cbn [ensure mbind result_bind]; [|by intros ->].
  rewrite Hs, Ho in *. change (39 + 32)%nat with 71%nat in *. rewrite (proj2 (Nat.leb_le _ _) Hraw).
  assert (exists aad, zero_range (E:=reality_error) (raw info) 39 71 = Ok aad) as [aad Hz].
  { unfold zero_range, copy_into. rewrite length_replicate. destruct (_ && _) eqn:Hb; [eauto | lia]. }
  rewrite Hz. cbn [mbind result_bind]. rewrite Hkl. cbn [Nat.eqb ensure mbind result_bind].
  rewrite (slice_ok (random info)) by lia. cbn [mbind result_bind].
  rewrite (take_ge (drop 20 _)) by (rewrite length_drop; lia).
  destruct (aead_decrypt key _ aad _) as [pt|] eqn:Hpt; cbn [ok_or mbind result_bind]; [|by intros ->].
  assert (length pt = 16%nat) as Hptl.
  { unfold aead_decrypt in Hpt. rewrite Hs in Hpt. apply open_length in Hpt. rewrite Hpt, length_take. lia. }
  rewrite (ensure_true _ (AuthTooShort _)) by lia. cbn [mbind result_bind]. rewrite !(slice_ok pt) by lia.
  cbn [mbind result_bind]. rewrite drop_0, abs_diff, (take_ge (drop 8 pt)) by (rewrite length_drop; lia).
  destruct (existsb _ (short_ids config)) eqn:Hshort; cbn [ensure mbind result_bind]; [|by intros ->].
  apply existsb_elem in Hshort. destruct (negb _) eqn:Ht; cbn [ensure mbind result_bind]; [|by intros ->].
  intros ->. split; [done|]. intros auth [= <-]. cbn [short_id timestamp version].
  split; [done|]. split; [done|]. split; [change (8 - 4)%nat with 4%nat in *; lia|]. split; [done|]. by exists pub, key, aad, pt.
Qed.

(** The two server-side implementations of the ServerHello authenticator
    agree: with the session's auth key as the key, [inject_auth] of the TLS fork
    writes exactly the 12 bytes of [server_hello_auth] over the end of the
    server random and keeps its first 20 bytes; a key of another length is
    refused. *)
Theorem inject_auth_is_server_hello_auth (config : Fork.RealityConfig) sr cr :
  length sr = 32%nat ->
  if (length (Fork.private_key config) =? 32)%nat
  then exists a, server_hello_auth (E:=reality_error) (Fork.private_key config) (take 20 sr) cr = Ok a /\
         length a = 12%nat /\ Fork.inject_auth sr config cr = Ok (take 20 sr ++ a)
  else Fork.inject_auth sr config cr = Err General.
Proof.
  intros Hs. unfold Fork.inject_auth, Fork.validate, server_hello_auth.
  destruct (_ =? _)%nat; cbn [ensure mbind result_bind]; [|done].
  rewrite (slice_ok sr) by lia. cbn [mbind result_bind]. rewrite (drop_0 sr), Nat.sub_0_r.
  pose proof (hmac_sha256_length (Fork.private_key config) (take 20 sr ++ cr)) as Hl.
  rewrite slice_ok by lia. cbn [mbind result_bind]. set (a := take (12 - 0) _).
  assert (length a = 12%nat) as Ha by (unfold a; rewrite length_take, length_drop; lia).
  exists a. split; [done|]. split; [done|]. unfold copy_into. rewrite Hs, Ha. cbn [Nat.leb Nat.eqb andb Nat.sub].
  rewrite (drop_ge sr) by lia. by rewrite app_nil_r.
Qed.

(** [parse_short_id] never panics; the hexadecimal text of up to 8 bytes is
    read as those bytes followed by zeros, a longer one is refused with its
    length, and every result has 8 bytes. *)
Theorem parse_short_id_spec (b s : bytes) :
  wf_bytes b ->
  parse_short_id (hex_encode b) =
    (if (length b <=? 8)%nat then Ok (b ++ replicate (8 - length b) 0) else Err (ShortIdTooLong (length b))) /\
  parse_short_id s <> Panic /\ (forall sid, parse_short_id s = Ok sid -> length sid = 8%nat).
Proof.
  assert (Hgen : forall l, (_ ← ensure (negb (8 <? length l)%nat) (ShortIdTooLong (length l));
                 copy_into (replicate 8 0) 0 (length l) l) =
          if (length l <=? 8)%nat then Ok (l ++ replicate (8 - length l) 0) else Err (ShortIdTooLong (length l))).
  { intros l. rewrite <- Nat.leb_antisym. destruct (Nat.leb_spec (length l) 8) as [Hl|]; cbn [ensure mbind result_bind]; [|done].
    unfold copy_into. rewrite length_replicate. rewrite (proj2 (Nat.leb_le (length l) 8)), Nat.sub_0_r, Nat.eqb_refl by done.
    cbn [Nat.leb andb take app]. by rewrite drop_replicate. }
  intros Hb. unfold parse_short_id. rewrite hex_decode_encode by done. cbn [ok_or mbind result_bind]. rewrite Hgen.
  split; [done|]. destruct (hex_decode s) as [l|]; cbn [ok_or mbind result_bind]; [|done]. rewrite Hgen.
  destruct (Nat.leb_spec (length l) 8); [|done]. split; [done|]. intros sid [= <-]. rewrite length_app, length_replicate. lia.
Qed.
End lemmas.

(** ** Witnesses *)

Definition ex_config : RealityConfig :=
  {| private_key := replicate 32 7; short_ids := [[0x0a; 0x1e; 0; 0; 0; 0; 0; 0]]; server_names := [ascii_bytes "ozon.ru"];
     dest := ascii_bytes "ozon.ru:443"; max_time_diff := 120 |}.
Definition ex_client : Fork.RealityClientConfig := {| Fork.server_public_key := replicate 32 7; Fork.client_short_id := [0x0a; 0x1e] |}.

Lemma reality_client_accepted_witness :
  exists key sid info,
    derive_auth_key (E:=reality_error) (H0:=toy_x25519) (H1:=toy_hkdf) (replicate 32 0xCD) (replicate 32 7) (replicate 32 0x42) = Ok key /\
    Fork.encrypt_session_id_with_key (H:=toy_aead) ex_client key (replicate 32 0x42) ex_hello 39 1700000000 = Ok sid /\
    parse_client_hello (encode_hello (replicate 32 0x42) sid [0x1301; 0x1302] [0] ex_exts ++ []) = Ok info /\
    verify_client_hello (H0:=toy_x25519) (H1:=toy_hkdf) (H2:=toy_aead) ex_config info 1700000060 =
      Ok {| version := [0; 0; 0; 0]; timestamp := 1700000000; short_id := [0x0a; 0x1e; 0; 0; 0; 0; 0; 0] |}.
Proof.
  apply (reality_client_accepted (XL:=toy_x25519_laws) (KL:=toy_hkdf_laws) (AL:=toy_aead_laws) ex_config ex_client
    (replicate 32 0xCD) (replicate 32 0x42) (replicate 32 0xAB) [0x1301; 0x1302] [0]
    [(43, [2; 3; 4])] ex_name [] [(0x0017, [1; 2]); (0x001d, replicate 32 0xCD)] [(10, [])] 1700000000 1700000060 []);
    [exact ex_hello_wf | reflexivity | by apply (bool_decide_unpack _).. | reflexivity | reflexivity
    | by apply (bool_decide_unpack _) | reflexivity | reflexivity | by apply (bool_decide_unpack _)
    | by apply (bool_decide_unpack _) | vm_compute; congruence].
Defined.

Lemma verify_client_hello_sound_witness :
  verify_client_hello (H0:=toy_x25519) (H1:=toy_hkdf) (H2:=toy_aead) ex_config ex_info 1700000060 <> Panic.
Proof.
  apply (verify_client_hello_sound (KL:=toy_hkdf_laws) (AL:=toy_aead_laws) ex_config ex_hello).
  vm_compute. reflexivity.
Defined.

Lemma inject_auth_witness :
  exists a, Fork.inject_auth (H0:=toy_hmac) (replicate 32 5) (Fork.new (replicate 32 7)) (replicate 32 6) = Ok (replicate 20 5 ++ a).
Proof.
  pose proof (inject_auth_is_server_hello_auth (ML:=toy_hmac_laws) (Fork.new (replicate 32 7)) (replicate 32 5) (replicate 32 6) eq_refl)
    as (a & _ & _ & H). exists a. exact H.
Defined.

Lemma parse_short_id_spec_witness :
  parse_short_id (H:=std_hex) (hex_encode (Hex:=std_hex) [0xab; 0xcd]) = Ok [0xab; 0xcd; 0; 0; 0; 0; 0; 0].
Proof.
  apply (parse_short_id_spec (HL:=std_hex_laws) [0xab; 0xcd] []). by apply (bool_decide_unpack _).
Defined.
