(* ===== verification/RealityServer.v ===== *)
(** * The Reality server's certificates and sockets

    orcax/transport/src/reality_cert.rs (module [Cert]) and server.rs (module
    [Prefixed]).  rcgen's key and certificate generation is a parameter; each
    call takes the randomness it draws. *)
From S2P Require Import Prelude Stream RustStd Crates.

Module Cert.

(** A generated certificate: DER, PKCS#8 private key, raw public key. *)
Record template : Type := { cert_der : bytes; priv_key_der : bytes; pub_key_raw : bytes }.

Inductive cert_error : Type := CertGen | HmacKeyInit | DerTooShort (n : nat).

(** [CERT_CACHE]: [None] until the first use. *)
Definition cache : Type := option (gmap bytes template).

Section operations.
Context {R : Type} (rcgen : R -> bytes -> option template) `{Hmac}.

(** [get_or_create_template]. *)
Definition get_or_create_template (c : cache) (domain : bytes) (seed : R) : result cert_error template * cache :=
  let m := default ∅ c in
  match m !! domain with
  | Some cached => (Ok cached, Some m)
  | None =>
    match rcgen seed domain with
    | None => (Err CertGen, Some m)
    | Some t => (Ok t, Some (<[domain := t]> m))
    end
  end.

(** [generate_reality_cert]. *)
Definition generate_reality_cert (c : cache) (auth_key domain : bytes) (seed : R)
  : result cert_error (bytes * bytes) * cache :=
  let '(res, c) := get_or_create_template c domain seed in
  (t ← res;
   let signature := hmac_sha512 auth_key (pub_key_raw t) in
   let total_len := length (cert_der t) in
   _ ← ensure (64 <=? total_len)%nat (DerTooShort total_len);
   s ← slice signature 0 64;
   cert ← copy_into (cert_der t) (total_len - 64) total_len s;
   Ok (cert, priv_key_der t), c).

(** server.rs's [generate_cert]: a certificate that is not cached. *)
Definition generate_cert (domain : bytes) (seed : R) : result cert_error (bytes * bytes) :=
  t ← ok_or (rcgen seed domain) CertGen;
  Ok (cert_der t, priv_key_der t).

(** [get_cached_pubkey]. *)
Definition get_cached_pubkey (c : cache) (domain : bytes) : option bytes :=
  match c with
  | None => None
  | Some m => pub_key_raw <$> (m !! domain)
  end.

Context `{ML : !HmacLaws H}.

(** A certificate from a template. *)
Lemma stamp_ok t key :
  (64 <= length (cert_der t))%nat ->
  (_ ← ensure (64 <=? length (cert_der t))%nat (DerTooShort (length (cert_der t)));
   s ← slice (hmac_sha512 key (pub_key_raw t)) 0 64;
   cert ← copy_into (cert_der t) (length (cert_der t) - 64) (length (cert_der t)) s;
   Ok (cert, priv_key_der t))
  = Ok (take (length (cert_der t) - 64) (cert_der t) ++ hmac_sha512 key (pub_key_raw t), priv_key_der t).
Proof.
  intros Hl. rewrite ensure_true by lia. cbn [mbind result_bind].
  pose proof (hmac_sha512_length key (pub_key_raw t)) as Hm. rewrite slice_ok by lia. cbn [mbind result_bind].
  rewrite drop_0, take_ge by lia. unfold copy_into. rewrite Hm. destruct (_ && _) eqn:Hb; [|lia].
  cbn [mbind result_bind]. rewrite (drop_ge (cert_der t)) by lia. by rewrite app_nil_r.
Qed.

(** Every connection to a domain gets the same certificate body and private
    key, generated once: after a first successful call, a call with any other
    auth key and any randomness leaves the cache alone and returns the cached
    DER with its last 64 bytes replaced by HMAC-SHA512 of the public key under
    that connection's auth key, and the public key the verifier needs is the
    cached one. *)
Theorem reality_cert_stable c domain key1 seed1 out1 c1 key2 seed2 :
  generate_reality_cert c key1 domain seed1 = (Ok out1, c1) ->
  exists der priv pub,
    get_cached_pubkey c1 domain = Some pub /\ (64 <= length der)%nat /\
    out1 = (take (length der - 64) der ++ hmac_sha512 key1 pub, priv) /\
    generate_reality_cert c1 key2 domain seed2 = (Ok (take (length der - 64) der ++ hmac_sha512 key2 pub, priv), c1).
Proof.
  unfold generate_reality_cert. intros Hg.
  assert (exists t, get_or_create_template c domain seed1 = (Ok t, c1) /\ default ∅ c1 !! domain = Some t /\ c1 <> None) as (t & Ht & Hc1 & Hn).
  { unfold get_or_create_template in *. destruct (default ∅ c !! domain) as [t|] eqn:Hm.
    - injection Hg as _ <-. exists t. by cbn.
    - destruct (rcgen seed1 domain) as [t|]; [|done]. injection Hg as _ <-. exists t. cbn. by rewrite lookup_insert_eq. }
  rewrite Ht in Hg. apply (f_equal fst) in Hg. cbn [fst] in Hg. assert (64 <= length (cert_der t))%nat as Hl.
  { clear -Hg. inv_ok. lia. }
  cbn [mbind result_bind] in Hg. rewrite (stamp_ok t key1 Hl) in Hg. injection Hg as <-.
  exists (cert_der t), (priv_key_der t), (pub_key_raw t). destruct c1 as [m|]; [|done]. change (m !! domain = Some t) in Hc1.
  split; [unfold get_cached_pubkey; by rewrite Hc1|]. split; [done|]. split; [done|].
  unfold get_or_create_template. change (default ∅ (Some m)) with m. rewrite Hc1. cbn [mbind result_bind]. by rewrite stamp_ok.
Qed.
End operations.

Definition ex_rcgen (seed : Z) (domain : bytes) : option template :=
  Some {| cert_der := domain ++ replicate 80 seed; priv_key_der := [seed]; pub_key_raw := replicate 32 seed |}.

Lemma reality_cert_stable_witness :
  exists der priv pub c1,
    generate_reality_cert ex_rcgen (H:=toy_hmac) c1 [2] [97] 9
      = (Ok (take (length der - 64) der ++ hmac_sha512 (Hmac:=toy_hmac) [2] pub, priv), c1).
Proof.
  destruct (reality_cert_stable ex_rcgen (H:=toy_hmac) None [97] [1] 5
    (take 17 (97 :: replicate 80 5) ++ hmac_sha512 (Hmac:=toy_hmac) [1] (replicate 32 5), [5])
    (Some (<[[97] := {| cert_der := [97] ++ replicate 80 5; priv_key_der := [5]; pub_key_raw := replicate 32 5 |}]> ∅))
    [2] 9) as (der & priv & pub & _ & _ & _ & H); [vm_compute; reflexivity|].
  eexists der, priv, pub, _. exact H.
Defined.
End Cert.

Module Prefixed.

(** [PrefixedStream]: buffered bytes in front of a socket. *)
Record PrefixedStream : Type := { prefix : bytes; prefix_pos : nat; inner : sock }.

Definition new (prefix : bytes) (inner : sock) : PrefixedStream :=
  {| prefix := prefix; prefix_pos := 0; inner := inner |}.

(** [read] into a buffer of [cap] bytes: the bytes put into it. *)
Definition read (s : PrefixedStream) (cap : nat) : result io_error bytes * PrefixedStream :=
  if (prefix_pos s <? length (prefix s))%nat then
    let remaining := drop (prefix_pos s) (prefix s) in
    let n := Nat.min (length remaining) cap in
    (Ok (take n remaining), {| prefix := prefix s; prefix_pos := prefix_pos s + n; inner := inner s |})
  else
    let '(res, sk) := Stream.read cap (inner s) in
    (res, {| prefix := prefix s; prefix_pos := prefix_pos s; inner := sk |}).

(** [write]: straight to the socket. *)
Definition write (s : PrefixedStream) (b : bytes) : result io_error unit * PrefixedStream :=
  let '(res, sk) := write_all b (inner s) in
  (res, {| prefix := prefix s; prefix_pos := prefix_pos s; inner := sk |}).

(** Successive reads, and what they deliver. *)
Fixpoint reads (s : PrefixedStream) (caps : list nat) : result io_error (list bytes) * PrefixedStream :=
  match caps with
  | [] => (Ok [], s)
  | cap :: caps' =>
      match read s cap with
      | (Ok d, s') => let '(r, s'') := reads s' caps' in ((fun ds => d :: ds) <$> r, s'')
      | (Err e, s') => (Err e, s')
      | (Panic, s') => (Panic, s')
      end
  end.

(** What is still to be read. *)
Definition remaining (s : PrefixedStream) : bytes := drop (prefix_pos s) (prefix s) ++ pending (rx (inner s)).

Lemma poll_pending cap r d r' : poll false cap r = (Ok d, r') -> pending r = d ++ pending r'.
Proof.
  revert d r'. induction r as [|c r IH]; intros d r' Hp; cbn in Hp.
  { by simplify_eq. }
  destruct c as [e| |]; [|done|by apply IH].
  destruct (Nat.leb_spec (length e) cap); simplify_eq; [done|].
  cbn. by rewrite app_assoc, take_drop.
Qed.

Lemma read_remaining s cap d s' : read s cap = (Ok d, s') -> remaining s = d ++ remaining s'.
Proof.
  unfold read, remaining. destruct (Nat.ltb_spec (prefix_pos s) (length (prefix s))) as [Hlt|Hge]; intros Hr.
  - simplify_eq. cbn [prefix_pos prefix inner]. rewrite <- drop_drop, app_assoc, take_drop. done.
  - unfold Stream.read in Hr. destruct (poll false cap (rx (inner s))) as [res r] eqn:Hp. simplify_eq.
    cbn [prefix_pos prefix inner rx]. rewrite !(drop_ge (prefix s)) by lia. by apply (poll_pending cap).
Qed.

(** A [PrefixedStream] is transparent: however the caller sizes its
    buffers, and however the socket splits its data, the reads deliver the
    prefix and then the socket's bytes, in order, none lost and none twice. *)
Theorem prefixed_reads_in_order (p : bytes) (sk : sock) (caps : list nat) (ds : list bytes) (s' : PrefixedStream) :
  reads (new p sk) caps = (Ok ds, s') -> p ++ pending (rx sk) = concat ds ++ remaining s'.
Proof.
  change (p ++ pending (rx sk)) with (remaining (new p sk)). generalize (new p sk). clear p sk.
  revert ds. induction caps as [|cap caps IH]; intros ds s Hr; cbn in Hr; [by simplify_eq|].
  destruct (read s cap) as [[d|e|] s1] eqn:Hd; [|done|done].
  destruct (reads s1 caps) as [[ds1|e|] s2] eqn:Hds; cbn in Hr; simplify_eq.
  rewrite (read_remaining _ _ _ _ Hd), (IH _ _ Hds). cbn. by rewrite app_assoc.
Qed.

Lemma prefixed_reads_in_order_witness :
  exists s', [1; 2; 3] ++ [4; 5] = concat [[1; 2]; [3]; [4; 5]] ++ remaining s'.
Proof.
  exists {| prefix := [1; 2; 3]; prefix_pos := 3; inner := Sock [] [] true |}.
  apply (prefixed_reads_in_order [1; 2; 3] (reader [4; 5]) [2; 2; 2]%nat). reflexivity.
Defined.
End Prefixed.
