(* ===== verification/Vision.v ===== *)
(** * XTLS Vision padding (orcax/transport/src/vision.rs)

    The reader [UnpadState::feed] works on arbitrary pieces of the stream and
    consumes content and padding in bulk; [run] is the reference automaton that
    takes one byte at a time.  The random draws of [encode_frame] are
    arguments. *)
From S2P Require Import Prelude.

Inductive Command : Type := PaddingContinue | PaddingEnd | PaddingDirect.
#[export] Instance Command_eq_dec : EqDecision Command.
Proof. solve_decision. Defined.

(** [Command::from_byte], and [command as u8]. *)
Definition from_byte (b : Z) : option Command :=
  if b =? 0 then Some PaddingContinue else if b =? 1 then Some PaddingEnd
  else if b =? 2 then Some PaddingDirect else None.
Definition command_byte (c : Command) : Z :=
  match c with PaddingContinue => 0 | PaddingEnd => 1 | PaddingDirect => 2 end.

Definition FRAME_MAX : Z := 2048.
Definition HEADER_OVERHEAD : Z := 21.
Definition NUMBER_OF_PACKETS_TO_FILTER : Z := 8.

Record PaddingSeed : Type := {
  long_threshold : Z;
  long_rand_mod : Z;
  long_base : Z;
  short_rand_mod : Z
}.
Definition default_seed : PaddingSeed :=
  {| long_threshold := 900; long_rand_mod := 500; long_base := 900; short_rand_mod := 256 |}.

Record UnpadState : Type := {
  us_uuid : bytes;
  remaining_command : Z;
  remaining_content : Z;
  remaining_padding : Z;
  current_command : Z;
  us_done : bool;
  us_direct : bool;
  uuid_buf : bytes;
  uuid_done : bool
}.

Inductive unpad_error : Type := UuidMismatch | BadCommand (b : Z) | FeedDiverged.

(** ** The reader *)

Definition new_unpad (user_uuid : bytes) : UnpadState :=
  {| us_uuid := user_uuid; remaining_command := -1; remaining_content := -1; remaining_padding := -1;
     current_command := 0; us_done := false; us_direct := false; uuid_buf := []; uuid_done := false |}.

Definition is_done (st : UnpadState) : bool := us_done st.
Definition is_direct (st : UnpadState) : bool := us_direct st.

Definition set_counts (st : UnpadState) (cmd content padding current : Z) : UnpadState :=
  {| us_uuid := us_uuid st; remaining_command := cmd; remaining_content := content; remaining_padding := padding;
     current_command := current; us_done := us_done st; us_direct := us_direct st; uuid_buf := uuid_buf st;
     uuid_done := uuid_done st |}.
Definition set_done (st : UnpadState) (direct : bool) : UnpadState :=
  {| us_uuid := us_uuid st; remaining_command := remaining_command st; remaining_content := remaining_content st;
     remaining_padding := remaining_padding st; current_command := current_command st; us_done := true;
     us_direct := direct; uuid_buf := uuid_buf st; uuid_done := uuid_done st |}.
Definition set_uuid (st : UnpadState) (buf : bytes) (d : bool) (cmd : Z) : UnpadState :=
  {| us_uuid := us_uuid st; remaining_command := cmd; remaining_content := remaining_content st;
     remaining_padding := remaining_padding st; current_command := current_command st; us_done := us_done st;
     us_direct := us_direct st; uuid_buf := buf; uuid_done := d |}.

(** One header byte; [None] is the [unreachable!()] arm. *)
Definition header_byte (st : UnpadState) (b : Z) : option UnpadState :=
  let rc := remaining_command st in
  let ct := remaining_content st in
  let pd := remaining_padding st in
  let cc := current_command st in
  if rc =? 5 then Some (set_counts st (rc - 1) ct pd b)
  else if rc =? 4 then Some (set_counts st (rc - 1) (Z.shiftl b 8) pd cc)
  else if rc =? 3 then Some (set_counts st (rc - 1) (Z.lor ct b) pd cc)
  else if rc =? 2 then Some (set_counts st (rc - 1) ct (Z.shiftl b 8) cc)
  else if rc =? 1 then Some (set_counts st (rc - 1) ct (Z.lor pd b) cc)
  else None.

Definition frame_complete (st : UnpadState) : bool :=
  (remaining_command st =? 0) && (remaining_content st =? 0) && (remaining_padding st =? 0).

Definition outcome : Type := result unpad_error unit * UnpadState * bytes.
Definition emit (o : bytes) (r : outcome) : outcome := let '(res, st, out) := r in (res, st, o ++ out).

(** The body of the loop up to the completion test: the new state, the bytes
    left of the piece, and the bytes written to [out]. *)
Definition consume (st : UnpadState) (w : bytes) : option (UnpadState * bytes * bytes) :=
  if 0 <? remaining_command st then
    match w with
    | [] => None
    | b :: w' => (fun st' => (st', w', [])) <$> header_byte st b
    end
  else if 0 <? remaining_content st then
    let n := Nat.min (Z.to_nat (remaining_content st)) (length w) in
    Some (set_counts st (remaining_command st) (remaining_content st - Z.of_nat n) (remaining_padding st) (current_command st),
          drop n w, take n w)
  else if 0 <? remaining_padding st then
    let n := Nat.min (Z.to_nat (remaining_padding st)) (length w) in
    Some (set_counts st (remaining_command st) (remaining_content st) (remaining_padding st - Z.of_nat n) (current_command st),
          drop n w, [])
  else Some (st, w, []).

(** The [while i < wire.len()] loop; [w] is [wire[i..]]. *)
Fixpoint feed_loop (fuel : nat) (st : UnpadState) (w : bytes) : outcome :=
  match fuel with
  | O => (Err FeedDiverged, st, [])
  | S fuel' =>
    match w with
    | [] => (Ok tt, st, [])
    | _ =>
      if us_done st then (Ok tt, st, w) else
      match consume st w with
      | None => (Panic, st, [])
      | Some (st1, w1, o) =>
        if frame_complete st1 then
          match from_byte (current_command st1) with
          | Some PaddingContinue => emit o (feed_loop fuel' (set_counts st1 5 (-1) (-1) (current_command st1)) w1)
          | Some PaddingEnd => (Ok tt, set_done st1 (us_direct st1), o ++ w1)
          | Some PaddingDirect => (Ok tt, set_done st1 true, o ++ w1)
          | None => (Err (BadCommand (current_command st1)), st1, o)
          end
        else emit o (feed_loop fuel' st1 w1)
      end
    end
  end.

(** [UnpadState::feed]. *)
Definition feed (st : UnpadState) (wire : bytes) : outcome :=
  if uuid_done st then feed_loop (S (length wire)) st wire
  else
    let need := (16 - length (uuid_buf st))%nat in
    let n := Nat.min need (length wire) in
    let buf := uuid_buf st ++ take n wire in
    if (length buf <? 16)%nat then (Ok tt, set_uuid st buf false (remaining_command st), [])
    else if bool_decide (buf = us_uuid st)
    then feed_loop (S (length wire)) (set_uuid st buf true 5) (drop n wire)
    else (Err UuidMismatch, set_uuid st buf false (remaining_command st), []).

(** A caller's sequence of [feed] calls into one output buffer, up to the first
    error. *)
Fixpoint feed_all (st : UnpadState) (pieces : list bytes) : outcome :=
  match pieces with
  | [] => (Ok tt, st, [])
  | p :: ps =>
      match feed st p with
      | (Ok _, st', o) => emit o (feed_all st' ps)
      | r => r
      end
  end.

(** ** The writer *)

Section writer.
Context `{Profile}.

(** [i32] arithmetic, and [%] on [u32]. *)
Definition arith_i32 {E} (z : Z) : result E Z :=
  if (- 2 ^ 31 <=? z) && (z <? 2 ^ 31) then Ok z else if overflow_checks then Panic else Ok (i32 z).
Definition rem_u32 {E} (a m : Z) : result E Z := if m =? 0 then Panic else Ok (a mod m).

(** The length [encode_frame] draws, before the cap. *)
Definition draw_padding {E} (r content_len : Z) (long_padding : bool) (seed : PaddingSeed) : result E Z :=
  padding_len ←
    (if (u32 content_len <? long_threshold seed) && long_padding then
       q ← rem_u32 r (long_rand_mod seed);
       s ← arith_i32 (i32 q + i32 (long_base seed));
       arith_i32 (s - content_len)
     else q ← rem_u32 r (short_rand_mod seed); Ok (i32 q));
  Ok (if padding_len <? 0 then 0 else padding_len).

(** [encode_frame]; [r] is the [next_u32] draw and [noise n] the [n] bytes
    [fill_bytes] writes.  A negative [content_len as usize] overflows the
    capacity. *)
Definition encode_frame {E} (r : Z) (noise : nat -> bytes) (payload : bytes) (command : Command)
    (include_uuid_prefix : bool) (uuid : bytes) (long_padding : bool) (seed : PaddingSeed) : result E bytes :=
  let content_len := i32 (zlen payload) in
  padding_len ← draw_padding r content_len long_padding seed;
  cap ← arith_i32 (FRAME_MAX - HEADER_OVERHEAD - content_len);
  let padding_len := if cap <? padding_len then Z.max cap 0 else padding_len in
  _ ← (if content_len <? 0 then Panic else Ok tt);
  Ok ((if include_uuid_prefix then uuid else []) ++
      [command_byte command; u8 (Z.shiftr content_len 8); u8 content_len; u8 (Z.shiftr padding_len 8); u8 padding_len] ++
      payload ++ noise (Z.to_nat padding_len)).

Record PadState : Type := { ps_uuid : bytes; ps_done : bool; ps_seed : PaddingSeed }.

Definition new_pad (user_uuid : bytes) : PadState := {| ps_uuid := user_uuid; ps_done := false; ps_seed := default_seed |}.
Definition pad_is_done (st : PadState) : bool := ps_done st.

(** [PadState::wrap] and [PadState::into_direct]. *)
Definition wrap {E} (r : Z) (noise : nat -> bytes) (st : PadState) (payload : bytes) : result E (bytes * PadState) :=
  if ps_done st then Ok (payload, st) else
  f ← encode_frame r noise payload PaddingEnd true (ps_uuid st) true (ps_seed st);
  Ok (f, {| ps_uuid := ps_uuid st; ps_done := true; ps_seed := ps_seed st |}).
Definition into_direct {E} (r : Z) (noise : nat -> bytes) (st : PadState) (payload : bytes) : result E (bytes * PadState) :=
  if ps_done st then Ok (payload, st) else
  f ← encode_frame r noise payload PaddingDirect true (ps_uuid st) true (ps_seed st);
  Ok (f, {| ps_uuid := ps_uuid st; ps_done := true; ps_seed := ps_seed st |}).
End writer.

(** ** The reference automaton *)

Definition step (st : UnpadState) (b : Z) : outcome :=
  if us_done st then (Ok tt, st, [b]) else
  match consume st [b] with
  | None => (Panic, st, [])
  | Some (st1, _, o) =>
    if frame_complete st1 then
      match from_byte (current_command st1) with
      | Some PaddingContinue => (Ok tt, set_counts st1 5 (-1) (-1) (current_command st1), o)
      | Some PaddingEnd => (Ok tt, set_done st1 (us_direct st1), o)
      | Some PaddingDirect => (Ok tt, set_done st1 true, o)
      | None => (Err (BadCommand (current_command st1)), st1, o)
      end
    else (Ok tt, st1, o)
  end.

Definition and_then (r : outcome) (k : UnpadState -> outcome) : outcome :=
  match r with
  | (Ok _, st, o) => emit o (k st)
  | r => r
  end.

Fixpoint run (st : UnpadState) (w : bytes) : outcome :=
  match w with
  | [] => (Ok tt, st, [])
  | b :: w' => and_then (step st b) (fun st' => run st' w')
  end.

(** States between two bytes, once the UUID is done. *)
Definition ready (st : UnpadState) : Prop :=
  us_done st = true \/
  (1 <= remaining_command st <= 5 /\ (remaining_command st <= 3 -> 0 <= remaining_content st) /\
   (remaining_command st <= 1 -> 0 <= remaining_padding st)) \/
  (remaining_command st = 0 /\ 0 <= remaining_content st /\ 0 <= remaining_padding st /\
   0 < remaining_content st + remaining_padding st).

(** The reader's invariant. *)
Definition unpad_inv (st : UnpadState) : Prop :=
  if uuid_done st then ready st
  else us_done st = false /\ (length (uuid_buf st) < 16)%nat /\ length (us_uuid st) = 16%nat.

(** ** Lemmas *)

Lemma emit_nil r : emit [] r = r.
Proof. by destruct r as [[? ?] ?]. Qed.
Lemma emit_emit a b r : emit a (emit b r) = emit (a ++ b) r.
Proof. destruct r as [[? ?] ?]. cbn. by rewrite app_assoc. Qed.
Lemma and_then_emit o r k : and_then (emit o r) k = emit o (and_then r k).
Proof. destruct r as [[[[]|e|] ?] ?]; cbn; [|done|done]. by rewrite emit_emit. Qed.
Lemma and_then_assoc r k1 k2 : and_then (and_then r k1) k2 = and_then r (fun st => and_then (k1 st) k2).
Proof. destruct r as [[[[]|e|] st] o]; cbn; [|done|done]. apply and_then_emit. Qed.

Lemma run_app st a b : run st (a ++ b) = and_then (run st a) (fun st' => run st' b).
Proof.
  revert st. induction a as [|x a IH]; intros st; cbn [run app and_then]; [by rewrite emit_nil|].
  rewrite and_then_assoc. destruct (step st x) as [[[[]|e|] st'] o]; cbn; [|done|done]. by rewrite IH.
Qed.

Lemma run_done st w : us_done st = true -> run st w = (Ok tt, st, w).
Proof. intros Hd. induction w as [|b w IH]; cbn [run]; [done|]. unfold step. rewrite Hd. cbn. by rewrite IH. Qed.

(** The completion test, followed by the reference automaton. *)
Definition finish (st1 : UnpadState) (o w : bytes) : outcome :=
  if frame_complete st1 then
    match from_byte (current_command st1) with
    | Some PaddingContinue => emit o (run (set_counts st1 5 (-1) (-1) (current_command st1)) w)
    | Some PaddingEnd => (Ok tt, set_done st1 (us_direct st1), o ++ w)
    | Some PaddingDirect => (Ok tt, set_done st1 true, o ++ w)
    | None => (Err (BadCommand (current_command st1)), st1, o)
    end
  else emit o (run st1 w).

Lemma finish_app st1 o1 o2 w : finish st1 (o1 ++ o2) w = emit o1 (finish st1 o2 w).
Proof.
  unfold finish. destruct (frame_complete st1); [|by rewrite emit_emit].
  destruct (from_byte (current_command st1)) as [[]|]; cbn; rewrite ?emit_emit, ?app_assoc; done.
Qed.

Lemma run_cons st b w st1 w1 o :
  us_done st = false -> consume st [b] = Some (st1, w1, o) -> run st (b :: w) = finish st1 o w.
Proof.
  intros Hd Hc. cbn [run]. unfold step, finish. rewrite Hd, Hc.
  destruct (frame_complete st1); [|done].
  destruct (from_byte (current_command st1)) as [[]|]; cbn [and_then]; try done; by rewrite run_done.
Qed.

(** Bulk consumption of content or of padding is byte-wise consumption. *)
Definition take_content (st : UnpadState) (n : Z) : UnpadState :=
  set_counts st (remaining_command st) (remaining_content st - n) (remaining_padding st) (current_command st).
Definition take_padding (st : UnpadState) (n : Z) : UnpadState :=
  set_counts st (remaining_command st) (remaining_content st) (remaining_padding st - n) (current_command st).

Lemma set_counts_eta st : set_counts st (remaining_command st) (remaining_content st) (remaining_padding st) (current_command st) = st.
Proof. by destruct st. Qed.

Lemma run_content st a w :
  us_done st = false -> remaining_command st = 0 -> a <> [] -> zlen a <= remaining_content st ->
  run st (a ++ w) = finish (take_content st (zlen a)) a w.
Proof.
  intros Hd Hrc. revert st Hd Hrc. induction a as [|b a IH]; intros st Hd Hrc Hne Hle; [done|]. clear Hne.
  unfold zlen in *. cbn [app length] in *.
  assert (consume st [b] = Some (take_content st 1, [], [b])) as Hc.
  { unfold consume. rewrite Hrc. cbn [Z.ltb Z.compare]. destruct (Z.ltb_spec 0 (remaining_content st)); [|lia].
    cbn [length]. replace (Nat.min (Z.to_nat (remaining_content st)) 1) with 1%nat by lia. unfold take_content. by rewrite Hrc. }
  rewrite (run_cons _ _ _ _ _ _ Hd Hc). destruct a as [|b' a]; [done|].
  assert (frame_complete (take_content st 1) = false) as Hf.
  { unfold frame_complete. cbn in *. lia. }
  unfold finish at 1. rewrite Hf. rewrite IH; [|done..| cbn in *; lia].
  rewrite (finish_app _ [b] (b' :: a)). do 2 f_equal.
  unfold take_content, set_counts. cbn [remaining_content remaining_command remaining_padding current_command
    us_uuid us_done us_direct uuid_buf uuid_done]. f_equal. cbn [length]. lia.
Qed.

Lemma run_padding st a w :
  us_done st = false -> remaining_command st = 0 -> remaining_content st = 0 -> a <> [] ->
  zlen a <= remaining_padding st ->
  run st (a ++ w) = finish (take_padding st (zlen a)) [] w.
Proof.
  intros Hd Hrc Hct. revert st Hd Hrc Hct. induction a as [|b a IH]; intros st Hd Hrc Hct Hne Hle; [done|]. clear Hne.
  unfold zlen in *. cbn [app length] in *.
  assert (consume st [b] = Some (take_padding st 1, [], [])) as Hc.
  { unfold consume. rewrite Hrc, Hct. cbn [Z.ltb Z.compare]. destruct (Z.ltb_spec 0 (remaining_padding st)); [|lia].
    cbn [length]. replace (Nat.min (Z.to_nat (remaining_padding st)) 1) with 1%nat by lia. unfold take_padding. by rewrite Hrc, Hct. }
  rewrite (run_cons _ _ _ _ _ _ Hd Hc). destruct a as [|b' a]; [done|].
  assert (frame_complete (take_padding st 1) = false) as Hf.
  { unfold frame_complete. cbn in *. lia. }
  unfold finish at 1. rewrite Hf, emit_nil. rewrite IH; [|done..| cbn in *; lia].
  f_equal. unfold take_padding, set_counts. cbn [remaining_content remaining_command remaining_padding current_command
    us_uuid us_done us_direct uuid_buf uuid_done]. f_equal. cbn [length]. lia.
Qed.

(** One header byte keeps the counters in order. *)
Lemma header_byte_ready st b :
  us_done st = false -> 1 <= remaining_command st <= 5 ->
  (remaining_command st <= 3 -> 0 <= remaining_content st) -> (remaining_command st <= 1 -> 0 <= remaining_padding st) ->
  0 <= b ->
  exists st1, header_byte st b = Some st1 /\ us_done st1 = false /\ uuid_done st1 = uuid_done st /\
    (ready st1 \/ frame_complete st1 = true).
Proof.
  intros Hd Hrc Hct Hpd Hb. unfold header_byte.
  assert (0 <= Z.shiftl b 8) by (apply Z.shiftl_nonneg; lia).
  assert (remaining_content st < 0 \/ 0 <= Z.lor (remaining_content st) b) by (rewrite Z.lor_nonneg; lia).
  assert (remaining_padding st < 0 \/ 0 <= Z.lor (remaining_padding st) b) by (rewrite Z.lor_nonneg; lia).
  repeat (case_match; [eexists; split; [done|]; split; [done|]; split; [done|];
    unfold ready, frame_complete; cbn [set_counts us_done remaining_command remaining_content remaining_padding]; lia|]).
  lia.
Qed.

Lemma consume_ready st w :
  us_done st = false -> ready st -> w <> [] -> wf_bytes w ->
  exists st1 w1 o, consume st w = Some (st1, w1, o) /\ us_done st1 = false /\ uuid_done st1 = uuid_done st /\
    (ready st1 \/ frame_complete st1 = true) /\ wf_bytes w1 /\ (length w1 < length w)%nat /\
    (length o + length w1 <= length w)%nat.
Proof.
  intros Hd [|[(Hrc & Hct & Hpd)|(Hrc & Hct & Hpd & Hs)]] Hne Hw; [congruence|..]; unfold consume.
  - destruct (Z.ltb_spec 0 (remaining_command st)); [|lia]. destruct w as [|b w]; [done|].
    apply Forall_cons_iff in Hw as [Hb Hw]. unfold is_byte in Hb.
    destruct (header_byte_ready st b Hd Hrc Hct Hpd ltac:(lia)) as (st1 & -> & ? & ? & ?).
    exists st1, w, []. repeat split; try done; cbn; lia.
  - assert (1 <= length w)%nat by (destruct w; [done | cbn; lia]).
    rewrite Hrc. cbn [Z.ltb Z.compare]. destruct (Z.ltb_spec 0 (remaining_content st)).
    + do 3 eexists. split; [done|]. cbn [set_counts us_done uuid_done]. split; [done|]. split; [done|]. split.
      { unfold ready, frame_complete. cbn. lia. }
      split; [auto with orcax|]. rewrite length_drop, length_take. lia.
    + destruct (Z.ltb_spec 0 (remaining_padding st)); [|lia].
      do 3 eexists. split; [done|]. cbn [set_counts us_done uuid_done]. split; [done|]. split; [done|]. split.
      { unfold ready, frame_complete. cbn. lia. }
      split; [auto with orcax|]. rewrite length_drop. cbn. lia.
Qed.

Lemma reset_ready st1 cc : us_done st1 = false -> ready (set_counts st1 5 (-1) (-1) cc).
Proof. intros. right. left. cbn. lia. Qed.

(** The bulk loop is the reference automaton. *)
Lemma consume_run st w st1 w1 o :
  us_done st = false -> ready st -> w <> [] -> consume st w = Some (st1, w1, o) -> run st w = finish st1 o w1.
Proof.
  intros Hd Hready Hne Hc. destruct (Z.ltb_spec 0 (remaining_command st)) as [Hrc|Hrc].
  { unfold consume in Hc. rewrite (proj2 (Z.ltb_lt _ _) Hrc) in Hc. destruct w as [|b w]; [done|].
    destruct (header_byte st b) as [st'|] eqn:Hb; cbn in Hc; [|done]. injection Hc as <- <- <-.
    apply (run_cons _ _ _ _ []); [done|]. unfold consume. rewrite (proj2 (Z.ltb_lt _ _) Hrc). by rewrite Hb. }
  destruct Hready as [?|[?|(Hrc0 & Hct & Hpd & Hs)]]; [congruence|lia|].
  assert (1 <= length w)%nat by (destruct w; [done | cbn; lia]).
  unfold consume in Hc. rewrite Hrc0 in Hc. cbn [Z.ltb Z.compare] in Hc.
  destruct (Z.ltb_spec 0 (remaining_content st)) as [Hlt|].
  - injection Hc as <- <- <-. set (n := Nat.min _ _).
    rewrite <- (take_drop n w) at 1.
    assert (zlen (take n w) = Z.of_nat n) as Hn by (unfold zlen; rewrite length_take; lia).
    rewrite run_content; [|done|done| |lia].
    + unfold take_content. rewrite Hn. by rewrite Hrc0.
    + intros He. rewrite He in Hn. unfold zlen in Hn. cbn [length] in Hn. lia.
  - assert (remaining_content st = 0) as Hct0 by lia. destruct (Z.ltb_spec 0 (remaining_padding st)); [|lia].
    injection Hc as <- <- <-. set (n := Nat.min _ _).
    rewrite <- (take_drop n w) at 1.
    assert (zlen (take n w) = Z.of_nat n) as Hn by (unfold zlen; rewrite length_take; lia).
    rewrite run_padding; [|done|done|done| |lia].
    + unfold take_padding. rewrite Hn. by rewrite Hrc0.
    + intros He. rewrite He in Hn. unfold zlen in Hn. cbn [length] in Hn. lia.
Qed.

Lemma feed_loop_run fuel st w :
  ready st -> wf_bytes w -> (length w < fuel)%nat -> feed_loop fuel st w = run st w.
Proof.
  revert st w. induction fuel as [|fuel IH]; intros st w Hr Hw Hf; [lia|]. cbn [feed_loop].
  destruct w as [|b w]; [done|]. destruct (us_done st) eqn:Hd; [by rewrite run_done|].
  destruct (consume_ready st (b :: w) Hd Hr ltac:(done) Hw) as (st1 & w1 & o & Hc & Hd1 & _ & Hor & Hw1 & Hlt & _).
  rewrite (consume_run st (b :: w) _ _ _ Hd Hr ltac:(done) Hc), Hc. unfold finish.
  destruct (frame_complete st1) eqn:Hfc.
  - destruct (from_byte (current_command st1)) as [[]|]; [|done..].
    rewrite IH; [done | by apply reset_ready | done | lia].
  - destruct Hor as [Hr1|]; [|done]. rewrite IH; [done | done | done | lia].
Qed.

(** The automaton keeps the invariant, fails only on an unknown command, and
    never writes more than it reads. *)
Lemma step_ready st b :
  ready st -> is_byte b ->
  let '(r, st', o) := step st b in
  (length o <= 1)%nat /\ uuid_done st' = uuid_done st /\
  ((r = Ok tt /\ ready st') \/ exists c, r = Err (BadCommand c)).
Proof.
  intros Hr Hb. unfold step. destruct (us_done st) eqn:Hd.
  { cbn. split; [lia|]. split; [done|]. left. split; [done|]. by left. }
  destruct (consume_ready st [b] Hd Hr ltac:(done)) as (st1 & w1 & o & -> & Hd1 & Hu & Hor & _ & _ & Hlen).
  { repeat constructor; apply Hb. }
  cbn [length] in Hlen. destruct (frame_complete st1); [|destruct Hor; [|done]].
  - destruct (from_byte (current_command st1)) as [[]|]; (split; [lia|]); (split; [done|]);
      [left|left|left|right; by eexists]; (split; [done|]); [by apply reset_ready|by left|by left].
  - split; [lia|]. split; [done|]. by left.
Qed.

Lemma run_ready st w :
  ready st -> wf_bytes w ->
  let '(r, st', o) := run st w in
  (length o <= length w)%nat /\ uuid_done st' = uuid_done st /\
  ((r = Ok tt /\ ready st') \/ exists c, r = Err (BadCommand c)).
Proof.
  intros Hr Hw. revert st Hr. induction Hw as [|b w Hb Hw IH]; intros st Hr; cbn [run].
  { split; [lia|]. split; [done|]. by left. }
  pose proof (step_ready st b Hr Hb) as Hs. destruct (step st b) as [[r st'] o]. destruct Hs as (Hl & Hu & [[-> Hr']|[c ->]]).
  - cbn [and_then]. specialize (IH st' Hr'). destruct (run st' w) as [[r2 st2] o2]. cbn [emit].
    destruct IH as (Hl2 & Hu2 & Hc). split; [rewrite length_app; cbn [length]; lia|]. split; [congruence|done].
  - cbn [and_then length]. split; [lia|]. split; [done|]. right. by eexists.
Qed.

Lemma set_uuid_ready st buf : ready (set_uuid st buf true 5).
Proof. right. left. cbn. lia. Qed.

(** [feed] in terms of the reference automaton. *)
Lemma feed_run st wire :
  unpad_inv st -> wf_bytes wire ->
  feed st wire =
  if uuid_done st then run st wire
  else let k := (16 - length (uuid_buf st))%nat in
    if (length wire <? k)%nat then (Ok tt, set_uuid st (uuid_buf st ++ wire) false (remaining_command st), [])
    else if bool_decide (uuid_buf st ++ take k wire = us_uuid st)
    then run (set_uuid st (uuid_buf st ++ take k wire) true 5) (drop k wire)
    else (Err UuidMismatch, set_uuid st (uuid_buf st ++ take k wire) false (remaining_command st), []).
Proof.
  intros Hinv Hw. unfold feed, unpad_inv in *. destruct (uuid_done st).
  { apply feed_loop_run; [done | done | lia]. }
  destruct Hinv as (_ & Hb & Hu). cbn zeta. set (k := (16 - length (uuid_buf st))%nat).
  rewrite length_app, length_take. destruct (Nat.ltb_spec (length wire) k).
  - destruct (Nat.ltb_spec (length (uuid_buf st) + Nat.min (Nat.min k (length wire)) (length wire)) 16); [|lia].
    rewrite take_ge by lia. done.
  - destruct (Nat.ltb_spec (length (uuid_buf st) + Nat.min (Nat.min k (length wire)) (length wire)) 16); [lia|].
    rewrite Nat.min_l by lia. case_bool_decide; [|done].
    apply feed_loop_run; [apply set_uuid_ready | auto with orcax | rewrite length_drop; lia].
Qed.

Lemma feed_inv st wire :
  unpad_inv st -> wf_bytes wire ->
  let '(r, st', o) := feed st wire in
  (length o <= length wire)%nat /\
  ((r = Ok tt /\ unpad_inv st') \/ r = Err UuidMismatch \/ exists c, r = Err (BadCommand c)).
Proof.
  intros Hinv Hw. rewrite feed_run by done. unfold unpad_inv in *. destruct (uuid_done st) eqn:Hu.
  { pose proof (run_ready st wire Hinv Hw) as Hr. destruct (run st wire) as [[r st'] o].
    destruct Hr as (Hl & Hu' & [[-> ?]|?]); split; auto. left. split; [done|]. by rewrite Hu', Hu. }
  destruct Hinv as (Hd & Hb & Hul). cbn zeta.
  destruct (Nat.ltb_spec (length wire) (16 - length (uuid_buf st))).
  { split; [cbn; lia|]. left. split; [done|]. cbn. rewrite length_app. split; [done|]. lia. }
  case_bool_decide; [|split; [cbn; lia|]; auto].
  pose proof (run_ready _ _ (set_uuid_ready st (uuid_buf st ++ take (16 - length (uuid_buf st)) wire))
    (wf_bytes_drop (16 - length (uuid_buf st)) wire Hw)) as Hr.
  destruct (run _ _) as [[r st'] o]. destruct Hr as (Hl & Hu' & Hor). rewrite length_drop in Hl. split; [lia|].
  destruct Hor as [[-> ?]|?]; [left|by auto]. split; [done|]. by rewrite Hu'.
Qed.

Lemma feed_app st a b :
  unpad_inv st -> wf_bytes a -> wf_bytes b ->
  feed st (a ++ b) = and_then (feed st a) (fun st' => feed st' b).
Proof.
  intros Hinv Ha Hb. pose proof (feed_inv st a Hinv Ha) as Hi. revert Hi.
  rewrite (feed_run st (a ++ b)), (feed_run st a) by auto with orcax.
  destruct (uuid_done st) eqn:Hu.
  { rewrite run_app. pose proof (run_ready st a ltac:(unfold unpad_inv in Hinv; by rewrite Hu in Hinv) Ha) as Hr.
    destruct (run st a) as [[[[]|e|] st'] o]; cbn [and_then]; [|done|done].
    intros (_ & [[_ Hi]|[Hc|[? Hc]]]); [|done|done]. destruct Hr as (_ & Hu' & _).
    by rewrite feed_run, Hu', Hu by done. }
  unfold unpad_inv in Hinv. rewrite Hu in Hinv. destruct Hinv as (Hd & Hbuf & Hul).
  cbn zeta. set (k := (16 - length (uuid_buf st))%nat).
  destruct (Nat.ltb_spec (length a) k) as [Hlt|Hge].
  - cbn [and_then]. rewrite emit_nil. intros (_ & [[_ Hi]|[Hc|[? Hc]]]); [|done|done].
    rewrite (feed_run _ b Hi Hb). cbn [uuid_done set_uuid uuid_buf us_uuid remaining_command]. cbn zeta.
    rewrite !length_app. replace (16 - (length (uuid_buf st) + length a))%nat with (k - length a)%nat by lia.
    destruct (Nat.ltb_spec (length a + length b) k).
    + destruct (Nat.ltb_spec (length b) (k - length a)); [|lia]. by rewrite app_assoc.
    + destruct (Nat.ltb_spec (length b) (k - length a)); [lia|].
      rewrite (take_app_ge a b), (drop_app_ge a b), app_assoc by lia. done.
  - rewrite length_app. destruct (Nat.ltb_spec (length a + length b) k); [lia|].
    rewrite (take_app_le a b), (drop_app_le a b) by lia. case_bool_decide; [|done].
    rewrite run_app. set (st1 := set_uuid _ _ _ _).
    pose proof (run_ready st1 (drop k a) (set_uuid_ready _ _) ltac:(auto with orcax)) as Hr.
    destruct (run st1 (drop k a)) as [[[[]|e|] st'] o]; cbn [and_then]; [|done|done].
    intros (_ & [[_ Hi]|[Hc|[? Hc]]]); [|done|done]. destruct Hr as (_ & Hu' & _).
    by rewrite feed_run, Hu' by done.
Qed.

Lemma new_unpad_inv u : length u = 16%nat -> unpad_inv (new_unpad u).
Proof. intros Hu. cbn. split; [done|]. split; [lia|done]. Qed.

Lemma feed_all_concat st pieces :
  unpad_inv st -> Forall wf_bytes pieces -> feed_all st pieces = feed st (concat pieces).
Proof.
  intros Hinv Hp. revert st Hinv. induction Hp as [|p ps Hp Hps IH]; intros st Hinv; cbn [feed_all concat].
  { rewrite feed_run by (done || constructor). cbn [run]. unfold unpad_inv in Hinv. destruct (uuid_done st) eqn:Hu; [done|].
    cbn zeta. destruct (Nat.ltb_spec (length (@nil Z)) (16 - length (uuid_buf st))) as [_|Hc]; [|cbn in Hc; lia].
    rewrite app_nil_r. do 2 f_equal. destruct st; cbn in *; by subst. }
  rewrite feed_app; [|done|done|]. 2: { apply Forall_concat. done. }
  pose proof (feed_inv st p Hinv Hp) as Hi. destruct (feed st p) as [[[[]|e|] st'] o]; cbn [and_then]; [|done|done].
  destruct Hi as (_ & [[_ Hi]|[Hc|[? Hc]]]); [|done|done]. by rewrite IH.
Qed.

(** *** Frames *)

(** A frame on the wire, without the UUID. *)
Definition frame (c : Command) (p pad : bytes) : bytes :=
  [command_byte c] ++ be_encode 2 (zlen p) ++ be_encode 2 (zlen pad) ++ p ++ pad.

Definition wf_frame_parts (p pad : bytes) : Prop := zlen p < 65536 /\ zlen pad < 65536.

Lemma lor_shiftl_8 hi lo : is_byte hi -> is_byte lo -> Z.lor (Z.shiftl hi 8) lo = hi * 256 + lo.
Proof. unfold is_byte. intros. rewrite Z.lor_comm, lor_shift_add by lia. lia. Qed.

Lemma be_encode_2_val z : 0 <= z < 65536 ->
  exists hi lo, be_encode 2 z = [hi; lo] /\ is_byte hi /\ is_byte lo /\ hi * 256 + lo = z.
Proof.
  intros Hz. pose proof (be_decode_encode_2 z Hz) as Hd. pose proof (be_encode_wf 2 z) as Hw.
  cbn [be_encode app] in *. eexists _, _. split; [done|].
  apply Forall_cons_iff in Hw as [H1 Hw]. apply Forall_cons_iff in Hw as [H2 _]. done.
Qed.

Lemma run_header_byte st b w st1 :
  us_done st = false -> (0 <? remaining_command st) = true -> header_byte st b = Some st1 ->
  (remaining_command st1 =? 0) = false -> run st (b :: w) = run st1 w.
Proof.
  intros Hd Hrc Hb Hne. rewrite (run_cons st b w st1 [] []); [|done|].
  - unfold finish, frame_complete. rewrite Hne. apply emit_nil.
  - unfold consume. by rewrite Hrc, Hb.
Qed.

(** The header of a frame. *)
Lemma run_header st c p pad w :
  us_done st = false -> remaining_command st = 5 -> wf_frame_parts p pad ->
  run st ([command_byte c] ++ be_encode 2 (zlen p) ++ be_encode 2 (zlen pad) ++ w)
  = finish (set_counts st 0 (zlen p) (zlen pad) (command_byte c)) [] w.
Proof.
  intros Hd Hrc [Hp Hpad]. pose proof (zlen_nonneg p). pose proof (zlen_nonneg pad).
  destruct (be_encode_2_val (zlen p)) as (h1 & l1 & -> & Hh1 & Hl1 & Hv1); [lia|].
  destruct (be_encode_2_val (zlen pad)) as (h2 & l2 & -> & Hh2 & Hl2 & Hv2); [lia|].
  destruct st. cbn in Hd, Hrc. subst. cbn [app].
  do 4 (erewrite run_header_byte; [|reflexivity..]).
  erewrite (run_cons _ l2 w _ [] []); [|reflexivity|unfold consume; reflexivity].
  cbn. by rewrite !lor_shiftl_8, Hv1, Hv2 by done.
Qed.

(** The body of a frame. *)
Lemma run_body st c p pad w :
  us_done st = false -> remaining_command st = 0 -> current_command st = command_byte c ->
  remaining_content st = zlen p -> remaining_padding st = zlen pad ->
  finish st [] (p ++ pad ++ w) = finish (set_counts st 0 0 0 (command_byte c)) p w.
Proof.
  intros Hd Hrc Hcc Hct Hpd.
  destruct (frame_complete st) eqn:Hfc.
  { unfold frame_complete in Hfc. assert (p = []) as -> by (destruct p; [done|]; unfold zlen in *; cbn in *; lia).
    assert (pad = []) as -> by (destruct pad; [done|]; unfold zlen in *; cbn in *; lia).
    destruct st; cbn in *; by subst. }
  unfold finish at 1. rewrite Hfc, emit_nil.
  assert (Hpadding : forall st', us_done st' = false -> remaining_command st' = 0 -> remaining_content st' = 0 ->
    remaining_padding st' = zlen pad -> pad <> [] ->
    run st' (pad ++ w) = finish (set_counts st' 0 0 0 (current_command st')) [] w).
  { intros st' H1 H2 H3 H4 H5. rewrite run_padding by (done || lia). f_equal. unfold take_padding.
    rewrite H2, H3, H4. f_equal. lia. }
  destruct p as [|b p].
  - cbn [app]. rewrite Hpadding; [by rewrite Hcc|done|done|done|done|]. intros ->. unfold frame_complete in Hfc.
    rewrite Hrc, Hct, Hpd in Hfc. done.
  - rewrite run_content by (done || lia). destruct pad as [|c' pad].
    + cbn [app]. f_equal. unfold take_content. rewrite Hrc, Hct, Hpd, Hcc. f_equal. lia.
    + unfold finish at 1. replace (frame_complete (take_content st (zlen (b :: p)))) with false.
      2: { unfold frame_complete. cbn. rewrite Hpd. unfold zlen. cbn. lia. }
      rewrite Hpadding; [|done|done|cbn; lia|done|done].
      rewrite <- finish_app, app_nil_r. f_equal. unfold take_content. cbn. by rewrite Hcc.
Qed.

(** A whole frame: its content is delivered, then the command decides. *)
Lemma run_frame st c p pad w :
  us_done st = false -> remaining_command st = 5 -> wf_frame_parts p pad ->
  run st (frame c p pad ++ w) =
  match c with
  | PaddingContinue => emit p (run (set_counts st 5 (-1) (-1) 0) w)
  | PaddingEnd => (Ok tt, set_done (set_counts st 0 0 0 1) (us_direct st), p ++ w)
  | PaddingDirect => (Ok tt, set_done (set_counts st 0 0 0 2) true, p ++ w)
  end.
Proof.
  intros Hd Hrc Hw. unfold frame. rewrite <- !app_assoc, run_header by done.
  rewrite (run_body _ c p pad w) by done. by destruct c.
Qed.

(** The uplink of a session: padded frames that continue, a last one, raw bytes. *)
Definition frames (fs : list (bytes * bytes)) : bytes := flat_map (fun f => frame PaddingContinue f.1 f.2) fs.

Lemma run_frames st fs w :
  us_done st = false -> remaining_command st = 5 -> Forall (fun f => wf_frame_parts f.1 f.2) fs ->
  exists st', us_done st' = false /\ remaining_command st' = 5 /\ us_direct st' = us_direct st /\
    run st (frames fs ++ w) = emit (concat (map fst fs)) (run st' w).
Proof.
  intros Hd Hrc Hfs. revert st Hd Hrc. induction Hfs as [|[p pad] fs Hf Hfs IH]; intros st Hd Hrc.
  { exists st. cbn. by rewrite emit_nil. }
  destruct (IH (set_counts st 5 (-1) (-1) 0)) as (st' & H1 & H2 & H3 & H4); [done|done|].
  exists st'. split; [done|]. split; [done|]. split; [done|].
  unfold frames. cbn [flat_map fst snd map concat]. rewrite <- app_assoc, run_frame by done.
  fold (frames fs). by rewrite H4, emit_emit.
Qed.

(** *** The writer *)

Section writer_lemmas.
Context `{P : Profile}.

(** What [fill_bytes] and [next_u32] deliver. *)
Record draw : Type := { next_u32 : Z; fill : nat -> bytes }.
Definition wf_draw (d : draw) : Prop := 0 <= next_u32 d < 2 ^ 32 /\ forall n, length (fill d n) = n.

Lemma i32_small z : 0 <= z < 2 ^ 31 -> i32 z = z.
Proof. intros. unfold i32. rewrite Z.mod_small by lia. lia. Qed.
Lemma arith_i32_small {E} z : - 2 ^ 31 <= z < 2 ^ 31 -> arith_i32 (E:=E) z = Ok z.
Proof. intros. unfold arith_i32. by replace ((- 2 ^ 31 <=? z) && (z <? 2 ^ 31)) with true by lia. Qed.

Lemma be_encode_2_shift z : be_encode 2 z = [u8 (Z.shiftr z 8); u8 z].
Proof. cbn [be_encode app]. unfold u8. by rewrite Z.shiftr_div_pow2. Qed.

Lemma be_encode_2_mod z : be_encode 2 (z mod 65536) = be_encode 2 z.
Proof.
  rewrite !be_encode_2_shift. unfold u8. rewrite !Z.shiftr_div_pow2 by lia. change (2 ^ 8) with 256. f_equal; [|f_equal]; Z.to_euclidean_division_equations; lia.
Qed.

Lemma draw_padding_default {E} r n long :
  0 <= r < 2 ^ 32 -> 0 <= n < 2 ^ 31 ->
  exists q, draw_padding (E:=E) r n long default_seed = Ok q /\ 0 <= q < 1400 /\
    (long = true -> n < 900 -> 900 <= n + q < 1400) /\ (long = false \/ 900 <= n -> q < 256).
Proof.
  intros Hr Hn. unfold draw_padding. rewrite u32_small by lia.
  cbn [default_seed long_threshold long_rand_mod long_base short_rand_mod].
  pose proof (Z.mod_pos_bound r 500 ltac:(lia)). pose proof (Z.mod_pos_bound r 256 ltac:(lia)).
  destruct ((n <? 900) && long) eqn:Hc; unfold rem_u32; cbn [Z.eqb mbind result_bind].
  - rewrite !i32_small, arith_i32_small by lia. cbn [mbind result_bind]. rewrite arith_i32_small by lia.
    cbn [mbind result_bind]. eexists. split; [done|]. destruct (Z.ltb_spec (r mod 500 + 900 - n) 0); lia.
  - rewrite i32_small by lia. eexists. split; [done|]. destruct (Z.ltb_spec (r mod 256) 0); lia.
Qed.

(** With the default seed, [encode_frame] succeeds on every payload below 2 GiB;
    the two length fields hold the lengths modulo [2^16]. *)
Lemma encode_frame_shape {E} d p c first u long :
  wf_draw d -> zlen p < 2 ^ 31 ->
  exists n, encode_frame (E:=E) (next_u32 d) (fill d) p c first u long default_seed =
    Ok ((if first then u else []) ++ [command_byte c] ++ be_encode 2 (zlen p) ++ be_encode 2 (Z.of_nat n) ++ p ++ fill d n) /\
    Z.of_nat n < 1400 /\
    (long = true -> zlen p < 900 -> 900 <= zlen p + Z.of_nat n < 1400) /\
    (zlen p <= 2027 -> zlen p + Z.of_nat n <= 2027).
Proof.
  intros [Hr _] Hp. pose proof (zlen_nonneg p) as H0. unfold encode_frame. rewrite (i32_small (zlen p)) by lia.
  destruct (draw_padding_default (E:=E) (next_u32 d) (zlen p) long Hr ltac:(lia)) as (q & -> & Hq & Hlong & _).
  unfold FRAME_MAX, HEADER_OVERHEAD. cbn [mbind result_bind]. rewrite arith_i32_small by lia.
  cbn [mbind result_bind]. destruct (Z.ltb_spec (zlen p) 0); [lia|]. cbn [mbind result_bind].
  set (m := if 2048 - 21 - zlen p <? q then Z.max (2048 - 21 - zlen p) 0 else q).
  assert (0 <= m <= q /\ (zlen p + q <= 2027 -> m = q) /\ (zlen p <= 2027 -> zlen p + m <= 2027)) as (Hm & Hm1 & Hm2)
    by (unfold m; destruct (Z.ltb_spec (2048 - 21 - zlen p) q); lia).
  exists (Z.to_nat m). rewrite Z2Nat.id by lia. rewrite !be_encode_2_shift. split; [done|]. lia.
Qed.

Lemma encode_frame_frame {E} d p c first u long :
  wf_draw d -> zlen p < 65536 ->
  exists pad, encode_frame (E:=E) (next_u32 d) (fill d) p c first u long default_seed =
    Ok ((if first then u else []) ++ frame c p pad) /\ wf_frame_parts p pad.
Proof.
  intros Hd Hp. destruct (encode_frame_shape (E:=E) d p c first u long Hd ltac:(lia)) as (n & -> & Hn & _).
  destruct Hd as [_ Hf]. exists (fill d n). unfold frame, wf_frame_parts.
  assert (zlen (fill d n) = Z.of_nat n) as -> by (unfold zlen; by rewrite Hf). split; [done|]. lia.
Qed.

(** A write: the draws, the payload, and whether it asks for long padding. *)
Definition write : Type := draw * bytes * bool.
Definition wf_write (w : write) : Prop := let '(d, p, _) := w in wf_draw d /\ zlen p < 65536.
Definition payload_of (w : write) : bytes := let '(_, p, _) := w in p.

(** A session's padded frames: the first carries the UUID, all but the last
    continue. *)
Fixpoint encode_session {E} (first : bool) (u : bytes) (ws : list write) (last : write) (c : Command) : result E bytes :=
  match ws with
  | [] => let '(d, p, long) := last in encode_frame (next_u32 d) (fill d) p c first u long default_seed
  | (d, p, long) :: ws' =>
      f ← encode_frame (next_u32 d) (fill d) p PaddingContinue first u long default_seed;
      rest ← encode_session false u ws' last c;
      Ok (f ++ rest)
  end.

Lemma encode_session_ok {E} first u ws last c :
  Forall wf_write ws -> wf_write last ->
  exists fs pad, encode_session (E:=E) first u ws last c = Ok ((if first then u else []) ++ frames fs ++ frame c (payload_of last) pad) /\
    Forall (fun f => wf_frame_parts f.1 f.2) fs /\ map fst fs = map payload_of ws /\ wf_frame_parts (payload_of last) pad.
Proof.
  intros Hws Hl. revert first. induction Hws as [|[[d p] long] ws [Hd Hp] Hws IH]; intros first; cbn [encode_session].
  - destruct last as [[d p] long]. destruct Hl as [Hd Hp]. destruct (encode_frame_frame (E:=E) d p c first u long Hd Hp) as (pad & -> & Hw).
    exists [], pad. done.
  - destruct (encode_frame_frame (E:=E) d p PaddingContinue first u long Hd Hp) as (pad & -> & Hw). cbn [mbind result_bind].
    destruct (IH false) as (fs & pad' & -> & Hfs & Hm & Hl'). cbn [mbind result_bind].
    exists ((p, pad) :: fs), pad'. split; [|split; [by constructor|]; split; [cbn; by rewrite Hm|done]].
    unfold frames. cbn [flat_map fst snd]. by rewrite <- !app_assoc.
Qed.

(** The first UUID and then a session of frames. *)
Lemma feed_session u fs c p pad raw pieces :
  length u = 16%nat -> Forall (fun f => wf_frame_parts f.1 f.2) fs -> wf_frame_parts p pad -> c <> PaddingContinue ->
  Forall wf_bytes pieces -> concat pieces = (u ++ frames fs ++ frame c p pad) ++ raw ->
  exists st', feed_all (new_unpad u) pieces = (Ok tt, st', concat (map fst fs) ++ p ++ raw) /\
    is_done st' = true /\ is_direct st' = bool_decide (c = PaddingDirect).
Proof.
  intros Hu Hfs Hp Hc Hw Hcat. rewrite feed_all_concat by (done || by apply new_unpad_inv).
  rewrite feed_run; [|by apply new_unpad_inv|by apply Forall_concat]. rewrite Hcat. cbn [new_unpad uuid_done uuid_buf us_uuid].
  cbn zeta. cbn [length Nat.sub app]. rewrite <- !app_assoc.
  destruct (Nat.ltb_spec (length (u ++ frames fs ++ frame c p pad ++ raw)) 16) as [Hlt|_]; [rewrite length_app in Hlt; lia|].
  rewrite <- Hu, take_app_length, drop_app_length. rewrite bool_decide_eq_true_2 by done.
  destruct (run_frames (set_uuid (new_unpad u) u true 5) fs (frame c p pad ++ raw) eq_refl eq_refl Hfs)
    as (st' & Hd & Hrc & Hdir & ->).
  rewrite run_frame by done. destruct c; [done|..]; (eexists; split; [done|]); split; try done.
Qed.

(** ** The contract of Vision *)

(** C1: [feed] does not depend on how the stream is cut up: in any state that
    satisfies the reader's invariant, feeding any sequence of pieces gives the
    same result, the same state and the same output as one call on their
    concatenation, errors included. *)
Theorem feed_chunking st pieces :
  unpad_inv st -> Forall wf_bytes pieces -> feed_all st pieces = feed st (concat pieces).
Proof. apply feed_all_concat. Qed.

(** [feed] is total on hostile input: it never panics and never loops; a
    fresh reader satisfies the invariant, a successful call preserves it, the
    only errors are the two protocol errors, and no call writes more bytes than
    it reads. *)
Theorem feed_total u st wire :
  length u = 16%nat -> unpad_inv st -> wf_bytes wire ->
  unpad_inv (new_unpad u) /\
  let '(r, st', o) := feed st wire in
  (length o <= length wire)%nat /\
  ((r = Ok tt /\ unpad_inv st') \/ r = Err UuidMismatch \/ exists c, r = Err (BadCommand c)).
Proof. intros Hu Hi Hw. split; [by apply new_unpad_inv | by apply feed_inv]. Qed.

(** C2: A whole padded session is undone exactly: frames that continue, then a
    frame that ends or goes direct, then raw bytes, with payloads below 65536
    bytes (what the 16-bit length of a frame describes; longer ones are misread,
    see [long_content_misread]), whatever padding each frame draws from the default
    seed and however the bytes arrive.  The reader delivers the payloads and
    the raw bytes in order, is done, and reports a direct cut-over exactly when
    the last command asked for it. *)
Theorem vision_session_roundtrip {E} u ws last c :
  length u = 16%nat -> Forall wf_write ws -> wf_write last -> c <> PaddingContinue ->
  exists wire, encode_session (E:=E) true u ws last c = Ok wire /\
    forall raw pieces, Forall wf_bytes pieces -> concat pieces = wire ++ raw ->
    exists st', feed_all (new_unpad u) pieces
      = (Ok tt, st', concat (map payload_of ws) ++ payload_of last ++ raw) /\
      is_done st' = true /\ is_direct st' = bool_decide (c = PaddingDirect).
Proof.
  intros Hu Hws Hl Hc. destruct (encode_session_ok (E:=E) true u ws last c Hws Hl) as (fs & pad & -> & Hfs & Hm & Hp).
  eexists. split; [done|]. intros raw pieces Hw Hcat. rewrite <- Hm. by apply (feed_session u fs c _ pad).
Qed.

(** Content of 65536 bytes or more is misread: its length is cut to 16 bits, so that the
    reader delivers a prefix, drops as many bytes of the content as there is padding,
    and passes the rest, padding included, as raw bytes. *)
Theorem long_content_misread {E} u d p long c pieces :
  length u = 16%nat -> wf_draw d -> 65536 <= zlen p < 2 ^ 31 -> c <> PaddingContinue ->
  exists wire n, encode_frame (E:=E) (next_u32 d) (fill d) p c true u long default_seed = Ok wire /\
    (Forall wf_bytes pieces -> concat pieces = wire ->
     exists st', feed_all (new_unpad u) pieces
       = (Ok tt, st', take (Z.to_nat (zlen p mod 65536)) p ++ drop n (drop (Z.to_nat (zlen p mod 65536)) p ++ fill d n))).
Proof.
  intros Hu Hd Hp Hc. destruct (encode_frame_shape (E:=E) d p c true u long Hd ltac:(lia)) as (n & Hw & Hn & _). pose proof (proj2 Hd n) as Hf.
  eexists _, n. split; [exact Hw|]. intros Hwf Hcat. set (k := Z.to_nat (zlen p mod 65536)). pose proof (Z.mod_pos_bound (zlen p) 65536 ltac:(lia)) as Hb.
  assert (zlen (take k p) = zlen p mod 65536) as Hk by (unfold zlen; rewrite length_take_le by (unfold k, zlen in *; lia); unfold k; rewrite Z2Nat.id by lia; done).
  assert (zlen (take n (drop k p ++ fill d n)) = Z.of_nat n) as Hpad by (unfold zlen; rewrite length_take_le by (rewrite length_app, Hf; lia); done).
  destruct (feed_session u [] c (take k p) (take n (drop k p ++ fill d n)) (drop n (drop k p ++ fill d n)) pieces Hu) as (st' & Hr & _);
    [done|split; lia|done|done| |by exists st'].
  rewrite Hcat. unfold frames, frame. cbn [map concat app]. rewrite Hk, Hpad, <- !app_assoc. cbn [app flat_map]. rewrite <- !app_assoc, take_drop, (app_assoc (take k p)), take_drop.
  by rewrite be_encode_2_mod.
Qed.

(** A stream that does not start with the user's UUID is refused before a
    single byte of it is delivered, however it arrives. *)
Theorem vision_rejects_other_uuid u pieces :
  length u = 16%nat -> Forall wf_bytes pieces -> (16 <= length (concat pieces))%nat -> take 16 (concat pieces) <> u ->
  exists st', feed_all (new_unpad u) pieces = (Err UuidMismatch, st', []).
Proof.
  intros Hu Hw Hl Hne. rewrite feed_all_concat by (done || by apply new_unpad_inv).
  rewrite feed_run; [|by apply new_unpad_inv|by apply Forall_concat]. cbn [new_unpad uuid_done uuid_buf us_uuid].
  cbn zeta. cbn [length Nat.sub app]. destruct (Nat.ltb_spec (length (concat pieces)) 16); [lia|].
  rewrite bool_decide_eq_false_2 by done. eauto.
Qed.

(** Length hiding: with long padding, the first frame of every payload
    below 900 bytes has between 921 and 1420 bytes on the wire, whatever the
    payload's length, and no frame of a payload of up to 2027 bytes exceeds
    [FRAME_MAX]. *)
Theorem encode_frame_length {E} d p c u :
  wf_draw d -> length u = 16%nat -> zlen p <= 2027 ->
  exists wire, encode_frame (E:=E) (next_u32 d) (fill d) p c true u true default_seed = Ok wire /\
    zlen wire <= FRAME_MAX /\ (zlen p < 900 -> 921 <= zlen wire <= 1420).
Proof.
  intros Hd Hu Hp. destruct (encode_frame_shape (E:=E) d p c true u true Hd ltac:(lia)) as (n & -> & Hn & Hlong & Hcap).
  eexists. split; [done|]. destruct Hd as [_ Hf].
  rewrite !zlen_app. replace (zlen (fill d n)) with (Z.of_nat n) by (unfold zlen; by rewrite Hf).
  unfold zlen in *. rewrite !be_encode_length, Hu. unfold FRAME_MAX. cbn [length]. lia.
Qed.

(** The calls a server makes on its writer: the first through [wrap] or
    [into_direct], the rest through [wrap]. *)
Fixpoint wrap_all {E} (st : PadState) (ws : list (draw * bytes)) : result E (list bytes) :=
  match ws with
  | [] => Ok []
  | (d, p) :: ws' =>
      '(b, st') ← wrap (next_u32 d) (fill d) st p;
      bs ← wrap_all st' ws';
      Ok (b :: bs)
  end.
Definition server_writes {E} (u : bytes) (direct : bool) (d : draw) (p : bytes) (ws : list (draw * bytes)) : result E (list bytes) :=
  '(b, st) ← (if direct then into_direct (next_u32 d) (fill d) (new_pad u) p else wrap (next_u32 d) (fill d) (new_pad u) p);
  bs ← wrap_all st ws;
  Ok (b :: bs).

Lemma wrap_all_done {E} st ws : ps_done st = true -> wrap_all (E:=E) st ws = Ok (map snd ws).
Proof.
  intros Hd. induction ws as [|[d p] ws IH]; cbn [wrap_all map snd]; [done|].
  unfold wrap. rewrite Hd. cbn [mbind result_bind]. by rewrite IH.
Qed.

(** The server's writer and a client's reader compose: the first write is
    framed, every later one passes through, and the client receives exactly the
    bytes the server wrote, for any draws and any segmentation; [into_direct]
    flips the client's direct flag and [wrap] does not. *)
Theorem pad_unpad_roundtrip {E} u direct d p ws :
  length u = 16%nat -> wf_draw d -> zlen p < 65536 ->
  exists bs, server_writes (E:=E) u direct d p ws = Ok bs /\
    forall pieces, Forall wf_bytes pieces -> concat pieces = concat bs ->
    exists st', feed_all (new_unpad u) pieces = (Ok tt, st', p ++ concat (map snd ws)) /\
      is_done st' = true /\ is_direct st' = direct.
Proof.
  intros Hu Hd Hp. set (c := if direct then PaddingDirect else PaddingEnd).
  destruct (encode_frame_frame (E:=E) d p c true u true Hd Hp) as (pad & Hf & Hw).
  exists ((u ++ frame c p pad) :: map snd ws). split.
  - unfold server_writes, wrap, into_direct. cbn [new_pad ps_done ps_uuid ps_seed].
    destruct direct; unfold c in Hf; rewrite Hf; cbn [mbind result_bind]; by rewrite wrap_all_done.
  - intros pieces Hpw Hcat. destruct (feed_session u [] c p pad (concat (map snd ws)) pieces) as (st' & H1 & H2 & H3);
      try done; [by destruct direct|].
    exists st'. split; [exact H1|]. split; [done|]. rewrite H3. unfold c. by destruct direct.
Qed.
End writer_lemmas.

(** ** Witnesses *)

Definition ex_u : bytes := seqZ 1 16.
Definition ex_draw (r : Z) : draw := {| next_u32 := r; fill := fun n => replicate n 7 |}.
Lemma ex_draw_wf r : 0 <= r < 2 ^ 32 -> wf_draw (ex_draw r).
Proof. intros. split; [done|]. intros n. apply length_replicate. Qed.

Lemma feed_chunking_witness :
  feed_all (new_unpad ex_u) [seqZ 1 10; seqZ 11 6 ++ [1; 0]; [1; 0; 0; 42; 43]] = feed (new_unpad ex_u) (ex_u ++ [1; 0; 1; 0; 0; 42; 43]).
Proof.
  apply (feed_chunking (new_unpad ex_u) [seqZ 1 10; seqZ 11 6 ++ [1; 0]; [1; 0; 0; 42; 43]]).
  - by apply new_unpad_inv.
  - by apply (bool_decide_unpack _).
Defined.

Lemma feed_total_witness : Nat.le (length (feed (new_unpad ex_u) (replicate 40 3)).2) 40.
Proof.
  destruct (feed_total ex_u (new_unpad ex_u) (replicate 40 3)) as [_ H];
    [reflexivity | by apply new_unpad_inv | by apply (bool_decide_unpack _) |].
  vm_compute in H |- *. apply H.
Defined.

Lemma vision_session_roundtrip_witness :
  exists wire, encode_session (P:=true) (E:=unit) true ex_u [(ex_draw 5, [65; 66], false)] (ex_draw 3, [67], false) PaddingEnd = Ok wire /\
    exists st', feed_all (new_unpad ex_u) (map (fun b => [b]) wire ++ [[90]]) = (Ok tt, st', [65; 66; 67; 90]).
Proof.
  destruct (vision_session_roundtrip (P:=true) (E:=unit) ex_u [(ex_draw 5, [65; 66], false)] (ex_draw 3, [67], false) PaddingEnd)
    as (wire & Hw & Hf); [reflexivity | apply Forall_cons_iff; split; [split; [by apply ex_draw_wf | reflexivity] | apply Forall_nil; exact I] | split; [by apply ex_draw_wf | reflexivity] | done |].
  exists wire. split; [exact Hw|]. vm_compute in Hw. injection Hw as <-.
  destruct (Hf [90] (map (fun b => [b]) (seqZ 1 16 ++ [0; 0; 2; 0; 5; 65; 66; 7; 7; 7; 7; 7; 1; 0; 1; 0; 3; 67; 7; 7; 7]) ++ [[90]])) as (st' & H1 & _).
  - by apply (bool_decide_unpack _).
  - reflexivity.
  - exists st'. exact H1.
Defined.

Lemma vision_rejects_other_uuid_witness :
  exists st', feed_all (new_unpad ex_u) [replicate 20 9; [1]] = (Err UuidMismatch, st', []).
Proof.
  apply (vision_rejects_other_uuid ex_u [replicate 20 9; [1]]);
    [reflexivity | by apply (bool_decide_unpack _) | vm_compute; lia | vm_compute; congruence].
Defined.

Lemma encode_frame_length_witness :
  exists wire, encode_frame (H:=true) (E:=unit) 77 (fill (ex_draw 77)) [0; 0] PaddingEnd true ex_u true default_seed = Ok wire /\
    921 <= zlen wire <= 1420.
Proof.
  destruct (encode_frame_length (P:=true) (E:=unit) (ex_draw 77) [0; 0] PaddingEnd ex_u) as (wire & H1 & _ & H3);
    [by apply ex_draw_wf | reflexivity | vm_compute; congruence |].
  exists wire. split; [exact H1|]. apply H3. reflexivity.
Defined.

Lemma pad_unpad_roundtrip_witness :
  exists bs, server_writes (P:=false) (E:=unit) ex_u true (ex_draw 1) [1; 2] [(ex_draw 2, [3])] = Ok bs /\
    (Forall wf_bytes bs -> exists st', feed_all (new_unpad ex_u) bs = (Ok tt, st', [1; 2; 3]) /\ is_direct st' = true).
Proof.
  destruct (pad_unpad_roundtrip (P:=false) (E:=unit) ex_u true (ex_draw 1) [1; 2] [(ex_draw 2, [3])]) as (bs & H1 & H2);
    [reflexivity | by apply ex_draw_wf | reflexivity |].
  exists bs. split; [exact H1|]. intros Hw. destruct (H2 bs Hw eq_refl) as (st' & H3 & _ & H4). exists st'. split; [exact H3 | exact H4].
Defined.
