(* ===== verification/Whitelist.v ===== *)
(** * Split tunnelling (orcax/client/src/whitelist.rs)

    Which destinations bypass the VPN.  The ipnet crate (parsing and membership
    of CIDR blocks) is a parameter. *)
From S2P Require Import Prelude RustStd.

Definition DEFAULT_DOMAINS : list bytes := map ascii_bytes [
  "vk.com"; "vk.me"; "vkontakte.ru"; "vk.cc"; "userapi.com"; "ok.ru"; "odnoklassniki.ru"; "mycdn.me"; "mail.ru";
  "list.ru"; "inbox.ru"; "bk.ru"; "yandex.ru"; "yandex.com"; "yandex.net"; "ya.ru"; "yandex.st"; "yastatic.net";
  "sberbank.ru"; "online.sberbank.ru"; "sber.ru"; "sbrf.ru"; "tinkoff.ru"; "tbank.ru"; "alfabank.ru";
  "alfa-bank.ru"; "vtb.ru"; "vtb24.ru"; "gazprombank.ru"; "raiffeisen.ru"; "open.ru"; "psb.ru"; "gosuslugi.ru";
  "mos.ru"; "gov.ru"; "kremlin.ru"; "nalog.ru"; "nalog.gov.ru"; "ria.ru"; "tass.ru"; "rt.com"; "rbc.ru";
  "kommersant.ru"; "lenta.ru"; "wildberries.ru"; "wb.ru"; "ozon.ru"; "ozone.ru"; "avito.ru"; "yandex.market";
  "lamoda.ru"; "dns-shop.ru"; "citilink.ru"; "rutube.ru"; "dzen.ru"; "kinopoisk.ru"; "okko.tv"; "ivi.ru";
  "megafon.ru"; "mts.ru"; "beeline.ru"; "tele2.ru"; "rostelecom.ru"; "gazprom.ru"; "rosneft.ru"; "sibur.ru";
  "lukoil.ru"
  ]%string.

Definition DEFAULT_CIDRS : list bytes := map ascii_bytes [
  "5.45.192.0/18"; "5.255.192.0/18"; "37.9.64.0/18"; "37.140.128.0/18"; "77.88.0.0/18"; "87.250.224.0/19";
  "93.158.128.0/18"; "95.108.128.0/17"; "141.8.128.0/18"; "178.154.128.0/18"; "213.180.192.0/19";
  "87.240.128.0/18"; "87.240.190.0/24"; "95.213.0.0/16"; "185.225.76.0/22"; "185.32.184.0/22"; "95.163.32.0/19";
  "94.100.176.0/20"; "217.69.128.0/20"; "194.186.207.0/24"; "195.218.190.0/23"; "213.171.32.0/19";
  "213.87.0.0/16"; "95.106.0.0/17"; "83.149.0.0/16"; "188.130.0.0/17"; "85.140.0.0/16"; "213.234.192.0/19";
  "81.23.0.0/17"; "195.98.64.0/19"; "89.169.16.0/24"; "194.54.14.0/24"
  ]%string.

Definition comma : Z := 44.

(** ipnet's [IpNet]: [from_str] and [contains]. *)
Class IpNet := {
  ipnet : Type;
  ipnet_from_str : bytes -> option ipnet;
  ipnet_contains : ipnet -> IpAddr -> bool
}.

Section operations.
Context `{IpNet}.

Record Whitelist : Type := { domains : list bytes; cidrs : list ipnet }.

(** The loop of [Whitelist::new] over the user's extras. *)
Fixpoint add_extras (domains : list bytes) (es : list bytes) : list bytes :=
  match es with
  | [] => domains
  | e :: es' =>
      let e := to_ascii_lowercase (trim e) in
      if negb (bool_decide (e = [])) && existsb (Z.eqb dot) e && negb (existsb (fun d => bool_decide (d = e)) domains)
      then add_extras (domains ++ [e]) es'
      else add_extras domains es'
  end.

(** [Whitelist::new]. *)
Definition new (extra : option bytes) : Whitelist :=
  let domains := map to_ascii_lowercase DEFAULT_DOMAINS in
  let domains := match extra with Some s => add_extras domains (split_on comma s) | None => domains end in
  {| domains := domains; cidrs := omap ipnet_from_str DEFAULT_CIDRS |}.

(** [Whitelist::matches_ip] and [Whitelist::matches]. *)
Definition matches_ip (w : Whitelist) (ip : IpAddr) : bool :=
  existsb (fun c => ipnet_contains c ip) (cidrs w).
Definition matches (w : Whitelist) (host : bytes) : bool :=
  match parse_ip host with
  | Some ip => matches_ip w ip
  | None =>
      let host := to_ascii_lowercase host in
      existsb (fun d => bool_decide (host = d) || ends_with (dot :: d) host) (domains w)
  end.

(** ** Lemmas *)

(** The labels of a domain name. *)
Definition labels (s : bytes) : list bytes := split_on dot s.

Lemma join_split_on c s : join [c] (split_on c s) = s.
Proof.
  induction s as [|b s IH]; cbn [split_on]; [done|].
  destruct (split_on c s) as [|p ps] eqn:Hs; [by apply split_on_nonempty in Hs|].
  destruct (Z.eqb_spec b c) as [->|]; [cbn [join app]; f_equal; exact IH|].
  destruct ps as [|q ps]; cbn [join app] in *; by rewrite IH.
Qed.

Lemma join_app c l1 l2 : l1 <> [] -> l2 <> [] -> join [c] (l1 ++ l2) = join [c] l1 ++ c :: join [c] l2.
Proof.
  intros H1 H2. induction l1 as [|p l1 IH]; [done|]. destruct l1 as [|q l1].
  - cbn [app]. destruct l2; [done|]. done.
  - change (join [c] ((p :: q :: l1) ++ l2)) with (p ++ [c] ++ join [c] ((q :: l1) ++ l2)).
    rewrite IH by done. change (join [c] (p :: q :: l1)) with (p ++ [c] ++ join [c] (q :: l1)).
    by rewrite <- !app_assoc.
Qed.

(** The suffix test on strings is the suffix test on labels. *)
Lemma suffix_match_labels d h :
  bool_decide (h = d) || ends_with (dot :: d) h = true <-> exists ls, labels h = ls ++ labels d.
Proof.
  rewrite orb_true_iff, bool_decide_eq_true, ends_with_spec. unfold labels. split.
  - intros [->|[r ->]]; [by exists []|]. exists (split_on dot r). apply split_on_app.
  - intros [[|l ls] Hl].
    + left. rewrite <- (join_split_on dot h), Hl. apply join_split_on.
    + right. exists (join [dot] (l :: ls)). rewrite <- (join_split_on dot h), Hl.
      rewrite join_app by (done || apply split_on_nonempty). by rewrite join_split_on.
Qed.

(** A well-formed extra rule. *)
Definition valid_rule (e : bytes) : Prop := e <> [] /\ dot ∈ e.

Lemma existsb_dot e : existsb (Z.eqb dot) e = true <-> dot ∈ e.
Proof. rewrite existsb_exists, list_elem_of_In. setoid_rewrite Z.eqb_eq. naive_solver. Qed.

Lemma add_extras_spec es ds d :
  d ∈ add_extras ds es <->
  d ∈ ds \/ exists raw, raw ∈ es /\ d = to_ascii_lowercase (trim raw) /\ valid_rule d.
Proof.
  revert ds. induction es as [|e es IH]; intros ds; cbn [add_extras].
  { split; [by left | intros [?|(raw & Hr & _)]; [done|]]. by apply elem_of_nil in Hr. }
  set (x := to_ascii_lowercase (trim e)).
  assert (Hsplit : (exists raw, raw ∈ e :: es /\ d = to_ascii_lowercase (trim raw) /\ valid_rule d) <->
    (d = x /\ valid_rule d) \/ exists raw, raw ∈ es /\ d = to_ascii_lowercase (trim raw) /\ valid_rule d).
  { setoid_rewrite elem_of_cons. unfold x. naive_solver. }
  rewrite Hsplit. destruct (_ && _ && _) eqn:Hc.
  - apply andb_true_iff in Hc as [Hc _]. apply andb_true_iff in Hc as [Hne Hdot].
    apply negb_true_iff, bool_decide_eq_false in Hne. apply existsb_dot in Hdot.
    rewrite IH, elem_of_app, list_elem_of_singleton. unfold valid_rule. naive_solver.
  - rewrite IH. split; [tauto|]. intros [?|[[-> [Hne Hdot]]|?]]; [by left| |by right]. left.
    apply existsb_dot in Hdot. rewrite Hdot, bool_decide_eq_false_2 in Hc by done. cbn in Hc.
    apply negb_false_iff, existsb_exists in Hc as (y & Hy & He). apply bool_decide_eq_true in He as ->.
    by apply list_elem_of_In.
Qed.

(** ** The contract *)

(** Which host names bypass the VPN.  A host that is not an IP literal
    matches exactly when the labels of one of the rules are the last labels of
    the lower-cased host: the rules are the built-in domains and every entry of
    the comma-separated extras that, trimmed and lower-cased, is not empty and
    has a dot.  So [m.vk.com] matches the rule [vk.com], and neither
    [evilvk.com] nor [vk.com.evil.com] does. *)
Theorem whitelist_matches_labels extra host :
  parse_ip host = None ->
  matches (new extra) host = true <->
  exists d ls, labels (to_ascii_lowercase host) = ls ++ labels d /\
    (d ∈ DEFAULT_DOMAINS \/
     exists s raw, extra = Some s /\ raw ∈ split_on comma s /\ d = to_ascii_lowercase (trim raw) /\ valid_rule d).
Proof.
  intros Hip. unfold matches. rewrite Hip. cbn zeta. rewrite existsb_exists.
  setoid_rewrite suffix_match_labels. setoid_rewrite <- list_elem_of_In.
  assert (map to_ascii_lowercase DEFAULT_DOMAINS = DEFAULT_DOMAINS) as Hlow by (vm_compute; reflexivity).
  unfold new. cbn [domains]. rewrite Hlow. destruct extra as [s|].
  - setoid_rewrite add_extras_spec. split.
    + intros (d & [Hd|(raw & Hr & -> & Hv)] & ls & Hl); [by eauto 10|]. eexists _, _. split; [exact Hl|]. right. eauto 10.
    + intros (d & ls & Hl & [Hd|(s' & raw & [= <-] & Hr & Hd & Hv)]); [by eauto 10|]. exists d. split; [right; eauto|eauto].
  - split.
    + intros (d & Hd & ls & Hl). eauto 10.
    + intros (d & ls & Hl & [Hd|(s' & raw & [=] & _)]). eauto 10.
Qed.

(** An IP literal is decided by the CIDR blocks alone, whatever the
    domain rules, and a rule list entry never changes that decision. *)
Theorem whitelist_ip_by_cidr extra host ip :
  parse_ip host = Some ip ->
  matches (new extra) host = true <->
  exists text c, text ∈ DEFAULT_CIDRS /\ ipnet_from_str text = Some c /\ ipnet_contains c ip = true.
Proof.
  intros Hip. unfold matches, matches_ip. rewrite Hip, existsb_exists. unfold new. cbn [cidrs].
  setoid_rewrite <- list_elem_of_In. setoid_rewrite list_elem_of_omap. naive_solver.
Qed.
End operations.

(** ** Witness *)

(** A stand-in for ipnet that knows one address. *)
Definition ex_ipnet : IpNet :=
  {| ipnet := IpAddr; ipnet_from_str := parse_ip; ipnet_contains := fun a b => match a, b with V4 x, V4 y => bool_decide (x = y) | _, _ => false end |}.

Lemma whitelist_matches_labels_witness :
  exists d ls, labels (to_ascii_lowercase (ascii_bytes "M.Custom.RU")) = ls ++ labels d /\
    (d ∈ DEFAULT_DOMAINS \/
     exists s raw, Some (ascii_bytes "nodot,, custom.ru") = Some s /\ raw ∈ split_on comma s /\
       d = to_ascii_lowercase (trim raw) /\ valid_rule d).
Proof.
  apply (whitelist_matches_labels (H:=ex_ipnet) (Some (ascii_bytes "nodot,, custom.ru")) (ascii_bytes "M.Custom.RU"));
    vm_compute; reflexivity.
Defined.
