(* ===== verification/Socks.v ===== *)
(** * The SOCKS5 front end (orcax/client/src/main.rs)

    The negotiation every listener of the client runs: [socks5_auth], the
    CONNECT request, the whitelist decision, and the bytes each transport then
    sends to the server.  The client of the proxy is a [sock]; one [read] sees
    one piece of its stream. *)
From S2P Require Import Prelude Stream RustStd Address Orca Whitelist.

Inductive socks_error : Type :=
| SocksTimeout
| SocksIo (e : io_error)
| BadSocksAuth
| SocksAuthRejected
| NoAcceptableMethod
| BadSocks
| NotSocks5
| BadHostUtf8
| UnsupportedAddr.

Definition socks_io (e : io_error) : socks_error :=
  match e with TimedOut => SocksTimeout | _ => SocksIo e end.

(** ** Operations *)

(** [socks5_auth]. *)
Definition socks5_auth (token : bytes) : Io socks_error unit :=
  d ← io_map_err socks_io (read_timeout 258);
  let b := filled 258 d in
  if bool_decide (token = []) then
    _ ← io_map_err SocksIo (write_all [5; 0]); mret tt
  else
    let nmethods := Z.to_nat (default 0 (b !! 1%nat)) in
    methods ← lift (slice b 2 (2 + Nat.min nmethods 256));
    if existsb (Z.eqb 0x02) methods then
      _ ← io_map_err SocksIo (write_all [5; 2]);
      d2 ← io_map_err socks_io (read_timeout 515);
      let auth := filled 515 d2 in
      a0 ← lift (idx auth 0);
      _ ← lift (ensure (negb ((length d2 <? 3)%nat || negb (a0 =? 1))) BadSocksAuth);
      ulen ← lift (idx auth 1);
      plen ← lift (idx auth (2 + Z.to_nat ulen));
      raw ← lift (slice auth (3 + Z.to_nat ulen) (3 + Z.to_nat ulen + Z.to_nat plen));
      let pass := default [] (from_utf8 raw) in
      if bool_decide (pass = token) then
        _ ← io_map_err SocksIo (write_all [1; 0]); mret tt
      else
        _ ← io_map_err SocksIo (write_all [1; 1]); lift (Err SocksAuthRejected)
    else if existsb (Z.eqb 0x00) methods then
      _ ← io_map_err SocksIo (write_all [5; 0]); mret tt
    else
      _ ← io_map_err SocksIo (write_all [5; 0xFF]); lift (Err NoAcceptableMethod).

(** [let (host, port) = match r[3] { .. }], the same in all four handlers. *)
Definition parse_connect (r : bytes) : result socks_error (bytes * Z) :=
  ty ← idx r 3;
  if ty =? 1 then
    a ← idx r 4; b ← idx r 5; c ← idx r 6; d ← idx r 7;
    p0 ← idx r 8; p1 ← idx r 9;
    Ok (display_ipv4 [a; b; c; d], be_decode [p0; p1])
  else if ty =? 3 then
    l ← idx r 4;
    raw ← slice r 5 (5 + Z.to_nat l);
    host ← ok_or (from_utf8 raw) BadHostUtf8;
    p0 ← idx r (5 + Z.to_nat l);
    p1 ← idx r (6 + Z.to_nat l);
    Ok (host, be_decode [p0; p1])
  else Err UnsupportedAddr.

(** Reading the request: [handle_socks5] and [cdn_socks5] with a time-out,
    [quic_socks5] without; the shim also checks the version. *)
Definition read_connect (timeout check_version : bool) : Io socks_error (bytes * (bytes * Z)) :=
  d ← io_map_err socks_io (if timeout then read_timeout 263 else read 263);
  let r := filled 263 d in
  r0 ← lift (idx r 0);
  r1 ← lift (idx r 1);
  _ ← lift (ensure (negb ((length d <? 7)%nat || (check_version && negb (r0 =? 5)) || negb (r1 =? 1))) BadSocks);
  hp ← lift (parse_connect r);
  mret (d, hp).

(** The shim's greeting: no authentication. *)
Definition shim_greet : Io socks_error unit :=
  d ← io_map_err socks_io (read_timeout 258);
  g0 ← lift (idx (filled 258 d) 0);
  _ ← lift (ensure (negb ((length d <? 2)%nat || negb (g0 =? 5))) NotSocks5);
  _ ← io_map_err SocksIo (write_all [5; 0]);
  mret tt.

(** [if let Ok(ip) = host.parse::<Ipv4Addr>() { IPv4 } else { Domain }]. *)
Definition target_of (host : bytes) (port : Z) : TargetAddr :=
  {| addr := match parse_ipv4 host with Some ip => IPv4 ip | None => Domain host end; port := port |}.

Section routing.
Context `{IpNet}.

(** Where a connection goes: directly, or to the server. *)
Inductive route : Type :=
| Bypass (host : bytes) (port : Z)
| Tunnel (target : TargetAddr) (request : bytes).

Definition decide_route (wl : option Whitelist) (request host : bytes) (port : Z) : route :=
  match wl with
  | Some w => if matches w host then Bypass host port else Tunnel (target_of host port) request
  | None => Tunnel (target_of host port) request
  end.

(** The handlers up to their decision. *)
Definition socks5_route (timeout : bool) (token : bytes) (wl : option Whitelist) : Io socks_error route :=
  _ ← socks5_auth token;
  '(d, (host, port)) ← read_connect timeout false;
  mret (decide_route wl d host port).
Definition handle_socks5_route := socks5_route true.
Definition quic_socks5_route := socks5_route false.
Definition cdn_socks5_route := socks5_route true.

(** [shim_handle]: the request is replayed verbatim to the upstream proxy. *)
Definition shim_route (wl : option Whitelist) : Io socks_error route :=
  _ ← shim_greet;
  '(d, (host, port)) ← read_connect true true;
  mret (decide_route wl d host port).
Definition shim_upstream : bytes -> Io socks_error unit := fun request =>
  _ ← io_map_err SocksIo (write_all [5; 1; 0]);
  gr ← io_map_err SocksIo (read_exact 2);
  g0 ← lift (idx gr 0);
  g1 ← lift (idx gr 1);
  _ ← lift (ensure (negb (negb (g0 =? 5) || negb (g1 =? 0))) NoAcceptableMethod);
  _ ← io_map_err SocksIo (write_all request);
  mret tt.
End routing.

(** The success reply to the proxy's client. *)
Definition socks_success : bytes := [5; 0; 0; 1; 0; 0; 0; 0; 0; 0].

(** [quic_socks5]: the address message on a fresh QUIC stream. *)
Definition quic_open_message (host : bytes) (port : Z) : bytes :=
  [1] ++ be_encode 2 port ++
  match parse_ipv4 host with
  | Some ip => [1] ++ ip
  | None => [2] ++ [u8 (zlen host)] ++ host
  end.

(** [cdn_socks5]: the frames it builds by hand. *)
Definition cdn_open_frame (sid : Z) (host : bytes) (port : Z) : bytes :=
  let addr := quic_open_message host port in
  [0x01] ++ [0x00] ++ be_encode 4 sid ++ be_encode 2 (u16 (zlen addr)) ++ addr.
Definition cdn_data_frame (sid : Z) (buf : bytes) : bytes :=
  [0x00] ++ [0x00] ++ be_encode 4 sid ++ be_encode 2 (u16 (zlen buf)) ++ buf.
Definition cdn_close_frame (sid : Z) : bytes := [0x02; 0x00] ++ be_encode 4 sid ++ be_encode 2 0.

(** [handle_socks5]: the key that ties a raw data connection to its stream. *)
Definition data_key {E} (session_token : bytes) (sid : Z) : result E bytes :=
  k ← copy_into (replicate 20 0) 0 16 session_token;
  copy_into k 16 20 (be_encode 4 sid).

(** ** The client side of the protocol (RFC 1928 and RFC 1929) *)

Definition greeting (methods : bytes) : bytes := [5; zlen methods] ++ methods.
Definition userpass (user pass : bytes) : bytes := [1; zlen user] ++ user ++ [zlen pass] ++ pass.
Definition connect_ipv4 (ip : bytes) (port : Z) : bytes := [5; 1; 0; 1] ++ ip ++ be_encode 2 port.
Definition connect_domain (host : bytes) (port : Z) : bytes := [5; 1; 0; 3; zlen host] ++ host ++ be_encode 2 port.

(** ** Lemmas *)

Lemma filled_wf cap d : wf_bytes d -> wf_bytes (filled cap d).
Proof.
  intros Hd. unfold filled. apply wf_bytes_app_2; [done|]. apply Forall_replicate. unfold is_byte. lia.
Qed.
#[export] Hint Resolve filled_wf : orcax.

Lemma filled_prefix cap d : exists z, filled cap d = d ++ z.
Proof. unfold filled. eauto. Qed.

Lemma idx_byte {E} l i b : wf_bytes l -> idx (E:=E) l i = Ok b -> is_byte b.
Proof. intros Hl Hi. apply idx_inv in Hi. by eapply wf_bytes_lookup. Qed.

Lemma parse_connect_no_panic r : length r = 263%nat -> wf_bytes r -> no_panic (parse_connect r).
Proof.
  intros Hl Hw. unfold parse_connect.
  repeat (step_no_panic; try lia);
  repeat match goal with H : idx r _ = Ok ?b |- _ =>
    lazymatch goal with _ : is_byte b |- _ => fail | _ => pose proof (idx_byte r _ b Hw H) end end;
  unfold is_byte in *; lia.
Qed.

(** One step of the stream logic for the reads of this file. *)
Ltac socks_step :=
  match goal with
  | |- wp (lift (Err _)) _ _ _ => apply wp_lift; [done | intros ? ? | done]
  | |- wp (lift (ensure _ _)) _ _ _ => apply wp_lift; [apply no_panic_ensure | intros ? ?Hg | done]
  | |- wp (lift (idx _ _)) _ _ _ => apply wp_lift; [apply no_panic_idx | intros ? ?Hidx | done]
  | |- wp (lift (slice _ _ _)) _ _ _ => apply wp_lift; [apply no_panic_slice | intros ? ?Hsl | done]
  | |- wp (lift _) _ _ _ => apply wp_lift; [| intros ? ? | done]
  | _ => wp_step
  end.

Definition methods_of (d : bytes) : bytes :=
  take (Z.to_nat (default 0 (filled 258 d !! 1%nat))) (drop 2 (filled 258 d)).

(** What an accepted client has shown. *)
Definition auth_ok (token : bytes) (s s' : sock) : Prop :=
  exists d, wf_bytes d /\
    ((token = [] /\ tx s' = tx s ++ [5; 0]) \/
     (token <> [] /\ ~ (2 ∈ methods_of d) /\ 0 ∈ methods_of d /\ tx s' = tx s ++ [5; 0]) \/
     (token <> [] /\ 2 ∈ methods_of d /\ exists d2 user rest,
        filled 515 d2 = userpass user token ++ rest /\ tx s' = (tx s ++ [5; 2]) ++ [1; 0])).

Lemma existsb_eqb z (l : bytes) : existsb (Z.eqb z) l = true <-> z ∈ l.
Proof. rewrite existsb_exists, list_elem_of_In. setoid_rewrite Z.eqb_eq. naive_solver. Qed.
Lemma existsb_eqb_false z (l : bytes) : existsb (Z.eqb z) l = false <-> z ∉ l.
Proof. rewrite <- existsb_eqb. by destruct (existsb _ _). Qed.

(** A user name and password message, read back from its fields. *)
Lemma userpass_split {E} (l : bytes) ul pl tok :
  wf_bytes l -> idx (E:=E) l 0 = Ok 1 -> idx (E:=E) l 1 = Ok ul -> idx (E:=E) l (2 + Z.to_nat ul) = Ok pl ->
  slice (E:=E) l (3 + Z.to_nat ul) (3 + Z.to_nat ul + Z.to_nat pl) = Ok tok ->
  exists user rest, l = userpass user tok ++ rest.
Proof.
  intros Hw H0 H1 H2 Hs. apply (idx_byte l) in H1 as Hul; [|done]. apply (idx_byte l) in H2 as Hpl; [|done].
  unfold is_byte in *. apply idx_inv in H0, H1, H2. apply slice_inv in Hs as (Hle & -> & Hlen).
  set (u := Z.to_nat ul) in *. exists (take u (drop 2 l)), (drop (3 + u + Z.to_nat pl) l).
  unfold userpass, zlen. rewrite Hlen. rewrite length_take, length_drop, Nat.min_l by lia.
  replace (Z.of_nat u) with ul by lia. replace (Z.of_nat (3 + u + Z.to_nat pl - (3 + u))) with pl by lia.
  rewrite <- !app_assoc. destruct l as [|x [|y l]]; try done. cbn in H0, H1. injection H0 as ->. injection H1 as ->.
  change (drop 2 (1 :: ul :: l)) with l. cbn [Nat.add] in *. cbn [skipn lookup list_lookup app] in *. do 2 f_equal.
  rewrite <- (take_drop u l) at 1. f_equal.
  rewrite (drop_S l pl u H2). cbn [app]. f_equal.
  replace (S (S (S (u + Z.to_nat pl))) - S (S (S u)))%nat with (Z.to_nat pl) by lia.
  rewrite <- (take_drop (Z.to_nat pl) (drop (S u) l)) at 1. f_equal. rewrite drop_drop. f_equal.
Qed.

Lemma socks5_auth_wp token s :
  wf_stream (rx s) -> wp (socks5_auth token) (fun _ s' => auth_ok token s s' /\ wf_stream (rx s')) (fun _ => True) s.
Proof.
  intros Hw. unfold socks5_auth. socks_step. socks_step. apply wp_read_timeout; [done| |done].
  intros d s1 Hd Hdw Hw1 Htx1 _.
  assert (length (filled 258 d) = 258%nat) as Hfl by by apply filled_length.
  case_bool_decide as Ht.
  { repeat socks_step; try done. split; [|done]. exists d. cbn. rewrite Htx1. split; [done|]. by left. }
  assert (Hnm : 0 <= default 0 (filled 258 d !! 1%nat) < 256).
  { destruct (lookup_lt_is_Some_2 (filled 258 d) 1) as [b Hb]; [lia|]. rewrite Hb. cbn.
    by apply (wf_bytes_lookup (filled 258 d) 1); auto with orcax. }
  socks_step. socks_step; [lia|].
  apply slice_inv in Hsl as (_ & Hm & _).
  assert (a = methods_of d) as -> by (rewrite Hm; unfold methods_of; f_equal; lia). clear Hm.
  destruct (existsb (Z.eqb 2) (methods_of d)) eqn:H2.
  - apply existsb_eqb in H2. socks_step. socks_step. apply wp_write_all; [|done]. intros _. socks_step. socks_step.
    apply wp_read_timeout; [done| |done]. intros d2 s2 Hd2 Hd2w Hw2 Htx2 _.
    assert (length (filled 515 d2) = 515%nat) as Hfl2 by by apply filled_length.
    socks_step. socks_step; [lia|]. socks_step. socks_step. apply ensure_ok_inv in Hg.
    socks_step. socks_step; [lia|]. pose proof (idx_byte _ _ _ (filled_wf 515 d2 Hd2w) Hidx0) as Hb1. unfold is_byte in Hb1.
    socks_step. socks_step; [lia|]. pose proof (idx_byte _ _ _ (filled_wf 515 d2 Hd2w) Hidx1) as Hb2. unfold is_byte in Hb2.
    socks_step. socks_step; [lia|].
    case_bool_decide as Hpass; repeat socks_step; try done. split; [|done].
    exists d. cbn. rewrite Htx2. cbn. rewrite Htx1. split; [done|]. right. right. split; [done|]. split; [done|].
    assert (a = 1) as -> by lia. assert (Hraw : a3 = token).
    { destruct (from_utf8 a3) as [p|] eqn:Hu; cbn in Hpass; [|by subst]. apply from_utf8_inv in Hu as [-> _]. done. }
    subst a3. destruct (userpass_split (E:=socks_error) (filled 515 d2) a1 a2 token) as (user & rest & Hup); auto with orcax.
    exists d2, user, rest. by split.
  - apply existsb_eqb_false in H2. destruct (existsb (Z.eqb 0) (methods_of d)) eqn:H0.
    + apply existsb_eqb in H0. repeat socks_step; try done. split; [|done]. exists d. cbn. rewrite Htx1. split; [done|]. right. left. done.
    + repeat socks_step; done.
Qed.

Lemma read_connect_wp timeout ver s :
  wf_stream (rx s) -> wp (read_connect timeout ver) (fun _ s' => wf_stream (rx s')) (fun _ => True) s.
Proof.
  intros Hw. unfold read_connect. socks_step. socks_step. apply (wp_poll timeout); [done| |done].
  intros d s1 Hd Hdw Hw1 _ _. assert (length (filled 263 d) = 263%nat) as Hfl by by apply filled_length.
  do 2 (socks_step; socks_step; [lia|]). socks_step. socks_step. socks_step. socks_step; [|by socks_step].
  apply parse_connect_no_panic; auto with orcax.
Qed.

Lemma shim_greet_wp s : wf_stream (rx s) -> wp shim_greet (fun _ s' => wf_stream (rx s')) (fun _ => True) s.
Proof.
  intros Hw. unfold shim_greet. socks_step. socks_step. apply wp_read_timeout; [done| |done].
  intros d s1 Hd Hdw Hw1 _ _. assert (length (filled 258 d) = 258%nat) as Hfl by by apply filled_length.
  socks_step. socks_step; [lia|]. repeat socks_step; done.
Qed.

Lemma wp_mono {E A} (m : Io E A) (Q Q' : A -> sock -> Prop) R s :
  wp m Q R s -> (forall a s', Q a s' -> Q' a s') -> wp m Q' R s.
Proof. unfold wp. destruct (m s) as [[] ?]; auto. Qed.

(** A message that arrives in one piece. *)
Lemma read_timeout_piece cap d k t o :
  (length d <= cap)%nat -> read_timeout cap (Sock (Data d :: k) t o) = (Ok d, Sock k t o).
Proof. intros Hd. unfold read_timeout, poll. cbn [rx tx tx_open]. by rewrite (proj2 (Nat.leb_le _ _) Hd). Qed.
Lemma read_piece cap d k t o :
  (length d <= cap)%nat -> read cap (Sock (Data d :: k) t o) = (Ok d, Sock k t o).
Proof. intros Hd. unfold read, poll. cbn [rx tx tx_open]. by rewrite (proj2 (Nat.leb_le _ _) Hd). Qed.

Lemma greeting_methods methods :
  (length methods <= 255)%nat -> methods_of (greeting methods) = methods.
Proof.
  intros Hl. unfold methods_of.
  change (filled 258 (greeting methods)) with ([5; zlen methods] ++ methods ++ replicate (258 - length (greeting methods)) 0).
  change (default 0 (([5; zlen methods] ++ methods ++ replicate (258 - length (greeting methods)) 0) !! 1%nat)) with (zlen methods).
  change (drop 2 ([5; zlen methods] ++ methods ++ replicate (258 - length (greeting methods)) 0))
    with (methods ++ replicate (258 - length (greeting methods)) 0).
  unfold zlen. rewrite Nat2Z.id. by rewrite take_app_length.
Qed.

Lemma parse_connect_ipv4 a b c d port z :
  0 <= port < 65536 -> parse_connect (connect_ipv4 [a; b; c; d] port ++ z) = Ok (display_ipv4 [a; b; c; d], port).
Proof.
  intros Hp. unfold connect_ipv4. pose proof (be_decode_encode_2 port Hp) as Hd.
  cbn [be_encode app] in *. unfold parse_connect. cbn [idx lookup list_lookup unwrap mbind result_bind Z.eqb Pos.eqb].
  by rewrite Hd.
Qed.

Lemma parse_connect_domain host port z :
  utf8_valid host = true -> zlen host < 256 -> 0 <= port < 65536 ->
  parse_connect (connect_domain host port ++ z) = Ok (host, port).
Proof.
  intros Hu Hl Hp. unfold connect_domain. pose proof (be_decode_encode_2 port Hp) as Hd.
  cbn [be_encode] in *. cbn [app] in Hd. set (p0 := _ mod 256) in *. set (p1 := port mod 256) in *.
  unfold parse_connect. cbn [app idx lookup list_lookup unwrap mbind result_bind Z.eqb Pos.eqb].
  replace (Z.to_nat (zlen host)) with (length host) by (unfold zlen; lia).
  assert (Hidx : forall k, (k < 2)%nat -> idx (E:=socks_error) ([5; 1; 0; 3; zlen host] ++ host ++ [p0; p1] ++ z) (5 + k + length host)
    = idx ([p0; p1] ++ z) k).
  { intros k Hk. rewrite app_assoc. rewrite <- (idx_app ([5; 1; 0; 3; zlen host] ++ host) _ (5 + length host) k)
      by (rewrite length_app; done). f_equal. lia. }
  rewrite <- app_assoc. change (5 :: 1 :: 0 :: 3 :: zlen host :: host ++ [p0; p1] ++ z)
    with ([5; 1; 0; 3; zlen host] ++ host ++ [p0; p1] ++ z).
  rewrite (slice_app_at [5; 1; 0; 3; zlen host] host ([p0; p1] ++ z)) by done. cbn [mbind result_bind].
  unfold from_utf8. rewrite Hu. cbn [ok_or mbind result_bind].
  pose proof (Hidx 0%nat ltac:(lia)) as H0. pose proof (Hidx 1%nat ltac:(lia)) as H1. cbn [Nat.add] in H0, H1.
  change (5 + length host)%nat with (S (S (S (S (S (length host)))))). rewrite H0.
  change (6 + length host)%nat with (S (S (S (S (S (S (length host))))))). cbn [mbind result_bind idx lookup list_lookup unwrap app].
  cbn [app] in H1. rewrite H1. cbn [mbind result_bind idx lookup list_lookup unwrap]. by rewrite Hd.
Qed.

(** The password exchange, each message in one piece. *)
Lemma socks5_auth_password token methods user pass k t :
  token <> [] -> (length methods <= 255)%nat -> 2 ∈ methods ->
  (length user <= 255)%nat -> (length pass <= 255)%nat -> utf8_valid pass = true ->
  socks5_auth token (Sock (Data (greeting methods) :: Data (userpass user pass) :: k) t true) =
  if bool_decide (pass = token) then (Ok tt, Sock k ((t ++ [5; 2]) ++ [1; 0]) true)
  else (Err SocksAuthRejected, Sock k ((t ++ [5; 2]) ++ [1; 1]) true).
Proof.
  intros Ht Hm H2 Hu Hp Hutf. unfold socks5_auth.
  rewrite (io_bind_ok _ _ _ _ _ (io_map_err_ok _ _ _ _ _ (read_timeout_piece 258 (greeting methods) _ _ _ ltac:(cbn; lia)))).
  rewrite bool_decide_eq_false_2 by done.
  assert (Hsl : slice (E:=socks_error) (filled 258 (greeting methods)) 2
      (2 + Nat.min (Z.to_nat (default 0 (filled 258 (greeting methods) !! 1%nat))) 256) = Ok methods).
  { change (default 0 (filled 258 (greeting methods) !! 1%nat)) with (zlen methods).
    unfold zlen. rewrite Nat2Z.id, Nat.min_l by lia.
    by apply (slice_app_at [5; zlen methods] methods). }
  cbn zeta. rewrite (io_lift_ok _ _ _ _ Hsl).
  rewrite (proj2 (existsb_eqb 2 methods) H2).
  rewrite (io_bind_ok _ _ _ tt (Sock (Data (userpass user pass) :: k) (t ++ [5; 2]) true)) by done.
  assert (Hlen : length (userpass user pass) = (3 + length user + length pass)%nat)
    by (unfold userpass; rewrite !length_app; cbn; lia).
  rewrite (io_bind_ok _ _ _ _ _ (io_map_err_ok _ _ _ _ _ (read_timeout_piece 515 (userpass user pass) _ _ _ ltac:(lia)))).
  destruct (filled_prefix 515 (userpass user pass)) as [z Hz]. cbn zeta. rewrite Hz.
  rewrite (io_lift_ok _ _ 1) by done.
  rewrite (io_lift_ok _ _ tt) by (apply ensure_true; rewrite Hlen; cbn; lia).
  rewrite (io_lift_ok _ _ (zlen user)) by done.
  replace (Z.to_nat (zlen user)) with (length user) by (unfold zlen; lia).
  assert (Hspl : userpass user pass ++ z = ([1; zlen user] ++ user) ++ [zlen pass] ++ pass ++ z)
    by (unfold userpass; by rewrite <- !app_assoc).
  rewrite (io_lift_ok _ _ (zlen pass)) by (rewrite Hspl, idx_app_0 by (rewrite length_app; done); done).
  replace (Z.to_nat (zlen pass)) with (length pass) by (unfold zlen; lia).
  rewrite (io_lift_ok _ _ pass).
  2: { rewrite Hspl, app_assoc. apply slice_app_at; [rewrite !length_app; cbn; lia | done]. }
  unfold from_utf8. rewrite Hutf. cbn [default from_option]. change (id pass) with pass. case_bool_decide; done.
Qed.

(** *** Requests *)

Definition host_of (t : TargetAddr) : bytes :=
  match addr t with IPv4 ip => display_ipv4 ip | Domain d => d | IPv6 ip => display_ipv6 ip end.
Definition connect_request (t : TargetAddr) : bytes :=
  match addr t with
  | IPv4 ip => connect_ipv4 ip (port t)
  | Domain d => connect_domain d (port t)
  | IPv6 ip => [5; 1; 0; 4] ++ ip ++ be_encode 2 (port t)
  end.
(** A target the proxy can carry: IPv4, or a name that is not an IPv4 literal. *)
Definition proxyable (t : TargetAddr) : Prop :=
  match addr t with IPv4 _ => True | Domain d => parse_ipv4 d = None /\ (2 <= length d)%nat | IPv6 _ => False end.

Lemma target_of_host t : wf_target t -> proxyable t -> target_of (host_of t) (port t) = t.
Proof.
  intros [Ha Hp] Hpr. unfold target_of, host_of, proxyable in *. destruct t as [[ip|d|ip] p]; cbn [addr port] in *; [| |done].
  - destruct Ha as [Hw Hl]. destruct ip as [|a [|b [|c [|d [|? ?]]]]]; try done.
    by rewrite parse_display_ipv4.
  - destruct Hpr as [-> _]. done.
Qed.

Lemma parse_connect_request t z :
  wf_target t -> proxyable t -> parse_connect (connect_request t ++ z) = Ok (host_of t, port t).
Proof.
  intros [Ha Hp] Hpr. unfold connect_request, host_of, proxyable in *. destruct t as [[ip|d|ip] p]; cbn [addr port] in *; [| |done].
  - destruct Ha as [Hw Hl]. destruct ip as [|a [|b [|c [|d [|? ?]]]]]; try done. by apply parse_connect_ipv4.
  - destruct Ha as (Hw & Hu & Hl). by apply parse_connect_domain.
Qed.

Lemma connect_request_length t :
  wf_target t -> proxyable t -> (7 <= length (connect_request t) <= 263)%nat.
Proof.
  intros [Ha Hp] Hpr. unfold connect_request, proxyable in *. destruct t as [[ip|d|ip] p]; cbn [addr port] in *; [| |done].
  - destruct Ha as [Hw Hl]. unfold connect_ipv4. rewrite !length_app, be_encode_length, Hl. cbn. lia.
  - destruct Ha as (Hw & Hu & Hl). unfold connect_domain, zlen in *. rewrite !length_app, be_encode_length. cbn [length]. lia.
Qed.

Lemma read_connect_request timeout ver t k tr o :
  wf_target t -> proxyable t ->
  read_connect timeout ver (Sock (Data (connect_request t) :: k) tr o) =
  (Ok (connect_request t, (host_of t, port t)), Sock k tr o).
Proof.
  intros Hw Hpr. pose proof (connect_request_length t Hw Hpr) as Hl. unfold read_connect.
  assert (Hread : (if timeout then read_timeout 263 else read 263) (Sock (Data (connect_request t) :: k) tr o)
    = (Ok (connect_request t), Sock k tr o)).
  { destruct timeout; [apply read_timeout_piece | apply read_piece]; lia. }
  rewrite (io_bind_ok _ _ _ _ _ (io_map_err_ok _ _ _ _ _ Hread)).
  destruct (filled_prefix 263 (connect_request t)) as [z ->]. cbn zeta.
  assert (Hh : exists rest, connect_request t = [5; 1] ++ rest).
  { unfold connect_request, connect_ipv4, connect_domain. destruct (addr t); eexists; reflexivity. }
  destruct Hh as [rest Hrest].
  rewrite (io_lift_ok _ _ 5) by by rewrite Hrest. rewrite (io_lift_ok _ _ 1) by by rewrite Hrest.
  rewrite (io_lift_ok _ _ tt) by (apply ensure_true; destruct ver; cbn; lia).
  by rewrite (io_lift_ok _ _ _ _ (parse_connect_request t z Hw Hpr)).
Qed.

Lemma quic_open_push t :
  wf_target t -> proxyable t -> quic_open_message (host_of t) (port t) = 1 :: push_target t.
Proof.
  intros Hw Hpr. pose proof (f_equal addr (target_of_host t Hw Hpr)) as Ht. cbn [target_of addr] in Ht.
  unfold quic_open_message, push_target. rewrite <- Ht. by destruct (parse_ipv4 (host_of t)).
Qed.

(** ** The contract *)

Section contract.
Context `{IpNet}.

(** No byte sequence a local program sends can crash a listener: the
    authentication and the request handling of the tunnel modes and of the shim
    never panic, for any token, whitelist and stream. *)
Theorem socks5_never_panics timeout token wl s :
  wf_stream (rx s) ->
  (socks5_route timeout token wl s).1 <> Panic /\ (shim_route wl s).1 <> Panic.
Proof.
  intros Hw. split; apply (wp_no_panic _ (fun _ _ => True) (fun _ => True)); apply wp_bind.
  - apply (wp_mono _ _ _ _ _ (socks5_auth_wp token s Hw)). intros _ s1 [_ Hw1]. apply wp_bind.
    apply (wp_mono _ _ _ _ _ (read_connect_wp timeout false s1 Hw1)). by intros [d [h p]] s2 _.
  - apply (wp_mono _ _ _ _ _ (shim_greet_wp s Hw)). intros _ s1 Hw1. apply wp_bind.
    apply (wp_mono _ _ _ _ _ (read_connect_wp true true s1 Hw1)). by intros [d [h p]] s2 _.
Qed.

(** Whom [socks5_auth] lets in when a token is set: a client that offers
    user name and password must send the token as its password; the only other
    way in is a client that does not offer that method but offers "no
    authentication".  The replies are the protocol's. *)
Theorem socks5_auth_sound token s s' :
  wf_stream (rx s) -> token <> [] -> socks5_auth token s = (Ok tt, s') ->
  exists d, (~ (2 ∈ methods_of d) /\ 0 ∈ methods_of d /\ tx s' = tx s ++ [5; 0]) \/
    (2 ∈ methods_of d /\ exists d2 user rest,
       filled 515 d2 = userpass user token ++ rest /\ tx s' = tx s ++ [5; 2; 1; 0]).
Proof.
  intros Hw Ht Ha. pose proof (socks5_auth_wp token s Hw) as Hwp. unfold wp in Hwp. rewrite Ha in Hwp.
  destruct Hwp as [(d & _ & [[? _]|[(_ & H1 & H2 & H3)|(_ & H1 & d2 & user & rest & H2 & H3)]]) _]; [done|..].
  - exists d. by left.
  - exists d. right. split; [done|]. exists d2, user, rest. split; [done|]. rewrite H3, <- app_assoc. done.
Qed.

(** The token does not keep out a local program that ignores it: a client
    that offers only "no authentication" is accepted whatever the token. *)
Theorem socks5_token_bypass token k t :
  socks5_auth token (Sock (Data (greeting [0]) :: k) t true) = (Ok tt, Sock k (t ++ [5; 0]) true).
Proof. unfold socks5_auth. destruct token; reflexivity. Qed.

(** A program that presents the token and asks for a target gets exactly
    that target: the negotiation accepts, the route is the requested target,
    and the address message of the QUIC transport and the open frame of the CDN
    transport carry it so that the server's parser reads it back; the frame is
    the one [Frame::stream_open] would have built. *)
Theorem socks_connect_delivered timeout token methods user t sid :
  token <> [] -> utf8_valid token = true -> (length token <= 255)%nat -> (length user <= 255)%nat ->
  (length methods <= 255)%nat -> 2 ∈ methods -> wf_target t -> proxyable t ->
  socks5_route timeout token None
    (Sock [Data (greeting methods); Data (userpass user token); Data (connect_request t)] [] true)
  = (Ok (Tunnel t (connect_request t)), Sock [] [5; 2; 1; 0] true) /\
  (exists block, quic_open_message (host_of t) (port t) = 1 :: block /\ parse block = Ok (t, length block)) /\
  cdn_open_frame sid (host_of t) (port t) = encode (stream_open sid t).
Proof.
  intros Ht Hutf Htl Hul Hml H2 Hw Hpr. split; [|split].
  - unfold socks5_route. rewrite (io_bind_ok _ _ _ tt (Sock [Data (connect_request t)] [5; 2; 1; 0] true)).
    2: { rewrite socks5_auth_password by done. by rewrite bool_decide_eq_true_2. }
    rewrite (io_bind_ok _ _ _ _ _ (read_connect_request timeout false t [] [5; 2; 1; 0] true Hw Hpr)).
    cbn. by rewrite target_of_host.
  - exists (push_target t). split; [by apply quic_open_push|].
    rewrite <- (app_nil_r (push_target t)) at 1. by apply parse_push.
  - unfold cdn_open_frame. cbn zeta. by rewrite quic_open_push.
Qed.

(** A CONNECT request that is cut inside its host name is not waited for:
    once seven bytes are there, the missing bytes of the name are taken to be
    NUL and the port to be 0, and the proxy goes on with that target. *)
Theorem socks_request_split timeout host p n k t o :
  (2 <= n < length host)%nat -> zlen host < 256 -> utf8_valid (take n host ++ replicate (length host - n) 0) = true ->
  read_connect timeout false (Sock (Data (take (5 + n) (connect_domain host p)) :: k) t o) =
  (Ok (take (5 + n) (connect_domain host p), (take n host ++ replicate (length host - n) 0, 0)), Sock k t o).
Proof.
  intros Hn Hz Hu. unfold zlen in Hz. assert (Hd : take (5 + n) (connect_domain host p) = [5; 1; 0; 3; zlen host] ++ take n host).
  { unfold connect_domain. change (5 + n)%nat with (length [5; 1; 0; 3; zlen host]%Z + n)%nat.
    rewrite take_app_add. f_equal. rewrite take_app_le by lia. done. }
  rewrite Hd. set (d := [5; 1; 0; 3; zlen host] ++ take n host).
  assert (Hdl : length d = (5 + n)%nat) by (unfold d; rewrite length_app, length_take; cbn; lia).
  unfold read_connect.
  assert (Hread : (if timeout then read_timeout 263 else read 263) (Sock (Data d :: k) t o) = (Ok d, Sock k t o)).
  { destruct timeout; [apply read_timeout_piece | apply read_piece]; lia. }
  rewrite (io_bind_ok _ _ _ _ _ (io_map_err_ok _ _ _ _ _ Hread)). cbn zeta.
  rewrite (io_lift_ok _ _ 5), (io_lift_ok _ _ 1) by done.
  rewrite (io_lift_ok _ _ tt) by (apply ensure_true; rewrite Hdl; cbn; lia).
  set (z := replicate (length host - n) 0) in *.
  assert (Hfill : exists z', filled 263 d = connect_domain (take n host ++ z) 0 ++ z').
  { exists (replicate (263 - (7 + length host)) 0). unfold filled, connect_domain, d. rewrite <- !app_assoc. cbn [app]. do 4 f_equal.
    assert (length (take n host ++ z) = length host) as Hlz by (unfold z; rewrite length_app, length_take, length_replicate; lia).
    f_equal; [unfold zlen; by rewrite Hlz|]. do 2 f_equal.
    change (be_encode 2 0) with (replicate 2 0). unfold z. rewrite <- !replicate_add. f_equal.
    cbn [length]. rewrite length_take. lia. }
  destruct Hfill as [z' ->]. rewrite (io_lift_ok _ _ _ _ (parse_connect_domain _ 0 z' Hu ltac:(unfold zlen, z; rewrite length_app, length_take, length_replicate; lia) ltac:(lia))).
  done.
Qed.
End contract.

(** ** The CDN transport's data frames *)

(** What the CDN uplink sends for one read: up to 65535 bytes it is the
    encoding of a [Data] frame; a read that fills the 65536-byte buffer gets the
    length field 0, so a peer that reads frames off the stream sees an empty
    frame and is left with the 65536 payload bytes to read as frames. *)
Theorem cdn_data_frame_outcome sid buf :
  0 <= sid < 2 ^ 32 -> wf_bytes buf ->
  (zlen buf < 65536 -> cdn_data_frame sid buf = encode (data_frame sid buf)) /\
  (zlen buf = 65536 -> exists r', pending r' = buf /\
     decode (reader (cdn_data_frame sid buf)) = (Ok (data_frame sid []), Sock r' [] true)).
Proof.
  intros Hs Hw. split; [done|]. intros Hz.
  destruct (decode_encode (data_frame sid []) [Data (cdn_data_frame sid buf)] [] [] true buf) as (r' & _ & Hp & Hd).
  - unfold wf_frame, is_byte. cbn. split; [lia|]. split; [lia|]. split; [apply wf_bytes_nil | by vm_compute].
  - apply Forall_cons_iff. split; [done | apply Forall_nil; exact I].
  - unfold cdn_data_frame. rewrite Hz. cbn [pending]. rewrite app_nil_r. unfold encode. cbn [data_frame frame_type flags stream_id payload].
    by rewrite <- !app_assoc.
  - exists r'. rewrite !app_nil_r in Hd. by split.
Qed.

(** ** Witnesses *)

Lemma socks5_never_panics_witness :
  (socks5_route (H:=ex_ipnet) true [1; 2] None (Sock [Data [5; 255]; Data [1]] [] true)).1 <> Panic.
Proof.
  apply (socks5_never_panics (H:=ex_ipnet) true [1; 2] None). by apply (bool_decide_unpack _).
Defined.

Lemma socks5_auth_sound_witness :
  exists d, (~ (2 ∈ methods_of d) /\ 0 ∈ methods_of d /\ [5; 2; 1; 0] = [] ++ [5; 0]) \/
    (2 ∈ methods_of d /\ exists d2 user rest,
       filled 515 d2 = userpass user [116] ++ rest /\ [5; 2; 1; 0] = [] ++ [5; 2; 1; 0]).
Proof.
  apply (socks5_auth_sound [116] (Sock [Data (greeting [0; 2]); Data (userpass [] [116])] [] true) (Sock [] [5; 2; 1; 0] true)).
  - by apply (bool_decide_unpack _).
  - done.
  - vm_compute. reflexivity.
Defined.

Lemma socks_connect_delivered_witness :
  socks5_route (H:=ex_ipnet) true [116] None
    (Sock [Data (greeting [2]); Data (userpass [117] [116]); Data (connect_request ex_target)] [] true)
  = (Ok (Tunnel ex_target (connect_request ex_target)), Sock [] [5; 2; 1; 0] true).
Proof.
  apply (socks_connect_delivered (H:=ex_ipnet) true [116] [2] [117] ex_target 1);
    [done | reflexivity | cbn; lia | cbn; lia | cbn; lia | by apply (bool_decide_unpack _) | by apply (bool_decide_unpack _)
    | split; [vm_compute; reflexivity | cbn; lia]].
Defined.

Lemma socks_request_split_witness :
  read_connect true false (Sock [Data (take 7 (connect_domain (ascii_bytes "vk.com") 443))] [] true) =
  (Ok (take 7 (connect_domain (ascii_bytes "vk.com") 443), (ascii_bytes "vk" ++ [0; 0; 0; 0], 0)), Sock [] [] true).
Proof.
  apply (socks_request_split true (ascii_bytes "vk.com") 443 2); [cbn; lia | reflexivity | vm_compute; reflexivity].
Defined.

Lemma cdn_data_frame_outcome_witness : cdn_data_frame 1 [7; 8] = encode (data_frame 1 [7; 8]).
Proof.
  apply cdn_data_frame_outcome; [lia | by apply (bool_decide_unpack _) | reflexivity].
Defined.
