(* ===== verification/Client.v ===== *)
(** * The client binary (orcax/client/src/main.rs)

    Start-up configuration, the authentication of a TCP connection, the
    multiplexing pool with its reader task, and the reconnection logic of the
    QUIC monitor.  Random draws, the clock, base64 and the outcomes of
    connection attempts are arguments. *)
From S2P Require Import Prelude Stream RustStd Crates Uuid Address Orca Handshake.

(** ** Configuration *)

Definition DEFAULT_SNI_POOL : list bytes := map ascii_bytes [
  "ozon.ru"; "wildberries.ru"; "yandex.ru"; "api.vk.com"; "lamoda.ru"; "rbc.ru"; "ria.ru" ]%string.

(** [set_sni_pool_from_arg]: the cell after the call ([OnceLock::set] keeps an
    earlier value). *)
Definition set_sni_pool_from_arg (cell : option (list bytes)) (arg_value : option bytes) : option (list bytes) :=
  let pool :=
    match arg_value with
    | Some s =>
        if negb (bool_decide (trim s = [])) then
          List.filter (fun p => negb (bool_decide (p = []))) (map trim (split_on 44 s))
        else DEFAULT_SNI_POOL
    | None => DEFAULT_SNI_POOL
    end in
  let pool := if bool_decide (pool = []) then DEFAULT_SNI_POOL else pool in
  match cell with Some p => Some p | None => Some pool end.

(** [pick_sni]; [r] is the draw.  [gen_range] panics on an empty range. *)
Definition pick_sni {E} (cell : option (list bytes)) (r : nat) : result E bytes :=
  let pool := default DEFAULT_SNI_POOL cell in
  if (length pool =? 0)%nat then Panic
  else unwrap (pool !! (r mod length pool)%nat).

(** [arg]. *)
Fixpoint arg (a : list bytes) (f : bytes) : option bytes :=
  match a with
  | [] => None
  | x :: a' => if bool_decide (x = f) then head a' else arg a' f
  end.

(** [spk] and [bd], over base64's URL-safe decoder. *)
Definition DEFAULT_PUB : bytes := ascii_bytes "OqtCAsfuBF4DAHLjAyOsHwKNj-jqJQdnsYrElI7la2w".
Definition bd (base64 : bytes -> option bytes) (s : bytes) : bytes := default [] (base64 s).
Definition spk {E} (base64 : bytes -> option bytes) (pubkey_arg : option bytes) : result E bytes :=
  let src := default DEFAULT_PUB pubkey_arg in
  let b := bd base64 src in
  if (length b =? 32)%nat then copy_into (replicate 32 0) 0 32 b
  else copy_into (replicate 32 0) 0 32 (bd base64 DEFAULT_PUB).

(** Port hopping: [&sa[..colon]] of [rfind(':')], then the drawn port. *)
Fixpoint rfind (c : Z) (s : bytes) : option nat :=
  match s with
  | [] => None
  | b :: s' => match rfind c s' with
               | Some i => Some (S i)
               | None => if b =? c then Some O else None
               end
  end.
Definition port_hop (sa ports_str : bytes) (r : nat) : bytes :=
  let ports := omap (fun p => parse_u16 (trim p)) (split_on 44 ports_str) in
  match ports !! (r mod length ports)%nat with
  | Some port =>
      match rfind colon sa with
      | Some i => take i sa ++ [colon] ++ dec port
      | None => sa
      end
  | None => sa
  end.

(** The servers the TCP path tries, in order. *)
Definition tcp_servers (sa : bytes) (extra_servers : option bytes) : list bytes :=
  sa :: match extra_servers with
        | Some e => List.filter (fun s => negb (bool_decide (s = []))) (map trim (split_on 44 e))
        | None => []
        end.

(** [run_ws_cdn_mode]: the UUID read from [--uuid]. *)
Fixpoint chunks2 (s : bytes) : list bytes :=
  match s with
  | a :: b :: s' => [a; b] :: chunks2 s'
  | [a] => [[a]]
  | [] => []
  end.
Definition cdn_uuid (s : bytes) : option bytes :=
  let l := omap (fun c => from_str_radix 8 16 (default [48; 48] (from_utf8 c))) (chunks2 (replace_byte hyphen [] s)) in
  if (length l =? 16)%nat then Some l else None.

(** ** Authentication *)

Inductive client_error : Type :=
| ClientIo (e : io_error)
| AuthStatus (s : Z)
| WriteClosed.

Section auth.
Context `{Hex, X25519, Hkdf, Aead}.

(** [connect_and_auth], from the established TLS stream on: the session token.
    [secret] is the ephemeral key, [now] the clock. *)
Definition orcax_auth (base64 : bytes -> option bytes) (args : list bytes) (secret : bytes) (now : Z) : Io client_error bytes :=
  pk ← lift (spk base64 (arg args (ascii_bytes "--pubkey")));
  uuid ← lift (parse_uuid (default (ascii_bytes "0804b576-4dfb-424a-80e7-e812e5c13cae") (arg args (ascii_bytes "--uuid"))));
  '(eph, enc) ← lift (client_encrypt_uuid pk uuid secret now);
  _ ← io_map_err ClientIo (write_all (eph ++ enc));
  rr ← io_map_err ClientIo (read_exact 33);
  st ← lift (idx rr 32);
  _ ← lift (ensure (st =? 0) (AuthStatus st));
  io_map_err ClientIo (read_exact 16).
End auth.

(** ** The multiplexing pool *)

(** A link's writer channel: the frames handed to it, and whether its writer
    task still receives. *)
Record MuxLink : Type := { sent : list bytes; link_open : bool }.

(** A stream's channel: what waits in it, oldest first, and whether the receiver
    still exists. *)
Record channel : Type := { queue : list bytes; rx_open : bool }.
Definition new_channel : channel := {| queue := []; rx_open := true |}.
Definition dropped : channel := {| queue := []; rx_open := false |}.

Record MuxPool : Type := {
  links : list MuxLink;
  pool_streams : gmap Z channel;
  next_id : Z;
  server_addr : bytes;
  session_token : bytes
}.

Definition set_links (p : MuxPool) (l : list MuxLink) : MuxPool :=
  {| links := l; pool_streams := pool_streams p; next_id := next_id p;
     server_addr := server_addr p; session_token := session_token p |}.
Definition set_table (p : MuxPool) (s : gmap Z channel) : MuxPool :=
  {| links := links p; pool_streams := s; next_id := next_id p;
     server_addr := server_addr p; session_token := session_token p |}.
Definition set_next_id (p : MuxPool) (n : Z) : MuxPool :=
  {| links := links p; pool_streams := pool_streams p; next_id := n;
     server_addr := server_addr p; session_token := session_token p |}.
(** The receiver of a stream goes out of scope: what is queued is lost, and the
    entry of the table stays. *)
Definition drop_rx (p : MuxPool) (sid : Z) : MuxPool :=
  set_table p (alter (fun _ => dropped) sid (pool_streams p)).

Definition CHANNEL_CAPACITY : nat := 64.

(** [with_padding(4, max)], its draws as arguments. *)
Record pad_draw : Type := { pad_len : nat; pad_noise : bytes }.

(** The index both [open_stream] and [link_for] compute. *)
Definition link_index {E} (p : MuxPool) (sid : Z) : result E nat :=
  if (length (links p) =? 0)%nat then Panic
  else Ok (Z.to_nat (sid / 2) mod length (links p))%nat.
Definition link_for {E} (p : MuxPool) (sid : Z) : result E MuxLink :=
  i ← link_index p sid; unwrap (links p !! i).

(** [write_tx.send(frame)]: on a link, and on the pool's [i]-th link. *)
Definition link_send (l : MuxLink) (frame : bytes) : bool * MuxLink :=
  if link_open l then (true, {| sent := sent l ++ [frame]; link_open := true |}) else (false, l).
Definition send (p : MuxPool) (i : nat) (frame : bytes) : bool * MuxPool :=
  match links p !! i with
  | Some l => let '(ok, l') := link_send l frame in (ok, set_links p (<[i := l']> (links p)))
  | None => (false, p)
  end.

(** [MuxPool::open_stream]: the stream is registered before the frame is sent,
    and stays registered when sending fails, without a receiver. *)
Definition open_stream (p : MuxPool) (target : TargetAddr) (d : pad_draw) : result client_error Z * MuxPool :=
  let sid := next_id p in
  let p := set_next_id p (u32 (next_id p + 2)) in
  let p := set_table p (<[sid := new_channel]> (pool_streams p)) in
  match (i ← link_index p sid; f ← with_padding (pad_len d) (pad_noise d) (stream_open sid target) 4 128; Ok (i, f)) with
  | Ok (i, f) =>
      let '(ok, p) := send p i (encode f) in
      if ok then (Ok sid, p) else (Err WriteClosed, drop_rx p sid)
  | Err e => (Err e, drop_rx p sid)
  | Panic => (Panic, drop_rx p sid)
  end.

(** [MuxPool::close_stream]. *)
Definition close_stream (p : MuxPool) (sid : Z) (d : pad_draw) : result client_error unit * MuxPool :=
  match (f ← with_padding (pad_len d) (pad_noise d) (stream_close sid) 4 64; i ← link_index p sid; Ok (i, f)) with
  | Ok (i, f) =>
      let '(_, p) := send p i (encode f) in
      (Ok tt, set_table p (delete sid (pool_streams p)))
  | Err e => (Err e, p)
  | Panic => (Panic, p)
  end.

(** ** The reader task *)

(** The shared table and byte counter, and the reader's clone of its link's
    sender. *)
Record reader_state : Type := {
  rd_streams : gmap Z channel;
  bytes_down : Z;
  rd_link : MuxLink
}.

(** Its own removal of padding. *)
Definition reader_strip (fl : Z) (p : bytes) : bytes :=
  if negb (Z.land fl 0x04 =? 0) && negb (bool_decide (p = [])) then
    let pad := Z.to_nat (List.last p 0) in
    if (0 <? pad)%nat && (pad <? length p)%nat then take (length p - pad) p else p
  else p.

(** [tx.send(data)], its result ignored: [None] while the channel is full, which
    blocks the task with the table locked. *)
Definition push_channel (s : gmap Z channel) (sid : Z) (data : bytes) : option (gmap Z channel) :=
  match s !! sid with
  | Some c =>
      if rx_open c then
        if (length (queue c) <? CHANNEL_CAPACITY)%nat
        then Some (<[sid := {| queue := queue c ++ [data]; rx_open := true |}]> s) else None
      else Some s
  | None => Some s
  end.

Inductive reader_end : Type := ReaderClosed | ReaderBlocked.

(** The [match frame_type]; [d] is the draw of a pong's padding. *)
Definition dispatch (st : reader_state) (d : pad_draw) (frame_type fl sid : Z) (payload : bytes)
  : result reader_end reader_state :=
  if frame_type =? 0x00 then
    let data := reader_strip fl payload in
    s ← ok_or (push_channel (rd_streams st) sid data) ReaderBlocked;
    Ok {| rd_streams := s; bytes_down := u64 (bytes_down st + zlen data); rd_link := rd_link st |}
  else if frame_type =? 0x01 then
    s ← ok_or (push_channel (rd_streams st) sid payload) ReaderBlocked;
    Ok {| rd_streams := s; bytes_down := bytes_down st; rd_link := rd_link st |}
  else if frame_type =? 0x02 then
    Ok {| rd_streams := delete sid (rd_streams st); bytes_down := bytes_down st; rd_link := rd_link st |}
  else if frame_type =? 0x03 then
    f ← with_padding (pad_len d) (pad_noise d) pong 4 64;
    Ok {| rd_streams := rd_streams st; bytes_down := bytes_down st; rd_link := (link_send (rd_link st) (encode f)).2 |}
  else Ok st.

(** One turn of the reader's loop. *)
Definition reader_turn (st : reader_state) (d : pad_draw) : Io reader_end reader_state :=
  hdr ← io_map_err (fun _ => ReaderClosed) (read_exact 8);
  frame_type ← lift (idx hdr 0);
  sid ← lift (slice hdr 2 6);
  len ← lift (slice hdr 6 8);
  let length := be_decode len in
  payload ← (if 0 <? length
             then io_map_err (fun _ => ReaderClosed) (read_exact (Z.to_nat length))
             else mret []);
  fl ← lift (idx hdr 1);
  lift (dispatch st d frame_type fl (be_decode sid) payload).

Fixpoint reader_turns (ds : list pad_draw) (st : reader_state) : Io reader_end reader_state :=
  match ds with
  | [] => mret st
  | d :: ds' => st' ← reader_turn st d; reader_turns ds' st'
  end.

(** [run_ws_cdn_mode]'s reader: one binary message is one frame; padding is not
    removed. *)
Definition cdn_dispatch (s : gmap Z channel) (data : bytes) : result unit (option (gmap Z channel)) :=
  if (length data <? 8)%nat then Ok (Some s) else
  frame_type ← idx data 0;
  sid ← slice data 2 6;
  let payload := drop 8 data in
  if frame_type =? 0x00 then Ok (push_channel s (be_decode sid) payload)
  else if frame_type =? 0x02 then Ok (Some (delete (be_decode sid) s))
  else Ok (Some s).

(** ** Reconnection *)

(** The monitor's choice of a live backup: it, and the backups that remain. *)
Fixpoint take_live {C} (live : C -> bool) (backups : list C) : option (C * list C) :=
  match backups with
  | [] => None
  | b :: bs =>
      if live b then Some (b, bs)
      else match take_live live bs with Some (c, bs') => Some (c, b :: bs') | None => None end
  end.

(** The reconnect loop over [n] servers; [up k i] says whether attempt [k], on
    server [i], succeeds.  The result is the server and the pauses slept. *)
Fixpoint reconnect (fuel : nat) (up : nat -> nat -> bool) (n attempt : nat) (delay : Z) : option (nat * list Z) :=
  match fuel with
  | O => None
  | S fuel' =>
      let i := (attempt mod n)%nat in
      if up attempt i then Some (i, [])
      else
        let attempt := S attempt in
        let delay := if (attempt mod n =? 0)%nat then Z.min (delay * 2) 30 else delay in
        match reconnect fuel' up n attempt delay with
        | Some (j, sleeps) => Some (j, delay :: sleeps)
        | None => None
        end
  end.

(** ** Lemmas *)

(** *** The reader *)

Lemma reader_strip_padded fl p padding :
  Z.land fl PADDED <> 0 -> p <> [] -> (0 < length padding < 256)%nat ->
  List.last (p ++ padding) 0 = u8 (Z.of_nat (length padding)) ->
  reader_strip fl (p ++ padding) = p.
Proof.
  intros Hf Hp Hl Hlast. unfold reader_strip. change 0x04 with PADDED.
  destruct (Z.eqb_spec (Z.land fl PADDED) 0); [done|].
  assert (0 < length p)%nat by (destruct p; cbn; done || lia).
  rewrite bool_decide_eq_false_2 by (destruct p; done). cbn [negb andb].
  rewrite Hlast, u8_small, Nat2Z.id by lia. rewrite length_app.
  destruct (Nat.ltb_spec 0 (length padding)); [|lia].
  destruct (Nat.ltb_spec (length padding) (length p + length padding)); [|lia]. cbn [andb].
  rewrite Nat.add_sub. apply take_app_length.
Qed.
Lemma reader_strip_unpadded fl p : Z.land fl PADDED = 0 -> reader_strip fl p = p.
Proof. intros Hf. unfold reader_strip. change 0x04 with PADDED. by rewrite Hf. Qed.

(** A Data frame and the data it carries: plain, or non-empty data that [with_padding]
    padded with 1 to 255 bytes. *)
Definition carries (f : Frame) (data : bytes) : Prop :=
  wf_frame f /\
  (f = data_frame (stream_id f) data \/
   exists pad noise min max, padding_draw min max pad noise /\ (0 < pad < 256)%nat /\ data <> [] /\
     with_padding (E:=unit) pad noise (data_frame (stream_id f) data) min max = Ok f).

Lemma carries_strip f data : carries f data -> frame_type f = FtData /\ reader_strip (flags f) (payload f) = data.
Proof.
  intros (Hw & [Hf | (pad & noise & min & max & Hd & Hpad & Hne & Hf)]).
  - rewrite Hf. split; [done|]. by apply reader_strip_unpadded.
  - destruct (with_padding_ok (E:=unit) pad noise (data_frame (stream_id f) data) min max Hd) as (padding & Hok & Hl & _ & Hlast).
    rewrite Hok in Hf. injection Hf as Hf. rewrite <- Hf. cbn [frame_type flags payload data_frame] in *. split; [done|].
    apply reader_strip_padded; [|done|lia|rewrite Hl; apply Hlast; lia].
    by apply (lor_padded 0).
Qed.

(** One turn on an encoded frame. *)
Lemma reader_turn_encode st d f r k t o rest :
  wf_frame f -> clean r -> pending r = encode f ++ rest ->
  exists r', clean r' /\ pending r' = rest /\
    reader_turn st d (Sock (r ++ k) t o) =
      (dispatch st d (frame_type_byte (frame_type f)) (flags f) (stream_id f) (payload f), Sock (r' ++ k) t o).
Proof.
  intros (Hfl & Hsid & Hwf & Hlen) Hc Hp. pose proof (zlen_nonneg (payload f)) as Hnn.
  unfold encode in Hp. rewrite u16_small in Hp by lia.
  set (hdr := [frame_type_byte (frame_type f); flags f] ++ be_encode 4 (stream_id f) ++ be_encode 2 (zlen (payload f))).
  assert (Hsplit : pending r = hdr ++ (payload f ++ rest)) by (rewrite Hp; unfold hdr; by rewrite <- !app_assoc).
  destruct (read_exact_clean 8 r k t o hdr _ Hc Hsplit eq_refl) as (r1 & Hr1 & Hc1 & Hp1).
  unfold reader_turn. rewrite (io_bind_ok _ _ _ _ _ (io_map_err_ok _ _ _ _ _ Hr1)).
  rewrite (io_lift_ok _ _ (frame_type_byte (frame_type f))) by done.
  rewrite (io_lift_ok _ _ (be_encode 4 (stream_id f))) by done.
  rewrite (io_lift_ok _ _ (be_encode 2 (zlen (payload f)))) by done.
  cbn zeta. rewrite be_decode_encode_2, be_decode_encode_4 by lia.
  assert (exists r2, (if 0 <? zlen (payload f)
            then io_map_err (fun _ => ReaderClosed) (read_exact (Z.to_nat (zlen (payload f))))
            else mret []) (Sock (r1 ++ k) t o) = (Ok (payload f), Sock (r2 ++ k) t o)
      /\ clean r2 /\ pending r2 = rest) as (r2 & Hr2 & Hc2 & Hp2).
  { destruct (Z.ltb_spec 0 (zlen (payload f))).
    - unfold zlen. rewrite Nat2Z.id. destruct (read_exact_clean _ r1 k t o _ _ Hc1 Hp1 eq_refl) as (r2 & Hr2 & ? & ?).
      exists r2. split; [|done]. by apply io_map_err_ok.
    - exists r1. assert (payload f = []) as Hnil by (destruct (payload f); [done|]; unfold zlen in *; cbn in *; lia).
      rewrite Hnil in *. by split. }
  exists r2. split; [done|]. split; [done|]. rewrite (io_bind_ok _ _ _ _ _ Hr2).
  by rewrite (io_lift_ok _ _ (flags f)) by done.
Qed.

(** The data for one stream, in order of arrival. *)
Definition data_for (sid : Z) (fs : list Frame) (datas : list bytes) : list bytes :=
  map snd (List.filter (fun p => stream_id p.1 =? sid) (zip fs datas)).

Definition room (s : gmap Z channel) (n : nat) : Prop :=
  map_Forall (fun _ c => (length (queue c) + n <= CHANNEL_CAPACITY)%nat) s.

Definition total_len (datas : list bytes) : Z := foldr (fun d acc => zlen d + acc) 0 datas.

Definition deliver (c : channel) (datas : list bytes) : channel :=
  if rx_open c then {| queue := queue c ++ datas; rx_open := true |} else c.

Lemma deliver_nil c : deliver c [] = c.
Proof. destruct c as [q []]; unfold deliver; cbn; [by rewrite app_nil_r|done]. Qed.
Lemma deliver_app c l1 l2 : deliver (deliver c l1) l2 = deliver c (l1 ++ l2).
Proof. destruct c as [q []]; unfold deliver; cbn; [by rewrite app_assoc|done]. Qed.

Lemma push_channel_room s sid data n :
  room s (S n) -> exists s', push_channel s sid data = Some s' /\ room s' n /\
    forall i c, s !! i = Some c -> s' !! i = Some (deliver c (if sid =? i then [data] else [])).
Proof.
  intros Hroom. assert (room s n) as Hr by (intros i c Hi; pose proof (Hroom _ _ Hi) as H; cbn in H; lia).
  unfold push_channel. destruct (s !! sid) as [c0|] eqn:Hc0.
  - pose proof (Hroom _ _ Hc0) as Hl. cbn in Hl. destruct (rx_open c0) eqn:Ho.
    + rewrite (proj2 (Nat.ltb_lt _ _)) by lia. eexists. split; [done|]. split.
      * apply map_Forall_insert_2; [cbn; rewrite length_app; cbn; lia|done].
      * intros i c Hi. destruct (Z.eqb_spec sid i) as [<-|Hne].
        -- rewrite lookup_insert_eq. unfold deliver. replace c with c0 by congruence. by rewrite Ho.
        -- rewrite lookup_insert_ne by done. by rewrite deliver_nil.
    + exists s. split; [done|]. split; [done|]. intros i c Hi. destruct (Z.eqb_spec sid i) as [<-|]; [|by rewrite deliver_nil].
      unfold deliver. replace c with c0 by congruence. rewrite Ho. congruence.
  - exists s. split; [done|]. split; [done|]. intros i c Hi.
    destruct (Z.eqb_spec sid i) as [<-|]; [congruence|by rewrite deliver_nil].
Qed.

Lemma dispatch_data st d f data n :
  carries f data -> room (rd_streams st) (S n) ->
  exists st', dispatch st d (frame_type_byte (frame_type f)) (flags f) (stream_id f) (payload f) = Ok st' /\
    room (rd_streams st') n /\ bytes_down st' = u64 (bytes_down st + zlen data) /\ rd_link st' = rd_link st /\
    forall sid c, rd_streams st !! sid = Some c ->
      rd_streams st' !! sid = Some (deliver c (if stream_id f =? sid then [data] else [])).
Proof.
  intros Hc Hroom. destruct (carries_strip f data Hc) as [Ht Hs]. unfold dispatch. rewrite Ht. cbn [frame_type_byte Z.eqb].
  rewrite Hs. destruct (push_channel_room _ (stream_id f) data n Hroom) as (s' & -> & Hr' & Hd).
  cbn [ok_or mbind result_bind]. by eexists.
Qed.

(** ** The contract *)

(** What the other draws of [with_padding] do to the reader.  256 bytes of padding, whose
    length byte wraps to 0, and any padding of an empty payload are delivered as data;
    without padding bytes the last byte of the data is taken for a length, and as many
    bytes of the data are lost. *)
Theorem padding_delivered sid data pad noise min max f :
  padding_draw min max pad noise -> with_padding (E:=unit) pad noise (data_frame sid data) min max = Ok f ->
  (pad = 256%nat \/ data = [] -> reader_strip (flags f) (payload f) = payload f /\ length (payload f) = (length data + pad)%nat) /\
  (pad = 0%nat -> payload f = data /\ (0 < Z.to_nat (List.last data 0%Z) < length data)%nat ->
    reader_strip (flags f) (payload f) = take (length data - Z.to_nat (List.last data 0)) data).
Proof.
  intros Hd Hf. destruct (with_padding_ok (E:=unit) pad noise (data_frame sid data) min max Hd) as (padding & Hok & Hl & _ & Hlast).
  rewrite Hok in Hf. injection Hf as <-. cbn [flags payload data_frame] in *. split.
  - intros Hp. split; [|rewrite length_app; lia]. unfold reader_strip. destruct (negb (Z.land _ _ =? 0) && _); [|done].
    destruct Hp as [-> | ->]; [rewrite Hlast by lia; done|]. cbn [app length] in *. destruct (decide (pad = 0%nat)) as [->|Hpad]; [by apply nil_length_inv in Hl as ->|].
    rewrite Hlast by done. replace (_ && _) with false; [done|]. unfold u8. pose proof (Z.mod_le (Z.of_nat pad) (2 ^ 8) ltac:(lia) ltac:(lia)).
    symmetry. apply andb_false_iff. destruct Hd as ([_ Hm] & _). unfold MAX_PADDING in Hm. destruct (decide (pad = 256%nat)) as [->|]; [by left|right].
    rewrite Z.mod_small by lia. apply Nat.ltb_ge. lia.
  - intros -> [Hp Hb]. apply nil_length_inv in Hl as ->. rewrite app_nil_r in *. unfold reader_strip. change 0x04 with PADDED. cbn [Z.lor].
    replace (Z.land PADDED PADDED =? 0) with false by done. rewrite bool_decide_eq_false_2 by (intros ->; cbn in Hb; lia). cbn [negb andb].
    rewrite (proj2 (Nat.ltb_lt _ _)), (proj2 (Nat.ltb_lt _ _)) by lia. done.
Qed.


(** A ping is answered on its own link: the turn that reads it hands the writer
    one more frame, a pong with 4 to 64 bytes of padding, and touches nothing
    else; on a closed link the answer is dropped. *)
Theorem reader_answers_ping st d r t o :
  padding_draw 4 64 (pad_len d) (pad_noise d) -> clean r -> pending r = encode ping ->
  exists r' f, (reader_turn st d (Sock r t o)) =
      (Ok {| rd_streams := rd_streams st; bytes_down := bytes_down st;
             rd_link := if link_open (rd_link st) then {| sent := sent (rd_link st) ++ [encode f]; link_open := true |}
                        else rd_link st |}, Sock r' t o) /\
    frame_type f = Pong /\ length (payload f) = pad_len d /\ pending r' = [].
Proof.
  intros Hd Hc Hp. rewrite <- (app_nil_r (encode ping)) in Hp.
  destruct (reader_turn_encode st d ping r [] t o [] ltac:(by apply (bool_decide_unpack _)) Hc Hp) as (r' & _ & Hp' & Hturn).
  rewrite !app_nil_r in Hturn. rewrite Hturn. unfold dispatch. cbn [frame_type ping frame_type_byte Z.eqb Pos.eqb].
  destruct (with_padding_ok (E:=reader_end) _ _ pong 4 64 Hd) as (padding & -> & Hl & _). cbn [mbind result_bind].
  exists r', {| frame_type := Pong; flags := Z.lor 0 PADDED; stream_id := 0; payload := padding |}.
  split; [unfold link_send; by destruct (link_open (rd_link st))|]. by split.
Qed.

(** *** The pool *)

(** What happens to the pool: handlers open and close streams and drop their
    receivers, links die, the reader fills channels and obeys remote closes. *)
Inductive pool_step : MuxPool -> MuxPool -> Prop :=
| pool_open p t d p' : wf_target t -> padding_draw 4 128 (pad_len d) (pad_noise d) ->
    (open_stream p t d).2 = p' -> pool_step p p'
| pool_close p sid d p' : 0 <= sid < 2 ^ 32 -> padding_draw 4 64 (pad_len d) (pad_noise d) ->
    (close_stream p sid d).2 = p' -> pool_step p p'
| pool_link_closes p i l : links p !! i = Some l ->
    pool_step p (set_links p (<[i := {| sent := sent l; link_open := false |}]> (links p)))
| pool_drop_rx p sid : pool_step p (drop_rx p sid)
| pool_push p sid data s : push_channel (pool_streams p) sid data = Some s -> pool_step p (set_table p s)
| pool_remote_close p sid : pool_step p (set_table p (delete sid (pool_streams p))).

Definition new_pool (n : nat) (server_addr session_token : bytes) : MuxPool :=
  {| links := replicate n {| sent := []; link_open := true |}; pool_streams := ∅; next_id := 1;
     server_addr := server_addr; session_token := session_token |}.

(** Which stream a frame on the wire belongs to. *)
Definition wire_sid (frame : bytes) : Z := be_decode (take 4 (drop 2 frame)).

Definition on_own_link (n i : nat) (frame : bytes) : Prop :=
  (Z.to_nat (wire_sid frame / 2) mod n)%nat = i.

Record pool_inv (n : nat) (p : MuxPool) : Prop := {
  pinv_links : length (links p) = n;
  pinv_next : 0 <= next_id p < 2 ^ 32 /\ Z.odd (next_id p) = true;
  pinv_ids : map_Forall (fun sid _ => 0 <= sid < 2 ^ 32 /\ Z.odd sid = true) (pool_streams p);
  pinv_sent i l f : links p !! i = Some l -> f ∈ sent l -> on_own_link n i f
}.

Lemma wire_sid_encode f : 0 <= stream_id f < 2 ^ 32 -> wire_sid (encode f) = stream_id f.
Proof.
  intros Hs. unfold wire_sid, encode.
  replace (take 4 (drop 2 _)) with (be_encode 4 (stream_id f)) by done. by apply be_decode_encode_4.
Qed.

Lemma pool_inv_table n p s :
  pool_inv n p -> map_Forall (fun sid _ => 0 <= sid < 2 ^ 32 /\ Z.odd sid = true) s -> pool_inv n (set_table p s).
Proof. intros [H1 H2 H3 H4] Hs. by split. Qed.
Lemma pool_inv_next n p k :
  pool_inv n p -> 0 <= k < 2 ^ 32 -> Z.odd k = true -> pool_inv n (set_next_id p k).
Proof. intros [H1 H2 H3 H4] Hk Ho. by split. Qed.
Lemma pool_inv_link n p i l l' :
  pool_inv n p -> links p !! i = Some l -> (forall f, f ∈ sent l' -> f ∈ sent l \/ on_own_link n i f) ->
  pool_inv n (set_links p (<[i := l']> (links p))).
Proof.
  intros [H1 H2 H3 H4] Hl Hsub. split; cbn; [by rewrite length_insert|done|done|].
  intros j l0 f Hj Hin. destruct (decide (i = j)) as [<-|Hne].
  - rewrite list_lookup_insert_eq in Hj by by eapply lookup_lt_Some. injection Hj as <-.
    destruct (Hsub f Hin); [by eapply H4|done].
  - rewrite list_lookup_insert_ne in Hj by done. by eapply H4.
Qed.
Lemma drop_rx_inv n p sid : pool_inv n p -> pool_inv n (drop_rx p sid).
Proof.
  intros Hinv. apply pool_inv_table; [done|]. intros i c Hi. destruct Hinv as [_ _ H3 _].
  apply lookup_alter_Some in Hi as [(-> & c0 & Hc & _)|[_ Hi]]; by eapply (H3 i).
Qed.
#[export] Hint Resolve pool_inv_table drop_rx_inv : orcax.

Lemma send_inv n p i frame :
  pool_inv n p -> on_own_link n i frame -> pool_inv n (send p i frame).2.
Proof.
  intros Hinv Hf. unfold send. destruct (links p !! i) as [l|] eqn:Hl; [|done]. unfold link_send.
  destruct (link_open l); cbn [snd]; apply (pool_inv_link n p i l); try done; intros f Hin; [|by left].
  cbn in Hin. apply elem_of_app in Hin as [Hin|Hin]; [by left|]. apply list_elem_of_singleton in Hin as ->. by right.
Qed.

Lemma u32_add2 z : 0 <= z < 2 ^ 32 -> Z.odd z = true -> 0 <= u32 (z + 2) < 2 ^ 32 /\ Z.odd (u32 (z + 2)) = true.
Proof.
  intros Hz Ho. unfold u32. split; [apply Z.mod_pos_bound; lia|].
  rewrite Z.mod_eq by lia. rewrite Z.odd_sub, Z.odd_mul, Z.odd_add, Ho. done.
Qed.

Lemma pool_open_inv n p t d :
  n <> 0%nat -> pool_inv n p -> padding_draw 4 128 (pad_len d) (pad_noise d) -> pool_inv n (open_stream p t d).2.
Proof.
  intros Hn Hinv Hd. pose proof Hinv as [H1 [H2 H2'] H3 _]. unfold open_stream.
  set (p1 := set_table _ _). assert (pool_inv n p1) as Hinv1.
  { apply pool_inv_table; [by apply pool_inv_next; [|apply u32_add2..]|]. by apply map_Forall_insert_2. }
  unfold link_index at 1. cbn [links p1 set_table set_next_id]. rewrite H1, (proj2 (Nat.eqb_neq _ _) Hn). cbn [mbind result_bind].
  destruct (with_padding_ok (E:=client_error) _ _ (stream_open (next_id p) t) 4 128 Hd) as (padding & -> & _). cbn [mbind result_bind].
  match goal with |- context [send p1 ?i ?f] => pose proof (send_inv n p1 i f Hinv1) as Hsi; destruct (send p1 i f) as [ok p2] end.
  cbn [snd] in *. assert (pool_inv n p2) as Hp2.
  { apply Hsi. unfold on_own_link. rewrite wire_sid_encode by done. done. }
  destruct ok; cbn; auto with orcax.
Qed.
Lemma pool_close_inv n p sid d :
  n <> 0%nat -> pool_inv n p -> 0 <= sid < 2 ^ 32 -> padding_draw 4 64 (pad_len d) (pad_noise d) ->
  pool_inv n (close_stream p sid d).2.
Proof.
  intros Hn Hinv Hsid Hd. pose proof Hinv as [H1 _ _ _].
  unfold close_stream. destruct (with_padding_ok (E:=client_error) _ _ (stream_close sid) 4 64 Hd) as (padding & -> & _).
  cbn [mbind result_bind]. unfold link_index. rewrite H1, (proj2 (Nat.eqb_neq _ _) Hn). cbn [mbind result_bind].
  match goal with |- context [send p ?i ?f] => pose proof (send_inv n p i f Hinv) as Hsi; destruct (send p i f) as [ok p2] end.
  cbn [snd] in *. assert (pool_inv n p2) as Hp2.
  { apply Hsi. unfold on_own_link. rewrite wire_sid_encode by done. done. }
  apply pool_inv_table; [done|]. by apply map_Forall_delete, Hp2.
Qed.

Lemma pool_step_inv n p p' : n <> 0%nat -> pool_inv n p -> pool_step p p' -> pool_inv n p'.
Proof.
  intros Hn Hinv Hs. pose proof Hinv as [_ _ H3 _]. destruct Hs as [p t d p' Ht Hd <- | p sid d p' Hsid Hd <- | p i l Hl | p sid | p sid data s Hs | p sid].
  - by apply pool_open_inv.
  - by apply pool_close_inv.
  - apply (pool_inv_link n p i l); auto.
  - by apply drop_rx_inv.
  - apply pool_inv_table; [done|]. unfold push_channel in Hs. destruct (pool_streams p !! sid) as [c|] eqn:Hc; [|by injection Hs as <-].
    destruct (rx_open c); [|by injection Hs as <-]. destruct (_ <? _)%nat; [|done]. injection Hs as <-.
    apply map_Forall_insert_2; [by eapply (H3 sid)|done].
  - apply pool_inv_table; [done|]. by apply map_Forall_delete.
Qed.

(** In every state the pool can reach, all frames of one stream are on one
    link, the one [link_for] names, so that the open, the data and the close of
    a stream cannot overtake each other on different connections; identifiers
    stay odd, the client's parity, across the wrap of the counter. *)
Theorem pool_streams_stay_on_link n sa tok p :
  n <> 0%nat -> rtc pool_step (new_pool n sa tok) p ->
  length (links p) = n /\
  map_Forall (fun sid _ => 0 <= sid < 2 ^ 32 /\ Z.odd sid = true) (pool_streams p) /\
  forall i l f, links p !! i = Some l -> f ∈ sent l -> link_index (E:=client_error) p (wire_sid f) = Ok i.
Proof.
  intros Hn Hr. assert (pool_inv n p) as [H1 H2 H3 H4].
  { revert p Hr. apply rtc_ind_r; [|intros; by eapply pool_step_inv]. split; cbn; [apply length_replicate|done|done|].
    intros i l f Hl Hin. apply lookup_replicate in Hl as [-> _]. by apply elem_of_nil in Hin. }
  split; [done|]. split; [done|]. intros i l f Hl Hin. unfold link_index. rewrite H1, (proj2 (Nat.eqb_neq _ _) Hn).
  f_equal. by eapply H4.
Qed.

(** A stream whose open frame cannot be sent stays in the table: the caller
    gets an error and no identifier, so nothing removes the entry. *)
Theorem failed_open_leaks_stream n p t d l :
  n <> 0%nat -> pool_inv n p -> padding_draw 4 128 (pad_len d) (pad_noise d) ->
  link_for (E:=client_error) p (next_id p) = Ok l -> link_open l = false ->
  (open_stream p t d).1 = Err WriteClosed /\ pool_streams (open_stream p t d).2 !! next_id p = Some dropped.
Proof.
  intros Hn [H1 _ _ _] Hd Hl Hc. unfold link_for, link_index in Hl. rewrite H1, (proj2 (Nat.eqb_neq _ _) Hn) in Hl.
  cbn [mbind result_bind] in Hl. unfold open_stream, link_index. cbn [links set_table set_next_id]. rewrite H1, (proj2 (Nat.eqb_neq _ _) Hn).
  cbn [mbind result_bind]. destruct (with_padding_ok (E:=client_error) _ _ (stream_open (next_id p) t) 4 128 Hd) as (padding & -> & _).
  cbn [mbind result_bind]. unfold send. cbn [links set_table set_next_id].
  destruct (links p !! _) as [l'|] eqn:Hlk; [|done]. cbn in Hl. injection Hl as <-. unfold link_send. rewrite Hc. cbn.
  split; [done|]. by rewrite lookup_alter_eq, lookup_insert_eq.
Qed.

(** *** Reconnection *)

(** The pause after the [a]-th failure. *)
Definition backoff (n a : nat) : Z := Z.min 30 (2 ^ (Z.of_nat a / Z.of_nat n)).

Lemma backoff_next n a :
  n <> 0%nat ->
  (if (S a mod n =? 0)%nat then Z.min (backoff n a * 2) 30 else backoff n a) = backoff n (S a).
Proof.
  intros Hn. unfold backoff. pose proof (Nat.div_mod_eq (S a) n) as H1. pose proof (Nat.div_mod_eq a n) as H2.
  pose proof (Nat.mod_upper_bound (S a) n Hn). pose proof (Nat.mod_upper_bound a n Hn).
  rewrite <- !Nat2Z.inj_div. destruct (Nat.eqb_spec (S a mod n) 0) as [Hz|Hz].
  - assert (S a / n = S (a / n))%nat as -> by nia. rewrite Nat2Z.inj_succ, Z.pow_succ_r by lia. lia.
  - assert (S a / n = a / n)%nat as -> by nia. done.
Qed.

Lemma reconnect_spec fuel up n a k :
  n <> 0%nat -> (k < fuel)%nat ->
  (forall j, (a <= j < a + k)%nat -> up j (j mod n)%nat = false) -> up (a + k)%nat ((a + k) mod n)%nat = true ->
  reconnect fuel up n a (backoff n a) = Some (((a + k) mod n)%nat, map (backoff n) (seq (S a) k)).
Proof.
  intros Hn. revert a k. induction fuel as [|fuel IH]; intros a k Hk Hdown Hup; [lia|]. cbn [reconnect].
  destruct k as [|k].
  - rewrite Nat.add_0_r in *. rewrite Hup. done.
  - rewrite Hdown by lia. rewrite backoff_next by done.
    rewrite (IH (S a) k); [|lia|intros; apply Hdown; lia|by rewrite Nat.add_succ_comm].
    by rewrite Nat.add_succ_comm.
Qed.

(** The first success of an attempt sequence that has one. *)
Lemma first_success (up : nat -> bool) b :
  up b = true -> exists k, (k <= b)%nat /\ up k = true /\ forall j, (j < k)%nat -> up j = false.
Proof.
  revert up. induction b as [|b IH]; intros up Hb.
  - exists 0%nat. split; [lia|]. split; [done|]. lia.
  - destruct (up 0%nat) eqn:H0; [exists 0%nat; split; [lia|]; split; [done|]; lia|].
    destruct (IH (fun j => up (S j)) Hb) as (k & Hk & Hu & Hd). exists (S k). split; [lia|]. split; [done|].
    intros [|j] Hj; [done|]. apply Hd. lia.
Qed.

(** Reconnection terminates when a server is back: if one of the [n] servers
    accepts connections, the loop that starts with delay 1 connects within [n]
    attempts, to the first server in order that accepts, and has slept
    [min(30, 2^(a / n))] seconds after each failed attempt [a]. *)
Theorem reconnect_reaches_live_server up n i :
  (i < n)%nat -> (forall k, up k i = true) ->
  exists k, (k <= i)%nat /\ up k k = true /\ (forall j, (j < k)%nat -> up j j = false) /\
    reconnect n up n 0 1 = Some (k, map (backoff n) (seq 1 k)).
Proof.
  intros Hi Hup. destruct (first_success (fun k => up k k) i (Hup i)) as (k & Hk & Hu & Hd).
  exists k. split; [done|]. split; [done|]. split; [done|].
  assert (Hb : backoff n 0 = 1) by (unfold backoff; by rewrite Zdiv_0_l). rewrite <- Hb.
  rewrite (reconnect_spec n up n 0 k); [|lia|lia| |].
  - by rewrite Nat.add_0_l, Nat.mod_small by lia.
  - intros j Hj. rewrite Nat.mod_small by lia. apply Hd. lia.
  - rewrite Nat.add_0_l, Nat.mod_small by lia. done.
Qed.

(** The monitor's failover takes the first live backup and keeps the others. *)
Lemma take_live_spec {C} (live : C -> bool) backups :
  match take_live live backups with
  | Some (c, rest) => exists l1 l2, backups = l1 ++ c :: l2 /\ rest = l1 ++ l2 /\ live c = true /\ Forall (fun b => live b = false) l1
  | None => Forall (fun b => live b = false) backups
  end.
Proof.
  induction backups as [|b bs IH]; cbn [take_live]; [constructor|]. destruct (live b) eqn:Hb.
  - exists [], bs. by repeat split.
  - destruct (take_live live bs) as [[c rest]|].
    + destruct IH as (l1 & l2 & -> & -> & Hc & Hl). exists (b :: l1), l2. repeat split; try done. by constructor.
    + by constructor.
Qed.

(** *** Configuration *)

(** The client never connects without a server name: whatever [--sni-pool]
    says, the pool that is stored is not empty and holds no empty name, and
    [pick_sni] then returns one of its names and does not panic. *)
Theorem sni_pool_never_empty {E} arg_value r :
  exists pool sni, set_sni_pool_from_arg None arg_value = Some pool /\ Forall (fun p => p <> []) pool /\
    pick_sni (E:=E) (Some pool) r = Ok sni /\ sni ∈ pool /\ sni <> [].
Proof.
  unfold set_sni_pool_from_arg. set (p0 := match arg_value with Some _ => _ | None => _ end).
  set (pool := if bool_decide (p0 = []) then DEFAULT_SNI_POOL else p0).
  assert (Hd : Forall (fun p => p <> []) DEFAULT_SNI_POOL) by (apply (bool_decide_unpack _); vm_compute; exact I).
  assert (Forall (fun p => p <> []) p0) as Hp0.
  { unfold p0. destruct arg_value as [s|]; [|done]. destruct (negb _); [|done]. apply Forall_forall.
    intros x Hx. apply filter_In in Hx as [_ Hx]. apply negb_true_iff, bool_decide_eq_false in Hx. done. }
  assert (pool <> [] /\ Forall (fun p => p <> []) pool) as [Hne Hall].
  { unfold pool. case_bool_decide; [split; [done|exact Hd]|done]. }
  assert (length pool <> 0)%nat as Hl by (by destruct pool).
  destruct (lookup_lt_is_Some_2 pool (r mod length pool)) as [sni Hs]; [by apply Nat.mod_upper_bound|].
  exists pool, sni. split; [done|]. split; [done|]. split.
  - unfold pick_sni. cbn [default from_option]. change (id pool) with pool. rewrite (proj2 (Nat.eqb_neq _ _) Hl), Hs. done.
  - split; [by eapply list_elem_of_lookup_2|]. by apply (Forall_lookup_1 (fun p => p <> []) pool (r mod length pool)).
Qed.

Lemma spk_ok {E} base64 pk key :
  base64 pk = Some key -> length key = 32%nat -> spk (E:=E) base64 (Some pk) = Ok key.
Proof.
  intros Hb Hl. unfold spk, bd. cbn [default from_option]. change (id pk) with pk. rewrite Hb. cbn [default from_option].
  change (id key) with key. rewrite Hl. cbn [Nat.eqb]. rewrite copy_into_ok; [|cbn; lia|lia].
  cbn [take app]. f_equal. by rewrite app_nil_r.
Qed.

Section auth_lemmas.
Context `{HL : !HexLaws hex} `{XL : !X25519Laws x25519} `{KL : !HkdfLaws hkdf} `{AL : !AeadLaws aead}.

(** C7: Client and server agree end to end: a client started with the server's
    public key and a user's UUID writes 72 bytes from which the server, cutting
    them 32 to 40, authenticates exactly that UUID while the clocks agree to 15
    seconds; when the server answers with status 0 and a session token, the
    client returns that token. *)
Theorem client_server_auth base64 args sk secret u text pk ts now ss eph token rest :
  arg args (ascii_bytes "--pubkey") = Some pk -> base64 pk = Some (public_key sk) -> length sk = 32%nat ->
  wf_bytes u -> length u = 16%nat -> format_uuid (E:=client_error) u = Ok text ->
  arg args (ascii_bytes "--uuid") = Some text -> length secret = 32%nat ->
  0 <= ts < 2 ^ 64 -> Z.abs (now - ts) <= 15 -> length eph = 32%nat -> length token = 16%nat ->
  exists msg r', orcax_auth base64 args secret ts (reader (eph ++ [0] ++ token ++ rest)) = (Ok token, Sock r' msg true) /\
    pending r' = rest /\ length msg = 72%nat /\
    server_handshake sk (take 32 msg) (drop 32 msg) now ss
      = Ok {| uuid := text; server_ephemeral_pub := public_key ss |}.
Proof.
  intros Hpk Hb Hsk Hu Hul Htext Huuid Hsec Hts Hnow Heph Htok.
  destruct (client_payload_accepted (E:=client_error) sk secret u text ts now ss Hu Hul Htext Hts Hnow) as (payload & Henc & Hpay & Hs).
  pose proof (public_key_length sk Hsk) as Hpl. pose proof (public_key_length secret Hsec) as Hsl.
  set (msg := public_key secret ++ payload). exists msg.
  pose proof (spk_ok (E:=client_error) base64 pk (public_key sk) Hb Hpl) as Hspk.
  assert (Hclean : clean [Data (eph ++ [0] ++ token ++ rest)]).
  { apply Forall_cons_iff. split; [by destruct eph | by apply Forall_nil]. }
  destruct (read_exact_clean 33 [Data (eph ++ [0] ++ token ++ rest)] [] msg true (eph ++ [0]) (token ++ rest))
    as (r1 & Hr1 & Hc1 & Hp1); [done | cbn [pending]; by rewrite app_nil_r, <- !app_assoc | by rewrite length_app, Heph |].
  destruct (read_exact_clean 16 r1 [] msg true token rest Hc1 Hp1 Htok) as (r2 & Hr2 & _ & Hp2).
  rewrite !app_nil_r in *. exists r2. split; [|split; [done|]].
  - unfold orcax_auth. rewrite Hpk, (io_lift_ok _ _ _ _ Hspk), Huuid.
    rewrite (io_lift_ok _ _ u) by (by eapply parse_format_uuid).
    rewrite (io_lift_ok _ _ _ _ Henc).
    rewrite (io_bind_ok _ _ _ tt (Sock [Data (eph ++ [0] ++ token ++ rest)] msg true)) by done.
    rewrite (io_bind_ok _ _ _ _ _ (io_map_err_ok _ _ _ _ _ Hr1)).
    rewrite (io_lift_ok _ _ 0) by (rewrite idx_app_0 by done; done).
    rewrite (io_lift_ok _ _ tt) by done. by apply io_map_err_ok.
  - assert (take 32 msg = public_key secret /\ drop 32 msg = payload) as [-> ->].
    { unfold msg. rewrite <- Hsl. by rewrite take_app_length, drop_app_length. }
    split; [|exact Hs]. unfold msg. rewrite length_app. lia.
Qed.
End auth_lemmas.

(** ** Witnesses *)

Definition ex_frames : list Frame :=
  [ data_frame 1 [65; 66]; data_frame 3 [67]; {| flags := 4; frame_type := FtData; stream_id := 1; payload := [68; 9; 9; 3] |} ].

Definition ex_draw : pad_draw := {| pad_len := 4; pad_noise := [1; 2; 3; 4] |}.
Definition ex_link : MuxLink := {| sent := []; link_open := true |}.
Definition ex_reader : reader_state :=
  {| rd_streams := {[ 1 := new_channel; 3 := dropped ]}; bytes_down := 10; rd_link := ex_link |}.

Lemma reader_answers_ping_witness :
  exists r' f, reader_turn ex_reader ex_draw (reader (encode ping)) =
    (Ok {| rd_streams := rd_streams ex_reader; bytes_down := 10; rd_link := {| sent := [encode f]; link_open := true |} |}, Sock r' [] true).
Proof.
  destruct (reader_answers_ping ex_reader ex_draw [Data (encode ping)] [] true) as (r' & f & H & _);
    [by apply (bool_decide_unpack _) | by apply (bool_decide_unpack _) | reflexivity |]. by exists r', f.
Defined.


Definition ex_target : TargetAddr := {| addr := Domain (ascii_bytes "a.ru"); port := 443 |}.
Definition ex_pool : MuxPool := (open_stream (new_pool 3 [65] (replicate 16 6)) ex_target ex_draw).2.

Lemma pool_streams_stay_on_link_witness :
  length (links ex_pool) = 3%nat /\
  forall i l f, links ex_pool !! i = Some l -> f ∈ sent l -> link_index (E:=client_error) ex_pool (wire_sid f) = Ok i.
Proof.
  destruct (pool_streams_stay_on_link 3 [65] (replicate 16 6) ex_pool) as (H1 & _ & H3); [done| |by split].
  apply rtc_once. apply (pool_open _ ex_target ex_draw); [by apply (bool_decide_unpack _)|by apply (bool_decide_unpack _)|done].
Defined.

Definition ex_closed_pool : MuxPool :=
  {| links := [{| sent := []; link_open := false |}]; pool_streams := ∅; next_id := 1;
     server_addr := [65]; session_token := replicate 16 6 |}.

Lemma failed_open_leaks_stream_witness :
  exists p, (open_stream p ex_target ex_draw).1 = Err WriteClosed /\ pool_streams (open_stream p ex_target ex_draw).2 !! 1 = Some dropped.
Proof.
  exists ex_closed_pool.
  apply (failed_open_leaks_stream 1 ex_closed_pool ex_target ex_draw {| sent := []; link_open := false |}); [done| | |done|done].
  - split; [done|done|done|]. intros [|i] l f Hl Hin; [|done]. injection Hl as <-. by apply elem_of_nil in Hin.
  - by apply (bool_decide_unpack _).
Defined.

Lemma reconnect_reaches_live_server_witness :
  exists k, (k <= 2)%nat /\ reconnect 3 (fun _ i => (i =? 2)%nat) 3 0 1 = Some (k, map (backoff 3) (seq 1 k)).
Proof.
  destruct (reconnect_reaches_live_server (fun _ i => (i =? 2)%nat) 3 2) as (k & H1 & _ & _ & H4); [lia|done|].
  exists k. by split.
Defined.

Definition ex_uuid_text : bytes := ascii_bytes "01020304-0506-0708-090a-0b0c0d0e0f10".

Lemma client_server_auth_witness :
  exists msg r',
    orcax_auth (H0:=toy_x25519) (H1:=toy_hkdf) (H2:=toy_aead) (fun _ => Some (ex_key 7))
      [ascii_bytes "--uuid"; ex_uuid_text; ascii_bytes "--pubkey"; [65]] (ex_key 9) 1700000000
      (reader (ex_key 5 ++ [0] ++ replicate 16 6 ++ [])) = (Ok (replicate 16 6), Sock r' msg true).
Proof.
  destruct (client_server_auth (HL:=std_hex_laws) (XL:=toy_x25519_laws) (KL:=toy_hkdf_laws) (AL:=toy_aead_laws)
    (fun _ => Some (ex_key 7)) [ascii_bytes "--uuid"; ex_uuid_text; ascii_bytes "--pubkey"; [65]]
    (ex_key 7) (ex_key 9) (seqZ 1 16) ex_uuid_text [65] 1700000000 1700000010 (ex_key 1) (ex_key 5) (replicate 16 6) [])
    as (msg & r' & H & _);
    [reflexivity | reflexivity | reflexivity | by apply (bool_decide_unpack _) | reflexivity | reflexivity | reflexivity
    | reflexivity | lia | lia | reflexivity | reflexivity |].
  exists msg, r'. exact H.
Defined.
