(* ===== verification/Tunnel.v ===== *)
(** * The library tunnel (orcax/client/src/tunnel.rs)

    The blocking tunnel exported to the application: its life cycle, the SOCKS5
    handler, the connection to the server and the relay loop.

    [start] runs on one thread while other threads call [stop], [state] and [start]
    again, so the life cycle is a step relation on any number of calls of [start],
    whose steps are the accesses to the two atomics and the calls to the listener, one
    at a time.  The handler owns two streams, the proxy's client and the server. *)
From S2P Require Import Prelude Stream RustStd Crates Uuid Address Orca Handshake Socks.

(** ** Life cycle *)

Inductive TunnelState : Type := Disconnected | Connecting | Connected | ErrorState.
#[export] Instance TunnelState_eq_dec : EqDecision TunnelState.
Proof. solve_decision. Defined.

(** [TunnelState::X as u32]. *)
Definition state_code (s : TunnelState) : Z :=
  match s with Disconnected => 0 | Connecting => 1 | Connected => 2 | ErrorState => 3 end.

(** [OrcaXTunnel]'s two atomics. *)
Record OrcaXTunnel : Type := { state_cell : Z; running : bool }.

Definition new_tunnel : OrcaXTunnel := {| state_cell := state_code Disconnected; running := false |}.

(** [state]. *)
Definition state (t : OrcaXTunnel) : TunnelState :=
  match state_cell t with
  | 0 => Disconnected
  | 1 => Connecting
  | 2 => Connected
  | _ => ErrorState
  end.

(** [stop]. *)
Definition stop (t : OrcaXTunnel) : OrcaXTunnel := {| state_cell := state_cell t; running := false |}.

Definition store_state (s : TunnelState) (t : OrcaXTunnel) : OrcaXTunnel :=
  {| state_cell := state_code s; running := running t |}.

(** Where a call of [start] is. *)
Inductive start_pc : Type :=
| SetRunning                 (* running.store(true) is next *)
| SetConnecting              (* state.store(Connecting) is next *)
| Binding                    (* TcpListener::bind is next *)
| SetConnected               (* state.store(Connected) is next *)
| LoopHead                   (* running.load is next *)
| Accepting                  (* in listener.accept *)
| SetDisconnected            (* state.store(Disconnected) is next *)
| Returned (ok : bool).
#[export] Instance start_pc_eq_dec : EqDecision start_pc.
Proof. solve_decision. Defined.

(** A call of [start]: where it is, what [accept] will return (connections, and errors
    as [false]) and how many handler threads it spawned. *)
Record call : Type := { pc : start_pc; backlog : list bool; accepted : nat }.
Definition new_call : call := {| pc := SetRunning; backlog := []; accepted := 0 |}.
Definition goto (p : start_pc) (c : call) : call := {| pc := p; backlog := backlog c; accepted := accepted c |}.
Record world : Type := { tunnel : OrcaXTunnel; calls : list call }.
Definition init_world : world := {| tunnel := new_tunnel; calls := [] |}.

(** One step of a call of [start]; [bind_ok] is the outcome of the bind, if the step is
    it.  A call in [accept] stays there while nothing comes. *)
Definition start_step (bind_ok : bool) (t : OrcaXTunnel) (c : call) : OrcaXTunnel * call :=
  match pc c with
  | SetRunning => ({| state_cell := state_cell t; running := true |}, goto SetConnecting c)
  | SetConnecting => (store_state Connecting t, goto Binding c)
  | Binding => (t, goto (if bind_ok then SetConnected else Returned false) c)
  | SetConnected => (store_state Connected t, goto LoopHead c)
  | LoopHead => (t, goto (if running t then Accepting else SetDisconnected) c)
  | Accepting =>
      match backlog c with
      | [] => (t, c)
      | ok :: rest => (t, {| pc := LoopHead; backlog := rest; accepted := if ok then S (accepted c) else accepted c |})
      end
  | SetDisconnected => (store_state Disconnected t, goto (Returned true) c)
  | Returned _ => (t, c)
  end.
(** A connection arrives at, or [accept] will fail at, the listener of a call, if it
    has one. *)
Definition arrive (ok : bool) (c : call) : call :=
  match pc c with
  | SetConnected | LoopHead | Accepting | SetDisconnected => {| pc := pc c; backlog := backlog c ++ [ok]; accepted := accepted c |}
  | _ => c
  end.

(** The events of a run: a thread calls [start], the i-th call gets a turn, something
    arrives for it, a thread calls [stop]. *)
Inductive event : Type := Start | Turn (i : nat) (bind_ok : bool) | Arrive (i : nat) (ok : bool) | Stop.
Definition apply_event (w : world) (e : event) : world :=
  match e with
  | Start => {| tunnel := tunnel w; calls := calls w ++ [new_call] |}
  | Turn i bind_ok =>
      match calls w !! i with
      | Some c => let '(t, c') := start_step bind_ok (tunnel w) c in {| tunnel := t; calls := <[i := c']> (calls w) |}
      | None => w
      end
  | Arrive i ok => {| tunnel := tunnel w; calls := alter (arrive ok) i (calls w) |}
  | Stop => {| tunnel := stop (tunnel w); calls := calls w |}
  end.
Definition run_events (w : world) (es : list event) : world := fold_left apply_event es w.

(** ** The connection to the server *)

Inductive tunnel_error : Type :=
| ConnectFailed
| InvalidSni
| TlsFailed
| TunnelIo (e : io_error)
| AuthFailed
| DeviceLimit
| Banned
| ServerError (status : Z)
| SocksFailed (e : socks_error)
| NotSocks
| BadRequest
| Ipv6Socks
| UnknownAddrType.

Record TunnelConfig : Type := { server_pubkey : bytes; uuid_bytes : bytes }.

(** The outcomes of the calls below the protocol. *)
Record network : Type := { tcp_ok : bool; sni_ok : bool; tls_ok : bool }.

(** The [match status] after the handshake. *)
Definition check_status (status : Z) : result tunnel_error unit :=
  match status with
  | 0 => Ok tt
  | 1 => Err AuthFailed
  | 2 => Err DeviceLimit
  | 3 => Err Banned
  | _ => Err (ServerError status)
  end.

Section connect.
Context `{X25519, Hkdf, Aead}.

(** [auth[0..32]] and [auth[32..48]]. *)
Definition auth_message {E} (eph enc : bytes) : result E bytes :=
  let auth := replicate 48 0 in
  auth ← copy_into auth 0 32 eph;
  copy_into auth 32 48 enc.

(** [connect_orcax]; [secret] is the ephemeral key, [now] the clock. *)
Definition connect_orcax (config : TunnelConfig) (net : network) (secret : bytes) (now : Z) : Io tunnel_error unit :=
  _ ← lift (ensure (tcp_ok net) ConnectFailed);
  _ ← lift (ensure (sni_ok net) InvalidSni);
  _ ← lift (ensure (tls_ok net) TlsFailed);
  '(ephemeral_pub, encrypted_uuid) ← lift (client_encrypt_uuid (server_pubkey config) (uuid_bytes config) secret now);
  auth ← lift (auth_message ephemeral_pub encrypted_uuid);
  _ ← io_map_err TunnelIo (write_all auth);
  resp ← io_map_err TunnelIo (read_exact 33);
  status ← lift (idx resp 32);
  lift (check_status status).
End connect.

(** ** The SOCKS5 handler *)

(** [handle_socks5] up to the target. *)
Definition tunnel_target (req : bytes) : result tunnel_error (bytes * Z) :=
  ty ← idx req 3;
  if ty =? 4 then Err Ipv6Socks
  else if (ty =? 1) || (ty =? 3) then map_err SocksFailed (parse_connect req)
  else Err UnknownAddrType.

Definition negotiate : Io tunnel_error (bytes * Z) :=
  d ← io_map_err TunnelIo (read 258);
  b0 ← lift (idx (filled 258 d) 0);
  _ ← lift (ensure (negb ((length d <? 2)%nat || negb (b0 =? 5))) NotSocks);
  _ ← io_map_err TunnelIo (write_all [5; 0]);
  d2 ← io_map_err TunnelIo (read 263);
  let req := filled 263 d2 in
  r0 ← lift (idx req 0);
  r1 ← lift (idx req 1);
  _ ← lift (ensure (negb ((length d2 <? 7)%nat || negb (r0 =? 5) || negb (r1 =? 1))) BadRequest);
  lift (tunnel_target req).

Definition RELAY_BUF : nat := Z.to_nat 65536.

(** [relay_tls], one turn: each direction in order, [false] for a [break]. *)
Definition relay_half (timed : bool) (from to : sock) : bool * sock * sock :=
  let '(res, r) := poll timed RELAY_BUF (rx from) in
  let from := Sock r (tx from) (tx_open from) in
  match res with
  | Ok [] => (false, from, to)
  | Ok d => let '(w, to) := write_all d to in (is_ok w, from, to)
  | Err TimedOut => (true, from, to)
  | _ => (false, from, to)
  end.
Fixpoint relay_tls (fuel : nat) (client server : sock) : option (sock * sock) :=
  match fuel with
  | O => None
  | S fuel' =>
      let '(go, client, server) := relay_half true client server in
      if go then
        let '(go, server, client) := relay_half false server client in
        if go then relay_tls fuel' client server else Some (client, server)
      else Some (client, server)
  end.

Section handler.
Context `{X25519, Hkdf, Aead}.

(** [handle_socks5]: the result and the two streams; [None] if the relay has
    not ended within the fuel. *)
Definition handle_socks5 (fuel : nat) (config : TunnelConfig) (net : network) (secret : bytes) (now : Z)
    (client server : sock) : option (result tunnel_error unit * sock * sock) :=
  match negotiate client with
  | (Ok (host, port), client) =>
      match connect_orcax config net secret now server with
      | (Ok _, server) =>
          match io_map_err TunnelIo (write_all (encode (stream_open 1 (target_of host port)))) server with
          | (Ok _, server) =>
              match io_map_err TunnelIo (write_all socks_success) client with
              | (Ok _, client) =>
                  '(client, server) ← relay_tls fuel client server;
                  Some (Ok tt, client, server)
              | (Err e, client) => Some (Err e, client, server)
              | (Panic, client) => Some (Panic, client, server)
              end
          | (Err e, server) => Some (Err e, client, server)
          | (Panic, server) => Some (Panic, client, server)
          end
      | (Err e, server) => Some (Err e, client, server)
      | (Panic, server) => Some (Panic, client, server)
      end
  | (Err e, client) => Some (Err e, client, server)
  | (Panic, client) => Some (Panic, client, server)
  end.
End handler.

(** ** Lemmas *)

(** *** Life cycle *)

Definition state_at (p : start_pc) : TunnelState :=
  match p with
  | SetRunning | SetConnecting | Returned true => Disconnected
  | Binding | SetConnected | Returned false => Connecting
  | LoopHead | Accepting | SetDisconnected => Connected
  end.
(** What the state cell holds: never the code of Error, and if [start] was called at
    most once, what the call stored last. *)
Definition cell_ok (w : world) : Prop :=
  (exists s, state_cell (tunnel w) = state_code s /\ s <> ErrorState) /\
  match calls w with [] => state_cell (tunnel w) = 0 | [c] => state_cell (tunnel w) = state_code (state_at (pc c)) | _ => True end.
Lemma start_step_cell b t c : let '(t', c') := start_step b t c in
  ((exists s, state_cell t = state_code s /\ s <> ErrorState) -> exists s, state_cell t' = state_code s /\ s <> ErrorState) /\
  (state_cell t = state_code (state_at (pc c)) -> state_cell t' = state_code (state_at (pc c'))).
Proof.
  unfold start_step. destruct c as [[| | | | | | |[]] [|ok q] n]; cbn [pc backlog goto accepted store_state state_cell]; split; intros Hs; try exact Hs; try done; try (by eexists);
    rewrite ?Hs; by try destruct b; try destruct (running t).
Qed.
Lemma arrive_pc ok c : pc (arrive ok c) = pc c /\ accepted (arrive ok c) = accepted c.
Proof. unfold arrive. by destruct (pc c) eqn:E. Qed.
Lemma apply_event_cell w e : cell_ok w -> cell_ok (apply_event w e).
Proof.
  intros [H1 H2]. destruct e as [|i b|i ok|]; cbn [apply_event].
  - split; [exact H1|]. cbn [calls tunnel]. destruct (calls w) as [|c [|]]; cbn; [exact H2|done|done].
  - destruct (calls w !! i) as [c|] eqn:Hc; [|by split]. pose proof (start_step_cell b (tunnel w) c) as Hs. destruct (start_step b (tunnel w) c) as [t' c']. destruct Hs as [Ha Hb].
    split; [exact (Ha H1)|]. cbn [calls tunnel]. destruct (calls w) as [|c0 [|c1 cs]]; [done| |by destruct i as [|[|]]]. destruct i; [|done]. cbn in *. injection Hc as ->. exact (Hb H2).
  - split; [exact H1|]. cbn [calls tunnel]. destruct (calls w) as [|c0 [|c1 cs]]; [exact H2| |by destruct i as [|[|]]]. destruct i; cbn; [|exact H2]. by rewrite (proj1 (arrive_pc _ _)).
  - by split.
Qed.
Lemma run_cell es : cell_ok (run_events init_world es).
Proof.
  assert (cell_ok init_world) as H0 by (split; [by exists Disconnected|done]). revert H0. generalize init_world. unfold run_events.
  induction es as [|e es IH]; intros w Hw; [exact Hw|]. cbn [fold_left]. by apply IH, apply_event_cell.
Qed.

(** Steps left once [running] is false. *)
Definition rank (p : start_pc) : nat :=
  match p with
  | SetRunning => 0
  | SetConnecting => 5
  | Binding => 4
  | SetConnected | Accepting => 3
  | LoopHead => 2
  | SetDisconnected => 1
  | Returned _ => 0
  end.
Definition turns (i : nat) (es : list event) : nat := length (List.filter (fun e => match e with Turn j _ => (j =? i)%nat | _ => false end) es).
(** In [accept], with nothing to take. *)
Definition waiting (c : call) : Prop := pc c = Accepting /\ backlog c = [].
Definition under_way (c : call) : Prop := match pc c with SetRunning | Returned _ => False | _ => True end.
Definition returned (c : call) : Prop := match pc c with Returned _ => True | _ => False end.
(** Connections accepted, counting the one a call in [accept] may still take. *)
Definition may_accept (c : call) : nat := (accepted c + match pc c with Accepting => 1 | _ => 0 end)%nat.

(** The flag is down, and no call is about to raise it. *)
Definition stopped (w : world) : Prop := running (tunnel w) = false /\ forall j c, calls w !! j = Some c -> pc c <> SetRunning.
Lemma start_step_stopped b t c : running t = false -> pc c <> SetRunning ->
  let '(t', c') := start_step b t c in running t' = false /\ pc c' <> SetRunning /\ (may_accept c' <= may_accept c)%nat /\
  (pc c <> Accepting -> pc c' <> Accepting) /\ (waiting c -> c' = c) /\ (~ waiting c -> pc c' <> Accepting /\ (rank (pc c') <= rank (pc c) - 1)%nat) /\
  (pc c' = Returned true -> pc c <> Returned true -> state_cell t' = 0) /\ (returned c -> t' = t /\ c' = c).
Proof.
  intros Hr Hp. unfold start_step, may_accept, waiting, returned. destruct c as [[| | | | | | |[]] [|ok q] n]; cbn [pc backlog accepted goto store_state running state_cell rank] in *; rewrite ?Hr; try done;
    try destruct b; try destruct ok; cbn [pc backlog accepted goto store_state running state_cell rank]; naive_solver lia.
Qed.
Lemma lookup_alter_cases {A} (f : A -> A) (j : nat) (l : list A) (k : nat) x : alter f j l !! k = Some x -> (k = j /\ exists y, l !! j = Some y /\ x = f y) \/ (k <> j /\ l !! k = Some x).
Proof.
  destruct (decide (k = j)) as [->|Hk]; [|rewrite list_lookup_alter_ne by done; by right]. rewrite list_lookup_alter_eq. destruct (l !! j) as [y|]; [|done]. intros [= <-]. left. split; [done|]. by exists y.
Qed.
Lemma stopped_event w e : stopped w -> e <> Start -> stopped (apply_event w e).
Proof.
  intros [Hr Hn] He. destruct e as [|j b|j ok|]; [done| | |by split]; cbn [apply_event].
  - destruct (calls w !! j) as [cj|] eqn:Hj; [|by split]. pose proof (start_step_stopped b (tunnel w) cj Hr (Hn _ _ Hj)) as Hst. destruct (start_step b (tunnel w) cj) as [t' c'].
    split; [apply Hst|]. intros k ck Hk. cbn [calls] in Hk. apply list_lookup_insert_Some in Hk as [(-> & <- & _)|[_ Hk]]; [apply Hst|by eapply Hn].
  - split; [exact Hr|]. intros k ck Hk. cbn [calls] in Hk. apply lookup_alter_cases in Hk as [(-> & y & Hk & ->)|[_ Hk]]; [rewrite (proj1 (arrive_pc _ _))|]; by eapply Hn.
Qed.
(** What an event does to a call once the flag is down. *)
Definition calm (i : nat) (e : event) (c c' : call) : Prop :=
  (may_accept c' <= may_accept c)%nat /\ (rank (pc c') <= rank (pc c))%nat /\ (waiting c' -> waiting c) /\
  (waiting c -> (forall ok, e <> Arrive i ok) -> c' = c) /\ ((exists ok, e = Arrive i ok) -> ~ waiting c') /\
  (forall b, e = Turn i b -> ~ waiting c -> (rank (pc c') <= rank (pc c) - 1)%nat).
Lemma calm_same i e c : (forall ok, e <> Arrive i ok) -> (forall b, e = Turn i b -> waiting c) -> calm i e c c.
Proof. intros Ha Ht. split; [lia|]. split; [lia|]. split; [done|]. split; [done|]. split; [intros [ok Hok]; by destruct (Ha ok)|]. intros b Hb Hw. by destruct Hw, (Ht b Hb). Qed.
Lemma calm_arrive i ok c : calm i (Arrive i ok) c (arrive ok c).
Proof.
  destruct (arrive_pc ok c) as [Hp Ha]. assert (~ waiting (arrive ok c)) as Hw. { intros [G1 G2]. rewrite Hp in G1. unfold arrive in G2. rewrite G1 in G2. cbn in G2. by destruct (backlog c). }
  unfold calm, may_accept. rewrite Hp, Ha. split; [lia|]. split; [lia|]. split; [done|]. split; [intros _ Hq; by destruct (Hq ok)|]. split; [done|]. done.
Qed.
Lemma apply_event_stopped w e i c : stopped w -> e <> Start -> calls w !! i = Some c -> exists c', calls (apply_event w e) !! i = Some c' /\ calm i e c c'.
Proof.
  intros [Hr Hn] He Hc. destruct e as [|j b|j ok|]; [done| | |]; cbn [apply_event]; [| |exists c; split; [done|]; by apply calm_same].
  - destruct (calls w !! j) as [cj|] eqn:Hj; [|exists c; split; [done|]; apply calm_same; [done|]; intros b' [= -> ->]; congruence].
    pose proof (start_step_stopped b (tunnel w) cj Hr (Hn _ _ Hj)) as Hs. destruct (start_step b (tunnel w) cj) as [t' c']. destruct Hs as (_ & _ & H3 & _ & H5 & H6 & _). cbn [calls].
    destruct (decide (j = i)) as [->|Hji]; [|exists c; rewrite list_lookup_insert_ne by done; split; [done|]; apply calm_same; [done|]; intros b' [= ? ?]; done].
    assert (cj = c) as -> by congruence. exists c'. rewrite list_lookup_insert_eq by (by eapply lookup_lt_Some). split; [done|].
    destruct (decide (pc c = Accepting /\ backlog c = [])) as [Hw|Hw]; [rewrite (H5 Hw); by apply calm_same|]. destruct (H6 Hw) as [G1 G2].
    split; [done|]. split; [lia|]. split; [by intros [? _]|]. split; [done|]. split; [by intros [ok Hok]|]. done.
  - cbn [calls]. destruct (decide (j = i)) as [->|Hji]; [|exists c; rewrite list_lookup_alter_ne by done; split; [done|]; apply calm_same; [|done]; intros ok' [= ? ?]; done].
    exists (arrive ok c). rewrite list_lookup_alter_eq, Hc. split; [done|]. apply calm_arrive.
Qed.
Definition no_start (e : event) : Prop := e <> Start.
Lemma run_stopped w es i c : stopped w -> Forall no_start es -> calls w !! i = Some c ->
  stopped (run_events w es) /\ exists c', calls (run_events w es) !! i = Some c' /\ (may_accept c' <= may_accept c)%nat /\ (rank (pc c') <= rank (pc c))%nat /\
  (waiting c -> Forall (fun e => forall ok, e <> Arrive i ok) es -> c' = c) /\
  (~ waiting c -> ~ waiting c' /\ (rank (pc c') <= rank (pc c) - turns i es)%nat).
Proof.
  revert w c. induction es as [|e es IH]; intros w c Hs Hf Hc; [split; [done|]; exists c; cbn; split; [done|]; split; [lia|]; split; [lia|]; split; [done|]; intros; split; [done|lia]|].
  apply Forall_cons_iff in Hf as [He Hf]. pose proof (stopped_event w e Hs He) as Hs1. destruct (apply_event_stopped w e i c Hs He Hc) as (c1 & Hc1 & G1 & G2 & G3 & G4 & G5 & G6).
  destruct (IH _ c1 Hs1 Hf Hc1) as (Hs2 & c2 & Hc2 & K1 & K2 & K3 & K4).
  split; [exact Hs2|]. exists c2. split; [exact Hc2|]. split; [lia|]. split; [lia|]. split.
  - intros Hw Hq. apply Forall_cons_iff in Hq as [Hq1 Hq]. pose proof (G4 Hw Hq1) as ->. by apply K3.
  - intros Hw. destruct K4 as [K4 K5]; [by intros Hw1; apply Hw, G3|]. split; [done|]. unfold turns in *. cbn [List.filter].
    destruct e as [|j b|j ok|]; try lia. destruct (Nat.eqb_spec j i) as [->|]; [|lia]. cbn [length]. specialize (G6 b eq_refl Hw). lia.
Qed.
(** A call blocked in [accept] is released by the next arrival. *)
Lemma run_released w es1 ok es2 i c : stopped w -> Forall no_start (es1 ++ Arrive i ok :: es2) -> calls w !! i = Some c ->
  exists c', calls (run_events w (es1 ++ Arrive i ok :: es2)) !! i = Some c' /\ (rank (pc c') <= rank (pc c) - turns i es2)%nat.
Proof.
  intros Hs Hf Hc. apply Forall_app in Hf as [Hf1 Hf]. apply Forall_cons_iff in Hf as [He Hf2]. destruct (run_stopped w es1 i c Hs Hf1 Hc) as (Hs1 & c1 & Hc1 & _ & G2 & _).
  destruct (apply_event_stopped _ _ i c1 Hs1 He Hc1) as (c2 & Hc2 & _ & G3 & _ & _ & G4 & _). pose proof (stopped_event _ _ Hs1 He) as Hs2.
  destruct (run_stopped _ es2 i c2 Hs2 Hf2 Hc2) as (_ & c3 & Hc3 & _ & _ & _ & G5). exists c3. unfold run_events in *. rewrite fold_left_app. cbn [fold_left]. split; [exact Hc3|].
  destruct G5 as [_ G5]; [apply G4; by exists ok|]. lia.
Qed.
(** The state cell once all calls but one have returned: what that call stores when it
    leaves stays. *)
Definition alone (i : nat) (w : world) : Prop := forall j c, calls w !! j = Some c -> j <> i -> returned c.
Definition left_ok (i : nat) (w : world) : Prop := forall c, calls w !! i = Some c -> pc c = Returned true -> state_cell (tunnel w) = 0.
Lemma alone_event w e i : stopped w -> e <> Start -> alone i w -> left_ok i w -> alone i (apply_event w e) /\ left_ok i (apply_event w e).
Proof.
  intros [Hr Hn] He Ha Hl. destruct e as [|j b|j ok|]; [done| | |by split]; cbn [apply_event].
  - destruct (calls w !! j) as [cj|] eqn:Hj; [|by split]. pose proof (start_step_stopped b (tunnel w) cj Hr (Hn _ _ Hj)) as Hst. destruct (start_step b (tunnel w) cj) as [t' c'].
    destruct Hst as (_ & _ & _ & _ & _ & _ & Hcell & Hret). split.
    + intros k ck Hk Hki. cbn [calls] in Hk. apply list_lookup_insert_Some in Hk as [(<- & <- & _)|[_ Hk]]; [|by apply (Ha k)].
      destruct (Hret (Ha _ _ Hj Hki)) as [_ ->]. by apply (Ha j).
    + intros ck Hk Hp. cbn [calls tunnel] in *. apply list_lookup_insert_Some in Hk as [(-> & <- & _)|[Hji Hk]].
      * destruct (decide (pc cj = Returned true)) as [Hq|Hq]; [|by apply Hcell]. destruct (Hret ltac:(by unfold returned; rewrite Hq)) as [-> _]. by apply (Hl cj).
      * destruct (Hret (Ha _ _ Hj Hji)) as [-> _]. by apply (Hl ck).
  - assert (forall k ck, alter (arrive ok) j (calls w) !! k = Some ck -> exists c, calls w !! k = Some c /\ pc ck = pc c) as Hal.
    { intros k ck Hk. apply lookup_alter_cases in Hk as [(-> & y & Hk & ->)|[_ Hk]]; [exists y; by rewrite (proj1 (arrive_pc _ _))|by exists ck]. }
    split; [intros k ck Hk Hki|intros ck Hk Hp]; destruct (Hal _ _ Hk) as (c & Hc & Hpc); [unfold returned; rewrite Hpc; by apply (Ha k)|]. apply (Hl c Hc). by rewrite <- Hpc.
Qed.
Lemma run_alone w es i : stopped w -> Forall no_start es -> alone i w -> left_ok i w -> left_ok i (run_events w es).
Proof.
  revert w. induction es as [|e es IH]; intros w Hs Hf Ha Hl; [exact Hl|]. apply Forall_cons_iff in Hf as [He Hf]. destruct (alone_event w e i Hs He Ha Hl) as [Ha1 Hl1].
  apply (IH (apply_event w e)); [by apply stopped_event|done|done|done].
Qed.

(** *** The relay *)

Lemma relay_half_spec timed f t :
  tx_open t = true ->
  exists d r', let '(go, f', t') := relay_half timed f t in
    f' = Sock r' (tx f) (tx_open f) /\ t' = Sock (rx t) (tx t ++ d) true /\
    pending (rx f) = d ++ pending r' /\ (go = true -> (unread r' < unread (rx f))%nat) /\
    (clean (rx f) -> clean r' /\ (go = false -> pending r' = [])).
Proof.
  intros Ho. unfold relay_half. destruct (poll timed RELAY_BUF (rx f)) as [res r'] eqn:Hp.
  assert (0 < RELAY_BUF)%nat as Hcap by (unfold RELAY_BUF; lia).
  assert (Ht : t = Sock (rx t) (tx t ++ []) true) by (rewrite app_nil_r; destruct t; cbn in *; by subst).
  destruct res as [d|e|].
  - destruct (poll_data _ _ _ _ _ Hcap Hp) as [Hpd Hu].
    assert (clean (rx f) -> clean r' /\ (d = [] -> pending r' = [])) as Hcl.
    { intros Hc. destruct (poll_clean _ _ _ _ _ Hcap Hc Hp) as [H1 H2]. split; [done|]. by intros ->. }
    destruct d as [|b d].
    + exists [], r'. split; [done|]. split; [done|]. split; [done|]. split; [done|]. naive_solver.
    + unfold write_all. rewrite Ho. exists (b :: d), r'. cbn [is_ok]. split; [done|]. split; [done|]. split; [done|].
      split; [intros _; by apply Hu|]. intros Hc. split; [by apply Hcl|done].
  - destruct (poll_err _ _ _ _ _ Hp) as [Hpd Hu].
    exists [], r'. assert (clean (rx f) -> clean r' /\ e = TimedOut) as Hcl by (intros Hc; by apply (poll_clean _ _ _ _ _ Hcap Hc Hp)).
    destruct e; (split; [done|]; split; [done|]; split; [done|]; split; [done|]; naive_solver).
  - exfalso. pose proof (poll_no_panic timed RELAY_BUF (rx f)) as Hn. by rewrite Hp in Hn.
Qed.

Lemma relay_tls_spec fuel c s :
  tx_open c = true -> tx_open s = true -> (unread (rx c) < fuel)%nat ->
  exists up down rc rs, relay_tls fuel c s = Some (Sock rc (tx c ++ down) true, Sock rs (tx s ++ up) true) /\
    pending (rx c) = up ++ pending rc /\ pending (rx s) = down ++ pending rs /\
    (clean (rx c) -> clean (rx s) -> pending rc = [] \/ pending rs = []).
Proof.
  revert c s. induction fuel as [|fuel IH]; intros c s Hc Hs Hf; [lia|]. cbn [relay_tls].
  destruct (relay_half_spec true c s Hs) as (up & rc & H). destruct (relay_half true c s) as [[go c1] s1].
  destruct H as (-> & -> & Hp & Hu & Hcl). rewrite Hc. destruct go.
  2: { exists up, [], rc, (rx s). rewrite app_nil_r. split; [done|]. split; [done|]. split; [done|].
       intros Hcc _. left. by apply Hcl. }
  match goal with |- context [relay_half false ?a ?b] => destruct (relay_half_spec false a b) as (down & rs & H); [done|] end.
  destruct (relay_half false _ _) as [[go s2] c2]. cbn [rx tx tx_open] in H. destruct H as (-> & -> & Hp2 & Hu2 & Hcl2).
  destruct go.
  2: { exists up, down, rc, rs. split; [done|]. split; [done|]. split; [done|]. intros _ Hsc. right. by apply Hcl2. }
  match goal with |- context [relay_tls fuel ?a ?b] => destruct (IH a b) as (up' & down' & rc' & rs' & Hr & Hpc & Hps & Hend) end;
    [done|done|cbn [rx]; specialize (Hu eq_refl); lia|]. cbn [rx tx] in *.
  exists (up ++ up'), (down ++ down'), rc', rs'. rewrite Hr, !app_assoc. split; [done|].
  rewrite Hp, Hpc, Hp2, Hps, !app_assoc. split; [done|]. split; [done|].
  intros Hcc Hsc. apply Hend; [by apply Hcl|by apply Hcl2].
Qed.

(** ** The contract *)

(** The state other threads see is the one the run is in, if [start] is called once:
    before a start and after a regular end it is Disconnected, while [start] binds (and
    for good when the bind fails) it is Connecting, in the accept loop it is Connected.
    However often it is called, it is never Error. *)
Theorem tunnel_lifecycle es :
  let w := run_events init_world es in
  (calls w = [] -> state (tunnel w) = Disconnected) /\
  (forall c, calls w = [c] -> state (tunnel w) = state_at (pc c)) /\ state (tunnel w) <> ErrorState.
Proof.
  cbn zeta. destruct (run_cell es) as [(s & Hs & Hne) H]. unfold state. split; [intros Hc; rewrite Hc in H; by rewrite H|]. split; [|rewrite Hs; by destruct s].
  intros c Hc. rewrite Hc in H. rewrite H. by destruct (state_at (pc c)).
Qed.

(** C40: [stop] ends [start].  Let [stop] be called, at any point of any run, while a
    call of [start] is under way and none, this or another, is about to raise the
    flag, and let [start] not be called again.  Then this call accepts at most one more
    connection, and returns: within five of its own steps, unless it waits in [accept].
    If it waits there with nothing to take, [stop] does not wake it: it stays until
    something arrives at its listener, and then returns within three steps.  If its
    bind did not fail and all other calls had returned, the state is Disconnected. *)
Theorem stop_ends_start before i c es :
  let w := run_events init_world before in
  let w' := run_events w (Stop :: es) in
  calls w !! i = Some c -> under_way c -> (forall j cj, calls w !! j = Some cj -> pc cj <> SetRunning) -> Forall no_start es ->
  exists c', calls w' !! i = Some c' /\ (accepted c' <= S (accepted c))%nat /\
    (waiting c -> Forall (fun e => forall ok, e <> Arrive i ok) es -> c' = c) /\
    ((if decide (pc c = Accepting /\ backlog c = []) then exists es1 ok es2, es = es1 ++ Arrive i ok :: es2 /\ (3 <= turns i es2)%nat else (5 <= turns i es)%nat) ->
     exists ok, pc c' = Returned ok /\ (ok = true -> alone i w -> state (tunnel w') = Disconnected)).
Proof.
  cbn zeta. intros Hc Hu Hn Hf. set (w := run_events init_world before) in *. change (run_events w (Stop :: es)) with (run_events (apply_event w Stop) es).
  assert (stopped (apply_event w Stop)) as Hs by done. destruct (run_stopped _ es i c Hs Hf Hc) as ([_ Hn'] & c' & Hc' & G1 & G2 & G3 & G4). exists c'. split; [done|].
  split; [unfold may_accept in G1; destruct (pc c), (pc c'); lia|]. split; [done|]. intros Ht.
  assert (rank (pc c') = 0)%nat as Hz.
  { destruct (decide (pc c = Accepting /\ backlog c = [])) as [Hw|Hw].
    - destruct Ht as (es1 & ok & es2 & -> & Ht). destruct (run_released _ es1 ok es2 i c Hs Hf Hc) as (c'' & Hc'' & G5). assert (c'' = c') as -> by congruence. rewrite (proj1 Hw) in G5. cbn in G5. lia.
    - destruct (G4 Hw) as [_ G5]. unfold under_way in Hu. destruct (pc c); cbn in G5; try done; lia. }
  specialize (Hn' i c' Hc'). destruct (pc c') as [| | | | | | |ok] eqn:Hp; try done. exists ok. split; [done|]. intros -> Ha.
  unfold state. rewrite (run_alone (apply_event w Stop) es i Hs Hf Ha) with (c := c'); try done. intros c0 Hc0 Hp0. cbn [apply_event calls] in Hc0. assert (c0 = c) as -> by congruence. unfold under_way in Hu. by rewrite Hp0 in Hu.
Qed.

(** A second call of [start] revives a stopped first one: it raises the flag before its
    bind fails (the first holds the address), so that the first goes on accepting
    connections although [stop] was called and the second call returned an error; and
    the state stays Connecting. *)
Theorem second_start_revives before i c n :
  let w := run_events init_world before in let j := length (calls w) in
  calls w !! i = Some c -> pc c = LoopHead -> backlog c = [] ->
  let w' := run_events w ([Stop; Start; Turn j true; Turn j true; Turn j false] ++ concat (repeat [Turn i true; Arrive i true; Turn i true] n)) in
  calls w' !! i = Some {| pc := LoopHead; backlog := []; accepted := accepted c + n |} /\ state (tunnel w') = Connecting /\
  exists cj, calls w' !! j = Some cj /\ pc cj = Returned false.
Proof.
  cbn zeta. set (w := run_events init_world before). set (j := length (calls w)). intros Hc Hp Hb. assert (i < j)%nat as Hij by by eapply lookup_lt_Some.
  unfold run_events at 1 2 3. rewrite fold_left_app. set (w1 := fold_left apply_event [Stop; Start; Turn j true; Turn j true; Turn j false] w).
  assert (running (tunnel w1) = true /\ state_cell (tunnel w1) = 1 /\ calls w1 = calls w ++ [goto (Returned false) new_call]) as (H1 & H2 & H3).
  { unfold w1. cbn [fold_left apply_event calls tunnel]. do 3 (rewrite lookup_app_r, Nat.sub_diag by done; cbn [lookup list_lookup start_step pc new_call goto calls tunnel]; rewrite insert_app_r_alt, Nat.sub_diag by done; cbn [insert list_insert]).
    done. }
  assert (calls w1 !! i = Some {| pc := LoopHead; backlog := []; accepted := accepted c + 0 |}) as Hi by (rewrite H3, lookup_app_l, Hc by done; rewrite Nat.add_0_r; destruct c; cbn in *; by subst).
  assert (exists cj, calls w1 !! j = Some cj /\ pc cj = Returned false) as Hj by (rewrite H3; eexists; split; [by rewrite lookup_app_r, Nat.sub_diag by done|done]).
  clearbody w1. clear H3. replace n with (0 + n)%nat at 2 by lia. revert Hi Hj H1 H2. generalize 0%nat as k. revert w1.
  induction n as [|n IH]; intros w1 k Hi Hj H1 H2; cbn [repeat concat]; [rewrite Nat.add_0_r; cbn; split; [done|]; split; [unfold state; by rewrite H2|done]|].
  rewrite fold_left_app. replace (k + S n)%nat with (S k + n)%nat by lia. cbn [fold_left apply_event]. rewrite Hi. cbn [start_step pc]. rewrite H1. cbn [goto backlog accepted calls tunnel].
  assert (i < length (calls w1))%nat as Hlt by by eapply lookup_lt_Some. rewrite list_lookup_alter_eq, list_lookup_insert_eq by done. cbn [fmap option_fmap option_map].
  match goal with |- context [start_step true (tunnel w1) ?x] => change (start_step true (tunnel w1) x) with (tunnel w1, {| pc := LoopHead; backlog := []; accepted := S (accepted c + k) |}) end. cbn iota beta.
  apply IH; cbn [calls tunnel]; [|destruct Hj as (cj & Hj & Hpj); exists cj; split; [|done]|done|done].
  - rewrite list_lookup_insert_eq; [do 2 f_equal; lia|]. by rewrite length_alter, length_insert.
  - rewrite list_lookup_insert_ne, list_lookup_alter_ne, list_lookup_insert_ne by lia. done.
Qed.

(** The relay terminates, and conserves bytes: while both sides accept
    writes, what each side receives is exactly what was read from the other, in
    order, and what was not read is still pending; on streams that do not fail
    it ends only when one side has been forwarded completely. *)
Theorem relay_conserves c s :
  tx_open c = true -> tx_open s = true ->
  exists up down rc rs,
    relay_tls (S (unread (rx c))) c s = Some (Sock rc (tx c ++ down) true, Sock rs (tx s ++ up) true) /\
    pending (rx c) = up ++ pending rc /\ pending (rx s) = down ++ pending rs /\
    (clean (rx c) -> clean (rx s) -> pending rc = [] \/ pending rs = []).
Proof. intros Hc Hs. apply relay_tls_spec; [done|done|lia]. Qed.

Section handler_lemmas.
Context `{XL : !X25519Laws x25519} `{KL : !HkdfLaws hkdf} `{AL : !AeadLaws aead}.

Lemma connect_orcax_fails config net secret now s :
  length (uuid_bytes config) = 16%nat -> length secret = 32%nat ->
  exists r, connect_orcax config net secret now s = (r, s) /\ r <> Ok tt /\
    (tcp_ok net = true -> sni_ok net = true -> tls_ok net = true -> r = Panic).
Proof.
  intros Hu Hsec. unfold connect_orcax. destruct net as [[] [] []]; cbn [tcp_ok sni_ok tls_ok];
    try (eexists; split; [reflexivity|]; by split).
  destruct (client_payload (E:=tunnel_error) (server_pubkey config) (uuid_bytes config) secret now Hu) as (payload & Henc & Hpl).
  exists Panic. split; [|by split]. do 3 rewrite (io_lift_ok _ _ tt) by done. rewrite (io_lift_ok _ _ _ _ Henc).
  assert (auth_message (E:=tunnel_error) (public_key secret) payload = Panic) as Hp; [|unfold mbind, io_bind, lift; by rewrite Hp].
  unfold auth_message. rewrite copy_into_ok; [|cbn; lia|rewrite (public_key_length secret Hsec); lia].
  cbn [mbind result_bind]. unfold copy_into. rewrite Hpl. cbn. by rewrite andb_false_r.
Qed.

(** The library tunnel cannot carry a connection: the 40-byte encrypted
    identity does not fit the 16 bytes [connect_orcax] leaves for it, so that for
    every configuration, client and server the handler never succeeds, sends
    nothing to the server and no success reply to its client, and panics
    whenever the request parses and the TLS connection stands. *)
Theorem tunnel_never_forwards fuel config net secret now c s :
  length (uuid_bytes config) = 16%nat -> length secret = 32%nat ->
  exists r c', handle_socks5 fuel config net secret now c s = Some (r, c', s) /\ r <> Ok tt /\
    c' = (negotiate c).2 /\
    (is_ok (negotiate c).1 = true -> tcp_ok net = true -> sni_ok net = true -> tls_ok net = true -> r = Panic).
Proof.
  intros Hu Hsec. unfold handle_socks5. destruct (negotiate c) as [[[host port]|e|] c'].
  - destruct (connect_orcax_fails config net secret now s Hu Hsec) as (r & -> & Hr & Hp).
    exists r, c'. destruct r as [[]|e|]; [done| |]; (split; [done|]); (split; [done|]); (split; [done|]); intros _; exact Hp.
  - by exists (Err e), c'.
  - by exists Panic, c'.
Qed.
End handler_lemmas.

(** ** Witnesses *)

(** A call in its accept loop, a stop while it waits, and one more connection. *)
Lemma stop_ends_start_witness :
  let w := run_events init_world (Start :: repeat (Turn 0 true) 5) in
  let w' := run_events w [Stop; Turn 0 true; Arrive 0 true; Turn 0 true; Stop; Turn 0 true; Turn 0 true] in
  exists c', calls w' !! 0%nat = Some c' /\ (accepted c' <= 1)%nat /\ exists ok, pc c' = Returned ok /\ (ok = true -> alone 0 w -> state (tunnel w') = Disconnected).
Proof.
  destruct (stop_ends_start (Start :: repeat (Turn 0 true) 5) 0 {| pc := Accepting; backlog := []; accepted := 0 |} [Turn 0 true; Arrive 0 true; Turn 0 true; Stop; Turn 0 true; Turn 0 true])
    as (c' & Hc & Ha & _ & Hr); [reflexivity|exact I| |by repeat (apply Forall_cons_iff; split)|].
  - intros j cj Hj. vm_compute in Hj. destruct j; [by injection Hj as <-|done].
  - exists c'. split; [exact Hc|]. split; [exact Ha|]. apply Hr. cbn. exists [Turn 0 true], true, [Turn 0 true; Stop; Turn 0 true; Turn 0 true]. split; [done|]. cbn. lia.
Defined.
Lemma second_start_revives_witness :
  let w' := run_events (run_events init_world (Start :: repeat (Turn 0 true) 4)) ([Stop; Start; Turn 1 true; Turn 1 true; Turn 1 false] ++ concat (repeat [Turn 0 true; Arrive 0 true; Turn 0 true] 7)) in
  calls w' !! 0%nat = Some {| pc := LoopHead; backlog := []; accepted := 7 |} /\ state (tunnel w') = Connecting.
Proof. destruct (second_start_revives (Start :: repeat (Turn 0 true) 4) 0 {| pc := LoopHead; backlog := []; accepted := 0 |} 7) as (H1 & H2 & _); [reflexivity|reflexivity|reflexivity|]. by split. Defined.

Lemma relay_conserves_witness :
  exists up down rc rs,
    relay_tls 6 (Sock [Data [1; 2]; Stall] [] true) (Sock [Data [3]; Data [4; 5]] [9] true)
      = Some (Sock rc ([] ++ down) true, Sock rs ([9] ++ up) true) /\ [1; 2] = up ++ pending rc /\ [3; 4; 5] = down ++ pending rs.
Proof.
  destruct (relay_conserves (Sock [Data [1; 2]; Stall] [] true) (Sock [Data [3]; Data [4; 5]] [9] true))
    as (up & down & rc & rs & H1 & H2 & H3 & _); [done|done|].
  exists up, down, rc, rs. split; [exact H1|]. by split.
Defined.

Lemma tunnel_never_forwards_witness :
  exists r c', handle_socks5 (H:=toy_x25519) (H0:=toy_hkdf) (H1:=toy_aead) 9
      {| server_pubkey := ex_key 7; uuid_bytes := seqZ 1 16 |} {| tcp_ok := true; sni_ok := true; tls_ok := true |} (ex_key 9) 17
      (Sock [Data [5; 1; 0]; Data [5; 1; 0; 1; 10; 0; 0; 1; 0; 80]] [] true) (reader [])
    = Some (r, c', reader []) /\ r <> Ok tt.
Proof.
  destruct (tunnel_never_forwards (XL:=toy_x25519_laws) (KL:=toy_hkdf_laws) (AL:=toy_aead_laws) 9
      {| server_pubkey := ex_key 7; uuid_bytes := seqZ 1 16 |} {| tcp_ok := true; sni_ok := true; tls_ok := true |} (ex_key 9) 17
      (Sock [Data [5; 1; 0]; Data [5; 1; 0; 1; 10; 0; 0; 1; 0; 80]] [] true) (reader [])) as (r & c' & H1 & H2 & _);
    [reflexivity|reflexivity|].
  exists r, c'. by split.
Defined.
