(* ===== verification/Modes.v ===== *)
(** * The client's transports (orcax/client/src/main.rs)

    What [main] puts around the protocol: the choice of a transport and its
    fall-backs, the QUIC and WebSocket authentications, one proxied connection
    in TCP and in WebSocket mode, the writer task and the connection monitor.
    Outcomes of connection attempts, clocks and draws are arguments; tasks that
    run concurrently are interleaved by explicit event lists. *)
From S2P Require Import Prelude Stream RustStd Crates Uuid Address Orca Handshake Whitelist Socks Client.

(** ** Authentication over QUIC and over the WebSocket *)

Inductive cdn_error : Type := BadUuid | BadServerPubkey | CdnAuthRejected.

Section auth.
Context `{Hex, X25519, Hkdf, Aead}.

(** [quic_connect_and_auth], from the opened stream on; every failure is [None]. *)
Definition quic_auth (base64 : bytes -> option bytes) (args : list bytes) (secret : bytes) (now : Z) : Io unit unit :=
  pk ← lift (spk base64 (arg args (ascii_bytes "--pubkey")));
  uuid ← lift (parse_uuid (default (ascii_bytes "0804b576-4dfb-424a-80e7-e812e5c13cae") (arg args (ascii_bytes "--uuid"))));
  '(eph, enc) ← lift (client_encrypt_uuid pk uuid secret now);
  _ ← io_map_err (fun _ => tt) (write_all (eph ++ enc));
  rr ← io_map_err (fun _ => tt) (read_exact 33);
  st ← lift (idx rr 32);
  lift (ensure (st =? 0) tt).

(** [run_ws_cdn_mode]: the authentication message it builds inline. *)
Definition cdn_auth_message (base64 : bytes -> option bytes) (args : list bytes) (eph_secret : bytes) (timestamp : Z)
  : result cdn_error bytes :=
  uuid_bytes ← ok_or (cdn_uuid (default [] (arg args (ascii_bytes "--uuid")))) BadUuid;
  let server_pub_bytes := default [] (base64 (default [] (arg args (ascii_bytes "--pubkey")))) in
  _ ← ensure (length server_pub_bytes =? 32)%nat BadServerPubkey;
  server_pub ← copy_into (replicate 32 0) 0 32 server_pub_bytes;
  let shared := diffie_hellman eph_secret server_pub in
  okm ← unwrap (hkdf_expand AUTH_SALT shared AUTH_INFO 44);
  key ← slice okm 0 32;
  nonce ← slice okm 32 44;
  let '(payload, tag) := seal key nonce [] (uuid_bytes ++ be_encode 8 timestamp) in
  Ok (public_key eph_secret ++ (payload ++ tag)).
End auth.

(** The guard on the answer: a binary message ([Some]) of 33 bytes ending in 0. *)
Definition cdn_accepts (answer : option bytes) : bool :=
  match answer with
  | Some data => (length data =? 33)%nat && bool_decide (data !! 32%nat = Some 0)
  | None => false
  end.

(** ** Start-up *)

(** [str::replace] for a non-empty pattern. *)
Fixpoint replace_fuel (fuel : nat) (p new s : bytes) : bytes :=
  match fuel with
  | O => s
  | S fuel' =>
      match s with
      | [] => []
      | b :: s' => if starts_with p s then new ++ replace_fuel fuel' p new (drop (length p) s)
                   else b :: replace_fuel fuel' p new s'
      end
  end.
Definition str_replace (p new s : bytes) : bytes := replace_fuel (length s) p new s.

(** What [main] ends up doing. *)
Inductive mode : Type :=
| ShimMode (listen upstream : bytes)
| QuicMode (server : bytes)
| TcpMode (server server_addr : bytes)   (* the link, and the pool's address of raw connections *)
| CdnMode (url server : bytes)
| AllUnreachable.

(** The loop over [tcp_servers]: the first that connects. *)
Fixpoint first_up (up : bytes -> bool) (servers : list bytes) : option bytes :=
  match servers with
  | [] => None
  | s :: servers' => if up s then Some s else first_up up servers'
  end.

(** [main], up to the mode it enters; [r] is the draw of the port hop, [quic_up]
    whether [run_quic_mode] takes over (it returns when no server answers or
    its listener cannot be bound), [tcp_up] whether [connect_and_auth] succeeds
    on a server.  The pool's [server_addr] is [sa], whichever server answered. *)
Definition startup (args : list bytes) (r : nat) (quic_up tcp_up : bytes -> bool) : mode :=
  let sa := default (ascii_bytes "204.168.171.253:9444") (arg args (ascii_bytes "--server")) in
  let sk := default (ascii_bytes "127.0.0.1:1080") (arg args (ascii_bytes "--socks")) in
  let protocol := default (ascii_bytes "tcp") (arg args (ascii_bytes "--protocol")) in
  match arg args (ascii_bytes "--upstream-socks") with
  | Some upstream => ShimMode sk upstream
  | None =>
      let sa := match arg args (ascii_bytes "--ports") with Some p => port_hop sa p r | None => sa end in
      let quic := bool_decide (protocol = ascii_bytes "quic") in
      if quic && quic_up sa then QuicMode sa
      else
        let sa := if quic
                  then str_replace (ascii_bytes ":9444") (ascii_bytes ":9443")
                         (str_replace (ascii_bytes ":9446") (ascii_bytes ":9443") sa)
                  else sa in
        match first_up tcp_up (tcp_servers sa (arg args (ascii_bytes "--extra-servers"))) with
        | Some server => TcpMode server sa
        | None => match arg args (ascii_bytes "--cdn-url") with
                  | Some url => CdnMode url sa
                  | None => AllUnreachable
                  end
        end
  end.

(** ** The writer task *)

(** [while let Ok(f) = try_recv()]: a failed write leaves this loop only. *)
Fixpoint drain (batch : list bytes) (s : sock) : sock :=
  match batch with
  | [] => s
  | f :: batch' =>
      match write_all f s with
      | (Ok _, s') => drain batch' s'
      | (_, s') => s'
      end
  end.

(** One turn: a [recv], the frames [try_recv] finds behind it, [flush]; [false]
    ends the task. *)
Definition writer_turn (batch : list bytes) (s : sock) : bool * sock :=
  match batch with
  | [] => (true, s)
  | f :: rest =>
      match write_all f s with
      | (Ok _, s') => let '(w, s'') := flush (drain rest s') in (is_ok w, s'')
      | (_, s') => (false, s')
      end
  end.
Fixpoint writer_task (batches : list (list bytes)) (s : sock) : sock :=
  match batches with
  | [] => s
  | b :: batches' => let '(go, s') := writer_turn b s in if go then writer_task batches' s' else s'
  end.

(** ** One proxied connection in TCP mode *)

Inductive handle_error : Type := OpenFailed (e : client_error) | StreamReadyTimeout | DataConnectFailed | HandleIo (e : io_error).

(** [handle_socks5] after its routing decision: [ready] says whether the channel
    delivers before the time-out, [connect] makes the raw connection.  The result
    is the key and reply written, with the pool once the handler has returned
    and dropped its receiver. *)
Definition handle_socks5 (p : MuxPool) (t : TargetAddr) (d : pad_draw) (ready : bool)
    (connect : bytes -> option sock) (c : sock) : result handle_error (sock * sock) * MuxPool :=
  let '(r, p) := open_stream p t d in
  match r with
  | Ok sid =>
      (_ ← ensure ready StreamReadyTimeout;
       data_tcp ← ok_or (connect (server_addr p)) DataConnectFailed;
       key ← data_key (session_token p) sid;
       let '(w, data_tcp) := write_all key data_tcp in
       _ ← map_err HandleIo w;
       let '(w, c) := write_all socks_success c in
       _ ← map_err HandleIo w;
       Ok (data_tcp, c), drop_rx p sid)
  | Err e => (Err (OpenFailed e), p)
  | Panic => (Panic, p)
  end.

(** ** The connection monitor of QUIC mode *)

Record monitored (A : Type) : Type := { current : A; backups : list A }.
Arguments current {A}. Arguments backups {A}.

(** One turn of its loop: [live] is [close_reason().is_none()]; [up] and
    [connect] are the outcomes of the reconnection attempts. *)
Definition monitor_turn {A} (fuel : nat) (live : A -> bool) (up : nat -> nat -> bool) (connect : nat -> A) (n : nat)
    (m : monitored A) : option (monitored A) :=
  if live (current m) then Some m
  else match take_live live (backups m) with
       | Some (b, rest) => Some {| current := b; backups := rest |}
       | None =>
           '(i, _) ← reconnect fuel up n 0 1;
           Some {| current := connect i; backups := backups m |}
       end.

(** ** One proxied connection in WebSocket mode *)

(** [cdn_socks5] after its routing decision, together with the reader task that
    serves it.  [ws] is what this connection has sent over the WebSocket, [incoming]
    the binary messages the reader task has not taken yet, [held] the data it is
    sending into the channel of this stream, with the lock of the table held;
    [chan] is the channel, [registered] whether the table holds its sender; the
    downstream task owns the receiver.  [up_live] and [dn_live] are the two spawned
    tasks: [select!] waits for one of them and detaches the other.  [at_stage] is where
    [cdn_socks5] itself is. *)
Inductive stage : Type :=
| Relaying                (* in select! *)
| Closing                 (* the send of the close frame is next *)
| Unregistering           (* the removal from the table is next *)
| Finished.
#[export] Instance stage_eq_dec : EqDecision stage.
Proof. solve_decision. Defined.
Record session : Type := {
  ws : list bytes;
  ws_open : bool;
  client : sock;
  incoming : list bytes;
  held : option bytes;
  chan : list bytes;
  registered : bool;
  up_live : bool;
  dn_live : bool;
  at_stage : stage
}.

Inductive session_event : Type :=
| Reader                  (* a turn of the reader task *)
| Up                      (* a turn of the upstream task *)
| Down                    (* a turn of the downstream task *)
| Main                    (* a turn of cdn_socks5 after its spawns *)
| ClientGone              (* writes to the proxy's client fail from now on *)
| WsGone.                 (* sends over the WebSocket fail from now on *)

Definition CDN_BUF : nat := Z.to_nat 65536.

(** Up to the two [spawn]s: register, send the open frame, answer the client.  A
    failure returns early and leaves the registration. *)
Definition session_start (sid : Z) (host : bytes) (port : Z) (inc : list bytes) (ws_up : bool) (c : sock) : session :=
  if ws_up then
    let '(w, c') := write_all socks_success c in
    {| ws := [cdn_open_frame sid host port]; ws_open := true; client := c'; incoming := inc; held := None; chan := []; registered := true;
       up_live := is_ok w; dn_live := is_ok w; at_stage := if is_ok w then Relaying else Finished |}
  else {| ws := []; ws_open := false; client := c; incoming := inc; held := None; chan := []; registered := true;
          up_live := false; dn_live := false; at_stage := Finished |}.

(** What the reader task does with a message: the [match] on its type. *)
Inductive routed : Type := ToStream (sid : Z) (d : bytes) | CloseStream (sid : Z) | Ignored.
Definition cdn_route (data : bytes) : routed :=
  if (length data <? 8)%nat then Ignored
  else
    let stream_id := be_decode (take 4 (drop 2 data)) in
    match data with
    | 0 :: _ => ToStream stream_id (drop 8 data)
    | 2 :: _ => CloseStream stream_id
    | _ => Ignored
    end.

Definition set_reader (inc : list bytes) (hd : option bytes) (ch : list bytes) (reg : bool) (s : session) : session :=
  {| ws := ws s; ws_open := ws_open s; client := client s; incoming := inc; held := hd; chan := ch; registered := reg;
     up_live := up_live s; dn_live := dn_live s; at_stage := at_stage s |}.
(** A turn of the reader task.  A send into a full channel waits, and fails if the
    receiver is gone; frames of other streams do not concern the session. *)
Definition reader_turn (sid : Z) (s : session) : session :=
  match held s with
  | Some d =>
      if negb (dn_live s) then set_reader (incoming s) None (chan s) (registered s) s
      else if (length (chan s) <? CHANNEL_CAPACITY)%nat then set_reader (incoming s) None (chan s ++ [d]) (registered s) s
      else s
  | None =>
      match incoming s with
      | [] => s
      | data :: rest =>
          match cdn_route data with
          | ToStream i d => set_reader rest (if (i =? sid) && registered s then Some d else None) (chan s) (registered s) s
          | CloseStream i => set_reader rest None (chan s) (if i =? sid then false else registered s) s
          | Ignored => set_reader rest None (chan s) (registered s) s
          end
      end
  end.

Definition set_up (w : list bytes) (r : list chunk) (live : bool) (s : session) : session :=
  {| ws := w; ws_open := ws_open s; client := Sock r (tx (client s)) (tx_open (client s)); incoming := incoming s; held := held s; chan := chan s;
     registered := registered s; up_live := live; dn_live := dn_live s; at_stage := at_stage s |}.
Definition up_turn (sid : Z) (s : session) : session :=
  let '(res, r) := poll false CDN_BUF (rx (client s)) in
  match res with
  | Ok [] | Err _ | Panic => set_up (ws s) r false s
  | Ok d => set_up (if ws_open s then ws s ++ [cdn_data_frame sid d] else ws s) r (ws_open s) s
  end.

Definition set_down (c : sock) (ch : list bytes) (live : bool) (s : session) : session :=
  {| ws := ws s; ws_open := ws_open s; client := c; incoming := incoming s; held := held s; chan := ch; registered := registered s;
     up_live := up_live s; dn_live := live; at_stage := at_stage s |}.
(** [recv] waits while the channel is empty and its sender in the table. *)
Definition down_turn (s : session) : session :=
  match chan s with
  | d :: rest => let '(w, c) := write_all d (client s) in set_down c (if is_ok w then rest else []) (is_ok w) s
  | [] => set_down (client s) [] (registered s) s
  end.

Definition set_main (w : list bytes) (reg : bool) (g : stage) (s : session) : session :=
  {| ws := w; ws_open := ws_open s; client := client s; incoming := incoming s; held := held s; chan := chan s; registered := reg;
     up_live := up_live s; dn_live := dn_live s; at_stage := g |}.
(** A turn of [cdn_socks5]: [select!] returns when a task has ended; then the close
    frame; then the removal, which waits for the lock of the table. *)
Definition main_turn (sid : Z) (s : session) : session :=
  match at_stage s with
  | Relaying => if up_live s && dn_live s then s else set_main (ws s) (registered s) Closing s
  | Closing => set_main (if ws_open s then ws s ++ [cdn_close_frame sid] else ws s) (registered s) Unregistering s
  | Unregistering => match held s with Some _ => s | None => set_main (ws s) false Finished s end
  | Finished => s
  end.

Definition session_step (sid : Z) (s : session) (e : session_event) : session :=
  match e with
  | Reader => reader_turn sid s
  | Up => if up_live s then up_turn sid s else s
  | Down => if dn_live s then down_turn s else s
  | Main => main_turn sid s
  | ClientGone => set_down (Sock (rx (client s)) (tx (client s)) false) (chan s) (dn_live s) s
  | WsGone =>
      {| ws := ws s; ws_open := false; client := client s; incoming := incoming s; held := held s; chan := chan s; registered := registered s;
         up_live := up_live s; dn_live := dn_live s; at_stage := at_stage s |}
  end.
Definition session_run (sid : Z) (s : session) (es : list session_event) : session := fold_left (session_step sid) es s.

(** ** Lemmas *)

(** *** The identity both clients send *)

Section auth_lemmas.
Context `{HL : !HexLaws hex} `{XL : !X25519Laws x25519} `{KL : !HkdfLaws hkdf} `{AL : !AeadLaws aead}.

Lemma replace_hexdigits h : Forall (fun c => is_ascii_hexdigit c = true) h -> replace_byte hyphen [] h = h.
Proof.
  unfold replace_byte. induction 1 as [|c h Hc Hh IH]; [done|]. cbn [flat_map].
  destruct (Z.eqb_spec c hyphen) as [->|]; [done|]. cbn [app]. by rewrite IH.
Qed.
Lemma replace_byte_app c n a b : replace_byte c n (a ++ b) = replace_byte c n a ++ replace_byte c n b.
Proof. apply flat_map_app. Qed.
Lemma chunks2_hex l :
  wf_bytes l -> omap (fun c => from_str_radix 8 16 (default [48; 48] (from_utf8 c)))
    (chunks2 (flat_map (fun b => [digit_char (b / 16); digit_char (b mod 16)]) l)) = l.
Proof.
  induction 1 as [|b l Hb Hl IH]; [done|]. cbn [flat_map app chunks2].
  cbn [omap list_omap]. unfold is_byte in Hb.
  pose proof (Z.mod_pos_bound b 16 ltac:(lia)). pose proof (Z.div_mod b 16 ltac:(lia)).
  assert (forall d, 0 <= d < 16 -> 0 <= digit_char d < 128) as Hd
    by (intros d Hd; unfold digit_char; destruct (Z.ltb_spec d 10); lia).
  unfold from_utf8. rewrite utf8_valid_ascii.
  2: { apply Forall_cons_iff. split; [apply Hd; lia|]. apply Forall_cons_iff. split; [apply Hd; lia|by apply Forall_nil]. }
  cbn [default from_option]. unfold id at 1. rewrite from_str_radix_hex_byte by done. f_equal. exact IH.
Qed.
Lemma cdn_uuid_format {E} b s :
  wf_bytes b -> length b = 16%nat -> format_uuid (E:=E) b = Ok s -> cdn_uuid s = Some b.
Proof.
  intros Hb Hl Hs. rewrite format_uuid_ok in Hs by done. cbv zeta in Hs.
  pose proof (hex_encode_hexdigits b Hb) as Hd.
  pose proof (hex_encode_length b Hb) as Hh. rewrite Hl in Hh.
  assert (Hr : replace_byte hyphen [] (join [hyphen] [take 8 (hex_encode b); take 4 (drop 8 (hex_encode b));
     take 4 (drop 12 (hex_encode b)); take 4 (drop 16 (hex_encode b)); take 12 (drop 20 (hex_encode b))]) = hex_encode b).
  { set (h := hex_encode b) in *. cbn [join]. rewrite !replace_byte_app. change (replace_byte hyphen [] [hyphen]) with (@nil Z).
    rewrite !replace_hexdigits by (repeat first [apply Forall_take | apply Forall_drop]; done). cbn [app].
    rewrite (app_assoc (take 8 h)), take_take_drop, (app_assoc (take (8 + 4) h)).
    rewrite (take_take_drop h (8 + 4)), (app_assoc (take _ h)), (take_take_drop h (8 + 4 + 4)).
    rewrite (take_take_drop h (8 + 4 + 4 + 4)). apply take_ge. lia. }
  assert (replace_byte hyphen [] s = hex_encode b) as Hr' by (rewrite <- Hr; f_equal; congruence).
  unfold cdn_uuid. rewrite Hr', hex_encode_digits, chunks2_hex by done. by rewrite Hl.
Qed.

Lemma cdn_auth_message_ok base64 args secret ts u payload text pk spub :
  arg args (ascii_bytes "--uuid") = Some text -> cdn_uuid text = Some u ->
  arg args (ascii_bytes "--pubkey") = Some pk -> base64 pk = Some spub -> length spub = 32%nat ->
  client_encrypt_uuid (E:=unit) spub u secret ts = Ok (public_key secret, payload) ->
  cdn_auth_message base64 args secret ts = Ok (public_key secret ++ payload).
Proof.
  intros Huuid Hu Hpk Hb Hl Henc. unfold cdn_auth_message. rewrite Huuid, Hpk. cbn [default from_option].
  change (id text) with text. change (id pk) with pk. rewrite Hu, Hb. cbn [ok_or mbind result_bind default from_option].
  change (id spub) with spub. rewrite (ensure_true _ BadServerPubkey) by by rewrite Hl. cbn [mbind result_bind].
  rewrite copy_into_ok by (cbn; lia). cbn [mbind result_bind].
  replace (take 0 (replicate 32 0) ++ spub ++ drop 32 (replicate 32 0)) with spub by (cbn [take app]; by rewrite app_nil_r).
  destruct (client_encrypt_ok (E:=unit) spub u secret ts) as (km & Hk & Hkl & Henc'). rewrite Henc in Henc'.
  rewrite Hk. cbn [unwrap mbind result_bind]. rewrite cut_key_material by done.
  destruct (seal _ _ _ _) as [c t]. injection Henc' as ->. done.
Qed.

(** The QUIC stream carries the same 72 bytes, and a status alone decides. *)
Lemma quic_auth_ok base64 args sk secret u text pk ts eph st rest :
  arg args (ascii_bytes "--pubkey") = Some pk -> base64 pk = Some (public_key sk) -> length sk = 32%nat ->
  wf_bytes u -> length u = 16%nat -> format_uuid (E:=unit) u = Ok text ->
  arg args (ascii_bytes "--uuid") = Some text -> length eph = 32%nat ->
  exists payload r', client_encrypt_uuid (E:=unit) (public_key sk) u secret ts = Ok (public_key secret, payload) /\
    quic_auth base64 args secret ts (reader (eph ++ [st] ++ rest)) =
      (if st =? 0 then Ok tt else Err tt, Sock r' (public_key secret ++ payload) true).
Proof.
  intros Hpk Hb Hsk Hu Hul Htext Huuid Heph.
  destruct (client_payload (E:=unit) (public_key sk) u secret ts Hul) as (payload & Henc & _).
  assert (Hclean : clean [Data (eph ++ [st] ++ rest)]).
  { apply Forall_cons_iff. split; [by destruct eph | by apply Forall_nil]. }
  destruct (read_exact_clean 33 [Data (eph ++ [st] ++ rest)] [] (public_key secret ++ payload) true (eph ++ [st]) rest)
    as (r1 & Hr1 & _ & _); [done | cbn [pending]; by rewrite app_nil_r, <- !app_assoc | by rewrite length_app, Heph |].
  rewrite !app_nil_r in Hr1. exists payload, r1. split; [done|]. unfold quic_auth. rewrite Hpk.
  rewrite (io_lift_ok _ _ _ _ (spk_ok (E:=unit) base64 pk (public_key sk) Hb (public_key_length sk Hsk))), Huuid.
  rewrite (io_lift_ok _ _ u) by (by eapply parse_format_uuid). rewrite (io_lift_ok _ _ _ _ Henc).
  rewrite (io_bind_ok _ _ _ tt (Sock [Data (eph ++ [st] ++ rest)] (public_key secret ++ payload) true)) by done.
  rewrite (io_bind_ok _ _ _ _ _ (io_map_err_ok _ _ _ _ _ Hr1)).
  rewrite (io_lift_ok _ _ st) by (rewrite idx_app_0 by done; done). done.
Qed.

(** The WebSocket transport authenticates like the others: with the same
    arguments, its own reading of the UUID and its inlined encryption give a
    72-byte message from which the server authenticates the user's UUID while
    the clocks agree to 15 seconds. *)
Theorem cdn_client_authenticates base64 args sk secret u text pk ts now ss :
  arg args (ascii_bytes "--pubkey") = Some pk -> base64 pk = Some (public_key sk) -> length sk = 32%nat ->
  wf_bytes u -> length u = 16%nat -> format_uuid (E:=client_error) u = Ok text ->
  arg args (ascii_bytes "--uuid") = Some text -> length secret = 32%nat ->
  0 <= ts < 2 ^ 64 -> Z.abs (now - ts) <= 15 ->
  exists msg, cdn_auth_message base64 args secret ts = Ok msg /\ length msg = 72%nat /\
    server_handshake sk (take 32 msg) (drop 32 msg) now ss
      = Ok {| uuid := text; server_ephemeral_pub := public_key ss |}.
Proof.
  intros Hpk Hb Hsk Hu Hul Htext Huuid Hsec Hts Hnow.
  destruct (client_payload_accepted (E:=unit) sk secret u text ts now ss Hu Hul Htext Hts Hnow) as (payload & Henc & Hpay & Hs).
  pose proof (public_key_length secret Hsec) as Hsl. exists (public_key secret ++ payload).
  split; [|split; [rewrite length_app; lia|]].
  - eapply cdn_auth_message_ok; try done; [by eapply cdn_uuid_format|by apply public_key_length].
  - rewrite <- Hsl. by rewrite take_app_length, drop_app_length.
Qed.
End auth_lemmas.

(** *** The WebSocket session *)

(** The data of a stream among the messages of the WebSocket, up to its close. *)
Fixpoint wanted (sid : Z) (inc : list bytes) : list bytes :=
  match inc with
  | [] => []
  | data :: rest =>
      match cdn_route data with
      | ToStream i d => if i =? sid then d :: wanted sid rest else wanted sid rest
      | CloseStream i => if i =? sid then [] else wanted sid rest
      | Ignored => wanted sid rest
      end
  end.
Definition not_closed (sid : Z) (data : bytes) : Prop := cdn_route data <> CloseStream sid.
#[export] Instance not_closed_dec sid data : Decision (not_closed sid data).
Proof. unfold not_closed. destruct (cdn_route data) as [i d|i|]; [by left| |by left]. destruct (decide (i = sid)) as [->|]; [right|left]; naive_solver. Defined.
(** Events that leave the client, or both peers, in place. *)
Definition client_stays (e : session_event) : bool := match e with ClientGone => false | _ => true end.
Definition undisturbed (e : session_event) : bool := match e with ClientGone | WsGone => false | _ => true end.
Definition close_tried (s : session) : bool := match at_stage s with Unregistering | Finished => true | _ => false end.

(** What a session has sent: the data frames before and after its close frame,
    whether that frame was sent, and what was read from the client and lost. *)
Record sending : Type := { before : list bytes; late : list bytes; closed : bool; lost : bytes }.
Record up_inv (sid : Z) (host : bytes) (port : Z) (c : sock) (h : sending) (s : session) : Prop := {
  sinv_ws : ws s = cdn_open_frame sid host port :: map (cdn_data_frame sid) (before h)
              ++ (if closed h then [cdn_close_frame sid] else []) ++ map (cdn_data_frame sid) (late h);
  sinv_late : closed h = false -> late h = [];
  sinv_closed : closed h = true -> close_tried s = true;
  sinv_wsopen : ws_open s = true -> lost h = [] /\ closed h = close_tried s;
  sinv_sent : pending (rx c) = concat (before h ++ late h) ++ lost h ++ pending (rx (client s));
  sinv_lost : up_live s = true -> lost h = [];
  sinv_clean : clean (rx c) -> clean (rx (client s)) /\ (up_live s = false -> ws_open s = true -> pending (rx (client s)) = [])
}.
(** What it has received: the data taken in, what of it will not be written, the data
    that came after the stream left the table, and whether the server closed it. *)
Record receiving : Type := { got : list bytes; gone : bytes; skipped : list bytes; rclosed : bool }.
Record down_inv (sid : Z) (c : sock) (inc : list bytes) (g : receiving) (s : session) : Prop := {
  dinv_in : wanted sid inc = got g ++ skipped g ++ (if rclosed g then [] else wanted sid (incoming s));
  dinv_out : (tx c ++ socks_success) ++ concat (got g) = tx (client s) ++ concat (chan s) ++ gone g ++ default [] (held s);
  dinv_gone : dn_live s = true -> gone g = [];
  dinv_dead : dn_live s = false -> chan s = [];
  dinv_skipped : at_stage s <> Finished -> skipped g = [];
  dinv_registered : registered s = false -> at_stage s = Finished \/ rclosed g = true;
  dinv_rclosed : rclosed g = true -> registered s = false;
  dinv_held : held s <> None -> registered s = true;
  dinv_finished : at_stage s = Finished -> registered s = false
}.
(** While the client stays, and while both peers stay and the server does not close. *)
Definition stays_inv (g : receiving) (s : session) : Prop :=
  tx_open (client s) = true /\ gone g = [] /\ (dn_live s = false -> registered s = false).
Definition calm_inv (sid : Z) (h : sending) (s : session) : Prop :=
  ws_open s = true /\ tx_open (client s) = true /\ Forall (not_closed sid) (incoming s) /\ (at_stage s <> Finished -> registered s = true) /\
  (at_stage s <> Relaying -> up_live s = false) /\ (dn_live s = false -> at_stage s = Finished) /\ late h = [].

(** What only the other direction does leaves an invariant alone. *)
Lemma up_inv_ext sid host port c h s s' : up_inv sid host port c h s ->
  ws s' = ws s -> ws_open s' = ws_open s -> rx (client s') = rx (client s) -> up_live s' = up_live s -> close_tried s' = close_tried s -> up_inv sid host port c h s'.
Proof. intros [H1 H2 H3 H4 H5 H6 H7] E1 E2 E3 E4 E5. by split; rewrite ?E1, ?E2, ?E3, ?E4, ?E5. Qed.
Lemma down_inv_ext sid c inc g s s' : down_inv sid c inc g s ->
  incoming s' = incoming s -> tx (client s') = tx (client s) -> chan s' = chan s -> held s' = held s -> dn_live s' = dn_live s ->
  (at_stage s' = Finished <-> at_stage s = Finished) -> registered s' = registered s -> down_inv sid c inc g s'.
Proof. intros [H1 H2 H3 H4 H5 H6 H7 H8 H9] E1 E2 E3 E4 E5 E6 E7. split; rewrite ?E1, ?E2, ?E3, ?E4, ?E5, ?E6, ?E7; done. Qed.

Lemma up_turn_inv sid host port c h s :
  up_live s = true -> up_inv sid host port c h s ->
  exists h', up_inv sid host port c h' (up_turn sid s) /\ (calm_inv sid h s -> calm_inv sid h' (up_turn sid s)).
Proof.
  intros Hup [H1 H2 H3 H4 H5 HL H8]. unfold up_turn.
  destruct (poll false CDN_BUF (rx (client s))) as [res r] eqn:Hp.
  assert (0 < CDN_BUF)%nat as Hcap by (unfold CDN_BUF; lia). specialize (HL Hup).
  assert (Hcl : clean (rx c) -> clean r /\ match res with Ok [] => pending r = [] | Ok _ => True | Err e => e = TimedOut | Panic => False end).
  { intros Hc. by apply (poll_clean false CDN_BUF (rx (client s))); [|apply H8|]. }
  assert (Hstop : pending r = pending (rx (client s)) -> (clean (rx c) -> pending r = []) ->
    exists h', up_inv sid host port c h' (set_up (ws s) r false s) /\ (calm_inv sid h s -> calm_inv sid h' (set_up (ws s) r false s))).
  { intros Hpr Hend. exists h. split; [|by intros (? & ? & ? & ? & ? & ? & ?)]. split; cbn; try done; [by rewrite Hpr|].
    intros Hc. split; [by apply Hcl|]. intros _ _. by apply Hend. }
  destruct res as [d|e|].
  - destruct (poll_data _ _ _ _ _ Hcap Hp) as [Hpd _]. destruct d as [|b d].
    { apply Hstop; [done|]. intros Hc. by apply Hcl. }
    destruct (ws_open s) eqn:Hws.
    + destruct (H4 eq_refl) as [_ Hcf]. destruct (closed h) eqn:Hclosed.
      * exists {| before := before h; late := late h ++ [b :: d]; closed := true; lost := [] |}. split.
        -- split; cbn [set_up ws ws_open client rx up_live before late closed lost]; try done; try (intros _; by split).
           ++ rewrite H1, map_app. cbn [map app]. by rewrite <- app_assoc.
           ++ rewrite H5, HL, Hpd, !concat_app. cbn [concat app]. by rewrite !app_nil_r, <- !app_assoc.
           ++ intros Hc. split; [by apply Hcl|done].
        -- intros (_ & _ & _ & _ & Hfu & _). rewrite Hfu in Hup; [done|]. unfold close_tried in Hcf. by destruct (at_stage s).
      * exists {| before := before h ++ [b :: d]; late := []; closed := false; lost := [] |}. rewrite (H2 eq_refl) in *. split.
        -- split; cbn [set_up ws ws_open client rx up_live before late closed lost]; try done; try (intros _; by split).
           ++ rewrite H1, map_app. cbn [map app]. by rewrite !app_nil_r.
           ++ rewrite H5, HL, Hpd, !app_nil_r, concat_app. cbn [concat app]. by rewrite app_nil_r, <- app_assoc.
           ++ intros Hc. split; [by apply Hcl|done].
        -- intros (? & ? & ? & ? & Hfu & ? & _). repeat split; try done. cbn. intros Hr. by rewrite Hfu in Hup.
    + exists {| before := before h; late := late h; closed := closed h; lost := b :: d |}. split; [|by intros (? & _); congruence].
      split; cbn [set_up ws ws_open client rx up_live before late closed lost]; rewrite ?Hws; try done; [by rewrite H5, HL, Hpd|].
      intros Hc. split; [by apply Hcl|done].
  - destruct (poll_err _ _ _ _ _ Hp) as [Hpd _]. apply Hstop; [done|]. intros Hc.
    destruct (Hcl Hc) as [_ ->]. exfalso. by eapply (poll_blocks _ _ _ Hp).
  - exfalso. pose proof (poll_no_panic false CDN_BUF (rx (client s))) as Hn. by rewrite Hp in Hn.
Qed.
Lemma main_turn_inv sid host port c h s :
  up_inv sid host port c h s ->
  exists h', up_inv sid host port c h' (main_turn sid s) /\ (calm_inv sid h s -> calm_inv sid h' (main_turn sid s)).
Proof.
  intros Hi. unfold main_turn. destruct (at_stage s) eqn:Hg.
  - exists h. destruct (up_live s && dn_live s) eqn:Hl; [done|]. split; [eapply up_inv_ext; try done; unfold close_tried; cbn; by rewrite Hg|].
    intros (? & ? & ? & Hr & ? & Hd & ?). split_and!; try done; cbn; [intros _; apply Hr; congruence|intros _|intros Hd'; specialize (Hd Hd'); congruence].
    apply andb_false_iff in Hl as [?|Hl]; [done|]. specialize (Hd Hl). congruence.
  - destruct Hi as [H1 H2 H3 H4 H5 HL H8]. unfold close_tried in *. rewrite Hg in *. assert (closed h = false) as Hcl by (by destruct (closed h); [specialize (H3 eq_refl)|]).
    pose proof (H2 Hcl) as Hlate. rewrite Hcl, Hlate in *. rewrite app_nil_r in H5.
    exists {| before := before h; late := []; closed := ws_open s; lost := lost h |}. split.
    + split; cbn; try done; [rewrite H1; cbn [map app]; by destruct (ws_open s); rewrite !app_nil_r|intros Ho; split; [by apply H4|done]|by rewrite app_nil_r].
    + intros (? & ? & ? & Hr & Hu & Hd & ?). split_and!; try done; cbn; [intros _; apply Hr; congruence|intros _; apply Hu; congruence|intros Hd'; specialize (Hd Hd'); congruence].
  - exists h. destruct (held s); [done|]. split; [eapply up_inv_ext; try done; unfold close_tried; cbn; by rewrite Hg|].
    intros (? & ? & ? & Hr & Hu & Hd & ?). split_and!; try done; cbn; intros _; apply Hu; congruence.
  - by exists h.
Qed.
Lemma reader_turn_inv sid c inc g s :
  down_inv sid c inc g s ->
  exists g', down_inv sid c inc g' (reader_turn sid s) /\ (stays_inv g s -> stays_inv g' (reader_turn sid s)) /\
    forall h, calm_inv sid h s -> calm_inv sid h (reader_turn sid s).
Proof.
  intros Hi. pose proof Hi as [H1 H2 H3 H4 H5 H6 H7 H8 H9]. unfold reader_turn. destruct (held s) as [d|] eqn:Hh.
  { specialize (H8 ltac:(done)). destruct (dn_live s) eqn:Hd; cbn [negb].
    - destruct (_ <? _)%nat; [|by exists g]. exists g. split; [|done]. split; cbn; rewrite ?Hd; try done.
      rewrite H2, (H3 eq_refl), concat_app. cbn. by rewrite !app_nil_r.
    - exists {| got := got g; gone := gone g ++ d; skipped := skipped g; rclosed := rclosed g |}. split; [|split; [|done]].
      + split; cbn; rewrite ?Hd; try done. rewrite H2. cbn. by rewrite app_nil_r.
      + intros (_ & _ & Hs). specialize (Hs Hd). congruence. }
  destruct (incoming s) as [|data rest] eqn:Hinc; [by exists g|].
  assert (forall h hd reg, (registered s = true -> not_closed sid data -> reg = true) -> calm_inv sid h s -> calm_inv sid h (set_reader rest hd (chan s) reg s)) as Hcalm.
  { intros h hd reg Hreg (? & ? & Hf & Hr & ? & ? & ?). rewrite Hinc in Hf. apply Forall_cons_iff in Hf as [Hf1 Hf]. split_and!; try done. intros Hg. by apply Hreg; [apply Hr|]. }
  assert (forall g' hd reg, gone g' = gone g -> (registered s = false -> reg = false) -> stays_inv g s -> stays_inv g' (set_reader rest hd (chan s) reg s)) as Hst.
  { intros g' hd reg Hgo Hreg (? & ? & Hs). split_and!; try done; [by rewrite Hgo|]. intros Hq. by apply Hreg, Hs. }
  cbn [wanted] in H1. destruct (cdn_route data) as [i d|i|] eqn:Hroute; [destruct (Z.eqb_spec i sid) as [->|Hne]; [destruct (registered s) eqn:Hr|]|destruct (Z.eqb_spec i sid) as [->|Hne]|]; cbn [andb].
  - assert (rclosed g = false) as Hrc by (destruct (rclosed g); [specialize (H7 eq_refl); congruence|done]).
    assert (skipped g = []) as Hsk by (apply H5; intros Hg; specialize (H9 Hg); congruence).
    exists {| got := got g ++ [d]; gone := gone g; skipped := []; rclosed := false |}. rewrite Hrc, Hsk in H1. split; [|split; [apply Hst; (done || congruence)|intros h; apply Hcalm; (done || (intros; congruence))]].
    split; cbn; rewrite ?Hr; try done; [by rewrite H1, <- app_assoc|]. rewrite concat_app, app_assoc, H2. cbn. by rewrite !app_nil_r, <- !app_assoc.
  - destruct (H6 eq_refl) as [Hg|Hrc].
    + exists {| got := got g; gone := gone g; skipped := skipped g ++ (if rclosed g then [] else [d]); rclosed := rclosed g |}. split; [|split; [apply Hst; (done || congruence)|intros h; apply Hcalm; (done || (intros; congruence))]].
      split; cbn; rewrite ?Hr; try done. rewrite H1. f_equal. rewrite <- app_assoc. f_equal. by destruct (rclosed g).
    + exists g. split; [|split; [apply Hst; (done || congruence)|intros h; apply Hcalm; (done || (intros; congruence))]]. rewrite Hrc in H1. split; cbn; rewrite ?Hr, ?Hrc; try done; by right.
  - exists g. split; [|split; [apply Hst; (done || congruence)|intros h; apply Hcalm; (done || (intros; congruence))]]. by split.
  - exists {| got := got g; gone := gone g; skipped := skipped g; rclosed := true |}. split; [|split; [by apply Hst|intros h; apply Hcalm; unfold not_closed; congruence]].
    split; cbn; try done; [by destruct (rclosed g)|by right].
  - exists g. split; [|split; [apply Hst; (done || congruence)|intros h; apply Hcalm; (done || (intros; congruence))]]. by split.
  - exists g. split; [|split; [apply Hst; (done || congruence)|intros h; apply Hcalm; (done || (intros; congruence))]]. by split.
Qed.
Lemma down_turn_inv sid c inc g s :
  dn_live s = true -> down_inv sid c inc g s ->
  exists g', down_inv sid c inc g' (down_turn s) /\ (stays_inv g s -> stays_inv g' (down_turn s)) /\ forall h, calm_inv sid h s -> calm_inv sid h (down_turn s).
Proof.
  intros Hdn [H1 H2 H3 H4 H5 H6 H7 H8 H9]. unfold down_turn. specialize (H3 Hdn). destruct (chan s) as [|d rest] eqn:Hc.
  - exists g. split; [by split|]. split; [intros (? & ? & ?); split_and!; try done; cbn; by destruct (registered s)|].
    intros h (? & ? & ? & Hr & ? & Hd & ?). split_and!; try done. cbn. intros Hreg. destruct (decide (at_stage s = Finished)) as [|Hg]; [done|]. specialize (Hr Hg). congruence.
  - unfold write_all. destruct (tx_open (client s)) eqn:Ho; cbn [is_ok].
    + exists g. split; [|split; [by intros (? & ? & ?)|by intros h (? & ? & ? & ? & ? & ? & ?)]]. split; cbn; try done. rewrite H2. cbn [concat]. by rewrite <- !app_assoc.
    + exists {| got := got g; gone := concat (d :: rest); skipped := skipped g; rclosed := rclosed g |}.
      split; [|split; [by intros (? & _); congruence|by intros h (_ & ? & _); congruence]].
      split; cbn [set_down incoming client tx chan held dn_live at_stage registered got gone skipped rclosed]; try done. by rewrite H2, H3.
Qed.
Lemma main_turn_down sid c inc g s :
  down_inv sid c inc g s -> down_inv sid c inc g (main_turn sid s) /\ (stays_inv g s -> stays_inv g (main_turn sid s)).
Proof.
  intros Hi. unfold main_turn. destruct (at_stage s) eqn:Hg; [destruct (up_live s && dn_live s)| |destruct (held s) eqn:Hh|]; try done.
  1,2: split; [eapply down_inv_ext; try done; cbn; rewrite Hg; by split|by intros (? & ? & ?)].
  destruct Hi as [H1 H2 H3 H4 H5 H6 H7 H8 H9]. split; [|by intros (? & ? & ?)]. split; cbn; rewrite ?Hh; try done; [by rewrite H2, Hh|by left].
Qed.
Lemma up_turn_down sid c inc g s :
  down_inv sid c inc g s -> down_inv sid c inc g (up_turn sid s) /\ (stays_inv g s -> stays_inv g (up_turn sid s)).
Proof. intros Hi. unfold up_turn. destruct (poll _ _ _) as [[[|b d]|e|] r]; (split; [by eapply down_inv_ext|by intros (? & ? & ?)]). Qed.

(** All of it, for one event. *)
Lemma session_step_inv sid host port c inc h g s e :
  up_inv sid host port c h s -> down_inv sid c inc g s ->
  exists h' g', up_inv sid host port c h' (session_step sid s e) /\ down_inv sid c inc g' (session_step sid s e) /\
    (client_stays e = true -> stays_inv g s -> stays_inv g' (session_step sid s e)) /\
    (undisturbed e = true -> calm_inv sid h s -> calm_inv sid h' (session_step sid s e)).
Proof.
  intros Hu Hd. destruct e; cbn [session_step].
  - destruct (reader_turn_inv sid c inc g s Hd) as (g' & H1 & H2 & H3). exists h, g'. split; [|split; [done|split; [done|by intros _; apply H3]]].
    unfold reader_turn. repeat case_match; try done; by eapply up_inv_ext.
  - destruct (up_live s) eqn:Hl; [|by exists h, g]. destruct (up_turn_inv sid host port c h s Hl Hu) as (h' & H1 & H2). destruct (up_turn_down sid c inc g s Hd) as [H3 H4]. exists h', g. auto.
  - destruct (dn_live s) eqn:Hl; [|by exists h, g]. destruct (down_turn_inv sid c inc g s Hl Hd) as (g' & H1 & H2 & H3). exists h, g'. split; [|auto].
    unfold down_turn. destruct (chan s); [by eapply up_inv_ext|]. unfold write_all. destruct (tx_open (client s)); by eapply up_inv_ext.
  - destruct (main_turn_inv sid host port c h s Hu) as (h' & H1 & H2). destruct (main_turn_down sid c inc g s Hd) as [H3 H4]. exists h', g. auto.
  - exists h, g. split; [by eapply up_inv_ext|]. split; [by eapply down_inv_ext|done].
  - exists h, g. split; [|split; [by eapply down_inv_ext|done]]. destruct Hu as [H1 H2 H3 H4 H5 HL H8]. split; cbn; try done. intros Hc. by destruct (H8 Hc).
Qed.
Lemma session_run_inv sid host port c inc es :
  tx_open c = true -> let s := session_run sid (session_start sid host port inc true c) es in
  exists h g, up_inv sid host port c h s /\ down_inv sid c inc g s /\ (forallb client_stays es = true -> stays_inv g s) /\
    (forallb undisturbed es = true -> Forall (not_closed sid) inc -> calm_inv sid h s).
Proof.
  intros Ho. cbv zeta. unfold session_run. induction es as [|e es IH] using rev_ind.
  - exists {| before := []; late := []; closed := false; lost := [] |}, {| got := []; gone := []; skipped := []; rclosed := false |}.
    unfold session_start, write_all. rewrite Ho. cbn [is_ok fold_left]. split; [by split|]. split; [split; cbn; rewrite ?app_nil_r; try done|]. by split.
  - destruct IH as (h & g & Hu & Hd & Hs & Hc). rewrite fold_left_app. cbn [fold_left]. destruct (session_step_inv sid host port c inc h g _ e Hu Hd) as (h' & g' & H1 & H2 & H3 & H4).
    exists h', g'. split; [done|]. split; [done|]. rewrite !forallb_app. cbn [forallb]. split.
    + intros [Ha Hb]%andb_prop. rewrite andb_true_r in Hb. auto.
    + intros [Ha Hb]%andb_prop Hn. rewrite andb_true_r in Hb. auto.
Qed.


(** What the client sends the reader understands: the frames of a stream that come
    back are routed to it. *)
Lemma cdn_route_data sid d : 0 <= sid < 2 ^ 32 -> cdn_route (cdn_data_frame sid d) = ToStream sid d.
Proof.
  intros Hs. unfold cdn_route. replace (length (cdn_data_frame sid d) <? 8)%nat with false by done.
  replace (take 4 (drop 2 _)) with (be_encode 4 sid) by done. by rewrite (be_decode_encode_4 sid Hs).
Qed.
Lemma cdn_route_close sid : 0 <= sid < 2 ^ 32 -> cdn_route (cdn_close_frame sid) = CloseStream sid.
Proof.
  intros Hs. unfold cdn_route. replace (length (cdn_close_frame sid) <? 8)%nat with false by done.
  replace (take 4 (drop 2 _)) with (be_encode 4 sid) by done. by rewrite (be_decode_encode_4 sid Hs).
Qed.

Lemma reader_closes sid s m rest : held s = None -> incoming s = m :: rest -> cdn_route m = CloseStream sid -> reader_turn sid s = set_reader rest None (chan s) false s.
Proof. intros Hh Hi Hr. unfold reader_turn. by rewrite Hh, Hi, Hr, Z.eqb_refl. Qed.
Lemma reader_skips sid s m rest d : held s = None -> incoming s = m :: rest -> cdn_route m = ToStream sid d -> registered s = false -> reader_turn sid s = set_reader rest None (chan s) false s.
Proof. intros Hh Hi Hr Hg. unfold reader_turn. by rewrite Hh, Hi, Hr, Z.eqb_refl, Hg. Qed.
(** When the server closes a stream first, as when the proxy's client
    disappears, the downstream task ends and the upstream task is detached, not
    stopped: it goes on sending data frames for the stream after its close
    frame. *)
Theorem cdn_data_after_close sid host port d :
  0 <= sid < 2 ^ 32 -> d <> [] -> (length d <= CDN_BUF)%nat ->
  let s := session_run sid (session_start sid host port [cdn_close_frame sid] true (reader d)) [Reader; Down; Main; Main; Up] in
  ws s = [cdn_open_frame sid host port; cdn_close_frame sid; cdn_data_frame sid d].
Proof.
  intros Hs Hd Hl. cbv zeta. unfold session_run, session_start, write_all, reader. cbn [fold_left session_step tx_open rx tx is_ok].
  rewrite (reader_closes sid _ (cdn_close_frame sid) []) by (done || by apply cdn_route_close). cbn -[cdn_open_frame cdn_close_frame cdn_data_frame CDN_BUF Nat.leb up_turn].
  unfold up_turn. cbn [rx client set_main set_down set_reader poll]. rewrite (proj2 (Nat.leb_le _ _) Hl). by destruct d.
Qed.
(** Once the client has sent its last byte the session leaves the table, and what the
    server still sends is not delivered, although the client would take it: a stream
    cannot be closed in one direction only. *)
Theorem cdn_half_close_drops sid host port d :
  0 <= sid < 2 ^ 32 ->
  let s := session_run sid (session_start sid host port [cdn_data_frame sid d] true (Sock [] [] true)) [Up; Main; Main; Main; Reader; Down] in
  tx (client s) = socks_success /\ incoming s = [] /\ tx_open (client s) = true /\ wanted sid [cdn_data_frame sid d] = [d].
Proof.
  intros Hs. cbv zeta. cbn [wanted]. rewrite (cdn_route_data sid d Hs), Z.eqb_refl. unfold session_run, session_start, write_all. cbn [fold_left session_step tx_open rx tx is_ok].
  unfold up_turn. cbn -[cdn_open_frame cdn_close_frame cdn_data_frame CDN_BUF reader_turn]. rewrite (reader_skips sid _ (cdn_data_frame sid d) [] d) by (done || by apply cdn_route_data).
  cbn -[cdn_open_frame cdn_close_frame cdn_data_frame CDN_BUF]. by split_and!.
Qed.

(** *** Start-up *)

Lemma first_up_spec up servers :
  match first_up up servers with
  | Some s => exists l1 l2, servers = l1 ++ s :: l2 /\ up s = true /\ Forall (fun x => up x = false) l1
  | None => Forall (fun x => up x = false) servers
  end.
Proof.
  induction servers as [|s servers IH]; cbn [first_up]; [by apply Forall_nil|]. destruct (up s) eqn:Hs.
  - exists [], servers. split; [done|]. split; [done|]. by apply Forall_nil.
  - destruct (first_up up servers) as [t|].
    + destruct IH as (l1 & l2 & -> & Ht & Hl). exists (s :: l1), l2. split; [done|]. split; [done|]. by apply Forall_cons.
    + by apply Forall_cons.
Qed.

Lemma tcp_servers_up up sa extra s :
  first_up up (tcp_servers sa extra) = Some s ->
  exists l1 l2, tcp_servers sa extra = l1 ++ s :: l2 /\ up s = true /\ Forall (fun x => up x = false) l1 /\
    (s = sa \/ up sa = false).
Proof.
  intros H. pose proof (first_up_spec up (tcp_servers sa extra)) as Hs. rewrite H in Hs.
  destruct Hs as (l1 & l2 & Heq & Hup & Hl). exists l1, l2. repeat (split; [done|]).
  destruct l1 as [|x l1]; injection Heq as -> _; [by left|right]. by apply Forall_cons_iff in Hl as [? _].
Qed.

Lemma replace_skip fuel p new host t :
  colon ∉ host -> (length host <= fuel)%nat ->
  replace_fuel fuel (colon :: p) new (host ++ t) = host ++ replace_fuel (fuel - length host) (colon :: p) new t.
Proof.
  revert fuel. induction host as [|b host IH]; intros fuel Hh Hf; [cbn; by rewrite Nat.sub_0_r|].
  apply not_elem_of_cons in Hh as [Hb Hh]. destruct fuel as [|fuel]; [cbn in Hf; lia|].
  cbn [replace_fuel app starts_with]. rewrite (proj2 (Z.eqb_neq _ _) Hb). cbn [andb length Nat.sub].
  rewrite IH; [done|done|cbn in Hf; lia].
Qed.
Lemma str_replace_port host p q new :
  colon ∉ host -> length p = 4%nat -> (length q = 4)%nat -> colon ∉ q ->
  str_replace (colon :: p) new (host ++ colon :: q) = host ++ if bool_decide (p = q) then new else colon :: q.
Proof.
  intros Hh Hp Hq Hc. unfold str_replace. rewrite replace_skip by (done || rewrite length_app; lia). f_equal.
  rewrite length_app. cbn [length]. replace (length host + S (length q) - length host)%nat with 5%nat by lia.
  destruct q as [|a [|b [|c [|d [|? ?]]]]]; try done. destruct p as [|a' [|b' [|c' [|d' [|? ?]]]]]; try done.
  rewrite !not_elem_of_cons in Hc. destruct Hc as (Ha & Hb & Hcc & Hd & _).
  cbn [replace_fuel starts_with length drop app]. rewrite Z.eqb_refl.
  rewrite (proj2 (Z.eqb_neq colon a)), (proj2 (Z.eqb_neq colon b)), (proj2 (Z.eqb_neq colon c)), (proj2 (Z.eqb_neq colon d)) by done.
  cbn [andb skipn]. destruct (Z.eqb_spec a' a) as [->|]; [|rewrite bool_decide_eq_false_2 by congruence; done].
  destruct (Z.eqb_spec b' b) as [->|]; [|rewrite bool_decide_eq_false_2 by congruence; done].
  destruct (Z.eqb_spec c' c) as [->|]; [|rewrite bool_decide_eq_false_2 by congruence; done].
  destruct (Z.eqb_spec d' d) as [->|]; [|rewrite bool_decide_eq_false_2 by congruence; done].
  rewrite bool_decide_eq_true_2 by done. cbn [andb]. by rewrite app_nil_r.
Qed.

(** The server that the fall-back from QUIC asks for. *)
Lemma fallback_port host q :
  colon ∉ host -> q = ascii_bytes "9446" \/ q = ascii_bytes "9444" ->
  str_replace (ascii_bytes ":9444") (ascii_bytes ":9443") (str_replace (ascii_bytes ":9446") (ascii_bytes ":9443") (host ++ colon :: q))
  = host ++ ascii_bytes ":9443".
Proof.
  intros Hh [->| ->].
  - change (ascii_bytes ":9446") with (colon :: ascii_bytes "9446"). rewrite str_replace_port; [|done|done|done|by apply (bool_decide_unpack _)].
    change (if bool_decide _ then ascii_bytes ":9443" else _) with (colon :: ascii_bytes "9443").
    change (ascii_bytes ":9444") with (colon :: ascii_bytes "9444").
    by rewrite str_replace_port; [|done|done|done|apply (bool_decide_unpack _)].
  - change (ascii_bytes ":9446") with (colon :: ascii_bytes "9446"). rewrite str_replace_port; [|done|done|done|by apply (bool_decide_unpack _)].
    change (if bool_decide _ then ascii_bytes ":9443" else _) with (colon :: ascii_bytes "9444").
    change (ascii_bytes ":9444") with (colon :: ascii_bytes "9444").
    by rewrite str_replace_port; [|done|done|done|apply (bool_decide_unpack _)].
Qed.

(** [main] gives up only when nothing it was told about answers: a shim is run
    exactly on request; QUIC mode runs on a server that answered; TCP mode runs
    on the first server of its list that accepts, all earlier ones having
    failed, but opens its raw connections to the head of the list even when that
    server has failed; the WebSocket is used only when every TCP server has failed, and
    "all servers unreachable" is reported only then and without a CDN address. *)
Theorem startup_fallback args r quic_up tcp_up :
  let extra := arg args (ascii_bytes "--extra-servers") in
  match startup args r quic_up tcp_up with
  | ShimMode _ upstream => arg args (ascii_bytes "--upstream-socks") = Some upstream
  | QuicMode server => arg args (ascii_bytes "--protocol") = Some (ascii_bytes "quic") /\ quic_up server = true
  | TcpMode server sa => exists l1 l2,
      tcp_servers sa extra = l1 ++ server :: l2 /\ tcp_up server = true /\ Forall (fun x => tcp_up x = false) l1 /\
      (server = sa \/ tcp_up sa = false)
  | CdnMode url sa => arg args (ascii_bytes "--cdn-url") = Some url /\ Forall (fun x => tcp_up x = false) (tcp_servers sa extra)
  | AllUnreachable => arg args (ascii_bytes "--cdn-url") = None /\
      exists sa, Forall (fun x => tcp_up x = false) (tcp_servers sa extra)
  end.
Proof.
  cbn zeta. unfold startup. destruct (arg args (ascii_bytes "--upstream-socks")) as [up|]; [done|].
  set (sa := match arg args (ascii_bytes "--ports") with Some _ => _ | None => _ end).
  destruct (bool_decide (_ = ascii_bytes "quic")) eqn:Hq; cbn [andb].
  - apply bool_decide_eq_true in Hq. destruct (quic_up sa) eqn:Hs.
    + split; [|done]. destruct (arg args (ascii_bytes "--protocol")) as [pr|]; [|done]. cbn in Hq. by rewrite Hq.
    + match goal with |- context [first_up tcp_up (tcp_servers ?x _)] => set (sb := x) end.
      pose proof (first_up_spec tcp_up (tcp_servers sb (arg args (ascii_bytes "--extra-servers")))) as H.
      destruct (first_up _ _) eqn:Hf; [by apply tcp_servers_up|]. destruct (arg args (ascii_bytes "--cdn-url")); [done|]. split; [done|by exists sb].
  - pose proof (first_up_spec tcp_up (tcp_servers sa (arg args (ascii_bytes "--extra-servers")))) as H.
    destruct (first_up _ _) eqn:Hf; [by apply tcp_servers_up|]. destruct (arg args (ascii_bytes "--cdn-url")); [done|]. split; [done|by exists sa].
Qed.

(** *** Proxied connections and tasks *)

Lemma send_streams p i f : pool_streams (send p i f).2 = pool_streams p.
Proof. unfold send. destruct (links p !! i) as [l|]; [|done]. unfold link_send. by destruct (link_open l). Qed.
Lemma open_stream_streams p t d :
  pool_streams (open_stream p t d).2 =
    <[next_id p := if is_ok (open_stream p t d).1 then new_channel else dropped]> (pool_streams p).
Proof.
  unfold open_stream. set (p1 := set_table _ _).
  assert (Hdrop : forall q, pool_streams q = pool_streams p1 -> pool_streams (drop_rx q (next_id p)) = <[next_id p := dropped]> (pool_streams p)).
  { intros q Hq. cbn. rewrite Hq. cbn. by rewrite alter_insert_eq. }
  match goal with |- context [match ?x with Ok _ => _ | Err _ => _ | Panic => _ end] => destruct x as [[i f]|e|] end;
    [|cbn [fst snd is_ok]; by rewrite (Hdrop p1)|cbn [fst snd is_ok]; by rewrite (Hdrop p1)].
  pose proof (send_streams p1 i (encode f)) as Hs. destruct (send p1 i (encode f)) as [[] p2]; cbn [fst snd is_ok] in *; [exact Hs|].
  by rewrite (Hdrop p2).
Qed.
Lemma send_frame p i f : server_addr (send p i f).2 = server_addr p /\ session_token (send p i f).2 = session_token p.
Proof. unfold send. destruct (links p !! i) as [l|]; [|done]. unfold link_send. by destruct (link_open l). Qed.
Lemma open_stream_frame p t d :
  server_addr (open_stream p t d).2 = server_addr p /\ session_token (open_stream p t d).2 = session_token p.
Proof.
  unfold open_stream. set (p1 := set_table _ _).
  match goal with |- context [match ?x with Ok _ => _ | Err _ => _ | Panic => _ end] => destruct x as [[i f]|e|] end; [|done|done].
  pose proof (send_frame p1 i (encode f)) as Hs. destruct (send p1 i (encode f)) as [[] p2]; exact Hs.
Qed.
Lemma open_stream_ok n p t d l :
  n <> 0%nat -> pool_inv n p -> padding_draw 4 128 (pad_len d) (pad_noise d) ->
  link_for (E:=client_error) p (next_id p) = Ok l -> link_open l = true ->
  (open_stream p t d).1 = Ok (next_id p).
Proof.
  intros Hn [H1 _ _ _] Hd Hl Hc. unfold link_for, link_index in Hl. rewrite H1, (proj2 (Nat.eqb_neq _ _) Hn) in Hl.
  cbn [mbind result_bind] in Hl. unfold open_stream, link_index. cbn [links set_table set_next_id]. rewrite H1, (proj2 (Nat.eqb_neq _ _) Hn).
  cbn [mbind result_bind]. destruct (with_padding_ok (E:=client_error) _ _ (stream_open (next_id p) t) 4 128 Hd) as (padding & -> & _).
  cbn [mbind result_bind]. unfold send. cbn [links set_table set_next_id].
  destruct (links p !! _) as [l'|] eqn:Hlk; [|done]. cbn in Hl. injection Hl as <-. unfold link_send. rewrite Hc. done.
Qed.

(** A proxied connection over TCP: when the stream opens, the server confirms
    it and the raw connection stands, that connection starts with the session
    token and the stream's identifier in big-endian order, 20 bytes that name
    the stream uniquely, and only then is the client told of success. *)
Theorem handle_socks5_binds_stream n p t d l connect data c :
  n <> 0%nat -> pool_inv n p -> padding_draw 4 128 (pad_len d) (pad_noise d) ->
  link_for (E:=client_error) p (next_id p) = Ok l -> link_open l = true ->
  length (session_token p) = 16%nat -> connect (server_addr p) = Some data -> tx_open data = true -> tx_open c = true ->
  let key := session_token p ++ be_encode 4 (next_id p) in
  (handle_socks5 p t d true connect c).1 =
    Ok (Sock (rx data) (tx data ++ key) true, Sock (rx c) (tx c ++ socks_success) true) /\
  be_decode (drop 16 key) = next_id p.
Proof.
  intros Hn Hinv Hd Hl Hlo Ht Hdata Hdo Hco. pose proof (open_stream_ok n p t d l Hn Hinv Hd Hl Hlo) as Hop.
  pose proof (open_stream_frame p t d) as [Hsa Htok].
  pose proof (pinv_next n p Hinv) as [Hid _]. unfold handle_socks5. destruct (open_stream p t d) as [r p']. cbn [fst snd] in *. subst r.
  rewrite Hsa, Htok, Hdata. cbn [map_err ensure ok_or mbind result_bind fst].
  assert (data_key (E:=handle_error) (session_token p) (next_id p) = Ok (session_token p ++ be_encode 4 (next_id p))) as ->.
  { unfold data_key. rewrite copy_into_ok by (cbn; lia). cbn [mbind result_bind].
    change (take 0 (replicate 20 0) ++ session_token p ++ drop 16 (replicate 20 0)) with (session_token p ++ replicate 4 0).
    rewrite copy_into_ok; [|rewrite length_app, length_replicate; lia|rewrite be_encode_length; lia].
    rewrite take_app_le, take_ge, drop_ge by (rewrite ?length_app, ?length_replicate; lia). by rewrite app_nil_r. }
  cbn [mbind result_bind]. unfold write_all. rewrite Hdo, Hco. cbn [map_err mbind result_bind fst].
  split; [done|]. rewrite <- Ht, drop_app_length. by apply be_decode_encode_4.
Qed.

(** No path of the TCP handler frees its stream: whatever happens to the
    connection, its entry is in the table when the handler returns, so that the
    table holds one entry for every connection ever accepted. *)
Theorem tcp_streams_never_freed p t d ready connect c :
  pool_streams (handle_socks5 p t d ready connect c).2 = <[next_id p := dropped]> (pool_streams p).
Proof.
  unfold handle_socks5. pose proof (open_stream_streams p t d) as Hs.
  assert (Hid : forall sid, (open_stream p t d).1 = Ok sid -> sid = next_id p).
  { intros sid. unfold open_stream. match goal with |- context [match ?x with Ok _ => _ | Err _ => _ | Panic => _ end] => destruct x as [[i f]|e|] end; [|done|done].
    destruct (send _ _ _) as [[] p2]; cbn; congruence. }
  destruct (open_stream p t d) as [[sid|e|] p']; cbn [fst snd is_ok] in *; [|exact Hs|exact Hs].
  rewrite (Hid sid eq_refl). cbn. rewrite Hs. by rewrite alter_insert_eq.
Qed.

(** The writer's batching does not show on the wire. *)
Lemma drain_ok batch s :
  tx_open s = true -> drain batch s = Sock (rx s) (tx s ++ concat batch) true.
Proof.
  revert s. induction batch as [|f batch IH]; intros s Ho; cbn [drain concat].
  - rewrite app_nil_r. destruct s; cbn in *; by subst.
  - unfold write_all. rewrite Ho, IH by done. cbn [rx tx]. by rewrite app_assoc.
Qed.
Lemma writer_turn_ok batch s :
  tx_open s = true -> writer_turn batch s = (true, Sock (rx s) (tx s ++ concat batch) true).
Proof.
  intros Ho. destruct batch as [|f batch]; cbn [writer_turn concat].
  - rewrite app_nil_r. destruct s; cbn in *; by subst.
  - unfold write_all. rewrite Ho, drain_ok by done. cbn. by rewrite app_assoc.
Qed.
Lemma writer_task_ok batches s :
  tx_open s = true -> writer_task batches s = Sock (rx s) (tx s ++ concat (concat batches)) true.
Proof.
  revert s. induction batches as [|b batches IH]; intros s Ho; cbn [writer_task concat].
  - rewrite app_nil_r. destruct s; cbn in *; by subst.
  - rewrite writer_turn_ok, IH by done. cbn [rx tx]. by rewrite concat_app, app_assoc.
Qed.

(** The multiplexed link is a faithful pipe: frames queued on it in any batches
    leave the writer task, and, arriving in any pieces, are read by the peer's
    decoder as the same frames in the same order. *)
Theorem link_carries_frames batches fs s r :
  tx_open s = true -> tx s = [] -> concat batches = map encode fs ->
  Forall (fun f => wf_frame f /\ unpadded f) fs ->
  clean r -> pending r = tx (writer_task batches s) ->
  exists r', decode_frames (length fs) (Sock r [] true) = (Ok fs, Sock r' [] true).
Proof.
  intros Ho Hs Hb Hfs Hc Hp. rewrite writer_task_ok in Hp by done. cbn [tx] in Hp. rewrite Hs, Hb in Hp.
  cbn [app] in Hp. rewrite <- flat_map_concat_map in Hp.
  destruct (decode_frames_encode fs r [] [] true Hfs Hc Hp) as (r' & _ & _ & Hd). rewrite !app_nil_r in Hd. by exists r'.
Qed.

(** The monitor restores a live connection: after one turn the connection in
    use is live if it was, if a backup is, or if one of the [n] servers accepts
    within [n] attempts; the backups it keeps are some of those it had. *)
Theorem monitor_restores {A} (live : A -> bool) up connect n i m :
  (i < n)%nat -> (forall k, up k i = true) -> (forall k, up k k = true -> live (connect k) = true) ->
  exists m', monitor_turn n live up connect n m = Some m' /\ live (current m') = true /\
    backups m' `sublist_of` backups m.
Proof.
  intros Hi Hup Hconn. unfold monitor_turn. destruct (live (current m)) eqn:Hl; [by exists m|].
  pose proof (take_live_spec live (backups m)) as Ht. destruct (take_live live (backups m)) as [[b rest]|].
  - destruct Ht as (l1 & l2 & -> & -> & Hb & _). eexists. split; [done|]. split; [done|]. cbn.
    apply sublist_app; [done|]. by apply sublist_cons.
  - destruct (first_success (fun k => up k k) i (Hup i)) as (k & Hk & Hu & Hd).
    assert (backoff n 0 = 1) as Hb by (unfold backoff; by rewrite Zdiv_0_l). rewrite <- Hb.
    rewrite (reconnect_spec n up n 0 k); [|lia|lia|intros j Hj; rewrite Nat.mod_small by lia; apply Hd; lia
      |rewrite Nat.add_0_l, Nat.mod_small by lia; done].
    rewrite Nat.add_0_l, Nat.mod_small by lia. eexists. split; [done|]. split; [by apply Hconn|done].
Qed.

(** ** Witnesses *)

Lemma cdn_client_authenticates_witness :
  exists msg, cdn_auth_message (H0:=toy_x25519) (H1:=toy_hkdf) (H2:=toy_aead) (fun _ => Some (ex_key 7))
      [ascii_bytes "--uuid"; ex_uuid_text; ascii_bytes "--pubkey"; [65]] (ex_key 9) 1700000000 = Ok msg /\ length msg = 72%nat.
Proof.
  destruct (cdn_client_authenticates (HL:=std_hex_laws) (XL:=toy_x25519_laws) (KL:=toy_hkdf_laws) (AL:=toy_aead_laws)
    (fun _ => Some (ex_key 7)) [ascii_bytes "--uuid"; ex_uuid_text; ascii_bytes "--pubkey"; [65]]
    (ex_key 7) (ex_key 9) (seqZ 1 16) ex_uuid_text [65] 1700000000 1700000010 (ex_key 1)) as (msg & H1 & H2 & _);
    [reflexivity | reflexivity | reflexivity | by apply (bool_decide_unpack _) | reflexivity | reflexivity | reflexivity
    | reflexivity | lia | lia |].
  exists msg. by split.
Defined.

Definition ex_client : sock := Sock [Data [1; 2]; Data [3]] [] true.

(** The client sends its bytes; the server sends one data frame and closes the stream. *)
Definition ex_incoming : list bytes := [cdn_data_frame 5 [8; 9]; cdn_data_frame 7 [1]; cdn_close_frame 5].

Lemma cdn_data_after_close_witness :
  ws (session_run 5 (session_start 5 [65] 80 [cdn_close_frame 5] true (reader [1; 2])) [Reader; Down; Main; Main; Up])
  = [cdn_open_frame 5 [65] 80; cdn_close_frame 5; cdn_data_frame 5 [1; 2]].
Proof. apply (cdn_data_after_close 5 [65] 80 [1; 2]); [lia|done|]. apply Nat.leb_le. vm_compute. reflexivity. Defined.
Lemma cdn_half_close_drops_witness :
  tx (client (session_run 5 (session_start 5 [65] 80 [cdn_data_frame 5 [8]] true (Sock [] [] true)) [Up; Main; Main; Main; Reader; Down])) = socks_success.
Proof. apply (cdn_half_close_drops 5 [65] 80 [8]). lia. Defined.

Definition ex_tcp_pool : MuxPool := new_pool 2 [65] (replicate 16 6).

Lemma handle_socks5_binds_stream_witness :
  (handle_socks5 ex_tcp_pool ex_target ex_draw true (fun _ => Some (reader [])) (reader [])).1 =
    Ok (Sock [Data []] (replicate 16 6 ++ [0; 0; 0; 1]) true, Sock [Data []] socks_success true).
Proof.
  apply (handle_socks5_binds_stream 2 ex_tcp_pool ex_target ex_draw {| sent := []; link_open := true |}
    (fun _ => Some (reader [])) (reader []) (reader []));
    [done| |by apply (bool_decide_unpack _)|reflexivity|reflexivity|reflexivity|reflexivity|reflexivity|reflexivity].
  split; [reflexivity|by split|done|]. intros i l f Hl Hin. apply lookup_replicate in Hl as [-> _]. by apply elem_of_nil in Hin.
Defined.

Lemma link_carries_frames_witness :
  exists r', decode_frames 2 (Sock [Data (encode (data_frame 1 [65])); Data (encode ping)] [] true)
    = (Ok [data_frame 1 [65]; ping], Sock r' [] true).
Proof.
  apply (link_carries_frames [[encode (data_frame 1 [65]); encode ping]; []] [data_frame 1 [65]; ping] (Sock [] [] true));
    try reflexivity; by apply (bool_decide_unpack _).
Defined.

Lemma monitor_restores_witness :
  exists m', monitor_turn 2 (fun c => (10 <=? c)) (fun _ i => (i =? 1)%nat) (fun k => 10 + Z.of_nat k) 2
    {| current := 1; backups := [2; 3] |} = Some m' /\ (10 <=? current m') = true.
Proof.
  destruct (monitor_restores (fun c => (10 <=? c)) (fun _ i => (i =? 1)%nat) (fun k => 10 + Z.of_nat k) 2 1
    {| current := 1; backups := [2; 3] |}) as (m' & H1 & H2 & _); [lia|done|intros k _; lia|].
  exists m'. by split.
Defined.
