(* ===== verification/Direct.v ===== *)
(** * Direct connections, the shim and the QUIC server list (orcax/client/src/main.rs)

    [bypass_direct] connects whitelisted destinations without the tunnel,
    [shim_handle] puts the whitelist in front of another SOCKS5 proxy, and
    [run_quic_mode] turns its arguments into the servers it connects to.
    Name resolution and connection attempts are arguments. *)
From S2P Require Import Prelude Stream RustStd Address Whitelist Socks Client Modes.

(** ** Socket addresses *)

Record SocketAddr : Type := { sa_ip : IpAddr; sa_port : Z; sa_scope : Z }.

(** std's [SocketAddr::from_str]: an IPv4 address and a port, or an IPv6 address
    in brackets with an optional scope.  Ports may have leading zeroes. *)
Definition read_decimal (bound : Z) (s : bytes) : option (Z * bytes) := read_number 10 (length s) bound true s.
Definition read_socket_v4 (s : bytes) : option (SocketAddr * bytes) :=
  '(o, s) ← read_ipv4 s;
  s ← read_given colon s;
  '(p, s) ← read_decimal 65536 s;
  Some ({| sa_ip := V4 o; sa_port := p; sa_scope := 0 |}, s).
Definition read_scope (s : bytes) : Z * bytes :=
  match (s ← read_given 37 s; read_decimal (2 ^ 32) s) with Some r => r | None => (0, s) end.
Definition read_socket_v6 (s : bytes) : option (SocketAddr * bytes) :=
  s ← read_given 91 s;
  '(o, s) ← read_ipv6 s;
  let '(scope, s) := read_scope s in
  s ← read_given 93 s;
  s ← read_given colon s;
  '(p, s) ← read_decimal 65536 s;
  Some ({| sa_ip := V6 o; sa_port := p; sa_scope := scope |}, s).
Definition parse_socket_addr (s : bytes) : option SocketAddr :=
  all_read (match read_socket_v4 s with Some r => Some r | None => read_socket_v6 s end).

(** ** The QUIC server list *)

(** The address of [--server]: as it stands, or its first part with its second or
    port 9444; the last [unwrap] panics. *)
Definition quic_primary {E} (sa : bytes) : result E SocketAddr :=
  match parse_socket_addr sa with
  | Some a => Ok a
  | None =>
      let parts := split_on colon sa in
      host ← unwrap (parts !! 0%nat);
      unwrap (parse_socket_addr (host ++ [colon] ++ default (ascii_bytes "9444") (parts !! 1%nat)))
  end.

Fixpoint split_once (c : Z) (s : bytes) : option (bytes * bytes) :=
  match s with
  | [] => None
  | b :: s' => if b =? c then Some ([], s') else '(h, t) ← split_once c s'; Some (b :: h, t)
  end.

(** One entry of [--extra-servers]. *)
Definition quic_extra (s : bytes) : option SocketAddr :=
  match parse_socket_addr (trim s) with
  | Some a => Some a
  | None =>
      '(h, p) ← split_once colon (trim s);
      port ← parse_u16 p;
      ip ← parse_ip h;
      Some {| sa_ip := ip; sa_port := port; sa_scope := 0 |}
  end.
Definition quic_servers {E} (sa : bytes) (extra_servers : option bytes) : result E (list SocketAddr) :=
  a ← quic_primary sa;
  Ok (a :: match extra_servers with Some e => omap quic_extra (split_on 44 e) | None => [] end).

(** [join_all] over the servers: the first that answered is the connection in
    use, the others are its backups; without one, [run_quic_mode] returns. *)
Definition quic_start {A} (connect : SocketAddr -> option A) (servers : list SocketAddr) : option (monitored A) :=
  match omap connect servers with
  | [] => None
  | c :: cs => Some {| current := c; backups := cs |}
  end.

(** ** Direct connections *)

Inductive bypass_error : Type := DnsFailed | DnsNoAddrs | BypassConnectFailed | BypassIo (e : io_error).

(** [bypass_direct], up to the copy loop. *)
Definition bypass_direct (resolve : bytes -> Z -> option (list SocketAddr)) (connect : SocketAddr -> option sock)
    (host : bytes) (port : Z) : Io bypass_error (SocketAddr * sock) :=
  target ← lift (match parse_ip host with
                 | Some ip => Ok {| sa_ip := ip; sa_port := port; sa_scope := 0 |}
                 | None => addrs ← ok_or (resolve host port) DnsFailed; ok_or (head addrs) DnsNoAddrs
                 end);
  direct ← lift (ok_or (connect target) BypassConnectFailed);
  _ ← io_map_err BypassIo (write_all socks_success);
  mret (target, direct).

(** ** The shim *)

Inductive shim_error : Type := ShimSocks (e : socks_error) | ShimBypass (e : bypass_error) | UpstreamFailed.

(** What the client's socket is spliced with. *)
Inductive spliced : Type := Direct (target : SocketAddr) (s : sock) | Upstream (s : sock).

(** [shim_handle], up to the copy loop. *)
Definition shim_handle `{IpNet} (resolve : bytes -> Z -> option (list SocketAddr)) (connect : SocketAddr -> option sock)
    (upstream : option sock) (wl : option Whitelist) (c : sock) : result shim_error spliced * sock :=
  match shim_route wl c with
  | (Ok (Bypass host port), c) =>
      match bypass_direct resolve connect host port c with
      | (Ok (t, s), c) => (Ok (Direct t s), c)
      | (Err e, c) => (Err (ShimBypass e), c)
      | (Panic, c) => (Panic, c)
      end
  | (Ok (Tunnel _ request), c) =>
      (up ← ok_or upstream UpstreamFailed;
       let '(r, up) := shim_upstream request up in
       _ ← map_err ShimSocks r;
       Ok (Upstream up), c)
  | (Err e, c) => (Err (ShimSocks e), c)
  | (Panic, c) => (Panic, c)
  end.

(** ** Lemmas *)

Lemma parse_digits_app radix acc a b v :
  parse_digits radix acc a = Some v -> parse_digits radix acc (a ++ b) = parse_digits radix v b.
Proof.
  revert acc. induction a as [|x a IH]; intros acc H; cbn in *; [by simplify_eq|].
  destruct (digit_val radix x); [by apply IH|done].
Qed.
Lemma digit_char_val d : 0 <= d < 10 -> digit_val 10 (digit_char d) = Some d.
Proof.
  intros Hd. unfold digit_char. destruct (Z.ltb_spec d 10); [|lia]. unfold digit_val, between.
  destruct (Z.leb_spec 48 (48 + d)); [|lia]. destruct (Z.leb_spec (48 + d) 57); [|lia]. cbn [andb].
  destruct (Z.ltb_spec (48 + d - 48) 10); [|lia]. f_equal. lia.
Qed.
Lemma parse_to_radix fuel z :
  0 <= z < 10 ^ Z.of_nat fuel -> parse_digits 10 0 (to_radix_fuel fuel 10 z) = Some z.
Proof.
  revert z. induction fuel as [|f IH]; intros z Hz; [assert (z = 0) as -> by (cbn in Hz; lia); done|]. cbn [to_radix_fuel].
  destruct (Z.ltb_spec z 10).
  - cbn [parse_digits]. by rewrite digit_char_val by lia.
  - rewrite Nat2Z.inj_succ, Z.pow_succ_r in Hz by lia.
    assert (0 <= z / 10 < 10 ^ Z.of_nat f) as Hq by (split; [apply Z.div_pos; lia | apply Z.div_lt_upper_bound; lia]).
    rewrite (parse_digits_app _ _ _ _ _ (IH _ Hq)). cbn [parse_digits].
    rewrite digit_char_val by (apply Z.mod_pos_bound; lia). f_equal. pose proof (Z.div_mod z 10 ltac:(lia)). lia.
Qed.
Lemma read_digits_parse radix max acc n l v :
  parse_digits radix acc l = Some v -> (n + length l <= max)%nat ->
  read_digits radix max acc n l = Some (v, (n + length l)%nat, []).
Proof.
  revert acc n. induction l as [|b l IH]; intros acc n H Hm; cbn in *; [simplify_eq; by rewrite Nat.add_0_r|].
  destruct (digit_val radix b); [|done]. rewrite (proj2 (Nat.leb_gt _ _)) by lia.
  rewrite (IH _ _ H) by lia. do 3 f_equal. lia.
Qed.
Lemma read_decimal_dec bound p : 0 <= p < bound -> bound <= 10 ^ 20 -> read_decimal bound (dec p) = Some (p, []).
Proof.
  intros Hp Hb. unfold read_decimal, read_number.
  rewrite (read_digits_parse 10 _ 0 0 (dec p) p); [|apply (parse_to_radix 20); lia|lia]. cbn [Nat.add].
  assert (length (dec p) <> 0)%nat as Hl.
  { unfold dec. cbn [to_radix_fuel]. destruct (p <? 10); [done|]. rewrite length_app. cbn. lia. }
  rewrite (proj2 (Nat.eqb_neq _ _) Hl). cbn [negb andb]. by destruct (Z.ltb_spec p bound); [|lia].
Qed.

Lemma read_display_ipv4 a b c d s :
  wf_bytes [a; b; c; d] -> stops_number s -> read_ipv4 (display_ipv4 [a; b; c; d] ++ s) = Some ([a; b; c; d], s).
Proof.
  unfold wf_bytes. rewrite !Forall_cons_iff. intros (Ha & Hb & Hc & Hd & _) Hs.
  rewrite display_ipv4_4, <- !app_assoc. unfold read_ipv4.
  rewrite (read_octet_app (dec a) _ a) by (done || by apply read_octet_dec). cbn [mbind option_bind read_sep read_given app]. change (dot =? dot) with true. cbv iota.
  rewrite (read_octet_app (dec b) _ b) by (done || by apply read_octet_dec). cbn [mbind option_bind read_sep read_given app]. change (dot =? dot) with true. cbv iota.
  rewrite (read_octet_app (dec c) _ c) by (done || by apply read_octet_dec). cbn [mbind option_bind read_sep read_given app]. change (dot =? dot) with true. cbv iota.
  by rewrite (read_octet_app (dec d) _ d) by (done || by apply read_octet_dec).
Qed.

(** The text of an IPv4 socket address. *)
Definition display_socket_v4 (o : bytes) (p : Z) : bytes := display_ipv4 o ++ [colon] ++ dec p.

Lemma parse_display_socket o p :
  wf_bytes o -> length o = 4%nat -> 0 <= p < 65536 ->
  parse_socket_addr (display_socket_v4 o p) = Some {| sa_ip := V4 o; sa_port := p; sa_scope := 0 |}.
Proof.
  intros Ho Hl Hp. destruct o as [|a [|b [|c [|d [|? ?]]]]]; try done. unfold parse_socket_addr, read_socket_v4, display_socket_v4.
  rewrite (read_display_ipv4 a b c d) by done. cbn [mbind option_bind app read_given]. change (colon =? colon) with true. cbv iota.
  cbn [mbind option_bind]. by rewrite read_decimal_dec by lia.
Qed.

(** A text that starts with neither a digit nor a bracket is no socket address. *)
Lemma parse_socket_name b s :
  digit_val 10 b = None -> b <> 91 -> parse_socket_addr (b :: s) = None.
Proof.
  intros Hd Hb. unfold parse_socket_addr, read_socket_v4, read_ipv4, read_octet, read_number. cbn [read_digits]. rewrite Hd.
  cbn. by destruct (Z.eqb_spec b 91).
Qed.

Lemma split_on_first c h s : c ∉ h -> split_on c (h ++ c :: s) !! 0%nat = Some h.
Proof.
  intros Hh. rewrite split_on_app. assert (split_on c h = [h]) as ->; [|done].
  induction h as [|b h IH]; [done|]. apply not_elem_of_cons in Hh as [Hb Hh]. cbn. rewrite IH by done.
  by destruct (Z.eqb_spec b c); [congruence|].
Qed.

(** Text without white space is not trimmed. *)
Definition visible (b : Z) : Prop := 33 <= b < 127.

Lemma ws_front_visible s : Forall visible s -> ws_front s = 0%nat.
Proof.
  destruct s as [|b0 s]; [done|]. rewrite Forall_cons_iff. intros [Hb _]. unfold visible in Hb. cbn [ws_front].
  unfold between. destruct (Z.leb_spec 9 b0); [|lia]. destruct (Z.leb_spec b0 13); [lia|]. destruct (Z.eqb_spec b0 32); [lia|]. cbn [andb orb].
  destruct s as [|b1 s]; [done|]. destruct (Z.eqb_spec b0 0xC2); [lia|]. destruct s as [|b2 s]; [done|].
  destruct (Z.eqb_spec b0 0xE1); [lia|]. destruct (Z.eqb_spec b0 0xE2); [lia|]. by destruct (Z.eqb_spec b0 0xE3); [lia|].
Qed.
Lemma trim_visible s : Forall visible s -> trim s = s.
Proof.
  intros Hs. unfold trim, trim_start. assert (trim_start_fuel (length s) s = s) as ->.
  { destruct (length s); [done|]. cbn. by rewrite ws_front_visible. }
  unfold trim_end. destruct (length s) as [|n] eqn:Hl; [done|]. cbn [trim_end_fuel]. unfold ws_back.
  rewrite !ws_front_visible by (by apply Forall_drop). cbn [Nat.eqb]. by rewrite !andb_false_r.
Qed.
Lemma dec_visible z : 0 <= z -> Forall visible (dec z).
Proof.
  unfold dec. generalize 20%nat as f. intros f. revert z. induction f as [|f IH]; intros z Hz; cbn [to_radix_fuel]; [by apply Forall_nil|].
  assert (forall d, 0 <= d < 10 -> visible (digit_char d)) as Hd.
  { intros d Hd. unfold digit_char, visible. destruct (Z.ltb_spec d 10); lia. }
  destruct (Z.ltb_spec z 10); [apply Forall_singleton, Hd; lia|].
  apply Forall_app. split; [apply IH, Z.div_pos; lia|]. apply Forall_singleton, Hd, Z.mod_pos_bound. lia.
Qed.
(** Digits, dots and colons: no comma. *)
Lemma display_socket_visible o p :
  wf_bytes o -> length o = 4%nat -> 0 <= p -> Forall visible (display_socket_v4 o p).
Proof.
  intros Ho Hl Hp. destruct o as [|a [|b [|c [|d [|? ?]]]]]; try done. unfold wf_bytes, is_byte in Ho.
  rewrite !Forall_cons_iff in Ho. unfold display_socket_v4. rewrite display_ipv4_4, !Forall_app, !Forall_singleton.
  repeat split; try (apply dec_visible; lia); done.
Qed.
Lemma digits_no_comma f z : 0 <= z -> 44 ∉ to_radix_fuel f 10 z.
Proof.
  revert z. induction f as [|f IH]; intros z Hz; cbn [to_radix_fuel]; [by apply not_elem_of_nil|].
  assert (forall d, 0 <= d < 10 -> 44 ∉ [digit_char d]) as Hd.
  { intros d Hd. rewrite list_elem_of_singleton. unfold digit_char. destruct (Z.ltb_spec d 10); lia. }
  destruct (Z.ltb_spec z 10); [apply Hd; lia|]. apply not_elem_of_app. split; [apply IH, Z.div_pos; lia|].
  apply Hd, Z.mod_pos_bound. lia.
Qed.
Lemma display_socket_no_comma o p : wf_bytes o -> length o = 4%nat -> 0 <= p -> 44 ∉ display_socket_v4 o p.
Proof.
  intros Ho Hl Hp. destruct o as [|a [|b [|c [|d [|? ?]]]]]; try done. unfold wf_bytes, is_byte in Ho.
  rewrite !Forall_cons_iff in Ho. unfold display_socket_v4. rewrite display_ipv4_4, !not_elem_of_app, !list_elem_of_singleton.
  repeat split; try (apply digits_no_comma; lia); done.
Qed.

Lemma split_on_join c ls : ls <> [] -> Forall (fun l => c ∉ l) ls -> split_on c (join [c] ls) = ls.
Proof.
  intros Hne Hl. induction ls as [|l ls IH]; [done|]. apply Forall_cons_iff in Hl as [Hc Hl].
  destruct ls as [|l2 ls]; cbn [join]; [by apply split_on_none|].
  change ([c] ++ ?x) with (c :: x). rewrite split_on_app, split_on_none by done. cbn [app]. f_equal. by apply IH.
Qed.

(** ** The contract *)

(** An IPv4 server as the arguments write it. *)
Record v4_server : Type := { v4_octets : bytes; v4_port : Z }.
Definition wf_server (v : v4_server) : Prop := wf_bytes (v4_octets v) /\ length (v4_octets v) = 4%nat /\ 0 <= v4_port v < 65536.
Definition server_text (v : v4_server) : bytes := display_socket_v4 (v4_octets v) (v4_port v).
Definition server_addr_of (v : v4_server) : SocketAddr := {| sa_ip := V4 (v4_octets v); sa_port := v4_port v; sa_scope := 0 |}.

Lemma quic_extra_text v : wf_server v -> quic_extra (server_text v) = Some (server_addr_of v).
Proof.
  intros (Ho & Hl & Hp). unfold quic_extra, server_text. rewrite trim_visible by (apply display_socket_visible; done || lia).
  by rewrite parse_display_socket.
Qed.

(** QUIC mode connects to what it was told: a primary server and a
    comma-separated list of extra servers are read back as exactly these
    servers in order; the connection in use is the first that answers, the
    others that answer are its backups, and the mode is left only when none
    does. *)
Theorem quic_servers_roundtrip {E A} v vs (connect : SocketAddr -> option A) :
  wf_server v -> Forall wf_server vs ->
  let extra := match vs with [] => None | _ => Some (join [44] (map server_text vs)) end in
  let servers := map server_addr_of (v :: vs) in
  quic_servers (E:=E) (server_text v) extra = Ok servers /\
  match quic_start connect servers with
  | Some m => current m :: backups m = omap connect servers
  | None => Forall (fun a => connect a = None) servers
  end.
Proof.
  intros Hv Hvs extra servers. split.
  - unfold quic_servers, quic_primary. pose proof Hv as (Ho & Hl & Hp). unfold server_text at 1. rewrite parse_display_socket by done.
    cbn [mbind result_bind]. f_equal. unfold servers. cbn [map]. f_equal. subst extra. destruct vs as [|v2 vs]; [done|].
    rewrite split_on_join; [|done|].
    + clear servers. induction Hvs as [|w ws Hw Hws IH]; [done|]. cbn [map omap list_omap]. rewrite quic_extra_text by done. by f_equal.
    + apply Forall_map. revert Hvs. apply List.Forall_impl. intros w (? & ? & ?). apply display_socket_no_comma; done || lia.
  - unfold quic_start. destruct (omap connect servers) as [|c cs] eqn:Hc; [|done]. clear - Hc. induction servers as [|a l IH]; [by apply Forall_nil|].
    cbn in Hc. destruct (connect a) eqn:Ha; [done|]. apply Forall_cons; [done|by apply IH].
Qed.

(** QUIC mode does not survive a server given by name: the second attempt at
    the address is unwrapped, so that the process panics instead of falling
    back to TCP. *)
Theorem quic_primary_panics_on_name {E} b name rest :
  digit_val 10 b = None -> b <> 91 -> colon ∉ b :: name ->
  quic_primary (E:=E) (b :: name ++ colon :: rest) = Panic.
Proof.
  intros Hd Hb Hc. unfold quic_primary. rewrite parse_socket_name by done.
  change (b :: name ++ colon :: rest) with ((b :: name) ++ colon :: rest). rewrite split_on_first by done.
  cbn [unwrap mbind result_bind app]. by rewrite parse_socket_name.
Qed.

(** A bypassed connection is answered only when it stands, and it goes to the
    address the client named, or to the first one its name resolves to; on
    every failure the client is sent nothing. *)
Theorem bypass_direct_sound resolve connect host port s :
  match bypass_direct resolve connect host port s with
  | (Ok (target, d), s') =>
      connect target = Some d /\ s' = Sock (rx s) (tx s ++ socks_success) true /\
      match parse_ip host with
      | Some ip => target = {| sa_ip := ip; sa_port := port; sa_scope := 0 |}
      | None => exists addrs, resolve host port = Some (target :: addrs)
      end
  | (Err _, s') => s' = s
  | (Panic, _) => False
  end.
Proof.
  unfold bypass_direct. unfold mbind, io_bind, lift. destruct (parse_ip host) as [ip|].
  - destruct (connect _) as [d|] eqn:Hc; [|done]. cbn. unfold io_map_err, write_all. destruct (tx_open s); cbn; [by split_and!|done].
  - destruct (resolve host port) as [[|a addrs]|]; [done| |done]. cbn. destruct (connect a) as [d|] eqn:Hc; [|done]. cbn.
    unfold io_map_err, write_all. destruct (tx_open s); cbn; [|done]. repeat split; try done. by exists addrs.
Qed.

(** The shim is transparent: a client that greets and asks for a target that is
    not whitelisted gets the no-authentication answer, and the upstream proxy is
    sent a fresh greeting and then the request as it came, byte for byte; a
    whitelisted target is connected directly and the upstream proxy is not
    asked. *)
Theorem shim_transparent `{IpNet} resolve connect up wl methods t :
  (length methods <= 255)%nat -> wf_target t -> proxyable t -> tx_open up = true ->
  let c := Sock [Data (greeting methods); Data (connect_request t)] [] true in
  (match wl with Some w => matches w (host_of t) | None => false end = false ->
   forall r, clean r -> rx up = Data [5; 0] :: r ->
   shim_handle resolve connect (Some up) wl c =
     (Ok (Upstream (Sock r (tx up ++ [5; 1; 0] ++ connect_request t) true)), Sock [] [5; 0] true)) /\
  (match wl with Some w => matches w (host_of t) | None => false end = true ->
   forall upstream target d, bypass_direct resolve connect (host_of t) (port t) (Sock [] [5; 0] true) = (Ok (target, d), Sock [] ([5; 0] ++ socks_success) true) ->
   shim_handle resolve connect upstream wl c = (Ok (Direct target d), Sock [] ([5; 0] ++ socks_success) true)).
Proof.
  intros Hm Hw Hp Ho c.
  assert (Hroute : shim_route wl c = (Ok (decide_route wl (connect_request t) (host_of t) (port t)), Sock [] [5; 0] true)).
  { unfold shim_route, c. rewrite (io_bind_ok _ _ _ tt (Sock [Data (connect_request t)] [5; 0] true)).
    - by rewrite (io_bind_ok _ _ _ _ _ (read_connect_request true true t [] [5; 0] true Hw Hp)).
    - unfold shim_greet. assert (length (greeting methods) <= 258)%nat by (unfold greeting; cbn; lia).
      rewrite (io_bind_ok _ _ _ _ _ (io_map_err_ok _ _ _ _ _ (read_timeout_piece 258 (greeting methods) _ _ _ ltac:(done)))).
      reflexivity. }
  unfold shim_handle. rewrite Hroute. unfold decide_route. split; intros Hwl.
  - intros r Hr Hrx. assert (Hup : shim_upstream (connect_request t) up = (Ok tt, Sock r (tx up ++ [5; 1; 0] ++ connect_request t) true)).
    { destruct up as [rxu txu ou]. cbn in Ho, Hrx |- *. subst. unfold shim_upstream, mbind, io_bind, io_map_err, write_all, read_exact, lift. cbn.
      assert (take_exact 0 r = (Ok [], r)) as -> by (by destruct r). cbn. by rewrite <- app_assoc. }
    destruct wl as [w|]; [rewrite Hwl|]; cbn [ok_or mbind result_bind]; by rewrite Hup.
  - intros upstream target d Hb. destruct wl as [w|]; [|done]. rewrite Hwl. by rewrite Hb.
Qed.

(** ** Witnesses *)

Definition ex_servers : list v4_server := [{| v4_octets := [10; 0; 0; 2]; v4_port := 9446 |}; {| v4_octets := [192; 168; 1; 9]; v4_port := 80 |}].

#[export] Instance wf_server_dec v : Decision (wf_server v).
Proof. unfold wf_server. apply _. Defined.

Lemma quic_servers_roundtrip_witness :
  quic_servers (E:=unit) (ascii_bytes "10.0.0.1:9444") (Some (ascii_bytes "10.0.0.2:9446,192.168.1.9:80")) =
    Ok (map server_addr_of ({| v4_octets := [10; 0; 0; 1]; v4_port := 9444 |} :: ex_servers)).
Proof.
  apply (quic_servers_roundtrip (A:=unit) {| v4_octets := [10; 0; 0; 1]; v4_port := 9444 |} ex_servers (fun _ => None));
    by apply (bool_decide_unpack _).
Defined.

Lemma quic_primary_panics_on_name_witness : quic_primary (E:=unit) (ascii_bytes "vpn.example:9444") = Panic.
Proof.
  apply (quic_primary_panics_on_name 118 (ascii_bytes "pn.example") (ascii_bytes "9444")); [reflexivity | done |].
  rewrite list_elem_of_In. cbn. naive_solver.
Defined.

Lemma shim_transparent_witness :
  shim_handle (H:=ex_ipnet) (fun _ _ => None) (fun _ => None) (Some (Sock [Data [5; 0]] [] true)) None
    (Sock [Data (greeting [0]); Data (connect_request ex_target)] [] true)
  = (Ok (Upstream (Sock [] ([5; 1; 0] ++ connect_request ex_target) true)), Sock [] [5; 0] true).
Proof.
  apply (shim_transparent (H:=ex_ipnet) (fun _ _ => None) (fun _ => None) (Sock [Data [5; 0]] [] true) None [0] ex_target);
    [cbn; lia | by apply (bool_decide_unpack _) | by apply (bool_decide_unpack _) | reflexivity | reflexivity | by apply Forall_nil | reflexivity].
Defined.
