(* ===== verification/Brutal.v ===== *)
(** * The congestion controller of the client (orcax/client/src/brutal.rs)

    [BrutalController] keeps the window of a QUIC connection at rate times round
    trip, and raises it when packets are lost.  It computes in [f64]: the model uses
    the binary64 arithmetic of the Standard Library's [SpecFloat], operation by
    operation, and the casts of Rust, which saturate. *)
From Stdlib Require Import SpecFloat.
From S2P Require Import Prelude.
Open Scope Z_scope.

(** ** [f64] *)

Abbreviation prec := 53%Z.
Abbreviation emax := 1024%Z.
Definition f64 : Type := spec_float.
(** [x as f64] of an unsigned integer: to nearest, ties to even. *)
Definition as_f64 (x : Z) : f64 := binary_normalize prec emax x 0 false.
(** [x as u64]: towards zero, saturating; NaN gives 0. *)
Definition U64_MAX : Z := 2 ^ 64 - 1.
Definition as_u64 (x : f64) : Z :=
  match x with
  | S754_finite false m e => Z.min U64_MAX (if 0 <=? e then Z.pos m * 2 ^ e else Z.pos m / 2 ^ (- e))
  | S754_infinity false => U64_MAX
  | _ => 0
  end.
Definition fmul (x y : f64) : f64 := SFmul prec emax x y.
(** [f64::max]: the other one, if one is NaN. *)
Definition fmax (x y : f64) : f64 :=
  match SFcompare x y with Some Lt => y | Some _ => x | None => match x with S754_nan => y | _ => x end end.
(** Decimal literals are the nearest numbers, as the quotients are. *)
Definition decimal (n d : Z) : f64 := SFdiv prec emax (as_f64 n) (as_f64 d).
(** [Duration::as_secs_f64] of seconds and nanoseconds. *)
Record Duration : Type := { secs : Z; nanos : Z }.
Definition as_secs_f64 (d : Duration) : f64 := SFadd prec emax (as_f64 (secs d)) (SFdiv prec emax (as_f64 (nanos d)) (as_f64 1000000000)).

(** ** The controller *)

Definition DEFAULT_TARGET_RATE : Z := 12500000.
Record BrutalController : Type := { target_rate : Z; cwnd : Z; mtu : Z }.
Definition new (rate : Z) : BrutalController := {| target_rate := rate; cwnd := rate; mtu := 1200 |}.
Definition set_cwnd (c : BrutalController) (w : Z) : BrutalController := {| target_rate := target_rate c; cwnd := w; mtu := mtu c |}.
Definition on_sent (c : BrutalController) : BrutalController := c.
Definition on_ack (rtt : Duration) (c : BrutalController) : BrutalController :=
  let rtt_secs := fmax (as_secs_f64 rtt) (decimal 1 100) in
  let c := set_cwnd c (as_u64 (fmul (as_f64 (target_rate c)) rtt_secs)) in
  set_cwnd c (Z.max (cwnd c) (mtu c * 2)).
Definition on_end_acks (c : BrutalController) : BrutalController := c.
Definition boost (w : Z) : Z := as_u64 (fmul (as_f64 w) (decimal 105 100)).
Definition on_congestion_event (lost_bytes : Z) (c : BrutalController) : BrutalController :=
  if 0 <? lost_bytes then set_cwnd c (boost (cwnd c)) else c.
Definition on_mtu_update (new_mtu : Z) (c : BrutalController) : BrutalController := {| target_rate := target_rate c; cwnd := cwnd c; mtu := new_mtu |}.
Definition window (c : BrutalController) : Z := cwnd c.
Definition initial_window (c : BrutalController) : Z := target_rate c.
(** [BrutalFactory]. *)
Definition build (factory_rate : Z) : BrutalController := new factory_rate.
Definition factory_default : Z := DEFAULT_TARGET_RATE.

(** ** Rounding *)

(** Shifting a mantissa is division. *)
Lemma shr_1_m r : 0 <= shr_m r -> shr_m (shr_1 r) = shr_m r / 2.
Proof. intros Hr. rewrite <- Z.div2_div. by destruct r as [[|[p|p|]|p] b s]. Qed.
Lemma iter_shr p r : 0 <= shr_m r -> shr_m (SpecFloat.iter_pos shr_1 p r) = shr_m r / 2 ^ Z.pos p.
Proof.
  revert r. induction p as [p IH|p IH|]; intros r Hr; cbn [SpecFloat.iter_pos].
  - assert (0 <= shr_m (shr_1 r)) by (rewrite shr_1_m by done; apply Z.div_pos; lia). rewrite IH by (rewrite IH by done; apply Z.div_pos; lia). rewrite IH by done.
    rewrite shr_1_m by done. rewrite !Z.div_div by lia. f_equal. rewrite Pos2Z.inj_xI. rewrite <- Z.pow_add_r, <- Z.pow_succ_r by lia. f_equal. lia.
  - rewrite IH by (rewrite IH by done; apply Z.div_pos; lia). rewrite IH by done. rewrite Z.div_div by lia. f_equal. rewrite Pos2Z.inj_xO, <- Z.pow_add_r by lia. f_equal. lia.
  - rewrite shr_1_m by done. done.
Qed.
Lemma digits_bounds p : 2 ^ (Z.pos (digits2_pos p) - 1) <= Z.pos p < 2 ^ Z.pos (digits2_pos p).
Proof.
  induction p as [p IH|p IH|]; cbn [digits2_pos]; [| |done]; rewrite Pos2Z.inj_succ; replace (Z.succ (Z.pos (digits2_pos p)) - 1) with (Z.succ (Z.pos (digits2_pos p) - 1)) by lia;
    rewrite !Z.pow_succ_r by lia; rewrite ?(Pos2Z.inj_xI p), ?(Pos2Z.inj_xO p); lia.
Qed.

(** How far a mantissa is shifted. *)
Lemma shift_amount m e : 0 < m -> -1074 <= e -> exists d, 2 ^ (d - 1) <= m < 2 ^ d /\ 1 <= d /\
  (if 53 <? d then fexp prec emax (Zdigits2 m + e) - e = d - 53 else fexp prec emax (Zdigits2 m + e) - e <= 0).
Proof.
  intros Hm He. destruct m as [|p|]; [lia| |lia]. exists (Z.pos (digits2_pos p)). split; [apply digits_bounds|]. split; [lia|]. cbn [Zdigits2]. unfold fexp, emin.
  destruct (Z.ltb_spec 53 (Z.pos (digits2_pos p))); lia.
Qed.
Lemma shr_none r e n : n <= 0 -> shr r e n = (r, e).
Proof. by destruct n. Qed.
Definition finish (r e : Z) : f64 :=
  let '(mrs, e) := shr_fexp prec emax r e loc_Exact in
  match shr_m mrs with
  | Z0 => S754_zero false
  | Z.pos m => if e <=? emax - prec then S754_finite false m e else S754_infinity false
  | _ => S754_nan
  end.
(** After rounding the mantissa has at most 53 bits, or is 2^53. *)
Lemma finish_value r e : 0 < r <= 2 ^ 53 -> -1074 <= e <= 900 -> exists m' e', finish r e = S754_finite false m' e' /\ e <= e' /\ Z.pos m' * 2 ^ (e' - e) = r.
Proof.
  intros Hr He. destruct (shift_amount r e) as (d & Hd & Hd1 & Hs); [lia|lia|]. unfold finish, shr_fexp. cbn [shr_record_of_loc]. destruct (Z.ltb_spec 53 d) as [Hgt|Hle].
  - assert (d = 54) as -> by (assert (2 ^ 53 <= 2 ^ (d - 1)) by (apply Z.pow_le_mono_r; lia); assert (2 ^ (d - 1) < 2 ^ 54) by lia; apply Z.pow_lt_mono_r_iff in H0; lia).
    assert (r = 2 ^ 53) as -> by lia. rewrite Hs. change (54 - 53) with 1. cbn [shr SpecFloat.iter_pos]. exists (2 ^ 52)%positive, (e + 1).
    split; [|split; [lia|]]; [|replace (e + 1 - e) with 1 by lia; reflexivity]. change (shr_m _) with (Z.pos (2 ^ 52)). cbn iota. by rewrite (proj2 (Z.leb_le _ _)) by lia.
  - rewrite shr_none by done. cbn [shr_m]. destruct r as [|p|p]; [lia| |lia]. rewrite (proj2 (Z.leb_le _ _)) by lia. exists p, e. split; [done|]. split; [lia|]. rewrite Z.sub_diag. lia.
Qed.
Lemma round_aux_finish m e : binary_round_aux prec emax false (Z.pos m) e loc_Exact =
  let '(mrs, e') := shr_fexp prec emax (Z.pos m) e loc_Exact in finish (round_nearest_even (shr_m mrs) (loc_of_shr_record mrs)) e'.
Proof. done. Qed.

(** What rounding a positive number gives, when it does not overflow: the value is
    off by at most one part in 2^52. *)
Lemma round_bounds m e : -1074 <= e <= 700 -> Z.pos m < 2 ^ 200 ->
  exists m' e', binary_round_aux prec emax false (Z.pos m) e loc_Exact = S754_finite false m' e' /\ e <= e' /\
    Z.pos m * (2 ^ 52 - 1) <= Z.pos m' * 2 ^ (e' - e) * 2 ^ 52 <= Z.pos m * (2 ^ 52 + 1).
Proof.
  intros He Hm. rewrite round_aux_finish. unfold shr_fexp at 1. cbn [shr_record_of_loc]. destruct (shift_amount (Z.pos m) e) as (d & Hd & Hd1 & Hs); [lia|lia|].
  assert (d <= 200) as Hd2 by (assert (2 ^ (d - 1) < 2 ^ 200) as Hlt by lia; apply Z.pow_lt_mono_r_iff in Hlt; lia).
  destruct (Z.ltb_spec 53 d) as [Hgt|Hle].
  - rewrite Hs. destruct (d - 53) as [|k|k] eqn:Hk; [lia| |lia]. cbn [shr]. set (mrs := SpecFloat.iter_pos _ _ _).
    assert (shr_m mrs = Z.pos m / 2 ^ Z.pos k) as Hq by (apply iter_shr; cbn; lia). set (q := Z.pos m / 2 ^ Z.pos k) in *. rewrite Hq.
    assert (2 ^ d = 2 ^ Z.pos k * 2 ^ 53) as Hd3 by (rewrite <- Z.pow_add_r by lia; f_equal; lia). assert (2 ^ (d - 1) = 2 ^ Z.pos k * 2 ^ 52) as Hd4 by (rewrite <- Z.pow_add_r by lia; f_equal; lia).
    assert (0 < 2 ^ Z.pos k) as Hp by lia. pose proof (Z.div_mod (Z.pos m) (2 ^ Z.pos k)) as Hdm. pose proof (Z.mod_pos_bound (Z.pos m) (2 ^ Z.pos k) Hp) as Hmod. fold q in Hdm.
    assert (2 ^ 52 <= q < 2 ^ 53) as Hqb by (split; [apply Z.div_le_lower_bound; lia|apply Z.div_lt_upper_bound; lia]).
    assert (exists r, round_nearest_even q (loc_of_shr_record mrs) = r /\ q <= r <= q + 1) as (r & -> & Hr).
    { eexists. split; [done|]. unfold round_nearest_even. repeat case_match; lia. }
    destruct (finish_value r (e + Z.pos k)) as (m' & e' & Hf & He' & Hv); [lia|lia|]. exists m', e'. split; [done|]. split; [lia|].
    replace (e' - e) with ((e' - (e + Z.pos k)) + Z.pos k) by lia. rewrite Z.pow_add_r, Z.mul_assoc, Hv by lia. nia.
  - rewrite shr_none by done. cbn [shr_m loc_of_shr_record round_nearest_even]. assert (2 ^ d <= 2 ^ 53) by (apply Z.pow_le_mono_r; lia).
    destruct (finish_value (Z.pos m) e) as (m' & e' & Hf & He' & Hv); [lia|lia|]. exists m', e'. split; [done|]. split; [done|]. rewrite Hv. lia.
Qed.

Lemma iter_shl p k : Z.pos (Pos.iter xO p k) = Z.pos p * 2 ^ Z.pos k.
Proof.
  induction k as [|k IH] using Pos.peano_ind; [cbn; lia|]. rewrite Pos.iter_succ, (Pos2Z.inj_xO (Pos.iter xO p k)), IH, Pos2Z.inj_succ, Z.pow_succ_r by lia. lia.
Qed.
(** The conversion of an integer, as a multiple of 2^-52. *)
Lemma as_f64_bounds c : 0 < c < 2 ^ 64 -> exists m e, as_f64 c = S754_finite false m e /\ -52 <= e <= 65 /\ Z.pos m < 2 ^ 117 /\
  c * (2 ^ 52 - 1) <= Z.pos m * 2 ^ (e + 52) <= c * (2 ^ 52 + 1).
Proof.
  intros Hc. destruct c as [|p|]; [lia| |lia]. unfold as_f64, binary_normalize, binary_round. pose proof (digits_bounds p) as Hd. set (d := Z.pos (digits2_pos p)) in *.
  assert (1 <= d <= 64) as Hd1. { split; [lia|]. assert (2 ^ (d - 1) < 2 ^ 64) as Hlt by lia. apply Z.pow_lt_mono_r_iff in Hlt; lia. }
  assert (exists mz ez, shl_align p 0 (fexp prec emax (d + 0)) = (mz, ez) /\ -52 <= ez <= 0 /\ Z.pos mz = Z.pos p * 2 ^ (- ez)) as (mz & ez & -> & Hez & Hmz).
  { unfold shl_align, fexp, emin. rewrite Z.max_l, Z.sub_0_r, Z.add_0_r by lia. destruct (d - prec) as [|k|k] eqn:Hk; [exists p, 0|exists p, 0|]; [split_and!; (done || lia)..|].
    exists (Pos.iter xO p k), (Z.neg k). split; [done|]. split; [lia|]. apply iter_shl. }
  assert (Z.pos mz < 2 ^ 64 * 2 ^ 52) as Hb by (rewrite Hmz; assert (2 ^ (- ez) <= 2 ^ 52) by (apply Z.pow_le_mono_r; lia); nia).
  destruct (round_bounds mz ez) as (m & e & Hr & He & Hv); [lia|lia|]. exists m, e. split; [done|].
  assert (Z.pos m * 2 ^ (e - ez) * 2 ^ 52 * 2 ^ (ez + 52) = Z.pos m * 2 ^ (e + 52) * 2 ^ 52) as Hv2.
  { replace (e + 52) with ((e - ez) + (ez + 52)) by lia. rewrite (Z.pow_add_r 2 (e - ez) (ez + 52)) by lia. ring. }
  assert (Z.pos mz * 2 ^ (ez + 52) = Z.pos p * 2 ^ 52) as Hmz2 by (rewrite Hmz, <- Z.mul_assoc, <- Z.pow_add_r by lia; do 2 f_equal; lia).
  assert (0 < 2 ^ (ez + 52)) as Hp by (apply Z.pow_pos_nonneg; lia). assert (0 < 2 ^ (e + 52)) as Hp2 by (apply Z.pow_pos_nonneg; lia).
  assert (Z.pos p * (2 ^ 52 - 1) <= Z.pos m * 2 ^ (e + 52) <= Z.pos p * (2 ^ 52 + 1)) as Hfin by nia.
  assert (2 ^ (e + 52) < 2 ^ 117 /\ Z.pos m < 2 ^ 117) as [He2 Hm2] by nia. apply Z.pow_lt_mono_r_iff in He2; [|lia|lia]. split; [lia|]. split; [done|exact Hfin].
Qed.

(** ** Losses raise the window *)

Definition m105 : positive := 4728779608739021.
Lemma decimal_105 : decimal 105 100 = S754_finite false m105 (-52).
Proof. vm_compute. reflexivity. Qed.
Lemma as_u64_bounds m e x : -104 <= e -> x * 2 ^ 104 <= Z.pos m * 2 ^ (e + 104) -> 0 <= x <= U64_MAX -> x <= as_u64 (S754_finite false m e).
Proof.
  intros He Hx Hu. cbn [as_u64]. apply Z.min_glb; [lia|]. destruct (Z.leb_spec 0 e).
  - rewrite Z.pow_add_r in Hx by lia. nia.
  - apply Z.div_le_lower_bound; [lia|]. assert (2 ^ 104 = 2 ^ (- e) * 2 ^ (e + 104)) as Hp by (rewrite <- Z.pow_add_r by lia; f_equal; lia).
    assert (0 < 2 ^ (e + 104)) by (apply Z.pow_pos_nonneg; lia). rewrite Hp in Hx. nia.
Qed.
Lemma as_u64_value m e : -104 <= e -> as_u64 (S754_finite false m e) * 2 ^ 104 <= Z.pos m * 2 ^ (e + 104) /\
  (as_u64 (S754_finite false m e) < U64_MAX -> Z.pos m * 2 ^ (e + 104) < (as_u64 (S754_finite false m e) + 1) * 2 ^ 104).
Proof.
  intros He. cbn [as_u64]. destruct (Z.leb_spec 0 e).
  - rewrite Z.pow_add_r by lia. nia.
  - assert (2 ^ 104 = 2 ^ (- e) * 2 ^ (e + 104)) as Hp by (rewrite <- Z.pow_add_r by lia; f_equal; lia). rewrite Hp.
    assert (0 < 2 ^ (e + 104)) as H1 by (apply Z.pow_pos_nonneg; lia). assert (0 < 2 ^ (- e)) as H2 by (apply Z.pow_pos_nonneg; lia).
    pose proof (Z.div_mod (Z.pos m) (2 ^ (- e))) as Hd. pose proof (Z.mod_pos_bound (Z.pos m) (2 ^ (- e)) H2) as Hm. set (q := Z.pos m / 2 ^ (- e)) in *. set (t := 2 ^ (- e)) in *.
    set (u := 2 ^ (e + 104)) in *. split; [nia|]. intros Hlt. rewrite Z.min_r in * by lia. nia.
Qed.

(** A loss multiplies the window by 1.05, to the byte, and never shrinks it, at any
    size that fits. *)
Lemma boost_bounds w : 0 <= w <= U64_MAX -> w <= boost w <= U64_MAX /\ (w < 2 ^ 40 -> 105 * w - 100 <= 100 * boost w <= 105 * w).
Proof.
  intros Hw. destruct (decide (w = 0)) as [->|Hz]; [vm_compute; by split|]. destruct (as_f64_bounds w) as (m & e & Hf & He & Hm & Hv); [unfold U64_MAX in Hw; lia|].
  unfold boost, fmul. rewrite Hf, decimal_105. cbn [SFmul xorb]. assert (Z.pos (m * m105) = Z.pos m * 4728779608739021) as Hmul by (unfold m105; lia).
  destruct (round_bounds (m * m105) (e + -52)) as (m' & e' & -> & He' & Hr); [lia|rewrite Hmul; lia|].
  assert (0 < 2 ^ (e + 52)) as Hp by (apply Z.pow_pos_nonneg; lia).
  assert (Z.pos m' * 2 ^ (e' - (e + -52)) * 2 ^ (e + 52) = Z.pos m' * 2 ^ (e' + 104)) as Hx by (rewrite <- Z.mul_assoc, <- Z.pow_add_r by lia; do 2 f_equal; lia).
  set (x := Z.pos m' * 2 ^ (e' + 104)) in *. set (v := Z.pos m * 2 ^ (e + 52)) in *.
  assert (v * 4728779608739021 * (2 ^ 52 - 1) <= x * 2 ^ 52 <= v * 4728779608739021 * (2 ^ 52 + 1)) as Hxv by (rewrite Hmul in Hr; unfold v; nia).
  assert (w * 2 ^ 104 <= x) as Hlow by lia. destruct (as_u64_value m' e') as [Hval Hup]; [lia|]. fold x in Hval, Hup.
  assert (w <= as_u64 (S754_finite false m' e')) as Hge by (apply as_u64_bounds; [lia|exact Hlow|done]).
  assert (as_u64 (S754_finite false m' e') <= U64_MAX) as Hmax by (cbn [as_u64]; lia). split; [done|]. intros Hs.
  set (y := as_u64 (S754_finite false m' e')) in *. assert (100 * y <= 105 * w) as Hy by lia. split; [|done].
  assert (y < U64_MAX) as Hlt by (unfold U64_MAX; lia). specialize (Hup Hlt). lia.
Qed.

(** ** Sequences of events *)

Inductive event : Type := Sent | Ack (rtt : Duration) | EndAcks | Lost (bytes : Z) | Mtu (new_mtu : Z).
Definition apply_event (c : BrutalController) (ev : event) : BrutalController :=
  match ev with Sent => on_sent c | Ack rtt => on_ack rtt c | EndAcks => on_end_acks c | Lost b => on_congestion_event b c | Mtu m => on_mtu_update m c end.
Definition after (c : BrutalController) (evs : list event) : BrutalController := fold_left apply_event evs c.
Definition no_ack (ev : event) : Prop := match ev with Ack _ => False | _ => True end.
Definition controller_ok (c : BrutalController) : Prop := 0 <= cwnd c <= U64_MAX /\ 0 <= mtu c < 2 ^ 16.
Definition event_ok (ev : event) : Prop := match ev with Mtu m => 0 <= m < 2 ^ 16 | Lost b => 0 <= b | _ => True end.
Lemma as_u64_range x : 0 <= as_u64 x <= U64_MAX.
Proof.
  destruct x as [|[]| |[] m e]; cbn [as_u64]; try (unfold U64_MAX; lia). split; [|lia]. apply Z.min_glb; [unfold U64_MAX; lia|]. destruct (Z.leb_spec 0 e); [|apply Z.div_pos; lia].
  apply Z.mul_nonneg_nonneg; lia.
Qed.
Lemma apply_ok c ev : controller_ok c -> event_ok ev -> controller_ok (apply_event c ev) /\ target_rate (apply_event c ev) = target_rate c /\ (no_ack ev -> cwnd c <= cwnd (apply_event c ev)).
Proof.
  intros [Hw Hm] He. destruct ev as [|rtt| |b|m]; cbn [apply_event on_sent on_end_acks no_ack]; try (split; [by split|]; split; [done|]; intros _; apply Z.le_refl).
  - pose proof (as_u64_range (fmul (as_f64 (target_rate c)) (fmax (as_secs_f64 rtt) (decimal 1 100)))). split; [|done]. split; [|done]. unfold on_ack. cbn [cwnd set_cwnd mtu target_rate]. unfold U64_MAX in *. lia.
  - unfold on_congestion_event. destruct (0 <? b); [|split; [by split|]; split; [done|lia]]. destruct (boost_bounds (cwnd c) Hw) as [Hb _]. cbn. split; [|split; [done|lia]]. split; [cbn; lia|done].
Qed.
Lemma after_ok c evs : controller_ok c -> Forall event_ok evs -> controller_ok (after c evs) /\ target_rate (after c evs) = target_rate c /\ (Forall no_ack evs -> cwnd c <= cwnd (after c evs)).
Proof.
  intros Hc He. revert c Hc. induction He as [|ev evs Hev He IH]; intros c Hc; [cbn; split; [done|]; split; [done|lia]|]. cbn [after fold_left].
  destruct (apply_ok c ev Hc Hev) as (H1 & H2 & H3). destruct (IH _ H1) as (H4 & H5 & H6). split; [done|]. split; [unfold after in H5; congruence|].
  intros Hn. inversion Hn; subst. unfold after in H6. specialize (H3 H7). specialize (H6 H8). lia.
Qed.

(** The packet size the last [on_mtu_update] gave, 1200 before the first. *)
Definition last_mtu (evs : list event) : Z := fold_left (fun m ev => match ev with Mtu m' => m' | _ => m end) evs 1200.
Lemma after_mtu c evs : mtu (after c evs) = fold_left (fun m ev => match ev with Mtu m' => m' | _ => m end) evs (mtu c).
Proof.
  revert c. induction evs as [|ev evs IH]; intros c; [done|]. cbn [after fold_left]. change (fold_left apply_event evs (apply_event c ev)) with (after (apply_event c ev) evs).
  rewrite IH. f_equal. destruct ev as [| | |b|]; try done. cbn. unfold on_congestion_event. by destruct (0 <? b).
Qed.
(** The events that say nothing of losses or round trips. *)
Definition quiet (ev : event) : Prop := match ev with Sent | EndAcks | Mtu _ => True | Lost b => b = 0 | Ack _ => False end.

(** C29: The window of the congestion controller, at any time, that is after any
    sequence of events: it is in its 64 bits; an acknowledgement sets it to the target
    rate times the round trip (at least 10 ms), and at least two packets of the size
    last announced, whatever the losses before; an event that reports a loss
    multiplies it by 1.05, to the byte if it is below 2^40 bytes although the product
    is rounded twice and cut, and never lowers it; any other event leaves it; so until
    the next acknowledgement it never shrinks. *)
Theorem brutal_window rate evs :
  0 <= rate <= U64_MAX -> Forall event_ok evs ->
  let c := after (new rate) evs in
  0 <= window c <= U64_MAX /\
  (forall rtt, window (apply_event c (Ack rtt)) = Z.max (as_u64 (fmul (as_f64 rate) (fmax (as_secs_f64 rtt) (decimal 1 100)))) (2 * last_mtu evs)) /\
  (forall b, 0 < b -> window c <= window (apply_event c (Lost b)) <= U64_MAX /\
     (window c < 2 ^ 40 -> 105 * window c - 100 <= 100 * window (apply_event c (Lost b)) <= 105 * window c)) /\
  (forall ev, quiet ev -> window (apply_event c ev) = window c) /\
  (forall more, Forall event_ok more -> Forall no_ack more -> window c <= window (after c more)).
Proof.
  intros Hr He c. destruct (after_ok (new rate) evs) as (Hc & Ht & _); [split; [done|]; cbn; lia|done|]. fold c in Hc, Ht.
  split; [apply Hc|]. split; [intros rtt; cbn; rewrite Ht, Z.mul_comm; unfold c; by rewrite after_mtu|]. split; [|split].
  - intros b Hb. cbn [apply_event]. unfold on_congestion_event. rewrite (proj2 (Z.ltb_lt _ _)) by done. apply boost_bounds, Hc.
  - intros [| | |b|] Hq; try done. cbn in Hq. by subst b.
  - intros more Hm Hn. by destruct (after_ok c more Hc Hm) as (_ & _ & Hg); apply Hg.
Qed.
(** At 100 Mbit/s, with a round trip of 50 ms: after two losses the window is 1.05 of
    what one loss made it, and the next acknowledgement takes it back. *)
Lemma brutal_window_witness :
  let c := after (new DEFAULT_TARGET_RATE) [Mtu 1400; Ack {| secs := 0; nanos := 50000000 |}; Lost 100] in
  105 * window c - 100 <= 100 * window (apply_event c (Lost 1)) <= 105 * window c /\ window c = 656250 /\
  window (apply_event c (Ack {| secs := 0; nanos := 50000000 |})) = 625000.
Proof.
  destruct (brutal_window DEFAULT_TARGET_RATE [Mtu 1400; Ack {| secs := 0; nanos := 50000000 |}; Lost 100]) as (_ & Ha & Hl & _);
    [unfold DEFAULT_TARGET_RATE, U64_MAX; lia|repeat (apply Forall_cons; [cbn; lia|]); apply Forall_nil|]. cbv zeta.
  assert (window (after (new DEFAULT_TARGET_RATE) [Mtu 1400; Ack {| secs := 0; nanos := 50000000 |}; Lost 100]) = 656250) as Hw by (vm_compute; reflexivity).
  split; [apply Hl; [lia|rewrite Hw; lia]|]. split; [exact Hw|]. rewrite Ha. vm_compute. reflexivity.
Defined.
(** The comment says that at a loss of 5 percent the controller sends 105 percent of
    its target; without acknowledgements each loss counts again: twenty losses make
    it 265 percent. *)
Theorem losses_compound : window (after (new DEFAULT_TARGET_RATE) (replicate 1 (Lost 1))) = 13125000 /\ window (after (new DEFAULT_TARGET_RATE) (replicate 20 (Lost 1))) = 33166205.
Proof. vm_compute. by split. Qed.
