(* ===== verification/VecBuf.v ===== *)
(** * The chunked buffer of the TLS fork (orcax/rustls-fork/rustls/src/vecbuf.rs)

    A queue of bytes stored as a queue of byte vectors, through which all
    plaintext and TLS data of a connection passes.  The contract is the abstract
    queue at the end: every sequence of operations has results it allows.  ([read_buf]
    is compiled only with the unstable [read_buf] feature and is not modelled.) *)
From S2P Require Import Prelude.

Record ChunkVecBuffer : Type := { chunks : list bytes; limit : option nat }.

(** ** Operations *)

Definition new_buffer (limit : option nat) : ChunkVecBuffer := {| chunks := []; limit := limit |}.
Definition set_limit (new_limit : option nat) (b : ChunkVecBuffer) : ChunkVecBuffer :=
  {| chunks := chunks b; limit := new_limit |}.

Definition is_empty (b : ChunkVecBuffer) : bool := match chunks b with [] => true | _ => false end.
(** The loop of [len]. *)
Definition len (b : ChunkVecBuffer) : nat := fold_left (fun len ch => (len + length ch)%nat) (chunks b) 0%nat.
Definition is_full (b : ChunkVecBuffer) : bool := default false ((fun l => (l <? len b)%nat) <$> limit b).

(** [apply_limit]; subtraction of [nat] is [saturating_sub]. *)
Definition apply_limit (b : ChunkVecBuffer) (n : nat) : nat :=
  match limit b with Some l => Nat.min n (l - len b) | None => n end.

Definition append (bs : bytes) (b : ChunkVecBuffer) : nat * ChunkVecBuffer :=
  (length bs,
   if negb (bool_decide (bs = [])) then {| chunks := chunks b ++ [bs]; limit := limit b |} else b).
Definition append_limited_copy {E} (bs : bytes) (b : ChunkVecBuffer) : result E (nat * ChunkVecBuffer) :=
  let take := apply_limit b (length bs) in
  prefix ← slice bs 0 take;
  Ok (take, (append prefix b).2).

Definition pop (b : ChunkVecBuffer) : option bytes * ChunkVecBuffer :=
  match chunks b with
  | [] => (None, b)
  | c :: cs => (Some c, {| chunks := cs; limit := limit b |})
  end.

(** [consume]: drops whole chunks, then the front of the next. *)
Fixpoint consume_chunks (used : nat) (cs : list bytes) : list bytes :=
  match cs with
  | [] => []
  | c :: cs' => if (used <? length c)%nat then drop used c :: cs' else consume_chunks (used - length c) cs'
  end.
Definition consume (used : nat) (b : ChunkVecBuffer) : ChunkVecBuffer :=
  {| chunks := consume_chunks used (chunks b); limit := limit b |}.

(** [read] into a buffer of [cap] bytes; [out] is what has been written to it.
    The loop runs out of fuel only if a turn neither fills the buffer nor
    removes a chunk. *)
Fixpoint read_loop (fuel cap : nat) (out : bytes) (b : ChunkVecBuffer) : option (bytes * ChunkVecBuffer) :=
  match fuel with
  | O => None
  | S fuel' =>
      if (length out <? cap)%nat && negb (is_empty b) then
        match chunks b with
        | [] => None
        | c :: _ =>
            let used := Nat.min (length c) (cap - length out) in
            read_loop fuel' cap (out ++ take used c) (consume used b)
        end
      else Some (out, b)
  end.
Definition read_into (cap : nat) (b : ChunkVecBuffer) : option (bytes * ChunkVecBuffer) :=
  read_loop (S (length (chunks b))) cap [] b.

(** [write_to]: at most 64 slices are offered; [accept] is what
    [write_vectored] reports, an error as [None]. *)
Definition IOV_MAX : nat := 64.
Definition offered (b : ChunkVecBuffer) : bytes := concat (take IOV_MAX (chunks b)).
Definition write_to (accept : option nat) (b : ChunkVecBuffer) : option (nat * bytes) * ChunkVecBuffer :=
  if is_empty b then (Some (0%nat, []), b)
  else match accept with
       | None => (None, b)
       | Some used => (Some (used, take used (offered b)), consume used b)
       end.

(** ** The abstract queue *)

Record queue : Type := { contents : bytes; bound : option nat }.

(** Every operation a connection has on its buffers.  The writer of [write_to] is what
    [write_vectored] does with the slices it is offered: it fails, or reports how many
    bytes it took. *)
Inductive op : Type :=
| Append (bs : bytes)
| AppendLimited (bs : bytes)
| Pop
| Read (cap : nat)
| WriteTo (wr : list bytes -> option nat)
| SetLimit (l : option nat)
| ApplyLimit (n : nat)
| Len
| IsEmpty
| IsFull.
Inductive output : Type := Count (n : nat) | Bytes (b : bytes) | Popped (c : option bytes) | Wrote (n : nat) (sent : bytes) | Failed | Flag (f : bool) | Done.

Definition step_buffer (o : op) (b : ChunkVecBuffer) : option (output * ChunkVecBuffer) :=
  match o with
  | Append bs => let '(n, b') := append bs b in Some (Count n, b')
  | AppendLimited bs =>
      match append_limited_copy (E:=unit) bs b with Ok (n, b') => Some (Count n, b') | _ => None end
  | Pop => let '(c, b') := pop b in Some (Popped c, b')
  | Read cap => '(out, b') ← read_into cap b; Some (Bytes out, b')
  | WriteTo wr =>
      let '(r, b') := write_to (wr (take IOV_MAX (chunks b))) b in
      Some (match r with Some (n, sent) => Wrote n sent | None => Failed end, b')
  | SetLimit l => Some (Done, set_limit l b)
  | ApplyLimit n => Some (Count (apply_limit b n), b)
  | Len => Some (Count (len b), b)
  | IsEmpty => Some (Flag (is_empty b), b)
  | IsFull => Some (Flag (is_full b), b)
  end.

Definition limited (q : queue) (n : nat) : nat := match bound q with Some l => Nat.min n (l - length (contents q)) | None => n end.
Definition put (q : queue) (bs : bytes) : queue := {| contents := contents q ++ bs; bound := bound q |}.
Definition skip (q : queue) (n : nat) : queue := {| contents := drop n (contents q); bound := bound q |}.
(** What the queue allows.  Only the piece [pop] takes and the slices a writer sees
    are left open: a non-empty piece of the front, and at most 64 of them. *)
Inductive queue_step (q : queue) : op -> output -> queue -> Prop :=
| q_append bs : queue_step q (Append bs) (Count (length bs)) (put q bs)
| q_append_limited bs : queue_step q (AppendLimited bs) (Count (limited q (length bs))) (put q (take (limited q (length bs)) bs))
| q_pop_empty : contents q = [] -> queue_step q Pop (Popped None) q
| q_pop c rest : c <> [] -> contents q = c ++ rest -> queue_step q Pop (Popped (Some c)) (skip q (length c))
| q_read cap : queue_step q (Read cap) (Bytes (take cap (contents q))) (skip q cap)
| q_write_empty wr : contents q = [] -> queue_step q (WriteTo wr) (Wrote 0 []) q
| q_write wr slices rest n : slices <> [] -> (length slices <= IOV_MAX)%nat -> Forall (fun c => c <> []) slices -> contents q = concat slices ++ rest ->
    wr slices = Some n -> queue_step q (WriteTo wr) (Wrote n (take n (contents q))) (skip q n)
| q_write_failed wr slices rest : slices <> [] -> (length slices <= IOV_MAX)%nat -> Forall (fun c => c <> []) slices -> contents q = concat slices ++ rest ->
    wr slices = None -> queue_step q (WriteTo wr) Failed q
| q_set_limit l : queue_step q (SetLimit l) Done {| contents := contents q; bound := l |}
| q_apply_limit n : queue_step q (ApplyLimit n) (Count (limited q n)) q
| q_len : queue_step q Len (Count (length (contents q))) q
| q_is_empty : queue_step q IsEmpty (Flag (bool_decide (contents q = []))) q
| q_is_full : queue_step q IsFull (Flag (match bound q with Some l => (l <? length (contents q))%nat | None => false end)) q.
Inductive queue_run : list op -> queue -> list output -> queue -> Prop :=
| q_done q : queue_run [] q [] q
| q_next o ops q x q1 xs q2 : queue_step q o x q1 -> queue_run ops q1 xs q2 -> queue_run (o :: ops) q (x :: xs) q2.

Fixpoint run_buffer (ops : list op) (b : ChunkVecBuffer) : option (list output * ChunkVecBuffer) :=
  match ops with
  | [] => Some ([], b)
  | o :: ops' => '(x, b') ← step_buffer o b; '(xs, b'') ← run_buffer ops' b'; Some (x :: xs, b'')
  end.
(** The contract of a writer: it takes no more than it is offered. *)
Definition op_ok (o : op) : Prop := match o with WriteTo wr => forall slices n, wr slices = Some n -> (n <= length (concat slices))%nat | _ => True end.
(** The bytes an operation puts in, given its result, and those it takes out. *)
Definition bytes_in (ox : op * output) : bytes :=
  match ox with (Append bs, _) => bs | (AppendLimited bs, Count n) => take n bs | _ => [] end.
Definition bytes_out (x : output) : bytes := match x with Bytes b | Popped (Some b) | Wrote _ b => b | _ => [] end.

(** The simulation: the same bytes, no empty chunk. *)
Definition abstracts (b : ChunkVecBuffer) (q : queue) : Prop :=
  concat (chunks b) = contents q /\ limit b = bound q /\ Forall (fun c => c <> []) (chunks b).

(** ** Lemmas *)

Lemma len_concat b : len b = length (concat (chunks b)).
Proof.
  unfold len. assert (forall n, fold_left (fun len ch => (len + length ch)%nat) (chunks b) n = (n + length (concat (chunks b)))%nat) as H; [|apply H].
  induction (chunks b) as [|c cs IH]; intros n; cbn [fold_left concat length]; [lia|]. rewrite IH, length_app. lia.
Qed.

Lemma consume_chunks_spec used cs :
  Forall (fun c => c <> []) cs ->
  concat (consume_chunks used cs) = drop used (concat cs) /\ Forall (fun c => c <> []) (consume_chunks used cs).
Proof.
  intros Hcs. revert used. induction Hcs as [|c cs Hc Hcs IH]; intros used; cbn [consume_chunks concat].
  { rewrite drop_nil. split; [done|by apply Forall_nil]. }
  destruct (Nat.ltb_spec used (length c)).
  - cbn [concat]. rewrite drop_app_le by lia. split; [done|]. apply Forall_cons_iff. split; [|done].
    intros E. apply (f_equal length) in E. rewrite length_drop in E. cbn in E. lia.
  - rewrite drop_app_ge by lia. apply IH.
Qed.

Lemma read_loop_spec fuel cap out b :
  (length (chunks b) < fuel)%nat -> (length out <= cap)%nat -> Forall (fun c => c <> []) (chunks b) ->
  exists b', read_loop fuel cap out b = Some (out ++ take (cap - length out) (concat (chunks b)), b') /\
    concat (chunks b') = drop (cap - length out) (concat (chunks b)) /\ limit b' = limit b /\
    Forall (fun c => c <> []) (chunks b').
Proof.
  revert out b. induction fuel as [|fuel IH]; intros out b Hf Ho Hne; [lia|]. cbn [read_loop].
  destruct (Nat.ltb_spec (length out) cap) as [Hlt|Hge].
  2: { cbn [andb]. exists b. replace (cap - length out)%nat with 0%nat by lia. rewrite take_0, drop_0, app_nil_r. by repeat split. }
  destruct b as [[|c cs] l]; unfold is_empty; cbn [chunks andb negb].
  { exists {| chunks := []; limit := l |}. cbn [chunks concat limit]. rewrite take_nil, drop_nil, app_nil_r. by repeat split. }
  apply Forall_cons_iff in Hne as [Hc Hcs]. set (used := Nat.min (length c) (cap - length out)).
  unfold consume. cbn [chunks limit consume_chunks concat] in *. destruct (Nat.ltb_spec used (length c)) as [Hu|Hu].
  - assert (used = (cap - length out)%nat) as Hused by lia. rewrite Hused in *. destruct fuel as [|fuel]; [cbn in Hf; lia|].
    cbn [read_loop]. rewrite length_app, length_take. replace ((length out + Nat.min (cap - length out) (length c) <? cap)%nat) with false by lia.
    cbn [andb]. eexists. split; [by rewrite take_app_le by lia|]. cbn [chunks limit concat]. rewrite drop_app_le by lia.
    split; [done|]. split; [done|]. apply Forall_cons_iff. split; [|done]. intros E. apply (f_equal length) in E. rewrite length_drop in E. cbn in E. lia.
  - assert (used = length c) as Hused by lia. rewrite Hused, Nat.sub_diag, take_ge by lia.
    assert (consume_chunks 0 cs = cs) as ->.
    { destruct Hcs as [|c' cs' Hc' Hcs']; [done|]. cbn [consume_chunks]. destruct c'; [done|]. cbn. done. }
    destruct (IH (out ++ c) {| chunks := cs; limit := l |}) as (b' & Hr & Hcon & Hlim & Hne').
    { cbn in *. lia. } { rewrite length_app. lia. } { done. }
    exists b'. cbn [chunks limit] in *. rewrite length_app in Hr, Hcon. rewrite Hr, Hcon, take_app_ge, drop_app_ge by lia.
    rewrite <- app_assoc. replace (cap - length out - length c)%nat with (cap - (length out + length c))%nat by lia.
    split; [done|]. split; [done|]. by split.
Qed.

Lemma append_spec bs b q :
  abstracts b q -> abstracts (append bs b).2 {| contents := contents q ++ bs; bound := bound q |}.
Proof.
  intros (Hc & Hl & Hne). unfold append. cbn [snd]. case_bool_decide as Hb; cbn [negb].
  - subst bs. split; [cbn; by rewrite app_nil_r|]. by split.
  - split; cbn; [rewrite concat_app; cbn; by rewrite app_nil_r, Hc|]. split; [done|]. apply Forall_app. split; [done|]. by apply Forall_singleton.
Qed.

Lemma apply_limit_spec b q n :
  abstracts b q -> apply_limit b n = match bound q with Some l => Nat.min n (l - length (contents q)) | None => n end.
Proof. intros (Hc & Hl & _). unfold apply_limit. by rewrite Hl, len_concat, Hc. Qed.

Lemma abstracts_empty b q : abstracts b q -> (is_empty b = true <-> contents q = []).
Proof. intros (Hc & _ & Hne). unfold is_empty. rewrite <- Hc. destruct Hne as [|c cs Hcc _]; [done|]. destruct c; [done|]. cbn. split; discriminate. Qed.
Lemma consume_spec b q n : abstracts b q -> abstracts (consume n b) (skip q n).
Proof. intros (Hc & Hl & Hne). destruct (consume_chunks_spec n (chunks b) Hne) as [H1 H2]. split; [cbn; by rewrite H1, Hc|]. by split. Qed.
(** The slices offered are a front of the contents. *)
Lemma offered_front b q : abstracts b q -> is_empty b = false ->
  let slices := take IOV_MAX (chunks b) in slices <> [] /\ (length slices <= IOV_MAX)%nat /\ Forall (fun c => c <> []) slices /\
  contents q = concat slices ++ concat (drop IOV_MAX (chunks b)).
Proof.
  intros (Hc & _ & Hne) He slices. split; [subst slices; unfold is_empty in He; by destruct (chunks b)|]. split; [subst slices; rewrite length_take; lia|].
  split; [by apply Forall_take|]. subst slices. by rewrite <- Hc, <- concat_app, take_drop.
Qed.
Lemma write_refines wr b q : op_ok (WriteTo wr) -> abstracts b q ->
  exists x b' q', step_buffer (WriteTo wr) b = Some (x, b') /\ queue_step q (WriteTo wr) x q' /\ abstracts b' q'.
Proof.
  intros Hok Ha. cbn [step_buffer]. unfold write_to. destruct (is_empty b) eqn:He.
  { exists (Wrote 0 []), b, q. split; [done|]. split; [|done]. apply q_write_empty. by apply (abstracts_empty b). }
  destruct (offered_front b q Ha He) as (H1 & H2 & H3 & H4). destruct (wr _) as [n|] eqn:Hwr; eexists _, _, _; (split; [done|]).
  - split; [|by apply consume_spec]. specialize (Hok _ _ Hwr). replace (take n (offered b)) with (take n (contents q)); [by eapply q_write|]. by rewrite H4, take_app_le.
  - split; [|exact Ha]. by eapply q_write_failed.
Qed.
Lemma step_refines o b q :
  op_ok o -> abstracts b q -> exists x b' q', step_buffer o b = Some (x, b') /\ queue_step q o x q' /\ abstracts b' q'.
Proof.
  intros Hok Ha. pose proof Ha as (Hc & Hl & Hne). destruct o as [bs|bs| |cap|wr|l|n| | |]; [| | | |by apply write_refines|..]; cbn [step_buffer].
  - eexists _, _, _. split; [done|]. split; [constructor|]. by apply append_spec.
  - unfold append_limited_copy. rewrite (apply_limit_spec b q) by done. fold (limited q (length bs)).
    assert (limited q (length bs) <= length bs)%nat by (unfold limited; destruct (bound q); lia).
    rewrite slice_ok by lia. rewrite Nat.sub_0_r, drop_0. cbn [mbind result_bind]. eexists _, _, _. split; [done|]. split; [constructor|]. by apply append_spec.
  - unfold pop. destruct b as [[|c cs] lim]; cbn [chunks limit] in *; (eexists _, _, _; split; [done|]); [split; [by constructor|done]|].
    apply Forall_cons_iff in Hne as [Hc1 Hcs]. split; [by apply (q_pop _ _ (concat cs))|]. split; [cbn; by rewrite <- Hc; cbn; rewrite drop_app_length|by split].
  - destruct (read_loop_spec (S (length (chunks b))) cap [] b) as (b' & Hr & Hcon & Hlim & Hne'); [lia|cbn; lia|done|].
    unfold read_into. rewrite Hr. cbn [mbind option_bind length]. rewrite Nat.sub_0_r in *. rewrite Hc in *.
    eexists _, _, _. split; [done|]. split; [constructor|]. split; [done|]. split; [by rewrite Hlim|done].
  - eexists _, _, _. split; [done|]. split; [constructor|]. by split.
  - eexists _, _, _. split; [done|]. split; [|done]. rewrite (apply_limit_spec b q) by done. constructor.
  - eexists _, _, _. split; [done|]. split; [|done]. rewrite len_concat, Hc. constructor.
  - eexists _, _, _. split; [done|]. split; [|done]. replace (is_empty b) with (bool_decide (contents q = [])); [constructor|].
    destruct (is_empty b) eqn:He; [apply bool_decide_eq_true_2|apply bool_decide_eq_false_2]; rewrite <- (abstracts_empty b q Ha); congruence.
  - eexists _, _, _. split; [done|]. split; [|done]. replace (is_full b) with (match bound q with Some l => (l <? length (contents q))%nat | None => false end); [constructor|].
    unfold is_full. rewrite Hl, len_concat, Hc. by destruct (bound q).
Qed.
Lemma run_refines ops b q : Forall op_ok ops -> abstracts b q ->
  exists xs b' q', run_buffer ops b = Some (xs, b') /\ queue_run ops q xs q' /\ abstracts b' q'.
Proof.
  intros Hok. revert b q. induction Hok as [|o ops Ho _ IH]; intros b q Ha; cbn [run_buffer]; [exists [], b, q; split; [done|]; by split; [constructor|]|].
  destruct (step_refines o b q Ho Ha) as (x & b1 & q1 & -> & Hs & Ha1). cbn [mbind option_bind]. destruct (IH b1 q1 Ha1) as (xs & b2 & q2 & -> & Hr & Ha2).
  exists (x :: xs), b2, q2. split; [done|]. split; [by econstructor|done].
Qed.
(** Nothing is lost, doubled or reordered. *)
Lemma step_conserves q o x q' : queue_step q o x q' -> contents q ++ bytes_in (o, x) = bytes_out x ++ contents q'.
Proof.
  intros Hs. destruct Hs as [bs|bs| |c rest Hne Hq|cap|wr Hq|wr slices rest n _ _ _ Hq Hn| | | | | |]; cbn [bytes_in bytes_out put skip contents app]; rewrite ?app_nil_r, ?take_drop; try done.
  by rewrite Hq, drop_app_length.
Qed.
Lemma run_conserves ops q xs q' : queue_run ops q xs q' -> contents q ++ concat (map bytes_in (combine ops xs)) = concat (map bytes_out xs) ++ contents q'.
Proof.
  induction 1 as [q|o ops q x q1 xs q2 Hs _ IH]; cbn [combine map concat]; [by rewrite app_nil_r|]. rewrite app_assoc, (step_conserves _ _ _ _ Hs), <- !app_assoc. by rewrite IH.
Qed.

(** ** The contract *)


(** Sending from the buffer loses nothing: what the writer accepts is a prefix
    of the contents, in order, and exactly the rest stays; a failed write leaves
    the buffer as it was; and an operation under a limit never takes the
    contents past it. *)
Theorem vecbuf_write_to_conserves b q used :
  abstracts b q -> (used <= length (offered b))%nat ->
  write_to None b = (if is_empty b then Some (0%nat, []) else None, b) /\
  (exists sent, (write_to (Some used) b).1 = Some (length sent, sent) /\
     abstracts (write_to (Some used) b).2 {| contents := drop (length sent) (contents q); bound := bound q |} /\
     sent = take (length sent) (contents q)) /\
  (forall bs n b' l, append_limited_copy (E:=unit) bs b = Ok (n, b') -> limit b = Some l ->
     (len b' <= Nat.max l (len b))%nat).
Proof.
  intros Ha Hu. pose proof Ha as (Hc & Hl & Hne). split; [by unfold write_to; destruct (is_empty b)|]. split.
  - unfold write_to. destruct (is_empty b) eqn:He.
    + exists []. cbn. split; [done|]. split; [|by rewrite take_0]. by rewrite drop_0.
    + assert (length (take used (offered b)) = used) as Hlen by (rewrite length_take; lia).
      exists (take used (offered b)). rewrite Hlen. cbn [fst snd]. split; [done|].
      assert (concat (chunks b) = offered b ++ concat (drop IOV_MAX (chunks b))) as Hsplit
        by (unfold offered; rewrite <- concat_app; by rewrite take_drop).
      split; [|by rewrite <- Hc, Hsplit, take_app_le].
      destruct (consume_chunks_spec used (chunks b) Hne) as [H1 H2]. split; [cbn; by rewrite H1, Hc|]. by split.
  - intros bs n b' l Hap Hlim. unfold append_limited_copy in Hap. apply bind_ok_inv in Hap as (pre & Hsl & Hap).
    apply slice_inv in Hsl as (_ & _ & Hpl). assert (b' = (append pre b).2) as -> by congruence.
    pose proof (append_spec pre b q Ha) as (Hc' & _). rewrite !len_concat, Hc', Hc. cbn [contents]. rewrite length_app.
    unfold apply_limit in Hpl. rewrite Hlim, len_concat, Hc in Hpl. lia.
Qed.

(** ** Witnesses *)

Definition ex_buffer : ChunkVecBuffer := {| chunks := [[1; 2; 3]; [4; 5]]; limit := Some 6%nat |}.

Lemma vecbuf_write_to_conserves_witness :
  exists sent, (write_to (Some 4%nat) ex_buffer).1 = Some (length sent, sent) /\ sent = take (length sent) [1; 2; 3; 4; 5].
Proof.
  destruct (vecbuf_write_to_conserves ex_buffer {| contents := [1; 2; 3; 4; 5]; bound := Some 6%nat |} 4) as (_ & (sent & H1 & _ & H2) & _).
  - split; [reflexivity|]. split; [reflexivity|]. by apply (bool_decide_unpack _).
  - cbn. lia.
  - exists sent. by split.
Defined.

(** A writer that takes two bytes at a time, between appends, a read and a pop. *)
Definition two_at_a_time (slices : list bytes) : option nat := Some (Nat.min 2 (length (concat slices))).
Definition ex_ops : list op := [Append [1; 2; 3]; AppendLimited [4; 5; 6; 7]; WriteTo two_at_a_time; Read 2; Pop; WriteTo (fun _ => None); Len].
