(* ===== verification/SessionCache.v ===== *)
(** * Session resumption in the TLS fork
    (orcax/rustls-fork/rustls/src/limited_cache.rs and client/handy.rs)

    The bounded cache with first-in first-out eviction, and the client's session
    store on top of it, which the client binary configures with
    [Resumption::in_memory_sessions(8)]. *)
From S2P Require Import Prelude.

(** ** The bounded cache *)

Module Limited.
Section cache.
Context {K V : Type} `{Countable K}.

(** [capacity] is that of the deque [oldest]. *)
Record LimitedCache : Type := { map : gmap K V; oldest : list K; capacity : nat }.

(** [VecDeque::with_capacity] allocates what is asked for; a full deque grows to
    twice its size, and to at least four elements. *)
Definition new (capacity_order_of_magnitude : nat) : LimitedCache :=
  {| map := ∅; oldest := []; capacity := capacity_order_of_magnitude |}.
Definition grown (len cap : nat) : nat := if (len =? cap)%nat then Nat.max (2 * cap) 4 else cap.

(** The tail both insertions share: a new key is queued, and the oldest one is
    dropped when the queue has become full. *)
Definition push_and_evict (k : K) (m : gmap K V) (c : LimitedCache) : LimitedCache :=
  let cap := grown (length (oldest c)) (capacity c) in
  let q := oldest c ++ [k] in
  if (cap =? length q)%nat then
    match q with
    | oldest_key :: q' => {| map := delete oldest_key m; oldest := q'; capacity := cap |}
    | [] => {| map := m; oldest := q; capacity := cap |}
    end
  else {| map := m; oldest := q; capacity := cap |}.

Definition insert (k : K) (v : V) (c : LimitedCache) : LimitedCache :=
  match map c !! k with
  | Some _ => {| map := <[k := v]> (map c); oldest := oldest c; capacity := capacity c |}
  | None => push_and_evict k (<[k := v]> (map c)) c
  end.

Definition get_or_insert_default_and_edit (default_value : V) (k : K) (edit : V -> V) (c : LimitedCache) : LimitedCache :=
  match map c !! k with
  | Some v => {| map := <[k := edit v]> (map c); oldest := oldest c; capacity := capacity c |}
  | None => push_and_evict k (<[k := edit default_value]> (map c)) c
  end.

Definition get (k : K) (c : LimitedCache) : option V := map c !! k.
(** [get_mut] and the edit its caller makes. *)
Definition get_mut (k : K) (edit : V -> V) (c : LimitedCache) : LimitedCache :=
  {| map := alter edit k (map c); oldest := oldest c; capacity := capacity c |}.

Fixpoint remove_first (k : K) (l : list K) : list K :=
  match l with
  | [] => []
  | x :: l' => if decide (x = k) then l' else x :: remove_first k l'
  end.
Definition remove (k : K) (c : LimitedCache) : option V * LimitedCache :=
  match map c !! k with
  | Some v => (Some v, {| map := delete k (map c); oldest := remove_first k (oldest c); capacity := capacity c |})
  | None => (None, c)
  end.

(** ** Invariant *)

Record cache_inv (c : LimitedCache) : Prop := {
  cinv_nodup : NoDup (oldest c);
  cinv_keys k : k ∈ oldest c <-> is_Some (map c !! k);
  cinv_room : (length (oldest c) < capacity c)%nat \/ (capacity c = 0%nat /\ oldest c = [])
}.

Inductive cache_step (dv : V) : LimitedCache -> LimitedCache -> Prop :=
| step_insert c k v : cache_step dv c (insert k v c)
| step_edit c k f : cache_step dv c (get_or_insert_default_and_edit dv k f c)
| step_mut c k f : cache_step dv c (get_mut k f c)
| step_remove c k : cache_step dv c (remove k c).2.

Lemma new_inv n : cache_inv (new n).
Proof.
  split; cbn; [by apply NoDup_nil_2| |].
  - intros k. rewrite lookup_empty. split; [intros Hk; by apply elem_of_nil in Hk|]. by intros [? ?].
  - destruct n; [by right|]. left. lia.
Qed.

Lemma replace_inv c k v v' :
  cache_inv c -> map c !! k = Some v ->
  cache_inv {| map := <[k := v']> (map c); oldest := oldest c; capacity := capacity c |}.
Proof.
  intros [H1 H2 H3] Hk. split; cbn; [done| |done]. intros k'. rewrite H2. destruct (decide (k = k')) as [<-|Hne].
  - rewrite lookup_insert_eq, Hk. split; by eexists.
  - by rewrite lookup_insert_ne.
Qed.

(** What is in the deque after an insertion, and which key was dropped. *)
Lemma push_cases k m c :
  cache_inv c ->
  (push_and_evict k m c = {| map := m; oldest := oldest c ++ [k]; capacity := grown (length (oldest c)) (capacity c) |} /\
   (S (length (oldest c)) < grown (length (oldest c)) (capacity c))%nat) \/
  (exists o q, oldest c ++ [k] = o :: q /\ capacity c = S (length q) /\
   push_and_evict k m c = {| map := delete o m; oldest := q; capacity := capacity c |}).
Proof.
  intros [_ _ H3]. unfold push_and_evict. set (cap := grown _ _).
  assert (S (length (oldest c)) <= cap)%nat as Hcap.
  { subst cap. unfold grown. destruct (Nat.eqb_spec (length (oldest c)) (capacity c)); [|destruct H3 as [|[Hc Ho]]; [lia|rewrite Hc, Ho in *; done]].
    destruct H3 as [|[Hc Ho]]; [lia|]. rewrite Hc, Ho. cbn. lia. }
  destruct (Nat.eqb_spec cap (length (oldest c ++ [k]))) as [Heq|Hneq]; rewrite length_app in *; cbn [length] in *.
  - right. destruct (oldest c ++ [k]) as [|o q] eqn:Hq; [by destruct (oldest c)|]. exists o, q. split; [done|].
    assert (length (oldest c ++ [k]) = S (length q)) as Hl by by rewrite Hq. rewrite length_app in Hl. cbn in Hl.
    assert (cap = capacity c) as ->; [|split; [lia|done]]. subst cap. unfold grown in *.
    destruct (Nat.eqb_spec (length (oldest c)) (capacity c)); [|done]. destruct H3 as [|[Hc Ho]]; [lia|].
    rewrite Hc, Ho in *. cbn in *. lia.
  - left. split; [done|]. lia.
Qed.

Lemma push_inv k v c :
  cache_inv c -> map c !! k = None -> cache_inv (push_and_evict k (<[k := v]> (map c)) c).
Proof.
  intros Hinv Hk. pose proof Hinv as [H1 H2 H3].
  assert (k ∉ oldest c) as Hnk by (rewrite H2, Hk; by intros [? ?]).
  assert (NoDup (oldest c ++ [k])) as Hnd.
  { apply list.NoDup_app. split; [done|]. split; [|by apply NoDup_singleton]. intros x Hx Hx'. apply list_elem_of_singleton in Hx' as ->. done. }
  assert (Hkeys : forall x, x ∈ oldest c ++ [k] <-> is_Some (<[k := v]> (map c) !! x)).
  { intros x. rewrite elem_of_app, list_elem_of_singleton, H2. destruct (decide (k = x)) as [<-|Hne].
    - rewrite lookup_insert_eq. split; [by eexists|by right].
    - rewrite lookup_insert_ne by done. split; [by intros [?| ->]|by left]. }
  destruct (push_cases k (<[k := v]> (map c)) c Hinv) as [[-> Hroom]|(o & q & Hq & Hcap & ->)].
  - split; cbn; [done|done|]. left. rewrite length_app. cbn. lia.
  - rewrite Hq in Hnd, Hkeys. apply list.NoDup_cons in Hnd as [Ho Hnd]. split; cbn; [done| |left; lia].
    intros x. destruct (decide (o = x)) as [<-|Hne].
    + rewrite lookup_delete_eq. split; [by intros|by intros [? ?]].
    + rewrite lookup_delete_ne, <- Hkeys, elem_of_cons by done. split; [by right|by intros [|]].
Qed.

Lemma remove_first_spec k l :
  NoDup l -> NoDup (remove_first k l) /\ (forall x, x ∈ remove_first k l <-> x ∈ l /\ x <> k) /\ (length (remove_first k l) <= length l)%nat.
Proof.
  induction 1 as [|x l Hx Hl (IH1 & IH2 & IH3)]; cbn [remove_first].
  - split; [by apply NoDup_nil_2|]. split; [|done]. intros x. split; [intros Hx; by apply elem_of_nil in Hx|by intros [Hx _]].
  - destruct (decide (x = k)) as [->|Hne].
    + split; [done|]. split; [|cbn; lia]. intros y. rewrite elem_of_cons. split; [|naive_solver].
      intros Hy. split; [by right|]. by intros ->.
    + split; [apply list.NoDup_cons; split; [|done]; rewrite IH2; naive_solver|]. split; [|cbn; lia].
      intros y. rewrite !elem_of_cons, IH2. naive_solver.
Qed.

Lemma step_inv dv c c' : cache_inv c -> cache_step dv c c' -> cache_inv c'.
Proof.
  intros Hinv Hs. destruct Hs as [c k v|c k f|c k f|c k].
  - unfold insert. destruct (map c !! k) eqn:Hk; [by eapply replace_inv|by apply push_inv].
  - unfold get_or_insert_default_and_edit. destruct (map c !! k) eqn:Hk; [by eapply replace_inv|by apply push_inv].
  - destruct Hinv as [H1 H2 H3]. split; cbn; [done| |done]. intros x. rewrite H2.
    destruct (decide (k = x)) as [<-|]; [|by rewrite lookup_alter_ne]. rewrite lookup_alter_eq. by destruct (map c !! k).
  - unfold remove. destruct (map c !! k) eqn:Hk; [|done]. destruct Hinv as [H1 H2 H3].
    destruct (remove_first_spec k (oldest c) H1) as (G1 & G2 & G3). split; cbn; [done| |].
    + intros x. rewrite G2, H2. destruct (decide (k = x)) as [<-|].
      * rewrite lookup_delete_eq. split; [by intros [_ ?]|by intros [? ?]].
      * rewrite lookup_delete_ne by done. naive_solver.
    + destruct H3 as [H3|[H3 H4]]; [left; lia|right; by rewrite H4].
Qed.

Lemma step_capacity dv c c' :
  cache_inv c -> cache_step dv c c' -> capacity c' = if (capacity c =? 0)%nat then capacity c' else capacity c.
Proof.
  intros Hinv Hs. destruct (Nat.eqb_spec (capacity c) 0) as [|Hc]; [done|].
  assert (forall k m, capacity (push_and_evict k m c) = capacity c) as Hp.
  { intros k m. destruct (push_cases k m c Hinv) as [[-> _]|(o & q & _ & _ & ->)]; [|done]. cbn. unfold grown.
    destruct (Nat.eqb_spec (length (oldest c)) (capacity c)); [|done]. destruct Hinv as [_ _ [|[? _]]]; lia. }
  destruct Hs as [c k v|c k f|c k f|c k]; [| |done|].
  - unfold insert. destruct (map c !! k); [done|]. apply Hp.
  - unfold get_or_insert_default_and_edit. destruct (map c !! k); [done|]. apply Hp.
  - unfold remove. by destruct (map c !! k).
Qed.

Lemma size_oldest c : cache_inv c -> size (map c) = length (oldest c).
Proof.
  intros [H1 H2 _]. rewrite <- (size_dom (D:=gset K)), <- (size_list_to_set (C:=gset K) (oldest c)) by done.
  f_equal. apply set_eq. intros k. by rewrite elem_of_dom, elem_of_list_to_set, H2.
Qed.

Lemma reachable_inv dv n c :
  rtc (cache_step dv) (new n) c -> cache_inv c /\ (n <> 0%nat -> capacity c = n).
Proof.
  revert c. apply rtc_ind_r; [split; [apply new_inv|done]|].
  intros c c' _ Hs [Hinv Hcap]. split; [by eapply step_inv|]. intros Hn. specialize (Hcap Hn).
  pose proof (step_capacity dv c c' Hinv Hs) as Hc. rewrite Hcap in Hc. by rewrite (proj2 (Nat.eqb_neq _ _) Hn) in Hc.
Qed.

(** The cache stays within its capacity and consistent: after any sequence of
    insertions, edits and removals the queue of keys holds exactly the stored
    keys, each once, and a cache made for [n > 0] entries holds fewer than [n]. *)
Theorem limited_cache_bounded dv n c :
  rtc (cache_step dv) (new n) c ->
  NoDup (oldest c) /\ (forall k, k ∈ oldest c <-> is_Some (get k c)) /\ size (map c) = length (oldest c) /\
  (n <> 0%nat -> (size (map c) < n)%nat).
Proof.
  intros Hr. destruct (reachable_inv dv n c Hr) as [Hinv Hcap]. pose proof Hinv as [H1 H2 H3].
  split; [done|]. split; [done|]. split; [by apply size_oldest|].
  intros Hn. rewrite size_oldest, <- (Hcap Hn) by done. destruct H3 as [|[H3 _]]; [done|]. rewrite (Hcap Hn) in H3. lia.
Qed.

(** Insertion and eviction: in a cache with room for two or more, an inserted
    value is found again, and every other entry is kept, except that a new key
    in a full queue costs the entry that was inserted first. *)
Lemma limited_cache_insert_get c k v :
  cache_inv c -> capacity c <> 1%nat ->
  get k (insert k v c) = Some v /\
  forall k', k' <> k -> get k' (insert k v c) = get k' c \/
    (get k' (insert k v c) = None /\ head (oldest c) = Some k' /\ S (length (oldest c)) = capacity c /\ get k c = None).
Proof.
  intros Hinv Hcap. unfold get, insert. destruct (map c !! k) as [v0|] eqn:Hk; cbn [map].
  { rewrite lookup_insert_eq. split; [done|]. intros k' Hne. left. by rewrite lookup_insert_ne. }
  destruct (push_cases k (<[k := v]> (map c)) c Hinv) as [[-> _]|(o & q & Hq & Hc & ->)]; cbn [map].
  { rewrite lookup_insert_eq. split; [done|]. intros k' Hne. left. by rewrite lookup_insert_ne. }
  destruct (oldest c) as [|o' os] eqn:Ho; cbn in Hq; injection Hq as -> <-; [done|].
  assert (o <> k) as Hok. { intros <-. destruct Hinv as [_ H2 _]. specialize (H2 o). rewrite Hk, Ho in H2. destruct H2 as [H2 _]. destruct H2 as [? ?]; [by left|done]. }
  split; [by rewrite lookup_delete_ne, lookup_insert_eq|]. intros k' Hne. destruct (decide (o = k')) as [<-|Hne'].
  - right. rewrite lookup_delete_eq. split; [done|]. split; [done|]. split; [|done]. rewrite Hc, length_app. cbn. lia.
  - left. by rewrite lookup_delete_ne, lookup_insert_ne.
Qed.

Lemma limited_cache_one_empty dv c : rtc (cache_step dv) (new 1) c -> map c = ∅.
Proof.
  intros Hr. destruct (reachable_inv dv 1 c Hr) as [Hinv Hcap]. apply map_size_empty_inv.
  rewrite size_oldest by done. destruct Hinv as [_ _ H3]. rewrite Hcap in H3 by done. destruct H3 as [|[]]; lia.
Qed.
End cache.
Arguments LimitedCache K V {_ _}.
End Limited.
Import Limited.

(** ** The client's session store *)

Module Sessions.
Section store.
(** Key-exchange groups and the two kinds of stored sessions are opaque here. *)
Context {Group Tls12 Tls13 : Type}.

Definition MAX_TLS13_TICKETS_PER_SERVER : nat := 8.

Record ServerData : Type := {
  data_kx_hint : option Group;
  data_tls12 : option Tls12;
  data_tls13 : list Tls13          (* oldest first *)
}.
Definition default_data : ServerData := {| data_kx_hint := None; data_tls12 := None; data_tls13 := [] |}.

(** Keys are server names. *)
Definition ClientSessionMemoryCache : Type := LimitedCache bytes ServerData.

(** [new]; [usize] addition saturates. *)
Definition max_servers (size : nat) : nat :=
  Z.to_nat (Z.min (Z.of_nat size + (Z.of_nat MAX_TLS13_TICKETS_PER_SERVER - 1)) (2 ^ 64 - 1) / Z.of_nat MAX_TLS13_TICKETS_PER_SERVER).
Definition new_store (size : nat) : ClientSessionMemoryCache := Limited.new (max_servers size).

Definition set_kx_hint (server_name : bytes) (group : Group) (c : ClientSessionMemoryCache) : ClientSessionMemoryCache :=
  get_or_insert_default_and_edit default_data server_name
    (fun d => {| data_kx_hint := Some group; data_tls12 := data_tls12 d; data_tls13 := data_tls13 d |}) c.
Definition kx_hint (server_name : bytes) (c : ClientSessionMemoryCache) : option Group :=
  d ← get server_name c; data_kx_hint d.

Definition set_tls12_session (server_name : bytes) (value : Tls12) (c : ClientSessionMemoryCache) : ClientSessionMemoryCache :=
  get_or_insert_default_and_edit default_data server_name
    (fun d => {| data_kx_hint := data_kx_hint d; data_tls12 := Some value; data_tls13 := data_tls13 d |}) c.
Definition tls12_session (server_name : bytes) (c : ClientSessionMemoryCache) : option Tls12 :=
  d ← get server_name c; data_tls12 d.
Definition remove_tls12_session (server_name : bytes) (c : ClientSessionMemoryCache) : ClientSessionMemoryCache :=
  get_mut server_name (fun d => {| data_kx_hint := data_kx_hint d; data_tls12 := None; data_tls13 := data_tls13 d |}) c.

(** The ticket queue has the capacity it was made with. *)
Definition push_ticket (value : Tls13) (l : list Tls13) : list Tls13 :=
  (if (length l =? MAX_TLS13_TICKETS_PER_SERVER)%nat then drop 1 l else l) ++ [value].
Definition insert_tls13_ticket (server_name : bytes) (value : Tls13) (c : ClientSessionMemoryCache) : ClientSessionMemoryCache :=
  get_or_insert_default_and_edit default_data server_name
    (fun d => {| data_kx_hint := data_kx_hint d; data_tls12 := data_tls12 d; data_tls13 := push_ticket value (data_tls13 d) |}) c.

(** [take_tls13_ticket]: [pop_back]. *)
Definition take_tls13_ticket (server_name : bytes) (c : ClientSessionMemoryCache) : option Tls13 * ClientSessionMemoryCache :=
  (d ← get server_name c; list.last (data_tls13 d),
   get_mut server_name (fun d => {| data_kx_hint := data_kx_hint d; data_tls12 := data_tls12 d;
                                    data_tls13 := removelast (data_tls13 d) |}) c).

(** ** Properties *)

Inductive store_step : ClientSessionMemoryCache -> ClientSessionMemoryCache -> Prop :=
| st_kx c n g : store_step c (set_kx_hint n g c)
| st_tls12 c n v : store_step c (set_tls12_session n v c)
| st_remove12 c n : store_step c (remove_tls12_session n c)
| st_insert13 c n v : store_step c (insert_tls13_ticket n v c)
| st_take13 c n : store_step c (take_tls13_ticket n c).2.

Lemma store_cache_step c c' : store_step c c' -> cache_step default_data c c'.
Proof. intros [|c0 n v|c0 n|c0 n v|c0 n]; [apply step_edit|apply step_edit|apply step_mut|apply step_edit|apply step_mut]. Qed.
Lemma store_reachable n c : rtc store_step (new_store n) c -> rtc (cache_step default_data) (Limited.new (max_servers n)) c.
Proof. intros Hr. eapply rtc_subrel; [|exact Hr]. intros x y. apply store_cache_step. Qed.

Definition tickets (server_name : bytes) (c : ClientSessionMemoryCache) : list Tls13 :=
  from_option data_tls13 [] (get server_name c).

Definition short_data (d : ServerData) : Prop := (length (data_tls13 d) <= MAX_TLS13_TICKETS_PER_SERVER)%nat.
Definition short_store (c : ClientSessionMemoryCache) : Prop := map_Forall (fun _ d => short_data d) (map c).

Lemma push_ticket_length v l : (length l <= MAX_TLS13_TICKETS_PER_SERVER)%nat -> (length (push_ticket v l) <= MAX_TLS13_TICKETS_PER_SERVER)%nat.
Proof.
  unfold push_ticket, MAX_TLS13_TICKETS_PER_SERVER. intros Hl. rewrite length_app. cbn [length].
  destruct (Nat.eqb_spec (length l) 8); [rewrite length_drop|]; lia.
Qed.

Lemma edit_short name f c :
  short_store c -> (forall d, short_data d -> short_data (f d)) -> short_store (get_or_insert_default_and_edit default_data name f c).
Proof.
  intros Hc Hf. unfold get_or_insert_default_and_edit. destruct (map c !! name) as [d|] eqn:Hn.
  - apply map_Forall_insert_2; [|done]. apply Hf. by apply (Hc name).
  - assert (short_store {| map := <[name := f default_data]> (map c); oldest := oldest c; capacity := capacity c |}) as Hs.
    { apply map_Forall_insert_2; [|done]. apply Hf. unfold short_data, MAX_TLS13_TICKETS_PER_SERVER. cbn. lia. }
    unfold push_and_evict. destruct (_ =? _)%nat; [|exact Hs]. destruct (oldest c ++ [name]); [exact Hs|].
    intros i x Hi. cbn in Hi. apply lookup_delete_Some in Hi as [_ Hi]. by apply (Hs i).
Qed.
Lemma mut_short name f c : short_store c -> (forall d, short_data d -> short_data (f d)) -> short_store (get_mut name f c).
Proof.
  intros Hc Hf i x Hi. cbn in Hi. apply lookup_alter_Some in Hi as [(<- & d & Hd & ->)|(_ & Hi)]; [|by apply (Hc i)].
  apply Hf. by apply (Hc name).
Qed.
Lemma removelast_length {A} (l : list A) : (length (removelast l) <= length l)%nat.
Proof. rewrite removelast_firstn_len, length_firstn. lia. Qed.

Lemma store_short n c : rtc store_step (new_store n) c -> short_store c.
Proof.
  revert c. apply rtc_ind_r; [apply map_Forall_empty|].
  intros c c' _ Hs Hc. destruct Hs as [c0 nm g|c0 nm v|c0 nm|c0 nm v|c0 nm].
  - by apply edit_short.
  - by apply edit_short.
  - by apply mut_short.
  - apply edit_short; [done|]. intros d Hd. by apply push_ticket_length.
  - apply mut_short; [done|]. intros d Hd. unfold short_data in *. cbn. pose proof (removelast_length (data_tls13 d)). lia.
Qed.

Lemma edit_get name f (c : ClientSessionMemoryCache) :
  cache_inv c -> capacity c <> 1%nat ->
  get name (get_or_insert_default_and_edit default_data name f c) = Some (f (default default_data (get name c))).
Proof.
  intros Hinv Hcap. destruct (limited_cache_insert_get c name (f (default default_data (get name c))) Hinv Hcap) as [H _].
  unfold get, insert, get_or_insert_default_and_edit in *. by destruct (map c !! name) as [d|].
Qed.

(** Tickets are used once, newest first: in a store for at least nine sessions
    a ticket that was just stored is the next one taken, taking it removes it
    and leaves the older tickets, of which at most eight are kept per server. *)
Theorem ticket_taken_once n c name v :
  rtc store_step (new_store n) c -> (9 <= n)%nat -> Z.of_nat n < 2 ^ 63 ->
  let '(t, c') := take_tls13_ticket name (insert_tls13_ticket name v c) in
  t = Some v /\
  tickets name c' = (if (length (tickets name c) =? 8)%nat then drop 1 (tickets name c) else tickets name c) /\
  (length (tickets name c) <= 8)%nat.
Proof.
  intros Hr Hn Hmax. pose proof (store_short n c Hr) as Hs. apply store_reachable in Hr.
  destruct (reachable_inv default_data (max_servers n) c Hr) as [Hinv Hcap].
  assert (2 <= max_servers n)%nat as Hms.
  { unfold max_servers, MAX_TLS13_TICKETS_PER_SERVER. rewrite Z.min_l by lia.
    assert (2 <= (Z.of_nat n + (Z.of_nat 8 - 1)) / Z.of_nat 8) by (apply Z.div_le_lower_bound; lia). lia. }
  unfold take_tls13_ticket, insert_tls13_ticket, tickets.
  match goal with |- context [get_or_insert_default_and_edit default_data name ?f c] =>
    pose proof (edit_get name f c Hinv ltac:(lia)) as Hg; set (c1 := get_or_insert_default_and_edit default_data name f c) in * end.
  rewrite Hg. cbn [mbind option_bind data_tls13]. unfold push_ticket. split; [by rewrite last_snoc|]. split.
  - unfold get, get_mut in *. cbn [map]. rewrite lookup_alter_eq, Hg. cbn [fmap option_fmap option_map from_option data_tls13].
    unfold push_ticket. rewrite removelast_last. by destruct (map c !! name).
  - destruct (get name c) as [d|] eqn:Hd; [|cbn; lia]. by apply (Hs name).
Qed.

(** The store the client binary configures never resumes anything:
    [in_memory_sessions(8)] makes room for one server, and a cache of capacity
    one drops every entry as it is inserted, so that after any use no ticket, no
    TLS 1.2 session and no key-exchange hint is ever found. *)
Theorem eight_sessions_store_nothing c :
  rtc store_step (new_store 8) c ->
  forall name, (take_tls13_ticket name c).1 = None /\ tls12_session name c = None /\ kx_hint name c = None.
Proof.
  intros Hr%store_reachable name. change (max_servers 8) with 1%nat in Hr.
  pose proof (limited_cache_one_empty default_data c Hr) as He.
  unfold take_tls13_ticket, tls12_session, kx_hint, get. by rewrite He, lookup_empty.
Qed.
End store.
End Sessions.

(** ** Witnesses *)

Import Sessions.

Lemma limited_cache_bounded_witness :
  exists c : LimitedCache Z Z, rtc (cache_step 0) (Limited.new 3) c /\ (size (map c) < 3)%nat /\ get 5 c = Some 50.
Proof.
  set (c := insert 7 70 (insert 5 50 (insert 6 60 (Limited.new (V:=Z) 3)))).
  assert (rtc (cache_step 0) (Limited.new 3) c) as Hr.
  { eapply rtc_l; [apply (step_insert 0 _ 6 60)|]. eapply rtc_l; [apply (step_insert 0 _ 5 50)|].
    eapply rtc_l; [apply (step_insert 0 _ 7 70)|]. apply rtc_refl. }
  exists c. split; [exact Hr|]. split; [|reflexivity]. apply (limited_cache_bounded 0 3 c Hr). lia.
Defined.

Lemma ticket_taken_once_witness :
  (take_tls13_ticket (Group:=unit) (Tls12:=unit) [65] (insert_tls13_ticket [65] 7 (new_store 9))).1 = Some 7.
Proof.
  pose proof (ticket_taken_once (Group:=unit) (Tls12:=unit) 9 (new_store 9) [65] 7 (rtc_refl _ _) ltac:(lia) ltac:(lia)) as H.
  destruct (take_tls13_ticket [65] (insert_tls13_ticket [65] 7 (new_store 9))) as [t c']. apply H.
Defined.

Lemma eight_sessions_store_nothing_witness :
  (take_tls13_ticket (Group:=unit) (Tls12:=unit) [65] (insert_tls13_ticket [65] 7 (new_store 8))).1 = None.
Proof.
  apply (eight_sessions_store_nothing (insert_tls13_ticket [65] 7 (new_store 8))).
  apply rtc_once. apply st_insert13.
Defined.
