(* ===== verification/Codec.v ===== *)
(** * The wire codec of the TLS fork
    (orcax/rustls-fork/rustls/src/msgs/codec.rs, base.rs, alert.rs, ccs.rs)

    [Codec] is the trait: an encoder that appends to a buffer and a reader on a
    cursor.  [CodecLaws] is what implementations promise; length-prefixed lists
    are proved against it. *)
From S2P Require Import Prelude.

(** ** The reader *)

Record Reader : Type := { buffer : bytes; cursor : nat }.

(** [InvalidMessage] (error.rs); the labels of the source's variants are left
    out. *)
Inductive InvalidMessage : Type :=
| MissingData
| MessageTooShort
| TrailingData
| InvalidCcs
| InvalidServerName
| InvalidCertificateStatusType
| NoSignatureSchemes
| UnexpectedMessage
| UnsupportedCompression
| UnsupportedCurveType
| InvalidContentType
| HandshakePayloadTooLarge
| InvalidCertRequest
| InvalidDhParams
| InvalidEmptyPayload
| InvalidKeyUpdate
| MessageTooLarge
| MissingKeyExchange
| UnknownProtocolVersion
| UnsupportedKeyExchangeAlgorithm.

Definition init (bs : bytes) : Reader := {| buffer := bs; cursor := 0 |}.
(** [usize] subtraction: the cursor never passes the end. *)
Definition left (r : Reader) : nat := (length (buffer r) - cursor r)%nat.
Definition used (r : Reader) : nat := cursor r.
Definition any_left (r : Reader) : bool := (cursor r <? length (buffer r))%nat.

Definition take_bytes (n : nat) (r : Reader) : option bytes * Reader :=
  if (left r <? n)%nat then (None, r)
  else (Some (take n (drop (cursor r) (buffer r))), {| buffer := buffer r; cursor := cursor r + n |}).
Definition rest (r : Reader) : bytes * Reader :=
  (drop (cursor r) (buffer r), {| buffer := buffer r; cursor := length (buffer r) |}).

(** Reading is state passing; an error leaves the cursor where it is. *)
Definition Rd (A : Type) : Type := Reader -> result InvalidMessage A * Reader.
#[export] Instance rd_ret : MRet Rd := fun A a r => (Ok a, r).
#[export] Instance rd_bind : MBind Rd := fun A B f m r =>
  match m r with
  | (Ok a, r') => f a r'
  | (Err e, r') => (Err e, r')
  | (Panic, r') => (Panic, r')
  end.
Definition sub (n : nat) : Rd Reader := fun r =>
  match take_bytes n r with
  | (Some bs, r') => (Ok (init bs), r')
  | (None, r') => (Err MessageTooShort, r')
  end.
Definition expect_empty : Rd unit := fun r => (if any_left r then Err TrailingData else Ok tt, r).
Definition rd_rest : Rd bytes := fun r => let '(bs, r') := rest r in (Ok bs, r').
(** A fixed number of bytes, or [MissingData]. *)
Definition rd_take (n : nat) : Rd bytes := fun r =>
  match take_bytes n r with
  | (Some bs, r') => (Ok bs, r')
  | (None, r') => (Err MissingData, r')
  end.

(** ** The trait *)

Class Codec (T : Type) := {
  encode : T -> bytes -> bytes;      (* the buffer after appending *)
  read : Rd T
}.
Definition get_encoding {T} `{Codec T} (x : T) : bytes := encode x [].
Definition read_bytes {T} `{Codec T} (bs : bytes) : result InvalidMessage T := (read (init bs)).1.

(** What an implementation promises for the values [wf] describes. *)
Class CodecLaws {T} (C : Codec T) (wf : T -> Prop) : Prop := {
  encode_app x buf : encode x buf = buf ++ encode x [];
  encode_nonempty x : wf x -> encode x [] <> [];
  read_encode x pre post :
    wf x -> read {| buffer := pre ++ encode x [] ++ post; cursor := length pre |}
      = (Ok x, {| buffer := pre ++ encode x [] ++ post; cursor := length pre + length (encode x []) |});
  read_advances r x r' :
    (cursor r <= length (buffer r))%nat -> read r = (Ok x, r') ->
    buffer r' = buffer r /\ (cursor r < cursor r' <= length (buffer r))%nat
}.

(** Unsigned integers of [n] bytes, big-endian: [u8], [u16], [u24], [u32], [u64]. *)
Definition uint_codec (n : nat) : Codec Z :=
  {| encode x buf := buf ++ be_encode n x; read := bs ← rd_take n; mret (be_decode bs) |}.
Definition codec_u8 : Codec Z := uint_codec 1.
Definition codec_u16 : Codec Z := uint_codec 2.
Definition codec_u24 : Codec Z := uint_codec 3.
Definition codec_u32 : Codec Z := uint_codec 4.
Definition codec_u64 : Codec Z := uint_codec 8.

(** [enum_builder! { @U8 .. }]: named values and [Unknown].  The table lists the
    named ones; decoding and encoding go through it. *)
Inductive tls_enum (N : Type) : Type := Known (n : N) | Unknown (x : Z).
Arguments Known {N}. Arguments Unknown {N}.
#[export] Instance tls_enum_eq_dec {N} `{EqDecision N} : EqDecision (tls_enum N).
Proof. solve_decision. Defined.
Fixpoint enum_from {N} (table : list (N * Z)) (x : Z) : tls_enum N :=
  match table with
  | [] => Unknown x
  | (n, v) :: table' => if x =? v then Known n else enum_from table' x
  end.
Fixpoint enum_get {N} `{EqDecision N} (table : list (N * Z)) (e : tls_enum N) : Z :=
  match e with
  | Unknown x => x
  | Known n =>
      match table with
      | [] => 0
      | (n', v) :: table' => if decide (n = n') then v else enum_get table' e
      end
  end.
Definition enum_codec {N} `{EqDecision N} (size : nat) (table : list (N * Z)) : Codec (tls_enum N) :=
  {| encode e buf := buf ++ be_encode size (enum_get table e);
     read := bs ← rd_take size; mret (enum_from table (be_decode bs)) |}.

(** ** Length prefixes *)

Inductive ListLength : Type := LenU8 | LenU16 | LenU24 (max : nat).
Definition len_size (s : ListLength) : nat := match s with LenU8 => 1 | LenU16 => 2 | LenU24 _ => 3 end.

(** [LengthPrefixedBuffer]: the placeholder, and the correction on drop. *)
Definition lpb_new (s : ListLength) (buf : bytes) : bytes * nat := (buf ++ replicate (len_size s) 0xff, length buf).
Definition lpb_drop {E} (s : ListLength) (len_offset : nat) (buf : bytes) : result E bytes :=
  let len := Z.of_nat (length buf - len_offset - len_size s) in
  copy_into buf len_offset (len_offset + len_size s) (be_encode (len_size s) len).

Definition read_len (s : ListLength) : Rd nat :=
  match s with
  | LenU8 => x ← read (Codec:=codec_u8); mret (Z.to_nat x)
  | LenU16 => x ← read (Codec:=codec_u16); mret (Z.to_nat x)
  | LenU24 max => x ← read (Codec:=codec_u24); mret (Nat.min (Z.to_nat x) max)
  end.

(** [impl Codec for Vec<T>]; the loop is over a sub-reader, whose length bounds
    its turns because every element takes at least one byte. *)
Section list_codec.
Context {T : Type} {C : Codec T}.

Fixpoint read_items (fuel : nat) (s : Reader) : option (result InvalidMessage (list T)) :=
  if any_left s then
    match fuel with
    | O => None
    | S fuel' =>
        match read s with
        | (Ok x, s') => r ← read_items fuel' s'; Some (l ← r; Ok (x :: l))
        | (Err e, _) => Some (Err e)
        | (Panic, _) => Some Panic
        end
    end
  else Some (Ok []).

Definition encode_vec {E} (sz : ListLength) (l : list T) (buf : bytes) : result E bytes :=
  let '(buf, off) := lpb_new sz buf in
  lpb_drop sz off (fold_left (fun buf x => encode x buf) l buf).
Definition read_vec (sz : ListLength) : Reader -> option (result InvalidMessage (list T) * Reader) := fun r =>
  match (n ← read_len sz; sub n) r with
  | (Ok s, r') => l ← read_items (length (buffer s)) s; Some (l, r')
  | (Err e, r') => Some (Err e, r')
  | (Panic, r') => Some (Panic, r')
  end.
End list_codec.

(** ** Payloads *)

(** [PayloadU8], [PayloadU16], [PayloadU24] and [CertificateDer]: a length and
    that many opaque bytes. *)
Definition payload_codec (size : nat) : Codec bytes :=
  {| encode x buf := buf ++ be_encode size (Z.of_nat (length x)) ++ x;
     read := n ← (bs ← rd_take size; mret (Z.to_nat (be_decode bs)));
             s ← sub n;
             mret (rest s).1 |}.
Definition payload_u8 : Codec bytes := payload_codec 1.
Definition payload_u16 : Codec bytes := payload_codec 2.
Definition payload_u24 : Codec bytes := payload_codec 3.
Definition certificate_der : Codec bytes := payload_codec 3.

(** ** Alerts and ChangeCipherSpec *)

Inductive alert_level : Type := Warning | Fatal.
#[export] Instance alert_level_eq_dec : EqDecision alert_level.
Proof. solve_decision. Defined.
Definition alert_levels : list (alert_level * Z) := [(Warning, 0x01); (Fatal, 0x02)].

(** Descriptions are kept as their code; the table of names has no effect on
    the wire. *)
Record AlertMessagePayload : Type := { level : tls_enum alert_level; description : Z }.
Definition alert_codec : Codec AlertMessagePayload :=
  {| encode a buf := encode (Codec:=codec_u8) (description a) (encode (Codec:=enum_codec 1 alert_levels) (level a) buf);
     read := l ← read (Codec:=enum_codec 1 alert_levels);
             d ← read (Codec:=codec_u8);
             _ ← expect_empty;
             mret {| level := l; description := d |} |}.
Definition ccs_codec : Codec unit :=
  {| encode _ buf := encode (Codec:=codec_u8) 1 buf;
     read := typ ← read (Codec:=codec_u8);
             _ ← (fun r => (ensure (typ =? 1) InvalidCcs, r));
             expect_empty |}.

(** ** Lemmas *)

Lemma take_bytes_at n pre a post :
  length a = n ->
  take_bytes n {| buffer := pre ++ a ++ post; cursor := length pre |}
  = (Some a, {| buffer := pre ++ a ++ post; cursor := length pre + n |}).
Proof.
  intros Ha. unfold take_bytes, left. cbn [buffer cursor]. rewrite !length_app.
  destruct (Nat.ltb_spec (length pre + (length a + length post) - length pre) n); [lia|].
  rewrite drop_app_length. rewrite <- Ha at 1. by rewrite take_app_length.
Qed.
Lemma rd_take_at n pre a post :
  length a = n ->
  rd_take n {| buffer := pre ++ a ++ post; cursor := length pre |}
  = (Ok a, {| buffer := pre ++ a ++ post; cursor := length pre + n |}).
Proof. intros Ha. unfold rd_take. by rewrite take_bytes_at. Qed.

Lemma take_bytes_advances n r bs r' :
  take_bytes n r = (Some bs, r') ->
  (cursor r <= length (buffer r))%nat ->
  buffer r' = buffer r /\ cursor r' = (cursor r + n)%nat /\ (cursor r' <= length (buffer r))%nat /\ length bs = n.
Proof.
  unfold take_bytes, left. destruct (Nat.ltb_spec (length (buffer r) - cursor r) n); intros H' Hc; [done|].
  injection H' as <- <-. cbn [buffer cursor]. rewrite length_take, length_drop. repeat split; lia.
Qed.
Lemma rd_take_advances n r bs r' :
  rd_take n r = (Ok bs, r') -> (cursor r <= length (buffer r))%nat ->
  buffer r' = buffer r /\ cursor r' = (cursor r + n)%nat /\ (cursor r' <= length (buffer r))%nat /\ length bs = n.
Proof.
  unfold rd_take. destruct (take_bytes n r) as [[b|] r1] eqn:Ht; [|done]. intros [= <- <-]. by apply take_bytes_advances.
Qed.

Lemma rd_bind_ok {A B} (m : Rd A) (f : A -> Rd B) r a r' : m r = (Ok a, r') -> (m ≫= f) r = f a r'.
Proof. unfold mbind, rd_bind. by intros ->. Qed.
Lemma rd_bind_inv {A B} (m : Rd A) (f : A -> Rd B) r b r' :
  (m ≫= f) r = (Ok b, r') -> exists a r1, m r = (Ok a, r1) /\ f a r1 = (Ok b, r').
Proof. unfold mbind, rd_bind. destruct (m r) as [[] ?] eqn:?; naive_solver. Qed.

(** *** Instances of the laws *)

(** A value that is a function of a fixed number of bytes. *)
Lemma fixed_laws {T} (n : nat) (enc : T -> Z) (dec : Z -> T) (wf : T -> Prop) :
  n <> 0%nat -> (forall x, wf x -> 0 <= enc x < 256 ^ Z.of_nat n /\ dec (enc x) = x) ->
  CodecLaws {| encode x buf := buf ++ be_encode n (enc x); read := bs ← rd_take n; mret (dec (be_decode bs)) |} wf.
Proof.
  intros Hn Hwf. split; cbn [encode read].
  - done.
  - intros x _ Hnil. apply (f_equal length) in Hnil. rewrite length_app, be_encode_length in Hnil. cbn in Hnil. lia.
  - intros x pre post Hx. cbn [app]. rewrite be_encode_length.
    rewrite (rd_bind_ok _ _ _ _ _ (rd_take_at n pre (be_encode n (enc x)) post (be_encode_length _ _))).
    destruct (Hwf x Hx) as [Hr Hd]. rewrite be_decode_encode, Z.mod_small, Hd by done. done.
  - intros r x r' Hc Hr. apply rd_bind_inv in Hr as (bs & r1 & Ht & [= _ <-]).
    apply rd_take_advances in Ht as (H1 & H2 & H3 & _); [|done]. split; [done|]. lia.
Qed.

Definition uint_wf (n : nat) (x : Z) : Prop := 0 <= x < 256 ^ Z.of_nat n.
Lemma uint_laws n : n <> 0%nat -> CodecLaws (uint_codec n) (uint_wf n).
Proof. intros Hn. by apply (fixed_laws n id id (uint_wf n)). Qed.

(** Tables with distinct names and distinct codes lose nothing. *)
Definition table_ok {N} (table : list (N * Z)) : Prop := NoDup (table.*1) /\ NoDup (table.*2).
Definition enum_wf {N} (size : nat) (table : list (N * Z)) (e : tls_enum N) : Prop :=
  match e with
  | Known n => exists v, (n, v) ∈ table /\ 0 <= v < 256 ^ Z.of_nat size
  | Unknown x => (x ∉ table.*2) /\ 0 <= x < 256 ^ Z.of_nat size
  end.

Lemma enum_get_known {N} `{EqDecision N} (table : list (N * Z)) n v :
  NoDup (table.*1) -> (n, v) ∈ table -> enum_get table (Known n) = v.
Proof.
  induction table as [|[n' v'] table IH]; intros Hnd Hin; [by apply elem_of_nil in Hin|]. cbn [enum_get].
  apply list.NoDup_cons in Hnd as [Hn' Hnd]. apply elem_of_cons in Hin as [[= <- <-]|Hin].
  - by rewrite decide_True.
  - rewrite decide_False; [by apply IH|]. intros ->. apply Hn'. apply (list_elem_of_fmap_2 fst) in Hin. exact Hin.
Qed.
Lemma enum_from_known {N} (table : list (N * Z)) n v : NoDup (table.*2) -> (n, v) ∈ table -> enum_from table v = Known n.
Proof.
  induction table as [|[n' v'] table IH]; intros Hnd Hin; [by apply elem_of_nil in Hin|]. cbn [enum_from].
  apply list.NoDup_cons in Hnd as [Hv' Hnd]. apply elem_of_cons in Hin as [[= <- <-]|Hin].
  - by rewrite Z.eqb_refl.
  - destruct (Z.eqb_spec v v') as [->|]; [|by apply IH]. exfalso. apply Hv'. apply (list_elem_of_fmap_2 snd) in Hin. exact Hin.
Qed.
Lemma enum_from_unknown {N} (table : list (N * Z)) x : x ∉ table.*2 -> enum_from table x = Unknown x.
Proof.
  induction table as [|[n' v'] table IH]; intros Hx; [done|]. cbn [enum_from]. cbn in Hx. apply not_elem_of_cons in Hx as [Hne Hx].
  rewrite (proj2 (Z.eqb_neq _ _) Hne). by apply IH.
Qed.
Lemma enum_laws {N} `{EqDecision N} size (table : list (N * Z)) :
  size <> 0%nat -> table_ok table -> CodecLaws (enum_codec size table) (enum_wf size table).
Proof.
  intros Hs [H1 H2]. apply (fixed_laws size (enum_get table) (enum_from table)); [done|].
  intros [n|x]; cbn [enum_wf].
  - intros (v & Hin & Hv). rewrite (enum_get_known table n v) by done. split; [done|]. by apply enum_from_known.
  - intros [Hx Hr]. destruct table; (split; [done|]; by apply enum_from_unknown).
Qed.

Definition payload_wf (size : nat) (x : bytes) : Prop := Z.of_nat (length x) < 256 ^ Z.of_nat size.
Lemma payload_laws size : size <> 0%nat -> CodecLaws (payload_codec size) (payload_wf size).
Proof.
  intros Hs. split; cbn [encode read payload_codec].
  - done.
  - intros x _ Hnil. apply (f_equal length) in Hnil. rewrite !length_app, be_encode_length in Hnil. cbn in Hnil. lia.
  - intros x pre post Hx. unfold payload_wf in Hx. cbn [app]. rewrite length_app, be_encode_length.
    set (len := be_encode size (Z.of_nat (length x))). assert (length len = size) as Hl by apply be_encode_length.
    rewrite (rd_bind_ok _ _ _ (length x) {| buffer := pre ++ (len ++ x) ++ post; cursor := length pre + size |}).
    2: { rewrite <- app_assoc, (rd_bind_ok _ _ _ _ _ (rd_take_at size pre len (x ++ post) Hl)). cbn [mret rd_ret]. unfold mret, rd_ret.
         subst len. rewrite be_decode_encode, Z.mod_small by (split; [lia|exact Hx]). by rewrite Nat2Z.id. }
    rewrite (rd_bind_ok _ _ _ (init x) {| buffer := pre ++ (len ++ x) ++ post; cursor := length pre + (size + length x) |}).
    2: { unfold sub. replace (pre ++ (len ++ x) ++ post) with ((pre ++ len) ++ x ++ post) by by rewrite <- !app_assoc.
         replace (length pre + size)%nat with (length (pre ++ len)) by (rewrite length_app; lia).
         rewrite take_bytes_at by done. by rewrite length_app, Hl, Nat.add_assoc. }
    done.
  - intros r x r' Hc Hr. apply rd_bind_inv in Hr as (n & r1 & Hn & Hr). apply rd_bind_inv in Hn as (bs & r2 & Ht & [= _ <-]).
    apply rd_take_advances in Ht as (G1 & G2 & G3 & _); [|done]. apply rd_bind_inv in Hr as (s & r3 & Hsub & [= _ <-]).
    unfold sub in Hsub. destruct (take_bytes n r2) as [[b|] r4] eqn:Ht; [|done]. injection Hsub as _ <-.
    apply take_bytes_advances in Ht as (K1 & K2 & K3 & _); [|by rewrite G1]. rewrite G1 in *. split; [done|]. lia.
Qed.

(** *** Length-prefixed lists *)

(** The correction on drop turns the placeholder into the length of what was
    appended since. *)
Lemma lpb_roundtrip {E} sz buf body :
  lpb_drop (E:=E) sz (lpb_new sz buf).2 ((lpb_new sz buf).1 ++ body)
  = Ok (buf ++ be_encode (len_size sz) (Z.of_nat (length body)) ++ body).
Proof.
  unfold lpb_drop, lpb_new. cbn [fst snd].
  assert (length ((buf ++ replicate (len_size sz) 255) ++ body) = (length buf + len_size sz + length body)%nat) as Hl
    by (rewrite !length_app, length_replicate; lia).
  rewrite Hl. replace (length buf + len_size sz + length body - length buf - len_size sz)%nat with (length body) by lia.
  unfold copy_into. rewrite Hl, be_encode_length.
  replace ((length buf <=? length buf + len_size sz)%nat && (length buf + len_size sz <=? length buf + len_size sz + length body)%nat
    && (len_size sz =? length buf + len_size sz - length buf)%nat) with true by lia.
  f_equal. rewrite <- app_assoc, take_app_length. f_equal. f_equal.
  rewrite app_assoc. rewrite drop_app_ge by (rewrite length_app, length_replicate; lia).
  rewrite length_app, length_replicate. by replace (length buf + len_size sz - (length buf + len_size sz))%nat with 0%nat by lia.
Qed.

Section list_lemmas.
Context {T : Type} {C : Codec T} {wf : T -> Prop} {CL : CodecLaws C wf}.

Definition items (l : list T) : bytes := concat (map get_encoding l).

Lemma fold_encode l buf : fold_left (fun buf x => encode x buf) l buf = buf ++ items l.
Proof.
  revert buf. induction l as [|x l IH]; intros buf; cbn [fold_left]; [by rewrite app_nil_r|].
  rewrite IH, encode_app, <- app_assoc. done.
Qed.

Lemma read_items_encode l pre fuel :
  Forall wf l -> (length (items l) <= fuel)%nat ->
  read_items fuel {| buffer := pre ++ items l; cursor := length pre |} = Some (Ok l).
Proof.
  intros Hl. revert pre fuel. induction Hl as [|x l Hx Hl IH]; intros pre fuel Hf.
  - unfold items. cbn [map concat]. rewrite app_nil_r. destruct fuel; cbn [read_items]; unfold any_left; cbn [buffer cursor]; by rewrite Nat.ltb_irrefl.
  - unfold items in *. cbn [map concat] in *. unfold get_encoding at 1 in Hf. unfold get_encoding at 1.
    pose proof (encode_nonempty x Hx) as Hne. assert (0 < length (encode x []))%nat by (destruct (encode x []); [done|cbn; lia]).
    rewrite length_app in Hf. destruct fuel as [|fuel]; [lia|]. cbn [read_items]. unfold any_left at 1. cbn [buffer cursor].
    rewrite !length_app. destruct (Nat.ltb_spec (length pre) (length pre + (length (encode x []) + length (concat (map get_encoding l))))); [|lia].
    rewrite read_encode by done.
    replace (pre ++ encode x [] ++ concat (map get_encoding l)) with ((pre ++ encode x []) ++ concat (map get_encoding l)) by by rewrite <- app_assoc.
    rewrite <- length_app, IH by lia. done.
Qed.

(** The loop of [read] for lists ends: each element takes at least one byte. *)
Lemma read_items_total fuel s :
  (cursor s <= length (buffer s))%nat -> (length (buffer s) - cursor s <= fuel)%nat -> is_Some (read_items fuel s).
Proof.
  revert s. induction fuel as [|fuel IH]; intros s Hc Hf; cbn [read_items]; unfold any_left.
  - destruct (Nat.ltb_spec (cursor s) (length (buffer s))); [lia|]. by eexists.
  - destruct (Nat.ltb_spec (cursor s) (length (buffer s))); [|by eexists].
    destruct (read s) as [[x|e|] s'] eqn:Hr; [|by eexists|by eexists].
    destruct (read_advances s x s' Hc Hr) as [Hb Hadv]. destruct (IH s') as [r ->]; [rewrite Hb; lia|rewrite Hb; lia|]. by eexists.
Qed.
End list_lemmas.

(** The sizes a list can have under its length prefix. *)
Definition fits (sz : ListLength) (n : nat) : Prop :=
  Z.of_nat n < 256 ^ Z.of_nat (len_size sz) /\ match sz with LenU24 max => (n <= max)%nat | _ => True end.

Lemma read_len_at sz n pre post :
  fits sz n ->
  read_len sz {| buffer := pre ++ be_encode (len_size sz) (Z.of_nat n) ++ post; cursor := length pre |}
  = (Ok n, {| buffer := pre ++ be_encode (len_size sz) (Z.of_nat n) ++ post; cursor := length pre + len_size sz |}).
Proof.
  intros [Hn Hmax].
  assert (forall k, k = len_size sz -> read (Codec:=uint_codec k) {| buffer := pre ++ be_encode (len_size sz) (Z.of_nat n) ++ post; cursor := length pre |}
    = (Ok (Z.of_nat n), {| buffer := pre ++ be_encode (len_size sz) (Z.of_nat n) ++ post; cursor := length pre + len_size sz |})) as H.
  { intros k ->. assert (len_size sz <> 0%nat) as Hsz by by destruct sz.
    pose proof (@read_encode _ _ _ (uint_laws (len_size sz) Hsz) (Z.of_nat n) pre post) as Hr.
    cbn [encode uint_codec app] in Hr. rewrite Hr by (unfold uint_wf; lia). by rewrite be_encode_length. }
  destruct sz as [| |max]; cbn [read_len]; rewrite (rd_bind_ok _ _ _ _ _ (H _ eq_refl)); unfold mret, rd_ret; rewrite Nat2Z.id; [done|done|].
  by rewrite Nat.min_l by lia.
Qed.

(** ** The contract *)

(** Length-prefixed lists round-trip for every element type that keeps the
    codec's promises: encoding appends a prefix and the elements to whatever the
    buffer holds, without panicking, and reading at that place returns the list
    and stops exactly behind it. *)
Theorem vec_roundtrip {T} {C : Codec T} {wf} {CL : CodecLaws C wf} sz l buf post :
  Forall wf l -> fits sz (length (items l)) ->
  exists out, encode_vec (E:=unit) sz l buf = Ok (buf ++ out) /\
    length out = (len_size sz + length (items l))%nat /\
    read_vec sz {| buffer := buf ++ out ++ post; cursor := length buf |}
      = Some (Ok l, {| buffer := buf ++ out ++ post; cursor := length buf + length out |}).
Proof.
  intros Hl Hfit. set (len := be_encode (len_size sz) (Z.of_nat (length (items l)))).
  assert (length len = len_size sz) as Hlen by apply be_encode_length. exists (len ++ items l). split; [|split].
  - unfold encode_vec. pose proof (lpb_roundtrip (E:=unit) sz buf (items l)) as H. destruct (lpb_new sz buf) as [b off].
    cbn [fst snd] in H. by rewrite fold_encode.
  - by rewrite length_app, Hlen.
  - unfold read_vec. rewrite <- app_assoc.
    rewrite (rd_bind_ok _ _ _ _ _ (read_len_at sz (length (items l)) buf (items l ++ post) Hfit)). fold len.
    replace (buf ++ len ++ items l ++ post) with ((buf ++ len) ++ items l ++ post) by by rewrite <- app_assoc.
    replace (length buf + len_size sz)%nat with (length (buf ++ len)) by (rewrite length_app; lia).
    unfold sub. rewrite take_bytes_at by done. unfold init. cbn [buffer].
    pose proof (read_items_encode l [] (length (items l)) Hl ltac:(lia)) as Hri. cbn [app length] in Hri. rewrite Hri. cbn [mbind option_bind].
    by rewrite !length_app, Nat.add_assoc.
Qed.

(** Reading a list always ends, on any input: there is a result or an error,
    never an endless loop. *)
Theorem read_vec_total {T} {C : Codec T} {wf} {CL : CodecLaws C wf} sz r :
  is_Some (read_vec sz r).
Proof.
  unfold read_vec. destruct ((n ← read_len sz; sub n) r) as [[s|e|] r'] eqn:Hs; [|by eexists|by eexists].
  apply rd_bind_inv in Hs as (n & r1 & _ & Hs). unfold sub in Hs. destruct (take_bytes n r1) as [[b|] r2]; [|done]. injection Hs as <- <-.
  destruct (read_items_total (length (buffer (init b))) (init b)) as [l ->]; [cbn; lia|cbn; lia|]. by eexists.
Qed.

(** Alerts and ChangeCipherSpec messages are read back exactly, and only from
    bodies that hold nothing else: a trailing byte is an error. *)
Theorem alert_roundtrip a :
  enum_wf 1 alert_levels (level a) -> 0 <= description a < 256 ->
  read_bytes (H:=alert_codec) (get_encoding (H:=alert_codec) a) = Ok a /\
  (forall x, read_bytes (H:=alert_codec) (get_encoding (H:=alert_codec) a ++ [x]) = Err TrailingData) /\
  (forall x bs, read_bytes (H:=ccs_codec) (x :: bs) =
     if negb (x =? 1) then Err InvalidCcs else if bool_decide (bs = []) then Ok tt else Err TrailingData).
Proof.
  intros Hlev Hd. split; [|split].
  3: { intros x bs. unfold read_bytes. cbn. unfold mbind, rd_bind, rd_take, take_bytes, left, expect_empty, any_left. cbn.
       rewrite take_0. cbn [foldl]. rewrite Z.mul_0_l, Z.add_0_l. destruct (x =? 1); cbn; [|done]. by destruct bs. }
  all: pose proof (enum_laws 1 alert_levels ltac:(done) ltac:(split; apply (bool_decide_unpack _); vm_compute; exact I)) as L.
  all: destruct a as [lv ds]; cbn [level description] in *.
  all: assert (exists b, encode (Codec:=enum_codec 1 alert_levels) lv [] = [b]) as [b Hb] by (cbn [encode enum_codec app be_encode]; eauto).
  - pose proof (@read_encode _ _ _ L lv [] [ds] Hlev) as Hr. rewrite Hb in Hr. cbn [app length Nat.add] in Hr.
    unfold read_bytes, get_encoding, alert_codec. cbn [encode read level description]. rewrite Hb.
    replace (encode (Codec:=codec_u8) ds [b]) with [b; ds] by (cbn; by rewrite Z.mod_small).
    unfold init. rewrite (rd_bind_ok _ _ _ _ _ Hr). done.
  - intros x. pose proof (@read_encode _ _ _ L lv [] [ds; x] Hlev) as Hr. rewrite Hb in Hr. cbn [app length Nat.add] in Hr.
    unfold read_bytes, get_encoding, alert_codec. cbn [encode read level description]. rewrite Hb.
    replace (encode (Codec:=codec_u8) ds [b]) with [b; ds] by (cbn; by rewrite Z.mod_small).
    unfold init. cbn [app]. rewrite (rd_bind_ok _ _ _ _ _ Hr). done.
Qed.

(** ** Witnesses *)

Lemma vec_roundtrip_witness :
  exists out, encode_vec (C:=codec_u16) (E:=unit) LenU16 [0x1301; 0x1302] [9] = Ok ([9] ++ out) /\
    read_vec (C:=codec_u16) LenU16 {| buffer := [9] ++ out ++ [7]; cursor := 1 |}
      = Some (Ok [0x1301; 0x1302], {| buffer := [9] ++ out ++ [7]; cursor := 1 + length out |}).
Proof.
  destruct (vec_roundtrip (CL:=uint_laws 2 (Nat.neq_succ_0 1)) LenU16 [0x1301; 0x1302] [9] [7]) as (out & H1 & _ & H3).
  - repeat (apply Forall_cons_iff; split; [unfold uint_wf; cbn; lia|]). by apply Forall_nil.
  - split; [cbn; lia|done].
  - exists out. by split.
Defined.

Lemma read_vec_total_witness : is_Some (read_vec (C:=payload_codec 1) LenU8 (init [3; 1; 65; 9])).
Proof. apply (read_vec_total (CL:=payload_laws 1 (Nat.neq_succ_0 0))). Defined.

Lemma alert_roundtrip_witness :
  read_bytes (H:=alert_codec) (get_encoding (H:=alert_codec) {| level := Known Fatal; description := 40 |})
  = Ok {| level := Known Fatal; description := 40 |}.
Proof.
  refine (proj1 (alert_roundtrip {| level := Known Fatal; description := 40 |} _ _)); cbn [level description].
  - exists 2. split; [rewrite list_elem_of_In; cbn; auto|cbn; lia].
  - lia.
Defined.
