(* ===== verification/TlsLayer.v ===== *)
(** * The record layer of the TLS fork
    (orcax/rustls-fork/rustls/src/msgs/message.rs, msgs/fragmenter.rs,
    record_layer.rs)

    TLS records on the wire, fragmentation, TLS 1.3 unpadding, and the layer that
    counts records per key.  Ciphers are trait objects; here they are the
    operations of [Cipher], with the promise that decryption under the same key
    and sequence number undoes encryption. *)
From S2P Require Import Prelude Codec.

(** ** Records (message.rs) *)

Inductive content_type : Type := ChangeCipherSpec | Alert | Handshake | ApplicationData | Heartbeat.
#[export] Instance content_type_eq_dec : EqDecision content_type.
Proof. solve_decision. Defined.
Definition content_types : list (content_type * Z) :=
  [(ChangeCipherSpec, 0x14); (Alert, 0x15); (Handshake, 0x16); (ApplicationData, 0x17); (Heartbeat, 0x18)].
Abbreviation ContentType := (tls_enum content_type).

Inductive version_name : Type := SSLv2 | SSLv3 | TLSv1_0 | TLSv1_1 | TLSv1_2 | TLSv1_3 | DTLSv1_0 | DTLSv1_2 | DTLSv1_3.
#[export] Instance version_name_eq_dec : EqDecision version_name.
Proof. solve_decision. Defined.
Definition versions : list (version_name * Z) :=
  [(SSLv2, 0x0200); (SSLv3, 0x0300); (TLSv1_0, 0x0301); (TLSv1_1, 0x0302); (TLSv1_2, 0x0303); (TLSv1_3, 0x0304);
   (DTLSv1_0, 0xFEFF); (DTLSv1_2, 0xFEFD); (DTLSv1_3, 0xFEFC)].
Abbreviation ProtocolVersion := (tls_enum version_name).

(** [OpaqueMessage], [PlainMessage] and [BorrowedPlainMessage] have the same
    fields; conversions between them copy. *)
Record message : Type := { typ : ContentType; version : ProtocolVersion; payload : bytes }.

Inductive MessageError : Type :=
| TooShortForHeader
| TooShortForLength
| InvalidEmptyPayload
| MessageTooLarge
| InvalidContentType
| UnknownProtocolVersion.

Definition MAX_FRAGMENT_LEN : nat := Z.to_nat 16384.
Definition PACKET_OVERHEAD : nat := 1 + 2 + 2.
Definition MAX_FRAGMENT_SIZE : nat := MAX_FRAGMENT_LEN + PACKET_OVERHEAD.
Definition MAX_PAYLOAD : Z := 16384 + 2048.
Definition HEADER_SIZE : Z := 1 + 2 + 2.
Definition MAX_WIRE_SIZE : Z := MAX_PAYLOAD + HEADER_SIZE.

Definition type_codec : Codec ContentType := enum_codec 1 content_types.
Definition version_codec : Codec ProtocolVersion := enum_codec 2 versions.

(** A read whose failure is reported as [e]. *)
Definition or_fail {A B} (m : Rd A) (e : MessageError) (r : Reader)
    (k : A -> Reader -> result MessageError B * Reader) : result MessageError B * Reader :=
  match m r with
  | (Ok a, r') => k a r'
  | (Err _, r') => (Err e, r')
  | (Panic, r') => (Panic, r')
  end.

(** [OpaqueMessage::read]. *)
Definition opaque_read (r : Reader) : result MessageError message * Reader :=
  or_fail (read (Codec:=type_codec)) TooShortForHeader r (fun typ r =>
  match typ with
  | Unknown _ => (Err InvalidContentType, r)
  | Known _ =>
    or_fail (read (Codec:=version_codec)) TooShortForHeader r (fun version r =>
    if match version with Unknown v => negb (Z.land v 0xff00 =? 0x0300) | Known _ => false end
    then (Err UnknownProtocolVersion, r)
    else
      or_fail (read (Codec:=codec_u16)) TooShortForHeader r (fun len r =>
      if negb (bool_decide (typ = Known ApplicationData)) && (len =? 0) then (Err InvalidEmptyPayload, r)
      else if MAX_PAYLOAD <=? len then (Err MessageTooLarge, r)
      else or_fail (sub (Z.to_nat len)) TooShortForLength r (fun s r =>
        (Ok {| typ := typ; version := version; payload := (rest s).1 |}, r))))
  end).

(** [OpaqueMessage::encode]. *)
Definition opaque_encode (m : message) : bytes :=
  let buf := encode (Codec:=type_codec) (typ m) [] in
  let buf := encode (Codec:=version_codec) (version m) buf in
  let buf := encode (Codec:=codec_u16) (u16 (zlen (payload m))) buf in
  buf ++ payload m.

(** [unpad_tls13]: pops zeros from the end, then the content type. *)
Fixpoint pop_zeros (rev_v : bytes) : ContentType * bytes :=
  match rev_v with
  | [] => (Unknown 0, [])
  | b :: rest => if b =? 0 then pop_zeros rest else (enum_from content_types b, rest)
  end.
Definition unpad_tls13 (v : bytes) : ContentType * bytes :=
  let '(t, r) := pop_zeros (rev v) in (t, rev r).

Inductive tls_error : Type := PeerSentOversizedRecord | IllegalTlsInnerPlaintext | BadMaxFragmentSize | DecryptError | EncryptError.

(** [into_tls13_unpadded_message]. *)
Definition into_tls13_unpadded_message (m : message) : result tls_error message :=
  _ ← ensure (negb (MAX_FRAGMENT_LEN + 1 <? length (payload m))%nat) PeerSentOversizedRecord;
  let '(t, p) := unpad_tls13 (payload m) in
  _ ← ensure (negb (bool_decide (t = Unknown 0))) IllegalTlsInnerPlaintext;
  _ ← ensure (negb (MAX_FRAGMENT_LEN <? length p)%nat) PeerSentOversizedRecord;
  Ok {| typ := t; version := Known TLSv1_3; payload := p |}.

(** ** Fragmentation (fragmenter.rs) *)

Record MessageFragmenter : Type := { max_frag : nat }.
Definition default_fragmenter : MessageFragmenter := {| max_frag := MAX_FRAGMENT_LEN |}.

(** [slice::chunks(n)]; it panics for [n = 0]. *)
Fixpoint chunks_fuel (fuel n : nat) (l : bytes) : list bytes :=
  match fuel with
  | O => []
  | S fuel' => match l with [] => [] | _ => take n l :: chunks_fuel fuel' n (drop n l) end
  end.
Definition chunks {E} (n : nat) (l : bytes) : result E (list bytes) :=
  if (n =? 0)%nat then Panic else Ok (chunks_fuel (length l) n l).

Definition fragment_message {E} (f : MessageFragmenter) (m : message) : result E (list message) :=
  cs ← chunks (max_frag f) (payload m);
  Ok (map (fun c => {| typ := typ m; version := version m; payload := c |}) cs).

Definition set_max_fragment_size (size : option nat) (f : MessageFragmenter) : result tls_error MessageFragmenter :=
  match size with
  | Some sz =>
      if (32 <=? sz)%nat && (sz <=? MAX_FRAGMENT_SIZE)%nat then Ok {| max_frag := sz - PACKET_OVERHEAD |}
      else Err BadMaxFragmentSize
  | None => Ok {| max_frag := MAX_FRAGMENT_LEN |}
  end.

(** ** The record layer (record_layer.rs) *)

Definition SEQ_SOFT_LIMIT : Z := 0xffff_ffff_ffff_0000.
Definition SEQ_HARD_LIMIT : Z := 0xffff_ffff_ffff_fffe.

Class Cipher (K : Type) := {
  cipher_encrypt : K -> message -> Z -> result tls_error message;
  cipher_decrypt : K -> message -> Z -> result tls_error message
}.
(** What a cipher promises: a message it accepts becomes a record that the other
    end's key opens, under the same sequence number, to the message as it is
    received there. *)
Class CipherLaws {K} (C : Cipher K) : Type := {
  paired : K -> K -> Prop;
  sendable : K -> message -> Prop;
  received : K -> message -> message;
  decrypt_encrypt ke kd m seq : paired ke kd -> sendable ke m -> 0 <= seq < 2 ^ 64 ->
    exists c, cipher_encrypt ke m seq = Ok c /\ cipher_decrypt kd c seq = Ok (received kd m)
}.
(** What the deframer needs of a cipher: decryption does not make a record
    longer, and it does not panic. *)
Class CipherSafe {K} (C : Cipher K) : Prop := {
  decrypt_shrinks k c seq m : cipher_decrypt k c seq = Ok m -> (length (payload m) <= length (payload c))%nat;
  decrypt_no_panic k c seq : cipher_decrypt k c seq <> Panic
}.

Inductive DirectionState : Type := Invalid | Prepared | Active.
#[export] Instance DirectionState_eq_dec : EqDecision DirectionState.
Proof. solve_decision. Defined.

Section record_layer.
Context {K : Type} `{Cipher K}.

(** [None] is the invalid cipher, which always fails. *)
Record RecordLayer : Type := {
  message_encrypter : option K;
  message_decrypter : option K;
  write_seq : Z;
  read_seq : Z;
  has_decrypted : bool;
  encrypt_state : DirectionState;
  decrypt_state : DirectionState;
  trial_decryption_len : option nat
}.
Record Decrypted : Type := { want_close_before_decrypt : bool; plaintext : message }.

Definition new_layer : RecordLayer :=
  {| message_encrypter := None; message_decrypter := None; write_seq := 0; read_seq := 0; has_decrypted := false;
     encrypt_state := Invalid; decrypt_state := Invalid; trial_decryption_len := None |}.

Definition encrypt_with (k : option K) (m : message) (seq : Z) : result tls_error message :=
  match k with Some k => cipher_encrypt k m seq | None => Err EncryptError end.
Definition decrypt_with (k : option K) (m : message) (seq : Z) : result tls_error message :=
  match k with Some k => cipher_decrypt k m seq | None => Err DecryptError end.

Definition encrypt_exhausted (l : RecordLayer) : bool := SEQ_HARD_LIMIT <=? write_seq l.
Definition wants_close_before_encrypt (l : RecordLayer) : bool := write_seq l =? SEQ_SOFT_LIMIT.
Definition is_encrypting (l : RecordLayer) : bool := bool_decide (encrypt_state l = Active).

(** [doing_trial_decryption]. *)
Definition doing_trial_decryption (requested : nat) (l : RecordLayer) : bool * RecordLayer :=
  match trial_decryption_len l with
  | Some v =>
      if (requested <=? v)%nat
      then (true, {| message_encrypter := message_encrypter l; message_decrypter := message_decrypter l; write_seq := write_seq l;
                     read_seq := read_seq l; has_decrypted := has_decrypted l; encrypt_state := encrypt_state l;
                     decrypt_state := decrypt_state l; trial_decryption_len := Some (v - requested)%nat |})
      else (false, l)
  | None => (false, l)
  end.

(** [decrypt_incoming]. *)
Definition decrypt_incoming (encr : message) (l : RecordLayer) : result tls_error (option Decrypted) * RecordLayer :=
  if negb (bool_decide (decrypt_state l = Active)) then
    (Ok (Some {| want_close_before_decrypt := false; plaintext := encr |}), l)
  else
    let want_close := read_seq l =? SEQ_SOFT_LIMIT in
    let encrypted_len := length (payload encr) in
    match decrypt_with (message_decrypter l) encr (read_seq l) with
    | Ok p =>
        (Ok (Some {| want_close_before_decrypt := want_close; plaintext := p |}),
         {| message_encrypter := message_encrypter l; message_decrypter := message_decrypter l; write_seq := write_seq l;
            read_seq := u64 (read_seq l + 1); has_decrypted := true; encrypt_state := encrypt_state l;
            decrypt_state := decrypt_state l; trial_decryption_len := trial_decryption_len l |})
    | Err DecryptError =>
        let '(trial, l) := doing_trial_decryption encrypted_len l in
        (if trial then Ok None else Err DecryptError, l)
    | Err e => (Err e, l)
    | Panic => (Panic, l)
    end.

(** [encrypt_outgoing], in a release build: [assert!] and [unwrap] panic. *)
Definition encrypt_outgoing (plain : message) (l : RecordLayer) : result tls_error message * RecordLayer :=
  if encrypt_exhausted l then (Panic, l)
  else
    let seq := write_seq l in
    let l := {| message_encrypter := message_encrypter l; message_decrypter := message_decrypter l; write_seq := write_seq l + 1;
                read_seq := read_seq l; has_decrypted := has_decrypted l; encrypt_state := encrypt_state l;
                decrypt_state := decrypt_state l; trial_decryption_len := trial_decryption_len l |} in
    (match encrypt_with (message_encrypter l) plain seq with Ok c => Ok c | _ => Panic end, l).

Definition prepare_message_encrypter (k : K) (l : RecordLayer) : RecordLayer :=
  {| message_encrypter := Some k; message_decrypter := message_decrypter l; write_seq := 0; read_seq := read_seq l;
     has_decrypted := has_decrypted l; encrypt_state := Prepared; decrypt_state := decrypt_state l;
     trial_decryption_len := trial_decryption_len l |}.
Definition prepare_message_decrypter (k : K) (l : RecordLayer) : RecordLayer :=
  {| message_encrypter := message_encrypter l; message_decrypter := Some k; write_seq := write_seq l; read_seq := 0;
     has_decrypted := has_decrypted l; encrypt_state := encrypt_state l; decrypt_state := Prepared;
     trial_decryption_len := trial_decryption_len l |}.
Definition start_encrypting (l : RecordLayer) : RecordLayer :=
  {| message_encrypter := message_encrypter l; message_decrypter := message_decrypter l; write_seq := write_seq l;
     read_seq := read_seq l; has_decrypted := has_decrypted l; encrypt_state := Active; decrypt_state := decrypt_state l;
     trial_decryption_len := trial_decryption_len l |}.
Definition start_decrypting (l : RecordLayer) : RecordLayer :=
  {| message_encrypter := message_encrypter l; message_decrypter := message_decrypter l; write_seq := write_seq l;
     read_seq := read_seq l; has_decrypted := has_decrypted l; encrypt_state := encrypt_state l; decrypt_state := Active;
     trial_decryption_len := trial_decryption_len l |}.
Definition set_trial (t : option nat) (l : RecordLayer) : RecordLayer :=
  {| message_encrypter := message_encrypter l; message_decrypter := message_decrypter l; write_seq := write_seq l;
     read_seq := read_seq l; has_decrypted := has_decrypted l; encrypt_state := encrypt_state l;
     decrypt_state := decrypt_state l; trial_decryption_len := t |}.
Definition set_message_encrypter (k : K) (l : RecordLayer) : RecordLayer := start_encrypting (prepare_message_encrypter k l).
Definition set_message_decrypter (k : K) (l : RecordLayer) : RecordLayer :=
  set_trial None (start_decrypting (prepare_message_decrypter k l)).
Definition set_message_decrypter_with_trial_decryption (k : K) (max_length : nat) (l : RecordLayer) : RecordLayer :=
  set_trial (Some max_length) (start_decrypting (prepare_message_decrypter k l)).
Definition finish_trial_decryption (l : RecordLayer) : RecordLayer := set_trial None l.

Fixpoint encrypt_all (ms : list message) (l : RecordLayer) : result tls_error (list message) * RecordLayer :=
  match ms with
  | [] => (Ok [], l)
  | m :: ms' =>
      match encrypt_outgoing m l with
      | (Ok c, l') => let '(r, l'') := encrypt_all ms' l' in ((fun cs => c :: cs) <$> r, l'')
      | (Err e, l') => (Err e, l')
      | (Panic, l') => (Panic, l')
      end
  end.
Fixpoint decrypt_all (cs : list message) (l : RecordLayer) : result tls_error (list (option Decrypted)) * RecordLayer :=
  match cs with
  | [] => (Ok [], l)
  | c :: cs' =>
      match decrypt_incoming c l with
      | (Ok d, l') => let '(r, l'') := decrypt_all cs' l' in ((fun ds => d :: ds) <$> r, l'')
      | (Err e, l') => (Err e, l')
      | (Panic, l') => (Panic, l')
      end
  end.
End record_layer.

(** ** Lemmas *)

(** *** Records *)

Definition bad_version (v : ProtocolVersion) : bool :=
  match v with Unknown x => negb (Z.land x 0xff00 =? 0x0300) | Known _ => false end.

(** [opaque_read] on a fresh reader, by the number of bytes present. *)
Definition opaque_outcome (b : bytes) : result MessageError (message * nat) :=
  match b with
  | [] => Err TooShortForHeader
  | t :: b' =>
    match enum_from content_types t with
    | Unknown _ => Err InvalidContentType
    | Known ct =>
      match b' with
      | v1 :: v2 :: b'' =>
        if bad_version (enum_from versions (be_decode [v1; v2])) then Err UnknownProtocolVersion
        else match b'' with
             | l1 :: l2 :: body =>
               let len := be_decode [l1; l2] in
               if negb (bool_decide (Known ct = Known ApplicationData)) && (len =? 0) then Err InvalidEmptyPayload
               else if MAX_PAYLOAD <=? len then Err MessageTooLarge
               else if (length body <? Z.to_nat len)%nat then Err TooShortForLength
               else Ok ({| typ := Known ct; version := enum_from versions (be_decode [v1; v2]); payload := take (Z.to_nat len) body |},
                        (5 + Z.to_nat len)%nat)
             | _ => Err TooShortForHeader
             end
      | _ => Err TooShortForHeader
      end
    end
  end.

Lemma sub_split n pre post :
  sub n {| buffer := pre ++ post; cursor := length pre |} =
  if (length post <? n)%nat then (Err MessageTooShort, {| buffer := pre ++ post; cursor := length pre |})
  else (Ok (init (take n post)), {| buffer := pre ++ post; cursor := length pre + n |}).
Proof.
  unfold sub, take_bytes, left. cbn [buffer cursor]. rewrite length_app, drop_app_length.
  replace (length pre + length post - length pre)%nat with (length post) by lia. by destruct (length post <? n)%nat.
Qed.

Lemma or_fail_uint_ok {N B} (f : Z -> N) n e pre a post (k : N -> Reader -> result MessageError B * Reader) :
  length a = n ->
  or_fail (bs ← rd_take n; mret (f (be_decode bs))) e {| buffer := pre ++ a ++ post; cursor := length pre |} k =
  k (f (be_decode a)) {| buffer := pre ++ a ++ post; cursor := length (pre ++ a) |}.
Proof.
  intros Ha. unfold or_fail, mbind, rd_bind. rewrite rd_take_at by done. by rewrite length_app, Ha.
Qed.

Lemma opaque_read_outcome b :
  (opaque_read (init b)).1 = fst <$> opaque_outcome b /\
  forall m n, opaque_outcome b = Ok (m, n) -> (opaque_read (init b)).2 = {| buffer := b; cursor := n |}.
Proof.
  unfold opaque_read, type_codec, version_codec, codec_u16, enum_codec, uint_codec, init. cbn [read].
  destruct b as [|t b]; [done|].
  rewrite (or_fail_uint_ok (enum_from content_types) 1 TooShortForHeader [] [t] b) by done.
  replace (be_decode [t]) with t by (cbn; lia).
  cbn [opaque_outcome]. destruct (enum_from content_types t) as [ct|x]; [|done].
  destruct b as [|v1 [|v2 b]]; [done|done|].
  rewrite (or_fail_uint_ok (enum_from versions) 2 TooShortForHeader [t] [v1; v2] b) by done.
  fold (bad_version (enum_from versions (be_decode [v1; v2]))).
  destruct (bad_version _); [done|].
  destruct b as [|l1 [|l2 b]]; [done|done|].
  rewrite (or_fail_uint_ok id 2 TooShortForHeader [t; v1; v2] [l1; l2] b) by done.
  change (id (be_decode [l1; l2])) with (be_decode [l1; l2]).
  destruct (negb (bool_decide (Known ct = Known ApplicationData)) && (be_decode [l1; l2] =? 0)); [done|].
  destruct (MAX_PAYLOAD <=? be_decode [l1; l2]); [done|].
  unfold or_fail. pose proof (sub_split (Z.to_nat (be_decode [l1; l2])) [t; v1; v2; l1; l2] b) as Hsub.
  cbn [app length] in Hsub |- *. rewrite Hsub.
  destruct (length b <? Z.to_nat (be_decode [l1; l2]))%nat; [done|]. split; [done|]. intros m n [= _ <-]. done.
Qed.

Definition wf_message (m : message) : Prop :=
  enum_wf 1 content_types (typ m) /\ (exists t, typ m = Known t) /\
  enum_wf 2 versions (version m) /\ bad_version (version m) = false /\
  zlen (payload m) < MAX_PAYLOAD /\ (typ m <> Known ApplicationData -> payload m <> []).

Lemma tables_ok : table_ok content_types /\ table_ok versions.
Proof. split; split; apply (bool_decide_unpack _); vm_compute; exact I. Qed.

Lemma enum_roundtrip {N} `{EqDecision N} size (table : list (N * Z)) e :
  table_ok table -> enum_wf size table e ->
  0 <= enum_get table e < 256 ^ Z.of_nat size /\ enum_from table (enum_get table e) = e.
Proof.
  intros [H1 H2]. destruct e as [n|x]; cbn [enum_wf].
  - intros (v & Hin & Hv). rewrite (enum_get_known table n v) by done. split; [done|]. by apply enum_from_known.
  - intros [Hx Hr]. destruct table; (split; [done|]; by apply enum_from_unknown).
Qed.

(** The five header bytes of a record. *)
Lemma opaque_encode_shape m :
  wf_message m -> exists t v1 v2 l1 l2,
    opaque_encode m = t :: v1 :: v2 :: l1 :: l2 :: payload m /\
    enum_from content_types t = typ m /\ enum_from versions (be_decode [v1; v2]) = version m /\
    be_decode [l1; l2] = zlen (payload m).
Proof.
  intros (Ht & _ & Hv & _ & Hl & _). destruct tables_ok as [Ok1 Ok2]. pose proof (zlen_nonneg (payload m)). unfold MAX_PAYLOAD in Hl.
  destruct (enum_roundtrip 1 content_types (typ m) Ok1 Ht) as [Hr1 He1]. destruct (enum_roundtrip 2 versions (version m) Ok2 Hv) as [Hr2 He2].
  pose proof (be_decode_encode_2 (enum_get versions (version m)) Hr2) as D2.
  pose proof (be_decode_encode_2 (zlen (payload m)) ltac:(lia)) as D3.
  unfold opaque_encode, type_codec, version_codec, codec_u16, enum_codec, uint_codec. cbn [encode app].
  rewrite u16_small by lia. change (256 ^ Z.of_nat 1) with 256 in Hr1. cbn [be_encode app] in *. rewrite (Z.mod_small (enum_get content_types (typ m))) by lia.
  eexists _, _, _, _, _. split; [reflexivity|]. rewrite D2, D3. done.
Qed.

Lemma opaque_outcome_encode m post :
  wf_message m -> opaque_outcome (opaque_encode m ++ post) = Ok (m, length (opaque_encode m)).
Proof.
  intros Hwf. pose proof Hwf as (_ & (ct & Hct) & _ & Hbv & Hl & Hne).
  destruct (opaque_encode_shape m Hwf) as (t & v1 & v2 & l1 & l2 & He & H1 & H2 & H3).
  rewrite He. cbn [opaque_outcome app length]. rewrite H1, Hct, H2, Hbv, H3.
  replace (negb (bool_decide (Known ct = Known ApplicationData)) && (zlen (payload m) =? 0)) with false.
  2: { symmetry. apply andb_false_iff. case_bool_decide as Hb; [by left|right]. apply Z.eqb_neq.
       rewrite Hct in Hne. specialize (Hne Hb). unfold zlen. destruct (payload m); [done|]. cbn. lia. }
  rewrite (proj2 (Z.leb_gt _ _) Hl). unfold zlen. rewrite Nat2Z.id, length_app.
  destruct (Nat.ltb_spec (length (payload m) + length post) (length (payload m))); [lia|].
  rewrite take_app_length. do 2 f_equal. destruct m as [ty vs pl]. cbn in *. by subst.
Qed.

(** TLS records round-trip: every record with a known type, an accepted version
    and a payload below the limit is read back from its encoding, whatever
    follows it, and the reader stops at its end. *)
Theorem opaque_message_roundtrip m post :
  wf_message m ->
  opaque_read (init (opaque_encode m ++ post))
  = (Ok m, {| buffer := opaque_encode m ++ post; cursor := length (opaque_encode m) |}).
Proof.
  intros Hwf. pose proof (opaque_outcome_encode m post Hwf) as Ho.
  destruct (opaque_read_outcome (opaque_encode m ++ post)) as [Hr1 Hr2]. rewrite Ho in Hr1.
  specialize (Hr2 _ _ Ho). destruct (opaque_read _) as [res rd]. cbn [fst snd] in *. by rewrite Hr1, Hr2.
Qed.

Definition incomplete (e : MessageError) : Prop := e = TooShortForHeader \/ e = TooShortForLength.

(** The reader tells an incomplete record from an invalid one: every strict
    prefix of a valid record is reported as too short, and any other error
    stays the same error whatever bytes arrive later; so waiting for more data
    is right exactly for the two "too short" errors. *)
Theorem opaque_message_prefix :
  (forall m n, wf_message m -> (n < length (opaque_encode m))%nat ->
     exists e, (opaque_read (init (take n (opaque_encode m)))).1 = Err e /\ incomplete e) /\
  (forall b e post, (opaque_read (init b)).1 = Err e -> ~ incomplete e -> (opaque_read (init (b ++ post))).1 = Err e).
Proof.
  unfold incomplete. split.
  - intros m n Hwf Hn. pose proof Hwf as (_ & (ct & Hct) & _ & Hbv & Hl & Hne).
    destruct (opaque_encode_shape m Hwf) as (t & v1 & v2 & l1 & l2 & He & H1 & H2 & H3).
    assert (exists e, opaque_outcome (take n (opaque_encode m)) = Err e /\ (e = TooShortForHeader \/ e = TooShortForLength)) as (e & Ho & Hinc).
    { rewrite He in *. destruct n as [|[|[|[|[|n]]]]]; cbn [take opaque_outcome]; rewrite ?H1, ?Hct, ?H2, ?Hbv, ?H3; eauto.
      replace (negb (bool_decide (Known ct = Known ApplicationData)) && (zlen (payload m) =? 0)) with false.
      2: { symmetry. apply andb_false_iff. case_bool_decide as Hb; [by left|right]. apply Z.eqb_neq.
           rewrite Hct in Hne. specialize (Hne Hb). unfold zlen. destruct (payload m); [done|]. cbn. lia. }
      rewrite (proj2 (Z.leb_gt _ _) Hl). cbn [length] in Hn. unfold zlen. rewrite Nat2Z.id, length_take.
      destruct (Nat.ltb_spec (Nat.min n (length (payload m))) (length (payload m))); [eauto|lia]. }
    exists e. destruct (opaque_read_outcome (take n (opaque_encode m))) as [-> _]. by rewrite Ho.
  - intros b e post He Hne. destruct (opaque_read_outcome b) as [Hb _]. destruct (opaque_read_outcome (b ++ post)) as [-> _].
    rewrite He in Hb. assert (opaque_outcome b = Err e) as Ho by (destruct (opaque_outcome b); simplify_eq/=; congruence). clear Hb He.
    assert (opaque_outcome (b ++ post) = Err e) as ->; [|done].
    destruct b as [|t b]; cbn [opaque_outcome app] in *; [naive_solver|]. destruct (enum_from content_types t) as [ct|]; [|done].
    destruct b as [|v1 [|v2 b]]; cbn [app] in *; [naive_solver|naive_solver|]. destruct (bad_version _); [done|].
    destruct b as [|l1 [|l2 b]]; cbn [app] in *; [naive_solver|naive_solver|].
    destruct (negb _ && _); [done|]. destruct (MAX_PAYLOAD <=? _); [done|].
    destruct (length b <? _)%nat; [naive_solver|done].
Qed.

(** The comment says "only versions 0x03XX"; the named versions outside that
    range pass. *)
Theorem named_versions_accepted :
  map (fun v => is_ok (opaque_read (init ([0x17] ++ be_encode 2 v ++ [0; 1; 65]))).1) [0x0200; 0xFEFF; 0xFEFD; 0xFEFC; 0x0303; 0x0305; 0x0400]
  = [true; true; true; true; true; true; false].
Proof. reflexivity. Qed.

(** *** Fragments and padding *)

Lemma chunks_fuel_spec fuel n l :
  n <> 0%nat -> (length l <= fuel)%nat ->
  concat (chunks_fuel fuel n l) = l /\ Forall (fun c => c <> [] /\ (length c <= n)%nat) (chunks_fuel fuel n l).
Proof.
  intros Hn. revert l. induction fuel as [|fuel IH]; intros l Hl; cbn [chunks_fuel].
  - destruct l; [|cbn in Hl; lia]. split; [done|by apply Forall_nil].
  - destruct l as [|b l]; [split; [done|by apply Forall_nil]|].
    destruct (IH (drop n (b :: l))) as [H1 H2]; [rewrite length_drop; cbn in *; lia|].
    cbn [concat]. rewrite H1, take_drop. split; [done|]. apply Forall_cons_iff. split; [|done].
    split; [by destruct n|]. rewrite length_take. lia.
Qed.

(** Fragmentation is lossless and bounded: for every fragmenter that
    [set_max_fragment_size] yields, a message is cut into non-empty pieces of its
    type and version whose payloads concatenate to its payload, and no piece
    exceeds the requested record size with its header; sizes outside 32..16389
    are refused. *)
Theorem fragments_reassemble size f m :
  set_max_fragment_size size default_fragmenter = Ok f ->
  (exists ms, fragment_message (E:=tls_error) f m = Ok ms /\ concat (map payload ms) = payload m /\
     Forall (fun x => typ x = typ m /\ version x = version m /\ payload x <> [] /\
       (PACKET_OVERHEAD + length (payload x) <= default MAX_FRAGMENT_SIZE size)%nat) ms) /\
  (forall n, (n < 32 \/ MAX_FRAGMENT_SIZE < n)%nat -> set_max_fragment_size (Some n) f = Err BadMaxFragmentSize).
Proof.
  intros Hf. split.
  - assert (max_frag f <> 0%nat /\ (PACKET_OVERHEAD + max_frag f = default MAX_FRAGMENT_SIZE size)%nat) as [Hn Hmax].
    { unfold set_max_fragment_size, PACKET_OVERHEAD in *. destruct size as [sz|].
      - destruct (Nat.leb_spec 32 sz), (Nat.leb_spec sz MAX_FRAGMENT_SIZE); cbn [andb] in Hf; simplify_eq; cbn; lia.
      - injection Hf as <-. unfold MAX_FRAGMENT_SIZE, MAX_FRAGMENT_LEN, PACKET_OVERHEAD. cbn [max_frag default from_option]. unfold id. lia. }
    unfold fragment_message, chunks. rewrite (proj2 (Nat.eqb_neq _ _) Hn). cbn [mbind result_bind].
    destruct (chunks_fuel_spec (length (payload m)) (max_frag f) (payload m) Hn) as [H1 H2]; [lia|].
    eexists. split; [done|]. rewrite map_map. cbn [payload]. rewrite map_id. split; [done|].
    apply Forall_map. eapply Forall_impl; [|exact H2]. intros c [Hc Hl]. cbn [typ version payload]. split; [done|]. split; [done|]. split; [done|]. lia.
  - intros n Hn. unfold set_max_fragment_size.
    replace ((32 <=? n)%nat && (n <=? MAX_FRAGMENT_SIZE)%nat) with false by lia. done.
Qed.

Lemma rev_zeros n : rev (replicate n 0) = replicate n 0.
Proof.
  induction n as [|n IH]; [done|]. cbn [replicate rev]. rewrite IH. change [0] with (replicate 1 0).
  by rewrite <- replicate_add, Nat.add_comm.
Qed.
Lemma pop_zeros_replicate n l : pop_zeros (replicate n 0 ++ l) = pop_zeros l.
Proof. induction n as [|n IH]; [done|]. cbn. exact IH. Qed.

(** TLS 1.3 padding is removed exactly: an inner plaintext that is content, a
    non-zero type byte and any number of zeros yields that type and content, as
    long as the sizes allow; one without a type byte is refused. *)
Theorem tls13_unpad_inverse content t zeros vs ty :
  t <> 0 -> (length content + 1 + zeros <= MAX_FRAGMENT_LEN + 1)%nat ->
  into_tls13_unpadded_message {| typ := ty; version := vs; payload := content ++ [t] ++ replicate zeros 0 |}
  = Ok {| typ := enum_from content_types t; version := Known TLSv1_3; payload := content |} /\
  into_tls13_unpadded_message {| typ := ty; version := vs; payload := replicate zeros 0 |} = Err IllegalTlsInnerPlaintext.
Proof.
  intros Ht Hl. unfold into_tls13_unpadded_message. cbn [payload].
  assert (unpad_tls13 (content ++ [t] ++ replicate zeros 0) = (enum_from content_types t, content)) as Hu.
  { unfold unpad_tls13. rewrite !rev_app_distr, <- app_assoc. cbn [rev app].
    assert (rev (replicate zeros 0) = replicate zeros 0) as -> by apply rev_zeros.
    rewrite pop_zeros_replicate. cbn [pop_zeros]. rewrite (proj2 (Z.eqb_neq _ _) Ht). by rewrite rev_involutive. }
  assert (unpad_tls13 (replicate zeros 0) = (Unknown 0, [])) as Hz.
  { unfold unpad_tls13. assert (rev (replicate zeros 0) = replicate zeros 0 ++ []) as -> by (rewrite app_nil_r; apply rev_zeros).
    by rewrite pop_zeros_replicate. }
  rewrite Hu, Hz, !length_app, !length_replicate. cbn [length].
  assert (enum_from content_types t <> Unknown 0) as Hne.
  { cbn. repeat case_match; try done. intros [= ->]. done. }
  split.
  - rewrite (ensure_true _ PeerSentOversizedRecord) by lia. cbn [mbind result_bind].
    rewrite (ensure_true _ IllegalTlsInnerPlaintext) by by rewrite bool_decide_eq_false_2. cbn [mbind result_bind].
    rewrite (ensure_true _ PeerSentOversizedRecord) by lia. done.
  - rewrite (ensure_true (negb (MAX_FRAGMENT_LEN + 1 <? zeros)%nat)) by lia. done.
Qed.

(** *** Sequence numbers *)

Section layer_lemmas.
Context {K : Type} {C : Cipher K} {CL : CipherLaws C}.

(** What a connection does with its layer; [Encrypt] is a record sent. *)
Inductive layer_op : Type :=
| Encrypt (m : message)
| Decrypt (m : message)
| PrepareEncrypter (k : K)
| SetEncrypter (k : K)
| StartEncrypting
| PrepareDecrypter (k : K)
| StartDecrypting
| SetDecrypter (k : K)
| SetDecrypterTrial (k : K) (n : nat)
| FinishTrial.

(** The layer, the encryption keys installed so far, and the records sent: each with
    the position of the key in use, the message and the record that
    [encrypt_outgoing] returned; a panic stops the run. *)
Record sent_record : Type := { at_key : nat; plain : message; record : message }.
Record trace : Type := { layer : RecordLayer (K:=K); keys : list K; sent : list sent_record }.
Definition with_layer (l : RecordLayer (K:=K)) (t : trace) : trace := {| layer := l; keys := keys t; sent := sent t |}.
Definition with_key (k : K) (l : RecordLayer (K:=K)) (t : trace) : trace := {| layer := l; keys := keys t ++ [k]; sent := sent t |}.
Definition layer_step (t : trace) (o : layer_op) : option trace :=
  match o with
  | Encrypt m =>
      match encrypt_outgoing m (layer t) with
      | (Ok c, l) => Some {| layer := l; keys := keys t; sent := sent t ++ [{| at_key := pred (length (keys t)); plain := m; record := c |}] |}
      | _ => None
      end
  | Decrypt m => Some (with_layer (decrypt_incoming m (layer t)).2 t)
  | PrepareEncrypter k => Some (with_key k (prepare_message_encrypter k (layer t)) t)
  | SetEncrypter k => Some (with_key k (set_message_encrypter k (layer t)) t)
  | StartEncrypting => Some (with_layer (start_encrypting (layer t)) t)
  | PrepareDecrypter k => Some (with_layer (prepare_message_decrypter k (layer t)) t)
  | StartDecrypting => Some (with_layer (start_decrypting (layer t)) t)
  | SetDecrypter k => Some (with_layer (set_message_decrypter k (layer t)) t)
  | SetDecrypterTrial k n => Some (with_layer (set_message_decrypter_with_trial_decryption k n (layer t)) t)
  | FinishTrial => Some (with_layer (finish_trial_decryption (layer t)) t)
  end.
Fixpoint layer_run (os : list layer_op) (t : trace) : option trace :=
  match os with
  | [] => Some t
  | o :: os' => t' ← layer_step t o; layer_run os' t'
  end.
Definition start_trace : trace := {| layer := new_layer; keys := []; sent := [] |}.

(** How many of some records were sent under the key installed at [e]. *)
Definition under (e : nat) (rs : list sent_record) : nat := length (filter (fun r => at_key r = e) rs).
(** What a record must be: the encryption of its message, under the key it was sent
    with, with the sequence number given. *)
Definition sealed_with (ks : list K) (r : sent_record) (n : Z) : Prop :=
  exists k, ks !! at_key r = Some k /\ cipher_encrypt k (plain r) n = Ok (record r).

Record trace_inv (t : trace) : Prop := {
  tinv_encrypter : message_encrypter (layer t) = list.last (keys t);
  tinv_seq : write_seq (layer t) = Z.of_nat (under (pred (length (keys t))) (sent t));
  tinv_limit i r : sent t !! i = Some r -> Z.of_nat (under (at_key r) (take i (sent t))) < SEQ_HARD_LIMIT;
  tinv_sealed i r : sent t !! i = Some r -> sealed_with (keys t) r (Z.of_nat (under (at_key r) (take i (sent t))))
}.

Lemma under_snoc e rs r : under e (rs ++ [r]) = (under e rs + if bool_decide (at_key r = e) then 1 else 0)%nat.
Proof. unfold under. rewrite list.filter_app, length_app. f_equal. rewrite filter_cons, filter_nil. by destruct (decide (at_key r = e)); case_bool_decide. Qed.
Lemma under_none e rs : (forall i r, rs !! i = Some r -> at_key r <> e) -> under e rs = 0%nat.
Proof.
  induction rs as [|r rs IH] using rev_ind; intros Hne; [done|]. rewrite under_snoc, IH.
  - rewrite bool_decide_eq_false_2; [done|]. apply (Hne (length rs)). by rewrite lookup_app_r, Nat.sub_diag by lia.
  - intros i r' Hi. apply (Hne i). by apply lookup_app_l_Some.
Qed.
(** Later records under the same key have greater numbers. *)
Lemma under_lt rs i j r : rs !! i = Some r -> (i < j)%nat -> (under (at_key r) (take i rs) < under (at_key r) (take j rs))%nat.
Proof.
  intros Hr Hij. assert (take j rs = take i rs ++ [r] ++ take (j - S i) (drop (S i) rs)) as ->.
  { rewrite <- (take_drop_middle rs i r Hr) at 1. assert (i < length rs)%nat by by eapply lookup_lt_Some. rewrite take_app, length_take, take_ge by (rewrite length_take; lia). f_equal.
    replace (j - Nat.min i (length rs))%nat with (S (j - S i)) by lia. done. }
  unfold under. rewrite !list.filter_app, !length_app, filter_cons_True by done. cbn. lia.
Qed.
(** Steps that leave the write side of the layer alone. *)
Lemma trace_inv_same t l :
  trace_inv t -> message_encrypter l = message_encrypter (layer t) -> write_seq l = write_seq (layer t) -> trace_inv (with_layer l t).
Proof. intros [H1 H2 H3 H4] He Hl. by split; cbn; rewrite ?He, ?Hl. Qed.
(** A new key starts at zero: nothing was sent under it. *)
Lemma trace_inv_fresh t k l :
  trace_inv t -> message_encrypter l = Some k -> write_seq l = 0 -> trace_inv (with_key k l t).
Proof.
  intros [H1 H2 H3 H4] He Hl. split; cbn [with_key layer keys sent].
  - by rewrite last_snoc.
  - rewrite length_app, Nat.add_1_r, Hl. cbn [pred]. rewrite under_none; [done|]. intros i r Hr. destruct (H4 i r Hr) as (k' & Hk & _). apply lookup_lt_Some in Hk. lia.
  - exact H3.
  - intros i r Hr. destruct (H4 i r Hr) as (k' & Hk & Hc). exists k'. split; [by apply lookup_app_l_Some|done].
Qed.
Lemma last_at {A} (l : list A) x : list.last l = Some x -> l !! pred (length l) = Some x.
Proof. by rewrite last_lookup. Qed.
Lemma trace_inv_sent t m c l : trace_inv t -> encrypt_outgoing m (layer t) = (Ok c, l) ->
  trace_inv {| layer := l; keys := keys t; sent := sent t ++ [{| at_key := pred (length (keys t)); plain := m; record := c |}] |}.
Proof.
  intros [H1 H2 H3 H4] He. unfold encrypt_outgoing in He. destruct (encrypt_exhausted (layer t)) eqn:Hex; [done|]. unfold encrypt_exhausted in Hex. apply Z.leb_gt in Hex.
  cbn [message_encrypter] in He. unfold encrypt_with in He. destruct (message_encrypter (layer t)) as [k|]; [|done]. destruct (cipher_encrypt _ _ _) as [c'| |] eqn:Hc; [|done..].
  injection He as <- <-. symmetry in H1. apply last_at in H1 as Hk. split; cbn [layer keys sent message_encrypter write_seq]; [by rewrite H1| | |].
  - rewrite under_snoc. cbn [at_key]. rewrite bool_decide_eq_true_2 by done. lia.
  - intros i r Hr. apply lookup_app_Some in Hr as [Hr|[Hge Hr]]; [rewrite take_app_le by (apply lookup_lt_Some in Hr; lia); by apply H3|].
    apply list_lookup_singleton_Some in Hr as [Hi <-]. rewrite take_app_le, take_ge by lia. cbn [at_key]. lia.
  - intros i r Hr. apply lookup_app_Some in Hr as [Hr|[Hge Hr]]; [rewrite take_app_le by (apply lookup_lt_Some in Hr; lia); by apply H4|].
    apply list_lookup_singleton_Some in Hr as [Hi <-]. rewrite take_app_le, take_ge by lia. exists k. cbn [at_key plain record]. by rewrite <- H2.
Qed.

Lemma layer_step_inv t o t' : trace_inv t -> layer_step t o = Some t' -> trace_inv t'.
Proof.
  intros Hinv Hs. destruct o as [m|m|k|k| |k| |k|k n|]; cbn [layer_step] in Hs.
  { destruct (encrypt_outgoing m (layer t)) as [[c| |] l] eqn:He; [|done..]. injection Hs as <-. by apply trace_inv_sent. }
  all: injection Hs as <-; try (by apply trace_inv_same); try (by apply trace_inv_fresh).
  apply trace_inv_same; [done|..]; unfold decrypt_incoming, doing_trial_decryption; repeat case_match; simplify_eq/=; done.
Qed.

Lemma layer_run_inv os t : layer_run os start_trace = Some t -> trace_inv t.
Proof.
  intros Hr. assert (trace_inv start_trace) as Hs by (by split).
  revert Hs Hr. generalize start_trace. induction os as [|o os IH]; intros t0 Hs Hr; cbn [layer_run] in Hr; [by injection Hr as <-|].
  destruct (layer_step t0 o) as [t1|] eqn:Ho; [|done]. apply (IH t1); [by eapply layer_step_inv|done].
Qed.

(** C38: No nonce is used twice.  In every run of a connection, whatever the order of
    sends, receives and key changes, each record is the encryption of its message under
    the key last installed with, as its sequence number, the number of records sent
    before it under that installation, which is below the hard limit.  So two records
    of one installation are encrypted with different numbers, and if no two of the keys
    installed are the same, no pair of a key and a number is ever used for two records
    (an installation starts at zero, so a key installed again would repeat them: that
    the key schedule does not is not shown here).  At the hard limit the layer panics
    instead of wrapping. *)
Theorem nonces_never_reused os t :
  layer_run os start_trace = Some t ->
  let number i r := Z.of_nat (under (at_key r) (take i (sent t))) in
  (forall i r, sent t !! i = Some r -> sealed_with (keys t) r (number i r) /\ 0 <= number i r < SEQ_HARD_LIMIT) /\
  (forall i j r1 r2, i <> j -> sent t !! i = Some r1 -> sent t !! j = Some r2 ->
     (at_key r1, number i r1) <> (at_key r2, number j r2) /\
     (NoDup (keys t) -> (keys t !! at_key r1, number i r1) <> (keys t !! at_key r2, number j r2))) /\
  (forall m, SEQ_HARD_LIMIT <= write_seq (layer t) -> (encrypt_outgoing m (layer t)).1 = Panic).
Proof.
  intros Hr number. destruct (layer_run_inv os t Hr) as [H1 H2 H3 H4]. split; [intros i r Hi; split; [by apply H4|split; [unfold number; lia|by apply H3]]|]. split.
  - assert (forall i j r1 r2, i <> j -> sent t !! i = Some r1 -> sent t !! j = Some r2 -> (at_key r1, number i r1) <> (at_key r2, number j r2)) as Hd.
    { intros i j r1 r2 Hij Hi Hj [= He Hn]. apply Nat2Z.inj in Hn. rewrite <- He in Hn. destruct (Nat.lt_gt_cases i j) as [[Hlt|Hlt] _]; [done| |].
      - pose proof (under_lt _ _ _ _ Hi Hlt). lia.
      - pose proof (under_lt _ _ _ _ Hj Hlt). rewrite <- He in *. lia. }
    intros i j r1 r2 Hij Hi Hj. split; [by apply Hd|]. intros Hnd [= Hk Hn]. apply (Hd i j r1 r2 Hij Hi Hj). rewrite Hn. f_equal.
    destruct (H4 i r1 Hi) as (k1 & Hk1 & _). rewrite Hk1 in Hk. by apply (NoDup_lookup (keys t) _ _ k1).
  - intros m Hm. unfold encrypt_outgoing, encrypt_exhausted. by rewrite (proj2 (Z.leb_le _ _) Hm).
Qed.

(** A sending and a receiving layer that hold paired keys and agree on the next
    sequence number. *)
Record in_step (ke kd : K) (s r : RecordLayer (K:=K)) : Prop := {
  step_paired : paired ke kd;
  step_encrypter : message_encrypter s = Some ke;
  step_decrypter : message_decrypter r = Some kd;
  step_active : decrypt_state r = Active;
  step_seq : write_seq s = read_seq r;
  step_nonneg : 0 <= write_seq s
}.
(** Two layers with paired keys stay in step: records encrypted one after the
    other are decrypted, in order, to the messages that were sent, without a
    panic while the sequence numbers stay below the hard limit, and afterwards
    the two counters agree again. *)
Theorem record_stream_roundtrip ms ke kd s r :
  in_step ke kd s r -> Forall (sendable ke) ms -> write_seq s + Z.of_nat (length ms) <= SEQ_HARD_LIMIT ->
  exists cs ds s' r', encrypt_all ms s = (Ok cs, s') /\ decrypt_all cs r = (Ok (map Some ds), r') /\
    map plaintext ds = map (received kd) ms /\ in_step ke kd s' r' /\ write_seq s' = write_seq s + Z.of_nat (length ms).
Proof.
  intros Hst Hms. revert s r Hst. induction Hms as [|m ms Hm Hms IH]; intros s r Hst Hlim.
  - exists [], [], s, r. split; [done|]. split; [done|]. split; [done|]. split; [done|]. cbn. lia.
  - destruct Hst as [Hp Hs Hr Ha Hseq H0]. cbn [encrypt_all length] in *. unfold encrypt_outgoing. unfold encrypt_exhausted. rewrite (proj2 (Z.leb_gt _ _)) by lia.
    cbn [message_encrypter]. rewrite Hs. unfold encrypt_with.
    destruct (decrypt_encrypt ke kd m (write_seq s) Hp Hm ltac:(unfold SEQ_HARD_LIMIT in *; lia)) as (c & -> & Hd).
    match goal with |- context [encrypt_all ms ?l] => set (s1 := l) end.
    set (r1 := {| message_encrypter := message_encrypter r; message_decrypter := message_decrypter r; write_seq := write_seq r;
                  read_seq := u64 (read_seq r + 1); has_decrypted := true; encrypt_state := encrypt_state r;
                  decrypt_state := decrypt_state r; trial_decryption_len := trial_decryption_len r |}).
    assert (u64 (read_seq r + 1) = read_seq r + 1) as Hu by (unfold u64, SEQ_HARD_LIMIT in *; apply Z.mod_small; lia).
    destruct (IH s1 r1) as (cs & ds & s' & r' & H1 & H2 & H3 & H4 & H5); subst s1 r1; cbn [write_seq read_seq] in *; [|lia|].
    { split; cbn; try done; lia. }
    rewrite H1. exists (c :: cs), ({| want_close_before_decrypt := read_seq r =? SEQ_SOFT_LIMIT; plaintext := received kd m |} :: ds), s', r'.
    split; [done|]. split.
    + cbn [decrypt_all map]. unfold decrypt_incoming. rewrite Ha, Hr. cbn [negb]. rewrite bool_decide_eq_true_2 by done. cbn [negb].
      unfold decrypt_with. rewrite <- Hseq, Hd, Hseq. rewrite Hr in H2. rewrite Ha in H2. rewrite H2. done.
    + split; [cbn; by rewrite H3|]. split; [done|]. lia.
Qed.

(** Rejected early data is skipped within its budget: records that do not
    decrypt are dropped one by one, without an error and without moving the
    sequence number, as long as their total size stays within the configured
    length; the first record beyond the budget is an error. *)
Theorem trial_decryption_budget k cs c r budget :
  message_decrypter r = Some k -> decrypt_state r = Active -> trial_decryption_len r = Some budget ->
  (forall x, x ∈ c :: cs -> cipher_decrypt k x (read_seq r) = Err DecryptError) ->
  let total := length (concat (map payload cs)) in
  (total <= budget)%nat ->
  exists r', decrypt_all cs r = (Ok (map (fun _ => None) cs), r') /\ read_seq r' = read_seq r /\
    trial_decryption_len r' = Some (budget - total)%nat /\
    (decrypt_incoming c r').1 = if (length (payload c) <=? budget - total)%nat then Ok None else Err DecryptError.
Proof.
  cbn zeta. revert r budget. induction cs as [|x cs IH]; intros r budget Hk Ha Ht Hd Htot.
  - exists r. cbn [map concat length] in *. rewrite Nat.sub_0_r. split; [done|]. split; [done|]. split; [done|].
    unfold decrypt_incoming. rewrite bool_decide_eq_true_2 by done. cbn [negb]. rewrite Hk. unfold decrypt_with.
    rewrite Hd by by left. unfold doing_trial_decryption. rewrite Ht. by destruct (length (payload c) <=? budget)%nat.
  - cbn [map concat length] in *. rewrite length_app in *.
    set (r1 := {| message_encrypter := message_encrypter r; message_decrypter := message_decrypter r; write_seq := write_seq r;
                  read_seq := read_seq r; has_decrypted := has_decrypted r; encrypt_state := encrypt_state r;
                  decrypt_state := decrypt_state r; trial_decryption_len := Some (budget - length (payload x))%nat |}).
    destruct (IH r1 (budget - length (payload x))%nat) as (r' & H1 & H2 & H3 & H4); try done; [|lia|].
    { intros y Hy. apply Hd. apply elem_of_cons in Hy as [->|Hy]; [by left|]. by right; right. }
    exists r'. cbn [decrypt_all]. unfold decrypt_incoming at 1. rewrite bool_decide_eq_true_2 by done. cbn [negb]. rewrite Hk. unfold decrypt_with at 1.
    rewrite Hd by (right; by left). unfold doing_trial_decryption. rewrite Ht, (proj2 (Nat.leb_le _ _)) by lia. fold r1.
    rewrite H1. cbn [fmap]. replace (budget - (length (payload x) + length (concat (map payload cs))))%nat
      with (budget - length (payload x) - length (concat (map payload cs)))%nat by lia. done.
Qed.
End layer_lemmas.

(** ** Witnesses *)

Definition ex_record : message := {| typ := Known Handshake; version := Known TLSv1_2; payload := [1; 2; 3] |}.

(** A cipher for witnesses: the sequence number is appended as a tag. *)
Definition toy_cipher : Cipher Z :=
  {| cipher_encrypt k m seq := Ok {| typ := typ m; version := version m; payload := payload m ++ [k + seq] |};
     cipher_decrypt k m seq :=
       if bool_decide (list.last (payload m) = Some (k + seq))
       then Ok {| typ := typ m; version := version m; payload := removelast (payload m) |}
       else Err DecryptError |}.
Definition toy_cipher_laws : CipherLaws toy_cipher.
Proof.
  refine {| paired ke kd := ke = kd; sendable _ _ := True; received _ m := m |}. intros ke kd [ty vs pl] seq <- _ _. eexists. split; [done|].
  cbn. rewrite last_snoc, removelast_last. by rewrite bool_decide_eq_true_2.
Defined.

Lemma ex_record_wf : wf_message ex_record.
Proof.
  split; [exists 0x16; split; [rewrite list_elem_of_In; cbn; auto|cbn; lia]|]. split; [by eexists|].
  split; [exists 0x0303; split; [rewrite list_elem_of_In; cbn; auto 8|cbn; lia]|]. split; [done|]. split; [done|]. done.
Qed.

Lemma opaque_message_roundtrip_witness :
  opaque_read (init (opaque_encode ex_record ++ [9])) = (Ok ex_record, {| buffer := [0x16; 3; 3; 0; 3; 1; 2; 3; 9]; cursor := 8 |}).
Proof. apply (opaque_message_roundtrip ex_record [9] ex_record_wf). Defined.

Lemma fragments_reassemble_witness :
  exists ms, fragment_message (E:=tls_error) {| max_frag := 27 |} ex_record = Ok ms /\ concat (map payload ms) = [1; 2; 3].
Proof.
  destruct (fragments_reassemble (Some 32%nat) {| max_frag := 27 |} ex_record eq_refl) as [(ms & H1 & H2 & _) _].
  exists ms. by split.
Defined.

Lemma tls13_unpad_inverse_witness :
  into_tls13_unpadded_message {| typ := Known ApplicationData; version := Known TLSv1_2; payload := [1; 2] ++ [22] ++ replicate 3 0 |}
  = Ok {| typ := Known Handshake; version := Known TLSv1_3; payload := [1; 2] |}.
Proof. apply (tls13_unpad_inverse [1; 2] 22 3 (Known TLSv1_2) (Known ApplicationData)); [done|]. unfold MAX_FRAGMENT_LEN. cbn [length]. lia. Defined.

(** Two records under one key and one under the next: numbers 0, 1 and 0, as the tags
    of the cipher show. *)
Definition ex_layer_ops : list layer_op := [SetEncrypter 50; Encrypt ex_record; Encrypt ex_record; SetEncrypter 60; Encrypt ex_record].
Lemma nonces_never_reused_witness :
  exists t, layer_run (C:=toy_cipher) ex_layer_ops start_trace = Some t /\
    map (fun r => list.last (payload (record r))) (sent t) = [Some 50; Some 51; Some 60] /\
    forall i j r1 r2, i <> j -> sent t !! i = Some r1 -> sent t !! j = Some r2 ->
      (keys t !! at_key r1, Z.of_nat (under (at_key r1) (take i (sent t)))) <> (keys t !! at_key r2, Z.of_nat (under (at_key r2) (take j (sent t)))).
Proof.
  eexists. split; [reflexivity|]. split; [reflexivity|].
  intros i j r1 r2 Hij Hi Hj. eapply (nonces_never_reused (C:=toy_cipher) ex_layer_ops); [reflexivity|done|exact Hi|exact Hj|].
  apply (bool_decide_unpack _). vm_compute. exact I.
Defined.

Lemma record_stream_roundtrip_witness :
  exists cs ds s' r', encrypt_all (H:=toy_cipher) [ex_record; ex_record] (set_message_encrypter 5 new_layer) = (Ok cs, s') /\
    decrypt_all (H:=toy_cipher) cs (set_message_decrypter 5 new_layer) = (Ok (map Some ds), r') /\ map plaintext ds = [ex_record; ex_record].
Proof.
  destruct (record_stream_roundtrip (CL:=toy_cipher_laws) [ex_record; ex_record] 5 5 (set_message_encrypter 5 new_layer) (set_message_decrypter 5 new_layer))
    as (cs & ds & s' & r' & H1 & H2 & H3 & _); [by split|by repeat constructor|cbn; unfold SEQ_HARD_LIMIT; lia|].
  exists cs, ds, s', r'. by repeat split.
Defined.

Lemma trial_decryption_budget_witness :
  exists r', decrypt_all (H:=toy_cipher) [ex_record] (set_message_decrypter_with_trial_decryption 5 4 new_layer) = (Ok [None], r') /\
    (decrypt_incoming (H:=toy_cipher) ex_record r').1 = Err DecryptError.
Proof.
  destruct (trial_decryption_budget (C:=toy_cipher) 5 [ex_record] ex_record (set_message_decrypter_with_trial_decryption 5 4 new_layer) 4)
    as (r' & H1 & _ & _ & H4); try reflexivity.
  - intros x Hx. repeat (apply elem_of_cons in Hx as [->|Hx]; [reflexivity|]). by apply elem_of_nil in Hx.
  - cbn. lia.
  - exists r'. by split.
Defined.
