(* ===== verification/Deframer.v ===== *)
(** * The deframer of the TLS fork (orcax/rustls-fork/rustls/src/msgs/deframer.rs)

    [MessageDeframer] turns the bytes of a connection into messages.  It works in
    one buffer: records are decrypted, and the payloads of handshake records are
    written back over the front of that buffer until a whole handshake message
    is there.  The specification has no buffer and no positions: a queue of
    bytes still to be parsed and the handshake bytes joined so far.  The
    deframer refines it, and from the specification it follows that the messages
    delivered do not depend on how the bytes arrived. *)
From S2P Require Import Prelude Codec TlsLayer.

Inductive deframe_error : Type :=
| InvalidRecord (e : MessageError)
| HandshakePayloadTooLarge
| RejectedEarlyDataInterleavedWithHandshakeMessage
| MessageInterleavedWithHandshakeMessage
| RecordFailed (e : tls_error)
| CannotPushQuic
| MessageBufferFull
| ReadFailed.

Record HandshakePayloadMeta : Type := {
  message_end : nat;                (* the range of data processed starts at 0 *)
  payload_start : nat;
  payload_end : nat;
  meta_version : ProtocolVersion;
  expected_len : option nat;
  quic : bool
}.

Record MessageDeframer : Type := {
  last_error : option deframe_error;
  buf : bytes;
  joining_hs : option HandshakePayloadMeta;
  d_used : nat
}.
Definition new_deframer : MessageDeframer := {| last_error := None; buf := []; joining_hs := None; d_used := 0 |}.

(** [want_close_before_decrypt] is always [false]: [pop] drops the record layer's. *)
Record Deframed : Type := { deframed_want_close : bool; aligned : bool; trial_decryption_finished : bool; deframed : message }.

Definition HS_HEADER : nat := 1 + 3.
Definition MAX_HANDSHAKE_SIZE : Z := 0xffff.
Definition READ_SIZE : nat := Z.to_nat 4096.

Definition set_buf (d : MessageDeframer) (b : bytes) : MessageDeframer :=
  {| last_error := last_error d; buf := b; joining_hs := joining_hs d; d_used := d_used d |}.
Definition set_used (d : MessageDeframer) (n : nat) : MessageDeframer :=
  {| last_error := last_error d; buf := buf d; joining_hs := joining_hs d; d_used := n |}.
Definition set_joining (d : MessageDeframer) (m : option HandshakePayloadMeta) : MessageDeframer :=
  {| last_error := last_error d; buf := buf d; joining_hs := m; d_used := d_used d |}.

(** [set_err]. *)
Definition set_err (d : MessageDeframer) (e : deframe_error) : MessageDeframer :=
  {| last_error := Some e; buf := buf d; joining_hs := joining_hs d; d_used := d_used d |}.

(** [payload_size]. *)
Definition payload_size (b : bytes) : result deframe_error (option nat) :=
  if (length b <? HS_HEADER)%nat then Ok None
  else
    let header := take HS_HEADER b in
    match read_bytes (H:=codec_u24) (drop 1 header) with
    | Ok len => if MAX_HANDSHAKE_SIZE <? len then Err HandshakePayloadTooLarge else Ok (Some (HS_HEADER + Z.to_nat len)%nat)
    | _ => Ok None
    end.

(** [discard]: nothing happens when more is to be discarded than is there. *)
Definition discard (taken : nat) (d : MessageDeframer) : result deframe_error MessageDeframer :=
  if (taken <? d_used d)%nat then
    pending ← slice (buf d) taken (d_used d);
    b ← copy_into (buf d) 0 (d_used d - taken) pending;
    Ok (set_used (set_buf d b) (d_used d - taken))
  else if (taken =? d_used d)%nat then Ok (set_used d 0)
  else Ok d.

Inductive HandshakePayloadState : Type := Blocked | Complete (len : nat) | Continue.

Definition meta_len (m : HandshakePayloadMeta) : nat := payload_end m - payload_start m.

(** [append_hs], with the state it leaves behind when [payload_size] fails. *)
Definition append_state (d : MessageDeframer) (m : HandshakePayloadMeta) : HandshakePayloadState :=
  match expected_len m with
  | Some len => if (len <=? meta_len m)%nat then Complete len
                else if (message_end m <? d_used d)%nat then Continue else Blocked
  | None => if (message_end m <? d_used d)%nat then Continue else Blocked
  end.
Definition append_hs (version : ProtocolVersion) (p : bytes) (e : nat) (is_quic : bool) (d : MessageDeframer)
  : result deframe_error HandshakePayloadState * MessageDeframer :=
  match joining_hs d with
  | Some m =>
      match copy_into (buf d) (payload_end m) (payload_end m + length p) p with
      | Ok b =>
          let m := {| message_end := e; payload_start := payload_start m; payload_end := payload_end m + length p;
                      meta_version := meta_version m; expected_len := expected_len m; quic := quic m |} in
          let d := set_joining (set_buf d b) (Some m) in
          match expected_len m with
          | Some _ => (Ok (append_state d m), d)
          | None =>
              match (s ← slice (buf d) (payload_start m) (payload_end m); payload_size s) with
              | Ok x =>
                  let m := {| message_end := message_end m; payload_start := payload_start m; payload_end := payload_end m;
                              meta_version := meta_version m; expected_len := x; quic := quic m |} in
                  (Ok (append_state d m), set_joining d (Some m))
              | Err err => (Err err, d)
              | Panic => (Panic, d)
              end
          end
      | Err err => (Err err, d)
      | Panic => (Panic, d)
      end
  | None =>
      match payload_size p with
      | Ok x =>
          match copy_into (buf d) 0 (length p) p with
          | Ok b =>
              let m := {| message_end := e; payload_start := 0; payload_end := length p; meta_version := version;
                          expected_len := x; quic := is_quic |} in
              let d := set_joining (set_buf d b) (Some m) in
              (Ok (append_state d m), d)
          | Err err => (Err err, d)
          | Panic => (Panic, d)
          end
      | Err err => (Err err, d)
      | Panic => (Panic, d)
      end
  end.

(** [prepare_read]: [Vec::resize] cuts or fills with zeros. *)
Definition resize (n : nat) (b : bytes) : bytes := take n b ++ replicate (n - length b) 0.
Definition allow_max (d : MessageDeframer) : nat :=
  match joining_hs d with Some _ => Z.to_nat MAX_HANDSHAKE_SIZE | None => Z.to_nat MAX_WIRE_SIZE end.
Definition prepare_read (d : MessageDeframer) : result deframe_error MessageDeframer :=
  let max := allow_max d in
  if (max <=? d_used d)%nat then Err MessageBufferFull
  else
    let need := Nat.min max (d_used d + READ_SIZE) in
    if (length (buf d) <? need)%nat then Ok (set_buf d (resize need (buf d)))
    else if (d_used d =? 0)%nat || (max <? length (buf d))%nat then Ok (set_buf d (resize need (buf d)))
    else Ok d.

(** [read] from a source that offers [input], or fails ([None]); the source fills
    at most the buffer. *)
Definition read_from (input : option bytes) (d : MessageDeframer) : result deframe_error nat * MessageDeframer :=
  match prepare_read d with
  | Ok d =>
      match input with
      | None => (Err ReadFailed, d)
      | Some bs =>
          let n := Nat.min (length bs) (length (buf d) - d_used d) in
          match copy_into (buf d) (d_used d) (d_used d + n) (take n bs) with
          | Ok b => (Ok n, set_used (set_buf d b) (d_used d + n))
          | Err e => (Err e, d)
          | Panic => (Panic, d)
          end
      end
  | Err e => (Err e, d)
  | Panic => (Panic, d)
  end.

(** [push], for QUIC. *)
Definition push (version : ProtocolVersion) (p : bytes) (d : MessageDeframer) : result deframe_error unit * MessageDeframer :=
  if (0 <? d_used d)%nat && match joining_hs d with None => true | Some _ => false end then (Err CannotPushQuic, d)
  else match prepare_read d with
       | Ok d =>
           let e := (d_used d + length p)%nat in
           match append_hs version p e true d with
           | (Ok _, d) => (Ok tt, set_used d e)
           | (Err err, d) => (Err err, d)
           | (Panic, d) => (Panic, d)
           end
       | Err e => (Err e, d)
       | Panic => (Panic, d)
       end.

Definition has_pending (d : MessageDeframer) : bool := (0 <? d_used d)%nat.
(** [take_pending]: [joining_hs] is left as it is. *)
Definition take_pending (d : MessageDeframer) : result deframe_error bytes * MessageDeframer :=
  if (d_used d =? 0)%nat then (Ok [], d)
  else match slice (buf d) 0 (d_used d) with
       | Ok data => (Ok data, set_used d 0)
       | Err e => (Err e, d)
       | Panic => (Panic, d)
       end.

(** ** [pop] *)

Section pop.
Context {K : Type} {C : Cipher K} (negotiated : option ProtocolVersion).

(** The guard that lets ChangeCipherSpec and early alerts pass undecrypted. *)
Definition allowed_plaintext (m : message) (l : RecordLayer (K:=K)) : bool :=
  match typ m with
  | Known ChangeCipherSpec => true
  | Known Alert => bool_decide (negotiated = Some (Known TLSv1_3)) && negb (has_decrypted l) && (length (TlsLayer.payload m) <=? 2)%nat
  | _ => false
  end.

Definition plain_result (m : message) : result deframe_error (option Deframed) :=
  Ok (Some {| deframed_want_close := false; aligned := true; trial_decryption_finished := false; deframed := m |}).

(** How one turn of the loop ends. *)
Inductive turn : Type :=
| Return (r : result deframe_error (option Deframed))
| Break (len : nat)
| Again.

Definition lift_discard (n : nat) (d : MessageDeframer) (k : turn) : turn * MessageDeframer :=
  match discard n d with Ok d' => (k, d') | Err e => (Return (Err e), d) | Panic => (Return Panic, d) end.

(** The part of a turn after a record has been decrypted. *)
Definition pop_decrypted (e : nat) (msg : message) (d : MessageDeframer) : turn * MessageDeframer :=
  let is_hs := bool_decide (typ msg = Known Handshake) in
  if negb is_hs then
    match joining_hs d with
    | Some _ => (Return (Err MessageInterleavedWithHandshakeMessage), set_err d MessageInterleavedWithHandshakeMessage)
    | None => lift_discard e d (Return (plain_result msg))
    end
  else match append_hs (TlsLayer.version msg) (TlsLayer.payload msg) e false d with
       | (Ok Blocked, d) => (Return (Ok None), d)
       | (Ok (Complete len), d) => (Break len, d)
       | (Ok Continue, d) => (Again, d)
       | (Err err, d) => (Return (Err err), d)
       | (Panic, d) => (Return Panic, d)
       end.

(** Parsing the record at [start]. *)
Definition pop_record (start : nat) (d : MessageDeframer) (l : RecordLayer) : turn * MessageDeframer * RecordLayer :=
  match slice (buf d) start (d_used d) with
  | Ok bs =>
      let '(res, rd) := opaque_read (init bs) in
      match res with
      | Err TooShortForHeader | Err TooShortForLength => (Return (Ok None), d, l)
      | Err err => (Return (Err (InvalidRecord err)), set_err d (InvalidRecord err), l)
      | Panic => (Return Panic, d, l)
      | Ok m =>
          let e := (start + used rd)%nat in
          if match joining_hs d with None => true | Some _ => false end && allowed_plaintext m l
          then (lift_discard e d (Return (plain_result m)), l)
          else match decrypt_incoming m l with
               | (Ok (Some dec), l) => (pop_decrypted e (plaintext dec) d, l)
               | (Ok None, l) =>
                   match joining_hs d with
                   | Some _ => (Return (Err RejectedEarlyDataInterleavedWithHandshakeMessage),
                                set_err d RejectedEarlyDataInterleavedWithHandshakeMessage, l)
                   | None => (lift_discard e d Again, l)
                   end
               | (Err err, l) => (Return (Err (RecordFailed err)), d, l)
               | (Panic, l) => (Return Panic, d, l)
               end
      end
  | Err err => (Return (Err err), d, l)
  | Panic => (Return Panic, d, l)
  end.

Definition pop_turn (d : MessageDeframer) (l : RecordLayer) : turn * MessageDeframer * RecordLayer :=
  match joining_hs d with
  | Some m =>
      match expected_len m with
      | Some len => if (len <=? meta_len m)%nat then (Break len, d, l)
                    else if quic m then (Return (Ok None), d, l) else pop_record (message_end m) d l
      | None => if quic m then (Return (Ok None), d, l) else pop_record (message_end m) d l
      end
  | None => pop_record 0 d l
  end.

(** After the loop: the complete handshake message of [len] bytes. *)
Definition finish_join (len : nat) (d : MessageDeframer) : result deframe_error (option Deframed) * MessageDeframer :=
  match joining_hs d with
  | None => (Panic, d)
  | Some m =>
      match slice (buf d) (payload_start m) (payload_start m + len) with
      | Ok p =>
          let msg := {| typ := Known Handshake; TlsLayer.version := meta_version m; TlsLayer.payload := p |} in
          if (len <? meta_len m)%nat then
            let m := {| message_end := message_end m; payload_start := payload_start m + len; payload_end := payload_end m;
                        meta_version := meta_version m; expected_len := expected_len m; quic := quic m |} in
            let d := set_joining d (Some m) in
            match (s ← slice (buf d) (payload_start m) (payload_end m); payload_size s) with
            | Ok x =>
                let m := {| message_end := message_end m; payload_start := payload_start m; payload_end := payload_end m;
                            meta_version := meta_version m; expected_len := x; quic := quic m |} in
                (Ok (Some {| deframed_want_close := false; aligned := false; trial_decryption_finished := true; deframed := msg |}), set_joining d (Some m))
            | Err e => (Err e, d)
            | Panic => (Panic, d)
            end
          else
            match discard (message_end m) (set_joining d None) with
            | Ok d => (Ok (Some {| deframed_want_close := false; aligned := true; trial_decryption_finished := true; deframed := msg |}), d)
            | Err e => (Err e, d)
            | Panic => (Panic, d)
            end
      | Err e => (Err e, d)
      | Panic => (Panic, d)
      end
  end.

Fixpoint pop_loop (fuel : nat) (d : MessageDeframer) (l : RecordLayer)
  : option (result deframe_error (option Deframed) * MessageDeframer * RecordLayer) :=
  match fuel with
  | O => None
  | S fuel' =>
      match pop_turn d l with
      | (Return r, d, l) => Some (r, d, l)
      | (Break len, d, l) => Some (finish_join len d, l)
      | (Again, d, l) => pop_loop fuel' d l
      end
  end.

(** [pop]: every turn that goes on has moved past a record of at least five
    bytes. *)
Definition pop (d : MessageDeframer) (l : RecordLayer)
  : option (result deframe_error (option Deframed) * MessageDeframer * RecordLayer) :=
  match last_error d with
  | Some e => Some (Err e, d, l)
  | None => if (d_used d =? 0)%nat then Some (Ok None, d, l) else pop_loop (S (d_used d)) d l
  end.
End pop.

(** ** The specification *)

Record pending : Type := {
  pd_version : ProtocolVersion;
  pd_data : bytes;                  (* joined and not yet delivered *)
  pd_expected : option nat;
  pd_quic : bool
}.
Record spec : Type := { sp_error : option deframe_error; sp_pending : option pending; sp_todo : bytes }.

Definition spec_fail (s : spec) (e : deframe_error) : spec :=
  {| sp_error := Some e; sp_pending := sp_pending s; sp_todo := sp_todo s |}.
Definition spec_go (s : spec) (q : option pending) (t : bytes) : spec :=
  {| sp_error := sp_error s; sp_pending := q; sp_todo := t |}.

(** More handshake bytes: what is pending afterwards, also when the length is
    refused. *)
Definition spec_append (v : ProtocolVersion) (p : bytes) (is_quic : bool) (o : option pending)
  : result deframe_error unit * option pending :=
  match o with
  | Some q =>
      let q := {| pd_version := pd_version q; pd_data := pd_data q ++ p; pd_expected := pd_expected q; pd_quic := pd_quic q |} in
      match pd_expected q with
      | Some _ => (Ok tt, Some q)
      | None =>
          match payload_size (pd_data q) with
          | Ok x => (Ok tt, Some {| pd_version := pd_version q; pd_data := pd_data q; pd_expected := x; pd_quic := pd_quic q |})
          | Err e => (Err e, Some q)
          | Panic => (Panic, Some q)
          end
      end
  | None =>
      match payload_size p with
      | Ok x => (Ok tt, Some {| pd_version := v; pd_data := p; pd_expected := x; pd_quic := is_quic |})
      | Err e => (Err e, None)
      | Panic => (Panic, None)
      end
  end.

Section spec.
Context {K : Type} {C : Cipher K} (negotiated : option ProtocolVersion).

(** A turn returns a result ([Some]) or goes on. *)
Definition spec_answer : Type := option (result deframe_error (option Deframed)).

Definition spec_decrypted (msg : message) (t : bytes) (s : spec) : spec_answer * spec :=
  if bool_decide (typ msg = Known Handshake) then
    match spec_append (TlsLayer.version msg) (TlsLayer.payload msg) false (sp_pending s) with
    | (Ok _, q) => (None, spec_go s q t)
    | (Err e, q) => (Some (Err e), spec_go s q (match q with Some _ => t | None => sp_todo s end))
    | (Panic, q) => (Some Panic, s)
    end
  else match sp_pending s with
       | Some _ => (Some (Err MessageInterleavedWithHandshakeMessage), spec_fail s MessageInterleavedWithHandshakeMessage)
       | None => (Some (plain_result msg), spec_go s None t)
       end.

Definition spec_record (s : spec) (l : RecordLayer (K:=K)) : spec_answer * spec * RecordLayer :=
  match opaque_outcome (sp_todo s) with
  | Err TooShortForHeader | Err TooShortForLength => (Some (Ok None), s, l)
  | Err err => (Some (Err (InvalidRecord err)), spec_fail s (InvalidRecord err), l)
  | Panic => (Some Panic, s, l)
  | Ok (m, n) =>
      let t := drop n (sp_todo s) in
      if match sp_pending s with None => true | Some _ => false end && allowed_plaintext negotiated m l
      then (Some (plain_result m), spec_go s None t, l)
      else match decrypt_incoming m l with
           | (Ok (Some dec), l) => (spec_decrypted (plaintext dec) t s, l)
           | (Ok None, l) =>
               match sp_pending s with
               | Some _ => (Some (Err RejectedEarlyDataInterleavedWithHandshakeMessage),
                            spec_fail s RejectedEarlyDataInterleavedWithHandshakeMessage, l)
               | None => (None, spec_go s None t, l)
               end
           | (Err err, l) => (Some (Err (RecordFailed err)), s, l)
           | (Panic, l) => (Some Panic, s, l)
           end
  end.

(** Delivering the first [len] bytes of what is pending. *)
Definition spec_deliver (len : nat) (q : pending) (s : spec) : result deframe_error (option Deframed) * spec :=
  let msg := {| typ := Known Handshake; TlsLayer.version := pd_version q; TlsLayer.payload := take len (pd_data q) |} in
  let left := drop len (pd_data q) in
  match left with
  | [] => (Ok (Some {| deframed_want_close := false; aligned := true; trial_decryption_finished := true; deframed := msg |}), spec_go s None (sp_todo s))
  | _ =>
      match payload_size left with
      | Ok x =>
          (Ok (Some {| deframed_want_close := false; aligned := false; trial_decryption_finished := true; deframed := msg |}),
           spec_go s (Some {| pd_version := pd_version q; pd_data := left; pd_expected := x; pd_quic := pd_quic q |}) (sp_todo s))
      | Err e =>
          (Err e, spec_go s (Some {| pd_version := pd_version q; pd_data := left; pd_expected := pd_expected q; pd_quic := pd_quic q |}) (sp_todo s))
      | Panic => (Panic, s)
      end
  end.

Definition spec_turn (s : spec) (l : RecordLayer) : spec_answer * spec * RecordLayer :=
  match sp_error s with
  | Some e => (Some (Err e), s, l)
  | None =>
      match sp_pending s with
      | Some q =>
          match pd_expected q with
          | Some len => if (len <=? length (pd_data q))%nat then let '(r, s') := spec_deliver len q s in (Some r, s', l)
                        else if pd_quic q then (Some (Ok None), s, l) else spec_record s l
          | None => if pd_quic q then (Some (Ok None), s, l) else spec_record s l
          end
      | None => spec_record s l
      end
  end.

(** One call of [pop], as the turns it takes. *)
Inductive pops : spec -> RecordLayer -> result deframe_error (option Deframed) -> spec -> RecordLayer -> Prop :=
| pops_return s l r s' l' : spec_turn s l = (Some r, s', l') -> pops s l r s' l'
| pops_again s l s1 l1 r s' l' : spec_turn s l = (None, s1, l1) -> pops s1 l1 r s' l' -> pops s l r s' l'.
End spec.

(** ** The representation *)

Definition layout (b : bytes) (u : nat) (j : option HandshakePayloadMeta) (o : option pending) (t : bytes) : Prop :=
  match j, o with
  | None, None => exists z, b = t ++ z /\ u = length t
  | Some m, Some q =>
      exists a g z, b = a ++ pd_data q ++ g ++ t ++ z /\ payload_start m = length a /\
        payload_end m = (length a + length (pd_data q))%nat /\ message_end m = (payload_end m + length g)%nat /\
        u = (message_end m + length t)%nat /\ meta_version m = pd_version q /\ expected_len m = pd_expected q /\
        quic m = pd_quic q /\
        (forall len, pd_expected q = Some len -> (HS_HEADER <= len)%nat)
  | _, _ => False
  end.

Record repr (d : MessageDeframer) (s : spec) : Prop := {
  repr_error : last_error d = sp_error s;
  repr_layout : layout (buf d) (d_used d) (joining_hs d) (sp_pending s) (sp_todo s);
  repr_bound : (length (buf d) <= Z.to_nat MAX_HANDSHAKE_SIZE)%nat
}.

(** ** Lemmas *)


(** *** Parsing *)

Lemma opaque_outcome_ok b m n :
  opaque_outcome b = Ok (m, n) -> n = (5 + length (TlsLayer.payload m))%nat /\ (n <= length b)%nat.
Proof.
  unfold opaque_outcome. intros H. repeat case_match; simplify_eq. cbn [TlsLayer.payload length].
  rewrite length_take. match goal with H : (_ <? _)%nat = false |- _ => apply Nat.ltb_ge in H end. lia.
Qed.
Lemma opaque_outcome_no_panic b : opaque_outcome b <> Panic.
Proof. unfold opaque_outcome. by repeat case_match. Qed.

(** What is already decided stays when more bytes arrive. *)
Lemma opaque_outcome_more b x :
  match opaque_outcome b with
  | Ok mn => opaque_outcome (b ++ x) = Ok mn
  | Err TooShortForHeader | Err TooShortForLength => True
  | Err e => opaque_outcome (b ++ x) = Err e
  | Panic => False
  end.
Proof.
  destruct b as [|t b]; [done|]. cbn [opaque_outcome app]. destruct (enum_from content_types t); [|done].
  destruct b as [|v1 [|v2 b]]; [done|done|]. cbn [app]. destruct (bad_version _); [done|].
  destruct b as [|l1 [|l2 b]]; [done|done|]. cbn [app]. destruct (negb _ && _); [done|]. destruct (MAX_PAYLOAD <=? _); [done|].
  destruct (Nat.ltb_spec (length b) (Z.to_nat (be_decode [l1; l2]))); [done|]. rewrite length_app.
  destruct (Nat.ltb_spec (length b + length x) (Z.to_nat (be_decode [l1; l2]))); [lia|]. by rewrite take_app_le by lia.
Qed.

Lemma payload_size_no_panic b : payload_size b <> Panic.
Proof. unfold payload_size. repeat case_match; done. Qed.
Lemma payload_size_some b n : payload_size b = Ok (Some n) -> (HS_HEADER <= n)%nat.
Proof.
  unfold payload_size. destruct (_ <? _)%nat; [done|]. destruct (read_bytes _) as [len| |]; [|done|done].
  destruct (_ <? _); [done|]. injection 1 as <-. unfold HS_HEADER. lia.
Qed.

Lemma decrypt_shorter {K} {C : Cipher K} {CS : CipherSafe C} m l d l' :
  decrypt_incoming m l = (Ok (Some d), l') -> (length (TlsLayer.payload (plaintext d)) <= length (TlsLayer.payload m))%nat.
Proof.
  unfold decrypt_incoming, decrypt_with. intros H. destruct (negb _); [by simplify_eq|].
  destruct (message_decrypter l) as [k|]; [|repeat case_match; simplify_eq].
  destruct (cipher_decrypt k m (read_seq l)) as [p|e|] eqn:Hp; [|repeat case_match; simplify_eq..].
  simplify_eq. by apply (decrypt_shrinks k _ (read_seq l)).
Qed.

(** *** Refinement of the parts *)

Lemma discard_refines d r t z :
  buf d = r ++ t ++ z -> d_used d = (length r + length t)%nat ->
  exists b, discard (length r) d = Ok (set_used (set_buf d b) (length t)) /\ length b = length (buf d) /\ exists z', b = t ++ z'.
Proof.
  intros Hb Hu. unfold discard. rewrite Hu. destruct (Nat.ltb_spec (length r) (length r + length t)).
  - rewrite Hb, (slice_app_at r t z) by lia. cbn [mbind result_bind].
    assert (exists old z', r ++ t ++ z = old ++ z' /\ length old = length t) as (old & z' & Heq & Hl).
    { exists (take (length t) (r ++ t ++ z)), (drop (length t) (r ++ t ++ z)). split; [by rewrite take_drop|].
      rewrite length_take, !length_app. lia. }
    rewrite Heq. pose proof (copy_into_app (E:=deframe_error) [] old z' t 0 (length r + length t - length r) eq_refl ltac:(cbn; lia) ltac:(lia)) as Hc.
    cbn [app] in Hc. rewrite Hc. cbn [mbind result_bind]. rewrite Nat.add_comm, Nat.add_sub.
    exists (t ++ z'). rewrite <- Hl. split; [done|]. split; [rewrite !length_app; lia|]. by exists z'.
  - assert (t = []) as -> by (destruct t; [done|cbn in *; lia]). cbn [length] in *. rewrite Nat.add_0_r in *. rewrite Nat.eqb_refl.
    exists (buf d). split; [by destruct d|]. split; [done|]. by exists (buf d).
Qed.

Lemma repr_discard d s r t z k :
  last_error d = sp_error s -> joining_hs d = None -> (length (buf d) <= Z.to_nat MAX_HANDSHAKE_SIZE)%nat ->
  buf d = r ++ t ++ z -> d_used d = (length r + length t)%nat ->
  exists d', lift_discard (length r) d k = (k, d') /\ repr d' (spec_go s None t).
Proof.
  intros He Hj Hbd Hb Hu. destruct (discard_refines d r t z Hb Hu) as (b & Hd & Hl & z' & Hz). unfold lift_discard. rewrite Hd.
  eexists. split; [done|]. split; cbn; [done| |lia]. rewrite Hj. by exists z'.
Qed.

(** Joining one more payload, which replaces bytes that are at least as many. *)
Lemma append_refines d s v p r t is_quic :
  last_error d = sp_error s -> (length (buf d) <= Z.to_nat MAX_HANDSHAKE_SIZE)%nat ->
  layout (buf d) (d_used d) (joining_hs d) (sp_pending s) (r ++ t) -> (length p <= length r)%nat ->
  let e := (match joining_hs d with Some m => message_end m | None => 0 end + length r)%nat in
  match spec_append v p is_quic (sp_pending s) with
  | (Ok _, Some q) =>
      exists d' m, append_hs v p e is_quic d = (Ok (append_state d m), d') /\ joining_hs d' = Some m /\
        repr d' (spec_go s (Some q) t) /\ d_used d' = d_used d
  | (Err err, Some q) => exists d', append_hs v p e is_quic d = (Err err, d') /\ repr d' (spec_go s (Some q) t)
  | (Err err, None) => append_hs v p e is_quic d = (Err err, d) /\ sp_pending s = None
  | _ => False
  end.
Proof.
  intros He Hbd Hlay Hp e. unfold layout in Hlay. unfold spec_append, append_hs, e. clear e.
  destruct (joining_hs d) as [m|] eqn:Hj; destruct (sp_pending s) as [q|]; try done.
  - destruct Hlay as (a & g & z & Hb & Hs & Hpe & Hm & Hu & Hv & Hex & Hq & Hexp).
    rewrite length_app in Hu. assert (exists old, g ++ r = old ++ drop (length p) (g ++ r) /\ length old = length p) as (old & Hold & Hol).
    { exists (take (length p) (g ++ r)). split; [by rewrite take_drop|]. rewrite length_take, length_app. lia. }
    set (g' := drop (length p) (g ++ r)) in *.
    assert (Hg' : length g' = (length g + length r - length p)%nat) by (unfold g'; rewrite length_drop, length_app; lia).
    assert (Hb' : buf d = (a ++ pd_data q) ++ old ++ g' ++ t ++ z).
    { rewrite Hb. transitivity (a ++ pd_data q ++ (g ++ r) ++ t ++ z); [by rewrite <- !app_assoc|]. rewrite Hold. by rewrite <- !app_assoc. }
    rewrite Hb', (copy_into_app _ old _ p) by (rewrite ?length_app; lia).
    assert (Hlen : (length ((a ++ pd_data q) ++ p ++ g' ++ t ++ z) <= Z.to_nat MAX_HANDSHAKE_SIZE)%nat).
    { revert Hbd. rewrite Hb', !length_app. lia. }
    cbn [expected_len pd_expected set_joining set_buf buf payload_start payload_end pd_data].
    assert (Hslice : slice (E:=deframe_error) ((a ++ pd_data q) ++ p ++ g' ++ t ++ z) (payload_start m) (payload_end m + length p) = Ok (pd_data q ++ p)).
    { replace ((a ++ pd_data q) ++ p ++ g' ++ t ++ z) with (a ++ (pd_data q ++ p) ++ g' ++ t ++ z) by (by rewrite <- !app_assoc).
      apply slice_app_at; [done|]. rewrite length_app. lia. }
    rewrite Hex. destruct (pd_expected q) as [x|] eqn:Hx.
    + eexists _, _. split; [done|]. split; [done|]. split; [|done]. split; cbn; [done| |done].
      exists a, g', z. cbn. rewrite length_app. split; [by rewrite <- !app_assoc|]. rewrite Hg'. repeat split; try lia; try congruence. done.
    + rewrite Hslice. cbn [mbind result_bind]. destruct (payload_size (pd_data q ++ p)) as [x|err|] eqn:Hps; cbn.
      * eexists _, _. split; [done|]. split; [done|]. split; [|done]. split; cbn; [done| |done].
        exists a, g', z. cbn. rewrite length_app. split; [by rewrite <- !app_assoc|]. rewrite Hg'. repeat split; try lia; try congruence.
        intros len ->. by eapply payload_size_some.
      * eexists. split; [done|]. split; cbn; [done| |done].
        exists a, g', z. cbn. rewrite length_app. split; [by rewrite <- !app_assoc|]. rewrite Hg'. repeat split; try lia; try congruence.
      * by apply payload_size_no_panic in Hps.
  - destruct Hlay as (z & Hb & Hu). destruct (payload_size p) as [x|err|] eqn:Hps; cbn; [|done|by apply payload_size_no_panic in Hps].
    assert (exists old, r = old ++ drop (length p) r /\ length old = length p) as (old & Hold & Hol).
    { exists (take (length p) r). split; [by rewrite take_drop|]. rewrite length_take. lia. }
    set (g' := drop (length p) r) in *. assert (Hg' : length g' = (length r - length p)%nat) by (unfold g'; rewrite length_drop; lia).
    assert (Hb' : buf d = [] ++ old ++ g' ++ t ++ z) by (rewrite Hb, Hold at 1; cbn; by rewrite <- !app_assoc).
    rewrite Hb', (copy_into_app [] old _ p) by (cbn; lia).
    eexists _, _. split; [done|]. split; [done|]. split; [|done]. split; cbn; [done| |].
    + exists [], g', z. cbn. repeat split; try lia; [rewrite Hu, length_app; lia|]. intros len ->. by eapply payload_size_some.
    + revert Hbd. rewrite Hb'. cbn. rewrite !length_app. lia.
Qed.

Lemma decrypt_not_panic {K} {C : Cipher K} {CS : CipherSafe C} m l : (decrypt_incoming m l).1 <> Panic.
Proof.
  unfold decrypt_incoming, decrypt_with. destruct (negb _); [done|]. destruct (message_decrypter l) as [k|].
  - pose proof (decrypt_no_panic k m (read_seq l)). by repeat case_match.
  - by repeat case_match.
Qed.

Lemma finish_refines d s m q len :
  repr d s -> joining_hs d = Some m -> sp_pending s = Some q -> (len <= length (pd_data q))%nat ->
  exists r d' s', finish_join len d = (r, d') /\ spec_deliver len q s = (r, s') /\ repr d' s' /\ r <> Panic.
Proof.
  intros [He Hlay Hbd] Hj Hq Hlen. unfold layout in Hlay. rewrite Hj, Hq in Hlay.
  destruct Hlay as (a & g & z & Hb & Hs & Hpe & Hm & Hu & Hv & Hex & Hqc & Hexp).
  unfold finish_join, spec_deliver. rewrite Hj. cbn zeta.
  assert (Hsp : buf d = a ++ take len (pd_data q) ++ drop len (pd_data q) ++ g ++ sp_todo s ++ z).
  { rewrite Hb. by rewrite (app_assoc (take len _)), take_drop. }
  assert (Hs1 : slice (E:=deframe_error) (buf d) (payload_start m) (payload_start m + len) = Ok (take len (pd_data q))).
  { rewrite Hsp. apply slice_app_at; [done|]. rewrite length_take. lia. }
  assert (Hs2 : slice (E:=deframe_error) (buf d) (payload_start m + len) (payload_end m) = Ok (drop len (pd_data q))).
  { rewrite Hsp, (app_assoc a). apply slice_app_at; rewrite ?length_app, ?length_take, ?length_drop; lia. }
  rewrite Hs1. unfold meta_len. rewrite Hpe, Hs.
  replace (length a + length (pd_data q) - length a)%nat with (length (pd_data q)) by lia. rewrite Hv.
  destruct (drop len (pd_data q)) as [|x left] eqn:Hleft.
  - apply (f_equal length) in Hleft as Hl. rewrite length_drop in Hl. cbn in Hl.
    destruct (Nat.ltb_spec len (length (pd_data q))); [lia|].
    destruct (discard_refines (set_joining d None) (a ++ pd_data q ++ g) (sp_todo s) z) as (b & Hd & Hbl & z' & Hz);
      [cbn; rewrite Hb; by rewrite <- !app_assoc | cbn; rewrite !length_app; lia|].
    replace (length (a ++ pd_data q ++ g)) with (message_end m) in Hd by (rewrite !length_app; lia).
    rewrite Hd. eexists _, _, _. split; [done|]. split; [done|]. split; [|done]. split; cbn; [done| |cbn in Hbl; lia]. by exists z'.
  - apply (f_equal length) in Hleft as Hl. rewrite length_drop in Hl. cbn [length] in Hl.
    destruct (Nat.ltb_spec len (length (pd_data q))); [|lia]. cbn [set_joining buf payload_start payload_end].
    rewrite Hpe, Hs in Hs2. rewrite Hs2. cbn [mbind result_bind]. destruct (payload_size (x :: left)) as [y|e|] eqn:Hps; [| |by apply payload_size_no_panic in Hps].
    + eexists _, _, _. split; [done|]. split; [done|]. split; [|done]. split; cbn; [done| |done].
      exists (a ++ take len (pd_data q)), g, z. cbn. rewrite length_app, length_take.
      split; [rewrite Hsp; by rewrite <- !app_assoc|]. repeat split; try lia; try done. intros n ->. by eapply payload_size_some.
    + eexists _, _, _. split; [done|]. split; [done|]. split; [|done]. split; cbn; [done| |done].
      exists (a ++ take len (pd_data q)), g, z. cbn. rewrite length_app, length_take.
      split; [rewrite Hsp; by rewrite <- !app_assoc|]. repeat split; try lia; done.
Qed.

(** *** Refinement of a turn *)

Section refinement.
Context {K : Type} {C : Cipher K} {CS : CipherSafe C} (negotiated : option ProtocolVersion).

Definition complete (q : pending) (len : nat) : Prop := pd_expected q = Some len /\ (len <= length (pd_data q))%nat.

(** Where parsing starts. *)
Definition start_of (d : MessageDeframer) : nat := match joining_hs d with Some m => message_end m | None => 0 end.

Lemma repr_todo d s :
  repr d s -> exists pre z, buf d = pre ++ sp_todo s ++ z /\ length pre = start_of d /\ d_used d = (start_of d + length (sp_todo s))%nat.
Proof.
  intros [_ Hlay _]. unfold layout, start_of in *. destruct (joining_hs d) as [m|], (sp_pending s) as [q|]; try done.
  - destruct Hlay as (a & g & z & Hb & Hs & Hpe & Hm & Hu & _). exists (a ++ pd_data q ++ g), z.
    split; [rewrite Hb; by rewrite <- !app_assoc|]. rewrite !length_app. split; lia.
  - destruct Hlay as (z & Hb & Hu). by exists [], z.
Qed.

(** A turn of the deframer and the turns of the specification that match it. *)
Definition matches_turn (out : turn * MessageDeframer * RecordLayer (K:=K)) (s : spec) (a : spec_answer * spec * RecordLayer (K:=K)) : Prop :=
  match out with
  | (Return r, d', l') => r <> Panic /\ exists s', repr d' s' /\
      (a = (Some r, s', l') \/
       a = (None, s', l') /\ r = Ok None /\ sp_todo s' = [] /\ sp_error s' = sp_error s /\
         exists q, sp_pending s' = Some q /\ forall len, ~ complete q len)
  | (Break len, d', l') => exists s' q m, repr d' s' /\ a = (None, s', l') /\ sp_error s' = sp_error s /\
      sp_pending s' = Some q /\ joining_hs d' = Some m /\ complete q len
  | (Again, d', l') => exists s', repr d' s' /\ a = (None, s', l') /\ sp_error s' = sp_error s /\
      (length (sp_todo s') < length (sp_todo s))%nat
  end.

Lemma decrypted_refines d s l msg r t z :
  repr d s -> sp_todo s = r ++ t -> (length (TlsLayer.payload msg) <= length r)%nat -> r <> [] ->
  (exists pre, buf d = pre ++ sp_todo s ++ z /\ length pre = start_of d) ->
  matches_turn (pop_decrypted (start_of d + length r) msg d, l) s (spec_decrypted msg t s, l).
Proof.
  intros Hr Ht Hp Hne (pre & Hb & Hpre). pose proof Hr as [He Hlay Hbd]. unfold pop_decrypted, spec_decrypted. case_bool_decide as Hhs; cbn [negb].
  - rewrite Ht in Hlay. pose proof (append_refines d s (TlsLayer.version msg) (TlsLayer.payload msg) r t false He Hbd Hlay Hp) as Ha.
    cbn zeta in Ha. fold (start_of d) in Ha.
    destruct (spec_append _ _ _ _) as [[[]|err|] [q|]] eqn:Hsa; try done.
    + destruct Ha as (d' & m & Ha & Hj & Hrep & Hu). rewrite Ha. pose proof Hrep as [_ Hlay' _]. cbn in Hlay'. rewrite Hj in Hlay'.
      destruct Hlay' as (a & g & z' & _ & Hs & Hpe & Hm & Hu' & _ & Hex & _ & _). rewrite Hu in Hu'.
      assert (Hml : meta_len m = length (pd_data q)) by (unfold meta_len; lia).
      assert (Hcont : (length t < length (sp_todo s))%nat) by (rewrite Ht, length_app; destruct r; [done|cbn; lia]).
      assert (Hrest : (forall len, ~ complete q len) ->
        matches_turn ((if (message_end m <? d_used d)%nat then (Again, d') else (Return (Ok None), d')), l) s (None, spec_go s (Some q) t, l)).
      { intros Hnc. destruct (Nat.ltb_spec (message_end m) (d_used d)).
        - exists (spec_go s (Some q) t). by split_and!.
        - split; [done|]. exists (spec_go s (Some q) t). split; [done|]. right. split_and!; try done.
          + cbn. destruct t; [done|cbn in *; lia].
          + by exists q. }
      unfold append_state. rewrite Hex, Hml. destruct (pd_expected q) as [len|] eqn:Hpx.
      * destruct (Nat.leb_spec len (length (pd_data q))).
        -- exists (spec_go s (Some q) t), q, m. by split_and!.
        -- specialize (Hrest ltac:(intros n [Hn ?]; rewrite Hpx in Hn; simplify_eq; lia)).
           by destruct (message_end m <? d_used d)%nat.
      * specialize (Hrest ltac:(intros n [Hn ?]; congruence)). by destruct (message_end m <? d_used d)%nat.
    + destruct Ha as (d' & Ha & Hrep). rewrite Ha. split; [done|]. eexists. split; [exact Hrep|]. by left.
    + destruct Ha as [Ha Hn]. rewrite Ha. split; [done|]. exists s. split; [done|]. left. destruct s; cbn in *. by subst.
  - unfold layout in Hlay. destruct (joining_hs d) as [m|] eqn:Hj, (sp_pending s) as [q|] eqn:Hq; try done.
    + split; [done|]. eexists. split; [|by left]. split; cbn; [done| |done]. rewrite Hj, Hq. exact Hlay.
    + unfold start_of in *. rewrite Hj in *. apply nil_length_inv in Hpre as ->. cbn [app] in Hb. rewrite Ht, <- app_assoc in Hb.
      destruct Hlay as (z' & Hb' & Hu). cbn [Nat.add].
      destruct (repr_discard d s r t z (Return (plain_result msg)) He Hj Hbd Hb) as (d' & Hd & Hrep); [rewrite Hu, Ht; apply length_app|].
      rewrite Hd. split; [done|]. eexists. split; [exact Hrep|]. by left.
Qed.

Lemma record_refines d s l :
  repr d s -> sp_error s = None ->
  matches_turn (pop_record negotiated (start_of d) d l) s (spec_record negotiated s l).
Proof.
  intros Hr Hnone. pose proof Hr as [He Hlay Hbd]. destruct (repr_todo d s Hr) as (pre & z & Hb & Hpre & Hu).
  unfold pop_record, spec_record.
  assert (slice (E:=deframe_error) (buf d) (start_of d) (d_used d) = Ok (sp_todo s)) as ->.
  { rewrite Hb. apply slice_app_at; lia. }
  destruct (opaque_read_outcome (sp_todo s)) as [Hr1 Hr2]. destruct (opaque_read (init (sp_todo s))) as [res rd]. cbn [fst snd] in *. subst res.
  destruct (opaque_outcome (sp_todo s)) as [[m n]|e|] eqn:Ho; cbn [fmap result_fmap]; [| |by apply opaque_outcome_no_panic in Ho].
  2: { assert (Hfail : matches_turn (Return (Err (InvalidRecord e)), set_err d (InvalidRecord e), l) s
                (Some (Err (InvalidRecord e)), spec_fail s (InvalidRecord e), l)).
       { split; [done|]. eexists. split; [|by left]. by split. }
       assert (Hwait : matches_turn (Return (Ok None), d, l) s (Some (Ok None), s, l)).
       { split; [done|]. exists s. split; [done|]. by left. }
       by destruct e. }
  cbn [fst]. rewrite (Hr2 m n eq_refl). cbn [used cursor]. destruct (opaque_outcome_ok _ _ _ Ho) as [Hn Hnl].
  set (t := drop n (sp_todo s)). set (r := take n (sp_todo s)).
  assert (Ht : sp_todo s = r ++ t) by (unfold r, t; by rewrite take_drop).
  assert (Hrl : length r = n) by (unfold r; rewrite length_take; lia).
  assert (Hne : r <> []) by (intros Hx; rewrite Hx in Hrl; cbn in Hrl; lia).
  assert (Hjq : match joining_hs d with None => true | Some _ => false end = match sp_pending s with None => true | Some _ => false end).
  { unfold layout in Hlay. by destruct (joining_hs d), (sp_pending s). }
  assert (Hdisc : forall k a, joining_hs d = None -> (forall d', repr d' (spec_go s None t) -> matches_turn (k, d', a) s (spec_record negotiated s l)) ->
    matches_turn (lift_discard (start_of d + n) d k, a) s (spec_record negotiated s l)).
  { intros k a Hj Hk. unfold start_of in *. rewrite Hj in *. apply nil_length_inv in Hpre as ->. cbn [app] in Hb. rewrite Ht, <- app_assoc in Hb.
    cbn [Nat.add]. rewrite <- Hrl. destruct (repr_discard d s r t z k He Hj Hbd Hb) as (d' & Hd & Hrep); [rewrite Hu, Ht; apply length_app|].
    rewrite Hd. by apply Hk. }
  unfold spec_record in Hdisc. rewrite Ho in Hdisc. fold t in Hdisc. rewrite Hjq.
  destruct (match sp_pending s with None => true | Some _ => false end && allowed_plaintext negotiated m l) eqn:Hal.
  { apply andb_prop in Hal as [Hp _]. destruct (joining_hs d) eqn:Hj; [by rewrite <- Hjq in Hp|]. apply Hdisc; [done|].
    intros d' Hd'. split; [done|]. eexists. split; [exact Hd'|]. by left. }
  pose proof (decrypt_not_panic m l) as Hnp. destruct (decrypt_incoming m l) as [[[dec|]|e|] l'] eqn:Hdec; [| | |done].
  - rewrite <- Hrl. apply decrypted_refines with z; [done|done| |done|by exists pre]. pose proof (decrypt_shorter _ _ _ _ Hdec). lia.
  - destruct (joining_hs d) as [m'|] eqn:Hj; destruct (sp_pending s) as [q|] eqn:Hq; try done.
    + split; [done|]. eexists. split; [|by left]. split; cbn; [done| |done]. by rewrite Hj, Hq.
    + apply Hdisc; [done|]. intros d' Hd'. exists (spec_go s None t). split; [done|]. split; [done|]. split; [done|].
      cbn. rewrite Ht, length_app. lia.
  - split; [done|]. exists s. split; [done|]. by left.
Qed.

Lemma spec_turn_blocked s (l : RecordLayer (K:=K)) :
  sp_error s = None -> sp_todo s = [] -> (forall q len, sp_pending s = Some q -> ~ complete q len) ->
  spec_turn negotiated s l = (Some (Ok None), s, l).
Proof.
  intros He Ht Hq. unfold spec_turn. rewrite He. assert (Hrec : spec_record negotiated s l = (Some (Ok None), s, l)) by (unfold spec_record; by rewrite Ht).
  destruct (sp_pending s) as [q|]; [|done]. specialize (Hq q). unfold complete in Hq. destruct (pd_expected q) as [len|]; [|by destruct (pd_quic q)].
  destruct (Nat.leb_spec len (length (pd_data q))); [by destruct (Hq len eq_refl)|by destruct (pd_quic q)].
Qed.

Lemma spec_turn_complete s (l : RecordLayer (K:=K)) q len r s' :
  sp_error s = None -> sp_pending s = Some q -> complete q len -> spec_deliver len q s = (r, s') ->
  spec_turn negotiated s l = (Some r, s', l).
Proof.
  intros He Hq [Hx Hl] Hd. unfold spec_turn. rewrite He, Hq, Hx. rewrite (proj2 (Nat.leb_le _ _) Hl). by rewrite Hd.
Qed.

Lemma pop_loop_refines fuel d s l :
  repr d s -> sp_error s = None -> (length (sp_todo s) < fuel)%nat ->
  exists r d' s' l', pop_loop negotiated fuel d l = Some (r, d', l') /\ r <> Panic /\ repr d' s' /\ pops negotiated s l r s' l'.
Proof.
  revert d s l. induction fuel as [|fuel IH]; intros d s l Hr He Hf; [lia|]. cbn [pop_loop].
  assert (Hrec : spec_turn negotiated s l = spec_record negotiated s l ->
    pop_turn negotiated d l = pop_record negotiated (start_of d) d l ->
    exists r d' s' l', match pop_turn negotiated d l with
      | (Return r, d0, l0) => Some (r, d0, l0) | (Break len, d0, l0) => Some (finish_join len d0, l0) | (Again, d0, l0) => pop_loop negotiated fuel d0 l0 end
      = Some (r, d', l') /\ r <> Panic /\ repr d' s' /\ pops negotiated s l r s' l').
  { intros Hst Hpt. pose proof (record_refines d s l Hr He) as Hm. rewrite Hpt. rewrite <- Hst in Hm.
    destruct (pop_record negotiated (start_of d) d l) as [[[r|len|] d1] l1]; cbn [matches_turn] in Hm.
    - destruct Hm as (Hnp & s' & Hrep & [Ha|(Ha & -> & Ht & He' & q & Hq & Hnc)]); exists r, d1, s', l1 || exists (Ok None), d1, s', l1; split_and!; try done.
      + by apply pops_return.
      + eapply pops_again; [done|]. apply pops_return, spec_turn_blocked; [congruence|done|]. intros q' len Hq'. replace q' with q by congruence. apply Hnc.
    - destruct Hm as (s1 & q & m & Hrep & Ha & He' & Hq & Hj & Hc).
      destruct (finish_refines d1 s1 m q len Hrep Hj Hq (proj2 Hc)) as (r & d' & s' & Hf1 & Hf2 & Hf3 & Hf4).
      rewrite Hf1. exists r, d', s', l1. split_and!; try done. eapply pops_again; [done|]. apply pops_return.
      by apply (spec_turn_complete _ _ q len); [congruence|..].
    - destruct Hm as (s1 & Hrep & Ha & He' & Hlt). destruct (IH d1 s1 l1 Hrep) as (r & d' & s' & l' & Hp & Hnp & Hrep' & Hps); [congruence|lia|].
      exists r, d', s', l'. split_and!; try done. by eapply pops_again. }
  pose proof Hr as [Herr Hlay Hbd]. unfold layout in Hlay. unfold pop_turn, spec_turn in *. rewrite He in *.
  destruct (joining_hs d) as [m|] eqn:Hj, (sp_pending s) as [q|] eqn:Hq; try done.
  2: { apply Hrec; [done|]. unfold start_of. by rewrite Hj. }
  destruct Hlay as (a & g & z & Hb & Hs & Hpe & Hm & Hu & Hv & Hex & Hqc & Hexp).
  assert (Hml : meta_len m = length (pd_data q)) by (unfold meta_len; lia). rewrite Hex, Hml, Hqc in *.
  assert (Hwait : exists r d' s' l', Some (Ok None, d, l) = Some (r, d', l') /\ r <> Panic /\ repr d' s' /\
    (spec_turn negotiated s l = (Some (Ok None), s, l) -> pops negotiated s l r s' l')).
  { exists (Ok None), d, s, l. split_and!; try done. apply pops_return. }
  destruct (pd_expected q) as [len|] eqn:Hpx.
  - destruct (Nat.leb_spec len (length (pd_data q))).
    + destruct (finish_refines d s m q len Hr Hj Hq) as (r & d' & s' & Hf1 & Hf2 & Hf3 & Hf4); [done|].
      exists r, d', s', l. rewrite Hf1. split_and!; try done. apply pops_return. by apply (spec_turn_complete _ _ q len).
    + destruct (pd_quic q) eqn:Hqq.
      * destruct Hwait as (r & d' & s' & l' & Hw1 & Hw2 & Hw3 & Hw4). exists r, d', s', l'. split_and!; try done. apply Hw4.
        unfold spec_turn. rewrite He, Hq, Hpx, Hqq. by rewrite (proj2 (Nat.leb_gt _ _)).
      * apply Hrec; [done|]. unfold start_of. by rewrite Hj.
  - destruct (pd_quic q) eqn:Hqq.
    + destruct Hwait as (r & d' & s' & l' & Hw1 & Hw2 & Hw3 & Hw4). exists r, d', s', l'. split_and!; try done. apply Hw4.
      unfold spec_turn. by rewrite He, Hq, Hpx, Hqq.
    + apply Hrec; [done|]. unfold start_of. by rewrite Hj.
Qed.

(** [pop] ends without running out of turns and without panicking. *)
Lemma pop_refines d s l :
  repr d s ->
  exists r d' s' l', pop negotiated d l = Some (r, d', l') /\ r <> Panic /\ repr d' s' /\ pops negotiated s l r s' l'.
Proof.
  intros Hr. pose proof Hr as [He Hlay Hbd]. unfold pop. rewrite He. destruct (sp_error s) as [e|] eqn:Hse.
  - exists (Err e), d, s, l. split_and!; try done. apply pops_return. unfold spec_turn. by rewrite Hse.
  - destruct (repr_todo d s Hr) as (pre & z & _ & _ & Hu). destruct (Nat.eqb_spec (d_used d) 0).
    + exists (Ok None), d, s, l. split_and!; try done. apply pops_return, spec_turn_blocked; [done|destruct (sp_todo s); [done|cbn in *; lia]|].
      intros q len Hq [Hx Hl]. unfold layout in Hlay. rewrite Hq in Hlay. destruct (joining_hs d); [|done].
      destruct Hlay as (a & g & z' & _ & _ & Hpe & Hm & Hu' & _ & _ & _ & Hexp). pose proof (Hexp len Hx). unfold HS_HEADER in *. lia.
    + apply pop_loop_refines; [done|done|lia].
Qed.
End refinement.

(** *** Reading *)

Definition more (s : spec) (x : bytes) : spec := spec_go s (sp_pending s) (sp_todo s ++ x).

Lemma layout_tail f z z' u j o t : length f = u -> layout (f ++ z) u j o t -> layout (f ++ z') u j o t.
Proof.
  intros Hf. unfold layout. destruct j as [m|], o as [q|]; try done.
  - intros (a & g & z0 & Hb & Hs & Hpe & Hm & Hu & Hrest).
    assert (f = a ++ pd_data q ++ g ++ t) as ->.
    { apply (f_equal (take u)) in Hb. rewrite <- Hf, take_app_length in Hb. rewrite Hb.
      replace (a ++ pd_data q ++ g ++ t ++ z0) with ((a ++ pd_data q ++ g ++ t) ++ z0) by (by rewrite <- !app_assoc).
      rewrite take_app_le by (rewrite !length_app; lia). apply take_ge. rewrite !length_app. lia. }
    exists a, g, z'. split; [by rewrite <- !app_assoc|]. done.
  - intros (z0 & Hb & Hu). exists z'. split; [|done]. f_equal.
    apply (f_equal (take u)) in Hb. rewrite <- Hf, take_app_length in Hb. rewrite Hb, Hf, Hu. by rewrite take_app_length.
Qed.
Lemma layout_more f x z u j o t :
  length f = u -> layout (f ++ x ++ z) u j o t -> layout (f ++ x ++ z) (u + length x) j o (t ++ x).
Proof.
  intros Hf. unfold layout. destruct j as [m|], o as [q|]; try done.
  - intros (a & g & z0 & Hb & Hs & Hpe & Hm & Hu & Hrest).
    assert (x ++ z = z0) as <-.
    { apply (f_equal (drop u)) in Hb. rewrite <- Hf, drop_app_length in Hb. rewrite Hb.
      replace (a ++ pd_data q ++ g ++ t ++ z0) with ((a ++ pd_data q ++ g ++ t) ++ z0) by (by rewrite <- !app_assoc).
      rewrite drop_app_le by (rewrite !length_app; lia). rewrite drop_ge by (rewrite !length_app; lia). done. }
    exists a, g, z. rewrite length_app. split; [rewrite Hb; by rewrite <- !app_assoc|].
    do 3 (split; [done|]). split; [lia|done].
  - intros (z0 & Hb & Hu). exists z. rewrite length_app. split; [|lia].
    assert (x ++ z = z0) as <-.
    { apply (f_equal (drop u)) in Hb. rewrite <- Hf, drop_app_length in Hb. rewrite Hb, Hf, Hu. by rewrite drop_app_length. }
    rewrite Hb. by rewrite <- app_assoc.
Qed.

Lemma repr_used d s : repr d s -> (d_used d <= length (buf d))%nat.
Proof. intros Hr. destruct (repr_todo d s Hr) as (pre & z & -> & Hp & ->). rewrite !length_app. lia. Qed.

Lemma prepare_refines d s :
  repr d s ->
  match prepare_read d with
  | Ok d' => repr d' s /\ d_used d' = d_used d /\ joining_hs d' = joining_hs d /\
      (Nat.min (allow_max d) (d_used d + READ_SIZE) <= length (buf d'))%nat /\ (d_used d < allow_max d)%nat
  | Err e => e = MessageBufferFull /\ (allow_max d <= d_used d)%nat
  | Panic => False
  end.
Proof.
  intros Hr. pose proof (repr_used d s Hr) as Hu. pose proof Hr as [He Hlay Hbd]. unfold prepare_read.
  assert (Hmax : (allow_max d <= Z.to_nat MAX_HANDSHAKE_SIZE)%nat).
  { unfold allow_max, MAX_HANDSHAKE_SIZE, MAX_WIRE_SIZE, MAX_PAYLOAD, HEADER_SIZE. destruct (joining_hs d); lia. }
  destruct (Nat.leb_spec (allow_max d) (d_used d)); [done|]. set (need := Nat.min (allow_max d) (d_used d + READ_SIZE)).
  assert (Hneed : (d_used d < need)%nat) by (unfold need, READ_SIZE; lia).
  assert (Hres : repr (set_buf d (resize need (buf d))) s /\ (need <= length (resize need (buf d)))%nat).
  { assert (Hlen : length (resize need (buf d)) = need) by (unfold resize; rewrite length_app, length_take, length_replicate; lia).
    split; [|lia]. split; [done| |cbn; lia]. cbn. rewrite <- (take_drop (d_used d) (buf d)) in Hlay.
    assert (resize need (buf d) = take (d_used d) (buf d) ++ drop (d_used d) (resize need (buf d))) as ->.
    { rewrite <- (take_drop (d_used d) (resize need (buf d))) at 1. f_equal. unfold resize.
      rewrite take_app_le by (rewrite length_take; lia). rewrite take_take. f_equal. lia. }
    apply (layout_tail _ (drop (d_used d) (buf d))); [rewrite length_take; lia|done]. }
  destruct Hres as [Hr1 Hr2]. destruct (Nat.ltb_spec (length (buf d)) need); [by split_and!|].
  destruct ((d_used d =? 0)%nat || _); by split_and!.
Qed.

(** Reading appends to the bytes still to be parsed what the source delivered,
    at least one byte if it offered any, and fails only when the buffer is
    full. *)
Lemma read_refines d s bs :
  repr d s ->
  match read_from (Some bs) d with
  | (Ok n, d') => repr d' (more s (take n bs)) /\ (n <= length bs)%nat /\ (bs <> [] -> n <> 0%nat)
  | (Err e, d') => d' = d /\ e = MessageBufferFull /\ (allow_max d <= d_used d)%nat
  | (Panic, _) => False
  end.
Proof.
  intros Hr. unfold read_from. pose proof (prepare_refines d s Hr) as Hp. destruct (prepare_read d) as [d1|e|]; [|naive_solver|done].
  destruct Hp as (Hr1 & Hu1 & Hj1 & Hcap & Hlt). set (n := Nat.min (length bs) (length (buf d1) - d_used d1)).
  pose proof (repr_used d1 s Hr1) as Hu. pose proof Hr1 as [He Hlay Hbd].
  assert (exists old, buf d1 = take (d_used d1) (buf d1) ++ old ++ drop (d_used d1 + n) (buf d1) /\ length old = n) as (old & Hb & Hol).
  { exists (take n (drop (d_used d1) (buf d1))). split; [|rewrite length_take, length_drop; lia].
    rewrite <- drop_drop, take_drop, take_drop. done. }
  set (f := take (d_used d1) (buf d1)) in *. assert (Hf : length f = d_used d1) by (unfold f; rewrite length_take; lia).
  set (z := drop (d_used d1 + n) (buf d1)) in *. assert (Hx : length (take n bs) = n) by (rewrite length_take; lia).
  assert (copy_into (E:=deframe_error) (buf d1) (d_used d1) (d_used d1 + n) (take n bs) = Ok (f ++ take n bs ++ z)) as ->.
  { rewrite Hb at 1. apply copy_into_app; rewrite ?Hx; lia. }
  split; [|split; [lia|]].
  - split; cbn; [done| |revert Hbd; rewrite Hb, !length_app; lia]. replace (d_used d1 + n)%nat with (d_used d1 + length (take n bs))%nat by lia. apply layout_more; [done|].
    apply (layout_tail f (old ++ z)); [done|]. by rewrite <- Hb.
  - intros Hne. assert (length bs <> 0)%nat by (by destruct bs). unfold READ_SIZE in Hcap. lia.
Qed.

(** ** The theorem *)

Definition no_bytes : spec := {| sp_error := None; sp_pending := None; sp_todo := [] |}.
Lemma repr_new : repr new_deframer no_bytes.
Proof. split; [done| |unfold MAX_HANDSHAKE_SIZE; cbn; lia]. by exists []. Qed.

(** C30: The deframer refines its specification, whatever the cipher: a new
    deframer stands for no bytes; [read] appends to the bytes to be parsed what
    the source delivered, or is refused by a full buffer and changes nothing;
    [pop] ends within its turns and without panicking, returns what the
    specification returns, and leaves a deframer that stands for the
    specification's next state; the buffer never exceeds 65535 bytes. *)
Theorem deframer_refines {K} {C : Cipher K} {CS : CipherSafe C} (negotiated : option ProtocolVersion) :
  repr new_deframer no_bytes /\
  (forall d s, repr d s ->
    zlen (buf d) <= 65535 /\
    (forall bs, exists r d', read_from (Some bs) d = (r, d') /\
      ((exists n, r = Ok n /\ repr d' (more s (take n bs))) \/ (r = Err MessageBufferFull /\ d' = d))) /\
    (forall l, exists r d' s' l', pop negotiated d l = Some (r, d', l') /\ r <> Panic /\ repr d' s' /\ pops negotiated s l r s' l')).
Proof.
  split; [exact repr_new|]. intros d s Hr. split; [pose proof (repr_bound d s Hr) as Hb; unfold zlen, MAX_HANDSHAKE_SIZE in *; lia|]. split; [|intros l; by apply pop_refines].
  intros bs. pose proof (read_refines d s bs Hr) as H. destruct (read_from (Some bs) d) as [[n|e|] d']; [|naive_solver|done].
  eexists _, _. split; [done|]. left. exists n. by destruct H as [H _].
Qed.

#[export] Instance toy_cipher_safe : CipherSafe toy_cipher.
Proof.
  split; cbn; intros; case_bool_decide; simplify_eq; [|done..]. cbn. destruct (TlsLayer.payload c); [done|].
  rewrite removelast_firstn_len. rewrite length_take. cbn. lia.
Qed.

Lemma deframer_refines_witness :
  exists r d' s' l', pop (C:=toy_cipher) None new_deframer new_layer = Some (r, d', l') /\ repr d' s' /\ pops (C:=toy_cipher) None no_bytes new_layer r s' l'.
Proof.
  destruct (deframer_refines (C:=toy_cipher) None) as [_ H]. destruct (H new_deframer no_bytes repr_new) as (_ & _ & Hp).
  destruct (Hp new_layer) as (r & d' & s' & l' & H1 & _ & H2 & H3). exists r, d', s', l'. exact (conj H1 (conj H2 H3)).
Defined.
