(* ===== verification/DeframerFeed.v ===== *)
(** * Streams through the deframer (orcax/rustls-fork/rustls/src/msgs/deframer.rs)

    What a connection gets out of [MessageDeframer] when the bytes arrive in
    pieces: the messages and the error at the end depend on the bytes and not on
    the pieces, and handshake messages that the peer cut into records come out
    whole. *)
From S2P Require Import Prelude Codec TlsLayer Deframer.

(** ** More bytes *)

Section chunking.
Context {K : Type} {C : Cipher K} (negotiated : option ProtocolVersion).

Abbreviation spec_turn' := (spec_turn (K:=K) negotiated).
Abbreviation pops' := (pops (K:=K) negotiated).

Lemma more_more s x y : more (more s x) y = more s (x ++ y).
Proof. unfold more, spec_go. cbn. by rewrite app_assoc. Qed.
Lemma more_nil s : more s [] = s.
Proof. destruct s. unfold more, spec_go. cbn. by rewrite app_nil_r. Qed.
Lemma more_go s x q t : more (spec_go s q t) x = spec_go (more s x) q (t ++ x).
Proof. done. Qed.

Lemma spec_decrypted_more msg t s x :
  spec_decrypted msg (t ++ x) (more s x) = let '(a, s') := spec_decrypted msg t s in (a, more s' x).
Proof.
  unfold spec_decrypted. cbn [more spec_go sp_pending sp_todo]. case_bool_decide.
  - by destruct (spec_append _ _ _ _) as [[[]|e|] [q|]].
  - by destruct (sp_pending s).
Qed.
Lemma spec_decrypted_not_wait msg t s : (spec_decrypted msg t s).1 <> Some (Ok None).
Proof.
  unfold spec_decrypted. case_bool_decide; [by destruct (spec_append _ _ _ _) as [[[]|e|] q]|]. by destruct (sp_pending s).
Qed.

(** A turn that decides something decides the same when more bytes are there; a
    turn that waits changes nothing. *)
Lemma spec_record_more s l x :
  match spec_record (K:=K) negotiated s l with
  | (Some (Ok None), s', l') => s' = s /\ l' = l
  | (a, s', l') => spec_record negotiated (more s x) l = (a, more s' x, l')
  end.
Proof.
  unfold spec_record. cbn [more spec_go sp_pending sp_todo]. pose proof (opaque_outcome_more (sp_todo s) x) as Hm.
  destruct (opaque_outcome (sp_todo s)) as [[m n]|e|] eqn:Ho; [| |done].
  2: { destruct e; try done; by rewrite Hm. }
  rewrite Hm. destruct (opaque_outcome_ok _ _ _ Ho) as [_ Hn]. rewrite drop_app_le by done.
  destruct (match sp_pending s with None => true | Some _ => false end && _); [done|].
  destruct (decrypt_incoming m l) as [[[dec|]|e|] l']; [| |done|done].
  - pose proof (spec_decrypted_more (plaintext dec) (drop n (sp_todo s)) s x) as Hd. unfold more, spec_go in Hd |- *. rewrite Hd.
    pose proof (spec_decrypted_not_wait (plaintext dec) (drop n (sp_todo s)) s) as Hnw.
    destruct (spec_decrypted (plaintext dec) (drop n (sp_todo s)) s) as [[[[y|]|e|]|] s']; cbn in Hnw |- *; done.
  - by destruct (sp_pending s).
Qed.
Lemma spec_turn_more s l x :
  match spec_turn' s l with
  | (Some (Ok None), s', l') => s' = s /\ l' = l
  | (a, s', l') => spec_turn' (more s x) l = (a, more s' x, l')
  end.
Proof.
  pose proof (spec_record_more s l x) as Hr. unfold spec_turn. cbn [more spec_go sp_error sp_pending]. destruct (sp_error s); [done|].
  destruct (sp_pending s) as [q|]; [|exact Hr]. destruct (pd_expected q) as [len|].
  - destruct (len <=? length (pd_data q))%nat; [|by destruct (pd_quic q)].
    unfold spec_deliver. destruct (drop len (pd_data q)); [done|]. by destruct (payload_size _).
  - by destruct (pd_quic q).
Qed.

Lemma pops_more s l r s' l' x :
  pops' s l r s' l' ->
  (r = Ok None -> forall r2 s2 l2, pops' (more s' x) l' r2 s2 l2 -> pops' (more s x) l r2 s2 l2) /\
  (r <> Ok None -> pops' (more s x) l r (more s' x) l').
Proof.
  induction 1 as [s l r s' l' Ht | s l s1 l1 r s' l' Ht Hp IH].
  - pose proof (spec_turn_more s l x) as Hm. rewrite Ht in Hm. split.
    + intros ->. destruct Hm as [-> ->]. done.
    + intros Hr. apply pops_return. destruct r as [[y|]|e|]; [exact Hm|done|exact Hm|exact Hm].
  - pose proof (spec_turn_more s l x) as Hm. rewrite Ht in Hm. destruct IH as [IH1 IH2]. split.
    + intros Hr r2 s2 l2 H2. eapply pops_again; [exact Hm|]. by apply IH1.
    + intros Hr. eapply pops_again; [exact Hm|]. by apply IH2.
Qed.

Lemma pops_det s l r s' l' r2 s2 l2 : pops' s l r s' l' -> pops' s l r2 s2 l2 -> r = r2 /\ s' = s2 /\ l' = l2.
Proof.
  intros H. revert r2 s2 l2. induction H as [s l r s' l' Ht | s l s1 l1 r s' l' Ht Hp IH]; intros r2 s2 l2 H2.
  - inversion H2; subst; rewrite Ht in *; simplify_eq; done.
  - inversion H2; subst; rewrite Ht in *; simplify_eq. by apply IH.
Qed.

(** A call that waits leaves a state that waits. *)
Definition idle (s : spec) (l : RecordLayer (K:=K)) : Prop := spec_turn' s l = (Some (Ok None), s, l).
Lemma pops_idle s l s' l' : pops' s l (Ok None) s' l' -> idle s' l'.
Proof.
  intros H. remember (Ok None) as r eqn:Hr. induction H as [s l r s' l' Ht | s l s1 l1 r s' l' Ht Hp IH]; subst; [|by apply IH].
  pose proof (spec_turn_more s l []) as Hm. rewrite Ht in Hm. destruct Hm as [-> ->]. exact Ht.
Qed.

(** All the messages of a stream, the error that ends it, if any, and the state
    that is left. *)
Inductive delivers : spec -> RecordLayer (K:=K) -> list Deframed -> option deframe_error -> spec -> RecordLayer (K:=K) -> Prop :=
| delivers_wait s l s' l' : pops' s l (Ok None) s' l' -> delivers s l [] None s' l'
| delivers_message s l m s1 l1 ms e s' l' :
    pops' s l (Ok (Some m)) s1 l1 -> delivers s1 l1 ms e s' l' -> delivers s l (m :: ms) e s' l'
| delivers_error s l s' l' e : pops' s l (Err e) s' l' -> delivers s l [] (Some e) s' l'.

Lemma delivers_det s l ms e s1 l1 ms' e' s2 l2 :
  delivers s l ms e s1 l1 -> delivers s l ms' e' s2 l2 -> ms = ms' /\ e = e' /\ s1 = s2 /\ l1 = l2.
Proof.
  intros H. revert ms' e' s2 l2. induction H as [s l s' l' Hp|s l m s' l' ms e s1 l1 Hp Hd IH|s l s' l' e Hp]; intros ms' e' s2 l2 H';
    inversion H' as [? ? s3 l3 Hp2|? ? m2 s3 l3 ms2 e2 ? ? Hp2 Hd2|? ? s3 l3 e2 Hp2]; subst;
    destruct (pops_det _ _ _ _ _ _ _ _ Hp Hp2) as (Hr & Hs & Hl); simplify_eq; try done.
  by destruct (IH _ _ _ _ Hd2) as (-> & -> & -> & ->).
Qed.
Lemma delivers_again s l s1 l1 ms e s' l' : spec_turn' s l = (None, s1, l1) -> delivers s1 l1 ms e s' l' -> delivers s l ms e s' l'.
Proof. intros Ht Hd. inversion Hd; subst; econstructor; eauto; by eapply pops_again. Qed.
Lemma delivers_more s l ms e s' l' x :
  delivers s l ms e s' l' ->
  match e with
  | Some _ => delivers (more s x) l ms e (more s' x) l'
  | None => forall ms2 e2 s2 l2, delivers (more s' x) l' ms2 e2 s2 l2 -> delivers (more s x) l (ms ++ ms2) e2 s2 l2
  end.
Proof.
  induction 1 as [s l s' l' Hp|s l m s1 l1 ms e s' l' Hp Hd IH|s l s' l' e Hp]; destruct (pops_more _ _ _ _ _ x Hp) as [Hm1 Hm2].
  - intros ms2 e2 s2 l2 H2. specialize (Hm1 eq_refl). cbn [app]. inversion H2; subst; econstructor; eauto.
  - specialize (Hm2 ltac:(done)). destruct e; [by eapply delivers_message|]. intros. cbn [app]. eapply delivers_message; [done|]. by apply IH.
  - apply delivers_error, Hm2. done.
Qed.
Lemma delivers_idle s l ms s' l' : delivers s l ms None s' l' -> idle s' l'.
Proof. intros H. remember None as e eqn:He. induction H; subst; [by eapply pops_idle|by apply IHdelivers|done]. Qed.

(** ** Feeding a stream in pieces *)

Inductive fed : Type :=
| Fed (ms : list Deframed) (e : option deframe_error) (d : MessageDeframer) (l : RecordLayer (K:=K))
| Refused.

(** [pop] until it waits or fails, as the connection's [process_new_packets]
    does. *)
Fixpoint drain (fuel : nat) (d : MessageDeframer) (l : RecordLayer (K:=K)) : option fed :=
  match fuel with
  | O => None
  | S fuel' =>
      match pop negotiated d l with
      | Some (Ok None, d, l) => Some (Fed [] None d l)
      | Some (Ok (Some m), d, l) =>
          r ← drain fuel' d l;
          Some (match r with Fed ms e d l => Fed (m :: ms) e d l | Refused => Refused end)
      | Some (Err e, d, l) => Some (Fed [] (Some e) d l)
      | _ => None
      end
  end.

(** Each piece is read whole and the deframer drained, up to the first error. *)
Fixpoint feed (pieces : list bytes) (d : MessageDeframer) (l : RecordLayer (K:=K)) : option fed :=
  match pieces with
  | [] => Some (Fed [] None d l)
  | p :: pieces' =>
      match read_from (Some p) d with
      | (Ok n, d) =>
          if (n =? length p)%nat then
            r ← drain (S (d_used d)) d l;
            match r with
            | Fed ms None d l =>
                r2 ← feed pieces' d l;
                Some (match r2 with Fed ms2 e d l => Fed (ms ++ ms2) e d l | Refused => Refused end)
            | r => Some r
            end
          else Some Refused
      | (Err _, _) => Some Refused
      | (Panic, _) => None
      end
  end.

(** *** Every stream is drained *)

Context {CS : CipherSafe C}.

Definition pend_len (o : option pending) : nat := match o with Some q => length (pd_data q) | None => 0 end.
Definition weight (s : spec) : nat := length (sp_todo s) + pend_len (sp_pending s).
Definition wf_spec (s : spec) : Prop := forall q len, sp_pending s = Some q -> pd_expected q = Some len -> (HS_HEADER <= len)%nat.

Lemma repr_wf_spec d s : repr d s -> wf_spec s /\ (weight s <= d_used d)%nat.
Proof.
  intros [_ Hlay _]. unfold wf_spec, weight, pend_len. unfold layout in Hlay. destruct (joining_hs d) as [m|], (sp_pending s) as [q|]; try done.
  - destruct Hlay as (a & g & z & _ & Hs & Hpe & Hm & Hu & _ & _ & _ & Hexp). split; [naive_solver|lia].
  - destruct Hlay as (z & _ & Hu). split; [done|lia].
Qed.

Lemma spec_append_wf v p b o r q' :
  (forall q len, o = Some q -> pd_expected q = Some len -> (HS_HEADER <= len)%nat) ->
  spec_append v p b o = (r, q') ->
  (forall q len, q' = Some q -> pd_expected q = Some len -> (HS_HEADER <= len)%nat) /\ (pend_len q' <= pend_len o + length p)%nat.
Proof.
  intros Hwf. unfold spec_append. destruct o as [q|].
  - specialize (Hwf q). cbn [pd_expected pd_data]. destruct (pd_expected q) as [x|] eqn:Hx.
    + intros [= <- <-]. split; [|cbn; rewrite length_app; lia]. intros q0 len [= <-] Hq0. cbn in Hq0. apply Hwf; congruence.
    + destruct (payload_size (pd_data q ++ p)) as [y|e|] eqn:Hps; intros [= <- <-]; (split; [|cbn; rewrite length_app; lia]);
        intros q0 len [= <-] Hq0; cbn in Hq0; try congruence. subst y. by eapply payload_size_some.
  - destruct (payload_size p) as [y|e|] eqn:Hps; intros [= <- <-]; (split; [|cbn; lia]); [|done|done].
    intros q0 len [= <-]. cbn. intros ->. by eapply payload_size_some.
Qed.

Definition lighter (s s' : spec) (a : spec_answer) : Prop :=
  wf_spec s' /\ (weight s' <= weight s)%nat /\ (forall m, a = Some (Ok (Some m)) -> (weight s' < weight s)%nat).

Lemma spec_record_weight s (l : RecordLayer (K:=K)) a s' l' :
  wf_spec s -> spec_record negotiated s l = (a, s', l') -> lighter s s' a.
Proof.
  intros Hwf. assert (Hsame : forall b, (forall m, b <> Some (Ok (Some m))) -> lighter s s b) by (intros b Hb; split_and!; naive_solver).
  assert (Hfail : forall e, lighter s (spec_fail s e) (Some (Err e))) by (intros e; split_and!; done).
  unfold spec_record. destruct (opaque_outcome (sp_todo s)) as [[m n]|e|] eqn:Ho.
  2: { destruct e; intros [= <- <- <-]; apply Hfail || by apply Hsame. }
  2: { intros [= <- <- <-]. by apply Hsame. }
  destruct (opaque_outcome_ok _ _ _ Ho) as [Hn Hnl].
  assert (Hgo : forall b, sp_pending s = None -> lighter s (spec_go s None (drop n (sp_todo s))) b).
  { intros b Hp. assert (weight (spec_go s None (drop n (sp_todo s))) < weight s)%nat as Hw.
    { unfold weight, spec_go, pend_len. cbn. rewrite Hp, length_drop. lia. }
    split_and!; [done|lia|done]. }
  destruct (match sp_pending s with None => true | Some _ => false end && _) eqn:Hal.
  { intros [= <- <- <-]. destruct (sp_pending s) eqn:Hp; [done|]. by apply Hgo. }
  destruct (decrypt_incoming m l) as [[[dec|]|e|] l1] eqn:Hdec.
  - pose proof (decrypt_shorter _ _ _ _ Hdec) as Hsh. unfold spec_decrypted. case_bool_decide as Hhs.
    + destruct (spec_append _ _ _ (sp_pending s)) as [r q'] eqn:Hsa.
      destruct (spec_append_wf _ _ _ _ _ _ ltac:(exact Hwf) Hsa) as [Hwq Hl].
      assert (Hq : forall b, (forall y, b <> Some (Ok (Some y))) -> lighter s (spec_go s q' (drop n (sp_todo s))) b).
      { intros b Hb. split_and!; [exact Hwq| |naive_solver]. unfold weight, spec_go. cbn. rewrite length_drop. lia. }
      destruct r as [[]|e|]; intros [= <- <- <-].
      * by apply Hq.
      * destruct q' as [q'|]; [by apply Hq|]. split_and!; [done| |done]. unfold weight, spec_go. cbn. lia.
      * by apply Hsame.
    + destruct (sp_pending s) eqn:Hp; intros [= <- <- <-]; [apply Hfail|by apply Hgo].
  - destruct (sp_pending s) eqn:Hp; intros [= <- <- <-]; [apply Hfail|by apply Hgo].
  - intros [= <- <- <-]. by apply Hsame.
  - intros [= <- <- <-]. by apply Hsame.
Qed.

Lemma spec_turn_weight s (l : RecordLayer (K:=K)) a s' l' :
  wf_spec s -> spec_turn' s l = (a, s', l') -> lighter s s' a.
Proof.
  intros Hwf. assert (Hsame : forall b, (forall m, b <> Some (Ok (Some m))) -> lighter s s b) by (intros b Hb; split_and!; naive_solver).
  unfold spec_turn. destruct (sp_error s); [intros [= <- <- <-]; by apply Hsame|].
  destruct (sp_pending s) as [q|] eqn:Hq; [|by apply spec_record_weight].
  destruct (pd_expected q) as [len|] eqn:Hx; [destruct (Nat.leb_spec len (length (pd_data q)))|]; cycle 1.
  { destruct (pd_quic q); [intros [= <- <- <-]; by apply Hsame|by apply spec_record_weight]. }
  { destruct (pd_quic q); [intros [= <- <- <-]; by apply Hsame|by apply spec_record_weight]. }
  pose proof (Hwf q len Hq Hx) as Hlen. unfold HS_HEADER in Hlen. unfold spec_deliver.
  destruct (drop len (pd_data q)) as [|x left] eqn:Hleft; cycle 1.
  - apply (f_equal length) in Hleft as Hl. rewrite length_drop in Hl.
    destruct (payload_size (x :: left)) as [y|e|] eqn:Hps; intros [= <- <- <-].
    + assert (forall n, y = Some n -> (HS_HEADER <= n)%nat) as Hy by (intros n ->; by eapply payload_size_some).
      unfold lighter, wf_spec, weight, spec_go, pend_len. cbn [sp_todo sp_pending pd_data]. rewrite Hq. split_and!; [|lia|intros; lia].
      intros q0 n [= <-]. cbn. apply Hy.
    + unfold lighter, wf_spec, weight, spec_go, pend_len. cbn [sp_todo sp_pending pd_data]. rewrite Hq. split_and!; [|lia|done].
      intros q0 n [= <-]. cbn. by apply (Hwf q).
    + by apply Hsame.
  - intros [= <- <- <-]. unfold lighter, wf_spec, weight, spec_go, pend_len. cbn [sp_todo sp_pending]. rewrite Hq. split_and!; [done|lia|intros; lia].
Qed.

Lemma pops_weight s (l : RecordLayer (K:=K)) m s' l' :
  wf_spec s -> pops' s l (Ok (Some m)) s' l' -> wf_spec s' /\ (weight s' < weight s)%nat.
Proof.
  intros Hwf H. remember (Ok (Some m)) as r eqn:Hr. induction H as [s l r s' l' Ht | s l s1 l1 r s' l' Ht Hp IH]; subst;
    apply spec_turn_weight in Ht as (H1 & H2 & H3); try done.
  - split; [done|]. by apply (H3 m).
  - destruct (IH H1 eq_refl) as [? ?]. split; [done|lia].
Qed.

Lemma drain_delivers fuel d s l :
  repr d s -> (weight s < fuel)%nat ->
  exists ms e d' l' s', drain fuel d l = Some (Fed ms e d' l') /\ repr d' s' /\ delivers s l ms e s' l'.
Proof.
  revert d s l. induction fuel as [|fuel IH]; intros d s l Hr Hf; [lia|]. cbn [drain].
  destruct (pop_refines negotiated d s l Hr) as (r & d1 & s1 & l1 & -> & Hnp & Hr1 & Hp).
  destruct r as [[m|]|e|]; [| | |done].
  - destruct (pops_weight s l m s1 l1 (proj1 (repr_wf_spec d s Hr)) Hp) as [_ Hw].
    destruct (IH d1 s1 l1 Hr1) as (ms & e & d' & l' & s' & Hd & Hr' & Hdel); [lia|].
    rewrite Hd. exists (m :: ms), e, d', l', s'. split; [done|]. split; [done|]. by eapply delivers_message.
  - exists [], None, d1, l1, s1. split; [done|]. split; [done|]. by apply delivers_wait.
  - exists [], (Some e), d1, l1, s1. split; [done|]. split; [done|]. by apply delivers_error.
Qed.

Lemma feed_delivers pieces d s l :
  repr d s -> idle s l ->
  exists o, feed pieces d l = Some o /\
    match o with
    | Fed ms e d' l' => exists s' s2, repr d' s' /\ delivers (more s (concat pieces)) l ms e s2 l' /\ (e = None -> s2 = s')
    | Refused => True
    end.
Proof.
  revert d s l. induction pieces as [|p pieces IH]; intros d s l Hr Hidle; cbn [feed concat].
  - eexists. split; [done|]. exists s, s. rewrite more_nil. split_and!; try done. by apply delivers_wait, pops_return.
  - pose proof (read_refines d s p Hr) as Hrd. destruct (read_from (Some p) d) as [[n|e|] d1]; [|by eexists|done].
    destruct Hrd as (Hr1 & Hn & _). destruct (Nat.eqb_spec n (length p)) as [->|]; [|by eexists].
    rewrite take_ge in Hr1 by lia. destruct (repr_wf_spec d1 _ Hr1) as [_ Hw].
    destruct (drain_delivers (S (d_used d1)) d1 (more s p) l Hr1) as (ms & e & d2 & l2 & s2 & Hd & Hr2 & Hdel); [lia|].
    rewrite Hd. cbn [mbind option_bind]. pose proof (delivers_more _ _ _ _ _ _ (concat pieces) Hdel) as Hm. rewrite more_more in Hm.
    destruct e as [e|].
    + eexists. split; [done|]. exists s2, (more s2 (concat pieces)). split_and!; done.
    + destruct (IH d2 s2 l2 Hr2 (delivers_idle _ _ _ _ _ Hdel)) as (o & Hfe & Ho). rewrite Hfe. cbn [mbind option_bind].
      eexists. split; [done|]. destruct o as [ms2 e2 d3 l3|]; [|done]. destruct Ho as (s' & s3 & Hr3 & Hd3 & He).
      exists s', s3. split_and!; try done. by apply Hm.
Qed.
End chunking.

(** ** The buffer takes what fits *)

Section used.
Context {K : Type} {C : Cipher K} (negotiated : option ProtocolVersion).

Lemma discard_used n d d' : discard n d = Ok d' -> (d_used d' <= d_used d)%nat.
Proof.
  unfold discard. destruct (n <? d_used d)%nat.
  - intros H. do 2 (apply bind_ok_inv in H as (? & _ & H)). injection H as <-. cbn. lia.
  - destruct (n =? d_used d)%nat; injection 1 as <-; cbn; lia.
Qed.
Lemma lift_discard_used n d k t d' : lift_discard n d k = (t, d') -> (d_used d' <= d_used d)%nat.
Proof. unfold lift_discard. destruct (discard n d) eqn:Hd; intros [= <- <-]; [by eapply discard_used|done|done]. Qed.
Lemma append_used v p e b d r d' : append_hs v p e b d = (r, d') -> d_used d' = d_used d.
Proof. unfold append_hs. intros H. repeat case_match; simplify_eq; done. Qed.
Lemma pop_decrypted_used e m d t d' : pop_decrypted e m d = (t, d') -> (d_used d' <= d_used d)%nat.
Proof.
  unfold pop_decrypted. destruct (negb _).
  - destruct (joining_hs d); [by intros [= <- <-]|]. apply lift_discard_used.
  - destruct (append_hs _ _ _ _ d) as [[[]| |] d1] eqn:Ha; intros [= <- <-]; apply append_used in Ha; lia.
Qed.
Lemma pop_record_used i d l t d' l' : pop_record negotiated (C:=C) i d l = (t, d', l') -> (d_used d' <= d_used d)%nat.
Proof.
  unfold pop_record. destruct (slice _ _ _); [|by intros [= <- <- <-]..]. destruct (opaque_read _) as [[m|e|] rd].
  - destruct (_ && _); [|destruct (decrypt_incoming m l) as [[[dec|]|e|] l1]].
    + destruct (lift_discard _ _ _) eqn:Hd. intros [= <- <- <-]. by eapply lift_discard_used.
    + destruct (pop_decrypted _ _ _) eqn:Hd. intros [= <- <- <-]. by eapply pop_decrypted_used.
    + destruct (joining_hs d); [by intros [= <- <- <-]|]. destruct (lift_discard _ _ _) eqn:Hd. intros [= <- <- <-]. by eapply lift_discard_used.
    + by intros [= <- <- <-].
    + by intros [= <- <- <-].
  - destruct e; by intros [= <- <- <-].
  - by intros [= <- <- <-].
Qed.
Lemma pop_turn_used d l t d' l' : pop_turn negotiated (C:=C) d l = (t, d', l') -> (d_used d' <= d_used d)%nat.
Proof.
  unfold pop_turn. destruct (joining_hs d) as [m|]; [|apply pop_record_used].
  destruct (expected_len m); [destruct (_ <=? _)%nat|]; [by intros [= <- <- <-]|..]; (destruct (quic m); [by intros [= <- <- <-]|apply pop_record_used]).
Qed.
Lemma finish_used len d r d' : finish_join len d = (r, d') -> (d_used d' <= d_used d)%nat.
Proof.
  unfold finish_join. destruct (joining_hs d) as [m|]; [|by intros [= <- <-]]. destruct (slice _ _ _); [|by intros [= <- <-]..].
  destruct (_ <? _)%nat.
  - destruct (_ ← _; _); by intros [= <- <-].
  - destruct (discard _ _) eqn:Hd; intros [= <- <-]; [|done..]. by apply discard_used in Hd.
Qed.

(** [pop] never takes more of the buffer. *)
Lemma pop_used d l r d' l' : pop negotiated (C:=C) d l = Some (r, d', l') -> (d_used d' <= d_used d)%nat.
Proof.
  unfold pop. destruct (last_error d); [by intros [= <- <- <-]|]. destruct (d_used d =? 0)%nat; [by intros [= <- <- <-]|].
  generalize (S (d_used d)). intros fuel. revert d l. induction fuel as [|fuel IH]; intros d l; [done|]. cbn [pop_loop].
  destruct (pop_turn negotiated d l) as [[[|len|] d1] l1] eqn:Ht; apply pop_turn_used in Ht.
  - by intros [= <- <- <-].
  - destruct (finish_join len d1) as [r1 d2] eqn:Hf. apply finish_used in Hf. intros [= <- <- <-]. lia.
  - intros H. apply IH in H. lia.
Qed.
Lemma drain_used fuel d l o :
  drain negotiated (C:=C) fuel d l = Some o -> exists ms e d' l', o = Fed ms e d' l' /\ (d_used d' <= d_used d)%nat.
Proof.
  revert d l o. induction fuel as [|fuel IH]; intros d l o; [done|]. cbn [drain].
  destruct (pop negotiated d l) as [[[[[m|]|e|] d1] l1]|] eqn:Hp; [| | |done|done]; apply pop_used in Hp.
  - destruct (drain negotiated fuel d1 l1) as [o1|] eqn:Hd; [|done]. destruct (IH _ _ _ Hd) as (ms & e & d' & l' & -> & Hu).
    intros [= <-]. eexists _, _, _, _. split; [done|lia].
  - intros [= <-]. by eexists _, _, _, _.
  - intros [= <-]. by eexists _, _, _, _.
Qed.

(** Pieces of at most one read each, together less than the buffer, are all
    accepted. *)
Lemma feed_accepts pieces d s l :
  repr d s -> CipherSafe C -> Forall (fun p => length p <= READ_SIZE)%nat pieces ->
  (d_used d + length (concat pieces) < Z.to_nat MAX_WIRE_SIZE)%nat -> feed negotiated (C:=C) pieces d l <> Some Refused.
Proof.
  intros Hr CS Hp Hl. revert d s l Hr Hl. induction Hp as [|p pieces Hp Hps IH]; intros d s l Hr Hl; cbn [feed concat] in *; [done|].
  rewrite length_app in Hl. assert (Hmax : (Z.to_nat MAX_WIRE_SIZE <= allow_max d)%nat).
  { unfold allow_max, MAX_HANDSHAKE_SIZE, MAX_WIRE_SIZE, MAX_PAYLOAD, HEADER_SIZE. destruct (joining_hs d); lia. }
  pose proof (read_refines d s p Hr) as Hrd. unfold read_from in *. pose proof (prepare_refines d s Hr) as Hpr.
  destruct (prepare_read d) as [d1|e|]; [|lia|done]. destruct Hpr as (Hr1 & Hu1 & _ & Hcap & _).
  replace (Nat.min (length p) (length (buf d1) - d_used d1)) with (length p) in * by lia.
  destruct (copy_into _ _ _ _) as [b|e|]; [|lia|done]. rewrite Nat.eqb_refl. destruct Hrd as [Hr2 _].
  set (d2 := set_used _ _) in *. destruct (drain negotiated (S (d_used d2)) d2 l) as [o|] eqn:Hd; [|done]. cbn [mbind option_bind].
  destruct (drain_used _ _ _ _ Hd) as (ms & e & d3 & l3 & -> & Hu3). destruct e; [done|].
  destruct (drain_delivers negotiated (S (d_used d2)) d2 _ l Hr2) as (ms' & e' & d' & l' & s' & Hd' & Hr' & _).
  { destruct (repr_wf_spec _ _ Hr2). lia. }
  rewrite Hd in Hd'. injection Hd' as <- <- <- <-. assert (Hu2 : d_used d2 = (d_used d + length p)%nat) by (unfold d2; cbn; lia).
  specialize (IH d3 s' l3 Hr' ltac:(lia)). destruct (feed negotiated pieces d3 l3) as [[]|]; try done.
Qed.
End used.

(** ** The pieces do not matter *)

Section theorems.
Context {K : Type} {C : Cipher K} {CS : CipherSafe C} (negotiated : option ProtocolVersion).

Lemma idle_new (l : RecordLayer (K:=K)) : idle negotiated no_bytes l.
Proof. done. Qed.
Lemma feed_new pieces (l : RecordLayer (K:=K)) :
  exists o, feed negotiated pieces new_deframer l = Some o /\
    match o with
    | Fed ms e d l' => exists s' s2, repr d s' /\ delivers negotiated (more no_bytes (concat pieces)) l ms e s2 l' /\ (e = None -> s2 = s')
    | Refused => True
    end.
Proof. exact (feed_delivers negotiated pieces new_deframer no_bytes l repr_new (idle_new l)). Qed.

(** C26: The deframer does not depend on how the bytes arrive.  Fed piece by piece
    and drained after each piece, a new deframer never panics and always comes
    to a result; two ways of cutting the same bytes give the same messages and
    the same error, or one of them overfills the buffer; and pieces of at most
    one read each, together smaller than the largest record, are never too much
    for the buffer. *)
Theorem deframer_chunking (pieces pieces' : list bytes) (l : RecordLayer (K:=K)) :
  concat pieces = concat pieces' ->
  exists o o', feed negotiated pieces new_deframer l = Some o /\ feed negotiated pieces' new_deframer l = Some o' /\
    (forall ms e d k ms' e' d' k', o = Fed ms e d k -> o' = Fed ms' e' d' k' -> ms = ms' /\ e = e') /\
    (Forall (fun p => length p <= READ_SIZE)%nat pieces -> (length (concat pieces) < Z.to_nat MAX_WIRE_SIZE)%nat -> o <> Refused).
Proof.
  intros Heq. destruct (feed_new pieces l) as (o & Hf & Ho). destruct (feed_new pieces' l) as (o' & Hf' & Ho').
  exists o, o'. split_and!; try done.
  - intros ms e d k ms' e' d' k' -> ->. destruct Ho as (? & ? & _ & Hd & _), Ho' as (? & ? & _ & Hd' & _). rewrite Heq in Hd.
    by destruct (delivers_det _ _ _ _ _ _ _ _ _ _ _ Hd Hd') as (-> & -> & _).
  - intros Hp Hl ->. by apply (feed_accepts negotiated pieces new_deframer no_bytes l repr_new CS Hp Hl).
Qed.

(** ** Handshake messages are joined *)

(** The encoding of a handshake message: type, length, body. *)
Definition hs_bytes (m : Z * bytes) : bytes := [m.1] ++ be_encode 3 (zlen m.2) ++ m.2.
Definition hs_stream (ms : list (Z * bytes)) : bytes := concat (map hs_bytes ms).
Definition hs_small (m : Z * bytes) : Prop := zlen m.2 <= MAX_HANDSHAKE_SIZE.

Lemma payload_size_hs m R P X :
  hs_small m -> P ++ X = hs_bytes m ++ R -> (HS_HEADER <= length P)%nat -> payload_size P = Ok (Some (length (hs_bytes m))).
Proof.
  intros Hs Heq Hl. unfold hs_small, MAX_HANDSHAKE_SIZE in Hs. pose proof (zlen_nonneg m.2). unfold payload_size, HS_HEADER in *.
  destruct (Nat.ltb_spec (length P) (1 + 3)); [lia|].
  assert (take (1 + 3) P = [m.1] ++ be_encode 3 (zlen m.2)) as ->.
  { apply (f_equal (take (1 + 3))) in Heq. rewrite take_app_le in Heq by lia. rewrite Heq. unfold hs_bytes.
    rewrite <- !app_assoc. rewrite (app_assoc [m.1]). rewrite take_app_le by (rewrite length_app, be_encode_length; cbn; lia).
    apply take_ge. rewrite length_app, be_encode_length. cbn. lia. }
  cbn [drop app]. unfold read_bytes, codec_u24, uint_codec, init. cbn [read].
  pose proof (rd_take_at 3 [] (be_encode 3 (zlen m.2)) [] (be_encode_length _ _)) as Ht. rewrite app_nil_r in Ht. cbn [app] in Ht.
  rewrite (rd_bind_ok _ _ _ _ _ Ht). cbn [fst mret rd_ret]. rewrite be_decode_encode, Z.mod_small by lia.
  unfold mret, rd_ret. cbn [fst]. destruct (Z.ltb_spec MAX_HANDSHAKE_SIZE (zlen m.2)); [unfold MAX_HANDSHAKE_SIZE in *; lia|].
  do 2 f_equal. unfold hs_bytes. rewrite !length_app, be_encode_length. unfold zlen. cbn. lia.
Qed.

(** A prefix of a stream of handshake messages never has a bad length. *)
Lemma payload_size_stream ms P X :
  Forall hs_small ms -> P ++ X = hs_stream ms ->
  payload_size P = Ok (match ms with m :: _ => if (HS_HEADER <=? length P)%nat then Some (length (hs_bytes m)) else None | [] => None end).
Proof.
  intros Hs Heq. destruct ms as [|m ms].
  - apply app_eq_nil in Heq as [-> _]. done.
  - destruct (Nat.leb_spec HS_HEADER (length P)).
    + apply (payload_size_hs m (hs_stream ms) P X); [by inversion Hs|done|done].
    + unfold payload_size. destruct (Nat.ltb_spec (length P) HS_HEADER); [done|lia].
Qed.
Lemma hs_bytes_length m : (HS_HEADER <= length (hs_bytes m))%nat.
Proof. unfold hs_bytes, HS_HEADER. rewrite !length_app, be_encode_length. cbn. lia. Qed.

Definition hs_record (v : ProtocolVersion) (p : bytes) : message := {| typ := Known Handshake; TlsLayer.version := v; TlsLayer.payload := p |}.
Definition record_stream (v : ProtocolVersion) (frags : list bytes) : bytes := concat (map (fun f => opaque_encode (hs_record v f)) frags).

(** What is pending when [P] has been joined. *)
Definition joined (v : ProtocolVersion) (P : bytes) (o : option pending) : Prop :=
  match o with
  | None => P = []
  | Some q => P <> [] /\ pd_data q = P /\ payload_size P = Ok (pd_expected q) /\ pd_quic q = false /\ pd_version q = v
  end.

Lemma append_joined v P p o x :
  joined v P o -> p <> [] -> payload_size (P ++ p) = Ok x -> (forall y, payload_size P = Ok (Some y) -> x = Some y) ->
  exists q, spec_append v p false o = (Ok tt, Some q) /\ joined v (P ++ p) (Some q).
Proof.
  intros Hj Hp Hx Hst. unfold spec_append. destruct o as [q|]; cbn [joined pd_expected pd_data] in *.
  - destruct Hj as (Hne & <- & Hps & Hq & Hv). destruct (pd_expected q) as [y|] eqn:Hy.
    + eexists. split; [done|]. cbn. specialize (Hst y Hps). subst x. split_and!; try done. by destruct (pd_data q).
    + rewrite Hx. eexists. split; [done|]. cbn. split_and!; try done. by destruct (pd_data q).
  - subst P. cbn [app] in *. rewrite Hx. eexists. split; [done|]. cbn. by split_and!.
Qed.

(** A record with the next fragment is joined to what is pending. *)
Lemma joins_record v f frags ms s (l : RecordLayer (K:=K)) P :
  decrypt_state l <> Active -> Forall hs_small ms -> wf_message (hs_record v f) ->
  sp_todo s = record_stream v (f :: frags) -> joined v P (sp_pending s) -> P ++ concat (f :: frags) = hs_stream ms ->
  exists q, spec_record negotiated s l = (None, spec_go s (Some q) (record_stream v frags), l) /\ joined v (P ++ f) (Some q).
Proof.
  intros Hl Hs Hwf Ht Hj Heq. cbn [concat] in Heq. pose proof (payload_size_stream ms P _ Hs Heq) as HP.
  rewrite app_assoc in Heq. pose proof (payload_size_stream ms (P ++ f) _ Hs Heq) as HPf.
  destruct (append_joined v P f (sp_pending s) _ Hj ltac:(by apply Hwf) HPf) as (q & Ha & Hjq).
  { intros y Hy. rewrite HP in Hy. destruct ms; [done|]. rewrite length_app. destruct (Nat.leb_spec HS_HEADER (length P)); [|done].
    destruct (Nat.leb_spec HS_HEADER (length P + length f)); [|lia]. by injection Hy as <-. }
  exists q. split; [|done]. unfold spec_record. rewrite Ht. unfold record_stream. cbn [map concat].
  rewrite opaque_outcome_encode by done. cbn [hs_record allowed_plaintext typ]. rewrite andb_false_r.
  unfold decrypt_incoming. rewrite (bool_decide_eq_false_2 _ Hl). cbn [negb]. unfold spec_decrypted. cbn [plaintext].
  rewrite bool_decide_eq_true_2 by done. cbn [hs_record TlsLayer.version TlsLayer.payload]. rewrite Ha.
  by rewrite drop_app_length.
Qed.

(** A message that is complete is delivered. *)
Lemma joins_deliver v ms s q len P X :
  Forall hs_small ms -> joined v P (Some q) -> P ++ X = hs_stream ms -> pd_expected q = Some len -> (len <= length P)%nat ->
  exists m ms' P' d o, ms = m :: ms' /\ P' ++ X = hs_stream ms' /\ deframed d = hs_record v (hs_bytes m) /\ joined v P' o /\
    spec_deliver len q s = (Ok (Some d), spec_go s o (sp_todo s)).
Proof.
  intros Hs (Hne & Hd & Hps & Hq & Hv) Heq Hx Hlen. pose proof (payload_size_stream ms P X Hs Heq) as HP.
  rewrite Hps, Hx in HP. destruct ms as [|m ms]; [done|]. destruct (Nat.leb_spec HS_HEADER (length P)); [|done]. assert (len = length (hs_bytes m)) as -> by congruence. clear HP.
  unfold hs_stream in Heq. cbn [map concat] in Heq. fold (hs_stream ms) in Heq.
  assert (P = hs_bytes m ++ drop (length (hs_bytes m)) P) as HP.
  { rewrite <- (take_drop (length (hs_bytes m)) P) at 1. f_equal. apply (f_equal (take (length (hs_bytes m)))) in Heq.
    rewrite take_app_le, take_app_length in Heq by done. done. }
  set (P' := drop (length (hs_bytes m)) P) in *. assert (P' ++ X = hs_stream ms) as Heq'.
  { rewrite HP, <- app_assoc in Heq. by apply app_inv_head in Heq. }
  exists m, ms, P'. unfold spec_deliver. rewrite Hd, Hv. fold P'.
  assert (take (length (hs_bytes m)) P = hs_bytes m) as -> by (rewrite HP; by apply take_app_length).
  apply Forall_cons_1 in Hs as [_ Hs]. pose proof (payload_size_stream ms P' X Hs Heq') as HP'. destruct P' as [|x P''] eqn:E.
  - eexists _, None. split_and!; [done|done| |done|reflexivity]. done.
  - rewrite HP'. eexists _, (Some _). split; [done|]. split; [done|]. split; [|split; [|reflexivity]]; [done|]. by split_and!.
Qed.

Definition ready (P : bytes) (o : option pending) : option (pending * nat) :=
  match o with
  | Some q => match pd_expected q with Some len => if (len <=? length P)%nat then Some (q, len) else None | None => None end
  | None => None
  end.
Lemma ready_turn v P s (l : RecordLayer (K:=K)) :
  sp_error s = None -> joined v P (sp_pending s) ->
  match ready P (sp_pending s) with
  | Some (q, len) => sp_pending s = Some q /\ pd_expected q = Some len /\ (len <= length P)%nat /\
      spec_turn negotiated s l = let '(r, s') := spec_deliver len q s in (Some r, s', l)
  | None => spec_turn negotiated s l = spec_record negotiated s l
  end.
Proof.
  intros He Hj. unfold ready, spec_turn. rewrite He. destruct (sp_pending s) as [q|]; [|done]. destruct Hj as (_ & -> & _ & -> & _).
  destruct (pd_expected q) as [len|] eqn:Hx; [|done]. by destruct (Nat.leb_spec len (length P)).
Qed.
(** All of the stream is there and nothing is ready: nothing is left. *)
Lemma ready_all v P ms o : Forall hs_small ms -> joined v P o -> P = hs_stream ms -> ready P o = None -> ms = [] /\ o = None.
Proof.
  intros Hs Hj Heq Hr. pose proof (payload_size_stream ms P [] Hs ltac:(by rewrite app_nil_r)) as HP. destruct ms as [|m ms].
  - cbn in Heq. subst P. destruct o; [by destruct Hj|done].
  - exfalso. pose proof (hs_bytes_length m) as Hm. unfold hs_stream in Heq. cbn [map concat] in Heq.
    assert (length (hs_bytes m) <= length P)%nat by (rewrite Heq, length_app; lia).
    destruct (Nat.leb_spec HS_HEADER (length P)); [|lia]. unfold HS_HEADER in *. destruct o as [q|]; [|apply (f_equal length) in Hj; cbn in Hj; lia].
    destruct Hj as (_ & _ & Hps & _). assert (pd_expected q = Some (length (hs_bytes m))) as Hx by congruence.
    unfold ready in Hr. rewrite Hx, (proj2 (Nat.leb_le _ _)) in Hr by done. done.
Qed.

Lemma joins n v frags ms s (l : RecordLayer (K:=K)) P :
  (length frags + length ms < n)%nat -> sp_error s = None -> decrypt_state l <> Active -> Forall hs_small ms ->
  Forall (fun f => wf_message (hs_record v f)) frags -> sp_todo s = record_stream v frags -> joined v P (sp_pending s) ->
  P ++ concat frags = hs_stream ms ->
  exists ds s', delivers negotiated s l ds None s' l /\ map deframed ds = map (fun m => hs_record v (hs_bytes m)) ms /\
    sp_pending s' = None /\ sp_todo s' = [].
Proof.
  intros Hn He Hl. revert frags ms s P Hn He. induction n as [|n IH]; intros frags ms s P Hn He Hs Hwf Ht Hj Heq; [lia|].
  pose proof (ready_turn v P s l He Hj) as Hr. destruct (ready P (sp_pending s)) as [[q len]|] eqn:Hrd.
  - destruct Hr as (Hq & Hx & Hlen & Hturn). rewrite Hq in Hj.
    destruct (joins_deliver v ms s q len P (concat frags) Hs Hj Heq Hx Hlen) as (m & ms' & P' & d & o & -> & Heq' & Hd & Hj' & Hsd).
    rewrite Hsd in Hturn. apply Forall_cons_1 in Hs as [_ Hs].
    destruct (IH frags ms' (spec_go s o (sp_todo s)) P') as (ds & s' & Hdel & Hds & Hp & Hto); try done; [cbn in Hn; lia|].
    exists (d :: ds), s'. split_and!; [|cbn; by rewrite Hd, Hds|done|done]. eapply delivers_message; [|done]. by apply pops_return.
  - destruct frags as [|f frags].
    + cbn [concat] in Heq. rewrite app_nil_r in Heq. destruct (ready_all v P ms _ Hs Hj Heq Hrd) as [-> Hp].
      exists [], s. split_and!; try done. apply delivers_wait, pops_return. rewrite Hr. unfold spec_record. by rewrite Ht.
    + apply Forall_cons_1 in Hwf as [Hwf1 Hwf]. destruct (joins_record v f frags ms s l P Hl Hs Hwf1 Ht Hj Heq) as (q & Hsr & Hjq).
      rewrite Hsr in Hr. destruct (IH frags ms (spec_go s (Some q) (record_stream v frags)) (P ++ f)) as (ds & s' & Hdel & Hrest); try done.
      * cbn in Hn. lia.
      * by rewrite <- app_assoc.
      * exists ds, s'. split; [|done]. by eapply delivers_again.
Qed.

(** The deframer gives the handshake messages the peer sent.  Any handshake
    messages, one after the other, cut into any non-empty fragments, each in a
    plaintext handshake record, the records arriving in any pieces: the
    deframer delivers exactly these messages, each whole and in order, and
    nothing is left pending; only a buffer that is full stops it, which pieces
    of at most one read each that together are smaller than the largest record
    never cause. *)
Theorem handshake_messages_joined v ms frags pieces (l : RecordLayer (K:=K)) :
  decrypt_state l <> Active -> Forall hs_small ms -> Forall (fun f => wf_message (hs_record v f)) frags ->
  concat frags = hs_stream ms -> concat pieces = record_stream v frags ->
  exists o, feed negotiated pieces new_deframer l = Some o /\
    (forall ds e d k, o = Fed ds e d k ->
      e = None /\ map deframed ds = map (fun m => hs_record v (hs_bytes m)) ms /\ has_pending d = false) /\
    (Forall (fun p => length p <= READ_SIZE)%nat pieces -> (length (record_stream v frags) < Z.to_nat MAX_WIRE_SIZE)%nat -> o <> Refused).
Proof.
  intros Hl Hs Hwf Hfr Hpi. destruct (feed_new pieces l) as (o & Hf & Ho). exists o. split; [done|]. split.
  - intros ds e d k ->. destruct Ho as (s1 & s2 & Hr & Hdel & He).
    destruct (joins (S (length frags + length ms)) v frags ms (more no_bytes (concat pieces)) l []) as (ds' & s' & Hdel' & Hds & Hp & Ht); try done; [lia|].
    destruct (delivers_det _ _ _ _ _ _ _ _ _ _ _ Hdel Hdel') as (-> & -> & -> & _). specialize (He eq_refl). subst s1.
    split_and!; try done. pose proof (repr_layout d s' Hr) as Hlay. rewrite Hp, Ht in Hlay. unfold has_pending.
    destruct (joining_hs d); [done|]. by destruct Hlay as (z & _ & ->).
  - intros Hp Hlen ->. rewrite <- Hpi in Hlen. by apply (feed_accepts negotiated pieces new_deframer no_bytes l repr_new CS Hp Hlen).
Qed.

(** ** What is left for the raw connection *)

Lemma spec_record_suffix s (l : RecordLayer (K:=K)) a s' l' :
  spec_record negotiated s l = (a, s', l') -> sp_todo s' `suffix_of` sp_todo s.
Proof.
  unfold spec_record. destruct (opaque_outcome (sp_todo s)) as [[m n]|e|]; [|destruct e; by intros [= <- <- <-]|by intros [= <- <- <-]].
  assert (Hd : drop n (sp_todo s) `suffix_of` sp_todo s) by (exists (take n (sp_todo s)); by rewrite take_drop).
  destruct (_ && _); [by intros [= <- <- <-]|]. destruct (decrypt_incoming m l) as [[[dec|]|e|] l1].
  - unfold spec_decrypted. case_bool_decide; [destruct (spec_append _ _ _ _) as [[[]|e|] [q|]]|destruct (sp_pending s)]; by intros [= <- <- <-].
  - destruct (sp_pending s); by intros [= <- <- <-].
  - by intros [= <- <- <-].
  - by intros [= <- <- <-].
Qed.
Lemma spec_turn_suffix s (l : RecordLayer (K:=K)) a s' l' :
  spec_turn negotiated s l = (a, s', l') -> sp_todo s' `suffix_of` sp_todo s.
Proof.
  unfold spec_turn. destruct (sp_error s); [by intros [= <- <- <-]|]. destruct (sp_pending s) as [q|]; [|apply spec_record_suffix].
  destruct (pd_expected q) as [len|]; [destruct (_ <=? _)%nat|]; [|destruct (pd_quic q); [by intros [= <- <- <-]|apply spec_record_suffix]..].
  unfold spec_deliver. destruct (drop len (pd_data q)); [by intros [= <- <- <-]|]. destruct (payload_size _); by intros [= <- <- <-].
Qed.
Lemma delivers_suffix s (l : RecordLayer (K:=K)) ms e s' l' :
  delivers negotiated s l ms e s' l' -> sp_todo s' `suffix_of` sp_todo s.
Proof.
  assert (Hp : forall s l r s' l', pops (K:=K) negotiated s l r s' l' -> sp_todo s' `suffix_of` sp_todo s).
  { induction 1; [by eapply spec_turn_suffix|]. etrans; [done|]. by eapply spec_turn_suffix. }
  induction 1; [by eapply Hp| |by eapply Hp]. etrans; [done|]. by eapply Hp.
Qed.

(** When the connection leaves TLS for raw TCP it loses no byte: fed in any
    pieces and drained, with no handshake message half joined, the deframer
    hands over by [take_pending] exactly the end of the stream that it has not
    turned into messages, and starts afresh: feeding it what it handed over
    brings nothing more and leaves the same bytes pending. *)
Theorem take_pending_exact pieces (l : RecordLayer (K:=K)) ms d l' :
  feed negotiated pieces new_deframer l = Some (Fed ms None d l') -> joining_hs d = None ->
  exists consumed tail d', concat pieces = consumed ++ tail /\ take_pending d = (Ok tail, d') /\ has_pending d' = false /\
    repr d' no_bytes /\ delivers negotiated (more no_bytes tail) l' [] None (more no_bytes tail) l'.
Proof.
  intros Hf Hj. destruct (feed_new pieces l) as (o & Hf' & Ho). rewrite Hf in Hf'. injection Hf' as <-.
  destruct Ho as (s' & s2 & Hr & Hdel & He). specialize (He eq_refl). subst s2. pose proof Hr as [Hre Hlay Hbd]. unfold layout in Hlay.
  rewrite Hj in Hlay. destruct (sp_pending s') as [q|] eqn:Hq; [done|]. destruct Hlay as (z & Hb & Hu).
  destruct (delivers_suffix _ _ _ _ _ _ Hdel) as [c Hc]. cbn in Hc. exists c, (sp_todo s').
  pose proof (delivers_idle _ _ _ _ _ _ Hdel) as Hid. assert (He : sp_error s' = None).
  { revert Hid. unfold idle, spec_turn. destruct (sp_error s'); [|done]. intros [=]. }
  assert (Hs' : s' = more no_bytes (sp_todo s')) by (destruct s' as [e q t]; cbn in Hq, He; by rewrite Hq, He).
  assert (Hrep : repr (set_used d 0) no_bytes) by (split; cbn; [by rewrite Hre, He| |done]; rewrite Hj; by exists (buf d)).
  exists (set_used d 0). split; [done|]. split; [|split; [done|split; [done|]]].
  - unfold take_pending. rewrite Hb, Hu. destruct (sp_todo s') as [|x t] eqn:Ht.
    + cbn. f_equal. destruct d; cbn in *. by subst.
    + cbn [length Nat.eqb]. change (S (length t)) with (length (x :: t)). rewrite (slice_app_at [] (x :: t) z) by done. done.
  - apply delivers_wait, pops_return. rewrite <- Hs'. exact Hid.
Qed.
End theorems.

(** [push] copies the handshake bytes of a QUIC connection into a buffer of
    one read: a new deframer takes any payload of up to 4096 bytes and panics
    on a longer one, unless the length in its header is refused first. *)
Theorem push_bound v p :
  (forall e, payload_size p <> Err e) ->
  ((length p <= READ_SIZE)%nat <-> (push v p new_deframer).1 = Ok tt) /\
  ((READ_SIZE < length p)%nat <-> (push v p new_deframer).1 = Panic).
Proof.
  intros Hps. assert (Hpr : prepare_read new_deframer = Ok (set_buf new_deframer (replicate READ_SIZE 0))).
  { unfold prepare_read, allow_max, new_deframer. cbn [joining_hs d_used buf length]. unfold MAX_WIRE_SIZE, MAX_PAYLOAD, HEADER_SIZE, READ_SIZE.
    reflexivity. }
  unfold push. cbn [d_used new_deframer Nat.ltb Nat.leb andb]. rewrite Hpr. clear Hpr. generalize READ_SIZE. intros size.
  unfold append_hs. cbn [set_buf joining_hs new_deframer].
  pose proof (payload_size_no_panic p). destruct (payload_size p) as [x|e|]; [|by destruct (Hps e)|done].
  change (buf (set_buf new_deframer (replicate size 0))) with (replicate size 0).
  unfold copy_into. rewrite length_replicate, Nat.sub_0_r, Nat.eqb_refl, andb_true_r. cbn [Nat.leb andb].
  destruct (Nat.leb_spec (length p) size); cbn [fst]; split; split; intros; try done; lia.
Qed.

(** ** Witnesses *)

Definition ex_hs : list (Z * bytes) := [(1, [7; 8]); (2, [])].
Definition ex_frags : list bytes := [[1; 0; 0]; [2; 7; 8; 2; 0]; [0; 0]].
Lemma ex_frags_wf : Forall (fun f => wf_message (hs_record (Known TLSv1_2) f)) ex_frags.
Proof.
  assert (Hwf : forall f, zlen f < MAX_PAYLOAD -> f <> [] -> wf_message (hs_record (Known TLSv1_2) f)).
  { intros f Hl Hf. split; [exists 0x16; split; [rewrite list_elem_of_In; cbn; auto|cbn; lia]|]. split; [by eexists|].
    split; [exists 0x0303; split; [rewrite list_elem_of_In; cbn; auto 8|cbn; lia]|]. by split_and!. }
  repeat (constructor; [by apply Hwf|]). constructor.
Qed.
Definition ex_stream : bytes := record_stream (Known TLSv1_2) ex_frags.

Definition fed_payloads {K} (o : option (fed (K:=K))) : option (list bytes) :=
  match o with Some (Fed ms None _ _) => Some (map (TlsLayer.payload ∘ deframed) ms) | _ => None end.
Lemma fed_payloads_inv {K} (o : option (fed (K:=K))) ps :
  fed_payloads o = Some ps -> exists ms d l, o = Some (Fed ms None d l) /\ map (TlsLayer.payload ∘ deframed) ms = ps.
Proof. destruct o as [[ms [e|] d l|]|]; try done. intros [= <-]. by eexists _, _, _. Qed.

Lemma deframer_chunking_witness :
  exists ms d k d' k', feed (C:=toy_cipher) None [ex_stream] new_deframer new_layer = Some (Fed ms None d k) /\
    feed (C:=toy_cipher) None (map (fun b => [b]) ex_stream) new_deframer new_layer = Some (Fed ms None d' k') /\
    map (TlsLayer.payload ∘ deframed) ms = [[1; 0; 0; 2; 7; 8]; [2; 0; 0; 0]].
Proof.
  destruct (deframer_chunking (C:=toy_cipher) None [ex_stream] (map (fun b => [b]) ex_stream) new_layer eq_refl) as (o & o' & H1 & H2 & H3 & _).
  destruct (fed_payloads_inv (feed (C:=toy_cipher) None [ex_stream] new_deframer new_layer) [[1; 0; 0; 2; 7; 8]; [2; 0; 0; 0]]) as (ms & d & k & Hf & Hm);
    [vm_compute; reflexivity|].
  destruct (fed_payloads_inv (feed (C:=toy_cipher) None (map (fun b => [b]) ex_stream) new_deframer new_layer) [[1; 0; 0; 2; 7; 8]; [2; 0; 0; 0]]) as (ms' & d' & k' & Hf' & _);
    [vm_compute; reflexivity|].
  rewrite Hf in H1. injection H1 as <-. rewrite Hf' in H2. injection H2 as <-.
  destruct (H3 _ _ _ _ _ _ _ _ eq_refl eq_refl) as [<- _]. exists ms, d, k, d', k'. exact (conj Hf (conj Hf' Hm)).
Defined.

Lemma handshake_messages_joined_witness :
  exists o, feed (C:=toy_cipher) None [take 9 ex_stream; drop 9 ex_stream] new_deframer new_layer = Some o /\ o <> Refused /\
    forall ds e d k, o = Fed ds e d k -> map (TlsLayer.payload ∘ deframed) ds = [[1; 0; 0; 2; 7; 8]; [2; 0; 0; 0]].
Proof.
  destruct (handshake_messages_joined (C:=toy_cipher) None (Known TLSv1_2) ex_hs ex_frags [take 9 ex_stream; drop 9 ex_stream] new_layer)
    as (o & H1 & H2 & H3); [done| |exact ex_frags_wf|done|done|].
  { repeat (apply Forall_cons_2; [unfold hs_small; vm_compute; discriminate|]). apply Forall_nil_2. }
  exists o. split; [exact H1|]. split.
  - apply H3; [apply (bool_decide_unpack _); vm_compute; exact I|]. apply (bool_decide_unpack _). vm_compute. exact I.
  - intros ds e d k ->. destruct (H2 _ _ _ _ eq_refl) as (_ & Hd & _).
    transitivity (map TlsLayer.payload (map deframed ds)); [by rewrite map_map|]. rewrite Hd. reflexivity.
Defined.

(** Half a record after a whole one. *)
Definition ex_alert : message := {| typ := Known Alert; TlsLayer.version := Known TLSv1_2; TlsLayer.payload := [2; 40] |}.
Definition ex_cut : bytes := opaque_encode ex_alert ++ [0x17; 3; 3].

Definition fed_tail {K} (o : option (fed (K:=K))) : option (list bytes * bool * result deframe_error bytes) :=
  match o with
  | Some (Fed ms None d _) => Some (map (TlsLayer.payload ∘ deframed) ms, bool_decide (is_Some (joining_hs d)), (take_pending d).1)
  | _ => None
  end.

Lemma take_pending_exact_witness :
  exists ms d l', feed (C:=toy_cipher) None [ex_cut] new_deframer new_layer = Some (Fed ms None d l') /\
    map (TlsLayer.payload ∘ deframed) ms = [[2; 40]] /\ exists d', take_pending d = (Ok [0x17; 3; 3], d') /\ has_pending d' = false.
Proof.
  assert (Hv : fed_tail (feed (C:=toy_cipher) None [ex_cut] new_deframer new_layer) = Some ([[2; 40]], false, Ok [0x17; 3; 3]))
    by (vm_compute; reflexivity).
  destruct (feed (C:=toy_cipher) None [ex_cut] new_deframer new_layer) as [[ms [e|] d l'|]|] eqn:Hf; try discriminate Hv.
  injection Hv as Hm Hj Ht. apply bool_decide_eq_false, eq_None_not_Some in Hj.
  destruct (take_pending_exact (C:=toy_cipher) None [ex_cut] new_layer ms d l' Hf Hj) as (c & t & d' & _ & Htp & Hp & _).
  rewrite Htp in Ht. cbn in Ht. injection Ht as ->. exists ms, d, l'. split; [reflexivity|]. split; [exact Hm|]. exists d'. exact (conj Htp Hp).
Defined.

Lemma push_bound_witness :
  (push (Known TLSv1_3) [1; 0; 0; 1; 5] new_deframer).1 = Ok tt /\
  (push (Known TLSv1_3) (replicate 4097 0) new_deframer).1 = Panic.
Proof.
  split.
  - apply (push_bound (Known TLSv1_3) [1; 0; 0; 1; 5]); [by intros e|]. apply (bool_decide_unpack _). vm_compute. exact I.
  - apply (push_bound (Known TLSv1_3) (replicate 4097 0)); [by intros e|]. apply (bool_decide_unpack _). vm_compute. exact I.
Defined.

(** Bytes taken while a handshake message is half joined are not the bytes of
    the connection, and the next record makes the deframer panic: [joining_hs]
    still points behind what is in the buffer. *)
Example take_pending_stale :
  match feed (C:=toy_cipher) None [take 8 ex_stream] new_deframer new_layer with
  | Some (Fed [] None d l) =>
      match take_pending d with
      | (Ok t, d) => t = [1; 0; 0; 0; 3; 1; 0; 0] /\
          match read_from (Some [0x17]) d with
          | (Ok 1%nat, d) => option_map (fun x => x.1.1) (pop (C:=toy_cipher) None d l) = Some Panic
          | _ => False
          end
      | _ => False
      end
  | _ => False
  end.
Proof. vm_compute. by split. Qed.
