(* ===== verification/Wire.v ===== *)
(** * Composing codecs (orcax/rustls-fork/rustls/src/msgs/codec.rs)

    The messages of the handshake are built from the codecs of Codec.v: fields
    one after the other, length-prefixed lists, bodies read from a sub-reader.
    This file has the laws such compositions obey, so that the laws of a message
    follow from its fields': [reads], what is read back from an encoding; [eats],
    what a successful read has consumed; [safe], that a read ends without
    panicking on any input. *)
From S2P Require Import Prelude Codec.

(** ** Readers *)

Definition ok (r : Reader) : Prop := (cursor r <= length (buffer r))%nat.
(** The bytes still to be read. *)
Definition rem (r : Reader) : bytes := drop (cursor r) (buffer r).

(** The body of a sub-reader; [?] in it leaves the outer reader where it is. *)
Definition within {A} (s : Reader) (m : Rd A) : Rd A := fun r => ((m s).1, r).
(** [let mut sub = r.sub(n)?; ..; sub.expect_empty()]. *)
Definition sub_read {A} (n : nat) (m : Rd A) : Rd A :=
  s ← sub n; within s (x ← m; _ ← expect_empty; mret x).
Definition rd_fail {A} (e : InvalidMessage) : Rd A := fun r => (Err e, r).
Definition rd_ensure (b : bool) (e : InvalidMessage) : Rd unit := fun r => (ensure b e, r).
Definition rd_any_left : Rd bool := fun r => (Ok (any_left r), r).

(** Reading [bs] gives [x], whatever surrounds it. *)
Definition reads {A} (m : Rd A) (bs : bytes) (x : A) : Prop := forall pre post,
  m {| buffer := pre ++ bs ++ post; cursor := length pre |} = (Ok x, {| buffer := pre ++ bs ++ post; cursor := length pre + length bs |}).
(** Reading [bs] at the end of the buffer gives [x]. *)
Definition reads_all {A} (m : Rd A) (bs : bytes) (x : A) : Prop := forall pre,
  m {| buffer := pre ++ bs; cursor := length pre |} = (Ok x, {| buffer := pre ++ bs; cursor := length pre + length bs |}).
(** What a read that succeeds has consumed, on buffers that satisfy [B]. *)
Class Closed (B : bytes -> Prop) : Prop := closed a b c : B (a ++ b ++ c) -> B b.
Definition any_bytes (_ : bytes) : Prop := True.
#[export] Instance any_closed : Closed any_bytes.
Proof. done. Qed.
#[export] Instance wf_closed : Closed wf_bytes.
Proof. intros a b c H. apply Forall_app in H as [_ H]. by apply Forall_app in H as [H _]. Qed.
Definition eats {A} (B : bytes -> Prop) (m : Rd A) (P : A -> bytes -> Prop) : Prop := forall r x r',
  ok r -> B (buffer r) -> m r = (Ok x, r') ->
  exists bs, buffer r' = buffer r /\ cursor r' = (cursor r + length bs)%nat /\ ok r' /\ rem r = bs ++ rem r' /\ P x bs.
(** No panic, on any input. *)
Definition safe {A} (m : Rd A) : Prop := forall r, ok r -> ok (m r).2 /\ (m r).1 <> Panic.

(** ** Laws of the parts *)

Lemma rd_bind_ext {A B} (m : Rd A) (f g : A -> Rd B) r : (forall x r, f x r = g x r) -> (m ≫= f) r = (m ≫= g) r.
Proof. intros H. unfold mbind, rd_bind. by destruct (m r) as [[x|e|] r']. Qed.
Lemma reads_ret {A} (x : A) : reads (mret x) [] x.
Proof. intros pre post. cbn. by rewrite Nat.add_0_r. Qed.
Lemma reads_bind {A B} (m : Rd A) (f : A -> Rd B) a b x y :
  reads m a x -> reads (f x) b y -> reads (m ≫= f) (a ++ b) y.
Proof.
  intros Hm Hf pre post. rewrite <- app_assoc, (rd_bind_ok _ _ _ _ _ (Hm pre (b ++ post))).
  specialize (Hf (pre ++ a) post). rewrite length_app in Hf. rewrite <- app_assoc in Hf. by rewrite Hf, length_app, Nat.add_assoc.
Qed.
Lemma reads_bind_all {A B} (m : Rd A) (f : A -> Rd B) a b x y :
  reads m a x -> reads_all (f x) b y -> reads_all (m ≫= f) (a ++ b) y.
Proof.
  intros Hm Hf pre. rewrite (rd_bind_ok _ _ _ _ _ (Hm pre b)).
  specialize (Hf (pre ++ a)). rewrite length_app in Hf. rewrite <- app_assoc in Hf. by rewrite Hf, length_app, Nat.add_assoc.
Qed.
Lemma reads_to_all {A} (m : Rd A) a x : reads m a x -> reads_all m a x.
Proof. intros Hm pre. specialize (Hm pre []). by rewrite app_nil_r in Hm. Qed.
Lemma reads_all_end {A} (m : Rd A) a x : reads_all m a x -> reads_all (x ← m; _ ← expect_empty; mret x) a x.
Proof.
  intros Hm pre. rewrite (rd_bind_ok _ _ _ _ _ (Hm pre)). unfold mbind, rd_bind, expect_empty, any_left. cbn [buffer cursor].
  by rewrite length_app, Nat.ltb_irrefl.
Qed.
Lemma reads_all_bind {A B} (m : Rd A) (f : A -> B) a x : reads_all m a x -> reads_all (x ← m; mret (f x)) a (f x).
Proof. intros Hm pre. by rewrite (rd_bind_ok _ _ _ _ _ (Hm pre)). Qed.
Lemma reads_rest bs : reads_all rd_rest bs bs.
Proof. intros pre. unfold rd_rest, rest. cbn [buffer cursor]. by rewrite drop_app_length, length_app. Qed.
Lemma reads_rd_take n bs : length bs = n -> reads (rd_take n) bs bs.
Proof. intros Hn pre post. rewrite rd_take_at by done. by rewrite Hn. Qed.
Lemma reads_ensure b e : b = true -> reads (rd_ensure b e) [] tt.
Proof. intros -> pre post. cbn. by rewrite Nat.add_0_r. Qed.

Lemma sub_read_eq {A} n (m : Rd A) r :
  sub_read n m r = match take_bytes n r with
                   | (Some bs, r') => (((x ← m; _ ← expect_empty; mret x) (init bs)).1, r')
                   | (None, r') => (Err MessageTooShort, r')
                   end.
Proof. unfold sub_read, sub, within. unfold mbind at 1. unfold rd_bind at 1. by destruct (take_bytes n r) as [[b|] r']. Qed.
Lemma reads_sub {A} (m : Rd A) bs x : reads_all m bs x -> reads (sub_read (length bs) m) bs x.
Proof.
  intros Hm pre post. rewrite sub_read_eq, take_bytes_at by done. pose proof (reads_all_end m bs x Hm []) as H. cbn [app length] in H. unfold init. by rewrite H.
Qed.

Section eats.
Context {B : bytes -> Prop} {CB : Closed B}.

Lemma eats_weaken {A} (m : Rd A) (P Q : A -> bytes -> Prop) : eats B m P -> (forall x bs, P x bs -> Q x bs) -> eats B m Q.
Proof. intros Hm HPQ r x r' Hr Hb Hx. destruct (Hm r x r' Hr Hb Hx) as (bs & H1 & H2 & H3 & H4 & H5). exists bs. auto 10. Qed.
Lemma eats_any {A} (m : Rd A) P : eats any_bytes m P -> eats B m P.
Proof. intros Hm r x r' Hr _ Hx. by apply (Hm r x r' Hr I Hx). Qed.
Lemma eats_ext {A} (m m' : Rd A) P : (forall r, m r = m' r) -> eats B m' P -> eats B m P.
Proof. intros He Hm r x r' Hr. rewrite He. by apply Hm. Qed.
Lemma eats_ret {A} (x : A) (P : A -> bytes -> Prop) : P x [] -> eats B (mret x) P.
Proof. intros HP r y r' Hr _ [= <- <-]. exists []. cbn. split_and!; try done; lia. Qed.
Lemma eats_bind {A A'} (m : Rd A) (f : A -> Rd A') P Q :
  eats B m P -> (forall x a, P x a -> eats B (f x) (fun y b => Q y (a ++ b))) -> eats B (m ≫= f) Q.
Proof.
  intros Hm Hf r y r' Hr Hw H. apply rd_bind_inv in H as (x & r1 & H1 & H2).
  destruct (Hm r x r1 Hr Hw H1) as (a & Ha1 & Ha2 & Ha3 & Ha4 & Ha5).
  destruct (Hf x a Ha5 r1 y r' Ha3 ltac:(by rewrite Ha1) H2) as (b & Hb1 & Hb2 & Hb3 & Hb4 & Hb5).
  exists (a ++ b). rewrite length_app. split_and!; [congruence|lia|done|by rewrite Ha4, Hb4, app_assoc|done].
Qed.
Lemma eats_fail {A} e (P : A -> bytes -> Prop) : eats B (rd_fail e) P.
Proof. intros r x r' _ _ [=]. Qed.
Lemma eats_ensure b e : eats B (rd_ensure b e) (fun _ bs => b = true /\ bs = []).
Proof. intros r [] r' Hr _. unfold rd_ensure. destruct b; [|done]. intros [= <-]. exists []. cbn. split_and!; try done; lia. Qed.
Lemma eats_expect : eats B expect_empty (fun _ bs => bs = []).
Proof. intros r [] r' Hr _. unfold expect_empty. destruct (any_left r); [done|]. intros [= <-]. exists []. cbn. split_and!; try done; lia. Qed.
Lemma eats_take n : eats B (rd_take n) (fun x bs => x = bs /\ length bs = n /\ B bs).
Proof.
  intros r x r' Hr Hw H. pose proof (rd_take_advances _ _ _ _ H Hr) as (H1 & H2 & H3 & H4). exists x.
  assert (Hrem : rem r = x ++ rem r').
  { unfold rem. rewrite H1, H2. unfold rd_take, take_bytes in H. destruct (_ <? _)%nat; [done|]. injection H as <- _.
    by rewrite <- drop_drop, take_drop. }
  split_and!; [done|by rewrite H2, H4|by unfold ok; rewrite H1|done|done|done|].
  apply (closed (take (cursor r) (buffer r)) x (rem r')). rewrite <- Hrem. unfold rem. by rewrite take_drop.
Qed.
Lemma eats_rest : eats B rd_rest (fun x bs => x = bs /\ B bs).
Proof.
  intros r x r' Hr Hw. unfold rd_rest, rest. intros [= <- <-]. exists (rem r). unfold ok, rem in *. cbn [buffer cursor].
  rewrite length_drop, (drop_ge (buffer r) (length (buffer r))), app_nil_r by lia. split_and!; try done; [lia|].
  apply (closed (take (cursor r) (buffer r)) _ []). by rewrite app_nil_r, take_drop.
Qed.

(** A body read from a sub-reader consumes the whole of it. *)
Lemma eats_sub {A} n (m : Rd A) P : eats B m P -> eats B (sub_read n m) (fun x bs => length bs = n /\ P x bs).
Proof.
  intros Hm r x r' Hr Hw H. unfold sub_read in H. apply rd_bind_inv in H as (s & r1 & H1 & H2). unfold sub in H1.
  destruct (take_bytes n r) as [[b|] r2] eqn:Ht; [|done]. injection H1 as <- <-.
  pose proof (eats_take n r b r2 Hr Hw ltac:(unfold rd_take; by rewrite Ht)) as (bs & E1 & E2 & E3 & E4 & <- & E6 & E7).
  unfold within in H2. destruct ((x ← m; _ ← expect_empty; mret x) (init b)) as [res r3] eqn:Hb. cbn [fst] in H2. injection H2 as -> <-.
  apply rd_bind_inv in Hb as (y & r4 & Hy & He). apply rd_bind_inv in He as ([] & r5 & He & [= -> ->]).
  unfold expect_empty in He. destruct (any_left r4) eqn:Hal; [done|]. injection He as ->.
  destruct (Hm (init b) x r3 ltac:(unfold ok; cbn; lia) E7 Hy) as (c & F1 & F2 & F3 & F4 & F5). exists b.
  split_and!; try done. assert (c = b) as ->; [|done]. unfold rem, init in F4. cbn in F4.
  unfold any_left in Hal. apply Nat.ltb_ge in Hal. rewrite drop_0, (drop_ge (buffer r3)), app_nil_r in F4 by done. done.
Qed.
End eats.

Lemma safe_ret {A} (x : A) : safe (mret x).
Proof. by intros r Hr. Qed.
Lemma safe_ext {A} (m m' : Rd A) : (forall r, m r = m' r) -> safe m' -> safe m.
Proof. intros He Hm r Hr. rewrite He. by apply Hm. Qed.
Lemma safe_bind {A B} (m : Rd A) (f : A -> Rd B) : safe m -> (forall x, safe (f x)) -> safe (m ≫= f).
Proof.
  intros Hm Hf r Hr. destruct (Hm r Hr) as [H1 H2]. unfold mbind, rd_bind. destruct (m r) as [[x|e|] r']; cbn in *; [by apply Hf|done|done].
Qed.
Lemma safe_fail {A} e : safe (rd_fail (A:=A) e).
Proof. by intros r Hr. Qed.
Lemma safe_ensure b e : safe (rd_ensure b e).
Proof. intros r Hr. by destruct b. Qed.
Lemma safe_take n : safe (rd_take n).
Proof.
  intros r Hr. unfold rd_take. destruct (take_bytes n r) as [[b|] r'] eqn:Ht; cbn.
  - apply take_bytes_advances in Ht as (H1 & H2 & H3 & _); [|done]. unfold ok. by rewrite H1.
  - unfold take_bytes in Ht. destruct (_ <? _)%nat; by simplify_eq.
Qed.
Lemma safe_rest : safe rd_rest.
Proof. intros r Hr. unfold ok. cbn. done. Qed.
Lemma safe_expect : safe expect_empty.
Proof. intros r Hr. unfold expect_empty. by destruct (any_left r). Qed.
Lemma safe_any_left : safe rd_any_left.
Proof. by intros r Hr. Qed.
Lemma safe_sub_reader n : safe (sub n).
Proof. intros r Hr. pose proof (safe_take n r Hr) as Ht. revert Ht. unfold rd_take, sub. by destruct (take_bytes n r) as [[b|] r']; intros [? _]. Qed.
Lemma safe_sub {A} n (m : Rd A) : safe m -> safe (sub_read n m).
Proof.
  intros Hm r Hr. rewrite sub_read_eq. pose proof (safe_take n r Hr) as Ht. unfold rd_take in Ht.
  destruct (take_bytes n r) as [[b|] r']; cbn in *; destruct Ht as [Ht _]; (split; [exact Ht|]); [|done].
  destruct (Hm (init b) ltac:(unfold ok; cbn; lia)) as [Ho Hn]. unfold mbind, rd_bind. destruct (m (init b)) as [[x|e|] s]; cbn in *; [|done|done].
  unfold expect_empty, mret, rd_ret. repeat case_match; by simplify_eq/=.
Qed.

(** ** What a codec promises *)

(** For the values [wf] describes, what was encoded is read back; a read that
    succeeds has consumed something; no read panics. *)
Class Wire {T} (C : Codec T) (wf : T -> Prop) : Prop := {
  wire_app x buf : encode x buf = buf ++ get_encoding x;
  wire_nonempty x : wf x -> get_encoding x <> [];
  wire_reads x : wf x -> reads read (get_encoding x) x;
  wire_eats : eats any_bytes read (fun _ bs => bs <> []);
  wire_safe : safe read
}.
(** The bytes read are the only encoding of the value: reading loses nothing. *)
Class Exact {T} (C : Codec T) (wf : T -> Prop) : Prop := {
  wire_exact : eats wf_bytes read (fun x bs => wf x /\ bs = get_encoding x)
}.

#[export] Instance wire_laws {T} (C : Codec T) wf : Wire C wf -> CodecLaws C wf.
Proof.
  intros W. split.
  - intros x buf. by rewrite wire_app.
  - intros x Hx. by apply wire_nonempty.
  - intros x pre post Hx. by apply wire_reads.
  - intros r x r' Hr H. destruct (wire_eats r x r' Hr I H) as (bs & H1 & H2 & H3 & _ & Hne). unfold ok in H3. rewrite H1 in H3.
    split; [done|]. destruct bs; [done|]. cbn in H2. lia.
Qed.

(** *** Integers, enumerations, payloads *)

(** A cast to the width of the field changes nothing on the wire. *)
Lemma be_encode_mod n z : be_encode n (z mod 256 ^ Z.of_nat n) = be_encode n z.
Proof.
  revert z. induction n as [|n IH]; intros z; [done|]. cbn [be_encode]. rewrite Nat2Z.inj_succ, Z.pow_succ_r by lia.
  assert (0 < 256 ^ Z.of_nat n) by (apply Z.pow_pos_nonneg; lia). rewrite Z.rem_mul_r by lia. f_equal.
  - rewrite (Z.mul_comm 256), Z.div_add by lia. rewrite Z.div_small, Z.add_0_l by (apply Z.mod_pos_bound; lia). apply IH.
  - rewrite (Z.mul_comm 256), Z.mod_add by lia. by rewrite Z.mod_mod by lia.
Qed.

Section fixed.
Context {T : Type} (n : nat) (enc : T -> Z) (dec : Z -> T) (wf : T -> Prop).
Abbreviation fixed := {| encode x buf := buf ++ be_encode n (enc x); read := bs ← rd_take n; mret (dec (be_decode bs)) |}.

Lemma fixed_wire :
  n <> 0%nat -> (forall x, wf x -> 0 <= enc x < 256 ^ Z.of_nat n /\ dec (enc x) = x) -> Wire fixed wf.
Proof.
  intros Hn Hwf. pose proof (fixed_laws n enc dec wf Hn Hwf) as L. split; cbn [encode read].
  - done.
  - intros x. apply (encode_nonempty (CodecLaws:=L)).
  - intros x Hx pre post. apply (read_encode (CodecLaws:=L) x pre post Hx).
  - eapply eats_bind; [apply eats_take|]. intros x a (-> & Ha & _). apply eats_ret. rewrite app_nil_r. intros ->. by cbn in Ha.
  - apply safe_bind; [apply safe_take|intros; apply safe_ret].
Qed.
Lemma fixed_exact :
  (forall z, 0 <= z < 256 ^ Z.of_nat n -> wf (dec z) /\ enc (dec z) = z) -> Exact fixed wf.
Proof.
  intros Hd. split. cbn [read]. eapply eats_bind; [apply eats_take|]. intros b' b (-> & Ha & Hw). apply eats_ret. rewrite app_nil_r.
  pose proof (be_decode_bound b Hw) as Hb. unfold zlen in Hb. rewrite Ha in Hb. destruct (Hd _ Hb) as [H1 H2].
  split; [done|]. unfold get_encoding. cbn [encode app]. rewrite H2, <- Ha. symmetry. by apply be_encode_decode.
Qed.
End fixed.

#[export] Instance u8_wire : Wire codec_u8 (uint_wf 1).
Proof. by apply (fixed_wire 1 id id). Qed.
#[export] Instance u16_wire : Wire codec_u16 (uint_wf 2).
Proof. by apply (fixed_wire 2 id id). Qed.
#[export] Instance u32_wire : Wire codec_u32 (uint_wf 4).
Proof. by apply (fixed_wire 4 id id). Qed.
#[export] Instance u8_exact : Exact codec_u8 (uint_wf 1).
Proof. by apply (fixed_exact 1 id id). Qed.
#[export] Instance u24_wire : Wire codec_u24 (uint_wf 3).
Proof. by apply (fixed_wire 3 id id). Qed.
#[export] Instance u24_exact : Exact codec_u24 (uint_wf 3).
Proof. by apply (fixed_exact 3 id id). Qed.
#[export] Instance u16_exact : Exact codec_u16 (uint_wf 2).
Proof. by apply (fixed_exact 2 id id). Qed.
#[export] Instance u32_exact : Exact codec_u32 (uint_wf 4).
Proof. by apply (fixed_exact 4 id id). Qed.

Lemma enum_from_get {N} `{EqDecision N} size (table : list (N * Z)) z :
  table_ok table -> 0 <= z < 256 ^ Z.of_nat size -> enum_wf size table (enum_from table z) /\ enum_get table (enum_from table z) = z.
Proof.
  intros [H1 H2] Hz. destruct (decide (z ∈ table.*2)) as [Hin|Hout].
  - apply list_elem_of_fmap in Hin as ([n v] & -> & Hin). cbn in *. rewrite (enum_from_known table n v) by done.
    split; [by exists v|]. by apply enum_get_known.
  - rewrite enum_from_unknown by done. split; [done|]. by destruct table.
Qed.
Lemma enum_wire {N} `{EqDecision N} size (table : list (N * Z)) :
  size <> 0%nat -> table_ok table -> Wire (enum_codec size table) (enum_wf size table).
Proof.
  intros Hs [H1 H2]. apply (fixed_wire size (enum_get table) (enum_from table)); [done|]. intros [n|x]; cbn [enum_wf].
  - intros (v & Hin & Hv). rewrite (enum_get_known table n v) by done. split; [done|]. by apply enum_from_known.
  - intros [Hx Hr]. destruct table; (split; [done|]; by apply enum_from_unknown).
Qed.
Lemma enum_exact {N} `{EqDecision N} size (table : list (N * Z)) :
  table_ok table -> Exact (enum_codec size table) (enum_wf size table).
Proof. intros Hok. apply (fixed_exact size (enum_get table) (enum_from table)). intros z Hz. by apply enum_from_get. Qed.

(** A length and that many bytes. *)
Lemma payload_read_eq size r :
  read (Codec:=payload_codec size) r = (n ← (bs ← rd_take size; mret (Z.to_nat (be_decode bs))); sub_read n rd_rest) r.
Proof.
  cbn [read payload_codec]. apply rd_bind_ext. intros n r1. rewrite sub_read_eq. unfold sub. unfold mbind at 1. unfold rd_bind at 1.
  destruct (take_bytes n r1) as [[b|] r2]; [|done]. unfold mbind, rd_bind, expect_empty, any_left, rd_rest, rest, init. cbn [buffer cursor]. by rewrite Nat.ltb_irrefl.
Qed.
Lemma payload_eats {B} {CB : Closed B} size :
  eats B (read (Codec:=payload_codec size)) (fun x bs => exists len, bs = len ++ x /\ length len = size /\ B len /\ length x = Z.to_nat (be_decode len)).
Proof.
  eapply eats_ext; [apply payload_read_eq|].
  eapply (eats_bind _ _ (fun n len => length len = size /\ B len /\ n = Z.to_nat (be_decode len))).
  - eapply eats_bind; [apply eats_take|]. intros x a (-> & Ha & Hb). apply eats_ret. by rewrite app_nil_r.
  - intros n len (Hl & Hb & ->). eapply eats_weaken; [apply eats_sub, eats_rest|]. intros x bs (Hn & -> & _). exists len. by split_and!.
Qed.
Lemma payload_wire size : size <> 0%nat -> Wire (payload_codec size) (payload_wf size).
Proof.
  intros Hs. pose proof (payload_laws size Hs) as L. split.
  - done.
  - intros x. apply (encode_nonempty (CodecLaws:=L)).
  - intros x Hx pre post. apply (read_encode (CodecLaws:=L) x pre post Hx).
  - eapply eats_weaken; [apply payload_eats|]. intros x bs (len & -> & Hl & _) Hn. apply app_eq_nil in Hn as [-> _]. by cbn in Hl.
  - eapply safe_ext; [apply payload_read_eq|]. apply safe_bind; [apply safe_bind; [apply safe_take|intros; apply safe_ret]|intros; apply safe_sub, safe_rest].
Qed.
Lemma payload_exact size : Exact (payload_codec size) (payload_wf size).
Proof.
  split. eapply eats_weaken; [apply payload_eats|]. intros x bs (d & -> & Hd & Hw & Hl).
  pose proof (be_decode_bound d Hw) as Hb. unfold zlen in Hb. rewrite Hd in Hb.
  split; [unfold payload_wf; lia|]. unfold get_encoding. cbn [encode payload_codec app]. f_equal.
  rewrite Hl, Z2Nat.id by lia. rewrite <- Hd at 1. symmetry. by apply be_encode_decode.
Qed.
#[export] Instance payload_u8_wire : Wire payload_u8 (payload_wf 1).
Proof. by apply payload_wire. Qed.
#[export] Instance payload_u16_wire : Wire payload_u16 (payload_wf 2).
Proof. by apply payload_wire. Qed.
#[export] Instance payload_u24_wire : Wire payload_u24 (payload_wf 3).
Proof. by apply payload_wire. Qed.
#[export] Instance payload_u8_exact : Exact payload_u8 (payload_wf 1).
Proof. by apply payload_exact. Qed.
#[export] Instance payload_u16_exact : Exact payload_u16 (payload_wf 2).
Proof. by apply payload_exact. Qed.
#[export] Instance payload_u24_exact : Exact payload_u24 (payload_wf 3).
Proof. by apply payload_exact. Qed.

(** *** Length-prefixed buffers and lists *)

(** [LengthPrefixedBuffer] around what [body] appends.  The copy on drop always
    fits ([lpb_roundtrip]). *)
Definition nested (sz : ListLength) (body : bytes -> bytes) (buf : bytes) : bytes :=
  let '(b, off) := lpb_new sz buf in
  match lpb_drop (E:=unit) sz off (body b) with Ok b => b | _ => b end.
Lemma nested_eq sz body buf bs :
  (forall b, body b = b ++ bs) -> nested sz body buf = buf ++ be_encode (len_size sz) (Z.of_nat (length bs)) ++ bs.
Proof.
  intros Hb. unfold nested. pose proof (lpb_roundtrip (E:=unit) sz buf bs) as H. destruct (lpb_new sz buf) as [b off].
  cbn [fst snd] in H. by rewrite Hb, H.
Qed.

(** [Vec<T>]: the loop of [read_vec] never runs out ([vec_safe]). *)
Definition vec_codec {T} (C : Codec T) (sz : ListLength) : Codec (list T) :=
  {| encode l buf := nested sz (fun b => fold_left (fun b x => encode x b) l b) buf;
     read := fun r => match read_vec sz r with Some res => res | None => (Panic, r) end |}.
Definition vec_wf {T} {C : Codec T} (wf : T -> Prop) (sz : ListLength) (l : list T) : Prop :=
  Forall wf l /\ fits sz (length (items l)).

Section vec.
Context {T : Type} {C : Codec T} {wf : T -> Prop} {W : Wire C wf} (sz : ListLength).

Lemma vec_encode l buf : encode (Codec:=vec_codec C sz) l buf = buf ++ be_encode (len_size sz) (Z.of_nat (length (items l))) ++ items l.
Proof. cbn [encode vec_codec]. apply nested_eq. intros b. apply fold_encode. Qed.
Lemma vec_encoding l : get_encoding (H:=vec_codec C sz) l = be_encode (len_size sz) (Z.of_nat (length (items l))) ++ items l.
Proof. apply vec_encode. Qed.

(** The elements are read one after the other, and the sub-reader is used up. *)
Lemma read_items_eats {B} P fuel s l :
  eats B read P -> ok s -> B (buffer s) -> read_items fuel s = Some (Ok l) -> exists bss, rem s = concat bss /\ Forall2 P l bss.
Proof.
  intros HP. revert s l. induction fuel as [|fuel IH]; intros s l Hs Hb; cbn [read_items]; destruct (any_left s) eqn:Hal; try done.
  1, 3: intros [= <-]; exists []; split; [|constructor]; unfold any_left in Hal; apply Nat.ltb_ge in Hal; unfold rem; by apply drop_ge.
  destruct (read s) as [[x|e|] s'] eqn:Hr; [|done|done]. destruct (read_items fuel s') as [[l'|e|]|] eqn:Hi; try done. intros [= <-].
  destruct (HP s x s' Hs Hb Hr) as (bs & H1 & H2 & H3 & H4 & H5). destruct (IH s' l' H3 ltac:(by rewrite H1) Hi) as (bss & H6 & H7).
  exists (bs :: bss). cbn [concat]. split; [by rewrite H4, H6|]. by constructor.
Qed.
Lemma read_items_no_panic fuel s : ok s -> read_items fuel s <> Some Panic.
Proof.
  revert s. induction fuel as [|fuel IH]; intros s Hs; cbn [read_items]; destruct (any_left s); try done.
  pose proof (wire_safe s Hs) as [H1 H2]. destruct (read s) as [[x|e|] s'] eqn:Hr; cbn in *; [|done|done].
  specialize (IH s' H1). destruct (read_items fuel s') as [[l|e|]|]; by cbn.
Qed.

Lemma read_len_eats {B} {CB : Closed B} : eats B (read_len sz) (fun n bs => length bs = len_size sz /\ B bs /\
  match sz with LenU24 max => n = Nat.min (Z.to_nat (be_decode bs)) max | _ => n = Z.to_nat (be_decode bs) end).
Proof.
  destruct sz as [| |max]; cbn [read_len read codec_u8 codec_u16 codec_u24 uint_codec];
    (eapply (eats_bind _ _ (fun z bs => z = be_decode bs /\ length bs = _ /\ B bs));
      [eapply eats_bind; [apply eats_take|]; intros x a (-> & Ha & Hb); apply eats_ret; rewrite app_nil_r; by split_and!|]);
    intros x a (-> & Ha & Hb); apply eats_ret; rewrite app_nil_r; by split_and!.
Qed.
Lemma read_len_safe : safe (read_len sz).
Proof. destruct sz; (apply safe_bind; [apply safe_bind; [apply safe_take|intros; apply safe_ret]|intros; apply safe_ret]). Qed.

(** What a list that was read has consumed. *)
Lemma vec_eats {B} {CB : Closed B} P : eats B (read (Codec:=C)) P ->
  eats B (read (Codec:=vec_codec C sz)) (fun l bs => exists len bss, bs = len ++ concat bss /\ length len = len_size sz /\ B len /\ Forall2 P l bss /\
    match sz with LenU24 max => length (concat bss) = Nat.min (Z.to_nat (be_decode len)) max | _ => length (concat bss) = Z.to_nat (be_decode len) end).
Proof.
  intros HP r l r' Hr Hw. cbn [read vec_codec]. unfold read_vec.
  destruct ((n ← read_len sz; sub n) r) as [[s|e|] r1] eqn:Hs; [|done|done].
  apply rd_bind_inv in Hs as (n & r0 & Hn & Hs). unfold sub in Hs. destruct (take_bytes n r0) as [[b|] r2] eqn:Ht; [|done]. injection Hs as <- <-.
  destruct (read_len_eats r n r0 Hr Hw Hn) as (len & E1 & E2 & E3 & E4 & E5 & E7 & E6).
  pose proof (eats_take (B:=B) n r0 b r2 E3 ltac:(by rewrite E1) ltac:(unfold rd_take; by rewrite Ht)) as (b' & F1 & F2 & F3 & F4 & <- & F6 & F7).
  destruct (read_items (length (buffer (init b))) (init b)) as [[l'|e|]|] eqn:Hi; try done. cbn. intros [= <- <-].
  destruct (read_items_eats P _ (init b) l' HP ltac:(unfold ok; cbn; lia) F7 Hi) as (bss & G1 & G2). unfold rem in G1. cbn in G1. rewrite drop_0 in G1.
  exists (len ++ b). rewrite length_app. split_and!; [congruence|lia|done|by rewrite E4, F4, app_assoc|].
  exists len, bss. rewrite <- G1. split_and!; try done. destruct sz; congruence.
Qed.

#[export] Instance vec_wire : Wire (vec_codec C sz) (vec_wf wf sz).
Proof.
  assert (Hsz : len_size sz <> 0%nat) by by destruct sz. split.
  - intros l buf. by rewrite vec_encode, vec_encoding.
  - intros l _ Hn. apply (f_equal length) in Hn. rewrite vec_encoding, length_app, be_encode_length in Hn. cbn in Hn. lia.
  - intros l [Hl Hfit] pre post. rewrite vec_encoding. cbn [read vec_codec]. unfold read_vec.
    set (len := be_encode (len_size sz) (Z.of_nat (length (items l)))). assert (length len = len_size sz) as Hlen by apply be_encode_length.
    rewrite <- app_assoc, (rd_bind_ok _ _ _ _ _ (read_len_at sz (length (items l)) pre (items l ++ post) Hfit)). fold len.
    replace (pre ++ len ++ items l ++ post) with ((pre ++ len) ++ items l ++ post) by by rewrite <- app_assoc.
    replace (length pre + len_size sz)%nat with (length (pre ++ len)) by (rewrite length_app; lia).
    unfold sub. rewrite take_bytes_at by done. unfold init. cbn [buffer].
    pose proof (read_items_encode l [] (length (items l)) Hl ltac:(lia)) as Hri. cbn [app length] in Hri. rewrite Hri. cbn [mbind option_bind].
    by rewrite !length_app, Nat.add_assoc.
  - eapply eats_weaken; [apply vec_eats, wire_eats|]. intros l bs (len & bss & -> & Hlen & _) Hn. apply app_eq_nil in Hn as [-> _]. cbn in Hlen. lia.
  - intros r Hr. cbn [read vec_codec]. unfold read_vec. destruct ((n ← read_len sz; sub n) r) as [[s|e|] r1] eqn:Hs.
    all: assert (Hs' : safe (n ← read_len sz; sub n)) by (apply safe_bind; [apply read_len_safe|apply safe_sub_reader]).
    all: destruct (Hs' r Hr) as [H1 H2]; rewrite Hs in H1, H2; cbn in H1, H2; try done.
    apply rd_bind_inv in Hs as (n & r0 & _ & Hs). unfold sub in Hs. destruct (take_bytes n r0) as [[b|] r2]; [|done]. injection Hs as <- _.
    assert (Ho : ok (init b)) by (unfold ok; cbn; lia).
    destruct (read_items_total (length (buffer (init b))) (init b) Ho ltac:(cbn; lia)) as [res Hres].
    pose proof (read_items_no_panic (length (buffer (init b))) (init b) Ho) as Hnp. rewrite Hres in *. cbn. split; [done|]. by intros ->.
Qed.

Lemma vec_exact wf' : Exact C wf' -> match sz with LenU24 _ => False | _ => True end -> Exact (vec_codec C sz) (vec_wf wf' sz).
Proof.
  intros E Hsz. split. eapply eats_weaken; [apply vec_eats, wire_exact|]. cbn beta.
  intros l bs (len & bss & -> & Hlen & Hw1 & Hall & Heq).
  assert (Hi : Forall wf' l /\ concat bss = items l).
  { clear Heq. induction Hall as [|x bs l bss [Hwx ->] Hall [H1 H2]]; [by split|]. split; [by constructor|]. unfold items in *. cbn. by rewrite H2. }
  destruct Hi as [H1 H2]. rewrite H2 in Heq |- *. pose proof (be_decode_bound len Hw1) as Hb. unfold zlen in Hb. rewrite Hlen in Hb.
  assert (Z.of_nat (length (items l)) = be_decode len) as Hn by (destruct sz; [lia|lia|done]).
  rewrite vec_encoding. split; [split; [done|]; split; [rewrite Hn; apply Hb|by destruct sz]|]. f_equal. rewrite Hn, <- Hlen. symmetry. by apply be_encode_decode.
Qed.
End vec.
#[export] Instance vec_exact_u8 {T} {C : Codec T} {wf wf'} {W : Wire C wf} {E : Exact C wf'} : Exact (vec_codec C LenU8) (vec_wf wf' LenU8).
Proof. by apply (vec_exact (wf:=wf)). Qed.
#[export] Instance vec_exact_u16 {T} {C : Codec T} {wf wf'} {W : Wire C wf} {E : Exact C wf'} : Exact (vec_codec C LenU16) (vec_wf wf' LenU16).
Proof. by apply (vec_exact (wf:=wf)). Qed.

(** ** Automation for messages *)

(** An encoding that is read back and of which something is consumed is not
    empty. *)
Lemma make_wire {T} (C : Codec T) wf :
  (forall x buf, encode x buf = buf ++ get_encoding x) -> (forall x, wf x -> reads read (get_encoding x) x) ->
  eats any_bytes read (fun _ bs => bs <> []) -> safe read -> Wire C wf.
Proof.
  intros H1 H2 H3 H4. split; try done. intros x Hx Hn. pose proof (H2 x Hx [] []) as Hr. rewrite Hn in Hr. cbn in Hr.
  destruct (H3 {| buffer := []; cursor := 0 |} x _ ltac:(unfold ok; cbn; lia) I Hr) as (bs & _ & Hc & _ & _ & Hne). destruct bs; [done|]. cbn in Hc. lia.
Qed.

(** Reads that consume something or nothing. *)
Definition moves {A} (m : Rd A) : Prop := eats any_bytes m (fun _ _ => True).
Lemma eats_first {A A'} (m : Rd A) (f : A -> Rd A') :
  eats any_bytes m (fun _ bs => bs <> []) -> (forall x, moves (f x)) -> eats any_bytes (m ≫= f) (fun _ bs => bs <> []).
Proof.
  intros Hm Hf. eapply eats_bind; [exact Hm|]. intros x a Ha. eapply eats_weaken; [apply Hf|]. intros y b _ Hn. by apply app_eq_nil in Hn as [-> _].
Qed.
Lemma moves_ret {A} (x : A) : moves (mret x).
Proof. by apply eats_ret. Qed.
Lemma moves_bind {A A'} (m : Rd A) (f : A -> Rd A') : moves m -> (forall x, moves (f x)) -> moves (m ≫= f).
Proof. intros Hm Hf. eapply eats_bind; [exact Hm|]. intros x a _. eapply eats_weaken; [apply Hf|done]. Qed.
Lemma moves_read {T} {C : Codec T} {wf} {W : Wire C wf} : moves read.
Proof. eapply eats_weaken; [apply wire_eats|done]. Qed.
Lemma moves_rest : moves rd_rest.
Proof. eapply eats_weaken; [apply eats_rest|done]. Qed.
Lemma moves_take n : moves (rd_take n).
Proof. eapply eats_weaken; [apply eats_take|done]. Qed.
Lemma moves_fail {A} e : moves (rd_fail (A:=A) e).
Proof. apply eats_fail. Qed.
Lemma moves_ensure b e : moves (rd_ensure b e).
Proof. eapply eats_weaken; [apply eats_ensure|done]. Qed.
Lemma moves_expect : moves expect_empty.
Proof. eapply eats_weaken; [apply eats_expect|done]. Qed.
Lemma moves_any_left : moves rd_any_left.
Proof. intros r x r' Hr _ [= <- <-]. exists []. cbn. split_and!; try done; lia. Qed.
Lemma moves_sub {A} n (m : Rd A) : moves m -> moves (sub_read n m).
Proof. intros Hm. eapply eats_weaken; [apply eats_sub, Hm|done]. Qed.

(** Fields, for the three laws. *)
Lemma reads_field {T A} {C : Codec T} {wf} {W : Wire C wf} (f : T -> Rd A) x bs y :
  wf x -> reads (f x) bs y -> reads (read ≫= f) (get_encoding x ++ bs) y.
Proof. intros Hx. apply reads_bind. by apply wire_reads. Qed.
Lemma reads_last {T A} {C : Codec T} {wf} {W : Wire C wf} (f : T -> Rd A) x y :
  wf x -> reads (f x) [] y -> reads (read ≫= f) (get_encoding x) y.
Proof. intros Hx Hf. rewrite <- (app_nil_r (get_encoding x)). by apply reads_field. Qed.
Lemma reads_check {A} b e (f : unit -> Rd A) bs y : b = true -> reads (f tt) bs y -> reads (rd_ensure b e ≫= f) bs y.
Proof. intros Hb Hf. apply (reads_bind (rd_ensure b e) f [] bs tt y); [by apply reads_ensure|done]. Qed.
Lemma reads_bytes {A} n (f : bytes -> Rd A) bs y : length bs = n -> reads (f bs) [] y -> reads (rd_take n ≫= f) bs y.
Proof. intros Hn Hf. rewrite <- (app_nil_r bs) at 1. eapply reads_bind; [by apply reads_rd_take|done]. Qed.
Lemma reads_check_all {A} b e (f : unit -> Rd A) bs y : b = true -> reads_all (f tt) bs y -> reads_all (rd_ensure b e ≫= f) bs y.
Proof. intros Hb Hf. apply (reads_bind_all (rd_ensure b e) f [] bs tt y); [by apply reads_ensure|done]. Qed.
Lemma reads_expect {A} (f : unit -> Rd A) y : reads_all (f tt) [] y -> reads_all (expect_empty ≫= f) [] y.
Proof.
  intros Hf pre. specialize (Hf pre). unfold mbind, rd_bind, expect_empty, any_left. cbn [buffer cursor].
  rewrite length_app. cbn [length]. rewrite Nat.add_0_r, Nat.ltb_irrefl. rewrite Nat.add_0_r in Hf. exact Hf.
Qed.
Lemma reads_field_all {T A} {C : Codec T} {wf} {W : Wire C wf} (f : T -> Rd A) x bs y :
  wf x -> reads_all (f x) bs y -> reads_all (read ≫= f) (get_encoding x ++ bs) y.
Proof. intros Hx. apply reads_bind_all. by apply wire_reads. Qed.
Lemma eats_field {T A} {C : Codec T} {wf} {E : Exact C wf} (f : T -> Rd A) Q :
  (forall x, wf x -> eats wf_bytes (f x) (fun y b => Q y (get_encoding x ++ b))) -> eats wf_bytes (read ≫= f) Q.
Proof. intros Hf. eapply eats_bind; [apply wire_exact|]. intros x a [Hx ->]. by apply Hf. Qed.
Lemma safe_read {T} {C : Codec T} {wf} {W : Wire C wf} : safe read.
Proof. apply wire_safe. Qed.

Create HintDb wire discriminated.
#[export] Hint Resolve moves_ret moves_bind moves_rest moves_take moves_fail moves_ensure moves_expect moves_any_left moves_sub : wire.
#[export] Hint Resolve safe_ret safe_bind safe_rest safe_take safe_fail safe_ensure safe_expect safe_any_left safe_sub : wire.
#[export] Hint Extern 1 (moves read) => eapply moves_read : wire.
#[export] Hint Extern 1 (safe read) => eapply safe_read : wire.

(** Safety and progress, by the shape of the reader. *)
Ltac rd_shape :=
  repeat first [ progress cbn beta | assumption
    | match goal with |- forall _, _ => intro end
    | match goal with
      | |- context [match ?x with _ => _ end] => destruct x
      end
    | solve [eauto with wire] | apply safe_bind | apply moves_bind | apply safe_sub | apply moves_sub ].
(** A message whose first field consumes something; [unfold_codec] exposes the
    codec's fields. *)
Ltac wire_by unfold_codec :=
  apply make_wire;
  [ let x := fresh in intros x ?; unfold get_encoding; unfold_codec; rewrite !wire_app, <- ?app_assoc; reflexivity
  | let x := fresh "x" in let Hx := fresh "Hx" in
    intros x Hx; destruct x; unfold get_encoding; unfold_codec; rewrite !wire_app, <- ?app_assoc; cbn [app];
    repeat (first [eapply reads_field | eapply reads_last]; [try apply Hx|]); try apply reads_ret
  | unfold_codec; first [apply eats_first; [apply wire_eats|rd_shape] | idtac]
  | unfold_codec; rd_shape ].
Ltac wire_struct C := wire_by ltac:(cbn [encode read C]).
Ltac exact_struct C :=
  split; cbn [read C]; repeat (apply eats_field; intros ? ?);
  try (apply eats_ret; unfold get_encoding; cbn [encode C]; rewrite !wire_app, ?app_nil_r, <- ?app_assoc; cbn [app]; by split_and!).
