(* ===== verification/Enums.v ===== *)
(** * The protocol enumerations of the TLS fork
    (orcax/rustls-fork/rustls/src/enums.rs, src/msgs/enums.rs)

    Each [enum_builder!] is a module: the names, the code of each ([get_u8] or
    [get_u16]), and the table the generic codec of Codec.v works with.  Two names
    never share a code, which gives decidable equality and, with [enum_laws],
    the codec's laws.  ContentType and ProtocolVersion are in TlsLayer.v,
    AlertLevel in Codec.v. *)
From S2P Require Import Prelude Codec Wire.

(** Names that the table finds again by their code are decidable. *)
Lemma enum_code_dec {N} (table : list (N * Z)) (code : N -> Z) :
  (forall n, enum_from table (code n) = Known n) -> EqDecision N.
Proof.
  intros H x y. destruct (decide (code x = code y)) as [He|Hne].
  - left. pose proof (H x) as Hx. rewrite He, H in Hx. congruence.
  - right. by intros ->.
Defined.

(** What the tables are checked for. *)
Definition in_table {N} `{EqDecision N} (size : nat) (table : list (N * Z)) (code : N -> Z) (n : N) : Prop :=
  (n, code n) ∈ table /\ (0 <=? code n) && (code n <? 256 ^ Z.of_nat size) = true.
Lemma in_table_wf {N} `{EqDecision N} size (table : list (N * Z)) code n : in_table size table code n -> enum_wf size table (Known n).
Proof. intros [H1 H2]. exists (code n). split; [done|]. apply andb_prop in H2 as [? ?]. lia. Qed.

Ltac enum_checked := intros []; vm_compute; reflexivity.
Ltac table_checked := split; apply (bool_decide_unpack _); vm_compute; exact I.
Ltac names_checked code := let n := fresh in intros n; apply (in_table_wf _ _ code), (bool_decide_unpack _); destruct n; vm_compute; exact I.

Module AlertDescription.
Inductive name : Type :=
| CloseNotify | UnexpectedMessage | BadRecordMac | DecryptionFailed | RecordOverflow | DecompressionFailure
| HandshakeFailure | NoCertificate | BadCertificate | UnsupportedCertificate | CertificateRevoked
| CertificateExpired | CertificateUnknown | IllegalParameter | UnknownCA | AccessDenied | DecodeError | DecryptError
| ExportRestriction | ProtocolVersion | InsufficientSecurity | InternalError | InappropriateFallback | UserCanceled
| NoRenegotiation | MissingExtension | UnsupportedExtension | CertificateUnobtainable | UnrecognisedName
| BadCertificateStatusResponse | BadCertificateHashValue | UnknownPSKIdentity | CertificateRequired
| NoApplicationProtocol.
Definition code (n : name) : Z :=
  match n with
  | CloseNotify => 0x00 | UnexpectedMessage => 0x0a | BadRecordMac => 0x14 | DecryptionFailed => 0x15
  | RecordOverflow => 0x16 | DecompressionFailure => 0x1e | HandshakeFailure => 0x28 | NoCertificate => 0x29
  | BadCertificate => 0x2a | UnsupportedCertificate => 0x2b | CertificateRevoked => 0x2c | CertificateExpired => 0x2d
  | CertificateUnknown => 0x2e | IllegalParameter => 0x2f | UnknownCA => 0x30 | AccessDenied => 0x31
  | DecodeError => 0x32 | DecryptError => 0x33 | ExportRestriction => 0x3c | ProtocolVersion => 0x46
  | InsufficientSecurity => 0x47 | InternalError => 0x50 | InappropriateFallback => 0x56 | UserCanceled => 0x5a
  | NoRenegotiation => 0x64 | MissingExtension => 0x6d | UnsupportedExtension => 0x6e
  | CertificateUnobtainable => 0x6f | UnrecognisedName => 0x70 | BadCertificateStatusResponse => 0x71
  | BadCertificateHashValue => 0x72 | UnknownPSKIdentity => 0x73 | CertificateRequired => 0x74
  | NoApplicationProtocol => 0x78
  end.
Definition table : list (name * Z) := map (fun n => (n, code n))
  [CloseNotify; UnexpectedMessage; BadRecordMac; DecryptionFailed; RecordOverflow; DecompressionFailure;
   HandshakeFailure; NoCertificate; BadCertificate; UnsupportedCertificate; CertificateRevoked; CertificateExpired;
   CertificateUnknown; IllegalParameter; UnknownCA; AccessDenied; DecodeError; DecryptError; ExportRestriction;
   ProtocolVersion; InsufficientSecurity; InternalError; InappropriateFallback; UserCanceled; NoRenegotiation;
   MissingExtension; UnsupportedExtension; CertificateUnobtainable; UnrecognisedName; BadCertificateStatusResponse;
   BadCertificateHashValue; UnknownPSKIdentity; CertificateRequired; NoApplicationProtocol].
Lemma known_AlertDescription n : enum_from table (code n) = Known n.
Proof. revert n. enum_checked. Qed.
#[global] Instance name_eq_dec : EqDecision name := enum_code_dec table code known_AlertDescription.
Definition t : Type := tls_enum name.
Definition codec : Codec t := enum_codec 1 table.
Lemma unique_AlertDescription : table_ok table.
Proof. table_checked. Qed.
Lemma wf_AlertDescription n : enum_wf 1 table (Known n).
Proof. revert n. names_checked code. Qed.
#[global] Instance wire_AlertDescription : Wire codec (enum_wf 1 table).
Proof. apply enum_wire; [done|apply unique_AlertDescription]. Qed.
#[global] Instance exact_AlertDescription : Exact codec (enum_wf 1 table).
Proof. apply enum_exact, unique_AlertDescription. Qed.
End AlertDescription.

Module HandshakeType.
Inductive name : Type :=
| HelloRequest | ClientHello | ServerHello | HelloVerifyRequest | NewSessionTicket | EndOfEarlyData
| HelloRetryRequest | EncryptedExtensions | Certificate | ServerKeyExchange | CertificateRequest | ServerHelloDone
| CertificateVerify | ClientKeyExchange | Finished | CertificateURL | CertificateStatus | KeyUpdate | MessageHash.
Definition code (n : name) : Z :=
  match n with
  | HelloRequest => 0x00 | ClientHello => 0x01 | ServerHello => 0x02 | HelloVerifyRequest => 0x03
  | NewSessionTicket => 0x04 | EndOfEarlyData => 0x05 | HelloRetryRequest => 0x06 | EncryptedExtensions => 0x08
  | Certificate => 0x0b | ServerKeyExchange => 0x0c | CertificateRequest => 0x0d | ServerHelloDone => 0x0e
  | CertificateVerify => 0x0f | ClientKeyExchange => 0x10 | Finished => 0x14 | CertificateURL => 0x15
  | CertificateStatus => 0x16 | KeyUpdate => 0x18 | MessageHash => 0xfe
  end.
Definition table : list (name * Z) := map (fun n => (n, code n))
  [HelloRequest; ClientHello; ServerHello; HelloVerifyRequest; NewSessionTicket; EndOfEarlyData; HelloRetryRequest;
   EncryptedExtensions; Certificate; ServerKeyExchange; CertificateRequest; ServerHelloDone; CertificateVerify;
   ClientKeyExchange; Finished; CertificateURL; CertificateStatus; KeyUpdate; MessageHash].
Lemma known_HandshakeType n : enum_from table (code n) = Known n.
Proof. revert n. enum_checked. Qed.
#[global] Instance name_eq_dec : EqDecision name := enum_code_dec table code known_HandshakeType.
Definition t : Type := tls_enum name.
Definition codec : Codec t := enum_codec 1 table.
Lemma unique_HandshakeType : table_ok table.
Proof. table_checked. Qed.
Lemma wf_HandshakeType n : enum_wf 1 table (Known n).
Proof. revert n. names_checked code. Qed.
#[global] Instance wire_HandshakeType : Wire codec (enum_wf 1 table).
Proof. apply enum_wire; [done|apply unique_HandshakeType]. Qed.
#[global] Instance exact_HandshakeType : Exact codec (enum_wf 1 table).
Proof. apply enum_exact, unique_HandshakeType. Qed.
End HandshakeType.

Module CipherSuite.
Inductive name : Type :=
| TLS_NULL_WITH_NULL_NULL | TLS_RSA_WITH_NULL_MD5 | TLS_RSA_WITH_NULL_SHA | TLS_RSA_EXPORT_WITH_RC4_40_MD5
| TLS_RSA_WITH_RC4_128_MD5 | TLS_RSA_WITH_RC4_128_SHA | TLS_RSA_EXPORT_WITH_RC2_CBC_40_MD5
| TLS_RSA_WITH_IDEA_CBC_SHA | TLS_RSA_EXPORT_WITH_DES40_CBC_SHA | TLS_RSA_WITH_DES_CBC_SHA
| TLS_RSA_WITH_3DES_EDE_CBC_SHA | TLS_DH_DSS_EXPORT_WITH_DES40_CBC_SHA | TLS_DH_DSS_WITH_DES_CBC_SHA
| TLS_DH_DSS_WITH_3DES_EDE_CBC_SHA | TLS_DH_RSA_EXPORT_WITH_DES40_CBC_SHA | TLS_DH_RSA_WITH_DES_CBC_SHA
| TLS_DH_RSA_WITH_3DES_EDE_CBC_SHA | TLS_DHE_DSS_EXPORT_WITH_DES40_CBC_SHA | TLS_DHE_DSS_WITH_DES_CBC_SHA
| TLS_DHE_DSS_WITH_3DES_EDE_CBC_SHA | TLS_DHE_RSA_EXPORT_WITH_DES40_CBC_SHA | TLS_DHE_RSA_WITH_DES_CBC_SHA
| TLS_DHE_RSA_WITH_3DES_EDE_CBC_SHA | TLS_DH_anon_EXPORT_WITH_RC4_40_MD5 | TLS_DH_anon_WITH_RC4_128_MD5
| TLS_DH_anon_EXPORT_WITH_DES40_CBC_SHA | TLS_DH_anon_WITH_DES_CBC_SHA | TLS_DH_anon_WITH_3DES_EDE_CBC_SHA
| SSL_FORTEZZA_KEA_WITH_NULL_SHA | SSL_FORTEZZA_KEA_WITH_FORTEZZA_CBC_SHA
| TLS_KRB5_WITH_DES_CBC_SHA_or_SSL_FORTEZZA_KEA_WITH_RC4_128_SHA | TLS_KRB5_WITH_3DES_EDE_CBC_SHA
| TLS_KRB5_WITH_RC4_128_SHA | TLS_KRB5_WITH_IDEA_CBC_SHA | TLS_KRB5_WITH_DES_CBC_MD5 | TLS_KRB5_WITH_3DES_EDE_CBC_MD5
| TLS_KRB5_WITH_RC4_128_MD5 | TLS_KRB5_WITH_IDEA_CBC_MD5 | TLS_KRB5_EXPORT_WITH_DES_CBC_40_SHA
| TLS_KRB5_EXPORT_WITH_RC2_CBC_40_SHA | TLS_KRB5_EXPORT_WITH_RC4_40_SHA | TLS_KRB5_EXPORT_WITH_DES_CBC_40_MD5
| TLS_KRB5_EXPORT_WITH_RC2_CBC_40_MD5 | TLS_KRB5_EXPORT_WITH_RC4_40_MD5 | TLS_PSK_WITH_NULL_SHA
| TLS_DHE_PSK_WITH_NULL_SHA | TLS_RSA_PSK_WITH_NULL_SHA | TLS_RSA_WITH_AES_128_CBC_SHA
| TLS_DH_DSS_WITH_AES_128_CBC_SHA | TLS_DH_RSA_WITH_AES_128_CBC_SHA | TLS_DHE_DSS_WITH_AES_128_CBC_SHA
| TLS_DHE_RSA_WITH_AES_128_CBC_SHA | TLS_DH_anon_WITH_AES_128_CBC_SHA | TLS_RSA_WITH_AES_256_CBC_SHA
| TLS_DH_DSS_WITH_AES_256_CBC_SHA | TLS_DH_RSA_WITH_AES_256_CBC_SHA | TLS_DHE_DSS_WITH_AES_256_CBC_SHA
| TLS_DHE_RSA_WITH_AES_256_CBC_SHA | TLS_DH_anon_WITH_AES_256_CBC_SHA | TLS_RSA_WITH_NULL_SHA256
| TLS_RSA_WITH_AES_128_CBC_SHA256 | TLS_RSA_WITH_AES_256_CBC_SHA256 | TLS_DH_DSS_WITH_AES_128_CBC_SHA256
| TLS_DH_RSA_WITH_AES_128_CBC_SHA256 | TLS_DHE_DSS_WITH_AES_128_CBC_SHA256 | TLS_RSA_WITH_CAMELLIA_128_CBC_SHA
| TLS_DH_DSS_WITH_CAMELLIA_128_CBC_SHA | TLS_DH_RSA_WITH_CAMELLIA_128_CBC_SHA | TLS_DHE_DSS_WITH_CAMELLIA_128_CBC_SHA
| TLS_DHE_RSA_WITH_CAMELLIA_128_CBC_SHA | TLS_DH_anon_WITH_CAMELLIA_128_CBC_SHA | TLS_ECDH_ECDSA_WITH_NULL_SHA_draft
| TLS_ECDH_ECDSA_WITH_RC4_128_SHA_draft | TLS_ECDH_ECDSA_WITH_DES_CBC_SHA_draft
| TLS_ECDH_ECDSA_WITH_3DES_EDE_CBC_SHA_draft | TLS_ECDH_ECDSA_WITH_AES_128_CBC_SHA_draft
| TLS_ECDH_ECDSA_WITH_AES_256_CBC_SHA_draft | TLS_ECDH_ECNRA_WITH_DES_CBC_SHA_draft
| TLS_ECDH_ECNRA_WITH_3DES_EDE_CBC_SHA_draft | TLS_ECMQV_ECDSA_NULL_SHA_draft
| TLS_ECMQV_ECDSA_WITH_RC4_128_SHA_draft | TLS_ECMQV_ECDSA_WITH_DES_CBC_SHA_draft
| TLS_ECMQV_ECDSA_WITH_3DES_EDE_CBC_SHA_draft | TLS_ECMQV_ECNRA_NULL_SHA_draft
| TLS_ECMQV_ECNRA_WITH_RC4_128_SHA_draft | TLS_ECMQV_ECNRA_WITH_DES_CBC_SHA_draft
| TLS_ECMQV_ECNRA_WITH_3DES_EDE_CBC_SHA_draft | TLS_ECDH_anon_NULL_WITH_SHA_draft
| TLS_ECDH_anon_WITH_RC4_128_SHA_draft | TLS_ECDH_anon_WITH_DES_CBC_SHA_draft
| TLS_ECDH_anon_WITH_3DES_EDE_CBC_SHA_draft | TLS_ECDH_anon_EXPORT_WITH_DES40_CBC_SHA_draft
| TLS_ECDH_anon_EXPORT_WITH_RC4_40_SHA_draft | TLS_RSA_EXPORT1024_WITH_RC4_56_MD5
| TLS_RSA_EXPORT1024_WITH_RC2_CBC_56_MD5 | TLS_RSA_EXPORT1024_WITH_DES_CBC_SHA
| TLS_DHE_DSS_EXPORT1024_WITH_DES_CBC_SHA | TLS_RSA_EXPORT1024_WITH_RC4_56_SHA
| TLS_DHE_DSS_EXPORT1024_WITH_RC4_56_SHA | TLS_DHE_DSS_WITH_RC4_128_SHA | TLS_DHE_RSA_WITH_AES_128_CBC_SHA256
| TLS_DH_DSS_WITH_AES_256_CBC_SHA256 | TLS_DH_RSA_WITH_AES_256_CBC_SHA256 | TLS_DHE_DSS_WITH_AES_256_CBC_SHA256
| TLS_DHE_RSA_WITH_AES_256_CBC_SHA256 | TLS_DH_anon_WITH_AES_128_CBC_SHA256 | TLS_DH_anon_WITH_AES_256_CBC_SHA256
| TLS_DHE_DSS_WITH_3DES_EDE_CBC_RMD | TLS_DHE_DSS_WITH_AES_128_CBC_RMD | TLS_DHE_DSS_WITH_AES_256_CBC_RMD
| TLS_DHE_RSA_WITH_3DES_EDE_CBC_RMD | TLS_DHE_RSA_WITH_AES_128_CBC_RMD | TLS_DHE_RSA_WITH_AES_256_CBC_RMD
| TLS_RSA_WITH_3DES_EDE_CBC_RMD | TLS_RSA_WITH_AES_128_CBC_RMD | TLS_RSA_WITH_AES_256_CBC_RMD
| TLS_GOSTR341094_WITH_28147_CNT_IMIT | TLS_GOSTR341001_WITH_28147_CNT_IMIT | TLS_GOSTR341094_WITH_NULL_GOSTR3411
| TLS_GOSTR341001_WITH_NULL_GOSTR3411 | TLS_RSA_WITH_CAMELLIA_256_CBC_SHA | TLS_DH_DSS_WITH_CAMELLIA_256_CBC_SHA
| TLS_DH_RSA_WITH_CAMELLIA_256_CBC_SHA | TLS_DHE_DSS_WITH_CAMELLIA_256_CBC_SHA
| TLS_DHE_RSA_WITH_CAMELLIA_256_CBC_SHA | TLS_DH_anon_WITH_CAMELLIA_256_CBC_SHA | TLS_PSK_WITH_RC4_128_SHA
| TLS_PSK_WITH_3DES_EDE_CBC_SHA | TLS_PSK_WITH_AES_128_CBC_SHA | TLS_PSK_WITH_AES_256_CBC_SHA
| TLS_DHE_PSK_WITH_RC4_128_SHA | TLS_DHE_PSK_WITH_3DES_EDE_CBC_SHA | TLS_DHE_PSK_WITH_AES_128_CBC_SHA
| TLS_DHE_PSK_WITH_AES_256_CBC_SHA | TLS_RSA_PSK_WITH_RC4_128_SHA | TLS_RSA_PSK_WITH_3DES_EDE_CBC_SHA
| TLS_RSA_PSK_WITH_AES_128_CBC_SHA | TLS_RSA_PSK_WITH_AES_256_CBC_SHA | TLS_RSA_WITH_SEED_CBC_SHA
| TLS_DH_DSS_WITH_SEED_CBC_SHA | TLS_DH_RSA_WITH_SEED_CBC_SHA | TLS_DHE_DSS_WITH_SEED_CBC_SHA
| TLS_DHE_RSA_WITH_SEED_CBC_SHA | TLS_DH_anon_WITH_SEED_CBC_SHA | TLS_RSA_WITH_AES_128_GCM_SHA256
| TLS_RSA_WITH_AES_256_GCM_SHA384 | TLS_DHE_RSA_WITH_AES_128_GCM_SHA256 | TLS_DHE_RSA_WITH_AES_256_GCM_SHA384
| TLS_DH_RSA_WITH_AES_128_GCM_SHA256 | TLS_DH_RSA_WITH_AES_256_GCM_SHA384 | TLS_DHE_DSS_WITH_AES_128_GCM_SHA256
| TLS_DHE_DSS_WITH_AES_256_GCM_SHA384 | TLS_DH_DSS_WITH_AES_128_GCM_SHA256 | TLS_DH_DSS_WITH_AES_256_GCM_SHA384
| TLS_DH_anon_WITH_AES_128_GCM_SHA256 | TLS_DH_anon_WITH_AES_256_GCM_SHA384 | TLS_PSK_WITH_AES_128_GCM_SHA256
| TLS_PSK_WITH_AES_256_GCM_SHA384 | TLS_DHE_PSK_WITH_AES_128_GCM_SHA256 | TLS_DHE_PSK_WITH_AES_256_GCM_SHA384
| TLS_RSA_PSK_WITH_AES_128_GCM_SHA256 | TLS_RSA_PSK_WITH_AES_256_GCM_SHA384 | TLS_PSK_WITH_AES_128_CBC_SHA256
| TLS_PSK_WITH_AES_256_CBC_SHA384 | TLS_PSK_WITH_NULL_SHA256 | TLS_PSK_WITH_NULL_SHA384
| TLS_DHE_PSK_WITH_AES_128_CBC_SHA256 | TLS_DHE_PSK_WITH_AES_256_CBC_SHA384 | TLS_DHE_PSK_WITH_NULL_SHA256
| TLS_DHE_PSK_WITH_NULL_SHA384 | TLS_RSA_PSK_WITH_AES_128_CBC_SHA256 | TLS_RSA_PSK_WITH_AES_256_CBC_SHA384
| TLS_RSA_PSK_WITH_NULL_SHA256 | TLS_RSA_PSK_WITH_NULL_SHA384 | TLS_RSA_WITH_CAMELLIA_128_CBC_SHA256
| TLS_DH_DSS_WITH_CAMELLIA_128_CBC_SHA256 | TLS_DH_RSA_WITH_CAMELLIA_128_CBC_SHA256
| TLS_DHE_DSS_WITH_CAMELLIA_128_CBC_SHA256 | TLS_DHE_RSA_WITH_CAMELLIA_128_CBC_SHA256
| TLS_DH_anon_WITH_CAMELLIA_128_CBC_SHA256 | TLS_RSA_WITH_CAMELLIA_256_CBC_SHA256
| TLS_DH_DSS_WITH_CAMELLIA_256_CBC_SHA256 | TLS_DH_RSA_WITH_CAMELLIA_256_CBC_SHA256
| TLS_DHE_DSS_WITH_CAMELLIA_256_CBC_SHA256 | TLS_DHE_RSA_WITH_CAMELLIA_256_CBC_SHA256
| TLS_DH_anon_WITH_CAMELLIA_256_CBC_SHA256 | TLS_EMPTY_RENEGOTIATION_INFO_SCSV | TLS13_AES_128_GCM_SHA256
| TLS13_AES_256_GCM_SHA384 | TLS13_CHACHA20_POLY1305_SHA256 | TLS13_AES_128_CCM_SHA256 | TLS13_AES_128_CCM_8_SHA256
| TLS_ECDH_ECDSA_WITH_NULL_SHA | TLS_ECDH_ECDSA_WITH_RC4_128_SHA | TLS_ECDH_ECDSA_WITH_3DES_EDE_CBC_SHA
| TLS_ECDH_ECDSA_WITH_AES_128_CBC_SHA | TLS_ECDH_ECDSA_WITH_AES_256_CBC_SHA | TLS_ECDHE_ECDSA_WITH_NULL_SHA
| TLS_ECDHE_ECDSA_WITH_RC4_128_SHA | TLS_ECDHE_ECDSA_WITH_3DES_EDE_CBC_SHA | TLS_ECDHE_ECDSA_WITH_AES_128_CBC_SHA
| TLS_ECDHE_ECDSA_WITH_AES_256_CBC_SHA | TLS_ECDH_RSA_WITH_NULL_SHA | TLS_ECDH_RSA_WITH_RC4_128_SHA
| TLS_ECDH_RSA_WITH_3DES_EDE_CBC_SHA | TLS_ECDH_RSA_WITH_AES_128_CBC_SHA | TLS_ECDH_RSA_WITH_AES_256_CBC_SHA
| TLS_ECDHE_RSA_WITH_NULL_SHA | TLS_ECDHE_RSA_WITH_RC4_128_SHA | TLS_ECDHE_RSA_WITH_3DES_EDE_CBC_SHA
| TLS_ECDHE_RSA_WITH_AES_128_CBC_SHA | TLS_ECDHE_RSA_WITH_AES_256_CBC_SHA | TLS_ECDH_anon_WITH_NULL_SHA
| TLS_ECDH_anon_WITH_RC4_128_SHA | TLS_ECDH_anon_WITH_3DES_EDE_CBC_SHA | TLS_ECDH_anon_WITH_AES_128_CBC_SHA
| TLS_ECDH_anon_WITH_AES_256_CBC_SHA | TLS_SRP_SHA_WITH_3DES_EDE_CBC_SHA | TLS_SRP_SHA_RSA_WITH_3DES_EDE_CBC_SHA
| TLS_SRP_SHA_DSS_WITH_3DES_EDE_CBC_SHA | TLS_SRP_SHA_WITH_AES_128_CBC_SHA | TLS_SRP_SHA_RSA_WITH_AES_128_CBC_SHA
| TLS_SRP_SHA_DSS_WITH_AES_128_CBC_SHA | TLS_SRP_SHA_WITH_AES_256_CBC_SHA | TLS_SRP_SHA_RSA_WITH_AES_256_CBC_SHA
| TLS_SRP_SHA_DSS_WITH_AES_256_CBC_SHA | TLS_ECDHE_ECDSA_WITH_AES_128_CBC_SHA256
| TLS_ECDHE_ECDSA_WITH_AES_256_CBC_SHA384 | TLS_ECDH_ECDSA_WITH_AES_128_CBC_SHA256
| TLS_ECDH_ECDSA_WITH_AES_256_CBC_SHA384 | TLS_ECDHE_RSA_WITH_AES_128_CBC_SHA256
| TLS_ECDHE_RSA_WITH_AES_256_CBC_SHA384 | TLS_ECDH_RSA_WITH_AES_128_CBC_SHA256 | TLS_ECDH_RSA_WITH_AES_256_CBC_SHA384
| TLS_ECDHE_ECDSA_WITH_AES_128_GCM_SHA256 | TLS_ECDHE_ECDSA_WITH_AES_256_GCM_SHA384
| TLS_ECDH_ECDSA_WITH_AES_128_GCM_SHA256 | TLS_ECDH_ECDSA_WITH_AES_256_GCM_SHA384
| TLS_ECDHE_RSA_WITH_AES_128_GCM_SHA256 | TLS_ECDHE_RSA_WITH_AES_256_GCM_SHA384
| TLS_ECDH_RSA_WITH_AES_128_GCM_SHA256 | TLS_ECDH_RSA_WITH_AES_256_GCM_SHA384 | TLS_ECDHE_PSK_WITH_RC4_128_SHA
| TLS_ECDHE_PSK_WITH_3DES_EDE_CBC_SHA | TLS_ECDHE_PSK_WITH_AES_128_CBC_SHA | TLS_ECDHE_PSK_WITH_AES_256_CBC_SHA
| TLS_ECDHE_PSK_WITH_AES_128_CBC_SHA256 | TLS_ECDHE_PSK_WITH_AES_256_CBC_SHA384 | TLS_ECDHE_PSK_WITH_NULL_SHA
| TLS_ECDHE_PSK_WITH_NULL_SHA256 | TLS_ECDHE_PSK_WITH_NULL_SHA384 | TLS_RSA_WITH_ARIA_128_CBC_SHA256
| TLS_RSA_WITH_ARIA_256_CBC_SHA384 | TLS_DH_DSS_WITH_ARIA_128_CBC_SHA256 | TLS_DH_DSS_WITH_ARIA_256_CBC_SHA384
| TLS_DH_RSA_WITH_ARIA_128_CBC_SHA256 | TLS_DH_RSA_WITH_ARIA_256_CBC_SHA384 | TLS_DHE_DSS_WITH_ARIA_128_CBC_SHA256
| TLS_DHE_DSS_WITH_ARIA_256_CBC_SHA384 | TLS_DHE_RSA_WITH_ARIA_128_CBC_SHA256 | TLS_DHE_RSA_WITH_ARIA_256_CBC_SHA384
| TLS_DH_anon_WITH_ARIA_128_CBC_SHA256 | TLS_DH_anon_WITH_ARIA_256_CBC_SHA384
| TLS_ECDHE_ECDSA_WITH_ARIA_128_CBC_SHA256 | TLS_ECDHE_ECDSA_WITH_ARIA_256_CBC_SHA384
| TLS_ECDH_ECDSA_WITH_ARIA_128_CBC_SHA256 | TLS_ECDH_ECDSA_WITH_ARIA_256_CBC_SHA384
| TLS_ECDHE_RSA_WITH_ARIA_128_CBC_SHA256 | TLS_ECDHE_RSA_WITH_ARIA_256_CBC_SHA384
| TLS_ECDH_RSA_WITH_ARIA_128_CBC_SHA256 | TLS_ECDH_RSA_WITH_ARIA_256_CBC_SHA384 | TLS_RSA_WITH_ARIA_128_GCM_SHA256
| TLS_RSA_WITH_ARIA_256_GCM_SHA384 | TLS_DHE_RSA_WITH_ARIA_128_GCM_SHA256 | TLS_DHE_RSA_WITH_ARIA_256_GCM_SHA384
| TLS_DH_RSA_WITH_ARIA_128_GCM_SHA256 | TLS_DH_RSA_WITH_ARIA_256_GCM_SHA384 | TLS_DHE_DSS_WITH_ARIA_128_GCM_SHA256
| TLS_DHE_DSS_WITH_ARIA_256_GCM_SHA384 | TLS_DH_DSS_WITH_ARIA_128_GCM_SHA256 | TLS_DH_DSS_WITH_ARIA_256_GCM_SHA384
| TLS_DH_anon_WITH_ARIA_128_GCM_SHA256 | TLS_DH_anon_WITH_ARIA_256_GCM_SHA384
| TLS_ECDHE_ECDSA_WITH_ARIA_128_GCM_SHA256 | TLS_ECDHE_ECDSA_WITH_ARIA_256_GCM_SHA384
| TLS_ECDH_ECDSA_WITH_ARIA_128_GCM_SHA256 | TLS_ECDH_ECDSA_WITH_ARIA_256_GCM_SHA384
| TLS_ECDHE_RSA_WITH_ARIA_128_GCM_SHA256 | TLS_ECDHE_RSA_WITH_ARIA_256_GCM_SHA384
| TLS_ECDH_RSA_WITH_ARIA_128_GCM_SHA256 | TLS_ECDH_RSA_WITH_ARIA_256_GCM_SHA384 | TLS_PSK_WITH_ARIA_128_CBC_SHA256
| TLS_PSK_WITH_ARIA_256_CBC_SHA384 | TLS_DHE_PSK_WITH_ARIA_128_CBC_SHA256 | TLS_DHE_PSK_WITH_ARIA_256_CBC_SHA384
| TLS_RSA_PSK_WITH_ARIA_128_CBC_SHA256 | TLS_RSA_PSK_WITH_ARIA_256_CBC_SHA384 | TLS_PSK_WITH_ARIA_128_GCM_SHA256
| TLS_PSK_WITH_ARIA_256_GCM_SHA384 | TLS_DHE_PSK_WITH_ARIA_128_GCM_SHA256 | TLS_DHE_PSK_WITH_ARIA_256_GCM_SHA384
| TLS_RSA_PSK_WITH_ARIA_128_GCM_SHA256 | TLS_RSA_PSK_WITH_ARIA_256_GCM_SHA384
| TLS_ECDHE_PSK_WITH_ARIA_128_CBC_SHA256 | TLS_ECDHE_PSK_WITH_ARIA_256_CBC_SHA384
| TLS_ECDHE_ECDSA_WITH_CAMELLIA_128_CBC_SHA256 | TLS_ECDHE_ECDSA_WITH_CAMELLIA_256_CBC_SHA384
| TLS_ECDH_ECDSA_WITH_CAMELLIA_128_CBC_SHA256 | TLS_ECDH_ECDSA_WITH_CAMELLIA_256_CBC_SHA384
| TLS_ECDHE_RSA_WITH_CAMELLIA_128_CBC_SHA256 | TLS_ECDHE_RSA_WITH_CAMELLIA_256_CBC_SHA384
| TLS_ECDH_RSA_WITH_CAMELLIA_128_CBC_SHA256 | TLS_ECDH_RSA_WITH_CAMELLIA_256_CBC_SHA384
| TLS_RSA_WITH_CAMELLIA_128_GCM_SHA256 | TLS_RSA_WITH_CAMELLIA_256_GCM_SHA384
| TLS_DHE_RSA_WITH_CAMELLIA_128_GCM_SHA256 | TLS_DHE_RSA_WITH_CAMELLIA_256_GCM_SHA384
| TLS_DH_RSA_WITH_CAMELLIA_128_GCM_SHA256 | TLS_DH_RSA_WITH_CAMELLIA_256_GCM_SHA384
| TLS_DHE_DSS_WITH_CAMELLIA_128_GCM_SHA256 | TLS_DHE_DSS_WITH_CAMELLIA_256_GCM_SHA384
| TLS_DH_DSS_WITH_CAMELLIA_128_GCM_SHA256 | TLS_DH_DSS_WITH_CAMELLIA_256_GCM_SHA384
| TLS_DH_anon_WITH_CAMELLIA_128_GCM_SHA256 | TLS_DH_anon_WITH_CAMELLIA_256_GCM_SHA384
| TLS_ECDHE_ECDSA_WITH_CAMELLIA_128_GCM_SHA256 | TLS_ECDHE_ECDSA_WITH_CAMELLIA_256_GCM_SHA384
| TLS_ECDH_ECDSA_WITH_CAMELLIA_128_GCM_SHA256 | TLS_ECDH_ECDSA_WITH_CAMELLIA_256_GCM_SHA384
| TLS_ECDHE_RSA_WITH_CAMELLIA_128_GCM_SHA256 | TLS_ECDHE_RSA_WITH_CAMELLIA_256_GCM_SHA384
| TLS_ECDH_RSA_WITH_CAMELLIA_128_GCM_SHA256 | TLS_ECDH_RSA_WITH_CAMELLIA_256_GCM_SHA384
| TLS_PSK_WITH_CAMELLIA_128_GCM_SHA256 | TLS_PSK_WITH_CAMELLIA_256_GCM_SHA384
| TLS_DHE_PSK_WITH_CAMELLIA_128_GCM_SHA256 | TLS_DHE_PSK_WITH_CAMELLIA_256_GCM_SHA384
| TLS_RSA_PSK_WITH_CAMELLIA_128_GCM_SHA256 | TLS_RSA_PSK_WITH_CAMELLIA_256_GCM_SHA384
| TLS_PSK_WITH_CAMELLIA_128_CBC_SHA256 | TLS_PSK_WITH_CAMELLIA_256_CBC_SHA384
| TLS_DHE_PSK_WITH_CAMELLIA_128_CBC_SHA256 | TLS_DHE_PSK_WITH_CAMELLIA_256_CBC_SHA384
| TLS_RSA_PSK_WITH_CAMELLIA_128_CBC_SHA256 | TLS_RSA_PSK_WITH_CAMELLIA_256_CBC_SHA384
| TLS_ECDHE_PSK_WITH_CAMELLIA_128_CBC_SHA256 | TLS_ECDHE_PSK_WITH_CAMELLIA_256_CBC_SHA384 | TLS_RSA_WITH_AES_128_CCM
| TLS_RSA_WITH_AES_256_CCM | TLS_DHE_RSA_WITH_AES_128_CCM | TLS_DHE_RSA_WITH_AES_256_CCM | TLS_RSA_WITH_AES_128_CCM_8
| TLS_RSA_WITH_AES_256_CCM_8 | TLS_DHE_RSA_WITH_AES_128_CCM_8 | TLS_DHE_RSA_WITH_AES_256_CCM_8
| TLS_PSK_WITH_AES_128_CCM | TLS_PSK_WITH_AES_256_CCM | TLS_DHE_PSK_WITH_AES_128_CCM | TLS_DHE_PSK_WITH_AES_256_CCM
| TLS_PSK_WITH_AES_128_CCM_8 | TLS_PSK_WITH_AES_256_CCM_8 | TLS_PSK_DHE_WITH_AES_128_CCM_8
| TLS_PSK_DHE_WITH_AES_256_CCM_8 | TLS_ECDHE_ECDSA_WITH_AES_128_CCM | TLS_ECDHE_ECDSA_WITH_AES_256_CCM
| TLS_ECDHE_ECDSA_WITH_AES_128_CCM_8 | TLS_ECDHE_ECDSA_WITH_AES_256_CCM_8
| TLS_ECDHE_RSA_WITH_CHACHA20_POLY1305_SHA256 | TLS_ECDHE_ECDSA_WITH_CHACHA20_POLY1305_SHA256
| TLS_DHE_RSA_WITH_CHACHA20_POLY1305_SHA256 | TLS_PSK_WITH_CHACHA20_POLY1305_SHA256
| TLS_ECDHE_PSK_WITH_CHACHA20_POLY1305_SHA256 | TLS_DHE_PSK_WITH_CHACHA20_POLY1305_SHA256
| TLS_RSA_PSK_WITH_CHACHA20_POLY1305_SHA256 | SSL_RSA_FIPS_WITH_DES_CBC_SHA | SSL_RSA_FIPS_WITH_3DES_EDE_CBC_SHA.
Definition code (n : name) : Z :=
  match n with
  | TLS_NULL_WITH_NULL_NULL => 0x0000 | TLS_RSA_WITH_NULL_MD5 => 0x0001 | TLS_RSA_WITH_NULL_SHA => 0x0002
  | TLS_RSA_EXPORT_WITH_RC4_40_MD5 => 0x0003 | TLS_RSA_WITH_RC4_128_MD5 => 0x0004
  | TLS_RSA_WITH_RC4_128_SHA => 0x0005 | TLS_RSA_EXPORT_WITH_RC2_CBC_40_MD5 => 0x0006
  | TLS_RSA_WITH_IDEA_CBC_SHA => 0x0007 | TLS_RSA_EXPORT_WITH_DES40_CBC_SHA => 0x0008
  | TLS_RSA_WITH_DES_CBC_SHA => 0x0009 | TLS_RSA_WITH_3DES_EDE_CBC_SHA => 0x000a
  | TLS_DH_DSS_EXPORT_WITH_DES40_CBC_SHA => 0x000b | TLS_DH_DSS_WITH_DES_CBC_SHA => 0x000c
  | TLS_DH_DSS_WITH_3DES_EDE_CBC_SHA => 0x000d | TLS_DH_RSA_EXPORT_WITH_DES40_CBC_SHA => 0x000e
  | TLS_DH_RSA_WITH_DES_CBC_SHA => 0x000f | TLS_DH_RSA_WITH_3DES_EDE_CBC_SHA => 0x0010
  | TLS_DHE_DSS_EXPORT_WITH_DES40_CBC_SHA => 0x0011 | TLS_DHE_DSS_WITH_DES_CBC_SHA => 0x0012
  | TLS_DHE_DSS_WITH_3DES_EDE_CBC_SHA => 0x0013 | TLS_DHE_RSA_EXPORT_WITH_DES40_CBC_SHA => 0x0014
  | TLS_DHE_RSA_WITH_DES_CBC_SHA => 0x0015 | TLS_DHE_RSA_WITH_3DES_EDE_CBC_SHA => 0x0016
  | TLS_DH_anon_EXPORT_WITH_RC4_40_MD5 => 0x0017 | TLS_DH_anon_WITH_RC4_128_MD5 => 0x0018
  | TLS_DH_anon_EXPORT_WITH_DES40_CBC_SHA => 0x0019 | TLS_DH_anon_WITH_DES_CBC_SHA => 0x001a
  | TLS_DH_anon_WITH_3DES_EDE_CBC_SHA => 0x001b | SSL_FORTEZZA_KEA_WITH_NULL_SHA => 0x001c
  | SSL_FORTEZZA_KEA_WITH_FORTEZZA_CBC_SHA => 0x001d
  | TLS_KRB5_WITH_DES_CBC_SHA_or_SSL_FORTEZZA_KEA_WITH_RC4_128_SHA => 0x001e
  | TLS_KRB5_WITH_3DES_EDE_CBC_SHA => 0x001f | TLS_KRB5_WITH_RC4_128_SHA => 0x0020
  | TLS_KRB5_WITH_IDEA_CBC_SHA => 0x0021 | TLS_KRB5_WITH_DES_CBC_MD5 => 0x0022
  | TLS_KRB5_WITH_3DES_EDE_CBC_MD5 => 0x0023 | TLS_KRB5_WITH_RC4_128_MD5 => 0x0024
  | TLS_KRB5_WITH_IDEA_CBC_MD5 => 0x0025 | TLS_KRB5_EXPORT_WITH_DES_CBC_40_SHA => 0x0026
  | TLS_KRB5_EXPORT_WITH_RC2_CBC_40_SHA => 0x0027 | TLS_KRB5_EXPORT_WITH_RC4_40_SHA => 0x0028
  | TLS_KRB5_EXPORT_WITH_DES_CBC_40_MD5 => 0x0029 | TLS_KRB5_EXPORT_WITH_RC2_CBC_40_MD5 => 0x002a
  | TLS_KRB5_EXPORT_WITH_RC4_40_MD5 => 0x002b | TLS_PSK_WITH_NULL_SHA => 0x002c | TLS_DHE_PSK_WITH_NULL_SHA => 0x002d
  | TLS_RSA_PSK_WITH_NULL_SHA => 0x002e | TLS_RSA_WITH_AES_128_CBC_SHA => 0x002f
  | TLS_DH_DSS_WITH_AES_128_CBC_SHA => 0x0030 | TLS_DH_RSA_WITH_AES_128_CBC_SHA => 0x0031
  | TLS_DHE_DSS_WITH_AES_128_CBC_SHA => 0x0032 | TLS_DHE_RSA_WITH_AES_128_CBC_SHA => 0x0033
  | TLS_DH_anon_WITH_AES_128_CBC_SHA => 0x0034 | TLS_RSA_WITH_AES_256_CBC_SHA => 0x0035
  | TLS_DH_DSS_WITH_AES_256_CBC_SHA => 0x0036 | TLS_DH_RSA_WITH_AES_256_CBC_SHA => 0x0037
  | TLS_DHE_DSS_WITH_AES_256_CBC_SHA => 0x0038 | TLS_DHE_RSA_WITH_AES_256_CBC_SHA => 0x0039
  | TLS_DH_anon_WITH_AES_256_CBC_SHA => 0x003a | TLS_RSA_WITH_NULL_SHA256 => 0x003b
  | TLS_RSA_WITH_AES_128_CBC_SHA256 => 0x003c | TLS_RSA_WITH_AES_256_CBC_SHA256 => 0x003d
  | TLS_DH_DSS_WITH_AES_128_CBC_SHA256 => 0x003e | TLS_DH_RSA_WITH_AES_128_CBC_SHA256 => 0x003f
  | TLS_DHE_DSS_WITH_AES_128_CBC_SHA256 => 0x0040 | TLS_RSA_WITH_CAMELLIA_128_CBC_SHA => 0x0041
  | TLS_DH_DSS_WITH_CAMELLIA_128_CBC_SHA => 0x0042 | TLS_DH_RSA_WITH_CAMELLIA_128_CBC_SHA => 0x0043
  | TLS_DHE_DSS_WITH_CAMELLIA_128_CBC_SHA => 0x0044 | TLS_DHE_RSA_WITH_CAMELLIA_128_CBC_SHA => 0x0045
  | TLS_DH_anon_WITH_CAMELLIA_128_CBC_SHA => 0x0046 | TLS_ECDH_ECDSA_WITH_NULL_SHA_draft => 0x0047
  | TLS_ECDH_ECDSA_WITH_RC4_128_SHA_draft => 0x0048 | TLS_ECDH_ECDSA_WITH_DES_CBC_SHA_draft => 0x0049
  | TLS_ECDH_ECDSA_WITH_3DES_EDE_CBC_SHA_draft => 0x004a | TLS_ECDH_ECDSA_WITH_AES_128_CBC_SHA_draft => 0x004b
  | TLS_ECDH_ECDSA_WITH_AES_256_CBC_SHA_draft => 0x004c | TLS_ECDH_ECNRA_WITH_DES_CBC_SHA_draft => 0x004d
  | TLS_ECDH_ECNRA_WITH_3DES_EDE_CBC_SHA_draft => 0x004e | TLS_ECMQV_ECDSA_NULL_SHA_draft => 0x004f
  | TLS_ECMQV_ECDSA_WITH_RC4_128_SHA_draft => 0x0050 | TLS_ECMQV_ECDSA_WITH_DES_CBC_SHA_draft => 0x0051
  | TLS_ECMQV_ECDSA_WITH_3DES_EDE_CBC_SHA_draft => 0x0052 | TLS_ECMQV_ECNRA_NULL_SHA_draft => 0x0053
  | TLS_ECMQV_ECNRA_WITH_RC4_128_SHA_draft => 0x0054 | TLS_ECMQV_ECNRA_WITH_DES_CBC_SHA_draft => 0x0055
  | TLS_ECMQV_ECNRA_WITH_3DES_EDE_CBC_SHA_draft => 0x0056 | TLS_ECDH_anon_NULL_WITH_SHA_draft => 0x0057
  | TLS_ECDH_anon_WITH_RC4_128_SHA_draft => 0x0058 | TLS_ECDH_anon_WITH_DES_CBC_SHA_draft => 0x0059
  | TLS_ECDH_anon_WITH_3DES_EDE_CBC_SHA_draft => 0x005a | TLS_ECDH_anon_EXPORT_WITH_DES40_CBC_SHA_draft => 0x005b
  | TLS_ECDH_anon_EXPORT_WITH_RC4_40_SHA_draft => 0x005c | TLS_RSA_EXPORT1024_WITH_RC4_56_MD5 => 0x0060
  | TLS_RSA_EXPORT1024_WITH_RC2_CBC_56_MD5 => 0x0061 | TLS_RSA_EXPORT1024_WITH_DES_CBC_SHA => 0x0062
  | TLS_DHE_DSS_EXPORT1024_WITH_DES_CBC_SHA => 0x0063 | TLS_RSA_EXPORT1024_WITH_RC4_56_SHA => 0x0064
  | TLS_DHE_DSS_EXPORT1024_WITH_RC4_56_SHA => 0x0065 | TLS_DHE_DSS_WITH_RC4_128_SHA => 0x0066
  | TLS_DHE_RSA_WITH_AES_128_CBC_SHA256 => 0x0067 | TLS_DH_DSS_WITH_AES_256_CBC_SHA256 => 0x0068
  | TLS_DH_RSA_WITH_AES_256_CBC_SHA256 => 0x0069 | TLS_DHE_DSS_WITH_AES_256_CBC_SHA256 => 0x006a
  | TLS_DHE_RSA_WITH_AES_256_CBC_SHA256 => 0x006b | TLS_DH_anon_WITH_AES_128_CBC_SHA256 => 0x006c
  | TLS_DH_anon_WITH_AES_256_CBC_SHA256 => 0x006d | TLS_DHE_DSS_WITH_3DES_EDE_CBC_RMD => 0x0072
  | TLS_DHE_DSS_WITH_AES_128_CBC_RMD => 0x0073 | TLS_DHE_DSS_WITH_AES_256_CBC_RMD => 0x0074
  | TLS_DHE_RSA_WITH_3DES_EDE_CBC_RMD => 0x0077 | TLS_DHE_RSA_WITH_AES_128_CBC_RMD => 0x0078
  | TLS_DHE_RSA_WITH_AES_256_CBC_RMD => 0x0079 | TLS_RSA_WITH_3DES_EDE_CBC_RMD => 0x007c
  | TLS_RSA_WITH_AES_128_CBC_RMD => 0x007d | TLS_RSA_WITH_AES_256_CBC_RMD => 0x007e
  | TLS_GOSTR341094_WITH_28147_CNT_IMIT => 0x0080 | TLS_GOSTR341001_WITH_28147_CNT_IMIT => 0x0081
  | TLS_GOSTR341094_WITH_NULL_GOSTR3411 => 0x0082 | TLS_GOSTR341001_WITH_NULL_GOSTR3411 => 0x0083
  | TLS_RSA_WITH_CAMELLIA_256_CBC_SHA => 0x0084 | TLS_DH_DSS_WITH_CAMELLIA_256_CBC_SHA => 0x0085
  | TLS_DH_RSA_WITH_CAMELLIA_256_CBC_SHA => 0x0086 | TLS_DHE_DSS_WITH_CAMELLIA_256_CBC_SHA => 0x0087
  | TLS_DHE_RSA_WITH_CAMELLIA_256_CBC_SHA => 0x0088 | TLS_DH_anon_WITH_CAMELLIA_256_CBC_SHA => 0x0089
  | TLS_PSK_WITH_RC4_128_SHA => 0x008a | TLS_PSK_WITH_3DES_EDE_CBC_SHA => 0x008b
  | TLS_PSK_WITH_AES_128_CBC_SHA => 0x008c | TLS_PSK_WITH_AES_256_CBC_SHA => 0x008d
  | TLS_DHE_PSK_WITH_RC4_128_SHA => 0x008e | TLS_DHE_PSK_WITH_3DES_EDE_CBC_SHA => 0x008f
  | TLS_DHE_PSK_WITH_AES_128_CBC_SHA => 0x0090 | TLS_DHE_PSK_WITH_AES_256_CBC_SHA => 0x0091
  | TLS_RSA_PSK_WITH_RC4_128_SHA => 0x0092 | TLS_RSA_PSK_WITH_3DES_EDE_CBC_SHA => 0x0093
  | TLS_RSA_PSK_WITH_AES_128_CBC_SHA => 0x0094 | TLS_RSA_PSK_WITH_AES_256_CBC_SHA => 0x0095
  | TLS_RSA_WITH_SEED_CBC_SHA => 0x0096 | TLS_DH_DSS_WITH_SEED_CBC_SHA => 0x0097
  | TLS_DH_RSA_WITH_SEED_CBC_SHA => 0x0098 | TLS_DHE_DSS_WITH_SEED_CBC_SHA => 0x0099
  | TLS_DHE_RSA_WITH_SEED_CBC_SHA => 0x009a | TLS_DH_anon_WITH_SEED_CBC_SHA => 0x009b
  | TLS_RSA_WITH_AES_128_GCM_SHA256 => 0x009c | TLS_RSA_WITH_AES_256_GCM_SHA384 => 0x009d
  | TLS_DHE_RSA_WITH_AES_128_GCM_SHA256 => 0x009e | TLS_DHE_RSA_WITH_AES_256_GCM_SHA384 => 0x009f
  | TLS_DH_RSA_WITH_AES_128_GCM_SHA256 => 0x00a0 | TLS_DH_RSA_WITH_AES_256_GCM_SHA384 => 0x00a1
  | TLS_DHE_DSS_WITH_AES_128_GCM_SHA256 => 0x00a2 | TLS_DHE_DSS_WITH_AES_256_GCM_SHA384 => 0x00a3
  | TLS_DH_DSS_WITH_AES_128_GCM_SHA256 => 0x00a4 | TLS_DH_DSS_WITH_AES_256_GCM_SHA384 => 0x00a5
  | TLS_DH_anon_WITH_AES_128_GCM_SHA256 => 0x00a6 | TLS_DH_anon_WITH_AES_256_GCM_SHA384 => 0x00a7
  | TLS_PSK_WITH_AES_128_GCM_SHA256 => 0x00a8 | TLS_PSK_WITH_AES_256_GCM_SHA384 => 0x00a9
  | TLS_DHE_PSK_WITH_AES_128_GCM_SHA256 => 0x00aa | TLS_DHE_PSK_WITH_AES_256_GCM_SHA384 => 0x00ab
  | TLS_RSA_PSK_WITH_AES_128_GCM_SHA256 => 0x00ac | TLS_RSA_PSK_WITH_AES_256_GCM_SHA384 => 0x00ad
  | TLS_PSK_WITH_AES_128_CBC_SHA256 => 0x00ae | TLS_PSK_WITH_AES_256_CBC_SHA384 => 0x00af
  | TLS_PSK_WITH_NULL_SHA256 => 0x00b0 | TLS_PSK_WITH_NULL_SHA384 => 0x00b1
  | TLS_DHE_PSK_WITH_AES_128_CBC_SHA256 => 0x00b2 | TLS_DHE_PSK_WITH_AES_256_CBC_SHA384 => 0x00b3
  | TLS_DHE_PSK_WITH_NULL_SHA256 => 0x00b4 | TLS_DHE_PSK_WITH_NULL_SHA384 => 0x00b5
  | TLS_RSA_PSK_WITH_AES_128_CBC_SHA256 => 0x00b6 | TLS_RSA_PSK_WITH_AES_256_CBC_SHA384 => 0x00b7
  | TLS_RSA_PSK_WITH_NULL_SHA256 => 0x00b8 | TLS_RSA_PSK_WITH_NULL_SHA384 => 0x00b9
  | TLS_RSA_WITH_CAMELLIA_128_CBC_SHA256 => 0x00ba | TLS_DH_DSS_WITH_CAMELLIA_128_CBC_SHA256 => 0x00bb
  | TLS_DH_RSA_WITH_CAMELLIA_128_CBC_SHA256 => 0x00bc | TLS_DHE_DSS_WITH_CAMELLIA_128_CBC_SHA256 => 0x00bd
  | TLS_DHE_RSA_WITH_CAMELLIA_128_CBC_SHA256 => 0x00be | TLS_DH_anon_WITH_CAMELLIA_128_CBC_SHA256 => 0x00bf
  | TLS_RSA_WITH_CAMELLIA_256_CBC_SHA256 => 0x00c0 | TLS_DH_DSS_WITH_CAMELLIA_256_CBC_SHA256 => 0x00c1
  | TLS_DH_RSA_WITH_CAMELLIA_256_CBC_SHA256 => 0x00c2 | TLS_DHE_DSS_WITH_CAMELLIA_256_CBC_SHA256 => 0x00c3
  | TLS_DHE_RSA_WITH_CAMELLIA_256_CBC_SHA256 => 0x00c4 | TLS_DH_anon_WITH_CAMELLIA_256_CBC_SHA256 => 0x00c5
  | TLS_EMPTY_RENEGOTIATION_INFO_SCSV => 0x00ff | TLS13_AES_128_GCM_SHA256 => 0x1301
  | TLS13_AES_256_GCM_SHA384 => 0x1302 | TLS13_CHACHA20_POLY1305_SHA256 => 0x1303
  | TLS13_AES_128_CCM_SHA256 => 0x1304 | TLS13_AES_128_CCM_8_SHA256 => 0x1305
  | TLS_ECDH_ECDSA_WITH_NULL_SHA => 0xc001 | TLS_ECDH_ECDSA_WITH_RC4_128_SHA => 0xc002
  | TLS_ECDH_ECDSA_WITH_3DES_EDE_CBC_SHA => 0xc003 | TLS_ECDH_ECDSA_WITH_AES_128_CBC_SHA => 0xc004
  | TLS_ECDH_ECDSA_WITH_AES_256_CBC_SHA => 0xc005 | TLS_ECDHE_ECDSA_WITH_NULL_SHA => 0xc006
  | TLS_ECDHE_ECDSA_WITH_RC4_128_SHA => 0xc007 | TLS_ECDHE_ECDSA_WITH_3DES_EDE_CBC_SHA => 0xc008
  | TLS_ECDHE_ECDSA_WITH_AES_128_CBC_SHA => 0xc009 | TLS_ECDHE_ECDSA_WITH_AES_256_CBC_SHA => 0xc00a
  | TLS_ECDH_RSA_WITH_NULL_SHA => 0xc00b | TLS_ECDH_RSA_WITH_RC4_128_SHA => 0xc00c
  | TLS_ECDH_RSA_WITH_3DES_EDE_CBC_SHA => 0xc00d | TLS_ECDH_RSA_WITH_AES_128_CBC_SHA => 0xc00e
  | TLS_ECDH_RSA_WITH_AES_256_CBC_SHA => 0xc00f | TLS_ECDHE_RSA_WITH_NULL_SHA => 0xc010
  | TLS_ECDHE_RSA_WITH_RC4_128_SHA => 0xc011 | TLS_ECDHE_RSA_WITH_3DES_EDE_CBC_SHA => 0xc012
  | TLS_ECDHE_RSA_WITH_AES_128_CBC_SHA => 0xc013 | TLS_ECDHE_RSA_WITH_AES_256_CBC_SHA => 0xc014
  | TLS_ECDH_anon_WITH_NULL_SHA => 0xc015 | TLS_ECDH_anon_WITH_RC4_128_SHA => 0xc016
  | TLS_ECDH_anon_WITH_3DES_EDE_CBC_SHA => 0xc017 | TLS_ECDH_anon_WITH_AES_128_CBC_SHA => 0xc018
  | TLS_ECDH_anon_WITH_AES_256_CBC_SHA => 0xc019 | TLS_SRP_SHA_WITH_3DES_EDE_CBC_SHA => 0xc01a
  | TLS_SRP_SHA_RSA_WITH_3DES_EDE_CBC_SHA => 0xc01b | TLS_SRP_SHA_DSS_WITH_3DES_EDE_CBC_SHA => 0xc01c
  | TLS_SRP_SHA_WITH_AES_128_CBC_SHA => 0xc01d | TLS_SRP_SHA_RSA_WITH_AES_128_CBC_SHA => 0xc01e
  | TLS_SRP_SHA_DSS_WITH_AES_128_CBC_SHA => 0xc01f | TLS_SRP_SHA_WITH_AES_256_CBC_SHA => 0xc020
  | TLS_SRP_SHA_RSA_WITH_AES_256_CBC_SHA => 0xc021 | TLS_SRP_SHA_DSS_WITH_AES_256_CBC_SHA => 0xc022
  | TLS_ECDHE_ECDSA_WITH_AES_128_CBC_SHA256 => 0xc023 | TLS_ECDHE_ECDSA_WITH_AES_256_CBC_SHA384 => 0xc024
  | TLS_ECDH_ECDSA_WITH_AES_128_CBC_SHA256 => 0xc025 | TLS_ECDH_ECDSA_WITH_AES_256_CBC_SHA384 => 0xc026
  | TLS_ECDHE_RSA_WITH_AES_128_CBC_SHA256 => 0xc027 | TLS_ECDHE_RSA_WITH_AES_256_CBC_SHA384 => 0xc028
  | TLS_ECDH_RSA_WITH_AES_128_CBC_SHA256 => 0xc029 | TLS_ECDH_RSA_WITH_AES_256_CBC_SHA384 => 0xc02a
  | TLS_ECDHE_ECDSA_WITH_AES_128_GCM_SHA256 => 0xc02b | TLS_ECDHE_ECDSA_WITH_AES_256_GCM_SHA384 => 0xc02c
  | TLS_ECDH_ECDSA_WITH_AES_128_GCM_SHA256 => 0xc02d | TLS_ECDH_ECDSA_WITH_AES_256_GCM_SHA384 => 0xc02e
  | TLS_ECDHE_RSA_WITH_AES_128_GCM_SHA256 => 0xc02f | TLS_ECDHE_RSA_WITH_AES_256_GCM_SHA384 => 0xc030
  | TLS_ECDH_RSA_WITH_AES_128_GCM_SHA256 => 0xc031 | TLS_ECDH_RSA_WITH_AES_256_GCM_SHA384 => 0xc032
  | TLS_ECDHE_PSK_WITH_RC4_128_SHA => 0xc033 | TLS_ECDHE_PSK_WITH_3DES_EDE_CBC_SHA => 0xc034
  | TLS_ECDHE_PSK_WITH_AES_128_CBC_SHA => 0xc035 | TLS_ECDHE_PSK_WITH_AES_256_CBC_SHA => 0xc036
  | TLS_ECDHE_PSK_WITH_AES_128_CBC_SHA256 => 0xc037 | TLS_ECDHE_PSK_WITH_AES_256_CBC_SHA384 => 0xc038
  | TLS_ECDHE_PSK_WITH_NULL_SHA => 0xc039 | TLS_ECDHE_PSK_WITH_NULL_SHA256 => 0xc03a
  | TLS_ECDHE_PSK_WITH_NULL_SHA384 => 0xc03b | TLS_RSA_WITH_ARIA_128_CBC_SHA256 => 0xc03c
  | TLS_RSA_WITH_ARIA_256_CBC_SHA384 => 0xc03d | TLS_DH_DSS_WITH_ARIA_128_CBC_SHA256 => 0xc03e
  | TLS_DH_DSS_WITH_ARIA_256_CBC_SHA384 => 0xc03f | TLS_DH_RSA_WITH_ARIA_128_CBC_SHA256 => 0xc040
  | TLS_DH_RSA_WITH_ARIA_256_CBC_SHA384 => 0xc041 | TLS_DHE_DSS_WITH_ARIA_128_CBC_SHA256 => 0xc042
  | TLS_DHE_DSS_WITH_ARIA_256_CBC_SHA384 => 0xc043 | TLS_DHE_RSA_WITH_ARIA_128_CBC_SHA256 => 0xc044
  | TLS_DHE_RSA_WITH_ARIA_256_CBC_SHA384 => 0xc045 | TLS_DH_anon_WITH_ARIA_128_CBC_SHA256 => 0xc046
  | TLS_DH_anon_WITH_ARIA_256_CBC_SHA384 => 0xc047 | TLS_ECDHE_ECDSA_WITH_ARIA_128_CBC_SHA256 => 0xc048
  | TLS_ECDHE_ECDSA_WITH_ARIA_256_CBC_SHA384 => 0xc049 | TLS_ECDH_ECDSA_WITH_ARIA_128_CBC_SHA256 => 0xc04a
  | TLS_ECDH_ECDSA_WITH_ARIA_256_CBC_SHA384 => 0xc04b | TLS_ECDHE_RSA_WITH_ARIA_128_CBC_SHA256 => 0xc04c
  | TLS_ECDHE_RSA_WITH_ARIA_256_CBC_SHA384 => 0xc04d | TLS_ECDH_RSA_WITH_ARIA_128_CBC_SHA256 => 0xc04e
  | TLS_ECDH_RSA_WITH_ARIA_256_CBC_SHA384 => 0xc04f | TLS_RSA_WITH_ARIA_128_GCM_SHA256 => 0xc050
  | TLS_RSA_WITH_ARIA_256_GCM_SHA384 => 0xc051 | TLS_DHE_RSA_WITH_ARIA_128_GCM_SHA256 => 0xc052
  | TLS_DHE_RSA_WITH_ARIA_256_GCM_SHA384 => 0xc053 | TLS_DH_RSA_WITH_ARIA_128_GCM_SHA256 => 0xc054
  | TLS_DH_RSA_WITH_ARIA_256_GCM_SHA384 => 0xc055 | TLS_DHE_DSS_WITH_ARIA_128_GCM_SHA256 => 0xc056
  | TLS_DHE_DSS_WITH_ARIA_256_GCM_SHA384 => 0xc057 | TLS_DH_DSS_WITH_ARIA_128_GCM_SHA256 => 0xc058
  | TLS_DH_DSS_WITH_ARIA_256_GCM_SHA384 => 0xc059 | TLS_DH_anon_WITH_ARIA_128_GCM_SHA256 => 0xc05a
  | TLS_DH_anon_WITH_ARIA_256_GCM_SHA384 => 0xc05b | TLS_ECDHE_ECDSA_WITH_ARIA_128_GCM_SHA256 => 0xc05c
  | TLS_ECDHE_ECDSA_WITH_ARIA_256_GCM_SHA384 => 0xc05d | TLS_ECDH_ECDSA_WITH_ARIA_128_GCM_SHA256 => 0xc05e
  | TLS_ECDH_ECDSA_WITH_ARIA_256_GCM_SHA384 => 0xc05f | TLS_ECDHE_RSA_WITH_ARIA_128_GCM_SHA256 => 0xc060
  | TLS_ECDHE_RSA_WITH_ARIA_256_GCM_SHA384 => 0xc061 | TLS_ECDH_RSA_WITH_ARIA_128_GCM_SHA256 => 0xc062
  | TLS_ECDH_RSA_WITH_ARIA_256_GCM_SHA384 => 0xc063 | TLS_PSK_WITH_ARIA_128_CBC_SHA256 => 0xc064
  | TLS_PSK_WITH_ARIA_256_CBC_SHA384 => 0xc065 | TLS_DHE_PSK_WITH_ARIA_128_CBC_SHA256 => 0xc066
  | TLS_DHE_PSK_WITH_ARIA_256_CBC_SHA384 => 0xc067 | TLS_RSA_PSK_WITH_ARIA_128_CBC_SHA256 => 0xc068
  | TLS_RSA_PSK_WITH_ARIA_256_CBC_SHA384 => 0xc069 | TLS_PSK_WITH_ARIA_128_GCM_SHA256 => 0xc06a
  | TLS_PSK_WITH_ARIA_256_GCM_SHA384 => 0xc06b | TLS_DHE_PSK_WITH_ARIA_128_GCM_SHA256 => 0xc06c
  | TLS_DHE_PSK_WITH_ARIA_256_GCM_SHA384 => 0xc06d | TLS_RSA_PSK_WITH_ARIA_128_GCM_SHA256 => 0xc06e
  | TLS_RSA_PSK_WITH_ARIA_256_GCM_SHA384 => 0xc06f | TLS_ECDHE_PSK_WITH_ARIA_128_CBC_SHA256 => 0xc070
  | TLS_ECDHE_PSK_WITH_ARIA_256_CBC_SHA384 => 0xc071 | TLS_ECDHE_ECDSA_WITH_CAMELLIA_128_CBC_SHA256 => 0xc072
  | TLS_ECDHE_ECDSA_WITH_CAMELLIA_256_CBC_SHA384 => 0xc073 | TLS_ECDH_ECDSA_WITH_CAMELLIA_128_CBC_SHA256 => 0xc074
  | TLS_ECDH_ECDSA_WITH_CAMELLIA_256_CBC_SHA384 => 0xc075 | TLS_ECDHE_RSA_WITH_CAMELLIA_128_CBC_SHA256 => 0xc076
  | TLS_ECDHE_RSA_WITH_CAMELLIA_256_CBC_SHA384 => 0xc077 | TLS_ECDH_RSA_WITH_CAMELLIA_128_CBC_SHA256 => 0xc078
  | TLS_ECDH_RSA_WITH_CAMELLIA_256_CBC_SHA384 => 0xc079 | TLS_RSA_WITH_CAMELLIA_128_GCM_SHA256 => 0xc07a
  | TLS_RSA_WITH_CAMELLIA_256_GCM_SHA384 => 0xc07b | TLS_DHE_RSA_WITH_CAMELLIA_128_GCM_SHA256 => 0xc07c
  | TLS_DHE_RSA_WITH_CAMELLIA_256_GCM_SHA384 => 0xc07d | TLS_DH_RSA_WITH_CAMELLIA_128_GCM_SHA256 => 0xc07e
  | TLS_DH_RSA_WITH_CAMELLIA_256_GCM_SHA384 => 0xc07f | TLS_DHE_DSS_WITH_CAMELLIA_128_GCM_SHA256 => 0xc080
  | TLS_DHE_DSS_WITH_CAMELLIA_256_GCM_SHA384 => 0xc081 | TLS_DH_DSS_WITH_CAMELLIA_128_GCM_SHA256 => 0xc082
  | TLS_DH_DSS_WITH_CAMELLIA_256_GCM_SHA384 => 0xc083 | TLS_DH_anon_WITH_CAMELLIA_128_GCM_SHA256 => 0xc084
  | TLS_DH_anon_WITH_CAMELLIA_256_GCM_SHA384 => 0xc085 | TLS_ECDHE_ECDSA_WITH_CAMELLIA_128_GCM_SHA256 => 0xc086
  | TLS_ECDHE_ECDSA_WITH_CAMELLIA_256_GCM_SHA384 => 0xc087 | TLS_ECDH_ECDSA_WITH_CAMELLIA_128_GCM_SHA256 => 0xc088
  | TLS_ECDH_ECDSA_WITH_CAMELLIA_256_GCM_SHA384 => 0xc089 | TLS_ECDHE_RSA_WITH_CAMELLIA_128_GCM_SHA256 => 0xc08a
  | TLS_ECDHE_RSA_WITH_CAMELLIA_256_GCM_SHA384 => 0xc08b | TLS_ECDH_RSA_WITH_CAMELLIA_128_GCM_SHA256 => 0xc08c
  | TLS_ECDH_RSA_WITH_CAMELLIA_256_GCM_SHA384 => 0xc08d | TLS_PSK_WITH_CAMELLIA_128_GCM_SHA256 => 0xc08e
  | TLS_PSK_WITH_CAMELLIA_256_GCM_SHA384 => 0xc08f | TLS_DHE_PSK_WITH_CAMELLIA_128_GCM_SHA256 => 0xc090
  | TLS_DHE_PSK_WITH_CAMELLIA_256_GCM_SHA384 => 0xc091 | TLS_RSA_PSK_WITH_CAMELLIA_128_GCM_SHA256 => 0xc092
  | TLS_RSA_PSK_WITH_CAMELLIA_256_GCM_SHA384 => 0xc093 | TLS_PSK_WITH_CAMELLIA_128_CBC_SHA256 => 0xc094
  | TLS_PSK_WITH_CAMELLIA_256_CBC_SHA384 => 0xc095 | TLS_DHE_PSK_WITH_CAMELLIA_128_CBC_SHA256 => 0xc096
  | TLS_DHE_PSK_WITH_CAMELLIA_256_CBC_SHA384 => 0xc097 | TLS_RSA_PSK_WITH_CAMELLIA_128_CBC_SHA256 => 0xc098
  | TLS_RSA_PSK_WITH_CAMELLIA_256_CBC_SHA384 => 0xc099 | TLS_ECDHE_PSK_WITH_CAMELLIA_128_CBC_SHA256 => 0xc09a
  | TLS_ECDHE_PSK_WITH_CAMELLIA_256_CBC_SHA384 => 0xc09b | TLS_RSA_WITH_AES_128_CCM => 0xc09c
  | TLS_RSA_WITH_AES_256_CCM => 0xc09d | TLS_DHE_RSA_WITH_AES_128_CCM => 0xc09e
  | TLS_DHE_RSA_WITH_AES_256_CCM => 0xc09f | TLS_RSA_WITH_AES_128_CCM_8 => 0xc0a0
  | TLS_RSA_WITH_AES_256_CCM_8 => 0xc0a1 | TLS_DHE_RSA_WITH_AES_128_CCM_8 => 0xc0a2
  | TLS_DHE_RSA_WITH_AES_256_CCM_8 => 0xc0a3 | TLS_PSK_WITH_AES_128_CCM => 0xc0a4
  | TLS_PSK_WITH_AES_256_CCM => 0xc0a5 | TLS_DHE_PSK_WITH_AES_128_CCM => 0xc0a6
  | TLS_DHE_PSK_WITH_AES_256_CCM => 0xc0a7 | TLS_PSK_WITH_AES_128_CCM_8 => 0xc0a8
  | TLS_PSK_WITH_AES_256_CCM_8 => 0xc0a9 | TLS_PSK_DHE_WITH_AES_128_CCM_8 => 0xc0aa
  | TLS_PSK_DHE_WITH_AES_256_CCM_8 => 0xc0ab | TLS_ECDHE_ECDSA_WITH_AES_128_CCM => 0xc0ac
  | TLS_ECDHE_ECDSA_WITH_AES_256_CCM => 0xc0ad | TLS_ECDHE_ECDSA_WITH_AES_128_CCM_8 => 0xc0ae
  | TLS_ECDHE_ECDSA_WITH_AES_256_CCM_8 => 0xc0af | TLS_ECDHE_RSA_WITH_CHACHA20_POLY1305_SHA256 => 0xcca8
  | TLS_ECDHE_ECDSA_WITH_CHACHA20_POLY1305_SHA256 => 0xcca9 | TLS_DHE_RSA_WITH_CHACHA20_POLY1305_SHA256 => 0xccaa
  | TLS_PSK_WITH_CHACHA20_POLY1305_SHA256 => 0xccab | TLS_ECDHE_PSK_WITH_CHACHA20_POLY1305_SHA256 => 0xccac
  | TLS_DHE_PSK_WITH_CHACHA20_POLY1305_SHA256 => 0xccad | TLS_RSA_PSK_WITH_CHACHA20_POLY1305_SHA256 => 0xccae
  | SSL_RSA_FIPS_WITH_DES_CBC_SHA => 0xfefe | SSL_RSA_FIPS_WITH_3DES_EDE_CBC_SHA => 0xfeff
  end.
Definition table : list (name * Z) := map (fun n => (n, code n))
  [TLS_NULL_WITH_NULL_NULL; TLS_RSA_WITH_NULL_MD5; TLS_RSA_WITH_NULL_SHA; TLS_RSA_EXPORT_WITH_RC4_40_MD5;
   TLS_RSA_WITH_RC4_128_MD5; TLS_RSA_WITH_RC4_128_SHA; TLS_RSA_EXPORT_WITH_RC2_CBC_40_MD5; TLS_RSA_WITH_IDEA_CBC_SHA;
   TLS_RSA_EXPORT_WITH_DES40_CBC_SHA; TLS_RSA_WITH_DES_CBC_SHA; TLS_RSA_WITH_3DES_EDE_CBC_SHA;
   TLS_DH_DSS_EXPORT_WITH_DES40_CBC_SHA; TLS_DH_DSS_WITH_DES_CBC_SHA; TLS_DH_DSS_WITH_3DES_EDE_CBC_SHA;
   TLS_DH_RSA_EXPORT_WITH_DES40_CBC_SHA; TLS_DH_RSA_WITH_DES_CBC_SHA; TLS_DH_RSA_WITH_3DES_EDE_CBC_SHA;
   TLS_DHE_DSS_EXPORT_WITH_DES40_CBC_SHA; TLS_DHE_DSS_WITH_DES_CBC_SHA; TLS_DHE_DSS_WITH_3DES_EDE_CBC_SHA;
   TLS_DHE_RSA_EXPORT_WITH_DES40_CBC_SHA; TLS_DHE_RSA_WITH_DES_CBC_SHA; TLS_DHE_RSA_WITH_3DES_EDE_CBC_SHA;
   TLS_DH_anon_EXPORT_WITH_RC4_40_MD5; TLS_DH_anon_WITH_RC4_128_MD5; TLS_DH_anon_EXPORT_WITH_DES40_CBC_SHA;
   TLS_DH_anon_WITH_DES_CBC_SHA; TLS_DH_anon_WITH_3DES_EDE_CBC_SHA; SSL_FORTEZZA_KEA_WITH_NULL_SHA;
   SSL_FORTEZZA_KEA_WITH_FORTEZZA_CBC_SHA; TLS_KRB5_WITH_DES_CBC_SHA_or_SSL_FORTEZZA_KEA_WITH_RC4_128_SHA;
   TLS_KRB5_WITH_3DES_EDE_CBC_SHA; TLS_KRB5_WITH_RC4_128_SHA; TLS_KRB5_WITH_IDEA_CBC_SHA; TLS_KRB5_WITH_DES_CBC_MD5;
   TLS_KRB5_WITH_3DES_EDE_CBC_MD5; TLS_KRB5_WITH_RC4_128_MD5; TLS_KRB5_WITH_IDEA_CBC_MD5;
   TLS_KRB5_EXPORT_WITH_DES_CBC_40_SHA; TLS_KRB5_EXPORT_WITH_RC2_CBC_40_SHA; TLS_KRB5_EXPORT_WITH_RC4_40_SHA;
   TLS_KRB5_EXPORT_WITH_DES_CBC_40_MD5; TLS_KRB5_EXPORT_WITH_RC2_CBC_40_MD5; TLS_KRB5_EXPORT_WITH_RC4_40_MD5;
   TLS_PSK_WITH_NULL_SHA; TLS_DHE_PSK_WITH_NULL_SHA; TLS_RSA_PSK_WITH_NULL_SHA; TLS_RSA_WITH_AES_128_CBC_SHA;
   TLS_DH_DSS_WITH_AES_128_CBC_SHA; TLS_DH_RSA_WITH_AES_128_CBC_SHA; TLS_DHE_DSS_WITH_AES_128_CBC_SHA;
   TLS_DHE_RSA_WITH_AES_128_CBC_SHA; TLS_DH_anon_WITH_AES_128_CBC_SHA; TLS_RSA_WITH_AES_256_CBC_SHA;
   TLS_DH_DSS_WITH_AES_256_CBC_SHA; TLS_DH_RSA_WITH_AES_256_CBC_SHA; TLS_DHE_DSS_WITH_AES_256_CBC_SHA;
   TLS_DHE_RSA_WITH_AES_256_CBC_SHA; TLS_DH_anon_WITH_AES_256_CBC_SHA; TLS_RSA_WITH_NULL_SHA256;
   TLS_RSA_WITH_AES_128_CBC_SHA256; TLS_RSA_WITH_AES_256_CBC_SHA256; TLS_DH_DSS_WITH_AES_128_CBC_SHA256;
   TLS_DH_RSA_WITH_AES_128_CBC_SHA256; TLS_DHE_DSS_WITH_AES_128_CBC_SHA256; TLS_RSA_WITH_CAMELLIA_128_CBC_SHA;
   TLS_DH_DSS_WITH_CAMELLIA_128_CBC_SHA; TLS_DH_RSA_WITH_CAMELLIA_128_CBC_SHA; TLS_DHE_DSS_WITH_CAMELLIA_128_CBC_SHA;
   TLS_DHE_RSA_WITH_CAMELLIA_128_CBC_SHA; TLS_DH_anon_WITH_CAMELLIA_128_CBC_SHA; TLS_ECDH_ECDSA_WITH_NULL_SHA_draft;
   TLS_ECDH_ECDSA_WITH_RC4_128_SHA_draft; TLS_ECDH_ECDSA_WITH_DES_CBC_SHA_draft;
   TLS_ECDH_ECDSA_WITH_3DES_EDE_CBC_SHA_draft; TLS_ECDH_ECDSA_WITH_AES_128_CBC_SHA_draft;
   TLS_ECDH_ECDSA_WITH_AES_256_CBC_SHA_draft; TLS_ECDH_ECNRA_WITH_DES_CBC_SHA_draft;
   TLS_ECDH_ECNRA_WITH_3DES_EDE_CBC_SHA_draft; TLS_ECMQV_ECDSA_NULL_SHA_draft;
   TLS_ECMQV_ECDSA_WITH_RC4_128_SHA_draft; TLS_ECMQV_ECDSA_WITH_DES_CBC_SHA_draft;
   TLS_ECMQV_ECDSA_WITH_3DES_EDE_CBC_SHA_draft; TLS_ECMQV_ECNRA_NULL_SHA_draft;
   TLS_ECMQV_ECNRA_WITH_RC4_128_SHA_draft; TLS_ECMQV_ECNRA_WITH_DES_CBC_SHA_draft;
   TLS_ECMQV_ECNRA_WITH_3DES_EDE_CBC_SHA_draft; TLS_ECDH_anon_NULL_WITH_SHA_draft;
   TLS_ECDH_anon_WITH_RC4_128_SHA_draft; TLS_ECDH_anon_WITH_DES_CBC_SHA_draft;
   TLS_ECDH_anon_WITH_3DES_EDE_CBC_SHA_draft; TLS_ECDH_anon_EXPORT_WITH_DES40_CBC_SHA_draft;
   TLS_ECDH_anon_EXPORT_WITH_RC4_40_SHA_draft; TLS_RSA_EXPORT1024_WITH_RC4_56_MD5;
   TLS_RSA_EXPORT1024_WITH_RC2_CBC_56_MD5; TLS_RSA_EXPORT1024_WITH_DES_CBC_SHA;
   TLS_DHE_DSS_EXPORT1024_WITH_DES_CBC_SHA; TLS_RSA_EXPORT1024_WITH_RC4_56_SHA;
   TLS_DHE_DSS_EXPORT1024_WITH_RC4_56_SHA; TLS_DHE_DSS_WITH_RC4_128_SHA; TLS_DHE_RSA_WITH_AES_128_CBC_SHA256;
   TLS_DH_DSS_WITH_AES_256_CBC_SHA256; TLS_DH_RSA_WITH_AES_256_CBC_SHA256; TLS_DHE_DSS_WITH_AES_256_CBC_SHA256;
   TLS_DHE_RSA_WITH_AES_256_CBC_SHA256; TLS_DH_anon_WITH_AES_128_CBC_SHA256; TLS_DH_anon_WITH_AES_256_CBC_SHA256;
   TLS_DHE_DSS_WITH_3DES_EDE_CBC_RMD; TLS_DHE_DSS_WITH_AES_128_CBC_RMD; TLS_DHE_DSS_WITH_AES_256_CBC_RMD;
   TLS_DHE_RSA_WITH_3DES_EDE_CBC_RMD; TLS_DHE_RSA_WITH_AES_128_CBC_RMD; TLS_DHE_RSA_WITH_AES_256_CBC_RMD;
   TLS_RSA_WITH_3DES_EDE_CBC_RMD; TLS_RSA_WITH_AES_128_CBC_RMD; TLS_RSA_WITH_AES_256_CBC_RMD;
   TLS_GOSTR341094_WITH_28147_CNT_IMIT; TLS_GOSTR341001_WITH_28147_CNT_IMIT; TLS_GOSTR341094_WITH_NULL_GOSTR3411;
   TLS_GOSTR341001_WITH_NULL_GOSTR3411; TLS_RSA_WITH_CAMELLIA_256_CBC_SHA; TLS_DH_DSS_WITH_CAMELLIA_256_CBC_SHA;
   TLS_DH_RSA_WITH_CAMELLIA_256_CBC_SHA; TLS_DHE_DSS_WITH_CAMELLIA_256_CBC_SHA;
   TLS_DHE_RSA_WITH_CAMELLIA_256_CBC_SHA; TLS_DH_anon_WITH_CAMELLIA_256_CBC_SHA; TLS_PSK_WITH_RC4_128_SHA;
   TLS_PSK_WITH_3DES_EDE_CBC_SHA; TLS_PSK_WITH_AES_128_CBC_SHA; TLS_PSK_WITH_AES_256_CBC_SHA;
   TLS_DHE_PSK_WITH_RC4_128_SHA; TLS_DHE_PSK_WITH_3DES_EDE_CBC_SHA; TLS_DHE_PSK_WITH_AES_128_CBC_SHA;
   TLS_DHE_PSK_WITH_AES_256_CBC_SHA; TLS_RSA_PSK_WITH_RC4_128_SHA; TLS_RSA_PSK_WITH_3DES_EDE_CBC_SHA;
   TLS_RSA_PSK_WITH_AES_128_CBC_SHA; TLS_RSA_PSK_WITH_AES_256_CBC_SHA; TLS_RSA_WITH_SEED_CBC_SHA;
   TLS_DH_DSS_WITH_SEED_CBC_SHA; TLS_DH_RSA_WITH_SEED_CBC_SHA; TLS_DHE_DSS_WITH_SEED_CBC_SHA;
   TLS_DHE_RSA_WITH_SEED_CBC_SHA; TLS_DH_anon_WITH_SEED_CBC_SHA; TLS_RSA_WITH_AES_128_GCM_SHA256;
   TLS_RSA_WITH_AES_256_GCM_SHA384; TLS_DHE_RSA_WITH_AES_128_GCM_SHA256; TLS_DHE_RSA_WITH_AES_256_GCM_SHA384;
   TLS_DH_RSA_WITH_AES_128_GCM_SHA256; TLS_DH_RSA_WITH_AES_256_GCM_SHA384; TLS_DHE_DSS_WITH_AES_128_GCM_SHA256;
   TLS_DHE_DSS_WITH_AES_256_GCM_SHA384; TLS_DH_DSS_WITH_AES_128_GCM_SHA256; TLS_DH_DSS_WITH_AES_256_GCM_SHA384;
   TLS_DH_anon_WITH_AES_128_GCM_SHA256; TLS_DH_anon_WITH_AES_256_GCM_SHA384; TLS_PSK_WITH_AES_128_GCM_SHA256;
   TLS_PSK_WITH_AES_256_GCM_SHA384; TLS_DHE_PSK_WITH_AES_128_GCM_SHA256; TLS_DHE_PSK_WITH_AES_256_GCM_SHA384;
   TLS_RSA_PSK_WITH_AES_128_GCM_SHA256; TLS_RSA_PSK_WITH_AES_256_GCM_SHA384; TLS_PSK_WITH_AES_128_CBC_SHA256;
   TLS_PSK_WITH_AES_256_CBC_SHA384; TLS_PSK_WITH_NULL_SHA256; TLS_PSK_WITH_NULL_SHA384;
   TLS_DHE_PSK_WITH_AES_128_CBC_SHA256; TLS_DHE_PSK_WITH_AES_256_CBC_SHA384; TLS_DHE_PSK_WITH_NULL_SHA256;
   TLS_DHE_PSK_WITH_NULL_SHA384; TLS_RSA_PSK_WITH_AES_128_CBC_SHA256; TLS_RSA_PSK_WITH_AES_256_CBC_SHA384;
   TLS_RSA_PSK_WITH_NULL_SHA256; TLS_RSA_PSK_WITH_NULL_SHA384; TLS_RSA_WITH_CAMELLIA_128_CBC_SHA256;
   TLS_DH_DSS_WITH_CAMELLIA_128_CBC_SHA256; TLS_DH_RSA_WITH_CAMELLIA_128_CBC_SHA256;
   TLS_DHE_DSS_WITH_CAMELLIA_128_CBC_SHA256; TLS_DHE_RSA_WITH_CAMELLIA_128_CBC_SHA256;
   TLS_DH_anon_WITH_CAMELLIA_128_CBC_SHA256; TLS_RSA_WITH_CAMELLIA_256_CBC_SHA256;
   TLS_DH_DSS_WITH_CAMELLIA_256_CBC_SHA256; TLS_DH_RSA_WITH_CAMELLIA_256_CBC_SHA256;
   TLS_DHE_DSS_WITH_CAMELLIA_256_CBC_SHA256; TLS_DHE_RSA_WITH_CAMELLIA_256_CBC_SHA256;
   TLS_DH_anon_WITH_CAMELLIA_256_CBC_SHA256; TLS_EMPTY_RENEGOTIATION_INFO_SCSV; TLS13_AES_128_GCM_SHA256;
   TLS13_AES_256_GCM_SHA384; TLS13_CHACHA20_POLY1305_SHA256; TLS13_AES_128_CCM_SHA256; TLS13_AES_128_CCM_8_SHA256;
   TLS_ECDH_ECDSA_WITH_NULL_SHA; TLS_ECDH_ECDSA_WITH_RC4_128_SHA; TLS_ECDH_ECDSA_WITH_3DES_EDE_CBC_SHA;
   TLS_ECDH_ECDSA_WITH_AES_128_CBC_SHA; TLS_ECDH_ECDSA_WITH_AES_256_CBC_SHA; TLS_ECDHE_ECDSA_WITH_NULL_SHA;
   TLS_ECDHE_ECDSA_WITH_RC4_128_SHA; TLS_ECDHE_ECDSA_WITH_3DES_EDE_CBC_SHA; TLS_ECDHE_ECDSA_WITH_AES_128_CBC_SHA;
   TLS_ECDHE_ECDSA_WITH_AES_256_CBC_SHA; TLS_ECDH_RSA_WITH_NULL_SHA; TLS_ECDH_RSA_WITH_RC4_128_SHA;
   TLS_ECDH_RSA_WITH_3DES_EDE_CBC_SHA; TLS_ECDH_RSA_WITH_AES_128_CBC_SHA; TLS_ECDH_RSA_WITH_AES_256_CBC_SHA;
   TLS_ECDHE_RSA_WITH_NULL_SHA; TLS_ECDHE_RSA_WITH_RC4_128_SHA; TLS_ECDHE_RSA_WITH_3DES_EDE_CBC_SHA;
   TLS_ECDHE_RSA_WITH_AES_128_CBC_SHA; TLS_ECDHE_RSA_WITH_AES_256_CBC_SHA; TLS_ECDH_anon_WITH_NULL_SHA;
   TLS_ECDH_anon_WITH_RC4_128_SHA; TLS_ECDH_anon_WITH_3DES_EDE_CBC_SHA; TLS_ECDH_anon_WITH_AES_128_CBC_SHA;
   TLS_ECDH_anon_WITH_AES_256_CBC_SHA; TLS_SRP_SHA_WITH_3DES_EDE_CBC_SHA; TLS_SRP_SHA_RSA_WITH_3DES_EDE_CBC_SHA;
   TLS_SRP_SHA_DSS_WITH_3DES_EDE_CBC_SHA; TLS_SRP_SHA_WITH_AES_128_CBC_SHA; TLS_SRP_SHA_RSA_WITH_AES_128_CBC_SHA;
   TLS_SRP_SHA_DSS_WITH_AES_128_CBC_SHA; TLS_SRP_SHA_WITH_AES_256_CBC_SHA; TLS_SRP_SHA_RSA_WITH_AES_256_CBC_SHA;
   TLS_SRP_SHA_DSS_WITH_AES_256_CBC_SHA; TLS_ECDHE_ECDSA_WITH_AES_128_CBC_SHA256;
   TLS_ECDHE_ECDSA_WITH_AES_256_CBC_SHA384; TLS_ECDH_ECDSA_WITH_AES_128_CBC_SHA256;
   TLS_ECDH_ECDSA_WITH_AES_256_CBC_SHA384; TLS_ECDHE_RSA_WITH_AES_128_CBC_SHA256;
   TLS_ECDHE_RSA_WITH_AES_256_CBC_SHA384; TLS_ECDH_RSA_WITH_AES_128_CBC_SHA256; TLS_ECDH_RSA_WITH_AES_256_CBC_SHA384;
   TLS_ECDHE_ECDSA_WITH_AES_128_GCM_SHA256; TLS_ECDHE_ECDSA_WITH_AES_256_GCM_SHA384;
   TLS_ECDH_ECDSA_WITH_AES_128_GCM_SHA256; TLS_ECDH_ECDSA_WITH_AES_256_GCM_SHA384;
   TLS_ECDHE_RSA_WITH_AES_128_GCM_SHA256; TLS_ECDHE_RSA_WITH_AES_256_GCM_SHA384;
   TLS_ECDH_RSA_WITH_AES_128_GCM_SHA256; TLS_ECDH_RSA_WITH_AES_256_GCM_SHA384; TLS_ECDHE_PSK_WITH_RC4_128_SHA;
   TLS_ECDHE_PSK_WITH_3DES_EDE_CBC_SHA; TLS_ECDHE_PSK_WITH_AES_128_CBC_SHA; TLS_ECDHE_PSK_WITH_AES_256_CBC_SHA;
   TLS_ECDHE_PSK_WITH_AES_128_CBC_SHA256; TLS_ECDHE_PSK_WITH_AES_256_CBC_SHA384; TLS_ECDHE_PSK_WITH_NULL_SHA;
   TLS_ECDHE_PSK_WITH_NULL_SHA256; TLS_ECDHE_PSK_WITH_NULL_SHA384; TLS_RSA_WITH_ARIA_128_CBC_SHA256;
   TLS_RSA_WITH_ARIA_256_CBC_SHA384; TLS_DH_DSS_WITH_ARIA_128_CBC_SHA256; TLS_DH_DSS_WITH_ARIA_256_CBC_SHA384;
   TLS_DH_RSA_WITH_ARIA_128_CBC_SHA256; TLS_DH_RSA_WITH_ARIA_256_CBC_SHA384; TLS_DHE_DSS_WITH_ARIA_128_CBC_SHA256;
   TLS_DHE_DSS_WITH_ARIA_256_CBC_SHA384; TLS_DHE_RSA_WITH_ARIA_128_CBC_SHA256; TLS_DHE_RSA_WITH_ARIA_256_CBC_SHA384;
   TLS_DH_anon_WITH_ARIA_128_CBC_SHA256; TLS_DH_anon_WITH_ARIA_256_CBC_SHA384;
   TLS_ECDHE_ECDSA_WITH_ARIA_128_CBC_SHA256; TLS_ECDHE_ECDSA_WITH_ARIA_256_CBC_SHA384;
   TLS_ECDH_ECDSA_WITH_ARIA_128_CBC_SHA256; TLS_ECDH_ECDSA_WITH_ARIA_256_CBC_SHA384;
   TLS_ECDHE_RSA_WITH_ARIA_128_CBC_SHA256; TLS_ECDHE_RSA_WITH_ARIA_256_CBC_SHA384;
   TLS_ECDH_RSA_WITH_ARIA_128_CBC_SHA256; TLS_ECDH_RSA_WITH_ARIA_256_CBC_SHA384; TLS_RSA_WITH_ARIA_128_GCM_SHA256;
   TLS_RSA_WITH_ARIA_256_GCM_SHA384; TLS_DHE_RSA_WITH_ARIA_128_GCM_SHA256; TLS_DHE_RSA_WITH_ARIA_256_GCM_SHA384;
   TLS_DH_RSA_WITH_ARIA_128_GCM_SHA256; TLS_DH_RSA_WITH_ARIA_256_GCM_SHA384; TLS_DHE_DSS_WITH_ARIA_128_GCM_SHA256;
   TLS_DHE_DSS_WITH_ARIA_256_GCM_SHA384; TLS_DH_DSS_WITH_ARIA_128_GCM_SHA256; TLS_DH_DSS_WITH_ARIA_256_GCM_SHA384;
   TLS_DH_anon_WITH_ARIA_128_GCM_SHA256; TLS_DH_anon_WITH_ARIA_256_GCM_SHA384;
   TLS_ECDHE_ECDSA_WITH_ARIA_128_GCM_SHA256; TLS_ECDHE_ECDSA_WITH_ARIA_256_GCM_SHA384;
   TLS_ECDH_ECDSA_WITH_ARIA_128_GCM_SHA256; TLS_ECDH_ECDSA_WITH_ARIA_256_GCM_SHA384;
   TLS_ECDHE_RSA_WITH_ARIA_128_GCM_SHA256; TLS_ECDHE_RSA_WITH_ARIA_256_GCM_SHA384;
   TLS_ECDH_RSA_WITH_ARIA_128_GCM_SHA256; TLS_ECDH_RSA_WITH_ARIA_256_GCM_SHA384; TLS_PSK_WITH_ARIA_128_CBC_SHA256;
   TLS_PSK_WITH_ARIA_256_CBC_SHA384; TLS_DHE_PSK_WITH_ARIA_128_CBC_SHA256; TLS_DHE_PSK_WITH_ARIA_256_CBC_SHA384;
   TLS_RSA_PSK_WITH_ARIA_128_CBC_SHA256; TLS_RSA_PSK_WITH_ARIA_256_CBC_SHA384; TLS_PSK_WITH_ARIA_128_GCM_SHA256;
   TLS_PSK_WITH_ARIA_256_GCM_SHA384; TLS_DHE_PSK_WITH_ARIA_128_GCM_SHA256; TLS_DHE_PSK_WITH_ARIA_256_GCM_SHA384;
   TLS_RSA_PSK_WITH_ARIA_128_GCM_SHA256; TLS_RSA_PSK_WITH_ARIA_256_GCM_SHA384;
   TLS_ECDHE_PSK_WITH_ARIA_128_CBC_SHA256; TLS_ECDHE_PSK_WITH_ARIA_256_CBC_SHA384;
   TLS_ECDHE_ECDSA_WITH_CAMELLIA_128_CBC_SHA256; TLS_ECDHE_ECDSA_WITH_CAMELLIA_256_CBC_SHA384;
   TLS_ECDH_ECDSA_WITH_CAMELLIA_128_CBC_SHA256; TLS_ECDH_ECDSA_WITH_CAMELLIA_256_CBC_SHA384;
   TLS_ECDHE_RSA_WITH_CAMELLIA_128_CBC_SHA256; TLS_ECDHE_RSA_WITH_CAMELLIA_256_CBC_SHA384;
   TLS_ECDH_RSA_WITH_CAMELLIA_128_CBC_SHA256; TLS_ECDH_RSA_WITH_CAMELLIA_256_CBC_SHA384;
   TLS_RSA_WITH_CAMELLIA_128_GCM_SHA256; TLS_RSA_WITH_CAMELLIA_256_GCM_SHA384;
   TLS_DHE_RSA_WITH_CAMELLIA_128_GCM_SHA256; TLS_DHE_RSA_WITH_CAMELLIA_256_GCM_SHA384;
   TLS_DH_RSA_WITH_CAMELLIA_128_GCM_SHA256; TLS_DH_RSA_WITH_CAMELLIA_256_GCM_SHA384;
   TLS_DHE_DSS_WITH_CAMELLIA_128_GCM_SHA256; TLS_DHE_DSS_WITH_CAMELLIA_256_GCM_SHA384;
   TLS_DH_DSS_WITH_CAMELLIA_128_GCM_SHA256; TLS_DH_DSS_WITH_CAMELLIA_256_GCM_SHA384;
   TLS_DH_anon_WITH_CAMELLIA_128_GCM_SHA256; TLS_DH_anon_WITH_CAMELLIA_256_GCM_SHA384;
   TLS_ECDHE_ECDSA_WITH_CAMELLIA_128_GCM_SHA256; TLS_ECDHE_ECDSA_WITH_CAMELLIA_256_GCM_SHA384;
   TLS_ECDH_ECDSA_WITH_CAMELLIA_128_GCM_SHA256; TLS_ECDH_ECDSA_WITH_CAMELLIA_256_GCM_SHA384;
   TLS_ECDHE_RSA_WITH_CAMELLIA_128_GCM_SHA256; TLS_ECDHE_RSA_WITH_CAMELLIA_256_GCM_SHA384;
   TLS_ECDH_RSA_WITH_CAMELLIA_128_GCM_SHA256; TLS_ECDH_RSA_WITH_CAMELLIA_256_GCM_SHA384;
   TLS_PSK_WITH_CAMELLIA_128_GCM_SHA256; TLS_PSK_WITH_CAMELLIA_256_GCM_SHA384;
   TLS_DHE_PSK_WITH_CAMELLIA_128_GCM_SHA256; TLS_DHE_PSK_WITH_CAMELLIA_256_GCM_SHA384;
   TLS_RSA_PSK_WITH_CAMELLIA_128_GCM_SHA256; TLS_RSA_PSK_WITH_CAMELLIA_256_GCM_SHA384;
   TLS_PSK_WITH_CAMELLIA_128_CBC_SHA256; TLS_PSK_WITH_CAMELLIA_256_CBC_SHA384;
   TLS_DHE_PSK_WITH_CAMELLIA_128_CBC_SHA256; TLS_DHE_PSK_WITH_CAMELLIA_256_CBC_SHA384;
   TLS_RSA_PSK_WITH_CAMELLIA_128_CBC_SHA256; TLS_RSA_PSK_WITH_CAMELLIA_256_CBC_SHA384;
   TLS_ECDHE_PSK_WITH_CAMELLIA_128_CBC_SHA256; TLS_ECDHE_PSK_WITH_CAMELLIA_256_CBC_SHA384; TLS_RSA_WITH_AES_128_CCM;
   TLS_RSA_WITH_AES_256_CCM; TLS_DHE_RSA_WITH_AES_128_CCM; TLS_DHE_RSA_WITH_AES_256_CCM; TLS_RSA_WITH_AES_128_CCM_8;
   TLS_RSA_WITH_AES_256_CCM_8; TLS_DHE_RSA_WITH_AES_128_CCM_8; TLS_DHE_RSA_WITH_AES_256_CCM_8;
   TLS_PSK_WITH_AES_128_CCM; TLS_PSK_WITH_AES_256_CCM; TLS_DHE_PSK_WITH_AES_128_CCM; TLS_DHE_PSK_WITH_AES_256_CCM;
   TLS_PSK_WITH_AES_128_CCM_8; TLS_PSK_WITH_AES_256_CCM_8; TLS_PSK_DHE_WITH_AES_128_CCM_8;
   TLS_PSK_DHE_WITH_AES_256_CCM_8; TLS_ECDHE_ECDSA_WITH_AES_128_CCM; TLS_ECDHE_ECDSA_WITH_AES_256_CCM;
   TLS_ECDHE_ECDSA_WITH_AES_128_CCM_8; TLS_ECDHE_ECDSA_WITH_AES_256_CCM_8;
   TLS_ECDHE_RSA_WITH_CHACHA20_POLY1305_SHA256; TLS_ECDHE_ECDSA_WITH_CHACHA20_POLY1305_SHA256;
   TLS_DHE_RSA_WITH_CHACHA20_POLY1305_SHA256; TLS_PSK_WITH_CHACHA20_POLY1305_SHA256;
   TLS_ECDHE_PSK_WITH_CHACHA20_POLY1305_SHA256; TLS_DHE_PSK_WITH_CHACHA20_POLY1305_SHA256;
   TLS_RSA_PSK_WITH_CHACHA20_POLY1305_SHA256; SSL_RSA_FIPS_WITH_DES_CBC_SHA; SSL_RSA_FIPS_WITH_3DES_EDE_CBC_SHA].
Lemma known_CipherSuite n : enum_from table (code n) = Known n.
Proof. revert n. enum_checked. Qed.
#[global] Instance name_eq_dec : EqDecision name := enum_code_dec table code known_CipherSuite.
Definition t : Type := tls_enum name.
Definition codec : Codec t := enum_codec 2 table.
Lemma unique_CipherSuite : table_ok table.
Proof. table_checked. Qed.
Lemma wf_CipherSuite n : enum_wf 2 table (Known n).
Proof. revert n. names_checked code. Qed.
#[global] Instance wire_CipherSuite : Wire codec (enum_wf 2 table).
Proof. apply enum_wire; [done|apply unique_CipherSuite]. Qed.
#[global] Instance exact_CipherSuite : Exact codec (enum_wf 2 table).
Proof. apply enum_exact, unique_CipherSuite. Qed.
End CipherSuite.

Module SignatureScheme.
Inductive name : Type :=
| RSA_PKCS1_SHA1 | ECDSA_SHA1_Legacy | RSA_PKCS1_SHA256 | ECDSA_NISTP256_SHA256 | RSA_PKCS1_SHA384
| ECDSA_NISTP384_SHA384 | RSA_PKCS1_SHA512 | ECDSA_NISTP521_SHA512 | RSA_PSS_SHA256 | RSA_PSS_SHA384 | RSA_PSS_SHA512
| ED25519 | ED448.
Definition code (n : name) : Z :=
  match n with
  | RSA_PKCS1_SHA1 => 0x0201 | ECDSA_SHA1_Legacy => 0x0203 | RSA_PKCS1_SHA256 => 0x0401
  | ECDSA_NISTP256_SHA256 => 0x0403 | RSA_PKCS1_SHA384 => 0x0501 | ECDSA_NISTP384_SHA384 => 0x0503
  | RSA_PKCS1_SHA512 => 0x0601 | ECDSA_NISTP521_SHA512 => 0x0603 | RSA_PSS_SHA256 => 0x0804
  | RSA_PSS_SHA384 => 0x0805 | RSA_PSS_SHA512 => 0x0806 | ED25519 => 0x0807 | ED448 => 0x0808
  end.
Definition table : list (name * Z) := map (fun n => (n, code n))
  [RSA_PKCS1_SHA1; ECDSA_SHA1_Legacy; RSA_PKCS1_SHA256; ECDSA_NISTP256_SHA256; RSA_PKCS1_SHA384;
   ECDSA_NISTP384_SHA384; RSA_PKCS1_SHA512; ECDSA_NISTP521_SHA512; RSA_PSS_SHA256; RSA_PSS_SHA384; RSA_PSS_SHA512;
   ED25519; ED448].
Lemma known_SignatureScheme n : enum_from table (code n) = Known n.
Proof. revert n. enum_checked. Qed.
#[global] Instance name_eq_dec : EqDecision name := enum_code_dec table code known_SignatureScheme.
Definition t : Type := tls_enum name.
Definition codec : Codec t := enum_codec 2 table.
Lemma unique_SignatureScheme : table_ok table.
Proof. table_checked. Qed.
Lemma wf_SignatureScheme n : enum_wf 2 table (Known n).
Proof. revert n. names_checked code. Qed.
#[global] Instance wire_SignatureScheme : Wire codec (enum_wf 2 table).
Proof. apply enum_wire; [done|apply unique_SignatureScheme]. Qed.
#[global] Instance exact_SignatureScheme : Exact codec (enum_wf 2 table).
Proof. apply enum_exact, unique_SignatureScheme. Qed.
End SignatureScheme.

Module SignatureAlgorithm.
Inductive name : Type :=
| Anonymous | RSA | DSA | ECDSA | ED25519 | ED448.
Definition code (n : name) : Z :=
  match n with
  | Anonymous => 0x00 | RSA => 0x01 | DSA => 0x02 | ECDSA => 0x03 | ED25519 => 0x07 | ED448 => 0x08
  end.
Definition table : list (name * Z) := map (fun n => (n, code n))
  [Anonymous; RSA; DSA; ECDSA; ED25519; ED448].
Lemma known_SignatureAlgorithm n : enum_from table (code n) = Known n.
Proof. revert n. enum_checked. Qed.
#[global] Instance name_eq_dec : EqDecision name := enum_code_dec table code known_SignatureAlgorithm.
Definition t : Type := tls_enum name.
Definition codec : Codec t := enum_codec 1 table.
Lemma unique_SignatureAlgorithm : table_ok table.
Proof. table_checked. Qed.
Lemma wf_SignatureAlgorithm n : enum_wf 1 table (Known n).
Proof. revert n. names_checked code. Qed.
#[global] Instance wire_SignatureAlgorithm : Wire codec (enum_wf 1 table).
Proof. apply enum_wire; [done|apply unique_SignatureAlgorithm]. Qed.
#[global] Instance exact_SignatureAlgorithm : Exact codec (enum_wf 1 table).
Proof. apply enum_exact, unique_SignatureAlgorithm. Qed.
End SignatureAlgorithm.

Module HashAlgorithm.
Inductive name : Type :=
| NONE | MD5 | SHA1 | SHA224 | SHA256 | SHA384 | SHA512.
Definition code (n : name) : Z :=
  match n with
  | NONE => 0x00 | MD5 => 0x01 | SHA1 => 0x02 | SHA224 => 0x03 | SHA256 => 0x04 | SHA384 => 0x05 | SHA512 => 0x06
  end.
Definition table : list (name * Z) := map (fun n => (n, code n))
  [NONE; MD5; SHA1; SHA224; SHA256; SHA384; SHA512].
Lemma known_HashAlgorithm n : enum_from table (code n) = Known n.
Proof. revert n. enum_checked. Qed.
#[global] Instance name_eq_dec : EqDecision name := enum_code_dec table code known_HashAlgorithm.
Definition t : Type := tls_enum name.
Definition codec : Codec t := enum_codec 1 table.
Lemma unique_HashAlgorithm : table_ok table.
Proof. table_checked. Qed.
Lemma wf_HashAlgorithm n : enum_wf 1 table (Known n).
Proof. revert n. names_checked code. Qed.
#[global] Instance wire_HashAlgorithm : Wire codec (enum_wf 1 table).
Proof. apply enum_wire; [done|apply unique_HashAlgorithm]. Qed.
#[global] Instance exact_HashAlgorithm : Exact codec (enum_wf 1 table).
Proof. apply enum_exact, unique_HashAlgorithm. Qed.
End HashAlgorithm.

Module ClientCertificateType.
Inductive name : Type :=
| RSASign | DSSSign | RSAFixedDH | DSSFixedDH | RSAEphemeralDH | DSSEphemeralDH | FortezzaDMS | ECDSASign
| RSAFixedECDH | ECDSAFixedECDH.
Definition code (n : name) : Z :=
  match n with
  | RSASign => 0x01 | DSSSign => 0x02 | RSAFixedDH => 0x03 | DSSFixedDH => 0x04 | RSAEphemeralDH => 0x05
  | DSSEphemeralDH => 0x06 | FortezzaDMS => 0x14 | ECDSASign => 0x40 | RSAFixedECDH => 0x41 | ECDSAFixedECDH => 0x42
  end.
Definition table : list (name * Z) := map (fun n => (n, code n))
  [RSASign; DSSSign; RSAFixedDH; DSSFixedDH; RSAEphemeralDH; DSSEphemeralDH; FortezzaDMS; ECDSASign; RSAFixedECDH;
   ECDSAFixedECDH].
Lemma known_ClientCertificateType n : enum_from table (code n) = Known n.
Proof. revert n. enum_checked. Qed.
#[global] Instance name_eq_dec : EqDecision name := enum_code_dec table code known_ClientCertificateType.
Definition t : Type := tls_enum name.
Definition codec : Codec t := enum_codec 1 table.
Lemma unique_ClientCertificateType : table_ok table.
Proof. table_checked. Qed.
Lemma wf_ClientCertificateType n : enum_wf 1 table (Known n).
Proof. revert n. names_checked code. Qed.
#[global] Instance wire_ClientCertificateType : Wire codec (enum_wf 1 table).
Proof. apply enum_wire; [done|apply unique_ClientCertificateType]. Qed.
#[global] Instance exact_ClientCertificateType : Exact codec (enum_wf 1 table).
Proof. apply enum_exact, unique_ClientCertificateType. Qed.
End ClientCertificateType.

Module Compression.
Inductive name : Type :=
| Null | Deflate | LSZ.
Definition code (n : name) : Z :=
  match n with
  | Null => 0x00 | Deflate => 0x01 | LSZ => 0x40
  end.
Definition table : list (name * Z) := map (fun n => (n, code n))
  [Null; Deflate; LSZ].
Lemma known_Compression n : enum_from table (code n) = Known n.
Proof. revert n. enum_checked. Qed.
#[global] Instance name_eq_dec : EqDecision name := enum_code_dec table code known_Compression.
Definition t : Type := tls_enum name.
Definition codec : Codec t := enum_codec 1 table.
Lemma unique_Compression : table_ok table.
Proof. table_checked. Qed.
Lemma wf_Compression n : enum_wf 1 table (Known n).
Proof. revert n. names_checked code. Qed.
#[global] Instance wire_Compression : Wire codec (enum_wf 1 table).
Proof. apply enum_wire; [done|apply unique_Compression]. Qed.
#[global] Instance exact_Compression : Exact codec (enum_wf 1 table).
Proof. apply enum_exact, unique_Compression. Qed.
End Compression.

Module HeartbeatMessageType.
Inductive name : Type :=
| Request | Response.
Definition code (n : name) : Z :=
  match n with
  | Request => 0x01 | Response => 0x02
  end.
Definition table : list (name * Z) := map (fun n => (n, code n))
  [Request; Response].
Lemma known_HeartbeatMessageType n : enum_from table (code n) = Known n.
Proof. revert n. enum_checked. Qed.
#[global] Instance name_eq_dec : EqDecision name := enum_code_dec table code known_HeartbeatMessageType.
Definition t : Type := tls_enum name.
Definition codec : Codec t := enum_codec 1 table.
Lemma unique_HeartbeatMessageType : table_ok table.
Proof. table_checked. Qed.
Lemma wf_HeartbeatMessageType n : enum_wf 1 table (Known n).
Proof. revert n. names_checked code. Qed.
#[global] Instance wire_HeartbeatMessageType : Wire codec (enum_wf 1 table).
Proof. apply enum_wire; [done|apply unique_HeartbeatMessageType]. Qed.
#[global] Instance exact_HeartbeatMessageType : Exact codec (enum_wf 1 table).
Proof. apply enum_exact, unique_HeartbeatMessageType. Qed.
End HeartbeatMessageType.

Module ExtensionType.
Inductive name : Type :=
| ServerName | MaxFragmentLength | ClientCertificateUrl | TrustedCAKeys | TruncatedHMAC | StatusRequest | UserMapping
| ClientAuthz | ServerAuthz | CertificateType | EllipticCurves | ECPointFormats | SRP | SignatureAlgorithms | UseSRTP
| Heartbeat | ALProtocolNegotiation | SCT | Padding | ExtendedMasterSecret | SessionTicket | PreSharedKey | EarlyData
| SupportedVersions | Cookie | PSKKeyExchangeModes | TicketEarlyDataInfo | CertificateAuthorities | OIDFilters
| PostHandshakeAuth | SignatureAlgorithmsCert | KeyShare | TransportParameters | NextProtocolNegotiation | ChannelId
| RenegotiationInfo | TransportParametersDraft.
Definition code (n : name) : Z :=
  match n with
  | ServerName => 0x0000 | MaxFragmentLength => 0x0001 | ClientCertificateUrl => 0x0002 | TrustedCAKeys => 0x0003
  | TruncatedHMAC => 0x0004 | StatusRequest => 0x0005 | UserMapping => 0x0006 | ClientAuthz => 0x0007
  | ServerAuthz => 0x0008 | CertificateType => 0x0009 | EllipticCurves => 0x000a | ECPointFormats => 0x000b
  | SRP => 0x000c | SignatureAlgorithms => 0x000d | UseSRTP => 0x000e | Heartbeat => 0x000f
  | ALProtocolNegotiation => 0x0010 | SCT => 0x0012 | Padding => 0x0015 | ExtendedMasterSecret => 0x0017
  | SessionTicket => 0x0023 | PreSharedKey => 0x0029 | EarlyData => 0x002a | SupportedVersions => 0x002b
  | Cookie => 0x002c | PSKKeyExchangeModes => 0x002d | TicketEarlyDataInfo => 0x002e
  | CertificateAuthorities => 0x002f | OIDFilters => 0x0030 | PostHandshakeAuth => 0x0031
  | SignatureAlgorithmsCert => 0x0032 | KeyShare => 0x0033 | TransportParameters => 0x0039
  | NextProtocolNegotiation => 0x3374 | ChannelId => 0x754f | RenegotiationInfo => 0xff01
  | TransportParametersDraft => 0xffa5
  end.
Definition table : list (name * Z) := map (fun n => (n, code n))
  [ServerName; MaxFragmentLength; ClientCertificateUrl; TrustedCAKeys; TruncatedHMAC; StatusRequest; UserMapping;
   ClientAuthz; ServerAuthz; CertificateType; EllipticCurves; ECPointFormats; SRP; SignatureAlgorithms; UseSRTP;
   Heartbeat; ALProtocolNegotiation; SCT; Padding; ExtendedMasterSecret; SessionTicket; PreSharedKey; EarlyData;
   SupportedVersions; Cookie; PSKKeyExchangeModes; TicketEarlyDataInfo; CertificateAuthorities; OIDFilters;
   PostHandshakeAuth; SignatureAlgorithmsCert; KeyShare; TransportParameters; NextProtocolNegotiation; ChannelId;
   RenegotiationInfo; TransportParametersDraft].
Lemma known_ExtensionType n : enum_from table (code n) = Known n.
Proof. revert n. enum_checked. Qed.
#[global] Instance name_eq_dec : EqDecision name := enum_code_dec table code known_ExtensionType.
Definition t : Type := tls_enum name.
Definition codec : Codec t := enum_codec 2 table.
Lemma unique_ExtensionType : table_ok table.
Proof. table_checked. Qed.
Lemma wf_ExtensionType n : enum_wf 2 table (Known n).
Proof. revert n. names_checked code. Qed.
#[global] Instance wire_ExtensionType : Wire codec (enum_wf 2 table).
Proof. apply enum_wire; [done|apply unique_ExtensionType]. Qed.
#[global] Instance exact_ExtensionType : Exact codec (enum_wf 2 table).
Proof. apply enum_exact, unique_ExtensionType. Qed.
End ExtensionType.

Module ServerNameType.
Inductive name : Type :=
| HostName.
Definition code (n : name) : Z :=
  match n with
  | HostName => 0x00
  end.
Definition table : list (name * Z) := map (fun n => (n, code n))
  [HostName].
Lemma known_ServerNameType n : enum_from table (code n) = Known n.
Proof. revert n. enum_checked. Qed.
#[global] Instance name_eq_dec : EqDecision name := enum_code_dec table code known_ServerNameType.
Definition t : Type := tls_enum name.
Definition codec : Codec t := enum_codec 1 table.
Lemma unique_ServerNameType : table_ok table.
Proof. table_checked. Qed.
Lemma wf_ServerNameType n : enum_wf 1 table (Known n).
Proof. revert n. names_checked code. Qed.
#[global] Instance wire_ServerNameType : Wire codec (enum_wf 1 table).
Proof. apply enum_wire; [done|apply unique_ServerNameType]. Qed.
#[global] Instance exact_ServerNameType : Exact codec (enum_wf 1 table).
Proof. apply enum_exact, unique_ServerNameType. Qed.
End ServerNameType.

Module NamedCurve.
Inductive name : Type :=
| sect163k1 | sect163r1 | sect163r2 | sect193r1 | sect193r2 | sect233k1 | sect233r1 | sect239k1 | sect283k1
| sect283r1 | sect409k1 | sect409r1 | sect571k1 | sect571r1 | secp160k1 | secp160r1 | secp160r2 | secp192k1
| secp192r1 | secp224k1 | secp224r1 | secp256k1 | secp256r1 | secp384r1 | secp521r1 | brainpoolp256r1
| brainpoolp384r1 | brainpoolp512r1 | X25519 | X448 | arbitrary_explicit_prime_curves
| arbitrary_explicit_char2_curves.
Definition code (n : name) : Z :=
  match n with
  | sect163k1 => 0x0001 | sect163r1 => 0x0002 | sect163r2 => 0x0003 | sect193r1 => 0x0004 | sect193r2 => 0x0005
  | sect233k1 => 0x0006 | sect233r1 => 0x0007 | sect239k1 => 0x0008 | sect283k1 => 0x0009 | sect283r1 => 0x000a
  | sect409k1 => 0x000b | sect409r1 => 0x000c | sect571k1 => 0x000d | sect571r1 => 0x000e | secp160k1 => 0x000f
  | secp160r1 => 0x0010 | secp160r2 => 0x0011 | secp192k1 => 0x0012 | secp192r1 => 0x0013 | secp224k1 => 0x0014
  | secp224r1 => 0x0015 | secp256k1 => 0x0016 | secp256r1 => 0x0017 | secp384r1 => 0x0018 | secp521r1 => 0x0019
  | brainpoolp256r1 => 0x001a | brainpoolp384r1 => 0x001b | brainpoolp512r1 => 0x001c | X25519 => 0x001d
  | X448 => 0x001e | arbitrary_explicit_prime_curves => 0xff01 | arbitrary_explicit_char2_curves => 0xff02
  end.
Definition table : list (name * Z) := map (fun n => (n, code n))
  [sect163k1; sect163r1; sect163r2; sect193r1; sect193r2; sect233k1; sect233r1; sect239k1; sect283k1; sect283r1;
   sect409k1; sect409r1; sect571k1; sect571r1; secp160k1; secp160r1; secp160r2; secp192k1; secp192r1; secp224k1;
   secp224r1; secp256k1; secp256r1; secp384r1; secp521r1; brainpoolp256r1; brainpoolp384r1; brainpoolp512r1; X25519;
   X448; arbitrary_explicit_prime_curves; arbitrary_explicit_char2_curves].
Lemma known_NamedCurve n : enum_from table (code n) = Known n.
Proof. revert n. enum_checked. Qed.
#[global] Instance name_eq_dec : EqDecision name := enum_code_dec table code known_NamedCurve.
Definition t : Type := tls_enum name.
Definition codec : Codec t := enum_codec 2 table.
Lemma unique_NamedCurve : table_ok table.
Proof. table_checked. Qed.
Lemma wf_NamedCurve n : enum_wf 2 table (Known n).
Proof. revert n. names_checked code. Qed.
#[global] Instance wire_NamedCurve : Wire codec (enum_wf 2 table).
Proof. apply enum_wire; [done|apply unique_NamedCurve]. Qed.
#[global] Instance exact_NamedCurve : Exact codec (enum_wf 2 table).
Proof. apply enum_exact, unique_NamedCurve. Qed.
End NamedCurve.

Module NamedGroup.
Inductive name : Type :=
| secp256r1 | secp384r1 | secp521r1 | X25519 | X448 | FFDHE2048 | FFDHE3072 | FFDHE4096 | FFDHE6144 | FFDHE8192.
Definition code (n : name) : Z :=
  match n with
  | secp256r1 => 0x0017 | secp384r1 => 0x0018 | secp521r1 => 0x0019 | X25519 => 0x001d | X448 => 0x001e
  | FFDHE2048 => 0x0100 | FFDHE3072 => 0x0101 | FFDHE4096 => 0x0102 | FFDHE6144 => 0x0103 | FFDHE8192 => 0x0104
  end.
Definition table : list (name * Z) := map (fun n => (n, code n))
  [secp256r1; secp384r1; secp521r1; X25519; X448; FFDHE2048; FFDHE3072; FFDHE4096; FFDHE6144; FFDHE8192].
Lemma known_NamedGroup n : enum_from table (code n) = Known n.
Proof. revert n. enum_checked. Qed.
#[global] Instance name_eq_dec : EqDecision name := enum_code_dec table code known_NamedGroup.
Definition t : Type := tls_enum name.
Definition codec : Codec t := enum_codec 2 table.
Lemma unique_NamedGroup : table_ok table.
Proof. table_checked. Qed.
Lemma wf_NamedGroup n : enum_wf 2 table (Known n).
Proof. revert n. names_checked code. Qed.
#[global] Instance wire_NamedGroup : Wire codec (enum_wf 2 table).
Proof. apply enum_wire; [done|apply unique_NamedGroup]. Qed.
#[global] Instance exact_NamedGroup : Exact codec (enum_wf 2 table).
Proof. apply enum_exact, unique_NamedGroup. Qed.
End NamedGroup.

Module ECPointFormat.
Inductive name : Type :=
| Uncompressed | ANSIX962CompressedPrime | ANSIX962CompressedChar2.
Definition code (n : name) : Z :=
  match n with
  | Uncompressed => 0x00 | ANSIX962CompressedPrime => 0x01 | ANSIX962CompressedChar2 => 0x02
  end.
Definition table : list (name * Z) := map (fun n => (n, code n))
  [Uncompressed; ANSIX962CompressedPrime; ANSIX962CompressedChar2].
Lemma known_ECPointFormat n : enum_from table (code n) = Known n.
Proof. revert n. enum_checked. Qed.
#[global] Instance name_eq_dec : EqDecision name := enum_code_dec table code known_ECPointFormat.
Definition t : Type := tls_enum name.
Definition codec : Codec t := enum_codec 1 table.
Lemma unique_ECPointFormat : table_ok table.
Proof. table_checked. Qed.
Lemma wf_ECPointFormat n : enum_wf 1 table (Known n).
Proof. revert n. names_checked code. Qed.
#[global] Instance wire_ECPointFormat : Wire codec (enum_wf 1 table).
Proof. apply enum_wire; [done|apply unique_ECPointFormat]. Qed.
#[global] Instance exact_ECPointFormat : Exact codec (enum_wf 1 table).
Proof. apply enum_exact, unique_ECPointFormat. Qed.
End ECPointFormat.

Module HeartbeatMode.
Inductive name : Type :=
| PeerAllowedToSend | PeerNotAllowedToSend.
Definition code (n : name) : Z :=
  match n with
  | PeerAllowedToSend => 0x01 | PeerNotAllowedToSend => 0x02
  end.
Definition table : list (name * Z) := map (fun n => (n, code n))
  [PeerAllowedToSend; PeerNotAllowedToSend].
Lemma known_HeartbeatMode n : enum_from table (code n) = Known n.
Proof. revert n. enum_checked. Qed.
#[global] Instance name_eq_dec : EqDecision name := enum_code_dec table code known_HeartbeatMode.
Definition t : Type := tls_enum name.
Definition codec : Codec t := enum_codec 1 table.
Lemma unique_HeartbeatMode : table_ok table.
Proof. table_checked. Qed.
Lemma wf_HeartbeatMode n : enum_wf 1 table (Known n).
Proof. revert n. names_checked code. Qed.
#[global] Instance wire_HeartbeatMode : Wire codec (enum_wf 1 table).
Proof. apply enum_wire; [done|apply unique_HeartbeatMode]. Qed.
#[global] Instance exact_HeartbeatMode : Exact codec (enum_wf 1 table).
Proof. apply enum_exact, unique_HeartbeatMode. Qed.
End HeartbeatMode.

Module ECCurveType.
Inductive name : Type :=
| ExplicitPrime | ExplicitChar2 | NamedCurve.
Definition code (n : name) : Z :=
  match n with
  | ExplicitPrime => 0x01 | ExplicitChar2 => 0x02 | NamedCurve => 0x03
  end.
Definition table : list (name * Z) := map (fun n => (n, code n))
  [ExplicitPrime; ExplicitChar2; NamedCurve].
Lemma known_ECCurveType n : enum_from table (code n) = Known n.
Proof. revert n. enum_checked. Qed.
#[global] Instance name_eq_dec : EqDecision name := enum_code_dec table code known_ECCurveType.
Definition t : Type := tls_enum name.
Definition codec : Codec t := enum_codec 1 table.
Lemma unique_ECCurveType : table_ok table.
Proof. table_checked. Qed.
Lemma wf_ECCurveType n : enum_wf 1 table (Known n).
Proof. revert n. names_checked code. Qed.
#[global] Instance wire_ECCurveType : Wire codec (enum_wf 1 table).
Proof. apply enum_wire; [done|apply unique_ECCurveType]. Qed.
#[global] Instance exact_ECCurveType : Exact codec (enum_wf 1 table).
Proof. apply enum_exact, unique_ECCurveType. Qed.
End ECCurveType.

Module PSKKeyExchangeMode.
Inductive name : Type :=
| PSK_KE | PSK_DHE_KE.
Definition code (n : name) : Z :=
  match n with
  | PSK_KE => 0x00 | PSK_DHE_KE => 0x01
  end.
Definition table : list (name * Z) := map (fun n => (n, code n))
  [PSK_KE; PSK_DHE_KE].
Lemma known_PSKKeyExchangeMode n : enum_from table (code n) = Known n.
Proof. revert n. enum_checked. Qed.
#[global] Instance name_eq_dec : EqDecision name := enum_code_dec table code known_PSKKeyExchangeMode.
Definition t : Type := tls_enum name.
Definition codec : Codec t := enum_codec 1 table.
Lemma unique_PSKKeyExchangeMode : table_ok table.
Proof. table_checked. Qed.
Lemma wf_PSKKeyExchangeMode n : enum_wf 1 table (Known n).
Proof. revert n. names_checked code. Qed.
#[global] Instance wire_PSKKeyExchangeMode : Wire codec (enum_wf 1 table).
Proof. apply enum_wire; [done|apply unique_PSKKeyExchangeMode]. Qed.
#[global] Instance exact_PSKKeyExchangeMode : Exact codec (enum_wf 1 table).
Proof. apply enum_exact, unique_PSKKeyExchangeMode. Qed.
End PSKKeyExchangeMode.

Module KeyUpdateRequest.
Inductive name : Type :=
| UpdateNotRequested | UpdateRequested.
Definition code (n : name) : Z :=
  match n with
  | UpdateNotRequested => 0x00 | UpdateRequested => 0x01
  end.
Definition table : list (name * Z) := map (fun n => (n, code n))
  [UpdateNotRequested; UpdateRequested].
Lemma known_KeyUpdateRequest n : enum_from table (code n) = Known n.
Proof. revert n. enum_checked. Qed.
#[global] Instance name_eq_dec : EqDecision name := enum_code_dec table code known_KeyUpdateRequest.
Definition t : Type := tls_enum name.
Definition codec : Codec t := enum_codec 1 table.
Lemma unique_KeyUpdateRequest : table_ok table.
Proof. table_checked. Qed.
Lemma wf_KeyUpdateRequest n : enum_wf 1 table (Known n).
Proof. revert n. names_checked code. Qed.
#[global] Instance wire_KeyUpdateRequest : Wire codec (enum_wf 1 table).
Proof. apply enum_wire; [done|apply unique_KeyUpdateRequest]. Qed.
#[global] Instance exact_KeyUpdateRequest : Exact codec (enum_wf 1 table).
Proof. apply enum_exact, unique_KeyUpdateRequest. Qed.
End KeyUpdateRequest.

Module CertificateStatusType.
Inductive name : Type :=
| OCSP.
Definition code (n : name) : Z :=
  match n with
  | OCSP => 0x01
  end.
Definition table : list (name * Z) := map (fun n => (n, code n))
  [OCSP].
Lemma known_CertificateStatusType n : enum_from table (code n) = Known n.
Proof. revert n. enum_checked. Qed.
#[global] Instance name_eq_dec : EqDecision name := enum_code_dec table code known_CertificateStatusType.
Definition t : Type := tls_enum name.
Definition codec : Codec t := enum_codec 1 table.
Lemma unique_CertificateStatusType : table_ok table.
Proof. table_checked. Qed.
Lemma wf_CertificateStatusType n : enum_wf 1 table (Known n).
Proof. revert n. names_checked code. Qed.
#[global] Instance wire_CertificateStatusType : Wire codec (enum_wf 1 table).
Proof. apply enum_wire; [done|apply unique_CertificateStatusType]. Qed.
#[global] Instance exact_CertificateStatusType : Exact codec (enum_wf 1 table).
Proof. apply enum_exact, unique_CertificateStatusType. Qed.
End CertificateStatusType.

Module HpkeKem.
Inductive name : Type :=
| DHKEM_P256_HKDF_SHA256 | DHKEM_P384_HKDF_SHA384 | DHKEM_P521_HKDF_SHA512 | DHKEM_X25519_HKDF_SHA256
| DHKEM_X448_HKDF_SHA512.
Definition code (n : name) : Z :=
  match n with
  | DHKEM_P256_HKDF_SHA256 => 0x0010 | DHKEM_P384_HKDF_SHA384 => 0x0011 | DHKEM_P521_HKDF_SHA512 => 0x0012
  | DHKEM_X25519_HKDF_SHA256 => 0x0020 | DHKEM_X448_HKDF_SHA512 => 0x0021
  end.
Definition table : list (name * Z) := map (fun n => (n, code n))
  [DHKEM_P256_HKDF_SHA256; DHKEM_P384_HKDF_SHA384; DHKEM_P521_HKDF_SHA512; DHKEM_X25519_HKDF_SHA256;
   DHKEM_X448_HKDF_SHA512].
Lemma known_HpkeKem n : enum_from table (code n) = Known n.
Proof. revert n. enum_checked. Qed.
#[global] Instance name_eq_dec : EqDecision name := enum_code_dec table code known_HpkeKem.
Definition t : Type := tls_enum name.
Definition codec : Codec t := enum_codec 2 table.
Lemma unique_HpkeKem : table_ok table.
Proof. table_checked. Qed.
Lemma wf_HpkeKem n : enum_wf 2 table (Known n).
Proof. revert n. names_checked code. Qed.
#[global] Instance wire_HpkeKem : Wire codec (enum_wf 2 table).
Proof. apply enum_wire; [done|apply unique_HpkeKem]. Qed.
#[global] Instance exact_HpkeKem : Exact codec (enum_wf 2 table).
Proof. apply enum_exact, unique_HpkeKem. Qed.
End HpkeKem.

Module HpkeKdf.
Inductive name : Type :=
| HKDF_SHA256 | HKDF_SHA384 | HKDF_SHA512.
Definition code (n : name) : Z :=
  match n with
  | HKDF_SHA256 => 0x0001 | HKDF_SHA384 => 0x0002 | HKDF_SHA512 => 0x0003
  end.
Definition table : list (name * Z) := map (fun n => (n, code n))
  [HKDF_SHA256; HKDF_SHA384; HKDF_SHA512].
Lemma known_HpkeKdf n : enum_from table (code n) = Known n.
Proof. revert n. enum_checked. Qed.
#[global] Instance name_eq_dec : EqDecision name := enum_code_dec table code known_HpkeKdf.
Definition t : Type := tls_enum name.
Definition codec : Codec t := enum_codec 2 table.
Lemma unique_HpkeKdf : table_ok table.
Proof. table_checked. Qed.
Lemma wf_HpkeKdf n : enum_wf 2 table (Known n).
Proof. revert n. names_checked code. Qed.
#[global] Instance wire_HpkeKdf : Wire codec (enum_wf 2 table).
Proof. apply enum_wire; [done|apply unique_HpkeKdf]. Qed.
#[global] Instance exact_HpkeKdf : Exact codec (enum_wf 2 table).
Proof. apply enum_exact, unique_HpkeKdf. Qed.
End HpkeKdf.

Module HpkeAead.
Inductive name : Type :=
| AES_128_GCM | AES_256_GCM | CHACHA20_POLY_1305 | EXPORT_ONLY.
Definition code (n : name) : Z :=
  match n with
  | AES_128_GCM => 0x0001 | AES_256_GCM => 0x0002 | CHACHA20_POLY_1305 => 0x0003 | EXPORT_ONLY => 0xFFFF
  end.
Definition table : list (name * Z) := map (fun n => (n, code n))
  [AES_128_GCM; AES_256_GCM; CHACHA20_POLY_1305; EXPORT_ONLY].
Lemma known_HpkeAead n : enum_from table (code n) = Known n.
Proof. revert n. enum_checked. Qed.
#[global] Instance name_eq_dec : EqDecision name := enum_code_dec table code known_HpkeAead.
Definition t : Type := tls_enum name.
Definition codec : Codec t := enum_codec 2 table.
Lemma unique_HpkeAead : table_ok table.
Proof. table_checked. Qed.
Lemma wf_HpkeAead n : enum_wf 2 table (Known n).
Proof. revert n. names_checked code. Qed.
#[global] Instance wire_HpkeAead : Wire codec (enum_wf 2 table).
Proof. apply enum_wire; [done|apply unique_HpkeAead]. Qed.
#[global] Instance exact_HpkeAead : Exact codec (enum_wf 2 table).
Proof. apply enum_exact, unique_HpkeAead. Qed.
End HpkeAead.

Module EchVersion.
Inductive name : Type :=
| V14.
Definition code (n : name) : Z :=
  match n with
  | V14 => 0xfe0d
  end.
Definition table : list (name * Z) := map (fun n => (n, code n))
  [V14].
Lemma known_EchVersion n : enum_from table (code n) = Known n.
Proof. revert n. enum_checked. Qed.
#[global] Instance name_eq_dec : EqDecision name := enum_code_dec table code known_EchVersion.
Definition t : Type := tls_enum name.
Definition codec : Codec t := enum_codec 2 table.
Lemma unique_EchVersion : table_ok table.
Proof. table_checked. Qed.
Lemma wf_EchVersion n : enum_wf 2 table (Known n).
Proof. revert n. names_checked code. Qed.
#[global] Instance wire_EchVersion : Wire codec (enum_wf 2 table).
Proof. apply enum_wire; [done|apply unique_EchVersion]. Qed.
#[global] Instance exact_EchVersion : Exact codec (enum_wf 2 table).
Proof. apply enum_exact, unique_EchVersion. Qed.
End EchVersion.

(** ** What the enumerations compute *)

Definition ecpoint_supported : list ECPointFormat.t := [Known ECPointFormat.Uncompressed].
Definition hpke_kdf_default : HpkeKdf.t := Known HpkeKdf.HKDF_SHA256.
Definition hpke_aead_default : HpkeAead.t := Known HpkeAead.AES_128_GCM.

Definition scheme_sign (x : SignatureScheme.t) : SignatureAlgorithm.t :=
  match x with
  | Known (SignatureScheme.RSA_PKCS1_SHA1 | SignatureScheme.RSA_PKCS1_SHA256 | SignatureScheme.RSA_PKCS1_SHA384 | SignatureScheme.RSA_PKCS1_SHA512
          | SignatureScheme.RSA_PSS_SHA256 | SignatureScheme.RSA_PSS_SHA384 | SignatureScheme.RSA_PSS_SHA512) => Known SignatureAlgorithm.RSA
  | Known (SignatureScheme.ECDSA_NISTP256_SHA256 | SignatureScheme.ECDSA_NISTP384_SHA384 | SignatureScheme.ECDSA_NISTP521_SHA512) => Known SignatureAlgorithm.ECDSA
  | Known SignatureScheme.ED25519 => Known SignatureAlgorithm.ED25519
  | _ => Unknown 0
  end.
Definition supported_in_tls13 (x : SignatureScheme.t) : bool :=
  match x with
  | Known (SignatureScheme.ECDSA_NISTP384_SHA384 | SignatureScheme.ECDSA_NISTP256_SHA256 | SignatureScheme.RSA_PSS_SHA512
          | SignatureScheme.RSA_PSS_SHA384 | SignatureScheme.RSA_PSS_SHA256 | SignatureScheme.ED25519) => true
  | _ => false
  end.
