(* ===== verification/Messages.v ===== *)
(** * Handshake messages of the TLS fork: the parts
    (orcax/rustls-fork/rustls/src/msgs/handshake.rs, src/verify.rs, src/x509.rs)

    The data of the handshake messages up to the extensions, each type with its
    codec written as the source writes it: [put] appends a field, [get] reads
    one.  A domain name is its bytes; whether [DnsName::try_from] of the
    pki-types crate accepts them is a parameter. *)
From S2P Require Import Prelude Codec TlsLayer Enums Wire.

Abbreviation put C := (encode (Codec:=C)).
Abbreviation get C := (read (Codec:=C)).

Class DnsNames : Type := { dns_try_from : bytes -> bool }.

(** ** Random and SessionId *)

Definition RANDOM_LEN : nat := 32.
Definition random_codec : Codec bytes := {| encode x buf := buf ++ x; read := rd_take RANDOM_LEN |}.
Definition HELLO_RETRY_REQUEST_RANDOM : bytes :=
  [0xcf; 0x21; 0xad; 0x74; 0xe5; 0x9a; 0x61; 0x11; 0xbe; 0x1d; 0x8c; 0x02; 0x1e; 0x65; 0xb8; 0x91;
   0xc2; 0xa2; 0x11; 0x16; 0x7a; 0xbb; 0x8c; 0x5e; 0x07; 0x9e; 0x09; 0xe2; 0xc8; 0xa8; 0x33; 0x9c].
Definition ZERO_RANDOM : bytes := replicate 32 0.

Module SessionId.
Record t : Type := { len : nat; data : bytes }.
Definition empty : t := {| len := 0; data := replicate 32 0 |}.
(** [random], with the 32 bytes drawn. *)
Definition random (draw : bytes) : t := {| len := 32; data := draw |}.
Definition get_data (x : t) : bytes := take (len x) (data x).
Definition is_empty (x : t) : bool := (len x =? 0)%nat.
(** [PartialEq]: the difference is accumulated over the first [len] bytes. *)
Definition eqb (x y : t) : bool :=
  (len x =? len y)%nat &&
  (foldl (fun diff i => Z.lor diff (Z.lxor (nth i (data x) 0) (nth i (data y) 0))) 0 (seq 0 (len x)) =? 0).
Definition codec : Codec t :=
  {| encode x buf := (buf ++ [u8 (Z.of_nat (len x))]) ++ get_data x;
     read := n ← get codec_u8;
             _ ← rd_ensure (negb (32 <? n)) TrailingData;
             bs ← rd_take (Z.to_nat n);
             mret {| len := Z.to_nat n; data := bs ++ replicate (32 - Z.to_nat n) 0 |} |}.
End SessionId.

(** ** Server names *)

Record UnknownExtension : Type := { ue_typ : ExtensionType.t; ue_payload : bytes }.

Module ServerNamePayload.
Inductive t : Type := HostName (name : bytes) | Unknown (p : bytes).
Definition encode (x : t) (buf : bytes) : bytes :=
  match x with
  | HostName name => put codec_u16 (u16 (zlen name)) buf ++ name
  | Unknown p => buf ++ p
  end.
Definition read_hostname `{DnsNames} : Rd t :=
  raw ← get payload_u16;
  _ ← rd_ensure (dns_try_from raw) InvalidServerName;
  mret (HostName raw).
End ServerNamePayload.

Module ServerName.
Record t : Type := { typ : ServerNameType.t; payload : ServerNamePayload.t }.
Definition codec `{DnsNames} : Codec t :=
  {| encode x buf := ServerNamePayload.encode (payload x) (put ServerNameType.codec (typ x) buf);
     read := typ ← get ServerNameType.codec;
             payload ← match typ with
                       | Known ServerNameType.HostName => ServerNamePayload.read_hostname
                       | _ => p ← rd_rest; mret (ServerNamePayload.Unknown p)
                       end;
             mret {| typ := typ; payload := payload |} |}.
(** [has_duplicate_names_for_type], with the codes seen so far. *)
Fixpoint has_dup (seen : list Z) (l : list t) : bool :=
  match l with
  | [] => false
  | x :: l' => let c := enum_get ServerNameType.table (typ x) in
      if bool_decide (c ∈ seen) then true else has_dup (c :: seen) l'
  end.
Definition has_duplicate_names_for_type (l : list t) : bool := has_dup [] l.
Definition get_single_hostname (l : list t) : option bytes :=
  head (omap (fun x => match payload x with ServerNamePayload.HostName n => Some n | _ => None end) l).
End ServerName.

(** [trim_hostname_trailing_dot_for_sni]; [unwrap] panics when the rest is not a
    name. *)
Definition trim_hostname_trailing_dot_for_sni `{DnsNames} (name : bytes) : result unit bytes :=
  match list.last name with
  | Some 46 => let trimmed := take (length name - 1) name in if dns_try_from trimmed then Ok trimmed else Panic
  | _ => Ok name
  end.

(** [asn1_wrap] and [wrap_in_sequence]. *)
Definition DER_SEQUENCE_TAG : Z := 0x30.
Fixpoint skip_zeros (l : bytes) : bytes := match l with 0 :: l' => skip_zeros l' | _ => l end.
Definition asn1_wrap (tag : Z) (bs : bytes) : bytes :=
  let len := zlen bs in
  if len <=? 0x7f then [tag; u8 len] ++ bs
  else let size := skip_zeros (be_encode 8 len) in
       [tag; 0x80 + u8 (zlen size)] ++ size ++ bs.
Definition wrap_in_sequence (bs : bytes) : bytes := asn1_wrap DER_SEQUENCE_TAG bs.
(** [DistinguishedName::in_sequence]. *)
Definition distinguished_name_in_sequence (bs : bytes) : bytes := wrap_in_sequence bs.

(** ** Protocol names *)

Definition protocol_name_codec : Codec bytes := payload_u8.
Definition from_slices (names : list bytes) : list bytes := names.
Definition as_single_slice (l : list bytes) : option bytes := match l with [x] => Some x | _ => None end.

(** ** Key shares and pre-shared keys *)

Module KeyShareEntry.
Record t : Type := { group : NamedGroup.t; payload : bytes }.
Definition codec : Codec t :=
  {| encode x buf := put payload_u16 (payload x) (put NamedGroup.codec (group x) buf);
     read := group ← get NamedGroup.codec; payload ← get payload_u16; mret {| group := group; payload := payload |} |}.
End KeyShareEntry.

Module PresharedKeyIdentity.
Record t : Type := { identity : bytes; obfuscated_ticket_age : Z }.
Definition codec : Codec t :=
  {| encode x buf := put codec_u32 (obfuscated_ticket_age x) (put payload_u16 (identity x) buf);
     read := id ← get payload_u16; age ← get codec_u32; mret {| identity := id; obfuscated_ticket_age := age |} |}.
End PresharedKeyIdentity.

Definition identities_codec : Codec (list PresharedKeyIdentity.t) := vec_codec PresharedKeyIdentity.codec LenU16.
Definition binders_codec : Codec (list bytes) := vec_codec payload_u8 LenU16.

Module PresharedKeyOffer.
Record t : Type := { identities : list PresharedKeyIdentity.t; binders : list bytes }.
Definition new (id : PresharedKeyIdentity.t) (binder : bytes) : t := {| identities := [id]; binders := [binder] |}.
Definition codec : Codec t :=
  {| encode x buf := put binders_codec (binders x) (put identities_codec (identities x) buf);
     read := ids ← get identities_codec; bs ← get binders_codec; mret {| identities := ids; binders := bs |} |}.
End PresharedKeyOffer.

(** ** Certificate status *)

Definition responder_ids_codec : Codec (list bytes) := vec_codec payload_u16 LenU16.

Module OcspCertificateStatusRequest.
Record t : Type := { responder_ids : list bytes; extensions : bytes }.
Definition encode (x : t) (buf : bytes) : bytes :=
  put payload_u16 (extensions x) (put responder_ids_codec (responder_ids x)
    (put CertificateStatusType.codec (Known CertificateStatusType.OCSP) buf)).
Definition read : Rd t :=
  ids ← get responder_ids_codec; exts ← get payload_u16; mret {| responder_ids := ids; extensions := exts |}.
End OcspCertificateStatusRequest.

Module CertificateStatusRequest.
Inductive t : Type := Ocsp (r : OcspCertificateStatusRequest.t) | Unknown (typ : CertificateStatusType.t) (p : bytes).
Definition encode (x : t) (buf : bytes) : bytes :=
  match x with
  | Ocsp r => OcspCertificateStatusRequest.encode r buf
  | Unknown typ p => put CertificateStatusType.codec typ buf ++ p
  end.
Definition read : Rd t :=
  typ ← get CertificateStatusType.codec;
  match typ with
  | Known CertificateStatusType.OCSP => r ← OcspCertificateStatusRequest.read; mret (Ocsp r)
  | _ => p ← rd_rest; mret (Unknown typ p)
  end.
Definition build_ocsp : t := Ocsp {| OcspCertificateStatusRequest.responder_ids := []; OcspCertificateStatusRequest.extensions := [] |}.
End CertificateStatusRequest.

Module CertificateStatus.
Record t : Type := { ocsp_response : bytes }.
Definition codec : Codec t :=
  {| encode x buf := put payload_u24 (ocsp_response x) (put CertificateStatusType.codec (Known CertificateStatusType.OCSP) buf);
     read := typ ← get CertificateStatusType.codec;
             match typ with
             | Known CertificateStatusType.OCSP => p ← get payload_u24; mret {| ocsp_response := p |}
             | _ => rd_fail InvalidCertificateStatusType
             end |}.
End CertificateStatus.

(** ** Lists *)

Definition ec_point_formats_codec : Codec (list ECPointFormat.t) := vec_codec ECPointFormat.codec LenU8.
Definition named_groups_codec : Codec (list NamedGroup.t) := vec_codec NamedGroup.codec LenU16.
Definition signature_schemes_codec : Codec (list SignatureScheme.t) := vec_codec SignatureScheme.codec LenU16.
Definition server_names_codec `{DnsNames} : Codec (list ServerName.t) := vec_codec ServerName.codec LenU16.
Definition protocol_names_codec : Codec (list bytes) := vec_codec protocol_name_codec LenU16.
Definition psk_modes_codec : Codec (list PSKKeyExchangeMode.t) := vec_codec PSKKeyExchangeMode.codec LenU8.
Definition key_shares_codec : Codec (list KeyShareEntry.t) := vec_codec KeyShareEntry.codec LenU16.
Definition versions_codec : Codec (list ProtocolVersion) := vec_codec version_codec LenU8.
Definition cipher_suites_codec : Codec (list CipherSuite.t) := vec_codec CipherSuite.codec LenU16.
Definition compressions_codec : Codec (list Compression.t) := vec_codec Compression.codec LenU8.
Definition certificate_types_codec : Codec (list ClientCertificateType.t) := vec_codec ClientCertificateType.codec LenU8.
Definition distinguished_names_codec : Codec (list bytes) := vec_codec payload_u16 LenU16.

(** ** Extensions *)

(** What the extension types share: the type, the body in a length-prefixed
    buffer, and reading the body from a sub-reader that must be used up. *)
Definition ext_codec {X} (get_type : X -> ExtensionType.t) (body : X -> bytes -> bytes) (read_body : ExtensionType.t -> Rd X) : Codec X :=
  {| encode x buf := nested LenU16 (body x) (put ExtensionType.codec (get_type x) buf);
     read := typ ← get ExtensionType.codec; len ← get codec_u16; sub_read (Z.to_nat len) (read_body typ) |}.
Definition unknown_read (typ : ExtensionType.t) : Rd UnknownExtension := p ← rd_rest; mret {| ue_typ := typ; ue_payload := p |}.
Definition unknown_encode (x : UnknownExtension) (buf : bytes) : bytes := buf ++ ue_payload x.

(** [has_duplicate_extension], which every message with extensions has: the
    codes are collected in a set. *)
Fixpoint has_dup_type {X} (get_type : X -> ExtensionType.t) (seen : list Z) (l : list X) : bool :=
  match l with
  | [] => false
  | x :: l' => let c := enum_get ExtensionType.table (get_type x) in
      if bool_decide (c ∈ seen) then true else has_dup_type get_type (c :: seen) l'
  end.
(** [find_extension], likewise. *)
Definition find_ext {X} (get_type : X -> ExtensionType.t) (ext : ExtensionType.t) (l : list X) : option X :=
  List.find (fun x => bool_decide (get_type x = ext)) l.

Inductive ClientSessionTicket : Type := Request | Offer (p : bytes).

Module ClientExtension.
Inductive t : Type :=
| EcPointFormats (l : list ECPointFormat.t)
| NamedGroups (l : list NamedGroup.t)
| SignatureAlgorithms (l : list SignatureScheme.t)
| ServerName (l : list ServerName.t)
| SessionTicket (x : ClientSessionTicket)
| Protocols (l : list bytes)
| SupportedVersions (l : list ProtocolVersion)
| KeyShare (l : list KeyShareEntry.t)
| PresharedKeyModes (l : list PSKKeyExchangeMode.t)
| PresharedKey (x : PresharedKeyOffer.t)
| Cookie (p : bytes)
| ExtendedMasterSecretRequest
| CertificateStatusRequest (x : CertificateStatusRequest.t)
| TransportParameters (p : bytes)
| TransportParametersDraft (p : bytes)
| EarlyData
| Unknown (x : UnknownExtension).

Definition get_type (x : t) : ExtensionType.t :=
  match x with
  | EcPointFormats _ => Known ExtensionType.ECPointFormats
  | NamedGroups _ => Known ExtensionType.EllipticCurves
  | SignatureAlgorithms _ => Known ExtensionType.SignatureAlgorithms
  | ServerName _ => Known ExtensionType.ServerName
  | SessionTicket _ => Known ExtensionType.SessionTicket
  | Protocols _ => Known ExtensionType.ALProtocolNegotiation
  | SupportedVersions _ => Known ExtensionType.SupportedVersions
  | KeyShare _ => Known ExtensionType.KeyShare
  | PresharedKeyModes _ => Known ExtensionType.PSKKeyExchangeModes
  | PresharedKey _ => Known ExtensionType.PreSharedKey
  | Cookie _ => Known ExtensionType.Cookie
  | ExtendedMasterSecretRequest => Known ExtensionType.ExtendedMasterSecret
  | CertificateStatusRequest _ => Known ExtensionType.StatusRequest
  | TransportParameters _ => Known ExtensionType.TransportParameters
  | TransportParametersDraft _ => Known ExtensionType.TransportParametersDraft
  | EarlyData => Known ExtensionType.EarlyData
  | Unknown r => ue_typ r
  end.

Section codec.
Context `{DnsNames}.
Definition body (x : t) : bytes -> bytes :=
  match x with
  | EcPointFormats r => put ec_point_formats_codec r
  | NamedGroups r => put named_groups_codec r
  | SignatureAlgorithms r => put signature_schemes_codec r
  | ServerName r => put server_names_codec r
  | SessionTicket Request | ExtendedMasterSecretRequest | EarlyData => fun buf => buf
  | SessionTicket (Offer r) => fun buf => buf ++ r
  | Protocols r => put protocol_names_codec r
  | SupportedVersions r => put versions_codec r
  | KeyShare r => put key_shares_codec r
  | PresharedKeyModes r => put psk_modes_codec r
  | PresharedKey r => put PresharedKeyOffer.codec r
  | Cookie r => put payload_u16 r
  | CertificateStatusRequest r => CertificateStatusRequest.encode r
  | TransportParameters r | TransportParametersDraft r => fun buf => buf ++ r
  | Unknown r => unknown_encode r
  end.
Definition read_body (typ : ExtensionType.t) : Rd t :=
  let unknown := r ← unknown_read typ; mret (Unknown r) in
  match typ with
  | Known ExtensionType.ECPointFormats => l ← get ec_point_formats_codec; mret (EcPointFormats l)
  | Known ExtensionType.EllipticCurves => l ← get named_groups_codec; mret (NamedGroups l)
  | Known ExtensionType.SignatureAlgorithms => l ← get signature_schemes_codec; mret (SignatureAlgorithms l)
  | Known ExtensionType.ServerName => l ← get server_names_codec; mret (ServerName l)
  | Known ExtensionType.SessionTicket =>
      any ← rd_any_left;
      if (any : bool) then p ← rd_rest; mret (SessionTicket (Offer p)) else mret (SessionTicket Request)
  | Known ExtensionType.ALProtocolNegotiation => l ← get protocol_names_codec; mret (Protocols l)
  | Known ExtensionType.SupportedVersions => l ← get versions_codec; mret (SupportedVersions l)
  | Known ExtensionType.KeyShare => l ← get key_shares_codec; mret (KeyShare l)
  | Known ExtensionType.PSKKeyExchangeModes => l ← get psk_modes_codec; mret (PresharedKeyModes l)
  | Known ExtensionType.PreSharedKey => r ← get PresharedKeyOffer.codec; mret (PresharedKey r)
  | Known ExtensionType.Cookie => p ← get payload_u16; mret (Cookie p)
  | Known ExtensionType.ExtendedMasterSecret =>
      any ← rd_any_left; if (any : bool) then unknown else mret ExtendedMasterSecretRequest
  | Known ExtensionType.StatusRequest => r ← CertificateStatusRequest.read; mret (CertificateStatusRequest r)
  | Known ExtensionType.TransportParameters => p ← rd_rest; mret (TransportParameters p)
  | Known ExtensionType.TransportParametersDraft => p ← rd_rest; mret (TransportParametersDraft p)
  | Known ExtensionType.EarlyData => any ← rd_any_left; if (any : bool) then unknown else mret EarlyData
  | _ => unknown
  end.
Definition codec : Codec t := ext_codec get_type body read_body.

Definition make_sni (name : bytes) : result unit t :=
  trimmed ← trim_hostname_trailing_dot_for_sni name;
  Ok (ServerName [{| ServerName.typ := Known ServerNameType.HostName; ServerName.payload := ServerNamePayload.HostName trimmed |}]).
End codec.
End ClientExtension.

Module ServerExtension.
Inductive t : Type :=
| EcPointFormats (l : list ECPointFormat.t)
| ServerNameAck
| SessionTicketAck
| RenegotiationInfo (p : bytes)
| Protocols (l : list bytes)
| KeyShare (x : KeyShareEntry.t)
| PresharedKey (x : Z)
| ExtendedMasterSecretAck
| CertificateStatusAck
| SupportedVersions (v : ProtocolVersion)
| TransportParameters (p : bytes)
| TransportParametersDraft (p : bytes)
| EarlyData
| Unknown (x : UnknownExtension).

Definition get_type (x : t) : ExtensionType.t :=
  match x with
  | EcPointFormats _ => Known ExtensionType.ECPointFormats
  | ServerNameAck => Known ExtensionType.ServerName
  | SessionTicketAck => Known ExtensionType.SessionTicket
  | RenegotiationInfo _ => Known ExtensionType.RenegotiationInfo
  | Protocols _ => Known ExtensionType.ALProtocolNegotiation
  | KeyShare _ => Known ExtensionType.KeyShare
  | PresharedKey _ => Known ExtensionType.PreSharedKey
  | ExtendedMasterSecretAck => Known ExtensionType.ExtendedMasterSecret
  | CertificateStatusAck => Known ExtensionType.StatusRequest
  | SupportedVersions _ => Known ExtensionType.SupportedVersions
  | TransportParameters _ => Known ExtensionType.TransportParameters
  | TransportParametersDraft _ => Known ExtensionType.TransportParametersDraft
  | EarlyData => Known ExtensionType.EarlyData
  | Unknown r => ue_typ r
  end.
Definition body (x : t) : bytes -> bytes :=
  match x with
  | EcPointFormats r => put ec_point_formats_codec r
  | ServerNameAck | SessionTicketAck | ExtendedMasterSecretAck | CertificateStatusAck | EarlyData => fun buf => buf
  | RenegotiationInfo r => put payload_u8 r
  | Protocols r => put protocol_names_codec r
  | KeyShare r => put KeyShareEntry.codec r
  | PresharedKey r => put codec_u16 r
  | SupportedVersions r => put version_codec r
  | TransportParameters r | TransportParametersDraft r => fun buf => buf ++ r
  | Unknown r => unknown_encode r
  end.
Definition read_body (typ : ExtensionType.t) : Rd t :=
  match typ with
  | Known ExtensionType.ECPointFormats => l ← get ec_point_formats_codec; mret (EcPointFormats l)
  | Known ExtensionType.ServerName => mret ServerNameAck
  | Known ExtensionType.SessionTicket => mret SessionTicketAck
  | Known ExtensionType.StatusRequest => mret CertificateStatusAck
  | Known ExtensionType.RenegotiationInfo => p ← get payload_u8; mret (RenegotiationInfo p)
  | Known ExtensionType.ALProtocolNegotiation => l ← get protocol_names_codec; mret (Protocols l)
  | Known ExtensionType.KeyShare => r ← get KeyShareEntry.codec; mret (KeyShare r)
  | Known ExtensionType.PreSharedKey => r ← get codec_u16; mret (PresharedKey r)
  | Known ExtensionType.ExtendedMasterSecret => mret ExtendedMasterSecretAck
  | Known ExtensionType.SupportedVersions => v ← get version_codec; mret (SupportedVersions v)
  | Known ExtensionType.TransportParameters => p ← rd_rest; mret (TransportParameters p)
  | Known ExtensionType.TransportParametersDraft => p ← rd_rest; mret (TransportParametersDraft p)
  | Known ExtensionType.EarlyData => mret EarlyData
  | _ => r ← unknown_read typ; mret (Unknown r)
  end.
Definition codec : Codec t := ext_codec get_type body read_body.
Definition make_alpn (proto : list bytes) : t := Protocols (from_slices proto).
Definition make_empty_renegotiation_info : t := RenegotiationInfo [].
End ServerExtension.

Module HelloRetryExtension.
Inductive t : Type :=
| KeyShare (g : NamedGroup.t)
| Cookie (p : bytes)
| SupportedVersions (v : ProtocolVersion)
| Unknown (x : UnknownExtension).
Definition get_type (x : t) : ExtensionType.t :=
  match x with
  | KeyShare _ => Known ExtensionType.KeyShare
  | Cookie _ => Known ExtensionType.Cookie
  | SupportedVersions _ => Known ExtensionType.SupportedVersions
  | Unknown r => ue_typ r
  end.
Definition body (x : t) : bytes -> bytes :=
  match x with
  | KeyShare r => put NamedGroup.codec r
  | Cookie r => put payload_u16 r
  | SupportedVersions r => put version_codec r
  | Unknown r => unknown_encode r
  end.
Definition read_body (typ : ExtensionType.t) : Rd t :=
  match typ with
  | Known ExtensionType.KeyShare => g ← get NamedGroup.codec; mret (KeyShare g)
  | Known ExtensionType.Cookie => p ← get payload_u16; mret (Cookie p)
  | Known ExtensionType.SupportedVersions => v ← get version_codec; mret (SupportedVersions v)
  | _ => r ← unknown_read typ; mret (Unknown r)
  end.
Definition codec : Codec t := ext_codec get_type body read_body.
End HelloRetryExtension.

Module CertificateExtension.
Inductive t : Type := CertificateStatus (x : CertificateStatus.t) | Unknown (x : UnknownExtension).
Definition get_type (x : t) : ExtensionType.t :=
  match x with CertificateStatus _ => Known ExtensionType.StatusRequest | Unknown r => ue_typ r end.
Definition get_cert_status (x : t) : option bytes :=
  match x with CertificateStatus cs => Some (CertificateStatus.ocsp_response cs) | _ => None end.
Definition body (x : t) : bytes -> bytes :=
  match x with CertificateStatus r => put CertificateStatus.codec r | Unknown r => unknown_encode r end.
Definition read_body (typ : ExtensionType.t) : Rd t :=
  match typ with
  | Known ExtensionType.StatusRequest => st ← get CertificateStatus.codec; mret (CertificateStatus st)
  | _ => r ← unknown_read typ; mret (Unknown r)
  end.
Definition codec : Codec t := ext_codec get_type body read_body.
End CertificateExtension.

Module CertReqExtension.
Inductive t : Type :=
| SignatureAlgorithms (l : list SignatureScheme.t)
| AuthorityNames (l : list bytes)
| Unknown (x : UnknownExtension).
Definition get_type (x : t) : ExtensionType.t :=
  match x with
  | SignatureAlgorithms _ => Known ExtensionType.SignatureAlgorithms
  | AuthorityNames _ => Known ExtensionType.CertificateAuthorities
  | Unknown r => ue_typ r
  end.
Definition body (x : t) : bytes -> bytes :=
  match x with
  | SignatureAlgorithms r => put signature_schemes_codec r
  | AuthorityNames r => put distinguished_names_codec r
  | Unknown r => unknown_encode r
  end.
Definition read_body (typ : ExtensionType.t) : Rd t :=
  match typ with
  | Known ExtensionType.SignatureAlgorithms =>
      schemes ← get signature_schemes_codec;
      _ ← rd_ensure (match schemes with [] => false | _ => true end) NoSignatureSchemes;
      mret (SignatureAlgorithms schemes)
  | Known ExtensionType.CertificateAuthorities => cas ← get distinguished_names_codec; mret (AuthorityNames cas)
  | _ => r ← unknown_read typ; mret (Unknown r)
  end.
Definition codec : Codec t := ext_codec get_type body read_body.
End CertReqExtension.

Module NewSessionTicketExtension.
Inductive t : Type := EarlyData (x : Z) | Unknown (x : UnknownExtension).
Definition get_type (x : t) : ExtensionType.t :=
  match x with EarlyData _ => Known ExtensionType.EarlyData | Unknown r => ue_typ r end.
Definition body (x : t) : bytes -> bytes :=
  match x with EarlyData r => put codec_u32 r | Unknown r => unknown_encode r end.
Definition read_body (typ : ExtensionType.t) : Rd t :=
  match typ with
  | Known ExtensionType.EarlyData => x ← get codec_u32; mret (EarlyData x)
  | _ => r ← unknown_read typ; mret (Unknown r)
  end.
Definition codec : Codec t := ext_codec get_type body read_body.
End NewSessionTicketExtension.

Definition client_extensions_codec `{DnsNames} : Codec (list ClientExtension.t) := vec_codec ClientExtension.codec LenU16.
Definition server_extensions_codec : Codec (list ServerExtension.t) := vec_codec ServerExtension.codec LenU16.
Definition hello_retry_extensions_codec : Codec (list HelloRetryExtension.t) := vec_codec HelloRetryExtension.codec LenU16.
Definition certificate_extensions_codec : Codec (list CertificateExtension.t) := vec_codec CertificateExtension.codec LenU16.
Definition certreq_extensions_codec : Codec (list CertReqExtension.t) := vec_codec CertReqExtension.codec LenU16.
Definition ticket_extensions_codec : Codec (list NewSessionTicketExtension.t) := vec_codec NewSessionTicketExtension.codec LenU16.
