(* ===== verification/MessageLaws.v ===== *)
(** * Handshake messages of the TLS fork: laws of the parts
    (orcax/rustls-fork/rustls/src/msgs/handshake.rs)

    For every part of a handshake message the values the codec carries ([_wf]),
    that they are read back ([Wire]), and that the bytes read are the only
    encoding of the value ([Exact]); for the extensions by one lemma about
    [ext_codec] each. *)
From S2P Require Import Prelude Codec TlsLayer Enums Wire Messages.

#[export] Instance version_wire : Wire version_codec (enum_wf 2 versions).
Proof. apply enum_wire; [done|apply tables_ok]. Qed.
#[export] Instance version_exact : Exact version_codec (enum_wf 2 versions).
Proof. apply enum_exact, tables_ok. Qed.

(** ** Random and SessionId *)

Definition random_wf (x : bytes) : Prop := length x = RANDOM_LEN.
#[export] Instance random_wire : Wire random_codec random_wf.
Proof.
  apply make_wire; cbn [encode read random_codec].
  - done.
  - intros x Hx. by apply reads_rd_take.
  - eapply eats_weaken; [apply eats_take|]. intros x bs (_ & Hl & _) ->. by cbn in Hl.
  - apply safe_take.
Qed.
#[export] Instance random_exact : Exact random_codec random_wf.
Proof. split. eapply eats_weaken; [apply eats_take|]. by intros x bs (-> & Hl & _). Qed.

Definition session_id_wf (x : SessionId.t) : Prop :=
  exists bs, (length bs <= 32)%nat /\ x = {| SessionId.len := length bs; SessionId.data := bs ++ replicate (32 - length bs) 0 |}.
Lemma session_id_encoding bs :
  (length bs <= 32)%nat ->
  get_encoding (H:=SessionId.codec) {| SessionId.len := length bs; SessionId.data := bs ++ replicate (32 - length bs) 0 |}
  = get_encoding (H:=codec_u8) (Z.of_nat (length bs)) ++ bs.
Proof.
  intros Hl. unfold get_encoding. cbn [encode SessionId.codec codec_u8 uint_codec]. unfold SessionId.get_data. cbn [SessionId.len SessionId.data].
  rewrite take_app_length. cbn [be_encode app]. unfold u8. done.
Qed.
#[export] Instance session_id_wire : Wire SessionId.codec session_id_wf.
Proof.
  apply make_wire.
  - intros x buf. unfold get_encoding. cbn [encode SessionId.codec]. by rewrite <- app_assoc.
  - intros x (bs & Hl & ->). rewrite session_id_encoding by done. cbn [read SessionId.codec].
    apply reads_field; [unfold uint_wf; lia|]. apply reads_check; [lia|]. rewrite Nat2Z.id. apply reads_bytes; [done|]. apply reads_ret.
  - cbn [read SessionId.codec]. apply eats_first; [apply wire_eats|]. rd_shape.
  - cbn [read SessionId.codec]. rd_shape.
Qed.
#[export] Instance session_id_exact : Exact SessionId.codec session_id_wf.
Proof.
  split. cbn [read SessionId.codec]. apply eats_field. intros n Hn. eapply eats_bind; [apply eats_ensure|]. intros [] a [Hle ->].
  eapply eats_bind; [apply eats_take|]. intros ? bs (-> & Hl & _). apply eats_ret. cbn [app]. rewrite app_nil_r.
  assert (length bs <= 32)%nat by lia. unfold uint_wf in Hn. rewrite <- Hl. split; [by exists bs|].
  rewrite session_id_encoding by done. f_equal. by rewrite Hl, Z2Nat.id by lia.
Qed.

(** ** Server names *)

Section names.
Context `{DnsNames}.

Definition host_wf (n : bytes) : Prop := dns_try_from n = true /\ payload_wf 2 n.
(** A name of another type takes the rest of the list, so only host names can be
    followed by something. *)
Definition server_name_wf (x : ServerName.t) : Prop :=
  exists n, x = {| ServerName.typ := Known ServerNameType.HostName; ServerName.payload := ServerNamePayload.HostName n |} /\ host_wf n.
Definition server_name_any (x : ServerName.t) : Prop :=
  match ServerName.payload x with
  | ServerNamePayload.HostName n => ServerName.typ x = Known ServerNameType.HostName /\ host_wf n
  | ServerNamePayload.Unknown p => enum_wf 1 ServerNameType.table (ServerName.typ x) /\ ServerName.typ x <> Known ServerNameType.HostName
  end.

Lemma host_encode n buf : ServerNamePayload.encode (ServerNamePayload.HostName n) buf = buf ++ get_encoding (H:=payload_u16) n.
Proof.
  unfold get_encoding. cbn [ServerNamePayload.encode encode codec_u16 uint_codec payload_u16 payload_codec app]. rewrite <- app_assoc. do 2 f_equal.
  exact (be_encode_mod 2 (zlen n)).
Qed.
Lemma server_name_encoding n :
  get_encoding (H:=ServerName.codec) {| ServerName.typ := Known ServerNameType.HostName; ServerName.payload := ServerNamePayload.HostName n |}
  = get_encoding (H:=ServerNameType.codec) (Known ServerNameType.HostName) ++ get_encoding (H:=payload_u16) n.
Proof. unfold get_encoding at 1. cbn [encode ServerName.codec ServerName.payload ServerName.typ]. by rewrite host_encode, wire_app. Qed.
#[export] Instance server_name_wire : Wire ServerName.codec server_name_wf.
Proof.
  apply make_wire.
  - intros [ty [n|p]] buf; unfold get_encoding; cbn [encode ServerName.codec ServerName.payload ServerName.typ].
    + by rewrite !host_encode, !wire_app, <- !app_assoc.
    + cbn [ServerNamePayload.encode]. by rewrite !wire_app, <- !app_assoc.
  - intros x (n & -> & Hd & Hn). rewrite server_name_encoding. cbn [read ServerName.codec].
    apply reads_field; [apply ServerNameType.wf_ServerNameType|]. unfold ServerNamePayload.read_hostname.
    rewrite <- (app_nil_r (get_encoding n)). eapply reads_bind; [|apply reads_ret]. apply reads_last; [done|].
    apply reads_check; [done|]. apply reads_ret.
  - cbn [read ServerName.codec]. apply eats_first; [apply wire_eats|]. unfold ServerNamePayload.read_hostname. rd_shape.
  - cbn [read ServerName.codec]. unfold ServerNamePayload.read_hostname. rd_shape.
Qed.
#[export] Instance server_name_exact : Exact ServerName.codec server_name_any.
Proof.
  split. cbn [read ServerName.codec]. apply eats_field. intros ty Hty.
  assert (Hunk : ty <> Known ServerNameType.HostName ->
    eats wf_bytes (payload ← (p ← rd_rest; mret (ServerNamePayload.Unknown p)); mret {| ServerName.typ := ty; ServerName.payload := payload |})
      (fun y b => server_name_any y /\ get_encoding (H:=ServerNameType.codec) ty ++ b = get_encoding (H:=ServerName.codec) y)).
  { intros Hne. eapply (eats_bind _ _ (fun p b => p = ServerNamePayload.Unknown b)).
    - eapply eats_bind; [apply eats_rest|]. intros x a (-> & _). apply eats_ret. by rewrite app_nil_r.
    - intros p b ->. apply eats_ret. rewrite app_nil_r. split; [by split|]. unfold get_encoding at 2.
      cbn [encode ServerName.codec ServerName.payload ServerName.typ ServerNamePayload.encode]. by rewrite wire_app. }
  destruct ty as [[]|x]; [clear Hunk|by apply Hunk].
  eapply (eats_bind _ _ (fun p b => exists n, p = ServerNamePayload.HostName n /\ host_wf n /\ b = get_encoding (H:=payload_u16) n)).
  - unfold ServerNamePayload.read_hostname. apply eats_field. intros n Hn. eapply eats_bind; [apply eats_ensure|]. intros [] a [Hd ->].
    apply eats_ret. exists n. cbn [app]. by rewrite app_nil_r.
  - intros p b (n & -> & Hn & ->). apply eats_ret. rewrite app_nil_r. split; [by split|]. by rewrite server_name_encoding.
Qed.
End names.

(** ** Key shares, pre-shared keys, certificate status *)

Definition key_share_wf (x : KeyShareEntry.t) : Prop := enum_wf 2 NamedGroup.table (KeyShareEntry.group x) /\ payload_wf 2 (KeyShareEntry.payload x).
#[export] Instance key_share_wire : Wire KeyShareEntry.codec key_share_wf.
Proof. wire_struct KeyShareEntry.codec. Qed.
#[export] Instance key_share_exact : Exact KeyShareEntry.codec key_share_wf.
Proof. exact_struct KeyShareEntry.codec. Qed.

Definition psk_identity_wf (x : PresharedKeyIdentity.t) : Prop :=
  payload_wf 2 (PresharedKeyIdentity.identity x) /\ uint_wf 4 (PresharedKeyIdentity.obfuscated_ticket_age x).
#[export] Instance psk_identity_wire : Wire PresharedKeyIdentity.codec psk_identity_wf.
Proof. wire_struct PresharedKeyIdentity.codec. Qed.
#[export] Instance psk_identity_exact : Exact PresharedKeyIdentity.codec psk_identity_wf.
Proof. exact_struct PresharedKeyIdentity.codec. Qed.

Definition psk_offer_wf (x : PresharedKeyOffer.t) : Prop :=
  vec_wf (C:=PresharedKeyIdentity.codec) psk_identity_wf LenU16 (PresharedKeyOffer.identities x) /\
  vec_wf (C:=payload_u8) (payload_wf 1) LenU16 (PresharedKeyOffer.binders x).
#[export] Instance psk_offer_wire : Wire PresharedKeyOffer.codec psk_offer_wf.
Proof. wire_struct PresharedKeyOffer.codec. Qed.
#[export] Instance psk_offer_exact : Exact PresharedKeyOffer.codec psk_offer_wf.
Proof. exact_struct PresharedKeyOffer.codec. Qed.

Definition certificate_status_wf (x : CertificateStatus.t) : Prop := payload_wf 3 (CertificateStatus.ocsp_response x).
#[export] Instance certificate_status_wire : Wire CertificateStatus.codec certificate_status_wf.
Proof.
  wire_struct CertificateStatus.codec. apply CertificateStatusType.wf_CertificateStatusType.
Qed.
#[export] Instance certificate_status_exact : Exact CertificateStatus.codec certificate_status_wf.
Proof.
  exact_struct CertificateStatus.codec. destruct x as [[]|x]; [|apply eats_fail].
  apply eats_field. intros p Hp. apply eats_ret. unfold get_encoding at 3. cbn [encode CertificateStatus.codec CertificateStatus.ocsp_response].
  by rewrite !wire_app, app_nil_r.
Qed.

(** A status request of another type takes the rest of its extension. *)
Definition status_request_wf (x : CertificateStatusRequest.t) : Prop :=
  match x with
  | CertificateStatusRequest.Ocsp r =>
      vec_wf (C:=payload_u16) (payload_wf 2) LenU16 (OcspCertificateStatusRequest.responder_ids r) /\ payload_wf 2 (OcspCertificateStatusRequest.extensions r)
  | CertificateStatusRequest.Unknown typ p =>
      enum_wf 1 CertificateStatusType.table typ /\ typ <> Known CertificateStatusType.OCSP
  end.
Lemma status_request_app x buf : CertificateStatusRequest.encode x buf = buf ++ CertificateStatusRequest.encode x [].
Proof.
  destruct x as [r|typ p]; cbn [CertificateStatusRequest.encode]; unfold OcspCertificateStatusRequest.encode; by rewrite !wire_app, <- !app_assoc.
Qed.
Lemma status_request_reads x : status_request_wf x -> reads_all CertificateStatusRequest.read (CertificateStatusRequest.encode x []) x.
Proof.
  destruct x as [[ids exts]|typ p]; cbn [status_request_wf CertificateStatusRequest.encode]; intros [H1 H2]; unfold CertificateStatusRequest.read.
  - apply reads_to_all. unfold OcspCertificateStatusRequest.encode, OcspCertificateStatusRequest.read. rewrite !wire_app, <- !app_assoc. cbn [app].
    apply reads_field; [apply CertificateStatusType.wf_CertificateStatusType|]. rewrite <- (app_nil_r (get_encoding ids ++ _)).
    eapply reads_bind; [|apply reads_ret]. apply reads_field; [done|]. apply reads_last; [done|]. apply reads_ret.
  - rewrite wire_app. cbn [app]. apply reads_field_all; [done|]. destruct typ as [[]|x]; [done|]. apply (reads_all_bind rd_rest), reads_rest.
Qed.
Lemma status_request_eats :
  eats wf_bytes CertificateStatusRequest.read (fun x bs => status_request_wf x /\ bs = CertificateStatusRequest.encode x []).
Proof.
  unfold CertificateStatusRequest.read. apply eats_field. intros typ Ht. destruct typ as [[]|x].
  - eapply (eats_bind _ _ (fun r b => status_request_wf (CertificateStatusRequest.Ocsp r) /\
      b = get_encoding (H:=responder_ids_codec) (OcspCertificateStatusRequest.responder_ids r) ++ get_encoding (H:=payload_u16) (OcspCertificateStatusRequest.extensions r))).
    + unfold OcspCertificateStatusRequest.read. apply eats_field. intros ids Hi. apply eats_field. intros exts He. apply eats_ret.
      rewrite app_nil_r. by split_and!.
    + intros r b [Hr ->]. apply eats_ret. split; [done|]. cbn [CertificateStatusRequest.encode]. unfold OcspCertificateStatusRequest.encode.
      by rewrite !wire_app, app_nil_r, <- !app_assoc.
  - eapply eats_bind; [apply eats_rest|]. intros p b (-> & _). apply eats_ret. rewrite app_nil_r. split; [by split|].
    cbn [CertificateStatusRequest.encode]. by rewrite wire_app.
Qed.

Lemma moves_status_request : moves CertificateStatusRequest.read.
Proof. unfold CertificateStatusRequest.read, OcspCertificateStatusRequest.read. rd_shape. Qed.
Lemma safe_status_request : safe CertificateStatusRequest.read.
Proof. unfold CertificateStatusRequest.read, OcspCertificateStatusRequest.read. rd_shape. Qed.
#[export] Hint Resolve moves_status_request safe_status_request : wire.

(** ** Extensions *)

Section ext.
Context {X : Type} (gt : X -> ExtensionType.t) (body : X -> bytes -> bytes) (rb : ExtensionType.t -> Rd X).
Hypothesis body_app : forall x b, body x b = b ++ body x [].

Lemma ext_encoding x buf :
  encode (Codec:=ext_codec gt body rb) x buf = buf ++ get_encoding (H:=ExtensionType.codec) (gt x) ++ get_encoding (H:=codec_u16) (zlen (body x [])) ++ body x [].
Proof.
  cbn [encode ext_codec]. rewrite (nested_eq LenU16 (body x) _ (body x [])) by apply body_app. rewrite wire_app, <- app_assoc. do 2 f_equal.
Qed.
(** An extension that fits its length field. *)
Definition ext_wf (wf : X -> Prop) (x : X) : Prop :=
  wf x /\ enum_wf 2 ExtensionType.table (gt x) /\ zlen (body x []) < 65536.

Lemma ext_wire wf :
  (forall x, wf x -> enum_wf 2 ExtensionType.table (gt x) -> reads_all (rb (gt x)) (body x []) x) ->
  (forall typ, moves (rb typ)) -> (forall typ, safe (rb typ)) -> Wire (ext_codec gt body rb) (ext_wf wf).
Proof.
  intros Hr Hm Hs. apply make_wire.
  - intros x buf. unfold get_encoding at 1. by rewrite !ext_encoding.
  - intros x (Hx & Ht & Hl). unfold get_encoding. rewrite ext_encoding. cbn [app read ext_codec].
    apply reads_field; [done|]. apply reads_field; [unfold uint_wf, zlen in *; lia|]. unfold zlen. rewrite Nat2Z.id. by apply reads_sub, Hr.
  - cbn [read ext_codec]. apply eats_first; [apply wire_eats|]. intros typ. apply moves_bind; [eapply moves_read|]. intros n. by apply moves_sub.
  - cbn [read ext_codec]. apply safe_bind; [eapply safe_read|]. intros typ. apply safe_bind; [eapply safe_read|]. intros n. by apply safe_sub.
Qed.
Lemma ext_exact wf :
  (forall typ, enum_wf 2 ExtensionType.table typ -> eats wf_bytes (rb typ) (fun x bs => wf x /\ gt x = typ /\ bs = body x [])) ->
  Exact (ext_codec gt body rb) (ext_wf wf).
Proof.
  intros He. split. cbn [read ext_codec]. apply eats_field. intros typ Ht. apply eats_field. intros n Hn.
  eapply eats_weaken; [by apply eats_sub, He|]. intros x bs (Hl & Hx & <- & ->). unfold uint_wf in Hn.
  assert (zlen (body x []) = n) as Hz by (unfold zlen; rewrite Hl, Z2Nat.id; lia).
  split; [split_and!; try done; lia|]. unfold get_encoding at 3. rewrite ext_encoding. by rewrite Hz.
Qed.
End ext.

(** The scan with a set of codes finds a repeated type. *)
Lemma has_dup_type_spec {X} (gt : X -> ExtensionType.t) seen l :
  has_dup_type gt seen l = false <->
  NoDup (map (fun x => enum_get ExtensionType.table (gt x)) l) /\ (forall c, c ∈ map (fun x => enum_get ExtensionType.table (gt x)) l -> c ∉ seen).
Proof.
  revert seen. induction l as [|x l IH]; intros seen; cbn [has_dup_type map].
  - split; [|done]. intros _. split; [constructor|]. intros c Hc. by apply elem_of_nil in Hc.
  - set (c := enum_get _ _). rewrite list.NoDup_cons. case_bool_decide as Hin.
    + split; [done|]. intros [_ Hs]. exfalso. apply (Hs c); [by left|done].
    + rewrite IH. split.
      * intros [Hnd Hs]. split_and!; [|done|].
        -- intros Hc. apply (Hs c Hc). by left.
        -- intros d Hd Hds. apply elem_of_cons in Hd as [->|Hd]; [done|]. apply (Hs d Hd). by right.
      * intros [[Hni Hnd] Hs]. split; [done|]. intros d Hd Hds. apply elem_of_cons in Hds as [->|Hds]; [done|].
        apply (Hs d); [by right|done].
Qed.

(** What is read when an extension has one field. *)
Lemma reads_one {T X} {C : Codec T} {wf} {W : Wire C wf} (K : T -> X) x : wf x -> reads_all (y ← read; mret (K y)) (encode x []) (K x).
Proof. intros Hx. rewrite wire_app. cbn [app]. apply reads_to_all, reads_last; [done|]. apply reads_ret. Qed.
Lemma eats_one {T X} {C : Codec T} {wf wf'} {W : Wire C wf} {E : Exact C wf'} (K : T -> X) (Q : X -> bytes -> Prop) :
  (forall x, wf' x -> Q (K x) (encode x [])) -> eats wf_bytes (y ← read; mret (K y)) Q.
Proof. intros HQ. apply eats_field. intros x Hx. apply eats_ret. rewrite app_nil_r. specialize (HQ x Hx). by rewrite wire_app in HQ. Qed.
Lemma reads_rest_as {X} (K : bytes -> X) p : reads_all (y ← rd_rest; mret (K y)) p (K p).
Proof. apply (reads_all_bind rd_rest), reads_rest. Qed.
Lemma eats_rest_as {X} (K : bytes -> X) (Q : X -> bytes -> Prop) : (forall p, Q (K p) p) -> eats wf_bytes (y ← rd_rest; mret (K y)) Q.
Proof. intros HQ. eapply eats_bind; [apply eats_rest|]. intros p b [-> _]. apply eats_ret. by rewrite app_nil_r. Qed.
Lemma reads_all_ret {X} (x : X) : reads_all (mret x) [] x.
Proof. apply reads_to_all, reads_ret. Qed.
Lemma reads_unknown {X} (K : UnknownExtension -> X) r : reads_all (x ← unknown_read (ue_typ r); mret (K x)) (ue_payload r) (K r).
Proof. destruct r as [ty p]. apply (reads_all_bind (unknown_read ty) K). cbn. apply (reads_rest_as (fun p => {| ue_typ := ty; ue_payload := p |})). Qed.
Lemma eats_unknown {X} (K : UnknownExtension -> X) typ (Q : X -> bytes -> Prop) :
  (forall p, Q (K {| ue_typ := typ; ue_payload := p |}) p) -> eats wf_bytes (x ← unknown_read typ; mret (K x)) Q.
Proof.
  intros HQ. eapply (eats_bind _ _ (fun x b => x = {| ue_typ := typ; ue_payload := b |})).
  - apply (eats_rest_as (fun p => {| ue_typ := typ; ue_payload := p |})). done.
  - intros x a ->. apply eats_ret. by rewrite app_nil_r.
Qed.
(** The test for anything left. *)
Lemma reads_left {X} (f : bool -> Rd X) bs x : reads_all (f (match bs with [] => false | _ => true end)) bs x -> reads_all (b ← rd_any_left; f b) bs x.
Proof.
  intros Hf pre. specialize (Hf pre). set (r := {| buffer := pre ++ bs; cursor := length pre |}) in *.
  change ((b ← rd_any_left; f b) r) with (f (any_left r) r). rewrite <- Hf. f_equal. f_equal. unfold any_left, r. cbn [buffer cursor].
  rewrite length_app. destruct bs; cbn [length]; [apply Nat.ltb_ge|apply Nat.ltb_lt]; lia.
Qed.
Lemma eats_left {X} (f : bool -> Rd X) (Q : X -> bytes -> Prop) :
  eats wf_bytes (f true) Q -> eats wf_bytes (f false) Q -> eats wf_bytes (b ← rd_any_left; f b) Q.
Proof. intros Ht Hf r x r' Hr Hw Hx. apply rd_bind_inv in Hx as (b & r1 & [= <- <-] & Hx). destruct (any_left r); [by eapply Ht|by eapply Hf]. Qed.
Lemma moves_unknown typ : moves (unknown_read typ).
Proof. unfold unknown_read. rd_shape. Qed.
Lemma safe_unknown typ : safe (unknown_read typ).
Proof. unfold unknown_read. rd_shape. Qed.
#[export] Hint Resolve moves_unknown safe_unknown : wire.

(** *** Client extensions *)

Section client.
Context `{DnsNames}.

(** The values an extension of each kind carries.  [names] and [filled] are what
    is asked of server names and of bodies whose presence decides the kind. *)
Definition client_unknown (filled : bytes -> Prop) (r : UnknownExtension) : Prop :=
  match ue_typ r with
  | Known ExtensionType.ECPointFormats | Known ExtensionType.EllipticCurves | Known ExtensionType.SignatureAlgorithms
  | Known ExtensionType.ServerName | Known ExtensionType.SessionTicket | Known ExtensionType.ALProtocolNegotiation
  | Known ExtensionType.SupportedVersions | Known ExtensionType.KeyShare | Known ExtensionType.PSKKeyExchangeModes
  | Known ExtensionType.PreSharedKey | Known ExtensionType.Cookie | Known ExtensionType.StatusRequest
  | Known ExtensionType.TransportParameters | Known ExtensionType.TransportParametersDraft => False
  | Known ExtensionType.ExtendedMasterSecret | Known ExtensionType.EarlyData => filled (ue_payload r)
  | _ => True
  end.
Definition client_body_wf (names : ServerName.t -> Prop) (filled : bytes -> Prop) (x : ClientExtension.t) : Prop :=
  match x with
  | ClientExtension.EcPointFormats l => vec_wf (C:=ECPointFormat.codec) (enum_wf 1 ECPointFormat.table) LenU8 l
  | ClientExtension.NamedGroups l => vec_wf (C:=NamedGroup.codec) (enum_wf 2 NamedGroup.table) LenU16 l
  | ClientExtension.SignatureAlgorithms l => vec_wf (C:=SignatureScheme.codec) (enum_wf 2 SignatureScheme.table) LenU16 l
  | ClientExtension.ServerName l => vec_wf (C:=ServerName.codec) names LenU16 l
  | ClientExtension.SessionTicket (Offer p) => filled p
  | ClientExtension.Protocols l => vec_wf (C:=payload_u8) (payload_wf 1) LenU16 l
  | ClientExtension.SupportedVersions l => vec_wf (C:=version_codec) (enum_wf 2 versions) LenU8 l
  | ClientExtension.KeyShare l => vec_wf (C:=KeyShareEntry.codec) key_share_wf LenU16 l
  | ClientExtension.PresharedKeyModes l => vec_wf (C:=PSKKeyExchangeMode.codec) (enum_wf 1 PSKKeyExchangeMode.table) LenU8 l
  | ClientExtension.PresharedKey r => psk_offer_wf r
  | ClientExtension.Cookie p => payload_wf 2 p
  | ClientExtension.CertificateStatusRequest r => status_request_wf r
  | ClientExtension.SessionTicket Request | ClientExtension.ExtendedMasterSecretRequest | ClientExtension.EarlyData
  | ClientExtension.TransportParameters _ | ClientExtension.TransportParametersDraft _ => True
  | ClientExtension.Unknown r => client_unknown filled r
  end.
Definition nonempty (p : bytes) : Prop := p <> [].
Definition client_ext_wf : ClientExtension.t -> Prop :=
  ext_wf ClientExtension.get_type ClientExtension.body (client_body_wf server_name_wf nonempty).
Definition client_ext_any : ClientExtension.t -> Prop :=
  ext_wf ClientExtension.get_type ClientExtension.body (client_body_wf server_name_any (fun _ => True)).

Lemma client_body_app x b : ClientExtension.body x b = b ++ ClientExtension.body x [].
Proof.
  destruct x as [| | | |[]| | | | | | | | | | | |]; cbn [ClientExtension.body]; unfold unknown_encode;
    first [by rewrite app_nil_r | done | apply status_request_app | by rewrite !wire_app].
Qed.
#[export] Instance client_ext_wire : Wire ClientExtension.codec client_ext_wf.
Proof.
  apply ext_wire; [exact client_body_app| | |].
  - intros x Hx _. destruct x as [l|l|l|l|[|p]|l|l|l|l|o|p| |q|p|p| |r]; cbn [client_body_wf ClientExtension.get_type ClientExtension.body ClientExtension.read_body] in *;
      first [by apply reads_one | apply reads_rest_as | idtac].
    + apply reads_left, reads_all_ret.
    + apply reads_left. destruct p as [|x p]; [done|]. apply (reads_rest_as (fun p => ClientExtension.SessionTicket (Offer p))).
    + apply reads_left, reads_all_ret.
    + apply (reads_all_bind CertificateStatusRequest.read). by apply status_request_reads.
    + apply reads_left, reads_all_ret.
    + unfold unknown_encode. cbn [app]. unfold client_unknown in Hx. pose proof (reads_unknown ClientExtension.Unknown r) as Hu.
      destruct (ue_typ r) as [[]|z]; try done; apply reads_left; by destruct (ue_payload r).
  - intros typ. destruct typ as [[]|z]; cbn [ClientExtension.read_body]; rd_shape.
  - intros typ. destruct typ as [[]|z]; cbn [ClientExtension.read_body]; rd_shape.
Qed.
#[export] Instance client_ext_exact : Exact ClientExtension.codec client_ext_any.
Proof.
  apply ext_exact; [exact client_body_app|]. intros typ Ht.
  destruct typ as [[]|z]; cbn [ClientExtension.read_body];
    first [ eapply eats_one; intros; by split_and!
          | apply eats_rest_as; intros; by split_and!
          | apply eats_unknown; intros; by split_and!
          | apply eats_left; [first [apply eats_rest_as | apply eats_unknown]; intros; by split_and! | apply eats_ret; by split_and!]
          | eapply eats_bind; [apply status_request_eats|]; intros r b [Hr ->]; apply eats_ret; rewrite app_nil_r; by split_and! ].
Qed.
End client.

(** *** The other extensions *)

(** The reads and the exactness of extensions without a test for what is left. *)
Ltac ext_reads :=
  first [ by apply reads_one | apply reads_rest_as | apply reads_all_ret ].
Ltac ext_eats :=
  first [ eapply eats_one; intros; by split_and!
        | apply eats_rest_as; intros; by split_and!
        | apply eats_unknown; intros; by split_and!
        | apply eats_ret; by split_and! ].

Definition server_unknown (r : UnknownExtension) : Prop :=
  match ue_typ r with
  | Known ExtensionType.ECPointFormats | Known ExtensionType.ServerName | Known ExtensionType.SessionTicket | Known ExtensionType.StatusRequest
  | Known ExtensionType.RenegotiationInfo | Known ExtensionType.ALProtocolNegotiation | Known ExtensionType.KeyShare
  | Known ExtensionType.PreSharedKey | Known ExtensionType.ExtendedMasterSecret | Known ExtensionType.SupportedVersions
  | Known ExtensionType.TransportParameters | Known ExtensionType.TransportParametersDraft | Known ExtensionType.EarlyData => False
  | _ => True
  end.
Definition server_body_wf (x : ServerExtension.t) : Prop :=
  match x with
  | ServerExtension.EcPointFormats l => vec_wf (C:=ECPointFormat.codec) (enum_wf 1 ECPointFormat.table) LenU8 l
  | ServerExtension.RenegotiationInfo p => payload_wf 1 p
  | ServerExtension.Protocols l => vec_wf (C:=payload_u8) (payload_wf 1) LenU16 l
  | ServerExtension.KeyShare r => key_share_wf r
  | ServerExtension.PresharedKey n => uint_wf 2 n
  | ServerExtension.SupportedVersions v => enum_wf 2 versions v
  | ServerExtension.Unknown r => server_unknown r
  | _ => True
  end.
Definition server_ext_wf : ServerExtension.t -> Prop := ext_wf ServerExtension.get_type ServerExtension.body server_body_wf.
Lemma server_body_app x b : ServerExtension.body x b = b ++ ServerExtension.body x [].
Proof. destruct x; cbn [ServerExtension.body]; unfold unknown_encode; first [by rewrite app_nil_r | done | by rewrite !wire_app]. Qed.
#[export] Instance server_ext_wire : Wire ServerExtension.codec server_ext_wf.
Proof.
  apply ext_wire; [exact server_body_app| | |].
  - intros x Hx _. destruct x; cbn [server_body_wf ServerExtension.get_type ServerExtension.body ServerExtension.read_body] in *; first [ext_reads | idtac].
    pose proof (reads_unknown ServerExtension.Unknown x) as Hu. unfold server_unknown in Hx. by destruct (ue_typ x) as [[]|z].
  - intros typ. destruct typ as [[]|z]; cbn [ServerExtension.read_body]; rd_shape.
  - intros typ. destruct typ as [[]|z]; cbn [ServerExtension.read_body]; rd_shape.
Qed.
#[export] Instance server_ext_exact : Exact ServerExtension.codec server_ext_wf.
Proof. apply ext_exact; [exact server_body_app|]. intros typ Ht. destruct typ as [[]|z]; cbn [ServerExtension.read_body]; ext_eats. Qed.

Definition retry_body_wf (x : HelloRetryExtension.t) : Prop :=
  match x with
  | HelloRetryExtension.KeyShare g => enum_wf 2 NamedGroup.table g
  | HelloRetryExtension.Cookie p => payload_wf 2 p
  | HelloRetryExtension.SupportedVersions v => enum_wf 2 versions v
  | HelloRetryExtension.Unknown r =>
      ue_typ r <> Known ExtensionType.KeyShare /\ ue_typ r <> Known ExtensionType.Cookie /\ ue_typ r <> Known ExtensionType.SupportedVersions
  end.
Definition retry_ext_wf : HelloRetryExtension.t -> Prop := ext_wf HelloRetryExtension.get_type HelloRetryExtension.body retry_body_wf.
Lemma retry_body_app x b : HelloRetryExtension.body x b = b ++ HelloRetryExtension.body x [].
Proof. destruct x; cbn [HelloRetryExtension.body]; unfold unknown_encode; first [by rewrite app_nil_r | done | by rewrite !wire_app]. Qed.
#[export] Instance retry_ext_wire : Wire HelloRetryExtension.codec retry_ext_wf.
Proof.
  apply ext_wire; [exact retry_body_app| | |].
  - intros x Hx _. destruct x; cbn [retry_body_wf HelloRetryExtension.get_type HelloRetryExtension.body HelloRetryExtension.read_body] in *; first [ext_reads | idtac].
    pose proof (reads_unknown HelloRetryExtension.Unknown x) as Hu. by destruct (ue_typ x) as [[]|z], Hx as (? & ? & ?).
  - intros typ. destruct typ as [[]|z]; cbn [HelloRetryExtension.read_body]; rd_shape.
  - intros typ. destruct typ as [[]|z]; cbn [HelloRetryExtension.read_body]; rd_shape.
Qed.
#[export] Instance retry_ext_exact : Exact HelloRetryExtension.codec retry_ext_wf.
Proof. apply ext_exact; [exact retry_body_app|]. intros typ Ht. destruct typ as [[]|z]; cbn [HelloRetryExtension.read_body]; ext_eats. Qed.

Definition cert_body_wf (x : CertificateExtension.t) : Prop :=
  match x with
  | CertificateExtension.CertificateStatus cs => certificate_status_wf cs
  | CertificateExtension.Unknown r => ue_typ r <> Known ExtensionType.StatusRequest
  end.
Definition cert_ext_wf : CertificateExtension.t -> Prop := ext_wf CertificateExtension.get_type CertificateExtension.body cert_body_wf.
Lemma cert_body_app x b : CertificateExtension.body x b = b ++ CertificateExtension.body x [].
Proof. destruct x; cbn [CertificateExtension.body]; unfold unknown_encode; first [done | by rewrite !wire_app]. Qed.
#[export] Instance cert_ext_wire : Wire CertificateExtension.codec cert_ext_wf.
Proof.
  apply ext_wire; [exact cert_body_app| | |].
  - intros x Hx _. destruct x; cbn [cert_body_wf CertificateExtension.get_type CertificateExtension.body CertificateExtension.read_body] in *; first [ext_reads | idtac].
    pose proof (reads_unknown CertificateExtension.Unknown x) as Hu. by destruct (ue_typ x) as [[]|z].
  - intros typ. destruct typ as [[]|z]; cbn [CertificateExtension.read_body]; rd_shape.
  - intros typ. destruct typ as [[]|z]; cbn [CertificateExtension.read_body]; rd_shape.
Qed.
#[export] Instance cert_ext_exact : Exact CertificateExtension.codec cert_ext_wf.
Proof. apply ext_exact; [exact cert_body_app|]. intros typ Ht. destruct typ as [[]|z]; cbn [CertificateExtension.read_body]; ext_eats. Qed.

Definition certreq_body_wf (x : CertReqExtension.t) : Prop :=
  match x with
  | CertReqExtension.SignatureAlgorithms l => l <> [] /\ vec_wf (C:=SignatureScheme.codec) (enum_wf 2 SignatureScheme.table) LenU16 l
  | CertReqExtension.AuthorityNames l => vec_wf (C:=payload_u16) (payload_wf 2) LenU16 l
  | CertReqExtension.Unknown r => ue_typ r <> Known ExtensionType.SignatureAlgorithms /\ ue_typ r <> Known ExtensionType.CertificateAuthorities
  end.
Definition certreq_ext_wf : CertReqExtension.t -> Prop := ext_wf CertReqExtension.get_type CertReqExtension.body certreq_body_wf.
Lemma certreq_body_app x b : CertReqExtension.body x b = b ++ CertReqExtension.body x [].
Proof. destruct x; cbn [CertReqExtension.body]; unfold unknown_encode; first [done | by rewrite !wire_app]. Qed.
#[export] Instance certreq_ext_wire : Wire CertReqExtension.codec certreq_ext_wf.
Proof.
  apply ext_wire; [exact certreq_body_app| | |].
  - intros x Hx _. destruct x as [l|l|r]; cbn [certreq_body_wf CertReqExtension.get_type CertReqExtension.body CertReqExtension.read_body] in *; first [ext_reads | idtac].
    + destruct Hx as [Hne Hx]. apply reads_to_all. rewrite wire_app. cbn [app]. apply reads_last; [done|]. apply reads_check; [by destruct l|]. apply reads_ret.
    + pose proof (reads_unknown CertReqExtension.Unknown r) as Hu. by destruct (ue_typ r) as [[]|z], Hx as (? & ?).
  - intros typ. destruct typ as [[]|z]; cbn [CertReqExtension.read_body]; rd_shape.
  - intros typ. destruct typ as [[]|z]; cbn [CertReqExtension.read_body]; rd_shape.
Qed.
#[export] Instance certreq_ext_exact : Exact CertReqExtension.codec certreq_ext_wf.
Proof.
  apply ext_exact; [exact certreq_body_app|]. intros typ Ht. destruct typ as [[]|z]; cbn [CertReqExtension.read_body]; try ext_eats.
  apply eats_field. intros l Hl. eapply eats_bind; [apply eats_ensure|]. intros [] a [Hne ->]. apply eats_ret. rewrite app_nil_r. cbn [app].
  split; [by destruct l|]. split; [done|]. cbn [CertReqExtension.body]. by rewrite wire_app.
Qed.

Definition ticket_body_wf (x : NewSessionTicketExtension.t) : Prop :=
  match x with
  | NewSessionTicketExtension.EarlyData n => uint_wf 4 n
  | NewSessionTicketExtension.Unknown r => ue_typ r <> Known ExtensionType.EarlyData
  end.
Definition ticket_ext_wf : NewSessionTicketExtension.t -> Prop := ext_wf NewSessionTicketExtension.get_type NewSessionTicketExtension.body ticket_body_wf.
Lemma ticket_body_app x b : NewSessionTicketExtension.body x b = b ++ NewSessionTicketExtension.body x [].
Proof. destruct x; cbn [NewSessionTicketExtension.body]; unfold unknown_encode; first [done | by rewrite !wire_app]. Qed.
#[export] Instance ticket_ext_wire : Wire NewSessionTicketExtension.codec ticket_ext_wf.
Proof.
  apply ext_wire; [exact ticket_body_app| | |].
  - intros x Hx _. destruct x; cbn [ticket_body_wf NewSessionTicketExtension.get_type NewSessionTicketExtension.body NewSessionTicketExtension.read_body] in *; first [ext_reads | idtac].
    pose proof (reads_unknown NewSessionTicketExtension.Unknown x) as Hu. by destruct (ue_typ x) as [[]|z].
  - intros typ. destruct typ as [[]|z]; cbn [NewSessionTicketExtension.read_body]; rd_shape.
  - intros typ. destruct typ as [[]|z]; cbn [NewSessionTicketExtension.read_body]; rd_shape.
Qed.
#[export] Instance ticket_ext_exact : Exact NewSessionTicketExtension.codec ticket_ext_wf.
Proof. apply ext_exact; [exact ticket_body_app|]. intros typ Ht. destruct typ as [[]|z]; cbn [NewSessionTicketExtension.read_body]; ext_eats. Qed.
