(* ===== verification/Payloads.v ===== *)
(** * Handshake messages of the TLS fork: the messages
    (orcax/rustls-fork/rustls/src/msgs/handshake.rs, src/msgs/message.rs, src/verify.rs)

    The messages themselves, their encoders, the reader that dispatches on type
    and version, the accessors of their extensions, and [MessagePayload], the
    typed content of a record. *)
From S2P Require Import Prelude Codec TlsLayer Enums Wire Messages.

(** ** ClientHello *)

Module ClientHelloPayload.
Section hello.
Context `{DnsNames}.
Record t : Type := {
  client_version : ProtocolVersion;
  random : bytes;
  session_id : SessionId.t;
  cipher_suites : list CipherSuite.t;
  compression_methods : list Compression.t;
  extensions : list ClientExtension.t
}.
Definition encode (x : t) (buf : bytes) : bytes :=
  let buf := put version_codec (client_version x) buf in
  let buf := put random_codec (random x) buf in
  let buf := put SessionId.codec (session_id x) buf in
  let buf := put cipher_suites_codec (cipher_suites x) buf in
  let buf := put compressions_codec (compression_methods x) buf in
  match extensions x with [] => buf | _ => put client_extensions_codec (extensions x) buf end.
Definition read : Rd t :=
  v ← get version_codec;
  rnd ← get random_codec;
  sid ← get SessionId.codec;
  suites ← get cipher_suites_codec;
  comps ← get compressions_codec;
  any ← rd_any_left;
  exts ← (if (any : bool) then get client_extensions_codec else mret []);
  any ← rd_any_left;
  if (any : bool) then rd_fail TrailingData
  else match exts with
       | [] => rd_fail MissingData
       | _ => mret {| client_version := v; random := rnd; session_id := sid; cipher_suites := suites; compression_methods := comps; extensions := exts |}
       end.

Definition has_duplicate_extension (x : t) : bool := has_dup_type ClientExtension.get_type [] (extensions x).
Definition find_extension (x : t) (ext : ExtensionType.name) : option ClientExtension.t := find_ext ClientExtension.get_type (Known ext) (extensions x).
Definition get_sni_extension (x : t) : option (list ServerName.t) :=
  ext ← find_extension x ExtensionType.ServerName; match ext with ClientExtension.ServerName l => Some l | _ => None end.
Definition get_sigalgs_extension (x : t) : option (list SignatureScheme.t) :=
  ext ← find_extension x ExtensionType.SignatureAlgorithms; match ext with ClientExtension.SignatureAlgorithms l => Some l | _ => None end.
Definition get_namedgroups_extension (x : t) : option (list NamedGroup.t) :=
  ext ← find_extension x ExtensionType.EllipticCurves; match ext with ClientExtension.NamedGroups l => Some l | _ => None end.
Definition get_ecpoints_extension (x : t) : option (list ECPointFormat.t) :=
  ext ← find_extension x ExtensionType.ECPointFormats; match ext with ClientExtension.EcPointFormats l => Some l | _ => None end.
Definition get_alpn_extension (x : t) : option (list bytes) :=
  ext ← find_extension x ExtensionType.ALProtocolNegotiation; match ext with ClientExtension.Protocols l => Some l | _ => None end.
Definition get_quic_params_extension (x : t) : option bytes :=
  ext ← match find_extension x ExtensionType.TransportParameters with
        | Some e => Some e
        | None => find_extension x ExtensionType.TransportParametersDraft
        end;
  match ext with ClientExtension.TransportParameters b | ClientExtension.TransportParametersDraft b => Some b | _ => None end.
Definition get_ticket_extension (x : t) : option ClientExtension.t := find_extension x ExtensionType.SessionTicket.
Definition get_versions_extension (x : t) : option (list ProtocolVersion) :=
  ext ← find_extension x ExtensionType.SupportedVersions; match ext with ClientExtension.SupportedVersions l => Some l | _ => None end.
Definition get_keyshare_extension (x : t) : option (list KeyShareEntry.t) :=
  ext ← find_extension x ExtensionType.KeyShare; match ext with ClientExtension.KeyShare l => Some l | _ => None end.
Fixpoint dup_groups (seen : list Z) (l : list KeyShareEntry.t) : bool :=
  match l with
  | [] => false
  | k :: l' => let c := enum_get NamedGroup.table (KeyShareEntry.group k) in
      if bool_decide (c ∈ seen) then true else dup_groups (c :: seen) l'
  end.
Definition has_keyshare_extension_with_duplicates (x : t) : bool :=
  match get_keyshare_extension x with Some l => dup_groups [] l | None => false end.
Definition get_psk (x : t) : option PresharedKeyOffer.t :=
  ext ← find_extension x ExtensionType.PreSharedKey; match ext with ClientExtension.PresharedKey p => Some p | _ => None end.
Definition check_psk_ext_is_last (x : t) : bool :=
  match list.last (extensions x) with Some ext => bool_decide (ClientExtension.get_type ext = Known ExtensionType.PreSharedKey) | None => false end.
Definition get_psk_modes (x : t) : option (list PSKKeyExchangeMode.t) :=
  ext ← find_extension x ExtensionType.PSKKeyExchangeModes; match ext with ClientExtension.PresharedKeyModes l => Some l | _ => None end.
Definition psk_mode_offered (x : t) (mode : PSKKeyExchangeMode.t) : bool :=
  match get_psk_modes x with Some modes => bool_decide (mode ∈ modes) | None => false end.
(** [set_psk_binder]: indexing the first binder panics when there is none. *)
Definition set_last (l : list ClientExtension.t) (e : ClientExtension.t) : list ClientExtension.t := take (length l - 1) l ++ [e].
Definition with_extensions (x : t) (l : list ClientExtension.t) : t :=
  {| client_version := client_version x; random := random x; session_id := session_id x; cipher_suites := cipher_suites x;
     compression_methods := compression_methods x; extensions := l |}.
Definition set_psk_binder (x : t) (binder : bytes) : result unit t :=
  match list.last (extensions x) with
  | Some (ClientExtension.PresharedKey offer) =>
      match PresharedKeyOffer.binders offer with
      | [] => Panic
      | _ :: bs =>
          let offer := {| PresharedKeyOffer.identities := PresharedKeyOffer.identities offer; PresharedKeyOffer.binders := binder :: bs |} in
          Ok (with_extensions x (set_last (extensions x) (ClientExtension.PresharedKey offer)))
      end
  | _ => Ok x
  end.
Definition ems_support_offered (x : t) : bool := bool_decide (is_Some (find_extension x ExtensionType.ExtendedMasterSecret)).
Definition early_data_extension_offered (x : t) : bool := bool_decide (is_Some (find_extension x ExtensionType.EarlyData)).
End hello.
End ClientHelloPayload.

(** ** HelloRetryRequest and ServerHello *)

Module HelloRetryRequest.
Record t : Type := {
  legacy_version : ProtocolVersion;
  session_id : SessionId.t;
  cipher_suite : CipherSuite.t;
  extensions : list HelloRetryExtension.t
}.
Definition encode (x : t) (buf : bytes) : bytes :=
  let buf := put version_codec (legacy_version x) buf in
  let buf := put random_codec HELLO_RETRY_REQUEST_RANDOM buf in
  let buf := put SessionId.codec (session_id x) buf in
  let buf := put CipherSuite.codec (cipher_suite x) buf in
  let buf := put Compression.codec (Known Compression.Null) buf in
  put hello_retry_extensions_codec (extensions x) buf.
(** The version and the random have been read; the caller sets the version. *)
Definition read : Rd t :=
  sid ← get SessionId.codec;
  suite ← get CipherSuite.codec;
  comp ← get Compression.codec;
  _ ← rd_ensure (bool_decide (comp = Known Compression.Null)) UnsupportedCompression;
  exts ← get hello_retry_extensions_codec;
  mret {| legacy_version := Unknown 0; session_id := sid; cipher_suite := suite; extensions := exts |}.
Definition has_duplicate_extension (x : t) : bool := has_dup_type HelloRetryExtension.get_type [] (extensions x).
Definition has_unknown_extension (x : t) : bool :=
  existsb (fun e => let ty := HelloRetryExtension.get_type e in
             negb (bool_decide (ty = Known ExtensionType.KeyShare)) && negb (bool_decide (ty = Known ExtensionType.SupportedVersions))
             && negb (bool_decide (ty = Known ExtensionType.Cookie))) (extensions x).
Definition find_extension (x : t) (ext : ExtensionType.name) : option HelloRetryExtension.t := find_ext HelloRetryExtension.get_type (Known ext) (extensions x).
Definition get_requested_key_share_group (x : t) : option NamedGroup.t :=
  ext ← find_extension x ExtensionType.KeyShare; match ext with HelloRetryExtension.KeyShare g => Some g | _ => None end.
Definition get_cookie (x : t) : option bytes :=
  ext ← find_extension x ExtensionType.Cookie; match ext with HelloRetryExtension.Cookie c => Some c | _ => None end.
Definition get_supported_versions (x : t) : option ProtocolVersion :=
  ext ← find_extension x ExtensionType.SupportedVersions; match ext with HelloRetryExtension.SupportedVersions v => Some v | _ => None end.
End HelloRetryRequest.

(** [HasServerExtensions], for ServerHello and EncryptedExtensions. *)
Module ServerExts.
Definition has_duplicate_extension (l : list ServerExtension.t) : bool := has_dup_type ServerExtension.get_type [] l.
Definition find_extension (l : list ServerExtension.t) (ext : ExtensionType.name) : option ServerExtension.t := find_ext ServerExtension.get_type (Known ext) l.
Definition get_alpn_protocol (l : list ServerExtension.t) : option bytes :=
  ext ← find_extension l ExtensionType.ALProtocolNegotiation; match ext with ServerExtension.Protocols p => as_single_slice p | _ => None end.
Definition get_quic_params_extension (l : list ServerExtension.t) : option bytes :=
  ext ← match find_extension l ExtensionType.TransportParameters with
        | Some e => Some e
        | None => find_extension l ExtensionType.TransportParametersDraft
        end;
  match ext with ServerExtension.TransportParameters b | ServerExtension.TransportParametersDraft b => Some b | _ => None end.
Definition early_data_extension_offered (l : list ServerExtension.t) : bool := bool_decide (is_Some (find_extension l ExtensionType.EarlyData)).
End ServerExts.

Module ServerHelloPayload.
Record t : Type := {
  legacy_version : ProtocolVersion;
  random : bytes;
  session_id : SessionId.t;
  cipher_suite : CipherSuite.t;
  compression_method : Compression.t;
  extensions : list ServerExtension.t
}.
Definition encode (x : t) (buf : bytes) : bytes :=
  let buf := put version_codec (legacy_version x) buf in
  let buf := put random_codec (random x) buf in
  let buf := put SessionId.codec (session_id x) buf in
  let buf := put CipherSuite.codec (cipher_suite x) buf in
  let buf := put Compression.codec (compression_method x) buf in
  match extensions x with [] => buf | _ => put server_extensions_codec (extensions x) buf end.
(** Minus version and random, which have already been read. *)
Definition read : Rd t :=
  sid ← get SessionId.codec;
  suite ← get CipherSuite.codec;
  comp ← get Compression.codec;
  any ← rd_any_left;
  exts ← (if (any : bool) then get server_extensions_codec else mret []);
  _ ← expect_empty;
  mret {| legacy_version := Unknown 0; random := ZERO_RANDOM; session_id := sid; cipher_suite := suite; compression_method := comp; extensions := exts |}.
Definition get_key_share (x : t) : option KeyShareEntry.t :=
  ext ← ServerExts.find_extension (extensions x) ExtensionType.KeyShare; match ext with ServerExtension.KeyShare s => Some s | _ => None end.
Definition get_psk_index (x : t) : option Z :=
  ext ← ServerExts.find_extension (extensions x) ExtensionType.PreSharedKey; match ext with ServerExtension.PresharedKey i => Some i | _ => None end.
Definition get_ecpoints_extension (x : t) : option (list ECPointFormat.t) :=
  ext ← ServerExts.find_extension (extensions x) ExtensionType.ECPointFormats; match ext with ServerExtension.EcPointFormats f => Some f | _ => None end.
Definition ems_support_acked (x : t) : bool := bool_decide (is_Some (ServerExts.find_extension (extensions x) ExtensionType.ExtendedMasterSecret)).
Definition get_supported_versions (x : t) : option ProtocolVersion :=
  ext ← ServerExts.find_extension (extensions x) ExtensionType.SupportedVersions; match ext with ServerExtension.SupportedVersions v => Some v | _ => None end.
End ServerHelloPayload.

(** ** Certificates *)

Definition CERTS : ListLength := LenU24 (Z.to_nat 0x10000).
Definition certificate_chain_codec : Codec (list bytes) := vec_codec certificate_der CERTS.

Module CertificateEntry.
Record t : Type := { cert : bytes; exts : list CertificateExtension.t }.
Definition new (cert : bytes) : t := {| cert := cert; exts := [] |}.
Definition codec : Codec t :=
  {| encode x buf := put certificate_extensions_codec (exts x) (put certificate_der (cert x) buf);
     read := c ← get certificate_der; e ← get certificate_extensions_codec; mret {| cert := c; exts := e |} |}.
Definition has_duplicate_extension (x : t) : bool := has_dup_type CertificateExtension.get_type [] (exts x).
Definition has_unknown_extension (x : t) : bool :=
  existsb (fun e => negb (bool_decide (CertificateExtension.get_type e = Known ExtensionType.StatusRequest))) (exts x).
Definition get_ocsp_response (x : t) : option bytes :=
  find_ext CertificateExtension.get_type (Known ExtensionType.StatusRequest) (exts x) ≫= CertificateExtension.get_cert_status.
End CertificateEntry.
Definition certificate_entries_codec : Codec (list CertificateEntry.t) := vec_codec CertificateEntry.codec CERTS.

Module CertificatePayloadTls13.
Record t : Type := { context : bytes; entries : list CertificateEntry.t }.
Definition new (entries : list CertificateEntry.t) : t := {| context := []; entries := entries |}.
Definition codec : Codec t :=
  {| encode x buf := put certificate_entries_codec (entries x) (put payload_u8 (context x) buf);
     read := c ← get payload_u8; e ← get certificate_entries_codec; mret {| context := c; entries := e |} |}.
Definition any_entry_has_duplicate_extension (x : t) : bool := existsb CertificateEntry.has_duplicate_extension (entries x).
Definition any_entry_has_unknown_extension (x : t) : bool := existsb CertificateEntry.has_unknown_extension (entries x).
Definition any_entry_has_extension (x : t) : bool := existsb (fun e => match CertificateEntry.exts e with [] => false | _ => true end) (entries x).
Definition get_end_entity_ocsp (x : t) : bytes := match (e ← head (entries x); CertificateEntry.get_ocsp_response e) with Some r => r | None => [] end.
Definition convert (x : t) : list bytes := map CertificateEntry.cert (entries x).
End CertificatePayloadTls13.

(** ** Key exchange *)

Module EcParameters.
Record t : Type := { curve_type : ECCurveType.t; named_group : NamedGroup.t }.
Definition codec : Codec t :=
  {| encode x buf := put NamedGroup.codec (named_group x) (put ECCurveType.codec (curve_type x) buf);
     read := ct ← get ECCurveType.codec;
             _ ← rd_ensure (bool_decide (ct = Known ECCurveType.NamedCurve)) UnsupportedCurveType;
             grp ← get NamedGroup.codec;
             mret {| curve_type := ct; named_group := grp |} |}.
End EcParameters.
Definition client_ecdh_params_codec : Codec bytes := payload_u8.
Module ServerEcdhParams.
Record t : Type := { curve_params : EcParameters.t; public : bytes }.
Definition new (group : NamedGroup.t) (pub_key : bytes) : t :=
  {| curve_params := {| EcParameters.curve_type := Known ECCurveType.NamedCurve; EcParameters.named_group := group |}; public := pub_key |}.
Definition codec : Codec t :=
  {| encode x buf := put payload_u8 (public x) (put EcParameters.codec (curve_params x) buf);
     read := cp ← get EcParameters.codec; pb ← get payload_u8; mret {| curve_params := cp; public := pb |} |}.
End ServerEcdhParams.
Module DigitallySignedStruct.
Record t : Type := { scheme : SignatureScheme.t; sig : bytes }.
Definition codec : Codec t :=
  {| encode x buf := put payload_u16 (sig x) (put SignatureScheme.codec (scheme x) buf);
     read := s ← get SignatureScheme.codec; p ← get payload_u16; mret {| scheme := s; sig := p |} |}.
End DigitallySignedStruct.
Module EcdheServerKeyExchange.
Record t : Type := { params : ServerEcdhParams.t; dss : DigitallySignedStruct.t }.
Definition codec : Codec t :=
  {| encode x buf := put DigitallySignedStruct.codec (dss x) (put ServerEcdhParams.codec (params x) buf);
     read := p ← get ServerEcdhParams.codec; d ← get DigitallySignedStruct.codec; mret {| params := p; dss := d |} |}.
End EcdheServerKeyExchange.
Module ServerKeyExchangePayload.
Inductive t : Type := Ecdhe (x : EcdheServerKeyExchange.t) | Unknown (p : bytes).
Definition encode (x : t) (buf : bytes) : bytes :=
  match x with Ecdhe x => put EcdheServerKeyExchange.codec x buf | Unknown p => buf ++ p end.
Definition read : Rd t := p ← rd_rest; mret (Unknown p).
(** [unwrap_given_kxa]; ECDHE is the only key exchange. *)
Definition unwrap_given_kxa (x : t) : option EcdheServerKeyExchange.t :=
  match x with
  | Unknown unk =>
      let '(res, rd) := get EcdheServerKeyExchange.codec (init unk) in
      if any_left rd then None else match res with Ok x => Some x | _ => None end
  | _ => None
  end.
End ServerKeyExchangePayload.

(** ** Certificate requests and tickets *)

Module CertificateRequestPayload.
Record t : Type := { certtypes : list ClientCertificateType.t; sigschemes : list SignatureScheme.t; canames : list bytes }.
Definition codec : Codec t :=
  {| encode x buf := put distinguished_names_codec (canames x) (put signature_schemes_codec (sigschemes x) (put certificate_types_codec (certtypes x) buf));
     read := types ← get certificate_types_codec; schemes ← get signature_schemes_codec; names ← get distinguished_names_codec;
             _ ← rd_ensure (match schemes with [] => false | _ => true end) NoSignatureSchemes;
             mret {| certtypes := types; sigschemes := schemes; canames := names |} |}.
End CertificateRequestPayload.
Module CertificateRequestPayloadTls13.
Record t : Type := { context : bytes; extensions : list CertReqExtension.t }.
Definition codec : Codec t :=
  {| encode x buf := put certreq_extensions_codec (extensions x) (put payload_u8 (context x) buf);
     read := c ← get payload_u8; e ← get certreq_extensions_codec; mret {| context := c; extensions := e |} |}.
Definition find_extension (x : t) (ext : ExtensionType.name) : option CertReqExtension.t := find_ext CertReqExtension.get_type (Known ext) (extensions x).
Definition get_sigalgs_extension (x : t) : option (list SignatureScheme.t) :=
  ext ← find_extension x ExtensionType.SignatureAlgorithms; match ext with CertReqExtension.SignatureAlgorithms l => Some l | _ => None end.
Definition get_authorities_extension (x : t) : option (list bytes) :=
  ext ← find_extension x ExtensionType.CertificateAuthorities; match ext with CertReqExtension.AuthorityNames l => Some l | _ => None end.
End CertificateRequestPayloadTls13.
Module NewSessionTicketPayload.
Record t : Type := { lifetime_hint : Z; ticket : bytes }.
Definition codec : Codec t :=
  {| encode x buf := put payload_u16 (ticket x) (put codec_u32 (lifetime_hint x) buf);
     read := l ← get codec_u32; p ← get payload_u16; mret {| lifetime_hint := l; ticket := p |} |}.
End NewSessionTicketPayload.
Module NewSessionTicketPayloadTls13.
Record t : Type := { lifetime : Z; age_add : Z; nonce : bytes; ticket : bytes; exts : list NewSessionTicketExtension.t }.
Definition new (lifetime age_add : Z) (nonce ticket : bytes) : t :=
  {| lifetime := lifetime; age_add := age_add; nonce := nonce; ticket := ticket; exts := [] |}.
Definition codec : Codec t :=
  {| encode x buf := put ticket_extensions_codec (exts x) (put payload_u16 (ticket x) (put payload_u8 (nonce x) (put codec_u32 (age_add x) (put codec_u32 (lifetime x) buf))));
     read := l ← get codec_u32; a ← get codec_u32; n ← get payload_u8; p ← get payload_u16; e ← get ticket_extensions_codec;
             mret {| lifetime := l; age_add := a; nonce := n; ticket := p; exts := e |} |}.
Definition has_duplicate_extension (x : t) : bool := has_dup_type NewSessionTicketExtension.get_type [] (exts x).
Definition find_extension (x : t) (ext : ExtensionType.name) : option NewSessionTicketExtension.t := find_ext NewSessionTicketExtension.get_type (Known ext) (exts x).
Definition get_max_early_data_size (x : t) : option Z :=
  ext ← find_extension x ExtensionType.EarlyData; match ext with NewSessionTicketExtension.EarlyData n => Some n | _ => None end.
End NewSessionTicketPayloadTls13.

(** ** The handshake message *)

Module HandshakePayload.
Section payload.
Context `{DnsNames}.
Inductive t : Type :=
| HelloRequest
| ClientHello (x : ClientHelloPayload.t)
| ServerHello (x : ServerHelloPayload.t)
| HelloRetryRequest (x : HelloRetryRequest.t)
| Certificate (x : list bytes)
| CertificateTls13 (x : CertificatePayloadTls13.t)
| ServerKeyExchange (x : ServerKeyExchangePayload.t)
| CertificateRequest (x : CertificateRequestPayload.t)
| CertificateRequestTls13 (x : CertificateRequestPayloadTls13.t)
| CertificateVerify (x : DigitallySignedStruct.t)
| ServerHelloDone
| EndOfEarlyData
| ClientKeyExchange (p : bytes)
| NewSessionTicket (x : NewSessionTicketPayload.t)
| NewSessionTicketTls13 (x : NewSessionTicketPayloadTls13.t)
| EncryptedExtensions (x : list ServerExtension.t)
| KeyUpdate (x : KeyUpdateRequest.t)
| Finished (p : bytes)
| CertificateStatus (x : CertificateStatus.t)
| MessageHash (p : bytes)
| Unknown (p : bytes).
Definition encode (x : t) (buf : bytes) : bytes :=
  match x with
  | HelloRequest | ServerHelloDone | EndOfEarlyData => buf
  | ClientHello x => ClientHelloPayload.encode x buf
  | ServerHello x => ServerHelloPayload.encode x buf
  | HelloRetryRequest x => HelloRetryRequest.encode x buf
  | Certificate x => put certificate_chain_codec x buf
  | CertificateTls13 x => put CertificatePayloadTls13.codec x buf
  | ServerKeyExchange x => ServerKeyExchangePayload.encode x buf
  | ClientKeyExchange p => buf ++ p
  | CertificateRequest x => put CertificateRequestPayload.codec x buf
  | CertificateRequestTls13 x => put CertificateRequestPayloadTls13.codec x buf
  | CertificateVerify x => put DigitallySignedStruct.codec x buf
  | NewSessionTicket x => put NewSessionTicketPayload.codec x buf
  | NewSessionTicketTls13 x => put NewSessionTicketPayloadTls13.codec x buf
  | EncryptedExtensions x => put server_extensions_codec x buf
  | KeyUpdate x => put KeyUpdateRequest.codec x buf
  | Finished p => buf ++ p
  | CertificateStatus x => put CertificateStatus.codec x buf
  | MessageHash p => buf ++ p
  | Unknown p => buf ++ p
  end.
End payload.
End HandshakePayload.

Module HandshakeMessagePayload.
Section message.
Context `{DnsNames}.
Record t : Type := { typ : HandshakeType.t; payload : HandshakePayload.t }.
Definition wire_type (x : HandshakeType.t) : HandshakeType.t :=
  match x with Known HandshakeType.HelloRetryRequest => Known HandshakeType.ServerHello | _ => x end.
Definition encode (x : t) (buf : bytes) : bytes :=
  nested (LenU24 0) (HandshakePayload.encode (payload x)) (put HandshakeType.codec (wire_type (typ x)) buf).
Definition get_encoding (x : t) : bytes := encode x [].

Definition read_server_hello : Rd t :=
  version ← get version_codec;
  random ← get random_codec;
  if bool_decide (random = HELLO_RETRY_REQUEST_RANDOM) then
    hrr ← HelloRetryRequest.read;
    mret {| typ := Known HandshakeType.HelloRetryRequest;
            payload := HandshakePayload.HelloRetryRequest
              {| HelloRetryRequest.legacy_version := version; HelloRetryRequest.session_id := HelloRetryRequest.session_id hrr;
                 HelloRetryRequest.cipher_suite := HelloRetryRequest.cipher_suite hrr; HelloRetryRequest.extensions := HelloRetryRequest.extensions hrr |} |}
  else
    shp ← ServerHelloPayload.read;
    mret {| typ := Known HandshakeType.ServerHello;
            payload := HandshakePayload.ServerHello
              {| ServerHelloPayload.legacy_version := version; ServerHelloPayload.random := random;
                 ServerHelloPayload.session_id := ServerHelloPayload.session_id shp; ServerHelloPayload.cipher_suite := ServerHelloPayload.cipher_suite shp;
                 ServerHelloPayload.compression_method := ServerHelloPayload.compression_method shp;
                 ServerHelloPayload.extensions := ServerHelloPayload.extensions shp |} |}.

(** The body, by type and negotiated version. *)
Definition read_body (vers : ProtocolVersion) (ty : HandshakeType.t) : Rd t :=
  let ret {A} (m : Rd A) (K : A -> HandshakePayload.t) : Rd t := x ← m; mret {| typ := ty; payload := K x |} in
  let tls13 := bool_decide (vers = Known TLSv1_3) in
  match ty with
  | Known HandshakeType.HelloRequest =>
      any ← rd_any_left;
      if (any : bool) then ret rd_rest HandshakePayload.Unknown else mret {| typ := ty; payload := HandshakePayload.HelloRequest |}
  | Known HandshakeType.ClientHello => ret ClientHelloPayload.read HandshakePayload.ClientHello
  | Known HandshakeType.ServerHello => read_server_hello
  | Known HandshakeType.Certificate =>
      if tls13 then ret (get CertificatePayloadTls13.codec) HandshakePayload.CertificateTls13
      else ret (get certificate_chain_codec) HandshakePayload.Certificate
  | Known HandshakeType.ServerKeyExchange => ret ServerKeyExchangePayload.read HandshakePayload.ServerKeyExchange
  | Known HandshakeType.ServerHelloDone => _ ← expect_empty; mret {| typ := ty; payload := HandshakePayload.ServerHelloDone |}
  | Known HandshakeType.ClientKeyExchange => ret rd_rest HandshakePayload.ClientKeyExchange
  | Known HandshakeType.CertificateRequest =>
      if tls13 then ret (get CertificateRequestPayloadTls13.codec) HandshakePayload.CertificateRequestTls13
      else ret (get CertificateRequestPayload.codec) HandshakePayload.CertificateRequest
  | Known HandshakeType.CertificateVerify => ret (get DigitallySignedStruct.codec) HandshakePayload.CertificateVerify
  | Known HandshakeType.NewSessionTicket =>
      if tls13 then ret (get NewSessionTicketPayloadTls13.codec) HandshakePayload.NewSessionTicketTls13
      else ret (get NewSessionTicketPayload.codec) HandshakePayload.NewSessionTicket
  | Known HandshakeType.EncryptedExtensions => ret (get server_extensions_codec) HandshakePayload.EncryptedExtensions
  | Known HandshakeType.KeyUpdate => ret (get KeyUpdateRequest.codec) HandshakePayload.KeyUpdate
  | Known HandshakeType.EndOfEarlyData => _ ← expect_empty; mret {| typ := ty; payload := HandshakePayload.EndOfEarlyData |}
  | Known HandshakeType.Finished => ret rd_rest HandshakePayload.Finished
  | Known HandshakeType.CertificateStatus => ret (get CertificateStatus.codec) HandshakePayload.CertificateStatus
  | Known HandshakeType.MessageHash => rd_fail UnexpectedMessage
  | Known HandshakeType.HelloRetryRequest => rd_fail UnexpectedMessage
  | _ => ret rd_rest HandshakePayload.Unknown
  end.
Definition read_version (vers : ProtocolVersion) : Rd t :=
  ty ← get HandshakeType.codec;
  len ← get codec_u24;
  sub_read (Z.to_nat len) (read_body vers ty).
(** [impl Codec]. *)
Definition read : Rd t := read_version (Known TLSv1_2).

Definition build_key_update_notify : t :=
  {| typ := Known HandshakeType.KeyUpdate; payload := HandshakePayload.KeyUpdate (Known KeyUpdateRequest.UpdateNotRequested) |}.
Definition build_handshake_hash (hash : bytes) : t := {| typ := Known HandshakeType.MessageHash; payload := HandshakePayload.MessageHash hash |}.
(** [get_encoding_for_binder_signing]: everything up to the binders. *)
Definition binder_len (x : t) : nat :=
  match payload x with
  | HandshakePayload.ClientHello ch =>
      match list.last (ClientHelloPayload.extensions ch) with
      | Some (ClientExtension.PresharedKey offer) => length (put binders_codec (PresharedKeyOffer.binders offer) [])
      | _ => 0
      end
  | _ => 0
  end.
Definition get_encoding_for_binder_signing (x : t) : bytes :=
  let ret := get_encoding x in
  take (length ret - binder_len x) ret.
End message.
End HandshakeMessagePayload.
Abbreviation client_hello c := {| HandshakeMessagePayload.typ := Known HandshakeType.ClientHello; HandshakeMessagePayload.payload := HandshakePayload.ClientHello c |}.

(** ** The content of a record (message.rs) *)

Module MessagePayload.
Section payload.
Context `{DnsNames}.
Inductive t : Type :=
| Alert (x : AlertMessagePayload)
| Handshake (parsed : HandshakeMessagePayload.t) (encoded : bytes)
| ChangeCipherSpec
| ApplicationData (p : bytes).
Definition encode (x : t) (buf : bytes) : bytes :=
  match x with
  | Alert a => put alert_codec a buf
  | Handshake _ encoded => buf ++ encoded
  | ChangeCipherSpec => put ccs_codec tt buf
  | ApplicationData p => buf ++ p
  end.
Definition handshake (parsed : HandshakeMessagePayload.t) : t := Handshake parsed (HandshakeMessagePayload.get_encoding parsed).
Definition new (ty : ContentType) (vers : ProtocolVersion) (p : bytes) : result InvalidMessage t :=
  let r := init p in
  match ty with
  | Known TlsLayer.ApplicationData => Ok (ApplicationData p)
  | Known TlsLayer.Alert => Alert <$> (get alert_codec r).1
  | Known TlsLayer.Handshake => (fun parsed => Handshake parsed p) <$> (HandshakeMessagePayload.read_version vers r).1
  | Known TlsLayer.ChangeCipherSpec => (fun _ => ChangeCipherSpec) <$> (get ccs_codec r).1
  | _ => Err Codec.InvalidContentType
  end.
Definition content_type (x : t) : ContentType :=
  match x with
  | Alert _ => Known TlsLayer.Alert
  | Handshake _ _ => Known TlsLayer.Handshake
  | ChangeCipherSpec => Known TlsLayer.ChangeCipherSpec
  | ApplicationData _ => Known TlsLayer.ApplicationData
  end.
End payload.
End MessagePayload.

Module Message.
Section message.
Context `{DnsNames}.
Record t : Type := { version : ProtocolVersion; payload : MessagePayload.t }.
Definition is_handshake_type (x : t) (ty : HandshakeType.t) : bool :=
  match payload x with MessagePayload.Handshake parsed _ => bool_decide (HandshakeMessagePayload.typ parsed = ty) | _ => false end.
Definition build_alert (lvl : tls_enum alert_level) (desc : Z) : t :=
  {| version := Known TLSv1_2; payload := MessagePayload.Alert {| level := lvl; description := desc |} |}.
Definition build_key_update_notify : t :=
  {| version := Known TLSv1_3; payload := MessagePayload.handshake HandshakeMessagePayload.build_key_update_notify |}.
(** [TryFrom<PlainMessage>] and [From<Message> for PlainMessage]. *)
Definition try_from (m : message) : result InvalidMessage t :=
  p ← MessagePayload.new (TlsLayer.typ m) (TlsLayer.version m) (TlsLayer.payload m);
  Ok {| version := TlsLayer.version m; payload := p |}.
Definition into_plain (x : t) : message :=
  {| TlsLayer.typ := MessagePayload.content_type (payload x);
     TlsLayer.version := version x;
     TlsLayer.payload := match payload x with MessagePayload.ApplicationData p => p | p => MessagePayload.encode p [] end |}.
End message.
End Message.

(** ** Encrypted ClientHello configurations *)

Module HpkeSymmetricCipherSuite.
Record t : Type := { kdf_id : HpkeKdf.t; aead_id : HpkeAead.t }.
Definition codec : Codec t :=
  {| encode x buf := put HpkeAead.codec (aead_id x) (put HpkeKdf.codec (kdf_id x) buf);
     read := k ← get HpkeKdf.codec; a ← get HpkeAead.codec; mret {| kdf_id := k; aead_id := a |} |}.
End HpkeSymmetricCipherSuite.
Definition hpke_suites_codec : Codec (list HpkeSymmetricCipherSuite.t) := vec_codec HpkeSymmetricCipherSuite.codec LenU16.
Module HpkeKeyConfig.
Record t : Type := { config_id : Z; kem_id : HpkeKem.t; public_key : bytes; symmetric_cipher_suites : list HpkeSymmetricCipherSuite.t }.
Definition codec : Codec t :=
  {| encode x buf := put hpke_suites_codec (symmetric_cipher_suites x) (put payload_u16 (public_key x) (put HpkeKem.codec (kem_id x) (put codec_u8 (config_id x) buf)));
     read := c ← get codec_u8; k ← get HpkeKem.codec; p ← get payload_u16; s ← get hpke_suites_codec;
             mret {| config_id := c; kem_id := k; public_key := p; symmetric_cipher_suites := s |} |}.
End HpkeKeyConfig.
Module EchConfigContents.
Record t : Type := { key_config : HpkeKeyConfig.t; maximum_name_length : Z; public_name : bytes; extensions : bytes }.
Definition codec `{DnsNames} : Codec t :=
  {| encode x buf := put payload_u16 (extensions x) (put payload_u8 (public_name x) (put codec_u8 (maximum_name_length x) (put HpkeKeyConfig.codec (key_config x) buf)));
     read := k ← get HpkeKeyConfig.codec; m ← get codec_u8;
             name ← get payload_u8; _ ← rd_ensure (dns_try_from name) InvalidServerName;
             e ← get payload_u16;
             mret {| key_config := k; maximum_name_length := m; public_name := name; extensions := e |} |}.
End EchConfigContents.
Module EchConfig.
Record t : Type := { version : EchVersion.t; contents : EchConfigContents.t }.
(** The contents are read from a sub-reader that need not be used up. *)
Definition codec `{DnsNames} : Codec t :=
  {| encode x buf := let c := put EchConfigContents.codec (contents x) [] in
                     put EchVersion.codec (version x) buf ++ be_encode 2 (u16 (zlen c)) ++ c;
     read := v ← get EchVersion.codec; n ← get codec_u16; s ← sub (Z.to_nat n);
             c ← within s (get EchConfigContents.codec);
             mret {| version := v; contents := c |} |}.
End EchConfig.
