(* ===== verification/PayloadLaws.v ===== *)
(** * Handshake messages of the TLS fork: laws of the messages
    (orcax/rustls-fork/rustls/src/msgs/handshake.rs)

    Every message is read back from its encoding; a message that was read
    re-encodes to the bytes read; no input makes the reader panic; the bytes
    signed for a pre-shared key do not depend on the binders. *)
From S2P Require Import Prelude Codec TlsLayer Enums Wire Messages MessageLaws Payloads.

(** ** Structs *)

#[export] Instance certificate_der_wire : Wire certificate_der (payload_wf 3).
Proof. by apply payload_wire. Qed.
#[export] Instance certificate_der_exact : Exact certificate_der (payload_wf 3).
Proof. by apply payload_exact. Qed.

Definition entry_wf (x : CertificateEntry.t) : Prop :=
  payload_wf 3 (CertificateEntry.cert x) /\ vec_wf (C:=CertificateExtension.codec) cert_ext_wf LenU16 (CertificateEntry.exts x).
#[export] Instance entry_wire : Wire CertificateEntry.codec entry_wf.
Proof. wire_struct CertificateEntry.codec. Qed.

Definition cert13_wf (x : CertificatePayloadTls13.t) : Prop :=
  payload_wf 1 (CertificatePayloadTls13.context x) /\ vec_wf (C:=CertificateEntry.codec) entry_wf CERTS (CertificatePayloadTls13.entries x).
#[export] Instance cert13_wire : Wire CertificatePayloadTls13.codec cert13_wf.
Proof. wire_struct CertificatePayloadTls13.codec. Qed.

Definition ec_params_wf (x : EcParameters.t) : Prop :=
  EcParameters.curve_type x = Known ECCurveType.NamedCurve /\ enum_wf 2 NamedGroup.table (EcParameters.named_group x).
#[export] Instance ec_params_wire : Wire EcParameters.codec ec_params_wf.
Proof.
  wire_struct EcParameters.codec; destruct Hx as [Hc Hg]; cbn in Hc, Hg; subst; [apply ECCurveType.wf_ECCurveType|].
  apply reads_check; [by apply bool_decide_eq_true|]. apply reads_last; [done|]. apply reads_ret.
Qed.
#[export] Instance ec_params_exact : Exact EcParameters.codec ec_params_wf.
Proof.
  exact_struct EcParameters.codec. eapply eats_bind; [apply eats_ensure|]. intros [] a [Hb ->]. apply bool_decide_eq_true in Hb as ->.
  apply eats_field. intros g Hg. apply eats_ret. split; [by split|]. rewrite app_nil_r. unfold get_encoding at 3.
  cbn [encode EcParameters.codec EcParameters.curve_type EcParameters.named_group]. by rewrite !wire_app.
Qed.

Definition ecdh_wf (x : ServerEcdhParams.t) : Prop := ec_params_wf (ServerEcdhParams.curve_params x) /\ payload_wf 1 (ServerEcdhParams.public x).
#[export] Instance ecdh_wire : Wire ServerEcdhParams.codec ecdh_wf.
Proof. wire_struct ServerEcdhParams.codec. Qed.
#[export] Instance ecdh_exact : Exact ServerEcdhParams.codec ecdh_wf.
Proof. exact_struct ServerEcdhParams.codec. Qed.

Definition dss_wf (x : DigitallySignedStruct.t) : Prop :=
  enum_wf 2 SignatureScheme.table (DigitallySignedStruct.scheme x) /\ payload_wf 2 (DigitallySignedStruct.sig x).
#[export] Instance dss_wire : Wire DigitallySignedStruct.codec dss_wf.
Proof. wire_struct DigitallySignedStruct.codec. Qed.
#[export] Instance dss_exact : Exact DigitallySignedStruct.codec dss_wf.
Proof. exact_struct DigitallySignedStruct.codec. Qed.

Definition ske_wf (x : EcdheServerKeyExchange.t) : Prop := ecdh_wf (EcdheServerKeyExchange.params x) /\ dss_wf (EcdheServerKeyExchange.dss x).
#[export] Instance ske_wire : Wire EcdheServerKeyExchange.codec ske_wf.
Proof. wire_struct EcdheServerKeyExchange.codec. Qed.
#[export] Instance ske_exact : Exact EcdheServerKeyExchange.codec ske_wf.
Proof. exact_struct EcdheServerKeyExchange.codec. Qed.

Definition certreq_wf (x : CertificateRequestPayload.t) : Prop :=
  vec_wf (C:=ClientCertificateType.codec) (enum_wf 1 ClientCertificateType.table) LenU8 (CertificateRequestPayload.certtypes x) /\
  vec_wf (C:=SignatureScheme.codec) (enum_wf 2 SignatureScheme.table) LenU16 (CertificateRequestPayload.sigschemes x) /\
  vec_wf (C:=payload_u16) (payload_wf 2) LenU16 (CertificateRequestPayload.canames x) /\ CertificateRequestPayload.sigschemes x <> [].
#[export] Instance certreq_wire : Wire CertificateRequestPayload.codec certreq_wf.
Proof.
  wire_struct CertificateRequestPayload.codec. apply reads_check; [|apply reads_ret]. destruct Hx as (_ & _ & _ & Hne). by destruct sigschemes.
Qed.
#[export] Instance certreq_exact : Exact CertificateRequestPayload.codec certreq_wf.
Proof.
  exact_struct CertificateRequestPayload.codec. eapply eats_bind; [apply eats_ensure|]. intros [] a [Hb ->]. apply eats_ret.
  split; [split_and!; try done; by destruct x0|]. unfold get_encoding at 4.
  cbn [encode CertificateRequestPayload.codec CertificateRequestPayload.canames CertificateRequestPayload.sigschemes CertificateRequestPayload.certtypes].
  by rewrite !wire_app, !app_nil_r, <- !app_assoc.
Qed.

Definition certreq13_wf (x : CertificateRequestPayloadTls13.t) : Prop :=
  payload_wf 1 (CertificateRequestPayloadTls13.context x) /\
  vec_wf (C:=CertReqExtension.codec) certreq_ext_wf LenU16 (CertificateRequestPayloadTls13.extensions x).
#[export] Instance certreq13_wire : Wire CertificateRequestPayloadTls13.codec certreq13_wf.
Proof. wire_struct CertificateRequestPayloadTls13.codec. Qed.
#[export] Instance certreq13_exact : Exact CertificateRequestPayloadTls13.codec certreq13_wf.
Proof. exact_struct CertificateRequestPayloadTls13.codec. Qed.

Definition ticket12_wf (x : NewSessionTicketPayload.t) : Prop :=
  uint_wf 4 (NewSessionTicketPayload.lifetime_hint x) /\ payload_wf 2 (NewSessionTicketPayload.ticket x).
#[export] Instance ticket12_wire : Wire NewSessionTicketPayload.codec ticket12_wf.
Proof. wire_struct NewSessionTicketPayload.codec. Qed.
#[export] Instance ticket12_exact : Exact NewSessionTicketPayload.codec ticket12_wf.
Proof. exact_struct NewSessionTicketPayload.codec. Qed.

Definition ticket13_wf (x : NewSessionTicketPayloadTls13.t) : Prop :=
  uint_wf 4 (NewSessionTicketPayloadTls13.lifetime x) /\ uint_wf 4 (NewSessionTicketPayloadTls13.age_add x) /\
  payload_wf 1 (NewSessionTicketPayloadTls13.nonce x) /\ payload_wf 2 (NewSessionTicketPayloadTls13.ticket x) /\
  vec_wf (C:=NewSessionTicketExtension.codec) ticket_ext_wf LenU16 (NewSessionTicketPayloadTls13.exts x).
#[export] Instance ticket13_wire : Wire NewSessionTicketPayloadTls13.codec ticket13_wf.
Proof. wire_struct NewSessionTicketPayloadTls13.codec. Qed.
#[export] Instance ticket13_exact : Exact NewSessionTicketPayloadTls13.codec ticket13_wf.
Proof. exact_struct NewSessionTicketPayloadTls13.codec. Qed.

(** ** Encrypted ClientHello *)

Definition hpke_suite_wf (x : HpkeSymmetricCipherSuite.t) : Prop :=
  enum_wf 2 HpkeKdf.table (HpkeSymmetricCipherSuite.kdf_id x) /\ enum_wf 2 HpkeAead.table (HpkeSymmetricCipherSuite.aead_id x).
#[export] Instance hpke_suite_wire : Wire HpkeSymmetricCipherSuite.codec hpke_suite_wf.
Proof. wire_struct HpkeSymmetricCipherSuite.codec. Qed.
Definition hpke_config_wf (x : HpkeKeyConfig.t) : Prop :=
  uint_wf 1 (HpkeKeyConfig.config_id x) /\ enum_wf 2 HpkeKem.table (HpkeKeyConfig.kem_id x) /\ payload_wf 2 (HpkeKeyConfig.public_key x) /\
  vec_wf (C:=HpkeSymmetricCipherSuite.codec) hpke_suite_wf LenU16 (HpkeKeyConfig.symmetric_cipher_suites x).
#[export] Instance hpke_config_wire : Wire HpkeKeyConfig.codec hpke_config_wf.
Proof. wire_struct HpkeKeyConfig.codec. Qed.

Section messages.
Context `{DnsNames}.

Definition ech_contents_wf (x : EchConfigContents.t) : Prop :=
  hpke_config_wf (EchConfigContents.key_config x) /\ uint_wf 1 (EchConfigContents.maximum_name_length x) /\
  payload_wf 1 (EchConfigContents.public_name x) /\ dns_try_from (EchConfigContents.public_name x) = true /\ payload_wf 2 (EchConfigContents.extensions x).
#[export] Instance ech_contents_wire : Wire EchConfigContents.codec ech_contents_wf.
Proof.
  wire_by ltac:(cbn [encode read EchConfigContents.codec]). destruct Hx as (_ & _ & _ & Hd & He). apply reads_check; [done|]. apply reads_last; [done|]. apply reads_ret.
Qed.
Definition ech_wf (x : EchConfig.t) : Prop :=
  enum_wf 2 EchVersion.table (EchConfig.version x) /\ ech_contents_wf (EchConfig.contents x) /\
  zlen (get_encoding (H:=EchConfigContents.codec) (EchConfig.contents x)) < 65536.
(** Configurations for an encrypted ClientHello round-trip. *)
Theorem ech_config_roundtrip x : ech_wf x -> reads (get EchConfig.codec) (put EchConfig.codec x []) x.
Proof.
  destruct x as [v c]. intros (Hv & Hc & Hl). cbn [EchConfig.version EchConfig.contents encode read EchConfig.codec] in *.
  fold (get_encoding (H:=EchConfigContents.codec) c). set (bs := get_encoding (H:=EchConfigContents.codec) c) in *.
  rewrite wire_app. cbn [app]. apply reads_field; [done|]. change (be_encode 2 (u16 (zlen bs))) with (get_encoding (H:=codec_u16) (u16 (zlen bs))).
  pose proof (zlen_nonneg bs). rewrite u16_small by lia. apply reads_field; [unfold uint_wf; lia|]. unfold zlen. rewrite Nat2Z.id.
  intros pre post. unfold mbind at 1. unfold rd_bind at 1. unfold sub. rewrite take_bytes_at by done.
  unfold within, mbind, rd_bind. pose proof (wire_reads (C:=EchConfigContents.codec) c Hc [] []) as Hr. rewrite app_nil_r in Hr. cbn [app length] in Hr. fold bs in Hr. unfold init. by rewrite Hr.
Qed.

(** ** ClientHello *)

Definition hello_wf (ext : ClientExtension.t -> Prop) (x : ClientHelloPayload.t) : Prop :=
  enum_wf 2 versions (ClientHelloPayload.client_version x) /\ random_wf (ClientHelloPayload.random x) /\ session_id_wf (ClientHelloPayload.session_id x) /\
  vec_wf (C:=CipherSuite.codec) (enum_wf 2 CipherSuite.table) LenU16 (ClientHelloPayload.cipher_suites x) /\
  vec_wf (C:=Compression.codec) (enum_wf 1 Compression.table) LenU8 (ClientHelloPayload.compression_methods x) /\
  vec_wf (C:=ClientExtension.codec) ext LenU16 (ClientHelloPayload.extensions x) /\ ClientHelloPayload.extensions x <> [].
Definition client_hello_wf : ClientHelloPayload.t -> Prop := hello_wf client_ext_wf.

Lemma client_hello_encoding x buf :
  ClientHelloPayload.extensions x <> [] ->
  ClientHelloPayload.encode x buf = buf ++ get_encoding (H:=version_codec) (ClientHelloPayload.client_version x) ++ get_encoding (H:=random_codec) (ClientHelloPayload.random x)
    ++ get_encoding (H:=SessionId.codec) (ClientHelloPayload.session_id x) ++ get_encoding (H:=cipher_suites_codec) (ClientHelloPayload.cipher_suites x)
    ++ get_encoding (H:=compressions_codec) (ClientHelloPayload.compression_methods x) ++ get_encoding (H:=client_extensions_codec) (ClientHelloPayload.extensions x).
Proof.
  intros Hne. unfold ClientHelloPayload.encode. cbn zeta. destruct (ClientHelloPayload.extensions x) eqn:He; [done|]. by rewrite !wire_app, <- !app_assoc.
Qed.
Lemma client_hello_app x buf : ClientHelloPayload.encode x buf = buf ++ ClientHelloPayload.encode x [].
Proof. unfold ClientHelloPayload.encode. cbn zeta. destruct (ClientHelloPayload.extensions x); by rewrite !wire_app, <- !app_assoc. Qed.

Lemma client_hello_reads x : client_hello_wf x -> reads_all ClientHelloPayload.read (ClientHelloPayload.encode x []) x.
Proof.
  intros (H1 & H2 & H3 & H4 & H5 & H6 & Hne). rewrite client_hello_encoding by done. cbn [app]. unfold ClientHelloPayload.read.
  do 5 (apply reads_field_all; [done|]). pose proof (wire_nonempty (C:=client_extensions_codec) _ H6) as Hg.
  pose proof (wire_reads (C:=client_extensions_codec) _ H6) as Hr. apply reads_left. set (eb := get_encoding _) in *.
  replace (match eb with [] => false | _ => true end) with true by by destruct eb. rewrite <- (app_nil_r eb).
  eapply reads_bind_all; [exact Hr|]. apply reads_left. destruct x as [v r s c m e]. cbn in Hne |- *. destruct e; [done|]. apply reads_all_ret.
Qed.
Lemma client_hello_eats :
  eats wf_bytes ClientHelloPayload.read (fun x bs => hello_wf client_ext_any x /\ bs = ClientHelloPayload.encode x []).
Proof.
  unfold ClientHelloPayload.read. do 5 (apply eats_field; intros ? ?).
  assert (Hend : forall exts, vec_wf (C:=ClientExtension.codec) client_ext_any LenU16 exts ->
    eats wf_bytes (any ← rd_any_left; if (any : bool) then rd_fail TrailingData else match exts with [] => rd_fail MissingData | _ => mret
      {| ClientHelloPayload.client_version := x; ClientHelloPayload.random := x0; ClientHelloPayload.session_id := x1; ClientHelloPayload.cipher_suites := x2;
         ClientHelloPayload.compression_methods := x3; ClientHelloPayload.extensions := exts |} end)
    (fun y b => b = [] /\ hello_wf client_ext_any y /\ exts <> [] /\ y = {| ClientHelloPayload.client_version := x; ClientHelloPayload.random := x0;
         ClientHelloPayload.session_id := x1; ClientHelloPayload.cipher_suites := x2; ClientHelloPayload.compression_methods := x3; ClientHelloPayload.extensions := exts |})).
  { intros exts He. apply eats_left; [apply eats_fail|]. destruct exts as [|e exts]; [apply eats_fail|]. apply eats_ret. by split_and!. }
  apply eats_left; cbn beta.
  - eapply eats_bind; [apply wire_exact|]. intros exts b [He ->]. eapply eats_weaken; [apply (Hend exts He)|].
    intros y b (-> & Hy & Hne & ->). split; [done|]. rewrite client_hello_encoding by done. cbn [app ClientHelloPayload.client_version ClientHelloPayload.random
      ClientHelloPayload.session_id ClientHelloPayload.cipher_suites ClientHelloPayload.compression_methods ClientHelloPayload.extensions]. by rewrite app_nil_r.
  - eapply (eats_bind _ _ (fun e b => e = [] /\ b = [])); [by apply eats_ret|]. intros e a [-> ->].
    apply eats_left; [apply eats_fail|apply eats_fail].
Qed.
Lemma client_hello_used r x r' : ClientHelloPayload.read r = (Ok x, r') -> rem r' = [].
Proof.
  unfold ClientHelloPayload.read. intros Hr. do 7 (apply rd_bind_inv in Hr as (? & ? & _ & Hr)). apply rd_bind_inv in Hr as (any & r1 & Ha & Hr).
  destruct any; [done|]. destruct (_ : list ClientExtension.t); [done|]. injection Hr as _ <-. injection Ha as Ha <-. unfold rem. apply drop_ge. by apply Nat.ltb_ge.
Qed.
Lemma client_hello_moves : moves ClientHelloPayload.read.
Proof. unfold ClientHelloPayload.read. rd_shape. Qed.
Lemma client_hello_safe : safe ClientHelloPayload.read.
Proof. unfold ClientHelloPayload.read. rd_shape. Qed.

(** ** HelloRetryRequest and ServerHello *)

Definition retry_wf (x : HelloRetryRequest.t) : Prop :=
  enum_wf 2 versions (HelloRetryRequest.legacy_version x) /\ session_id_wf (HelloRetryRequest.session_id x) /\
  enum_wf 2 CipherSuite.table (HelloRetryRequest.cipher_suite x) /\ vec_wf (C:=HelloRetryExtension.codec) retry_ext_wf LenU16 (HelloRetryRequest.extensions x).
Lemma retry_encoding x buf :
  HelloRetryRequest.encode x buf = buf ++ get_encoding (H:=version_codec) (HelloRetryRequest.legacy_version x) ++ get_encoding (H:=random_codec) HELLO_RETRY_REQUEST_RANDOM
    ++ get_encoding (H:=SessionId.codec) (HelloRetryRequest.session_id x) ++ get_encoding (H:=CipherSuite.codec) (HelloRetryRequest.cipher_suite x)
    ++ get_encoding (H:=Compression.codec) (Known Compression.Null) ++ get_encoding (H:=hello_retry_extensions_codec) (HelloRetryRequest.extensions x).
Proof. unfold HelloRetryRequest.encode. cbn zeta. by rewrite !wire_app, <- !app_assoc. Qed.

Definition server_hello_wf (x : ServerHelloPayload.t) : Prop :=
  enum_wf 2 versions (ServerHelloPayload.legacy_version x) /\ random_wf (ServerHelloPayload.random x) /\
  session_id_wf (ServerHelloPayload.session_id x) /\ enum_wf 2 CipherSuite.table (ServerHelloPayload.cipher_suite x) /\
  enum_wf 1 Compression.table (ServerHelloPayload.compression_method x) /\
  vec_wf (C:=ServerExtension.codec) server_ext_wf LenU16 (ServerHelloPayload.extensions x).
(** The extensions are left out when there are none. *)
Definition server_exts (l : list ServerExtension.t) : bytes := match l with [] => [] | _ => get_encoding (H:=server_extensions_codec) l end.
Lemma server_hello_encoding x buf :
  ServerHelloPayload.encode x buf = buf ++ get_encoding (H:=version_codec) (ServerHelloPayload.legacy_version x) ++ get_encoding (H:=random_codec) (ServerHelloPayload.random x)
    ++ get_encoding (H:=SessionId.codec) (ServerHelloPayload.session_id x) ++ get_encoding (H:=CipherSuite.codec) (ServerHelloPayload.cipher_suite x)
    ++ get_encoding (H:=Compression.codec) (ServerHelloPayload.compression_method x) ++ server_exts (ServerHelloPayload.extensions x).
Proof.
  unfold ServerHelloPayload.encode, server_exts. cbn zeta. destruct (ServerHelloPayload.extensions x); rewrite !wire_app, <- !app_assoc; by rewrite ?app_nil_r.
Qed.

Lemma retry_reads x :
  retry_wf x -> reads_all HandshakeMessagePayload.read_server_hello (HelloRetryRequest.encode x [])
    {| HandshakeMessagePayload.typ := Known HandshakeType.HelloRetryRequest; HandshakeMessagePayload.payload := HandshakePayload.HelloRetryRequest x |}.
Proof.
  destruct x as [v s c e]. intros (H1 & H2 & H3 & H4). cbn in H1, H2, H3, H4. rewrite retry_encoding.
  cbn [app HelloRetryRequest.legacy_version HelloRetryRequest.session_id HelloRetryRequest.cipher_suite HelloRetryRequest.extensions].
  unfold HandshakeMessagePayload.read_server_hello. apply reads_field_all; [done|]. apply reads_field_all; [done|].
  rewrite bool_decide_eq_true_2 by done. apply (reads_all_bind HelloRetryRequest.read (fun hrr => _)
    _ {| HelloRetryRequest.legacy_version := Unknown 0; HelloRetryRequest.session_id := s; HelloRetryRequest.cipher_suite := c; HelloRetryRequest.extensions := e |}).
  unfold HelloRetryRequest.read. do 2 (apply reads_field_all; [done|]). apply reads_field_all; [apply Compression.wf_Compression|].
  apply reads_check_all; [by apply bool_decide_eq_true|]. apply reads_to_all, reads_last; [done|]. apply reads_ret.
Qed.
Lemma server_hello_reads x :
  server_hello_wf x -> ServerHelloPayload.random x <> HELLO_RETRY_REQUEST_RANDOM ->
  reads_all HandshakeMessagePayload.read_server_hello (ServerHelloPayload.encode x [])
    {| HandshakeMessagePayload.typ := Known HandshakeType.ServerHello; HandshakeMessagePayload.payload := HandshakePayload.ServerHello x |}.
Proof.
  destruct x as [v r s c m e]. intros (H1 & H2 & H3 & H4 & H5 & H6) Hr. cbn in H1, H2, H3, H4, H5, H6, Hr. rewrite server_hello_encoding.
  cbn [app ServerHelloPayload.legacy_version ServerHelloPayload.random ServerHelloPayload.session_id ServerHelloPayload.cipher_suite
       ServerHelloPayload.compression_method ServerHelloPayload.extensions].
  unfold HandshakeMessagePayload.read_server_hello. apply reads_field_all; [done|]. apply reads_field_all; [done|].
  rewrite bool_decide_eq_false_2 by done. apply (reads_all_bind ServerHelloPayload.read (fun shp => _)
    _ {| ServerHelloPayload.legacy_version := Unknown 0; ServerHelloPayload.random := ZERO_RANDOM; ServerHelloPayload.session_id := s;
         ServerHelloPayload.cipher_suite := c; ServerHelloPayload.compression_method := m; ServerHelloPayload.extensions := e |}).
  unfold ServerHelloPayload.read. do 3 (apply reads_field_all; [done|]). apply reads_left. unfold server_exts. destruct e as [|x e].
  - apply (reads_bind_all (mret []) _ [] [] []); [apply reads_ret|]. apply reads_expect, reads_all_ret.
  - pose proof (wire_nonempty (C:=server_extensions_codec) _ H6) as Hg. pose proof (wire_reads (C:=server_extensions_codec) _ H6) as Hw.
    set (eb := get_encoding _) in *. replace (match eb with [] => false | _ => true end) with true by by destruct eb. rewrite <- (app_nil_r eb).
    eapply reads_bind_all; [exact Hw|]. apply reads_expect, reads_all_ret.
Qed.

(** ** Messages *)

(** The values a message of each type carries, under a negotiated version. *)
Definition unknown_hs (ty : HandshakeType.t) (p : bytes) : Prop :=
  match ty with
  | Known HandshakeType.HelloRequest => p <> []
  | Known HandshakeType.HelloVerifyRequest | Known HandshakeType.CertificateURL | Unknown _ => True
  | _ => False
  end.
Definition payload_ok (vers : ProtocolVersion) (ty : HandshakeType.t) (p : HandshakePayload.t) : Prop :=
  match p with
  | HandshakePayload.HelloRequest => ty = Known HandshakeType.HelloRequest
  | HandshakePayload.ClientHello x => ty = Known HandshakeType.ClientHello /\ client_hello_wf x
  | HandshakePayload.ServerHello x =>
      ty = Known HandshakeType.ServerHello /\ server_hello_wf x /\ ServerHelloPayload.random x <> HELLO_RETRY_REQUEST_RANDOM
  | HandshakePayload.HelloRetryRequest x => ty = Known HandshakeType.HelloRetryRequest /\ retry_wf x
  | HandshakePayload.Certificate x =>
      ty = Known HandshakeType.Certificate /\ vers <> Known TLSv1_3 /\ vec_wf (C:=certificate_der) (payload_wf 3) CERTS x
  | HandshakePayload.CertificateTls13 x => ty = Known HandshakeType.Certificate /\ vers = Known TLSv1_3 /\ cert13_wf x
  | HandshakePayload.ServerKeyExchange x =>
      ty = Known HandshakeType.ServerKeyExchange /\ match x with ServerKeyExchangePayload.Unknown _ => True | _ => False end
  | HandshakePayload.CertificateRequest x => ty = Known HandshakeType.CertificateRequest /\ vers <> Known TLSv1_3 /\ certreq_wf x
  | HandshakePayload.CertificateRequestTls13 x => ty = Known HandshakeType.CertificateRequest /\ vers = Known TLSv1_3 /\ certreq13_wf x
  | HandshakePayload.CertificateVerify x => ty = Known HandshakeType.CertificateVerify /\ dss_wf x
  | HandshakePayload.ServerHelloDone => ty = Known HandshakeType.ServerHelloDone
  | HandshakePayload.EndOfEarlyData => ty = Known HandshakeType.EndOfEarlyData
  | HandshakePayload.ClientKeyExchange _ => ty = Known HandshakeType.ClientKeyExchange
  | HandshakePayload.NewSessionTicket x => ty = Known HandshakeType.NewSessionTicket /\ vers <> Known TLSv1_3 /\ ticket12_wf x
  | HandshakePayload.NewSessionTicketTls13 x => ty = Known HandshakeType.NewSessionTicket /\ vers = Known TLSv1_3 /\ ticket13_wf x
  | HandshakePayload.EncryptedExtensions x =>
      ty = Known HandshakeType.EncryptedExtensions /\ vec_wf (C:=ServerExtension.codec) server_ext_wf LenU16 x
  | HandshakePayload.KeyUpdate x => ty = Known HandshakeType.KeyUpdate /\ enum_wf 1 KeyUpdateRequest.table x
  | HandshakePayload.Finished _ => ty = Known HandshakeType.Finished
  | HandshakePayload.CertificateStatus x => ty = Known HandshakeType.CertificateStatus /\ certificate_status_wf x
  | HandshakePayload.MessageHash _ => False
  | HandshakePayload.Unknown p => enum_wf 1 HandshakeType.table ty /\ unknown_hs ty p
  end.
Definition message_wf (vers : ProtocolVersion) (m : HandshakeMessagePayload.t) : Prop :=
  payload_ok vers (HandshakeMessagePayload.typ m) (HandshakeMessagePayload.payload m) /\
  zlen (HandshakePayload.encode (HandshakeMessagePayload.payload m) []) < 2 ^ 24.

Lemma payload_app p buf : HandshakePayload.encode p buf = buf ++ HandshakePayload.encode p [].
Proof.
  destruct p as [|x|x|x|x|x|[x|x]|x|x|x| | |x|x|x|x|x|x|x|x|x]; cbn [HandshakePayload.encode ServerKeyExchangePayload.encode];
    first [by rewrite app_nil_r | done | apply client_hello_app | by rewrite !server_hello_encoding | by rewrite !retry_encoding | by rewrite !wire_app].
Qed.
Lemma message_encoding m :
  HandshakeMessagePayload.get_encoding m = get_encoding (H:=HandshakeType.codec) (HandshakeMessagePayload.wire_type (HandshakeMessagePayload.typ m))
    ++ get_encoding (H:=codec_u24) (zlen (HandshakePayload.encode (HandshakeMessagePayload.payload m) [])) ++ HandshakePayload.encode (HandshakeMessagePayload.payload m) [].
Proof.
  unfold HandshakeMessagePayload.get_encoding, HandshakeMessagePayload.encode.
  rewrite (nested_eq (LenU24 0) _ _ (HandshakePayload.encode (HandshakeMessagePayload.payload m) [])) by apply payload_app.
  by rewrite wire_app.
Qed.

Abbreviation hs ty K := (fun x => {| HandshakeMessagePayload.typ := ty; HandshakeMessagePayload.payload := K x |}).
Lemma body_reads vers ty p :
  payload_ok vers ty p ->
  reads_all (HandshakeMessagePayload.read_body vers (HandshakeMessagePayload.wire_type ty)) (HandshakePayload.encode p [])
    {| HandshakeMessagePayload.typ := ty; HandshakeMessagePayload.payload := p |}.
Proof.
  assert (H13 : forall v, v <> Known TLSv1_3 -> bool_decide (v = Known TLSv1_3) = false) by (intros; by apply bool_decide_eq_false_2).
  destruct p as [|x|x|x|x|x|[x|x]|x|x|x| | |x|x|x|x|x|x|x|x|x]; cbn [payload_ok HandshakePayload.encode ServerKeyExchangePayload.encode]; intros Hok.
  all: try (match type of Hok with _ /\ _ => destruct Hok as [-> Hok] | _ = _ => subst ty end;
            cbn [HandshakeMessagePayload.wire_type HandshakeMessagePayload.read_body]).
  - apply reads_left, reads_all_ret.
  - apply (reads_all_bind ClientHelloPayload.read (hs _ HandshakePayload.ClientHello)). by apply client_hello_reads.
  - destruct Hok. by apply server_hello_reads.
  - by apply retry_reads.
  - destruct Hok as [Hv Hx]. rewrite H13 by done. by apply (reads_one (hs _ HandshakePayload.Certificate)).
  - destruct Hok as [-> Hx]. rewrite bool_decide_eq_true_2 by done. by apply (reads_one (hs _ HandshakePayload.CertificateTls13)).
  - done.
  - apply (reads_all_bind ServerKeyExchangePayload.read (hs _ HandshakePayload.ServerKeyExchange)). apply (reads_rest_as ServerKeyExchangePayload.Unknown).
  - destruct Hok as [Hv Hx]. rewrite H13 by done. by apply (reads_one (hs _ HandshakePayload.CertificateRequest)).
  - destruct Hok as [-> Hx]. rewrite bool_decide_eq_true_2 by done. by apply (reads_one (hs _ HandshakePayload.CertificateRequestTls13)).
  - by apply (reads_one (hs _ HandshakePayload.CertificateVerify)).
  - apply reads_expect, reads_all_ret.
  - apply reads_expect, reads_all_ret.
  - apply (reads_rest_as (hs _ HandshakePayload.ClientKeyExchange)).
  - destruct Hok as [Hv Hx]. rewrite H13 by done. by apply (reads_one (hs _ HandshakePayload.NewSessionTicket)).
  - destruct Hok as [-> Hx]. rewrite bool_decide_eq_true_2 by done. by apply (reads_one (hs _ HandshakePayload.NewSessionTicketTls13)).
  - by apply (reads_one (hs _ HandshakePayload.EncryptedExtensions)).
  - by apply (reads_one (hs _ HandshakePayload.KeyUpdate)).
  - apply (reads_rest_as (hs _ HandshakePayload.Finished)).
  - by apply (reads_one (hs _ HandshakePayload.CertificateStatus)).
  - done.
  - destruct Hok as [_ Hok]. cbn [app]. pose proof (reads_rest_as (hs ty HandshakePayload.Unknown) x) as Hr.
    destruct ty as [[]|z]; try done. apply reads_left. by destruct x.
Qed.

(** The payloads with one encoding only: a certificate list may claim a length
    above its limit, and a ServerHello may carry an empty list of extensions. *)
Definition canonical (p : HandshakePayload.t) : Prop :=
  match p with
  | HandshakePayload.Certificate _ | HandshakePayload.CertificateTls13 _ => False
  | HandshakePayload.ServerHello x => ServerHelloPayload.extensions x <> []
  | _ => True
  end.
Definition body_exact (ty : HandshakeType.t) (m : HandshakeMessagePayload.t) (bs : bytes) : Prop :=
  HandshakeMessagePayload.wire_type (HandshakeMessagePayload.typ m) = ty /\
  (canonical (HandshakeMessagePayload.payload m) -> bs = HandshakePayload.encode (HandshakeMessagePayload.payload m) []).

Lemma server_hello_eats : eats wf_bytes HandshakeMessagePayload.read_server_hello (body_exact (Known HandshakeType.ServerHello)).
Proof.
  unfold HandshakeMessagePayload.read_server_hello. apply eats_field. intros v Hv. apply eats_field. intros r Hr. case_bool_decide as Hb.
  - eapply (eats_bind _ _ (fun x b => b = get_encoding (H:=SessionId.codec) (HelloRetryRequest.session_id x) ++ get_encoding (H:=CipherSuite.codec) (HelloRetryRequest.cipher_suite x)
      ++ get_encoding (H:=Compression.codec) (Known Compression.Null) ++ get_encoding (H:=hello_retry_extensions_codec) (HelloRetryRequest.extensions x))).
    + unfold HelloRetryRequest.read. apply eats_field. intros sid Hs. apply eats_field. intros c Hc. apply eats_field. intros m Hm.
      eapply eats_bind; [apply eats_ensure|]. intros [] a [Hn ->]. apply bool_decide_eq_true in Hn as ->. apply eats_field. intros e He.
      apply eats_ret. cbn [app HelloRetryRequest.session_id HelloRetryRequest.cipher_suite HelloRetryRequest.extensions]. by rewrite app_nil_r.
    + intros x b ->. apply eats_ret. split; [done|]. intros _. cbn [HandshakePayload.encode HandshakeMessagePayload.payload]. rewrite retry_encoding.
      cbn [app HelloRetryRequest.legacy_version HelloRetryRequest.session_id HelloRetryRequest.cipher_suite HelloRetryRequest.extensions].
      by rewrite Hb, app_nil_r.
  - eapply (eats_bind _ _ (fun x b => ServerHelloPayload.extensions x <> [] -> b = get_encoding (H:=SessionId.codec) (ServerHelloPayload.session_id x)
      ++ get_encoding (H:=CipherSuite.codec) (ServerHelloPayload.cipher_suite x) ++ get_encoding (H:=Compression.codec) (ServerHelloPayload.compression_method x)
      ++ get_encoding (H:=server_extensions_codec) (ServerHelloPayload.extensions x))).
    + unfold ServerHelloPayload.read. apply eats_field. intros sid Hs. apply eats_field. intros c Hc. apply eats_field. intros m Hm. apply eats_left.
      * apply eats_field. intros e He. eapply eats_bind; [apply eats_expect|]. intros _ a ->. apply eats_ret. intros _.
        cbn [app ServerHelloPayload.session_id ServerHelloPayload.cipher_suite ServerHelloPayload.compression_method ServerHelloPayload.extensions].
        by rewrite app_nil_r.
      * eapply (eats_bind _ _ (fun e b => e = [] /\ b = [])); [by apply eats_ret|]. intros e a [-> ->].
        eapply eats_bind; [apply eats_expect|]. intros _ a ->. by apply eats_ret.
    + intros x b Hx. apply eats_ret. split; [done|]. cbn [canonical HandshakePayload.encode HandshakeMessagePayload.payload]. intros Hc. rewrite server_hello_encoding.
      cbn [app ServerHelloPayload.legacy_version ServerHelloPayload.random ServerHelloPayload.session_id ServerHelloPayload.cipher_suite
        ServerHelloPayload.compression_method ServerHelloPayload.extensions] in *.
      rewrite (Hx Hc), app_nil_r. unfold server_exts. destruct (ServerHelloPayload.extensions x); [done|]. by rewrite <- ?app_assoc.
Qed.
Lemma body_eats vers ty : eats wf_bytes (HandshakeMessagePayload.read_body vers ty) (body_exact ty).
Proof.
  assert (Hone : forall {T} {C : Codec T} {wf wf'} {W : Wire C wf} {E : Exact C wf'} (K : T -> HandshakePayload.t),
    (forall x, HandshakePayload.encode (K x) [] = encode x []) -> HandshakeMessagePayload.wire_type ty = ty ->
    eats wf_bytes (x ← read; mret {| HandshakeMessagePayload.typ := ty; HandshakeMessagePayload.payload := K x |}) (body_exact ty)).
  { intros T C wf wf' W E K HK Ht. apply (eats_one (hs ty K)). intros x _. split; [done|]. intros _. cbn [HandshakeMessagePayload.payload]. by rewrite HK. }
  assert (Hrest : forall K, (forall p, HandshakePayload.encode (K p) [] = p) -> HandshakeMessagePayload.wire_type ty = ty ->
    eats wf_bytes (x ← rd_rest; mret {| HandshakeMessagePayload.typ := ty; HandshakeMessagePayload.payload := K x |}) (body_exact ty)).
  { intros K HK Ht. apply (eats_rest_as (hs ty K)). intros p. split; [done|]. intros _. cbn [HandshakeMessagePayload.payload]. by rewrite HK. }
  assert (Hnone : forall m K, eats wf_bytes m (fun (_ : unit) bs => bs = []) -> HandshakePayload.encode K [] = [] -> HandshakeMessagePayload.wire_type ty = ty ->
    eats wf_bytes (_ ← m; mret {| HandshakeMessagePayload.typ := ty; HandshakeMessagePayload.payload := K |}) (body_exact ty)).
  { intros m K Hm HK Ht. eapply eats_bind; [exact Hm|]. intros [] a ->. apply eats_ret. by split. }
  destruct ty as [[]|z]; cbn [HandshakeMessagePayload.read_body];
    try (by apply eats_fail); try solve [eapply Hone; first [apply _ | done]]; try (by apply Hrest); try (by apply Hnone; [apply eats_expect|done|done]).
  - apply eats_left; [by apply Hrest|by apply eats_ret].
  - eapply eats_bind; [apply client_hello_eats|]. intros x a [_ ->]. apply eats_ret. rewrite app_nil_r. by split.
  - apply server_hello_eats.
  - case_bool_decide; (eapply Hone; first [apply _ | done]).
  - case_bool_decide; (eapply eats_bind; [apply eats_any, moves_read|]; intros x a _; by apply eats_ret).
  - eapply (eats_bind _ _ (fun x b => x = ServerKeyExchangePayload.Unknown b)); [by apply (eats_rest_as ServerKeyExchangePayload.Unknown)|].
    intros x a ->. apply eats_ret. rewrite app_nil_r. by split.
  - case_bool_decide; (eapply Hone; first [apply _ | done]).
Qed.
Lemma body_safe vers ty : safe (HandshakeMessagePayload.read_body vers ty).
Proof.
  pose proof client_hello_safe. destruct ty as [[]|z]; cbn [HandshakeMessagePayload.read_body];
    unfold HandshakeMessagePayload.read_server_hello, HelloRetryRequest.read, ServerHelloPayload.read, ServerKeyExchangePayload.read; rd_shape.
Qed.

(** *** The theorems *)

(** C34: Handshake messages round-trip: every well-formed message, encoded with its
    type, its 24-bit length and its body, is read back as the same message under
    the version it was made for, whatever bytes follow it; a HelloRetryRequest,
    which travels as a ServerHello with a fixed random, is told apart again.  Two
    messages are not among the well-formed ones: a ServerKeyExchange of ECDHE
    parameters, which is sent as such but read as the bytes of its body until the suite
    is known, and the synthetic MessageHash, which is never sent. *)
Theorem handshake_message_roundtrip vers m pre post :
  message_wf vers m ->
  HandshakeMessagePayload.read_version vers {| buffer := pre ++ HandshakeMessagePayload.get_encoding m ++ post; cursor := length pre |}
  = (Ok m, {| buffer := pre ++ HandshakeMessagePayload.get_encoding m ++ post; cursor := length pre + length (HandshakeMessagePayload.get_encoding m) |}).
Proof.
  intros [Hok Hlen]. revert pre post. destruct m as [ty p]. cbn [HandshakeMessagePayload.typ HandshakeMessagePayload.payload] in *.
  change (reads (HandshakeMessagePayload.read_version vers) (HandshakeMessagePayload.get_encoding {| HandshakeMessagePayload.typ := ty; HandshakeMessagePayload.payload := p |})
    {| HandshakeMessagePayload.typ := ty; HandshakeMessagePayload.payload := p |}).
  rewrite message_encoding. cbn [HandshakeMessagePayload.typ HandshakeMessagePayload.payload]. unfold HandshakeMessagePayload.read_version.
  assert (Hty : enum_wf 1 HandshakeType.table (HandshakeMessagePayload.wire_type ty)).
  { destruct ty as [n|z]; [destruct n; apply HandshakeType.wf_HandshakeType|]. destruct p; cbn in Hok; naive_solver. }
  apply reads_field; [done|]. pose proof (zlen_nonneg (HandshakePayload.encode p [])). apply reads_field; [unfold uint_wf; lia|].
  unfold zlen. rewrite Nat2Z.id. apply reads_sub. by apply body_reads.
Qed.

(** Reading a handshake message is exact and never panics.  On any bytes, under
    any version, the reader ends with a message or an error; and a message it
    returns has the bytes it consumed as its encoding, so that nothing the peer
    sent is lost or ambiguous, except for certificate lists that overstate their
    length and a ServerHello with an empty list of extensions. *)
Theorem handshake_message_exact vers bs :
  wf_bytes bs ->
  match HandshakeMessagePayload.read_version vers (init bs) with
  | (Ok m, r) => canonical (HandshakeMessagePayload.payload m) -> exists tail, bs = HandshakeMessagePayload.get_encoding m ++ tail /\ rem r = tail
  | (Err _, _) => True
  | (Panic, _) => False
  end.
Proof.
  intros Hw. assert (Ho : ok (init bs)) by (unfold ok; cbn; lia).
  assert (Hs : safe (HandshakeMessagePayload.read_version vers)).
  { unfold HandshakeMessagePayload.read_version. repeat (apply safe_bind; [eapply safe_read|intros ?]). apply safe_sub, body_safe. }
  destruct (Hs (init bs) Ho) as [_ Hnp]. destruct (HandshakeMessagePayload.read_version vers (init bs)) as [[m|e|] r] eqn:Hr; [|done|done].
  intros Hc. assert (He : eats wf_bytes (HandshakeMessagePayload.read_version vers)
    (fun m bs => canonical (HandshakeMessagePayload.payload m) -> bs = HandshakeMessagePayload.get_encoding m)).
  { unfold HandshakeMessagePayload.read_version. apply eats_field. intros ty Hty. apply eats_field. intros n Hn.
    eapply eats_weaken; [apply eats_sub, body_eats|]. intros m' b (Hl & Ht & Hb) Hcan. rewrite message_encoding, Ht, <- (Hb Hcan).
    unfold zlen. rewrite Hl. unfold uint_wf in Hn. by rewrite Z2Nat.id by lia. }
  destruct (He (init bs) m r Ho Hw Hr) as (b & _ & _ & _ & Hrem & Hb). exists (rem r). split; [|done]. rewrite <- (Hb Hc).
  unfold rem at 1 in Hrem. cbn in Hrem. by rewrite drop_0 in Hrem.
Qed.

(** ** Binders *)

(** Encodings that end in the binders, with a front that depends only on their
    length. *)
Definition binders_enc (bl : list bytes) : bytes := put binders_codec bl [].
Definition ends_in_binders (E : list bytes -> bytes) : Prop :=
  exists front : nat -> bytes, forall bl, E bl = front (length (binders_enc bl)) ++ binders_enc bl.
Lemma ends_binders : ends_in_binders binders_enc.
Proof. by exists (fun _ => []). Qed.
Lemma ends_app a E : ends_in_binders E -> ends_in_binders (fun bl => a ++ E bl).
Proof. intros [f Hf]. exists (fun n => a ++ f n). intros bl. by rewrite Hf, app_assoc. Qed.
Lemma ends_prefixed n E : ends_in_binders E -> ends_in_binders (fun bl => be_encode n (Z.of_nat (length (E bl))) ++ E bl).
Proof.
  intros [f Hf]. exists (fun k => be_encode n (Z.of_nat (length (f k) + k)) ++ f k). intros bl. by rewrite Hf, length_app, app_assoc.
Qed.

Definition with_binders (ch : ClientHelloPayload.t) exts ids bl : ClientHelloPayload.t :=
  ClientHelloPayload.with_extensions ch (exts ++ [ClientExtension.PresharedKey {| PresharedKeyOffer.identities := ids; PresharedKeyOffer.binders := bl |}]).
Lemma hello_ends ch exts ids : ends_in_binders (fun bl => HandshakeMessagePayload.get_encoding (client_hello (with_binders ch exts ids bl))).
Proof.
  assert (He : forall E E', (forall bl, E bl = E' bl) -> ends_in_binders E' -> ends_in_binders E).
  { intros E E' Heq [f Hf]. exists f. intros bl. by rewrite Heq. }
  eapply He; [intros bl; apply message_encoding|]. cbn [HandshakeMessagePayload.payload HandshakePayload.encode HandshakeMessagePayload.typ]. apply ends_app.
  apply (ends_prefixed 3). eapply He; [intros bl; apply client_hello_encoding; cbn; by destruct exts|].
  cbn [app with_binders ClientHelloPayload.with_extensions ClientHelloPayload.client_version ClientHelloPayload.random ClientHelloPayload.session_id
    ClientHelloPayload.cipher_suites ClientHelloPayload.compression_methods ClientHelloPayload.extensions]. do 5 apply ends_app.
  eapply He; [intros bl; apply vec_encoding|]. apply (ends_prefixed 2). eapply He.
  { intros bl. unfold items. rewrite map_app, concat_app. cbn [map concat]. by rewrite app_nil_r. }
  apply ends_app. eapply He; [intros bl; apply (ext_encoding ClientExtension.get_type ClientExtension.body _ client_body_app)|]. cbn [app ClientExtension.get_type]. apply ends_app.
  apply (ends_prefixed 2). cbn [ClientExtension.body encode PresharedKeyOffer.codec]. eapply He; [intros bl; apply wire_app|].
  cbn [PresharedKeyOffer.identities PresharedKeyOffer.binders]. apply ends_app, ends_binders.
Qed.
Lemma signing_front ch exts ids front bl :
  (forall bl, HandshakeMessagePayload.get_encoding (client_hello (with_binders ch exts ids bl)) = front (length (binders_enc bl)) ++ binders_enc bl) ->
  HandshakeMessagePayload.get_encoding_for_binder_signing (client_hello (with_binders ch exts ids bl)) = front (length (binders_enc bl)).
Proof.
  intros Hf. unfold HandshakeMessagePayload.get_encoding_for_binder_signing. rewrite Hf. cbn zeta.
  assert (HandshakeMessagePayload.binder_len (client_hello (with_binders ch exts ids bl)) = length (binders_enc bl)) as ->.
  { unfold HandshakeMessagePayload.binder_len. cbn [HandshakeMessagePayload.payload with_binders ClientHelloPayload.with_extensions ClientHelloPayload.extensions].
    by rewrite last_snoc. }
  rewrite length_app. replace (_ + _ - _)%nat with (length (front (length (binders_enc bl)))) by lia. by rewrite take_app_length.
Qed.
Lemma binders_enc_length b b' bl : length b = length b' -> length (binders_enc (b :: bl)) = length (binders_enc (b' :: bl)).
Proof.
  intros Hl. unfold binders_enc, binders_codec. rewrite !vec_encode. cbn [app]. rewrite !length_app, !be_encode_length. f_equal. unfold items. cbn [map concat].
  rewrite !length_app. f_equal. unfold get_encoding. cbn [encode payload_u8 payload_codec app]. rewrite !length_app, !be_encode_length. lia.
Qed.

(** The bytes a pre-shared key signs are fixed before the binders are known.
    For a ClientHello whose last extension offers pre-shared keys, the encoding
    is the bytes to sign followed by the binders; and replacing the first binder
    by another of the same length, as the client does once it has the signature,
    changes neither the bytes to sign nor the length of the message. *)
Theorem binder_signing_stable ch offer binder0 binders exts binder :
  ClientHelloPayload.extensions ch = exts ++ [ClientExtension.PresharedKey offer] ->
  PresharedKeyOffer.binders offer = binder0 :: binders -> length binder = length binder0 ->
  HandshakeMessagePayload.get_encoding (client_hello ch)
    = HandshakeMessagePayload.get_encoding_for_binder_signing (client_hello ch) ++ binders_enc (binder0 :: binders) /\
  exists ch', ClientHelloPayload.set_psk_binder ch binder = Ok ch' /\
    HandshakeMessagePayload.get_encoding_for_binder_signing (client_hello ch') = HandshakeMessagePayload.get_encoding_for_binder_signing (client_hello ch) /\
    HandshakeMessagePayload.get_encoding (client_hello ch')
      = HandshakeMessagePayload.get_encoding_for_binder_signing (client_hello ch) ++ binders_enc (binder :: binders).
Proof.
  intros Hx Hb Hl. destruct offer as [ids bl]. cbn in Hb. subst bl. destruct (hello_ends ch exts ids) as [front Hf].
  assert (ch = with_binders ch exts ids (binder0 :: binders)) as Hch by (destruct ch; cbn in *; by subst).
  rewrite Hch. rewrite !(signing_front _ _ _ _ _ Hf), Hf. split; [done|].
  exists (with_binders ch exts ids (binder :: binders)). split.
  - unfold ClientHelloPayload.set_psk_binder, with_binders. cbn [ClientHelloPayload.with_extensions ClientHelloPayload.extensions].
    rewrite last_snoc. cbn [PresharedKeyOffer.binders PresharedKeyOffer.identities].
    unfold ClientHelloPayload.set_last. rewrite length_app. cbn [length]. rewrite Nat.add_sub, take_app_length. done.
  - rewrite (signing_front _ _ _ _ _ Hf), Hf. by rewrite (binders_enc_length binder binder0 binders Hl).
Qed.

(** ** What has been read *)

(** C36: A ClientHello that was read is well typed.  Whatever bytes the peer sent,
    a ClientHello the reader accepts used all of them and is the value of one
    encoding: every code fits its width and is unknown only when no name has it,
    every list and payload fits its length field, names were accepted by the
    name check, the session id is a 32-byte buffer of which at most 32 bytes are
    used, and there is an extension. *)
Theorem client_hello_typed bs x r :
  wf_bytes bs -> ClientHelloPayload.read (init bs) = (Ok x, r) ->
  hello_wf client_ext_any x /\ ClientHelloPayload.encode x [] = bs /\
  length (SessionId.data (ClientHelloPayload.session_id x)) = 32%nat /\
  length (SessionId.get_data (ClientHelloPayload.session_id x)) = SessionId.len (ClientHelloPayload.session_id x) /\
  (SessionId.len (ClientHelloPayload.session_id x) <= 32)%nat.
Proof.
  intros Hw Hr. assert (Ho : ok (init bs)) by (unfold ok; cbn; lia).
  destruct (client_hello_eats (init bs) x r Ho Hw Hr) as (b & _ & Hcur & Hok & Hrem & Hx & Hb).
  assert (Hused : rem r = []) by exact (client_hello_used _ _ _ Hr).
  unfold rem at 1 in Hrem. cbn [init buffer cursor] in Hrem. rewrite drop_0, Hused, app_nil_r in Hrem. split; [done|]. split; [congruence|].
  destruct Hx as (_ & _ & (sid & Hl & ->) & _). unfold SessionId.get_data. cbn [SessionId.len SessionId.data].
  rewrite take_app_length, length_app, length_replicate. lia.
Qed.
End messages.

(** ** Instances *)

(** A reader of names that takes what is printable ASCII, and a ClientHello made
    with it, as the client sends one when it resumes a session. *)
#[local] Instance ascii_names : DnsNames :=
  {| dns_try_from n := negb (length n =? 0)%nat && forallb (fun c => (32 <=? c) && (c <? 127)) n |}.
Definition sample_offer : PresharedKeyOffer.t :=
  PresharedKeyOffer.new {| PresharedKeyIdentity.identity := [1; 2; 3]; PresharedKeyIdentity.obfuscated_ticket_age := 7 |} [0; 0; 0; 0].
Definition sample_extensions : list ClientExtension.t :=
  [ClientExtension.ServerName [{| ServerName.typ := Known ServerNameType.HostName; ServerName.payload := ServerNamePayload.HostName [97; 46; 98] |}];
   ClientExtension.KeyShare [{| KeyShareEntry.group := Known NamedGroup.X25519; KeyShareEntry.payload := replicate 32 9 |}]].
Definition sample_hello : ClientHelloPayload.t :=
  {| ClientHelloPayload.client_version := Known TLSv1_2; ClientHelloPayload.random := replicate 32 5; ClientHelloPayload.session_id := SessionId.empty;
     ClientHelloPayload.cipher_suites := [Known CipherSuite.TLS13_AES_128_GCM_SHA256]; ClientHelloPayload.compression_methods := [Known Compression.Null];
     ClientHelloPayload.extensions := sample_extensions ++ [ClientExtension.PresharedKey sample_offer] |}.
Lemma version_known n : enum_wf 2 versions (Known n).
Proof. destruct n; (eexists; split; [repeat first [apply list_elem_of_here | apply list_elem_of_further]|lia]). Qed.
Ltac sample :=
  repeat first [apply conj | apply Forall_cons | apply Forall_nil];
  try first [apply ExtensionType.wf_ExtensionType | apply CipherSuite.wf_CipherSuite | apply Compression.wf_Compression
            | apply NamedGroup.wf_NamedGroup | apply version_known | done | by exists [] | by eexists | by vm_compute | by exists []; split; [cbn; lia|]].
Lemma sample_hello_wf : client_hello_wf sample_hello.
Proof. sample. Qed.

Lemma handshake_message_roundtrip_witness :
  message_wf (Known TLSv1_3) (client_hello sample_hello) /\
  (HandshakeMessagePayload.read_version (Known TLSv1_3) {| buffer := [9] ++ HandshakeMessagePayload.get_encoding (client_hello sample_hello) ++ [7]; cursor := 1 |}).1
  = Ok (client_hello sample_hello).
Proof.
  assert (Hwf : message_wf (Known TLSv1_3) (client_hello sample_hello)) by (split; [split; [done|exact sample_hello_wf]|by vm_compute]).
  split; [exact Hwf|]. exact (f_equal fst (handshake_message_roundtrip (Known TLSv1_3) (client_hello sample_hello) [9] [7] Hwf)).
Defined.
Lemma handshake_message_exact_witness :
  wf_bytes [20; 0; 0; 2; 8; 9; 4] /\
  exists tail, [20; 0; 0; 2; 8; 9; 4]
    = HandshakeMessagePayload.get_encoding {| HandshakeMessagePayload.typ := Known HandshakeType.Finished; HandshakeMessagePayload.payload := HandshakePayload.Finished [8; 9] |} ++ tail
    /\ rem {| buffer := [20; 0; 0; 2; 8; 9; 4]; cursor := 6 |} = tail.
Proof.
  assert (Hw : wf_bytes [20; 0; 0; 2; 8; 9; 4]) by (apply (bool_decide_unpack _); vm_compute; exact I).
  split; [exact Hw|]. exact (handshake_message_exact (Known TLSv1_2) [20; 0; 0; 2; 8; 9; 4] Hw I).
Defined.
Lemma binder_signing_stable_witness :
  exists ch', ClientHelloPayload.set_psk_binder sample_hello [1; 2; 3; 4] = Ok ch' /\
    HandshakeMessagePayload.get_encoding_for_binder_signing (client_hello ch') = HandshakeMessagePayload.get_encoding_for_binder_signing (client_hello sample_hello).
Proof.
  destruct (binder_signing_stable sample_hello sample_offer [0; 0; 0; 0] [] sample_extensions [1; 2; 3; 4] eq_refl eq_refl eq_refl) as [_ (ch' & H1 & H2 & _)].
  exists ch'. exact (conj H1 H2).
Defined.
Lemma client_hello_typed_witness :
  exists bs x r, wf_bytes bs /\ ClientHelloPayload.read (init bs) = (Ok x, r) /\ hello_wf client_ext_any x.
Proof.
  pose (bs := ClientHelloPayload.encode sample_hello []). exists bs, sample_hello, {| buffer := bs; cursor := length bs |}.
  assert (Hw : wf_bytes bs) by (apply (bool_decide_unpack _); vm_compute; exact I).
  assert (Hr : ClientHelloPayload.read (init bs) = (Ok sample_hello, {| buffer := bs; cursor := length bs |})) by exact (client_hello_reads sample_hello sample_hello_wf []).
  split; [exact Hw|]. split; [exact Hr|]. exact (proj1 (client_hello_typed bs sample_hello _ Hw Hr)).
Defined.
