(* ===== verification/HelloBridge.v ===== *)
(** * The fork's ClientHello and the server's parser
    (orcax/rustls-fork/rustls/src/msgs/handshake.rs, orcax/transport/src/client_hello.rs)

    The client speaks with the TLS fork, the Reality server reads the first
    message with a parser of its own.  Here the two meet: what the fork encodes,
    the parser takes apart into the same fields. *)
From S2P Require Import Prelude RustStd ClientHello Codec TlsLayer Enums Wire Messages MessageLaws Payloads PayloadLaws.

Lemma be_encode_1 z : 0 <= z < 256 -> be_encode 1 z = [z].
Proof. intros Hz. cbn. by rewrite Z.mod_small. Qed.

Section bridge.
Context `{DnsNames}.

(** ** The encodings agree *)

Definition ext_code (e : ClientExtension.t) : Z := enum_get ExtensionType.table (ClientExtension.get_type e).
Definition ext_pair (e : ClientExtension.t) : Z * bytes := (ext_code e, ClientExtension.body e []).
Definition suite_codes (ch : ClientHelloPayload.t) : list Z := map (enum_get CipherSuite.table) (ClientHelloPayload.cipher_suites ch).
Definition compression_codes (ch : ClientHelloPayload.t) : list Z := map (enum_get Compression.table) (ClientHelloPayload.compression_methods ch).

Lemma ext_encoding_pair e : get_encoding (H:=ClientExtension.codec) e = encode_ext (ext_pair e).
Proof. unfold get_encoding. exact (ext_encoding ClientExtension.get_type ClientExtension.body _ client_body_app e []). Qed.
Lemma exts_encoding l : items (C:=ClientExtension.codec) l = flat_map encode_ext (map ext_pair l).
Proof. unfold items. rewrite flat_map_concat_map, map_map. f_equal. apply map_ext. apply ext_encoding_pair. Qed.
Lemma suites_encoding l : items (C:=CipherSuite.codec) l = flat_map (be_encode 2) (map (enum_get CipherSuite.table) l).
Proof. unfold items. by rewrite flat_map_concat_map, map_map. Qed.
Lemma compressions_encoding l :
  Forall (enum_wf 1 Compression.table) l -> items (C:=Compression.codec) l = map (enum_get Compression.table) l.
Proof.
  intros Hl. unfold items. induction Hl as [|x l Hx Hl IH]; [done|]. cbn [map concat]. rewrite IH. unfold get_encoding.
  cbn [encode Compression.codec enum_codec app be_encode]. destruct (enum_roundtrip 1 Compression.table x Compression.unique_Compression Hx) as [Hr _].
  by rewrite Z.mod_small.
Qed.

Lemma hello_encoding ch :
  client_hello_wf ch -> ClientHelloPayload.client_version ch = Known TLSv1_2 ->
  HandshakeMessagePayload.get_encoding (client_hello ch)
  = encode_hello (ClientHelloPayload.random ch) (SessionId.get_data (ClientHelloPayload.session_id ch)) (suite_codes ch) (compression_codes ch)
      (map ext_pair (ClientHelloPayload.extensions ch)).
Proof.
  intros (Hv & Hr & (bs & Hbl & Hsid) & Hs & Hc & He & Hne) Hv2. rewrite message_encoding.
  cbn [HandshakeMessagePayload.typ HandshakeMessagePayload.payload HandshakePayload.encode HandshakeMessagePayload.wire_type].
  unfold encode_hello. cbn zeta. change (get_encoding (H:=HandshakeType.codec) (Known HandshakeType.ClientHello)) with [1].
  assert (ClientHelloPayload.encode ch [] = encode_hello_body (ClientHelloPayload.random ch) (SessionId.get_data (ClientHelloPayload.session_id ch))
    (suite_codes ch) (compression_codes ch) (map ext_pair (ClientHelloPayload.extensions ch))) as ->; [|done].
  rewrite client_hello_encoding by done. unfold encode_hello_body. cbn [app]. rewrite Hv2.
  change (get_encoding (H:=version_codec) (Known TLSv1_2)) with [3; 3]. do 2 f_equal.
  rewrite Hsid, session_id_encoding by done. unfold SessionId.get_data. cbn [SessionId.len SessionId.data]. rewrite take_app_length.
  unfold cipher_suites_codec, compressions_codec, client_extensions_codec. rewrite !vec_encoding, suites_encoding, exts_encoding.
  rewrite compressions_encoding by apply Hc. unfold suite_codes, compression_codes. destruct Hc as [Hc1 [Hc2 _]].
  rewrite compressions_encoding, length_map in Hc2 by done. cbn [len_size] in *.
  change (get_encoding (H:=codec_u8) (Z.of_nat (length bs))) with (be_encode 1 (Z.of_nat (length bs))).
  change (get_encoding (H:=random_codec) (ClientHelloPayload.random ch)) with (ClientHelloPayload.random ch).
  rewrite !be_encode_1 by (rewrite ?length_map; lia). rewrite flat_map_be2_length, <- !app_assoc. unfold zlen. rewrite Nat2Z.inj_mul. done.
Qed.

(** ** What the parser makes of the extensions *)

Definition sni_of (l : list ServerName.t) : option bytes := x ← head l; match ServerName.payload x with ServerNamePayload.HostName n => Some n | _ => None end.
Definition x25519_of (l : list KeyShareEntry.t) : option bytes :=
  KeyShareEntry.payload <$> List.find (fun k => bool_decide (KeyShareEntry.group k = Known NamedGroup.X25519) && (length (KeyShareEntry.payload k) =? 32)%nat) l.

Hypothesis dns_utf8 : forall n, dns_try_from n = true -> utf8_valid n = true.

(** The first host name of a server_name extension. *)
Lemma parse_sni_front len name more :
  utf8_valid name = true -> zlen name < 65536 -> parse_sni (be_encode 2 len ++ [0] ++ be_encode 2 (zlen name) ++ name ++ more) = Ok (Some name).
Proof.
  intros Hu Hz. unfold parse_sni. unfold zlen in Hz. pose proof (be_decode_encode_2 (zlen name) ltac:(unfold zlen; lia)) as Hn.
  destruct (be_encode_2_bytes len) as (a & b & ->). destruct (be_encode_2_bytes (zlen name)) as (c & d & Hcd). rewrite Hcd in *.
  destruct (Nat.ltb_spec (length ([a; b] ++ [0] ++ [c; d] ++ name ++ more)) 5) as [Hl|_]; [cbn in Hl; lia|].
  cbn [app be16_at idx lookup list_lookup mbind result_bind unwrap negb Z.eqb Nat.add]. rewrite Hn. unfold zlen. rewrite Nat2Z.id.
  rewrite (proj2 (Nat.ltb_ge _ _)) by (cbn; rewrite length_app; lia).
  change (a :: b :: 0 :: c :: d :: name ++ more) with ([a; b; 0; c; d] ++ name ++ more).
  rewrite (slice_app_at [a; b; 0; c; d] name more) by done. cbn [mbind result_bind]. unfold from_utf8. by rewrite Hu.
Qed.
Lemma parse_sni_list l : Forall server_name_wf l -> parse_sni (put server_names_codec l []) = Ok (sni_of l).
Proof.
  intros Hl. unfold server_names_codec in *. rewrite vec_encode in *. cbn [app len_size] in *. destruct Hl as [|x l (n & -> & Hd & Hn) Hl]; [reflexivity|].
  unfold items in *. cbn [map concat] in *. rewrite server_name_encoding in *.
  change (get_encoding (H:=ServerNameType.codec) (Known ServerNameType.HostName)) with [0] in *.
  change (get_encoding (H:=payload_u16) n) with (be_encode 2 (zlen n) ++ n) in *. rewrite <- !app_assoc. apply parse_sni_front; [by apply dns_utf8|].
  exact Hn.
Qed.

(** The first x25519 share. *)
Definition share_pair (k : KeyShareEntry.t) : Z * bytes := (enum_get NamedGroup.table (KeyShareEntry.group k), KeyShareEntry.payload k).
Lemma x25519_pairs l : Forall key_share_wf l -> first_x25519 (map share_pair l) = x25519_of l.
Proof.
  induction 1 as [|k l [Hg Hp] Hl IH]; [done|]. unfold first_x25519, x25519_of in *. cbn [map List.find share_pair fst snd].
  destruct (enum_roundtrip 2 NamedGroup.table _ NamedGroup.unique_NamedGroup Hg) as [_ Hrt].
  assert ((enum_get NamedGroup.table (KeyShareEntry.group k) =? 29) = bool_decide (KeyShareEntry.group k = Known NamedGroup.X25519)) as ->.
  { case_bool_decide as Hx; [by rewrite Hx|]. apply Z.eqb_neq. intros Hz. apply Hx. rewrite <- Hrt, Hz. reflexivity. }
  destruct (_ && _); [done|exact IH].
Qed.
Lemma parse_shares_list l :
  Forall key_share_wf l -> zlen (put key_shares_codec l []) < 65536 -> parse_key_share (put key_shares_codec l []) = Ok (x25519_of l).
Proof.
  intros Hl Hz. rewrite <- x25519_pairs by done. unfold key_shares_codec in *. rewrite vec_encode in *. cbn [app len_size] in *.
  assert (items (C:=KeyShareEntry.codec) l = flat_map encode_share (map share_pair l)) as Hi.
  { unfold items. rewrite flat_map_concat_map, map_map. f_equal. }
  rewrite Hi in *. apply parse_key_share_ext.
  - apply Forall_map. eapply Forall_impl; [|exact Hl]. intros k [Hg Hp]. split; [|exact Hp].
    by destruct (enum_roundtrip 2 NamedGroup.table _ NamedGroup.unique_NamedGroup Hg).
  - unfold zlen in Hz. rewrite length_app, be_encode_length in Hz. unfold zlen. lia.
Qed.

(** With one extension of each type, the loop keeps what it found. *)
Lemma code_type e n : client_ext_wf e -> ext_code e = ExtensionType.code n -> ClientExtension.get_type e = Known n.
Proof.
  intros (_ & Ht & _) Hc. destruct (enum_roundtrip 2 ExtensionType.table _ ExtensionType.unique_ExtensionType Ht) as [_ Hrt].
  unfold ext_code in Hc. rewrite <- Hrt, Hc. apply ExtensionType.known_ExtensionType.
Qed.
Lemma type_code e n : ClientExtension.get_type e = Known n -> ext_code e = ExtensionType.code n.
Proof. unfold ext_code. intros ->. by destruct n. Qed.

Definition found (n : ExtensionType.name) (l : list ClientExtension.t) : option ClientExtension.t := find_ext ClientExtension.get_type (Known n) l.
Definition sni_part (o : option ClientExtension.t) (d : option bytes) : option bytes :=
  match o with Some e => match parse_sni (ClientExtension.body e []) with Ok o => o | _ => None end | None => d end.
Definition key_part (o : option ClientExtension.t) (d : option bytes) : option bytes :=
  match o with Some e => match parse_key_share (ClientExtension.body e []) with Ok o => o | _ => None end | None => d end.
Lemma fold_exts l acc :
  Forall client_ext_wf l -> NoDup (map ext_code l) ->
  foldl apply_ext acc (map ext_pair l) = (sni_part (found ExtensionType.ServerName l) acc.1, key_part (found ExtensionType.KeyShare l) acc.2).
Proof.
  intros Hl. revert acc. induction Hl as [|e l He Hl IH]; intros acc Hnd; [by destruct acc|].
  cbn [map] in Hnd |- *. apply list.NoDup_cons in Hnd as [Hni Hnd]. cbn [foldl]. rewrite IH by done. clear IH.
  assert (Hnone : forall n, ext_code e = ExtensionType.code n -> found n l = None).
  { intros n Hc. unfold found, find_ext. destruct (List.find _ l) as [e'|] eqn:Hf; [|done]. apply find_some in Hf as [Hin Hb].
    apply bool_decide_eq_true in Hb. exfalso. apply Hni. rewrite Hc. rewrite <- (type_code e' n Hb). by apply list_elem_of_In, in_map. }
  unfold apply_ext, ext_pair. cbn [fst snd]. unfold found, find_ext. cbn [List.find].
  destruct (Z.eqb_spec (ext_code e) 0) as [Hz|Hz].
  - rewrite (bool_decide_eq_true_2 (_ = Known ExtensionType.ServerName)) by by apply code_type.
    rewrite (bool_decide_eq_false_2 (_ = Known ExtensionType.KeyShare)).
    2: { intros Hk. apply type_code in Hk. rewrite Hk in Hz. done. }
    pose proof (Hnone ExtensionType.ServerName Hz) as Hn. unfold found, find_ext in Hn. by rewrite Hn.
  - rewrite (bool_decide_eq_false_2 (_ = Known ExtensionType.ServerName)) by (intros Hk; apply type_code in Hk; done).
    destruct (Z.eqb_spec (ext_code e) 51) as [Hk|Hk].
    + rewrite (bool_decide_eq_true_2 (_ = Known ExtensionType.KeyShare)) by by apply code_type.
      pose proof (Hnone ExtensionType.KeyShare Hk) as Hn. unfold found, find_ext in Hn. by rewrite Hn.
    + by rewrite (bool_decide_eq_false_2 (_ = Known ExtensionType.KeyShare)) by (intros Hq; apply type_code in Hq; done).
Qed.

(** ** The theorem *)

Lemma hello_pairs_wf ch :
  client_hello_wf ch ->
  wf_hello (ClientHelloPayload.random ch) (SessionId.get_data (ClientHelloPayload.session_id ch)) (suite_codes ch) (compression_codes ch)
    (map ext_pair (ClientHelloPayload.extensions ch)).
Proof.
  intros (Hv & Hr & (bs & Hbl & Hsid) & [Hs1 [Hs2 _]] & [Hc1 [Hc2 _]] & [He1 [He2 _]] & Hne). split.
  - exact Hr.
  - rewrite Hsid. unfold SessionId.get_data. cbn. rewrite take_app_length. unfold zlen. lia.
  - split.
    + apply Forall_map. eapply Forall_impl; [|exact Hs1]. intros x Hx.
      by destruct (enum_roundtrip 2 CipherSuite.table x CipherSuite.unique_CipherSuite Hx).
    + rewrite suites_encoding, flat_map_be2_length in Hs2. unfold suite_codes, zlen. cbn [len_size] in Hs2. lia.
  - rewrite compressions_encoding in Hc2 by done. unfold compression_codes, zlen. cbn [len_size] in Hc2. lia.
  - rewrite exts_encoding in He2. cbn [len_size] in He2. split; [|unfold zlen; lia]. apply Forall_map.
    eapply Forall_impl; [|exact He1]. intros e (_ & Ht & Hl). split; [|done].
    by destruct (enum_roundtrip 2 ExtensionType.table _ ExtensionType.unique_ExtensionType Ht).
Qed.

Lemma found_wf n l e : Forall client_ext_wf l -> found n l = Some e -> ClientExtension.get_type e = Known n /\ client_ext_wf e.
Proof.
  intros Hl Hf. apply find_some in Hf as [Hin Hb]. apply bool_decide_eq_true in Hb. split; [done|]. by apply (proj1 (Forall_forall _ _) Hl).
Qed.

(** C35: What the client's TLS library sends, the Reality server reads.  For every
    well-formed ClientHello without repeated extensions, with TLS 1.2 as its legacy
    version as the library always sends it, the server's own parser
    takes the fork's encoding, whatever follows it, apart into the fields it was
    made from: the message itself, random, session id at offset 39, the cipher
    suites, the host name of the server_name extension and the x25519 share. *)
Theorem fork_hello_parsed ch rest :
  client_hello_wf ch -> ClientHelloPayload.client_version ch = Known TLSv1_2 -> ClientHelloPayload.has_duplicate_extension ch = false ->
  parse_client_hello (HandshakeMessagePayload.get_encoding (client_hello ch) ++ rest) =
  Ok {| raw := HandshakeMessagePayload.get_encoding (client_hello ch); random := ClientHelloPayload.random ch;
        session_id := SessionId.get_data (ClientHelloPayload.session_id ch); session_id_offset := 39;
        sni := ClientHelloPayload.get_sni_extension ch ≫= sni_of; x25519_key := ClientHelloPayload.get_keyshare_extension ch ≫= x25519_of;
        cipher_suites := suite_codes ch |}.
Proof.
  intros Hwf Hv Hdup. rewrite hello_encoding by done. pose proof (hello_pairs_wf ch Hwf) as Hp.
  pose proof (parse_encode_hello _ _ _ _ _ rest Hp) as Hparse. pose proof Hwf as (_ & _ & _ & _ & _ & [He _] & _).
  apply has_dup_type_spec in Hdup as [Hnd _]. rewrite (fold_exts _ _ He Hnd) in Hparse. rewrite Hparse. do 2 f_equal.
  - unfold ClientHelloPayload.get_sni_extension, ClientHelloPayload.find_extension, sni_part. fold (found ExtensionType.ServerName (ClientHelloPayload.extensions ch)).
    clear Hparse. destruct (found ExtensionType.ServerName _) as [e|] eqn:Hf; [|done]. destruct (found_wf _ _ _ He Hf) as (Hb & Hb1 & _ & Hl).
    destruct e; try done; cbn in Hb; [|cbn in Hb1; unfold client_unknown in Hb1; by rewrite Hb in Hb1].
    cbn [mbind option_bind ClientExtension.body]. by rewrite parse_sni_list by apply Hb1.
  - unfold ClientHelloPayload.get_keyshare_extension, ClientHelloPayload.find_extension, key_part. fold (found ExtensionType.KeyShare (ClientHelloPayload.extensions ch)).
    clear Hparse. destruct (found ExtensionType.KeyShare _) as [e|] eqn:Hf; [|reflexivity]. destruct (found_wf _ _ _ He Hf) as (Hb & Hb1 & _ & Hl).
    destruct e; try done; cbn in Hb; [|cbn in Hb1; unfold client_unknown in Hb1; by rewrite Hb in Hb1].
    cbn [mbind option_bind ClientExtension.body]. rewrite parse_shares_list; [done|apply Hb1|exact Hl].
Qed.
End bridge.

Lemma ascii_utf8 n : dns_try_from (DnsNames:=ascii_names) n = true -> utf8_valid n = true.
Proof.
  cbn [dns_try_from ascii_names]. intros [_ Hf]%andb_true_iff. apply utf8_valid_ascii, List.Forall_forall. intros c Hc.
  pose proof (proj1 (forallb_forall _ _) Hf c Hc). cbn in *. lia.
Qed.
Lemma fork_hello_parsed_witness :
  ClientHelloPayload.has_duplicate_extension sample_hello = false /\
  exists c, parse_client_hello (HandshakeMessagePayload.get_encoding (H:=ascii_names) (client_hello sample_hello) ++ [1]) = Ok c /\
    sni c = Some [97; 46; 98] /\ x25519_key c = Some (replicate 32 9) /\ cipher_suites c = [0x1301].
Proof.
  split; [vm_compute; reflexivity|]. eexists. split.
  - exact (fork_hello_parsed (H:=ascii_names) ascii_utf8 sample_hello [1] sample_hello_wf eq_refl ltac:(vm_compute; reflexivity)).
  - cbn [sni x25519_key cipher_suites]. split; [vm_compute; reflexivity|]. split; vm_compute; reflexivity.
Defined.
