(* ===== verification/Ciphers.v ===== *)
(** * Record ciphers of the TLS fork
    (orcax/rustls-fork/rustls/src/crypto/cipher.rs, crypto/ring/tls13.rs,
    crypto/ring/tls12.rs)

    Nonces, additional data and the ciphers of TLS 1.3 and of TLS 1.2 (AES-GCM
    and ChaCha20-Poly1305), on top of ring's AEAD, which is a parameter with its
    documented behaviour.  They discharge what the record layer and the deframer
    ask of a cipher ([CipherLaws], [CipherSafe]). *)
From S2P Require Import Prelude Codec TlsLayer.

(** ** ring::aead *)

Inductive Algorithm : Type := AES_128_GCM | AES_256_GCM | CHACHA20_POLY1305.
Definition alg_key_len (a : Algorithm) : nat := match a with AES_128_GCM => 16 | _ => 32 end.
Definition TAG_LEN : nat := 16.
Definition NONCE_LEN : nat := 12.

(** [LessSafeKey::seal_in_place_separate_tag] gives the ciphertext left in the
    buffer and the tag, [open_in_place] the plaintext of a ciphertext followed by
    its tag; both may fail. *)
Class RingAead : Type := {
  ring_seal : Algorithm -> bytes -> bytes -> bytes -> bytes -> option (bytes * bytes);
  ring_open : Algorithm -> bytes -> bytes -> bytes -> bytes -> option bytes
}.
(** A record is far below the longest message an AEAD takes. *)
Class RingAeadLaws (A : RingAead) : Prop := {
  ring_seal_ok a k n ad p : length k = alg_key_len a -> length n = NONCE_LEN -> (length p <= MAX_FRAGMENT_LEN + 1)%nat ->
    exists c t, ring_seal a k n ad p = Some (c, t) /\ length c = length p /\ length t = TAG_LEN /\ ring_open a k n ad (c ++ t) = Some p;
  ring_open_length a k n ad c p : ring_open a k n ad c = Some p -> length c = (length p + TAG_LEN)%nat
}.

(** ** Keys, nonces, additional data (cipher.rs) *)

Module AeadKey.
Record t : Type := { buf : bytes; used : nat }.
Definition MAX_LEN : nat := 32.
Definition from_array (bs : bytes) : t := {| buf := bs; used := MAX_LEN |}.
Definition new {E} (bs : bytes) : result E t :=
  b ← copy_into (replicate MAX_LEN 0) 0 (length bs) bs;
  Ok {| buf := b; used := length bs |}.
Definition with_length {E} (k : t) (len : nat) : result E t :=
  if (len <=? used k)%nat then Ok {| buf := buf k; used := len |} else Panic.
Definition as_ref (k : t) : bytes := take (used k) (buf k).
End AeadKey.

(** [Iv::copy]: a slice of another length panics. *)
Definition iv_copy {E} (value : bytes) : result E bytes := copy_into (replicate NONCE_LEN 0) 0 NONCE_LEN value.

(** [Nonce::new]. *)
Definition nonce_new (iv : bytes) (seq : Z) : bytes := zip_with Z.lxor (replicate 4 0 ++ be_encode 8 seq) iv.

Definition make_tls13_aad (payload_len : nat) : bytes :=
  [enum_get content_types (Known ApplicationData); u8 (Z.shiftr (enum_get versions (Known TLSv1_2)) 8); u8 (Z.land (enum_get versions (Known TLSv1_2)) 0xff);
   u8 (Z.shiftr (Z.of_nat payload_len) 8); u8 (Z.land (Z.of_nat payload_len) 0xff)].
Definition make_tls12_aad (seq : Z) (ty : ContentType) (vers : ProtocolVersion) (len : nat) : bytes :=
  be_encode 8 seq ++ [enum_get content_types ty] ++ be_encode 2 (enum_get versions vers) ++ be_encode 2 (u16 (Z.of_nat len)).

Record KeyBlockShape : Type := { enc_key_len : nat; fixed_iv_len : nat; explicit_nonce_len : nat }.

(** [ConnectionTrafficSecrets] (suites.rs). *)
Inductive ConnectionTrafficSecrets : Type :=
| Aes128Gcm (key : AeadKey.t) (iv : bytes)
| Aes256Gcm (key : AeadKey.t) (iv : bytes)
| Chacha20Poly1305 (key : AeadKey.t) (iv : bytes).

(** ** The ciphers (ring/tls13.rs, ring/tls12.rs) *)

(** The six implementations of [MessageEncrypter] and [MessageDecrypter]. *)
Inductive cipher : Type :=
| Tls13MessageEncrypter (alg : Algorithm) (enc_key : bytes) (iv : bytes)
| Tls13MessageDecrypter (alg : Algorithm) (dec_key : bytes) (iv : bytes)
| GcmMessageEncrypter (alg : Algorithm) (enc_key : bytes) (iv : bytes)
| GcmMessageDecrypter (alg : Algorithm) (dec_key : bytes) (dec_salt : bytes)
| ChaCha20Poly1305MessageEncrypter (enc_key : bytes) (enc_offset : bytes)
| ChaCha20Poly1305MessageDecrypter (dec_key : bytes) (dec_offset : bytes).

(** [UnboundKey::new(alg, key).unwrap()]. *)
Definition unbound_key {E} (alg : Algorithm) (key : AeadKey.t) : result E bytes :=
  if (length (AeadKey.as_ref key) =? alg_key_len alg)%nat then Ok (AeadKey.as_ref key) else Panic.

Module Tls13Aead.
Definition encrypter {E} (alg : Algorithm) (key : AeadKey.t) (iv : bytes) : result E cipher :=
  k ← unbound_key alg key; Ok (Tls13MessageEncrypter alg k iv).
Definition decrypter {E} (alg : Algorithm) (key : AeadKey.t) (iv : bytes) : result E cipher :=
  k ← unbound_key alg key; Ok (Tls13MessageDecrypter alg k iv).
Definition key_len (alg : Algorithm) : nat := alg_key_len alg.
Definition extract_keys (alg : Algorithm) (key : AeadKey.t) (iv : bytes) : ConnectionTrafficSecrets :=
  match alg with AES_128_GCM => Aes128Gcm key iv | AES_256_GCM => Aes256Gcm key iv | CHACHA20_POLY1305 => Chacha20Poly1305 key iv end.
End Tls13Aead.

Definition GCM_EXPLICIT_NONCE_LEN : nat := 8.
Definition GCM_OVERHEAD : nat := GCM_EXPLICIT_NONCE_LEN + 16.
Definition CHACHAPOLY1305_OVERHEAD : nat := 16.

Definition gcm_iv {E} (write_iv explicit : bytes) : result E bytes :=
  iv ← copy_into (replicate NONCE_LEN 0) 0 4 write_iv;
  copy_into iv 4 NONCE_LEN explicit.

(** The TLS 1.2 algorithms: [GcmAlgorithm(alg)] and [ChaCha20Poly1305]. *)
Inductive Tls12Algorithm : Type := GcmAlgorithm (alg : Algorithm) | ChaCha20Poly1305.
Module Tls12Aead.
Definition decrypter {E} (a : Tls12Algorithm) (dec_key : AeadKey.t) (dec_iv : bytes) : result E cipher :=
  match a with
  | GcmAlgorithm alg =>
      k ← unbound_key alg dec_key;
      salt ← copy_into (replicate 4 0) 0 4 dec_iv;
      Ok (GcmMessageDecrypter alg k salt)
  | ChaCha20Poly1305 =>
      k ← unbound_key CHACHA20_POLY1305 dec_key;
      iv ← iv_copy dec_iv;
      Ok (ChaCha20Poly1305MessageDecrypter k iv)
  end.
Definition encrypter {E} (a : Tls12Algorithm) (enc_key : AeadKey.t) (write_iv explicit : bytes) : result E cipher :=
  match a with
  | GcmAlgorithm alg =>
      k ← unbound_key alg enc_key;
      iv ← gcm_iv write_iv explicit;
      Ok (GcmMessageEncrypter alg k iv)
  | ChaCha20Poly1305 =>
      k ← unbound_key CHACHA20_POLY1305 enc_key;
      iv ← iv_copy write_iv;
      Ok (ChaCha20Poly1305MessageEncrypter k iv)
  end.
Definition key_block_shape (a : Tls12Algorithm) : KeyBlockShape :=
  match a with
  | GcmAlgorithm alg => {| enc_key_len := alg_key_len alg; fixed_iv_len := 4; explicit_nonce_len := 8 |}
  | ChaCha20Poly1305 => {| enc_key_len := 32; fixed_iv_len := 12; explicit_nonce_len := 0 |}
  end.
Definition extract_keys {E} (a : Tls12Algorithm) (key : AeadKey.t) (iv explicit : bytes) : result E ConnectionTrafficSecrets :=
  match a with
  | GcmAlgorithm _ => iv ← gcm_iv iv explicit; Ok (Aes128Gcm key iv)
  | ChaCha20Poly1305 => if (length iv =? NONCE_LEN)%nat then Ok (Chacha20Poly1305 key iv) else Panic
  end.
End Tls12Aead.

Section ciphers.
Context {A : RingAead}.

Definition ct (p : bytes * bytes) : bytes := p.1 ++ p.2.

(** *** TLS 1.3 *)

Definition tls13_encrypted_payload_len (payload_len : nat) : nat := payload_len + 1 + TAG_LEN.
Definition tls13_encrypt (alg : Algorithm) (k iv : bytes) (m : message) (seq : Z) : result tls_error message :=
  let total_len := tls13_encrypted_payload_len (length (payload m)) in
  let p := payload m ++ get_encoding (H:=type_codec) (typ m) in
  sealed ← ok_or (ring_seal alg k (nonce_new iv seq) (make_tls13_aad total_len) p) EncryptError;
  Ok {| typ := Known ApplicationData; version := Known TLSv1_2; payload := ct sealed |}.
Definition tls13_decrypt (alg : Algorithm) (k iv : bytes) (m : message) (seq : Z) : result tls_error message :=
  _ ← ensure (negb (length (payload m) <? TAG_LEN)%nat) DecryptError;
  p ← ok_or (ring_open alg k (nonce_new iv seq) (make_tls13_aad (length (payload m))) (payload m)) DecryptError;
  into_tls13_unpadded_message {| typ := typ m; version := version m; payload := p |}.

(** *** TLS 1.2, AES-GCM: the record carries the last eight bytes of the nonce *)

Definition gcm_encrypt (alg : Algorithm) (k iv : bytes) (m : message) (seq : Z) : result tls_error message :=
  let nonce := nonce_new iv seq in
  sealed ← ok_or (ring_seal alg k nonce (make_tls12_aad seq (typ m) (version m) (length (payload m))) (payload m)) EncryptError;
  Ok {| typ := typ m; version := version m; payload := drop 4 nonce ++ ct sealed |}.
Definition gcm_decrypt (alg : Algorithm) (k salt : bytes) (m : message) (seq : Z) : result tls_error message :=
  _ ← ensure (negb (length (payload m) <? GCM_OVERHEAD)%nat) DecryptError;
  let nonce := salt ++ take 8 (payload m) in
  let aad := make_tls12_aad seq (typ m) (version m) (length (payload m) - GCM_OVERHEAD) in
  p ← ok_or (ring_open alg k nonce aad (drop GCM_EXPLICIT_NONCE_LEN (payload m))) DecryptError;
  _ ← ensure (negb (MAX_FRAGMENT_LEN <? length p)%nat) PeerSentOversizedRecord;
  Ok {| typ := typ m; version := version m; payload := p |}.

(** *** TLS 1.2, ChaCha20-Poly1305 *)

Definition chacha_encrypt (k iv : bytes) (m : message) (seq : Z) : result tls_error message :=
  let aad := make_tls12_aad seq (typ m) (version m) (length (payload m)) in
  sealed ← ok_or (ring_seal CHACHA20_POLY1305 k (nonce_new iv seq) aad (payload m)) EncryptError;
  Ok {| typ := typ m; version := version m; payload := ct sealed |}.
Definition chacha_decrypt (k iv : bytes) (m : message) (seq : Z) : result tls_error message :=
  _ ← ensure (negb (length (payload m) <? CHACHAPOLY1305_OVERHEAD)%nat) DecryptError;
  let aad := make_tls12_aad seq (typ m) (version m) (length (payload m) - CHACHAPOLY1305_OVERHEAD) in
  p ← ok_or (ring_open CHACHA20_POLY1305 k (nonce_new iv seq) aad (payload m)) DecryptError;
  _ ← ensure (negb (MAX_FRAGMENT_LEN <? length p)%nat) PeerSentOversizedRecord;
  Ok {| typ := typ m; version := version m; payload := p |}.

(** The two traits; Rust's types keep an encrypter from being asked to decrypt. *)
#[export] Instance ring_cipher : Cipher cipher := {|
  cipher_encrypt k m seq :=
    match k with
    | Tls13MessageEncrypter alg k iv => tls13_encrypt alg k iv m seq
    | GcmMessageEncrypter alg k iv => gcm_encrypt alg k iv m seq
    | ChaCha20Poly1305MessageEncrypter k iv => chacha_encrypt k iv m seq
    | _ => Err EncryptError
    end;
  cipher_decrypt k m seq :=
    match k with
    | Tls13MessageDecrypter alg k iv => tls13_decrypt alg k iv m seq
    | GcmMessageDecrypter alg k salt => gcm_decrypt alg k salt m seq
    | ChaCha20Poly1305MessageDecrypter k iv => chacha_decrypt k iv m seq
    | _ => Err DecryptError
    end
|}.
End ciphers.

(** ** Nonces *)

Lemma nonce_length iv seq : length iv = NONCE_LEN -> length (nonce_new iv seq) = NONCE_LEN.
Proof. intros Hl. unfold nonce_new. rewrite length_zip_with, length_app, length_replicate, be_encode_length, Hl. done. Qed.
Lemma xor_inj (a b iv : bytes) : length a = length iv -> length b = length iv -> zip_with Z.lxor a iv = zip_with Z.lxor b iv -> a = b.
Proof.
  revert b iv. induction a as [|x a IH]; intros [|y b] [|z iv] Ha Hb Heq; try done. cbn in *. injection Heq as Hx Heq. f_equal; [|apply (IH b iv); [lia|lia|done]].
  rewrite <- (Z.lxor_0_r x), <- (Z.lxor_0_r y), <- (Z.lxor_nilpotent z), <- !Z.lxor_assoc. by rewrite Hx.
Qed.
(** Under one iv, different sequence numbers give different nonces. *)
Lemma nonce_inj iv s1 s2 :
  length iv = NONCE_LEN -> 0 <= s1 < 2 ^ 64 -> 0 <= s2 < 2 ^ 64 -> nonce_new iv s1 = nonce_new iv s2 -> s1 = s2.
Proof.
  intros Hl H1 H2 Hn. apply xor_inj in Hn; [|by rewrite Hl, length_app, length_replicate, be_encode_length..].
  apply app_inv_head in Hn. rewrite <- (be_decode_encode_8 s1), <- (be_decode_encode_8 s2) by done. by rewrite Hn.
Qed.

(** ** The laws of the record layer *)

Section laws.
Context {A : RingAead} {AL : RingAeadLaws A}.

Definition cipher_paired (ke kd : cipher) : Prop :=
  match ke, kd with
  | Tls13MessageEncrypter a k iv, Tls13MessageDecrypter a' k' iv' => a = a' /\ k = k' /\ iv = iv' /\ length k = alg_key_len a /\ length iv = NONCE_LEN
  | GcmMessageEncrypter a k iv, GcmMessageDecrypter a' k' salt =>
      a = a' /\ k = k' /\ salt = take 4 iv /\ length k = alg_key_len a /\ length iv = NONCE_LEN
  | ChaCha20Poly1305MessageEncrypter k iv, ChaCha20Poly1305MessageDecrypter k' iv' =>
      k = k' /\ iv = iv' /\ length k = alg_key_len CHACHA20_POLY1305 /\ length iv = NONCE_LEN
  | _, _ => False
  end.
Definition cipher_sendable (ke : cipher) (m : message) : Prop :=
  (length (payload m) <= MAX_FRAGMENT_LEN)%nat /\
  match ke with Tls13MessageEncrypter _ _ _ => enum_wf 1 content_types (typ m) /\ typ m <> Unknown 0 | _ => True end.
(** A TLS 1.3 record does not carry the version. *)
Definition cipher_received (kd : cipher) (m : message) : message :=
  match kd with
  | Tls13MessageDecrypter _ _ _ => {| typ := typ m; version := Known TLSv1_3; payload := payload m |}
  | _ => m
  end.

Lemma type_byte_nonzero (x : ContentType) : enum_wf 1 content_types x -> x <> Unknown 0 -> enum_get content_types x <> 0.
Proof. intros Hx Hn. destruct x as [n|z]; [by destruct n|]. cbn. congruence. Qed.

Lemma tls13_laws a k iv m seq :
  length k = alg_key_len a -> length iv = NONCE_LEN -> (length (payload m) <= MAX_FRAGMENT_LEN)%nat ->
  enum_wf 1 content_types (typ m) -> typ m <> Unknown 0 ->
  exists c, tls13_encrypt a k iv m seq = Ok c /\ tls13_decrypt a k iv c seq = Ok {| typ := typ m; version := Known TLSv1_3; payload := payload m |}.
Proof.
  intros Hk Hiv Hp Ht Hn. unfold tls13_encrypt. destruct (enum_roundtrip 1 content_types (typ m) (proj1 tables_ok) Ht) as [Hb Hrt].
  assert (get_encoding (H:=type_codec) (typ m) = [enum_get content_types (typ m)]) as Hty by (cbn; by rewrite Z.mod_small).
  rewrite Hty. set (pl := payload m ++ [enum_get content_types (typ m)]).
  assert (length pl = (length (payload m) + 1)%nat) as Hpl by (unfold pl; by rewrite length_app).
  destruct (ring_seal_ok a k (nonce_new iv seq) (make_tls13_aad (tls13_encrypted_payload_len (length (payload m)))) pl Hk)
    as (c & t & Hs & Hc & Htl & Ho); [by apply nonce_length|lia|].
  rewrite Hs. cbn [ok_or mbind result_bind]. eexists. split; [done|]. unfold tls13_decrypt. cbn [payload typ version ct fst snd].
  assert (length (c ++ t) = tls13_encrypted_payload_len (length (payload m))) as Hct by (rewrite length_app, Hc, Hpl, Htl; done).
  unfold ct; cbn [fst snd]. rewrite Hct, ensure_true by (unfold tls13_encrypted_payload_len; lia). cbn [mbind result_bind]. rewrite Ho. cbn [ok_or mbind result_bind].
  pose proof (tls13_unpad_inverse (payload m) (enum_get content_types (typ m)) 0 (Known TLSv1_2) (Known ApplicationData)
    (type_byte_nonzero _ Ht Hn) ltac:(lia)) as [Hu _]. cbn [replicate] in Hu. rewrite app_nil_r in Hu. fold pl in Hu. by rewrite Hu, Hrt.
Qed.
Lemma gcm_laws a k iv m seq :
  length k = alg_key_len a -> length iv = NONCE_LEN -> (length (payload m) <= MAX_FRAGMENT_LEN)%nat ->
  exists c, gcm_encrypt a k iv m seq = Ok c /\ gcm_decrypt a k (take 4 iv) c seq = Ok m.
Proof.
  intros Hk Hiv Hp. unfold gcm_encrypt. set (nonce := nonce_new iv seq). assert (length nonce = NONCE_LEN) as Hn by by apply nonce_length.
  assert (take 4 iv = take 4 nonce) as Hsalt.
  { unfold nonce, nonce_new. destruct iv as [|i0 [|i1 [|i2 [|i3 iv]]]]; try done. }
  destruct (ring_seal_ok a k nonce (make_tls12_aad seq (typ m) (version m) (length (payload m))) (payload m) Hk Hn ltac:(lia))
    as (c & t & Hs & Hc & Htl & Ho).
  rewrite Hs. cbn [ok_or mbind result_bind]. eexists. split; [done|]. unfold gcm_decrypt. cbn [payload typ version ct fst snd].
  assert (length (drop 4 nonce) = 8%nat) as Hd by (by rewrite length_drop, Hn).
  assert (length (drop 4 nonce ++ c ++ t) = (length (payload m) + GCM_OVERHEAD)%nat) as Hl by (rewrite !length_app, Hd, Hc, Htl; unfold GCM_OVERHEAD, GCM_EXPLICIT_NONCE_LEN, TAG_LEN; lia).
  unfold ct; cbn [fst snd]. rewrite Hl, ensure_true by lia. cbn [mbind result_bind]. rewrite Nat.add_sub.
  rewrite (take_app_length' (drop 4 nonce)), (drop_app_length' (drop 4 nonce)) by done. rewrite Hsalt, take_drop, Ho. cbn [ok_or mbind result_bind].
  rewrite ensure_true by lia. by destruct m.
Qed.
Lemma chacha_laws k iv m seq :
  length k = alg_key_len CHACHA20_POLY1305 -> length iv = NONCE_LEN -> (length (payload m) <= MAX_FRAGMENT_LEN)%nat ->
  exists c, chacha_encrypt k iv m seq = Ok c /\ chacha_decrypt k iv c seq = Ok m.
Proof.
  intros Hk Hiv Hp. unfold chacha_encrypt.
  destruct (ring_seal_ok CHACHA20_POLY1305 k (nonce_new iv seq) (make_tls12_aad seq (typ m) (version m) (length (payload m))) (payload m) Hk)
    as (c & t & Hs & Hc & Htl & Ho); [by apply nonce_length|lia|].
  rewrite Hs. cbn [ok_or mbind result_bind]. eexists. split; [done|]. unfold chacha_decrypt, ct. cbn [payload typ version fst snd].
  assert (length (c ++ t) = (length (payload m) + CHACHAPOLY1305_OVERHEAD)%nat) as Hl by (rewrite length_app, Hc, Htl; done).
  rewrite Hl, ensure_true by lia. cbn [mbind result_bind]. rewrite Nat.add_sub, Ho. cbn [ok_or mbind result_bind]. rewrite ensure_true by lia. by destruct m.
Qed.

#[export] Instance ring_cipher_laws : CipherLaws ring_cipher.
Proof.
  refine {| paired := cipher_paired; sendable := cipher_sendable; received := cipher_received |}.
  intros ke kd m seq Hp [Hl Hs] _. destruct ke as [a k iv|a k iv|a k iv|a k iv|k iv|k iv], kd as [a' k' iv'|a' k' iv'|a' k' iv'|a' k' salt|k' iv'|k' iv']; try done; cbn [cipher_paired] in Hp; destruct_and!; subst.
  - by apply tls13_laws.
  - by apply gcm_laws.
  - by apply chacha_laws.
Defined.

Lemma unpadded_length m m' : into_tls13_unpadded_message m = Ok m' -> (length (payload m') <= length (payload m))%nat.
Proof.
  unfold into_tls13_unpadded_message, unpad_tls13. intros H. apply bind_ok_inv in H as ([] & _ & H).
  destruct (pop_zeros (rev (payload m))) as [t p] eqn:Hp. apply bind_ok_inv in H as ([] & _ & H). apply bind_ok_inv in H as ([] & _ & [= <-]).
  cbn [payload]. rewrite length_rev, <- (length_rev (payload m)). revert Hp. generalize (rev (payload m)). intros l. revert t p.
  induction l as [|b l IH]; cbn; intros t p Hp; [by simplify_eq/=|]. destruct b; [specialize (IH _ _ Hp); lia|by simplify_eq/=; lia..].
Qed.
Lemma unpadded_no_panic m : into_tls13_unpadded_message m <> Panic.
Proof. unfold into_tls13_unpadded_message. destruct (unpad_tls13 (payload m)). unfold ensure, mbind, result_bind. by repeat case_match. Qed.
#[export] Instance ring_cipher_safe : CipherSafe ring_cipher.
Proof.
  split.
  - intros k c seq m Hd. destruct k; cbn [cipher_decrypt ring_cipher] in Hd; try done;
      unfold tls13_decrypt, gcm_decrypt, chacha_decrypt in Hd; apply bind_ok_inv in Hd as ([] & _ & Hd); apply bind_ok_inv in Hd as (p & Hp & Hd);
      apply ok_or_inv, ring_open_length in Hp.
    + apply unpadded_length in Hd. cbn [payload] in Hd. lia.
    + apply bind_ok_inv in Hd as ([] & _ & [= <-]). cbn [payload]. rewrite length_drop in Hp. lia.
    + apply bind_ok_inv in Hd as ([] & _ & [= <-]). cbn [payload]. lia.
  - intros k c seq. destruct k; cbn [cipher_decrypt ring_cipher]; try done;
      unfold tls13_decrypt, gcm_decrypt, chacha_decrypt, ensure, ok_or, mbind, result_bind.
    + destruct (negb _); [|done]. destruct (ring_open _ _ _ _ _); [apply unpadded_no_panic|done].
    + by repeat case_match.
    + by repeat case_match.
Qed.
End laws.

(** ** An instance *)

(** A cipher that leaves the text and appends a checksum. *)
Definition toy_mac (k n ad p : bytes) : bytes := be_encode TAG_LEN (be_decode (k ++ n ++ ad ++ p)).
Definition toy_ring : RingAead :=
  {| ring_seal a k n ad p := Some (p, toy_mac k n ad p);
     ring_open a k n ad c :=
       let p := take (length c - TAG_LEN) c in
       if (TAG_LEN <=? length c)%nat && bool_decide (drop (length c - TAG_LEN) c = toy_mac k n ad p) then Some p else None |}.
#[export] Instance toy_ring_laws : RingAeadLaws toy_ring.
Proof.
  split; cbn [ring_seal ring_open toy_ring].
  - intros a k n ad p _ _ _. exists p, (toy_mac k n ad p). assert (length (toy_mac k n ad p) = TAG_LEN) as Hl by apply be_encode_length.
    split; [done|]. split; [done|]. split; [done|]. rewrite length_app, Hl, Nat.add_sub, take_app_length, drop_app_length.
    rewrite (proj2 (Nat.leb_le _ _)) by lia. by rewrite bool_decide_eq_true_2.
  - intros a k n ad c p. destruct (Nat.leb_spec TAG_LEN (length c)); [|done]. cbn [andb]. case_bool_decide; [|done]. intros [= <-].
    rewrite length_take. lia.
Qed.
