(* ===== verification/Suites.v ===== *)
(** * Cipher suites of the TLS fork
    (orcax/rustls-fork/rustls/src/suites.rs, tls12/mod.rs, tls13/mod.rs,
    versions.rs, and the tables of crypto/ring)

    The suites the ring provider offers, the choice among them, and the versions
    an end has enabled.  A hash function is named, as in the tables; what it
    computes is a parameter of the files that hash. *)
From S2P Require Import Prelude Codec TlsLayer Enums Ciphers.

(** ** Suites *)

Inductive hash_alg : Type := SHA256 | SHA384.
#[export] Instance hash_alg_eq_dec : EqDecision hash_alg.
Proof. solve_decision. Defined.
(** [Hash::algorithm] and [Hash::output_len]. *)
Definition hash_algorithm (h : hash_alg) : HashAlgorithm.t :=
  match h with SHA256 => Known HashAlgorithm.SHA256 | SHA384 => Known HashAlgorithm.SHA384 end.
Definition output_len (h : hash_alg) : nat := match h with SHA256 => 32 | SHA384 => 48 end.

Record CipherSuiteCommon : Type := { suite_id : CipherSuite.t; hash_provider : hash_alg; confidentiality_limit : Z; integrity_limit : Z }.
(** [quic] says whether the suite has a QUIC algorithm. *)
Record Tls13CipherSuite : Type := { common13 : CipherSuiteCommon; aead13 : Algorithm; quic : bool }.
Record Tls12CipherSuite : Type := { common12 : CipherSuiteCommon; sign : list SignatureScheme.t; aead12 : Tls12Algorithm }.
Inductive SupportedCipherSuite : Type := Tls12 (inner : Tls12CipherSuite) | Tls13 (inner : Tls13CipherSuite).

(** [u64::MAX]. *)
Definition U64_MAX : Z := 2 ^ 64 - 1.
Definition suite13 (id : CipherSuite.name) (h : hash_alg) (conf integ : Z) (a : Algorithm) : Tls13CipherSuite :=
  {| common13 := {| suite_id := Known id; hash_provider := h; confidentiality_limit := conf; integrity_limit := integ |}; aead13 := a; quic := true |}.
Definition TLS13_CHACHA20_POLY1305_SHA256 : Tls13CipherSuite := suite13 CipherSuite.TLS13_CHACHA20_POLY1305_SHA256 SHA256 U64_MAX (2 ^ 36) CHACHA20_POLY1305.
Definition TLS13_AES_256_GCM_SHA384 : Tls13CipherSuite := suite13 CipherSuite.TLS13_AES_256_GCM_SHA384 SHA384 (2 ^ 23) (2 ^ 52) AES_256_GCM.
Definition TLS13_AES_128_GCM_SHA256 : Tls13CipherSuite := suite13 CipherSuite.TLS13_AES_128_GCM_SHA256 SHA256 (2 ^ 23) (2 ^ 52) AES_128_GCM.

Definition TLS12_ECDSA_SCHEMES : list SignatureScheme.t :=
  [Known SignatureScheme.ED25519; Known SignatureScheme.ECDSA_NISTP521_SHA512; Known SignatureScheme.ECDSA_NISTP384_SHA384; Known SignatureScheme.ECDSA_NISTP256_SHA256].
Definition TLS12_RSA_SCHEMES : list SignatureScheme.t :=
  [Known SignatureScheme.RSA_PSS_SHA512; Known SignatureScheme.RSA_PSS_SHA384; Known SignatureScheme.RSA_PSS_SHA256;
   Known SignatureScheme.RSA_PKCS1_SHA512; Known SignatureScheme.RSA_PKCS1_SHA384; Known SignatureScheme.RSA_PKCS1_SHA256].
Definition suite12 (id : CipherSuite.name) (h : hash_alg) (conf integ : Z) (schemes : list SignatureScheme.t) (a : Tls12Algorithm) : Tls12CipherSuite :=
  {| common12 := {| suite_id := Known id; hash_provider := h; confidentiality_limit := conf; integrity_limit := integ |}; sign := schemes; aead12 := a |}.
Definition TLS_ECDHE_ECDSA_WITH_CHACHA20_POLY1305_SHA256 : Tls12CipherSuite :=
  suite12 CipherSuite.TLS_ECDHE_ECDSA_WITH_CHACHA20_POLY1305_SHA256 SHA256 U64_MAX (2 ^ 36) TLS12_ECDSA_SCHEMES ChaCha20Poly1305.
Definition TLS_ECDHE_RSA_WITH_CHACHA20_POLY1305_SHA256 : Tls12CipherSuite :=
  suite12 CipherSuite.TLS_ECDHE_RSA_WITH_CHACHA20_POLY1305_SHA256 SHA256 U64_MAX (2 ^ 36) TLS12_RSA_SCHEMES ChaCha20Poly1305.
Definition TLS_ECDHE_RSA_WITH_AES_128_GCM_SHA256 : Tls12CipherSuite :=
  suite12 CipherSuite.TLS_ECDHE_RSA_WITH_AES_128_GCM_SHA256 SHA256 (2 ^ 23) (2 ^ 52) TLS12_RSA_SCHEMES (GcmAlgorithm AES_128_GCM).
Definition TLS_ECDHE_RSA_WITH_AES_256_GCM_SHA384 : Tls12CipherSuite :=
  suite12 CipherSuite.TLS_ECDHE_RSA_WITH_AES_256_GCM_SHA384 SHA384 (2 ^ 23) (2 ^ 52) TLS12_RSA_SCHEMES (GcmAlgorithm AES_256_GCM).
Definition TLS_ECDHE_ECDSA_WITH_AES_128_GCM_SHA256 : Tls12CipherSuite :=
  suite12 CipherSuite.TLS_ECDHE_ECDSA_WITH_AES_128_GCM_SHA256 SHA256 (2 ^ 23) (2 ^ 52) TLS12_ECDSA_SCHEMES (GcmAlgorithm AES_128_GCM).
Definition TLS_ECDHE_ECDSA_WITH_AES_256_GCM_SHA384 : Tls12CipherSuite :=
  suite12 CipherSuite.TLS_ECDHE_ECDSA_WITH_AES_256_GCM_SHA384 SHA384 (2 ^ 23) (2 ^ 52) TLS12_ECDSA_SCHEMES (GcmAlgorithm AES_256_GCM).

Definition ALL_CIPHER_SUITES : list SupportedCipherSuite :=
  [Tls13 TLS13_AES_256_GCM_SHA384; Tls13 TLS13_AES_128_GCM_SHA256; Tls13 TLS13_CHACHA20_POLY1305_SHA256;
   Tls12 TLS_ECDHE_ECDSA_WITH_AES_256_GCM_SHA384; Tls12 TLS_ECDHE_ECDSA_WITH_AES_128_GCM_SHA256; Tls12 TLS_ECDHE_ECDSA_WITH_CHACHA20_POLY1305_SHA256;
   Tls12 TLS_ECDHE_RSA_WITH_AES_256_GCM_SHA384; Tls12 TLS_ECDHE_RSA_WITH_AES_128_GCM_SHA256; Tls12 TLS_ECDHE_RSA_WITH_CHACHA20_POLY1305_SHA256].
Definition DEFAULT_CIPHER_SUITES : list SupportedCipherSuite := ALL_CIPHER_SUITES.

(** ** Versions (versions.rs) *)

Record EnabledVersions : Type := { ev_tls12 : bool; ev_tls13 : bool }.
Definition enabled_versions (versions : list ProtocolVersion) : EnabledVersions :=
  fold_left (fun ev v =>
    match v with
    | Known TLSv1_2 => {| ev_tls12 := true; ev_tls13 := ev_tls13 ev |}
    | Known TLSv1_3 => {| ev_tls12 := ev_tls12 ev; ev_tls13 := true |}
    | _ => ev
    end) versions {| ev_tls12 := false; ev_tls13 := false |}.
Definition contains (ev : EnabledVersions) (version : ProtocolVersion) : bool :=
  match version with Known TLSv1_2 => ev_tls12 ev | Known TLSv1_3 => ev_tls13 ev | _ => false end.
Definition ALL_VERSIONS : list ProtocolVersion := [Known TLSv1_3; Known TLSv1_2].

(** ** Choosing *)

Inductive Protocol : Type := Tcp | Quic.
#[export] Instance Protocol_eq_dec : EqDecision Protocol.
Proof. solve_decision. Defined.

Definition common (x : SupportedCipherSuite) : CipherSuiteCommon := match x with Tls12 inner => common12 inner | Tls13 inner => common13 inner end.
Definition suite (x : SupportedCipherSuite) : CipherSuite.t := suite_id (common x).
Definition suite_hash (x : SupportedCipherSuite) : hash_alg := hash_provider (common x).
Definition tls13 (x : SupportedCipherSuite) : option Tls13CipherSuite := match x with Tls12 _ => None | Tls13 inner => Some inner end.
Definition suite_version (x : SupportedCipherSuite) : ProtocolVersion := match x with Tls12 _ => Known TLSv1_2 | Tls13 _ => Known TLSv1_3 end.
Definition usable_for_signature_algorithm (x : SupportedCipherSuite) (sig_alg : SignatureAlgorithm.t) : bool :=
  match x with Tls13 _ => true | Tls12 inner => existsb (fun scheme => bool_decide (scheme_sign scheme = sig_alg)) (sign inner) end.
Definition usable_for_protocol (x : SupportedCipherSuite) (proto : Protocol) : bool :=
  match proto with Tcp => true | Quic => match tls13 x with Some cs => quic cs | None => false end end.

Fixpoint choose_ciphersuite_preferring_client (client_suites : list CipherSuite.t) (server_suites : list SupportedCipherSuite) : option SupportedCipherSuite :=
  match client_suites with
  | [] => None
  | client_suite :: rest =>
      match List.find (fun x => bool_decide (client_suite = suite x)) server_suites with
      | Some selected => Some selected
      | None => choose_ciphersuite_preferring_client rest server_suites
      end
  end.
Definition choose_ciphersuite_preferring_server (client_suites : list CipherSuite.t) (server_suites : list SupportedCipherSuite) : option SupportedCipherSuite :=
  List.find (fun x => bool_decide (suite x ∈ client_suites)) server_suites.
Definition reduce_given_sigalg (all : list SupportedCipherSuite) (sigalg : SignatureAlgorithm.t) : list SupportedCipherSuite :=
  List.filter (fun s => usable_for_signature_algorithm s sigalg) all.
Definition reduce_given_version_and_protocol (all : list SupportedCipherSuite) (version : ProtocolVersion) (proto : Protocol) : list SupportedCipherSuite :=
  List.filter (fun s => bool_decide (suite_version s = version) && usable_for_protocol s proto) all.
Definition compatible_sigscheme_for_suites (sigscheme : SignatureScheme.t) (common_suites : list SupportedCipherSuite) : bool :=
  existsb (fun s => usable_for_signature_algorithm s (scheme_sign sigscheme)) common_suites.
(** [Tls12CipherSuite::resolve_sig_schemes] and [Tls13CipherSuite::can_resume_from]. *)
Definition resolve_sig_schemes (x : Tls12CipherSuite) (offered : list SignatureScheme.t) : list SignatureScheme.t :=
  List.filter (fun pref => bool_decide (pref ∈ offered)) (sign x).
Definition can_resume_from (x prev : Tls13CipherSuite) : option Tls13CipherSuite :=
  if bool_decide (hash_algorithm (hash_provider (common13 prev)) = hash_algorithm (hash_provider (common13 x))) then Some prev else None.

(** ** What is chosen *)

Lemma contains_spec versions v :
  contains (enabled_versions versions) v = bool_decide (v ∈ versions /\ (v = Known TLSv1_2 \/ v = Known TLSv1_3)).
Proof.
  unfold enabled_versions. set (f := fun ev v => _). assert (Hf : forall ev, contains (fold_left f versions ev) v
    = contains ev v || bool_decide (v ∈ versions /\ (v = Known TLSv1_2 \/ v = Known TLSv1_3))).
  { induction versions as [|x versions IH]; intros ev; cbn [fold_left].
    - rewrite bool_decide_eq_false_2; [by rewrite orb_false_r|]. intros [Hin _]. by apply elem_of_nil in Hin.
    - rewrite IH. apply Bool.eq_iff_eq_true. rewrite !orb_true_iff, !bool_decide_eq_true, elem_of_cons.
      assert (contains (f ev x) v = true <-> contains ev v = true \/ (v = x /\ (v = Known TLSv1_2 \/ v = Known TLSv1_3))) as ->.
      { destruct x as [[]|]; cbn [f]; destruct v as [[]|]; cbn; naive_solver. }
      tauto. }
  rewrite Hf. by destruct v as [[]|].
Qed.

Lemma client_choice cs ss x :
  choose_ciphersuite_preferring_client cs ss = Some x ->
  exists before after, cs = before ++ suite x :: after /\ x ∈ ss /\ Forall (fun c => Forall (fun s => suite s <> c) ss) before.
Proof.
  induction cs as [|c cs IH]; cbn; [done|]. destruct (List.find _ ss) as [y|] eqn:Hf.
  - intros [= <-]. apply find_some in Hf as [Hin Hb]. apply bool_decide_eq_true in Hb as ->. exists [], cs.
    split; [done|]. split; [by apply list_elem_of_In|done].
  - intros Hx. destruct (IH Hx) as (b & a & -> & Hin & Hb). exists (c :: b), a. split; [done|]. split; [done|].
    constructor; [|done]. apply Forall_forall. intros s Hs Hc. pose proof (find_none _ _ Hf s Hs) as Hn.
    cbn in Hn. by rewrite bool_decide_eq_true_2 in Hn.
Qed.
(** Negotiation, whichever end's order counts: what is chosen is offered by the
    client and supported by the server, nothing earlier in the preferred order
    is in both, and there is a choice exactly when the two lists meet. *)
Theorem ciphersuite_choice cs ss :
  match choose_ciphersuite_preferring_client cs ss with
  | Some x => suite x ∈ cs /\ x ∈ ss /\ exists before after, cs = before ++ suite x :: after /\ forall s, s ∈ ss -> suite s ∉ before
  | None => forall s, s ∈ ss -> suite s ∉ cs
  end /\
  match choose_ciphersuite_preferring_server cs ss with
  | Some x => suite x ∈ cs /\ exists before after, ss = before ++ x :: after /\ forall s, s ∈ before -> suite s ∉ cs
  | None => forall s, s ∈ ss -> suite s ∉ cs
  end.
Proof.
  split.
  - destruct (choose_ciphersuite_preferring_client cs ss) as [x|] eqn:Hx.
    + destruct (client_choice cs ss x Hx) as (b & a & -> & Hin & Hb). split; [apply elem_of_app; right; by left|]. split; [done|].
      exists b, a. split; [done|]. intros s Hs Hsb. by apply (proj1 (list.Forall_forall _ _) (proj1 (list.Forall_forall _ _) Hb _ Hsb) s Hs).
    + intros s Hs. induction cs as [|c cs IH]; [by intros ?%elem_of_nil|]. cbn in Hx. destruct (List.find _ ss) eqn:Hf; [done|].
      rewrite not_elem_of_cons. split; [|by apply IH]. intros Hc. apply list_elem_of_In in Hs. pose proof (find_none _ _ Hf s Hs) as Hn. cbn in Hn.
      by rewrite bool_decide_eq_true_2 in Hn.
  - unfold choose_ciphersuite_preferring_server. induction ss as [|s ss IH]; cbn [List.find]; [by intros s ?%elem_of_nil|].
    case_bool_decide as Hs.
    + split; [done|]. exists [], ss. split; [done|]. by intros ? ?%elem_of_nil.
    + destruct (List.find _ ss) as [x|].
      * destruct IH as (Hx & b & a & -> & Hb). split; [done|]. exists (s :: b), a. split; [done|]. intros y [->|Hy]%elem_of_cons; [done|by apply Hb].
      * intros y [->|Hy]%elem_of_cons; [done|by apply IH].
Qed.

(** The suites of the provider have one identifier each, and a suite fits its
    version. *)
Lemma suites_distinct : NoDup (map suite ALL_CIPHER_SUITES).
Proof. apply (bool_decide_unpack _). vm_compute. exact I. Qed.
