(* ===== verification/Errors.v ===== *)
(** * Errors of the TLS fork (orcax/rustls-fork/rustls/src/error.rs)

    The error values of the library; [InvalidMessage] is in Codec.v.  The labels
    of messages and the causes that are other libraries' errors are left out. *)
From S2P Require Import Prelude Codec TlsLayer Enums.

Module PeerMisbehaved.
Inductive t : Type :=
| AttemptedDowngradeToTls12WhenTls13IsSupported | BadCertChainExtensions | DisallowedEncryptedExtension
| DuplicateClientHelloExtensions | DuplicateEncryptedExtensions | DuplicateHelloRetryRequestExtensions
| DuplicateNewSessionTicketExtensions | DuplicateServerHelloExtensions | DuplicateServerNameTypes
| EarlyDataAttemptedInSecondClientHello | EarlyDataExtensionWithoutResumption | EarlyDataOfferedWithVariedCipherSuite
| HandshakeHashVariedAfterRetry | IllegalHelloRetryRequestWithEmptyCookie | IllegalHelloRetryRequestWithNoChanges
| IllegalHelloRetryRequestWithOfferedGroup | IllegalHelloRetryRequestWithUnofferedCipherSuite
| IllegalHelloRetryRequestWithUnofferedNamedGroup | IllegalHelloRetryRequestWithUnsupportedVersion
| IllegalHelloRetryRequestWithWrongSessionId | IllegalMiddleboxChangeCipherSpec | IllegalTlsInnerPlaintext
| IncorrectBinder | InvalidMaxEarlyDataSize | InvalidKeyShare | KeyEpochWithPendingFragment
| KeyUpdateReceivedInQuicConnection | MessageInterleavedWithHandshakeMessage | MissingBinderInPskExtension
| MissingKeyShare | MissingPskModesExtension | MissingQuicTransportParameters | OfferedDuplicateKeyShares
| OfferedEarlyDataWithOldProtocolVersion | OfferedEmptyApplicationProtocol | OfferedIncorrectCompressions
| PskExtensionMustBeLast | PskExtensionWithMismatchedIdsAndBinders | RefusedToFollowHelloRetryRequest
| RejectedEarlyDataInterleavedWithHandshakeMessage | ResumptionAttemptedWithVariedEms
| ResumptionOfferedWithVariedCipherSuite | ResumptionOfferedWithVariedEms
| ResumptionOfferedWithIncompatibleCipherSuite | SelectedDifferentCipherSuiteAfterRetry | SelectedInvalidPsk
| SelectedTls12UsingTls13VersionExtension | SelectedUnofferedApplicationProtocol | SelectedUnofferedCipherSuite
| SelectedUnofferedCompression | SelectedUnofferedKxGroup | SelectedUnofferedPsk
| SelectedUnusableCipherSuiteForVersion | ServerHelloMustOfferUncompressedEcPoints | ServerNameDifferedOnRetry
| ServerNameMustContainOneHostName | SignedKxWithWrongAlgorithm | SignedHandshakeWithUnadvertisedSigScheme
| TooMuchEarlyDataReceived | UnexpectedCleartextExtension | UnsolicitedCertExtension | UnsolicitedEncryptedExtension
| UnsolicitedSctList | UnsolicitedServerHelloExtension | WrongGroupForKeyShare.
End PeerMisbehaved.

Module PeerIncompatible.
Inductive t : Type :=
| EcPointsExtensionRequired | KeyShareExtensionRequired | NamedGroupsExtensionRequired
| NoCertificateRequestSignatureSchemesInCommon | NoCipherSuitesInCommon | NoEcPointFormatsInCommon | NoKxGroupsInCommon
| NoSignatureSchemesInCommon | NullCompressionRequired | ServerDoesNotSupportTls12Or13
| ServerSentHelloRetryRequestWithUnknownExtension | ServerTlsVersionIsDisabledByOurConfig
| SignatureAlgorithmsExtensionRequired | SupportedVersionsExtensionRequired | Tls12NotOffered
| Tls12NotOfferedOrEnabled | Tls13RequiredForQuic | UncompressedEcPointsRequired.
End PeerIncompatible.

Module CertificateError.
Inductive t : Type :=
| BadEncoding | Expired | NotValidYet | Revoked | UnhandledCriticalExtension | UnknownIssuer | UnknownRevocationStatus
| BadSignature | NotValidForName | InvalidPurpose | ApplicationVerificationFailure | Other.
Definition eq (x y : t) : bool :=
  match x, y with
  | BadEncoding, BadEncoding | Expired, Expired | NotValidYet, NotValidYet | Revoked, Revoked
  | UnhandledCriticalExtension, UnhandledCriticalExtension | UnknownIssuer, UnknownIssuer | BadSignature, BadSignature
  | NotValidForName, NotValidForName | InvalidPurpose, InvalidPurpose
  | ApplicationVerificationFailure, ApplicationVerificationFailure => true
  | _, _ => false
  end.
(** [From<CertificateError> for AlertDescription]. *)
Definition alert (e : t) : AlertDescription.name :=
  match e with
  | BadEncoding | UnhandledCriticalExtension | NotValidForName => AlertDescription.BadCertificate
  | Expired | NotValidYet => AlertDescription.CertificateExpired
  | Revoked => AlertDescription.CertificateRevoked
  | UnknownIssuer | UnknownRevocationStatus => AlertDescription.UnknownCA
  | BadSignature => AlertDescription.DecryptError
  | InvalidPurpose => AlertDescription.UnsupportedCertificate
  | ApplicationVerificationFailure => AlertDescription.AccessDenied
  | Other => AlertDescription.CertificateUnknown
  end.
End CertificateError.

Module CertRevocationListError.
Inductive t : Type :=
| BadSignature | InvalidCrlNumber | InvalidRevokedCertSerialNumber | IssuerInvalidForCrl | Other | ParseError
| UnsupportedCrlVersion | UnsupportedCriticalExtension | UnsupportedDeltaCrl | UnsupportedIndirectCrl
| UnsupportedRevocationReason.
Definition eq (x y : t) : bool :=
  match x, y with
  | BadSignature, BadSignature | InvalidCrlNumber, InvalidCrlNumber
  | InvalidRevokedCertSerialNumber, InvalidRevokedCertSerialNumber | IssuerInvalidForCrl, IssuerInvalidForCrl
  | ParseError, ParseError | UnsupportedCrlVersion, UnsupportedCrlVersion
  | UnsupportedCriticalExtension, UnsupportedCriticalExtension | UnsupportedDeltaCrl, UnsupportedDeltaCrl
  | UnsupportedIndirectCrl, UnsupportedIndirectCrl | UnsupportedRevocationReason, UnsupportedRevocationReason => true
  | _, _ => false
  end.
End CertRevocationListError.

Module Error.
Inductive t : Type :=
| InappropriateMessage (expect_types : list ContentType) (got_type : ContentType)
| InappropriateHandshakeMessage (expect_types : list HandshakeType.t) (got_type : HandshakeType.t)
| InvalidMessage (e : Codec.InvalidMessage)
| NoCertificatesPresented
| UnsupportedNameType
| DecryptError
| EncryptError
| PeerIncompatible (e : PeerIncompatible.t)
| PeerMisbehaved (e : PeerMisbehaved.t)
| AlertReceived (description : Z)
| InvalidCertificate (e : CertificateError.t)
| InvalidCertRevocationList (e : CertRevocationListError.t)
| General
| FailedToGetCurrentTime
| FailedToGetRandomBytes
| HandshakeNotComplete
| PeerSentOversizedRecord
| NoApplicationProtocol
| BadMaxFragmentSize
| Other.
End Error.

(** The errors of the record layer are a part of these. *)
Definition of_tls_error (e : tls_error) : Error.t :=
  match e with
  | PeerSentOversizedRecord => Error.PeerSentOversizedRecord
  | IllegalTlsInnerPlaintext => Error.PeerMisbehaved PeerMisbehaved.IllegalTlsInnerPlaintext
  | BadMaxFragmentSize => Error.BadMaxFragmentSize
  | DecryptError => Error.DecryptError
  | EncryptError => Error.EncryptError
  end.

(** Comparing certificate errors is reflexive except for errors of other
    libraries and for an unknown revocation status. *)
Theorem certificate_error_eq_refl e :
  CertificateError.eq e e = negb (match e with CertificateError.Other | CertificateError.UnknownRevocationStatus => true | _ => false end).
Proof. by destruct e. Qed.
