(* ===== verification/Common.v ===== *)
(** * The state both ends share (orcax/rustls-fork/rustls/src/common_state.rs)

    [CommonState] with its operations: what is sent, fragmented, encrypted and
    queued, how plaintext waits for the end of the handshake, key updates,
    alerts.  The code of the handshake runs in the monad [Cm], a state with the
    three outcomes of Rust code. *)
From S2P Require Import Prelude Codec TlsLayer VecBuf Enums Wire Messages Payloads Ciphers Suites Errors.

Inductive Side : Type := Client | Server.
#[export] Instance Side_eq_dec : EqDecision Side.
Proof. solve_decision. Defined.
Definition peer (x : Side) : Side := match x with Client => Server | Server => Client end.

(** ** QUIC (quic.rs [Quic], [Secrets], [Version]) *)

Inductive QuicVersion : Type := V1Draft | V1 | V2.
Record QuicSecrets : Type := {
  q_client : bytes; q_server : bytes; q_suite : Tls13CipherSuite; q_side : Side; q_secrets_version : QuicVersion
}.
Record QuicState : Type := {
  q_params : option bytes;
  q_alert : option Z;
  q_hs_queue : list (bool * bytes);
  q_early_secret : option bytes;
  q_hs_secrets : option QuicSecrets;
  q_traffic_secrets : option QuicSecrets;
  q_returned_traffic_keys : bool;
  q_version : QuicVersion
}.
Definition set_q_alert (x : option Z) (s : QuicState) : QuicState :=
  {| q_params := q_params s; q_alert := x; q_hs_queue := q_hs_queue s; q_early_secret := q_early_secret s; q_hs_secrets := q_hs_secrets s;
    q_traffic_secrets := q_traffic_secrets s; q_returned_traffic_keys := q_returned_traffic_keys s; q_version := q_version s |}.
Definition set_q_hs_queue (x : list (bool * bytes)) (s : QuicState) : QuicState :=
  {| q_params := q_params s; q_alert := q_alert s; q_hs_queue := x; q_early_secret := q_early_secret s; q_hs_secrets := q_hs_secrets s;
    q_traffic_secrets := q_traffic_secrets s; q_returned_traffic_keys := q_returned_traffic_keys s; q_version := q_version s |}.
Definition set_q_early_secret (x : option bytes) (s : QuicState) : QuicState :=
  {| q_params := q_params s; q_alert := q_alert s; q_hs_queue := q_hs_queue s; q_early_secret := x; q_hs_secrets := q_hs_secrets s; q_traffic_secrets
    := q_traffic_secrets s; q_returned_traffic_keys := q_returned_traffic_keys s; q_version := q_version s |}.
Definition set_q_hs_secrets (x : option QuicSecrets) (s : QuicState) : QuicState :=
  {| q_params := q_params s; q_alert := q_alert s; q_hs_queue := q_hs_queue s; q_early_secret := q_early_secret s; q_hs_secrets := x;
    q_traffic_secrets := q_traffic_secrets s; q_returned_traffic_keys := q_returned_traffic_keys s; q_version := q_version s |}.
Definition set_q_traffic_secrets (x : option QuicSecrets) (s : QuicState) : QuicState :=
  {| q_params := q_params s; q_alert := q_alert s; q_hs_queue := q_hs_queue s; q_early_secret := q_early_secret s; q_hs_secrets := q_hs_secrets s;
    q_traffic_secrets := x; q_returned_traffic_keys := q_returned_traffic_keys s; q_version := q_version s |}.
Definition default_quic : QuicState :=
  {| q_params := None; q_alert := None; q_hs_queue := []; q_early_secret := None; q_hs_secrets := None; q_traffic_secrets := None;
     q_returned_traffic_keys := false; q_version := V1 |}.

Module CommonState.
Section common.
Context {K : Type} {C : Cipher K} `{DnsNames}.

Record CommonState : Type := {
  negotiated_version : option ProtocolVersion;
  side : Side;
  record_layer : RecordLayer (K:=K);
  suite : option SupportedCipherSuite;
  alpn_protocol : option bytes;
  aligned_handshake : bool;
  may_send_application_data : bool;
  may_receive_application_data : bool;
  early_traffic : bool;
  sent_fatal_alert : bool;
  has_received_close_notify : bool;
  has_seen_eof : bool;
  received_middlebox_ccs : Z;
  peer_certificates : option (list bytes);
  message_fragmenter : MessageFragmenter;
  received_plaintext : ChunkVecBuffer;
  sendable_plaintext : ChunkVecBuffer;
  sendable_tls : ChunkVecBuffer;
  queued_key_update_message : option bytes;
  protocol : Protocol;
  quic : QuicState;
  enable_secret_extraction : bool
}.
Definition set_record_layer (x : RecordLayer (K:=K)) (s : CommonState) : CommonState :=
  {| negotiated_version := negotiated_version s; side := side s; record_layer := x; suite := suite s; alpn_protocol := alpn_protocol s;
    aligned_handshake := aligned_handshake s; may_send_application_data := may_send_application_data s; may_receive_application_data :=
    may_receive_application_data s; early_traffic := early_traffic s; sent_fatal_alert := sent_fatal_alert s; has_received_close_notify :=
    has_received_close_notify s; has_seen_eof := has_seen_eof s; received_middlebox_ccs := received_middlebox_ccs s; peer_certificates :=
    peer_certificates s; message_fragmenter := message_fragmenter s; received_plaintext := received_plaintext s; sendable_plaintext :=
    sendable_plaintext s; sendable_tls := sendable_tls s; queued_key_update_message := queued_key_update_message s; protocol := protocol s; quic :=
    quic s; enable_secret_extraction := enable_secret_extraction s |}.
Definition set_suite (x : option SupportedCipherSuite) (s : CommonState) : CommonState :=
  {| negotiated_version := negotiated_version s; side := side s; record_layer := record_layer s; suite := x; alpn_protocol := alpn_protocol s;
    aligned_handshake := aligned_handshake s; may_send_application_data := may_send_application_data s; may_receive_application_data :=
    may_receive_application_data s; early_traffic := early_traffic s; sent_fatal_alert := sent_fatal_alert s; has_received_close_notify :=
    has_received_close_notify s; has_seen_eof := has_seen_eof s; received_middlebox_ccs := received_middlebox_ccs s; peer_certificates :=
    peer_certificates s; message_fragmenter := message_fragmenter s; received_plaintext := received_plaintext s; sendable_plaintext :=
    sendable_plaintext s; sendable_tls := sendable_tls s; queued_key_update_message := queued_key_update_message s; protocol := protocol s; quic :=
    quic s; enable_secret_extraction := enable_secret_extraction s |}.
Definition set_alpn_protocol (x : option bytes) (s : CommonState) : CommonState :=
  {| negotiated_version := negotiated_version s; side := side s; record_layer := record_layer s; suite := suite s; alpn_protocol := x;
    aligned_handshake := aligned_handshake s; may_send_application_data := may_send_application_data s; may_receive_application_data :=
    may_receive_application_data s; early_traffic := early_traffic s; sent_fatal_alert := sent_fatal_alert s; has_received_close_notify :=
    has_received_close_notify s; has_seen_eof := has_seen_eof s; received_middlebox_ccs := received_middlebox_ccs s; peer_certificates :=
    peer_certificates s; message_fragmenter := message_fragmenter s; received_plaintext := received_plaintext s; sendable_plaintext :=
    sendable_plaintext s; sendable_tls := sendable_tls s; queued_key_update_message := queued_key_update_message s; protocol := protocol s; quic :=
    quic s; enable_secret_extraction := enable_secret_extraction s |}.
Definition set_negotiated_version (x : option ProtocolVersion) (s : CommonState) : CommonState :=
  {| negotiated_version := x; side := side s; record_layer := record_layer s; suite := suite s; alpn_protocol := alpn_protocol s; aligned_handshake :=
    aligned_handshake s; may_send_application_data := may_send_application_data s; may_receive_application_data := may_receive_application_data s;
    early_traffic := early_traffic s; sent_fatal_alert := sent_fatal_alert s; has_received_close_notify := has_received_close_notify s; has_seen_eof
    := has_seen_eof s; received_middlebox_ccs := received_middlebox_ccs s; peer_certificates := peer_certificates s; message_fragmenter :=
    message_fragmenter s; received_plaintext := received_plaintext s; sendable_plaintext := sendable_plaintext s; sendable_tls := sendable_tls s;
    queued_key_update_message := queued_key_update_message s; protocol := protocol s; quic := quic s; enable_secret_extraction :=
    enable_secret_extraction s |}.
Definition set_aligned_handshake (x : bool) (s : CommonState) : CommonState :=
  {| negotiated_version := negotiated_version s; side := side s; record_layer := record_layer s; suite := suite s; alpn_protocol := alpn_protocol s;
    aligned_handshake := x; may_send_application_data := may_send_application_data s; may_receive_application_data := may_receive_application_data s;
    early_traffic := early_traffic s; sent_fatal_alert := sent_fatal_alert s; has_received_close_notify := has_received_close_notify s; has_seen_eof
    := has_seen_eof s; received_middlebox_ccs := received_middlebox_ccs s; peer_certificates := peer_certificates s; message_fragmenter :=
    message_fragmenter s; received_plaintext := received_plaintext s; sendable_plaintext := sendable_plaintext s; sendable_tls := sendable_tls s;
    queued_key_update_message := queued_key_update_message s; protocol := protocol s; quic := quic s; enable_secret_extraction :=
    enable_secret_extraction s |}.
Definition set_may_send_application_data (x : bool) (s : CommonState) : CommonState :=
  {| negotiated_version := negotiated_version s; side := side s; record_layer := record_layer s; suite := suite s; alpn_protocol := alpn_protocol s;
    aligned_handshake := aligned_handshake s; may_send_application_data := x; may_receive_application_data := may_receive_application_data s;
    early_traffic := early_traffic s; sent_fatal_alert := sent_fatal_alert s; has_received_close_notify := has_received_close_notify s; has_seen_eof
    := has_seen_eof s; received_middlebox_ccs := received_middlebox_ccs s; peer_certificates := peer_certificates s; message_fragmenter :=
    message_fragmenter s; received_plaintext := received_plaintext s; sendable_plaintext := sendable_plaintext s; sendable_tls := sendable_tls s;
    queued_key_update_message := queued_key_update_message s; protocol := protocol s; quic := quic s; enable_secret_extraction :=
    enable_secret_extraction s |}.
Definition set_may_receive_application_data (x : bool) (s : CommonState) : CommonState :=
  {| negotiated_version := negotiated_version s; side := side s; record_layer := record_layer s; suite := suite s; alpn_protocol := alpn_protocol s;
    aligned_handshake := aligned_handshake s; may_send_application_data := may_send_application_data s; may_receive_application_data := x;
    early_traffic := early_traffic s; sent_fatal_alert := sent_fatal_alert s; has_received_close_notify := has_received_close_notify s; has_seen_eof
    := has_seen_eof s; received_middlebox_ccs := received_middlebox_ccs s; peer_certificates := peer_certificates s; message_fragmenter :=
    message_fragmenter s; received_plaintext := received_plaintext s; sendable_plaintext := sendable_plaintext s; sendable_tls := sendable_tls s;
    queued_key_update_message := queued_key_update_message s; protocol := protocol s; quic := quic s; enable_secret_extraction :=
    enable_secret_extraction s |}.
Definition set_early_traffic (x : bool) (s : CommonState) : CommonState :=
  {| negotiated_version := negotiated_version s; side := side s; record_layer := record_layer s; suite := suite s; alpn_protocol := alpn_protocol s;
    aligned_handshake := aligned_handshake s; may_send_application_data := may_send_application_data s; may_receive_application_data :=
    may_receive_application_data s; early_traffic := x; sent_fatal_alert := sent_fatal_alert s; has_received_close_notify := has_received_close_notify
    s; has_seen_eof := has_seen_eof s; received_middlebox_ccs := received_middlebox_ccs s; peer_certificates := peer_certificates s;
    message_fragmenter := message_fragmenter s; received_plaintext := received_plaintext s; sendable_plaintext := sendable_plaintext s; sendable_tls
    := sendable_tls s; queued_key_update_message := queued_key_update_message s; protocol := protocol s; quic := quic s; enable_secret_extraction :=
    enable_secret_extraction s |}.
Definition set_sent_fatal_alert (x : bool) (s : CommonState) : CommonState :=
  {| negotiated_version := negotiated_version s; side := side s; record_layer := record_layer s; suite := suite s; alpn_protocol := alpn_protocol s;
    aligned_handshake := aligned_handshake s; may_send_application_data := may_send_application_data s; may_receive_application_data :=
    may_receive_application_data s; early_traffic := early_traffic s; sent_fatal_alert := x; has_received_close_notify := has_received_close_notify s;
    has_seen_eof := has_seen_eof s; received_middlebox_ccs := received_middlebox_ccs s; peer_certificates := peer_certificates s; message_fragmenter
    := message_fragmenter s; received_plaintext := received_plaintext s; sendable_plaintext := sendable_plaintext s; sendable_tls := sendable_tls s;
    queued_key_update_message := queued_key_update_message s; protocol := protocol s; quic := quic s; enable_secret_extraction :=
    enable_secret_extraction s |}.
Definition set_has_received_close_notify (x : bool) (s : CommonState) : CommonState :=
  {| negotiated_version := negotiated_version s; side := side s; record_layer := record_layer s; suite := suite s; alpn_protocol := alpn_protocol s;
    aligned_handshake := aligned_handshake s; may_send_application_data := may_send_application_data s; may_receive_application_data :=
    may_receive_application_data s; early_traffic := early_traffic s; sent_fatal_alert := sent_fatal_alert s; has_received_close_notify := x;
    has_seen_eof := has_seen_eof s; received_middlebox_ccs := received_middlebox_ccs s; peer_certificates := peer_certificates s; message_fragmenter
    := message_fragmenter s; received_plaintext := received_plaintext s; sendable_plaintext := sendable_plaintext s; sendable_tls := sendable_tls s;
    queued_key_update_message := queued_key_update_message s; protocol := protocol s; quic := quic s; enable_secret_extraction :=
    enable_secret_extraction s |}.
Definition set_has_seen_eof (x : bool) (s : CommonState) : CommonState :=
  {| negotiated_version := negotiated_version s; side := side s; record_layer := record_layer s; suite := suite s; alpn_protocol := alpn_protocol s;
    aligned_handshake := aligned_handshake s; may_send_application_data := may_send_application_data s; may_receive_application_data :=
    may_receive_application_data s; early_traffic := early_traffic s; sent_fatal_alert := sent_fatal_alert s; has_received_close_notify :=
    has_received_close_notify s; has_seen_eof := x; received_middlebox_ccs := received_middlebox_ccs s; peer_certificates := peer_certificates s;
    message_fragmenter := message_fragmenter s; received_plaintext := received_plaintext s; sendable_plaintext := sendable_plaintext s; sendable_tls
    := sendable_tls s; queued_key_update_message := queued_key_update_message s; protocol := protocol s; quic := quic s; enable_secret_extraction :=
    enable_secret_extraction s |}.
Definition set_received_middlebox_ccs (x : Z) (s : CommonState) : CommonState :=
  {| negotiated_version := negotiated_version s; side := side s; record_layer := record_layer s; suite := suite s; alpn_protocol := alpn_protocol s;
    aligned_handshake := aligned_handshake s; may_send_application_data := may_send_application_data s; may_receive_application_data :=
    may_receive_application_data s; early_traffic := early_traffic s; sent_fatal_alert := sent_fatal_alert s; has_received_close_notify :=
    has_received_close_notify s; has_seen_eof := has_seen_eof s; received_middlebox_ccs := x; peer_certificates := peer_certificates s;
    message_fragmenter := message_fragmenter s; received_plaintext := received_plaintext s; sendable_plaintext := sendable_plaintext s; sendable_tls
    := sendable_tls s; queued_key_update_message := queued_key_update_message s; protocol := protocol s; quic := quic s; enable_secret_extraction :=
    enable_secret_extraction s |}.
Definition set_peer_certificates (x : option (list bytes)) (s : CommonState) : CommonState :=
  {| negotiated_version := negotiated_version s; side := side s; record_layer := record_layer s; suite := suite s; alpn_protocol := alpn_protocol s;
    aligned_handshake := aligned_handshake s; may_send_application_data := may_send_application_data s; may_receive_application_data :=
    may_receive_application_data s; early_traffic := early_traffic s; sent_fatal_alert := sent_fatal_alert s; has_received_close_notify :=
    has_received_close_notify s; has_seen_eof := has_seen_eof s; received_middlebox_ccs := received_middlebox_ccs s; peer_certificates := x;
    message_fragmenter := message_fragmenter s; received_plaintext := received_plaintext s; sendable_plaintext := sendable_plaintext s; sendable_tls
    := sendable_tls s; queued_key_update_message := queued_key_update_message s; protocol := protocol s; quic := quic s; enable_secret_extraction :=
    enable_secret_extraction s |}.
Definition set_message_fragmenter (x : MessageFragmenter) (s : CommonState) : CommonState :=
  {| negotiated_version := negotiated_version s; side := side s; record_layer := record_layer s; suite := suite s; alpn_protocol := alpn_protocol s;
    aligned_handshake := aligned_handshake s; may_send_application_data := may_send_application_data s; may_receive_application_data :=
    may_receive_application_data s; early_traffic := early_traffic s; sent_fatal_alert := sent_fatal_alert s; has_received_close_notify :=
    has_received_close_notify s; has_seen_eof := has_seen_eof s; received_middlebox_ccs := received_middlebox_ccs s; peer_certificates :=
    peer_certificates s; message_fragmenter := x; received_plaintext := received_plaintext s; sendable_plaintext := sendable_plaintext s; sendable_tls
    := sendable_tls s; queued_key_update_message := queued_key_update_message s; protocol := protocol s; quic := quic s; enable_secret_extraction :=
    enable_secret_extraction s |}.
Definition set_received_plaintext (x : ChunkVecBuffer) (s : CommonState) : CommonState :=
  {| negotiated_version := negotiated_version s; side := side s; record_layer := record_layer s; suite := suite s; alpn_protocol := alpn_protocol s;
    aligned_handshake := aligned_handshake s; may_send_application_data := may_send_application_data s; may_receive_application_data :=
    may_receive_application_data s; early_traffic := early_traffic s; sent_fatal_alert := sent_fatal_alert s; has_received_close_notify :=
    has_received_close_notify s; has_seen_eof := has_seen_eof s; received_middlebox_ccs := received_middlebox_ccs s; peer_certificates :=
    peer_certificates s; message_fragmenter := message_fragmenter s; received_plaintext := x; sendable_plaintext := sendable_plaintext s; sendable_tls
    := sendable_tls s; queued_key_update_message := queued_key_update_message s; protocol := protocol s; quic := quic s; enable_secret_extraction :=
    enable_secret_extraction s |}.
Definition set_sendable_plaintext (x : ChunkVecBuffer) (s : CommonState) : CommonState :=
  {| negotiated_version := negotiated_version s; side := side s; record_layer := record_layer s; suite := suite s; alpn_protocol := alpn_protocol s;
    aligned_handshake := aligned_handshake s; may_send_application_data := may_send_application_data s; may_receive_application_data :=
    may_receive_application_data s; early_traffic := early_traffic s; sent_fatal_alert := sent_fatal_alert s; has_received_close_notify :=
    has_received_close_notify s; has_seen_eof := has_seen_eof s; received_middlebox_ccs := received_middlebox_ccs s; peer_certificates :=
    peer_certificates s; message_fragmenter := message_fragmenter s; received_plaintext := received_plaintext s; sendable_plaintext := x; sendable_tls
    := sendable_tls s; queued_key_update_message := queued_key_update_message s; protocol := protocol s; quic := quic s; enable_secret_extraction :=
    enable_secret_extraction s |}.
Definition set_sendable_tls (x : ChunkVecBuffer) (s : CommonState) : CommonState :=
  {| negotiated_version := negotiated_version s; side := side s; record_layer := record_layer s; suite := suite s; alpn_protocol := alpn_protocol s;
    aligned_handshake := aligned_handshake s; may_send_application_data := may_send_application_data s; may_receive_application_data :=
    may_receive_application_data s; early_traffic := early_traffic s; sent_fatal_alert := sent_fatal_alert s; has_received_close_notify :=
    has_received_close_notify s; has_seen_eof := has_seen_eof s; received_middlebox_ccs := received_middlebox_ccs s; peer_certificates :=
    peer_certificates s; message_fragmenter := message_fragmenter s; received_plaintext := received_plaintext s; sendable_plaintext :=
    sendable_plaintext s; sendable_tls := x; queued_key_update_message := queued_key_update_message s; protocol := protocol s; quic := quic s;
    enable_secret_extraction := enable_secret_extraction s |}.
Definition set_queued_key_update_message (x : option bytes) (s : CommonState) : CommonState :=
  {| negotiated_version := negotiated_version s; side := side s; record_layer := record_layer s; suite := suite s; alpn_protocol := alpn_protocol s;
    aligned_handshake := aligned_handshake s; may_send_application_data := may_send_application_data s; may_receive_application_data :=
    may_receive_application_data s; early_traffic := early_traffic s; sent_fatal_alert := sent_fatal_alert s; has_received_close_notify :=
    has_received_close_notify s; has_seen_eof := has_seen_eof s; received_middlebox_ccs := received_middlebox_ccs s; peer_certificates :=
    peer_certificates s; message_fragmenter := message_fragmenter s; received_plaintext := received_plaintext s; sendable_plaintext :=
    sendable_plaintext s; sendable_tls := sendable_tls s; queued_key_update_message := x; protocol := protocol s; quic := quic s;
    enable_secret_extraction := enable_secret_extraction s |}.
Definition set_protocol (x : Protocol) (s : CommonState) : CommonState :=
  {| negotiated_version := negotiated_version s; side := side s; record_layer := record_layer s; suite := suite s; alpn_protocol := alpn_protocol s;
    aligned_handshake := aligned_handshake s; may_send_application_data := may_send_application_data s; may_receive_application_data :=
    may_receive_application_data s; early_traffic := early_traffic s; sent_fatal_alert := sent_fatal_alert s; has_received_close_notify :=
    has_received_close_notify s; has_seen_eof := has_seen_eof s; received_middlebox_ccs := received_middlebox_ccs s; peer_certificates :=
    peer_certificates s; message_fragmenter := message_fragmenter s; received_plaintext := received_plaintext s; sendable_plaintext :=
    sendable_plaintext s; sendable_tls := sendable_tls s; queued_key_update_message := queued_key_update_message s; protocol := x; quic := quic s;
    enable_secret_extraction := enable_secret_extraction s |}.
Definition set_quic (x : QuicState) (s : CommonState) : CommonState :=
  {| negotiated_version := negotiated_version s; side := side s; record_layer := record_layer s; suite := suite s; alpn_protocol := alpn_protocol s;
    aligned_handshake := aligned_handshake s; may_send_application_data := may_send_application_data s; may_receive_application_data :=
    may_receive_application_data s; early_traffic := early_traffic s; sent_fatal_alert := sent_fatal_alert s; has_received_close_notify :=
    has_received_close_notify s; has_seen_eof := has_seen_eof s; received_middlebox_ccs := received_middlebox_ccs s; peer_certificates :=
    peer_certificates s; message_fragmenter := message_fragmenter s; received_plaintext := received_plaintext s; sendable_plaintext :=
    sendable_plaintext s; sendable_tls := sendable_tls s; queued_key_update_message := queued_key_update_message s; protocol := protocol s; quic := x;
    enable_secret_extraction := enable_secret_extraction s |}.

(** ** The monad of the connection state *)

Definition Cm (A : Type) : Type := CommonState -> result Error.t A * CommonState.
#[export] Instance Cm_ret : MRet Cm := fun A x s => (Ok x, s).
#[export] Instance Cm_bind : MBind Cm := fun A B f m s =>
  match m s with
  | (Ok x, s') => f x s'
  | (Err e, s') => (Err e, s')
  | (Panic, s') => (Panic, s')
  end.
Definition gets {A} (f : CommonState -> A) : Cm A := fun s => (Ok (f s), s).
Definition modify (f : CommonState -> CommonState) : Cm unit := fun s => (Ok tt, f s).
Definition fail {A} (e : Error.t) : Cm A := fun s => (Err e, s).
Definition panic {A} : Cm A := fun s => (Panic, s).
Definition lift {E A} (f : E -> Error.t) (r : result E A) : Cm A := fun s => (map_err f r, s).
Fixpoint each {X} (f : X -> Cm unit) (l : list X) : Cm unit :=
  match l with [] => mret tt | x :: l' => _ ← f x; each f l' end.

(** ** Construction and queries *)

Definition DEFAULT_RECEIVED_PLAINTEXT_LIMIT : nat := Z.to_nat (16 * 1024).
Definition DEFAULT_BUFFER_LIMIT : nat := Z.to_nat (64 * 1024).
Definition new (sd : Side) : CommonState :=
  {| negotiated_version := None; side := sd; record_layer := new_layer; suite := None; alpn_protocol := None; aligned_handshake := true;
     may_send_application_data := false; may_receive_application_data := false; early_traffic := false; sent_fatal_alert := false;
     has_received_close_notify := false; has_seen_eof := false; received_middlebox_ccs := 0; peer_certificates := None;
     message_fragmenter := default_fragmenter; received_plaintext := new_buffer (Some DEFAULT_RECEIVED_PLAINTEXT_LIMIT);
     sendable_plaintext := new_buffer (Some DEFAULT_BUFFER_LIMIT); sendable_tls := new_buffer (Some DEFAULT_BUFFER_LIMIT);
     queued_key_update_message := None; protocol := Tcp; quic := default_quic; enable_secret_extraction := false |}.
Definition wants_write (s : CommonState) : bool := negb (is_empty (sendable_tls s)).
Definition is_handshaking (s : CommonState) : bool := negb (may_send_application_data s && may_receive_application_data s).
Definition is_tls13 (s : CommonState) : bool := bool_decide (negotiated_version s = Some (Known TLSv1_3)).
Definition is_quic (s : CommonState) : bool := bool_decide (protocol s = Quic).
Definition wants_read (s : CommonState) : bool :=
  is_empty (received_plaintext s) && negb (has_received_close_notify s) && (may_send_application_data s || is_empty (sendable_tls s)).
Definition set_buffer_limit (limit : option nat) (s : CommonState) : CommonState :=
  set_sendable_tls (set_limit limit (sendable_tls s)) (set_sendable_plaintext (set_limit limit (sendable_plaintext s)) s).
Record IoState : Type := { tls_bytes_to_write : nat; plaintext_bytes_to_read : nat; peer_has_closed : bool }.
Definition current_io_state (s : CommonState) : IoState :=
  {| tls_bytes_to_write := len (sendable_tls s); plaintext_bytes_to_read := len (received_plaintext s); peer_has_closed := has_received_close_notify s |}.

(** ** Sending *)

Inductive Limit : Type := Yes | No.

(** [queue_tls_message], and the layer's [encrypt_outgoing] on the state. *)
Definition queue_tls_message (m : message) : Cm unit := modify (fun s => set_sendable_tls (append (opaque_encode m) (sendable_tls s)).2 s).
Definition encrypt (m : message) : Cm message := fun s =>
  let '(r, l) := encrypt_outgoing m (record_layer s) in (map_err of_tls_error r, set_record_layer l s).
(** What needs a message sent is given [send1], which sends one fragment. *)
Definition fragments (m : message) : Cm (list message) := fun s => (fragment_message (message_fragmenter s) m, s).
Definition send_msg_encrypt_with (send1 : message -> Cm unit) (m : message) : Cm unit := frags ← fragments m; each send1 frags.
Definition send_msg_with (send1 : message -> Cm unit) (m : Message.t) (must_encrypt : bool) : Cm unit :=
  q ← gets is_quic;
  if (q : bool) then
    match Message.payload m with
    | MessagePayload.Alert a => modify (fun s => set_quic (set_q_alert (Some (description a)) (quic s)) s)
    | p => modify (fun s => set_quic (set_q_hs_queue (q_hs_queue (quic s) ++ [(must_encrypt, MessagePayload.encode p [])]) (quic s)) s)
    end
  else if negb must_encrypt then frags ← fragments (Message.into_plain m); each queue_tls_message frags
  else send_msg_encrypt_with send1 (Message.into_plain m).
Definition send_warning_alert_with (send1 : message -> Cm unit) (desc : AlertDescription.name) : Cm unit :=
  enc ← gets (fun s => is_encrypting (record_layer s));
  send_msg_with send1 (Message.build_alert (Known Warning) (AlertDescription.code desc)) enc.

(** [send_single_fragment] sends a close_notify when the sequence numbers run
    out, which calls it again: the depth of the recursion is bounded by the
    stack, and running out of it aborts. *)
Fixpoint send_single_fragment (depth : nat) (m : message) : Cm unit :=
  match depth with
  | O => panic
  | S depth' =>
      close ← gets (fun s => wants_close_before_encrypt (record_layer s));
      _ ← (if (close : bool) then send_warning_alert_with (send_single_fragment depth') AlertDescription.CloseNotify else mret tt);
      exhausted ← gets (fun s => encrypt_exhausted (record_layer s));
      if (exhausted : bool) then mret tt else em ← encrypt m; queue_tls_message em
  end.
Definition STACK : nat := 2.
Definition send_msg_encrypt : message -> Cm unit := send_msg_encrypt_with (send_single_fragment STACK).
Definition send_msg : Message.t -> bool -> Cm unit := send_msg_with (send_single_fragment STACK).
Definition send_warning_alert : AlertDescription.name -> Cm unit := send_warning_alert_with (send_single_fragment STACK).
Definition send_close_notify : Cm unit := send_warning_alert AlertDescription.CloseNotify.
(** [return Err(self.send_fatal_alert(desc, err))]. *)
Definition send_fatal_alert {A} (desc : AlertDescription.name) (err : Error.t) : Cm A :=
  enc ← gets (fun s => is_encrypting (record_layer s));
  _ ← send_msg (Message.build_alert (Known Fatal) (AlertDescription.code desc)) enc;
  _ ← modify (set_sent_fatal_alert true);
  fail err.

Definition send_appdata_encrypt (p : bytes) (limit : Limit) : Cm nat :=
  n ← gets (fun s => match limit with Yes => apply_limit (sendable_tls s) (length p) | No => length p end);
  part ← lift id (slice p 0 n);
  frags ← fragments {| typ := Known ApplicationData; version := Known TLSv1_2; payload := part |};
  _ ← each (send_single_fragment STACK) frags;
  mret n.
(** Plaintext that has to wait for the end of the handshake. *)
Definition buffer_plaintext (data : bytes) (limit : Limit) : Cm nat := fun s =>
  match (match limit with Yes => append_limited_copy data (sendable_plaintext s) | No => Ok (append data (sendable_plaintext s)) end) with
  | Ok (n, b) => (Ok n, set_sendable_plaintext b s)
  | Err e => (Err e, s)
  | Panic => (Panic, s)
  end.
Definition send_plain (data : bytes) (limit : Limit) : Cm nat :=
  may ← gets may_send_application_data;
  if negb may then buffer_plaintext data limit
  else match data with [] => mret 0%nat | _ => send_appdata_encrypt data limit end.
Definition perhaps_write_key_update : Cm unit := modify (fun s =>
  match queued_key_update_message s with
  | Some m => set_sendable_tls (append m (sendable_tls s)).2 (set_queued_key_update_message None s)
  | None => s
  end).
Definition send_some_plaintext (data : bytes) : Cm nat := _ ← perhaps_write_key_update; send_plain data Yes.
Definition send_early_plaintext (data : bytes) : Cm nat := match data with [] => mret 0%nat | _ => send_appdata_encrypt data Yes end.

Definition pop_plaintext : Cm (option bytes) := fun s => let '(o, b) := pop (sendable_plaintext s) in (Ok o, set_sendable_plaintext b s).
(** [flush_plaintext]: as many turns as there are chunks, and one to find none. *)
Fixpoint flush_loop (fuel : nat) : Cm unit :=
  match fuel with
  | O => panic
  | S fuel' =>
      buf ← pop_plaintext;
      match buf with Some bs => _ ← send_plain bs No; flush_loop fuel' | None => mret tt end
  end.
Definition flush_plaintext : Cm unit := fun s =>
  if negb (may_send_application_data s) then (Ok tt, s) else flush_loop (S (length (chunks (sendable_plaintext s)))) s.
Definition start_outgoing_traffic : Cm unit := _ ← modify (set_may_send_application_data true); flush_plaintext.
Definition start_traffic : Cm unit := _ ← modify (set_may_receive_application_data true); start_outgoing_traffic.

Definition enqueue_key_update_notification : Cm unit :=
  em ← encrypt (Message.into_plain Message.build_key_update_notify);
  modify (set_queued_key_update_message (Some (opaque_encode em))).
Definition should_update_key (req : KeyUpdateRequest.t) : Cm bool :=
  match req with
  | Known KeyUpdateRequest.UpdateNotRequested => mret false
  | Known KeyUpdateRequest.UpdateRequested => gets (fun s => match queued_key_update_message s with None => true | _ => false end)
  | _ => send_fatal_alert AlertDescription.IllegalParameter (Error.InvalidMessage InvalidKeyUpdate)
  end.
Definition max_fragment_size (size : option nat) : Cm unit :=
  old ← gets message_fragmenter;
  f ← lift of_tls_error (set_max_fragment_size size old);
  modify (set_message_fragmenter f).

(** ** Receiving *)

Definition take_received_plaintext (bs : bytes) : Cm unit := modify (fun s => set_received_plaintext (append bs (received_plaintext s)).2 s).
Definition check_aligned_handshake : Cm unit :=
  aligned ← gets aligned_handshake;
  if negb aligned then send_fatal_alert AlertDescription.UnexpectedMessage (Error.PeerMisbehaved PeerMisbehaved.KeyEpochWithPendingFragment) else mret tt.
Definition missing_extension {A} (why : PeerMisbehaved.t) : Cm A := send_fatal_alert AlertDescription.MissingExtension (Error.PeerMisbehaved why).
Definition send_cert_verify_error_alert {A} (err : Error.t) : Cm A :=
  send_fatal_alert match err with
    | Error.InvalidCertificate e => CertificateError.alert e
    | Error.PeerMisbehaved _ => AlertDescription.IllegalParameter
    | _ => AlertDescription.HandshakeFailure
    end err.
Definition process_alert (alert : AlertMessagePayload) : Cm unit :=
  match level alert with
  | Unknown _ => send_fatal_alert AlertDescription.IllegalParameter (Error.AlertReceived (description alert))
  | Known lvl =>
      if description alert =? AlertDescription.code AlertDescription.CloseNotify then modify (set_has_received_close_notify true)
      else
        let err := Error.AlertReceived (description alert) in
        match lvl with
        | Warning =>
            tls13 ← gets is_tls13;
            if tls13 && negb (description alert =? AlertDescription.code AlertDescription.UserCanceled)
            then send_fatal_alert AlertDescription.DecodeError err
            else mret tt
        | Fatal => fail err
        end
  end.

(** An unexpected message is answered with an alert. *)
Definition handled {St} (m : Cm St) : Cm St := fun s =>
  match m s with
  | (Err (Error.InappropriateMessage _ _ as e), s') | (Err (Error.InappropriateHandshakeMessage _ _ as e), s') =>
      send_fatal_alert AlertDescription.UnexpectedMessage e s'
  | r => r
  end.
(** [State::handle]: it works on the data of its side and on the shared state, and
    what it did to them stays when it fails. *)
Definition Handler (St D : Type) : Type := St -> Message.t -> D -> CommonState -> D * (result Error.t St * CommonState).
(** [process_main_protocol]; the handler of the state is an argument. *)
Definition process_main_protocol {St D} (handle : Handler St D) (msg : Message.t) (state : St) (data : D) (s : CommonState) :
    D * (result Error.t St * CommonState) :=
  let reject_ty := match side s with Client => HandshakeType.HelloRequest | Server => HandshakeType.ClientHello end in
  if may_receive_application_data s && negb (is_tls13 s) && Message.is_handshake_type msg (Known reject_ty) then
    (data, (_ ← send_warning_alert AlertDescription.NoRenegotiation; mret state) s)
  else let '(data, r) := handle state msg data s in (data, handled (fun _ => r) s).
End common.
End CommonState.

(** ** A defect *)

Import CommonState.
Section soft_limit.
Context {K : Type} {C : Cipher K} `{DnsNames}.
(** At the soft limit of the sequence numbers an encrypting connection never
    comes back from sending: the close_notify meant to end it is itself sent
    through the check that sends it, so that no depth of the stack is enough. *)
Theorem soft_limit_recursion depth m s :
  protocol s = Tcp -> encrypt_state (record_layer s) = Active -> write_seq (record_layer s) = SEQ_SOFT_LIMIT ->
  (0 < max_frag (message_fragmenter s))%nat ->
  (send_single_fragment depth m s).1 = Panic.
Proof.
  intros Hp Ha Hs Hf. revert m. induction depth as [|depth IH]; intros m; [done|]. cbn [send_single_fragment].
  unfold mbind, Cm_bind, gets, wants_close_before_encrypt, send_warning_alert_with, mbind, Cm_bind, gets, is_encrypting. rewrite Hs, Z.eqb_refl.
  rewrite Ha, bool_decide_eq_true_2 by done. unfold send_msg_with, mbind, Cm_bind, gets, is_quic. rewrite Hp, bool_decide_eq_false_2 by done. cbn [negb].
  unfold send_msg_encrypt_with, mbind, Cm_bind, fragments, fragment_message, TlsLayer.chunks.
  rewrite (proj2 (Nat.eqb_neq _ _)) by lia.
  set (a := Message.into_plain _). assert (exists b p, payload a = b :: p) as (b & p & Ha') by (subst a; cbn; eauto).
  rewrite Ha'. cbn [chunks_fuel length mbind result_bind map each]. unfold mbind, Cm_bind. 
  match goal with |- context [send_single_fragment depth ?m' s] => specialize (IH m') end.
  destruct (send_single_fragment depth _ s) as [[x|e|] s']; cbn in IH; done.
Qed.

End soft_limit.
#[local] Instance no_server_names : DnsNames := {| dns_try_from _ := false |}.
Definition ex_limit : CommonState.CommonState (K:=cipher) :=
  CommonState.set_record_layer {| message_encrypter := Some (Tls13MessageEncrypter AES_128_GCM (replicate 16 1) (replicate 12 2)); message_decrypter := None; write_seq := SEQ_SOFT_LIMIT; read_seq := 0; has_decrypted := false;
    encrypt_state := Active; decrypt_state := Invalid; trial_decryption_len := None |} (CommonState.new Client).
Lemma soft_limit_recursion_witness :
  (send_single_fragment (C:=ring_cipher (A:=toy_ring)) 5 {| typ := Known ApplicationData; version := Known TLSv1_2; payload := [1] |} ex_limit).1 = Panic.
Proof. apply soft_limit_recursion; [reflexivity|reflexivity|reflexivity|apply Nat.ltb_lt; reflexivity]. Defined.
