(* ===== verification/CommonLaws.v ===== *)
(** * What the shared state sends (common_state.rs)

    The queue of outgoing bytes is the encryption, in order, of what was handed
    over: at once after the handshake, from the buffer when it ends.  Two
    defects of the send path are theorems as well. *)
From S2P Require Import Prelude Codec TlsLayer VecBuf Enums Wire Messages Payloads Ciphers Suites Errors Common.
Import CommonState.

(** ** The parts *)

Section send.
Context {K : Type} {C : Cipher K} `{DnsNames}.
Implicit Types (s : CommonState (K:=K)) (m : message).

Lemma opaque_encode_nonempty m : opaque_encode m <> [].
Proof. unfold opaque_encode. cbn. by destruct (payload m). Qed.
(** The outgoing queue and the layer of a state are replaced together. *)
Definition sent (cs : list message) (l : RecordLayer (K:=K)) s : CommonState :=
  set_sendable_tls {| chunks := chunks (sendable_tls s) ++ map opaque_encode cs; limit := limit (sendable_tls s) |} (set_record_layer l s).
Lemma sent_nil s : sent [] (record_layer s) s = s.
Proof. unfold sent. cbn [map]. rewrite app_nil_r. destruct s as [? ? ? ? ? ? ? ? ? ? ? ? ? ? ? ? ? []]. done. Qed.

Lemma queue_eq m s : queue_tls_message m s = (Ok tt, sent [m] (record_layer s) s).
Proof.
  unfold queue_tls_message, modify, append, sent. rewrite bool_decide_eq_false_2 by apply opaque_encode_nonempty. cbn [negb snd map]. by destruct s.
Qed.

(** Below the soft limit the depth of the recursion does not matter. *)
Lemma send_single_eq d m s :
  write_seq (record_layer s) <> SEQ_SOFT_LIMIT ->
  send_single_fragment (S d) m s =
  if encrypt_exhausted (record_layer s) then (Ok tt, s)
  else match encrypt_outgoing m (record_layer s) with
       | (Ok c, l) => (Ok tt, sent [c] l s)
       | (r, l) => (match r with Panic => Panic | Err e => Err (of_tls_error e) | Ok _ => Ok tt end, set_record_layer l s)
       end.
Proof.
  intros Hs. cbn [send_single_fragment]. unfold mbind, Cm_bind, gets, wants_close_before_encrypt. rewrite (proj2 (Z.eqb_neq _ _) Hs).
  unfold mret, Cm_ret. destruct (encrypt_exhausted (record_layer s)); [done|]. unfold encrypt.
  destruct (encrypt_outgoing m (record_layer s)) as [[c|e|] l]; cbn [map_err]; [|done|done]. rewrite queue_eq. by destruct s.
Qed.
Lemma encrypt_outgoing_seq m l c l' : encrypt_outgoing m l = (Ok c, l') -> write_seq l' = write_seq l + 1 /\ write_seq l < SEQ_HARD_LIMIT.
Proof.
  unfold encrypt_outgoing, encrypt_exhausted. destruct (Z.leb_spec SEQ_HARD_LIMIT (write_seq l)); [done|]. intros [= _ <-]. cbn. lia.
Qed.
Lemma send_fragments d ms cs s l :
  encrypt_all ms (record_layer s) = (Ok cs, l) -> write_seq (record_layer s) + Z.of_nat (length ms) <= SEQ_SOFT_LIMIT ->
  each (send_single_fragment (S d)) ms s = (Ok tt, sent cs l s).
Proof.
  revert cs s l. induction ms as [|m ms IH]; intros cs s l He Hl; cbn [encrypt_all each length] in *.
  - injection He as <- <-. by rewrite sent_nil.
  - destruct (encrypt_outgoing m (record_layer s)) as [[c|e|] l1] eqn:Hc; [|done|done].
    destruct (encrypt_all ms l1) as [[cs'|e|] l2] eqn:He'; [|done|done]. injection He as <- <-. apply encrypt_outgoing_seq in Hc as Hq.
    unfold mbind, Cm_bind. rewrite send_single_eq by lia. unfold encrypt_exhausted. rewrite (proj2 (Z.leb_gt _ _)) by lia. rewrite Hc.
    rewrite (IH cs' (sent [c] l1 s) l2 He'); [|cbn; lia]. unfold sent. cbn [map]. destruct s. cbn. by rewrite <- app_assoc.
Qed.

(** ** A defect *)

(** An alert overtakes the key update that makes it readable.  When the peer asks
    for new keys, the answer is encrypted under the old key and kept until the
    application writes; an alert sent before that is encrypted under the new key
    and leaves at once, and the answer stays behind. *)
Theorem alert_overtakes_key_update k2 s s1 c :
  protocol s = Tcp -> (2 <= max_frag (message_fragmenter s))%nat -> enqueue_key_update_notification s = (Ok tt, s1) ->
  cipher_encrypt k2 (Message.into_plain (Message.build_alert (Known Warning) (AlertDescription.code AlertDescription.CloseNotify))) 0 = Ok c ->
  let s2 := set_record_layer (set_message_encrypter k2 (record_layer s1)) s1 in
  exists s3 update, send_close_notify s2 = (Ok tt, s3) /\ queued_key_update_message s3 = Some update /\
    chunks (sendable_tls s3) = chunks (sendable_tls s) ++ [opaque_encode c].
Proof.
  intros Hp Hf He Hc s2. unfold enqueue_key_update_notification, mbind, Cm_bind, encrypt, modify in He.
  destruct (encrypt_outgoing _ (record_layer s)) as [[em|e|] l]; cbn [map_err] in He; [|done|done]. injection He as <-.
  set (alert := Message.into_plain _) in Hc. unfold send_close_notify, send_warning_alert, send_warning_alert_with, mbind, Cm_bind, gets.
  assert (is_encrypting (record_layer s2) = true) as -> by done.
  unfold send_msg_with, mbind, Cm_bind, gets, is_quic. assert (protocol s2 = Tcp) as -> by by destruct s. rewrite bool_decide_eq_false_2 by done. cbn [negb].
  unfold send_msg_encrypt_with, mbind, Cm_bind, fragments, fragment_message, TlsLayer.chunks. fold alert.
  assert (message_fragmenter s2 = message_fragmenter s) as -> by by destruct s. rewrite (proj2 (Nat.eqb_neq _ _)) by lia.
  assert (payload alert = [1; 0]) as Hpl by done. rewrite Hpl. cbn [length chunks_fuel]. rewrite take_ge, drop_ge by (cbn; lia). cbn [mbind result_bind map each].
  unfold mbind, Cm_bind. unfold STACK. rewrite send_single_eq by done. change (encrypt_exhausted (record_layer s2)) with false. cbn iota.
  unfold encrypt_outgoing. change (encrypt_exhausted (record_layer s2)) with false. cbn iota. unfold encrypt_with. cbn [message_encrypter record_layer s2].
  replace {| typ := typ alert; version := version alert; payload := [1; 0] |} with alert by done.
  cbn. cbn in Hc. rewrite Hc. eexists _, _. split; [done|]. by destruct s.
Qed.
End send.

(** ** Delivery *)

Section delivered.
Context {A : RingAead} {AL : RingAeadLaws A} `{DnsNames}.
Abbreviation state := (CommonState (K:=cipher)).
Implicit Types (s : state) (r l : RecordLayer (K:=cipher)).

(** A record of application data as it can be read from the wire. *)
Definition app_record (c : message) : Prop := wf_message c /\ typ c = Known ApplicationData.
Lemma encrypted_app ke kd p seq c : cipher_paired ke kd -> (length p <= MAX_FRAGMENT_LEN)%nat ->
  cipher_encrypt ke {| typ := Known ApplicationData; version := Known TLSv1_2; payload := p |} seq = Ok c -> app_record c.
Proof.
  intros Hp Hl. assert (Hwf : forall q, (length q <= MAX_FRAGMENT_LEN + 24)%nat -> app_record {| typ := Known ApplicationData; version := Known TLSv1_2; payload := q |}).
  { intros q Hq. split; [|done]. split_and!; cbn [typ version payload].
    - exists 0x17. split; [rewrite list_elem_of_In; cbn; auto|cbn; lia].
    - by eexists.
    - exists 0x0303. split; [rewrite list_elem_of_In; cbn; auto 10|cbn; lia].
    - done.
    - unfold zlen, MAX_PAYLOAD, MAX_FRAGMENT_LEN in *. lia.
    - done. }
  destruct ke as [a k iv|a k iv|a k iv|a k iv|k iv|k iv], kd; try done; cbn [cipher_paired] in Hp; destruct_and!; cbn [cipher_encrypt ring_cipher].
  - unfold tls13_encrypt. cbn [typ version payload]. set (q := p ++ get_encoding (H:=type_codec) (Known ApplicationData)).
    assert (length q = S (length p)) as Hq by (unfold q; rewrite length_app; cbn; lia).
    match goal with |- context [ring_seal a k ?n ?ad q] => destruct (ring_seal_ok a k n ad q) as (c0 & t & -> & Hc & Ht & _); [done|by apply nonce_length|lia|] end.
    cbn [ok_or mbind result_bind]. intros [= <-]. apply Hwf. unfold ct. cbn [fst snd]. rewrite length_app, Hc, Ht. unfold TAG_LEN. lia.
  - unfold gcm_encrypt. cbn [typ version payload].
    match goal with |- context [ring_seal a k ?n ?ad p] => destruct (ring_seal_ok a k n ad p) as (c0 & t & -> & Hc & Ht & _); [done|by apply nonce_length|lia|] end.
    cbn [ok_or mbind result_bind]. intros [= <-]. apply Hwf. unfold ct. cbn [fst snd]. rewrite !length_app, length_drop, nonce_length, Hc, Ht by done. unfold TAG_LEN, NONCE_LEN. lia.
  - unfold chacha_encrypt. cbn [typ version payload].
    match goal with |- context [ring_seal ?a k ?n ?ad p] => destruct (ring_seal_ok a k n ad p) as (c0 & t & -> & Hc & Ht & _); [done|by apply nonce_length|lia|] end.
    cbn [ok_or mbind result_bind]. intros [= <-]. apply Hwf. unfold ct. cbn [fst snd]. rewrite length_app, Hc, Ht. unfold TAG_LEN. lia.
Qed.
Lemma encrypt_all_app ke kd ps l cs l' : cipher_paired ke kd -> message_encrypter l = Some ke -> Forall (fun p => (length p <= MAX_FRAGMENT_LEN)%nat) ps ->
  encrypt_all (map (fun p => {| typ := Known ApplicationData; version := Known TLSv1_2; payload := p |}) ps) l = (Ok cs, l') -> Forall app_record cs.
Proof.
  intros Hp. revert l cs. induction ps as [|p ps IH]; intros l cs Hk Hps; cbn [map encrypt_all]; [by intros [= <- <-]|]. inversion Hps; subst.
  unfold encrypt_outgoing. destruct (encrypt_exhausted l); [done|]. cbn [message_encrypter]. rewrite Hk. cbn [encrypt_with].
  destruct (cipher_encrypt ke _ (write_seq l)) as [c|e|] eqn:Hc; [|done|done].
  match goal with |- context [encrypt_all (map ?f ps) ?l1] => destruct (encrypt_all (map f ps) l1) as [[cs'|e|] l2] eqn:He; specialize (IH l1) end; [|done|done].
  intros [= <- <-]. constructor; [by eapply encrypted_app|]. by eapply IH.
Qed.

(** The peer opens [cs] as application data that spells [data]. *)
Definition delivers (cs : list message) r (data : bytes) r' : Prop :=
  exists ds, decrypt_all cs r = (Ok (map Some ds), r') /\ concat (map (fun d => payload (plaintext d)) ds) = data /\
    Forall (fun d => typ (plaintext d) = Known ApplicationData) ds /\ Forall app_record cs.
Lemma delivers_nil r : delivers [] r [] r.
Proof. by exists []. Qed.
Lemma decrypt_all_app cs1 cs2 r ds1 r1 :
  decrypt_all cs1 r = (Ok ds1, r1) -> decrypt_all (cs1 ++ cs2) r = (fmap (fun ds => ds1 ++ ds) (decrypt_all cs2 r1).1, (decrypt_all cs2 r1).2).
Proof.
  revert r ds1. induction cs1 as [|c cs1 IH]; intros r ds1; cbn [decrypt_all app].
  - intros [= <- <-]. by destruct (decrypt_all cs2 r) as [[]].
  - destruct (decrypt_incoming c r) as [[d|e|] r0]; [|done|done]. destruct (decrypt_all cs1 r0) as [[ds|e|] r2] eqn:Hd; [|done|done].
    intros [= <- <-]. rewrite (IH r0 ds Hd). by destruct (decrypt_all cs2 r2) as [[]].
Qed.
Lemma delivers_app cs1 cs2 r d1 r1 d2 r2 : delivers cs1 r d1 r1 -> delivers cs2 r1 d2 r2 -> delivers (cs1 ++ cs2) r (d1 ++ d2) r2.
Proof.
  intros (ds1 & H1 & <- & F1 & R1) (ds2 & H2 & <- & F2 & R2). exists (ds1 ++ ds2). rewrite (decrypt_all_app _ _ _ _ _ H1), H2. cbn.
  split; [by rewrite map_app|]. split; [by rewrite map_app, concat_app|]. split; by apply Forall_app.
Qed.

(** A state whose layer is in step with the peer's, with a usable fragment size. *)
Record connected (ke kd : cipher) s r : Prop := {
  con_step : in_step ke kd (record_layer s) r;
  con_frag : (0 < max_frag (message_fragmenter s) <= MAX_FRAGMENT_LEN)%nat
}.
Lemma app_sendable ke kd p : cipher_paired ke kd -> (length p <= MAX_FRAGMENT_LEN)%nat ->
  cipher_sendable ke {| typ := Known ApplicationData; version := Known TLSv1_2; payload := p |}.
Proof.
  intros Hp Hl. split; [done|]. destruct ke; try done. split; [|done]. exists 0x17. split; [rewrite list_elem_of_In; cbn; auto|cbn; lia].
Qed.
Lemma received_app kd m : typ (cipher_received kd m) = typ m /\ payload (cipher_received kd m) = payload m.
Proof. by destruct kd. Qed.

Lemma appdata_sent ke kd s r p lim :
  connected ke kd s r -> write_seq (record_layer s) + zlen p <= SEQ_SOFT_LIMIT ->
  let n := match lim with Yes => apply_limit (sendable_tls s) (length p) | No => length p end in
  exists cs l r', send_appdata_encrypt p lim s = (Ok n, sent cs l s) /\ delivers cs r (take n p) r' /\ in_step ke kd l r' /\
    write_seq l <= write_seq (record_layer s) + Z.of_nat n /\ (n <= length p)%nat.
Proof.
  intros [Hst Hf] Hz n. assert (Hn : (n <= length p)%nat) by (unfold n, apply_limit; destruct lim; [destruct (limit _)|]; lia).
  unfold send_appdata_encrypt, mbind, Cm_bind, gets, lift. fold n. rewrite slice_ok by lia. cbn [map_err id]. rewrite drop_0, Nat.sub_0_r.
  unfold fragments, fragment_message, TlsLayer.chunks. rewrite (proj2 (Nat.eqb_neq _ _)) by lia. cbn [mbind result_bind payload].
  set (part := take n p). destruct (chunks_fuel_spec (length part) (max_frag (message_fragmenter s)) part) as [Hc Hb]; [lia|lia|].
  set (frags := chunks_fuel _ _ _) in *. assert (Hlen : (length frags <= length part)%nat).
  { rewrite <- Hc. clear -Hb. induction Hb as [|c l [Hc _] Hb IH]; cbn [concat length]; [lia|]. rewrite length_app. destruct c; [done|cbn; lia]. }
  set (mk := fun c => {| typ := Known ApplicationData; version := Known TLSv1_2; payload := c |}).
  assert (length part = n) as Hp by (unfold part; rewrite length_take; lia).
  destruct (record_stream_roundtrip (map mk frags) ke kd (record_layer s) r Hst) as (cs & ds & l & r' & H1 & H2 & H3 & H4 & H5).
  { apply Forall_map. eapply Forall_impl; [|exact Hb]. intros c [_ Hl]. apply (app_sendable ke kd); [apply (step_paired _ _ _ _ Hst)|lia]. }
  { rewrite length_map. unfold zlen, SEQ_SOFT_LIMIT, SEQ_HARD_LIMIT in *. lia. }
  assert (Hpl : map (fun d => payload (plaintext d)) ds = frags /\ Forall (fun d => typ (plaintext d) = Known ApplicationData) ds).
  { clear -H3. revert ds H3. induction frags as [|f frags IH]; intros [|d ds] H3; try done. cbn [map] in *. injection H3 as Hd H3.
    destruct (IH ds H3) as [Ht Hf]. destruct (received_app kd (mk f)) as [Hr1 Hr2]. split; [rewrite Ht, Hd; by rewrite Hr2|]. constructor; [by rewrite Hd, Hr1|done]. }
  destruct Hpl as [Hpl Hty]. exists cs, l, r'. unfold STACK. change (map _ frags) with (map mk frags). rewrite (send_fragments 1 (map mk frags) cs s l H1).
  2: { rewrite length_map. unfold zlen in *. lia. }
  assert (Hrec : Forall app_record cs).
  { apply (encrypt_all_app ke kd frags (record_layer s) cs l); [apply (step_paired _ _ _ _ Hst)|apply (step_encrypter _ _ _ _ Hst)| |exact H1].
    eapply Forall_impl; [|exact Hb]. intros c [_ Hl]. lia. }
  split; [done|]. split; [exists ds; split; [done|]; split; [by rewrite Hpl|done]|]. split; [done|]. rewrite length_map in H5. lia.
Qed.
Lemma connected_sent ke kd s r cs l r' : connected ke kd s r -> in_step ke kd l r' -> connected ke kd (sent cs l s) r'.
Proof. intros [_ Hf] Hst. split; [|done]. by destruct s. Qed.

(** [send_some_plaintext] for several writes of the application. *)
Fixpoint write_all (datas : list bytes) : Cm (K:=cipher) (list nat) :=
  match datas with
  | [] => mret []
  | d :: datas' => n ← send_some_plaintext d; ns ← write_all datas'; mret (n :: ns)
  end.
Definition accepted (ns : list nat) (datas : list bytes) : bytes := concat (zip_with take ns datas).

(** During the handshake the accepted bytes wait, in order. *)
Lemma write_handshaking datas s :
  may_send_application_data s = false -> queued_key_update_message s = None ->
  exists ns b, write_all datas s = (Ok ns, set_sendable_plaintext b s) /\
    concat (chunks b) = concat (chunks (sendable_plaintext s)) ++ accepted ns datas /\ length ns = length datas.
Proof.
  revert s. induction datas as [|d datas IH]; intros s Hm Hq.
  - exists [], (sendable_plaintext s). split; [by destruct s|]. split; [by rewrite app_nil_r|done].
  - cbn [write_all]. unfold send_some_plaintext, perhaps_write_key_update, mbind, Cm_bind, modify. rewrite Hq.
    unfold send_plain, mbind, Cm_bind, gets. rewrite Hm. cbn [negb]. unfold buffer_plaintext, append_limited_copy.
    set (n := apply_limit _ _). assert ((n <= length d)%nat) by (unfold n, apply_limit; destruct (limit _); lia).
    rewrite slice_ok by lia. cbn [mbind result_bind]. rewrite drop_0, Nat.sub_0_r.
    set (b1 := (append (take n d) (sendable_plaintext s)).2). assert (concat (chunks b1) = concat (chunks (sendable_plaintext s)) ++ take n d) as Hb1.
    { unfold b1, append. case_bool_decide as Hb; cbn [negb snd chunks]; [rewrite Hb; by rewrite app_nil_r|]. rewrite concat_app. cbn. by rewrite app_nil_r. }
    destruct (IH (set_sendable_plaintext b1 s)) as (ns & b & Hw & Hb & Hl); [by destruct s|by destruct s|].
    rewrite Hw. exists (n :: ns), b. split; [by destruct s|]. split; [|cbn; by rewrite Hl]. rewrite Hb. unfold accepted. cbn [zip_with concat].
    replace (sendable_plaintext (set_sendable_plaintext b1 s)) with b1 by by destruct s. by rewrite Hb1, <- app_assoc.
Qed.

Lemma flush_step fuel s :
  flush_loop (S fuel) s = (buf ← pop_plaintext; match buf with Some bs => _ ← send_plain bs No; flush_loop fuel | None => mret tt end) s.
Proof. done. Qed.
(** The end of the handshake sends what waits, and nothing else. *)
Lemma flush_sent ke kd cks lim s r :
  may_send_application_data s = true -> connected ke kd s r -> sendable_plaintext s = {| chunks := cks; limit := lim |} ->
  write_seq (record_layer s) + zlen (concat cks) <= SEQ_SOFT_LIMIT ->
  exists cs l r', flush_loop (S (length cks)) s = (Ok tt, set_sendable_plaintext {| chunks := []; limit := lim |} (sent cs l s)) /\
    delivers cs r (concat cks) r' /\ in_step ke kd l r' /\ write_seq l <= write_seq (record_layer s) + zlen (concat cks).
Proof.
  revert s r. induction cks as [|c cks IH]; intros s r Hm Hcon Hb Hz; rewrite flush_step; cbn [length].
  - unfold mbind, Cm_bind, pop_plaintext, pop. rewrite Hb. cbn [chunks]. exists [], (record_layer s), r.
    split; [by rewrite sent_nil|]. split; [apply delivers_nil|]. split; [apply Hcon|]. unfold zlen. cbn. lia.
  - unfold mbind at 1. unfold Cm_bind at 1. unfold pop_plaintext, pop. rewrite Hb. cbn [chunks limit].
    set (s1 := set_sendable_plaintext _ s). assert (Hm1 : may_send_application_data s1 = true) by by destruct s.
    assert (Hc1 : connected ke kd s1 r) by (destruct Hcon; by split; destruct s).
    cbn [concat] in Hz. unfold zlen in Hz. rewrite length_app in Hz.
    unfold mbind at 1. unfold Cm_bind at 1. unfold send_plain, mbind at 1, Cm_bind at 1, gets. rewrite Hm1. cbn [negb].
    destruct c as [|x c].
    + unfold mret, Cm_ret. destruct (IH s1 r Hm1 Hc1) as (cs & l & r' & H1 & H2 & H3 & H4); [by destruct s|unfold zlen; destruct s; cbn in *; lia|].
      exists cs, l, r'. rewrite H1. split; [by destruct s|]. by destruct s.
    + destruct (appdata_sent ke kd s1 r (x :: c) No Hc1) as (cs & l & r' & H1 & H2 & H3 & H4 & _); [unfold zlen; destruct s; cbn in *; lia|].
      rewrite H1. rewrite take_ge in H2 by done. assert (Hc2 : connected ke kd (sent cs l s1) r') by by eapply connected_sent.
      destruct (IH (sent cs l s1) r') as (cs' & l' & r'' & H1' & H2' & H3' & H4'); [by destruct s|done|by destruct s|unfold zlen in *; destruct s; cbn in *; lia|].
      exists (cs ++ cs'), l', r''. rewrite H1'. split; [destruct s; unfold sent; cbn; by rewrite map_app, app_assoc|].
      split; [by eapply delivers_app|]. split; [done|]. unfold zlen in *. cbn [concat]. rewrite length_app. destruct s; cbn in *. lia.
Qed.

(** After the handshake each write is sent at once. *)
Lemma write_sent ke kd datas s r :
  may_send_application_data s = true -> queued_key_update_message s = None -> connected ke kd s r ->
  write_seq (record_layer s) + zlen (concat datas) <= SEQ_SOFT_LIMIT ->
  exists ns cs l r', write_all datas s = (Ok ns, sent cs l s) /\ delivers cs r (accepted ns datas) r' /\ in_step ke kd l r' /\ length ns = length datas.
Proof.
  revert s r. induction datas as [|d datas IH]; intros s r Hm Hq Hcon Hz.
  - exists [], [], (record_layer s), r. split; [by rewrite sent_nil|]. split; [apply delivers_nil|]. by split; [apply Hcon|].
  - cbn [concat] in Hz. unfold zlen in Hz. rewrite length_app in Hz. cbn [write_all].
    unfold send_some_plaintext, perhaps_write_key_update, mbind, Cm_bind, modify. rewrite Hq. unfold send_plain, mbind, Cm_bind, gets. rewrite Hm. cbn [negb].
    destruct d as [|x d].
    + unfold mret, Cm_ret. destruct (IH s r Hm Hq Hcon) as (ns & cs & l & r' & H1 & H2 & H3 & H4); [unfold zlen; cbn in *; lia|].
      exists (0%nat :: ns), cs, l, r'. rewrite H1. split; [done|]. split; [done|]. split; [done|]. cbn. by rewrite H4.
    + destruct (appdata_sent ke kd s r (x :: d) Yes Hcon) as (cs & l & r' & H1 & H2 & H3 & H4 & H5); [unfold zlen; lia|].
      set (n := apply_limit _ _) in *. rewrite H1. assert (Hc2 : connected ke kd (sent cs l s) r') by by eapply connected_sent.
      destruct (IH (sent cs l s) r') as (ns & cs' & l' & r'' & H1' & H2' & H3' & H4'); [by destruct s|by destruct s|done|unfold zlen; destruct s; cbn in *; lia|].
      rewrite H1'. exists (n :: ns), (cs ++ cs'), l', r''. split; [destruct s; unfold sent; cbn; by rewrite map_app, app_assoc|].
      split; [by eapply delivers_app|]. split; [done|]. cbn. by rewrite H4'.
Qed.

Lemma accepted_length ns datas : (length (accepted ns datas) <= length (concat datas))%nat.
Proof.
  revert ns. induction datas as [|d datas IH]; intros [|n ns]; unfold accepted in *; cbn [zip_with concat length]; try lia.
  specialize (IH ns). rewrite !length_app, length_take. lia.
Qed.

(** What the application writes arrives, in order and complete.  Bytes accepted
    during the handshake wait; when traffic starts they are fragmented, encrypted
    and queued, and so is every later write; the peer, whose key is paired, opens
    exactly these records, in this order, to exactly the accepted bytes, and the
    two sequence numbers agree again. *)
Theorem application_data_delivered ke kd s r ds1 ds2 :
  connected ke kd s r -> may_send_application_data s = false -> queued_key_update_message s = None -> chunks (sendable_plaintext s) = [] ->
  write_seq (record_layer s) + zlen (concat ds1 ++ concat ds2) <= SEQ_SOFT_LIMIT ->
  exists ns1 s1 s2 ns2 s3 cs r',
    write_all ds1 s = (Ok ns1, s1) /\ start_traffic s1 = (Ok tt, s2) /\ write_all ds2 s2 = (Ok ns2, s3) /\
    chunks (sendable_tls s3) = chunks (sendable_tls s) ++ map opaque_encode cs /\
    delivers cs r (accepted ns1 ds1 ++ accepted ns2 ds2) r' /\ write_seq (record_layer s3) = read_seq r'.
Proof.
  intros Hcon Hm Hq Hb Hz. unfold zlen in Hz. rewrite length_app in Hz.
  destruct (write_handshaking ds1 s Hm Hq) as (ns1 & [cks lim] & Hw & Hcks & Hl1). rewrite Hb in Hcks. cbn [chunks concat app] in Hcks.
  pose proof (accepted_length ns1 ds1) as Hacc. exists ns1, (set_sendable_plaintext {| chunks := cks; limit := lim |} s).
  set (s1 := set_may_send_application_data true (set_may_receive_application_data true (set_sendable_plaintext {| chunks := cks; limit := lim |} s))).
  assert (Hc1 : connected ke kd s1 r) by (destruct Hcon; by split; destruct s).
  destruct (flush_sent ke kd cks lim s1 r) as (cs1 & l1 & r1 & H1 & H2 & H3 & H4); [by destruct s|done|by destruct s| |].
  { unfold zlen. rewrite Hcks. destruct s; cbn in *. lia. }
  set (s2 := set_sendable_plaintext {| chunks := []; limit := lim |} (sent cs1 l1 s1)).
  assert (Hc2 : connected ke kd s2 r1) by (pose proof (connected_sent ke kd s1 r cs1 l1 r1 Hc1 H3) as []; by split; destruct s).
  destruct (write_sent ke kd ds2 s2 r1) as (ns2 & cs2 & l2 & r2 & H1' & H2' & H3' & H4'); [by destruct s|by destruct s|done| |].
  { unfold zlen in *. rewrite Hcks in H4. destruct s; cbn in *. lia. }
  exists s2, ns2, (sent cs2 l2 s2), (cs1 ++ cs2), r2. split; [done|]. split.
  { unfold start_traffic, start_outgoing_traffic, mbind, Cm_bind, modify, flush_plaintext.
    change (may_send_application_data _) with true. cbn [negb]. change (chunks (sendable_plaintext _)) with cks. exact H1. }
  split; [exact H1'|]. split; [destruct s; cbn; by rewrite map_app, app_assoc|]. split.
  - rewrite <- Hcks. by eapply delivers_app.
  - apply (step_seq _ _ _ _ H3').
Qed.
End delivered.

(** ** Instances *)

Definition ex_enc : cipher := Tls13MessageEncrypter AES_128_GCM (replicate 16 1) (replicate 12 2).
Definition ex_dec : cipher := Tls13MessageDecrypter AES_128_GCM (replicate 16 1) (replicate 12 2).
Definition ex_state : CommonState (K:=cipher) := set_record_layer (set_message_encrypter ex_enc new_layer) (new Client).
#[local] Instance no_names : DnsNames := {| dns_try_from _ := false |}.

Lemma application_data_delivered_witness :
  exists ns1 s1 s2 ns2 s3 cs r',
    write_all (A:=toy_ring) [[1; 2]; [3]] ex_state = (Ok ns1, s1) /\ start_traffic (C:=ring_cipher (A:=toy_ring)) s1 = (Ok tt, s2) /\
    write_all (A:=toy_ring) [[4; 5; 6]] s2 = (Ok ns2, s3) /\
    delivers (A:=toy_ring) cs (set_message_decrypter ex_dec new_layer) (accepted ns1 [[1; 2]; [3]] ++ accepted ns2 [[4; 5; 6]]) r'.
Proof.
  destruct (application_data_delivered (A:=toy_ring) ex_enc ex_dec ex_state (set_message_decrypter ex_dec new_layer) [[1; 2]; [3]] [[4; 5; 6]])
    as (ns1 & s1 & s2 & ns2 & s3 & cs & r' & H1 & H2 & H3 & _ & H4 & _).
  - split; [by split|]. cbn [ex_state set_record_layer message_fragmenter new default_fragmenter max_frag]. unfold MAX_FRAGMENT_LEN. lia.
  - reflexivity.
  - reflexivity.
  - reflexivity.
  - by vm_compute.
  - exists ns1, s1, s2, ns2, s3, cs, r'. split; [exact H1|]. split; [exact H2|]. split; [exact H3|exact H4].
Defined.
Lemma alert_overtakes_key_update_witness :
  exists s1 s3 update c, enqueue_key_update_notification (C:=ring_cipher (A:=toy_ring)) ex_state = (Ok tt, s1) /\
    send_close_notify (C:=ring_cipher (A:=toy_ring)) (set_record_layer (set_message_encrypter ex_enc (record_layer s1)) s1) = (Ok tt, s3) /\
    queued_key_update_message s3 = Some update /\ chunks (sendable_tls s3) = [opaque_encode c].
Proof.
  destruct (enqueue_key_update_notification (C:=ring_cipher (A:=toy_ring)) ex_state) as [res s1] eqn:He.
  assert (res = Ok tt) as -> by (apply (f_equal fst) in He; vm_compute in He; congruence).
  destruct (alert_overtakes_key_update (C:=ring_cipher (A:=toy_ring)) ex_enc ex_state s1 _ eq_refl ltac:(by apply Nat.leb_le; vm_compute) He eq_refl)
    as (s3 & update & H1 & H2 & H3).
  exists s1, s3, update. eexists. split; [done|]. split; [exact H1|]. split; [exact H2|]. rewrite H3. reflexivity.
Defined.
