(* ===== verification/Hkdf.v ===== *)
(** * Hashes, HMAC, HKDF and the TLS 1.2 PRF of the TLS fork
    (orcax/rustls-fork/rustls/src/crypto/hash.rs, hmac.rs, tls13.rs, tls12.rs,
    crypto/ring/hash.rs, crypto/ring/hmac.rs, and the HKDF of
    crypto/ring/tls13.rs)

    Digests and HMAC are ring's, a parameter with its documented behaviour.  The
    trait [Hkdf] is a class with laws; HKDF over HMAC and ring's own HKDF are its
    instances.  The loops that stretch a secret are proved equal to the formulas
    of RFC 5869 and RFC 5246. *)
From S2P Require Import Prelude Suites.

(** ** Digests and HMAC *)

(** [ring::digest] contexts, and [ring::hmac] over the bytes given to a context. *)
Class Hashing : Type := {
  digest_ctx : Type;
  digest_new : hash_alg -> digest_ctx;
  digest_update : digest_ctx -> bytes -> digest_ctx;
  digest_finish : digest_ctx -> bytes;
  hmac_tag : hash_alg -> bytes -> bytes -> bytes
}.
Class HashingLaws (H : Hashing) : Prop := {
  digest_length h ds : length (digest_finish (fold_left digest_update ds (digest_new h))) = output_len h;
  digest_pieces h ds : digest_finish (fold_left digest_update ds (digest_new h)) = digest_finish (digest_update (digest_new h) (concat ds));
  hmac_length h k m : length (hmac_tag h k m) = output_len h
}.

(** [hash::Output], [hmac::Tag] and [OkmBlock] are buffers of 64 bytes with a
    length: the bytes they hold, and a panic when there are more. *)
Definition MAX_LEN : nat := 64.
Definition block_new {E} (bs : bytes) : result E bytes := if (length bs <=? MAX_LEN)%nat then Ok bs else Panic.
Lemma block_new_ok {E} bs : (length bs <= MAX_LEN)%nat -> block_new (E:=E) bs = Ok bs.
Proof. intros Hl. unfold block_new. by rewrite (proj2 (Nat.leb_le _ _)). Qed.
Lemma output_len_bounds h : (0 < output_len h <= MAX_LEN)%nat.
Proof. destruct h; cbn; unfold MAX_LEN; lia. Qed.

Section hashing.
Context {H : Hashing}.
Definition hash {E} (h : hash_alg) (bs : bytes) : result E bytes := block_new (digest_finish (digest_update (digest_new h) bs)).
Definition start_finish {E} (h : hash_alg) : result E bytes := block_new (digest_finish (digest_new h)).
(** [hmac::Key]: [sign_concat] and [sign]. *)
Definition sign_concat (h : hash_alg) (key first : bytes) (middle : list bytes) (last : bytes) : bytes := hmac_tag h key (first ++ concat middle ++ last).
Definition hmac_data (h : hash_alg) (key : bytes) (data : list bytes) : bytes := sign_concat h key [] data [].
End hashing.

(** ** Output in blocks *)

(** The loops fill an output of [n] bytes chunk by chunk, with as much of each
    block as fits. *)
Fixpoint fill (hlen : nat) (blk : nat -> bytes) (fuel n i : nat) : bytes :=
  match fuel with
  | O => []
  | S fuel' => if (n =? 0)%nat then [] else take (Nat.min hlen n) (blk i) ++ fill hlen blk fuel' (n - Nat.min hlen n) (S i)
  end.
Lemma fill_spec hlen blk N fuel n i :
  (0 < hlen)%nat -> (forall j, length (blk j) = hlen) -> (n <= fuel)%nat -> (n <= hlen * N)%nat ->
  fill hlen blk fuel n i = take n (concat (map blk (seq i N))).
Proof.
  intros Hh Hb. revert n i N. induction fuel as [|fuel IH]; intros n i N Hf HN; cbn [fill]; [by replace n with 0%nat by lia|].
  destruct (Nat.eqb_spec n 0) as [->|Hn]; [done|]. destruct N as [|N]; [lia|]. cbn [seq map concat].
  destruct (Nat.le_gt_cases n hlen) as [Hle|Hgt].
  - rewrite Nat.min_r by lia. rewrite take_app_le by (rewrite Hb; lia). replace (n - n)%nat with 0%nat by lia. destruct fuel; cbn; by rewrite app_nil_r.
  - rewrite Nat.min_l, (IH (n - hlen)%nat (S i) N) by lia. rewrite take_app_ge by (rewrite Hb; lia). rewrite Hb. by rewrite take_ge by (rewrite Hb; lia).
Qed.
Lemma fill_length hlen blk N fuel n i :
  (0 < hlen)%nat -> (forall j, length (blk j) = hlen) -> (n <= fuel)%nat -> (n <= hlen * N)%nat -> length (fill hlen blk fuel n i) = n.
Proof.
  intros Hh Hb Hf HN. rewrite (fill_spec _ _ N) by done. rewrite length_take. enough (length (concat (map blk (seq i N))) = (hlen * N)%nat) by lia.
  clear HN. revert i. induction N as [|N IH]; intros i; cbn [seq map concat]; [cbn; lia|]. rewrite length_app, Hb, IH. lia.
Qed.

(** ** HKDF-Expand and the PRF over HMAC *)

Section loops.
Context {H : Hashing} {HL : HashingLaws H}.

(** [expand_unchecked]: each term is the HMAC of the one before. *)
Fixpoint expand_loop (h : hash_alg) (key : bytes) (info : list bytes) (fuel n : nat) (term : bytes) (left : nat) : bytes :=
  match fuel with
  | O => []
  | S fuel' =>
      if (left =? 0)%nat then []
      else let chunk := Nat.min (output_len h) left in
           let term := sign_concat h key term info [u8 (Z.of_nat n + 1)] in
           take chunk term ++ expand_loop h key info fuel' (S n) term (left - chunk)
  end.
Definition expand_unchecked (h : hash_alg) (key : bytes) (info : list bytes) (len : nat) : bytes := expand_loop h key info len 0 [] len.

(** RFC 5869, section 2.3: T(0) is empty, T(i) = HMAC(PRK, T(i-1) | info | i). *)
Fixpoint hkdf_T (h : hash_alg) (prk info : bytes) (i : nat) : bytes :=
  match i with O => [] | S j => hmac_tag h prk (hkdf_T h prk info j ++ info ++ [u8 (Z.of_nat (S j))]) end.
Lemma expand_loop_fill h key info fuel n left :
  expand_loop h key info fuel n (hkdf_T h key (concat info) n) left = fill (output_len h) (hkdf_T h key (concat info)) fuel left (S n).
Proof.
  revert n left. induction fuel as [|fuel IH]; intros n left; cbn [expand_loop fill]; [done|]. destruct (left =? 0)%nat; [done|].
  assert (sign_concat h key (hkdf_T h key (concat info) n) info [u8 (Z.of_nat n + 1)] = hkdf_T h key (concat info) (S n)) as ->.
  { cbn [hkdf_T]. unfold sign_concat. by replace (Z.of_nat (S n)) with (Z.of_nat n + 1) by lia. }
  by rewrite IH.
Qed.
Lemma hkdf_T_length h prk info i : length (hkdf_T h prk info (S i)) = output_len h.
Proof. apply hmac_length. Qed.

Lemma expand_unchecked_spec h key info len :
  (len <= 255 * output_len h)%nat ->
  expand_unchecked h key info len = take len (concat (map (hkdf_T h key (concat info)) (seq 1 255))) /\ length (expand_unchecked h key info len) = len.
Proof.
  intros Hl. unfold expand_unchecked. rewrite (expand_loop_fill h key info len 0 len : expand_loop h key info len 0 [] len = _).
  (* the blocks from the first on have the length of the hash *)
  assert (forall fuel n i, fill (output_len h) (hkdf_T h key (concat info)) fuel n (S i) = fill (output_len h) (fun j => hkdf_T h key (concat info) (S j)) fuel n i) as Hs.
  { induction fuel as [|fuel IH]; intros n i; cbn [fill]; [done|]. destruct (n =? 0)%nat; [done|]. by rewrite IH. }
  pose proof (output_len_bounds h) as [Hp _]. rewrite Hs. split.
  - rewrite (fill_spec _ _ 255); [|done|intros j; apply hkdf_T_length|done|lia].
    by rewrite <- (seq_shift 255 0), map_map.
  - apply (fill_length _ _ 255); [done|apply hkdf_T_length|done|lia].
Qed.

(** [prf] (crypto/tls12.rs). *)
Fixpoint prf_loop (h : hash_alg) (key label seed : bytes) (fuel left : nat) (current_a : bytes) : bytes :=
  match fuel with
  | O => []
  | S fuel' =>
      if (left =? 0)%nat then []
      else let chunk := Nat.min (output_len h) left in
           let p_term := hmac_data h key [current_a; label; seed] in
           take chunk p_term ++ prf_loop h key label seed fuel' (left - chunk) (hmac_data h key [current_a])
  end.
Definition prf (h : hash_alg) (key label seed : bytes) (len : nat) : bytes := prf_loop h key label seed len len (hmac_data h key [label; seed]).

(** RFC 5246, section 5: A(0) = seed, A(i) = HMAC(secret, A(i-1)), and P_hash is
    the concatenation of HMAC(secret, A(i) + seed), with label and seed joined. *)
Fixpoint prf_A (h : hash_alg) (secret seed : bytes) (i : nat) : bytes := match i with O => seed | S j => hmac_tag h secret (prf_A h secret seed j) end.
Definition P_hash (h : hash_alg) (secret seed : bytes) (i : nat) : bytes := hmac_tag h secret (prf_A h secret seed i ++ seed).
Lemma prf_loop_fill h key label seed fuel left i :
  prf_loop h key label seed fuel left (prf_A h key (label ++ seed) i) = fill (output_len h) (P_hash h key (label ++ seed)) fuel left i.
Proof.
  revert left i. induction fuel as [|fuel IH]; intros left i; cbn [prf_loop fill]; [done|]. destruct (left =? 0)%nat; [done|].
  unfold hmac_data, sign_concat. cbn [app concat]. rewrite !app_nil_r. change (hmac_tag h key (prf_A h key (label ++ seed) i)) with (prf_A h key (label ++ seed) (S i)).
  by rewrite IH.
Qed.

(** The two key derivation loops compute the standards' functions.  HKDF-Expand
    over HMAC gives the first bytes of T(1) T(2) .. T(255) of RFC 5869 for every
    length the standard allows, and the TLS 1.2 PRF gives the first bytes of
    P_hash(secret, label + seed) of RFC 5246 for every length. *)
Theorem key_derivation_rfc h key info label seed len :
  ((len <= 255 * output_len h)%nat -> expand_unchecked h key info len = take len (concat (map (hkdf_T h key (concat info)) (seq 1 255)))) /\
  prf h key label seed len = take len (concat (map (P_hash h key (label ++ seed)) (seq 1 len))).
Proof.
  split; [intros Hl; by apply expand_unchecked_spec|]. pose proof (output_len_bounds h) as [Hp _]. unfold prf.
  assert (hmac_data h key [label; seed] = prf_A h key (label ++ seed) 1) as ->.
  { unfold hmac_data, sign_concat. cbn. by rewrite !app_nil_r. }
  rewrite prf_loop_fill. apply fill_spec; [done|intros; apply hmac_length|done|]. nia.
Qed.
Lemma prf_length h key label seed len : length (prf h key label seed len) = len.
Proof.
  pose proof (output_len_bounds h) as [Hp _]. unfold prf. assert (hmac_data h key [label; seed] = prf_A h key (label ++ seed) 1) as ->.
  { unfold hmac_data, sign_concat. cbn. by rewrite !app_nil_r. }
  rewrite prf_loop_fill. apply (fill_length _ _ len); [done|intros; apply hmac_length|done|]. nia.
Qed.
End loops.

(** ** The trait [Hkdf] *)

(** [Hkdf] and [HkdfExpander]: what the key schedule uses.  [expand_slice] gives
    [None] for [OutputLengthError]. *)
Class Hkdf : Type := {
  expander : Type;
  extract_from_zero_ikm : hash_alg -> option bytes -> expander;
  extract_from_secret : hash_alg -> option bytes -> bytes -> expander;
  expander_for_okm : hash_alg -> bytes -> expander;
  hmac_sign : hash_alg -> bytes -> bytes -> bytes;
  expand_slice : expander -> list bytes -> nat -> option bytes;
  expand_block : forall {E}, expander -> list bytes -> result E bytes;
  hash_len : expander -> nat
}.
Class HkdfLaws (P : Hkdf) : Prop := {
  hash_len_zero h salt : hash_len (extract_from_zero_ikm h salt) = output_len h;
  hash_len_secret h salt s : hash_len (extract_from_secret h salt s) = output_len h;
  hash_len_okm h okm : hash_len (expander_for_okm h okm) = output_len h;
  expand_slice_ok e info n : (n <= 255 * hash_len e)%nat -> exists okm, expand_slice e info n = Some okm /\ length okm = n;
  expand_slice_long e info n : (255 * hash_len e < n)%nat -> expand_slice e info n = None;
  expand_block_slice {E} e info : (hash_len e <= MAX_LEN)%nat ->
    exists okm, expand_slice e info (hash_len e) = Some okm /\ expand_block (E:=E) e info = Ok okm;
  hmac_sign_length h k m : length (hmac_sign h k m) = output_len h
}.

(** [expand], for an output whose length is a constant of the program. *)
Definition expand {P : Hkdf} {E} (e : expander) (info : list bytes) (n : nat) : result E bytes := unwrap (expand_slice e info n).

(** *** HKDF over HMAC ([HkdfUsingHmac], crypto/tls13.rs) *)

Module HkdfUsingHmac.
Section hkdf.
Context {H : Hashing}.
Record expander : Type := { alg : hash_alg; key : bytes }.
Definition or_zeroes (h : hash_alg) (salt : option bytes) : bytes := match salt with Some salt => salt | None => take (output_len h) (replicate MAX_LEN 0) end.
Definition extract_from_zero_ikm (h : hash_alg) (salt : option bytes) : expander :=
  {| alg := h; key := hmac_data h (or_zeroes h salt) [take (output_len h) (replicate MAX_LEN 0)] |}.
Definition extract_from_secret (h : hash_alg) (salt : option bytes) (secret : bytes) : expander :=
  {| alg := h; key := hmac_data h (or_zeroes h salt) [secret] |}.
Definition expander_for_okm (h : hash_alg) (okm : bytes) : expander := {| alg := h; key := okm |}.
Definition hmac_sign (h : hash_alg) (key message : bytes) : bytes := hmac_data h key [message].
Definition hash_len (e : expander) : nat := output_len (alg e).
Definition expand_slice (e : expander) (info : list bytes) (n : nat) : option bytes :=
  if (255 * hash_len e <? n)%nat then None else Some (expand_unchecked (alg e) (key e) info n).
Definition expand_block {E} (e : expander) (info : list bytes) : result E bytes := block_new (expand_unchecked (alg e) (key e) info (hash_len e)).
End hkdf.
End HkdfUsingHmac.
#[export] Instance hkdf_using_hmac {H : Hashing} : Hkdf := {|
  expander := HkdfUsingHmac.expander; extract_from_zero_ikm := HkdfUsingHmac.extract_from_zero_ikm;
  extract_from_secret := HkdfUsingHmac.extract_from_secret; expander_for_okm := HkdfUsingHmac.expander_for_okm;
  hmac_sign := HkdfUsingHmac.hmac_sign; expand_slice := HkdfUsingHmac.expand_slice; expand_block := @HkdfUsingHmac.expand_block _;
  hash_len := HkdfUsingHmac.hash_len |}.
#[export] Instance hkdf_using_hmac_laws {H : Hashing} {HL : HashingLaws H} : HkdfLaws hkdf_using_hmac.
Proof.
  split; cbn; try done.
  - intros e info n Hn. unfold HkdfUsingHmac.expand_slice. rewrite (proj2 (Nat.ltb_ge _ _)) by done. eexists. split; [done|]. by apply expand_unchecked_spec.
  - intros e info n Hn. unfold HkdfUsingHmac.expand_slice. by rewrite (proj2 (Nat.ltb_lt _ _)).
  - intros E e info Hn. unfold HkdfUsingHmac.expand_slice. rewrite (proj2 (Nat.ltb_ge _ _)) by lia. eexists. split; [done|].
    apply block_new_ok. destruct (expand_unchecked_spec (HkdfUsingHmac.alg e) (HkdfUsingHmac.key e) info (HkdfUsingHmac.hash_len e)) as [_ ->]; [unfold HkdfUsingHmac.hash_len; lia|done].
  - intros h k m. apply hmac_length.
Qed.

(** *** ring's HKDF ([RingHkdf], crypto/ring/tls13.rs) *)

(** [ring::hkdf]: a PRK remembers its algorithm; [expand] and [fill] give the
    output, unless it is too long. *)
Class RingHkdf : Type := {
  prk : Type;
  salt_extract : hash_alg -> bytes -> bytes -> prk;
  prk_new : hash_alg -> bytes -> prk;
  prk_expand : prk -> list bytes -> nat -> option bytes
}.
Class RingHkdfLaws (R : RingHkdf) : Prop := {
  extract_expand_ok h salt s info n : (n <= 255 * output_len h)%nat -> exists okm, prk_expand (salt_extract h salt s) info n = Some okm /\ length okm = n;
  extract_expand_long h salt s info n : (255 * output_len h < n)%nat -> prk_expand (salt_extract h salt s) info n = None;
  new_expand_ok h k info n : (n <= 255 * output_len h)%nat -> exists okm, prk_expand (prk_new h k) info n = Some okm /\ length okm = n;
  new_expand_long h k info n : (255 * output_len h < n)%nat -> prk_expand (prk_new h k) info n = None
}.
Module RingHkdfProvider.
Section ring.
Context {H : Hashing} {R : RingHkdf}.
(** [RingHkdfExpander]: made by an extraction or from a key. *)
Inductive source : Type := Extracted (salt secret : bytes) | Okm (key : bytes).
Record expander : Type := { alg : hash_alg; from : source }.
Definition prk_of (e : expander) : prk := match from e with Extracted salt s => salt_extract (alg e) salt s | Okm k => prk_new (alg e) k end.
Definition or_zeroes (h : hash_alg) (salt : option bytes) : bytes := match salt with Some salt => salt | None => take (output_len h) (replicate MAX_LEN 0) end.
Definition extract_from_zero_ikm (h : hash_alg) (salt : option bytes) : expander :=
  {| alg := h; from := Extracted (or_zeroes h salt) (take (output_len h) (replicate MAX_LEN 0)) |}.
Definition extract_from_secret (h : hash_alg) (salt : option bytes) (secret : bytes) : expander := {| alg := h; from := Extracted (or_zeroes h salt) secret |}.
Definition expander_for_okm (h : hash_alg) (okm : bytes) : expander := {| alg := h; from := Okm okm |}.
Definition hmac_sign (h : hash_alg) (key message : bytes) : bytes := hmac_tag h key message.
Definition hash_len (e : expander) : nat := output_len (alg e).
Definition expand_slice (e : expander) (info : list bytes) (n : nat) : option bytes := prk_expand (prk_of e) info n.
Definition expand_block {E} (e : expander) (info : list bytes) : result E bytes := okm ← unwrap (prk_expand (prk_of e) info (hash_len e)); block_new okm.
End ring.
End RingHkdfProvider.
Definition ring_hkdf {H : Hashing} {R : RingHkdf} : Hkdf := {|
  expander := RingHkdfProvider.expander; extract_from_zero_ikm := RingHkdfProvider.extract_from_zero_ikm;
  extract_from_secret := RingHkdfProvider.extract_from_secret; expander_for_okm := RingHkdfProvider.expander_for_okm;
  hmac_sign := RingHkdfProvider.hmac_sign; expand_slice := RingHkdfProvider.expand_slice; expand_block := @RingHkdfProvider.expand_block _;
  hash_len := RingHkdfProvider.hash_len |}.
Lemma ring_hkdf_laws {H : Hashing} {HL : HashingLaws H} {R : RingHkdf} {RL : RingHkdfLaws R} : HkdfLaws ring_hkdf.
Proof.
  assert (Hok : forall e info n, (n <= 255 * RingHkdfProvider.hash_len e)%nat -> exists okm, RingHkdfProvider.expand_slice e info n = Some okm /\ length okm = n).
  { intros [h [salt s|k]] info n Hn; [by apply extract_expand_ok|by apply new_expand_ok]. }
  split; cbn; try done.
  - intros [h [salt s|k]] info n Hn; [by apply extract_expand_long|by apply new_expand_long].
  - intros E e info Hn. destruct (Hok e info (RingHkdfProvider.hash_len e) ltac:(lia)) as (okm & Ho & Hl). exists okm. split; [done|].
    unfold RingHkdfProvider.expand_block. unfold RingHkdfProvider.expand_slice in Ho. rewrite Ho. apply block_new_ok. lia.
  - intros h k m. apply hmac_length.
Qed.

(** ** An instance *)

Definition toy_hashing : Hashing :=
  {| digest_ctx := hash_alg * bytes; digest_new h := (h, []); digest_update c d := (c.1, c.2 ++ d);
     digest_finish c := be_encode (output_len c.1) (be_decode c.2); hmac_tag h k m := be_encode (output_len h) (be_decode (k ++ m)) |}.
#[export] Instance toy_hashing_laws : HashingLaws toy_hashing.
Proof.
  assert (forall (h : hash_alg) (ds : list bytes) (b : bytes), fold_left (fun c d => (c.1, c.2 ++ d)) ds (h, b) = (h, b ++ concat ds)) as Hf.
  { intros h ds. induction ds as [|d ds IH]; intros b; cbn [fold_left concat]; [by rewrite app_nil_r|]. cbn. by rewrite IH, app_assoc. }
  split; cbn; intros; rewrite ?Hf; apply be_encode_length || done.
Qed.
Lemma key_derivation_rfc_witness :
  prf (H:=toy_hashing) SHA256 [1] [2] [3] 40 = take 40 (concat (map (P_hash (H:=toy_hashing) SHA256 [1] [2; 3]) (seq 1 40))) /\
  (40 <= 255 * output_len SHA256)%nat.
Proof. split; [exact (proj2 (key_derivation_rfc (H:=toy_hashing) SHA256 [1] [] [2] [3] 40))|cbn; lia]. Defined.
