(* ===== verification/KeySchedule.v ===== *)
(** * The TLS 1.3 key schedule of the TLS fork
    (orcax/rustls-fork/rustls/src/tls13/key_schedule.rs, tls13/mod.rs)

    The labels, HKDF-Expand-Label, and the typestates of a handshake as the code
    has them, each with the keys it installs in the record layer of a
    [CommonState].  HKDF is the class [Hkdf]; the key exchange and the key log are
    arguments. *)
From S2P Require Import Prelude Codec TlsLayer Enums Wire Messages Payloads Ciphers Suites Errors Common Hkdf.
Import CommonState.

(** ** Kinds of secrets *)

Inductive SecretKind : Type :=
| ResumptionPskBinderKey
| ClientEarlyTrafficSecret
| ClientHandshakeTrafficSecret
| ServerHandshakeTrafficSecret
| ClientApplicationTrafficSecret
| ServerApplicationTrafficSecret
| ExporterMasterSecret
| ResumptionMasterSecret
| DerivedSecret.
Definition kind_to_bytes (k : SecretKind) : bytes :=
  match k with
  | ResumptionPskBinderKey => ascii_bytes "res binder"
  | ClientEarlyTrafficSecret => ascii_bytes "c e traffic"
  | ClientHandshakeTrafficSecret => ascii_bytes "c hs traffic"
  | ServerHandshakeTrafficSecret => ascii_bytes "s hs traffic"
  | ClientApplicationTrafficSecret => ascii_bytes "c ap traffic"
  | ServerApplicationTrafficSecret => ascii_bytes "s ap traffic"
  | ExporterMasterSecret => ascii_bytes "exp master"
  | ResumptionMasterSecret => ascii_bytes "res master"
  | DerivedSecret => ascii_bytes "derived"
  end.
Definition log_label (k : SecretKind) : option string :=
  match k with
  | ClientEarlyTrafficSecret => Some "CLIENT_EARLY_TRAFFIC_SECRET"
  | ClientHandshakeTrafficSecret => Some "CLIENT_HANDSHAKE_TRAFFIC_SECRET"
  | ServerHandshakeTrafficSecret => Some "SERVER_HANDSHAKE_TRAFFIC_SECRET"
  | ClientApplicationTrafficSecret => Some "CLIENT_TRAFFIC_SECRET_0"
  | ServerApplicationTrafficSecret => Some "SERVER_TRAFFIC_SECRET_0"
  | ExporterMasterSecret => Some "EXPORTER_SECRET"
  | _ => None
  end%string.

(** A [KeyLog] says which labels it wants; what it is given is a line. *)
Record KeyLog : Type := { will_log : string -> bool }.
Record log_line : Type := { line_label : string; line_random : bytes; line_secret : bytes }.

(** ** HKDF-Expand-Label *)

Definition LABEL_PREFIX : bytes := ascii_bytes "tls13 ".
Definition hkdf_label (label context : bytes) (n : nat) : list bytes :=
  [be_encode 2 (u16 (Z.of_nat n)); be_encode 1 (u8 (zlen LABEL_PREFIX + zlen label)); LABEL_PREFIX; label; be_encode 1 (u8 (zlen context)); context].

Abbreviation Cmc := (Cm (K:=cipher)).

Section key_schedule.
Context {H : Hashing} {P : Hkdf}.

Definition hkdf_expand_label_inner {T} (e : expander) (label context : bytes) (n : nat) (f : expander -> list bytes -> T) : T := f e (hkdf_label label context n).
Definition hkdf_expand_label {E} (N : nat) (e : expander) (label context : bytes) : result E bytes :=
  hkdf_expand_label_inner e label context N (fun e info => expand e info N).
Definition hkdf_expand_label_block {E} (e : expander) (label context : bytes) : result E bytes :=
  hkdf_expand_label_inner e label context (hash_len e) (fun e info => expand_block e info).
(** The key is expanded to the longest key, then cut. *)
Definition hkdf_expand_label_aead_key {E} (e : expander) (key_len : nat) (label context : bytes) : result E AeadKey.t :=
  hkdf_expand_label_inner e label context key_len (fun e info =>
    key ← expand e info AeadKey.MAX_LEN; AeadKey.with_length (AeadKey.from_array key) key_len).
Definition hkdf_expand_label_slice (e : expander) (label context : bytes) (len : nat) : option bytes :=
  hkdf_expand_label_inner e label context len (fun e info => expand_slice e info len).
Definition derive_traffic_key {E} (e : expander) (aead_key_len : nat) : result E AeadKey.t := hkdf_expand_label_aead_key e aead_key_len (ascii_bytes "key") [].
Definition derive_traffic_iv {E} (e : expander) : result E bytes := hkdf_expand_label NONCE_LEN e (ascii_bytes "iv") [].

(** ** The schedule *)

Record KeySchedule : Type := { current : expander; ks_suite : Tls13CipherSuite }.
Definition ks_hash (ks : KeySchedule) : hash_alg := hash_provider (common13 (ks_suite ks)).
Definition ks_new (suite : Tls13CipherSuite) (secret : bytes) : KeySchedule :=
  {| current := extract_from_secret (hash_provider (common13 suite)) None secret; ks_suite := suite |}.
Definition new_with_empty_secret (suite : Tls13CipherSuite) : KeySchedule :=
  {| current := extract_from_zero_ikm (hash_provider (common13 suite)) None; ks_suite := suite |}.

Definition derive {E} (ks : KeySchedule) (kind : SecretKind) (hs_hash : bytes) : result E bytes := hkdf_expand_label_block (current ks) (kind_to_bytes kind) hs_hash.
Definition derive_for_empty_hash {E} (ks : KeySchedule) (kind : SecretKind) : result E bytes :=
  empty_hash ← start_finish (ks_hash ks); derive ks kind empty_hash.
Definition derive_logged_secret {E} (ks : KeySchedule) (kind : SecretKind) (hs_hash : bytes) (key_log : KeyLog) (client_random : bytes) : result E (bytes * list log_line) :=
  output ← derive ks kind hs_hash;
  label ← unwrap (log_label kind);
  Ok (output, if will_log key_log label then [{| line_label := label; line_random := client_random; line_secret := output |}] else []).

Definition input_empty {E} (ks : KeySchedule) : result E KeySchedule :=
  salt ← derive_for_empty_hash ks DerivedSecret;
  Ok {| current := extract_from_zero_ikm (ks_hash ks) (Some salt); ks_suite := ks_suite ks |}.
(** [extract_from_kx_shared_secret] with the key exchange [kx]. *)
Definition extract_from_kx_shared_secret (h : hash_alg) (salt : option bytes) (kx : bytes -> result Error.t bytes) (peer_pub_key : bytes) : result Error.t expander :=
  secret ← kx peer_pub_key; Ok (extract_from_secret h salt secret).
Definition input_from_key_exchange (ks : KeySchedule) (kx : bytes -> result Error.t bytes) (peer_public_key : bytes) : result Error.t KeySchedule :=
  salt ← derive_for_empty_hash ks DerivedSecret;
  e ← extract_from_kx_shared_secret (ks_hash ks) (Some salt) kx peer_public_key;
  Ok {| current := e; ks_suite := ks_suite ks |}.

Definition sign_verify_data {E} (ks : KeySchedule) (base_key hs_hash : bytes) : result E bytes :=
  hmac_key ← hkdf_expand_label_block (expander_for_okm (ks_hash ks) base_key) (ascii_bytes "finished") [];
  Ok (hmac_sign (ks_hash ks) hmac_key hs_hash).
Definition sign_finish {E} (ks : KeySchedule) (base_key hs_hash : bytes) : result E bytes := sign_verify_data ks base_key hs_hash.
Definition derive_next {E} (ks : KeySchedule) (base_key : bytes) : result E bytes :=
  hkdf_expand_label_block (expander_for_okm (ks_hash ks) base_key) (ascii_bytes "traffic upd") [].
Definition derive_ticket_psk {E} (ks : KeySchedule) (rms nonce : bytes) : result E bytes :=
  hkdf_expand_label_block (expander_for_okm (ks_hash ks) rms) (ascii_bytes "resumption") nonce.
Definition ks_export_keying_material (ks : KeySchedule) (exporter_secret : bytes) (len : nat) (label : bytes) (context : option bytes) : result Error.t bytes :=
  h_empty ← hash (ks_hash ks) [];
  secret ← hkdf_expand_label_block (expander_for_okm (ks_hash ks) exporter_secret) label h_empty;
  h_context ← hash (ks_hash ks) (default [] context);
  ok_or (hkdf_expand_label_slice (expander_for_okm (ks_hash ks) secret) (ascii_bytes "exporter") h_context len) Error.General.

Definition traffic_key_iv {E} (ks : KeySchedule) (secret : bytes) : result E (AeadKey.t * bytes) :=
  let e := expander_for_okm (ks_hash ks) secret in
  key ← derive_traffic_key e (Tls13Aead.key_len (aead13 (ks_suite ks)));
  iv ← derive_traffic_iv e;
  Ok (key, iv).
Definition derive_encrypter {E} (ks : KeySchedule) (secret : bytes) : result E cipher :=
  '(key, iv) ← traffic_key_iv ks secret; Tls13Aead.encrypter (aead13 (ks_suite ks)) key iv.
Definition derive_decrypter {E} (ks : KeySchedule) (secret : bytes) : result E cipher :=
  '(key, iv) ← traffic_key_iv ks secret; Tls13Aead.decrypter (aead13 (ks_suite ks)) key iv.

(** ** Keys in the record layer *)

Definition pure {T} (r : result Error.t T) : Cmc T := lift id r.
Definition on_layer (f : RecordLayer (K:=cipher) -> RecordLayer (K:=cipher)) : Cmc unit := modify (fun s => set_record_layer (f (record_layer s)) s).
Definition set_encrypter (ks : KeySchedule) (secret : bytes) : Cmc unit := k ← pure (derive_encrypter ks secret); on_layer (set_message_encrypter k).
Definition set_decrypter (ks : KeySchedule) (secret : bytes) : Cmc unit := k ← pure (derive_decrypter ks secret); on_layer (set_message_decrypter k).

(** [quic::Secrets::new], after [suite.quic.unwrap()]. *)
Definition quic_secrets (ks : KeySchedule) (client server : bytes) (s : CommonState (K:=cipher)) : result Error.t QuicSecrets :=
  if Suites.quic (ks_suite ks)
  then Ok {| q_client := client; q_server := server; q_suite := ks_suite ks; q_side := side s; q_secrets_version := q_version (quic s) |}
  else Panic.
Definition when_quic (f : CommonState (K:=cipher) -> result Error.t (QuicState -> QuicState)) : Cmc unit := fun s =>
  if is_quic s then match f s with Ok g => (Ok tt, set_quic (g (quic s)) s) | Err e => (Err e, s) | Panic => (Panic, s) end else (Ok tt, s).

End key_schedule.

(** ** The typestates *)

Module KeyScheduleEarly.
Section states.
Context {H : Hashing} {P : Hkdf} {A : RingAead} `{DnsNames}.
Record t : Type := { ks : KeySchedule }.
Definition new (suite : Tls13CipherSuite) (secret : bytes) : t := {| ks := ks_new suite secret |}.
Definition client_early_traffic_secret (x : t) (hs_hash : bytes) (key_log : KeyLog) (client_random : bytes) : Cmc (list log_line) :=
  '(secret, log) ← pure (derive_logged_secret (ks x) ClientEarlyTrafficSecret hs_hash key_log client_random);
  sd ← gets side;
  _ ← match sd with Client => set_encrypter (ks x) secret | Server => set_decrypter (ks x) secret end;
  _ ← when_quic (fun _ => Ok (set_q_early_secret (Some secret)));
  mret log.
Definition resumption_psk_binder_key_and_sign_verify_data {E} (x : t) (hs_hash : bytes) : result E bytes :=
  binder_key ← derive_for_empty_hash (ks x) ResumptionPskBinderKey;
  sign_verify_data (ks x) binder_key hs_hash.
End states.
End KeyScheduleEarly.

Module KeyScheduleHandshakeStart.
Section states.
Context {H : Hashing} {P : Hkdf} {A : RingAead} `{DnsNames}.
Record t : Type := { ks : KeySchedule }.
End states.
End KeyScheduleHandshakeStart.
Module KeySchedulePreHandshake.
Section states.
Context {H : Hashing} {P : Hkdf} {A : RingAead} `{DnsNames}.
Record t : Type := { ks : KeySchedule }.
Definition new (suite : Tls13CipherSuite) : t := {| ks := new_with_empty_secret suite |}.
Definition into_handshake (x : t) (kx : bytes -> result Error.t bytes) (peer_public_key : bytes) : result Error.t KeyScheduleHandshakeStart.t :=
  ks ← input_from_key_exchange (ks x) kx peer_public_key; Ok {| KeyScheduleHandshakeStart.ks := ks |}.
Definition from_early (x : KeyScheduleEarly.t) : t := {| ks := KeyScheduleEarly.ks x |}.
End states.
End KeySchedulePreHandshake.

Module KeyScheduleTraffic.
Section states.
Context {H : Hashing} {P : Hkdf} {A : RingAead} `{DnsNames}.
Record t : Type := { ks : KeySchedule; client_traffic_secret : bytes; server_traffic_secret : bytes; exporter_secret : bytes }.
Definition new {E} (ks : KeySchedule) (hs_hash : bytes) (key_log : KeyLog) (client_random : bytes) : result E (t * list log_line) :=
  ks ← input_empty ks;
  '(c, log1) ← derive_logged_secret ks ClientApplicationTrafficSecret hs_hash key_log client_random;
  '(s, log2) ← derive_logged_secret ks ServerApplicationTrafficSecret hs_hash key_log client_random;
  '(e, log3) ← derive_logged_secret ks ExporterMasterSecret hs_hash key_log client_random;
  Ok ({| ks := ks; client_traffic_secret := c; server_traffic_secret := s; exporter_secret := e |}, log1 ++ log2 ++ log3).
Definition next_application_traffic_secret {E} (x : t) (sd : Side) : result E (bytes * t) :=
  match sd with
  | Client => s ← derive_next (ks x) (client_traffic_secret x);
      Ok (s, {| ks := ks x; client_traffic_secret := s; server_traffic_secret := server_traffic_secret x; exporter_secret := exporter_secret x |})
  | Server => s ← derive_next (ks x) (server_traffic_secret x);
      Ok (s, {| ks := ks x; client_traffic_secret := client_traffic_secret x; server_traffic_secret := s; exporter_secret := exporter_secret x |})
  end.
Definition update_encrypter_and_notify (x : t) : Cmc t :=
  sd ← gets side;
  '(secret, x) ← pure (next_application_traffic_secret x sd);
  _ ← enqueue_key_update_notification;
  _ ← set_encrypter (ks x) secret;
  mret x.
Definition update_decrypter (x : t) : Cmc t :=
  sd ← gets side;
  '(secret, x) ← pure (next_application_traffic_secret x (peer sd));
  _ ← set_decrypter (ks x) secret;
  mret x.
Definition resumption_master_secret_and_derive_ticket_psk {E} (x : t) (hs_hash nonce : bytes) : result E bytes :=
  rms ← derive (ks x) ResumptionMasterSecret hs_hash; derive_ticket_psk (ks x) rms nonce.
Definition export_keying_material (x : t) (len : nat) (label : bytes) (context : option bytes) : result Error.t bytes :=
  ks_export_keying_material (ks x) (exporter_secret x) len label context.
(** [PartiallyExtractedSecrets]: [tx] and [rx]. *)
Definition extract_secrets {E} (x : t) (sd : Side) : result E (ConnectionTrafficSecrets * ConnectionTrafficSecrets) :=
  '(ck, civ) ← traffic_key_iv (ks x) (client_traffic_secret x);
  '(sk, siv) ← traffic_key_iv (ks x) (server_traffic_secret x);
  let c := Tls13Aead.extract_keys (aead13 (ks_suite (ks x))) ck civ in
  let s := Tls13Aead.extract_keys (aead13 (ks_suite (ks x))) sk siv in
  Ok match sd with Client => (c, s) | Server => (s, c) end.
End states.
End KeyScheduleTraffic.

Module KeyScheduleClientBeforeFinished.
Section states.
Context {H : Hashing} {P : Hkdf} {A : RingAead} `{DnsNames}.
Record t : Type := { traffic : KeyScheduleTraffic.t }.
Definition into_traffic (x : t) : Cmc KeyScheduleTraffic.t :=
  let tr := traffic x in
  _ ← set_decrypter (KeyScheduleTraffic.ks tr) (KeyScheduleTraffic.server_traffic_secret tr);
  _ ← set_encrypter (KeyScheduleTraffic.ks tr) (KeyScheduleTraffic.client_traffic_secret tr);
  _ ← when_quic (fun s => q ← quic_secrets (KeyScheduleTraffic.ks tr) (KeyScheduleTraffic.client_traffic_secret tr) (KeyScheduleTraffic.server_traffic_secret tr) s;
                          Ok (set_q_traffic_secrets (Some q)));
  mret tr.
End states.
End KeyScheduleClientBeforeFinished.

Module ClientFinishedPending.
Section states.
Context {H : Hashing} {P : Hkdf} {A : RingAead} `{DnsNames}.
(** [KeyScheduleTrafficWithClientFinishedPending]. *)
Record t : Type := { handshake_client_traffic_secret : bytes; traffic : KeyScheduleTraffic.t }.
Definition update_decrypter (x : t) : Cmc unit := set_decrypter (KeyScheduleTraffic.ks (traffic x)) (handshake_client_traffic_secret x).
Definition sign_client_finish (x : t) (hs_hash : bytes) : Cmc (KeyScheduleTraffic.t * bytes) :=
  let tr := traffic x in
  tag ← pure (sign_finish (KeyScheduleTraffic.ks tr) (handshake_client_traffic_secret x) hs_hash);
  _ ← set_decrypter (KeyScheduleTraffic.ks tr) (KeyScheduleTraffic.client_traffic_secret tr);
  mret (tr, tag).
End states.
End ClientFinishedPending.

Module KeyScheduleHandshake.
Section states.
Context {H : Hashing} {P : Hkdf} {A : RingAead} `{DnsNames}.
Record t : Type := { ks : KeySchedule; client_handshake_traffic_secret : bytes; server_handshake_traffic_secret : bytes }.
Definition sign_server_finish {E} (x : t) (hs_hash : bytes) : result E bytes := sign_finish (ks x) (server_handshake_traffic_secret x) hs_hash.
Definition set_handshake_encrypter (x : t) : Cmc unit := set_encrypter (ks x) (client_handshake_traffic_secret x).
Definition set_handshake_decrypter (x : t) (skip_requested : option nat) : Cmc unit :=
  match skip_requested with
  | None => set_decrypter (ks x) (client_handshake_traffic_secret x)
  | Some max_early_data_size =>
      k ← pure (derive_decrypter (ks x) (client_handshake_traffic_secret x));
      on_layer (set_message_decrypter_with_trial_decryption k max_early_data_size)
  end.
Definition into_traffic_with_client_finished_pending (x : t) (hs_hash : bytes) (key_log : KeyLog) (client_random : bytes) : Cmc (ClientFinishedPending.t * list log_line) :=
  '(tr, log) ← pure (KeyScheduleTraffic.new (ks x) hs_hash key_log client_random);
  _ ← set_encrypter (KeyScheduleTraffic.ks tr) (KeyScheduleTraffic.server_traffic_secret tr);
  _ ← when_quic (fun s => q ← quic_secrets (KeyScheduleTraffic.ks tr) (KeyScheduleTraffic.client_traffic_secret tr) (KeyScheduleTraffic.server_traffic_secret tr) s;
                          Ok (set_q_traffic_secrets (Some q)));
  mret ({| ClientFinishedPending.handshake_client_traffic_secret := client_handshake_traffic_secret x; ClientFinishedPending.traffic := tr |}, log).
Definition into_pre_finished_client_traffic {E} (x : t) (pre_finished_hash handshake_hash : bytes) (key_log : KeyLog) (client_random : bytes) :
    result E (KeyScheduleClientBeforeFinished.t * bytes * list log_line) :=
  '(tr, log) ← KeyScheduleTraffic.new (ks x) pre_finished_hash key_log client_random;
  tag ← sign_finish (KeyScheduleTraffic.ks tr) (client_handshake_traffic_secret x) handshake_hash;
  Ok ({| KeyScheduleClientBeforeFinished.traffic := tr |}, tag, log).
End states.
End KeyScheduleHandshake.

(** [KeyScheduleHandshakeStart]. *)
Section start.
Context {H : Hashing} {P : Hkdf} {A : RingAead} `{DnsNames}.
Definition hs_into_handshake (ks : KeySchedule) (hs_hash : bytes) (key_log : KeyLog) (client_random : bytes) : Cmc (KeyScheduleHandshake.t * list log_line) :=
  '(c, log1) ← pure (derive_logged_secret ks ClientHandshakeTrafficSecret hs_hash key_log client_random);
  '(s, log2) ← pure (derive_logged_secret ks ServerHandshakeTrafficSecret hs_hash key_log client_random);
  _ ← when_quic (fun st => q ← quic_secrets ks c s st; Ok (set_q_hs_secrets (Some q)));
  mret ({| KeyScheduleHandshake.ks := ks; KeyScheduleHandshake.client_handshake_traffic_secret := c; KeyScheduleHandshake.server_handshake_traffic_secret := s |}, log1 ++ log2).
Definition derive_client_handshake_secrets (x : KeyScheduleHandshakeStart.t) (early_data_enabled : bool) (hs_hash : bytes) (suite : Tls13CipherSuite)
    (key_log : KeyLog) (client_random : bytes) : Cmc (KeyScheduleHandshake.t * list log_line) :=
  let ks := {| current := current (KeyScheduleHandshakeStart.ks x); ks_suite := suite |} in
  '(new, log) ← hs_into_handshake ks hs_hash key_log client_random;
  _ ← set_decrypter (KeyScheduleHandshake.ks new) (KeyScheduleHandshake.server_handshake_traffic_secret new);
  _ ← (if early_data_enabled then mret tt else set_encrypter (KeyScheduleHandshake.ks new) (KeyScheduleHandshake.client_handshake_traffic_secret new));
  mret (new, log).
Definition derive_server_handshake_secrets (x : KeyScheduleHandshakeStart.t) (hs_hash : bytes) (key_log : KeyLog) (client_random : bytes) :
    Cmc (KeyScheduleHandshake.t * list log_line) :=
  '(new, log) ← hs_into_handshake (KeyScheduleHandshakeStart.ks x) hs_hash key_log client_random;
  _ ← set_encrypter (KeyScheduleHandshake.ks new) (KeyScheduleHandshake.server_handshake_traffic_secret new);
  mret (new, log).
End start.

(** ** The text that a CertificateVerify signs (tls13/mod.rs) *)

Definition construct_verify_message (handshake_hash context_string_with_0 : bytes) : bytes := replicate 64 0x20 ++ context_string_with_0 ++ handshake_hash.
Definition construct_client_verify_message (handshake_hash : bytes) : bytes :=
  construct_verify_message handshake_hash (ascii_bytes "TLS 1.3, client CertificateVerify" ++ [0]).
Definition construct_server_verify_message (handshake_hash : bytes) : bytes :=
  construct_verify_message handshake_hash (ascii_bytes "TLS 1.3, server CertificateVerify" ++ [0]).

(** ** Labels *)

(** Key separation.  Two expansions use the same HKDF info only if label,
    context and length are the same, for labels of at most 249 and contexts of at
    most 255 bytes; and no two kinds of secret share a label.  Longer labels, which
    [export_keying_material] passes on as given, have the length byte wrap. *)
Theorem label_separation l1 l2 c1 c2 n1 n2 :
  zlen l1 <= 249 -> zlen l2 <= 249 -> zlen c1 <= 255 -> zlen c2 <= 255 -> Z.of_nat n1 < 2 ^ 16 -> Z.of_nat n2 < 2 ^ 16 ->
  (concat (hkdf_label l1 c1 n1) = concat (hkdf_label l2 c2 n2) -> l1 = l2 /\ c1 = c2 /\ n1 = n2) /\
  (forall k1 k2, kind_to_bytes k1 = kind_to_bytes k2 -> k1 = k2).
Proof.
  intros Hl1 Hl2 Hc1 Hc2 Hn1 Hn2. split; [|by intros [] [] Hk; try done; vm_compute in Hk].
  cbn [hkdf_label concat]. rewrite !app_nil_r. unfold u16, u8. change (zlen LABEL_PREFIX) with 6. intros Heq.
  apply app_inj_1 in Heq as [Hn Heq]; [|by rewrite !be_encode_length]. apply app_inj_1 in Heq as [Hl Heq]; [|by rewrite !be_encode_length].
  apply (f_equal be_decode) in Hn, Hl. rewrite !be_decode_encode in Hn, Hl. unfold zlen in *. cbn in Hn, Hl. rewrite !Z.mod_mod, !Z.mod_small in Hn, Hl by lia.
  apply app_inv_head in Heq.
  apply app_inj_1 in Heq as [-> Heq]; [|lia]. apply app_inj_1 in Heq as [_ ->]; [|by rewrite !be_encode_length]. split; [done|]. split; [done|lia].
Qed.
Lemma label_separation_witness :
  concat (hkdf_label (ascii_bytes "key") [] 16) <> concat (hkdf_label (ascii_bytes "iv") [] 12).
Proof.
  intros Heq. destruct (label_separation (ascii_bytes "key") (ascii_bytes "iv") [] [] 16 12) as [Hs _];
    [vm_compute; congruence|vm_compute; congruence|vm_compute; congruence|vm_compute; congruence|reflexivity|reflexivity|].
  destruct (Hs Heq) as [Hk _]. discriminate Hk.
Defined.
