(* ===== verification/KeyScheduleLaws.v ===== *)
(** * The two ends of a TLS 1.3 handshake derive the same keys

    The key schedule never panics, and the keys that the client and the server
    install after the same transcript open each other's records, through the
    handshake, the application data and every key update. *)
From S2P Require Import Prelude Codec TlsLayer VecBuf Enums Wire Messages Payloads Ciphers Suites Errors Common CommonLaws Hkdf KeySchedule.
Import CommonState.

(** ** Running the monad *)

Section wp.
Context {K : Type}.
Implicit Types s : CommonState (K:=K).
Definition wp {T} (m : Cm (K:=K) T) s (Q : T -> CommonState (K:=K) -> Prop) : Prop := match m s with (Ok x, s') => Q x s' | _ => False end.
Lemma cm_wp_bind {T U} (m : Cm (K:=K) T) (f : T -> Cm (K:=K) U) s Q : wp m s (fun x s' => wp (f x) s' Q) -> wp (m ≫= f) s Q.
Proof. unfold wp, mbind, Cm_bind. by destruct (m s) as [[]]. Qed.
Lemma wp_run {T} (m : Cm (K:=K) T) s Q : wp m s Q -> exists x s', m s = (Ok x, s') /\ Q x s'.
Proof. unfold wp. destruct (m s) as [[x| |] s']; [|done|done]. eauto. Qed.
Lemma bind_run {T U} (m : Cm (K:=K) T) (f : T -> Cm (K:=K) U) s y s' : (m ≫= f) s = (Ok y, s') -> exists x s1, m s = (Ok x, s1) /\ f x s1 = (Ok y, s').
Proof. unfold mbind, Cm_bind. destruct (m s) as [[x| |] s1]; [|done|done]. eauto. Qed.
End wp.

Section schedule.
Context {H : Hashing} {HL : HashingLaws H} {P : Hkdf} {PL : HkdfLaws P}.

(** ** No panic *)

Lemma output_small h : (output_len h <= MAX_LEN)%nat.
Proof. apply output_len_bounds. Qed.
Lemma label_block_total e label ctx : (hash_len e <= MAX_LEN)%nat ->
  exists okm, length okm = hash_len e /\ forall E, hkdf_expand_label_block (E:=E) e label ctx = Ok okm.
Proof.
  intros Hl. unfold hkdf_expand_label_block, hkdf_expand_label_inner. set (info := hkdf_label label ctx (hash_len e)).
  destruct (expand_slice_ok e info (hash_len e)) as (okm & Hs & Hlen); [lia|]. exists okm. split; [done|]. intros E.
  destruct (expand_block_slice (E:=E) e info Hl) as (okm' & Hs' & ->). congruence.
Qed.
Lemma okm_block_total h key label ctx : exists okm, length okm = output_len h /\ forall E, hkdf_expand_label_block (E:=E) (expander_for_okm h key) label ctx = Ok okm.
Proof. rewrite <- (hash_len_okm h key). apply label_block_total. rewrite hash_len_okm. apply output_small. Qed.

(** A schedule whose current secret fits its hash. *)
Definition ks_ok (ks : KeySchedule) : Prop := hash_len (current ks) = output_len (ks_hash ks).
Lemma ks_new_ok suite secret : ks_ok (ks_new suite secret).
Proof. apply hash_len_secret. Qed.
Lemma ks_empty_ok suite : ks_ok (new_with_empty_secret suite).
Proof. apply hash_len_zero. Qed.
Lemma derive_total ks kind h : ks_ok ks -> exists okm, length okm = output_len (ks_hash ks) /\ forall E, derive (E:=E) ks kind h = Ok okm.
Proof. intros Hk. unfold derive. rewrite <- Hk. apply label_block_total. rewrite Hk. apply output_small. Qed.
Lemma start_finish_total h : exists d, length d = output_len h /\ forall E, start_finish (E:=E) h = Ok d.
Proof.
  pose proof (digest_length h []) as Hl. cbn [fold_left] in Hl. eexists. split; [exact Hl|]. intros E. apply block_new_ok. rewrite Hl. apply output_small.
Qed.
Lemma derive_empty_total ks kind : ks_ok ks -> exists okm, length okm = output_len (ks_hash ks) /\ forall E, derive_for_empty_hash (E:=E) ks kind = Ok okm.
Proof.
  intros Hk. destruct (start_finish_total (ks_hash ks)) as (d & _ & Hd). destruct (derive_total ks kind d Hk) as (okm & Hl & Ho).
  exists okm. split; [done|]. intros E. unfold derive_for_empty_hash. rewrite Hd. apply Ho.
Qed.
Lemma logged_total ks kind h label : ks_ok ks -> log_label kind = Some label ->
  exists okm, forall kl cr, exists log, forall E, derive_logged_secret (E:=E) ks kind h kl cr = Ok (okm, log).
Proof.
  intros Hk Hl. destruct (derive_total ks kind h Hk) as (okm & _ & Ho). exists okm. intros kl cr. eexists. intros E.
  unfold derive_logged_secret. by rewrite Ho, Hl.
Qed.
Lemma sign_total ks base h : exists tag, length tag = output_len (ks_hash ks) /\ forall E, sign_verify_data (E:=E) ks base h = Ok tag.
Proof.
  destruct (okm_block_total (ks_hash ks) base (ascii_bytes "finished") []) as (k & _ & Hk). eexists. split; [apply (hmac_sign_length _ k h)|].
  intros E. unfold sign_verify_data. by rewrite Hk.
Qed.
Lemma derive_next_total ks base : exists okm, length okm = output_len (ks_hash ks) /\ forall E, derive_next (E:=E) ks base = Ok okm.
Proof. apply okm_block_total. Qed.
Lemma input_empty_total ks : ks_ok ks -> exists ks', (forall E, input_empty (E:=E) ks = Ok ks') /\ ks_ok ks' /\ ks_suite ks' = ks_suite ks.
Proof.
  intros Hk. destruct (derive_empty_total ks DerivedSecret Hk) as (salt & _ & Hs). eexists. split; [intros E; unfold input_empty; by rewrite Hs|].
  split; [apply hash_len_zero|done].
Qed.
Lemma input_kx_total ks kx pub z : ks_ok ks -> kx pub = Ok z ->
  exists ks', input_from_key_exchange ks kx pub = Ok ks' /\ ks_ok ks' /\ ks_suite ks' = ks_suite ks.
Proof.
  intros Hk Hz. destruct (derive_empty_total ks DerivedSecret Hk) as (salt & _ & Hs). unfold input_from_key_exchange, extract_from_kx_shared_secret.
  rewrite Hs, Hz. eexists. split; [done|]. split; [apply hash_len_secret|done].
Qed.

(** ** The traffic keys of a secret *)

Lemma traffic_total ks secret : exists key iv, length (AeadKey.as_ref key) = alg_key_len (aead13 (ks_suite ks)) /\ length iv = NONCE_LEN /\
  forall E, traffic_key_iv (E:=E) ks secret = Ok (key, iv).
Proof.
  unfold traffic_key_iv, derive_traffic_key, derive_traffic_iv, hkdf_expand_label_aead_key, hkdf_expand_label, hkdf_expand_label_inner, expand.
  set (e := expander_for_okm _ _). pose proof (output_len_bounds (ks_hash ks)) as [Hp _]. assert (hash_len e = output_len (ks_hash ks)) as He by apply hash_len_okm.
  assert (Hk : (alg_key_len (aead13 (ks_suite ks)) <= AeadKey.MAX_LEN)%nat) by (unfold AeadKey.MAX_LEN; destruct (aead13 _); cbn; lia).
  destruct (ks_hash ks) eqn:Hh; cbn [output_len] in He.
  all: destruct (expand_slice_ok e (hkdf_label (ascii_bytes "key") [] (Tls13Aead.key_len (aead13 (ks_suite ks)))) AeadKey.MAX_LEN) as (key & Hkey & Hkl); [unfold AeadKey.MAX_LEN; lia|].
  all: destruct (expand_slice_ok e (hkdf_label (ascii_bytes "iv") [] NONCE_LEN) NONCE_LEN) as (iv & Hiv & Hivl); [unfold NONCE_LEN; lia|].
  all: eexists {| AeadKey.buf := key; AeadKey.used := Tls13Aead.key_len (aead13 (ks_suite ks)) |}, iv; split; [|split; [exact Hivl|]].
  1, 3: unfold AeadKey.as_ref; cbn [AeadKey.buf AeadKey.used]; rewrite length_take, Hkl; unfold Tls13Aead.key_len; lia.
  all: intros E; rewrite Hkey, Hiv; cbn [unwrap mbind result_bind]; unfold AeadKey.with_length, AeadKey.from_array; cbn [AeadKey.buf AeadKey.used];
    unfold Tls13Aead.key_len; by rewrite (proj2 (Nat.leb_le _ _)) by done.
Qed.
(** The two ciphers that a secret gives, which open each other's records. *)
Definition keys_of (ks : KeySchedule) (secret : bytes) (ke kd : cipher) : Prop :=
  (forall E, derive_encrypter (E:=E) ks secret = Ok ke) /\ (forall E, derive_decrypter (E:=E) ks secret = Ok kd) /\ cipher_paired ke kd.
Lemma keys_total ks secret : exists ke kd, keys_of ks secret ke kd.
Proof.
  destruct (traffic_total ks secret) as (key & iv & Hk & Hiv & Ht). set (k := AeadKey.as_ref key) in *. set (a := aead13 (ks_suite ks)) in *.
  exists (Tls13MessageEncrypter a k iv), (Tls13MessageDecrypter a k iv). split; [|split; [|done]]; intros E;
    unfold derive_encrypter, derive_decrypter; rewrite Ht; cbn [mbind result_bind]; unfold Tls13Aead.encrypter, Tls13Aead.decrypter, unbound_key;
    fold k; fold a; by rewrite Hk, Nat.eqb_refl.
Qed.
End schedule.

(** ** Agreement *)

Section agreement.
Context {H : Hashing} {HL : HashingLaws H} {P : Hkdf} {PL : HkdfLaws P} {A : RingAead} {AL : RingAeadLaws A} `{DnsNames}.
Abbreviation state := (CommonState (K:=cipher)).
Implicit Types (c s : state) (l r : RecordLayer (K:=cipher)).

Lemma wp_set_encrypter ks secret ke kd s Q :
  keys_of ks secret ke kd -> Q tt (set_record_layer (set_message_encrypter ke (record_layer s)) s) -> wp (set_encrypter ks secret) s Q.
Proof. intros (He & _ & _) HQ. unfold wp, set_encrypter, mbind, Cm_bind, pure, lift. by rewrite He. Qed.
Lemma wp_set_decrypter ks secret ke kd s Q :
  keys_of ks secret ke kd -> Q tt (set_record_layer (set_message_decrypter kd (record_layer s)) s) -> wp (set_decrypter ks secret) s Q.
Proof. intros (_ & Hd & _) HQ. unfold wp, set_decrypter, mbind, Cm_bind, pure, lift. by rewrite Hd. Qed.
Lemma wp_pure {T} (r : result Error.t T) (x : T) s Q : r = Ok x -> Q x s -> wp (pure r) s Q.
Proof. by intros ->. Qed.
Lemma wp_when_quic f s (Q : unit -> state -> Prop) :
  (is_quic s = true -> exists g, f s = Ok g) -> (forall q, Q tt (set_quic q s)) -> wp (when_quic f) s Q.
Proof.
  intros Hf HQ. unfold wp, when_quic. destruct (is_quic s); [destruct Hf as [g ->]; [done|apply HQ]|].
  specialize (HQ (quic s)). by destruct s.
Qed.
Lemma quic_secrets_ok ks a b s : (is_quic s = true -> Suites.quic (ks_suite ks) = true) -> is_quic s = true -> exists q, quic_secrets ks a b s = Ok q.
Proof. intros Hq Hs. unfold quic_secrets. rewrite (Hq Hs). eauto. Qed.

(** Each end opens what the other sends. *)
Definition both_in_step l r : Prop := (exists ke kd, in_step ke kd l r) /\ (exists ke kd, in_step ke kd r l).
(** A layer with fresh keys, for sending and for receiving. *)
Record installed (ke kd : cipher) l : Prop := {
  inst_enc : message_encrypter l = Some ke; inst_wseq : write_seq l = 0;
  inst_dec : message_decrypter l = Some kd; inst_rseq : read_seq l = 0; inst_active : decrypt_state l = Active
}.
Lemma installed_both ks secret1 secret2 ke1 kd1 ke2 kd2 l r :
  keys_of ks secret1 ke1 kd1 -> keys_of ks secret2 ke2 kd2 -> installed ke1 kd2 l -> installed ke2 kd1 r -> both_in_step l r.
Proof.
  intros (_ & _ & H1) (_ & _ & H2) [] []. split; [exists ke1, kd1; split; [exact H1|try done..]|exists ke2, kd2; split; [exact H2|try done..]]; try congruence; lia.
Qed.

(** The handshake secrets, from the same key exchange. *)
Lemma same_start xc xs kxc kxs pubc pubs z :
  current (KeySchedulePreHandshake.ks xc) = current (KeySchedulePreHandshake.ks xs) ->
  ks_hash (KeySchedulePreHandshake.ks xc) = ks_hash (KeySchedulePreHandshake.ks xs) ->
  ks_ok (KeySchedulePreHandshake.ks xs) -> kxc pubs = Ok z -> kxs pubc = Ok z ->
  exists stc sts, KeySchedulePreHandshake.into_handshake xc kxc pubs = Ok stc /\ KeySchedulePreHandshake.into_handshake xs kxs pubc = Ok sts /\
    current (KeyScheduleHandshakeStart.ks stc) = current (KeyScheduleHandshakeStart.ks sts) /\ ks_ok (KeyScheduleHandshakeStart.ks sts) /\
    ks_suite (KeyScheduleHandshakeStart.ks sts) = ks_suite (KeySchedulePreHandshake.ks xs).
Proof.
  destruct xc as [[cu suc]], xs as [[cu' sus]]. unfold ks_hash. cbn [KeySchedulePreHandshake.ks current ks_suite]. intros <- Hh Hok Hzc Hzs.
  assert (Hokc : ks_ok {| current := cu; ks_suite := suc |}) by (unfold ks_ok, ks_hash in *; cbn in *; congruence).
  unfold KeySchedulePreHandshake.into_handshake, input_from_key_exchange, extract_from_kx_shared_secret, ks_hash. cbn [KeySchedulePreHandshake.ks current ks_suite].
  assert (Hsalt : derive_for_empty_hash (E:=Error.t) {| current := cu; ks_suite := suc |} DerivedSecret = derive_for_empty_hash {| current := cu; ks_suite := sus |} DerivedSecret).
  { unfold derive_for_empty_hash, ks_hash. cbn. by rewrite Hh. }
  rewrite Hsalt, Hzc, Hzs, Hh. destruct (derive_empty_total _ DerivedSecret Hok) as (salt & _ & Hs). rewrite Hs. cbn [mbind result_bind].
  eexists _, _. split; [done|]. split; [done|]. split; [done|]. split; [apply hash_len_secret|done].
Qed.
Lemma hs_total ks h : ks_ok ks ->
  exists hs, KeyScheduleHandshake.ks hs = ks /\
    forall kl cr s Q, (is_quic s = true -> Suites.quic (ks_suite ks) = true) -> (forall log q, Q (hs, log) (set_quic q s)) -> wp (hs_into_handshake ks h kl cr) s Q.
Proof.
  intros Hk. destruct (logged_total ks ClientHandshakeTrafficSecret h _ Hk eq_refl) as [cs Hc].
  destruct (logged_total ks ServerHandshakeTrafficSecret h _ Hk eq_refl) as [ss Hs].
  eexists {| KeyScheduleHandshake.client_handshake_traffic_secret := cs; KeyScheduleHandshake.server_handshake_traffic_secret := ss |}.
  split; [reflexivity|]. intros kl cr s Q Hq HQ. destruct (Hc kl cr) as [lc Hlc], (Hs kl cr) as [ls Hls]. unfold hs_into_handshake.
  eapply cm_wp_bind, wp_pure; [apply Hlc|]. eapply cm_wp_bind, wp_pure; [apply Hls|]. apply cm_wp_bind, wp_when_quic; [|intros q; apply HQ].
  intros Hs1. destruct (quic_secrets_ok ks cs ss s Hq Hs1) as [q ->]. eauto.
Qed.
Lemma traffic_new_total ks h : ks_ok ks ->
  exists tr, ks_suite (KeyScheduleTraffic.ks tr) = ks_suite ks /\ forall kl cr, exists log, forall E, KeyScheduleTraffic.new (E:=E) ks h kl cr = Ok (tr, log).
Proof.
  intros Hk. destruct (input_empty_total ks Hk) as (ks' & Hi & Hk' & Hsu).
  destruct (logged_total ks' ClientApplicationTrafficSecret h _ Hk' eq_refl) as [cs Hc].
  destruct (logged_total ks' ServerApplicationTrafficSecret h _ Hk' eq_refl) as [ss Hs].
  destruct (logged_total ks' ExporterMasterSecret h _ Hk' eq_refl) as [es He].
  eexists {| KeyScheduleTraffic.ks := ks'; KeyScheduleTraffic.client_traffic_secret := cs; KeyScheduleTraffic.server_traffic_secret := ss; KeyScheduleTraffic.exporter_secret := es |}.
  split; [exact Hsu|]. intros kl cr. destruct (Hc kl cr) as [l1 H1], (Hs kl cr) as [l2 H2], (He kl cr) as [l3 H3].
  exists (l1 ++ l2 ++ l3). intros E. unfold KeyScheduleTraffic.new. rewrite Hi. cbn [mbind result_bind]. rewrite H1. cbn [mbind result_bind]. rewrite H2.
  cbn [mbind result_bind]. by rewrite H3.
Qed.

(** The keys of the handshake. *)
Lemma handshake_keys cu suc ks h klc kls cr c s :
  current ks = cu -> ks_ok ks -> (is_quic c = true \/ is_quic s = true -> Suites.quic (ks_suite ks) = true) ->
  exists hs lc ls c1 s1 s2, KeyScheduleHandshake.ks hs = ks /\
    derive_client_handshake_secrets {| KeyScheduleHandshakeStart.ks := {| current := cu; ks_suite := suc |} |} false h (ks_suite ks) klc cr c = (Ok (hs, lc), c1) /\
    derive_server_handshake_secrets {| KeyScheduleHandshakeStart.ks := ks |} h kls cr s = (Ok (hs, ls), s1) /\
    KeyScheduleHandshake.set_handshake_decrypter hs None s1 = (Ok tt, s2) /\
    both_in_step (record_layer c1) (record_layer s2).
Proof.
  intros <- Hk Hq. destruct (hs_total ks h Hk) as (hs & Hhs & Hrun).
  destruct (keys_total (KeyScheduleHandshake.ks hs) (KeyScheduleHandshake.client_handshake_traffic_secret hs)) as (kce & kcd & Hkc).
  destruct (keys_total (KeyScheduleHandshake.ks hs) (KeyScheduleHandshake.server_handshake_traffic_secret hs)) as (kse & ksd & Hks).
  edestruct (wp_run (derive_client_handshake_secrets {| KeyScheduleHandshakeStart.ks := {| current := current ks; ks_suite := suc |} |} false h (ks_suite ks) klc cr) c
    (fun x c1 => x.1 = hs /\ installed kce ksd (record_layer c1))) as ([hs' lc] & c1 & Hrc & Heq & Hic).
  { unfold derive_client_handshake_secrets. cbn [KeyScheduleHandshakeStart.ks current]. replace {| current := current ks; ks_suite := ks_suite ks |} with ks by by destruct ks.
    apply cm_wp_bind, Hrun; [auto|]. intros log q. eapply cm_wp_bind, wp_set_decrypter; [exact Hks|]. eapply cm_wp_bind, wp_set_encrypter; [exact Hkc|]. done. }
  cbn in Heq. subst hs'.
  edestruct (wp_run (x ← derive_server_handshake_secrets {| KeyScheduleHandshakeStart.ks := ks |} h kls cr; _ ← KeyScheduleHandshake.set_handshake_decrypter hs None; mret x) s
    (fun x s2 => x.1 = hs /\ installed kse kcd (record_layer s2))) as ([hs' ls] & s2 & Hrs & Heq & His).
  { apply cm_wp_bind. unfold derive_server_handshake_secrets. apply cm_wp_bind, Hrun; [auto|]. intros log q. eapply cm_wp_bind, wp_set_encrypter; [exact Hks|].
    eapply cm_wp_bind, wp_set_decrypter; [exact Hkc|]. done. }
  cbn in Heq. subst hs'. apply bind_run in Hrs as ([hs' ls'] & s1 & Hs1 & Hrs). apply bind_run in Hrs as ([] & s2' & Hs2 & Hrs).
  injection Hrs as -> -> ->. exists hs, lc, ls, c1, s1, s2. repeat (split; [done|]). by apply (installed_both _ _ _ _ _ _ _ _ _ Hkc Hks).
Qed.
(** The keys of the application data. *)
Lemma traffic_keys hs h2 h3 klc kls cr c s :
  ks_ok (KeyScheduleHandshake.ks hs) -> (is_quic c = true \/ is_quic s = true -> Suites.quic (ks_suite (KeyScheduleHandshake.ks hs)) = true) ->
  exists fp bf tr tag lc ls c' s1 s2,
    KeyScheduleHandshake.into_traffic_with_client_finished_pending hs h2 kls cr s = (Ok (fp, ls), s1) /\
    KeyScheduleHandshake.into_pre_finished_client_traffic (E:=Error.t) hs h2 h3 klc cr = Ok (bf, tag, lc) /\
    KeyScheduleClientBeforeFinished.into_traffic bf c = (Ok tr, c') /\
    ClientFinishedPending.sign_client_finish fp h3 s1 = (Ok (tr, tag), s2) /\
    both_in_step (record_layer c') (record_layer s2).
Proof.
  intros Hk Hq. destruct (traffic_new_total _ h2 Hk) as (tr & Hsu & Hnew). rewrite <- Hsu in Hq. destruct (Hnew klc cr) as [lc Hlc], (Hnew kls cr) as [ls Hls].
  destruct (sign_total (KeyScheduleTraffic.ks tr) (KeyScheduleHandshake.client_handshake_traffic_secret hs) h3) as (tag & _ & Htag).
  destruct (keys_total (KeyScheduleTraffic.ks tr) (KeyScheduleTraffic.client_traffic_secret tr)) as (kce & kcd & Hkc).
  destruct (keys_total (KeyScheduleTraffic.ks tr) (KeyScheduleTraffic.server_traffic_secret tr)) as (kse & ksd & Hks).
  set (bf := {| KeyScheduleClientBeforeFinished.traffic := tr |}).
  edestruct (wp_run (KeyScheduleClientBeforeFinished.into_traffic bf) c (fun x c' => x = tr /\ installed kce ksd (record_layer c'))) as (tr' & c' & Hrc & -> & Hic).
  { eapply cm_wp_bind, wp_set_decrypter; [exact Hks|]. eapply cm_wp_bind, wp_set_encrypter; [exact Hkc|].
    apply cm_wp_bind, wp_when_quic; [|done]. intros Hc. match goal with |- context [quic_secrets ?a ?b ?d ?e] => destruct (quic_secrets_ok a b d e) as [q ->] end; [|done|eauto].
    intros _. apply Hq. left. exact Hc. }
  set (fp := {| ClientFinishedPending.handshake_client_traffic_secret := KeyScheduleHandshake.client_handshake_traffic_secret hs; ClientFinishedPending.traffic := tr |}).
  edestruct (wp_run (x ← KeyScheduleHandshake.into_traffic_with_client_finished_pending hs h2 kls cr; y ← ClientFinishedPending.sign_client_finish fp h3; mret (x, y)) s
    (fun x s2 => x = (fp, ls, (tr, tag)) /\ installed kse kcd (record_layer s2))) as (x & s2 & Hrs & -> & His).
  { apply cm_wp_bind. eapply cm_wp_bind, wp_pure; [apply Hls|]. eapply cm_wp_bind, wp_set_encrypter; [exact Hks|]. apply cm_wp_bind, wp_when_quic.
    - intros Hc. match goal with |- context [quic_secrets ?a ?b ?d ?e] => destruct (quic_secrets_ok a b d e) as [q ->] end; [|done|eauto]. intros _. apply Hq. right. exact Hc.
    - intros q. apply cm_wp_bind. eapply cm_wp_bind, wp_pure; [apply Htag|]. eapply cm_wp_bind, wp_set_decrypter; [exact Hkc|]. done. }
  apply bind_run in Hrs as (x1 & s1 & Hs1 & Hrs). apply bind_run in Hrs as (x2 & s2' & Hs2 & Hrs). injection Hrs as -> -> ->.
  exists fp, bf, tr, tag, lc, ls, c', s1, s2. split; [done|]. split; [|split; [done|split; [done|by apply (installed_both _ _ _ _ _ _ _ _ _ Hkc Hks)]]].
  unfold KeyScheduleHandshake.into_pre_finished_client_traffic. rewrite Hlc. cbn [mbind result_bind]. unfold sign_finish. by rewrite Htag.
Qed.

(** C31: A client and a server that start from the same secret (a fresh handshake,
    or a resumption under a suite with the same hash), whose key exchanges give
    the same shared secret and whose transcripts agree, install keys that open
    each other's records.  After the handshake hash each end reads what the other
    writes; the server accepts the Finished tag the client computes, because both
    compute the same one; and after it, whatever records were exchanged in
    between, each end again reads what the other writes.  No step panics, in TCP
    or in QUIC.  (The client sends no early data, and a QUIC connection has a suite for
    QUIC.) *)
Theorem handshake_keys_agree xc xs kxc kxs pubc pubs z h1 h2 h3 klc kls cr c s :
  current (KeySchedulePreHandshake.ks xc) = current (KeySchedulePreHandshake.ks xs) ->
  ks_hash (KeySchedulePreHandshake.ks xc) = ks_hash (KeySchedulePreHandshake.ks xs) ->
  ks_ok (KeySchedulePreHandshake.ks xs) -> kxc pubs = Ok z -> kxs pubc = Ok z ->
  let suite := ks_suite (KeySchedulePreHandshake.ks xs) in
  (is_quic c = true \/ is_quic s = true -> Suites.quic suite = true) ->
  exists stc sts hs lc ls c1 s1 s2,
    KeySchedulePreHandshake.into_handshake xc kxc pubs = Ok stc /\ KeySchedulePreHandshake.into_handshake xs kxs pubc = Ok sts /\
    derive_client_handshake_secrets stc false h1 suite klc cr c = (Ok (hs, lc), c1) /\
    derive_server_handshake_secrets sts h1 kls cr s = (Ok (hs, ls), s1) /\
    KeyScheduleHandshake.set_handshake_decrypter hs None s1 = (Ok tt, s2) /\
    both_in_step (record_layer c1) (record_layer s2) /\
    forall c2 s3, is_quic c2 = is_quic c -> is_quic s3 = is_quic s ->
      exists fp bf tr tag lc' ls' c3 s4 s5,
        KeyScheduleHandshake.into_traffic_with_client_finished_pending hs h2 kls cr s3 = (Ok (fp, ls'), s4) /\
        KeyScheduleHandshake.into_pre_finished_client_traffic (E:=Error.t) hs h2 h3 klc cr = Ok (bf, tag, lc') /\
        KeyScheduleClientBeforeFinished.into_traffic bf c2 = (Ok tr, c3) /\
        ClientFinishedPending.sign_client_finish fp h3 s4 = (Ok (tr, tag), s5) /\
        both_in_step (record_layer c3) (record_layer s5).
Proof.
  intros Hcu Hh Hok Hzc Hzs suite Hq. destruct (same_start xc xs kxc kxs pubc pubs z Hcu Hh Hok Hzc Hzs) as ([[cuc suc]] & [ks] & Hsc & Hss & Hcu' & Hok' & Hsu).
  cbn [KeyScheduleHandshakeStart.ks current] in *. fold suite in Hsu. rewrite <- Hsu in *.
  destruct (handshake_keys cuc suc ks h1 klc kls cr c s (eq_sym Hcu') Hok' Hq) as (hs & lc & ls & c1 & s1 & s2 & Hks & H1 & H2 & H3 & H4).
  exists {| KeyScheduleHandshakeStart.ks := {| current := cuc; ks_suite := suc |} |}, {| KeyScheduleHandshakeStart.ks := ks |}, hs, lc, ls, c1, s1, s2.
  repeat (split; [done|]). intros c2 s3 Hc2 Hs3. apply traffic_keys; rewrite Hks; [done|]. by rewrite Hc2, Hs3.
Qed.

(** ** Key updates *)

Lemma next_secret_total tr sd : exists secret tr', KeyScheduleTraffic.ks tr' = KeyScheduleTraffic.ks tr /\
  forall E, KeyScheduleTraffic.next_application_traffic_secret (E:=E) tr sd = Ok (secret, tr').
Proof.
  destruct sd.
  - destruct (derive_next_total (KeyScheduleTraffic.ks tr) (KeyScheduleTraffic.client_traffic_secret tr)) as (x & _ & Hx).
    exists x. eexists. split; [|intros E; unfold KeyScheduleTraffic.next_application_traffic_secret; by rewrite Hx]. done.
  - destruct (derive_next_total (KeyScheduleTraffic.ks tr) (KeyScheduleTraffic.server_traffic_secret tr)) as (x & _ & Hx).
    exists x. eexists. split; [|intros E; unfold KeyScheduleTraffic.next_application_traffic_secret; by rewrite Hx]. done.
Qed.
Definition key_update_notify : message := Message.into_plain Message.build_key_update_notify.
Lemma key_update_sendable ke kd : cipher_paired ke kd -> cipher_sendable ke key_update_notify.
Proof.
  intros Hp. split; [vm_compute; lia|]. destruct ke; try done. split; [|done]. exists 0x16. split; [rewrite list_elem_of_In; cbn; auto|cbn; lia].
Qed.

Lemma encrypt_keeps_reading m l : let l' := (encrypt_outgoing m l).2 in
  message_decrypter l' = message_decrypter l /\ read_seq l' = read_seq l /\ decrypt_state l' = decrypt_state l.
Proof. unfold encrypt_outgoing. by destruct (encrypt_exhausted l). Qed.
Lemma decrypt_keeps_writing m l : let l' := (decrypt_incoming m l).2 in message_encrypter l' = message_encrypter l /\ write_seq l' = write_seq l.
Proof.
  unfold decrypt_incoming, doing_trial_decryption. destruct (negb _); [done|]. destruct (decrypt_with _ _ _) as [x|[]|]; try done.
  destruct (trial_decryption_len l) as [v|]; [|done]. by destruct (_ <=? v)%nat.
Qed.

(** C32: A key update.  When the two ends hold the same traffic secrets and one of
    them moves to its next sending key, the notification it queues was sealed
    under the old key and opens at the other end as the KeyUpdate message; once
    the other end has moved its receiving key, both hold the same traffic secrets
    again, the new keys open each other's records from sequence number zero, and
    the opposite direction goes on as it was. *)
Theorem key_update_agrees tr ke kd s p :
  in_step ke kd (record_layer s) (record_layer p) -> write_seq (record_layer s) < SEQ_HARD_LIMIT -> side p = peer (side s) ->
  exists rec d tr' s' l p' ke' kd',
    KeyScheduleTraffic.update_encrypter_and_notify tr s = (Ok tr', s') /\
    queued_key_update_message s' = Some (opaque_encode rec) /\
    decrypt_incoming rec (record_layer p) = (Ok (Some d), l) /\ plaintext d = cipher_received kd key_update_notify /\
    KeyScheduleTraffic.update_decrypter tr (set_record_layer l p) = (Ok tr', p') /\
    in_step ke' kd' (record_layer s') (record_layer p') /\ write_seq (record_layer s') = 0 /\
    forall kr kw, in_step kr kw (record_layer p) (record_layer s) -> in_step kr kw (record_layer p') (record_layer s').
Proof.
  intros Hst Hlim Hside. destruct (next_secret_total tr (side s)) as (secret & tr' & Hks & Hnext).
  destruct (keys_total (KeyScheduleTraffic.ks tr') secret) as (ke' & kd' & Hk').
  destruct (record_stream_roundtrip [key_update_notify] ke kd (record_layer s) (record_layer p) Hst) as (cs & ds & l' & l & H1 & H2 & H3 & H4 & H5).
  { constructor; [|done]. apply (key_update_sendable ke kd). apply (step_paired _ _ _ _ Hst). }
  { cbn. lia. }
  cbn [encrypt_all decrypt_all map] in H1. destruct (encrypt_outgoing key_update_notify (record_layer s)) as [[rec| |] l1] eqn:He; [|done|done].
  injection H1 as <- <-. cbn [decrypt_all] in H2. destruct (decrypt_incoming rec (record_layer p)) as [[d| |] l2] eqn:Hd; [|done|done].
  injection H2 as Hds <-. destruct ds as [|d' [|]]; try done. cbn in Hds. injection Hds as ->. cbn in H3. injection H3 as H3.
  destruct (wp_run (KeyScheduleTraffic.update_encrypter_and_notify tr) s (fun x s' => x = tr' /\ record_layer s' = set_message_encrypter ke' l1 /\
    queued_key_update_message s' = Some (opaque_encode rec))) as (x & s' & Hrs & -> & Hls & Hqs).
  { unfold KeyScheduleTraffic.update_encrypter_and_notify. apply cm_wp_bind. cbn [wp gets]. unfold wp at 1. cbn [gets]. eapply cm_wp_bind, wp_pure; [apply Hnext|].
    apply cm_wp_bind. unfold wp at 1, enqueue_key_update_notification, mbind at 1, Cm_bind, encrypt. fold key_update_notify. rewrite He. cbn [map_err modify].
    eapply cm_wp_bind, wp_set_encrypter; [exact Hk'|]. done. }
  destruct (wp_run (KeyScheduleTraffic.update_decrypter tr) (set_record_layer l2 p) (fun x p' => x = tr' /\ record_layer p' = set_message_decrypter kd' l2))
    as (x & p' & Hrp & -> & Hlp).
  { unfold KeyScheduleTraffic.update_decrypter. apply cm_wp_bind. unfold wp at 1. cbn [gets]. eapply cm_wp_bind, wp_pure.
    { cbn [side set_record_layer]. rewrite Hside. replace (peer (peer (side s))) with (side s) by by destruct (side s). apply Hnext. }
    eapply cm_wp_bind, wp_set_decrypter; [exact Hk'|]. done. }
  exists rec, d', tr', s', l2, p', ke', kd'. split; [done|]. split; [done|]. split; [done|]. split; [done|]. split; [done|].
  split; [|split; [by rewrite Hls|]].
  - destruct Hk' as (_ & _ & Hp). rewrite Hls, Hlp. by split.
  - intros kr kw Hr. pose proof (encrypt_keeps_reading key_update_notify (record_layer s)) as (? & ? & ?).
    pose proof (decrypt_keeps_writing rec (record_layer p)) as (? & ?). rewrite He, Hd in *. cbn [snd] in *. rewrite Hls, Hlp.
    destruct Hr as [Hp0]. split; cbn; first [exact Hp0|congruence|lia].
Qed.
End agreement.

(** ** Instances *)

#[local] Existing Instances toy_hashing toy_ring.
#[local] Instance no_dns : DnsNames := {| dns_try_from _ := false |}.
Definition ex_pre : KeySchedulePreHandshake.t := KeySchedulePreHandshake.new TLS13_AES_128_GCM_SHA256.
Definition ex_kx (peer_pub_key : bytes) : result Error.t bytes := Ok [1; 2; 3].
Definition ex_log : KeyLog := {| will_log _ := true |}.
Lemma handshake_keys_agree_witness :
  exists st hs lc ls c1 s1 s2, KeySchedulePreHandshake.into_handshake ex_pre ex_kx [5] = Ok st /\
    derive_client_handshake_secrets st false [7] TLS13_AES_128_GCM_SHA256 ex_log [9] (CommonState.new Client) = (Ok (hs, lc), c1) /\
    derive_server_handshake_secrets st [7] ex_log [9] (CommonState.new Server) = (Ok (hs, ls), s1) /\
    KeyScheduleHandshake.set_handshake_decrypter hs None s1 = (Ok tt, s2) /\ both_in_step (record_layer c1) (record_layer s2).
Proof.
  destruct (handshake_keys_agree ex_pre ex_pre ex_kx ex_kx [5] [5] [1; 2; 3] [7] [8] [8] ex_log ex_log [9] (CommonState.new Client) (CommonState.new Server))
    as (stc & sts & hs & lc & ls & c1 & s1 & s2 & H1 & H2 & H3 & H4 & H5 & H6 & _); [reflexivity|reflexivity|reflexivity|reflexivity|reflexivity|reflexivity|].
  rewrite H1 in H2. injection H2 as <-. exists stc, hs, lc, ls, c1, s1, s2. repeat split; assumption || apply H6.
Defined.

Definition ex_traffic : KeyScheduleTraffic.t :=
  {| KeyScheduleTraffic.ks := KeySchedulePreHandshake.ks ex_pre; KeyScheduleTraffic.client_traffic_secret := replicate 32 1;
     KeyScheduleTraffic.server_traffic_secret := replicate 32 2; KeyScheduleTraffic.exporter_secret := replicate 32 3 |}.
Definition ex_sender : CommonState (K:=cipher) := set_record_layer (set_message_encrypter ex_enc new_layer) (CommonState.new Client).
Definition ex_receiver : CommonState (K:=cipher) := set_record_layer (set_message_decrypter ex_dec new_layer) (CommonState.new Server).
Lemma key_update_agrees_witness :
  exists tr' s', KeyScheduleTraffic.update_encrypter_and_notify ex_traffic ex_sender = (Ok tr', s') /\ write_seq (record_layer s') = 0.
Proof.
  destruct (key_update_agrees ex_traffic ex_enc ex_dec ex_sender ex_receiver) as (rec & d & tr' & s' & l & p' & ke' & kd' & H1 & _ & _ & _ & _ & _ & H2 & _).
  - split; [cbn; repeat split; reflexivity|reflexivity|reflexivity|reflexivity|reflexivity|cbn; lia].
  - vm_compute. reflexivity.
  - reflexivity.
  - exists tr', s'. split; assumption.
Defined.
