(* ===== verification/Transcript.v ===== *)
(** * The handshake transcript of the TLS fork
    (orcax/rustls-fork/rustls/src/hash_hs.rs)

    The messages of a handshake are buffered until the hash function is known and
    hashed as they come from then on; a HelloRetryRequest replaces what was hashed
    by its digest.  The two types refine one list of bytes. *)
From S2P Require Import Prelude Codec TlsLayer Enums Wire Messages Payloads Suites Hkdf.

Module HandshakeHashBuffer.
Record t : Type := { buffer : bytes; client_auth_enabled : bool }.
Definition new : t := {| buffer := []; client_auth_enabled := false |}.
Definition set_client_auth_enabled (x : t) : t := {| buffer := buffer x; client_auth_enabled := true |}.
Definition add_message (x : t) (m : Message.t) : t :=
  match Message.payload m with
  | MessagePayload.Handshake _ encoded => {| buffer := buffer x ++ encoded; client_auth_enabled := client_auth_enabled x |}
  | _ => x
  end.
Definition get_hash_given {H : Hashing} {E} (x : t) (provider : hash_alg) (extra : bytes) : result E bytes :=
  block_new (digest_finish (digest_update (digest_update (digest_new provider) (buffer x)) extra)).
End HandshakeHashBuffer.

Module HandshakeHash.
Section hash.
Context {H : Hashing} `{DnsNames}.
Record t : Type := { provider : hash_alg; ctx : digest_ctx; client_auth : option bytes }.
(** [HandshakeHashBuffer::start_hash]. *)
Definition start_hash (x : HandshakeHashBuffer.t) (provider : hash_alg) : t :=
  {| provider := provider; ctx := digest_update (digest_new provider) (HandshakeHashBuffer.buffer x);
     client_auth := if HandshakeHashBuffer.client_auth_enabled x then Some (HandshakeHashBuffer.buffer x) else None |}.
Definition abandon_client_auth (x : t) : t := {| provider := provider x; ctx := ctx x; client_auth := None |}.
Definition update_raw (x : t) (buf : bytes) : t :=
  {| provider := provider x; ctx := digest_update (ctx x) buf; client_auth := (fun b => b ++ buf) <$> client_auth x |}.
Definition add_message (x : t) (m : Message.t) : t :=
  match Message.payload m with MessagePayload.Handshake _ encoded => update_raw x encoded | _ => x end.
Definition get_hash_given {E} (x : t) (extra : bytes) : result E bytes := block_new (digest_finish (digest_update (ctx x) extra)).
Definition get_current_hash {E} (x : t) : result E bytes := block_new (digest_finish (ctx x)).
Definition hash_message (old_hash : bytes) : bytes := HandshakeMessagePayload.get_encoding (HandshakeMessagePayload.build_handshake_hash old_hash).
Definition into_hrr_buffer {E} (x : t) : result E HandshakeHashBuffer.t :=
  old_hash ← get_current_hash x;
  Ok {| HandshakeHashBuffer.client_auth_enabled := match client_auth x with Some _ => true | None => false end;
        HandshakeHashBuffer.buffer := hash_message old_hash |}.
Definition rollup_for_hrr {E} (x : t) : result E t :=
  old_hash ← get_current_hash x;
  Ok (update_raw {| provider := provider x; ctx := digest_new (provider x); client_auth := client_auth x |} (hash_message old_hash)).
Definition take_handshake_buf (x : t) : option bytes * t := (client_auth x, {| provider := provider x; ctx := ctx x; client_auth := None |}).
Definition algorithm (x : t) : HashAlgorithm.t := hash_algorithm (provider x).
End hash.
End HandshakeHash.

(** ** The transcript of RFC 8446, section 4.4.1 *)

Section transcript.
Context {H : Hashing} {HL : HashingLaws H} `{DnsNames}.

(** The two types as one machine. *)
Inductive phase : Type := Buffering (b : HandshakeHashBuffer.t) | Running (h : HandshakeHash.t).
Inductive op : Type := SetClientAuth | Add (m : Message.t) | Start (h : hash_alg) | Rollup | IntoHrr | Abandon | TakeBuf.
(** [None]: the operation is not one of the type. *)
Definition step (p : phase) (o : op) : option (result unit phase) :=
  match p, o with
  | Buffering b, SetClientAuth => Some (Ok (Buffering (HandshakeHashBuffer.set_client_auth_enabled b)))
  | Buffering b, Add m => Some (Ok (Buffering (HandshakeHashBuffer.add_message b m)))
  | Buffering b, Start h => Some (Ok (Running (HandshakeHash.start_hash b h)))
  | Running h, Add m => Some (Ok (Running (HandshakeHash.add_message h m)))
  | Running h, Rollup => Some (Running <$> HandshakeHash.rollup_for_hrr h)
  | Running h, IntoHrr => Some (Buffering <$> HandshakeHash.into_hrr_buffer h)
  | Running h, Abandon => Some (Ok (Running (HandshakeHash.abandon_client_auth h)))
  | Running h, TakeBuf => Some (Ok (Running (HandshakeHash.take_handshake_buf h).2))
  | _, _ => None
  end.

(** The specification: the hash in use, if it is known, and the bytes hashed. *)
Record spec : Type := { known : option hash_alg; transcript : bytes }.
Definition digest (h : hash_alg) (bs : bytes) : bytes := digest_finish (digest_update (digest_new h) bs).
Definition message_bytes (m : Message.t) : bytes := match Message.payload m with MessagePayload.Handshake _ encoded => encoded | _ => [] end.
Definition spec_step (x : spec) (o : op) : spec :=
  match o, known x with
  | Add m, k => {| known := k; transcript := transcript x ++ message_bytes m |}
  | Start h, _ => {| known := Some h; transcript := transcript x |}
  | Rollup, Some h => {| known := Some h; transcript := HandshakeHash.hash_message (digest h (transcript x)) |}
  | IntoHrr, Some h => {| known := None; transcript := HandshakeHash.hash_message (digest h (transcript x)) |}
  | _, _ => x
  end.
Inductive refines : phase -> spec -> Prop :=
| refines_buffering b : refines (Buffering b) {| known := None; transcript := HandshakeHashBuffer.buffer b |}
| refines_running h ds : HandshakeHash.ctx h = fold_left digest_update ds (digest_new (HandshakeHash.provider h)) ->
    refines (Running h) {| known := Some (HandshakeHash.provider h); transcript := concat ds |}.

Lemma pieces_hash {E} h ds : block_new (E:=E) (digest_finish (fold_left digest_update ds (digest_new h))) = Ok (digest h (concat ds)).
Proof. rewrite block_new_ok; [by rewrite digest_pieces|]. rewrite digest_length. apply output_len_bounds. Qed.
Lemma fold_snoc ds d c : digest_update (fold_left digest_update ds c) d = fold_left digest_update (ds ++ [d]) c.
Proof. by rewrite fold_left_app. Qed.
Lemma running_update h ds buf : HandshakeHash.ctx h = fold_left digest_update ds (digest_new (HandshakeHash.provider h)) ->
  refines (Running (HandshakeHash.update_raw h buf)) {| known := Some (HandshakeHash.provider h); transcript := concat ds ++ buf |}.
Proof.
  intros Hc. replace (concat ds ++ buf) with (concat (ds ++ [buf])) by by rewrite concat_app; cbn; rewrite app_nil_r.
  apply (refines_running (HandshakeHash.update_raw h buf)). cbn. by rewrite Hc, fold_snoc.
Qed.

Lemma transcript_step_refines p x o r : refines p x -> step p o = Some r -> exists p', r = Ok p' /\ refines p' (spec_step x o).
Proof.
  intros Hr Hs. destruct Hr as [b|h ds Hc], o; try done; cbn [step] in Hs; injection Hs as <-.
  - eexists. split; [done|]. apply (refines_buffering (HandshakeHashBuffer.set_client_auth_enabled b)).
  - eexists. split; [done|]. unfold HandshakeHashBuffer.add_message, spec_step, message_bytes. cbn [known transcript].
    destruct (Message.payload m); rewrite ?app_nil_r; [apply refines_buffering|apply (refines_buffering {| HandshakeHashBuffer.buffer := HandshakeHashBuffer.buffer b ++ encoded; HandshakeHashBuffer.client_auth_enabled := _ |})|apply refines_buffering..].
  - eexists. split; [done|]. pose proof (refines_running (HandshakeHash.start_hash b h) [HandshakeHashBuffer.buffer b] eq_refl) as Hr.
    cbn [concat] in Hr. rewrite app_nil_r in Hr. exact Hr.
  - eexists. split; [done|]. unfold HandshakeHash.add_message, spec_step, message_bytes. cbn [known transcript].
    destruct (Message.payload m); rewrite ?app_nil_r; try by apply refines_running. by apply running_update.
  - unfold HandshakeHash.rollup_for_hrr, HandshakeHash.get_current_hash. rewrite Hc, pieces_hash. cbn [mbind result_bind fmap result_fmap].
    eexists. split; [done|]. cbn [spec_step known transcript]. by apply (running_update {| HandshakeHash.provider := HandshakeHash.provider h |} []).
  - unfold HandshakeHash.into_hrr_buffer, HandshakeHash.get_current_hash. rewrite Hc, pieces_hash. cbn [mbind result_bind fmap result_fmap].
    eexists. split; [done|]. cbn [spec_step known transcript]. by apply (refines_buffering {| HandshakeHashBuffer.buffer := _ |}).
  - eexists. split; [done|]. by apply (refines_running (HandshakeHash.abandon_client_auth h)).
  - eexists. split; [done|]. by apply (refines_running {| HandshakeHash.provider := HandshakeHash.provider h |}).
Qed.

Fixpoint run (p : phase) (os : list op) : option (result unit phase) :=
  match os with
  | [] => Some (Ok p)
  | o :: os' => match step p o with Some (Ok p') => run p' os' | r => r end
  end.

(** C33: The transcript refines the transcript of RFC 8446.  Whatever sequence of
    operations a handshake makes, none panics, and the hash they give is the hash
    of one list of bytes: the encodings of the handshake messages in order, from
    the start or from the [message_hash] message that stands for the first
    ClientHello after a HelloRetryRequest; a hash that asks for more bytes is the
    hash of the list followed by them. *)
Theorem transcript_hash os p :
  let x := fold_left spec_step os {| known := None; transcript := [] |} in
  run (Buffering HandshakeHashBuffer.new) os <> Some Panic /\
  (run (Buffering HandshakeHashBuffer.new) os = Some (Ok p) ->
   match p with
   | Buffering b => known x = None /\ forall E h extra, HandshakeHashBuffer.get_hash_given (E:=E) b h extra = Ok (digest h (transcript x ++ extra))
   | Running h => known x = Some (HandshakeHash.provider h) /\ (forall E, HandshakeHash.get_current_hash (E:=E) h = Ok (digest (HandshakeHash.provider h) (transcript x))) /\
       forall E extra, HandshakeHash.get_hash_given (E:=E) h extra = Ok (digest (HandshakeHash.provider h) (transcript x ++ extra))
   end).
Proof.
  assert (Hrun : forall os q x0, refines q x0 -> run q os = None \/ exists p', run q os = Some (Ok p') /\ refines p' (fold_left spec_step os x0)).
  { clear os p. induction os as [|o os IH]; intros q x0 Hr; cbn [run fold_left]; [right; eauto|]. destruct (step q o) as [r|] eqn:Hs; [|by left].
    destruct (transcript_step_refines _ _ _ _ Hr Hs) as (p' & -> & Hp'). by apply IH. }
  destruct (Hrun os _ _ (refines_buffering HandshakeHashBuffer.new)) as [Hn|(p' & Hp' & Hx)]; cbn [HandshakeHashBuffer.buffer HandshakeHashBuffer.new] in *.
  - rewrite Hn. done.
  - rewrite Hp'. split; [done|]. intros [= ->]. destruct Hx as [b|h ds Hc]; cbn [known transcript].
    + split; [done|]. intros E h extra. unfold HandshakeHashBuffer.get_hash_given. rewrite (pieces_hash h [HandshakeHashBuffer.buffer b; extra]). cbn. by rewrite app_nil_r.
    + split; [done|]. split; [intros E; unfold HandshakeHash.get_current_hash; by rewrite Hc, pieces_hash|].
      intros E extra. unfold HandshakeHash.get_hash_given. rewrite Hc, fold_snoc, pieces_hash, concat_app. cbn. by rewrite app_nil_r.
Qed.
End transcript.

(** ** An instance *)

#[local] Existing Instance toy_hashing.
#[local] Instance no_dns_names : DnsNames := {| dns_try_from _ := false |}.
Definition ex_retry : list op := [SetClientAuth; Start SHA256; Rollup; Abandon].
Lemma transcript_hash_witness :
  exists h, run (Buffering HandshakeHashBuffer.new) ex_retry = Some (Ok (Running h)) /\
    HandshakeHash.get_current_hash (E:=unit) h = Ok (digest SHA256 (HandshakeHash.hash_message (digest SHA256 []))).
Proof.
  eexists. split; [reflexivity|]. match goal with |- HandshakeHash.get_current_hash ?h = _ => destruct (proj2 (transcript_hash ex_retry (Running h)) eq_refl) as (_ & Hc & _) end.
  rewrite Hc. reflexivity.
Defined.
