(* ===== verification/Tls12.v ===== *)
(** * The secrets of a TLS 1.2 connection
    (orcax/rustls-fork/rustls/src/tls12/mod.rs, the trait [Prf] of crypto/tls12.rs)

    The master secret, the key block cut into the keys of the two directions,
    the Finished data, and the reading of ECDH parameters. *)
From S2P Require Import Prelude Codec TlsLayer Enums Wire Messages Payloads Ciphers Suites Errors Common Hkdf.
Import CommonState.

(** [ConnectionRandoms] (conn.rs): two arrays of 32 bytes. *)
Record ConnectionRandoms : Type := { random_client : bytes; random_server : bytes }.
Definition randoms_ok (x : ConnectionRandoms) : Prop := length (random_client x) = 32%nat /\ length (random_server x) = 32%nat.
Definition join_randoms (first second : bytes) : bytes := first ++ second.

(** [split_at] panics when the slice is shorter. *)
Definition split_at {E} (mid : nat) (l : bytes) : result E (bytes * bytes) := if (mid <=? length l)%nat then Ok (take mid l, drop mid l) else Panic.

Section prf.
Context {H : Hashing}.
(** [PrfUsingHmac]. *)
Definition for_key_exchange (h : hash_alg) (len : nat) (kx : bytes -> result Error.t bytes) (peer_pub_key label seed : bytes) : result Error.t bytes :=
  secret ← kx peer_pub_key; Ok (prf h secret label seed len).
Definition for_secret (h : hash_alg) (len : nat) (secret label seed : bytes) : bytes := prf h secret label seed len.

Record ConnectionSecrets : Type := { randoms : ConnectionRandoms; cs_suite : Tls12CipherSuite; master_secret : bytes }.
Definition cs_hash (x : ConnectionSecrets) : hash_alg := hash_provider (common12 (cs_suite x)).
Inductive Seed : Type := Ems (seed : bytes) | Randoms (rs : bytes).
Definition seed_as_ref (x : Seed) : bytes := match x with Ems seed => seed | Randoms rs => rs end.
Definition from_key_exchange (kx : bytes -> result Error.t bytes) (peer_pub_key : bytes) (ems_seed : option bytes) (rs : ConnectionRandoms) (suite : Tls12CipherSuite) :
    result Error.t ConnectionSecrets :=
  let '(label, seed) := match ems_seed with
    | Some seed => (ascii_bytes "extended master secret", Ems seed)
    | None => (ascii_bytes "master secret", Randoms (join_randoms (random_client rs) (random_server rs)))
    end in
  ms ← for_key_exchange (hash_provider (common12 suite)) 48 kx peer_pub_key label (seed_as_ref seed);
  Ok {| randoms := rs; cs_suite := suite; master_secret := ms |}.
Definition new_resume {E} (rs : ConnectionRandoms) (suite : Tls12CipherSuite) (ms : bytes) : result E ConnectionSecrets :=
  ms ← copy_into (replicate 48 0) 0 48 ms; Ok {| randoms := rs; cs_suite := suite; master_secret := ms |}.

Definition make_key_block (x : ConnectionSecrets) : bytes :=
  let shape := Tls12Aead.key_block_shape (aead12 (cs_suite x)) in
  let len := ((enc_key_len shape + fixed_iv_len shape) * 2 + explicit_nonce_len shape)%nat in
  for_secret (cs_hash x) len (master_secret x) (ascii_bytes "key expansion") (join_randoms (random_server (randoms x)) (random_client (randoms x))).
(** The block cut into its five parts. *)
Definition cut_key_block {E} (x : ConnectionSecrets) : result E (bytes * bytes * bytes * bytes * bytes) :=
  let shape := Tls12Aead.key_block_shape (aead12 (cs_suite x)) in
  '(client_write_key, key_block) ← split_at (enc_key_len shape) (make_key_block x);
  '(server_write_key, key_block) ← split_at (enc_key_len shape) key_block;
  '(client_write_iv, key_block) ← split_at (fixed_iv_len shape) key_block;
  '(server_write_iv, extra) ← split_at (fixed_iv_len shape) key_block;
  Ok (client_write_key, server_write_key, client_write_iv, server_write_iv, extra).
Definition make_cipher_pair {E} (x : ConnectionSecrets) (sd : Side) : result E (cipher * cipher) :=
  '(client_write_key, server_write_key, client_write_iv, server_write_iv, extra) ← cut_key_block x;
  let '(write_key, write_iv, read_key, read_iv) := match sd with
    | Client => (client_write_key, client_write_iv, server_write_key, server_write_iv)
    | Server => (server_write_key, server_write_iv, client_write_key, client_write_iv)
    end in
  rk ← AeadKey.new read_key;
  d ← Tls12Aead.decrypter (aead12 (cs_suite x)) rk read_iv;
  wk ← AeadKey.new write_key;
  e ← Tls12Aead.encrypter (aead12 (cs_suite x)) wk write_iv extra;
  Ok (d, e).

Definition make_verify_data (x : ConnectionSecrets) (handshake_hash label : bytes) : bytes := for_secret (cs_hash x) 12 (master_secret x) label handshake_hash.
Definition client_verify_data (x : ConnectionSecrets) (handshake_hash : bytes) : bytes := make_verify_data x handshake_hash (ascii_bytes "client finished").
Definition server_verify_data (x : ConnectionSecrets) (handshake_hash : bytes) : bytes := make_verify_data x handshake_hash (ascii_bytes "server finished").
Definition tls12_export_keying_material {E} (x : ConnectionSecrets) (len : nat) (label : bytes) (context : option bytes) : result E bytes :=
  let rs := random_client (randoms x) ++ random_server (randoms x) in
  rs ← match context with
       | Some context => if zlen context <=? 0xffff then Ok (rs ++ be_encode 2 (u16 (zlen context)) ++ context) else Panic
       | None => Ok rs
       end;
  Ok (for_secret (cs_hash x) len (master_secret x) label rs).
Definition tls12_extract_secrets {E} (x : ConnectionSecrets) (sd : Side) : result E (ConnectionTrafficSecrets * ConnectionTrafficSecrets) :=
  '(client_key, server_key, client_iv, server_iv, explicit_nonce) ← cut_key_block x;
  ck ← AeadKey.new client_key;
  c ← Tls12Aead.extract_keys (aead12 (cs_suite x)) ck client_iv explicit_nonce;
  sk ← AeadKey.new server_key;
  s ← Tls12Aead.extract_keys (aead12 (cs_suite x)) sk server_iv explicit_nonce;
  Ok match sd with Client => (c, s) | Server => (s, c) end.
End prf.

(** [CommonState::start_encryption_tls12]. *)
Definition start_encryption_tls12 {H : Hashing} (secrets : ConnectionSecrets) (sd : Side) : Cm (K:=cipher) unit :=
  '(dec, enc) ← lift id (make_cipher_pair secrets sd);
  modify (fun s => set_record_layer (prepare_message_decrypter dec (prepare_message_encrypter enc (record_layer s))) s).

(** ** ECDH parameters *)

Definition DOWNGRADE_SENTINEL : bytes := [0x44; 0x4f; 0x57; 0x4e; 0x47; 0x52; 0x44; 0x01].
Section ecdh.
Context {K : Type} {C : Cipher K} `{DnsNames}.
Definition decode_ecdh_params {T} (codec : Codec T) (kx_params : bytes) : Cm (K:=K) T :=
  let '(r, rd) := read (Codec:=codec) (init kx_params) in
  ecdh_params ← lift Error.InvalidMessage r;
  if any_left rd then send_fatal_alert AlertDescription.DecodeError (Error.InvalidMessage InvalidDhParams) else mret ecdh_params.
End ecdh.

(** ** The keys agree *)

Section agree.
Context {H : Hashing} {HL : HashingLaws H}.

Lemma copy_prefix {E} (n : nat) (bs : bytes) : (length bs <= n)%nat -> copy_into (E:=E) (replicate n 0) 0 (length bs) bs = Ok (bs ++ replicate (n - length bs) 0).
Proof.
  intros Hl. replace (replicate n 0) with ([] ++ replicate (length bs) 0 ++ replicate (n - length bs) 0)
    by (cbn; rewrite <- replicate_add; f_equal; lia).
  by apply copy_into_app; rewrite ?length_replicate.
Qed.
Lemma copy_whole {E} (n : nat) (bs : bytes) : length bs = n -> copy_into (E:=E) (replicate n 0) 0 n bs = Ok bs.
Proof. intros <-. rewrite copy_prefix by lia. by rewrite Nat.sub_diag, app_nil_r. Qed.
Lemma aead_key_new bs : (length bs <= AeadKey.MAX_LEN)%nat -> exists k, (forall E, AeadKey.new (E:=E) bs = Ok k) /\ AeadKey.as_ref k = bs.
Proof.
  intros Hl. eexists. split; [intros E; unfold AeadKey.new; by rewrite copy_prefix|]. unfold AeadKey.as_ref. cbn [AeadKey.used AeadKey.buf]. apply take_app_length.
Qed.
Lemma gcm_iv_app {E} a b : length a = 4%nat -> length b = 8%nat -> gcm_iv (E:=E) a b = Ok (a ++ b).
Proof.
  intros Ha Hb. unfold gcm_iv. assert (copy_into (E:=E) (replicate NONCE_LEN 0) 0 4 a = Ok (a ++ replicate 8 0)) as ->.
  { rewrite <- Ha. rewrite copy_prefix by (rewrite Ha; unfold NONCE_LEN; lia). by rewrite Ha. }
  cbn [mbind result_bind]. pose proof (copy_into_app (E:=E) a (replicate 8 0) [] b 4 NONCE_LEN) as Hc. rewrite !app_nil_r in Hc.
  apply Hc; rewrite ?length_replicate; unfold NONCE_LEN; lia.
Qed.
(** One direction: the encrypter of one end and the decrypter of the other, from
    the same part of the block. *)
Lemma direction_paired a key iv extra : let shape := Tls12Aead.key_block_shape a in
  length key = enc_key_len shape -> length iv = fixed_iv_len shape -> length extra = explicit_nonce_len shape ->
  exists k ke kd, (forall E, AeadKey.new (E:=E) key = Ok k) /\ (forall E, Tls12Aead.encrypter (E:=E) a k iv extra = Ok ke) /\
    (forall E, Tls12Aead.decrypter (E:=E) a k iv = Ok kd) /\ cipher_paired ke kd.
Proof.
  intros shape Hk Hi Hx. destruct (aead_key_new key) as (k & Hnew & Href). { rewrite Hk. unfold AeadKey.MAX_LEN. destruct a as [[]|]; cbn; lia. }
  exists k. destruct a as [alg|]; cbn [shape Tls12Aead.key_block_shape enc_key_len fixed_iv_len explicit_nonce_len] in *.
  - exists (GcmMessageEncrypter alg key (iv ++ extra)), (GcmMessageDecrypter alg key iv). split; [done|].
    unfold Tls12Aead.encrypter, Tls12Aead.decrypter, unbound_key. rewrite Href, Hk, Nat.eqb_refl. cbn [mbind result_bind].
    split; [intros E; by rewrite gcm_iv_app|]. split; [intros E; by rewrite copy_whole|].
    repeat split; try done; [by rewrite take_app_length'|by rewrite length_app, Hi, Hx].
  - exists (ChaCha20Poly1305MessageEncrypter key iv), (ChaCha20Poly1305MessageDecrypter key iv). split; [done|].
    unfold Tls12Aead.encrypter, Tls12Aead.decrypter, unbound_key, iv_copy. rewrite Href, Hk. cbn [mbind result_bind Nat.eqb alg_key_len].
    split; [intros E; by rewrite copy_whole|]. split; [intros E; by rewrite copy_whole|]. done.
Qed.
Lemma split_at_app {E} a b : split_at (E:=E) (length a) (a ++ b) = Ok (a, b).
Proof. unfold split_at. rewrite length_app, (proj2 (Nat.leb_le _ _)) by lia. by rewrite take_app_length, drop_app_length. Qed.
Lemma split5 (l : bytes) k i e : length l = ((k + i) * 2 + e)%nat -> exists ck sk civ siv x, l = ck ++ sk ++ civ ++ siv ++ x /\
  length ck = k /\ length sk = k /\ length civ = i /\ length siv = i /\ length x = e.
Proof.
  intros Hl. exists (take k l), (take k (drop k l)), (take i (drop (k + k) l)), (take i (drop (k + k + i) l)), (drop (k + k + i + i) l).
  rewrite <- !drop_drop, !take_drop. split; [done|]. rewrite !length_take, !length_drop. lia.
Qed.

Lemma cut_total x : let shape := Tls12Aead.key_block_shape (aead12 (cs_suite x)) in
  exists ck sk civ siv extra, (forall E, cut_key_block (E:=E) x = Ok (ck, sk, civ, siv, extra)) /\ length ck = enc_key_len shape /\ length sk = enc_key_len shape /\
    length civ = fixed_iv_len shape /\ length siv = fixed_iv_len shape /\ length extra = explicit_nonce_len shape.
Proof.
  intros shape. destruct (split5 (make_key_block x) (enc_key_len shape) (fixed_iv_len shape) (explicit_nonce_len shape)) as (ck & sk & civ & siv & e & Hb & H1 & H2 & H3 & H4 & H5);
    [apply prf_length|]. exists ck, sk, civ, siv, e. split; [|done]. intros E. unfold cut_key_block. fold shape. rewrite Hb.
  rewrite <- H1 at 1. rewrite split_at_app. cbn [mbind result_bind]. rewrite <- H2 at 1. rewrite split_at_app. cbn [mbind result_bind].
  rewrite <- H3 at 1. rewrite split_at_app. cbn [mbind result_bind]. rewrite <- H4 at 1. by rewrite split_at_app.
Qed.

(** C22: The two ends of a TLS 1.2 connection agree.  When the key exchanges give
    the same shared secret, both compute the same master secret of 48 bytes, with
    and without the extended master secret, and a session resumed from it is the
    same again; the cipher pair each end cuts out of the key block exists for every
    suite, and what one end encrypts the other decrypts, in both directions. *)
Theorem tls12_keys_agree kxc kxs pubc pubs z ems rs suite :
  kxc pubs = Ok z -> kxs pubc = Ok z ->
  exists x dc ec ds es, from_key_exchange kxc pubs ems rs suite = Ok x /\ from_key_exchange kxs pubc ems rs suite = Ok x /\
    length (master_secret x) = 48%nat /\ (forall E, new_resume (E:=E) rs suite (master_secret x) = Ok x) /\
    (forall E, make_cipher_pair (E:=E) x Client = Ok (dc, ec)) /\ (forall E, make_cipher_pair (E:=E) x Server = Ok (ds, es)) /\
    cipher_paired ec ds /\ cipher_paired es dc.
Proof.
  intros Hc Hs. set (label := match ems with Some _ => ascii_bytes "extended master secret" | None => ascii_bytes "master secret" end).
  set (seed := match ems with Some seed => seed | None => join_randoms (random_client rs) (random_server rs) end).
  set (x := {| randoms := rs; cs_suite := suite; master_secret := prf (hash_provider (common12 suite)) z label seed 48 |}).
  destruct (cut_total x) as (ck & sk & civ & siv & e & Hcut & H1 & H2 & H3 & H4 & H5).
  destruct (direction_paired (aead12 suite) ck civ e H1 H3 H5) as (kc & ec & ds & Hkc & Hec & Hds & Hpc).
  destruct (direction_paired (aead12 suite) sk siv e H2 H4 H5) as (kx & es & dc & Hks & Hes & Hdc & Hps).
  exists x, dc, ec, ds, es. split; [unfold from_key_exchange, for_key_exchange; rewrite Hc; by destruct ems|].
  split; [unfold from_key_exchange, for_key_exchange; rewrite Hs; by destruct ems|]. split; [apply prf_length|].
  split; [intros E; unfold new_resume; by rewrite copy_whole by apply prf_length|].
  split; [|split; [|done]]; intros E; unfold make_cipher_pair; rewrite Hcut; cbn [mbind result_bind]; rewrite ?Hkc, ?Hks; cbn [mbind result_bind cs_suite x];
    rewrite ?Hdc, ?Hds; cbn [mbind result_bind]; rewrite ?Hkc, ?Hks; cbn [mbind result_bind]; by rewrite ?Hec, ?Hes.
Qed.
End agree.

Lemma tls12_keys_agree_witness :
  exists x dc ec ds es,
    from_key_exchange (H:=toy_hashing) (fun _ => Ok [7]) [1] None {| random_client := replicate 32 1; random_server := replicate 32 2 |} TLS_ECDHE_RSA_WITH_AES_128_GCM_SHA256 = Ok x /\
    make_cipher_pair (H:=toy_hashing) (E:=unit) x Client = Ok (dc, ec) /\ make_cipher_pair (H:=toy_hashing) (E:=unit) x Server = Ok (ds, es) /\ cipher_paired ec ds.
Proof.
  destruct (tls12_keys_agree (H:=toy_hashing) (fun _ => Ok [7]) (fun _ => Ok [7]) [2] [1] [7] None {| random_client := replicate 32 1; random_server := replicate 32 2 |}
    TLS_ECDHE_RSA_WITH_AES_128_GCM_SHA256 eq_refl eq_refl) as (x & dc & ec & ds & es & H1 & _ & _ & _ & H2 & H3 & H4 & _).
  exists x, dc, ec, ds, es. split; [exact H1|]. split; [apply H2|]. split; [apply H3|exact H4].
Defined.
