(* ===== verification/Persist.v ===== *)
(** * Session values of the TLS fork
    (orcax/rustls-fork/rustls/src/msgs/persist.rs)

    What a client keeps of a session, with its age and expiry, and what a server
    puts into a ticket, with its codec and the freshness check of early data. *)
From S2P Require Import Prelude Codec TlsLayer Enums Wire Messages MessageLaws Payloads PayloadLaws Ciphers Suites.

Definition U32_MAX : Z := 2 ^ 32 - 1.
Definition saturating_sub (a b : Z) : Z := Z.max 0 (a - b).
Definition saturating_add64 (a b : Z) : Z := Z.min (a + b) (2 ^ 64 - 1).

(** ** The client's side *)

Definition MAX_TICKET_LIFETIME : Z := 7 * 24 * 60 * 60.
Module ClientSessionCommon.
Record t : Type := { ticket : bytes; secret : bytes; epoch : Z; lifetime_secs : Z; server_cert_chain : list bytes }.
Definition new (ticket secret : bytes) (time_now lifetime : Z) (chain : list bytes) : t :=
  {| ticket := ticket; secret := secret; epoch := time_now; lifetime_secs := Z.min lifetime MAX_TICKET_LIFETIME; server_cert_chain := chain |}.
(** [Retrieved::has_expired], for a session retrieved at [retrieved_at]. *)
Definition has_expired (x : t) (retrieved_at : Z) : bool :=
  negb (lifetime_secs x =? 0) && (saturating_add64 (epoch x) (lifetime_secs x) <? retrieved_at).
End ClientSessionCommon.
Module Tls13ClientSessionValue.
Record t : Type := { suite : Tls13CipherSuite; age_add : Z; max_early_data_size : Z; common : ClientSessionCommon.t; quic_params : bytes }.
Definition new (suite : Tls13CipherSuite) (ticket secret : bytes) (chain : list bytes) (time_now lifetime age_add max_early : Z) : t :=
  {| suite := suite; age_add := age_add; max_early_data_size := max_early; common := ClientSessionCommon.new ticket secret time_now lifetime chain; quic_params := [] |}.
Definition set_quic_params (x : t) (params : bytes) : t :=
  {| suite := suite x; age_add := age_add x; max_early_data_size := max_early_data_size x; common := common x; quic_params := params |}.
(** [Retrieved::obfuscated_ticket_age]. *)
Definition obfuscated_ticket_age {E} `{Profile} (x : t) (retrieved_at : Z) : result E Z :=
  let age_secs := saturating_sub retrieved_at (ClientSessionCommon.epoch (common x)) in
  age_millis ← arith 32 (u32 age_secs * 1000);
  Ok (u32 (age_millis + age_add x)).
End Tls13ClientSessionValue.
Module Tls12ClientSessionValue.
Record t : Type := { suite : Tls12CipherSuite; session_id : SessionId.t; extended_ms : bool; common : ClientSessionCommon.t }.
Definition new (suite : Tls12CipherSuite) (id : SessionId.t) (ticket master_secret : bytes) (chain : list bytes) (time_now lifetime : Z) (ems : bool) : t :=
  {| suite := suite; session_id := id; extended_ms := ems; common := ClientSessionCommon.new ticket master_secret time_now lifetime chain |}.
Definition take_ticket (x : t) : bytes * t :=
  let c := common x in
  (ClientSessionCommon.ticket c,
   {| suite := suite x; session_id := session_id x; extended_ms := extended_ms x;
      common := {| ClientSessionCommon.ticket := []; ClientSessionCommon.secret := ClientSessionCommon.secret c; ClientSessionCommon.epoch := ClientSessionCommon.epoch c;
                   ClientSessionCommon.lifetime_secs := ClientSessionCommon.lifetime_secs c; ClientSessionCommon.server_cert_chain := ClientSessionCommon.server_cert_chain c |} |}).
End Tls12ClientSessionValue.

(** ** The server's side *)

Definition MAX_FRESHNESS_SKEW_MS : Z := 60 * 1000.

(** A byte that says whether a field follows. *)
Definition flagged {T} (C : Codec T) : Codec (option T) :=
  {| encode x buf := match x with Some v => put C v (put codec_u8 1 buf) | None => put codec_u8 0 buf end;
     read := has ← get codec_u8; if has =? 1 then v ← get C; mret (Some v) else mret None |}.
Definition flag_codec : Codec bool :=
  {| encode x buf := put codec_u8 (if (x : bool) then 1 else 0) buf; read := v ← get codec_u8; mret (v =? 1) |}.
Definition dns_codec `{DnsNames} : Codec bytes :=
  {| encode x buf := put payload_u8 x buf;
     read := name ← get payload_u8; _ ← rd_ensure (dns_try_from name) InvalidServerName; mret name |}.

Module ServerSessionValue.
Record t : Type := {
  sni : option bytes; version : ProtocolVersion; cipher_suite : CipherSuite.t; master_secret : bytes; extended_ms : bool;
  client_cert_chain : option (list bytes); alpn : option bytes; application_data : bytes; creation_time_sec : Z;
  age_obfuscation_offset : Z; freshness : option bool
}.
Definition codec `{DnsNames} : Codec t :=
  {| encode x buf :=
       put codec_u32 (age_obfuscation_offset x) (put codec_u64 (creation_time_sec x) (put payload_u16 (application_data x)
         (put (flagged payload_u8) (alpn x) (put (flagged certificate_chain_codec) (client_cert_chain x) (put flag_codec (extended_ms x)
           (put payload_u8 (master_secret x) (put CipherSuite.codec (cipher_suite x) (put version_codec (version x) (put (flagged dns_codec) (sni x) buf)))))))));
     read :=
       sni ← get (flagged dns_codec);
       v ← get version_codec;
       cs ← get CipherSuite.codec;
       ms ← get payload_u8;
       ems ← get flag_codec;
       ccert ← get (flagged certificate_chain_codec);
       alpn ← get (flagged payload_u8);
       application_data ← get payload_u16;
       creation_time_sec ← get codec_u64;
       age_obfuscation_offset ← get codec_u32;
       mret {| sni := sni; version := v; cipher_suite := cs; master_secret := ms; extended_ms := ems; client_cert_chain := ccert; alpn := alpn;
               application_data := application_data; creation_time_sec := creation_time_sec; age_obfuscation_offset := age_obfuscation_offset; freshness := None |} |}.
Definition new (sni : option bytes) (v : ProtocolVersion) (cs : CipherSuite.t) (ms : bytes) (chain : option (list bytes)) (alpn : option bytes)
    (application_data : bytes) (creation_time age_obfuscation_offset : Z) : t :=
  {| sni := sni; version := v; cipher_suite := cs; master_secret := ms; extended_ms := false; client_cert_chain := chain; alpn := alpn;
     application_data := application_data; creation_time_sec := creation_time; age_obfuscation_offset := age_obfuscation_offset; freshness := None |}.
Definition set_extended_ms_used (x : t) : t :=
  {| sni := sni x; version := version x; cipher_suite := cipher_suite x; master_secret := master_secret x; extended_ms := true; client_cert_chain := client_cert_chain x;
     alpn := alpn x; application_data := application_data x; creation_time_sec := creation_time_sec x; age_obfuscation_offset := age_obfuscation_offset x; freshness := freshness x |}.
Definition set_freshness (x : t) (obfuscated_client_age_ms time_now : Z) : t :=
  let client_age_ms := u32 (obfuscated_client_age_ms - age_obfuscation_offset x) in
  let server_age_ms := Z.min (u32 (saturating_sub time_now (creation_time_sec x)) * 1000) U32_MAX in
  let age_difference := if client_age_ms <? server_age_ms then server_age_ms - client_age_ms else client_age_ms - server_age_ms in
  {| sni := sni x; version := version x; cipher_suite := cipher_suite x; master_secret := master_secret x; extended_ms := extended_ms x; client_cert_chain := client_cert_chain x;
     alpn := alpn x; application_data := application_data x; creation_time_sec := creation_time_sec x; age_obfuscation_offset := age_obfuscation_offset x;
     freshness := Some (age_difference <=? MAX_FRESHNESS_SKEW_MS) |}.
Definition is_fresh (x : t) : bool := default false (freshness x).
End ServerSessionValue.

(** ** Laws *)

Definition option_wf {T} (wf : T -> Prop) (x : option T) : Prop := match x with Some v => wf v | None => True end.
#[export] Instance flagged_wire {T} (C : Codec T) wf {W : Wire C wf} : Wire (flagged C) (option_wf wf).
Proof.
  apply make_wire.
  - intros [v|] buf; unfold get_encoding; cbn [encode flagged]; rewrite ?wire_app; [by rewrite <- !app_assoc|done].
  - intros [v|] Hv; unfold get_encoding; cbn [encode read flagged]; rewrite ?wire_app; cbn [app].
    + apply reads_field; [done|]. apply reads_last; [done|]. apply reads_ret.
    + apply reads_last; [done|]. apply reads_ret.
  - cbn [read flagged]. apply eats_first; [apply wire_eats|]. rd_shape.
  - cbn [read flagged]. rd_shape.
Qed.
#[export] Instance flag_wire : Wire flag_codec (fun _ => True).
Proof.
  apply make_wire; cbn [encode read flag_codec].
  - done.
  - intros x _. unfold get_encoding. cbn [encode flag_codec app]. destruct x; (apply reads_last; [done|]; apply reads_ret).
  - apply eats_first; [apply wire_eats|]. rd_shape.
  - rd_shape.
Qed.
#[export] Instance u64_wire : Wire codec_u64 (uint_wf 8).
Proof. by apply (fixed_wire 8 id id). Qed.
#[export] Instance dns_wire `{DnsNames} : Wire dns_codec (fun x => dns_try_from x = true /\ payload_wf 1 x).
Proof.
  apply make_wire; cbn [encode read dns_codec].
  - intros x buf. unfold get_encoding. cbn [encode dns_codec]. by rewrite !wire_app.
  - intros x [Hd Hx]. apply (reads_last (C:=payload_u8)); [done|]. apply reads_check; [done|]. apply reads_ret.
  - apply eats_first; [apply wire_eats|]. rd_shape.
  - rd_shape.
Qed.
Definition session_wf `{DnsNames} (x : ServerSessionValue.t) : Prop :=
  option_wf (fun n => dns_try_from n = true /\ payload_wf 1 n) (ServerSessionValue.sni x) /\ enum_wf 2 versions (ServerSessionValue.version x) /\
  enum_wf 2 CipherSuite.table (ServerSessionValue.cipher_suite x) /\ payload_wf 1 (ServerSessionValue.master_secret x) /\
  option_wf (vec_wf (C:=certificate_der) (payload_wf 3) CERTS) (ServerSessionValue.client_cert_chain x) /\
  option_wf (payload_wf 1) (ServerSessionValue.alpn x) /\ payload_wf 2 (ServerSessionValue.application_data x) /\
  uint_wf 8 (ServerSessionValue.creation_time_sec x) /\ uint_wf 4 (ServerSessionValue.age_obfuscation_offset x) /\ ServerSessionValue.freshness x = None.
#[export] Instance session_wire `{DnsNames} : Wire ServerSessionValue.codec session_wf.
Proof.
  apply make_wire.
  - intros x buf. unfold get_encoding. cbn [encode ServerSessionValue.codec]. by rewrite !wire_app, <- ?app_assoc.
  - intros x (H1 & H2 & H3 & H4 & H5 & H6 & H7 & H8 & H9 & H10). unfold get_encoding. cbn [encode read ServerSessionValue.codec]. rewrite !wire_app, <- ?app_assoc. cbn [app].
    repeat (apply reads_field; [done|]). apply reads_last; [done|].
    match goal with |- reads (mret ?y) [] ?z => replace z with y; [apply reads_ret|] end. destruct x; cbn in *; by subst.
  - cbn [read ServerSessionValue.codec]. apply eats_first; [apply wire_eats|]. rd_shape.
  - cbn [read ServerSessionValue.codec]. rd_shape.
Qed.

(** Ages of tickets.  While a session with a lifetime has not expired, its
    obfuscated age is computed without overflow in both build profiles, and the
    server that issued the ticket calls it fresh exactly when the client's and the
    server's idea of its age differ by at most a minute. *)
Theorem ticket_freshness `{Profile} (v : Tls13ClientSessionValue.t) (x : ServerSessionValue.t) retrieved now :
  let c := Tls13ClientSessionValue.common v in
  0 < ClientSessionCommon.lifetime_secs c <= MAX_TICKET_LIFETIME -> 0 <= ClientSessionCommon.epoch c <= retrieved -> retrieved < 2 ^ 64 ->
  ClientSessionCommon.has_expired c retrieved = false ->
  Tls13ClientSessionValue.age_add v = ServerSessionValue.age_obfuscation_offset x -> 0 <= Tls13ClientSessionValue.age_add v < 2 ^ 32 ->
  0 <= now - ServerSessionValue.creation_time_sec x < 4294967 ->
  exists age, (forall E, Tls13ClientSessionValue.obfuscated_ticket_age (E:=E) v retrieved = Ok age) /\
    (ServerSessionValue.is_fresh (ServerSessionValue.set_freshness x age now) = true <->
     Z.abs ((retrieved - ClientSessionCommon.epoch c) - (now - ServerSessionValue.creation_time_sec x)) <= 60).
Proof.
  intros c Hl Hr Hr64 He Ha Hadd Hn. unfold ClientSessionCommon.has_expired, saturating_add64 in He. unfold MAX_TICKET_LIFETIME in Hl.
  assert (Hage : 0 <= retrieved - ClientSessionCommon.epoch c <= 604800) by lia.
  set (ca := retrieved - ClientSessionCommon.epoch c) in *. set (sa := now - ServerSessionValue.creation_time_sec x) in *.
  exists (u32 (ca * 1000 + Tls13ClientSessionValue.age_add v)). split.
  - intros E. unfold Tls13ClientSessionValue.obfuscated_ticket_age, saturating_sub. fold c. fold ca. rewrite Z.max_r by lia.
    rewrite (u32_small ca) by lia. unfold arith. rewrite (proj2 (andb_true_iff _ _)) by lia. done.
  - unfold ServerSessionValue.set_freshness, ServerSessionValue.is_fresh, saturating_sub. cbn [ServerSessionValue.freshness default from_option]. unfold id. fold sa. rewrite Z.max_r by lia.
    assert (u32 (u32 (ca * 1000 + Tls13ClientSessionValue.age_add v) - ServerSessionValue.age_obfuscation_offset x) = ca * 1000) as ->.
    { unfold u32. rewrite Zminus_mod_idemp_l, Ha. replace (_ + _ - _) with (ca * 1000) by lia. apply Z.mod_small. lia. }
    unfold u32. rewrite (Z.mod_small sa) by lia. rewrite Z.min_l by (unfold U32_MAX; lia). unfold MAX_FRESHNESS_SKEW_MS.
    destruct (Z.ltb_spec (ca * 1000) (sa * 1000)); rewrite Z.leb_le; lia.
Qed.
(** A lifetime of zero, which RFC 8446 reserves for tickets to discard at once,
    never expires here, and after fifty days its age no longer fits. *)
Theorem zero_lifetime_kept (v : Tls13ClientSessionValue.t) retrieved :
  let c := Tls13ClientSessionValue.common v in
  ClientSessionCommon.lifetime_secs c = 0 ->
  ClientSessionCommon.has_expired c retrieved = false /\
  (4294968 <= retrieved - ClientSessionCommon.epoch c < 2 ^ 32 -> Tls13ClientSessionValue.obfuscated_ticket_age (E:=unit) (H:=true) v retrieved = Panic).
Proof.
  intros c Hl. split; [unfold ClientSessionCommon.has_expired; by rewrite Hl|]. intros Ha. unfold Tls13ClientSessionValue.obfuscated_ticket_age, saturating_sub. fold c.
  rewrite Z.max_r by lia. rewrite u32_small by lia. unfold arith. destruct (_ && _) eqn:Hb; [lia|]. done.
Qed.

(** ** Instances *)

Definition ex_session : Tls13ClientSessionValue.t :=
  Tls13ClientSessionValue.new TLS13_AES_128_GCM_SHA256 [1] [2] [] 1000 7200 5 0.
Definition ex_server_session : ServerSessionValue.t :=
  ServerSessionValue.new None (Known TLSv1_3) (Known CipherSuite.TLS13_AES_128_GCM_SHA256) [2] None None [] 1001 5.
Lemma ticket_freshness_witness :
  exists age, (forall E, Tls13ClientSessionValue.obfuscated_ticket_age (E:=E) (H:=true) ex_session 1500 = Ok age) /\
    (ServerSessionValue.is_fresh (ServerSessionValue.set_freshness ex_server_session age 1502) = true <-> Z.abs ((1500 - 1000) - (1502 - 1001)) <= 60).
Proof. apply (ticket_freshness (H:=true) ex_session ex_server_session 1500 1502); vm_compute; repeat split; congruence. Defined.
