(* ===== verification/Ticketer.v ===== *)
(** * Session tickets of the TLS fork
    (orcax/rustls-fork/rustls/src/ticketer.rs, crypto/ring/ticketer.rs)

    A ticketer seals the server's session values; a switcher rotates ticketers
    with time.  The switcher drops its lock while it makes a new key, so the
    calls of several threads interleave: the model is a machine whose steps are
    the locked regions. *)
From S2P Require Import Prelude Codec TlsLayer Enums Wire Messages Payloads Ciphers Suites Persist.

(** [ProducesTickets] (server/server_conn.rs).  What a call draws at random is an
    argument; [None] when the draw fails. *)
Class ProducesTickets (T : Type) : Type := {
  enabled : T -> bool;
  lifetime : T -> Z;
  encrypt : T -> option bytes -> bytes -> option bytes;
  decrypt : T -> bytes -> option bytes
}.
Class TicketLaws {T} (P : ProducesTickets T) : Type := {
  ticketer_ok : T -> Prop;
  draw_ok : bytes -> Prop;
  ticket_opens k r m : ticketer_ok k -> draw_ok r -> (length m <= MAX_FRAGMENT_LEN)%nat ->
    exists c, encrypt k (Some r) m = Some c /\ decrypt k c = Some m
}.

(** ** [AeadTicketer] *)

Module AeadTicketer.
Section ticketer.
Context {A : RingAead}.
Record t : Type := { alg : Algorithm; key : bytes; t_lifetime : Z }.
Definition make_ticket_generator (key : option bytes) : option t :=
  key ← key; Some {| alg := CHACHA20_POLY1305; key := key; t_lifetime := 60 * 60 * 12 |}.
Definition encrypt (x : t) (nonce_buf : option bytes) (message : bytes) : option bytes :=
  nonce ← nonce_buf;
  '(c, tag) ← ring_seal (alg x) (key x) nonce [] message;
  Some (nonce ++ c ++ tag).
Definition decrypt (x : t) (ciphertext : bytes) : option bytes :=
  if (length ciphertext <? NONCE_LEN)%nat then None
  else ring_open (alg x) (key x) (take NONCE_LEN ciphertext) [] (drop NONCE_LEN ciphertext).
End ticketer.
End AeadTicketer.
#[export] Instance aead_ticketer {A : RingAead} : ProducesTickets AeadTicketer.t :=
  {| enabled _ := true; lifetime := AeadTicketer.t_lifetime; encrypt := AeadTicketer.encrypt; decrypt := AeadTicketer.decrypt |}.
#[export] Instance aead_ticketer_laws {A : RingAead} {AL : RingAeadLaws A} : TicketLaws aead_ticketer.
Proof.
  refine {| ticketer_ok k := length (AeadTicketer.key k) = alg_key_len (AeadTicketer.alg k); draw_ok r := length r = NONCE_LEN |}.
  intros k r m Hk Hr Hm. cbn [encrypt decrypt aead_ticketer]. unfold AeadTicketer.encrypt, AeadTicketer.decrypt.
  destruct (ring_seal_ok (AeadTicketer.alg k) (AeadTicketer.key k) r [] m Hk Hr ltac:(lia)) as (c & tag & Hs & _ & _ & Ho).
  cbn [mbind option_bind]. rewrite Hs. eexists. split; [done|]. rewrite length_app, (proj2 (Nat.ltb_ge _ _)) by lia.
  rewrite take_app_length', drop_app_length' by done. exact Ho.
Defined.

(** ** [TicketSwitcher] *)

Section switcher.
Context {T : Type} {P : ProducesTickets T}.

Record TicketSwitcherState : Type := { next : option T; current : T; previous : option T; next_switch_time : Z }.
(** [TicketSwitcher::new], with the two ticketers it generates. *)
Definition switcher_new (lifetime_secs : Z) (g1 g2 : option T) (now : Z) : option TicketSwitcherState :=
  n ← g1; c ← g2; Some {| next := Some n; current := c; previous := None; next_switch_time := saturating_add64 now lifetime_secs |}.
Definition switch (to : T) (lifetime_secs now : Z) (nx : option T) (s : TicketSwitcherState) : TicketSwitcherState :=
  {| next := nx; current := to; previous := Some (current s); next_switch_time := saturating_add64 now lifetime_secs |}.

(** [maybe_roll], up to the end of the first lock. *)
Inductive rolling : Type := Holding | Generating | Recovering.
Definition roll_check (lifetime_secs now : Z) (s : TicketSwitcherState) : rolling * TicketSwitcherState :=
  if now <=? next_switch_time s then (Holding, s)
  else match next s with
       | Some n => (Generating, switch n lifetime_secs now None s)
       | None => (Recovering, s)
       end.
(** [maybe_roll] from the second lock on, with what was generated. *)
Definition set_next (n : T) (s : TicketSwitcherState) : TicketSwitcherState :=
  {| next := Some n; current := current s; previous := previous s; next_switch_time := next_switch_time s |}.
Definition roll_finish (lifetime_secs now : Z) (recovering : bool) (g1 g2 : option T) (s : TicketSwitcherState) : option TicketSwitcherState :=
  n ← g1;
  if recovering then
    c ← g2;
    let s := set_next n s in
    Some (if next_switch_time s <? now then switch c lifetime_secs now (next s) s else s)
  else Some (set_next n s).
(** [maybe_roll] of a thread that nobody interrupts. *)
Definition maybe_roll (lifetime_secs now : Z) (g1 g2 : option T) (s : TicketSwitcherState) : option TicketSwitcherState * TicketSwitcherState :=
  match roll_check lifetime_secs now s with
  | (Holding, s) => (Some s, s)
  | (r, s) =>
      match roll_finish lifetime_secs now (match r with Recovering => true | _ => false end) g1 g2 s with
      | Some s' => (Some s', s')
      | None => (None, s)
      end
  end.

(** The operations of a thread that holds the lock. *)
Definition switcher_lifetime {E} `{Profile} (lifetime_secs : Z) : result E Z := arith 32 (lifetime_secs * 2).
Definition encrypt_held (s : TicketSwitcherState) (rnd : option bytes) (message : bytes) : option bytes := encrypt (current s) rnd message.
Definition decrypt_held (s : TicketSwitcherState) (ciphertext : bytes) : option bytes :=
  match decrypt (current s) ciphertext with
  | Some m => Some m
  | None => p ← previous s; decrypt p ciphertext
  end.

(** ** Threads *)

(** A call between its two locks: the time it read, and whether it recovers. *)
Record call : Type := { call_now : Z; call_recovering : bool }.
Record sys : Type := { shared : TicketSwitcherState; flying : list call }.
Inductive event : Type := Enter (now : Z) | Finish (i : nat) (g1 g2 : option T).
(** The next state, and the time of a call that now holds the lock for its work. *)
Definition step (lifetime_secs : Z) (x : sys) (e : event) : option (sys * option Z) :=
  match e with
  | Enter now =>
      match roll_check lifetime_secs now (shared x) with
      | (Holding, s) => Some ({| shared := s; flying := flying x |}, Some now)
      | (Generating, s) => Some ({| shared := s; flying := flying x ++ [{| call_now := now; call_recovering := false |}] |}, None)
      | (Recovering, s) => Some ({| shared := s; flying := flying x ++ [{| call_now := now; call_recovering := true |}] |}, None)
      end
  | Finish i g1 g2 =>
      c ← flying x !! i;
      let rest := delete i (flying x) in
      match roll_finish lifetime_secs (call_now c) (call_recovering c) g1 g2 (shared x) with
      | Some s => Some ({| shared := s; flying := rest |}, Some (call_now c))
      | None => Some ({| shared := shared x; flying := rest |}, None)
      end
  end.
Inductive steps (lifetime_secs : Z) : sys -> list event -> sys -> Prop :=
| steps_nil x : steps lifetime_secs x [] x
| steps_cons x e y r es z : step lifetime_secs x e = Some (y, r) -> steps lifetime_secs y es z -> steps lifetime_secs x (e :: es) z.
Definition event_by (limit : Z) (e : event) : Prop := match e with Enter now => 0 <= now <= limit | Finish _ _ _ => True end.
Definition clock_ok (e : event) : Prop := event_by (2 ^ 64 - 1) e.

(** A call that generates has moved the switch time to its own time or later. *)
Definition sys_inv (x : sys) : Prop :=
  Forall (fun c => 0 <= call_now c <= 2 ^ 64 - 1 /\ (call_recovering c = false -> call_now c <= next_switch_time (shared x))) (flying x).
Definition start (s : TicketSwitcherState) : sys := {| shared := s; flying := [] |}.

Section proofs.
Context (L : Z) (HL : 0 <= L).
Lemma switch_time now : 0 <= now <= 2 ^ 64 - 1 -> now <= saturating_add64 now L.
Proof. unfold saturating_add64. lia. Qed.
Lemma roll_finish_time now r g1 g2 s s' : 0 <= now <= 2 ^ 64 - 1 -> roll_finish L now r g1 g2 s = Some s' ->
  next_switch_time s <= next_switch_time s' /\ (r = true \/ now <= next_switch_time s -> now <= next_switch_time s').
Proof.
  intros Hn. unfold roll_finish. destruct g1 as [n|]; [|done]. cbn [mbind option_bind]. destruct r.
  - destruct g2 as [c|]; [|done]. cbn [mbind option_bind]. intros [= <-]. cbn [next_switch_time set_next].
    pose proof (switch_time now Hn). destruct (Z.ltb_spec (next_switch_time s) now); cbn [switch next_switch_time set_next]; lia.
  - intros [= <-]. cbn. split; [done|]. by intros [|].
Qed.
Lemma inv_later x s : sys_inv x -> next_switch_time (shared x) <= next_switch_time s -> sys_inv {| shared := s; flying := flying x |}.
Proof. intros Hx Hs. unfold sys_inv in *. cbn. eapply Forall_impl; [|exact Hx]. intros c [H1 H2]. split; [done|]. intros Hr. specialize (H2 Hr). lia. Qed.
Lemma switcher_step_inv x e y r : sys_inv x -> clock_ok e -> step L x e = Some (y, r) -> sys_inv y /\ (forall t, r = Some t -> t <= next_switch_time (shared y)).
Proof.
  intros Hx Hc. destruct e as [now|i g1 g2]; cbn [step clock_ok event_by] in *.
  - unfold roll_check. destruct (Z.leb_spec now (next_switch_time (shared x))) as [Hle|Hgt].
    + intros [= <- <-]. split; [by apply inv_later|]. intros t [= <-]. done.
    + destruct (next (shared x)) as [n|] eqn:Hn; intros [= <- <-]; (split; [|done]).
      * pose proof (switch_time now Hc). apply (inv_later x (switch n L now None (shared x))) in Hx; [|cbn; lia].
        unfold sys_inv in *. cbn in *. apply Forall_app. split; [done|]. constructor; [|done]. cbn. done.
      * unfold sys_inv in *. cbn in *. apply Forall_app. split; [done|]. constructor; [|done]. cbn. done.
  - destruct (flying x !! i) as [c|] eqn:Hi; [|done]. cbn [mbind option_bind]. unfold sys_inv in Hx.
    destruct (proj1 (Forall_lookup _ _) Hx _ _ Hi) as [Hcn Hcr].
    assert (Hrest : sys_inv {| shared := shared x; flying := delete i (flying x) |}) by (unfold sys_inv; cbn; by apply Forall_delete).
    destruct (roll_finish L (call_now c) (call_recovering c) g1 g2 (shared x)) as [s|] eqn:Hf; intros [= <- <-]; [|done].
    apply roll_finish_time in Hf as [Hm Ht]; [|done]. split; [by apply (inv_later _ s) in Hrest|].
    intros t [= <-]. cbn. apply Ht. destruct (call_recovering c); [by left|right; by apply Hcr].
Qed.

(** The key of a ticket issued at [t], while no call reads a time after [t + L]. *)
Definition key_kept (k : T) (t : Z) (s : TicketSwitcherState) : Prop :=
  (current s = k /\ t <= next_switch_time s) \/ (previous s = Some k /\ t + L <= next_switch_time s).
Lemma kept_switch k t s c now nx :
  key_kept k t s -> next_switch_time s < now -> now <= t + L -> t + L <= 2 ^ 64 - 1 -> key_kept k t (switch c L now nx s).
Proof.
  intros [[<- Ht]|[Hp Ht]] Hn Hl Hb; [|lia]. right. split; [done|]. cbn. unfold saturating_add64. lia.
Qed.
Lemma kept_step k t x e y r :
  key_kept k t (shared x) -> t + L <= 2 ^ 64 - 1 -> Forall (fun c => call_now c <= t + L) (flying x) -> event_by (t + L) e ->
  step L x e = Some (y, r) -> key_kept k t (shared y) /\ Forall (fun c => call_now c <= t + L) (flying y).
Proof.
  intros Hk Hb Hf He. destruct e as [now|i g1 g2]; cbn [step event_by] in *.
  - unfold roll_check. destruct (Z.leb_spec now (next_switch_time (shared x))) as [Hle|Hgt]; [by intros [= <- <-]|].
    destruct (next (shared x)) as [n|]; intros [= <- <-]; cbn [shared flying]; (split; [|apply Forall_app; split; [done|]; constructor; cbn; [lia|done]]); [|done].
    apply kept_switch; [done|lia|lia|done].
  - destruct (flying x !! i) as [c|] eqn:Hi; [|done]. cbn [mbind option_bind]. pose proof (proj1 (Forall_lookup _ _) Hf _ _ Hi) as Hc. cbn in Hc.
    assert (Hd : Forall (fun c => call_now c <= t + L) (delete i (flying x))) by (by apply Forall_delete).
    unfold roll_finish. destruct g1 as [n|]; [|by intros [= <- <-]]. cbn [mbind option_bind]. destruct (call_recovering c); [|by intros [= <- <-]].
    destruct g2 as [d|]; [|by intros [= <- <-]]. cbn [mbind option_bind]. intros [= <- <-]. cbn [shared flying]. split; [|done].
    cbn [next_switch_time set_next next]. destruct (Z.ltb_spec (next_switch_time (shared x)) (call_now c)); [|exact Hk]. by apply (kept_switch k t (set_next n (shared x))).
Qed.
Lemma kept_steps k t x es y :
  steps L x es y -> key_kept k t (shared x) -> t + L <= 2 ^ 64 - 1 -> Forall (fun c => call_now c <= t + L) (flying x) -> Forall (event_by (t + L)) es -> key_kept k t (shared y).
Proof.
  intros Hs. induction Hs as [x|x e y r es z Hst Hs IH]; intros Hk Hb Hf He; [done|]. inversion He as [|? ? He1 He2]; subst.
  destruct (kept_step k t x e y r Hk Hb Hf He1 Hst) as [Hk' Hf']. by apply IH.
Qed.
Lemma steps_inv x es y : steps L x es y -> sys_inv x -> Forall clock_ok es -> sys_inv y.
Proof.
  intros Hs. induction Hs as [x|x e y r es z Hst Hs IH]; intros Hx He; [done|]. inversion He; subst.
  apply IH; [|done]. by eapply switcher_step_inv.
Qed.
End proofs.
End switcher.

Section tickets.
Context {T : Type} {P : ProducesTickets T} {PL : TicketLaws P}.

(** C25: A ticket is accepted for the lifetime of its key, whatever the threads
    do.  After any interleaving of calls, let a call that read the time [t] hold
    the lock and issue a ticket.  Then, after every further interleaving of calls
    that read times up to [t] plus the lifetime, a call that holds the lock opens
    the ticket, provided that the key in use by then does not mistake it for one
    of its own.  Draws that fail leave this untouched. *)
Theorem ticket_accepted_in_lifetime L s0 es0 x e y t es z m r :
  0 <= L -> t + L <= 2 ^ 64 - 1 -> steps L (start s0) es0 x -> Forall clock_ok es0 -> clock_ok e -> step L x e = Some (y, Some t) ->
  steps L y es z -> Forall (event_by (t + L)) es -> Forall (fun c => call_now c <= t + L) (flying y) ->
  ticketer_ok (current (shared y)) -> draw_ok r -> (length m <= MAX_FRAGMENT_LEN)%nat ->
  exists ticket, encrypt_held (shared y) (Some r) m = Some ticket /\
    (decrypt (current (shared z)) ticket = None \/ current (shared z) = current (shared y) -> decrypt_held (shared z) ticket = Some m).
Proof.
  intros HL Hb H0 Hc0 Hc Hst Hs He Hf Hk Hr Hm. assert (Hx : sys_inv x) by (eapply steps_inv; [done|exact H0|by constructor|done]).
  destruct (switcher_step_inv L HL x e y (Some t) Hx Hc Hst) as [_ Ht]. specialize (Ht t eq_refl).
  destruct (ticket_opens (current (shared y)) r m Hk Hr Hm) as (c & Hen & Hde). exists c. split; [exact Hen|].
  assert (Hkept : key_kept L (current (shared y)) t (shared z)) by (eapply kept_steps; [exact Hs|by left|done|done|done]).
  unfold decrypt_held. intros [Hn|Heq]; [|by rewrite Heq, Hde]. destruct Hkept as [[Hcur _]|[Hprev _]]; [rewrite Hcur in Hn; congruence|].
  rewrite Hn, Hprev. exact Hde.
Qed.

(** The documentation says that tickets are accepted for no longer than twice the
    lifetime.  After a time without calls, however long, the first call still
    opens the tickets made before it. *)
Theorem idle_ticket_accepted L s now n g ticket m :
  next s = Some n -> next_switch_time s < now -> decrypt (current s) ticket = Some m -> decrypt n ticket = None ->
  exists s', maybe_roll L now (Some g) None s = (Some s', s') /\ decrypt_held s' ticket = Some m.
Proof.
  intros Hn Hnow Hd Hnd. unfold maybe_roll, roll_check. rewrite (proj2 (Z.leb_gt _ _)) by done. rewrite Hn. cbn [roll_finish mbind option_bind].
  eexists. split; [done|]. unfold decrypt_held. cbn [current previous set_next switch]. rewrite Hnd. exact Hd.
Qed.
End tickets.

(** ** Instances *)

#[local] Existing Instance toy_ring.
Definition ex_ticketer (b : Z) : AeadTicketer.t := {| AeadTicketer.alg := CHACHA20_POLY1305; AeadTicketer.key := replicate 32 b; AeadTicketer.t_lifetime := 43200 |}.
Definition ex_switcher : TicketSwitcherState := {| next := Some (ex_ticketer 2); current := ex_ticketer 1; previous := None; next_switch_time := 100 |}.
Definition ex_system : sys := start ex_switcher.
Definition ex_rolled : sys :=
  {| shared := switch (ex_ticketer 2) 100 101 None ex_switcher; flying := [{| call_now := 101; call_recovering := false |}] |}.
Lemma ticket_accepted_in_lifetime_witness :
  exists ticket, encrypt_held ex_switcher (Some (replicate 12 7)) [1; 2; 3] = Some ticket /\
    (decrypt (ex_ticketer 2) ticket = None \/ ex_ticketer 2 = ex_ticketer 1 -> decrypt_held (shared ex_rolled) ticket = Some [1; 2; 3]).
Proof.
  apply (ticket_accepted_in_lifetime 100 ex_switcher [] ex_system (Enter 50) ex_system 50 [Enter 101] ex_rolled [1; 2; 3] (replicate 12 7)).
  - lia.
  - lia.
  - constructor.
  - constructor.
  - cbn; lia.
  - reflexivity.
  - apply (steps_cons _ _ _ ex_rolled None); [reflexivity|constructor].
  - constructor; [cbn; lia|constructor].
  - constructor.
  - reflexivity.
  - reflexivity.
  - apply Nat.leb_le. reflexivity.
Defined.
