(* ===== verification/KeyLogFile.v ===== *)
(** * The key log file
    (orcax/rustls-fork/rustls/src/key_log_file.rs)

    The lines that [KeyLogFile] appends, over a file whose writes may be short, be
    interrupted or fail, and what a reader of the NSS format gets back. *)
From S2P Require Import Prelude RustStd Crates Hkdf KeySchedule.

(** ** The file *)

(** What a call of [write] does: accept some of the bytes, be interrupted, fail. *)
Inductive write_result : Type := Wrote (n : nat) | Interrupted | WriteFails.
(** Writes that are not listed accept everything. *)
Record file : Type := { contents : bytes; answers : list write_result }.
(** [Write::write_all]: whether it succeeded, and the file after it. *)
Fixpoint write_all (buf : bytes) (contents : bytes) (answers : list write_result) : bool * file :=
  match buf with
  | [] => (true, {| contents := contents; answers := answers |})
  | _ =>
      match answers with
      | [] => (true, {| contents := contents ++ buf; answers := [] |})
      | Wrote 0 :: answers' | WriteFails :: answers' => (false, {| contents := contents; answers := answers' |})
      | Wrote n :: answers' => write_all (drop n buf) (contents ++ take n buf) answers'
      | Interrupted :: answers' => write_all buf contents answers'
      end
  end.

(** ** The log *)

Record KeyLogFileInner : Type := { log_file : option file; log_buf : bytes }.
(** [new]: the variable and what opening its path gives, [None] for a failure. *)
Definition new {Path} (open : Path -> option file) (var : option Path) : KeyLogFileInner :=
  match var with
  | None => {| log_file := None; log_buf := [] |}
  | Some path => {| log_file := open path; log_buf := [] |}
  end.
(** [{:02x}] of each byte. *)
Definition hex2 (bs : bytes) : bytes := flat_map (fun b => [digit_char (b / 16); digit_char (b mod 16)]) bs.
Definition line (label client_random secret : bytes) : bytes := label ++ [32] ++ hex2 client_random ++ [32] ++ hex2 secret ++ [10].
Definition try_write (label client_random secret : bytes) (x : KeyLogFileInner) : bool * KeyLogFileInner :=
  match log_file x with
  | None => (true, x)
  | Some f =>
      let buf := line label client_random secret in
      let '(ok, f) := write_all buf (contents f) (answers f) in
      (ok, {| log_file := Some f; log_buf := buf |})
  end.
(** [log]; a failure is only reported. *)
Definition log (label client_random secret : bytes) (x : KeyLogFileInner) : KeyLogFileInner := (try_write label client_random secret x).2.
Definition log_lines (ls : list log_line) (x : KeyLogFileInner) : KeyLogFileInner :=
  fold_left (fun x l => log (ascii_bytes (line_label l)) (line_random l) (line_secret l) x) ls x.

(** ** A reader *)

Definition read_line (l : bytes) : option (bytes * bytes * bytes) :=
  match split_on 32 l with
  | [label; r; s] => match hex_decode_std r, hex_decode_std s with Some r, Some s => Some (label, r, s) | _, _ => None end
  | _ => None
  end.
(** The lines of a file, each ended by a newline. *)
Definition read_log (bs : bytes) : list (option (bytes * bytes * bytes)) := map read_line (removelast (split_on 10 bs)).

(** ** Laws *)

Lemma write_all_prefix buf c answers : exists n, (n <= length buf)%nat /\ contents (write_all buf c answers).2 = c ++ take n buf /\
  ((write_all buf c answers).1 = true -> n = length buf).
Proof.
  revert buf c. induction answers as [|a answers IH]; intros buf c.
  - exists (length buf). rewrite firstn_all. destruct buf; cbn; rewrite ?app_nil_r; done.
  - destruct buf as [|b buf]; [exists 0%nat; cbn; by rewrite app_nil_r|]. destruct a as [[|n]| |]; cbn [write_all]; try (exists 0%nat; cbn; rewrite app_nil_r; split; [lia|done]); [|apply IH].
    destruct (IH (drop (S n) (b :: buf)) (c ++ take (S n) (b :: buf))) as (k & Hk & Hc & Ht). rewrite length_drop in Hk, Ht.
    destruct (Nat.le_gt_cases (length (b :: buf)) (S n)) as [Hn|Hn].
    + exists (length (b :: buf)). split; [done|]. rewrite Hc, firstn_all, (take_ge _ _ Hn), (drop_ge _ _ Hn), take_nil, app_nil_r. done.
    + exists (S n + k)%nat. split; [lia|]. split; [|intros H; specialize (Ht H); lia]. rewrite Hc, <- app_assoc. f_equal. rewrite <- (take_drop (S n) (take (S n + k) (b :: buf))).
      rewrite take_take, Nat.min_l by lia. by rewrite skipn_firstn_comm, Nat.add_comm, Nat.add_sub.
Qed.
Lemma hex2_digits bs c : wf_bytes bs -> c = 32 \/ c = 10 -> c ∉ hex2 bs.
Proof.
  intros Hb Hc. unfold hex2. induction Hb as [|b bs Hb _ IH]; cbn [flat_map app]; [apply not_elem_of_nil|]. unfold is_byte in Hb.
  assert (forall d, 0 <= d -> digit_char d <> c) as Hd by (intros d ?; unfold digit_char; destruct (d <? 10); lia).
  rewrite !not_elem_of_cons. split_and!; [apply not_eq_sym, Hd, Z.div_pos; lia|apply not_eq_sym, Hd, Z.mod_pos_bound; lia|done].
Qed.
Lemma read_line_line label r s : 32 ∉ label -> wf_bytes r -> wf_bytes s -> read_line (label ++ [32] ++ hex2 r ++ [32] ++ hex2 s) = Some (label, r, s).
Proof.
  intros Hl Hr Hs. unfold read_line. cbn [app]. rewrite split_on_app, split_on_none by done. rewrite split_on_app, !split_on_none by (apply hex2_digits; auto). cbn [app].
  pose proof (hex_decode_encode (h:=std_hex) r Hr) as Er. pose proof (hex_decode_encode (h:=std_hex) s Hs) as Es. cbn in Er, Es. unfold hex_encode_std in Er, Es. unfold hex2. by rewrite Er, Es.
Qed.
(** A file whose last line is ended. *)
Definition ended (bs : bytes) : Prop := bs = [] \/ exists b, bs = b ++ [10].
Lemma read_log_line bs label r s : ended bs -> 32 ∉ label -> 10 ∉ label -> wf_bytes r -> wf_bytes s ->
  ended (bs ++ line label r s) /\ read_log (bs ++ line label r s) = read_log bs ++ [Some (label, r, s)].
Proof.
  intros He H32 H10 Hr Hs. set (t := label ++ [32] ++ hex2 r ++ [32] ++ hex2 s). assert (10 ∉ t) as Ht.
  { unfold t. rewrite !not_elem_of_app, list_elem_of_singleton. split_and!; auto; apply hex2_digits; auto. }
  assert (line label r s = t ++ [10]) as El by (unfold line, t; by rewrite <- !app_assoc). assert (read_line t = Some (label, r, s)) as Er by by apply read_line_line.
  rewrite El. split; [right; exists (bs ++ t); by rewrite app_assoc|]. unfold read_log. destruct He as [->|[b ->]].
  - cbn [app]. rewrite split_on_app, split_on_none by done. cbn. by rewrite Er.
  - rewrite <- app_assoc. cbn [app]. rewrite !split_on_app, (split_on_none 10 t) by done. cbn [split_on app]. change [t; []] with ([t] ++ [[]]). rewrite app_assoc, !removelast_last, map_app. cbn [map]. by rewrite Er.
Qed.

(** Writes that do not fail: some bytes are accepted, or the call is interrupted. *)
Definition steady (a : write_result) : Prop := match a with Wrote (S _) | Interrupted => True | _ => False end.
Lemma write_all_steady buf c answers : Forall steady answers -> exists rest, write_all buf c answers = (true, {| contents := c ++ buf; answers := rest |}) /\ Forall steady rest.
Proof.
  revert buf c. induction answers as [|a answers IH]; intros buf c Ha.
  - exists []. destruct buf; cbn; rewrite ?app_nil_r; done.
  - destruct buf as [|b buf]; [exists (a :: answers); cbn; by rewrite app_nil_r|]. apply Forall_cons_iff in Ha as [Ha Hs]. destruct a as [[|n]| |]; try done; cbn [write_all]; [|by apply IH].
    destruct (IH (drop (S n) (b :: buf)) (c ++ take (S n) (b :: buf)) Hs) as (rest & E & Hr). exists rest. rewrite E, <- app_assoc, take_drop. done.
Qed.
Definition line_ok (l : log_line) : Prop := (32 ∉ ascii_bytes (line_label l)) /\ (10 ∉ ascii_bytes (line_label l)) /\ wf_bytes (line_random l) /\ wf_bytes (line_secret l).
(** What was logged is read back: with writes that do not fail, however they are cut or
    interrupted, a reader gets what was in the file before and every line, in order.
    Without a file nothing happens. *)
Theorem log_read_back ls f b : ended (contents f) -> Forall steady (answers f) -> Forall line_ok ls ->
  (exists f' b', log_lines ls {| log_file := Some f; log_buf := b |} = {| log_file := Some f'; log_buf := b' |} /\
     read_log (contents f') = read_log (contents f) ++ map (fun l => Some (ascii_bytes (line_label l), line_random l, line_secret l)) ls) /\
  log_lines ls {| log_file := None; log_buf := b |} = {| log_file := None; log_buf := b |}.
Proof.
  intros He Ha Hl. split; [|clear; by induction ls]. revert f b He Ha. induction Hl as [|l ls (H1 & H2 & H3 & H4) _ IH]; intros f b He Ha.
  - exists f, b. cbn. by rewrite app_nil_r.
  - unfold log_lines. cbn [fold_left]. unfold log, try_write. cbn [log_file]. destruct (write_all_steady (line (ascii_bytes (line_label l)) (line_random l) (line_secret l)) (contents f) (answers f) Ha) as (rest & -> & Hr).
    destruct (read_log_line (contents f) _ _ _ He H1 H2 H3 H4) as [He' Er]. destruct (IH {| contents := contents f ++ line (ascii_bytes (line_label l)) (line_random l) (line_secret l); answers := rest |}
      (line (ascii_bytes (line_label l)) (line_random l) (line_secret l)) He' Hr) as (f' & b' & E & Hf). exists f', b'. split; [exact E|]. rewrite Hf. cbn [contents]. rewrite Er, <- app_assoc. done.
Qed.
(** Every label of the key schedule can be logged. *)
Lemma labels_loggable k s : log_label k = Some s -> (32 ∉ ascii_bytes s) /\ (10 ∉ ascii_bytes s).
Proof. destruct k; intros [= <-]; split; apply (bool_decide_unpack _); by vm_compute. Qed.
(** A write that fails half-way leaves a torn line, and the next line is lost with it:
    a failing write is more than nothing. *)
Lemma torn_line : let f := {| contents := []; answers := [Wrote 5; WriteFails] |} in
  let l := {| line_label := "CLIENT_RANDOM"; line_random := [1]; line_secret := [2] |} in
  exists f' b, log_lines [l; l] {| log_file := Some f; log_buf := [] |} = {| log_file := Some f'; log_buf := b |} /\
    read_log (contents f') = [Some (ascii_bytes "CLIENCLIENT_RANDOM", [1], [2])].
Proof. eexists _, _. split; [reflexivity|]. vm_compute. reflexivity. Qed.
