(* ===== verification/QuicKeys.v ===== *)
(** * QUIC packet protection of the TLS fork
    (orcax/rustls-fork/rustls/src/quic.rs, crypto/ring/quic.rs)

    The keys that a QUIC implementation gets from the handshake: header protection
    and packet keys for each direction, from a secret and the labels of a QUIC
    version, their updates, and the initial keys that both ends compute from a
    connection id.  The AEAD and the header masks of ring are parameters. *)
From S2P Require Import Prelude Codec TlsLayer Enums Wire Ciphers Suites Errors Common Hkdf KeySchedule KeyScheduleLaws Tls12.

(** [aead::quic::HeaderProtectionKey::new_mask]: five bytes for a sample of the
    right length. *)
Class RingQuic : Type := { ring_mask : Algorithm -> bytes -> bytes -> option bytes }.
Definition SAMPLE_LEN : nat := 16.
Class RingQuicLaws (Q : RingQuic) : Prop := {
  ring_mask_ok a k s : length k = alg_key_len a -> length s = SAMPLE_LEN -> exists m, ring_mask a k s = Some m /\ length m = 5%nat /\ Forall (fun b => 0 <= b < 256) m;
  ring_mask_sample a k s : length s <> SAMPLE_LEN -> ring_mask a k s = None
}.

(** ** Versions *)

Definition initial_salt (v : QuicVersion) : bytes :=
  match v with
  | V1Draft => [0xaf; 0xbf; 0xec; 0x28; 0x99; 0x93; 0xd2; 0x4c; 0x9e; 0x97; 0x86; 0xf1; 0x9c; 0x61; 0x11; 0xe0; 0x43; 0x90; 0xa8; 0x99]
  | V1 => [0x38; 0x76; 0x2c; 0xf7; 0xf5; 0x59; 0x34; 0xb3; 0x4d; 0x17; 0x9a; 0xe6; 0xa4; 0xc8; 0x0c; 0xad; 0xcc; 0xbb; 0x7f; 0x0a]
  | V2 => [0x0d; 0xed; 0xe3; 0xde; 0xf7; 0x00; 0xa6; 0xdb; 0x81; 0x93; 0x81; 0xbe; 0x6e; 0x26; 0x9d; 0xcb; 0xf9; 0xbd; 0x2e; 0xd9]
  end.
Definition packet_key_label (v : QuicVersion) : bytes := match v with V1Draft | V1 => ascii_bytes "quic key" | V2 => ascii_bytes "quicv2 key" end.
Definition packet_iv_label (v : QuicVersion) : bytes := match v with V1Draft | V1 => ascii_bytes "quic iv" | V2 => ascii_bytes "quicv2 iv" end.
Definition header_key_label (v : QuicVersion) : bytes := match v with V1Draft | V1 => ascii_bytes "quic hp" | V2 => ascii_bytes "quicv2 hp" end.
Definition key_update_label (v : QuicVersion) : bytes := match v with V1Draft | V1 => ascii_bytes "quic ku" | V2 => ascii_bytes "quicv2 ku" end.

(** ** Header protection (crypto/ring/quic.rs) *)

Module HeaderProtectionKey.
Section key.
Context {Q : RingQuic}.
Record t : Type := { alg : Algorithm; key : bytes }.
(** ring refuses a key of the wrong length, and the result is unwrapped. *)
Definition new {E} (k : AeadKey.t) (a : Algorithm) : result E t :=
  if (length (AeadKey.as_ref k) =? alg_key_len a)%nat then Ok {| alg := a; key := AeadKey.as_ref k |} else Panic.
(** [split_first().unwrap()]. *)
Definition split_first {E} (m : bytes) : result E (Z * bytes) := match m with b :: m => Ok (b, m) | [] => Panic end.
Definition LONG_HEADER_FORM : Z := 0x80.
(** The exclusive or of the first [n] bytes with a mask. *)
Fixpoint xor_first (n : nat) (bs mask : bytes) : bytes :=
  match n, bs, mask with S n, b :: bs, m :: mask => Z.lxor b m :: xor_first n bs mask | _, _, _ => bs end.
(** The new [first] and [packet_number]; on an error they are unchanged. *)
Definition xor_in_place (k : t) (sample : bytes) (first : Z) (packet_number : bytes) (masked : bool) : result Error.t (Z * bytes) :=
  mask ← ok_or (ring_mask (alg k) (key k) sample) Error.General;
  '(first_mask, pn_mask) ← split_first mask;
  if (length pn_mask <? length packet_number)%nat then Err Error.General
  else
    let bits := if Z.land first LONG_HEADER_FORM =? LONG_HEADER_FORM then 0x0f else 0x1f in
    let first_plain := if masked then Z.lxor first (Z.land first_mask bits) else first in
    let pn_len := (Z.to_nat (Z.land first_plain 0x03) + 1)%nat in
    Ok (Z.lxor first (Z.land first_mask bits), xor_first pn_len packet_number pn_mask).
Definition encrypt_in_place (k : t) (sample : bytes) (first : Z) (packet_number : bytes) : result Error.t (Z * bytes) := xor_in_place k sample first packet_number false.
Definition decrypt_in_place (k : t) (sample : bytes) (first : Z) (packet_number : bytes) : result Error.t (Z * bytes) := xor_in_place k sample first packet_number true.
Definition sample_len (k : t) : nat := SAMPLE_LEN.
End key.
End HeaderProtectionKey.

(** ** Packet keys *)

Module PacketKey.
Section key.
Context {A : RingAead}.
Record t : Type := { alg : Algorithm; key : bytes; iv : bytes }.
Definition new {E} (k : AeadKey.t) (iv : bytes) (a : Algorithm) : result E t :=
  if (length (AeadKey.as_ref k) =? alg_key_len a)%nat then Ok {| alg := a; key := AeadKey.as_ref k; iv := iv |} else Panic.
(** The payload as it is left, and the tag, whose copy into 16 bytes panics at
    another length. *)
Definition encrypt_in_place (k : t) (packet_number : Z) (header payload : bytes) : result Error.t (bytes * bytes) :=
  '(c, tag) ← ok_or (ring_seal (alg k) (key k) (nonce_new (iv k) packet_number) header payload) Error.EncryptError;
  tag ← copy_into (replicate TAG_LEN 0) 0 TAG_LEN tag;
  Ok (c, tag).
(** The opened payload without the place of the tag. *)
Definition decrypt_in_place (k : t) (packet_number : Z) (header payload : bytes) : result Error.t bytes :=
  p ← ok_or (ring_open (alg k) (key k) (nonce_new (iv k) packet_number) header payload) Error.DecryptError;
  if (length payload <? TAG_LEN)%nat then Panic else Ok (take (length payload - TAG_LEN) p).
Definition tag_len (k : t) : nat := TAG_LEN.
End key.
End PacketKey.

(** ** Keys from secrets (quic.rs) *)

Section keys.
Context {H : Hashing} {P : Hkdf} {A : RingAead} {Q : RingQuic}.

Record KeyBuilder : Type := { kb_expander : expander; kb_version : QuicVersion; kb_alg : Algorithm }.
Definition key_builder (secret : bytes) (v : QuicVersion) (a : Algorithm) (h : hash_alg) : KeyBuilder :=
  {| kb_expander := expander_for_okm h secret; kb_version := v; kb_alg := a |}.
Definition packet_key {E} (b : KeyBuilder) : result E PacketKey.t :=
  packet_key ← hkdf_expand_label_aead_key (kb_expander b) (alg_key_len (kb_alg b)) (packet_key_label (kb_version b)) [];
  packet_iv ← hkdf_expand_label NONCE_LEN (kb_expander b) (packet_iv_label (kb_version b)) [];
  PacketKey.new packet_key packet_iv (kb_alg b).
Definition header_protection_key {E} (b : KeyBuilder) : result E HeaderProtectionKey.t :=
  header_key ← hkdf_expand_label_aead_key (kb_expander b) (alg_key_len (kb_alg b)) (header_key_label (kb_version b)) [];
  HeaderProtectionKey.new header_key (kb_alg b).

Record DirectionalKeys : Type := { header : HeaderProtectionKey.t; packet : PacketKey.t }.
Definition directional_keys {E} (suite : Tls13CipherSuite) (secret : bytes) (v : QuicVersion) : result E DirectionalKeys :=
  let b := key_builder secret v (aead13 suite) (hash_provider (common13 suite)) in
  h ← header_protection_key b;
  p ← packet_key b;
  Ok {| header := h; packet := p |}.

(** [Secrets]: the client's and the server's, seen from one side. *)
Definition set_secrets (s : QuicSecrets) (client server : bytes) : QuicSecrets :=
  {| q_client := client; q_server := server; q_suite := q_suite s; q_side := q_side s; q_secrets_version := q_secrets_version s |}.
Definition q_hash (s : QuicSecrets) : hash_alg := hash_provider (common13 (q_suite s)).
Definition update {E} (s : QuicSecrets) : result E QuicSecrets :=
  client ← hkdf_expand_label_block (expander_for_okm (q_hash s) (q_client s)) (key_update_label (q_secrets_version s)) [];
  server ← hkdf_expand_label_block (expander_for_okm (q_hash s) (q_server s)) (key_update_label (q_secrets_version s)) [];
  Ok (set_secrets s client server).
Definition local_remote (s : QuicSecrets) : bytes * bytes := match q_side s with Client => (q_client s, q_server s) | Server => (q_server s, q_client s) end.
Record PacketKeySet : Type := { pks_local : PacketKey.t; pks_remote : PacketKey.t }.
Definition packet_key_set {E} (s : QuicSecrets) : result E PacketKeySet :=
  let '(local, remote) := local_remote s in
  l ← packet_key (key_builder local (q_secrets_version s) (aead13 (q_suite s)) (q_hash s));
  r ← packet_key (key_builder remote (q_secrets_version s) (aead13 (q_suite s)) (q_hash s));
  Ok {| pks_local := l; pks_remote := r |}.
Definition next_packet_keys {E} (s : QuicSecrets) : result E (PacketKeySet * QuicSecrets) :=
  keys ← packet_key_set s; s ← update s; Ok (keys, s).

Record Keys : Type := { local : DirectionalKeys; remote : DirectionalKeys }.
Definition keys_new {E} (s : QuicSecrets) : result E Keys :=
  let '(local, remote) := local_remote s in
  l ← directional_keys (q_suite s) local (q_secrets_version s);
  r ← directional_keys (q_suite s) remote (q_secrets_version s);
  Ok {| local := l; remote := r |}.
Definition keys_initial {E} (v : QuicVersion) (suite : Tls13CipherSuite) (client_dst_connection_id : bytes) (sd : Side) : result E Keys :=
  let hs_secret := extract_from_secret (hash_provider (common13 suite)) (Some (initial_salt v)) client_dst_connection_id in
  client ← hkdf_expand_label_block hs_secret (ascii_bytes "client in") [];
  server ← hkdf_expand_label_block hs_secret (ascii_bytes "server in") [];
  keys_new {| q_client := client; q_server := server; q_suite := suite; q_side := sd; q_secrets_version := v |}.

(** [KeyChange], and [Quic::write_hs]: the bytes to send, and the keys that follow
    them. *)
Inductive KeyChange : Type := ChangeHandshake (keys : Keys) | ChangeOneRtt (keys : Keys) (next : QuicSecrets).
Fixpoint write_queue (queue : list (bool * bytes)) (has_hs_secrets : bool) (buf : bytes) : bytes * list (bool * bytes) :=
  match queue with
  | [] => (buf, [])
  | (_, msg) :: rest =>
      let buf := buf ++ msg in
      match rest with
      | (true, _) :: _ => if has_hs_secrets then (buf, rest) else write_queue rest has_hs_secrets buf
      | _ => write_queue rest has_hs_secrets buf
      end
  end.
Definition set_q_returned (x : bool) (s : QuicState) : QuicState :=
  {| q_params := q_params s; q_alert := q_alert s; q_hs_queue := q_hs_queue s; q_early_secret := q_early_secret s; q_hs_secrets := q_hs_secrets s;
     q_traffic_secrets := q_traffic_secrets s; q_returned_traffic_keys := x; q_version := q_version s |}.
Definition quic_write_hs {E} (s : QuicState) (buf : bytes) : result E (bytes * option KeyChange * QuicState) :=
  let '(buf, queue) := write_queue (q_hs_queue s) (bool_decide (is_Some (q_hs_secrets s))) buf in
  let s := set_q_hs_queue queue s in
  match q_hs_secrets s with
  | Some secrets => keys ← keys_new secrets; Ok (buf, Some (ChangeHandshake keys), set_q_hs_secrets None s)
  | None =>
      match q_traffic_secrets s with
      | Some secrets =>
          let s := set_q_traffic_secrets None s in
          if q_returned_traffic_keys s then Ok (buf, None, s)
          else
            keys ← keys_new secrets;
            next ← update secrets;
            Ok (buf, Some (ChangeOneRtt keys next), set_q_returned true s)
      | None => Ok (buf, None, s)
      end
  end.
End keys.

(** ** Header protection comes off again *)

Section header.
Context {Q : RingQuic} {QL : RingQuicLaws Q}.
Import HeaderProtectionKey.
Lemma xor_first_twice n bs mask : xor_first n (xor_first n bs mask) mask = bs.
Proof.
  revert bs mask. induction n as [|n IH]; intros bs mask; [done|]. destruct bs as [|b bs]; [done|]. destruct mask as [|m mask]; [done|]. cbn [xor_first].
  by rewrite IH, Z.lxor_assoc, Z.lxor_nilpotent, Z.lxor_0_r.
Qed.
Lemma xor_first_length n bs mask : length (xor_first n bs mask) = length bs.
Proof. revert bs mask. induction n as [|n IH]; intros [|b bs] [|m mask]; cbn; auto. Qed.
(** The masked bits are below the bit of the header form. *)
Lemma form_bit_stays first m bits : Z.land bits LONG_HEADER_FORM = 0 -> Z.land (Z.lxor first (Z.land m bits)) LONG_HEADER_FORM = Z.land first LONG_HEADER_FORM.
Proof.
  intros Hb. apply Z.bits_inj'. intros n Hn. rewrite !Z.land_spec, Z.lxor_spec, Z.land_spec. apply (f_equal (fun x => Z.testbit x n)) in Hb.
  rewrite Z.land_spec, Z.bits_0 in Hb. destruct (Z.testbit first n), (Z.testbit m n), (Z.testbit bits n), (Z.testbit LONG_HEADER_FORM n); done.
Qed.
Lemma lxor_u8 a b : 0 <= a < 256 -> 0 <= b < 256 -> 0 <= Z.lxor a b < 256.
Proof.
  intros Ha Hb. split; [apply Z.lxor_nonneg; lia|]. destruct (Z.eq_dec (Z.lxor a b) 0) as [->|Hz]; [lia|]. apply (Z.log2_lt_pow2 _ 8); [pose proof (Z.lxor_nonneg a b); lia|].
  assert (Hl : forall x, 0 <= x < 256 -> Z.log2 x <= 7).
  { intros x Hx. destruct (Z.eq_dec x 0) as [->|]; [done|]. assert (Z.log2 x < 8) by (apply Z.log2_lt_pow2; lia). lia. }
  pose proof (Z.log2_lxor a b). specialize (Hl a Ha) as Hla. specialize (Hl b Hb) as Hlb. lia.
Qed.

(** C28: What header protection hides comes back.  With a sample of the right length
    and a packet number of at most four bytes, adding the protection succeeds, and
    removing it with the same key and sample restores the first byte and the packet
    number, although the second run reads the header form and the length of the
    packet number from what the first has changed.  The form bit is not hidden. *)
Theorem header_protection_roundtrip k sample first pn :
  length (key k) = alg_key_len (alg k) -> length sample = sample_len k -> (length pn <= 4)%nat -> 0 <= first < 256 ->
  exists first' pn', encrypt_in_place k sample first pn = Ok (first', pn') /\ decrypt_in_place k sample first' pn' = Ok (first, pn) /\
    Z.land first' LONG_HEADER_FORM = Z.land first LONG_HEADER_FORM /\ 0 <= first' < 256 /\ length pn' = length pn.
Proof.
  intros Hk Hs Hp Hf. destruct (ring_mask_ok (alg k) (key k) sample Hk Hs) as (mask & Hm & Hl & Hb). destruct mask as [|m0 mask]; [done|]. cbn in Hl. inversion Hb as [|?? Hm0 _]; subst.
  unfold encrypt_in_place, decrypt_in_place, xor_in_place. rewrite Hm. cbn [ok_or mbind result_bind split_first].
  rewrite (proj2 (Nat.ltb_ge _ _)) by lia. set (bits := if Z.land first _ =? _ then 0x0f else 0x1f).
  assert (Z.land bits LONG_HEADER_FORM = 0) as Hbits by (unfold bits; by case_match).
  assert (0 <= Z.land m0 bits < 256) as Hmask.
  { assert (exists n, bits = Z.ones n /\ 0 <= n <= 8) as (n & -> & Hn) by (unfold bits; case_match; [exists 4|exists 5]; done).
    rewrite Z.land_ones by lia. assert (2 ^ n <= 2 ^ 8) by (apply Z.pow_le_mono_r; lia). pose proof (Z.mod_pos_bound m0 (2 ^ n)). lia. }
  eexists _, _. split; [done|]. rewrite xor_first_length, (proj2 (Nat.ltb_ge _ _)) by lia. rewrite (form_bit_stays first m0 bits Hbits). fold bits.
  rewrite Z.lxor_assoc, Z.lxor_nilpotent, Z.lxor_0_r, xor_first_twice. split; [done|]. split; [done|]. split; [by apply lxor_u8|done].
Qed.
(** A wrong sample or a packet number that is too long is refused. *)
Lemma header_protection_refuses k sample first pn b : length (key k) = alg_key_len (alg k) ->
  (length sample <> sample_len k \/ (4 < length pn)%nat) -> xor_in_place k sample first pn b = Err Error.General.
Proof.
  intros Hk Hw. unfold xor_in_place. destruct (decide (length sample = SAMPLE_LEN)) as [Hs|Hs]; [|by rewrite ring_mask_sample]. destruct Hw as [|Hw]; [done|].
  destruct (ring_mask_ok (alg k) (key k) sample Hk Hs) as (mask & -> & Hl & _). destruct mask as [|m0 mask]; [done|]. cbn in Hl.
  cbn [ok_or mbind result_bind split_first]. by rewrite (proj2 (Nat.ltb_lt _ _)) by lia.
Qed.
End header.

(** ** Both ends have the same keys *)

Section cross.
Context {H : Hashing} {P : Hkdf} {PL : HkdfLaws P} {A : RingAead} {AL : RingAeadLaws A} {Q : RingQuic} {QL : RingQuicLaws Q}.

(** The same secrets from the other side. *)
Definition mirror (s : QuicSecrets) : QuicSecrets :=
  {| q_client := q_client s; q_server := q_server s; q_suite := q_suite s; q_side := peer (q_side s); q_secrets_version := q_secrets_version s |}.
Definition packet_ok (k : PacketKey.t) : Prop := length (PacketKey.key k) = alg_key_len (PacketKey.alg k) /\ length (PacketKey.iv k) = NONCE_LEN.
Definition header_ok (k : HeaderProtectionKey.t) : Prop := length (HeaderProtectionKey.key k) = alg_key_len (HeaderProtectionKey.alg k).
Lemma label_key_total h okm a label : exists k, length (AeadKey.as_ref k) = alg_key_len a /\
  forall E, hkdf_expand_label_aead_key (E:=E) (expander_for_okm h okm) (alg_key_len a) label [] = Ok k.
Proof.
  unfold hkdf_expand_label_aead_key, hkdf_expand_label_inner, expand. set (e := expander_for_okm h okm).
  assert (alg_key_len a <= AeadKey.MAX_LEN)%nat as Hk by (unfold AeadKey.MAX_LEN; destruct a; cbn; lia).
  destruct (expand_slice_ok e (hkdf_label label [] (alg_key_len a)) AeadKey.MAX_LEN) as (key & Hkey & Hkl).
  { unfold e. rewrite hash_len_okm. unfold AeadKey.MAX_LEN. destruct h; cbn; lia. }
  exists {| AeadKey.buf := key; AeadKey.used := alg_key_len a |}. split; [unfold AeadKey.as_ref; cbn; rewrite length_take; lia|].
  intros E. rewrite Hkey. cbn [unwrap mbind result_bind]. unfold AeadKey.with_length, AeadKey.from_array. cbn [AeadKey.used AeadKey.buf]. by rewrite (proj2 (Nat.leb_le _ _)).
Qed.
Lemma label_iv_total h okm label : exists iv, length iv = NONCE_LEN /\ forall E, hkdf_expand_label (E:=E) NONCE_LEN (expander_for_okm h okm) label [] = Ok iv.
Proof.
  unfold hkdf_expand_label, hkdf_expand_label_inner, expand. destruct (expand_slice_ok (expander_for_okm h okm) (hkdf_label label [] NONCE_LEN) NONCE_LEN) as (iv & -> & Hl).
  { rewrite hash_len_okm. unfold NONCE_LEN. destruct h; cbn; lia. }
  by exists iv.
Qed.
Lemma packet_key_total okm v a h : exists k, packet_ok k /\ forall E, packet_key (E:=E) (key_builder okm v a h) = Ok k.
Proof.
  unfold packet_key. cbn [key_builder kb_expander kb_alg kb_version]. destruct (label_key_total h okm a (packet_key_label v)) as (k & Hk & Hkey).
  destruct (label_iv_total h okm (packet_iv_label v)) as (iv & Hl & Hiv). exists {| PacketKey.alg := a; PacketKey.key := AeadKey.as_ref k; PacketKey.iv := iv |}. split; [done|].
  intros E. rewrite Hkey, Hiv. cbn [mbind result_bind]. unfold PacketKey.new. by rewrite Hk, Nat.eqb_refl.
Qed.
Lemma header_key_total okm v a h : exists k, header_ok k /\ forall E, header_protection_key (E:=E) (key_builder okm v a h) = Ok k.
Proof.
  unfold header_protection_key. cbn [key_builder kb_expander kb_alg kb_version]. destruct (label_key_total h okm a (header_key_label v)) as (k & Hk & Hkey).
  exists {| HeaderProtectionKey.alg := a; HeaderProtectionKey.key := AeadKey.as_ref k |}. split; [done|].
  intros E. rewrite Hkey. cbn [mbind result_bind]. unfold HeaderProtectionKey.new. by rewrite Hk, Nat.eqb_refl.
Qed.
Lemma directional_total suite okm v : exists d, packet_ok (packet d) /\ header_ok (header d) /\ forall E, directional_keys (E:=E) suite okm v = Ok d.
Proof.
  destruct (header_key_total okm v (aead13 suite) (hash_provider (common13 suite))) as (h & Hh & Hhk). destruct (packet_key_total okm v (aead13 suite) (hash_provider (common13 suite))) as (p & Hp & Hpk).
  exists {| header := h; packet := p |}. split; [done|]. split; [done|]. intros E. unfold directional_keys. rewrite Hhk, Hpk. done.
Qed.
Lemma update_total s : exists s', q_suite s' = q_suite s /\ (forall E, update (E:=E) s = Ok s') /\ (forall E, update (E:=E) (mirror s) = Ok (mirror s')).
Proof.
  destruct (okm_block_total (q_hash s) (q_client s) (key_update_label (q_secrets_version s)) []) as (c & _ & Hc).
  destruct (okm_block_total (q_hash s) (q_server s) (key_update_label (q_secrets_version s)) []) as (v & _ & Hv).
  exists (set_secrets s c v). split; [done|]. unfold update. split; intros E; cbn [mirror q_client q_server q_secrets_version] in *; [by rewrite Hc, Hv|].
  change (q_hash (mirror s)) with (q_hash s). by rewrite Hc, Hv.
Qed.
(** A packet that one key seals, the same key opens at the other end. *)
Lemma packet_roundtrip k pn hdr p : packet_ok k -> (length p <= MAX_FRAGMENT_LEN + 1)%nat ->
  exists c tag, PacketKey.encrypt_in_place k pn hdr p = Ok (c, tag) /\ length tag = TAG_LEN /\ length c = length p /\ PacketKey.decrypt_in_place k pn hdr (c ++ tag) = Ok p.
Proof.
  intros [Hk Hi] Hp. destruct (ring_seal_ok (PacketKey.alg k) (PacketKey.key k) (nonce_new (PacketKey.iv k) pn) hdr p Hk (nonce_length _ _ Hi) Hp) as (c & t & Hs & Hc & Ht & Ho).
  exists c, t. unfold PacketKey.encrypt_in_place, PacketKey.decrypt_in_place. rewrite Hs, Ho. cbn [ok_or mbind result_bind]. rewrite copy_whole by done. split; [done|].
  split; [done|]. split; [done|]. rewrite length_app, Hc, Ht, (proj2 (Nat.ltb_ge _ _)) by lia. by rewrite Nat.add_sub, take_ge.
Qed.

(** What one end protects with [d], the other takes apart with the same keys. *)
Definition carries_packets (d : DirectionalKeys) : Prop :=
  (forall pn hdr p, (length p <= MAX_FRAGMENT_LEN + 1)%nat ->
    exists c tag, PacketKey.encrypt_in_place (packet d) pn hdr p = Ok (c, tag) /\ PacketKey.decrypt_in_place (packet d) pn hdr (c ++ tag) = Ok p) /\
  header_ok (header d).
Lemma keys_mirror s : exists ks km, (forall E, keys_new (E:=E) s = Ok ks) /\ (forall E, keys_new (E:=E) (mirror s) = Ok km) /\
  local ks = remote km /\ remote ks = local km /\ carries_packets (local ks) /\ carries_packets (remote ks).
Proof.
  assert (forall okm, exists d, carries_packets d /\ forall E, directional_keys (E:=E) (q_suite s) okm (q_secrets_version s) = Ok d) as Hd.
  { intros okm. destruct (directional_total (q_suite s) okm (q_secrets_version s)) as (d & Hp & Hh & Hd). exists d. split; [|done]. split; [|done]. intros pn hdr p Hl.
    destruct (packet_roundtrip _ pn hdr p Hp Hl) as (c & t & He & _ & _ & Ho). eauto. }
  destruct (Hd (q_client s)) as (dc & Hc & Hdc). destruct (Hd (q_server s)) as (ds & Hs & Hds). unfold keys_new, local_remote. cbn [mirror q_side q_client q_server q_suite q_secrets_version].
  destruct (q_side s); [exists {| local := dc; remote := ds |}, {| local := ds; remote := dc |}|exists {| local := ds; remote := dc |}, {| local := dc; remote := ds |}];
    (split; [intros E; by rewrite Hdc, Hds|]); (split; [intros E; cbn [peer]; by rewrite Hdc, Hds|done]).
Qed.
(** The packet keys after [n] key updates. *)
Fixpoint rekeys {E} (n : nat) (s : QuicSecrets) : result E (PacketKeySet * QuicSecrets) :=
  match n with O => next_packet_keys s | S n => '(_, s) ← next_packet_keys s; rekeys n s end.
Lemma packet_keys_mirror s : exists ks km s', next_packet_keys (E:=Error.t) s = Ok (ks, s') /\ next_packet_keys (E:=Error.t) (mirror s) = Ok (km, mirror s') /\
  pks_local ks = pks_remote km /\ pks_remote ks = pks_local km /\ packet_ok (pks_local ks) /\ packet_ok (pks_remote ks).
Proof.
  destruct (update_total s) as (s' & _ & Hu & Hum). destruct (packet_key_total (q_client s) (q_secrets_version s) (aead13 (q_suite s)) (q_hash s)) as (kc & Hc & Hkc).
  destruct (packet_key_total (q_server s) (q_secrets_version s) (aead13 (q_suite s)) (q_hash s)) as (ks & Hs & Hks).
  unfold next_packet_keys, packet_key_set, local_remote. cbn [mirror q_side q_client q_server q_suite q_secrets_version]. change (q_hash (mirror s)) with (q_hash s).
  destruct (q_side s) eqn:Hsd; [exists {| pks_local := kc; pks_remote := ks |}, {| pks_local := ks; pks_remote := kc |}, s'
    |exists {| pks_local := ks; pks_remote := kc |}, {| pks_local := kc; pks_remote := ks |}, s'];
    cbn [peer]; rewrite Hkc, Hks; cbn [mbind result_bind]; rewrite Hu, Hum; done.
Qed.

(** C27: QUIC packets cross at every key.  Let both ends hold the same secrets.  The
    handshake or 1-RTT keys they make of them mirror each other, for headers and
    packets, and after any number of key updates the packet keys do: what either end
    seals under a packet number and header, the other opens to the same payload, for
    payloads of at most 16385 bytes.
    Nothing panics on the way.  The initial keys, which both ends compute from the
    connection id, mirror each other as well. *)
Theorem quic_packets_cross s n pn hdr p : (length p <= MAX_FRAGMENT_LEN + 1)%nat ->
  (exists ks km, keys_new (E:=Error.t) s = Ok ks /\ keys_new (E:=Error.t) (mirror s) = Ok km /\ local ks = remote km /\ remote ks = local km /\
    carries_packets (local ks) /\ carries_packets (remote ks)) /\
  (exists ks km s', rekeys (E:=Error.t) n s = Ok (ks, s') /\ rekeys (E:=Error.t) n (mirror s) = Ok (km, mirror s') /\
    (exists c tag, PacketKey.encrypt_in_place (pks_local ks) pn hdr p = Ok (c, tag) /\ PacketKey.decrypt_in_place (pks_remote km) pn hdr (c ++ tag) = Ok p) /\
    (exists c tag, PacketKey.encrypt_in_place (pks_local km) pn hdr p = Ok (c, tag) /\ PacketKey.decrypt_in_place (pks_remote ks) pn hdr (c ++ tag) = Ok p)) /\
  (forall v suite cid sd, exists ks km, keys_initial (E:=Error.t) v suite cid sd = Ok ks /\ keys_initial (E:=Error.t) v suite cid (peer sd) = Ok km /\
    local ks = remote km /\ remote ks = local km).
Proof.
  intros Hp. split; [|split].
  - destruct (keys_mirror s) as (ks & km & Hk & Hm & Hr). exists ks, km. done.
  - revert s. induction n as [|n IH]; intros s; destruct (packet_keys_mirror s) as (ks & km & s' & Hk & Hm & Hl & Hr & Ho1 & Ho2).
    + exists ks, km, s'. split; [done|]. split; [done|]. rewrite <- Hl, <- Hr. destruct (packet_roundtrip _ pn hdr p Ho1 Hp) as (c & t & He & _ & _ & Hd).
      destruct (packet_roundtrip _ pn hdr p Ho2 Hp) as (c2 & t2 & He2 & _ & _ & Hd2). eauto 10.
    + cbn [rekeys]. rewrite Hk, Hm. cbn [mbind result_bind]. apply IH.
  - intros v suite cid sd. unfold keys_initial.
    assert (hash_len (extract_from_secret (hash_provider (common13 suite)) (Some (initial_salt v)) cid) <= MAX_LEN)%nat as Hh by (rewrite hash_len_secret; apply output_small).
    destruct (label_block_total _ (ascii_bytes "client in") [] Hh) as (c & _ & Hc). destruct (label_block_total _ (ascii_bytes "server in") [] Hh) as (r & _ & Hr). rewrite Hc, Hr.
    cbn [mbind result_bind]. destruct (keys_mirror {| q_client := c; q_server := r; q_suite := suite; q_side := sd; q_secrets_version := v |}) as (ks & km & Hk & Hm & H1 & H2 & _).
    exists ks, km. done.
Qed.
End cross.

(** ** The queue of handshake data *)

Section queue.
Context {H : Hashing} {P : Hkdf} {PL : HkdfLaws P} {A : RingAead} {AL : RingAeadLaws A} {Q : RingQuic} {QL : RingQuicLaws Q}.
(** Nothing is lost or reordered. *)
Lemma write_queue_conserves q b buf : let r := write_queue q b buf in r.1 ++ concat (map snd r.2) = buf ++ concat (map snd q).
Proof.
  cbn zeta. revert buf. induction q as [|[e m] q IH]; intros buf; [done|]. cbn [write_queue map concat]. rewrite app_assoc. destruct q as [|[[] m'] q]; [apply IH| |apply IH].
  destruct b; [done|apply IH].
Qed.
Lemma write_queue_all q b buf : (b = false \/ Forall (fun m => m.1 = false) (drop 1 q)) -> write_queue q b buf = (buf ++ concat (map snd q), []).
Proof.
  revert buf. induction q as [|[e m] q IH]; intros buf Hb; [cbn; by rewrite app_nil_r|]. cbn [write_queue map concat]. rewrite app_assoc. cbn [drop] in Hb.
  assert (b = false \/ Forall (fun m => m.1 = false) (drop 1 q)) as Hb' by (destruct Hb as [|Hb]; [by left|right; by apply Forall_drop]).
  destruct q as [|[[] m'] q]; [by apply IH| |by apply IH]. destruct Hb as [->|Hb]; [by apply IH|]. inversion Hb; subst. done.
Qed.
Lemma write_queue_stops plain enc buf : plain <> [] -> Forall (fun m => m.1 = false) plain -> match enc with (true, _) :: _ => True | _ => False end ->
  write_queue (plain ++ enc) true buf = (buf ++ concat (map snd plain), enc).
Proof.
  intros Hn Hp He. revert buf Hn. induction Hp as [|[b m] plain Hb Hp IH]; intros buf Hn; [done|]. cbn [app write_queue map concat]. rewrite app_assoc.
  destruct Hp as [|[b' m'] plain Hb' Hp]; [destruct enc as [|[[] m'] enc]; try done; cbn; by rewrite app_nil_r|]. cbn in Hb'. subst b'. by apply (IH (buf ++ m)).
Qed.

(** The handshake data of a QUIC connection leaves under the right keys.  When
    messages for the current level are followed by messages for the next one and
    the handshake secrets are new, the first call gives exactly the former and the
    handshake keys, the second exactly the latter and, if the traffic secrets are
    there, the 1-RTT keys with the secrets of the next update; the third gives
    nothing. *)
Theorem write_hs_levels (st : QuicState) plain enc hs tr :
  q_hs_queue st = plain ++ enc -> plain <> [] -> Forall (fun m => m.1 = false) plain -> enc <> [] -> Forall (fun m => m.1 = true) enc ->
  q_hs_secrets st = Some hs -> q_traffic_secrets st = Some tr -> q_returned_traffic_keys st = false ->
  exists khs ktr next st1 st2 st3, keys_new (E:=Error.t) hs = Ok khs /\ keys_new (E:=Error.t) tr = Ok ktr /\ update (E:=Error.t) tr = Ok next /\
    quic_write_hs (E:=Error.t) st [] = Ok (concat (map snd plain), Some (ChangeHandshake khs), st1) /\
    quic_write_hs (E:=Error.t) st1 [] = Ok (concat (map snd enc), Some (ChangeOneRtt ktr next), st2) /\
    quic_write_hs (E:=Error.t) st2 [] = Ok ([], None, st3).
Proof.
  intros Hq Hn Hp Hne He Hhs Htr Hret. destruct (keys_mirror hs) as (khs & _ & Hkhs & _). destruct (keys_mirror tr) as (ktr & _ & Hktr & _).
  destruct (update_total tr) as (next & _ & Hu & _). assert (match enc with (true, _) :: _ => True | _ => False end) as Hfirst.
  { destruct He as [|[b m] enc Hb _]; [done|]. cbn in Hb. by subst. }
  eexists khs, ktr, next, _, _, _. split; [done|]. split; [done|]. split; [done|]. split; [|split].
  - unfold quic_write_hs. rewrite Hhs, bool_decide_eq_true_2 by eauto. rewrite Hq, (write_queue_stops plain enc [] Hn Hp Hfirst). cbn [set_q_hs_queue q_hs_secrets]. rewrite Hhs, Hkhs. done.
  - unfold quic_write_hs. cbn [set_q_hs_secrets set_q_hs_queue q_hs_queue q_hs_secrets q_traffic_secrets]. rewrite bool_decide_eq_false_2 by (by intros []).
    rewrite write_queue_all by by left. cbn [set_q_hs_queue q_hs_secrets q_traffic_secrets set_q_traffic_secrets q_returned_traffic_keys]. rewrite Htr.
    cbn [set_q_traffic_secrets set_q_hs_queue set_q_hs_secrets q_returned_traffic_keys]. rewrite Hret, Hktr. cbn [mbind result_bind]. rewrite Hu. done.
  - done.
Qed.
End queue.

(** ** Instances *)

#[local] Existing Instances toy_hashing toy_ring.
Definition toy_mask : RingQuic := {| ring_mask _ k s := if (length s =? SAMPLE_LEN)%nat then Some [0xff; 1; 2; 3; 4] else None |}.
#[export] Instance toy_mask_laws : RingQuicLaws toy_mask.
Proof.
  split; cbn.
  - intros a k s _ ->. eexists. split; [done|]. split; [done|]. repeat constructor; lia.
  - intros a k s Hs. by rewrite (proj2 (Nat.eqb_neq _ _)).
Qed.
#[local] Existing Instance toy_mask.
Lemma header_protection_roundtrip_witness :
  exists first' pn', HeaderProtectionKey.encrypt_in_place {| HeaderProtectionKey.alg := AES_128_GCM; HeaderProtectionKey.key := replicate 16 5 |} (replicate 16 9) 0x41 [7; 8] = Ok (first', pn') /\
    HeaderProtectionKey.decrypt_in_place {| HeaderProtectionKey.alg := AES_128_GCM; HeaderProtectionKey.key := replicate 16 5 |} (replicate 16 9) first' pn' = Ok (0x41, [7; 8]) /\ first' <> 0x41.
Proof.
  destruct (header_protection_roundtrip {| HeaderProtectionKey.alg := AES_128_GCM; HeaderProtectionKey.key := replicate 16 5 |} (replicate 16 9) 0x41 [7; 8]) as (f & pn & He & Hd & _);
    [reflexivity|reflexivity|cbn; lia|lia|].
  exists f, pn. split; [exact He|]. split; [exact Hd|]. injection He as <- _. discriminate.
Defined.
Definition ex_secrets : QuicSecrets :=
  {| q_client := replicate 32 1; q_server := replicate 32 2; q_suite := TLS13_AES_128_GCM_SHA256; q_side := Client; q_secrets_version := V2 |}.
Lemma quic_packets_cross_witness : exists ks km s', rekeys (E:=Error.t) 3 ex_secrets = Ok (ks, s') /\ rekeys (E:=Error.t) 3 (mirror ex_secrets) = Ok (km, mirror s') /\
  exists c tag, PacketKey.encrypt_in_place (pks_local ks) 7 [1; 2] [3; 4; 5] = Ok (c, tag) /\ PacketKey.decrypt_in_place (pks_remote km) 7 [1; 2] (c ++ tag) = Ok [3; 4; 5].
Proof.
  destruct (quic_packets_cross ex_secrets 3 7 [1; 2] [3; 4; 5]) as (_ & (ks & km & s' & Hk & Hm & Hc & _) & _); [unfold MAX_FRAGMENT_LEN; cbn; lia|].
  exists ks, km, s'. split; [exact Hk|]. split; [exact Hm|exact Hc].
Defined.
Definition ex_quic : QuicState :=
  {| q_params := None; q_alert := None; q_hs_queue := [(false, [2; 2]); (true, [8]); (true, [20; 20])]; q_early_secret := None; q_hs_secrets := Some ex_secrets;
     q_traffic_secrets := Some ex_secrets; q_returned_traffic_keys := false; q_version := V1 |}.
Lemma write_hs_levels_witness : exists keys st1, quic_write_hs (E:=Error.t) ex_quic [] = Ok ([2; 2], Some (ChangeHandshake keys), st1).
Proof.
  destruct (write_hs_levels ex_quic [(false, [2; 2])] [(true, [8]); (true, [20; 20])] ex_secrets ex_secrets) as (k & _ & _ & st1 & _ & _ & _ & _ & _ & Hw & _).
  - reflexivity.
  - discriminate.
  - repeat constructor.
  - discriminate.
  - repeat constructor.
  - reflexivity.
  - reflexivity.
  - reflexivity.
  - exists k, st1. exact Hw.
Defined.
