(* ===== verification/Conn.v ===== *)
(** * Connections of the TLS fork (orcax/rustls-fork/rustls/src/conn.rs, check.rs)

    [ConnectionCore] joins the deframer, the shared state and the state of the
    protocol: packets are deframed, alerts and stray ChangeCipherSpec records are
    dealt with, the rest goes to the handler of the protocol state, which is a
    parameter.  [ConnectionCommon] adds the application's reads and writes. *)
From S2P Require Import Prelude Codec TlsLayer VecBuf Deframer DeframerFeed Enums Wire Messages Payloads Ciphers Suites Errors Common.
Import CommonState.

(** ** Unexpected messages (check.rs) *)

Definition inappropriate_message (p : MessagePayload.t) (content_types : list ContentType) : Error.t :=
  Error.InappropriateMessage content_types (MessagePayload.content_type p).
Definition inappropriate_handshake_message (p : MessagePayload.t) (content_types : list ContentType) (handshake_types : list HandshakeType.t) : Error.t :=
  match p with
  | MessagePayload.Handshake parsed _ => Error.InappropriateHandshakeMessage handshake_types (HandshakeMessagePayload.typ parsed)
  | p => inappropriate_message p content_types
  end.

(** The errors of the deframer; those of reading from the transport never come
    out of [pop]. *)
Definition of_message_error (e : MessageError) : InvalidMessage :=
  match e with
  | TooShortForHeader | TooShortForLength => MessageTooShort
  | TlsLayer.InvalidEmptyPayload => Codec.InvalidEmptyPayload
  | TlsLayer.MessageTooLarge => Codec.MessageTooLarge
  | TlsLayer.InvalidContentType => Codec.InvalidContentType
  | TlsLayer.UnknownProtocolVersion => Codec.UnknownProtocolVersion
  end.
Definition of_deframe_error (e : deframe_error) : Error.t :=
  match e with
  | InvalidRecord e => Error.InvalidMessage (of_message_error e)
  | Deframer.HandshakePayloadTooLarge => Error.InvalidMessage Codec.HandshakePayloadTooLarge
  | RejectedEarlyDataInterleavedWithHandshakeMessage => Error.PeerMisbehaved PeerMisbehaved.RejectedEarlyDataInterleavedWithHandshakeMessage
  | MessageInterleavedWithHandshakeMessage => Error.PeerMisbehaved PeerMisbehaved.MessageInterleavedWithHandshakeMessage
  | RecordFailed e => of_tls_error e
  | CannotPushQuic | MessageBufferFull | ReadFailed => Error.General
  end.

Definition TLS13_MAX_DROPPED_CCS : Z := 2.
Definition is_valid_ccs (m : message) : bool := bool_decide (typ m = Known TlsLayer.ChangeCipherSpec) && bool_decide (payload m = [1]).

Section conn.
Context {K : Type} {C : Cipher K} `{DnsNames}.
(** [Box<dyn State<Data>>], with its methods. *)
Context {St D : Type} (handle : Handler (K:=K) St D).

Record ConnectionCore : Type := { core_state : St + Error.t; core_data : D; common_state : CommonState (K:=K); message_deframer : MessageDeframer }.
Definition core_new (st : St) (d : D) (c : CommonState) : ConnectionCore :=
  {| core_state := inl st; core_data := d; common_state := c; message_deframer := new_deframer |}.
Definition set_state (x : ConnectionCore) (s : St + Error.t) : ConnectionCore :=
  {| core_state := s; core_data := core_data x; common_state := common_state x; message_deframer := message_deframer x |}.
Definition set_context (x : ConnectionCore) (d : D) (c : CommonState (K:=K)) : ConnectionCore :=
  {| core_state := core_state x; core_data := d; common_state := c; message_deframer := message_deframer x |}.
Definition set_common (x : ConnectionCore) (c : CommonState (K:=K)) : ConnectionCore := set_context x (core_data x) c.
Definition set_deframer (x : ConnectionCore) (d : MessageDeframer) : ConnectionCore :=
  {| core_state := core_state x; core_data := core_data x; common_state := common_state x; message_deframer := d |}.
Definition with_common {T} (m : Cm (K:=K) T) (x : ConnectionCore) : result Error.t T * ConnectionCore :=
  let '(r, c) := m (common_state x) in (r, set_common x c).

(** What [deframe] does with the outcome of [pop]. *)
Definition deframed_message (df : Deframed) : Cm (K:=K) (option message) :=
  _ ← (if deframed_want_close df then send_close_notify else mret tt);
  _ ← (if trial_decryption_finished df then modify (fun s => set_record_layer (finish_trial_decryption (record_layer s)) s) else mret tt);
  _ ← modify (set_aligned_handshake (aligned df));
  mret (Some (deframed df)).
Definition deframe_failed (e : Error.t) : Cm (K:=K) (option message) :=
  match e with
  | Error.InvalidMessage _ =>
      q ← gets is_quic;
      if (q : bool) then _ ← modify (fun s => set_quic (set_q_alert (Some (AlertDescription.code AlertDescription.DecodeError)) (quic s)) s); fail e
      else send_fatal_alert AlertDescription.DecodeError e
  | Error.PeerSentOversizedRecord => send_fatal_alert AlertDescription.RecordOverflow e
  | Error.DecryptError => send_fatal_alert AlertDescription.BadRecordMac e
  | e => fail e
  end.
(** [pop] never runs out of fuel ([pop_refines]). *)
Definition deframe (x : ConnectionCore) : result Error.t (option message) * ConnectionCore :=
  let c := common_state x in
  match pop (negotiated_version c) (message_deframer x) (record_layer c) with
  | None => (Panic, x)
  | Some (r, d, l) =>
      let x := set_deframer (set_common x (set_record_layer l c)) d in
      match r with
      | Ok (Some df) => with_common (deframed_message df) x
      | Ok None => (Ok None, x)
      | Err e => with_common (deframe_failed (of_deframe_error e)) x
      | Panic => (Panic, x)
      end
  end.

(** Drops a ChangeCipherSpec message of a middlebox. *)
Definition drop_ccs (msg : message) (state : St) : Cm (K:=K) St :=
  n ← gets received_middlebox_ccs;
  if negb (is_valid_ccs msg) || (TLS13_MAX_DROPPED_CCS <? n)
  then send_fatal_alert AlertDescription.UnexpectedMessage (Error.PeerMisbehaved PeerMisbehaved.IllegalMiddleboxChangeCipherSpec)
  else _ ← modify (set_received_middlebox_ccs (u8 (n + 1))); mret state.
Definition process_msg (msg : message) (state : St) (data : D) (c : CommonState (K:=K)) : D * (result Error.t St * CommonState (K:=K)) :=
  if bool_decide (typ msg = Known TlsLayer.ChangeCipherSpec) && negb (may_receive_application_data c) && is_tls13 c
  then (data, drop_ccs msg state c)
  else
    match Message.try_from msg with
    | Err e => (data, send_fatal_alert AlertDescription.DecodeError (Error.InvalidMessage e) c)
    | Panic => (data, panic c)
    | Ok m =>
        match Message.payload m with
        | MessagePayload.Alert a => (data, (_ ← process_alert a; mret state) c)
        | _ => process_main_protocol handle m state data c
        end
    end.
Definition on_message (msg : message) (state : St) (x : ConnectionCore) : result Error.t St * ConnectionCore :=
  let '(d, (r, c)) := process_msg msg state (core_data x) (common_state x) in (r, set_context x d c).

(** [process_new_packets].  A message takes at least one of the bytes that the
    deframer holds; [None] is a loop that has not ended. *)
Fixpoint process_loop (fuel : nat) (state : St) (x : ConnectionCore) : option (result Error.t IoState * ConnectionCore) :=
  match fuel with
  | O => None
  | S fuel' =>
      match deframe x with
      | (Ok (Some msg), x) =>
          match on_message msg state x with
          | (Ok state, x) => process_loop fuel' state x
          | (Err e, x) => Some (Err e, set_state x (inr e))
          | (Panic, x) => Some (Panic, x)
          end
      | (Ok None, x) => Some (Ok (current_io_state (common_state x)), set_state x (inl state))
      | (Err e, x) => Some (Err e, x)
      | (Panic, x) => Some (Panic, x)
      end
  end.
Definition process_new_packets (x : ConnectionCore) : option (result Error.t IoState * ConnectionCore) :=
  match core_state x with
  | inl state => process_loop (S (d_used (message_deframer x))) state (set_state x (inr Error.HandshakeNotComplete))
  | inr e => Some (Err e, x)
  end.
Definition first_handshake_message (x : ConnectionCore) : result Error.t (option Message.t) * ConnectionCore :=
  match deframe x with
  | (Ok (Some msg), x) =>
      match Message.try_from msg with
      | Ok m => (Ok (Some m), x)
      | Err e => with_common (send_fatal_alert AlertDescription.DecodeError (Error.InvalidMessage e)) x
      | Panic => (Panic, x)
      end
  | (Ok None, x) => (Ok None, x)
  | (Err e, x) => (Err e, x)
  | (Panic, x) => (Panic, x)
  end.
Definition replace_state (x : ConnectionCore) (new : St) : ConnectionCore := set_state x (inl new).

(** ** The application's side *)

Inductive io_error : Type := UnexpectedEof | WouldBlock | BufferFull | Failed.
(** [Reader::read] into [cap] bytes. *)
Definition reader_read (cap : nat) (x : ConnectionCore) : option (result io_error bytes * ConnectionCore) :=
  let c := common_state x in
  let peer_cleanly_closed := has_received_close_notify c && negb (has_pending (message_deframer x)) in
  '(bs, b) ← read_into cap (received_plaintext c);
  let x := set_common x (set_received_plaintext b c) in
  Some (if (length bs =? 0)%nat && (0 <? cap)%nat
        then if peer_cleanly_closed then (Ok [], x) else if has_seen_eof c then (Err UnexpectedEof, x) else (Err WouldBlock, x)
        else (Ok bs, x)).
(** [Writer::write] and [write_vectored]. *)
Definition writer_write (buf : bytes) (x : ConnectionCore) : result Error.t nat * ConnectionCore := with_common (send_some_plaintext buf) x.
Fixpoint write_each (bufs : list bytes) : Cm (K:=K) nat :=
  match bufs with [] => mret 0%nat | buf :: rest => n ← send_some_plaintext buf; m ← write_each rest; mret (n + m)%nat end.
Definition writer_write_vectored (bufs : list bytes) (x : ConnectionCore) : result Error.t nat * ConnectionCore := with_common (write_each bufs) x.
(** [read_tls] from a source that offers [input], or fails. *)
Definition read_tls (input : option bytes) (x : ConnectionCore) : result io_error nat * ConnectionCore :=
  if is_full (received_plaintext (common_state x)) then (Err BufferFull, x)
  else match read_from input (message_deframer x) with
       | (Ok n, d) =>
           let c := common_state x in
           (Ok n, set_deframer (set_common x (if (n =? 0)%nat then set_has_seen_eof true c else c)) d)
       | (Err _, d) => (Err Failed, set_deframer x d)
       | (Panic, d) => (Panic, set_deframer x d)
       end.
(** [write_tls] to a sink that accepts a number of bytes, or fails. *)
Definition write_tls (accept : option nat) (x : ConnectionCore) : option (nat * bytes) * ConnectionCore :=
  let '(r, b) := write_to accept (sendable_tls (common_state x)) in (r, set_common x (set_sendable_tls b (common_state x))).
Definition deframer_has_pending (x : ConnectionCore) : bool := has_pending (message_deframer x).
Definition deframer_take_pending (x : ConnectionCore) : result deframe_error bytes * ConnectionCore :=
  let '(r, d) := take_pending (message_deframer x) in
  (r, set_deframer x d).
(** [export_keying_material] and [dangerous_extract_secrets], with the methods of
    the protocol state. *)
Definition export_keying_material (export : St -> nat -> bytes -> option bytes -> result Error.t bytes) (len : nat) (label : bytes) (context : option bytes) (x : ConnectionCore) :
    result Error.t bytes :=
  if (len =? 0)%nat then Err Error.General
  else match core_state x with inl st => export st len label context | inr e => Err e end.
Definition dangerous_extract_secrets {S : Type} (extract : St -> result Error.t (S * S)) (x : ConnectionCore) : result Error.t ((Z * S) * (Z * S)) :=
  if negb (enable_secret_extraction (common_state x)) then Err Error.General
  else match core_state x with
       | inl st => '(tx, rx) ← extract st; Ok ((write_seq (record_layer (common_state x)), tx), (read_seq (record_layer (common_state x)), rx))
       | inr e => Err e
       end.
End conn.

(** ** Termination and errors *)

Section laws.
Context {K : Type} {C : Cipher K} {CS : CipherSafe C} `{DnsNames} {St D : Type} (handle : Handler (K:=K) St D).
Abbreviation core := (ConnectionCore (K:=K) (St:=St) (D:=D)).
Implicit Types x : core.

(** The deframer's buffer holds what the specification says. *)
Definition core_ok x : Prop := exists s, repr (message_deframer x) s.
Lemma with_common_deframer {T} (m : Cm (K:=K) T) x : message_deframer (with_common m x).2 = message_deframer x.
Proof. unfold with_common. by destruct (m (common_state x)). Qed.
Lemma on_message_deframer msg st x : message_deframer (on_message handle msg st x).2 = message_deframer x.
Proof. unfold on_message. by destruct (process_msg handle msg st (core_data x) (common_state x)) as [d [r c]]. Qed.
Lemma fatal_not_ok {T} desc e c (y : T) : (send_fatal_alert desc e c).1 <> Ok y.
Proof. unfold send_fatal_alert, mbind, Cm_bind, gets. match goal with |- context [send_msg ?a ?b ?d] => destruct (send_msg a b d) as [[]] end; done. Qed.
Lemma failed_not_ok e c y : (deframe_failed (K:=K) e c).1 <> Ok y.
Proof.
  destruct e; cbn [deframe_failed]; try done; try apply fatal_not_ok.
  unfold mbind, Cm_bind, gets, modify. destruct (is_quic c); [done|apply fatal_not_ok].
Qed.
Lemma deframe_refines x s : repr (message_deframer x) s -> exists s', repr (message_deframer (deframe x).2) s' /\ (weight s' <= weight s)%nat /\
  (forall m, (deframe x).1 = Ok (Some m) -> (weight s' < weight s)%nat).
Proof.
  intros Hr. destruct (pop_refines (negotiated_version (common_state x)) _ s (record_layer (common_state x)) Hr) as (r & d1 & s1 & l1 & Hpop & Hnp & Hr1 & Hp).
  exists s1. unfold deframe. rewrite Hpop. assert (Hw : (weight s1 <= weight s)%nat /\ forall m, r = Ok (Some m) -> (weight s1 < weight s)%nat).
  { pose proof (proj1 (repr_wf_spec _ _ Hr)) as Hwf. clear -Hwf Hp CS. induction Hp as [s l r s' l' Ht|s l s1 l1 r s' l' Ht Hp IH].
    - destruct (spec_turn_weight _ _ _ _ _ _ Hwf Ht) as (_ & H2 & H3). split; [done|]. intros m ->. by apply (H3 m).
    - destruct (spec_turn_weight _ _ _ _ _ _ Hwf Ht) as (H1 & H2 & _). destruct (IH H1) as [H3 H4]. split; [lia|]. intros m Hm. specialize (H4 m Hm). lia. }
  destruct Hw as [Hw1 Hw2]. destruct r as [[df|]|e|]; [| | |done].
  - rewrite with_common_deframer. split; [done|]. split; [done|]. intros m _. by apply (Hw2 df).
  - split; [done|]. split; [done|]. done.
  - rewrite with_common_deframer. split; [done|]. split; [done|]. intros m. unfold with_common. cbn [common_state].
    match goal with |- context [deframe_failed ?e ?c] => pose proof (failed_not_ok e c (Some m)) as Hf; destruct (deframe_failed e c) end. done.
Qed.
Lemma process_loop_ends fuel st x s : repr (message_deframer x) s -> (weight s < fuel)%nat ->
  exists r x', process_loop handle fuel st x = Some (r, x') /\ core_ok x'.
Proof.
  revert st x s. induction fuel as [|fuel IH]; intros st x s Hr Hf; [lia|]. cbn [process_loop].
  destruct (deframe_refines x s Hr) as (s1 & Hr1 & _ & Hw). destruct (deframe x) as [r x1]. cbn [fst snd] in *.
  destruct r as [[msg|]|e|]; [|eexists _, _; split; [done|by exists s1]..].
  pose proof (on_message_deframer msg st x1) as Hd. destruct (on_message handle msg st x1) as [[st'|e|] x2]; cbn [snd] in Hd.
  - apply (IH st' x2 s1); [by rewrite Hd|]. specialize (Hw msg eq_refl). lia.
  - eexists _, _. split; [done|]. exists s1. by rewrite <- Hd in Hr1.
  - eexists _, _. split; [done|]. exists s1. by rewrite <- Hd in Hr1.
Qed.

(** C24: Whatever arrives and whatever the handler of the protocol state does, a
    connection comes back.  From a new connection on, through every read and
    every [process_new_packets], the deframer holds a well-formed buffer, and
    [process_new_packets] ends after at most as many messages as it holds
    bytes, with a result, an error or, where the handler or the code panics, a panic. *)
Theorem process_new_packets_ends st data c :
  core_ok (core_new (St:=St) (D:=D) st data c) /\
  (forall x, core_ok x ->
    (forall input, core_ok (read_tls input x).2) /\
    exists r x', process_new_packets handle x = Some (r, x') /\ core_ok x').
Proof.
  split; [exists no_bytes; exact repr_new|]. intros x [s Hr]. split.
  - intros input. unfold read_tls. destruct (is_full _); [by exists s|]. destruct input as [bs|].
    + pose proof (read_refines _ s bs Hr) as Hrd. destruct (read_from (Some bs) (message_deframer x)) as [[n|e|] d]; [|destruct Hrd as (-> & _)|done].
      * exists (more s (take n bs)). by destruct Hrd.
      * by exists s.
    + unfold read_from. pose proof (prepare_refines _ s Hr) as Hp. destruct (prepare_read (message_deframer x)) as [d1|e|]; [|by exists s|done]. exists s. by destruct Hp.
  - unfold process_new_packets. destruct (core_state x) as [st0|e]; [|eexists _, _; split; [done|by exists s]].
    apply (process_loop_ends _ _ _ s); [done|]. destruct (repr_wf_spec _ _ Hr) as [_ Hw]. cbn. lia.
Qed.

(** Errors of the protocol stay: every later call gives the same error and does
    nothing. *)
Theorem protocol_error_repeats x x1 x2 st msg e :
  core_state x = inl st -> deframe (set_state x (inr Error.HandshakeNotComplete)) = (Ok (Some msg), x1) -> on_message handle msg st x1 = (Err e, x2) ->
  process_new_packets handle x = Some (Err e, set_state x2 (inr e)) /\ process_new_packets handle (set_state x2 (inr e)) = Some (Err e, set_state x2 (inr e)).
Proof.
  intros Hs Hd Hp. unfold process_new_packets at 1. rewrite Hs. cbn [process_loop]. rewrite Hd, Hp. done.
Qed.
(** An error of the record layer is forgotten.  The documentation of
    [process_new_packets] promises that after an error later calls return the same
    error; when deframing fails, the error is returned once, and every later call
    reports that the handshake is not complete, whatever the state of the
    connection was. *)
Theorem deframe_error_forgotten x x1 st e :
  core_state x = inl st -> deframe (set_state x (inr Error.HandshakeNotComplete)) = (Err e, x1) ->
  process_new_packets handle x = Some (Err e, x1) /\ process_new_packets handle x1 = Some (Err Error.HandshakeNotComplete, x1).
Proof.
  intros Hs Hd. split; [unfold process_new_packets; rewrite Hs; cbn [process_loop]; by rewrite Hd|].
  assert (core_state x1 = inr Error.HandshakeNotComplete) as Hc.
  { revert Hd. unfold deframe. destruct (pop _ _ _) as [[[r d] l]|]; [|done]. destruct r as [[df|]|e'|]; [| done | |done].
    - unfold with_common. destruct (deframed_message df _) as [r c]. intros [= _ <-]. done.
    - unfold with_common. destruct (deframe_failed _ _) as [r c]. intros [= _ <-]. done. }
  unfold process_new_packets. by rewrite Hc.
Qed.

(** Middlebox ChangeCipherSpec messages: the constant and its comment speak of
    two, three are dropped, the fourth ends the handshake. *)
Theorem middlebox_ccs_dropped msg st d c :
  is_valid_ccs msg = true -> may_receive_application_data c = false -> is_tls13 c = true -> 0 <= received_middlebox_ccs c <= 255 ->
  if received_middlebox_ccs c <? 3
  then process_msg handle msg st d c = (d, (Ok st, set_received_middlebox_ccs (received_middlebox_ccs c + 1) c))
  else forall st', (process_msg handle msg st d c).2.1 <> Ok st'.
Proof.
  intros Hv Hm Ht Hn. unfold process_msg. rewrite Hm, Ht. pose proof Hv as Hv'. unfold is_valid_ccs in Hv'. apply andb_true_iff in Hv' as [-> _]. cbn [andb negb].
  unfold drop_ccs, mbind, Cm_bind, gets. rewrite Hv. cbn [andb negb orb]. unfold TLS13_MAX_DROPPED_CCS. destruct (Z.ltb_spec (received_middlebox_ccs c) 3).
  - rewrite (proj2 (Z.ltb_ge _ _)) by lia. unfold modify, mret, Cm_ret. rewrite u8_small by lia. done.
  - rewrite (proj2 (Z.ltb_lt _ _)) by lia. intros st'. apply fatal_not_ok.
Qed.
End laws.

(** ** Instances *)

#[local] Instance no_host_names : DnsNames := {| dns_try_from _ := false |}.
(** A state that takes every message and stays. *)
Definition ex_handle : Handler (K:=cipher) unit unit := fun st m d c => (d, (Ok tt, c)).
Definition ex_core : ConnectionCore (K:=cipher) (St:=unit) (D:=unit) := core_new tt tt (CommonState.new Client).
Lemma process_new_packets_ends_witness :
  exists r x', process_new_packets (C:=ring_cipher (A:=toy_ring)) ex_handle (read_tls (Some [22; 3; 3; 0; 0]) ex_core).2 = Some (r, x') /\ core_ok x'.
Proof.
  destruct (process_new_packets_ends (C:=ring_cipher (A:=toy_ring)) ex_handle tt tt (CommonState.new Client)) as [H0 H].
  apply (H _ ((proj1 (H _ H0)) (Some [22; 3; 3; 0; 0]))).
Defined.
Definition ex_garbled : ConnectionCore (K:=cipher) (St:=unit) (D:=unit) := (read_tls (Some [255; 3; 3; 0; 1; 0]) ex_core).2.
Lemma deframe_error_forgotten_witness :
  exists e x1, process_new_packets (C:=ring_cipher (A:=toy_ring)) ex_handle ex_garbled = Some (Err e, x1) /\
    process_new_packets (C:=ring_cipher (A:=toy_ring)) ex_handle x1 = Some (Err Error.HandshakeNotComplete, x1) /\ e <> Error.HandshakeNotComplete.
Proof.
  destruct (deframe (C:=ring_cipher (A:=toy_ring)) (set_state ex_garbled (inr Error.HandshakeNotComplete))) as [r x1] eqn:Hd.
  assert (r = Err (Error.InvalidMessage Codec.InvalidContentType)) as -> by (apply (f_equal fst) in Hd; vm_compute in Hd; congruence).
  destruct (deframe_error_forgotten (C:=ring_cipher (A:=toy_ring)) ex_handle ex_garbled x1 tt _ eq_refl Hd) as [H1 H2].
  exists (Error.InvalidMessage Codec.InvalidContentType), x1. split; [exact H1|]. split; [exact H2|discriminate].
Defined.
