(* ===== verification/Context.v ===== *)
(** * What handshake states work on
    (orcax/rustls-fork/rustls/src/common_state.rs, check.rs, rand.rs, crypto/mod.rs, crypto/signer.rs)

    A handler of a handshake state gets the shared connection state, the data of
    its side, and the world: random draws, the clock and the key log.  [Cx] is
    the monad of such handlers; keys, key exchanges and signers are records of
    functions. *)
From S2P Require Import Prelude Codec TlsLayer VecBuf Enums Wire Messages Payloads Ciphers Suites Errors Common Hkdf KeySchedule Transcript Conn.
Import CommonState.

Abbreviation pm e := (Error.PeerMisbehaved e).
Abbreviation pi e := (Error.PeerIncompatible e).
Abbreviation im e := (Error.InvalidMessage e).

(** ** Names, keys and key exchanges *)

(** [pki_types::ServerName]; a DNS name in lower case, or the text of an address. *)
Inductive ServerName : Type := DnsName (name : bytes) | IpAddress (addr : bytes).
#[export] Instance server_name_dec : EqDecision ServerName.
Proof. solve_decision. Defined.

Record Signer : Type := { scheme : SignatureScheme.t; sign : bytes -> result Error.t bytes }.
Record SigningKey : Type := { choose_scheme : list SignatureScheme.t -> option Signer; algorithm : SignatureAlgorithm.t }.
Record CertifiedKey : Type := { cert : list bytes; key : SigningKey; ocsp : option bytes }.

(** [start] takes what the random source gives. *)
Record ActiveKeyExchange : Type := { group : NamedGroup.t; pub_key : bytes; complete : bytes -> result Error.t bytes }.
Record SupportedKxGroup : Type := { kx_name : NamedGroup.t; start : bytes -> option ActiveKeyExchange }.
Record CryptoProvider : Type := { cipher_suites : list SupportedCipherSuite; kx_groups : list SupportedKxGroup }.

(** ** The context *)

(** One entry of [rng] for each call of the random source, [None] when it fails. *)
Record world : Type := { rng : list (option bytes); now : Z; key_lines : list log_line }.

Section context.
Context {D : Type}.

Record Context : Type := { cx_common : CommonState (K:=cipher); cx_data : D; cx_world : world }.
Definition Cx (T : Type) : Type := Context -> result Error.t T * Context.
#[export] Instance Cx_ret : MRet Cx := fun T x cx => (Ok x, cx).
#[export] Instance Cx_bind : MBind Cx := fun T U f m cx =>
  match m cx with
  | (Ok x, cx') => f x cx'
  | (Err e, cx') => (Err e, cx')
  | (Panic, cx') => (Panic, cx')
  end.
Definition common {T} (m : Cmc T) : Cx T := fun cx =>
  let '(r, c) := m (cx_common cx) in (r, {| cx_common := c; cx_data := cx_data cx; cx_world := cx_world cx |}).
Definition res {T} (r : result Error.t T) : Cx T := fun cx => (r, cx).
Definition get {T} (f : CommonState (K:=cipher) -> T) : Cx T := fun cx => (Ok (f (cx_common cx)), cx).
Definition set (f : CommonState (K:=cipher) -> CommonState (K:=cipher)) : Cx unit := common (modify f).
Definition get_data {T} (f : D -> T) : Cx T := fun cx => (Ok (f (cx_data cx)), cx).
Definition set_data (f : D -> D) : Cx unit := fun cx => (Ok tt, {| cx_common := cx_common cx; cx_data := f (cx_data cx); cx_world := cx_world cx |}).
(** An operation that may panic. *)
Definition try_data (f : D -> option D) : Cx unit := fun cx =>
  match f (cx_data cx) with
  | Some d => (Ok tt, {| cx_common := cx_common cx; cx_data := d; cx_world := cx_world cx |})
  | None => (Panic, cx)
  end.
Definition raise {T} (e : Error.t) : Cx T := fun cx => (Err e, cx).
Definition alert `{DnsNames} {A : RingAead} {T} (desc : AlertDescription.name) (e : Error.t) : Cx T := common (send_fatal_alert (A:=T) desc e).
Definition time_now : Cx Z := fun cx => (Ok (now (cx_world cx)), cx).
Definition log_keys (l : list log_line) : Cx unit := fun cx =>
  (Ok tt, {| cx_common := cx_common cx; cx_data := cx_data cx;
             cx_world := {| rng := rng (cx_world cx); now := now (cx_world cx); key_lines := key_lines (cx_world cx) ++ l |} |}).
(** [SecureRandom::fill] of a buffer of [n] zeroes. *)
Definition draw (n : nat) (bs : bytes) : bytes := take n (bs ++ replicate n 0).
Definition random_vec (n : nat) : Cx bytes := fun cx =>
  let w := cx_world cx in
  let cx' := {| cx_common := cx_common cx; cx_data := cx_data cx; cx_world := {| rng := drop 1 (rng w); now := now w; key_lines := key_lines w |} |} in
  match rng w with
  | Some bs :: _ => (Ok (draw n bs), cx')
  | _ => (Err Error.FailedToGetRandomBytes, cx')
  end.
(** One draw as it comes, for a ticketer's own use of the source. *)
Definition raw_draw : Cx (option bytes) := fun cx =>
  let w := cx_world cx in
  (Ok (default None (head (rng w))), {| cx_common := cx_common cx; cx_data := cx_data cx; cx_world := {| rng := drop 1 (rng w); now := now w; key_lines := key_lines w |} |}).
Definition random_u32 : Cx Z := bs ← random_vec 4; mret (be_decode bs).
(** [start] of a group, its failure reported as the callers do. *)
Definition start_kx (g : SupportedKxGroup) : Cx ActiveKeyExchange :=
  seed ← random_vec 32; match start g seed with Some kx => mret kx | None => raise Error.FailedToGetRandomBytes end.

(** [require_handshake_msg!]. *)
Definition require {T} `{DnsNames} (ty : HandshakeType.name) (f : HandshakePayload.t -> option T) (m : Message.t) : Cx T :=
  let no := raise (inappropriate_handshake_message (Message.payload m) [Known TlsLayer.Handshake] [Known ty]) in
  match Message.payload m with
  | MessagePayload.Handshake parsed _ => match f (HandshakeMessagePayload.payload parsed) with Some x => mret x | None => no end
  | _ => no
  end.
Definition each_cx {X} (f : X -> Cx unit) : list X -> Cx unit :=
  fix go l := match l with [] => mret tt | x :: l' => _ ← f x; go l' end.

(** A handler of handshake states as one for a connection, whose data goes with the
    world. *)
Definition as_handler {St} `{DnsNames} (h : St -> Message.t -> Cx St) : Handler (K:=cipher) St (D * world) := fun st m '(d, w) c =>
  let '(r, cx) := h st m {| cx_common := c; cx_data := d; cx_world := w |} in ((cx_data cx, cx_world cx), (r, cx_common cx)).
End context.
Arguments Context : clear implicits.
Arguments Cx : clear implicits.

(** A handshake message, with its encoding. *)
Definition hs_message `{DnsNames} (v : ProtocolVersion) (ty : HandshakeType.name) (p : HandshakePayload.t) : Message.t :=
  {| Message.version := v; Message.payload := MessagePayload.handshake {| HandshakeMessagePayload.typ := Known ty; HandshakeMessagePayload.payload := p |} |}.
Definition ccs_message `{DnsNames} : Message.t := {| Message.version := Known TLSv1_2; Message.payload := MessagePayload.ChangeCipherSpec |}.

(** ** What both sides do *)

Definition set_q_params (p : option bytes) (s : QuicState) : QuicState :=
  {| q_params := p; q_alert := q_alert s; q_hs_queue := q_hs_queue s; q_early_secret := q_early_secret s; q_hs_secrets := q_hs_secrets s;
     q_traffic_secrets := q_traffic_secrets s; q_returned_traffic_keys := q_returned_traffic_keys s; q_version := q_version s |}.
Definition set_extraction (x : bool) (s : CommonState (K:=cipher)) : CommonState (K:=cipher) :=
  {| negotiated_version := negotiated_version s; side := side s; record_layer := record_layer s; suite := suite s; alpn_protocol := alpn_protocol s;
    aligned_handshake := aligned_handshake s; may_send_application_data := may_send_application_data s; may_receive_application_data :=
    may_receive_application_data s; early_traffic := early_traffic s; sent_fatal_alert := sent_fatal_alert s; has_received_close_notify :=
    has_received_close_notify s; has_seen_eof := has_seen_eof s; received_middlebox_ccs := received_middlebox_ccs s; peer_certificates :=
    peer_certificates s; message_fragmenter := message_fragmenter s; received_plaintext := received_plaintext s; sendable_plaintext :=
    sendable_plaintext s; sendable_tls := sendable_tls s; queued_key_update_message := queued_key_update_message s; protocol := protocol s; quic := quic s;
    enable_secret_extraction := x |}.
Section shared.
Context {H : Hashing} {P : Hkdf} {A : RingAead} `{DnsNames} {D : Type}.
(** What every [emit] function of a handshake does: into the transcript and out. *)
Definition emit (must_encrypt : bool) (t : HandshakeHash.t) (m : Message.t) : Cx D HandshakeHash.t :=
  _ ← common (send_msg m must_encrypt); mret (HandshakeHash.add_message t m).
(** The peer's QUIC transport parameters, which a QUIC connection must have. *)
Definition take_quic_params (params : option bytes) : Cx D unit :=
  q ← get is_quic;
  if (q : bool) then
    match params with
    | Some p => set (fun s => set_quic (set_q_params (Some p) (quic s)) s)
    | None => common (missing_extension PeerMisbehaved.MissingQuicTransportParameters)
    end
  else mret tt.
(** A check of the verifier, its error sent as an alert. *)
Definition verified (r : result Error.t unit) : Cx D unit :=
  match r with Ok _ => mret tt | Err e => common (send_cert_verify_error_alert e) | Panic => res Panic end.
(** [handle_key_update], the same text in both ends. *)
Definition handle_key_update (ks : KeyScheduleTraffic.t) (request : KeyUpdateRequest.t) : Cx D KeyScheduleTraffic.t :=
  proto ← get protocol;
  match proto with
  | Quic => alert AlertDescription.UnexpectedMessage (pm PeerMisbehaved.KeyUpdateReceivedInQuicConnection)
  | Tcp =>
      _ ← common check_aligned_handshake;
      update ← common (should_update_key request);
      ks ← (if (update : bool) then common (KeyScheduleTraffic.update_encrypter_and_notify ks) else mret ks);
      common (KeyScheduleTraffic.update_decrypter ks)
  end.
End shared.

(** ** Reasoning *)

Section wp.
Context {D : Type}.
(** What holds of the result and the context after [m], from [cx]. *)
Lemma cx_bind_ok {T U} (m : Cx D T) (f : T -> Cx D U) cx y cx' :
  (x ← m; f x) cx = (Ok y, cx') -> exists x cx1, m cx = (Ok x, cx1) /\ f x cx1 = (Ok y, cx').
Proof. unfold mbind, Cx_bind. destruct (m cx) as [[x|e|] cx1]; [eauto|done|done]. Qed.
Lemma common_ok {T} (m : Cmc T) (cx : Context D) y cx' : common m cx = (Ok y, cx') ->
  m (cx_common cx) = (Ok y, cx_common cx') /\ cx_data cx' = cx_data cx /\ cx_world cx' = cx_world cx.
Proof. unfold common. destruct (m (cx_common cx)) as [r c]. by intros [= -> <-]. Qed.
Lemma alert_ok `{DnsNames} `{RingAead} {T} desc e (cx cx' : Context D) (y : T) : alert desc e cx <> (Ok y, cx').
Proof.
  intros Ha. apply common_ok in Ha as [Ha _]. pose proof (fatal_not_ok desc e (cx_common cx) y) as Hn. by rewrite Ha in Hn.
Qed.
Lemma require_ok `{DnsNames} {T} ty (f : HandshakePayload.t -> option T) m (cx cx' : Context D) y :
  require ty f m cx = (Ok y, cx') -> cx' = cx /\ exists parsed enc, Message.payload m = MessagePayload.Handshake parsed enc /\ f (HandshakeMessagePayload.payload parsed) = Some y.
Proof.
  unfold require. destruct (Message.payload m) as [|parsed enc| |]; try done. destruct (f _) eqn:Hf; [|done]. intros [= -> ->]. eauto.
Qed.
End wp.
