(* ===== verification/Sign.v ===== *)
(** * Signing keys and key exchanges of the ring provider
    (orcax/rustls-fork/rustls/src/crypto/ring/sign.rs, kx.rs, x509.rs)

    Private keys in their DER wrappings, the signature schemes each kind of key is
    willing to use, and the ephemeral key exchanges.  The arithmetic is ring's: keys,
    signatures and agreements are parameters. *)
From S2P Require Import Prelude Codec TlsLayer Enums Messages Errors Context.

(** ** Parameters *)

(** The algorithms of [ring::signature] and [ring::agreement] that the code names. *)
Inductive digest : Type := D256 | D384 | D512.
Inductive EcdsaSigningAlgorithm : Type := ECDSA_P256_SHA256_ASN1_SIGNING | ECDSA_P384_SHA384_ASN1_SIGNING.
Inductive RsaEncoding : Type := RSA_PKCS1 (d : digest) | RSA_PSS (d : digest).
Inductive agreement : Type := AGREE_X25519 | ECDH_P256 | ECDH_P384.
#[export] Instance agreement_dec : EqDecision agreement.
Proof. solve_decision. Defined.
(** What a signature draws from the random source is part of the function. *)
Class RingSigning : Type := {
  RsaKeyPair : Type;
  EcdsaKeyPair : Type;
  Ed25519KeyPair : Type;
  rsa_from_der : bytes -> option RsaKeyPair;
  rsa_from_pkcs8 : bytes -> option RsaKeyPair;
  rsa_sign : RsaKeyPair -> RsaEncoding -> bytes -> option bytes;
  ecdsa_from_pkcs8 : EcdsaSigningAlgorithm -> bytes -> option EcdsaKeyPair;
  ecdsa_sign : EcdsaKeyPair -> bytes -> option bytes;
  ed25519_from_pkcs8_maybe_unchecked : bytes -> option Ed25519KeyPair;
  ed25519_sign : Ed25519KeyPair -> bytes -> bytes
}.
Class RingAgreement : Type := {
  EphemeralPrivateKey : Type;
  generate : agreement -> bytes -> option EphemeralPrivateKey;
  compute_public_key : EphemeralPrivateKey -> option bytes;
  agree_ephemeral : EphemeralPrivateKey -> agreement -> bytes -> option bytes
}.
(** Two keys of one algorithm agree. *)
Class RingAgreementLaws (R : RingAgreement) : Prop := {
  agree_both a s1 s2 k1 k2 p1 p2 : generate a s1 = Some k1 -> generate a s2 = Some k2 -> compute_public_key k1 = Some p1 -> compute_public_key k2 = Some p2 ->
    exists secret, agree_ephemeral k1 a p2 = Some secret /\ agree_ephemeral k2 a p1 = Some secret
}.

(** ** Private keys *)

(** [pki_types::PrivateKeyDer]. *)
Inductive PrivateKeyDer : Type := Pkcs1 (der : bytes) | Sec1 (der : bytes) | Pkcs8 (der : bytes).

Section keys.
Context {R : RingSigning}.
Record RsaSigningKey : Type := { rsa_key : RsaKeyPair }.
Record EcdsaSigningKey : Type := { ecdsa_key : EcdsaKeyPair; ecdsa_scheme : SignatureScheme.t }.
Record Ed25519SigningKey : Type := { ed_key : Ed25519KeyPair; ed_scheme : SignatureScheme.t }.

Definition ALL_RSA_SCHEMES : list SignatureScheme.t :=
  [Known SignatureScheme.RSA_PSS_SHA512; Known SignatureScheme.RSA_PSS_SHA384; Known SignatureScheme.RSA_PSS_SHA256;
   Known SignatureScheme.RSA_PKCS1_SHA512; Known SignatureScheme.RSA_PKCS1_SHA384; Known SignatureScheme.RSA_PKCS1_SHA256].
Definition rsa_signing_key (der : PrivateKeyDer) : result Error.t RsaSigningKey :=
  match der with
  | Pkcs1 pkcs1 => key ← ok_or (rsa_from_der pkcs1) Error.General; Ok {| rsa_key := key |}
  | Pkcs8 pkcs8 => key ← ok_or (rsa_from_pkcs8 pkcs8) Error.General; Ok {| rsa_key := key |}
  | Sec1 _ => Err Error.General
  end.

(** The PKCS#8 header of a key on each curve: version 0 and the algorithm. *)
Definition PKCS8_PREFIX_ECDSA_NISTP256 : bytes :=
  [0x02; 0x01; 0x00; 0x30; 0x13; 0x06; 0x07; 0x2a; 0x86; 0x48; 0xce; 0x3d; 0x02; 0x01; 0x06; 0x08; 0x2a; 0x86; 0x48; 0xce; 0x3d; 0x03; 0x01; 0x07].
Definition PKCS8_PREFIX_ECDSA_NISTP384 : bytes :=
  [0x02; 0x01; 0x00; 0x30; 0x10; 0x06; 0x07; 0x2a; 0x86; 0x48; 0xce; 0x3d; 0x02; 0x01; 0x06; 0x05; 0x2b; 0x81; 0x04; 0x00; 0x22].
Definition OCTET_STRING : Z := 0x04.
(** The bytes that [convert_sec1_to_pkcs8] hands to ring; other schemes are
    [unreachable!]. *)
Definition sec1_as_pkcs8 {E} (scheme : SignatureScheme.t) (maybe_sec1_der : bytes) : result E bytes :=
  pkcs8_prefix ← match scheme with
    | Known SignatureScheme.ECDSA_NISTP256_SHA256 => Ok PKCS8_PREFIX_ECDSA_NISTP256
    | Known SignatureScheme.ECDSA_NISTP384_SHA384 => Ok PKCS8_PREFIX_ECDSA_NISTP384
    | _ => Panic
    end;
  let sec1_wrap := asn1_wrap OCTET_STRING maybe_sec1_der in
  Ok (wrap_in_sequence (pkcs8_prefix ++ sec1_wrap)).
Definition convert_sec1_to_pkcs8 (scheme : SignatureScheme.t) (sigalg : EcdsaSigningAlgorithm) (maybe_sec1_der : bytes) : result unit EcdsaKeyPair :=
  pkcs8 ← sec1_as_pkcs8 scheme maybe_sec1_der;
  ok_or (ecdsa_from_pkcs8 sigalg pkcs8) tt.
Definition ecdsa_signing_key (der : PrivateKeyDer) (scheme : SignatureScheme.t) (sigalg : EcdsaSigningAlgorithm) : result unit EcdsaSigningKey :=
  key ← match der with
    | Sec1 sec1 => convert_sec1_to_pkcs8 scheme sigalg sec1
    | Pkcs8 pkcs8 => ok_or (ecdsa_from_pkcs8 sigalg pkcs8) tt
    | Pkcs1 _ => Err tt
    end;
  Ok {| ecdsa_key := key; ecdsa_scheme := scheme |}.
Definition ed25519_signing_key (der : bytes) (scheme : SignatureScheme.t) : result Error.t Ed25519SigningKey :=
  key ← ok_or (ed25519_from_pkcs8_maybe_unchecked der) Error.General; Ok {| ed_key := key; ed_scheme := scheme |}.

(** ** Signers *)

(** The encoding of an RSA scheme; [None] is [unreachable!]. *)
Definition rsa_encoding (scheme : SignatureScheme.t) : option RsaEncoding :=
  match scheme with
  | Known SignatureScheme.RSA_PKCS1_SHA256 => Some (RSA_PKCS1 D256)
  | Known SignatureScheme.RSA_PKCS1_SHA384 => Some (RSA_PKCS1 D384)
  | Known SignatureScheme.RSA_PKCS1_SHA512 => Some (RSA_PKCS1 D512)
  | Known SignatureScheme.RSA_PSS_SHA256 => Some (RSA_PSS D256)
  | Known SignatureScheme.RSA_PSS_SHA384 => Some (RSA_PSS D384)
  | Known SignatureScheme.RSA_PSS_SHA512 => Some (RSA_PSS D512)
  | _ => None
  end.
Definition rsa_signer (key : RsaKeyPair) (s : SignatureScheme.t) : option Signer :=
  encoding ← rsa_encoding s;
  Some {| scheme := s; sign message := ok_or (rsa_sign key encoding message) Error.General |}.
Definition rsa_choose_scheme (k : RsaSigningKey) (offered : list SignatureScheme.t) : option Signer :=
  scheme ← find (fun s => bool_decide (s ∈ offered)) ALL_RSA_SCHEMES; rsa_signer (rsa_key k) scheme.
Definition ecdsa_choose_scheme (k : EcdsaSigningKey) (offered : list SignatureScheme.t) : option Signer :=
  if bool_decide (ecdsa_scheme k ∈ offered) then Some {| scheme := ecdsa_scheme k; sign message := ok_or (ecdsa_sign (ecdsa_key k) message) Error.General |} else None.
Definition ed25519_choose_scheme (k : Ed25519SigningKey) (offered : list SignatureScheme.t) : option Signer :=
  if bool_decide (ed_scheme k ∈ offered) then Some {| scheme := ed_scheme k; sign message := Ok (ed25519_sign (ed_key k) message) |} else None.

(** The implementors of the trait [SigningKey]. *)
Inductive LoadedKey : Type := LoadedRsa (k : RsaSigningKey) | LoadedEcdsa (k : EcdsaSigningKey) | LoadedEd25519 (k : Ed25519SigningKey).
Definition signing_key (k : LoadedKey) : SigningKey :=
  match k with
  | LoadedRsa k => {| choose_scheme := rsa_choose_scheme k; algorithm := Known SignatureAlgorithm.RSA |}
  | LoadedEcdsa k => {| choose_scheme := ecdsa_choose_scheme k; algorithm := scheme_sign (ecdsa_scheme k) |}
  | LoadedEd25519 k => {| choose_scheme := ed25519_choose_scheme k; algorithm := scheme_sign (ed_scheme k) |}
  end.

Definition any_eddsa_type (der : bytes) : result Error.t LoadedKey :=
  k ← ed25519_signing_key der (Known SignatureScheme.ED25519); Ok (LoadedEd25519 k).
Definition any_ecdsa_type (der : PrivateKeyDer) : result Error.t LoadedKey :=
  match ecdsa_signing_key der (Known SignatureScheme.ECDSA_NISTP256_SHA256) ECDSA_P256_SHA256_ASN1_SIGNING with
  | Ok k => Ok (LoadedEcdsa k)
  | Panic => Panic
  | Err _ =>
      match ecdsa_signing_key der (Known SignatureScheme.ECDSA_NISTP384_SHA384) ECDSA_P384_SHA384_ASN1_SIGNING with
      | Ok k => Ok (LoadedEcdsa k)
      | Panic => Panic
      | Err _ => Err Error.General
      end
  end.
Definition any_supported_type (der : PrivateKeyDer) : result Error.t LoadedKey :=
  match rsa_signing_key der with
  | Ok rsa => Ok (LoadedRsa rsa)
  | Panic => Panic
  | Err _ =>
      match any_ecdsa_type der with
      | Ok ecdsa => Ok ecdsa
      | Panic => Panic
      | Err _ =>
          match der with
          | Pkcs8 pkcs8 => match any_eddsa_type pkcs8 with Ok eddsa => Ok eddsa | Panic => Panic | Err _ => Err Error.General end
          | _ => Err Error.General
          end
      end
  end.
(** [KeyProvider::load_private_key] of the provider. *)
Definition load_private_key (der : PrivateKeyDer) : result Error.t SigningKey := k ← any_supported_type der; Ok (signing_key k).
End keys.

(** ** Key exchanges *)

Section kx.
Context {R : RingAgreement}.
Record KxGroup : Type := { g_name : NamedGroup.t; agreement_algorithm : agreement }.
Record KeyExchange : Type := { kx_group : NamedGroup.t; kx_algorithm : agreement; priv_key : EphemeralPrivateKey; kx_pub_key : bytes }.
Definition X25519 : KxGroup := {| g_name := Known NamedGroup.X25519; agreement_algorithm := AGREE_X25519 |}.
Definition SECP256R1 : KxGroup := {| g_name := Known NamedGroup.secp256r1; agreement_algorithm := ECDH_P256 |}.
Definition SECP384R1 : KxGroup := {| g_name := Known NamedGroup.secp384r1; agreement_algorithm := ECDH_P384 |}.
Definition kx_start (g : KxGroup) (seed : bytes) : option KeyExchange :=
  priv_key ← generate (agreement_algorithm g) seed;
  pub_key ← compute_public_key priv_key;
  Some {| kx_group := g_name g; kx_algorithm := agreement_algorithm g; priv_key := priv_key; kx_pub_key := pub_key |}.
Definition kx_complete (k : KeyExchange) (peer : bytes) : result Error.t bytes :=
  ok_or (agree_ephemeral (priv_key k) (kx_algorithm k) peer) (pm PeerMisbehaved.InvalidKeyShare).
Definition active (k : KeyExchange) : ActiveKeyExchange := {| group := kx_group k; pub_key := kx_pub_key k; complete := kx_complete k |}.
Definition supported (g : KxGroup) : SupportedKxGroup := {| kx_name := g_name g; start seed := active <$> kx_start g seed |}.
Definition ALL_KX_GROUPS : list SupportedKxGroup := map supported [X25519; SECP256R1; SECP384R1].
End kx.

(** ** DER *)

(** A reader for one DER element with a definite length in its shortest form: the tag,
    the contents and what follows. *)
Definition der_read (bs : bytes) : option (Z * bytes * bytes) :=
  match bs with
  | tag :: n :: rest =>
      if n <? 0x80 then if n <=? zlen rest then Some (tag, take (Z.to_nat n) rest, drop (Z.to_nat n) rest) else None
      else
        let k := Z.to_nat (n - 0x80) in
        let len := be_decode (take k rest) in
        let body := drop k rest in
        if (k =? 0)%nat || (length rest <? k)%nat || (len <? 0x80) || bool_decide (head rest = Some 0) || (zlen body <? len) then None
        else Some (tag, take (Z.to_nat len) body, drop (Z.to_nat len) body)
  | _ => None
  end.
Lemma skip_zeros_decode l : wf_bytes l -> be_decode (skip_zeros l) = be_decode l /\ wf_bytes (skip_zeros l) /\ (length (skip_zeros l) <= length l)%nat /\ head (skip_zeros l) <> Some 0.
Proof.
  induction l as [|b l IH]; intros Hl; cbn [skip_zeros]; [done|]. inversion Hl; subst. destruct (decide (b = 0)) as [->|Hb].
  - destruct IH as (H1' & H2' & H3' & H4'); [done|]. split_and!; try done. cbn. lia.
  - destruct b; [done| |]; split_and!; done.
Qed.
Lemma skip_zeros_nonzero l : 0 < be_decode l -> wf_bytes l -> skip_zeros l <> [].
Proof. intros Hp Hl E. destruct (skip_zeros_decode l Hl) as [Hd _]. rewrite E in Hd. change (be_decode []) with 0 in Hd. lia. Qed.
(** Everything that [asn1_wrap] makes can be read back. *)
Lemma asn1_wrap_read tag bs rest : zlen bs < 2 ^ 64 -> der_read (asn1_wrap tag bs ++ rest) = Some (tag, bs, rest).
Proof.
  intros Hl. unfold asn1_wrap. assert (0 <= zlen bs) by (unfold zlen; lia). assert (Z.to_nat (zlen bs) = length bs) as Hn by (unfold zlen; lia).
  assert (zlen bs <= zlen (bs ++ rest)) by (unfold zlen; rewrite length_app; lia). destruct (Z.leb_spec (zlen bs) 0x7f) as [Hs|Hs].
  - unfold u8. rewrite Z.mod_small by lia. cbn [app der_read]. destruct (Z.ltb_spec (zlen bs) 0x80); [|lia]. destruct (Z.leb_spec (zlen bs) (zlen (bs ++ rest))); [|lia]. by rewrite Hn, take_app_length, drop_app_length.
  - set (size := be_encode 8 (zlen bs)). assert (be_decode size = zlen bs) as Hd by (unfold size; rewrite be_decode_encode; apply Z.mod_small; lia).
    assert (wf_bytes size) as Hwf by apply be_encode_wf. assert (length size = 8%nat) as H8 by apply be_encode_length.
    destruct (skip_zeros_decode size Hwf) as (D1 & D2 & D3 & D4). pose proof (skip_zeros_nonzero size ltac:(lia) Hwf) as Hne. set (sz := skip_zeros size) in *.
    assert (1 <= length sz <= 8)%nat as Hsz by (destruct sz; [done|cbn in *; lia]). unfold u8. rewrite Z.mod_small by (unfold zlen; lia). cbn [app der_read].
    destruct (Z.ltb_spec (0x80 + zlen sz) 0x80); [unfold zlen in *; lia|]. replace (Z.to_nat (0x80 + zlen sz - 0x80)) with (length sz) by (unfold zlen; lia).
    rewrite <- app_assoc, take_app_length, drop_app_length, D1, Hd, Hn, take_app_length, drop_app_length.
    replace ((length sz =? 0)%nat || (length (sz ++ bs ++ rest) <? length sz)%nat || (zlen bs <? 128) || bool_decide (head (sz ++ bs ++ rest) = Some 0) || (zlen (bs ++ rest) <? zlen bs)) with false; [done|].
    symmetry. rewrite !orb_false_iff. split_and!.
    + apply Nat.eqb_neq. lia.
    + apply Nat.ltb_ge. rewrite length_app. lia.
    + apply Z.ltb_ge. lia.
    + apply bool_decide_eq_false_2. by destruct sz.
    + apply Z.ltb_ge. lia.
Qed.

(** An elliptic curve in the algorithm of a PKCS#8 key: id-ecPublicKey and the curve. *)
Definition ID_EC_PUBLIC_KEY : bytes := [0x2a; 0x86; 0x48; 0xce; 0x3d; 0x02; 0x01].
Definition curve_oid (scheme : SignatureScheme.t) : option bytes :=
  match scheme with
  | Known SignatureScheme.ECDSA_NISTP256_SHA256 => Some [0x2a; 0x86; 0x48; 0xce; 0x3d; 0x03; 0x01; 0x07]
  | Known SignatureScheme.ECDSA_NISTP384_SHA384 => Some [0x2b; 0x81; 0x04; 0x00; 0x22]
  | _ => None
  end.
(** RFC 5958: version 0, the algorithm, the key in an octet string, and no more. *)
Definition pkcs8_read (bs : bytes) : option (bytes * bytes) :=
  '(t, seq, rest) ← der_read bs;
  '(t1, version, seq) ← der_read seq;
  '(t2, alg, seq) ← der_read seq;
  '(t3, oid, alg) ← der_read alg;
  '(t4, curve, alg) ← der_read alg;
  '(t5, key, seq) ← der_read seq;
  if bool_decide ((t, rest, t1, version) = (DER_SEQUENCE_TAG, [], 0x02, [0x00]) /\ (t2, t3, oid, t4, alg) = (DER_SEQUENCE_TAG, 0x06, ID_EC_PUBLIC_KEY, 0x06, []) /\ (t5, seq) = (OCTET_STRING, []))
  then Some (curve, key) else None.
Lemma asn1_wrap_length tag bs : zlen (asn1_wrap tag bs) <= zlen bs + 10.
Proof.
  unfold asn1_wrap. destruct (_ <=? _); unfold zlen; rewrite !length_app; cbn [length]; [lia|].
  destruct (skip_zeros_decode (be_encode 8 (Z.of_nat (length bs))) (be_encode_wf _ _)) as (_ & _ & Hs & _). rewrite be_encode_length in Hs. lia.
Qed.
Lemma pkcs8_prefix_elements scheme oid : curve_oid scheme = Some oid ->
  (match scheme with Known SignatureScheme.ECDSA_NISTP256_SHA256 => PKCS8_PREFIX_ECDSA_NISTP256 | _ => PKCS8_PREFIX_ECDSA_NISTP384 end) =
    asn1_wrap 0x02 [0x00] ++ wrap_in_sequence (asn1_wrap 0x06 ID_EC_PUBLIC_KEY ++ asn1_wrap 0x06 oid) /\ zlen oid <= 8.
Proof. destruct scheme as [[]|]; try done; intros [= <-]; split; vm_compute; done. Qed.
(** The element that the conversion of a SEC1 key builds is the PKCS#8 encoding of
    that key on that curve, and ring gets the bytes of the key unchanged. *)
Lemma sec1_wrapped scheme oid sec1 : curve_oid scheme = Some oid -> zlen sec1 < 2 ^ 63 ->
  exists p, (forall E, sec1_as_pkcs8 (E:=E) scheme sec1 = Ok p) /\ pkcs8_read p = Some (oid, sec1).
Proof.
  intros Hc Hl. destruct (pkcs8_prefix_elements scheme oid Hc) as [Hp Ho].
  exists (wrap_in_sequence ((asn1_wrap 0x02 [0x00] ++ wrap_in_sequence (asn1_wrap 0x06 ID_EC_PUBLIC_KEY ++ asn1_wrap 0x06 oid)) ++ asn1_wrap OCTET_STRING sec1)).
  split; [intros E; unfold sec1_as_pkcs8; destruct scheme as [[]|]; try done; cbn [mbind result_bind] in *; by rewrite Hp|].
  pose proof (asn1_wrap_length OCTET_STRING sec1). pose proof (asn1_wrap_length 0x06 oid).
  pose proof (asn1_wrap_length DER_SEQUENCE_TAG (asn1_wrap 0x06 ID_EC_PUBLIC_KEY ++ asn1_wrap 0x06 oid)) as Hs.
  assert (forall a b : bytes, zlen (a ++ b) = zlen a + zlen b) as Happ by (intros; unfold zlen; rewrite length_app; lia).
  assert (zlen (asn1_wrap 0x06 ID_EC_PUBLIC_KEY) = 9) as H9 by done. assert (zlen (asn1_wrap 0x02 [0x00]) = 3) as H3 by done. rewrite Happ, H9 in Hs.
  unfold pkcs8_read, wrap_in_sequence in *. assert (forall t b, zlen b < 2 ^ 64 -> der_read (asn1_wrap t b) = Some (t, b, [])) as Hend
    by (intros; rewrite <- (app_nil_r (asn1_wrap _ _)); by apply asn1_wrap_read).
  rewrite Hend by (rewrite !Happ; lia). cbn [mbind option_bind]. rewrite <- app_assoc, asn1_wrap_read by done. cbn [mbind option_bind].
  rewrite asn1_wrap_read by (rewrite Happ; lia). cbn [mbind option_bind]. rewrite asn1_wrap_read by done. cbn [mbind option_bind].
  rewrite Hend by lia. cbn [mbind option_bind]. rewrite Hend by lia. cbn [mbind option_bind]. by rewrite bool_decide_eq_true_2.
Qed.

(** ** Schemes *)

Lemma find_split {A} (f : A -> bool) l :
  match find f l with
  | Some x => exists before after, l = before ++ x :: after /\ f x = true /\ Forall (fun y => f y = false) before
  | None => Forall (fun y => f y = false) l
  end.
Proof.
  induction l as [|y l IH]; cbn [find]; [by constructor|]. destruct (f y) eqn:Hy; [by exists [], l|]. destruct (find f l) as [x|].
  - destruct IH as (before & after & -> & Hx & Hb). exists (y :: before), after. split; [done|]. split; [done|]. by constructor.
  - by constructor.
Qed.

Section schemes.
Context {R : RingSigning}.
(** The schemes a key can use, in its order. *)
Definition key_schemes (k : LoadedKey) : list SignatureScheme.t :=
  match k with LoadedRsa _ => ALL_RSA_SCHEMES | LoadedEcdsa k => [ecdsa_scheme k] | LoadedEd25519 k => [ed_scheme k] end.
Lemma rsa_signer_scheme k s x : rsa_signer k s = Some x -> scheme x = s.
Proof. unfold rsa_signer. destruct (rsa_encoding s); [|done]. by intros [= <-]. Qed.
Lemma rsa_signer_total k s : s ∈ ALL_RSA_SCHEMES -> is_Some (rsa_signer k s).
Proof. unfold ALL_RSA_SCHEMES. rewrite !elem_of_cons, elem_of_nil. intros [->|[->|[->|[->|[->|[->|[]]]]]]]; by eexists. Qed.
(** A key signs with the first of its schemes that is offered, and refuses only if
    none is; the arm for other schemes is not reached. *)
Lemma chosen_scheme k offered :
  match choose_scheme (signing_key k) offered with
  | Some s => exists before after, key_schemes k = before ++ scheme s :: after /\ scheme s ∈ offered /\ Forall (fun x => x ∉ offered) before
  | None => Forall (fun x => x ∉ offered) (key_schemes k)
  end.
Proof.
  destruct k as [k|k|k]; cbn [signing_key choose_scheme key_schemes].
  - unfold rsa_choose_scheme. pose proof (find_split (fun s => bool_decide (s ∈ offered)) ALL_RSA_SCHEMES) as Hf. destruct (find _ _) as [s|]; cbn [mbind option_bind].
    + destruct Hf as (before & after & Hs & Hx & Hb). apply bool_decide_eq_true_1 in Hx. destruct (rsa_signer_total (rsa_key k) s) as [x Hr]; [rewrite Hs; set_solver|].
      rewrite Hr, (rsa_signer_scheme _ _ _ Hr). exists before, after. split; [done|]. split; [done|]. eapply Forall_impl; [|exact Hb]. intros y Hy. by apply bool_decide_eq_false_1 in Hy.
    + eapply Forall_impl; [|exact Hf]. intros y Hy. by apply bool_decide_eq_false_1 in Hy.
  - unfold ecdsa_choose_scheme. case_bool_decide; [by exists [], []|by apply Forall_singleton].
  - unfold ed25519_choose_scheme. case_bool_decide; [by exists [], []|by apply Forall_singleton].
Qed.
(** What is loaded: the first of the kinds of keys that the encoding fits. *)
Definition loaded_as (der : PrivateKeyDer) (k : LoadedKey) : Prop :=
  match k with
  | LoadedRsa k => match der with Pkcs1 d => rsa_from_der d | Pkcs8 d => rsa_from_pkcs8 d | Sec1 _ => None end = Some (rsa_key k)
  | LoadedEcdsa k => exists alg p, (alg, ecdsa_scheme k) ∈ [(ECDSA_P256_SHA256_ASN1_SIGNING, Known SignatureScheme.ECDSA_NISTP256_SHA256); (ECDSA_P384_SHA384_ASN1_SIGNING, Known SignatureScheme.ECDSA_NISTP384_SHA384)] /\
      match der with Pkcs8 d => p = d | Sec1 d => sec1_as_pkcs8 (E:=unit) (ecdsa_scheme k) d = Ok p | Pkcs1 _ => False end /\ ecdsa_from_pkcs8 alg p = Some (ecdsa_key k)
  | LoadedEd25519 k => ed_scheme k = Known SignatureScheme.ED25519 /\ exists d, der = Pkcs8 d /\ ed25519_from_pkcs8_maybe_unchecked d = Some (ed_key k)
  end.
Lemma ecdsa_loaded der scheme alg :
  (alg, scheme) ∈ [(ECDSA_P256_SHA256_ASN1_SIGNING, Known SignatureScheme.ECDSA_NISTP256_SHA256); (ECDSA_P384_SHA384_ASN1_SIGNING, Known SignatureScheme.ECDSA_NISTP384_SHA384)] ->
  match ecdsa_signing_key der scheme alg with Ok k => loaded_as der (LoadedEcdsa k) | Err _ => True | Panic => False end.
Proof.
  intros Ha. assert (forall d, exists p, sec1_as_pkcs8 (E:=unit) scheme d = Ok p) as Hs by (intros d; rewrite !elem_of_cons, elem_of_nil in Ha; destruct Ha as [[= -> ->]|[[= -> ->]|[]]]; by eexists).
  unfold ecdsa_signing_key, convert_sec1_to_pkcs8. destruct der as [d|d|d]; cbn [mbind result_bind]; [done| |].
  - destruct (Hs d) as [p Hp]. rewrite Hp. cbn [mbind result_bind]. destruct (ecdsa_from_pkcs8 alg p) as [key|] eqn:Hk; cbn; [|done]. by exists alg, p.
  - destruct (ecdsa_from_pkcs8 alg d) as [key|] eqn:Hk; cbn; [|done]. by exists alg, d.
Qed.
Lemma any_supported_loaded der : match any_supported_type der with Ok k => loaded_as der k | Err e => e = Error.General | Panic => False end.
Proof.
  unfold any_supported_type. destruct (rsa_signing_key der) as [k|e|] eqn:Hr; unfold rsa_signing_key in Hr.
  - destruct der as [d|d|d]; [destruct (rsa_from_der d) eqn:Hk|done|destruct (rsa_from_pkcs8 d) eqn:Hk]; try done; injection Hr as <-; exact Hk.
  - clear Hr. unfold any_ecdsa_type. pose proof (ecdsa_loaded der (Known SignatureScheme.ECDSA_NISTP256_SHA256) ECDSA_P256_SHA256_ASN1_SIGNING ltac:(left)) as H1.
    destruct (ecdsa_signing_key der _ ECDSA_P256_SHA256_ASN1_SIGNING) as [k|e1|]; [done| |done].
    pose proof (ecdsa_loaded der (Known SignatureScheme.ECDSA_NISTP384_SHA384) ECDSA_P384_SHA384_ASN1_SIGNING ltac:(right; left)) as H2.
    destruct (ecdsa_signing_key der _ ECDSA_P384_SHA384_ASN1_SIGNING) as [k|e2|]; [done| |done]. destruct der as [d|d|d]; try done.
    unfold any_eddsa_type, ed25519_signing_key. destruct (ed25519_from_pkcs8_maybe_unchecked d) as [k|] eqn:Hk; cbn; [|done]. split; [done|]. by exists d.
  - destruct der as [d|d|d]; [destruct (rsa_from_der d)|done|destruct (rsa_from_pkcs8 d)]; done.
Qed.
End schemes.

(** ** Agreement *)

Section agree.
Context {R : RingAgreement} {L : RingAgreementLaws R}.
(** Both ends of a key exchange in one group get the same secret from the public key
    of the other, and the groups of the provider have distinct names. *)
Lemma kx_agree g s1 s2 k1 k2 : g ∈ ALL_KX_GROUPS -> start g s1 = Some k1 -> start g s2 = Some k2 ->
  group k1 = kx_name g /\ group k2 = kx_name g /\ exists secret, complete k1 (pub_key k2) = Ok secret /\ complete k2 (pub_key k1) = Ok secret.
Proof.
  intros Hg H1 H2. assert (exists g', g = supported g') as [g' ->] by (unfold ALL_KX_GROUPS in Hg; cbn [map] in Hg; rewrite !elem_of_cons, elem_of_nil in Hg; naive_solver).
  cbn [supported start kx_name] in *. unfold kx_start in *. destruct (generate _ s1) as [p1|] eqn:G1; [|done]. destruct (generate _ s2) as [p2|] eqn:G2; [|done].
  cbn [mbind option_bind] in *. destruct (compute_public_key p1) as [q1|] eqn:Q1; [|done]. destruct (compute_public_key p2) as [q2|] eqn:Q2; [|done].
  cbn in *. injection H1 as <-. injection H2 as <-. split; [done|]. split; [done|]. destruct (agree_both _ _ _ _ _ _ _ G1 G2 Q1 Q2) as (secret & A1 & A2).
  exists secret. cbn [active complete pub_key kx_pub_key]. unfold kx_complete. cbn [priv_key kx_algorithm]. by rewrite A1, A2.
Qed.
Lemma kx_names : NoDup (map kx_name ALL_KX_GROUPS).
Proof. apply (bool_decide_unpack _). vm_compute. done. Qed.
End agree.
