(* ===== verification/Frames.v ===== *)
(** * What the handshake leaves alone
    (orcax/rustls-fork/rustls/src/common_state.rs, tls13/key_schedule.rs)

    Frame rules: sending handshake messages and alerts and installing keys does not
    touch the permission to send application data, nor the data that waits for
    it. *)
From S2P Require Import Prelude Codec TlsLayer VecBuf Enums Wire Messages Payloads Ciphers Suites Errors Common Hkdf KeySchedule Transcript Tls12 Conn Context.
Import CommonState.

Create HintDb frame.

Section frames.
Context {H : Hashing} {P : Hkdf} {A : RingAead} `{DnsNames}.

(** The permission, and what waits for it. *)
Definition gate (c : CommonState (K:=cipher)) : bool * ChunkVecBuffer := (may_send_application_data c, sendable_plaintext c).
Definition still {T} (m : Cmc T) : Prop := forall c, gate (m c).2 = gate c.

Lemma still_bind {T U} (m : Cmc T) (f : T -> Cmc U) : still m -> (forall x, still (f x)) -> still (x ← m; f x).
Proof. intros Hm Hf c. unfold mbind, Cm_bind. specialize (Hm c). destruct (m c) as [[x|e|] c']; cbn in *; [by rewrite Hf|done|done]. Qed.
Lemma still_ret {T} (x : T) : still (mret x).
Proof. done. Qed.
Lemma still_gets {T} (f : CommonState (K:=cipher) -> T) : still (gets f).
Proof. done. Qed.
Lemma still_fail {T} e : still (fail (A:=T) e).
Proof. done. Qed.
Lemma still_panic {T} : still (panic (A:=T)).
Proof. done. Qed.
Lemma still_lift {E T} (f : E -> Error.t) (r : result E T) : still (lift f r).
Proof. done. Qed.
Lemma still_modify f : (forall c, gate (f c) = gate c) -> still (modify f).
Proof. intros Hf c. apply Hf. Qed.
Lemma still_each {X} (f : X -> Cmc unit) l : (forall x, still (f x)) -> still (each f l).
Proof. intros Hf. induction l as [|x l IH]; [apply still_ret|]. by apply still_bind. Qed.
Lemma still_if {T} (b : bool) (m1 m2 : Cmc T) : still m1 -> still m2 -> still (if b then m1 else m2).
Proof. by destruct b. Qed.
Hint Resolve still_bind still_ret still_gets still_fail still_panic still_lift still_each still_if : frame.

Lemma still_queue m : still (queue_tls_message m).
Proof. apply still_modify. by intros []. Qed.
Lemma still_encrypt m : still (encrypt m).
Proof. intros c. unfold encrypt. destruct (encrypt_outgoing m (record_layer c)). by destruct c. Qed.
Lemma still_fragments m : still (fragments m).
Proof. done. Qed.
Hint Resolve still_queue still_encrypt still_fragments : frame.
Lemma still_send_with send1 m enc : (forall x, still (send1 x)) -> still (send_msg_with send1 m enc).
Proof.
  intros Hs. unfold send_msg_with, send_msg_encrypt_with. apply still_bind; [done|]. intros []; [|auto with frame].
  destruct (Message.payload m); apply still_modify; by intros [].
Qed.
Lemma still_single d m : still (send_single_fragment d m).
Proof.
  revert m. induction d as [|d IH]; intros m; cbn [send_single_fragment]; [done|]. apply still_bind; [done|]. intros close. apply still_bind.
  - apply still_if; [|done]. apply still_bind; [done|]. intros enc. by apply still_send_with.
  - intros _. apply still_bind; [done|]. intros ex. auto with frame.
Qed.
Lemma still_send m enc : still (send_msg m enc).
Proof. apply still_send_with, still_single. Qed.
Lemma still_sent_alert : still (modify (set_sent_fatal_alert true)).
Proof. apply still_modify. by intros []. Qed.
Hint Resolve still_send still_sent_alert : frame.
Lemma still_fatal {T} desc e : still (send_fatal_alert (A:=T) desc e).
Proof. unfold send_fatal_alert. auto 10 with frame. Qed.
Lemma still_aligned : still check_aligned_handshake.
Proof. unfold check_aligned_handshake. apply still_bind; [done|]. intros []; cbn [negb]; [done|apply still_fatal]. Qed.

Lemma still_layer f : still (on_layer f).
Proof. apply still_modify. by intros []. Qed.
Lemma still_encrypter ks s : still (set_encrypter ks s).
Proof. unfold set_encrypter. apply still_bind; [done|]. intros k. apply still_layer. Qed.
Lemma still_decrypter ks s : still (set_decrypter ks s).
Proof. unfold set_decrypter. apply still_bind; [done|]. intros k. apply still_layer. Qed.
Lemma still_when_quic f : still (when_quic f).
Proof. intros c. unfold when_quic. destruct (is_quic c); [|done]. destruct (f c); [|done|done]. by destruct c. Qed.
Lemma still_handshake_encrypter ks : still (KeyScheduleHandshake.set_handshake_encrypter ks).
Proof. apply still_encrypter. Qed.
Lemma still_client_secrets ks en h s kl rnd : still (derive_client_handshake_secrets ks en h s kl rnd).
Proof.
  unfold derive_client_handshake_secrets, hs_into_handshake. repeat (apply still_bind; [|intros]).
  all: try (repeat match goal with |- context [let '(_, _) := ?p in _] => destruct p end); try apply still_if; try done; auto using still_decrypter, still_encrypter, still_when_quic.
  all: repeat (apply still_bind; [auto using still_decrypter, still_encrypter, still_when_quic with frame|intros]; repeat match goal with |- context [let '(_, _) := ?p in _] => destruct p end);
    auto using still_decrypter, still_encrypter, still_when_quic with frame.
Qed.
Lemma still_encryption_tls12 s sd : still (start_encryption_tls12 s sd).
Proof. unfold start_encryption_tls12. apply still_bind; [done|]. intros [dec enc]. apply still_modify. by intros []. Qed.
Lemma still_decode_ecdh {T} (codec : Codec T) bs : still (decode_ecdh_params codec bs).
Proof. unfold decode_ecdh_params. destruct (read _). apply still_bind; [done|]. intros v. apply still_if; [apply still_fatal|done]. Qed.
End frames.
#[export] Hint Resolve still_encryption_tls12 still_decode_ecdh : frame.
#[export] Hint Resolve still_bind still_ret still_gets still_fail still_panic still_lift still_each still_if still_send still_fatal still_aligned still_handshake_encrypter
  still_client_secrets : frame.

(** ** Handlers *)

Section handlers.
Context {H : Hashing} {P : Hkdf} {A : RingAead} `{DnsNames} {D : Type}.
Definition stillx {T} (m : Cx D T) : Prop := forall cx, gate (cx_common (m cx).2) = gate (cx_common cx).
Lemma stillx_bind {T U} (m : Cx D T) (f : T -> Cx D U) : stillx m -> (forall x, stillx (f x)) -> stillx (x ← m; f x).
Proof. intros Hm Hf cx. unfold mbind, Cx_bind. specialize (Hm cx). destruct (m cx) as [[x|e|] cx']; cbn in *; [by rewrite Hf|done|done]. Qed.
Lemma stillx_common {T} (m : Cmc T) : still m -> stillx (common (D:=D) m).
Proof. intros Hm cx. unfold common. specialize (Hm (cx_common cx)). by destruct (m (cx_common cx)). Qed.
Lemma stillx_alert {T} desc e : stillx (alert (D:=D) (T:=T) desc e).
Proof. apply stillx_common, still_fatal. Qed.
Lemma stillx_set f : (forall c, gate (f c) = gate c) -> stillx (set (D:=D) f).
Proof. intros Hf. by apply stillx_common, still_modify. Qed.
Lemma stillx_same {T} (m : Cx D T) : (forall cx, cx_common (m cx).2 = cx_common cx) -> stillx m.
Proof. intros Hm cx. by rewrite Hm. Qed.
Lemma stillx_ret {T} (x : T) : stillx (mret x).
Proof. done. Qed.
Lemma stillx_res {T} (r : result Error.t T) : stillx (res r).
Proof. done. Qed.
Lemma stillx_raise {T} e : stillx (raise (T:=T) e).
Proof. done. Qed.
Lemma stillx_get {T} (f : CommonState (K:=cipher) -> T) : stillx (get f).
Proof. done. Qed.
Lemma stillx_get_data {T} (f : D -> T) : stillx (get_data f).
Proof. done. Qed.
Lemma stillx_set_data f : stillx (set_data f).
Proof. done. Qed.
Lemma stillx_try f : stillx (try_data f).
Proof. apply stillx_same. intros cx. unfold try_data. by destruct (f (cx_data cx)). Qed.
Lemma stillx_time : stillx time_now.
Proof. done. Qed.
Lemma stillx_log l : stillx (log_keys l).
Proof. done. Qed.
Lemma stillx_require {T} ty (f : HandshakePayload.t -> option T) m : stillx (require ty f m).
Proof. apply stillx_same. intros cx. unfold require. destruct (Message.payload m); try done. by destruct (f _). Qed.
Lemma stillx_each {X} (f : X -> Cx D unit) l : (forall x, stillx (f x)) -> stillx (each_cx f l).
Proof. intros Hf. induction l as [|x l IH]; [done|]. by apply stillx_bind. Qed.
Lemma stillx_if {T} (b : bool) (m1 m2 : Cx D T) : stillx m1 -> stillx m2 -> stillx (if b then m1 else m2).
Proof. by destruct b. Qed.
Lemma stillx_verified r : stillx (verified r).
Proof. destruct r; [done|apply stillx_common, still_fatal|done]. Qed.
Lemma stillx_quic_params p : stillx (take_quic_params p).
Proof.
  apply stillx_bind; [done|]. intros []; [|done]. destruct p; [|apply stillx_common, still_fatal]. apply stillx_set. by intros [].
Qed.
Lemma stillx_emit enc t m : stillx (emit enc t m).
Proof. apply stillx_bind; [apply stillx_common, still_send|done]. Qed.
Lemma stillx_start_kx g : stillx (start_kx (D:=D) g).
Proof. unfold start_kx. apply stillx_bind; [|intros v; by destruct (start g v)]. apply stillx_same. intros cx. unfold random_vec. by destruct (rng (cx_world cx)) as [|[]]. Qed.
End handlers.
#[export] Hint Resolve stillx_start_kx stillx_common stillx_alert stillx_ret stillx_res stillx_raise stillx_get stillx_get_data stillx_set_data stillx_try stillx_time stillx_log
  stillx_require stillx_each stillx_verified stillx_quic_params stillx_emit : frame.
(** Proves that a handler leaves the gate alone. *)
Ltac frame :=
  repeat first
    [ solve [auto with frame]
    | apply stillx_set; by intros []
    | apply stillx_bind; [|intros ?]
    | apply stillx_each; intros ?
    | match goal with |- stillx (let '(_, _) := ?p in _) => destruct p end
    | match goal with |- stillx (match ?x with _ => _ end) => destruct x end
    | match goal with |- stillx (?f _) => progress unfold f | |- stillx (?f _ _) => progress unfold f | |- stillx (?f _ _ _) => progress unfold f
      | |- stillx (?f _ _ _ _) => progress unfold f | |- stillx ?f => progress unfold f end ].

(** ** Taking runs apart *)

(** Takes a successful run of a handler apart. *)
Ltac cx_step :=
  match goal with
  | Hx : (mbind _ _) ?cx = (Ok _, _) |- _ =>
      let x := fresh "v" in let cx1 := fresh "cx" in let H1 := fresh "Hm" in
      apply cx_bind_ok in Hx as (x & cx1 & H1 & Hx)
  | Hx : alert _ _ _ = (Ok _, _) |- _ => by apply alert_ok in Hx
  | Hx : raise _ _ = (Ok _, _) |- _ => discriminate Hx
  | Hx : mret _ _ = (Ok _, _) |- _ => injection Hx as ??; subst
  | Hx : require _ _ _ _ = (Ok _, _) |- _ => apply require_ok in Hx as (-> & ? & ? & ? & ?)
  | Hx : res ?r _ = (Ok _, _) |- _ => unfold res in Hx; injection Hx as ??; subst
  | Hx : (if ?b then _ else _) _ = (Ok _, _) |- _ => let E := fresh "Hb" in destruct b eqn:E
  | Hx : time_now _ = (Ok _, _) |- _ => injection Hx as ??; subst
  end.

(** Splits the pairs that handlers return. *)
Ltac cx_pairs := repeat match goal with Hv : (let '(_, _) := ?v in _) _ = _ |- _ => destruct v as [??] end.

(** A message that was required carries what was taken from it. *)
Ltac required Hm :=
  let p := fresh "parsed" in let e := fresh "enc" in let Hpl := fresh "Hpl" in let Hp := fresh "Hp" in let E := fresh "He" in
  apply require_ok in Hm as (-> & p & e & Hpl & Hp); destruct (HandshakeMessagePayload.payload p) eqn:E; try done; injection Hp as ->.

Section apart.
Context {H : Hashing} {P : Hkdf} {A : RingAead} `{DnsNames} {D : Type}.
Lemma emit_ok enc t m (cx cx' : Context D) t' : emit enc t m cx = (Ok t', cx') -> t' = HandshakeHash.add_message t m.
Proof. intros He. unfold emit in He. by repeat cx_step. Qed.
Lemma verified_ok r (cx cx' : Context D) u : verified r cx = (Ok u, cx') -> r = Ok tt /\ cx' = cx.
Proof.
  destruct r as [[]|e|]; cbn; [by intros [= _ ->]| |done]. intros Hc. apply common_ok in Hc as [Hc _]. exfalso.
  unfold send_cert_verify_error_alert in Hc. revert Hc. set (d := match _ with Error.InvalidCertificate _ => _ | _ => _ end). intros Hc.
  pose proof (fatal_not_ok d e (cx_common cx) u) as Hn. by rewrite Hc in Hn.
Qed.

Lemma decoded_ok {T} (codec : Codec T) bs (cx cx' : Context D) y : common (decode_ecdh_params codec bs) cx = (Ok y, cx') ->
  exists rd, read (Codec:=codec) (init bs) = (Ok y, rd) /\ any_left rd = false.
Proof.
  intros Hc. apply common_ok in Hc as [Hc _]. unfold decode_ecdh_params in Hc. destruct (read (init bs)) as [[v|e|] rd]; [|done|done].
  unfold mbind, Cm_bind, lift in Hc. cbn [map_err] in Hc.
  destruct (any_left rd) eqn:Ha; [|injection Hc as -> _; by exists rd]. exfalso. eapply fatal_not_ok. by rewrite Hc.
Qed.
Lemma start_kx_ok g (cx cx' : Context D) kx : start_kx g cx = (Ok kx, cx') -> exists seed, start g seed = Some kx.
Proof. intros Hk. unfold start_kx in Hk. cx_step. destruct (start g v) eqn:Hs; [|done]. injection Hk as -> _. eauto. Qed.

(** A message that carries the handshake payload [p]. *)
Definition carries (m : Message.t) (p : HandshakePayload.t) : Prop :=
  exists parsed enc, Message.payload m = MessagePayload.Handshake parsed enc /\ HandshakeMessagePayload.payload parsed = p.
Definition adds (t : HandshakeHash.t) (ms : list Message.t) : HandshakeHash.t := fold_left HandshakeHash.add_message ms t.
Lemma adds_snoc t ms m : adds t (ms ++ [m]) = HandshakeHash.add_message (adds t ms) m.
Proof. unfold adds. by rewrite fold_left_app. Qed.
Lemma adds_app t ms ms' : adds t (ms ++ ms') = adds (adds t ms) ms'.
Proof. unfold adds. by rewrite fold_left_app. Qed.
End apart.

(** ** Transcripts *)

Section covers.
Context {H : Hashing} `{DnsNames}.
(** [t'] hashes the messages of [ms], in order and possibly with others between
    them, after what [t] hashes; the buffer for client certificates may be gone. *)
Definition covers (t : HandshakeHash.t) (ms : list Message.t) (t' : HandshakeHash.t) : Prop :=
  exists all, ms `sublist_of` all /\ HandshakeHash.ctx t' = HandshakeHash.ctx (adds t all).
Lemma covers_nil t : covers t [] t.
Proof. by exists []. Qed.
Lemma ctx_add t1 t2 m : HandshakeHash.ctx t1 = HandshakeHash.ctx t2 -> HandshakeHash.ctx (HandshakeHash.add_message t1 m) = HandshakeHash.ctx (HandshakeHash.add_message t2 m).
Proof. intros He. unfold HandshakeHash.add_message, HandshakeHash.update_raw. destruct (Message.payload m); try done. cbn. by rewrite He. Qed.
Lemma covers_received t ms t' m : covers t ms t' -> covers t (ms ++ [m]) (HandshakeHash.add_message t' m).
Proof. intros (all & Hs & He). exists (all ++ [m]). split; [by apply sublist_app|]. rewrite adds_snoc. by apply ctx_add. Qed.
Lemma covers_sent t ms t' m : covers t ms t' -> covers t ms (HandshakeHash.add_message t' m).
Proof. intros (all & Hs & He). exists (all ++ [m]). split; [by apply sublist_inserts_r|]. rewrite adds_snoc. by apply ctx_add. Qed.
(** A message that is not one of the handshake is not hashed. *)
Lemma covers_other t ms t' m : covers t ms t' -> (forall p e, Message.payload m <> MessagePayload.Handshake p e) -> covers t (ms ++ [m]) t'.
Proof.
  intros Hc Hm. apply (covers_received _ _ _ m) in Hc. unfold HandshakeHash.add_message in Hc. destruct (Message.payload m) eqn:Hp; try done. by destruct (Hm parsed encoded).
Qed.
Lemma covers_ctx t ms t1 t2 : covers t ms t1 -> HandshakeHash.ctx t2 = HandshakeHash.ctx t1 -> covers t ms t2.
Proof. intros (all & Hs & He) Hc. exists all. by rewrite Hc. Qed.
(** What was added to a transcript. *)
Definition extends (t t' : HandshakeHash.t) : Prop := exists ms, t' = adds t ms.
Lemma extends_refl t : extends t t.
Proof. by exists []. Qed.
Lemma extends_add t t' m : extends t t' -> extends t (HandshakeHash.add_message t' m).
Proof. intros [ms ->]. exists (ms ++ [m]). by rewrite adds_snoc. Qed.
Lemma extends_trans t1 t2 t3 : extends t1 t2 -> extends t2 t3 -> extends t1 t3.
Proof. intros [a ->] [b ->]. exists (a ++ b). unfold adds. by rewrite fold_left_app. Qed.
End covers.
#[export] Hint Resolve covers_nil covers_received covers_sent extends_refl extends_add : core.

(** ** Runs *)

(** A handler over the messages of a connection, as a relation and as a function.  Time
    passes between messages: each is handled at a time of its own, the one the clock
    then shows. *)
Section runs.
Context {D St : Type} (handle : St -> Message.t -> Cx D St).
Definition at_time (t : Z) (cx : Context D) : Context D :=
  {| cx_common := cx_common cx; cx_data := cx_data cx; cx_world := {| rng := rng (cx_world cx); now := t; key_lines := key_lines (cx_world cx) |} |}.
Inductive timed_runs : St -> Context D -> list (Z * Message.t) -> St -> Context D -> Prop :=
| runs_nil st cx : timed_runs st cx [] st cx
| runs_cons st cx t m st1 cx1 tms st' cx' : handle st m (at_time t cx) = (Ok st1, cx1) -> timed_runs st1 cx1 tms st' cx' -> timed_runs st cx ((t, m) :: tms) st' cx'.
Definition runs (st : St) (cx : Context D) (ms : list Message.t) (st' : St) (cx' : Context D) : Prop :=
  exists tms, map snd tms = ms /\ timed_runs st cx tms st' cx'.
Fixpoint run (ms : list Message.t) (st : St) (cx : Context D) : option (St * Context D) :=
  match ms with
  | [] => Some (st, cx)
  | m :: ms => match handle st m cx with (Ok st, cx) => run ms st cx | _ => None end
  end.
Lemma run_runs ms st cx st' cx' : run ms st cx = Some (st', cx') -> runs st cx ms st' cx'.
Proof.
  revert st cx. induction ms as [|m ms IH]; intros st cx; cbn [run]; [intros [= <- <-]; exists []; split; [done|apply runs_nil]|].
  destruct (handle st m cx) as [[st1|e|] cx1] eqn:Hh; [|done|done]. intros Hr. destruct (IH _ _ Hr) as (tms & <- & Ht). exists ((now (cx_world cx), m) :: tms).
  split; [done|]. eapply runs_cons; [|done]. by destruct cx as [? ? []].
Qed.
(** What a state says about the messages that led to it, and about the time at which the
    next one is handled. *)
Lemma runs_history_at (clock : list Message.t -> Z -> Prop) (I : St -> list Message.t -> Prop) :
  (forall st ms t m cx cx' st', clock ms t -> I st ms -> handle st m (at_time t cx) = (Ok st', cx') -> I st' (ms ++ [m])) ->
  forall st cx tms st' cx' pre, timed_runs st cx tms st' cx' -> (forall k t m, tms !! k = Some (t, m) -> clock (pre ++ take k (map snd tms)) t) -> I st pre -> I st' (pre ++ map snd tms).
Proof.
  intros Hs st cx tms st' cx' pre Hr. revert pre. induction Hr as [|st cx t m st1 cx1 tms st' cx' Hh Hr IH]; intros pre Hc Hst; cbn [map]; [by rewrite app_nil_r|].
  replace (pre ++ snd (t, m) :: map snd tms) with ((pre ++ [m]) ++ map snd tms) by by rewrite <- app_assoc. apply IH.
  - intros k t' m' Hk. rewrite <- app_assoc. apply (Hc (S k) t' m' Hk).
  - eapply Hs; [|exact Hst|exact Hh]. specialize (Hc 0%nat t m eq_refl). cbn in Hc. by rewrite app_nil_r in Hc.
Qed.
Lemma runs_history (I : St -> list Message.t -> Prop) : (forall st ms m cx cx' st', I st ms -> handle st m cx = (Ok st', cx') -> I st' (ms ++ [m])) ->
  forall st cx ms st' cx' pre, runs st cx ms st' cx' -> I st pre -> I st' (pre ++ ms).
Proof. intros Hs st cx ms st' cx' pre (tms & <- & Hr) Hst. eapply (runs_history_at (fun _ _ => True)); eauto. Qed.
(** The gate stays shut until a state is reached that is never left. *)
Lemma runs_still (final : St -> Prop) : (forall st m cx cx' st', final st -> handle st m cx = (Ok st', cx') -> final st') ->
  (forall st m cx cx' st', handle st m cx = (Ok st', cx') -> ~ final st' -> gate (cx_common cx') = gate (cx_common cx)) ->
  forall st cx ms st' cx', runs st cx ms st' cx' -> ~ final st' -> gate (cx_common cx') = gate (cx_common cx).
Proof.
  intros Hf Hs st cx ms st' cx' (tms & _ & Hr) Hn. induction Hr as [|st cx t m st1 cx1 tms st' cx' Hh Hr IH]; [done|]. rewrite IH by done. rewrite (Hs _ _ _ _ _ Hh); [done|]. intros H1. apply Hn.
  clear Hh IH Hn. induction Hr; eauto.
Qed.
End runs.
