(* ===== verification/ClientBase.v ===== *)
(** * What a client's handshake starts from
    (orcax/rustls-fork/rustls/src/client/client_conn.rs, client/common.rs, client/handy.rs, verify.rs)

    The configuration of a client, the store of its sessions, early data, and the
    details that handshake states keep.  The verifier, the resolver of client
    certificates and the store are interfaces of the library; the two stores
    of the library are instances. *)
From S2P Require Import Prelude Codec Reality SessionCache TlsLayer VecBuf Enums Wire Messages Payloads Ciphers Suites Errors Common Hkdf KeySchedule Transcript Persist Conn Context.
Import CommonState.

(** ** Interfaces *)

Class ClientSessionStore (Store : Type) : Type := {
  set_kx_hint : ServerName -> NamedGroup.t -> Store -> Store;
  kx_hint : ServerName -> Store -> option NamedGroup.t;
  set_tls12_session : ServerName -> Tls12ClientSessionValue.t -> Store -> Store;
  tls12_session : ServerName -> Store -> option Tls12ClientSessionValue.t;
  remove_tls12_session : ServerName -> Store -> Store;
  insert_tls13_ticket : ServerName -> Tls13ClientSessionValue.t -> Store -> Store;
  take_tls13_ticket : ServerName -> Store -> option Tls13ClientSessionValue.t * Store
}.
(** [NoClientSessionStorage]. *)
Definition no_client_session_storage : ClientSessionStore unit := {|
  set_kx_hint _ _ s := s; kx_hint _ _ := None; set_tls12_session _ _ s := s; tls12_session _ _ := None; remove_tls12_session _ s := s;
  insert_tls13_ticket _ _ s := s; take_tls13_ticket _ s := (None, s)
|}.
#[export] Existing Instance no_client_session_storage.
(** [ClientSessionMemoryCache], its keys as bytes. *)
Definition name_key (n : ServerName) : bytes := match n with DnsName b => 0 :: b | IpAddress b => 1 :: b end.
Abbreviation MemoryCache := (Sessions.ClientSessionMemoryCache (Group:=NamedGroup.t) (Tls12:=Tls12ClientSessionValue.t) (Tls13:=Tls13ClientSessionValue.t)).
Definition client_session_memory_cache : ClientSessionStore MemoryCache := {|
  set_kx_hint n := Sessions.set_kx_hint (name_key n); kx_hint n := Sessions.kx_hint (name_key n);
  set_tls12_session n := Sessions.set_tls12_session (name_key n); tls12_session n := Sessions.tls12_session (name_key n);
  remove_tls12_session n := Sessions.remove_tls12_session (name_key n);
  insert_tls13_ticket n := Sessions.insert_tls13_ticket (name_key n); take_tls13_ticket n := Sessions.take_tls13_ticket (name_key n)
|}.
#[export] Existing Instance client_session_memory_cache.

(** Success is the assertion that a check was made. *)
Record ServerCertVerifier : Type := {
  verify_server_cert : bytes -> list bytes -> ServerName -> bytes -> Z -> result Error.t unit;
  verify_tls12_signature : bytes -> bytes -> DigitallySignedStruct.t -> result Error.t unit;
  verify_tls13_signature : bytes -> bytes -> DigitallySignedStruct.t -> result Error.t unit;
  supported_verify_schemes : list SignatureScheme.t
}.
Record ResolvesClientCert : Type := { resolve_client : list bytes -> list SignatureScheme.t -> option CertifiedKey; has_certs : bool }.
(** [FailResolveClientCert] and [AlwaysResolvesClientCert]. *)
Definition fail_resolve_client_cert : ResolvesClientCert := {| resolve_client _ _ := None; has_certs := false |}.
Definition always_resolves_client_cert (private_key : SigningKey) (chain : list bytes) : ResolvesClientCert :=
  {| resolve_client _ _ := Some {| cert := chain; key := private_key; ocsp := None |}; has_certs := true |}.

(** ** The configuration *)

Inductive Tls12Resumption : Type := Disabled | SessionIdOnly | SessionIdOrTickets.
#[export] Instance tls12_resumption_dec : EqDecision Tls12Resumption.
Proof. solve_decision. Defined.
Record ClientConfig : Type := {
  provider : CryptoProvider;
  alpn_protocols : list bytes;
  tls12_resumption : Tls12Resumption;
  max_fragment : option nat;
  client_auth_cert_resolver : ResolvesClientCert;
  versions : EnabledVersions;
  enable_sni : bool;
  verifier : ServerCertVerifier;
  key_log : KeyLog;
  enable_extraction : bool;
  enable_early_data : bool;
  reality_client_config : option Reality.Fork.RealityClientConfig
}.
Definition supports_version (c : ClientConfig) (v : ProtocolVersion) : bool :=
  contains (versions c) v && existsb (fun cs => bool_decide (suite_version cs = v)) (cipher_suites (provider c)).
Definition supports_protocol (c : ClientConfig) (proto : Protocol) : bool := existsb (fun cs => usable_for_protocol cs proto) (cipher_suites (provider c)).
Definition find_cipher_suite (c : ClientConfig) (id : CipherSuite.t) : option SupportedCipherSuite :=
  find (fun scs => bool_decide (Suites.suite scs = id)) (cipher_suites (provider c)).
Definition find_kx_group (c : ClientConfig) (g : NamedGroup.t) : option SupportedKxGroup := find (fun skxg => bool_decide (kx_name skxg = g)) (kx_groups (provider c)).

(** ** Early data *)

Module EarlyData.
Inductive state : Type := Disabled | Ready | Accepted | AcceptedFinished | Rejected.
#[global] Instance state_dec : EqDecision state.
Proof. solve_decision. Defined.
Record t : Type := { st : state; left : Z }.
Definition new : t := {| st := Disabled; left := 0 |}.
Definition is_enabled (x : t) : bool := match st x with Ready | Accepted => true | _ => false end.
Definition is_accepted (x : t) : bool := match st x with Accepted | AcceptedFinished => true | _ => false end.
(** [None] where an assertion fails. *)
Definition enable (max_data : Z) (x : t) : option t := match st x with Disabled => Some {| st := Ready; left := max_data |} | _ => None end.
Definition rejected (x : t) : t := {| st := Rejected; left := left x |}.
Definition accepted (x : t) : option t := match st x with Ready => Some {| st := Accepted; left := left x |} | _ => None end.
Definition finished (x : t) : option t := match st x with Accepted => Some {| st := AcceptedFinished; left := left x |} | _ => None end.
(** What may be written, [None] for an I/O error. *)
Definition check_write (sz : Z) (x : t) : result unit (option Z) * t :=
  match st x with
  | Disabled => (Panic, x)
  | Ready | Accepted =>
      if left x <? sz then (Ok (Some (left x)), {| st := st x; left := 0 |}) else (Ok (Some sz), {| st := st x; left := left x - sz |})
  | Rejected | AcceptedFinished => (Ok None, x)
  end.
Definition bytes_left (x : t) : Z := left x.
End EarlyData.

(** ** The data of a connection *)

Record ClientConnectionData {Store : Type} : Type := {
  early_data : EarlyData.t; resumption_ciphersuite : option SupportedCipherSuite; session_store : Store
}.
Arguments ClientConnectionData : clear implicits.
Section data.
Context {Store : Type}.
Definition new_data (s : Store) : ClientConnectionData Store := {| early_data := EarlyData.new; resumption_ciphersuite := None; session_store := s |}.
Definition set_early (e : EarlyData.t) (d : ClientConnectionData Store) : ClientConnectionData Store :=
  {| early_data := e; resumption_ciphersuite := resumption_ciphersuite d; session_store := session_store d |}.
Definition set_session_store (s : Store) (d : ClientConnectionData Store) : ClientConnectionData Store :=
  {| early_data := early_data d; resumption_ciphersuite := resumption_ciphersuite d; session_store := s |}.
Definition set_resumption (cs : option SupportedCipherSuite) (d : ClientConnectionData Store) : ClientConnectionData Store :=
  {| early_data := early_data d; resumption_ciphersuite := cs; session_store := session_store d |}.
(** [&mut cx.data.early_data], and the store. *)
Definition early (f : EarlyData.t -> option EarlyData.t) : Cx (ClientConnectionData Store) unit :=
  try_data (fun d => e ← f (early_data d); Some (set_early e d)).
Definition reject_early : Cx (ClientConnectionData Store) unit := early (fun e => Some (EarlyData.rejected e)).
Definition early_enabled : Cx (ClientConnectionData Store) bool := get_data (fun d => EarlyData.is_enabled (early_data d)).
Definition storing (f : Store -> Store) : Cx (ClientConnectionData Store) unit := set_data (fun d => set_session_store (f (session_store d)) d).
End data.

(** [Resumption]: the store and the mechanism for TLS 1.2. *)
Record Resumption {Store : Type} : Type := { resumption_store : Store; resumption_tls12 : Tls12Resumption }.
Arguments Resumption : clear implicits.
Definition in_memory_sessions (num : nat) : Resumption MemoryCache := {| resumption_store := Sessions.new_store num; resumption_tls12 := SessionIdOrTickets |}.
Definition custom_store {Store} (s : Store) : Resumption Store := {| resumption_store := s; resumption_tls12 := SessionIdOrTickets |}.
Definition disabled_resumption : Resumption unit := {| resumption_store := tt; resumption_tls12 := Disabled |}.
Definition with_tls12_resumption {Store} (x : Resumption Store) (tls12 : Tls12Resumption) : Resumption Store :=
  {| resumption_store := resumption_store x; resumption_tls12 := tls12 |}.
Definition default_resumption : Resumption MemoryCache := in_memory_sessions (Z.to_nat 256).

(** ** Details kept by handshake states (client/common.rs) *)

Record ServerCertDetails : Type := { cert_chain : list bytes; ocsp_response : bytes }.
Record ClientHelloDetails : Type := { sent_extensions : list ExtensionType.t }.
Definition server_sent_unsolicited_extensions (x : ClientHelloDetails) (received_exts : list ServerExtension.t) (allowed_unsolicited : list ExtensionType.t) : bool :=
  existsb (fun ext => let ty := ServerExtension.get_type ext in
    negb (bool_decide (ty ∈ sent_extensions x)) && negb (bool_decide (ty ∈ allowed_unsolicited))) received_exts.
Inductive ClientAuthDetails : Type :=
| Empty (auth_context_tls13 : option bytes)
| Verify (certkey : CertifiedKey) (signer : Signer) (auth_context_tls13 : option bytes).
Definition resolve (resolver : ResolvesClientCert) (canames : option (list bytes)) (sigschemes : list SignatureScheme.t) (auth_context_tls13 : option bytes) : ClientAuthDetails :=
  match (certkey ← resolve_client resolver (default [] canames) sigschemes; signer ← choose_scheme (key certkey) sigschemes; Some (certkey, signer)) with
  | Some (certkey, signer) => Verify certkey signer auth_context_tls13
  | None => Empty auth_context_tls13
  end.

(** ** Facts *)

(** Different names have different keys. *)
Lemma name_key_inj : Inj (=) (=) name_key.
Proof. intros [] []; by intros [= ->]. Qed.
(** Early data is written only within what the ticket allows. *)
Lemma check_write_bounded sz x n x' : 0 <= EarlyData.left x -> 0 <= sz -> EarlyData.check_write sz x = (Ok (Some n), x') ->
  0 <= n <= sz /\ EarlyData.left x' = EarlyData.left x - n /\ 0 <= EarlyData.left x'.
Proof.
  intros Hl Hs. unfold EarlyData.check_write. destruct (EarlyData.st x); try done; destruct (Z.ltb_spec (EarlyData.left x) sz); intros [= <- <-]; cbn; lia.
Qed.
