(* ===== verification/ClientTls13.v ===== *)
(** * The TLS 1.3 client (orcax/rustls-fork/rustls/src/client/tls13.rs)

    Every handshake state of a client from the ServerHello on, and its traffic
    state: what it accepts, what it sends, which keys it installs, and the state it
    leaves.  [Tls13State] joins the states and [handle_tls13] their handlers. *)
From S2P Require Import Prelude Codec TlsLayer VecBuf Enums Wire Messages Payloads Ciphers Suites Errors Common Hkdf KeySchedule Transcript Tls12 Persist Conn Context ClientBase.
Import CommonState.

Definition ALLOWED_PLAINTEXT_EXTS : list ExtensionType.t :=
  map Known [ExtensionType.KeyShare; ExtensionType.PreSharedKey; ExtensionType.SupportedVersions].
Definition DISALLOWED_TLS13_EXTS : list ExtensionType.t :=
  map Known [ExtensionType.ECPointFormats; ExtensionType.SessionTicket; ExtensionType.RenegotiationInfo; ExtensionType.ExtendedMasterSecret].

Section client.
Context {H : Hashing} {P : Hkdf} {A : RingAead} `{DnsNames} `{Profile} {Store : Type} {S : ClientSessionStore Store}.
Abbreviation CCx := (Cx (ClientConnectionData Store)).

(** ** States *)

(** The fields that every handshake state has. *)
Record Base : Type := {
  config : ClientConfig; server_name : ServerName; randoms : ConnectionRandoms; suite13 : Tls13CipherSuite; transcript : HandshakeHash.t;
  key_schedule : KeyScheduleHandshake.t
}.
Definition set_transcript (x : Base) (t : HandshakeHash.t) : Base :=
  {| config := config x; server_name := server_name x; randoms := randoms x; suite13 := suite13 x; transcript := t; key_schedule := key_schedule x |}.
Definition add (x : Base) (m : Message.t) : Base := set_transcript x (HandshakeHash.add_message (transcript x) m).
(** [ExpectTraffic]. *)
Record Traffic : Type := { t_server_name : ServerName; t_suite : Tls13CipherSuite; t_transcript : HandshakeHash.t; t_key_schedule : KeyScheduleTraffic.t }.
Inductive Tls13State : Type :=
| ExpectEncryptedExtensions (x : Base) (resuming_session : option Tls13ClientSessionValue.t) (hello : ClientHelloDetails)
| ExpectCertificateOrCertReq (x : Base)
| ExpectCertificateRequest (x : Base)
| ExpectCertificate (x : Base) (client_auth : option ClientAuthDetails)
| ExpectCertificateVerify (x : Base) (server_cert : ServerCertDetails) (client_auth : option ClientAuthDetails)
| ExpectFinished (x : Base) (client_auth : option ClientAuthDetails)
| ExpectTraffic (x : Traffic)
| ExpectQuicTraffic (x : Traffic).

(** ** Sending *)

(** The [bool] is [sent_tls13_fake_ccs]. *)
Definition emit_fake_ccs (sent : bool) : CCx bool :=
  q ← get is_quic;
  if (q : bool) then mret sent else if sent then mret true else _ ← common (send_msg ccs_message false); mret true.
Definition emit_certificate_tls13 (t : HandshakeHash.t) (certkey : option CertifiedKey) (auth_context : option bytes) : CCx HandshakeHash.t :=
  emit true t (hs_message (Known TLSv1_3) HandshakeType.Certificate (HandshakePayload.CertificateTls13
    {| CertificatePayloadTls13.context := default [] auth_context;
       CertificatePayloadTls13.entries := match certkey with Some k => map CertificateEntry.new (cert k) | None => [] end |})).
Definition emit_certverify_tls13 (t : HandshakeHash.t) (signer : Signer) : CCx HandshakeHash.t :=
  h ← res (HandshakeHash.get_current_hash t);
  sig ← res (sign signer (construct_client_verify_message h));
  emit true t (hs_message (Known TLSv1_3) HandshakeType.CertificateVerify
    (HandshakePayload.CertificateVerify {| DigitallySignedStruct.scheme := scheme signer; DigitallySignedStruct.sig := sig |})).
Definition emit_finished_tls13 (t : HandshakeHash.t) (verify_data : bytes) : CCx HandshakeHash.t :=
  emit true t (hs_message (Known TLSv1_3) HandshakeType.Finished (HandshakePayload.Finished verify_data)).
Definition emit_end_of_early_data_tls13 (t : HandshakeHash.t) : CCx HandshakeHash.t :=
  q ← get is_quic;
  if (q : bool) then mret t else emit true t (hs_message (Known TLSv1_3) HandshakeType.EndOfEarlyData HandshakePayload.EndOfEarlyData).

(** ** The ClientHello *)

Definition initial_key_share (c : ClientConfig) (name : ServerName) : CCx ActiveKeyExchange :=
  hint ← get_data (fun d => kx_hint name (session_store d));
  match (g ← hint; find_kx_group c g) with
  | Some g => start_kx g
  | None => match kx_groups (provider c) with g :: _ => start_kx g | [] => res Panic end
  end.
(** The hello with its binder filled in, and the key schedule that signed it. *)
Definition fill_in_psk_binder (resuming : Tls13ClientSessionValue.t) (t : HandshakeHashBuffer.t) (hmp : HandshakeMessagePayload.t) :
    CCx (KeyScheduleEarly.t * HandshakeMessagePayload.t) :=
  let suite := Tls13ClientSessionValue.suite resuming in
  let binder_plaintext := HandshakeMessagePayload.get_encoding_for_binder_signing hmp in
  handshake_hash ← res (HandshakeHashBuffer.get_hash_given t (hash_provider (common13 suite)) binder_plaintext);
  let key_schedule := KeyScheduleEarly.new suite (ClientSessionCommon.secret (Tls13ClientSessionValue.common resuming)) in
  real_binder ← res (KeyScheduleEarly.resumption_psk_binder_key_and_sign_verify_data key_schedule handshake_hash);
  match HandshakeMessagePayload.payload hmp with
  | HandshakePayload.ClientHello ch =>
      match ClientHelloPayload.set_psk_binder ch real_binder with
      | Ok ch => mret (key_schedule, {| HandshakeMessagePayload.typ := HandshakeMessagePayload.typ hmp; HandshakeMessagePayload.payload := HandshakePayload.ClientHello ch |})
      | _ => res Panic
      end
  | _ => mret (key_schedule, hmp)
  end.
(** [retrieved_at] is the time at which the session was retrieved; the result is
    [exts] with what was pushed. *)
Definition prepare_resumption (c : ClientConfig) (session : Tls13ClientSessionValue.t) (retrieved_at : Z) (exts : list ClientExtension.t) (doing_retry : bool) :
    CCx (list ClientExtension.t) :=
  let resuming_suite := Tls13ClientSessionValue.suite session in
  _ ← set (set_suite (Some (Tls13 resuming_suite)));
  _ ← set_data (set_resumption (Some (Tls13 resuming_suite)));
  let max := Tls13ClientSessionValue.max_early_data_size session in
  exts ← (if enable_early_data c && (0 <? max) && negb doing_retry
          then _ ← early (EarlyData.enable max); mret (exts ++ [ClientExtension.EarlyData]) else mret exts);
  age ← res (Tls13ClientSessionValue.obfuscated_ticket_age session retrieved_at);
  let binder := replicate (output_len (hash_provider (common13 resuming_suite))) 0 in
  let psk_identity := {| PresharedKeyIdentity.identity := ClientSessionCommon.ticket (Tls13ClientSessionValue.common session);
                         PresharedKeyIdentity.obfuscated_ticket_age := age |} in
  mret (exts ++ [ClientExtension.PresharedKey (PresharedKeyOffer.new psk_identity binder)]).
Definition derive_early_traffic_secret (kl : KeyLog) (resuming_suite : Tls13CipherSuite) (ks : KeyScheduleEarly.t) (sent : bool) (t : HandshakeHashBuffer.t)
    (client_random : bytes) : CCx bool :=
  sent ← emit_fake_ccs sent;
  client_hello_hash ← res (HandshakeHashBuffer.get_hash_given t (hash_provider (common13 resuming_suite)) []);
  log ← common (KeyScheduleEarly.client_early_traffic_secret ks client_hello_hash kl client_random);
  _ ← log_keys log;
  _ ← set (set_early_traffic true);
  mret sent.

(** ** The ServerHello *)

Definition validate_server_hello (sh : ServerHelloPayload.t) : CCx unit :=
  each_cx (fun ext => if bool_decide (ServerExtension.get_type ext ∈ ALLOWED_PLAINTEXT_EXTS) then mret tt
                      else alert AlertDescription.UnsupportedExtension (pm PeerMisbehaved.UnexpectedCleartextExtension)) (ServerHelloPayload.extensions sh).
(** The session that is resumed, if the server accepted it, and the key schedule it
    starts. *)
Definition start_key_schedule (sh : ServerHelloPayload.t) (resuming_session : option Tls13ClientSessionValue.t) (suite : Tls13CipherSuite)
    (early_key_schedule : option KeyScheduleEarly.t) : CCx (option Tls13ClientSessionValue.t * KeySchedulePreHandshake.t) :=
  match ServerHelloPayload.get_psk_index sh, early_key_schedule with
  | Some selected_psk, Some early_key_schedule =>
      match resuming_session with
      | Some resuming =>
          match can_resume_from suite (Tls13ClientSessionValue.suite resuming) with
          | None => alert AlertDescription.IllegalParameter (pm PeerMisbehaved.ResumptionOfferedWithIncompatibleCipherSuite)
          | Some resuming_suite =>
              enabled ← early_enabled;
              if (enabled : bool) && negb (bool_decide (suite_id (common13 resuming_suite) = suite_id (common13 suite)))
              then alert AlertDescription.IllegalParameter (pm PeerMisbehaved.EarlyDataOfferedWithVariedCipherSuite)
              else if negb (selected_psk =? 0) then alert AlertDescription.IllegalParameter (pm PeerMisbehaved.SelectedInvalidPsk)
              else mret (Some resuming, KeySchedulePreHandshake.from_early early_key_schedule)
          end
      | None => raise (pm PeerMisbehaved.SelectedUnofferedPsk)
      end
  | _, _ =>
      _ ← reject_early;
      _ ← set (set_early_traffic false);
      mret (None, KeySchedulePreHandshake.new suite)
  end.
Definition handle_server_hello (c : ClientConfig) (sh : ServerHelloPayload.t) (resuming_session : option Tls13ClientSessionValue.t) (name : ServerName)
    (rnd : ConnectionRandoms) (suite : Tls13CipherSuite) (t : HandshakeHash.t) (early_key_schedule : option KeyScheduleEarly.t) (hello : ClientHelloDetails)
    (our_key_share : ActiveKeyExchange) (sent_tls13_fake_ccs : bool) : CCx Tls13State :=
  _ ← validate_server_hello sh;
  their_key_share ← match ServerHelloPayload.get_key_share sh with
                    | Some k => mret k
                    | None => alert AlertDescription.MissingExtension (pm PeerMisbehaved.MissingKeyShare)
                    end;
  if negb (bool_decide (group our_key_share = KeyShareEntry.group their_key_share))
  then alert AlertDescription.IllegalParameter (pm PeerMisbehaved.WrongGroupForKeyShare)
  else
    '(resuming_session, pre) ← start_key_schedule sh resuming_session suite early_key_schedule;
    ks ← res (KeySchedulePreHandshake.into_handshake pre (complete our_key_share) (KeyShareEntry.payload their_key_share));
    _ ← storing (set_kx_hint name (KeyShareEntry.group their_key_share));
    _ ← common check_aligned_handshake;
    h ← res (HandshakeHash.get_current_hash t);
    enabled ← early_enabled;
    '(ks, log) ← common (derive_client_handshake_secrets ks enabled h suite (key_log c) (random_client rnd));
    _ ← log_keys log;
    _ ← emit_fake_ccs sent_tls13_fake_ccs;
    mret (ExpectEncryptedExtensions {| config := c; server_name := name; randoms := rnd; suite13 := suite; transcript := t; key_schedule := ks |} resuming_session hello).

(** ** EncryptedExtensions *)

Definition validate_encrypted_extensions (hello : ClientHelloDetails) (exts : list ServerExtension.t) : CCx unit :=
  if ServerExts.has_duplicate_extension exts then alert AlertDescription.DecodeError (pm PeerMisbehaved.DuplicateEncryptedExtensions)
  else if server_sent_unsolicited_extensions hello exts [] then alert AlertDescription.UnsupportedExtension (pm PeerMisbehaved.UnsolicitedEncryptedExtension)
  else each_cx (fun ext => let ty := ServerExtension.get_type ext in
         if bool_decide (ty ∈ ALLOWED_PLAINTEXT_EXTS) || bool_decide (ty ∈ DISALLOWED_TLS13_EXTS)
         then alert AlertDescription.UnsupportedExtension (pm PeerMisbehaved.DisallowedEncryptedExtension) else mret tt) exts.
(** [hs::process_alpn_protocol]. *)
Definition process_alpn_protocol (c : ClientConfig) (proto : option bytes) : CCx unit :=
  _ ← set (set_alpn_protocol proto);
  if match proto with Some p => negb (bool_decide (p ∈ alpn_protocols c)) | None => false end
  then alert AlertDescription.IllegalParameter (pm PeerMisbehaved.SelectedUnofferedApplicationProtocol)
  else
    q ← get is_quic;
    if (q : bool) && bool_decide (proto = None) && negb (bool_decide (alpn_protocols c = []))
    then alert AlertDescription.NoApplicationProtocol Error.NoApplicationProtocol else mret tt.
Definition handle_encrypted_extensions (x : Base) (resuming_session : option Tls13ClientSessionValue.t) (hello : ClientHelloDetails) (m : Message.t) : CCx Tls13State :=
  exts ← require HandshakeType.EncryptedExtensions (fun p => match p with HandshakePayload.EncryptedExtensions e => Some e | _ => None end) m;
  let x := add x m in
  _ ← validate_encrypted_extensions hello exts;
  _ ← process_alpn_protocol (config x) (ServerExts.get_alpn_protocol exts);
  _ ← take_quic_params (ServerExts.get_quic_params_extension exts);
  match resuming_session with
  | Some resuming_session =>
      was_early_traffic ← get early_traffic;
      _ ← (if (was_early_traffic : bool) then
             if ServerExts.early_data_extension_offered exts then early EarlyData.accepted
             else _ ← reject_early; set (set_early_traffic false)
           else mret tt);
      now_early ← get early_traffic;
      _ ← (if was_early_traffic && negb now_early then common (KeyScheduleHandshake.set_handshake_encrypter (key_schedule x)) else mret tt);
      _ ← set (set_peer_certificates (Some (ClientSessionCommon.server_cert_chain (Tls13ClientSessionValue.common resuming_session))));
      mret (ExpectFinished x None)
  | None =>
      if ServerExts.early_data_extension_offered exts then raise (pm PeerMisbehaved.EarlyDataExtensionWithoutResumption)
      else mret (ExpectCertificateOrCertReq x)
  end.

(** ** The server's certificate *)

Definition handle_certificate_request (x : Base) (m : Message.t) : CCx Tls13State :=
  certreq ← require HandshakeType.CertificateRequest (fun p => match p with HandshakePayload.CertificateRequestTls13 c => Some c | _ => None end) m;
  let x := add x m in
  if negb (bool_decide (CertificateRequestPayloadTls13.context certreq = [])) then alert AlertDescription.DecodeError (im InvalidCertRequest)
  else
    let compat_sigschemes := List.filter supported_in_tls13 (default [] (CertificateRequestPayloadTls13.get_sigalgs_extension certreq)) in
    if bool_decide (compat_sigschemes = []) then alert AlertDescription.HandshakeFailure (pi PeerIncompatible.NoCertificateRequestSignatureSchemesInCommon)
    else mret (ExpectCertificate x (Some (resolve (client_auth_cert_resolver (config x)) (CertificateRequestPayloadTls13.get_authorities_extension certreq)
                                            compat_sigschemes (Some (CertificateRequestPayloadTls13.context certreq))))).
Definition handle_certificate (x : Base) (client_auth : option ClientAuthDetails) (m : Message.t) : CCx Tls13State :=
  let x := add x m in
  chain ← require HandshakeType.Certificate (fun p => match p with HandshakePayload.CertificateTls13 c => Some c | _ => None end) m;
  if negb (bool_decide (CertificatePayloadTls13.context chain = [])) then alert AlertDescription.DecodeError (im InvalidCertRequest)
  else if CertificatePayloadTls13.any_entry_has_duplicate_extension chain || CertificatePayloadTls13.any_entry_has_unknown_extension chain
  then alert AlertDescription.UnsupportedExtension (pm PeerMisbehaved.BadCertChainExtensions)
  else mret (ExpectCertificateVerify x {| cert_chain := CertificatePayloadTls13.convert chain; ocsp_response := CertificatePayloadTls13.get_end_entity_ocsp chain |} client_auth).
Definition handle_certificate_or_cert_req (x : Base) (m : Message.t) : CCx Tls13State :=
  match Message.payload m with
  | MessagePayload.Handshake {| HandshakeMessagePayload.payload := HandshakePayload.CertificateTls13 _ |} _ => handle_certificate x None m
  | MessagePayload.Handshake {| HandshakeMessagePayload.payload := HandshakePayload.CertificateRequestTls13 _ |} _ => handle_certificate_request x m
  | p => raise (inappropriate_handshake_message p [Known TlsLayer.Handshake] [Known HandshakeType.Certificate; Known HandshakeType.CertificateRequest])
  end.
Definition handle_certificate_verify (x : Base) (server_cert : ServerCertDetails) (client_auth : option ClientAuthDetails) (m : Message.t) : CCx Tls13State :=
  cert_verify ← require HandshakeType.CertificateVerify (fun p => match p with HandshakePayload.CertificateVerify c => Some c | _ => None end) m;
  match cert_chain server_cert with
  | [] => raise Error.NoCertificatesPresented
  | end_entity :: intermediates =>
      t ← time_now;
      _ ← verified (verify_server_cert (verifier (config x)) end_entity intermediates (server_name x) (ocsp_response server_cert) t);
      handshake_hash ← res (HandshakeHash.get_current_hash (transcript x));
      _ ← verified (verify_tls13_signature (verifier (config x)) (construct_server_verify_message handshake_hash) end_entity cert_verify);
      _ ← set (set_peer_certificates (Some (cert_chain server_cert)));
      mret (ExpectFinished (add x m) client_auth)
  end.

(** ** The server's Finished *)

(** EndOfEarlyData goes out under the early keys, then the handshake keys are
    installed. *)
Definition finish_early_data (x : Base) : CCx HandshakeHash.t :=
  was_early ← get early_traffic;
  if (was_early : bool) then
    t ← emit_end_of_early_data_tls13 (transcript x);
    _ ← set (set_early_traffic false);
    _ ← early EarlyData.finished;
    _ ← common (KeyScheduleHandshake.set_handshake_encrypter (key_schedule x));
    mret t
  else mret (transcript x).
Definition emit_client_auth (t : HandshakeHash.t) (client_auth : option ClientAuthDetails) : CCx HandshakeHash.t :=
  match client_auth with
  | Some (Empty auth_context) => emit_certificate_tls13 t None auth_context
  | Some (Verify certkey signer auth_context) => t ← emit_certificate_tls13 t (Some certkey) auth_context; emit_certverify_tls13 t signer
  | None => mret t
  end.
Definition handle_finished (x : Base) (client_auth : option ClientAuthDetails) (m : Message.t) : CCx Tls13State :=
  finished ← require HandshakeType.Finished (fun p => match p with HandshakePayload.Finished f => Some f | _ => None end) m;
  handshake_hash ← res (HandshakeHash.get_current_hash (transcript x));
  expect_verify_data ← res (KeyScheduleHandshake.sign_server_finish (key_schedule x) handshake_hash);
  if negb (bool_decide (expect_verify_data = finished)) then alert AlertDescription.DecryptError Error.DecryptError
  else
    let x := add x m in
    hash_after_handshake ← res (HandshakeHash.get_current_hash (transcript x));
    t ← finish_early_data x;
    t ← emit_client_auth t client_auth;
    hash_at_end ← res (HandshakeHash.get_current_hash t);
    '(pre, verify_data, log) ← res (KeyScheduleHandshake.into_pre_finished_client_traffic (key_schedule x) hash_after_handshake hash_at_end
                                      (key_log (config x)) (random_client (randoms x)));
    _ ← log_keys log;
    t ← emit_finished_tls13 t verify_data;
    _ ← storing (remove_tls12_session (server_name x));
    _ ← common check_aligned_handshake;
    ks ← common (KeyScheduleClientBeforeFinished.into_traffic pre);
    _ ← common start_traffic;
    q ← get is_quic;
    let st := {| t_server_name := server_name x; t_suite := suite13 x; t_transcript := t; t_key_schedule := ks |} in
    mret (if (q : bool) then ExpectQuicTraffic st else ExpectTraffic st).

(** ** Traffic *)

Definition with_schedule (x : Traffic) (ks : KeyScheduleTraffic.t) : Traffic :=
  {| t_server_name := t_server_name x; t_suite := t_suite x; t_transcript := t_transcript x; t_key_schedule := ks |}.
Definition handle_new_ticket_tls13 (x : Traffic) (nst : NewSessionTicketPayloadTls13.t) : CCx unit :=
  if NewSessionTicketPayloadTls13.has_duplicate_extension nst
  then alert AlertDescription.IllegalParameter (pm PeerMisbehaved.DuplicateNewSessionTicketExtensions)
  else
    handshake_hash ← res (HandshakeHash.get_current_hash (t_transcript x));
    secret ← res (KeyScheduleTraffic.resumption_master_secret_and_derive_ticket_psk (t_key_schedule x) handshake_hash (NewSessionTicketPayloadTls13.nonce nst));
    t ← time_now;
    certs ← get peer_certificates;
    let early := NewSessionTicketPayloadTls13.get_max_early_data_size nst in
    let value := Tls13ClientSessionValue.new (t_suite x) (NewSessionTicketPayloadTls13.ticket nst) secret (default [] certs) t
                   (NewSessionTicketPayloadTls13.lifetime nst) (NewSessionTicketPayloadTls13.age_add nst) (default 0 early) in
    q ← get is_quic;
    value ← (if (q : bool) then
               if match early with Some sz => negb (sz =? 0) && negb (sz =? 0xffff_ffff) | None => false end
               then raise (pm PeerMisbehaved.InvalidMaxEarlyDataSize)
               else params ← get (fun s => q_params (quic s));
                    mret (match params with Some quic_params => Tls13ClientSessionValue.set_quic_params value quic_params | None => value end)
             else mret value);
    storing (insert_tls13_ticket (t_server_name x) value).
Definition handle_traffic (x : Traffic) (m : Message.t) : CCx Tls13State :=
  match Message.payload m with
  | MessagePayload.ApplicationData p => _ ← common (take_received_plaintext p); mret (ExpectTraffic x)
  | MessagePayload.Handshake {| HandshakeMessagePayload.payload := HandshakePayload.NewSessionTicketTls13 new_ticket |} _ =>
      _ ← handle_new_ticket_tls13 x new_ticket; mret (ExpectTraffic x)
  | MessagePayload.Handshake {| HandshakeMessagePayload.payload := HandshakePayload.KeyUpdate key_update |} _ =>
      ks ← handle_key_update (t_key_schedule x) key_update; mret (ExpectTraffic (with_schedule x ks))
  | p => raise (inappropriate_handshake_message p [Known TlsLayer.ApplicationData; Known TlsLayer.Handshake]
                  [Known HandshakeType.NewSessionTicket; Known HandshakeType.KeyUpdate])
  end.
Definition handle_quic_traffic (x : Traffic) (m : Message.t) : CCx Tls13State :=
  nst ← require HandshakeType.NewSessionTicket (fun p => match p with HandshakePayload.NewSessionTicketTls13 n => Some n | _ => None end) m;
  _ ← handle_new_ticket_tls13 x nst;
  mret (ExpectQuicTraffic x).
Definition extract_secrets (x : Traffic) : result Error.t (ConnectionTrafficSecrets * ConnectionTrafficSecrets) :=
  KeyScheduleTraffic.extract_secrets (t_key_schedule x) Client.
Definition export_keying_material (x : Traffic) (len : nat) (label : bytes) (context : option bytes) : result Error.t bytes :=
  KeyScheduleTraffic.export_keying_material (t_key_schedule x) len label context.

(** ** Any state *)

Definition handle_tls13 (st : Tls13State) (m : Message.t) : CCx Tls13State :=
  match st with
  | ExpectEncryptedExtensions x resuming_session hello => handle_encrypted_extensions x resuming_session hello m
  | ExpectCertificateOrCertReq x => handle_certificate_or_cert_req x m
  | ExpectCertificateRequest x => handle_certificate_request x m
  | ExpectCertificate x client_auth => handle_certificate x client_auth m
  | ExpectCertificateVerify x server_cert client_auth => handle_certificate_verify x server_cert client_auth m
  | ExpectFinished x client_auth => handle_finished x client_auth m
  | ExpectTraffic x => handle_traffic x m
  | ExpectQuicTraffic x => handle_quic_traffic x m
  end.
End client.
