(* ===== verification/ClientTls13Laws.v ===== *)
(** * What a client has checked when it sends data
    (orcax/rustls-fork/rustls/src/client/tls13.rs) *)
From S2P Require Import Prelude Codec TlsLayer VecBuf Enums Wire Messages Payloads Ciphers Suites Errors Common Hkdf KeySchedule Transcript Tls12 Persist Conn Context Frames ClientBase ClientTls13.
Import CommonState.

Section tls13.
Context {H : Hashing} {P : Hkdf} {A : RingAead} `{DnsNames} `{Profile} {Store : Type} {S : ClientSessionStore Store}.
Abbreviation ctx := (Context (ClientConnectionData Store)).
Abbreviation runs13 := (runs (handle_tls13 (Store:=Store))).

(** The server of name [n] has shown a chain that the verifier accepts, and a
    signature of its key over everything up to the chain. *)
Definition server_proof (c : ClientConfig) (n : ServerName) (t : HandshakeHash.t) (ms : list Message.t) : Prop :=
  exists pre mc certp mv sig ee ints now h, ms = pre ++ [mc; mv] /\ carries mc (HandshakePayload.CertificateTls13 certp) /\
    carries mv (HandshakePayload.CertificateVerify sig) /\ CertificatePayloadTls13.convert certp = ee :: ints /\
    verify_server_cert (verifier c) ee ints n (CertificatePayloadTls13.get_end_entity_ocsp certp) now = Ok tt /\
    HandshakeHash.get_current_hash (E:=Error.t) (adds t (pre ++ [mc])) = Ok h /\
    verify_tls13_signature (verifier c) (construct_server_verify_message h) ee sig = Ok tt.
(** The same, with what is known of the clock when the signature was checked, after the
    messages up to the chain. *)
Definition server_proof_at (clock : list Message.t -> Z -> Prop) (c : ClientConfig) (n : ServerName) (t : HandshakeHash.t) (ms : list Message.t) : Prop :=
  exists pre mc certp mv sig ee ints now h, ms = pre ++ [mc; mv] /\ carries mc (HandshakePayload.CertificateTls13 certp) /\
    carries mv (HandshakePayload.CertificateVerify sig) /\ CertificatePayloadTls13.convert certp = ee :: ints /\ clock (pre ++ [mc]) now /\
    verify_server_cert (verifier c) ee ints n (CertificatePayloadTls13.get_end_entity_ocsp certp) now = Ok tt /\
    HandshakeHash.get_current_hash (E:=Error.t) (adds t (pre ++ [mc])) = Ok h /\
    verify_tls13_signature (verifier c) (construct_server_verify_message h) ee sig = Ok tt.
Lemma server_proof_any clock c n t ms : server_proof_at clock c n t ms -> server_proof c n t ms.
Proof. intros (pre & mc & certp & mv & sig & ee & ints & now & h & ? & ? & ? & ? & _ & ? & ? & ?). by exists pre, mc, certp, mv, sig, ee, ints, now, h. Qed.
(** [m] is a Finished message with the code of [ms] under the server's key. *)
Definition finished_proof (ks : KeyScheduleHandshake.t) (t : HandshakeHash.t) (ms : list Message.t) (m : Message.t) : Prop :=
  exists fin h, carries m (HandshakePayload.Finished fin) /\ HandshakeHash.get_current_hash (E:=Error.t) (adds t ms) = Ok h /\
    KeyScheduleHandshake.sign_server_finish (E:=Error.t) ks h = Ok fin.

Section history.
Context (clock : list Message.t -> Z -> Prop) (c : ClientConfig) (n : ServerName) (t : HandshakeHash.t) (ks : KeyScheduleHandshake.t) (r : option Tls13ClientSessionValue.t).
Definition at_ (x : Base) (ms : list Message.t) : Prop := config x = c /\ server_name x = n /\ key_schedule x = ks /\ transcript x = adds t ms.
(** Either a session is resumed, or the server has proved its name. *)
Definition proved (ms : list Message.t) : Prop := match r with Some _ => True | None => server_proof_at clock c n t ms end.
(** What a state says about the messages [ms] that led to it. *)
Definition history (st : Tls13State) (ms : list Message.t) : Prop :=
  match st with
  | ExpectEncryptedExtensions x r' _ => r' = r /\ at_ x ms
  | ExpectCertificateOrCertReq x | ExpectCertificateRequest x | ExpectCertificate x _ => at_ x ms
  | ExpectCertificateVerify x sc _ => at_ x ms /\ exists pre mc certp, ms = pre ++ [mc] /\ carries mc (HandshakePayload.CertificateTls13 certp) /\
      cert_chain sc = CertificatePayloadTls13.convert certp /\ ocsp_response sc = CertificatePayloadTls13.get_end_entity_ocsp certp
  | ExpectFinished x _ => at_ x ms /\ proved ms
  | ExpectTraffic _ | ExpectQuicTraffic _ => exists pre mf post, ms = pre ++ mf :: post /\ proved pre /\ finished_proof ks t pre mf
  end.
Lemma at_add x ms m : at_ x ms -> at_ (add x m) (ms ++ [m]).
Proof. intros (Hc & Hn & Hk & Ht). unfold at_. cbn. rewrite adds_snoc. by rewrite <- Ht. Qed.
Hint Resolve at_add : core.

Lemma history_extensions x hello ms m (cx cx' : ctx) st : at_ x ms -> handle_encrypted_extensions x r hello m cx = (Ok st, cx') -> history st (ms ++ [m]).
Proof.
  intros Hx Hh. unfold handle_encrypted_extensions in Hh. do 4 cx_step. destruct r as [s|] eqn:Hr.
  - repeat cx_step; cbn; unfold proved; rewrite ?Hr; auto.
  - repeat cx_step; cbn; auto.
Qed.
Lemma history_request x ms m (cx cx' : ctx) st : at_ x ms -> handle_certificate_request x m cx = (Ok st, cx') -> history st (ms ++ [m]).
Proof. intros Hx Hh. unfold handle_certificate_request in Hh. repeat cx_step. cbn. auto. Qed.
Lemma history_certificate x a ms m (cx cx' : ctx) st : at_ x ms -> handle_certificate x a m cx = (Ok st, cx') -> history st (ms ++ [m]).
Proof.
  intros Hx Hh. unfold handle_certificate in Hh. cx_step. apply require_ok in Hm as (-> & parsed & enc & Hm & Hp).
  repeat cx_step. cbn. split; [auto|]. destruct (HandshakeMessagePayload.payload parsed) eqn:He; try done. injection Hp as ->.
  exists ms, m, v. split; [done|]. split; [by exists parsed, enc|]. done.
Qed.
Lemma history_verify x sc a ms m (cx cx' : ctx) st :
  history (ExpectCertificateVerify x sc a) ms -> clock ms (now (cx_world cx)) -> handle_certificate_verify x sc a m cx = (Ok st, cx') -> history st (ms ++ [m]).
Proof.
  intros (Hx & pre & mc & certp & -> & Hc & Hch & Ho) Hck Hh. unfold handle_certificate_verify in Hh. cx_step. apply require_ok in Hm as (-> & parsed & enc & Hm & Hp).
  destruct (cert_chain sc) as [|ee ints] eqn:Hsc; [done|]. repeat cx_step. apply verified_ok in Hm1 as [Hv1 ->]. apply verified_ok in Hm3 as [Hv2 ->].
  cbn. split; [auto|]. unfold proved. destruct r; [done|]. destruct (HandshakeMessagePayload.payload parsed) eqn:He; try done. injection Hp as ->.
  destruct Hx as (<- & <- & <- & Ht). eexists pre, mc, certp, m, v, ee, ints, _, _. rewrite <- app_assoc. split; [done|]. split; [done|]. split; [by exists parsed, enc|].
  split; [done|]. split; [done|]. rewrite <- Ho, <- Ht. done.
Qed.
Lemma history_finished x a ms m (cx cx' : ctx) st :
  history (ExpectFinished x a) ms -> handle_finished x a m cx = (Ok st, cx') -> history st (ms ++ [m]).
Proof.
  intros [Hx Hp] Hh. unfold handle_finished in Hh. cx_step. apply require_ok in Hm as (-> & parsed & enc & Hm & Hf). do 2 cx_step.
  unfold res in Hm0, Hm1. injection Hm0 as Hhash <-. injection Hm1 as Hsign <-. cx_step; [cx_step|]. apply negb_false_iff, bool_decide_eq_true in Hb as ->.
  assert (finished_proof ks t ms m) as Hfin.
  { destruct Hx as (<- & <- & <- & Ht). destruct (HandshakeMessagePayload.payload parsed) eqn:He; try done. injection Hf as ->.
    exists v, v0. split; [by exists parsed, enc|]. rewrite <- Ht. done. }
  repeat (cx_step; try match goal with Hv : (let '(_, _) := ?v in _) _ = _ |- _ => destruct v as [[??]?] end).
  match goal with |- history (if ?q then _ else _) _ => destruct q end; cbn; exists ms, m, []; done.
Qed.
Lemma history_stays st ms m st' : match st, st' with (ExpectTraffic _ | ExpectQuicTraffic _), (ExpectTraffic _ | ExpectQuicTraffic _) => True | _, _ => False end ->
  history st ms -> history st' (ms ++ [m]).
Proof.
  destruct st, st'; try done; intros _ (pre & mf & post & -> & Hp & Hf); exists pre, mf, (post ++ [m]); (split; [by rewrite <- app_assoc|done]).
Qed.
Lemma traffic_stays x m (cx cx' : ctx) st : handle_traffic x m cx = (Ok st, cx') -> exists x', st = ExpectTraffic x'.
Proof.
  unfold handle_traffic. destruct (Message.payload m) as [al|[ty p] enc| |p]; try done.
  - destruct p; try done; intros Hh; repeat cx_step; eauto.
  - intros Hh; repeat cx_step; eauto.
Qed.
Lemma quic_stays x m (cx cx' : ctx) st : handle_quic_traffic x m cx = (Ok st, cx') -> exists x', st = ExpectQuicTraffic x'.
Proof. unfold handle_quic_traffic. intros Hh. repeat cx_step. eauto. Qed.
Lemma history_step st ms m (cx cx' : ctx) st' : history st ms -> clock ms (now (cx_world cx)) -> handle_tls13 st m cx = (Ok st', cx') -> history st' (ms ++ [m]).
Proof.
  intros Hst Hck Hh. destruct st as [x r' hello|x|x|x a|x sc a|x a|x|x]; cbn [handle_tls13] in Hh.
  - destruct Hst as [-> Hx]. by eapply history_extensions.
  - unfold handle_certificate_or_cert_req in Hh. destruct (Message.payload m) as [al|[ty p] enc| |p] eqn:Hp; try done.
    destruct p; try done; [by eapply history_certificate|by eapply history_request].
  - by eapply history_request.
  - by eapply history_certificate.
  - by eapply history_verify.
  - by eapply history_finished.
  - destruct (traffic_stays _ _ _ _ _ Hh) as [x' ->]. by apply (history_stays (ExpectTraffic x)).
  - destruct (quic_stays _ _ _ _ _ Hh) as [x' ->]. by apply (history_stays (ExpectQuicTraffic x)).
Qed.
End history.

Definition in_traffic (st : Tls13State) : Prop := match st with ExpectTraffic _ | ExpectQuicTraffic _ => True | _ => False end.

Lemma traffic_final st m (cx cx' : ctx) st' : in_traffic st -> handle_tls13 st m cx = (Ok st', cx') -> in_traffic st'.
Proof.
  intros Ht Hh. destruct st; try done; cbn [handle_tls13] in Hh; [by destruct (traffic_stays _ _ _ _ _ Hh) as [x' ->]|by destruct (quic_stays _ _ _ _ _ Hh) as [x' ->]].
Qed.
(** Before its traffic state a client leaves the gate for application data as it
    was. *)
Lemma extensions_still x r hello m : stillx (handle_encrypted_extensions (Store:=Store) x r hello m).
Proof. unfold handle_encrypted_extensions, validate_encrypted_extensions, process_alpn_protocol, reject_early, early. frame. Qed.
Lemma request_still x m : stillx (handle_certificate_request (Store:=Store) x m).
Proof. unfold handle_certificate_request. frame. Qed.
Lemma certificate_still x a m : stillx (handle_certificate (Store:=Store) x a m).
Proof. unfold handle_certificate. frame. Qed.
Lemma verify_still x sc a m : stillx (handle_certificate_verify (Store:=Store) x sc a m).
Proof. unfold handle_certificate_verify. frame. Qed.
Lemma step_still st m (cx cx' : ctx) st' : handle_tls13 st m cx = (Ok st', cx') -> ~ in_traffic st' -> gate (cx_common cx') = gate (cx_common cx).
Proof.
  intros Hh Ht. assert (stillx (handle_tls13 (Store:=Store) st m) -> gate (cx_common cx') = gate (cx_common cx)) as Hs.
  { intros Hs. specialize (Hs cx). by rewrite Hh in Hs. }
  destruct st as [x r' hello|x|x|x a|x sc a|x a|x|x]; cbn [handle_tls13] in *; auto using extensions_still, request_still, certificate_still, verify_still.
  - apply Hs. unfold handle_certificate_or_cert_req. destruct (Message.payload m) as [|[ty []]| |]; auto using request_still, certificate_still with frame.
  - exfalso. unfold handle_finished in Hh.
    repeat (cx_step; try match goal with Hv : (let '(_, _) := ?v in _) _ = _ |- _ => destruct v as [[??]?] end).
    match type of Ht with context [if ?q then _ else _] => by destruct q end.
  - destruct (traffic_stays _ _ _ _ _ Hh) as [x' ->]. done.
  - destruct (quic_stays _ _ _ _ _ Hh) as [x' ->]. done.
Qed.
Lemma traffic_proved_at (x : Base) r hello cx tms st' cx' : timed_runs (handle_tls13 (Store:=Store)) (ExpectEncryptedExtensions x r hello) cx tms st' cx' -> in_traffic st' ->
  exists pre mf post, map snd tms = pre ++ mf :: post /\
    proved (fun ms t => fst <$> tms !! length ms = Some t) (config x) (server_name x) (transcript x) r pre /\ finished_proof (key_schedule x) (transcript x) pre mf.
Proof.
  intros Hr Ht. set (clock := fun (ms : list Message.t) t => fst <$> tms !! length ms = Some t).
  assert (history clock (config x) (server_name x) (transcript x) (key_schedule x) r (ExpectEncryptedExtensions x r hello) []) as H0' by by repeat split.
  pose proof (runs_history_at _ clock _ (fun st ms t m cx cx' st' Hck Hst Hh => history_step clock (config x) (server_name x) (transcript x) (key_schedule x) r st ms m (at_time t cx) cx' st' Hst Hck Hh) _ _ _ _ _ [] Hr) as Hh. cbn [app] in Hh.
  specialize (Hh ltac:(intros k t m Hk; unfold clock; rewrite length_take, length_map, Nat.min_l by (apply lookup_lt_Some in Hk; lia); by rewrite Hk) H0').
  clear H0'. destruct st'; try done.
Qed.
Lemma traffic_proved (x : Base) r hello cx ms st' cx' : runs13 (ExpectEncryptedExtensions x r hello) cx ms st' cx' -> in_traffic st' ->
  exists pre mf post, ms = pre ++ mf :: post /\ (r = None -> server_proof (config x) (server_name x) (transcript x) pre) /\ finished_proof (key_schedule x) (transcript x) pre mf.
Proof.
  intros (tms & <- & Hr) Ht. destruct (traffic_proved_at _ _ _ _ _ _ _ Hr Ht) as (pre & mf & post & -> & Hp & Hf). exists pre, mf, post. split; [done|]. split; [|done].
  intros ->. by eapply server_proof_any.
Qed.
(** C11: A TLS 1.3 client sends data to nobody it has not authenticated.  Whatever
    messages arrive in whatever order: until the client reaches its traffic state,
    the permission to send application data and the data that waits for it are as
    they were; and when it has reached it, it got a Finished message with the code
    of the whole transcript under the key of this exchange, and, unless it resumes
    a session, before it a certificate chain that the verifier accepted for the
    server's name and a signature by the key of this chain over the transcript up
    to it. *)
Theorem client_authenticates (x : Base) r hello cx ms st' cx' :
  runs13 (ExpectEncryptedExtensions x r hello) cx ms st' cx' ->
  (~ in_traffic st' -> gate (cx_common cx') = gate (cx_common cx)) /\
  (in_traffic st' -> exists pre mf post, ms = pre ++ mf :: post /\ finished_proof (key_schedule x) (transcript x) pre mf /\
    (r = None -> server_proof (config x) (server_name x) (transcript x) pre)).
Proof.
  intros Hr. split; [eapply runs_still; eauto using traffic_final, step_still|]. intros Ht.
  destruct (traffic_proved _ _ _ _ _ _ _ Hr Ht) as (pre & mf & post & -> & Hp & Hf).
  by exists pre, mf, post.
Qed.
End tls13.

(** ** An instance *)

#[local] Existing Instances toy_hashing toy_ring.
#[local] Instance no_names_here : DnsNames := {| dns_try_from _ := false |}.
#[local] Instance ex_profile : Profile := true.
(** A verifier that accepts one certificate and one signature. *)
Definition ex_verifier : ServerCertVerifier := {|
  verify_server_cert ee _ _ _ _ := if bool_decide (ee = [7; 7]) then Ok tt else Err Error.General;
  verify_tls12_signature _ _ _ := Err Error.General;
  verify_tls13_signature m _ d := if bool_decide (DigitallySignedStruct.sig d = take 4 m) then Ok tt else Err Error.General;
  supported_verify_schemes := [Known SignatureScheme.ED25519] |}.
Definition ex_config : ClientConfig := {|
  provider := {| cipher_suites := ALL_CIPHER_SUITES; kx_groups := [] |}; alpn_protocols := []; tls12_resumption := Disabled; max_fragment := None;
  client_auth_cert_resolver := {| resolve_client _ _ := None; has_certs := false |}; versions := {| ev_tls12 := true; ev_tls13 := true |}; enable_sni := true;
  verifier := ex_verifier; key_log := {| will_log _ := false |}; enable_extraction := false; enable_early_data := false; reality_client_config := None |}.
Definition ex_base : Base := {|
  config := ex_config; server_name := DnsName (ascii_bytes "example.org"); randoms := {| random_client := replicate 32 1; random_server := replicate 32 2 |};
  suite13 := TLS13_AES_128_GCM_SHA256; transcript := HandshakeHash.start_hash HandshakeHashBuffer.new SHA256;
  key_schedule := {| KeyScheduleHandshake.ks := ks_new TLS13_AES_128_GCM_SHA256 (replicate 32 5);
                     KeyScheduleHandshake.client_handshake_traffic_secret := replicate 32 3; KeyScheduleHandshake.server_handshake_traffic_secret := replicate 32 4 |} |}.
Definition ex_messages : list Message.t := [
  hs_message (Known TLSv1_3) HandshakeType.EncryptedExtensions (HandshakePayload.EncryptedExtensions []);
  hs_message (Known TLSv1_3) HandshakeType.Certificate (HandshakePayload.CertificateTls13 (CertificatePayloadTls13.new [CertificateEntry.new [7; 7]]));
  hs_message (Known TLSv1_3) HandshakeType.CertificateVerify
    (HandshakePayload.CertificateVerify {| DigitallySignedStruct.scheme := Known SignatureScheme.ED25519; DigitallySignedStruct.sig := replicate 4 0x20 |})].
Definition ex_finished : Message.t :=
  match (h ← HandshakeHash.get_current_hash (E:=Error.t) (adds (transcript ex_base) ex_messages); KeyScheduleHandshake.sign_server_finish (key_schedule ex_base) h) with
  | Ok fin => hs_message (Known TLSv1_3) HandshakeType.Finished (HandshakePayload.Finished fin)
  | _ => ccs_message
  end.
Definition ex_cx : Context (ClientConnectionData unit) := {|
  cx_common := set_record_layer (set_message_encrypter (Tls13MessageEncrypter AES_128_GCM (replicate 16 1) (replicate 12 2)) new_layer) (CommonState.new Client);
  cx_data := new_data tt; cx_world := {| rng := []; now := 0; key_lines := [] |} |}.
Lemma client_authenticates_witness :
  exists st' cx', runs handle_tls13 (ExpectEncryptedExtensions ex_base None {| sent_extensions := [] |}) ex_cx (ex_messages ++ [ex_finished]) st' cx' /\ in_traffic st' /\
    exists pre, server_proof ex_config (DnsName (ascii_bytes "example.org")) (transcript ex_base) pre.
Proof.
  destruct (run handle_tls13 (ex_messages ++ [ex_finished]) (ExpectEncryptedExtensions ex_base None {| sent_extensions := [] |}) ex_cx) as [[st' cx']|] eqn:Hr.
  - assert (in_traffic st') as Ht.
    { apply (f_equal (fun r => match r with Some (ExpectTraffic _, _) => true | _ => false end)) in Hr. vm_compute in Hr. by destruct st'. }
    exists st', cx'. split; [by apply run_runs|]. split; [exact Ht|].
    destruct (proj2 (client_authenticates ex_base None {| sent_extensions := [] |} ex_cx _ st' cx' (run_runs _ _ _ _ _ _ Hr)) Ht) as (pre & mf & post & _ & _ & Hp).
    exists pre. exact (Hp eq_refl).
  - exfalso. apply (f_equal (fun r => match r with Some _ => true | None => false end)) in Hr. vm_compute in Hr. discriminate.
Defined.

