(* ===== verification/ClientTls12.v ===== *)
(** * The TLS 1.2 client (orcax/rustls-fork/rustls/src/client/tls12.rs)

    Every handshake state of a client from the ServerHello on, full and resumed,
    and its traffic state. *)
From S2P Require Import Prelude Codec TlsLayer VecBuf Enums Wire Messages Payloads Ciphers Suites Errors Common Hkdf KeySchedule Transcript Tls12 Persist Conn Context ClientBase.
Import CommonState.

Section client.
Context {H : Hashing} {A : RingAead} `{DnsNames} `{Profile} {Store : Type} {S : ClientSessionStore Store}.
Abbreviation CCx := (Cx (ClientConnectionData Store)).

(** ** States *)

(** The fields of the states before the keys are made. *)
Record Base : Type := {
  config : ClientConfig; resuming_session : option Tls12ClientSessionValue.t; session_id : SessionId.t; server_name : ServerName;
  b_randoms : ConnectionRandoms; using_ems : bool; transcript : HandshakeHash.t; suite12 : Tls12CipherSuite; must_issue_new_ticket : bool
}.
Definition set_transcript (x : Base) (t : HandshakeHash.t) : Base :=
  {| config := config x; resuming_session := resuming_session x; session_id := session_id x; server_name := server_name x; b_randoms := b_randoms x;
     using_ems := using_ems x; transcript := t; suite12 := suite12 x; must_issue_new_ticket := must_issue_new_ticket x |}.
Definition add (x : Base) (m : Message.t) : Base := set_transcript x (HandshakeHash.add_message (transcript x) m).
(** [ServerKxDetails]. *)
Record ServerKxDetails : Type := { kx_params : bytes; kx_sig : DigitallySignedStruct.t }.
(** The fields of the states after. *)
Record Keyed : Type := {
  k_config : ClientConfig; secrets : ConnectionSecrets; k_resuming_session : option Tls12ClientSessionValue.t; k_session_id : SessionId.t;
  k_server_name : ServerName; k_using_ems : bool; k_transcript : HandshakeHash.t; resuming : bool
}.
Definition k_add (x : Keyed) (m : Message.t) : Keyed :=
  {| k_config := k_config x; secrets := secrets x; k_resuming_session := k_resuming_session x; k_session_id := k_session_id x; k_server_name := k_server_name x;
     k_using_ems := k_using_ems x; k_transcript := HandshakeHash.add_message (k_transcript x) m; resuming := resuming x |}.
Inductive Tls12State : Type :=
| ExpectCertificate (x : Base) (may_send_cert_status : bool)
| ExpectCertificateStatusOrServerKx (x : Base) (server_cert_chain : list bytes)
| ExpectCertificateStatus (x : Base) (server_cert_chain : list bytes)
| ExpectServerKx (x : Base) (server_cert : ServerCertDetails)
| ExpectServerDoneOrCertReq (x : Base) (server_cert : ServerCertDetails) (server_kx : ServerKxDetails)
| ExpectCertificateRequest (x : Base) (server_cert : ServerCertDetails) (server_kx : ServerKxDetails)
| ExpectServerDone (x : Base) (server_cert : ServerCertDetails) (server_kx : ServerKxDetails) (client_auth : option ClientAuthDetails)
| ExpectNewTicket (x : Keyed)
| ExpectCcs (x : Keyed) (ticket : option NewSessionTicketPayload.t)
| ExpectFinished (x : Keyed) (ticket : option NewSessionTicketPayload.t)
| ExpectTraffic (s : ConnectionSecrets).

(** ** Sending *)

Definition emit_certificate (t : HandshakeHash.t) (chain : list bytes) : CCx HandshakeHash.t :=
  emit false t (hs_message (Known TLSv1_2) HandshakeType.Certificate (HandshakePayload.Certificate chain)).
Definition emit_clientkx (t : HandshakeHash.t) (pub : bytes) : CCx HandshakeHash.t :=
  emit false t (hs_message (Known TLSv1_2) HandshakeType.ClientKeyExchange (HandshakePayload.ClientKeyExchange (encode (Codec:=payload_u8) pub []))).
Definition emit_certverify (t : HandshakeHash.t) (signer : Signer) : CCx HandshakeHash.t :=
  match HandshakeHash.take_handshake_buf t with
  | (Some message, t) =>
      sig ← res (sign signer message);
      emit false t (hs_message (Known TLSv1_2) HandshakeType.CertificateVerify
        (HandshakePayload.CertificateVerify {| DigitallySignedStruct.scheme := scheme signer; DigitallySignedStruct.sig := sig |}))
  | (None, _) => raise Error.General
  end.
Definition emit_ccs : CCx unit := common (send_msg ccs_message false).
Definition emit_finished (s : ConnectionSecrets) (t : HandshakeHash.t) : CCx HandshakeHash.t :=
  vh ← res (HandshakeHash.get_current_hash t);
  emit true t (hs_message (Known TLSv1_2) HandshakeType.Finished (HandshakePayload.Finished (client_verify_data s vh))).
Definition log_master_secret (s : ConnectionSecrets) : CCx unit :=
  log_keys [{| line_label := "CLIENT_RANDOM"; line_random := random_client (randoms s); line_secret := master_secret s |}].

(** ** The ServerHello *)

(** [CompleteServerHelloHandling::handle_server_hello]. *)
Definition handle_server_hello (c : ClientConfig) (resuming_session : option Tls12ClientSessionValue.t) (name : ServerName) (rnd : ConnectionRandoms)
    (t : HandshakeHash.t) (suite : Tls12CipherSuite) (sh : ServerHelloPayload.t) (tls13_supported : bool) : CCx Tls12State :=
  let rnd := {| random_client := random_client rnd; random_server := ServerHelloPayload.random sh |} in
  if tls13_supported && bool_decide (drop 24 (random_server rnd) = DOWNGRADE_SENTINEL)
  then alert AlertDescription.IllegalParameter (pm PeerMisbehaved.AttemptedDowngradeToTls12WhenTls13IsSupported)
  else
    let using_ems := ServerHelloPayload.ems_support_acked sh in
    let has ext := bool_decide (is_Some (ServerExts.find_extension (ServerHelloPayload.extensions sh) ext)) in
    let must_issue_new_ticket := has ExtensionType.SessionTicket in
    let may_send_cert_status := has ExtensionType.StatusRequest in
    let id := ServerHelloPayload.session_id sh in
    match resuming_session with
    | Some session =>
        if SessionId.eqb (Tls12ClientSessionValue.session_id session) id then
          if negb (bool_decide (suite_id (common12 (Tls12ClientSessionValue.suite session)) = suite_id (common12 suite)))
          then raise (pm PeerMisbehaved.ResumptionOfferedWithVariedCipherSuite)
          else if negb (Bool.eqb (Tls12ClientSessionValue.extended_ms session) using_ems) then raise (pm PeerMisbehaved.ResumptionOfferedWithVariedEms)
          else
            s ← res (new_resume rnd suite (ClientSessionCommon.secret (Tls12ClientSessionValue.common session)));
            _ ← log_master_secret s;
            _ ← common (start_encryption_tls12 s Client);
            _ ← set (set_peer_certificates (Some (ClientSessionCommon.server_cert_chain (Tls12ClientSessionValue.common session))));
            let k := {| k_config := c; secrets := s; k_resuming_session := Some session; k_session_id := id; k_server_name := name; k_using_ems := using_ems;
                        k_transcript := t; resuming := true |} in
            mret (if must_issue_new_ticket then ExpectNewTicket k else ExpectCcs k None)
        else mret (ExpectCertificate {| config := c; resuming_session := None; session_id := id; server_name := name; b_randoms := rnd; using_ems := using_ems;
                                        transcript := t; suite12 := suite; must_issue_new_ticket := must_issue_new_ticket |} may_send_cert_status)
    | None => mret (ExpectCertificate {| config := c; resuming_session := None; session_id := id; server_name := name; b_randoms := rnd; using_ems := using_ems;
                                         transcript := t; suite12 := suite; must_issue_new_ticket := must_issue_new_ticket |} may_send_cert_status)
    end.

(** ** The server's certificate and key exchange *)

Definition handle_certificate (x : Base) (may_send_cert_status : bool) (m : Message.t) : CCx Tls12State :=
  let x := add x m in
  chain ← require HandshakeType.Certificate (fun p => match p with HandshakePayload.Certificate c => Some c | _ => None end) m;
  mret (if may_send_cert_status then ExpectCertificateStatusOrServerKx x chain else ExpectServerKx x {| cert_chain := chain; ocsp_response := [] |}).
Definition handle_certificate_status (x : Base) (chain : list bytes) (m : Message.t) : CCx Tls12State :=
  let x := add x m in
  status ← require HandshakeType.CertificateStatus (fun p => match p with HandshakePayload.CertificateStatus c => Some c | _ => None end) m;
  mret (ExpectServerKx x {| cert_chain := chain; ocsp_response := CertificateStatus.ocsp_response status |}).
Definition handle_server_kx (x : Base) (server_cert : ServerCertDetails) (m : Message.t) : CCx Tls12State :=
  opaque_kx ← require HandshakeType.ServerKeyExchange (fun p => match p with HandshakePayload.ServerKeyExchange k => Some k | _ => None end) m;
  let x := add x m in
  match ServerKeyExchangePayload.unwrap_given_kxa opaque_kx with
  | None => alert AlertDescription.DecodeError (im MissingKeyExchange)
  | Some ecdhe =>
      let params := encode (Codec:=ServerEcdhParams.codec) (EcdheServerKeyExchange.params ecdhe) [] in
      mret (ExpectServerDoneOrCertReq x server_cert {| kx_params := params; kx_sig := EcdheServerKeyExchange.dss ecdhe |})
  end.
Definition handle_certificate_status_or_server_kx (x : Base) (chain : list bytes) (m : Message.t) : CCx Tls12State :=
  match Message.payload m with
  | MessagePayload.Handshake {| HandshakeMessagePayload.payload := HandshakePayload.ServerKeyExchange _ |} _ =>
      handle_server_kx x {| cert_chain := chain; ocsp_response := [] |} m
  | MessagePayload.Handshake {| HandshakeMessagePayload.payload := HandshakePayload.CertificateStatus _ |} _ => handle_certificate_status x chain m
  | p => raise (inappropriate_handshake_message p [Known TlsLayer.Handshake] [Known HandshakeType.ServerKeyExchange; Known HandshakeType.CertificateStatus])
  end.
Definition handle_certificate_request (x : Base) (server_cert : ServerCertDetails) (server_kx : ServerKxDetails) (m : Message.t) : CCx Tls12State :=
  certreq ← require HandshakeType.CertificateRequest (fun p => match p with HandshakePayload.CertificateRequest c => Some c | _ => None end) m;
  let x := add x m in
  mret (ExpectServerDone x server_cert server_kx
    (Some (resolve (client_auth_cert_resolver (config x)) (Some (CertificateRequestPayload.canames certreq)) (CertificateRequestPayload.sigschemes certreq) None))).

(** ** ServerHelloDone *)

(** Steps 1 to 3: the chain, and that its end entity signed the key exchange. *)
Definition check_server (x : Base) (server_cert : ServerCertDetails) (server_kx : ServerKxDetails) : CCx unit :=
  match cert_chain server_cert with
  | [] => raise Error.NoCertificatesPresented
  | end_entity :: intermediates =>
      t ← time_now;
      _ ← verified (verify_server_cert (verifier (config x)) end_entity intermediates (server_name x) (ocsp_response server_cert) t);
      let message := random_client (b_randoms x) ++ random_server (b_randoms x) ++ kx_params server_kx in
      let sig := kx_sig server_kx in
      if negb (usable_for_signature_algorithm (Suites.Tls12 (suite12 x)) (scheme_sign (DigitallySignedStruct.scheme sig)))
      then raise (pm PeerMisbehaved.SignedKxWithWrongAlgorithm)
      else verified (verify_tls12_signature (verifier (config x)) message end_entity sig)
  end.
(** Steps 5a to 5e, from the transcript [t]: the keys, and the transcript that is
    left. *)
Definition client_key_exchange (x : Base) (server_kx : ServerKxDetails) (client_auth : option ClientAuthDetails) (t : HandshakeHash.t) :
    CCx (ConnectionSecrets * HandshakeHash.t) :=
  ecdh_params ← common (decode_ecdh_params ServerEcdhParams.codec (kx_params server_kx));
  match find_kx_group (config x) (EcParameters.named_group (ServerEcdhParams.curve_params ecdh_params)) with
  | None => raise (pm PeerMisbehaved.SelectedUnofferedKxGroup)
  | Some skxg =>
      kx ← start_kx skxg;
      t ← emit_clientkx t (pub_key kx);
      ems_seed ← (if using_ems x then h ← res (HandshakeHash.get_current_hash t); mret (Some h) else mret None);
      t ← match client_auth with Some (Verify _ signer _) => emit_certverify t signer | _ => mret t end;
      _ ← emit_ccs;
      s ← res (from_key_exchange (complete kx) (ServerEcdhParams.public ecdh_params) ems_seed (b_randoms x) (suite12 x));
      _ ← log_master_secret s;
      _ ← common (start_encryption_tls12 s Client);
      _ ← set (fun c => set_record_layer (start_encrypting (record_layer c)) c);
      mret (s, t)
  end.
Definition handle_server_done (x : Base) (server_cert : ServerCertDetails) (server_kx : ServerKxDetails) (client_auth : option ClientAuthDetails) (m : Message.t) :
    CCx Tls12State :=
  match Message.payload m with
  | MessagePayload.Handshake {| HandshakeMessagePayload.payload := HandshakePayload.ServerHelloDone |} _ =>
      let x := add x m in
      _ ← common check_aligned_handshake;
      _ ← check_server x server_cert server_kx;
      _ ← set (set_peer_certificates (Some (cert_chain server_cert)));
      t ← match client_auth with
          | Some (Empty _) => emit_certificate (transcript x) []
          | Some (Verify certkey _ _) => emit_certificate (transcript x) (cert certkey)
          | None => mret (transcript x)
          end;
      '(s, t) ← client_key_exchange x server_kx client_auth t;
      t ← emit_finished s t;
      let k := {| k_config := config x; secrets := s; k_resuming_session := resuming_session x; k_session_id := session_id x; k_server_name := server_name x;
                  k_using_ems := using_ems x; k_transcript := t; resuming := false |} in
      mret (if must_issue_new_ticket x then ExpectNewTicket k else ExpectCcs k None)
  | p => raise (inappropriate_handshake_message p [Known TlsLayer.Handshake] [Known HandshakeType.ServerHelloDone])
  end.
Definition handle_server_done_or_cert_req (x : Base) (server_cert : ServerCertDetails) (server_kx : ServerKxDetails) (m : Message.t) : CCx Tls12State :=
  match Message.payload m with
  | MessagePayload.Handshake {| HandshakeMessagePayload.payload := HandshakePayload.CertificateRequest _ |} _ => handle_certificate_request x server_cert server_kx m
  | _ => handle_server_done (set_transcript x (HandshakeHash.abandon_client_auth (transcript x))) server_cert server_kx None m
  end.

(** ** The server's Finished *)

Definition handle_new_ticket (x : Keyed) (m : Message.t) : CCx Tls12State :=
  let x := k_add x m in
  nst ← require HandshakeType.NewSessionTicket (fun p => match p with HandshakePayload.NewSessionTicket n => Some n | _ => None end) m;
  mret (ExpectCcs x (Some nst)).
Definition handle_ccs (x : Keyed) (ticket : option NewSessionTicketPayload.t) (m : Message.t) : CCx Tls12State :=
  match Message.payload m with
  | MessagePayload.ChangeCipherSpec =>
      _ ← common check_aligned_handshake;
      _ ← set (fun c => set_record_layer (start_decrypting (record_layer c)) c);
      mret (ExpectFinished x ticket)
  | p => raise (inappropriate_message p [Known TlsLayer.ChangeCipherSpec])
  end.
Definition save_session (x : Keyed) (ticket : option NewSessionTicketPayload.t) : CCx unit :=
  let '(tk, lifetime) := match ticket with
                         | Some nst => (NewSessionTicketPayload.ticket nst, NewSessionTicketPayload.lifetime_hint nst)
                         | None => ([], 0)
                         end in
  let tk := match tk, k_resuming_session x with [], Some session => (Tls12ClientSessionValue.take_ticket session).1 | _, _ => tk end in
  if SessionId.is_empty (k_session_id x) && bool_decide (tk = []) then mret tt
  else
    certs ← get peer_certificates;
    t ← time_now;
    storing (set_tls12_session (k_server_name x)
      (Tls12ClientSessionValue.new (cs_suite (secrets x)) (k_session_id x) tk (master_secret (secrets x)) (default [] certs) t lifetime (k_using_ems x))).
Definition handle_finished (x : Keyed) (ticket : option NewSessionTicketPayload.t) (m : Message.t) : CCx Tls12State :=
  finished ← require HandshakeType.Finished (fun p => match p with HandshakePayload.Finished f => Some f | _ => None end) m;
  _ ← common check_aligned_handshake;
  vh ← res (HandshakeHash.get_current_hash (k_transcript x));
  if negb (bool_decide (server_verify_data (secrets x) vh = finished)) then alert AlertDescription.DecryptError Error.DecryptError
  else
    let x := k_add x m in
    _ ← save_session x ticket;
    _ ← (if resuming x then
           _ ← emit_ccs;
           _ ← set (fun c => set_record_layer (start_encrypting (record_layer c)) c);
           _ ← emit_finished (secrets x) (k_transcript x); mret tt
         else mret tt);
    _ ← common start_traffic;
    mret (ExpectTraffic (secrets x)).
Definition handle_traffic (s : ConnectionSecrets) (m : Message.t) : CCx Tls12State :=
  match Message.payload m with
  | MessagePayload.ApplicationData p => _ ← common (take_received_plaintext p); mret (ExpectTraffic s)
  | p => raise (inappropriate_message p [Known TlsLayer.ApplicationData])
  end.

(** ** Any state *)

Definition export_keying_material (s : ConnectionSecrets) (len : nat) (label : bytes) (context : option bytes) : result Error.t bytes :=
  tls12_export_keying_material s len label context.
Definition extract_secrets (s : ConnectionSecrets) : result Error.t (ConnectionTrafficSecrets * ConnectionTrafficSecrets) := tls12_extract_secrets s Client.

Definition handle_tls12 (st : Tls12State) (m : Message.t) : CCx Tls12State :=
  match st with
  | ExpectCertificate x may_send_cert_status => handle_certificate x may_send_cert_status m
  | ExpectCertificateStatusOrServerKx x chain => handle_certificate_status_or_server_kx x chain m
  | ExpectCertificateStatus x chain => handle_certificate_status x chain m
  | ExpectServerKx x server_cert => handle_server_kx x server_cert m
  | ExpectServerDoneOrCertReq x server_cert server_kx => handle_server_done_or_cert_req x server_cert server_kx m
  | ExpectCertificateRequest x server_cert server_kx => handle_certificate_request x server_cert server_kx m
  | ExpectServerDone x server_cert server_kx client_auth => handle_server_done x server_cert server_kx client_auth m
  | ExpectNewTicket x => handle_new_ticket x m
  | ExpectCcs x ticket => handle_ccs x ticket m
  | ExpectFinished x ticket => handle_finished x ticket m
  | ExpectTraffic s => handle_traffic s m
  end.
End client.
