(* ===== verification/ClientHs.v ===== *)
(** * The start of a client's handshake
    (orcax/rustls-fork/rustls/src/client/hs.rs, client/client_conn.rs)

    The ClientHello with its extensions and its offer to resume, the answers to
    it (ServerHello, HelloRetryRequest), and the client's state machine as a
    whole. *)
From S2P Require Import Prelude Codec TlsLayer VecBuf Enums Wire Messages Payloads Ciphers Suites Errors Common Hkdf KeySchedule Transcript Tls12 Persist Conn Context ClientBase ClientTls13 ClientTls12.
Import CommonState.

Section client.
Context {H : Hashing} {P : Hkdf} {A : RingAead} `{DnsNames} `{Profile} {Store : Type} {S : ClientSessionStore Store}.
Abbreviation CCx := (Cx (ClientConnectionData Store)).

(** ** Sessions *)

Inductive ClientSessionValue : Type := SessionTls13 (inner : Tls13ClientSessionValue.t) | SessionTls12 (inner : Tls12ClientSessionValue.t).
Definition session_common (x : ClientSessionValue) : ClientSessionCommon.t :=
  match x with SessionTls13 inner => Tls13ClientSessionValue.common inner | SessionTls12 inner => Tls12ClientSessionValue.common inner end.
Definition session_tls13 (x : ClientSessionValue) : option Tls13ClientSessionValue.t := match x with SessionTls13 v => Some v | SessionTls12 _ => None end.
(** [persist::Retrieved]. *)
Record Retrieved : Type := { value : ClientSessionValue; retrieved_at : Z }.

Definition find_session (name : ServerName) : CCx (option Retrieved) :=
  ticket ← get_data (fun d => (take_tls13_ticket name (session_store d)).1);
  _ ← storing (fun s => (take_tls13_ticket name s).2);
  old ← get_data (fun d => tls12_session name (session_store d));
  t ← time_now;
  let found := match ticket with Some v => Some (SessionTls13 v) | None => SessionTls12 <$> old end in
  match found with
  | Some v =>
      if ClientSessionCommon.has_expired (session_common v) t then mret None
      else
        q ← get is_quic;
        _ ← (if (q : bool) then set (fun s => set_quic (set_q_params (Tls13ClientSessionValue.quic_params <$> session_tls13 v) (quic s)) s) else mret tt);
        mret (Some {| value := v; retrieved_at := t |})
  | None => mret None
  end.

(** ** States *)

Record ClientHelloInput : Type := {
  config : ClientConfig; resuming : option Retrieved; random : bytes; sent_tls13_fake_ccs : bool; hello : ClientHelloDetails; session_id : SessionId.t;
  server_name : ServerName
}.
Record ExpectServerHello : Type := {
  input : ClientHelloInput; transcript_buffer : HandshakeHashBuffer.t; early_key_schedule : option KeyScheduleEarly.t;
  offered_key_share : option ActiveKeyExchange; offered_suite : option SupportedCipherSuite
}.
Inductive ClientState : Type :=
| WaitServerHello (x : ExpectServerHello)
| WaitServerHelloOrHelloRetryRequest (next : ExpectServerHello) (extra_exts : list ClientExtension.t)
| InTls13 (st : Tls13State)
| InTls12 (st : Tls12State).

(** ** The ClientHello *)

(** [prepare_resumption]: the extensions with those pushed, and the session that a
    binder is for. *)
Definition offer_session (c : ClientConfig) (resuming : option Retrieved) (suite : option SupportedCipherSuite) (exts : list ClientExtension.t) :
    CCx (list ClientExtension.t * option Tls13ClientSessionValue.t) :=
  match resuming with
  | Some r =>
      if negb (bool_decide (ClientSessionCommon.ticket (session_common (value r)) = [])) then
        match value r with
        | SessionTls12 v =>
            mret (if supports_version c (Known TLSv1_2) && bool_decide (tls12_resumption c = SessionIdOrTickets)
                  then exts ++ [ClientExtension.SessionTicket (Offer (ClientSessionCommon.ticket (Tls12ClientSessionValue.common v)))] else exts, None)
        | SessionTls13 v =>
            if negb (supports_version c (Known TLSv1_3)) then mret (exts, None)
            else match suite with
                 | Some (Suites.Tls12 _) => mret (exts, None)
                 | Some (Suites.Tls13 s) =>
                     match can_resume_from s (Tls13ClientSessionValue.suite v) with
                     | None => mret (exts, None)
                     | Some _ => exts ← prepare_resumption c v (retrieved_at r) exts true; mret (exts, Some v)
                     end
                 | None => exts ← prepare_resumption c v (retrieved_at r) exts false; mret (exts, Some v)
                 end
        end
      else
        mret (if supports_version c (Known TLSv1_3) || bool_decide (tls12_resumption c = SessionIdOrTickets)
              then exts ++ [ClientExtension.SessionTicket Request] else exts, None)
  | None =>
      mret (if supports_version c (Known TLSv1_3) || bool_decide (tls12_resumption c = SessionIdOrTickets)
            then exts ++ [ClientExtension.SessionTicket Request] else exts, None)
  end.
(** The extensions of a hello, up to the offer to resume. *)
Definition hello_extensions (c : ClientConfig) (name : ServerName) (support_tls12 support_tls13 : bool) (key_share : option ActiveKeyExchange) (cookie : option bytes)
    (extra_exts : list ClientExtension.t) : result Error.t (list ClientExtension.t) :=
  sni ← match name with
        | DnsName dns => if enable_sni c then match ClientExtension.make_sni dns with Ok e => Ok [e] | _ => Panic end else Ok []
        | IpAddress _ => Ok []
        end;
  Ok ([ClientExtension.SupportedVersions ((if support_tls13 then [Known TLSv1_3] else []) ++ (if support_tls12 then [Known TLSv1_2] else []));
       ClientExtension.EcPointFormats [Known ECPointFormat.Uncompressed];
       ClientExtension.NamedGroups (map kx_name (kx_groups (provider c)));
       ClientExtension.SignatureAlgorithms (supported_verify_schemes (verifier c));
       ClientExtension.ExtendedMasterSecretRequest;
       ClientExtension.CertificateStatusRequest CertificateStatusRequest.build_ocsp] ++
      sni ++
      match key_share with Some k => [ClientExtension.KeyShare [{| KeyShareEntry.group := group k; KeyShareEntry.payload := pub_key k |}]] | None => [] end ++
      match cookie with Some k => [ClientExtension.Cookie k] | None => [] end ++
      (if support_tls13 then [ClientExtension.PresharedKeyModes [Known PSKKeyExchangeMode.PSK_DHE_KE]] else []) ++
      (if bool_decide (alpn_protocols c = []) then [] else [ClientExtension.Protocols (from_slices (alpn_protocols c))]) ++
      extra_exts).
Definition with_hello (x : ClientHelloInput) (exts : list ClientExtension.t) : ClientHelloInput :=
  {| config := config x; resuming := resuming x; random := random x; sent_tls13_fake_ccs := sent_tls13_fake_ccs x;
     hello := {| sent_extensions := map ClientExtension.get_type exts |}; session_id := session_id x; server_name := server_name x |}.
Definition with_ccs (x : ClientHelloInput) (sent : bool) : ClientHelloInput :=
  {| config := config x; resuming := resuming x; random := random x; sent_tls13_fake_ccs := sent; hello := hello x; session_id := session_id x; server_name := server_name x |}.

Definition emit_client_hello_for_retry (tb : HandshakeHashBuffer.t) (retryreq : option HelloRetryRequest.t) (key_share : option ActiveKeyExchange)
    (extra_exts : list ClientExtension.t) (suite : option SupportedCipherSuite) (inp : ClientHelloInput) : CCx ClientState :=
  let c := config inp in
  q ← get is_quic;
  let support_tls12 := supports_version c (Known TLSv1_2) && negb q in
  let support_tls13 := supports_version c (Known TLSv1_3) in
  if negb (support_tls12 || support_tls13) then res Panic
  else
    exts ← res (hello_extensions c (server_name inp) support_tls12 support_tls13 key_share (r ← retryreq; HelloRetryRequest.get_cookie r) extra_exts);
    '(exts, tls13_session) ← offer_session c (resuming inp) suite exts;
    let inp := with_hello inp exts in
    proto ← get protocol;
    let suites := map Suites.suite (List.filter (fun cs => usable_for_protocol cs proto) (cipher_suites (provider c))) ++ [Known CipherSuite.TLS_EMPTY_RENEGOTIATION_INFO_SCSV] in
    let chp := {| HandshakeMessagePayload.typ := Known HandshakeType.ClientHello;
                  HandshakeMessagePayload.payload := HandshakePayload.ClientHello
                    {| ClientHelloPayload.client_version := Known TLSv1_2; ClientHelloPayload.random := random inp; ClientHelloPayload.session_id := session_id inp;
                       ClientHelloPayload.cipher_suites := suites; ClientHelloPayload.compression_methods := [Known Compression.Null];
                       ClientHelloPayload.extensions := exts |} |} in
    '(early_ks, chp) ← match tls13_session with
                       | Some v => '(schedule, chp) ← fill_in_psk_binder v tb chp; mret (Some (Tls13ClientSessionValue.suite v, schedule), chp)
                       | None => mret (None, chp)
                       end;
    let ch := {| Message.version := match retryreq with Some _ => Known TLSv1_2 | None => Known TLSv1_0 end; Message.payload := MessagePayload.handshake chp |} in
    sent ← match retryreq with Some _ => emit_fake_ccs (sent_tls13_fake_ccs inp) | None => mret (sent_tls13_fake_ccs inp) end;
    let tb := HandshakeHashBuffer.add_message tb ch in
    _ ← common (send_msg ch false);
    enabled ← early_enabled;
    sent ← match early_ks with
           | Some (resuming_suite, schedule) =>
               if negb enabled then mret sent else derive_early_traffic_secret (key_log c) resuming_suite schedule sent tb (random inp)
           | None => mret sent
           end;
    let next := {| input := with_ccs inp sent; transcript_buffer := tb; early_key_schedule := snd <$> early_ks; offered_key_share := key_share; offered_suite := suite |} in
    mret (match retryreq with
          | None => if support_tls13 then WaitServerHelloOrHelloRetryRequest next extra_exts else WaitServerHello next
          | Some _ => WaitServerHello next
          end).
(** A resumed TLS 1.2 session with a ticket gets a fresh session id. *)
Definition resumed_session_id (resuming : option Retrieved) : CCx (option Retrieved * option SessionId.t) :=
  match resuming with
  | Some {| value := SessionTls12 inner; retrieved_at := t |} =>
      if negb (bool_decide (ClientSessionCommon.ticket (Tls12ClientSessionValue.common inner) = [])) then
        bs ← random_vec 32;
        let inner := {| Tls12ClientSessionValue.suite := Tls12ClientSessionValue.suite inner; Tls12ClientSessionValue.session_id := SessionId.random bs;
                        Tls12ClientSessionValue.extended_ms := Tls12ClientSessionValue.extended_ms inner; Tls12ClientSessionValue.common := Tls12ClientSessionValue.common inner |} in
        mret (Some {| value := SessionTls12 inner; retrieved_at := t |}, Some (SessionId.random bs))
      else mret (resuming, Some (Tls12ClientSessionValue.session_id inner))
  | _ => mret (resuming, None)
  end.
Definition start_handshake (name : ServerName) (extra_exts : list ClientExtension.t) (c : ClientConfig) : CCx ClientState :=
  let tb := if has_certs (client_auth_cert_resolver c) then HandshakeHashBuffer.set_client_auth_enabled HandshakeHashBuffer.new else HandshakeHashBuffer.new in
  found ← find_session name;
  key_share ← (if supports_version c (Known TLSv1_3) then k ← initial_key_share c name; mret (Some k) else mret None);
  '(found, id) ← resumed_session_id found;
  q ← get is_quic;
  id ← match id with
       | Some id => mret id
       | None => if (q : bool) then mret SessionId.empty
                 else if negb (supports_version c (Known TLSv1_3)) then mret SessionId.empty
                 else bs ← random_vec 32; mret (SessionId.random bs)
       end;
  rnd ← random_vec 32;
  emit_client_hello_for_retry tb None key_share extra_exts None
    {| config := c; resuming := found; random := rnd; sent_tls13_fake_ccs := false; hello := {| sent_extensions := [] |}; session_id := id; server_name := name |}.

(** ** The ServerHello *)

(** The version that a ServerHello selects. *)
Definition server_version (sh : ServerHelloPayload.t) : ProtocolVersion :=
  if bool_decide (ServerHelloPayload.legacy_version sh = Known TLSv1_2)
  then default (ServerHelloPayload.legacy_version sh) (ServerHelloPayload.get_supported_versions sh) else ServerHelloPayload.legacy_version sh.
Definition choose_version (c : ClientConfig) (sh : ServerHelloPayload.t) : CCx ProtocolVersion :=
  let v := server_version sh in
  if bool_decide (v = Known TLSv1_3) && supports_version c (Known TLSv1_3) then mret (Known TLSv1_3)
  else if bool_decide (v = Known TLSv1_2) && supports_version c (Known TLSv1_2) then
    enabled ← early_enabled;
    early ← get early_traffic;
    if (enabled : bool) && early then raise (pm PeerMisbehaved.OfferedEarlyDataWithOldProtocolVersion)
    else if bool_decide (is_Some (ServerHelloPayload.get_supported_versions sh))
    then alert AlertDescription.IllegalParameter (pm PeerMisbehaved.SelectedTls12UsingTls13VersionExtension)
    else mret (Known TLSv1_2)
  else alert AlertDescription.ProtocolVersion
    (pi (if bool_decide (v = Known TLSv1_2 \/ v = Known TLSv1_3) then PeerIncompatible.ServerTlsVersionIsDisabledByOurConfig
         else PeerIncompatible.ServerDoesNotSupportTls12Or13)).
(** [PartialEq] of [SupportedCipherSuite]. *)
Definition same_suite (a b : SupportedCipherSuite) : bool :=
  match a, b with
  | Suites.Tls12 x, Suites.Tls12 y => bool_decide (suite_id (common12 x) = suite_id (common12 y))
  | Suites.Tls13 x, Suites.Tls13 y => bool_decide (suite_id (common13 x) = suite_id (common13 y))
  | _, _ => false
  end.
(** The checks of a ServerHello, up to the suite it selects. *)
Definition choose_suite (x : ExpectServerHello) (sh : ServerHelloPayload.t) : CCx SupportedCipherSuite :=
  let c := config (input x) in
  v ← choose_version c sh;
  if negb (bool_decide (ServerHelloPayload.compression_method sh = Known Compression.Null))
  then alert AlertDescription.IllegalParameter (pm PeerMisbehaved.SelectedUnofferedCompression)
  else if ServerExts.has_duplicate_extension (ServerHelloPayload.extensions sh)
  then alert AlertDescription.DecodeError (pm PeerMisbehaved.DuplicateServerHelloExtensions)
  else if server_sent_unsolicited_extensions (hello (input x)) (ServerHelloPayload.extensions sh) [Known ExtensionType.RenegotiationInfo]
  then alert AlertDescription.UnsupportedExtension (pm PeerMisbehaved.UnsolicitedServerHelloExtension)
  else
    _ ← set (set_negotiated_version (Some v));
    is13 ← get is_tls13;
    _ ← (if negb is13 then process_alpn_protocol c (ServerExts.get_alpn_protocol (ServerHelloPayload.extensions sh)) else mret tt);
    if match ServerHelloPayload.get_ecpoints_extension sh with
       | Some point_fmts => negb (bool_decide (Known ECPointFormat.Uncompressed ∈ point_fmts))
       | None => false
       end
    then alert AlertDescription.HandshakeFailure (pm PeerMisbehaved.ServerHelloMustOfferUncompressedEcPoints)
    else match find_cipher_suite c (ServerHelloPayload.cipher_suite sh) with
         | None => alert AlertDescription.HandshakeFailure (pm PeerMisbehaved.SelectedUnofferedCipherSuite)
         | Some suite =>
             if negb (bool_decide (v = suite_version suite)) then alert AlertDescription.IllegalParameter (pm PeerMisbehaved.SelectedUnusableCipherSuiteForVersion)
             else if match offered_suite x with Some prev => negb (same_suite prev suite) | None => false end
             then alert AlertDescription.IllegalParameter (pm PeerMisbehaved.SelectedDifferentCipherSuiteAfterRetry)
             else _ ← set (set_suite (Some suite)); mret suite
         end.
Definition handle_server_hello (x : ExpectServerHello) (m : Message.t) : CCx ClientState :=
  sh ← require HandshakeType.ServerHello (fun p => match p with HandshakePayload.ServerHello s => Some s | _ => None end) m;
  suite ← choose_suite x sh;
  let t := HandshakeHash.add_message (HandshakeHash.start_hash (transcript_buffer x) (suite_hash suite)) m in
  let rnd := {| random_client := random (input x); random_server := ServerHelloPayload.random sh |} in
  let c := config (input x) in
  match suite with
  | Suites.Tls13 suite =>
      let session := r ← resuming (input x); session_tls13 (value r) in
      match offered_key_share x with
      | None => res Panic
      | Some kx =>
          st ← ClientTls13.handle_server_hello c sh session (server_name (input x)) rnd suite t (early_key_schedule x) (hello (input x)) kx (sent_tls13_fake_ccs (input x));
          mret (InTls13 st)
      end
  | Suites.Tls12 suite =>
      let session := r ← resuming (input x); match value r with SessionTls12 inner => Some inner | SessionTls13 _ => None end in
      st ← ClientTls12.handle_server_hello c session (server_name (input x)) rnd t suite sh (supports_version c (Known TLSv1_3));
      mret (InTls12 st)
  end.

(** ** HelloRetryRequest *)

(** The checks of a retry request, up to the version it selects. *)
Definition check_retry (x : ExpectServerHello) (hrr : HelloRetryRequest.t) (offered : ActiveKeyExchange) : CCx unit :=
  let cookie := HelloRetryRequest.get_cookie hrr in
  let req_group := HelloRetryRequest.get_requested_key_share_group hrr in
  let illegal why := alert (T:=unit) AlertDescription.IllegalParameter (pm why) in
  if bool_decide (cookie = None) && bool_decide (req_group = Some (group offered)) then illegal PeerMisbehaved.IllegalHelloRetryRequestWithOfferedGroup
  else if bool_decide (cookie = Some []) then illegal PeerMisbehaved.IllegalHelloRetryRequestWithEmptyCookie
  else if HelloRetryRequest.has_unknown_extension hrr
  then alert AlertDescription.UnsupportedExtension (pi PeerIncompatible.ServerSentHelloRetryRequestWithUnknownExtension)
  else if HelloRetryRequest.has_duplicate_extension hrr then illegal PeerMisbehaved.DuplicateHelloRetryRequestExtensions
  else if bool_decide (cookie = None) && bool_decide (req_group = None) then illegal PeerMisbehaved.IllegalHelloRetryRequestWithNoChanges
  else if negb (SessionId.eqb (HelloRetryRequest.session_id hrr) (session_id (input x))) then illegal PeerMisbehaved.IllegalHelloRetryRequestWithWrongSessionId
  else if bool_decide (HelloRetryRequest.get_supported_versions hrr = Some (Known TLSv1_3)) then set (set_negotiated_version (Some (Known TLSv1_3)))
  else illegal PeerMisbehaved.IllegalHelloRetryRequestWithUnsupportedVersion.
Definition handle_hello_retry_request (x : ExpectServerHello) (extra_exts : list ClientExtension.t) (m : Message.t) : CCx ClientState :=
  hrr ← require HandshakeType.HelloRetryRequest (fun p => match p with HandshakePayload.HelloRetryRequest r => Some r | _ => None end) m;
  _ ← common check_aligned_handshake;
  match offered_key_share x with
  | None => res Panic
  | Some offered =>
      _ ← check_retry x hrr offered;
      let c := config (input x) in
      match find_cipher_suite c (HelloRetryRequest.cipher_suite hrr) with
      | None => alert AlertDescription.IllegalParameter (pm PeerMisbehaved.IllegalHelloRetryRequestWithUnofferedCipherSuite)
      | Some cs =>
          _ ← set (set_suite (Some cs));
          tb ← res (HandshakeHash.into_hrr_buffer (HandshakeHash.start_hash (transcript_buffer x) (suite_hash cs)));
          let tb := HandshakeHashBuffer.add_message tb m in
          enabled ← early_enabled;
          _ ← (if (enabled : bool) then reject_early else mret tt);
          key_share ← match HelloRetryRequest.get_requested_key_share_group hrr with
                      | Some g =>
                          if bool_decide (g = group offered) then mret offered
                          else match find_kx_group c g with
                               | Some skxg => start_kx skxg
                               | None => alert AlertDescription.IllegalParameter (pm PeerMisbehaved.IllegalHelloRetryRequestWithUnofferedNamedGroup)
                               end
                      | None => mret offered
                      end;
          emit_client_hello_for_retry tb (Some hrr) (Some key_share) extra_exts (Some cs) (input x)
      end
  end.
Definition handle_server_hello_or_retry (x : ExpectServerHello) (extra_exts : list ClientExtension.t) (m : Message.t) : CCx ClientState :=
  match Message.payload m with
  | MessagePayload.Handshake {| HandshakeMessagePayload.payload := HandshakePayload.ServerHello _ |} _ => handle_server_hello x m
  | MessagePayload.Handshake {| HandshakeMessagePayload.payload := HandshakePayload.HelloRetryRequest _ |} _ => handle_hello_retry_request x extra_exts m
  | p => raise (inappropriate_handshake_message p [Known TlsLayer.Handshake] [Known HandshakeType.ServerHello; Known HandshakeType.HelloRetryRequest])
  end.

(** ** The client *)

Definition handle_client (st : ClientState) (m : Message.t) : CCx ClientState :=
  match st with
  | WaitServerHello x => handle_server_hello x m
  | WaitServerHelloOrHelloRetryRequest x extra_exts => handle_server_hello_or_retry x extra_exts m
  | InTls13 st => st ← handle_tls13 st m; mret (InTls13 st)
  | InTls12 st => st ← handle_tls12 st m; mret (InTls12 st)
  end.
(** [ConnectionCore::for_client]. *)
Definition for_client (c : ClientConfig) (name : ServerName) (extra_exts : list ClientExtension.t) (proto : Protocol) (store : Store) (w : world) :
    result Error.t (ConnectionCore (K:=cipher) (St:=ClientState) (D:=ClientConnectionData Store * world)) :=
  match max_fragment_size (max_fragment c) (CommonState.new Client) with
  | (Ok _, cs) =>
      let cs := set_extraction (enable_extraction c) (set_protocol proto cs) in
      match start_handshake name extra_exts c {| cx_common := cs; cx_data := new_data store; cx_world := w |} with
      | (Ok st, cx) => Ok (core_new st (cx_data cx, cx_world cx) (cx_common cx))
      | (Err e, _) => Err e
      | (Panic, _) => Panic
      end
  | (Err e, _) => Err e
  | (Panic, _) => Panic
  end.
(** [ClientConnection::early_data]: whether early data may be written;
    [is_early_data_accepted]. *)
Definition may_write_early_data : CCx bool := get_data (fun d => EarlyData.is_enabled (early_data d)).
Definition is_early_data_accepted : CCx bool := get_data (fun d => EarlyData.is_accepted (early_data d)).
(** [ClientConnection::write_early_data]; [None] is an I/O error. *)
Definition write_early_data (data : bytes) : CCx (option nat) := fun cx =>
  match EarlyData.check_write (zlen data) (early_data (cx_data cx)) with
  | (Ok (Some sz), e) =>
      (n ← common (send_early_plaintext (take (Z.to_nat sz) data)); mret (Some n))
        {| cx_common := cx_common cx; cx_data := set_early e (cx_data cx); cx_world := cx_world cx |}
  | (Ok None, _) => (Ok None, cx)
  | _ => (Panic, cx)
  end.
End client.
