(* ===== verification/ServerBase.v ===== *)
(** * What a server's handshake starts from
    (orcax/rustls-fork/rustls/src/server/server_conn.rs, server/handy.rs, verify.rs)

    The configuration of a server, its session store, early data and the data of a
    connection.  The store, the ticketer, the certificate resolver and the
    verifier of client certificates are interfaces of the library; the ones it
    brings are instances. *)
From S2P Require Import Prelude Codec RustStd Reality SessionCache TlsLayer VecBuf Enums Wire Messages Payloads Ciphers Suites Errors Common Hkdf KeySchedule Transcript Persist Ticketer Conn Context.
Import CommonState.

(** ** Interfaces *)

Class StoresServerSessions (Store : Type) : Type := {
  put : bytes -> bytes -> Store -> bool * Store;
  get_session : bytes -> Store -> option bytes;
  take_session : bytes -> Store -> option bytes * Store;
  can_cache : Store -> bool
}.
(** [NoServerSessionStorage] and [ServerSessionMemoryCache]. *)
Definition no_server_session_storage : StoresServerSessions unit := {|
  put _ _ s := (false, s); get_session _ _ := None; take_session _ s := (None, s); can_cache _ := false |}.
#[export] Existing Instance no_server_session_storage.
Definition server_session_memory_cache : StoresServerSessions (Limited.LimitedCache bytes bytes) := {|
  put k v s := (true, Limited.insert k v s); get_session k s := Limited.get k s; take_session k s := Limited.remove k s; can_cache _ := true |}.
#[export] Existing Instance server_session_memory_cache.

(** A ticketer as it is during a handshake; [encrypt] gets what the random source
    gives. *)
Record ServerTicketer : Type := {
  tk_enabled : bool; tk_lifetime : Z; tk_encrypt : option bytes -> bytes -> option bytes; tk_decrypt : bytes -> option bytes
}.
Definition ticketer_of {T} {P : ProducesTickets T} (x : T) : ServerTicketer :=
  {| tk_enabled := Ticketer.enabled x; tk_lifetime := Ticketer.lifetime x; tk_encrypt := Ticketer.encrypt x; tk_decrypt := Ticketer.decrypt x |}.
Definition NeverProducesTickets : ServerTicketer := {| tk_enabled := false; tk_lifetime := 0; tk_encrypt _ _ := None; tk_decrypt _ := None |}.

Record ClientHello : Type := { ch_server_name : option bytes; ch_signature_schemes : list SignatureScheme.t; ch_alpn : option (list bytes); ch_cipher_suites : list CipherSuite.t }.
Record ResolvesServerCert : Type := { resolve_server : ClientHello -> option CertifiedKey }.
(** [AlwaysResolvesChain]. *)
Definition always_resolves_chain (private_key : SigningKey) (chain : list bytes) (ocsp_der : bytes) : ResolvesServerCert := {|
  resolve_server _ := Some {| cert := chain; key := private_key; ocsp := if bool_decide (ocsp_der = []) then None else Some ocsp_der |} |}.
(** [ResolvesServerCertUsingSni]: [add] of a name, with the check of the certificate
    against it, and [resolve]. *)
Module BySni.
Section sni.
Context `{DnsNames} (verify_server_name : bytes -> bytes -> result Error.t unit).
Definition t : Type := gmap bytes CertifiedKey.
Definition new : t := ∅.
Definition add (name : bytes) (ck : CertifiedKey) (x : t) : result Error.t t :=
  if negb (dns_try_from name) then Err Error.General
  else
    let name := to_ascii_lowercase name in
    match cert ck with
    | [] => Err Error.NoCertificatesPresented
    | end_entity :: _ => _ ← verify_server_name end_entity name; Ok (<[name := ck]> x)
    end.
Definition resolver (x : t) : ResolvesServerCert := {| resolve_server h := name ← ch_server_name h; x !! name |}.
End sni.
End BySni.

Record ClientCertVerifier : Type := {
  offer_client_auth : bool;
  client_auth_mandatory : bool;
  root_hint_subjects : list bytes;
  verify_client_cert : bytes -> list bytes -> Z -> result Error.t unit;
  sv_verify_tls12_signature : bytes -> bytes -> DigitallySignedStruct.t -> result Error.t unit;
  sv_verify_tls13_signature : bytes -> bytes -> DigitallySignedStruct.t -> result Error.t unit;
  sv_supported_verify_schemes : list SignatureScheme.t
}.

(** ** The configuration *)

Record ServerConfig : Type := {
  reality_config : option Reality.Fork.RealityConfig;
  provider : CryptoProvider;
  ignore_client_order : bool;
  max_fragment : option nat;
  ticketer : ServerTicketer;
  cert_resolver : ResolvesServerCert;
  alpn_protocols : list bytes;
  versions : EnabledVersions;
  verifier : ClientCertVerifier;
  key_log : KeyLog;
  enable_extraction : bool;
  max_early_data_size : Z;
  send_half_rtt_data : bool;
  send_tls13_tickets : nat
}.
Definition supports_version (c : ServerConfig) (v : ProtocolVersion) : bool :=
  contains (versions c) v && existsb (fun cs => bool_decide (suite_version cs = v)) (cipher_suites (provider c)).
Definition supports_protocol (c : ServerConfig) (proto : Protocol) : bool := existsb (fun cs => usable_for_protocol cs proto) (cipher_suites (provider c)).

(** ** Early data *)

Module EarlyDataState.
Inductive t : Type := New | Accepted (received : ChunkVecBuffer) | Rejected.
Definition reject (x : t) : t := Rejected.
Definition accept (max_size : nat) (x : t) : t := Accepted (new_buffer (Some max_size)).
Definition was_accepted (x : t) : bool := match x with Accepted _ => true | _ => false end.
Definition was_rejected (x : t) : bool := match x with Rejected => true | _ => false end.
(** [None] outside is a broken pipe. *)
Definition read (cap : nat) (x : t) : option (bytes * t) :=
  match x with Accepted b => '(bs, b) ← read_into cap b; Some (bs, Accepted b) | _ => None end.
Definition take_received_plaintext (bs : bytes) (x : t) : bool * t :=
  match x with
  | Accepted b => if (apply_limit b (length bs) =? length bs)%nat then (true, Accepted (append bs b).2) else (false, x)
  | _ => (false, x)
  end.
End EarlyDataState.

(** ** The data of a connection *)

Record ServerConnectionData {Store : Type} : Type := {
  sni : option bytes; received_resumption_data : option bytes; resumption_data : bytes; early_data : EarlyDataState.t; session_storage : Store
}.
Arguments ServerConnectionData : clear implicits.
Section data.
Context {Store : Type}.
Definition new_server_data (s : Store) : ServerConnectionData Store :=
  {| sni := None; received_resumption_data := None; resumption_data := []; early_data := EarlyDataState.New; session_storage := s |}.
Definition set_sni (x : option bytes) (d : ServerConnectionData Store) : ServerConnectionData Store :=
  {| sni := x; received_resumption_data := received_resumption_data d; resumption_data := resumption_data d; early_data := early_data d; session_storage := session_storage d |}.
Definition set_received (x : option bytes) (d : ServerConnectionData Store) : ServerConnectionData Store :=
  {| sni := sni d; received_resumption_data := x; resumption_data := resumption_data d; early_data := early_data d; session_storage := session_storage d |}.
(** [ServerConnection::set_resumption_data]; [None] is the assertion. *)
Definition set_resumption_data (x : bytes) (d : ServerConnectionData Store) : option (ServerConnectionData Store) :=
  if zlen x <? 2 ^ 15
  then Some {| sni := sni d; received_resumption_data := received_resumption_data d; resumption_data := x; early_data := early_data d; session_storage := session_storage d |}
  else None.
Definition set_early_data (x : EarlyDataState.t) (d : ServerConnectionData Store) : ServerConnectionData Store :=
  {| sni := sni d; received_resumption_data := received_resumption_data d; resumption_data := resumption_data d; early_data := x; session_storage := session_storage d |}.
Definition set_storage (x : Store) (d : ServerConnectionData Store) : ServerConnectionData Store :=
  {| sni := sni d; received_resumption_data := received_resumption_data d; resumption_data := resumption_data d; early_data := early_data d; session_storage := x |}.
Definition early_op {T} (f : EarlyDataState.t -> T * EarlyDataState.t) : Cx (ServerConnectionData Store) T := fun cx =>
  let '(r, e) := f (early_data (cx_data cx)) in (Ok r, {| cx_common := cx_common cx; cx_data := set_early_data e (cx_data cx); cx_world := cx_world cx |}).
Definition store_op {T} (f : Store -> T * Store) : Cx (ServerConnectionData Store) T := fun cx =>
  let '(r, s) := f (session_storage (cx_data cx)) in (Ok r, {| cx_common := cx_common cx; cx_data := set_storage s (cx_data cx); cx_world := cx_world cx |}).
End data.

(** ** Facts *)

(** Early data is taken only while it fits into what was allowed. *)
Lemma early_data_bounded bs x x' : EarlyDataState.take_received_plaintext bs x = (true, x') ->
  exists b b', x = EarlyDataState.Accepted b /\ x' = EarlyDataState.Accepted b' /\ limit b' = limit b /\
    (forall l, limit b = Some l -> (len b <= l -> len b' <= l)%nat).
Proof.
  unfold EarlyDataState.take_received_plaintext. destruct x as [|b|]; try done. destruct (Nat.eqb_spec (apply_limit b (length bs)) (length bs)) as [Hl|]; [|done].
  intros [= <-]. exists b. eexists. split; [done|]. split; [done|]. unfold append. cbn [snd]. case_bool_decide; cbn [negb]; [done|]. split; [done|].
  intros l Hlim Hb. unfold apply_limit in Hl. rewrite Hlim in Hl. rewrite !len_concat in *. cbn [chunks]. rewrite concat_app, length_app. cbn [concat]. rewrite app_nil_r. lia.
Qed.
(** A session that was stored is taken once. *)
Lemma session_taken_once (k v : bytes) (s s' : Limited.LimitedCache bytes bytes) : take_session k s = (Some v, s') -> get_session k s = Some v /\ get_session k s' = None.
Proof.
  cbn. unfold Limited.remove, Limited.get. destruct (Limited.map s !! k) eqn:Hk; [|done]. intros [= -> <-]. split; [done|]. cbn. apply lookup_delete_eq.
Qed.
