(* ===== verification/ServerExt.v ===== *)
(** * The ClientHello at the server, for every version
    (orcax/rustls-fork/rustls/src/server/hs.rs, server/common.rs)

    The checks of a ClientHello that depend on no configuration, the extensions of
    the answer, and whether a session may be resumed. *)
From S2P Require Import Prelude Codec RustStd TlsLayer VecBuf Enums Wire Messages Payloads Ciphers Suites Errors Common Hkdf KeySchedule Transcript Persist Conn Context ServerBase.
Import CommonState.

Inductive HandshakeHashOrBuffer {H : Hashing} : Type := Buffer (x : HandshakeHashBuffer.t) | Hash (x : HandshakeHash.t).

Section server.
Context {H : Hashing} {A : RingAead} `{DnsNames} {Store : Type} {S : StoresServerSessions Store}.
Abbreviation SCx := (Cx (ServerConnectionData Store)).

Definition can_resume (suite : SupportedCipherSuite) (name : option bytes) (using_ems : bool) (resumedata : ServerSessionValue.t) : bool :=
  bool_decide (ServerSessionValue.cipher_suite resumedata = Suites.suite suite) &&
  (Bool.eqb (ServerSessionValue.extended_ms resumedata) using_ems || (ServerSessionValue.extended_ms resumedata && negb using_ems)) &&
  bool_decide (ServerSessionValue.sni resumedata = name).

(** ** [ExtensionProcessing] *)

(** The ALPN extension of the answer. *)
Definition process_alpn (c : ServerConfig) (hello : ClientHelloPayload.t) : SCx (list ServerExtension.t) :=
  match ClientHelloPayload.get_alpn_extension hello with
  | None => mret []
  | Some their_protocols =>
      if existsb (fun p => bool_decide (p = [])) their_protocols then raise (pm PeerMisbehaved.OfferedEmptyApplicationProtocol)
      else
        let chosen := find (fun p => bool_decide (p ∈ their_protocols)) (alpn_protocols c) in
        _ ← set (set_alpn_protocol chosen);
        match chosen with
        | Some selected => mret [ServerExtension.make_alpn [selected]]
        | None => if bool_decide (alpn_protocols c = []) then mret [] else alert AlertDescription.NoApplicationProtocol Error.NoApplicationProtocol
        end
  end.
Definition process_quic (c : ServerConfig) (hello : ClientHelloPayload.t) : SCx unit :=
  q ← get is_quic;
  if (q : bool) then
    alpn ← get alpn_protocol;
    if bool_decide (alpn = None) && (negb (bool_decide (alpn_protocols c = [])) || bool_decide (is_Some (ClientHelloPayload.get_alpn_extension hello)))
    then alert AlertDescription.NoApplicationProtocol Error.NoApplicationProtocol
    else take_quic_params (ClientHelloPayload.get_quic_params_extension hello)
  else mret tt.
(** [process_common]: the extensions, and the OCSP response that is left. *)
Definition process_common (c : ServerConfig) (ocsp_response : option bytes) (hello : ClientHelloPayload.t) (resumedata : option ServerSessionValue.t)
    (extra_exts : list ServerExtension.t) : SCx (list ServerExtension.t * option bytes) :=
  exts ← process_alpn c hello;
  _ ← process_quic c hello;
  let for_resume := bool_decide (is_Some resumedata) in
  let exts := if negb for_resume && bool_decide (is_Some (ClientHelloPayload.get_sni_extension hello)) then exts ++ [ServerExtension.ServerNameAck] else exts in
  is13 ← get is_tls13;
  let '(exts, ocsp_response) :=
    if negb for_resume && bool_decide (is_Some (ClientHelloPayload.find_extension hello ExtensionType.StatusRequest))
    then (if bool_decide (is_Some ocsp_response) && negb is13 then exts ++ [ServerExtension.CertificateStatusAck] else exts, ocsp_response)
    else (exts, None) in
  mret (exts ++ extra_exts, ocsp_response).
(** [process_tls12]: what it pushes, and [send_ticket]. *)
Definition process_tls12 (c : ServerConfig) (hello : ClientHelloPayload.t) (using_ems : bool) : list ServerExtension.t * bool :=
  let secure_reneg_offered := bool_decide (is_Some (ClientHelloPayload.find_extension hello ExtensionType.RenegotiationInfo)) ||
                              bool_decide (Known CipherSuite.TLS_EMPTY_RENEGOTIATION_INFO_SCSV ∈ ClientHelloPayload.cipher_suites hello) in
  let send_ticket := bool_decide (is_Some (ClientHelloPayload.find_extension hello ExtensionType.SessionTicket)) && tk_enabled (ticketer c) in
  ((if secure_reneg_offered then [ServerExtension.make_empty_renegotiation_info] else []) ++
   (if send_ticket then [ServerExtension.SessionTicketAck] else []) ++
   (if using_ems then [ServerExtension.ExtendedMasterSecretAck] else []), send_ticket).

(** ** [ExpectClientHello] *)

Record ExpectClientHello : Type := {
  config : ServerConfig; extra_exts : list ServerExtension.t; transcript : HandshakeHashOrBuffer; session_id : SessionId.t; using_ems : bool; done_retry : bool;
  send_tickets : nat
}.
Definition expect_client_hello (c : ServerConfig) (exts : list ServerExtension.t) : ExpectClientHello := {|
  config := c; extra_exts := exts;
  transcript := Buffer (if offer_client_auth (verifier c) then HandshakeHashBuffer.set_client_auth_enabled HandshakeHashBuffer.new else HandshakeHashBuffer.new);
  session_id := SessionId.empty; using_ems := false; done_retry := false; send_tickets := 0 |}.

(** The name a hello asks for; DNS names compare in lower case. *)
Definition hello_sni (hello : ClientHelloPayload.t) : SCx (option bytes) :=
  match ClientHelloPayload.get_sni_extension hello with
  | None => mret None
  | Some names =>
      if ServerName.has_duplicate_names_for_type names then alert AlertDescription.DecodeError (pm PeerMisbehaved.DuplicateServerNameTypes)
      else match ServerName.get_single_hostname names with
           | Some hostname => mret (Some (to_ascii_lowercase hostname))
           | None => alert AlertDescription.IllegalParameter (pm PeerMisbehaved.ServerNameMustContainOneHostName)
           end
  end.
Definition process_client_hello (m : Message.t) (done_retry : bool) : SCx (ClientHelloPayload.t * list SignatureScheme.t) :=
  hello ← require HandshakeType.ClientHello (fun p => match p with HandshakePayload.ClientHello h => Some h | _ => None end) m;
  if negb (bool_decide (Known Compression.Null ∈ ClientHelloPayload.compression_methods hello))
  then alert AlertDescription.IllegalParameter (pi PeerIncompatible.NullCompressionRequired)
  else if ClientHelloPayload.has_duplicate_extension hello then alert AlertDescription.DecodeError (pm PeerMisbehaved.DuplicateClientHelloExtensions)
  else
    _ ← common check_aligned_handshake;
    name ← hello_sni hello;
    old ← get_data sni;
    _ ← (if bool_decide (is_Some name) && negb done_retry then
           if bool_decide (is_Some old) then res Panic else set_data (set_sni name)
         else if negb (bool_decide (old = name)) then raise (pm PeerMisbehaved.ServerNameDifferedOnRetry) else mret tt);
    match ClientHelloPayload.get_sigalgs_extension hello with
    | Some sig_schemes => mret (hello, sig_schemes)
    | None => alert AlertDescription.HandshakeFailure (pi PeerIncompatible.SignatureAlgorithmsExtensionRequired)
    end.
End server.
