(* ===== verification/ServerTls13.v ===== *)
(** * The TLS 1.3 server (orcax/rustls-fork/rustls/src/server/tls13.rs)

    What a server does with a ClientHello once it has chosen TLS 1.3, with the
    check of a Reality client and the authentication in the server's random, and
    every state up to traffic.  [Tls13State] joins the states after the hello and
    [handle_tls13] their handlers; a retry leads back to [ExpectClientHello]. *)
From S2P Require Import Prelude Codec RustStd Crates Reality TlsLayer VecBuf Enums Wire Messages Payloads Ciphers Suites Errors Common Hkdf KeySchedule Transcript Tls12 Persist Conn Context ServerBase ServerExt.
Import CommonState.

Inductive EarlyDataDecision : Type := Disabled | RequestedButRejected | Accepted.
#[export] Instance early_data_decision_dec : EqDecision EarlyDataDecision.
Proof. solve_decision. Defined.

Section server.
Context {H : Hashing} {P : Hkdf} {A : RingAead} `{DnsNames} {RH : Hmac} {Store : Type} {S : StoresServerSessions Store}.
Abbreviation SCx := (Cx (ServerConnectionData Store)).

(** ** States *)

(** The fields that every state after the hello has. *)
Record Base : Type := {
  b_config : ServerConfig; b_transcript : HandshakeHash.t; b_suite : Tls13CipherSuite; b_key_schedule : ClientFinishedPending.t; b_send_tickets : nat
}.
Definition with_transcript (x : Base) (t : HandshakeHash.t) : Base :=
  {| b_config := b_config x; b_transcript := t; b_suite := b_suite x; b_key_schedule := b_key_schedule x; b_send_tickets := b_send_tickets x |}.
Definition add (x : Base) (m : Message.t) : Base := with_transcript x (HandshakeHash.add_message (b_transcript x) m).
Inductive Tls13State : Type :=
| ExpectCertificate (x : Base)
| ExpectCertificateVerify (x : Base) (client_cert : list bytes)
| ExpectEarlyData (x : Base)
| ExpectFinished (x : Base)
| ExpectTraffic (ks : KeyScheduleTraffic.t)
| ExpectQuicTraffic (ks : KeyScheduleTraffic.t).
(** After a hello: another one, with what early data to skip before it, or a state. *)
Inductive Next : Type := Retry (skip_early_data : option nat) (next : ExpectClientHello) | Go (st : Tls13State).

Record CompleteClientHelloHandling : Type := {
  ch_config : ServerConfig; ch_transcript : HandshakeHash.t; ch_suite : Tls13CipherSuite; ch_randoms : ConnectionRandoms; ch_done_retry : bool;
  ch_send_tickets : nat; ch_extra_exts : list ServerExtension.t
}.

(** ** The ClientHello *)

Definition max_early_data (configured : Z) : nat := if negb (configured =? 0) then Z.to_nat configured else Z.to_nat 16384.
Definition check_binder (t : HandshakeHash.t) (suite : Tls13CipherSuite) (client_hello : Message.t) (psk binder : bytes) : SCx bool :=
  match Message.payload client_hello with
  | MessagePayload.Handshake parsed _ =>
      handshake_hash ← res (HandshakeHash.get_hash_given t (HandshakeMessagePayload.get_encoding_for_binder_signing parsed));
      real_binder ← res (KeyScheduleEarly.resumption_psk_binder_key_and_sign_verify_data (KeyScheduleEarly.new suite psk) handshake_hash);
      mret (bool_decide (real_binder = binder))
  | _ => res Panic
  end.
Definition read_session (plain : bytes) : option ServerSessionValue.t :=
  match read_bytes (H:=ServerSessionValue.codec) plain with Ok v => Some v | _ => None end.
Definition attempt_tls13_ticket_decryption (c : ServerConfig) (ticket : bytes) : SCx (option ServerSessionValue.t) :=
  if tk_enabled (ticketer c) then mret (plain ← tk_decrypt (ticketer c) ticket; read_session plain)
  else plain ← store_op (take_session ticket); mret (plain ← plain; read_session plain).

(** The offered identities in order; the first that can be resumed is chosen, and
    its binder must be right. *)
Fixpoint choose_psk (x : CompleteClientHelloHandling) (chm : Message.t) (i : nat) (offered : list (PresharedKeyIdentity.t * bytes)) : SCx (option (nat * ServerSessionValue.t)) :=
  match offered with
  | [] => mret None
  | (psk_id, binder) :: rest =>
      plain ← attempt_tls13_ticket_decryption (ch_config x) (PresharedKeyIdentity.identity psk_id);
      t ← time_now;
      name ← get_data sni;
      match plain with
      | None => choose_psk x chm (i + 1) rest
      | Some resumedata =>
          let resume := ServerSessionValue.set_freshness resumedata (PresharedKeyIdentity.obfuscated_ticket_age psk_id) t in
          if can_resume (Tls13 (ch_suite x)) name false resume then
            ok ← check_binder (ch_transcript x) (ch_suite x) chm (ServerSessionValue.master_secret resume) binder;
            if (ok : bool) then mret (Some (i, resume)) else alert AlertDescription.DecryptError (pm PeerMisbehaved.IncorrectBinder)
          else choose_psk x chm (i + 1) rest
      end
  end.
Definition resumption (x : CompleteClientHelloHandling) (chm : Message.t) (hello : ClientHelloPayload.t) : SCx (option (nat * ServerSessionValue.t)) :=
  match ClientHelloPayload.get_psk hello with
  | None => mret None
  | Some psk_offer =>
      if negb (ClientHelloPayload.check_psk_ext_is_last hello) then alert AlertDescription.IllegalParameter (pm PeerMisbehaved.PskExtensionMustBeLast)
      else if bool_decide (ClientHelloPayload.get_psk_modes hello = None) then alert AlertDescription.MissingExtension (pm PeerMisbehaved.MissingPskModesExtension)
      else if bool_decide (PresharedKeyOffer.binders psk_offer = []) then alert AlertDescription.DecodeError (pm PeerMisbehaved.MissingBinderInPskExtension)
      else if negb (length (PresharedKeyOffer.binders psk_offer) =? length (PresharedKeyOffer.identities psk_offer))%nat
      then alert AlertDescription.IllegalParameter (pm PeerMisbehaved.PskExtensionWithMismatchedIdsAndBinders)
      else choose_psk x chm 0 (zip (PresharedKeyOffer.identities psk_offer) (PresharedKeyOffer.binders psk_offer))
  end.

(** *** Reality *)

(** The signature schemes, to which Reality adds Ed25519, after the check of the
    client. *)
Definition check_reality (x : CompleteClientHelloHandling) (hello : ClientHelloPayload.t) (sigschemes : list SignatureScheme.t) : SCx (list SignatureScheme.t) :=
  match reality_config (ch_config x) with
  | None => mret sigschemes
  | Some rc =>
      let sigschemes := if bool_decide (Known SignatureScheme.ED25519 ∈ sigschemes) then sigschemes else sigschemes ++ [Known SignatureScheme.ED25519] in
      if Reality.Fork.verify_client_flag rc then
        match Reality.Fork.verify_client (SessionId.get_data (ClientHelloPayload.session_id hello)) (random_client (ch_randoms x)) rc with
        | Ok true => mret sigschemes
        | Panic => res Panic
        | _ => alert AlertDescription.HandshakeFailure (pi PeerIncompatible.NoKxGroupsInCommon)
        end
      else mret sigschemes
  end.
Definition inject_reality (c : ServerConfig) (rnd : ConnectionRandoms) : result Error.t bytes :=
  match reality_config c with
  | None => Ok (random_server rnd)
  | Some rc => match Reality.Fork.inject_auth (random_server rnd) rc (random_client rnd) with Ok r => Ok r | Err _ => Err Error.General | Panic => Panic end
  end.

(** ** Sending *)

Definition emit_fake_ccs : SCx unit := q ← get is_quic; if (q : bool) then mret tt else common (send_msg ccs_message false).
Definition emit_server_hello (t : HandshakeHash.t) (rnd : ConnectionRandoms) (suite : Tls13CipherSuite) (session_id : SessionId.t)
    (share : KeyShareEntry.t) (kxgroup : SupportedKxGroup) (chosen_psk_idx : option nat) (resuming_psk : option bytes) (c : ServerConfig) :
    SCx (KeyScheduleHandshake.t * HandshakeHash.t) :=
  kx ← start_kx kxgroup;
  let extensions := [ServerExtension.KeyShare {| KeyShareEntry.group := KeyShareEntry.group share; KeyShareEntry.payload := pub_key kx |};
                     ServerExtension.SupportedVersions (Known TLSv1_3)] ++
                    match chosen_psk_idx with Some i => [ServerExtension.PresharedKey (u16 (Z.of_nat i))] | None => [] end in
  server_random ← res (inject_reality c rnd);
  let sh := hs_message (Known TLSv1_2) HandshakeType.ServerHello (HandshakePayload.ServerHello {|
    ServerHelloPayload.legacy_version := Known TLSv1_2; ServerHelloPayload.random := server_random; ServerHelloPayload.session_id := session_id;
    ServerHelloPayload.cipher_suite := suite_id (common13 suite); ServerHelloPayload.compression_method := Known Compression.Null;
    ServerHelloPayload.extensions := extensions |}) in
  _ ← common check_aligned_handshake;
  client_hello_hash ← res (HandshakeHash.get_hash_given t []);
  t ← emit false t sh;
  pre ← match resuming_psk with
        | Some psk =>
            let early := KeyScheduleEarly.new suite psk in
            log ← common (KeyScheduleEarly.client_early_traffic_secret early client_hello_hash (key_log c) (random_client rnd));
            _ ← log_keys log;
            mret (KeySchedulePreHandshake.from_early early)
        | None => mret (KeySchedulePreHandshake.new suite)
        end;
  ks ← res (KeySchedulePreHandshake.into_handshake pre (complete kx) (KeyShareEntry.payload share));
  handshake_hash ← res (HandshakeHash.get_current_hash t);
  '(ks, log) ← common (derive_server_handshake_secrets ks handshake_hash (key_log c) (random_client rnd));
  _ ← log_keys log;
  mret (ks, t).
Definition emit_hello_retry_request (t : HandshakeHash.t) (suite : Tls13CipherSuite) (session_id : SessionId.t) (group : NamedGroup.t) : SCx HandshakeHash.t :=
  let m := hs_message (Known TLSv1_2) HandshakeType.HelloRetryRequest (HandshakePayload.HelloRetryRequest {|
    HelloRetryRequest.legacy_version := Known TLSv1_2; HelloRetryRequest.session_id := session_id; HelloRetryRequest.cipher_suite := suite_id (common13 suite);
    HelloRetryRequest.extensions := [HelloRetryExtension.KeyShare group; HelloRetryExtension.SupportedVersions (Known TLSv1_3)] |}) in
  t ← res (HandshakeHash.rollup_for_hrr t);
  emit false t m.
Definition decide_if_early_data_allowed (hello : ClientHelloPayload.t) (resumedata : option ServerSessionValue.t) (suite : Tls13CipherSuite) (c : ServerConfig) :
    SCx EarlyDataDecision :=
  let early_data_requested := ClientHelloPayload.early_data_extension_offered hello in
  let rejected_or_disabled := if early_data_requested then RequestedButRejected else Disabled in
  match resumedata with
  | None => mret rejected_or_disabled
  | Some resume =>
      let early_data_configured := (0 <? max_early_data_size c) && negb (tk_enabled (ticketer c)) in
      v ← get negotiated_version;
      alpn ← get alpn_protocol;
      let early_data_possible := early_data_requested && ServerSessionValue.is_fresh resume && bool_decide (Some (ServerSessionValue.version resume) = v) &&
        bool_decide (ServerSessionValue.cipher_suite resume = suite_id (common13 suite)) && bool_decide (ServerSessionValue.alpn resume = alpn) in
      ed ← get_data early_data;
      if early_data_configured && early_data_possible && negb (EarlyDataState.was_rejected ed) then mret Accepted
      else
        q ← get is_quic;
        _ ← (if (q : bool) then set (fun s => set_quic (set_q_early_secret None (quic s)) s) else mret tt);
        mret rejected_or_disabled
  end.
(** The decision, the OCSP response that is left, and the transcript. *)
Definition emit_encrypted_extensions (t : HandshakeHash.t) (suite : Tls13CipherSuite) (ocsp_response : option bytes) (hello : ClientHelloPayload.t)
    (resumedata : option ServerSessionValue.t) (extra_exts : list ServerExtension.t) (c : ServerConfig) : SCx (EarlyDataDecision * option bytes * HandshakeHash.t) :=
  '(exts, ocsp_response) ← process_common c ocsp_response hello resumedata extra_exts;
  early_data ← decide_if_early_data_allowed hello resumedata suite c;
  let exts := if bool_decide (early_data = Accepted) then exts ++ [ServerExtension.EarlyData] else exts in
  t ← emit true t (hs_message (Known TLSv1_3) HandshakeType.EncryptedExtensions (HandshakePayload.EncryptedExtensions exts));
  mret (early_data, ocsp_response, t).
Definition emit_certificate_req_tls13 (t : HandshakeHash.t) (c : ServerConfig) : SCx (bool * HandshakeHash.t) :=
  if negb (offer_client_auth (verifier c)) then mret (false, t)
  else
    t ← emit true t (hs_message (Known TLSv1_3) HandshakeType.CertificateRequest (HandshakePayload.CertificateRequestTls13 {|
          CertificateRequestPayloadTls13.context := [];
          CertificateRequestPayloadTls13.extensions := [CertReqExtension.SignatureAlgorithms (sv_supported_verify_schemes (verifier c));
                                                        CertReqExtension.AuthorityNames (root_hint_subjects (verifier c))] |}));
    mret (true, t).
Definition emit_certificate_tls13 (t : HandshakeHash.t) (cert_chain : list bytes) (ocsp_response : option bytes) : SCx HandshakeHash.t :=
  let cert_entries := map CertificateEntry.new cert_chain in
  let cert_entries := match cert_entries, ocsp_response with
                      | e :: rest, Some ocsp => {| CertificateEntry.cert := CertificateEntry.cert e; CertificateEntry.exts := [CertificateExtension.CertificateStatus {| CertificateStatus.ocsp_response := ocsp |}] |} :: rest
                      | _, _ => cert_entries
                      end in
  emit true t (hs_message (Known TLSv1_3) HandshakeType.Certificate (HandshakePayload.CertificateTls13 (CertificatePayloadTls13.new cert_entries))).
Definition emit_certificate_verify_tls13 (t : HandshakeHash.t) (signing_key : SigningKey) (schemes : list SignatureScheme.t) : SCx HandshakeHash.t :=
  h ← res (HandshakeHash.get_current_hash t);
  match match choose_scheme signing_key schemes with Some s => Some s | None => choose_scheme signing_key [Known SignatureScheme.ED25519] end with
  | None => alert AlertDescription.HandshakeFailure (pi PeerIncompatible.NoSignatureSchemesInCommon)
  | Some signer =>
      sig ← res (sign signer (construct_server_verify_message h));
      emit true t (hs_message (Known TLSv1_3) HandshakeType.CertificateVerify
        (HandshakePayload.CertificateVerify {| DigitallySignedStruct.scheme := scheme signer; DigitallySignedStruct.sig := sig |}))
  end.
Definition emit_finished_tls13 (t : HandshakeHash.t) (rnd : ConnectionRandoms) (ks : KeyScheduleHandshake.t) (c : ServerConfig) :
    SCx (ClientFinishedPending.t * HandshakeHash.t) :=
  handshake_hash ← res (HandshakeHash.get_current_hash t);
  verify_data ← res (KeyScheduleHandshake.sign_server_finish ks handshake_hash);
  t ← emit true t (hs_message (Known TLSv1_3) HandshakeType.Finished (HandshakePayload.Finished verify_data));
  hash_at_server_fin ← res (HandshakeHash.get_current_hash t);
  '(pending, log) ← common (KeyScheduleHandshake.into_traffic_with_client_finished_pending ks hash_at_server_fin (key_log c) (random_client rnd));
  _ ← log_keys log;
  mret (pending, t).

(** ** [handle_client_hello] *)

(** Without a share for a supported group: a retry with the first group that both
    support. *)
Definition retry (x : CompleteClientHelloHandling) (chm : Message.t) (hello : ClientHelloPayload.t) (groups : list NamedGroup.t) : SCx Next :=
  let t := HandshakeHash.add_message (ch_transcript x) chm in
  match find (fun g => bool_decide (kx_name g ∈ groups)) (kx_groups (provider (ch_config x))) with
  | Some g =>
      if ch_done_retry x then alert AlertDescription.IllegalParameter (pm PeerMisbehaved.RefusedToFollowHelloRetryRequest)
      else
        t ← emit_hello_retry_request t (ch_suite x) (ClientHelloPayload.session_id hello) (kx_name g);
        _ ← emit_fake_ccs;
        mret (Retry (if ClientHelloPayload.early_data_extension_offered hello then Some (max_early_data (max_early_data_size (ch_config x))) else None)
          {| config := ch_config x; transcript := Hash t; session_id := SessionId.empty; using_ems := false; done_retry := true;
             send_tickets := ch_send_tickets x; extra_exts := ch_extra_exts x |})
  | None => alert AlertDescription.HandshakeFailure (pi PeerIncompatible.NoKxGroupsInCommon)
  end.
(** [find_map] over the groups of the provider. *)
Fixpoint choose_share (groups : list SupportedKxGroup) (shares : list KeyShareEntry.t) : option (KeyShareEntry.t * SupportedKxGroup) :=
  match groups with
  | [] => None
  | g :: rest => match find (fun s => bool_decide (KeyShareEntry.group s = kx_name g)) shares with Some s => Some (s, g) | None => choose_share rest shares end
  end.
(** From the early data decision to the keys for what the client sends next. *)
Definition set_early_decision (c : ServerConfig) (ks : KeyScheduleHandshake.t) (d : EarlyDataDecision) : SCx unit :=
  match d with
  | Disabled => _ ← common (KeyScheduleHandshake.set_handshake_decrypter ks None); set_data (fun x => set_early_data (EarlyDataState.reject (early_data x)) x)
  | RequestedButRejected =>
      _ ← common (KeyScheduleHandshake.set_handshake_decrypter ks (Some (max_early_data (max_early_data_size c))));
      set_data (fun x => set_early_data (EarlyDataState.reject (early_data x)) x)
  | Accepted => set_data (fun x => set_early_data (EarlyDataState.accept (Z.to_nat (max_early_data_size c)) (early_data x)) x)
  end.
(** With a share: the server's flight. *)
Definition complete_hello (x : CompleteClientHelloHandling) (server_key : CertifiedKey) (chm : Message.t) (hello : ClientHelloPayload.t)
    (sigschemes : list SignatureScheme.t) (share : KeyShareEntry.t) (kxg : SupportedKxGroup) : SCx Next :=
  let c := ch_config x in
  chosen ← resumption x chm hello;
  let dhe := ClientHelloPayload.psk_mode_offered hello (Known PSKKeyExchangeMode.PSK_DHE_KE) in
  let send_tickets := if dhe then send_tls13_tickets c else 0%nat in
  let chosen := if dhe then chosen else None in
  let resumedata := snd <$> chosen in
  _ ← match resumedata with
      | Some resume =>
          _ ← set_data (set_received (Some (ServerSessionValue.application_data resume)));
          set (set_peer_certificates (ServerSessionValue.client_cert_chain resume))
      | None => mret tt
      end;
  let t := HandshakeHash.add_message (ch_transcript x) chm in
  '(ks, t) ← emit_server_hello t (ch_randoms x) (ch_suite x) (ClientHelloPayload.session_id hello) share kxg (fst <$> chosen)
               (ServerSessionValue.master_secret <$> resumedata) c;
  _ ← (if ch_done_retry x then mret tt else emit_fake_ccs);
  '(doing_early_data, ocsp_response, t) ← emit_encrypted_extensions t (ch_suite x) (ocsp server_key) hello resumedata (ch_extra_exts x) c;
  '(doing_client_auth, t) ←
    match resumedata with
    | None =>
        '(client_auth, t) ← emit_certificate_req_tls13 t c;
        t ← emit_certificate_tls13 t (cert server_key) ocsp_response;
        t ← emit_certificate_verify_tls13 t (key server_key) sigschemes;
        mret (client_auth, t)
    | Some _ => mret (false, t)
    end;
  _ ← set_early_decision c ks doing_early_data;
  _ ← common check_aligned_handshake;
  '(pending, t) ← emit_finished_tls13 t (ch_randoms x) ks c;
  _ ← (if negb doing_client_auth && send_half_rtt_data c then common start_outgoing_traffic else mret tt);
  q ← get is_quic;
  let st := {| b_config := c; b_transcript := t; b_suite := ch_suite x; b_key_schedule := pending; b_send_tickets := send_tickets |} in
  mret (Go (if doing_client_auth : bool then ExpectCertificate st
            else if bool_decide (doing_early_data = Accepted) && negb q then ExpectEarlyData st else ExpectFinished st)).
Definition handle_client_hello (x : CompleteClientHelloHandling) (server_key : CertifiedKey) (chm : Message.t) (hello : ClientHelloPayload.t)
    (sigschemes_ext : list SignatureScheme.t) : SCx Next :=
  if negb (length (ClientHelloPayload.compression_methods hello) =? 1)%nat then alert AlertDescription.IllegalParameter (pm PeerMisbehaved.OfferedIncorrectCompressions)
  else
    groups_ext ← match ClientHelloPayload.get_namedgroups_extension hello with
                 | Some g => mret g
                 | None => alert AlertDescription.HandshakeFailure (pi PeerIncompatible.NamedGroupsExtensionRequired)
                 end;
    sigschemes ← check_reality x hello sigschemes_ext;
    shares_ext ← match ClientHelloPayload.get_keyshare_extension hello with
                 | Some s => mret s
                 | None => alert AlertDescription.HandshakeFailure (pi PeerIncompatible.KeyShareExtensionRequired)
                 end;
    if ClientHelloPayload.has_keyshare_extension_with_duplicates hello then alert AlertDescription.IllegalParameter (pm PeerMisbehaved.OfferedDuplicateKeyShares)
    else if ch_done_retry x && ClientHelloPayload.early_data_extension_offered hello
    then alert AlertDescription.IllegalParameter (pm PeerMisbehaved.EarlyDataAttemptedInSecondClientHello)
    else match choose_share (kx_groups (provider (ch_config x))) shares_ext with
         | Some (share, kxg) => complete_hello x server_key chm hello sigschemes share kxg
         | None => retry x chm hello groups_ext
         end.

(** ** The client's certificate *)

Definition handle_certificate (x : Base) (m : Message.t) : SCx Tls13State :=
  let x := add x m in
  certp ← require HandshakeType.Certificate (fun p => match p with HandshakePayload.CertificateTls13 c => Some c | _ => None end) m;
  if CertificatePayloadTls13.any_entry_has_extension certp then raise (pm PeerMisbehaved.UnsolicitedCertExtension)
  else
    let client_cert := CertificatePayloadTls13.convert certp in
    match client_cert with
    | [] =>
        if client_auth_mandatory (verifier (b_config x)) then alert AlertDescription.CertificateRequired Error.NoCertificatesPresented
        else mret (ExpectFinished (with_transcript x (HandshakeHash.abandon_client_auth (b_transcript x))))
    | end_entity :: intermediates =>
        t ← time_now;
        _ ← verified (verify_client_cert (verifier (b_config x)) end_entity intermediates t);
        mret (ExpectCertificateVerify x client_cert)
    end.
Definition handle_certificate_verify (x : Base) (client_cert : list bytes) (m : Message.t) : SCx Tls13State :=
  sig ← require HandshakeType.CertificateVerify (fun p => match p with HandshakePayload.CertificateVerify c => Some c | _ => None end) m;
  handshake_hash ← res (HandshakeHash.get_current_hash (b_transcript x));
  let x := with_transcript x (HandshakeHash.abandon_client_auth (b_transcript x)) in
  match client_cert with
  | [] => res Panic
  | end_entity :: _ =>
      _ ← verified (sv_verify_tls13_signature (verifier (b_config x)) (construct_client_verify_message handshake_hash) end_entity sig);
      _ ← set (set_peer_certificates (Some client_cert));
      mret (ExpectFinished (add x m))
  end.

(** ** Early data *)

Definition handle_early_data (x : Base) (m : Message.t) : SCx Tls13State :=
  match Message.payload m with
  | MessagePayload.ApplicationData p =>
      taken ← early_op (EarlyDataState.take_received_plaintext p);
      if (taken : bool) then mret (ExpectEarlyData x) else alert AlertDescription.UnexpectedMessage (pm PeerMisbehaved.TooMuchEarlyDataReceived)
  | MessagePayload.Handshake {| HandshakeMessagePayload.typ := Known HandshakeType.EndOfEarlyData; HandshakeMessagePayload.payload := HandshakePayload.EndOfEarlyData |} _ =>
      _ ← common (ClientFinishedPending.update_decrypter (b_key_schedule x));
      mret (ExpectFinished (add x m))
  | p => raise (inappropriate_handshake_message p [Known TlsLayer.ApplicationData; Known TlsLayer.Handshake] [Known HandshakeType.EndOfEarlyData])
  end.

(** ** The client's Finished, and tickets *)

Definition get_server_session_value (t : HandshakeHash.t) (suite : Tls13CipherSuite) (ks : KeyScheduleTraffic.t) (nonce : bytes) (time_now age_obfuscation_offset : Z) :
    SCx ServerSessionValue.t :=
  handshake_hash ← res (HandshakeHash.get_current_hash t);
  secret ← res (KeyScheduleTraffic.resumption_master_secret_and_derive_ticket_psk ks handshake_hash nonce);
  name ← get_data sni;
  certs ← get peer_certificates;
  alpn ← get alpn_protocol;
  app ← get_data resumption_data;
  mret (ServerSessionValue.new name (Known TLSv1_3) (suite_id (common13 suite)) secret certs alpn app time_now age_obfuscation_offset).
Definition emit_ticket (t : HandshakeHash.t) (suite : Tls13CipherSuite) (ks : KeyScheduleTraffic.t) (c : ServerConfig) : SCx unit :=
  nonce ← random_vec 32;
  age_add ← random_u32;
  now ← time_now;
  session ← get_server_session_value t suite ks nonce now age_add;
  let plain := get_encoding (H:=ServerSessionValue.codec) session in
  let stateless := tk_enabled (ticketer c) in
  issued ← (if stateless then seed ← raw_draw; mret (ticket ← tk_encrypt (ticketer c) seed plain; Some (ticket, tk_lifetime (ticketer c)))
            else id ← random_vec 32;
                 stored ← store_op (put id plain);
                 mret (if (stored : bool) then Some (id, 24 * 60 * 60) else None));
  match issued with
  | None => mret tt
  | Some (ticket, lifetime) =>
      let exts := if (0 <? max_early_data_size c) && negb stateless then [NewSessionTicketExtension.EarlyData (max_early_data_size c)] else [] in
      common (send_msg (hs_message (Known TLSv1_3) HandshakeType.NewSessionTicket (HandshakePayload.NewSessionTicketTls13 {|
        NewSessionTicketPayloadTls13.lifetime := lifetime; NewSessionTicketPayloadTls13.age_add := age_add; NewSessionTicketPayloadTls13.nonce := nonce;
        NewSessionTicketPayloadTls13.ticket := ticket; NewSessionTicketPayloadTls13.exts := exts |})) true)
  end.
Definition handle_finished (x : Base) (m : Message.t) : SCx Tls13State :=
  finished ← require HandshakeType.Finished (fun p => match p with HandshakePayload.Finished f => Some f | _ => None end) m;
  handshake_hash ← res (HandshakeHash.get_current_hash (b_transcript x));
  '(ks, expect_verify_data) ← common (ClientFinishedPending.sign_client_finish (b_key_schedule x) handshake_hash);
  if negb (bool_decide (expect_verify_data = finished)) then alert AlertDescription.DecryptError Error.DecryptError
  else
    let x := add x m in
    _ ← common check_aligned_handshake;
    _ ← each_cx (fun _ => emit_ticket (b_transcript x) (b_suite x) ks (b_config x)) (seq 0 (b_send_tickets x));
    _ ← common start_traffic;
    q ← get is_quic;
    mret (if (q : bool) then ExpectQuicTraffic ks else ExpectTraffic ks).

(** ** Traffic *)

Definition handle_traffic (ks : KeyScheduleTraffic.t) (m : Message.t) : SCx Tls13State :=
  match Message.payload m with
  | MessagePayload.ApplicationData p => _ ← common (take_received_plaintext p); mret (ExpectTraffic ks)
  | MessagePayload.Handshake {| HandshakeMessagePayload.payload := HandshakePayload.KeyUpdate key_update |} _ =>
      ks ← handle_key_update ks key_update; mret (ExpectTraffic ks)
  | p => raise (inappropriate_handshake_message p [Known TlsLayer.ApplicationData; Known TlsLayer.Handshake] [Known HandshakeType.KeyUpdate])
  end.
Definition handle_quic_traffic (m : Message.t) : SCx Tls13State := raise (inappropriate_message (Message.payload m) []).
Definition extract_secrets (ks : KeyScheduleTraffic.t) : result Error.t (ConnectionTrafficSecrets * ConnectionTrafficSecrets) := KeyScheduleTraffic.extract_secrets ks Server.
Definition export_keying_material (ks : KeyScheduleTraffic.t) (len : nat) (label : bytes) (context : option bytes) : result Error.t bytes :=
  KeyScheduleTraffic.export_keying_material ks len label context.

Definition handle_tls13 (st : Tls13State) (m : Message.t) : SCx Tls13State :=
  match st with
  | ExpectCertificate x => handle_certificate x m
  | ExpectCertificateVerify x client_cert => handle_certificate_verify x client_cert m
  | ExpectEarlyData x => handle_early_data x m
  | ExpectFinished x => handle_finished x m
  | ExpectTraffic ks => handle_traffic ks m
  | ExpectQuicTraffic _ => handle_quic_traffic m
  end.
End server.
