(* ===== verification/ServerTls12.v ===== *)
(** * The TLS 1.2 server (orcax/rustls-fork/rustls/src/server/tls12.rs)

    The ClientHello once TLS 1.2 is chosen, full handshake or resumption, and every
    state up to traffic. *)
From S2P Require Import Prelude Codec RustStd TlsLayer VecBuf Enums Wire Messages Payloads Ciphers Suites Errors Common Hkdf KeySchedule Transcript Tls12 Persist Conn Context ServerBase ServerExt.
Import CommonState.

Section server.
Context {H : Hashing} {A : RingAead} `{DnsNames} {Store : Type} {S : StoresServerSessions Store}.
Abbreviation SCx := (Cx (ServerConnectionData Store)).

(** ** States *)

(** [CompleteClientHelloHandling], and the fields of the states before the keys. *)
Record Base : Type := {
  s_config : ServerConfig; s_transcript : HandshakeHash.t; s_session_id : SessionId.t; s_suite : Tls12CipherSuite; s_using_ems : bool;
  s_randoms : ConnectionRandoms; s_send_ticket : bool; s_extra_exts : list ServerExtension.t
}.
Definition set_transcript (x : Base) (t : HandshakeHash.t) : Base := {|
  s_config := s_config x; s_transcript := t; s_session_id := s_session_id x; s_suite := s_suite x; s_using_ems := s_using_ems x; s_randoms := s_randoms x;
  s_send_ticket := s_send_ticket x; s_extra_exts := s_extra_exts x |}.
Definition add (x : Base) (m : Message.t) : Base := set_transcript x (HandshakeHash.add_message (s_transcript x) m).
(** The fields of the states after. *)
Record Keyed : Type := {
  k_config : ServerConfig; secrets : ConnectionSecrets; k_transcript : HandshakeHash.t; k_session_id : SessionId.t; k_using_ems : bool; k_send_ticket : bool
}.
Definition k_set_transcript (x : Keyed) (t : HandshakeHash.t) : Keyed :=
  {| k_config := k_config x; secrets := secrets x; k_transcript := t; k_session_id := k_session_id x; k_using_ems := k_using_ems x; k_send_ticket := k_send_ticket x |}.
Definition keyed (x : Base) (s : ConnectionSecrets) (t : HandshakeHash.t) : Keyed :=
  {| k_config := s_config x; secrets := s; k_transcript := t; k_session_id := s_session_id x; k_using_ems := s_using_ems x; k_send_ticket := s_send_ticket x |}.
Inductive Tls12State : Type :=
| ExpectCertificate (x : Base) (server_kx : ActiveKeyExchange)
| ExpectClientKx (x : Base) (server_kx : ActiveKeyExchange) (client_cert : option (list bytes))
| ExpectCertificateVerify (x : Keyed) (client_cert : list bytes)
| ExpectCcs (x : Keyed) (resuming : bool)
| ExpectFinished (x : Keyed) (resuming : bool)
| ExpectTraffic (s : ConnectionSecrets).

(** ** Sending *)

(** [send_ticket], the OCSP response that is left, and the transcript. *)
Definition emit_server_hello (x : Base) (ocsp_response : option bytes) (hello : ClientHelloPayload.t) (resumedata : option ServerSessionValue.t) :
    SCx (bool * option bytes * HandshakeHash.t) :=
  '(exts, ocsp_response) ← process_common (s_config x) ocsp_response hello resumedata (s_extra_exts x);
  let '(more, send_ticket) := process_tls12 (s_config x) hello (s_using_ems x) in
  t ← emit false (s_transcript x) (hs_message (Known TLSv1_2) HandshakeType.ServerHello (HandshakePayload.ServerHello {|
        ServerHelloPayload.legacy_version := Known TLSv1_2; ServerHelloPayload.random := random_server (s_randoms x); ServerHelloPayload.session_id := s_session_id x;
        ServerHelloPayload.cipher_suite := suite_id (common12 (s_suite x)); ServerHelloPayload.compression_method := Known Compression.Null;
        ServerHelloPayload.extensions := exts ++ more |}));
  mret (send_ticket, ocsp_response, t).
Definition emit_certificate (t : HandshakeHash.t) (cert_chain : list bytes) : SCx HandshakeHash.t :=
  emit false t (hs_message (Known TLSv1_2) HandshakeType.Certificate (HandshakePayload.Certificate cert_chain)).
Definition emit_cert_status (t : HandshakeHash.t) (ocsp : bytes) : SCx HandshakeHash.t :=
  emit false t (hs_message (Known TLSv1_2) HandshakeType.CertificateStatus (HandshakePayload.CertificateStatus {| CertificateStatus.ocsp_response := ocsp |})).
Definition emit_server_kx (t : HandshakeHash.t) (sigschemes : list SignatureScheme.t) (selected_group : SupportedKxGroup) (signing_key : SigningKey)
    (rnd : ConnectionRandoms) : SCx (ActiveKeyExchange * HandshakeHash.t) :=
  kx ← start_kx selected_group;
  let secdh := ServerEcdhParams.new (group kx) (pub_key kx) in
  let msg := encode (Codec:=ServerEcdhParams.codec) secdh (random_client rnd ++ random_server rnd) in
  match choose_scheme signing_key sigschemes with
  | None => raise Error.General
  | Some signer =>
      sig ← res (sign signer msg);
      t ← emit false t (hs_message (Known TLSv1_2) HandshakeType.ServerKeyExchange (HandshakePayload.ServerKeyExchange (ServerKeyExchangePayload.Ecdhe {|
            EcdheServerKeyExchange.params := secdh;
            EcdheServerKeyExchange.dss := {| DigitallySignedStruct.scheme := scheme signer; DigitallySignedStruct.sig := sig |} |})));
      mret (kx, t)
  end.
Definition emit_certificate_req (c : ServerConfig) (t : HandshakeHash.t) : SCx (bool * HandshakeHash.t) :=
  if negb (offer_client_auth (verifier c)) then mret (false, t)
  else
    t ← emit false t (hs_message (Known TLSv1_2) HandshakeType.CertificateRequest (HandshakePayload.CertificateRequest {|
          CertificateRequestPayload.certtypes := [Known ClientCertificateType.RSASign; Known ClientCertificateType.ECDSASign];
          CertificateRequestPayload.sigschemes := sv_supported_verify_schemes (verifier c);
          CertificateRequestPayload.canames := root_hint_subjects (verifier c) |}));
    mret (true, t).
Definition emit_server_hello_done (t : HandshakeHash.t) : SCx HandshakeHash.t :=
  emit false t (hs_message (Known TLSv1_2) HandshakeType.ServerHelloDone HandshakePayload.ServerHelloDone).
Definition get_server_connection_value_tls12 (s : ConnectionSecrets) (ems : bool) (time_now : Z) : SCx ServerSessionValue.t :=
  name ← get_data sni;
  certs ← get peer_certificates;
  alpn ← get alpn_protocol;
  app ← get_data resumption_data;
  let v := ServerSessionValue.new name (Known TLSv1_2) (suite_id (common12 (cs_suite s))) (master_secret s) certs alpn app time_now 0 in
  mret (if ems then ServerSessionValue.set_extended_ms_used v else v).
Definition emit_ticket (s : ConnectionSecrets) (t : HandshakeHash.t) (ems : bool) (tk : ServerTicketer) : SCx HandshakeHash.t :=
  now ← time_now;
  session ← get_server_connection_value_tls12 s ems now;
  seed ← raw_draw;
  let ticket := default [] (tk_encrypt tk seed (get_encoding (H:=ServerSessionValue.codec) session)) in
  emit false t (hs_message (Known TLSv1_2) HandshakeType.NewSessionTicket (HandshakePayload.NewSessionTicket {|
    NewSessionTicketPayload.lifetime_hint := tk_lifetime tk; NewSessionTicketPayload.ticket := ticket |})).
Definition emit_ccs : SCx unit := common (send_msg ccs_message false).
Definition emit_finished (s : ConnectionSecrets) (t : HandshakeHash.t) : SCx HandshakeHash.t :=
  vh ← res (HandshakeHash.get_current_hash t);
  emit true t (hs_message (Known TLSv1_2) HandshakeType.Finished (HandshakePayload.Finished (server_verify_data s vh))).
Definition log_master_secret (s : ConnectionSecrets) : SCx unit :=
  log_keys [{| line_label := "CLIENT_RANDOM"; line_random := random_client (randoms s); line_secret := master_secret s |}].
(** The server's last flight: a ticket, CCS, and Finished under the new keys. *)
Definition last_flight (x : Keyed) : SCx HandshakeHash.t :=
  t ← (if k_send_ticket x then emit_ticket (secrets x) (k_transcript x) (k_using_ems x) (ticketer (k_config x)) else mret (k_transcript x));
  _ ← emit_ccs;
  _ ← set (fun c => set_record_layer (start_encrypting (record_layer c)) c);
  emit_finished (secrets x) t.

(** ** The ClientHello *)

Definition start_resumption (x : Base) (hello : ClientHelloPayload.t) (id : SessionId.t) (resumedata : ServerSessionValue.t) : SCx Tls12State :=
  if ServerSessionValue.extended_ms resumedata && negb (s_using_ems x)
  then alert AlertDescription.IllegalParameter (pm PeerMisbehaved.ResumptionAttemptedWithVariedEms)
  else
    let x := {| s_config := s_config x; s_transcript := s_transcript x; s_session_id := id; s_suite := s_suite x; s_using_ems := s_using_ems x;
                s_randoms := s_randoms x; s_send_ticket := s_send_ticket x; s_extra_exts := s_extra_exts x |} in
    '(send_ticket, _, t) ← emit_server_hello x None hello (Some resumedata);
    s ← res (new_resume (s_randoms x) (s_suite x) (ServerSessionValue.master_secret resumedata));
    _ ← log_master_secret s;
    _ ← common (start_encryption_tls12 s Server);
    _ ← set (set_peer_certificates (ServerSessionValue.client_cert_chain resumedata));
    let k := {| k_config := s_config x; secrets := s; k_transcript := t; k_session_id := id; k_using_ems := s_using_ems x; k_send_ticket := send_ticket |} in
    t ← last_flight k;
    mret (ExpectCcs (k_set_transcript k t) true).
(** What a ticket or a session id of the hello leads to, and whether a ticket came. *)
Definition find_session (c : ServerConfig) (suite : Tls12CipherSuite) (ems : bool) (hello : ClientHelloPayload.t) : SCx (option ServerSessionValue.t * bool) :=
  let offer := match ClientHelloPayload.get_ticket_extension hello with Some (ClientExtension.SessionTicket (Offer ticket)) => Some ticket | _ => None end in
  stored ← get_data (fun d => get_session (get_encoding (H:=SessionId.codec) (ClientHelloPayload.session_id hello)) (session_storage d));
  name ← get_data sni;
  let plain := match offer with
               | Some ticket => tk_decrypt (ticketer c) ticket
               | None => if SessionId.is_empty (ClientHelloPayload.session_id hello) then None else stored
               end in
  let resumedata := plain ← plain; match read_bytes (H:=ServerSessionValue.codec) plain with Ok v => Some v | _ => None end in
  mret (resumedata ← resumedata; if can_resume (Tls12 suite) name ems resumedata then Some resumedata else None, bool_decide (is_Some offer)).
(** No session: the server's first flight. *)
Definition full_handshake (x : Base) (server_key : CertifiedKey) (hello : ClientHelloPayload.t) (sigschemes_ext : list SignatureScheme.t)
    (groups : list NamedGroup.t) (ecpoints : list ECPointFormat.t) (ticket_received : bool) : SCx Tls12State :=
  let c := s_config x in
  let sigschemes := resolve_sig_schemes (s_suite x) sigschemes_ext in
  if bool_decide (sigschemes = []) then alert AlertDescription.HandshakeFailure (pi PeerIncompatible.NoSignatureSchemesInCommon)
  else
    g ← match find (fun g => bool_decide (kx_name g ∈ groups)) (kx_groups (provider c)) with
        | Some g => mret g
        | None => alert AlertDescription.HandshakeFailure (pi PeerIncompatible.NoKxGroupsInCommon)
        end;
    _ ← (if bool_decide (Known ECPointFormat.Uncompressed ∈ ecpoints) then mret tt
         else alert AlertDescription.HandshakeFailure (pi PeerIncompatible.NoEcPointFormatsInCommon));
    cache ← get_data (fun d => can_cache (session_storage d));
    id ← (if negb cache then mret SessionId.empty
          else if SessionId.is_empty (s_session_id x) && negb ticket_received then r ← random_vec 32; mret (SessionId.random r)
          else mret (s_session_id x));
    let x := {| s_config := c; s_transcript := s_transcript x; s_session_id := id; s_suite := s_suite x; s_using_ems := s_using_ems x;
                s_randoms := s_randoms x; s_send_ticket := s_send_ticket x; s_extra_exts := s_extra_exts x |} in
    '(send_ticket, ocsp_response, t) ← emit_server_hello x (ocsp server_key) hello None;
    t ← emit_certificate t (cert server_key);
    t ← match ocsp_response with Some r => emit_cert_status t r | None => mret t end;
    '(server_kx, t) ← emit_server_kx t sigschemes g (key server_key) (s_randoms x);
    '(doing_client_auth, t) ← emit_certificate_req c t;
    t ← emit_server_hello_done t;
    let x := {| s_config := c; s_transcript := t; s_session_id := id; s_suite := s_suite x; s_using_ems := s_using_ems x;
                s_randoms := s_randoms x; s_send_ticket := send_ticket; s_extra_exts := s_extra_exts x |} in
    mret (if doing_client_auth : bool then ExpectCertificate x server_kx else ExpectClientKx x server_kx None).
Definition mark_downgrade (rnd : ConnectionRandoms) : ConnectionRandoms :=
  {| random_client := random_client rnd; random_server := take 24 (random_server rnd) ++ DOWNGRADE_SENTINEL |}.
Definition handle_client_hello (x : Base) (server_key : CertifiedKey) (chm : Message.t) (hello : ClientHelloPayload.t) (sigschemes_ext : list SignatureScheme.t)
    (tls13_enabled : bool) : SCx Tls12State :=
  let ems := ClientHelloPayload.ems_support_offered hello || s_using_ems x in
  groups_ext ← match ClientHelloPayload.get_namedgroups_extension hello with
               | Some g => mret g
               | None => alert AlertDescription.HandshakeFailure (pi PeerIncompatible.NamedGroupsExtensionRequired)
               end;
  ecpoints_ext ← match ClientHelloPayload.get_ecpoints_extension hello with
                 | Some e => mret e
                 | None => alert AlertDescription.HandshakeFailure (pi PeerIncompatible.EcPointsExtensionRequired)
                 end;
  if negb (bool_decide (Known ECPointFormat.Uncompressed ∈ ecpoints_ext)) then alert AlertDescription.IllegalParameter (pi PeerIncompatible.UncompressedEcPointsRequired)
  else
    let x := {| s_config := s_config x; s_transcript := HandshakeHash.add_message (s_transcript x) chm; s_session_id := s_session_id x; s_suite := s_suite x;
                s_using_ems := ems; s_randoms := if tls13_enabled then mark_downgrade (s_randoms x) else s_randoms x;
                s_send_ticket := s_send_ticket x; s_extra_exts := s_extra_exts x |} in
    '(resume_data, ticket_received) ← find_session (s_config x) (s_suite x) ems hello;
    match resume_data with
    | Some data => start_resumption x hello (ClientHelloPayload.session_id hello) data
    | None => full_handshake x server_key hello sigschemes_ext groups_ext ecpoints_ext ticket_received
    end.

(** ** The client's certificate and key exchange *)

Definition handle_certificate (x : Base) (server_kx : ActiveKeyExchange) (m : Message.t) : SCx Tls12State :=
  let x := add x m in
  cert_chain ← require HandshakeType.Certificate (fun p => match p with HandshakePayload.Certificate c => Some c | _ => None end) m;
  match cert_chain with
  | [] =>
      if client_auth_mandatory (verifier (s_config x)) then alert AlertDescription.CertificateRequired Error.NoCertificatesPresented
      else mret (ExpectClientKx (set_transcript x (HandshakeHash.abandon_client_auth (s_transcript x))) server_kx None)
  | end_entity :: intermediates =>
      t ← time_now;
      _ ← verified (verify_client_cert (verifier (s_config x)) end_entity intermediates t);
      mret (ExpectClientKx x server_kx (Some cert_chain))
  end.
Definition handle_client_kx (x : Base) (server_kx : ActiveKeyExchange) (client_cert : option (list bytes)) (m : Message.t) : SCx Tls12State :=
  client_kx ← require HandshakeType.ClientKeyExchange (fun p => match p with HandshakePayload.ClientKeyExchange k => Some k | _ => None end) m;
  let x := add x m in
  ems_seed ← (if s_using_ems x then h ← res (HandshakeHash.get_current_hash (s_transcript x)); mret (Some h) else mret None);
  peer ← common (decode_ecdh_params client_ecdh_params_codec client_kx);
  s ← res (from_key_exchange (complete server_kx) peer ems_seed (s_randoms x) (s_suite x));
  _ ← log_master_secret s;
  _ ← common (start_encryption_tls12 s Server);
  mret (match client_cert with
        | Some client_cert => ExpectCertificateVerify (keyed x s (s_transcript x)) client_cert
        | None => ExpectCcs (keyed x s (s_transcript x)) false
        end).
Definition handle_certificate_verify (x : Keyed) (client_cert : list bytes) (m : Message.t) : SCx Tls12State :=
  sig ← require HandshakeType.CertificateVerify (fun p => match p with HandshakePayload.CertificateVerify c => Some c | _ => None end) m;
  match HandshakeHash.take_handshake_buf (k_transcript x) with
  | (Some msgs, t) =>
      match client_cert with
      | [] => res Panic
      | end_entity :: _ =>
          _ ← verified (sv_verify_tls12_signature (verifier (k_config x)) msgs end_entity sig);
          _ ← set (set_peer_certificates (Some client_cert));
          mret (ExpectCcs (k_set_transcript x (HandshakeHash.add_message t m)) false)
      end
  | (None, _) => alert AlertDescription.AccessDenied Error.General
  end.

(** ** ChangeCipherSpec, Finished and traffic *)

Definition handle_ccs (x : Keyed) (resuming : bool) (m : Message.t) : SCx Tls12State :=
  match Message.payload m with
  | MessagePayload.ChangeCipherSpec =>
      _ ← common check_aligned_handshake;
      _ ← set (fun c => set_record_layer (start_decrypting (record_layer c)) c);
      mret (ExpectFinished x resuming)
  | p => raise (inappropriate_message p [Known TlsLayer.ChangeCipherSpec])
  end.
Definition handle_finished (x : Keyed) (resuming : bool) (m : Message.t) : SCx Tls12State :=
  finished ← require HandshakeType.Finished (fun p => match p with HandshakePayload.Finished f => Some f | _ => None end) m;
  _ ← common check_aligned_handshake;
  vh ← res (HandshakeHash.get_current_hash (k_transcript x));
  if negb (bool_decide (client_verify_data (secrets x) vh = finished)) then alert AlertDescription.DecryptError Error.DecryptError
  else
    _ ← (if negb resuming && negb (SessionId.is_empty (k_session_id x)) then
           now ← time_now;
           value ← get_server_connection_value_tls12 (secrets x) (k_using_ems x) now;
           _ ← store_op (put (get_encoding (H:=SessionId.codec) (k_session_id x)) (get_encoding (H:=ServerSessionValue.codec) value));
           mret tt
         else mret tt);
    let x := k_set_transcript x (HandshakeHash.add_message (k_transcript x) m) in
    _ ← (if resuming then mret (k_transcript x) else last_flight x);
    _ ← common start_traffic;
    mret (ExpectTraffic (secrets x)).
Definition handle_traffic (s : ConnectionSecrets) (m : Message.t) : SCx Tls12State :=
  match Message.payload m with
  | MessagePayload.ApplicationData p => _ ← common (take_received_plaintext p); mret (ExpectTraffic s)
  | p => raise (inappropriate_message p [Known TlsLayer.ApplicationData])
  end.
Definition export_keying_material (s : ConnectionSecrets) (len : nat) (label : bytes) (context : option bytes) : result Error.t bytes :=
  tls12_export_keying_material s len label context.
Definition extract_secrets (s : ConnectionSecrets) : result Error.t (ConnectionTrafficSecrets * ConnectionTrafficSecrets) := tls12_extract_secrets s Server.

Definition handle_tls12 (st : Tls12State) (m : Message.t) : SCx Tls12State :=
  match st with
  | ExpectCertificate x server_kx => handle_certificate x server_kx m
  | ExpectClientKx x server_kx client_cert => handle_client_kx x server_kx client_cert m
  | ExpectCertificateVerify x client_cert => handle_certificate_verify x client_cert m
  | ExpectCcs x resuming => handle_ccs x resuming m
  | ExpectFinished x resuming => handle_finished x resuming m
  | ExpectTraffic s => handle_traffic s m
  end.
End server.
