(* ===== verification/ServerHs.v ===== *)
(** * The server's state machine
    (orcax/rustls-fork/rustls/src/server/hs.rs, server/tls13.rs, server/server_conn.rs)

    From the first ClientHello to the TLS 1.3 or TLS 1.2 states: the version, the
    certificate and the suite are chosen here.  [ServerState] joins all states of a
    server; [Acceptor] reads a hello before there is a configuration. *)
From S2P Require Import Prelude Codec RustStd Crates Reality TlsLayer VecBuf Enums Wire Messages Payloads Ciphers Suites Errors Common Hkdf KeySchedule Transcript Tls12 Persist Conn Context ServerBase ServerExt ServerTls12 ServerTls13.
Import CommonState.

Section server.
Context {H : Hashing} {P : Hkdf} {A : RingAead} `{DnsNames} {RH : Hmac} {Store : Type} {S : StoresServerSessions Store}.
Abbreviation SCx := (Cx (ServerConnectionData Store)).

Inductive ServerState : Type :=
| WaitClientHello (x : ExpectClientHello)
| ExpectAndSkipRejectedEarlyData (skip_data_left : nat) (next : ExpectClientHello)
| InTls13 (st : ServerTls13.Tls13State)
| InTls12 (st : ServerTls12.Tls12State)
| Accepting.

(** ** Choosing *)

Definition get_u16 (v : ProtocolVersion) : Z := enum_get TlsLayer.versions v.

Definition choose_version (c : ServerConfig) (hello : ClientHelloPayload.t) : SCx ProtocolVersion :=
  let tls13_enabled := supports_version c (Known TLSv1_3) in
  let tls12_enabled := supports_version c (Known TLSv1_2) in
  let wrong e := alert AlertDescription.ProtocolVersion (pi e) in
  q ← get is_quic;
  match ClientHelloPayload.get_versions_extension hello with
  | Some versions =>
      if bool_decide (Known TLSv1_3 ∈ versions) && tls13_enabled then mret (Known TLSv1_3)
      else if negb (bool_decide (Known TLSv1_2 ∈ versions)) || negb tls12_enabled then wrong PeerIncompatible.Tls12NotOfferedOrEnabled
      else if (q : bool) then wrong PeerIncompatible.Tls13RequiredForQuic
      else mret (Known TLSv1_2)
  | None =>
      if get_u16 (ClientHelloPayload.client_version hello) <? get_u16 (Known TLSv1_2) then wrong PeerIncompatible.Tls12NotOffered
      else if negb tls12_enabled && tls13_enabled then wrong PeerIncompatible.SupportedVersionsExtensionRequired
      else if (q : bool) then wrong PeerIncompatible.Tls13RequiredForQuic
      else mret (Known TLSv1_2)
  end.
(** The schemes that go with a suite of the client, and Ed25519 for Reality. *)
Definition reduce_schemes (c : ServerConfig) (hello : ClientHelloPayload.t) (sig_schemes : list SignatureScheme.t) : list SignatureScheme.t :=
  let client_suites := List.filter (fun scs => bool_decide (Suites.suite scs ∈ ClientHelloPayload.cipher_suites hello)) (cipher_suites (provider c)) in
  let sig_schemes := List.filter (fun scheme => compatible_sigscheme_for_suites scheme client_suites) sig_schemes in
  if bool_decide (is_Some (reality_config c)) && negb (bool_decide (Known SignatureScheme.ED25519 ∈ sig_schemes))
  then sig_schemes ++ [Known SignatureScheme.ED25519] else sig_schemes.
Definition choose_suite (c : ServerConfig) (v : ProtocolVersion) (proto : Protocol) (k : CertifiedKey) (hello : ClientHelloPayload.t) : option SupportedCipherSuite :=
  let suitable := reduce_given_version_and_protocol (reduce_given_sigalg (cipher_suites (provider c)) (algorithm (key k))) v proto in
  if ignore_client_order c then choose_ciphersuite_preferring_server (ClientHelloPayload.cipher_suites hello) suitable
  else choose_ciphersuite_preferring_client (ClientHelloPayload.cipher_suites hello) suitable.
Definition starting_transcript (t : HandshakeHashOrBuffer) (starting_hash : hash_alg) : option HandshakeHash.t :=
  match t with
  | Buffer inner => Some (HandshakeHash.start_hash inner starting_hash)
  | Hash inner => if bool_decide (HandshakeHash.algorithm inner = hash_algorithm starting_hash) then Some inner else None
  end.

(** ** [ExpectClientHello] *)

Definition with_certified_key (x : ExpectClientHello) (sig_schemes : list SignatureScheme.t) (hello : ClientHelloPayload.t) (m : Message.t) : SCx ServerState :=
  let c := config x in
  v ← choose_version c hello;
  _ ← set (set_negotiated_version (Some v));
  let sig_schemes := reduce_schemes c hello sig_schemes in
  name ← get_data sni;
  certkey ← match resolve_server (cert_resolver c) {| ch_server_name := name; ch_signature_schemes := sig_schemes; ch_alpn := ClientHelloPayload.get_alpn_extension hello;
                                                      ch_cipher_suites := ClientHelloPayload.cipher_suites hello |} with
            | Some k => mret k
            | None => alert AlertDescription.AccessDenied Error.General
            end;
  proto ← get protocol;
  chosen ← match choose_suite c v proto certkey hello with
           | Some s => mret s
           | None => alert AlertDescription.HandshakeFailure (pi PeerIncompatible.NoCipherSuitesInCommon)
           end;
  _ ← set (set_suite (Some chosen));
  t ← match starting_transcript (transcript x) (suite_hash chosen) with
      | Some t => mret t
      | None => alert AlertDescription.IllegalParameter (pm PeerMisbehaved.HandshakeHashVariedAfterRetry)
      end;
  server_random ← random_vec 32;
  let rnd := {| random_client := ClientHelloPayload.random hello; random_server := server_random |} in
  match chosen with
  | Tls13 suite =>
      next ← ServerTls13.handle_client_hello {| ch_config := c; ch_transcript := t; ch_suite := suite; ch_randoms := rnd; ch_done_retry := done_retry x;
               ch_send_tickets := send_tickets x; ch_extra_exts := extra_exts x |} certkey m hello sig_schemes;
      mret (match next with
            | Retry None next => WaitClientHello next
            | Retry (Some n) next => ExpectAndSkipRejectedEarlyData n next
            | Go st => InTls13 st
            end)
  | Tls12 suite =>
      st ← ServerTls12.handle_client_hello {| s_config := c; s_transcript := t; s_session_id := session_id x; s_suite := suite; s_using_ems := using_ems x;
             s_randoms := rnd; s_send_ticket := (0 <? send_tickets x)%nat; s_extra_exts := extra_exts x |} certkey m hello sig_schemes (supports_version c (Known TLSv1_3));
      mret (InTls12 st)
  end.
Definition handle_hello (x : ExpectClientHello) (m : Message.t) : SCx ServerState :=
  '(hello, sig_schemes) ← process_client_hello m (done_retry x);
  with_certified_key x sig_schemes hello m.
Definition handle_and_skip (skip_data_left : nat) (next : ExpectClientHello) (m : Message.t) : SCx ServerState :=
  match Message.payload m with
  | MessagePayload.ApplicationData skip_data =>
      if (length skip_data <=? skip_data_left)%nat then mret (ExpectAndSkipRejectedEarlyData (skip_data_left - length skip_data) next)
      else handle_hello next m
  | _ => handle_hello next m
  end.

(** ** Any state *)

Definition handle_server (st : ServerState) (m : Message.t) : SCx ServerState :=
  match st with
  | WaitClientHello x => handle_hello x m
  | ExpectAndSkipRejectedEarlyData left next => handle_and_skip left next m
  | InTls13 st => st ← ServerTls13.handle_tls13 st m; mret (InTls13 st)
  | InTls12 st => st ← ServerTls12.handle_tls12 st m; mret (InTls12 st)
  | Accepting => raise Error.General
  end.
Abbreviation Core := (ConnectionCore (K:=cipher) (St:=ServerState) (D:=ServerConnectionData Store * world)).
(** [ConnectionCore::for_server]. *)
Definition for_server (c : ServerConfig) (extra_exts : list ServerExtension.t) (store : Store) (w : world) : result Error.t Core :=
  match max_fragment_size (max_fragment c) (CommonState.new Server) with
  | (Ok _, cs) => Ok (core_new (WaitClientHello (expect_client_hello c extra_exts)) (new_server_data store, w) (set_extraction (enable_extraction c) cs))
  | (Err e, _) => Err e
  | (Panic, _) => Panic
  end.
(** [ServerConnection::early_data]: a reader, where early data was accepted. *)
Definition read_early_data (cap : nat) : SCx (option bytes) := fun cx =>
  if EarlyDataState.was_accepted (early_data (cx_data cx)) then
    match EarlyDataState.read cap (early_data (cx_data cx)) with
    | Some (bs, e) => (Ok (Some bs), {| cx_common := cx_common cx; cx_data := set_early_data e (cx_data cx); cx_world := cx_world cx |})
    | None => (Panic, cx)
    end
  else (Ok None, cx).
(** [ServerConnection::reject_early_data]; [None] is the assertion. *)
Definition reject_early_data : SCx unit :=
  h ← get is_handshaking; if (h : bool) then set_data (fun d => set_early_data (EarlyDataState.reject (early_data d)) d) else res Panic.

(** ** [Acceptor] *)

Definition Acceptor : Type := option Core.
Record Accepted : Type := { connection : Core; message : Message.t; acc_sig_schemes : list SignatureScheme.t }.
Definition acceptor_default (store : Store) (w : world) : Acceptor := Some (core_new Accepting (new_server_data store, w) (CommonState.new Server)).
(** A computation on the context of a connection. *)
Definition on_connection {T} (m : SCx T) (x : Core) : result Error.t T * Core :=
  let '(d, w) := core_data x in
  let '(r, cx) := m {| cx_common := common_state x; cx_data := d; cx_world := w |} in
  (r, set_context x (cx_data cx, cx_world cx) (cx_common cx)).
Definition acceptor_read_tls (input : option bytes) (x : Acceptor) : result io_error nat * Acceptor :=
  match x with Some conn => let '(r, conn) := read_tls input conn in (r, Some conn) | None => (Err Failed, None) end.
Definition accept (x : Acceptor) : result Error.t (option Accepted) * Acceptor :=
  match x with
  | None => (Err Error.General, None)
  | Some conn =>
      match first_handshake_message conn with
      | (Ok None, conn) => (Ok None, Some conn)
      | (Ok (Some m), conn) =>
          match on_connection (process_client_hello m false) conn with
          | (Ok (_, sig_schemes), conn) => (Ok (Some {| connection := conn; message := m; acc_sig_schemes := sig_schemes |}), None)
          | (Err e, _) => (Err e, None)
          | (Panic, _) => (Panic, None)
          end
      | (Err e, _) => (Err e, None)
      | (Panic, _) => (Panic, None)
      end
  end.
Definition client_hello_payload (m : Message.t) : option ClientHelloPayload.t :=
  match Message.payload m with
  | MessagePayload.Handshake {| HandshakeMessagePayload.payload := HandshakePayload.ClientHello ch |} _ => Some ch
  | _ => None
  end.
(** [Accepted::client_hello]; [None] is [unreachable!]. *)
Definition accepted_client_hello (x : Accepted) : option ClientHello :=
  hello ← client_hello_payload (message x);
  Some {| ch_server_name := sni (core_data (connection x)).1; ch_signature_schemes := acc_sig_schemes x;
          ch_alpn := ClientHelloPayload.get_alpn_extension hello; ch_cipher_suites := ClientHelloPayload.cipher_suites hello |}.
Definition into_connection (x : Accepted) (c : ServerConfig) : result Error.t Core :=
  match client_hello_payload (message x) with
  | None => Panic
  | Some hello =>
      match on_connection (_ ← common (max_fragment_size (max_fragment c));
                           _ ← set (set_extraction (enable_extraction c));
                           with_certified_key (expect_client_hello c []) (acc_sig_schemes x) hello (message x)) (connection x) with
      | (Ok new, conn) => Ok (replace_state conn new)
      | (Err e, _) => Err e
      | (Panic, _) => Panic
      end
  end.
End server.
