(* ===== verification/Samples.v ===== *)
(** * Concrete parameters for the TLS fork

    A hash, a cipher, a key exchange, a signature and a verifier that compute
    quickly, with the configuration of a client and of a server: the witnesses of
    the handshake theorems and the runs of whole connections evaluate on them. *)
From S2P Require Import Prelude Codec TlsLayer Enums Wire Messages Payloads Ciphers Suites Errors Common Hkdf KeySchedule Transcript Reality Conn Context ClientBase ServerBase.

Definition sum_bytes (acc : Z) (bs : bytes) : Z := fold_left (fun a b => (a * 3 + b + 1) mod 256) bs acc.
Lemma sum_bytes_app acc a b : sum_bytes acc (a ++ b) = sum_bytes (sum_bytes acc a) b.
Proof. apply fold_left_app. Qed.
Definition sum_hashing : Hashing :=
  {| digest_ctx := hash_alg * Z; digest_new h := (h, 0); digest_update c d := (c.1, sum_bytes c.2 d);
     digest_finish c := replicate (output_len c.1) c.2; hmac_tag h k m := replicate (output_len h) (sum_bytes (sum_bytes 0 k) m) |}.
#[export] Instance sum_hashing_laws : HashingLaws sum_hashing.
Proof.
  assert (forall (h : hash_alg) (ds : list bytes) (a : Z), fold_left (fun c d => (c.1, sum_bytes c.2 d)) ds (h, a) = (h, sum_bytes a (concat ds))) as Hf.
  { intros h ds. induction ds as [|d ds IH]; intros a; cbn [fold_left concat]; [done|]. cbn [fst snd]. by rewrite IH, sum_bytes_app. }
  split; cbn; intros; rewrite ?Hf; apply length_replicate || done.
Qed.
Definition sum_ring : RingAead :=
  {| ring_seal a k n ad p := Some (p, replicate TAG_LEN (sum_bytes (sum_bytes (sum_bytes (sum_bytes 0 k) n) ad) p));
     ring_open a k n ad c :=
       let p := take (length c - TAG_LEN) c in
       if (TAG_LEN <=? length c)%nat && bool_decide (drop (length c - TAG_LEN) c = replicate TAG_LEN (sum_bytes (sum_bytes (sum_bytes (sum_bytes 0 k) n) ad) p))
       then Some p else None |}.
#[export] Instance sum_ring_laws : RingAeadLaws sum_ring.
Proof.
  split; cbn [ring_seal ring_open sum_ring].
  - intros a k n ad p _ _ _. eexists p, _. split; [done|]. split; [done|]. split; [by rewrite length_replicate|].
    rewrite length_app, length_replicate, Nat.add_sub, take_app_length, drop_app_length. rewrite (proj2 (Nat.leb_le _ _)) by lia. by rewrite bool_decide_eq_true_2.
  - intros a k n ad c p. destruct (Nat.leb_spec TAG_LEN (length c)); [|done]. cbn [andb]. case_bool_decide; [|done]. intros [= <-].
    rewrite length_take. lia.
Qed.

(** Two shares agree on their exclusive or. *)
Definition toy_group (name : NamedGroup.name) : SupportedKxGroup := {|
  kx_name := Known name;
  start seed := Some {| group := Known name; pub_key := seed; complete peer := Ok (zip_with Z.lxor seed peer) |} |}.
(** A signature is a checksum with the key. *)
Definition toy_sign (k : Z) (m : bytes) : bytes := [k; sum_bytes k m].
Definition toy_signer (k : Z) : Signer := {| scheme := Known SignatureScheme.ED25519; sign m := Ok (toy_sign k m) |}.
Definition toy_key (k : Z) : SigningKey := {|
  choose_scheme l := if bool_decide (Known SignatureScheme.ED25519 ∈ l) then Some (toy_signer k) else None; algorithm := Known SignatureAlgorithm.ED25519 |}.
Definition toy_certified (k : Z) : CertifiedKey := {| cert := [[k]]; key := toy_key k; ocsp := None |}.
Definition toy_verify (m cert : bytes) (d : DigitallySignedStruct.t) : result Error.t unit :=
  match cert with
  | [k] => if bool_decide (DigitallySignedStruct.sig d = toy_sign k m) then Ok tt else Err Error.DecryptError
  | _ => Err Error.General
  end.

Definition sample_name : ServerName := DnsName (ascii_bytes "example.org").
Definition sample_provider (groups : list NamedGroup.name) : CryptoProvider := {| cipher_suites := ALL_CIPHER_SUITES; kx_groups := map toy_group groups |}.
(** Certificate [[7]] is the server's, [[9]] the client's. *)
Definition sample_client (groups : list NamedGroup.name) (tls13 : bool) : ClientConfig := {|
  ClientBase.provider := sample_provider groups; ClientBase.alpn_protocols := [ascii_bytes "h2"]; tls12_resumption := SessionIdOrTickets; ClientBase.max_fragment := None;
  client_auth_cert_resolver := {| resolve_client _ _ := Some (toy_certified 9); has_certs := true |}; ClientBase.versions := {| ev_tls12 := true; ev_tls13 := tls13 |};
  enable_sni := true;
  ClientBase.verifier := {|
    verify_server_cert ee _ n _ _ := if bool_decide (ee = [7] /\ n = sample_name) then Ok tt else Err Error.General;
    verify_tls12_signature := toy_verify; verify_tls13_signature := toy_verify; supported_verify_schemes := [Known SignatureScheme.ED25519] |};
  ClientBase.key_log := {| will_log _ := true |}; ClientBase.enable_extraction := false; enable_early_data := true; reality_client_config := None |}.
Definition sample_server (groups : list NamedGroup.name) (rc : option Reality.Fork.RealityConfig) (client_auth : bool) : ServerConfig := {|
  reality_config := rc; provider := sample_provider groups; ignore_client_order := false; max_fragment := None; ticketer := NeverProducesTickets;
  cert_resolver := {| resolve_server _ := Some (toy_certified 7) |}; alpn_protocols := [ascii_bytes "h2"]; versions := {| ev_tls12 := true; ev_tls13 := true |};
  verifier := {|
    offer_client_auth := client_auth; client_auth_mandatory := client_auth; root_hint_subjects := [];
    verify_client_cert ee _ _ := if bool_decide (ee = [9]) then Ok tt else Err Error.General;
    sv_verify_tls12_signature := toy_verify; sv_verify_tls13_signature := toy_verify; sv_supported_verify_schemes := [Known SignatureScheme.ED25519] |};
  key_log := {| will_log _ := true |}; enable_extraction := false; max_early_data_size := 100; send_half_rtt_data := false; send_tls13_tickets := 1 |}.
(** A random source that gives blocks of [b], [b + 1], ... *)
Definition draws (b : Z) : world := {| rng := map (fun i => Some (replicate 32 (b + i))) (seqZ 0 12); now := 1700000000; key_lines := [] |}.
