(* ===== verification/WebPki.v ===== *)
(** * Certificate verification
    (orcax/rustls-fork/rustls/src/webpki/, verify.rs, crypto/ring/mod.rs)

    The verifiers of server and client certificates, their builders, the root store
    and the tables of signature algorithms.  Paths, names and signatures of
    certificates are checked by the crate webpki, which is a parameter: the theorems
    say exactly which of its checks a verifier makes, with which arguments. *)
From S2P Require Import Prelude Codec TlsLayer Enums Messages Payloads Errors Context SessionCache Suites Crates Reality Persist ServerBase ClientBase.

(** ** The crate *)

(** The errors of webpki that the code distinguishes; [Unlisted] are the others. *)
Module Pki.
Inductive error : Type :=
| BadDer | BadDerTime | TrailingData | CertNotValidYet | CertExpired | InvalidCertValidity | UnknownIssuer | CertNotValidForName | CertRevoked
| UnknownRevocationStatus | IssuerNotCrlSigner | InvalidSignatureForPublicKey | UnsupportedSignatureAlgorithm | UnsupportedSignatureAlgorithmForPublicKey
| InvalidCrlSignatureForPublicKey | UnsupportedCrlSignatureAlgorithm | UnsupportedCrlSignatureAlgorithmForPublicKey | InvalidCrlNumber | InvalidSerialNumber
| MalformedExtensions | UnsupportedCriticalExtension | UnsupportedCrlVersion | UnsupportedDeltaCrl | UnsupportedIndirectCrl | UnsupportedRevocationReason
| Unlisted (n : Z).
#[export] Instance error_dec : EqDecision error.
Proof. solve_decision. Defined.
End Pki.
Definition pki (T : Type) : Type := T + Pki.error.
(** [webpki::ring]. *)
Inductive SignatureVerificationAlgorithm : Type :=
| ECDSA_P256_SHA256 | ECDSA_P256_SHA384 | ECDSA_P384_SHA256 | ECDSA_P384_SHA384 | ED25519
| RSA_PSS_2048_8192_SHA256_LEGACY_KEY | RSA_PSS_2048_8192_SHA384_LEGACY_KEY | RSA_PSS_2048_8192_SHA512_LEGACY_KEY
| RSA_PKCS1_2048_8192_SHA256 | RSA_PKCS1_2048_8192_SHA384 | RSA_PKCS1_2048_8192_SHA512 | RSA_PKCS1_3072_8192_SHA384.
#[export] Instance verification_algorithm_dec : EqDecision SignatureVerificationAlgorithm.
Proof. solve_decision. Defined.
Inductive KeyUsage : Type := server_auth | client_auth.
Inductive RevocationCheckDepth : Type := EndEntity | Chain.
Inductive UnknownStatusPolicy : Type := Allow | Deny.
Class PkiTypes : Type := { EndEntityCert : Type; TrustAnchor : Type; CertRevocationList : Type }.
(** What a [RevocationOptionsBuilder] hands over. *)
Record RevocationOptions `{PkiTypes} : Type := { ro_crls : list CertRevocationList; ro_depth : RevocationCheckDepth; ro_policy : UnknownStatusPolicy }.
Class WebPki `{PkiTypes} : Type := {
  ee_try_from : bytes -> pki EndEntityCert;
  verify_for_usage : EndEntityCert -> list SignatureVerificationAlgorithm -> list TrustAnchor -> list bytes -> Z -> KeyUsage -> option RevocationOptions -> pki unit;
  verify_signature : EndEntityCert -> SignatureVerificationAlgorithm -> bytes -> bytes -> pki unit;
  verify_is_valid_for_subject_name : EndEntityCert -> ServerName -> pki unit;
  anchor_from_trusted_cert : bytes -> pki TrustAnchor;
  subject : TrustAnchor -> bytes;
  crl_from_der : bytes -> pki CertRevocationList
}.

(** ** Errors *)

Definition pki_error (e : Pki.error) : Error.t :=
  match e with
  | Pki.BadDer | Pki.BadDerTime | Pki.TrailingData => Error.InvalidCertificate CertificateError.BadEncoding
  | Pki.CertNotValidYet => Error.InvalidCertificate CertificateError.NotValidYet
  | Pki.CertExpired | Pki.InvalidCertValidity => Error.InvalidCertificate CertificateError.Expired
  | Pki.UnknownIssuer => Error.InvalidCertificate CertificateError.UnknownIssuer
  | Pki.CertNotValidForName => Error.InvalidCertificate CertificateError.NotValidForName
  | Pki.CertRevoked => Error.InvalidCertificate CertificateError.Revoked
  | Pki.UnknownRevocationStatus => Error.InvalidCertificate CertificateError.UnknownRevocationStatus
  | Pki.IssuerNotCrlSigner => Error.InvalidCertRevocationList CertRevocationListError.IssuerInvalidForCrl
  | Pki.InvalidSignatureForPublicKey | Pki.UnsupportedSignatureAlgorithm | Pki.UnsupportedSignatureAlgorithmForPublicKey => Error.InvalidCertificate CertificateError.BadSignature
  | Pki.InvalidCrlSignatureForPublicKey | Pki.UnsupportedCrlSignatureAlgorithm | Pki.UnsupportedCrlSignatureAlgorithmForPublicKey =>
      Error.InvalidCertRevocationList CertRevocationListError.BadSignature
  | _ => Error.InvalidCertificate CertificateError.Other
  end.
Definition crl_error (e : Pki.error) : CertRevocationListError.t :=
  match e with
  | Pki.InvalidCrlSignatureForPublicKey | Pki.UnsupportedCrlSignatureAlgorithm | Pki.UnsupportedCrlSignatureAlgorithmForPublicKey => CertRevocationListError.BadSignature
  | Pki.InvalidCrlNumber => CertRevocationListError.InvalidCrlNumber
  | Pki.InvalidSerialNumber => CertRevocationListError.InvalidRevokedCertSerialNumber
  | Pki.IssuerNotCrlSigner => CertRevocationListError.IssuerInvalidForCrl
  | Pki.MalformedExtensions | Pki.BadDer | Pki.BadDerTime => CertRevocationListError.ParseError
  | Pki.UnsupportedCriticalExtension => CertRevocationListError.UnsupportedCriticalExtension
  | Pki.UnsupportedCrlVersion => CertRevocationListError.UnsupportedCrlVersion
  | Pki.UnsupportedDeltaCrl => CertRevocationListError.UnsupportedDeltaCrl
  | Pki.UnsupportedIndirectCrl => CertRevocationListError.UnsupportedIndirectCrl
  | Pki.UnsupportedRevocationReason => CertRevocationListError.UnsupportedRevocationReason
  | _ => CertRevocationListError.Other
  end.
Definition checked {T} (r : pki T) : result Error.t T := match r with inl x => Ok x | inr e => Err (pki_error e) end.
Inductive VerifierBuilderError : Type := NoRootAnchors | InvalidCrl (e : CertRevocationListError.t).

Section webpki.
Context `{WebPki}.

(** [collect] of the results: the first error ends it. *)
Fixpoint parse_crls (crls : list bytes) : result CertRevocationListError.t (list CertRevocationList) :=
  match crls with
  | [] => Ok []
  | der :: crls =>
      match crl_from_der der with
      | inr e => Err (crl_error e)
      | inl crl => rest ← parse_crls crls; Ok (crl :: rest)
      end
  end.

(** ** Roots *)

Record RootCertStore : Type := { roots : list TrustAnchor }.
Definition empty_store : RootCertStore := {| roots := [] |}.
Definition add_parsable_certificates (s : RootCertStore) (der_certs : list bytes) : (nat * nat) * RootCertStore :=
  fold_left (fun '((valid_count, invalid_count), s) der_cert =>
    match anchor_from_trusted_cert der_cert with
    | inl anchor => ((S valid_count, invalid_count), {| roots := roots s ++ [anchor] |})
    | inr _ => ((valid_count, S invalid_count), s)
    end) der_certs ((0, 0)%nat, s).
Definition add (s : RootCertStore) (der : bytes) : result Error.t RootCertStore :=
  anchor ← checked (anchor_from_trusted_cert der); Ok {| roots := roots s ++ [anchor] |}.
Definition subjects (s : RootCertStore) : list bytes := map (fun ta => distinguished_name_in_sequence (subject ta)) (roots s).
Definition store_len (s : RootCertStore) : nat := length (roots s).
Definition store_is_empty (s : RootCertStore) : bool := (store_len s =? 0)%nat.
Definition extend (s : RootCertStore) (anchors : list TrustAnchor) : RootCertStore := {| roots := roots s ++ anchors |}.

(** ** Signatures *)

Record WebPkiSupportedAlgorithms : Type := { all : list SignatureVerificationAlgorithm; mapping : list (SignatureScheme.t * list SignatureVerificationAlgorithm) }.
Definition supported_schemes (a : WebPkiSupportedAlgorithms) : list SignatureScheme.t := map fst (mapping a).
Definition convert_scheme (a : WebPkiSupportedAlgorithms) (scheme : SignatureScheme.t) : result Error.t (list SignatureVerificationAlgorithm) :=
  ok_or (snd <$> find (fun item => bool_decide (item.1 = scheme)) (mapping a)) (pm PeerMisbehaved.SignedHandshakeWithUnadvertisedSigScheme).
(** The loop over the candidates. *)
Fixpoint try_algorithms (cert : EndEntityCert) (message sig : bytes) (algs : list SignatureVerificationAlgorithm) : result Error.t unit :=
  match algs with
  | [] => Err (pki_error Pki.UnsupportedSignatureAlgorithmForPublicKey)
  | alg :: algs =>
      match verify_signature cert alg message sig with
      | inr Pki.UnsupportedSignatureAlgorithmForPublicKey => try_algorithms cert message sig algs
      | inr e => Err (pki_error e)
      | inl _ => Ok tt
      end
  end.
Definition verify_tls12_signature (message cert : bytes) (dss : DigitallySignedStruct.t) (a : WebPkiSupportedAlgorithms) : result Error.t unit :=
  possible_algs ← convert_scheme a (DigitallySignedStruct.scheme dss);
  cert ← checked (ee_try_from cert);
  try_algorithms cert message (DigitallySignedStruct.sig dss) possible_algs.
Definition verify_tls13_signature (msg cert : bytes) (dss : DigitallySignedStruct.t) (a : WebPkiSupportedAlgorithms) : result Error.t unit :=
  if negb (supported_in_tls13 (DigitallySignedStruct.scheme dss)) then Err (pm PeerMisbehaved.SignedHandshakeWithUnadvertisedSigScheme)
  else
    algs ← convert_scheme a (DigitallySignedStruct.scheme dss);
    alg ← unwrap (head algs);
    cert ← checked (ee_try_from cert);
    checked (verify_signature cert alg msg (DigitallySignedStruct.sig dss)).

(** ** Chains *)

Definition verify_server_cert_signed_by_trust_anchor_impl (cert : EndEntityCert) (s : RootCertStore) (intermediates : list bytes) (revocation : option RevocationOptions) (now : Z)
    (supported_algs : list SignatureVerificationAlgorithm) : result Error.t unit :=
  checked (verify_for_usage cert supported_algs (roots s) intermediates now server_auth revocation).
Definition verify_server_cert_signed_by_trust_anchor (cert : EndEntityCert) (s : RootCertStore) (intermediates : list bytes) (now : Z)
    (supported_algs : list SignatureVerificationAlgorithm) : result Error.t unit :=
  verify_server_cert_signed_by_trust_anchor_impl cert s intermediates None now supported_algs.
Definition verify_server_name (cert : EndEntityCert) (server_name : ServerName) : result Error.t unit := checked (verify_is_valid_for_subject_name cert server_name).
(** [RevocationOptionsBuilder::new] fails for no lists, and the code unwraps it. *)
Definition revocation_options {E} (crls : list CertRevocationList) (depth : RevocationCheckDepth) (policy : UnknownStatusPolicy) : result E (option RevocationOptions) :=
  if bool_decide (length crls = 0%nat) then Ok None
  else match crls with [] => Panic | _ => Ok (Some {| ro_crls := crls; ro_depth := depth; ro_policy := policy |}) end.

(** ** The verifier of servers *)

Record ServerCertVerifierBuilder : Type := {
  sb_roots : RootCertStore; sb_crls : list bytes; sb_depth : RevocationCheckDepth; sb_policy : UnknownStatusPolicy; sb_algs : WebPkiSupportedAlgorithms }.
Definition server_builder (roots : RootCertStore) (algs : WebPkiSupportedAlgorithms) : ServerCertVerifierBuilder :=
  {| sb_roots := roots; sb_crls := []; sb_depth := Chain; sb_policy := Deny; sb_algs := algs |}.
Definition server_with_crls (crls : list bytes) (b : ServerCertVerifierBuilder) : ServerCertVerifierBuilder :=
  {| sb_roots := sb_roots b; sb_crls := sb_crls b ++ crls; sb_depth := sb_depth b; sb_policy := sb_policy b; sb_algs := sb_algs b |}.
Definition server_only_check_end_entity_revocation (b : ServerCertVerifierBuilder) : ServerCertVerifierBuilder :=
  {| sb_roots := sb_roots b; sb_crls := sb_crls b; sb_depth := EndEntity; sb_policy := sb_policy b; sb_algs := sb_algs b |}.
Definition server_allow_unknown_revocation_status (b : ServerCertVerifierBuilder) : ServerCertVerifierBuilder :=
  {| sb_roots := sb_roots b; sb_crls := sb_crls b; sb_depth := sb_depth b; sb_policy := Allow; sb_algs := sb_algs b |}.
Record WebPkiServerVerifier : Type := {
  sv_roots : RootCertStore; sv_crls : list CertRevocationList; sv_depth : RevocationCheckDepth; sv_policy : UnknownStatusPolicy; sv_supported : WebPkiSupportedAlgorithms }.
Definition server_build (b : ServerCertVerifierBuilder) : result VerifierBuilderError WebPkiServerVerifier :=
  if store_is_empty (sb_roots b) then Err NoRootAnchors
  else
    crls ← map_err InvalidCrl (parse_crls (sb_crls b));
    Ok {| sv_roots := sb_roots b; sv_crls := crls; sv_depth := sb_depth b; sv_policy := sb_policy b; sv_supported := sb_algs b |}.
Definition new_without_revocation (roots : RootCertStore) (supported_algs : WebPkiSupportedAlgorithms) : WebPkiServerVerifier :=
  {| sv_roots := roots; sv_crls := []; sv_depth := Chain; sv_policy := Allow; sv_supported := supported_algs |}.
(** The OCSP response is not used. *)
Definition server_verify_cert (v : WebPkiServerVerifier) (end_entity : bytes) (intermediates : list bytes) (server_name : ServerName) (ocsp_response : bytes) (now : Z) : result Error.t unit :=
  cert ← checked (ee_try_from end_entity);
  revocation ← revocation_options (sv_crls v) (sv_depth v) (sv_policy v);
  _ ← verify_server_cert_signed_by_trust_anchor_impl cert (sv_roots v) intermediates revocation now (all (sv_supported v));
  verify_server_name cert server_name.
Definition server_verifier (v : WebPkiServerVerifier) : ServerCertVerifier := {|
  verify_server_cert := server_verify_cert v;
  ClientBase.verify_tls12_signature m c d := verify_tls12_signature m c d (sv_supported v);
  ClientBase.verify_tls13_signature m c d := verify_tls13_signature m c d (sv_supported v);
  supported_verify_schemes := supported_schemes (sv_supported v) |}.

(** ** The verifier of clients *)

Inductive AnonymousClientPolicy : Type := AllowAnonymous | DenyAnonymous.
Record ClientCertVerifierBuilder : Type := {
  cb_roots : RootCertStore; cb_hints : list bytes; cb_crls : list bytes; cb_depth : RevocationCheckDepth; cb_policy : UnknownStatusPolicy;
  cb_anon : AnonymousClientPolicy; cb_algs : WebPkiSupportedAlgorithms }.
Definition client_builder (roots : RootCertStore) (algs : WebPkiSupportedAlgorithms) : ClientCertVerifierBuilder :=
  {| cb_roots := roots; cb_hints := subjects roots; cb_crls := []; cb_depth := Chain; cb_policy := Deny; cb_anon := DenyAnonymous; cb_algs := algs |}.
Definition clear_root_hint_subjects (b : ClientCertVerifierBuilder) : ClientCertVerifierBuilder :=
  {| cb_roots := cb_roots b; cb_hints := []; cb_crls := cb_crls b; cb_depth := cb_depth b; cb_policy := cb_policy b; cb_anon := cb_anon b; cb_algs := cb_algs b |}.
Definition add_root_hint_subjects (subjects : list bytes) (b : ClientCertVerifierBuilder) : ClientCertVerifierBuilder :=
  {| cb_roots := cb_roots b; cb_hints := cb_hints b ++ subjects; cb_crls := cb_crls b; cb_depth := cb_depth b; cb_policy := cb_policy b; cb_anon := cb_anon b; cb_algs := cb_algs b |}.
Definition client_with_crls (crls : list bytes) (b : ClientCertVerifierBuilder) : ClientCertVerifierBuilder :=
  {| cb_roots := cb_roots b; cb_hints := cb_hints b; cb_crls := cb_crls b ++ crls; cb_depth := cb_depth b; cb_policy := cb_policy b; cb_anon := cb_anon b; cb_algs := cb_algs b |}.
Definition client_only_check_end_entity_revocation (b : ClientCertVerifierBuilder) : ClientCertVerifierBuilder :=
  {| cb_roots := cb_roots b; cb_hints := cb_hints b; cb_crls := cb_crls b; cb_depth := EndEntity; cb_policy := cb_policy b; cb_anon := cb_anon b; cb_algs := cb_algs b |}.
Definition allow_unauthenticated (b : ClientCertVerifierBuilder) : ClientCertVerifierBuilder :=
  {| cb_roots := cb_roots b; cb_hints := cb_hints b; cb_crls := cb_crls b; cb_depth := cb_depth b; cb_policy := cb_policy b; cb_anon := AllowAnonymous; cb_algs := cb_algs b |}.
Definition client_allow_unknown_revocation_status (b : ClientCertVerifierBuilder) : ClientCertVerifierBuilder :=
  {| cb_roots := cb_roots b; cb_hints := cb_hints b; cb_crls := cb_crls b; cb_depth := cb_depth b; cb_policy := Allow; cb_anon := cb_anon b; cb_algs := cb_algs b |}.
Record WebPkiClientVerifier : Type := {
  cv_roots : RootCertStore; cv_hints : list bytes; cv_crls : list CertRevocationList; cv_depth : RevocationCheckDepth; cv_policy : UnknownStatusPolicy;
  cv_anon : AnonymousClientPolicy; cv_algs : WebPkiSupportedAlgorithms }.
Definition client_build (b : ClientCertVerifierBuilder) : result VerifierBuilderError WebPkiClientVerifier :=
  if store_is_empty (cb_roots b) then Err NoRootAnchors
  else
    crls ← map_err InvalidCrl (parse_crls (cb_crls b));
    Ok {| cv_roots := cb_roots b; cv_hints := cb_hints b; cv_crls := crls; cv_depth := cb_depth b; cv_policy := cb_policy b; cv_anon := cb_anon b; cv_algs := cb_algs b |}.
Definition client_verify_cert (v : WebPkiClientVerifier) (end_entity : bytes) (intermediates : list bytes) (now : Z) : result Error.t unit :=
  cert ← checked (ee_try_from end_entity);
  revocation ← revocation_options (cv_crls v) (cv_depth v) (cv_policy v);
  checked (verify_for_usage cert (all (cv_algs v)) (roots (cv_roots v)) intermediates now client_auth revocation).
Definition client_verifier (v : WebPkiClientVerifier) : ClientCertVerifier := {|
  offer_client_auth := true;
  client_auth_mandatory := match cv_anon v with AllowAnonymous => false | DenyAnonymous => true end;
  root_hint_subjects := cv_hints v;
  verify_client_cert := client_verify_cert v;
  sv_verify_tls12_signature m c d := verify_tls12_signature m c d (cv_algs v);
  sv_verify_tls13_signature m c d := verify_tls13_signature m c d (cv_algs v);
  sv_supported_verify_schemes := supported_schemes (cv_algs v) |}.
End webpki.

(** [NoClientAuth].  The two lists are [unimplemented!] as the checks are; a server
    that does not offer authentication does not look at them. *)
Definition no_client_auth : ClientCertVerifier := {|
  offer_client_auth := false; client_auth_mandatory := false; root_hint_subjects := []; verify_client_cert _ _ _ := Panic;
  sv_verify_tls12_signature _ _ _ := Panic; sv_verify_tls13_signature _ _ _ := Panic; sv_supported_verify_schemes := [] |}.

(** The algorithms of the ring provider. *)
Definition SUPPORTED_SIG_ALGS : WebPkiSupportedAlgorithms := {|
  all := [ECDSA_P256_SHA256; ECDSA_P256_SHA384; ECDSA_P384_SHA256; ECDSA_P384_SHA384; ED25519; RSA_PSS_2048_8192_SHA256_LEGACY_KEY; RSA_PSS_2048_8192_SHA384_LEGACY_KEY;
          RSA_PSS_2048_8192_SHA512_LEGACY_KEY; RSA_PKCS1_2048_8192_SHA256; RSA_PKCS1_2048_8192_SHA384; RSA_PKCS1_2048_8192_SHA512; RSA_PKCS1_3072_8192_SHA384];
  mapping := [
    (Known SignatureScheme.ECDSA_NISTP384_SHA384, [ECDSA_P384_SHA384; ECDSA_P256_SHA384]);
    (Known SignatureScheme.ECDSA_NISTP256_SHA256, [ECDSA_P256_SHA256; ECDSA_P384_SHA256]);
    (Known SignatureScheme.ED25519, [ED25519]);
    (Known SignatureScheme.RSA_PSS_SHA512, [RSA_PSS_2048_8192_SHA512_LEGACY_KEY]);
    (Known SignatureScheme.RSA_PSS_SHA384, [RSA_PSS_2048_8192_SHA384_LEGACY_KEY]);
    (Known SignatureScheme.RSA_PSS_SHA256, [RSA_PSS_2048_8192_SHA256_LEGACY_KEY]);
    (Known SignatureScheme.RSA_PKCS1_SHA512, [RSA_PKCS1_2048_8192_SHA512]);
    (Known SignatureScheme.RSA_PKCS1_SHA384, [RSA_PKCS1_2048_8192_SHA384]);
    (Known SignatureScheme.RSA_PKCS1_SHA256, [RSA_PKCS1_2048_8192_SHA256])] |}.

(** ** What the verifiers check *)

Section checks.
Context `{WebPki}.
Implicit Types (a : WebPkiSupportedAlgorithms) (d : DigitallySignedStruct.t).

Lemma checked_ok {T} (r : pki T) x : checked r = Ok x <-> r = inl x.
Proof. destruct r; cbn; naive_solver. Qed.
Lemma checked_safe {T} (r : pki T) : no_panic (checked r).
Proof. by destruct r. Qed.
(** The revocation lists that a check is given: none at all, or every one. *)
Definition revocation (crls : list CertRevocationList) depth policy : option RevocationOptions :=
  match crls with [] => None | _ => Some {| ro_crls := crls; ro_depth := depth; ro_policy := policy |} end.
Lemma revocation_options_ok {E} crls depth policy : revocation_options (E:=E) crls depth policy = Ok (revocation crls depth policy).
Proof. by destruct crls. Qed.
Lemma parse_crls_ok crls cs : parse_crls crls = Ok cs <-> Forall2 (fun der crl => crl_from_der der = inl crl) crls cs.
Proof.
  revert cs. induction crls as [|der crls IH]; intros cs; cbn [parse_crls].
  - split; [intros [= <-]; constructor|]. by inversion 1.
  - split.
    + destruct (crl_from_der der) as [crl|e] eqn:Hd; [|done]. intros Hb. apply bind_ok_inv in Hb as (rest & Hr & [= <-]). constructor; [done|]. by apply IH.
    + inversion 1 as [|? crl ? rest Hd Hr]; subst. rewrite Hd. cbn. apply IH in Hr. by rewrite Hr.
Qed.
Lemma parse_crls_safe crls : no_panic (parse_crls crls).
Proof. induction crls as [|der crls IH]; cbn; [done|]. destruct (crl_from_der der); [|done]. by destruct (parse_crls crls). Qed.

(** The candidates that [verify_tls12_signature] passes over. *)
Lemma try_algorithms_ok c m sig algs : try_algorithms c m sig algs = Ok tt <->
  exists before alg after, algs = before ++ alg :: after /\ verify_signature c alg m sig = inl tt /\
    Forall (fun x => verify_signature c x m sig = inr Pki.UnsupportedSignatureAlgorithmForPublicKey) before.
Proof.
  induction algs as [|x algs IH]; cbn [try_algorithms]; [split; [done|]; by intros ([|] & alg & after & ? & _)|]. split.
  - destruct (verify_signature c x m sig) as [[]|e] eqn:Hv; [intros _; by exists [], x, algs|]. destruct e; try done. intros Hr. apply IH in Hr as (before & alg & after & -> & Ha & Hb).
    exists (x :: before), alg, after. split; [done|]. split; [done|]. by constructor.
  - intros ([|y before] & alg & after & Heq & Ha & Hb); cbn in Heq; injection Heq as -> ->; [by rewrite Ha|]. inversion Hb as [|? ? Hy Hb']; subst. rewrite Hy. apply IH. by exists before, alg, after.
Qed.
Lemma tls12_signature_ok m c d a : verify_tls12_signature m c d a = Ok tt <->
  exists algs e before alg after, convert_scheme a (DigitallySignedStruct.scheme d) = Ok algs /\ ee_try_from c = inl e /\ algs = before ++ alg :: after /\
    verify_signature e alg m (DigitallySignedStruct.sig d) = inl tt /\
    Forall (fun x => verify_signature e x m (DigitallySignedStruct.sig d) = inr Pki.UnsupportedSignatureAlgorithmForPublicKey) before.
Proof.
  unfold verify_tls12_signature. split.
  - intros Hv. apply bind_ok_inv in Hv as (algs & Ha & Hv). apply bind_ok_inv in Hv as (e & He & Hv). apply checked_ok in He. apply try_algorithms_ok in Hv as (b & alg & r & ? & ? & ?). by exists algs, e, b, alg, r.
  - intros (algs & e & b & alg & r & -> & He & ? & ? & ?). cbn. rewrite He. cbn. apply try_algorithms_ok. by exists b, alg, r.
Qed.
Lemma tls13_signature_ok m c d a : verify_tls13_signature m c d a = Ok tt <->
  supported_in_tls13 (DigitallySignedStruct.scheme d) = true /\
  exists alg rest e, convert_scheme a (DigitallySignedStruct.scheme d) = Ok (alg :: rest) /\ ee_try_from c = inl e /\ verify_signature e alg m (DigitallySignedStruct.sig d) = inl tt.
Proof.
  unfold verify_tls13_signature. destruct (supported_in_tls13 _); cbn [negb]; [|naive_solver]. split.
  - intros Hv. split; [done|]. apply bind_ok_inv in Hv as (algs & Ha & Hv). destruct algs as [|alg rest]; [done|]. cbn in Hv. apply bind_ok_inv in Hv as (e & He & Hv).
    apply checked_ok in He, Hv. by exists alg, rest, e.
  - intros (_ & alg & rest & e & -> & He & Hv). cbn. rewrite He. cbn. by rewrite Hv.
Qed.
(** No scheme has an empty list of algorithms. *)
Definition algorithms_ok a : Prop := Forall (fun item => item.2 <> []) (mapping a).
Lemma convert_scheme_ok a scheme algs : algorithms_ok a -> convert_scheme a scheme = Ok algs -> algs <> [].
Proof.
  intros Ha. unfold convert_scheme. destruct (find _ (mapping a)) as [item|] eqn:Hf; [|done]. intros [= <-]. apply find_some in Hf as [Hi _].
  unfold algorithms_ok in Ha. rewrite List.Forall_forall in Ha. by apply Ha.
Qed.
Lemma signatures_safe m c d a : algorithms_ok a -> no_panic (verify_tls12_signature m c d a) /\ no_panic (verify_tls13_signature m c d a).
Proof.
  intros Ha. unfold verify_tls12_signature, verify_tls13_signature. pose proof (convert_scheme_ok a (DigitallySignedStruct.scheme d)) as Hc.
  assert (no_panic (convert_scheme a (DigitallySignedStruct.scheme d))) as Hn by (unfold convert_scheme; by destruct (find _ _)).
  destruct (convert_scheme a _) as [algs|e|]; [|by destruct (supported_in_tls13 _)|done]. split.
  - cbn. destruct (ee_try_from c) as [e|]; cbn; [|done]. clear Hc. induction algs as [|x algs IH]; cbn; [done|]. destruct (verify_signature e x _ _) as [|[]]; (done || by apply IH).
  - destruct (supported_in_tls13 _); [|done]. specialize (Hc algs Ha eq_refl). destruct algs as [|x algs]; [done|]. cbn. destruct (ee_try_from c); cbn; [|done]. by destruct (verify_signature _ _ _ _).
Qed.
Lemma server_verify_ok v ee inter name ocsp now : server_verify_cert v ee inter name ocsp now = Ok tt <->
  exists c, ee_try_from ee = inl c /\ verify_is_valid_for_subject_name c name = inl tt /\
    verify_for_usage c (all (sv_supported v)) (roots (sv_roots v)) inter now server_auth (revocation (sv_crls v) (sv_depth v) (sv_policy v)) = inl tt.
Proof.
  unfold server_verify_cert, verify_server_cert_signed_by_trust_anchor_impl, verify_server_name. split.
  - intros Hv. apply bind_ok_inv in Hv as (c & Hc & Hv). apply checked_ok in Hc. rewrite revocation_options_ok in Hv. cbn [mbind result_bind] in Hv.
    apply bind_ok_inv in Hv as ([] & Hu & Hv). apply checked_ok in Hu, Hv. by exists c.
  - intros (c & Hc & Hn & Hu). rewrite Hc. cbn [checked mbind result_bind]. rewrite revocation_options_ok. cbn [mbind result_bind]. rewrite Hu. cbn. by rewrite Hn.
Qed.
Lemma client_verify_ok v ee inter now : client_verify_cert v ee inter now = Ok tt <->
  exists c, ee_try_from ee = inl c /\ verify_for_usage c (all (cv_algs v)) (roots (cv_roots v)) inter now client_auth (revocation (cv_crls v) (cv_depth v) (cv_policy v)) = inl tt.
Proof.
  unfold client_verify_cert. split.
  - intros Hv. apply bind_ok_inv in Hv as (c & Hc & Hv). apply checked_ok in Hc. rewrite revocation_options_ok in Hv. cbn [mbind result_bind] in Hv. apply checked_ok in Hv. by exists c.
  - intros (c & Hc & Hu). rewrite Hc. cbn [checked mbind result_bind]. rewrite revocation_options_ok. cbn [mbind result_bind]. by rewrite Hu.
Qed.
End checks.

Section contract.
Context `{WebPki}.
(** C17: The verifier of server certificates accepts exactly what the configured checks
    accept.  A verifier that can be built has a root, and every revocation list that
    was given to the builder, in order, parsed; one that cannot be built has no roots
    or a list that does not parse.  It accepts a chain if and only if the end entity
    parses, is valid for the name, and has a path for server authentication to one of
    the roots at that time, with these lists, depth and policy (with no lists, without
    revocation); a TLS 1.3 signature if and only if the scheme is one of TLS 1.3 that
    it advertises and the first algorithm of that scheme verifies it; a TLS 1.2
    signature if and only if an algorithm of an advertised scheme does, those before
    it being for keys of another kind.  None of these checks panics.  (Every scheme in
    the table of algorithms is assumed to list at least one, as in the table of the
    ring provider.) *)
Theorem server_verifier_exact b : algorithms_ok (sb_algs b) ->
  match server_build b with
  | Ok v => roots (sb_roots b) <> [] /\ Forall2 (fun der crl => crl_from_der der = inl crl) (sb_crls b) (sv_crls v) /\
      (forall ee inter name ocsp now, verify_server_cert (server_verifier v) ee inter name ocsp now = Ok tt <->
         exists c, ee_try_from ee = inl c /\ verify_is_valid_for_subject_name c name = inl tt /\
           verify_for_usage c (all (sb_algs b)) (roots (sb_roots b)) inter now server_auth (revocation (sv_crls v) (sb_depth b) (sb_policy b)) = inl tt) /\
      (forall m c d, ClientBase.verify_tls13_signature (server_verifier v) m c d = Ok tt <->
         supported_in_tls13 (DigitallySignedStruct.scheme d) = true /\ exists alg rest e, convert_scheme (sb_algs b) (DigitallySignedStruct.scheme d) = Ok (alg :: rest) /\
           ee_try_from c = inl e /\ verify_signature e alg m (DigitallySignedStruct.sig d) = inl tt) /\
      (forall m c d, ClientBase.verify_tls12_signature (server_verifier v) m c d = Ok tt <->
         exists algs e before alg after, convert_scheme (sb_algs b) (DigitallySignedStruct.scheme d) = Ok algs /\ ee_try_from c = inl e /\ algs = before ++ alg :: after /\
           verify_signature e alg m (DigitallySignedStruct.sig d) = inl tt /\
           Forall (fun x => verify_signature e x m (DigitallySignedStruct.sig d) = inr Pki.UnsupportedSignatureAlgorithmForPublicKey) before) /\
      (forall ee inter name ocsp now m c d, no_panic (verify_server_cert (server_verifier v) ee inter name ocsp now) /\
         no_panic (ClientBase.verify_tls13_signature (server_verifier v) m c d) /\ no_panic (ClientBase.verify_tls12_signature (server_verifier v) m c d))
  | Err e => e = NoRootAnchors /\ roots (sb_roots b) = [] \/ exists der, der ∈ sb_crls b /\ exists p, crl_from_der der = inr p /\ e = InvalidCrl (crl_error p)
  | Panic => False
  end.
Proof.
  intros Ha. unfold server_build, store_is_empty, store_len. destruct (roots (sb_roots b)) as [|r rs] eqn:Hr; cbn [length Nat.eqb]; [by left|].
  pose proof (parse_crls_safe (sb_crls b)) as Hs. destruct (parse_crls (sb_crls b)) as [crls|e|] eqn:Hp; cbn [map_err mbind result_bind]; [| |done].
  - cbn [sv_crls]. split; [done|]. split; [by apply parse_crls_ok|]. rewrite <- Hr. split_and!; intros; cbn [server_verifier verify_server_cert ClientBase.verify_tls13_signature ClientBase.verify_tls12_signature sv_supported].
    + apply server_verify_ok.
    + apply tls13_signature_ok.
    + apply tls12_signature_ok.
    + split; [|destruct (signatures_safe m c d (sb_algs b) Ha); done]. unfold server_verify_cert, verify_server_cert_signed_by_trust_anchor_impl, verify_server_name.
      destruct (ee_try_from ee) as [x|]; [|done]. cbn [checked mbind result_bind]. rewrite revocation_options_ok. cbn [mbind result_bind]. destruct (verify_for_usage _ _ _ _ _ _ _); [|done]. cbn. by destruct (verify_is_valid_for_subject_name _ _).
  - right. revert Hp. clear. induction (sb_crls b) as [|der crls IH]; cbn [parse_crls]; [done|]. destruct (crl_from_der der) as [crl|p] eqn:Hd.
    + destruct (parse_crls crls) as [cs|e'|]; cbn; try done. intros [= <-]. destruct (IH eq_refl) as (der' & Hi & p & Hp & ->). exists der'. split; [by right|]. by exists p.
    + intros [= <-]. exists der. split; [left|]. by exists p.
Qed.
End contract.

(** The table of the ring provider: every scheme has an algorithm, once, every
    algorithm is one for chains as well, and the first algorithm of a scheme of
    TLS 1.3 has the curve and the digest that the scheme fixes. *)
Lemma supported_sig_algs_ok : algorithms_ok SUPPORTED_SIG_ALGS /\ NoDup (supported_schemes SUPPORTED_SIG_ALGS) /\ Forall (fun item => Forall (fun alg => alg ∈ all SUPPORTED_SIG_ALGS) item.2) (mapping SUPPORTED_SIG_ALGS).
Proof. split; [by repeat constructor|]. split; [apply (bool_decide_unpack _); by vm_compute|apply (bool_decide_unpack _); by vm_compute]. Qed.

(** ** A concrete crate *)

(** A certificate is the kind of its key and the key; a signature is the number of the
    algorithm, the key and the message.  Any chain leads to any root, and a name is
    valid. *)
#[export] Instance toy_pki_types : PkiTypes := {| EndEntityCert := Z * bytes; TrustAnchor := bytes; CertRevocationList := bytes |}.
Definition algorithm_kind (a : SignatureVerificationAlgorithm) : Z :=
  match a with
  | ECDSA_P256_SHA256 | ECDSA_P256_SHA384 => 1 | ECDSA_P384_SHA256 | ECDSA_P384_SHA384 => 2 | ED25519 => 3
  | _ => 4
  end.
Definition algorithm_number (a : SignatureVerificationAlgorithm) : Z :=
  match a with
  | ECDSA_P256_SHA256 => 0 | ECDSA_P256_SHA384 => 1 | ECDSA_P384_SHA256 => 2 | ECDSA_P384_SHA384 => 3 | ED25519 => 4 | RSA_PSS_2048_8192_SHA256_LEGACY_KEY => 5
  | RSA_PSS_2048_8192_SHA384_LEGACY_KEY => 6 | RSA_PSS_2048_8192_SHA512_LEGACY_KEY => 7 | RSA_PKCS1_2048_8192_SHA256 => 8 | RSA_PKCS1_2048_8192_SHA384 => 9
  | RSA_PKCS1_2048_8192_SHA512 => 10 | RSA_PKCS1_3072_8192_SHA384 => 11
  end.
#[export] Instance toy_webpki : WebPki := {|
  ee_try_from bs := match bs with kind :: key => inl (kind, key) | [] => inr Pki.BadDer end;
  verify_for_usage _ _ anchors _ _ _ _ := match anchors with [] => inr Pki.UnknownIssuer | _ => inl tt end;
  verify_signature c alg m sig := if bool_decide (c.1 = algorithm_kind alg) then if bool_decide (sig = algorithm_number alg :: c.2 ++ m) then inl tt else inr Pki.InvalidSignatureForPublicKey
                                  else inr Pki.UnsupportedSignatureAlgorithmForPublicKey;
  verify_is_valid_for_subject_name _ _ := inl tt;
  anchor_from_trusted_cert bs := match bs with [] => inr Pki.BadDer | _ => inl bs end;
  subject anchor := anchor;
  crl_from_der bs := match bs with [255] => inr Pki.BadDer | _ => inl bs end |}.
Definition toy_roots : RootCertStore := {| roots := [[1; 2; 3]] |}.
Lemma server_verifier_exact_witness : exists v, server_build (server_with_crls [[1]; [2]] (server_builder toy_roots SUPPORTED_SIG_ALGS)) = Ok v /\
  verify_server_cert (server_verifier v) [3; 9] [] (DnsName []) [] 0 = Ok tt /\ verify_server_cert (server_verifier v) [] [] (DnsName []) [] 0 <> Ok tt.
Proof.
  pose proof (server_verifier_exact (server_with_crls [[1]; [2]] (server_builder toy_roots SUPPORTED_SIG_ALGS)) (proj1 supported_sig_algs_ok)) as Hv.
  destruct (server_build _) as [v|e|] eqn:Hb; [|discriminate|discriminate]. destruct Hv as (_ & _ & Hc & _). exists v. split; [reflexivity|]. split.
  - apply Hc. exists (3, [9]). split; [reflexivity|]. split; reflexivity.
  - intros Hbad. apply Hc in Hbad as (c & Hbad & _). discriminate.
Defined.
