(* ===== verification/Builders.v ===== *)
(** * Building configurations
    (orcax/rustls-fork/rustls/src/builder.rs, client/builder.rs, server/builder.rs, crypto/ring/mod.rs)

    The steps from a provider to the configuration of a client or a server, and what
    they guarantee: a configuration that was built can start a handshake. *)
From S2P Require Import Prelude Codec TlsLayer VecBuf Enums Wire Messages Payloads Ciphers Suites Errors Common CommonLaws Hkdf KeySchedule Transcript Tls12 Crates Reality Persist Conn PayloadLaws Context SessionCache ClientBase ClientTls13 ClientTls12 ClientHs ServerBase ServerExt ServerTls13 ServerTls12 ServerHs Samples Sign WebPki.
Import CommonState.

(** ** The provider *)

(** [CryptoProvider] with all its fields; the random source is part of the world. *)
Record Provider : Type := {
  crypto : CryptoProvider; signature_verification_algorithms : WebPkiSupportedAlgorithms; key_provider : PrivateKeyDer -> result Error.t SigningKey }.
Definition default_provider {R : RingSigning} {G : RingAgreement} : Provider := {|
  crypto := {| cipher_suites := DEFAULT_CIPHER_SUITES; kx_groups := ALL_KX_GROUPS |};
  signature_verification_algorithms := SUPPORTED_SIG_ALGS;
  key_provider := load_private_key |}.

(** ** Versions *)

Record WantsVersions : Type := { wv_provider : Provider }.
Record WantsVerifier : Type := { wr_provider : Provider; wr_versions : EnabledVersions }.
Definition builder_with_provider (p : Provider) : WantsVersions := {| wv_provider := p |}.
Definition with_protocol_versions (b : WantsVersions) (versions : list ProtocolVersion) : result Error.t WantsVerifier :=
  let any_usable_suite := existsb (fun suite => bool_decide (suite_version suite ∈ versions)) (cipher_suites (crypto (wv_provider b))) in
  if negb any_usable_suite then Err Error.General
  else if bool_decide (kx_groups (crypto (wv_provider b)) = []) then Err Error.General
  else Ok {| wr_provider := wv_provider b; wr_versions := enabled_versions versions |}.
(** [versions::DEFAULT_VERSIONS] is [ALL_VERSIONS]. *)
Definition with_safe_default_protocol_versions (b : WantsVersions) : result Error.t WantsVerifier := with_protocol_versions b ALL_VERSIONS.
(** [builder] and [builder_with_protocol_versions] unwrap. *)
Definition unwrap_builder {E F T} (r : result E T) : result F T := match r with Ok x => Ok x | _ => Panic end.
Definition builder_with_protocol_versions {R : RingSigning} {G : RingAgreement} {F} (versions : list ProtocolVersion) : result F WantsVerifier :=
  unwrap_builder (with_protocol_versions (builder_with_provider default_provider) versions).
Definition builder {R : RingSigning} {G : RingAgreement} {F} : result F WantsVerifier :=
  unwrap_builder (with_safe_default_protocol_versions (builder_with_provider default_provider)).

(** ** Clients *)

Definition NoKeyLog : KeyLog := {| will_log _ := false |}.
Record WantsClientCert : Type := { wc_provider : Provider; wc_versions : EnabledVersions; wc_verifier : ServerCertVerifier }.
(** [with_custom_certificate_verifier], and [with_webpki_verifier] for a verifier of
    this library. *)
Definition with_custom_certificate_verifier (b : WantsVerifier) (verifier : ServerCertVerifier) : WantsClientCert :=
  {| wc_provider := wr_provider b; wc_versions := wr_versions b; wc_verifier := verifier |}.
Definition with_webpki_verifier `{WebPki} (b : WantsVerifier) (v : WebPkiServerVerifier) : WantsClientCert := with_custom_certificate_verifier b (server_verifier v).
Definition with_root_certificates `{WebPki} (b : WantsVerifier) (root_store : RootCertStore) : WantsClientCert :=
  with_webpki_verifier b (new_without_revocation root_store (signature_verification_algorithms (wr_provider b))).
(** [with_client_cert_resolver]; the store of [Resumption::default] goes beside the
    configuration. *)
Definition with_client_cert_resolver (b : WantsClientCert) (resolver : ResolvesClientCert) : ClientConfig * MemoryCache := ({|
  ClientBase.provider := crypto (wc_provider b); ClientBase.alpn_protocols := []; tls12_resumption := resumption_tls12 default_resumption; ClientBase.max_fragment := None;
  client_auth_cert_resolver := resolver; ClientBase.versions := wc_versions b; enable_sni := true; ClientBase.verifier := wc_verifier b; ClientBase.key_log := NoKeyLog;
  ClientBase.enable_extraction := false; enable_early_data := false; reality_client_config := None |}, resumption_store default_resumption).
Definition client_with_no_client_auth (b : WantsClientCert) : ClientConfig * MemoryCache := with_client_cert_resolver b fail_resolve_client_cert.
Definition with_client_auth_cert (b : WantsClientCert) (cert_chain : list bytes) (key_der : PrivateKeyDer) : result Error.t (ClientConfig * MemoryCache) :=
  private_key ← key_provider (wc_provider b) key_der;
  Ok (with_client_cert_resolver b (always_resolves_client_cert private_key cert_chain)).

(** ** Servers *)

Record WantsServerCert : Type := { ws_provider : Provider; ws_versions : EnabledVersions; ws_verifier : ClientCertVerifier }.
Definition with_client_cert_verifier (b : WantsVerifier) (verifier : ClientCertVerifier) : WantsServerCert :=
  {| ws_provider := wr_provider b; ws_versions := wr_versions b; ws_verifier := verifier |}.
Definition server_with_no_client_auth (b : WantsVerifier) : WantsServerCert := with_client_cert_verifier b no_client_auth.
Definition with_cert_resolver (b : WantsServerCert) (cert_resolver : ResolvesServerCert) : ServerConfig * Limited.LimitedCache bytes bytes := ({|
  reality_config := None; provider := crypto (ws_provider b); ignore_client_order := false; max_fragment := None; ticketer := NeverProducesTickets;
  ServerBase.cert_resolver := cert_resolver; alpn_protocols := []; versions := ws_versions b; verifier := ws_verifier b; key_log := NoKeyLog; enable_extraction := false;
  max_early_data_size := 0; send_half_rtt_data := false; send_tls13_tickets := 4 |}, Limited.new 256).
Definition with_single_cert_with_ocsp (b : WantsServerCert) (cert_chain : list bytes) (key_der : PrivateKeyDer) (ocsp : bytes) : result Error.t (ServerConfig * Limited.LimitedCache bytes bytes) :=
  private_key ← key_provider (ws_provider b) key_der;
  Ok (with_cert_resolver b (always_resolves_chain private_key cert_chain ocsp)).
Definition with_single_cert (b : WantsServerCert) (cert_chain : list bytes) (key_der : PrivateKeyDer) : result Error.t (ServerConfig * Limited.LimitedCache bytes bytes) :=
  with_single_cert_with_ocsp b cert_chain key_der [].

(** ** What was built can start *)

(** A provider with a group, and a suite of an enabled version. *)
Definition usable (p : CryptoProvider) (ev : EnabledVersions) : Prop :=
  kx_groups p <> [] /\ exists suite, In suite (cipher_suites p) /\ contains ev (suite_version suite) = true.
Lemma enabled_contains v vs : v = Known TLSv1_2 \/ v = Known TLSv1_3 -> contains (enabled_versions vs) v = bool_decide (v ∈ vs).
Proof.
  intros Hv. unfold enabled_versions. assert (forall ev, contains (fold_left (fun ev v => match v with Known TLSv1_2 => {| ev_tls12 := true; ev_tls13 := ev_tls13 ev |}
    | Known TLSv1_3 => {| ev_tls12 := ev_tls12 ev; ev_tls13 := true |} | _ => ev end) vs ev) v = contains ev v || bool_decide (v ∈ vs)) as Hg; [|rewrite Hg; by destruct Hv as [-> | ->]].
  induction vs as [|u vs IH]; intros ev; cbn [fold_left]; [by rewrite bool_decide_eq_false_2, orb_false_r by set_solver|]. rewrite IH.
  rewrite (bool_decide_ext (v ∈ u :: vs) (v = u \/ v ∈ vs)) by set_solver. rewrite bool_decide_or, orb_assoc. f_equal.
  destruct (decide (v = u)) as [<-|Hne]; [rewrite (bool_decide_eq_true_2 (v = v)), orb_true_r by done; by destruct Hv as [-> | ->]|].
  rewrite (bool_decide_eq_false_2 (v = u)), orb_false_r by done. destruct Hv as [-> | ->], u as [[]|]; done.
Qed.
Lemma suite_version_known s : suite_version s = Known TLSv1_2 \/ suite_version s = Known TLSv1_3.
Proof. destruct s; auto. Qed.
Lemma with_protocol_versions_usable b vs :
  match with_protocol_versions b vs with
  | Ok r => wr_provider r = wv_provider b /\ usable (crypto (wv_provider b)) (wr_versions r)
  | Err _ => kx_groups (crypto (wv_provider b)) = [] \/ forall suite, In suite (cipher_suites (crypto (wv_provider b))) -> suite_version suite ∉ vs
  | Panic => False
  end.
Proof.
  unfold with_protocol_versions. destruct (existsb _ _) eqn:He; cbn [negb].
  - case_bool_decide; [by left|]. split; [done|]. split; [done|]. apply existsb_exists in He as (suite & Hi & Hs). exists suite. split; [done|]. cbn [wr_versions]. by rewrite enabled_contains by apply suite_version_known.
  - right. intros suite Hi Hv. assert (existsb (fun suite => bool_decide (suite_version suite ∈ vs)) (cipher_suites (crypto (wv_provider b))) = true); [|congruence].
    apply existsb_exists. exists suite. by rewrite bool_decide_eq_true_2.
Qed.

Section start.
Context {H : Hashing} {P : Hkdf} {A : RingAead} `{DnsNames} `{Profile} {Store : Type} {S : ClientSessionStore Store}.
Abbreviation ctx := (Context (ClientConnectionData Store)).
(** The random source gives [n] more draws. *)
Definition plenty (n : nat) (w : world) : Prop := (n <= length (rng w))%nat /\ Forall is_Some (rng w).
(** A key pair can be made from any draw, in every group. *)
Definition generates (p : CryptoProvider) : Prop := forall g seed, In g (kx_groups p) -> is_Some (start g seed).
Context (lucky : bool).
(** A computation that succeeds as [Q] says or, without luck, finds the random source
    failing. *)
Definition starts {T} (m : Cx (ClientConnectionData Store) T) (Q : T -> ctx -> Prop) (cx : ctx) : Prop :=
  match m cx with (Ok v, cx') => Q v cx' | (Err e, _) => e = Error.FailedToGetRandomBytes /\ lucky = false | (Panic, _) => False end.
Lemma starts_bind {T U} (m : Cx _ T) (f : T -> Cx _ U) Q cx : starts m (fun v cx' => starts (f v) Q cx') cx -> starts (x ← m; f x) Q cx.
Proof. unfold starts, mbind, Cx_bind. by destruct (m cx) as [[v|e|] cx']. Qed.
Lemma starts_mono {T} (m : Cx _ T) (Q R : T -> ctx -> Prop) cx : starts m Q cx -> (forall v cx', Q v cx' -> R v cx') -> starts m R cx.
Proof. unfold starts. destruct (m cx) as [[v|e|] cx']; auto. Qed.
Lemma starts_then {T U} (m : Cx _ T) (f : T -> Cx _ U) (R : T -> ctx -> Prop) Q cx :
  starts m R cx -> (forall v cx', R v cx' -> starts (f v) Q cx') -> starts (x ← m; f x) Q cx.
Proof. intros Hm Hf. apply starts_bind. by eapply starts_mono. Qed.
(** A connection over TCP that has sent nothing and offers no early data, with [n]
    draws to come. *)
Record fresh (n : nat) (cx : ctx) : Prop := {
  fresh_tcp : protocol (cx_common cx) = Tcp;
  fresh_frag : (0 < max_frag (message_fragmenter (cx_common cx)))%nat;
  fresh_gate : is_handshaking (cx_common cx) = true;
  fresh_early : EarlyData.is_enabled (ClientBase.early_data (cx_data cx)) = false;
  fresh_luck : lucky = true -> plenty n (cx_world cx)
}.
Lemma starts_random k n cx : fresh (Datatypes.S n) cx -> starts (random_vec k) (fun _ cx' => fresh n cx') cx.
Proof.
  intros [Ht Hf Hg He Hl]. unfold starts, random_vec, plenty in *. destruct (rng (cx_world cx)) as [|[bs|] r] eqn:Hr; try rewrite Hr in Hl; [|split; try done|].
  - split; [done|]. destruct lucky; [|done]. destruct Hl as [Hl _]; [done|]. inversion Hl.
  - intros Hk. destruct (Hl Hk) as [Hn Hs]. unfold plenty. cbn [cx_world rng drop length] in *. inversion Hs; subst. rewrite drop_0. split; [lia|done].
  - split; [done|]. destruct lucky; [|done]. destruct Hl as [_ Hl]; [done|]. inversion Hl as [|? ? [? ?]]. done.
Qed.
Lemma starts_kx g n cx : (lucky = true -> forall seed, is_Some (start g seed)) -> fresh (Datatypes.S n) cx -> starts (start_kx g) (fun _ cx' => fresh n cx') cx.
Proof.
  intros Hg Hf. unfold start_kx. eapply starts_then; [by apply starts_random|]. intros v cx' Hf'. unfold starts. destruct (start g v) eqn:E; [done|].
  split; [done|]. destruct lucky; [|done]. destruct (Hg eq_refl v) as [? ?]. congruence.
Qed.
Lemma starts_key_share c name n cx : kx_groups (ClientBase.provider c) <> [] -> (lucky = true -> generates (ClientBase.provider c)) -> fresh (Datatypes.S n) cx ->
  starts (initial_key_share c name) (fun _ cx' => fresh n cx') cx.
Proof.
  intros Hk Hgen Hf. unfold initial_key_share. apply starts_bind. unfold starts at 1, get_data. destruct (g ← _; find_kx_group c g) as [g|] eqn:E.
  - apply starts_kx; [|done]. intros Hl seed. apply Hgen; [done|]. apply bind_Some in E as (h & _ & E). by apply find_some in E as [E _].
  - destruct (kx_groups _) as [|g gs] eqn:Eg; [done|]. apply starts_kx; [|done]. intros Hl seed. apply Hgen; [done|]. rewrite Eg. by left.
Qed.
(** A message in clear is queued. *)
Lemma starts_send m n cx : fresh n cx -> starts (common (send_msg m false)) (fun _ cx' => fresh n cx' /\
  (payload (Message.into_plain m) <> [] -> wants_write (cx_common cx') = true)) cx.
Proof.
  intros [Ht Hfr Hg He Hl]. destruct cx as [c d w]. cbn [cx_common cx_data cx_world] in *. unfold starts, common, send_msg, send_msg_with, mbind, Cm_bind, gets, is_quic. cbn [cx_common].
  rewrite Ht, bool_decide_eq_false_2 by done. cbn [negb]. unfold fragments, fragment_message, TlsLayer.chunks. rewrite (proj2 (Nat.eqb_neq _ _)) by lia. cbn [mbind result_bind].
  set (ps := chunks_fuel _ _ _). assert (payload (Message.into_plain m) <> [] -> ps <> []) as Hps.
  { intros Hne. destruct (chunks_fuel_spec (length (payload (Message.into_plain m))) (max_frag (message_fragmenter c)) (payload (Message.into_plain m))) as [Hc _]; [lia|lia|].
    intros E. fold ps in Hc. rewrite E in Hc. by rewrite <- Hc in Hne. }
  clearbody ps. set (mk := fun p : bytes => _). set (ms := map mk ps). assert (ps <> [] -> ms <> []) as Hms by (unfold ms; by destruct ps). clearbody ms. clear mk.
  assert (forall ms (c : CommonState (K:=cipher)), each queue_tls_message ms c = (Ok tt, CommonLaws.sent ms (record_layer c) c)) as Hq.
  { clear. intros ms. induction ms as [|m ms IH]; intros c; cbn [each]; [by rewrite sent_nil|]. unfold mbind, Cm_bind. rewrite queue_eq, IH. f_equal. unfold CommonLaws.sent. destruct c. cbn. by rewrite <- app_assoc. }
  rewrite Hq. split.
  - split; cbn; try done; by destruct c.
  - intros Hne. unfold wants_write, is_empty. cbn. specialize (Hms (Hps Hne)). destruct ms; [done|]. cbn. by destruct (VecBuf.chunks _).
Qed.
(** A store that knows nothing of the server but perhaps a group. *)
Definition no_sessions (name : ServerName) (s : Store) : Prop := (take_tls13_ticket name s).1 = None /\ tls12_session name (take_tls13_ticket name s).2 = None.
Lemma starts_find name n cx : no_sessions name (ClientBase.session_store (cx_data cx)) -> fresh n cx -> starts (ClientHs.find_session name) (fun r cx' => r = None /\ fresh n cx') cx.
Proof.
  intros [H13 H12] [Ht Hf Hg He Hl]. unfold starts, ClientHs.find_session, mbind, Cx_bind, get_data, storing, set_data, time_now. cbn [cx_data]. rewrite H13. cbn [ClientBase.set_session_store ClientBase.session_store]. rewrite H12.
  cbn [fmap option_fmap option_map]. by split; [|split].
Qed.
(** The name of the server can go into the hello. *)
Definition nameable (c : ClientConfig) (name : ServerName) : Prop :=
  match name with DnsName dns => enable_sni c = true -> exists e, ClientExtension.make_sni dns = Ok e | IpAddress _ => True end.
Lemma hello_extensions_ok c name b12 b13 ks cookie extra : nameable c name -> exists exts, hello_extensions c name b12 b13 ks cookie extra = Ok exts.
Proof. intros Hn. unfold hello_extensions. destruct name; [|by eexists]. cbn in Hn. destruct (enable_sni c); [|by eexists]. destruct Hn as [e ->]; [done|]. by eexists. Qed.
(** A client that offers no session. *)
Definition offers_none (st : ClientState) : Prop :=
  match st with
  | WaitServerHello x | WaitServerHelloOrHelloRetryRequest x _ => ClientHs.resuming (input x) = None /\ early_key_schedule x = None
  | _ => False
  end.
Lemma hello_nonempty v (ch : ClientHelloPayload.t) : payload (Message.into_plain {| Message.version := v; Message.payload := MessagePayload.handshake (client_hello ch) |}) <> [].
Proof. unfold Message.into_plain, MessagePayload.handshake. cbn [payload Message.payload MessagePayload.encode app]. by rewrite message_encoding. Qed.
Lemma starts_hello tb ks extra inp n cx : ClientHs.resuming inp = None -> nameable (ClientHs.config inp) (ClientHs.server_name inp) ->
  ClientBase.supports_version (ClientHs.config inp) (Known TLSv1_2) = true \/ ClientBase.supports_version (ClientHs.config inp) (Known TLSv1_3) = true -> fresh n cx ->
  starts (emit_client_hello_for_retry tb None ks extra None inp) (fun st cx' => fresh n cx' /\ offers_none st /\ wants_write (cx_common cx') = true) cx.
Proof.
  intros Hr Hn Hv Hf. unfold emit_client_hello_for_retry. apply starts_bind. unfold starts at 1, get. unfold is_quic. rewrite (fresh_tcp _ _ Hf), bool_decide_eq_false_2 by done.
  cbn [negb]. rewrite andb_true_r. replace (negb (_ || _)) with false by (destruct Hv as [-> | ->]; by rewrite ?orb_true_r).
  apply starts_bind. unfold starts at 1, res. destruct (hello_extensions_ok (ClientHs.config inp) (ClientHs.server_name inp) (ClientBase.supports_version (ClientHs.config inp) (Known TLSv1_2))
    (ClientBase.supports_version (ClientHs.config inp) (Known TLSv1_3)) ks None extra Hn) as [exts Ex]. cbn [mbind option_bind]. rewrite Ex.
  apply starts_bind. unfold ClientHs.offer_session. rewrite Hr. unfold starts at 1, mret, Cx_ret. apply starts_bind. unfold starts at 1, get. do 2 (apply starts_bind; unfold starts at 1).
  eapply starts_then; [by apply starts_send|]. intros v cx' [Hf' Hw]. apply starts_bind. unfold starts at 1, early_enabled, get_data. apply starts_bind. unfold starts. cbn [cx_common].
  split; [done|]. split; [by destruct (ClientBase.supports_version (ClientHs.config inp) (Known TLSv1_3))|]. apply Hw, hello_nonempty.
Qed.
Lemma starts_handshake name extra c cx : usable (ClientBase.provider c) (ClientBase.versions c) -> nameable c name -> no_sessions name (ClientBase.session_store (cx_data cx)) ->
  (lucky = true -> generates (ClientBase.provider c)) -> fresh 3 cx ->
  starts (ClientHs.start_handshake name extra c) (fun st cx' => fresh 0 cx' /\ offers_none st /\ wants_write (cx_common cx') = true) cx.
Proof.
  intros [Hk (suite & Hi & Hs)] Hn Hc Hg Hf. unfold ClientHs.start_handshake. eapply starts_then; [by apply starts_find|]. intros r cx1 [-> Hf1].
  eapply (starts_then _ _ (fun _ cx' => fresh 2 cx')).
  { destruct (ClientBase.supports_version _ _); [eapply starts_then; [by apply starts_key_share|]; by intros|].
    unfold starts. destruct Hf1 as [? ? ? ? Hl]. split; try done. intros Hlk. destruct (Hl Hlk). split; [lia|done]. }
  intros ks cx2 Hf2. apply starts_bind. unfold starts at 1. cbn [resumed_session_id]. unfold mret, Cx_ret. apply starts_bind. unfold starts at 1, get. unfold is_quic.
  rewrite (fresh_tcp _ _ Hf2), bool_decide_eq_false_2 by done. eapply (starts_then _ _ (fun _ cx' => fresh 1 cx')).
  { destruct (negb _); [|eapply starts_then; [by apply starts_random|]; by intros].
    unfold starts. destruct Hf2 as [? ? ? ? Hl]. split; try done. intros Hlk. destruct (Hl Hlk). split; [lia|done]. }
  intros id cx3 Hf3. eapply starts_then; [by apply starts_random|]. intros rnd cx4 Hf4. apply starts_hello; try done.
  cbn [ClientHs.config]. unfold ClientBase.supports_version. assert (forall v, suite_version suite = v -> contains (ClientBase.versions c) v &&
    existsb (fun cs => bool_decide (suite_version cs = v)) (cipher_suites (ClientBase.provider c)) = true) as Hsv.
  { intros v Hv. rewrite <- Hv, Hs. apply existsb_exists. exists suite. by rewrite bool_decide_eq_true_2. }
  destruct (suite_version_known suite); auto.
Qed.
End start.

(** ** Connections of built configurations *)

Section built.
Context {H : Hashing} {P : Hkdf} {A : RingAead} `{DnsNames} `{Profile}.
Lemma new_store_empty size name : no_sessions name (Sessions.new_store size : MemoryCache).
Proof. by unfold no_sessions, Sessions.new_store, Limited.new; cbn; unfold Sessions.take_tls13_ticket, Sessions.tls12_session; rewrite ?lookup_empty. Qed.
Lemma new_client_fresh lucky (s : MemoryCache) w : (lucky = true -> plenty 3 w) ->
  fresh lucky 3 {| cx_common := set_extraction false (set_protocol Tcp (CommonState.new Client)); cx_data := new_data s; cx_world := w |}.
Proof. intros Hl. split; try done. apply Nat.ltb_lt. by vm_compute. Qed.
Lemma default_fragments side : max_fragment_size None (CommonState.new (K:=cipher) side) = (Ok tt, CommonState.new side).
Proof. done. Qed.

(** C18: a configuration that the builders accept can start a handshake. Versions are
    accepted by [with_protocol_versions] exactly when the provider has a group and a
    suite of one of them; then, whatever the verifiers and resolvers, the client over
    TCP with the store that comes with the configuration never panics: it is
    handshaking, with its hello to write, or the random source or the generation of a
    key pair failed. A server is ready to read. *)
Theorem built_configs_start (p : Provider) (versions : list ProtocolVersion) (v : ServerCertVerifier) (resolver : ResolvesClientCert) (cv : ClientCertVerifier) (cr : ResolvesServerCert)
    (name : ServerName) extra w :
  (forall dns, name = DnsName dns -> exists e, ClientExtension.make_sni dns = Ok e) ->
  match with_protocol_versions (builder_with_provider p) versions with
  | Ok b =>
      (let '(c, store) := with_client_cert_resolver (with_custom_certificate_verifier b v) resolver in
       match for_client c name extra Tcp store w with
       | Ok core => is_handshaking (common_state core) = true /\ wants_write (common_state core) = true
       | Err e => e = Error.FailedToGetRandomBytes /\ ~ (plenty 3 w /\ generates (crypto p))
       | Panic => False
       end) /\
      (let '(c, store) := with_cert_resolver (with_client_cert_verifier b cv) cr in
       exists core, for_server c [] store w = Ok core /\ wants_read (common_state core) = true /\ wants_write (common_state core) = false) /\
      kx_groups (crypto p) <> [] /\ (exists suite, In suite (cipher_suites (crypto p)) /\ suite_version suite ∈ versions)
  | Err _ => kx_groups (crypto p) = [] \/ forall suite, In suite (cipher_suites (crypto p)) -> suite_version suite ∉ versions
  | Panic => False
  end.
Proof.
  intros Hname. pose proof (with_protocol_versions_usable (builder_with_provider p) versions) as Hu. destruct (with_protocol_versions _ _) as [b|e|] eqn:Eb; [|done|done].
  cbn [wv_provider builder_with_provider] in Hu. destruct Hu as [Hp Hu].
  split; [|split; [by eexists|]].
  - cbn [with_client_cert_resolver with_custom_certificate_verifier wc_provider wc_versions wc_verifier]. rewrite Hp. set (c := {| ClientBase.provider := _ |}).
    assert (forall lucky, (lucky = true -> plenty 3 w /\ generates (crypto p)) -> starts lucky (ClientHs.start_handshake name extra c)
      (fun st cx' => fresh lucky 0 cx' /\ offers_none st /\ wants_write (cx_common cx') = true)
      {| cx_common := set_extraction false (set_protocol Tcp (CommonState.new Client)); cx_data := new_data (resumption_store default_resumption); cx_world := w |}) as Hst.
    { intros lucky Hl. apply starts_handshake; [done| |apply new_store_empty|intros Ht; by apply Hl|apply new_client_fresh; intros Ht; by apply Hl].
      destruct name; [|done]. intros _. by apply Hname. }
    unfold for_client. change (ClientBase.max_fragment c) with (@None nat). rewrite default_fragments.
    pose proof (Hst false ltac:(done)) as Hf. pose proof (Hst true) as Ht. unfold starts in Hf, Ht. change (ClientBase.enable_extraction c) with false.
    destruct (ClientHs.start_handshake _ _ _ _) as [[st|e|] cx]; [|split; [by destruct Hf|]; intros Hw; by destruct (Ht (fun _ => Hw))|done].
    destruct Hf as ([_ _ Hg _ _] & _ & Hw). by split.
  - destruct Hu as [Hk (suite & Hi & Hs)]. split; [done|]. exists suite. split; [done|]. unfold with_protocol_versions in Eb.
    destruct (negb _) in Eb; [done|]. destruct (bool_decide _) in Eb; [done|]. injection Eb as <-. cbn [wr_versions] in Hs. rewrite enabled_contains in Hs by apply suite_version_known.
    by apply bool_decide_eq_true_1 in Hs.
Qed.
End built.

(** [builder_with_protocol_versions] unwraps, and panics for no versions, as its comment
    says; with a version that the library has, and in [builder], it does not. *)
Theorem empty_versions_panic {R : RingSigning} {G : RingAgreement} (F : Type) :
  builder_with_protocol_versions (F:=F) [] = Panic /\ (exists b, builder (F:=F) = Ok b) /\
  (forall vs, Known TLSv1_2 ∈ vs \/ Known TLSv1_3 ∈ vs -> exists b, builder_with_protocol_versions (F:=F) vs = Ok b).
Proof.
  assert (forall vs, Known TLSv1_2 ∈ vs \/ Known TLSv1_3 ∈ vs -> exists b, builder_with_protocol_versions (F:=F) vs = Ok b) as Hv; [|split; [done|]; split; [|done]].
  - intros vs Hv. unfold builder_with_protocol_versions, with_protocol_versions. cbn [builder_with_provider wv_provider crypto default_provider cipher_suites kx_groups].
    assert (existsb (fun suite => bool_decide (suite_version suite ∈ vs)) DEFAULT_CIPHER_SUITES = true) as ->; [|by eexists].
    apply existsb_exists. destruct Hv as [Hv|Hv].
    + exists (Suites.Tls12 TLS_ECDHE_ECDSA_WITH_AES_256_GCM_SHA384). split; [|by apply bool_decide_eq_true_2]. cbn; tauto.
    + exists (Suites.Tls13 TLS13_AES_256_GCM_SHA384). split; [by left|by apply bool_decide_eq_true_2].
  - apply (Hv ALL_VERSIONS). by right; left.
Qed.

(** A client of a certificate authority. *)
#[local] Existing Instances sum_hashing sum_ring toy_hmac.
#[local] Instance any_name : DnsNames := {| dns_try_from _ := true |}.
#[local] Instance checked : Profile := true.
Definition toy_provider : Provider :=
  {| crypto := sample_provider [NamedGroup.X25519]; signature_verification_algorithms := SUPPORTED_SIG_ALGS; key_provider _ := Err Error.General |}.
Lemma built_configs_start_witness : exists b, with_protocol_versions (builder_with_provider toy_provider) ALL_VERSIONS = Ok b /\
  match for_client (with_client_cert_resolver (with_root_certificates b toy_roots) fail_resolve_client_cert).1 sample_name [] Tcp (resumption_store default_resumption) (draws 1) with
  | Ok core => wants_write (common_state core) = true
  | _ => False
  end.
Proof.
  pose proof (built_configs_start toy_provider ALL_VERSIONS (server_verifier (new_without_revocation toy_roots SUPPORTED_SIG_ALGS)) fail_resolve_client_cert no_client_auth
    (always_resolves_chain (toy_key 7) [[7]] []) sample_name [] (draws 1)) as Hb.
  eexists. split; [reflexivity|]. destruct Hb as [Hb _]; [intros dns Hd; injection Hd as <-; by eexists|]. cbn [with_client_cert_resolver fst]. cbv beta zeta in Hb. cbn [with_client_cert_resolver] in Hb.
  destruct (for_client _ _ _ _ _ _) as [core|e|]; [apply Hb| |done]. destruct Hb as [_ Hb]. apply Hb. split.
  - split; [apply Nat.leb_le; reflexivity|]. repeat constructor; by eexists.
  - intros g seed [<-|[]]. by eexists.
Defined.
