(* ===== verification/ServerLaws.v ===== *)
(** * What a server has checked when it takes data
    (orcax/rustls-fork/rustls/src/server/tls13.rs, server/hs.rs)

    A TLS 1.3 server reaches its traffic state only after the client's Finished
    message, after a proof of the client's certificate where it asks for one, and,
    with Reality, only for a client whose session id carries the right code; its
    ServerHello then carries the server's authentication. *)
From S2P Require Import Prelude Codec RustStd Crates Reality TlsLayer VecBuf Enums Wire Messages Payloads Ciphers Suites Errors Common Hkdf KeySchedule Transcript Tls12 Persist Conn Context Frames ClientBase ServerBase ServerExt ServerTls13 Samples.
Import CommonState.

Section laws.
Context {H : Hashing} {P : Hkdf} {A : RingAead} `{DnsNames} {RH : Hmac} {Store : Type} {S : StoresServerSessions Store}.
Abbreviation ctx := (Context (ServerConnectionData Store)).
Abbreviation runs13 := (runs (handle_tls13 (Store:=Store))).

(** ** The server's flight *)

Lemma server_hello_ok t rnd suite sid share kxg idx psk c (cx cx' : ctx) ks t' :
  emit_server_hello t rnd suite sid share kxg idx psk c cx = (Ok (ks, t'), cx') ->
  exists sh p, carries sh (HandshakePayload.ServerHello p) /\ inject_reality c rnd = Ok (ServerHelloPayload.random p) /\
    ServerHelloPayload.get_psk_index p = (fun i => u16 (Z.of_nat i)) <$> idx /\ t' = HandshakeHash.add_message t sh.
Proof.
  intros He. unfold emit_server_hello in He. repeat (cx_step; cx_pairs).
  all: match goal with Ht : emit _ _ ?m _ = _ |- _ => apply emit_ok in Ht as ->; exists m end.
  all: eexists; (split; [by eexists _, _|]); (split; [done|]); (split; [by destruct idx|done]).
Qed.
Lemma extensions_ok t suite o hello r e c (cx cx' : ctx) d o' t' : emit_encrypted_extensions t suite o hello r e c cx = (Ok (d, o', t'), cx') ->
  exists me ee, carries me (HandshakePayload.EncryptedExtensions ee) /\ t' = HandshakeHash.add_message t me.
Proof. intros He. unfold emit_encrypted_extensions in He. repeat (cx_step; cx_pairs). apply emit_ok in Hm1 as ->. eexists _, _. split; [|reflexivity]. by eexists _, _. Qed.
(** The request for a certificate, if the server makes one. *)
Definition request (c : ServerConfig) (req : list Message.t) : Prop :=
  if offer_client_auth (verifier c) then exists m r, req = [m] /\ carries m (HandshakePayload.CertificateRequestTls13 r) else req = [].
Lemma certificate_req_ok t c (cx cx' : ctx) b t' : emit_certificate_req_tls13 t c cx = (Ok (b, t'), cx') -> b = offer_client_auth (verifier c) /\ exists req, request c req /\ t' = adds t req.
Proof.
  intros He. unfold emit_certificate_req_tls13, request in *. destruct (offer_client_auth (verifier c)) eqn:Ho; cbn [negb] in He; repeat (cx_step; cx_pairs).
  - apply emit_ok in Hm as ->. split; [done|]. match goal with |- context [HandshakeHash.add_message t ?m] => exists [m] end. split; [|done]. eexists _, _. split; [done|by eexists _, _].
  - split; [done|]. by exists [].
Qed.
Lemma certificate_ok t chain o (cx cx' : ctx) t' : emit_certificate_tls13 t chain o cx = (Ok t', cx') ->
  exists mc certp, carries mc (HandshakePayload.CertificateTls13 certp) /\ CertificatePayloadTls13.convert certp = chain /\ t' = HandshakeHash.add_message t mc.
Proof.
  intros He. unfold emit_certificate_tls13 in He. apply emit_ok in He as ->. match goal with |- context [HandshakeHash.add_message t ?m] => exists m end. eexists. split; [by eexists _, _|]. split; [|done].
  assert (map CertificateEntry.cert (map CertificateEntry.new chain) = chain) as Hc by (rewrite map_map; apply map_id). unfold CertificatePayloadTls13.convert. cbn.
  destruct chain as [|ee ints]; [done|]. cbn in *. destruct o; exact Hc.
Qed.
Lemma certificate_verify_ok t k l (cx cx' : ctx) t' : emit_certificate_verify_tls13 t k l cx = (Ok t', cx') ->
  exists mv signer sig h schemes, carries mv (HandshakePayload.CertificateVerify {| DigitallySignedStruct.scheme := scheme signer; DigitallySignedStruct.sig := sig |}) /\
    choose_scheme k schemes = Some signer /\ HandshakeHash.get_current_hash (E:=Error.t) t = Ok h /\ sign signer (construct_server_verify_message h) = Ok sig /\ t' = HandshakeHash.add_message t mv.
Proof.
  intros He. unfold emit_certificate_verify_tls13 in He. cx_step. unfold res in Hm. injection Hm as Hh <-.
  destruct (choose_scheme k l) as [sg|] eqn:Hs; [|destruct (choose_scheme k [Known SignatureScheme.ED25519]) as [sg|] eqn:Hs2; [|by apply alert_ok in He]]; cx_step; unfold res in Hm; injection Hm as Hsig <-; apply emit_ok in He as ->;
    (match goal with |- context [HandshakeHash.add_message t ?m] => exists m end; eexists sg, _, _, _; split; [by eexists _, _|]; split; [eassumption|]; split; [done|]; split; [done|done]).
Qed.
Lemma finished_ok t rnd ks c (cx cx' : ctx) p t' : emit_finished_tls13 t rnd ks c cx = (Ok (p, t'), cx') ->
  exists mf fin, carries mf (HandshakePayload.Finished fin) /\ t' = HandshakeHash.add_message t mf.
Proof. intros He. unfold emit_finished_tls13 in He. repeat (cx_step; cx_pairs). apply emit_ok in Hm1 as ->. eexists _, _. split; [|reflexivity]. by eexists _, _. Qed.

(** ** The hello *)

Definition base_of (st : Tls13State) : option Base :=
  match st with ExpectCertificate b | ExpectCertificateVerify b _ | ExpectEarlyData b | ExpectFinished b => Some b | _ => None end.
(** A hello that is not a Reality client's does not get through. *)
Definition reality_client (x : CompleteClientHelloHandling) (hello : ClientHelloPayload.t) : Prop := forall rc,
  reality_config (ch_config x) = Some rc -> Reality.Fork.verify_client_flag rc = true ->
  Reality.Fork.verify_client (SessionId.get_data (ClientHelloPayload.session_id hello)) (random_client (ch_randoms x)) rc = Ok true.
Lemma check_reality_ok x hello l (cx cx' : ctx) l' : check_reality x hello l cx = (Ok l', cx') -> reality_client x hello.
Proof.
  intros He rc Hrc Hf. unfold check_reality in He. rewrite Hrc, Hf in He.
  destruct (Reality.Fork.verify_client _ _ rc) as [[]|e|]; [done| | |done]; by apply alert_ok in He.
Qed.
(** The part of the flight that proves who the server is, after the transcript [t]: the
    request of a certificate, if it makes one, its own chain, and a signature of its key
    over the transcript up to the chain. *)
Definition auth_flight (c : ServerConfig) (k : CertifiedKey) (t : HandshakeHash.t) (fl : list Message.t) : Prop :=
  exists req mc certp mv signer sig h schemes, fl = req ++ [mc; mv] /\ request c req /\
    carries mc (HandshakePayload.CertificateTls13 certp) /\ CertificatePayloadTls13.convert certp = cert k /\
    choose_scheme (key k) schemes = Some signer /\ HandshakeHash.get_current_hash (E:=Error.t) (adds t (req ++ [mc])) = Ok h /\
    sign signer (construct_server_verify_message h) = Ok sig /\
    carries mv (HandshakePayload.CertificateVerify {| DigitallySignedStruct.scheme := scheme signer; DigitallySignedStruct.sig := sig |}).
(** The flight of the server after the transcript [t]: a ServerHello, which selects a
    session of the client if and only if the handshake is [resumed], the encrypted
    extensions, the proof of the server unless it is, and a Finished message. *)
Definition flight (c : ServerConfig) (rnd : ConnectionRandoms) (k : CertifiedKey) (t : HandshakeHash.t) (resumed : bool) (fl : list Message.t) : Prop :=
  exists sh p me ee auth mf fin, fl = sh :: me :: auth ++ [mf] /\
    carries sh (HandshakePayload.ServerHello p) /\ inject_reality c rnd = Ok (ServerHelloPayload.random p) /\
    (resumed = true <-> is_Some (ServerHelloPayload.get_psk_index p)) /\
    carries me (HandshakePayload.EncryptedExtensions ee) /\ (if resumed then auth = [] else auth_flight c k (adds t [sh; me]) auth) /\
    carries mf (HandshakePayload.Finished fin).
(** What the flight of the server leaves: the state in which the client's next message
    is handled. *)
Definition answered (x : CompleteClientHelloHandling) (k : CertifiedKey) (chm : Message.t) (st : Tls13State) (b : Base) : Prop :=
  base_of st = Some b /\ b_config b = ch_config x /\ (st = ExpectCertificate b \/ st = ExpectEarlyData b \/ st = ExpectFinished b) /\
  exists resumed fl, flight (ch_config x) (ch_randoms x) k (adds (ch_transcript x) [chm]) resumed fl /\ b_transcript b = adds (ch_transcript x) (chm :: fl) /\
    (offer_client_auth (verifier (ch_config x)) = true -> resumed = false -> st = ExpectCertificate b).
Lemma complete_hello_ok x k chm hello l share kxg (cx cx' : ctx) st :
  complete_hello x k chm hello l share kxg cx = (Ok (Go st), cx') -> exists b, answered x k chm st b.
Proof.
  intros He. unfold complete_hello in He. cx_step. clear Hm.
  do 2 (cx_step; cx_pairs). apply server_hello_ok in Hm0 as (sh & p & Hsh & Hp & Hidx & ->). do 2 (cx_step; cx_pairs).
  clear Hm Hm0. apply extensions_ok in Hm1 as (me & ee & Hme & ->). cx_step; cx_pairs. set (dhe := ClientHelloPayload.psk_mode_offered hello _) in *.
  set (resumed := bool_decide (is_Some (if dhe then v else None))). set (tc := adds (ch_transcript x) [chm]).
  assert (exists auth, t0 = adds tc (sh :: me :: auth) /\ (if resumed then auth = [] else auth_flight (ch_config x) k (adds tc [sh; me]) auth) /\
    (offer_client_auth (verifier (ch_config x)) = true -> resumed = false -> b = true)) as (auth & Ht1 & Hauth & Hb).
  { clear He. unfold resumed. destruct (if dhe then v else None) as [[i r]|]; cbn [fmap option_fmap option_map snd] in Hm.
    - repeat cx_step. exists []. split; [done|]. rewrite bool_decide_eq_true_2 by by eexists. by split.
    - repeat (cx_step; cx_pairs). apply certificate_req_ok in Hm0 as (-> & req & Hreq & ->). apply certificate_ok in Hm1 as (mc & certp & Hmc & Hcp & ->).
      apply certificate_verify_ok in Hm2 as (mv & signer & sig & h & schemes & Hmv & Hcs & Hh & Hsig & ->). exists (req ++ [mc; mv]). rewrite bool_decide_eq_false_2 by by intros [].
      split; [|split; [|done]].
      + change (sh :: me :: req ++ [mc; mv]) with ([sh; me] ++ req ++ [mc; mv]). rewrite !adds_app. reflexivity.
      + exists req, mc, certp, mv, signer, sig, h, schemes. split_and!; try done. rewrite adds_app. exact Hh. }
  clear Hm. do 3 (cx_step; cx_pairs). apply finished_ok in Hm1 as (mf & fin & Hmf & ->). do 2 cx_step. injection He as Hst _. rewrite <- Hst. clear Hst.
  match goal with |- context [ExpectCertificate ?b0] => exists b0 end. split; [by repeat case_match|]. split; [done|]. split; [repeat case_match; auto|].
  exists resumed, (sh :: me :: auth ++ [mf]). split; [|split].
  - exists sh, p, me, ee, auth, mf, fin. split_and!; try done. rewrite Hidx. unfold resumed. rewrite bool_decide_eq_true. by rewrite !fmap_is_Some.
  - cbn [b_transcript]. rewrite Ht1. change (chm :: sh :: me :: auth ++ [mf]) with ([chm] ++ (sh :: me :: auth) ++ [mf]). rewrite !adds_app. reflexivity.
  - intros Ho Hr. by rewrite (Hb Ho Hr).
Qed.
Lemma client_hello_ok x k chm hello l (cx cx' : ctx) st :
  handle_client_hello x k chm hello l cx = (Ok (Go st), cx') -> reality_client x hello /\ exists b, answered x k chm st b.
Proof.
  intros He. unfold handle_client_hello in He. cx_step; [cx_step|]. do 2 cx_step. apply check_reality_ok in Hm0. split; [done|].
  cx_step. cx_step; [cx_step|]. cx_step; [cx_step|]. destruct (choose_share _ _) as [[share kxg]|]; [by eapply complete_hello_ok|].
  unfold retry in He. destruct (find _ _); [|by apply alert_ok in He]. cx_step; [cx_step|]. repeat cx_step; done.
Qed.

(** ** After the hello *)

(** The client has shown a chain that the verifier accepts, and a signature of its
    key over everything up to the chain. *)
Definition client_proof (c : ServerConfig) (t : HandshakeHash.t) (ms : list Message.t) : Prop :=
  exists mc certp mv sig ee ints now h, ms = [mc; mv] /\ carries mc (HandshakePayload.CertificateTls13 certp) /\ carries mv (HandshakePayload.CertificateVerify sig) /\
    CertificatePayloadTls13.convert certp = ee :: ints /\ verify_client_cert (verifier c) ee ints now = Ok tt /\
    HandshakeHash.get_current_hash (E:=Error.t) (adds t [mc]) = Ok h /\
    sv_verify_tls13_signature (verifier c) (construct_client_verify_message h) ee sig = Ok tt.
(** [m] is a Finished message with the code of [ms] under the client's key. *)
Definition client_finished (ks : ClientFinishedPending.t) (t : HandshakeHash.t) (ms : list Message.t) (m : Message.t) : Prop :=
  exists fin h, carries m (HandshakePayload.Finished fin) /\ HandshakeHash.get_current_hash (E:=Error.t) (adds t ms) = Ok h /\
    sign_finish (E:=Error.t) (KeyScheduleTraffic.ks (ClientFinishedPending.traffic ks)) (ClientFinishedPending.handshake_client_traffic_secret ks) h = Ok fin.

Section history.
Context (c : ServerConfig) (t : HandshakeHash.t) (ks : ClientFinishedPending.t) (asked : bool).
(** The transcripts agree in what they hash; the buffer for client certificates may
    be gone. *)
Definition at_ (x : Base) (ms : list Message.t) : Prop :=
  b_config x = c /\ b_key_schedule x = ks /\ HandshakeHash.ctx (b_transcript x) = HandshakeHash.ctx (adds t ms).
Definition shown (ms : list Message.t) : Prop := asked = true -> client_auth_mandatory (verifier c) = true -> client_proof c t ms.
Definition history (st : Tls13State) (ms : list Message.t) : Prop :=
  match st with
  | ExpectCertificate x => at_ x ms /\ ms = []
  | ExpectCertificateVerify x chain => at_ x ms /\ exists mc certp ee ints now, ms = [mc] /\ carries mc (HandshakePayload.CertificateTls13 certp) /\
      CertificatePayloadTls13.convert certp = chain /\ chain = ee :: ints /\ verify_client_cert (verifier c) ee ints now = Ok tt
  | ExpectEarlyData x => at_ x ms /\ asked = false
  | ExpectFinished x => at_ x ms /\ shown ms
  | ExpectTraffic _ | ExpectQuicTraffic _ => exists pre mf post, ms = pre ++ mf :: post /\ shown pre /\ client_finished ks t pre mf
  end.
Lemma server_at_add x ms m : at_ x ms -> at_ (add x m) (ms ++ [m]).
Proof.
  intros (Hc & Hk & Ht). unfold at_. cbn. rewrite adds_snoc. split_and!; [done|done|]. unfold HandshakeHash.add_message, HandshakeHash.update_raw.
  destruct (Message.payload m); try done. cbn. by rewrite Ht.
Qed.
Lemma server_at_abandon x ms : at_ x ms -> at_ (with_transcript x (HandshakeHash.abandon_client_auth (b_transcript x))) ms.
Proof. done. Qed.
Lemma server_at_hash x ms h : at_ x ms -> HandshakeHash.get_current_hash (E:=Error.t) (b_transcript x) = Ok h -> HandshakeHash.get_current_hash (E:=Error.t) (adds t ms) = Ok h.
Proof. intros (_ & _ & Ht). unfold HandshakeHash.get_current_hash. by rewrite Ht. Qed.
Hint Resolve server_at_add server_at_abandon : core.

Lemma server_certificate x m (cx cx' : ctx) st : at_ x [] -> handle_certificate x m cx = (Ok st, cx') -> history st [m].
Proof.
  intros Hx Hh. unfold handle_certificate in Hh. cx_step. apply require_ok in Hm as (-> & parsed & enc & Hm & Hp). cx_step; [cx_step|].
  assert (at_ (add x m) [m]) as Hx1 by by apply (server_at_add x []).
  destruct (CertificatePayloadTls13.convert v) as [|ee ints] eqn:Hc.
  - destruct Hx as (<- & _ & _). cx_step; [cx_step|]. cx_step. cbn. split; [auto|]. intros _ Hn. cbn in Hb0. congruence.
  - repeat cx_step. apply verified_ok in Hm1 as [Hv ->]. cbn. split; [done|]. destruct (HandshakeMessagePayload.payload parsed) eqn:He; try done. injection Hp as ->.
    destruct Hx as (<- & _ & _). eexists m, v, ee, ints, _. split; [done|]. split; [by exists parsed, enc|]. done.
Qed.
Lemma server_verify x chain ms m (cx cx' : ctx) st :
  history (ExpectCertificateVerify x chain) ms -> handle_certificate_verify x chain m cx = (Ok st, cx') -> history st (ms ++ [m]).
Proof.
  intros (Hx & mc & certp & ee & ints & now & -> & Hc & Hch & -> & Hv) Hh. unfold handle_certificate_verify in Hh. cx_step.
  apply require_ok in Hm as (-> & parsed & enc & Hm & Hp). cx_step. unfold res in Hm0. injection Hm0 as Hhash <-. cx_step. apply verified_ok in Hm0 as [Hs ->].
  repeat cx_step. cbn. split; [by apply (server_at_add _ [mc]), server_at_abandon|]. intros _ _.
  destruct (HandshakeMessagePayload.payload parsed) eqn:He; try done. injection Hp as ->. pose proof (server_at_hash _ _ _ Hx Hhash). destruct Hx as (<- & _ & _).
  exists mc, certp, m, v, ee, ints, now, v0. split_and!; try done. by exists parsed, enc.
Qed.
Lemma server_early x ms m (cx cx' : ctx) st : history (ExpectEarlyData x) ms -> handle_early_data x m cx = (Ok st, cx') -> history st (ms ++ [m]).
Proof.
  intros [Hx Ha] Hh. unfold handle_early_data in Hh. destruct (Message.payload m) as [|[ty p] enc| |p] eqn:Hp; [done| |done|].
  - destruct ty as [[]|], p; try done. repeat cx_step. cbn. split; [auto|]. intros Hq; congruence.
  - repeat cx_step. cbn. split; [|done]. apply (server_at_add _ _ m) in Hx. unfold add, HandshakeHash.add_message in Hx. rewrite Hp in Hx. by destruct x.
Qed.
Lemma server_finished x ms m (cx cx' : ctx) st : history (ExpectFinished x) ms -> handle_finished x m cx = (Ok st, cx') -> history st (ms ++ [m]).
Proof.
  intros [Hx Hs] Hh. unfold handle_finished in Hh. cx_step. apply require_ok in Hm as (-> & parsed & enc & Hm & Hf). cx_step.
  unfold res in Hm0. injection Hm0 as Hhash <-. cx_step; cx_pairs. cx_step; [cx_step|]. apply negb_false_iff, bool_decide_eq_true in Hb as ->.
  assert (client_finished ks t ms m) as Hfin.
  { apply common_ok in Hm0 as [Hk _]. unfold ClientFinishedPending.sign_client_finish in Hk. unfold mbind, Cm_bind, pure, lift in Hk.
    destruct (sign_finish _ _ v0) as [tag| |] eqn:Htag; [|done|done]. destruct (set_decrypter _ _ _) as [[]]; [|done|done]. injection Hk as _ -> _.
    destruct (HandshakeMessagePayload.payload parsed) eqn:He; try done. injection Hf as ->. pose proof (server_at_hash _ _ _ Hx Hhash). destruct Hx as (_ & <- & _).
    exists v, v0. split; [by exists parsed, enc|]. done. }
  repeat cx_step. match goal with |- history (if ?q then _ else _) _ => destruct q end; cbn; by exists ms, m, [].
Qed.
Lemma server_traffic_stays k m (cx cx' : ctx) st : handle_traffic k m cx = (Ok st, cx') -> exists k', st = ExpectTraffic k'.
Proof.
  unfold handle_traffic. destruct (Message.payload m) as [al|[ty p] enc| |p]; try done.
  - destruct p; try done; intros Hh; repeat cx_step; eauto.
  - intros Hh; repeat cx_step; eauto.
Qed.
Lemma server_step st ms m (cx cx' : ctx) st' : history st ms -> handle_tls13 st m cx = (Ok st', cx') -> history st' (ms ++ [m]).
Proof.
  intros Hst Hh. destruct st as [x|x ch|x|x|k|k]; cbn [handle_tls13] in Hh; [| | | | |done].
  - destruct Hst as [Hx ->]. by eapply server_certificate.
  - by eapply server_verify.
  - by eapply server_early.
  - by eapply server_finished.
  - destruct (server_traffic_stays _ _ _ _ _ Hh) as [k' ->]. destruct Hst as (pre & mf & post & -> & Hp & Hf). exists pre, mf, (post ++ [m]). by rewrite <- app_assoc.
Qed.
End history.

Definition in_traffic (st : Tls13State) : Prop := match st with ExpectTraffic _ | ExpectQuicTraffic _ => True | _ => False end.
Lemma server_step_still st m (cx cx' : ctx) st' : handle_tls13 st m cx = (Ok st', cx') -> ~ in_traffic st' -> gate (cx_common cx') = gate (cx_common cx).
Proof.
  intros Hh Ht. assert (stillx (handle_tls13 (Store:=Store) st m) -> gate (cx_common cx') = gate (cx_common cx)) as Hs.
  { intros Hs. specialize (Hs cx). by rewrite Hh in Hs. }
  destruct st as [x|x ch|x|x|k|k]; cbn [handle_tls13] in *; [| | | | |done].
  - apply Hs. unfold handle_certificate. frame.
  - apply Hs. unfold handle_certificate_verify. frame.
  - apply Hs. unfold handle_early_data, ClientFinishedPending.update_decrypter. destruct (Message.payload m) as [|[[[]|] []]| |]; try (frame; fail).
    + apply stillx_bind; [apply stillx_common, still_decrypter|frame].
    + apply stillx_bind; [|intros []; frame]. apply stillx_same. intros cx1. unfold early_op. by destruct (EarlyDataState.take_received_plaintext _ _).
  - exfalso. unfold handle_finished in Hh. repeat (cx_step; cx_pairs). match type of Ht with context [if ?q then _ else _] => by destruct q end.
  - by destruct (server_traffic_stays _ _ _ _ _ Hh) as [x' ->].
Qed.
Lemma server_traffic_final st m (cx cx' : ctx) st' : in_traffic st -> handle_tls13 st m cx = (Ok st', cx') -> in_traffic st'.
Proof. intros Ht Hh. destruct st; try done; cbn [handle_tls13] in Hh. by destruct (server_traffic_stays _ _ _ _ _ Hh) as [x' ->]. Qed.

(** C12: A TLS 1.3 server takes no client for another.  Let the server answer a hello,
    and any messages come in any order.  With Reality and its check of clients on
    ([verify_client], which [with_verify_client] can turn off), the session id of the
    hello carries the code of the client's random under the server's key.  Until the
    traffic state is reached, the permission to send application data is as the answer
    left it.  In the traffic state, the client's Finished message came with the code,
    under the key that the server's answer left, of the whole transcript: what was
    there, the hello, the server's flight and the client's messages.  The flight is a
    ServerHello, encrypted extensions, the server's own proof unless a session is
    resumed, and a Finished message.  If the server demands a certificate and its
    ServerHello selects no session, whether the hello offered some or not, the client's
    first two messages were a chain that the verifier accepts and a signature of its
    key over the transcript up to it. *)
Theorem server_authenticates x k chm hello sigs cx0 st cx ms st' cx' :
  handle_client_hello x k chm hello sigs cx0 = (Ok (Go st), cx) -> runs13 st cx ms st' cx' ->
  reality_client x hello /\
  (~ in_traffic st' -> gate (cx_common cx') = gate (cx_common cx)) /\
  (in_traffic st' -> exists b resumed fl pre mf post, base_of st = Some b /\
    flight (ch_config x) (ch_randoms x) k (adds (ch_transcript x) [chm]) resumed fl /\ ms = pre ++ mf :: post /\
    client_finished (b_key_schedule b) (adds (ch_transcript x) (chm :: fl)) pre mf /\
    (offer_client_auth (verifier (ch_config x)) = true -> client_auth_mandatory (verifier (ch_config x)) = true -> resumed = false ->
      client_proof (ch_config x) (adds (ch_transcript x) (chm :: fl)) pre)).
Proof.
  intros Hh Hr. apply client_hello_ok in Hh as (Hre & b & Hb & Hc & Hst & resumed & fl & Hfl & Htr & Ho). split; [done|]. split; [eapply runs_still; eauto using server_traffic_final, server_step_still|]. intros Ht.
  set (a := match st with ExpectCertificate _ => true | _ => false end).
  assert (history (b_config b) (b_transcript b) (b_key_schedule b) a st []) as H0'.
  { destruct Hst as [-> | [-> | ->]]; cbn; (split; [done|]); done. }
  pose proof (runs_history _ _ (server_step _ _ _ _) _ _ _ _ _ [] Hr H0') as Hh. cbn [app] in Hh.
  assert (exists pre mf post, ms = pre ++ mf :: post /\ shown (b_config b) (b_transcript b) a pre /\ client_finished (b_key_schedule b) (b_transcript b) pre mf)
    as (pre & mf & post & -> & Hp & Hf) by by destruct st'.
  exists b, resumed, fl, pre, mf, post. rewrite <- Htr. split_and!; try done. intros Hof Hma Hps. rewrite <- Hc in *. apply Hp; [|done]. unfold a. by rewrite (Ho Hof Hps).
Qed.

(** C14: The Reality server proves itself in its ServerHello.  When a server with a
    Reality configuration answers a hello, the transcript that both ends hash
    begins, after what was there, with the hello and a ServerHello whose random is
    the one the server drew with its last 12 bytes replaced by the beginning of
    HMAC(key, first 20 bytes ++ client random); and no hello is answered under a
    key that is not 32 bytes long.  (The comment of [inject_auth] gives the first 20
    bytes alone as the message of the HMAC; the code appends the client random.) *)
Theorem reality_hello {ML : HmacLaws RH} x k chm hello sigs (cx0 cx : ctx) st rc :
  handle_client_hello x k chm hello sigs cx0 = (Ok (Go st), cx) -> reality_config (ch_config x) = Some rc -> length (random_server (ch_randoms x)) = 32%nat ->
  length (Reality.Fork.private_key rc) = 32%nat /\
  exists b sh p, base_of st = Some b /\ carries sh (HandshakePayload.ServerHello p) /\ extends (adds (ch_transcript x) [chm; sh]) (b_transcript b) /\
    ServerHelloPayload.random p = take 20 (random_server (ch_randoms x)) ++
      take 12 (hmac_sha256 (Reality.Fork.private_key rc) (take 20 (random_server (ch_randoms x)) ++ random_client (ch_randoms x))).
Proof.
  intros Hh Hrc Hl. apply client_hello_ok in Hh as (_ & b & Hb & _ & _ & resumed & fl & (sh & p & me & ee & auth & mf & fin & -> & Hsh & Hp & _) & Htr & _). unfold inject_reality in Hp. rewrite Hrc in Hp.
  assert (extends (adds (ch_transcript x) [chm; sh]) (b_transcript b)) as Hx by (rewrite Htr; by exists (me :: auth ++ [mf])).
  pose proof (inject_auth_is_server_hello_auth rc (random_server (ch_randoms x)) (random_client (ch_randoms x)) Hl) as Ha.
  destruct (Nat.eqb_spec (length (Reality.Fork.private_key rc)) 32) as [Hk|]; [|by rewrite Ha in Hp]. destruct Ha as (a & Hs & Hla & Hi). rewrite Hi in Hp. injection Hp as Hp.
  split; [done|]. exists b, sh, p. split_and!; try done. rewrite <- Hp. f_equal. unfold server_hello_auth in Hs. rewrite slice_ok in Hs by (rewrite hmac_sha256_length; lia).
  injection Hs as <-. by rewrite drop_0.
Qed.
End laws.

(** ** An instance *)

#[local] Existing Instances sum_hashing sum_ring toy_hmac.
#[local] Instance sample_names : DnsNames := {| dns_try_from _ := true |}.
Definition ex_reality : Reality.Fork.RealityConfig := Reality.Fork.new (replicate 32 7).
Definition ex_random : bytes := replicate 32 1.
Definition ex_hello : ClientHelloPayload.t := {|
  ClientHelloPayload.client_version := Known TLSv1_2; ClientHelloPayload.random := ex_random;
  ClientHelloPayload.session_id := SessionId.random (hmac_sha256 (replicate 32 7) ex_random);
  ClientHelloPayload.cipher_suites := [Known CipherSuite.TLS13_AES_128_GCM_SHA256]; ClientHelloPayload.compression_methods := [Known Compression.Null];
  ClientHelloPayload.extensions := [ClientExtension.NamedGroups [Known NamedGroup.X25519];
    ClientExtension.KeyShare [{| KeyShareEntry.group := Known NamedGroup.X25519; KeyShareEntry.payload := replicate 32 3 |}];
    ClientExtension.PresharedKeyModes [Known PSKKeyExchangeMode.PSK_DHE_KE]] |}.
Definition ex_chm : Message.t := hs_message (Known TLSv1_0) HandshakeType.ClientHello (HandshakePayload.ClientHello ex_hello).
Definition ex_handling : CompleteClientHelloHandling := {|
  ch_config := sample_server [NamedGroup.X25519] (Some ex_reality) true; ch_transcript := HandshakeHash.start_hash HandshakeHashBuffer.new SHA256;
  ch_suite := TLS13_AES_128_GCM_SHA256; ch_randoms := {| random_client := ex_random; random_server := replicate 32 2 |}; ch_done_retry := false;
  ch_send_tickets := 0; ch_extra_exts := [] |}.
Definition ex_server_cx : Context (ServerConnectionData unit) := {|
  cx_common := CommonState.new Server; cx_data := new_server_data tt; cx_world := draws 40 |}.
Abbreviation ex_answer := (handle_client_hello ex_handling (toy_certified 7) ex_chm ex_hello [Known SignatureScheme.ED25519] ex_server_cx).
(** What the client sends next, computed from the server's state. *)
Definition ex_reply (b : Base) : option (list Message.t) :=
  let mc := hs_message (Known TLSv1_3) HandshakeType.Certificate (HandshakePayload.CertificateTls13 (CertificatePayloadTls13.new [CertificateEntry.new [9]])) in
  match HandshakeHash.get_current_hash (E:=Error.t) (adds (b_transcript b) [mc]) with
  | Ok h =>
      let mv := hs_message (Known TLSv1_3) HandshakeType.CertificateVerify (HandshakePayload.CertificateVerify
                  {| DigitallySignedStruct.scheme := Known SignatureScheme.ED25519; DigitallySignedStruct.sig := toy_sign 9 (construct_client_verify_message h) |}) in
      match (h ← HandshakeHash.get_current_hash (E:=Error.t) (adds (b_transcript b) [mc; mv]);
             sign_finish (KeyScheduleTraffic.ks (ClientFinishedPending.traffic (b_key_schedule b))) (ClientFinishedPending.handshake_client_traffic_secret (b_key_schedule b)) h) with
      | Ok fin => Some [mc; mv; hs_message (Known TLSv1_3) HandshakeType.Finished (HandshakePayload.Finished fin)]
      | _ => None
      end
  | _ => None
  end.
Abbreviation ex_context := (Context (ServerConnectionData unit)).
Definition serve (r : result Error.t Next * ex_context) : option (Tls13State * ex_context * list Message.t * Tls13State * ex_context) :=
  match r with
  | (Ok (Go st), cx) => b ← base_of st; ms ← ex_reply b; '(st', cx') ← run handle_tls13 ms st cx; Some (st, cx, ms, st', cx')
  | _ => None
  end.
Definition served (r : result Error.t Next * ex_context) : bool := match serve r with Some (_, _, _, ExpectTraffic _, _) => true | _ => false end.
Lemma ex_served_ok : served ex_answer = true.
Proof. vm_compute. reflexivity. Qed.
Lemma served_parts r : served r = true -> exists st cx ms st' cx', r = (Ok (Go st), cx) /\ runs handle_tls13 st cx ms st' cx' /\ in_traffic st'.
Proof.
  unfold served, serve. destruct r as [[[|st]|e|] cx]; try discriminate. destruct (base_of st) as [b|]; [|discriminate]. cbn [mbind option_bind]. destruct (ex_reply b) as [ms|]; [|discriminate].
  cbn [mbind option_bind]. destruct (run handle_tls13 ms st cx) as [[st' cx']|] eqn:Hr; [|discriminate]. cbn [mbind option_bind].
  intros Ht. exists st, cx, ms, st', cx'. split; [reflexivity|]. split; [by apply run_runs|]. by destruct st'.
Qed.
Lemma server_authenticates_witness :
  exists st cx ms st' cx', ex_answer = (Ok (Go st), cx) /\ runs handle_tls13 st cx ms st' cx' /\ in_traffic st' /\
    exists fl resumed pre, flight (ch_config ex_handling) (ch_randoms ex_handling) (toy_certified 7) (adds (ch_transcript ex_handling) [ex_chm]) resumed fl /\
      (resumed = false -> client_proof (ch_config ex_handling) (adds (ch_transcript ex_handling) (ex_chm :: fl)) pre).
Proof.
  destruct (served_parts ex_answer ex_served_ok) as (st & cx & ms & st' & cx' & Ha & Hr & Ht). exists st, cx, ms, st', cx'. split; [exact Ha|]. split; [exact Hr|]. split; [exact Ht|].
  destruct (server_authenticates ex_handling _ _ _ _ _ _ _ _ _ _ Ha Hr) as (_ & _ & Hp). destruct (Hp Ht) as (b & resumed & fl & pre & mf & post & Hb & Hfl & _ & _ & Hc).
  exists fl, resumed, pre. split; [exact Hfl|]. apply Hc; reflexivity.
Defined.
Lemma reality_hello_witness : exists st cx b sh p, ex_answer = (Ok (Go st), cx) /\ base_of st = Some b /\ carries sh (HandshakePayload.ServerHello p) /\
  extends (adds (ch_transcript ex_handling) [ex_chm; sh]) (b_transcript b) /\
  ServerHelloPayload.random p = replicate 20 2 ++ take 12 (hmac_sha256 (replicate 32 7) (replicate 20 2 ++ ex_random)).
Proof.
  destruct (served_parts ex_answer ex_served_ok) as (st & cx & ms & st' & cx' & Ha & _).
  destruct (reality_hello (ML:=toy_hmac_laws) ex_handling _ _ _ _ _ _ _ ex_reality Ha) as (_ & b & sh & p & Hb & Hc & He & Hr); [reflexivity|reflexivity|].
  exists st, cx, b, sh, p. split; [exact Ha|]. split; [exact Hb|]. split; [exact Hc|]. split; [exact He|exact Hr].
Defined.
