(* ===== verification/Trust.v ===== *)
(** * Whom a client trusts
    (orcax/client/src/main.rs, orcax/client/src/tunnel.rs; crypto/ring/sign.rs, webpki/ and client/ of the fork)

    Where keys, verifiers, builders and handshakes meet: a signature by a loaded key
    passes the checks of a peer that holds its certificate; a client that was built
    with root certificates reaches its traffic only with a server that those roots
    vouch for; and the configurations of the two clients of this program, whose
    verifiers accept everything. *)
From S2P Require Import Prelude Codec TlsLayer VecBuf Enums Wire Messages Payloads Ciphers Suites Errors Common Hkdf KeySchedule Transcript Persist Conn Context Frames SessionCache ServerBase ServerLaws ClientBase ClientTls13 ClientTls13Laws ClientHs Samples Sign WebPki Builders.
Import CommonState.

(** ** Keys and their certificates *)

Definition rsa_algorithm (e : RsaEncoding) : SignatureVerificationAlgorithm :=
  match e with
  | RSA_PKCS1 D256 => RSA_PKCS1_2048_8192_SHA256 | RSA_PKCS1 D384 => RSA_PKCS1_2048_8192_SHA384 | RSA_PKCS1 D512 => RSA_PKCS1_2048_8192_SHA512
  | RSA_PSS D256 => RSA_PSS_2048_8192_SHA256_LEGACY_KEY | RSA_PSS D384 => RSA_PSS_2048_8192_SHA384_LEGACY_KEY | RSA_PSS D512 => RSA_PSS_2048_8192_SHA512_LEGACY_KEY
  end.
Definition ecdsa_algorithm (a : EcdsaSigningAlgorithm) : SignatureVerificationAlgorithm :=
  match a with ECDSA_P256_SHA256_ASN1_SIGNING => ECDSA_P256_SHA256 | ECDSA_P384_SHA384_ASN1_SIGNING => ECDSA_P384_SHA384 end.
(** A certificate holds the public key of a key pair; what ring signs with the pair,
    webpki verifies with the algorithm of that kind of key. *)
Class Certifies (R : RingSigning) `{WebPki} : Type := {
  holds_rsa : RsaKeyPair -> EndEntityCert -> Prop;
  holds_ecdsa : EcdsaKeyPair -> EndEntityCert -> Prop;
  holds_ed25519 : Ed25519KeyPair -> EndEntityCert -> Prop;
  rsa_verifies k c e m sig : holds_rsa k c -> rsa_sign k e m = Some sig -> verify_signature c (rsa_algorithm e) m sig = inl tt;
  ecdsa_verifies a der k c m sig : ecdsa_from_pkcs8 a der = Some k -> holds_ecdsa k c -> ecdsa_sign k m = Some sig -> verify_signature c (ecdsa_algorithm a) m sig = inl tt;
  ed25519_verifies k c m : holds_ed25519 k c -> verify_signature c ED25519 m (ed25519_sign k m) = inl tt
}.

Section keys.
Context {R : RingSigning} `{WebPki} {C : Certifies R}.
Definition holds (k : LoadedKey) (c : EndEntityCert) : Prop :=
  match k with LoadedRsa k => holds_rsa (rsa_key k) c | LoadedEcdsa k => holds_ecdsa (ecdsa_key k) c | LoadedEd25519 k => holds_ed25519 (ed_key k) c end.
(** The first algorithm that the table has for a scheme decides, when it accepts. *)
Lemma first_algorithm m cert c scheme sig alg rest a : ee_try_from cert = inl c -> convert_scheme a scheme = Ok (alg :: rest) -> verify_signature c alg m sig = inl tt ->
  verify_tls12_signature m cert {| DigitallySignedStruct.scheme := scheme; DigitallySignedStruct.sig := sig |} a = Ok tt /\
  (supported_in_tls13 scheme = true -> verify_tls13_signature m cert {| DigitallySignedStruct.scheme := scheme; DigitallySignedStruct.sig := sig |} a = Ok tt).
Proof.
  intros Hc Ha Hv. split.
  - apply tls12_signature_ok. by exists (alg :: rest), c, [], alg, rest.
  - intros Ht. apply tls13_signature_ok. split; [done|]. by exists alg, rest, c.
Qed.
Definition first_is (scheme : SignatureScheme.t) (alg : SignatureVerificationAlgorithm) : Prop := exists rest, convert_scheme SUPPORTED_SIG_ALGS scheme = Ok (alg :: rest).
Lemma rsa_first s e : rsa_encoding s = Some e -> first_is s (rsa_algorithm e).
Proof. destruct s as [[]|]; try done; intros [= <-]; by eexists. Qed.
Lemma ecdsa_first a s : (a, s) ∈ [(ECDSA_P256_SHA256_ASN1_SIGNING, Known SignatureScheme.ECDSA_NISTP256_SHA256); (ECDSA_P384_SHA384_ASN1_SIGNING, Known SignatureScheme.ECDSA_NISTP384_SHA384)] ->
  first_is s (ecdsa_algorithm a).
Proof. rewrite !elem_of_cons, elem_of_nil. intros [[= -> ->]|[[= -> ->]|[]]]; by eexists. Qed.
(** What a chosen signer signs, the first algorithm of its scheme verifies. *)
Lemma signed_first der k c offered s m sig : any_supported_type der = Ok k -> holds k c -> choose_scheme (signing_key k) offered = Some s -> sign s m = Ok sig ->
  exists alg, first_is (scheme s) alg /\ verify_signature c alg m sig = inl tt.
Proof.
  intros Hl Hh Hs Hm. pose proof (any_supported_loaded der) as Hd. rewrite Hl in Hd. destruct k as [k|k|k]; cbn [signing_key choose_scheme holds loaded_as] in *.
  - unfold rsa_choose_scheme in Hs. apply bind_Some in Hs as (x & _ & Hs). unfold rsa_signer in Hs. apply bind_Some in Hs as (e & He & [= <-]). cbn [scheme sign] in *.
    exists (rsa_algorithm e). split; [by apply rsa_first|]. destruct (rsa_sign _ _ _) eqn:E; [|done]. injection Hm as <-. by eapply rsa_verifies.
  - unfold ecdsa_choose_scheme in Hs. case_bool_decide; [|done]. injection Hs as <-. cbn [scheme sign] in *. destruct Hd as (a & p & Ha & _ & Hp).
    exists (ecdsa_algorithm a). split; [by apply ecdsa_first|]. destruct (ecdsa_sign _ _) eqn:E; [|done]. injection Hm as <-. by eapply ecdsa_verifies.
  - unfold ed25519_choose_scheme in Hs. case_bool_decide; [|done]. injection Hs as <-. cbn [scheme sign] in *. injection Hm as <-. destruct Hd as [-> _].
    exists ED25519. split; [by eexists|]. by apply ed25519_verifies.
Qed.
Lemma advertised_choice der k : any_supported_type der = Ok k ->
  exists s, choose_scheme (signing_key k) (List.filter supported_in_tls13 (supported_schemes SUPPORTED_SIG_ALGS)) = Some s /\ supported_in_tls13 (scheme s) = true.
Proof.
  intros Hl. pose proof (any_supported_loaded der) as Hd. rewrite Hl in Hd. destruct k as [k|k|k]; cbn [signing_key choose_scheme loaded_as] in *.
  - by eexists.
  - destruct Hd as (a & p & Ha & _). unfold ecdsa_choose_scheme. rewrite !elem_of_cons, elem_of_nil in Ha. destruct Ha as [[= _ ->]|[[= _ ->]|[]]]; by eexists.
  - destruct Hd as [Hd _]. unfold ed25519_choose_scheme. rewrite Hd. by eexists.
Qed.

(** C19: Whoever holds the certificate of a loaded key accepts its signatures.  For a
    key of any supported kind and encoding, and whatever schemes the peer offers: a
    chosen scheme is one of the key's and of those offered, and every signature made with it over any
    message is accepted by the verifiers with the algorithms of the ring provider, in
    TLS 1.2 and, for a scheme of TLS 1.3, in TLS 1.3; none is chosen exactly when no
    scheme of the key is offered.  To a peer that offers what these verifiers
    advertise for TLS 1.3, every loaded key has such a scheme. *)
Theorem loaded_key_trusted der k c cert offered : any_supported_type der = Ok k -> holds k c -> ee_try_from cert = inl c ->
  match choose_scheme (signing_key k) offered with
  | Some s => scheme s ∈ key_schemes k /\ scheme s ∈ offered /\ forall m sig, sign s m = Ok sig ->
      verify_tls12_signature m cert {| DigitallySignedStruct.scheme := scheme s; DigitallySignedStruct.sig := sig |} SUPPORTED_SIG_ALGS = Ok tt /\
      (supported_in_tls13 (scheme s) = true -> verify_tls13_signature m cert {| DigitallySignedStruct.scheme := scheme s; DigitallySignedStruct.sig := sig |} SUPPORTED_SIG_ALGS = Ok tt)
  | None => Forall (fun s => s ∉ offered) (key_schemes k)
  end /\
  exists s, choose_scheme (signing_key k) (List.filter supported_in_tls13 (supported_schemes SUPPORTED_SIG_ALGS)) = Some s /\ supported_in_tls13 (scheme s) = true.
Proof.
  intros Hl Hh Hc. split; [|by eapply advertised_choice]. pose proof (chosen_scheme k offered) as Hk. destruct (choose_scheme (signing_key k) offered) as [s|] eqn:Hs.
  - destruct Hk as (before & after & Hks & Ho & _). split; [rewrite Hks; set_solver|]. split; [done|]. intros m sig Hm. destruct (signed_first _ _ _ _ _ _ _ Hl Hh Hs Hm) as (alg & [rest Ha] & Hv). by eapply first_algorithm.
  - done.
Qed.
End keys.

(** ** Anchored clients *)

Section vouched.
Context `{WebPki}.
(** The roots vouch for a chain at the time [now]: its end entity parses as [c], and has
    a path for a use to one of them that is valid then, without revocation. *)
Definition vouched (algs : WebPkiSupportedAlgorithms) (root_store : RootCertStore) (usage : KeyUsage) (now : Z) (chain : list bytes) (c : EndEntityCert) : Prop :=
  exists ee ints, chain = ee :: ints /\ ee_try_from ee = inl c /\ verify_for_usage c (all algs) (roots root_store) ints now usage None = inl tt.
(** A signature with the key of [c]: a scheme of TLS 1.3, and the first of its
    algorithms. *)
Definition signed13 (algs : WebPkiSupportedAlgorithms) (c : EndEntityCert) (m : bytes) (d : DigitallySignedStruct.t) : Prop :=
  supported_in_tls13 (DigitallySignedStruct.scheme d) = true /\
  exists alg rest, convert_scheme algs (DigitallySignedStruct.scheme d) = Ok (alg :: rest) /\ verify_signature c alg m (DigitallySignedStruct.sig d) = inl tt.
Lemma signed13_of algs c ee m d : ee_try_from ee = inl c -> verify_tls13_signature m ee d algs = Ok tt -> signed13 algs c m d.
Proof. intros He Hs. apply tls13_signature_ok in Hs as (Ht & alg & rest & c' & Ha & He' & Hv). assert (c' = c) as -> by congruence. split; [done|]. by exists alg, rest. Qed.
End vouched.

Section anchored.
Context {H : Hashing} {P : Hkdf} {A : RingAead} `{DnsNames} `{Profile} {Store : Type} {S : ClientSessionStore Store} `{WebPki}.
(** C16: A client that was built with root certificates talks only to a server that
    they vouch for.  Whatever messages arrive, each at a time of its own, once such a
    client of TLS 1.3 is in its traffic state and resumed no session, it has got a chain
    whose end entity webpki parsed, found valid for the name that the client asked for,
    and connected for server authentication to one of the given roots, by a path that is
    valid at the time at which the client handled the signature; a signature over the
    transcript up to that chain that webpki verified with the key of the same end
    entity, with the algorithm that the provider lists first for a TLS 1.3 scheme; and a
    Finished message with the code of the whole transcript. *)
Theorem anchored_client (b : WantsVerifier) (root_store : RootCertStore) (resolver : ResolvesClientCert) (x : Base) hello cx tms st' cx' :
  ClientBase.verifier (ClientTls13.config x) = ClientBase.verifier (with_client_cert_resolver (with_root_certificates b root_store) resolver).1 ->
  timed_runs (handle_tls13 (Store:=Store)) (ExpectEncryptedExtensions x None hello) cx tms st' cx' -> in_traffic st' ->
  exists pre mc certp t mv sig mf post c h, map snd tms = pre ++ mc :: mv :: mf :: post /\ tms !! Datatypes.S (length pre) = Some (t, mv) /\
    carries mc (HandshakePayload.CertificateTls13 certp) /\ vouched (signature_verification_algorithms (wr_provider b)) root_store server_auth t (CertificatePayloadTls13.convert certp) c /\
    verify_is_valid_for_subject_name c (ClientTls13.server_name x) = inl tt /\
    carries mv (HandshakePayload.CertificateVerify sig) /\ HandshakeHash.get_current_hash (E:=Error.t) (adds (ClientTls13.transcript x) (pre ++ [mc])) = Ok h /\
    signed13 (signature_verification_algorithms (wr_provider b)) c (construct_server_verify_message h) sig /\
    finished_proof (ClientTls13.key_schedule x) (ClientTls13.transcript x) (pre ++ [mc; mv]) mf.
Proof.
  intros Hv Hr Ht. destruct (traffic_proved_at _ _ _ _ _ _ _ Hr Ht) as (pre0 & mf & post & Hms & Hp & Hf).
  destruct Hp as (pre & mc & certp & mv & sig & ee & ints & t & h & -> & Hc & Hs & Hcv & Hck & Hcert & Hh & Hsig). rewrite Hv in Hcert, Hsig. cbn in Hcert, Hsig.
  apply server_verify_ok in Hcert as (c & He & Hn & Hu). apply (signed13_of _ c) in Hsig; [|done]. rewrite <- app_assoc in Hms. cbn [app] in Hms.
  assert (tms !! Datatypes.S (length pre) = Some (t, mv)) as Hl.
  { rewrite length_app, Nat.add_1_r in Hck. pose proof (f_equal (fun l => l !! Datatypes.S (length pre)) Hms) as Hl. cbn beta in Hl. rewrite list_lookup_fmap in Hl.
    rewrite lookup_app_r in Hl by lia. replace (Datatypes.S (length pre) - length pre)%nat with 1%nat in Hl by lia. cbn [lookup list_lookup] in Hl.
    destruct (tms !! Datatypes.S (length pre)) as [[t' m']|]; [|done]. cbn in Hck, Hl. congruence. }
  exists pre, mc, certp, t, mv, sig, mf, post, c, h. split_and!; try done. by exists ee, ints.
Qed.
(** What a server with a webpki verifier and no revocation lists has checked of a client
    that proved itself: the chain leads to its roots for client authentication, and
    the signature over the transcript is by the key of the end entity. *)
Lemma client_proof_vouched (c : ServerConfig) (v : WebPkiClientVerifier) t ms : ServerBase.verifier c = client_verifier v -> cv_crls v = [] -> client_proof c t ms ->
  exists mc certp mv sig e h now, ms = [mc; mv] /\ carries mc (HandshakePayload.CertificateTls13 certp) /\ carries mv (HandshakePayload.CertificateVerify sig) /\
    vouched (cv_algs v) (cv_roots v) client_auth now (CertificatePayloadTls13.convert certp) e /\ HandshakeHash.get_current_hash (E:=Error.t) (adds t [mc]) = Ok h /\
    signed13 (cv_algs v) e (construct_client_verify_message h) sig.
Proof.
  intros Hv Hn (mc & certp & mv & sig & ee & ints & now & h & -> & Hc & Hs & Hcv & Hcert & Hh & Hsig). rewrite Hv in Hcert, Hsig. cbn in Hcert, Hsig.
  apply client_verify_ok in Hcert as (e & He & Hu). rewrite Hn in Hu. apply (signed13_of _ e) in Hsig; [|done].
  exists mc, certp, mv, sig, e, h, now. split_and!; try done. by exists ee, ints.
Qed.
End anchored.

(** ** The clients of this program *)

Definition accepts_all (schemes : list SignatureScheme.t) : ServerCertVerifier := {|
  verify_server_cert _ _ _ _ _ := Ok tt; ClientBase.verify_tls12_signature _ _ _ := Ok tt; ClientBase.verify_tls13_signature _ _ _ := Ok tt; supported_verify_schemes := schemes |}.
Definition NV : ServerCertVerifier :=
  accepts_all [Known SignatureScheme.ED25519; Known SignatureScheme.ECDSA_NISTP256_SHA256; Known SignatureScheme.RSA_PSS_SHA256].
Definition NoVerify : ServerCertVerifier :=
  accepts_all [Known SignatureScheme.ECDSA_NISTP256_SHA256; Known SignatureScheme.ECDSA_NISTP384_SHA384; Known SignatureScheme.ED25519;
    Known SignatureScheme.RSA_PSS_SHA256; Known SignatureScheme.RSA_PSS_SHA384; Known SignatureScheme.RSA_PSS_SHA512;
    Known SignatureScheme.RSA_PKCS1_SHA256; Known SignatureScheme.RSA_PKCS1_SHA384; Known SignatureScheme.RSA_PKCS1_SHA512].

Section clients.
Context {R : RingSigning} {G : RingAgreement}.
(** The configuration that [connect_and_auth] makes for each connection: the assignment
    of [resumption] replaces the store, and [tls12_resumption] by the same value. *)
Definition connect_config {E} : result E (ClientConfig * MemoryCache) :=
  b ← builder;
  let cfg := client_with_no_client_auth (with_custom_certificate_verifier b NV) in
  Ok (cfg.1, resumption_store (in_memory_sessions 8)).
(** That of [connect_orcax]. *)
Definition tunnel_config {E} : result E (ClientConfig * MemoryCache) :=
  b ← builder;
  Ok (client_with_no_client_auth (with_custom_certificate_verifier b NoVerify)).

Context {H : Hashing} {P : Hkdf} {A : RingAead} `{DnsNames} `{Profile}.
(** What a client of this program does with a name and a world: it sends a hello that
    offers no session, or the random source fails. *)
Definition greets (c : ClientConfig) (store : MemoryCache) (name : ServerName) (w : world) : Prop :=
  match for_client c name [] Tcp store w with
  | Ok core => (exists st, core_state core = inl st /\ offers_none st) /\ wants_write (common_state core) = true
  | Err e => e = Error.FailedToGetRandomBytes
  | Panic => False
  end.
Lemma built_greets v size name w b : builder (F:=unit) = Ok b -> (forall dns, name = DnsName dns -> exists e, ClientExtension.make_sni dns = Ok e) ->
  greets (client_with_no_client_auth (with_custom_certificate_verifier b v)).1 (Sessions.new_store size) name w.
Proof.
  intros Hb Hn. pose proof (with_protocol_versions_usable (builder_with_provider default_provider) ALL_VERSIONS) as Hu. unfold builder, with_safe_default_protocol_versions in Hb.
  destruct (with_protocol_versions _ _) as [b'|e|]; [|done|done]. injection Hb as <-. destruct Hu as [Hp Hu]. cbn [builder_with_provider wv_provider] in Hp, Hu.
  set (c := (client_with_no_client_auth (with_custom_certificate_verifier b' v)).1).
  assert (ClientBase.provider c = crypto default_provider) as Hc by (unfold c; cbn; by rewrite Hp).
  assert (starts false (ClientHs.start_handshake name [] c) (fun st cx' => fresh false 0 cx' /\ offers_none st /\ wants_write (cx_common cx') = true)
    {| cx_common := set_extraction false (set_protocol Tcp (CommonState.new Client)); cx_data := new_data (Sessions.new_store size : MemoryCache); cx_world := w |}) as Hs.
  { apply starts_handshake; [by rewrite Hc|destruct name; [|done]; intros _; by apply Hn|apply new_store_empty|done|by apply new_client_fresh]. }
  unfold greets, for_client. change (ClientBase.max_fragment c) with (@None nat). rewrite default_fragments. change (ClientBase.enable_extraction c) with false.
  unfold starts in Hs. destruct (ClientHs.start_handshake _ _ _ _) as [[st|e|] cx]; [|by destruct Hs|done]. destruct Hs as (_ & Ho & Hw). split; [|done]. by exists st.
Qed.
(** Both clients accept every certificate and every signature, and check no Reality
    proof of the server.  Each connection has a configuration with a store of its own,
    so that its hello never offers a session of an earlier one. *)
Theorem clients_trust_anyone name w : (forall dns, name = DnsName dns -> exists e, ClientExtension.make_sni dns = Ok e) ->
  forall config, config = connect_config (E:=unit) \/ config = tunnel_config (E:=unit) ->
  exists c store, config = Ok (c, store) /\ greets c store name w /\ reality_client_config c = None /\
    forall ee ints n ocsp now m cert d, verify_server_cert (ClientBase.verifier c) ee ints n ocsp now = Ok tt /\
      ClientBase.verify_tls12_signature (ClientBase.verifier c) m cert d = Ok tt /\ ClientBase.verify_tls13_signature (ClientBase.verifier c) m cert d = Ok tt.
Proof.
  intros Hn config Hc. destruct (empty_versions_panic unit) as (_ & [b Hb] & _).
  destruct Hc as [-> | ->]; [unfold connect_config|unfold tunnel_config]; rewrite Hb; cbn [mbind result_bind].
  - eexists _, _. split; [done|]. split; [by apply built_greets|]. done.
  - destruct (client_with_no_client_auth _) as [c store] eqn:Ec. exists c, store. split; [done|].
    replace c with (client_with_no_client_auth (with_custom_certificate_verifier b NoVerify)).1 by (by rewrite Ec). injection Ec as _ <-. split; [by apply built_greets|]. done.
Qed.
End clients.

(** ** Instances *)

(** Keys for the certificates of [toy_webpki]: the encoding of a key is its kind and
    the key, and a signature names the algorithm, the key and the message. *)
#[local] Instance toy_signing : RingSigning := {|
  RsaKeyPair := bytes; EcdsaKeyPair := EcdsaSigningAlgorithm * bytes; Ed25519KeyPair := bytes;
  rsa_from_der _ := None; rsa_from_pkcs8 d := match d with 4 :: k => Some k | _ => None end;
  rsa_sign k e m := Some (algorithm_number (rsa_algorithm e) :: k ++ m);
  ecdsa_from_pkcs8 a d := match d with kind :: k => if bool_decide (kind = algorithm_kind (ecdsa_algorithm a)) then Some (a, k) else None | [] => None end;
  ecdsa_sign k m := Some (algorithm_number (ecdsa_algorithm k.1) :: k.2 ++ m);
  ed25519_from_pkcs8_maybe_unchecked d := match d with 3 :: k => Some k | _ => None end; ed25519_sign k m := 4 :: k ++ m |}.
#[local] Instance toy_certifies : Certifies toy_signing.
Proof.
  refine {| holds_rsa := (fun k c => c = (4, k)) : RsaKeyPair -> EndEntityCert -> Prop; holds_ecdsa := (fun k c => c = (algorithm_kind (ecdsa_algorithm k.1), k.2)) : EcdsaKeyPair -> EndEntityCert -> Prop;
    holds_ed25519 := (fun k c => c = (3, k)) : Ed25519KeyPair -> EndEntityCert -> Prop |}.
  - intros k c e m sig -> [= <-]. destruct e as [[]|[]]; cbn [verify_signature toy_webpki fst snd]; repeat case_bool_decide; done.
  - intros a der k c m sig Hd -> [= <-]. cbn in *. destruct der as [|kind der]; [done|]. case_bool_decide; [|done]. injection Hd as <-. cbn [fst snd].
    repeat case_bool_decide; done.
  - intros k c m ->. cbn [verify_signature toy_webpki fst snd]. repeat case_bool_decide; done.
Defined.
Lemma loaded_key_trusted_witness : exists k s, any_supported_type (Pkcs8 [1; 42]) = Ok k /\ choose_scheme (signing_key k) [Known SignatureScheme.ED25519; Known SignatureScheme.ECDSA_NISTP256_SHA256] = Some s /\
  verify_tls13_signature [5; 6] [1; 42] {| DigitallySignedStruct.scheme := scheme s; DigitallySignedStruct.sig := [0; 42; 5; 6] |} SUPPORTED_SIG_ALGS = Ok tt.
Proof.
  eexists _, _. split; [reflexivity|]. split; [reflexivity|].
  refine (proj2 (proj2 (proj2 (proj1 (loaded_key_trusted (Pkcs8 [1; 42]) _ (1, [42]) [1; 42] [Known SignatureScheme.ED25519; Known SignatureScheme.ECDSA_NISTP256_SHA256] eq_refl _ _))) _ _ _) _); reflexivity.
Defined.

#[local] Existing Instances toy_hashing toy_ring.
#[local] Instance no_names : DnsNames := {| dns_try_from _ := false |}.
#[local] Instance traced : Profile := true.
(** A server with the certificate [[3; 9]], of the key [[9]] for Ed25519. *)
Definition anchored_config : ClientConfig := (with_client_cert_resolver (with_root_certificates {| wr_provider := toy_provider; wr_versions := enabled_versions ALL_VERSIONS |} toy_roots) fail_resolve_client_cert).1.
Definition anchored_base : Base := {|
  ClientTls13.config := anchored_config; ClientTls13.server_name := sample_name; ClientTls13.randoms := ClientTls13.randoms ex_base; suite13 := suite13 ex_base;
  ClientTls13.transcript := ClientTls13.transcript ex_base; ClientTls13.key_schedule := ClientTls13.key_schedule ex_base |}.
Definition got (r : result Error.t bytes) : bytes := match r with Ok x => x | _ => [] end.
Definition anchored_flight : list Message.t :=
  let ms := [hs_message (Known TLSv1_3) HandshakeType.EncryptedExtensions (HandshakePayload.EncryptedExtensions []);
             hs_message (Known TLSv1_3) HandshakeType.Certificate (HandshakePayload.CertificateTls13 (CertificatePayloadTls13.new [CertificateEntry.new [3; 9]]))] in
  let h := got (HandshakeHash.get_current_hash (E:=Error.t) (adds (ClientTls13.transcript anchored_base) ms)) in
  let ms := ms ++ [hs_message (Known TLSv1_3) HandshakeType.CertificateVerify
    (HandshakePayload.CertificateVerify {| DigitallySignedStruct.scheme := Known SignatureScheme.ED25519; DigitallySignedStruct.sig := 4 :: 9 :: construct_server_verify_message h |})] in
  let fin := got (h ← HandshakeHash.get_current_hash (E:=Error.t) (adds (ClientTls13.transcript anchored_base) ms); KeyScheduleHandshake.sign_server_finish (ClientTls13.key_schedule anchored_base) h) in
  ms ++ [hs_message (Known TLSv1_3) HandshakeType.Finished (HandshakePayload.Finished fin)].
Lemma anchored_client_witness :
  exists st' cx', runs handle_tls13 (ExpectEncryptedExtensions anchored_base None {| sent_extensions := [] |}) ex_cx anchored_flight st' cx' /\ in_traffic st' /\
    exists t chain c, vouched SUPPORTED_SIG_ALGS toy_roots server_auth t chain c.
Proof.
  destruct (run handle_tls13 anchored_flight (ExpectEncryptedExtensions anchored_base None {| sent_extensions := [] |}) ex_cx) as [[st' cx']|] eqn:Hr.
  - assert (in_traffic st') as Ht.
    { apply (f_equal (fun r => match r with Some (ExpectTraffic _, _) => true | _ => false end)) in Hr. vm_compute in Hr. by destruct st'. }
    exists st', cx'. split; [by apply run_runs|]. split; [exact Ht|].
    destruct (run_runs _ _ _ _ _ _ Hr) as (tms & _ & Htr).
    destruct (anchored_client {| wr_provider := toy_provider; wr_versions := enabled_versions ALL_VERSIONS |} toy_roots fail_resolve_client_cert anchored_base {| sent_extensions := [] |} ex_cx tms st' cx' eq_refl
      Htr Ht) as (pre & mc & certp & t & mv & sig & mf & post & c & h & _ & _ & _ & Hu & _).
    exists t, (CertificatePayloadTls13.convert certp), c. exact Hu.
  - exfalso. apply (f_equal (fun r => match r with Some _ => true | None => false end)) in Hr. vm_compute in Hr. discriminate.
Defined.
