(* ===== verification/ClientTls12Laws.v ===== *)
(** * What a TLS 1.2 client has checked when it sends data
    (orcax/rustls-fork/rustls/src/client/tls12.rs) *)
From S2P Require Import Prelude Codec TlsLayer VecBuf Enums Wire Messages Payloads Ciphers Suites Errors Common Hkdf KeySchedule Transcript Tls12 Persist Conn Context Frames ServerBase Samples ClientBase ClientTls12.
Import CommonState.

Section tls12.
Context {H : Hashing} {A : RingAead} `{DnsNames} `{Profile} {Store : Type} {S : ClientSessionStore Store}.
Abbreviation ctx := (Context (ClientConnectionData Store)).
Abbreviation runs12 := (runs (handle_tls12 (Store:=Store))).

(** The server of name [n] has shown a chain that the verifier accepts, and its key
    has signed both randoms and the parameters of the key exchange. *)
Definition signed_params (c : ClientConfig) (n : ServerName) (rnd : ConnectionRandoms) (ms : list Message.t) (params : bytes) : Prop :=
  exists mc chain mk kx ecdhe ee ints ocsp now, mc ∈ ms /\ carries mc (HandshakePayload.Certificate chain) /\ chain = ee :: ints /\
    verify_server_cert (verifier c) ee ints n ocsp now = Ok tt /\
    mk ∈ ms /\ carries mk (HandshakePayload.ServerKeyExchange kx) /\ ServerKeyExchangePayload.unwrap_given_kxa kx = Some ecdhe /\
    params = encode (Codec:=ServerEcdhParams.codec) (EcdheServerKeyExchange.params ecdhe) [] /\
    verify_tls12_signature (verifier c) (random_client rnd ++ random_server rnd ++ params) ee (EcdheServerKeyExchange.dss ecdhe) = Ok tt.
(** The secrets come from a key exchange in a group of the configuration with the
    point of [params]. *)
Definition exchanged (c : ClientConfig) (rnd : ConnectionRandoms) (suite : Tls12CipherSuite) (params : bytes) (s : ConnectionSecrets) : Prop :=
  exists point rd g seed kx ems, read (Codec:=ServerEcdhParams.codec) (init params) = (Ok point, rd) /\ any_left rd = false /\
    find_kx_group c (EcParameters.named_group (ServerEcdhParams.curve_params point)) = Some g /\ start g seed = Some kx /\
    from_key_exchange (complete kx) (ServerEcdhParams.public point) ems rnd suite = Ok s.
Definition server_proof (c : ClientConfig) (n : ServerName) (rnd : ConnectionRandoms) (suite : Tls12CipherSuite) (ms : list Message.t) (s : ConnectionSecrets) : Prop :=
  exists params, signed_params c n rnd ms params /\ exchanged c rnd suite params s.
(** [m] is a Finished message with the code of a transcript that covers [ms]. *)
Definition finished_proof (s : ConnectionSecrets) (t : HandshakeHash.t) (ms : list Message.t) (m : Message.t) : Prop :=
  exists t' h, covers t ms t' /\ HandshakeHash.get_current_hash (E:=Error.t) t' = Ok h /\ carries m (HandshakePayload.Finished (server_verify_data s h)).

Lemma proved_more c n rnd suite (resumed : ConnectionSecrets -> Prop) ms s m :
  server_proof c n rnd suite ms s \/ resumed s -> server_proof c n rnd suite (ms ++ [m]) s \/ resumed s.
Proof.
  intros [(params & (mc & ch & mk & kx & e & ee & ints & o & now & Hi & Hc & Hch & Hv & Hk & Hr) & Hx)|]; [left|by right].
  exists params. split; [|done]. exists mc, ch, mk, kx, e, ee, ints, o, now. split_and!; try apply Hr; try done; set_solver.
Qed.

Section history.
Context (c : ClientConfig) (n : ServerName) (rnd : ConnectionRandoms) (suite : Tls12CipherSuite) (t : HandshakeHash.t).
(** What the secrets rest on, given the messages received. *)
Context (proved : list Message.t -> ConnectionSecrets -> Prop).
Context (Hproved : forall ms s, server_proof c n rnd suite ms s -> proved ms s) (Hmore : forall ms s m, proved ms s -> proved (ms ++ [m]) s).
Definition at_ (x : Base) (ms : list Message.t) : Prop :=
  config x = c /\ server_name x = n /\ b_randoms x = rnd /\ suite12 x = suite /\ covers t ms (transcript x).
Definition shown (ms : list Message.t) (chain : list bytes) : Prop := exists mc, mc ∈ ms /\ carries mc (HandshakePayload.Certificate chain).
Definition offered (ms : list Message.t) (kx : ServerKxDetails) : Prop := exists mk opaque ecdhe, mk ∈ ms /\ carries mk (HandshakePayload.ServerKeyExchange opaque) /\
  ServerKeyExchangePayload.unwrap_given_kxa opaque = Some ecdhe /\ kx_params kx = encode (Codec:=ServerEcdhParams.codec) (EcdheServerKeyExchange.params ecdhe) [] /\
  kx_sig kx = EcdheServerKeyExchange.dss ecdhe.
Definition history (st : Tls12State) (ms : list Message.t) : Prop :=
  match st with
  | ExpectCertificate x _ => at_ x ms
  | ExpectCertificateStatusOrServerKx x chain | ExpectCertificateStatus x chain => at_ x ms /\ shown ms chain
  | ExpectServerKx x sc => at_ x ms /\ shown ms (cert_chain sc)
  | ExpectServerDoneOrCertReq x sc kx | ExpectCertificateRequest x sc kx | ExpectServerDone x sc kx _ => at_ x ms /\ shown ms (cert_chain sc) /\ offered ms kx
  | ExpectNewTicket k | ExpectCcs k _ | ExpectFinished k _ => covers t ms (k_transcript k) /\ proved ms (secrets k)
  | ExpectTraffic s => exists pre mf post, ms = pre ++ mf :: post /\ proved pre s /\ finished_proof s t pre mf
  end.
Lemma tls12_at_add x ms m : at_ x ms -> at_ (add x m) (ms ++ [m]).
Proof. intros (?&?&?&?&?). unfold at_. cbn. split_and!; auto. Qed.
Lemma shown_more ms m chain : shown ms chain -> shown (ms ++ [m]) chain.
Proof. intros (mc & Hi & Hc). exists mc. split; [set_solver|done]. Qed.
Lemma offered_more ms m kx : offered ms kx -> offered (ms ++ [m]) kx.
Proof. intros (mk & o & e & Hi & Hc). exists mk, o, e. split; [set_solver|done]. Qed.
Hint Resolve tls12_at_add shown_more offered_more : core.

Lemma tls12_certificate x b ms m (cx cx' : ctx) st : at_ x ms -> handle_certificate x b m cx = (Ok st, cx') -> history st (ms ++ [m]).
Proof.
  intros Hx Hh. unfold handle_certificate in Hh. cx_step. required Hm. cx_step.
  assert (shown (ms ++ [m]) v) as Hs by (exists m; split; [set_solver|by exists parsed, enc]). destruct b; cbn; auto.
Qed.
Lemma tls12_status x chain ms m (cx cx' : ctx) st : at_ x ms -> shown ms chain -> handle_certificate_status x chain m cx = (Ok st, cx') -> history st (ms ++ [m]).
Proof. intros Hx Hs Hh. unfold handle_certificate_status in Hh. cx_step. required Hm. cx_step. cbn. auto. Qed.
Lemma tls12_kx x sc ms m (cx cx' : ctx) st : at_ x ms -> shown ms (cert_chain sc) -> handle_server_kx x sc m cx = (Ok st, cx') -> history st (ms ++ [m]).
Proof.
  intros Hx Hs Hh. unfold handle_server_kx in Hh. cx_step. required Hm. destruct (ServerKeyExchangePayload.unwrap_given_kxa v) as [e|] eqn:Hu; [|by apply alert_ok in Hh].
  cx_step. cbn. split; [auto|]. split; [auto|]. exists m, v, e. split; [set_solver|]. split; [by exists parsed, enc|done].
Qed.
Lemma tls12_request x sc kx ms m (cx cx' : ctx) st :
  at_ x ms -> shown ms (cert_chain sc) -> offered ms kx -> handle_certificate_request x sc kx m cx = (Ok st, cx') -> history st (ms ++ [m]).
Proof. intros Hx Hs Ho Hh. unfold handle_certificate_request in Hh. cx_step. required Hm. cx_step. cbn. auto. Qed.

(** ServerHelloDone: the chain, the signature, then the key exchange. *)
Lemma check_server_ok x sc kx ms (cx cx' : ctx) u : at_ x ms -> shown ms (cert_chain sc) -> offered ms kx -> check_server x sc kx cx = (Ok u, cx') ->
  signed_params c n rnd ms (kx_params kx).
Proof.
  intros (<- & <- & <- & _ & _) (mc & Hi & Hc) (mk & o & e & Hik & Hk & Hu & Hp & Hs) Hh. unfold check_server in Hh. destruct (cert_chain sc) as [|ee ints] eqn:Hch; [done|].
  cx_step. cx_step. apply verified_ok in Hm0 as [Hv ->]. cx_step; [cx_step|]. apply verified_ok in Hh as [Hsig ->].
  eexists mc, _, mk, o, e, ee, ints, (ocsp_response sc), v. split_and!; try done. by rewrite <- Hs.
Qed.
Lemma certverify_covers t1 signer ms (cx cx' : ctx) t2 : covers t ms t1 -> emit_certverify t1 signer cx = (Ok t2, cx') -> covers t ms t2.
Proof.
  intros Hc Hh. unfold emit_certverify in Hh. destruct (HandshakeHash.take_handshake_buf t1) as [[buf|] t3] eqn:Ht; [|done]. cx_step. apply emit_ok in Hh as ->.
  apply covers_sent. eapply covers_ctx; [done|]. unfold HandshakeHash.take_handshake_buf in Ht. by injection Ht as _ <-.
Qed.
Lemma client_kx_ok x kx a t1 ms (cx cx' : ctx) s t2 : at_ x ms -> covers t ms t1 -> client_key_exchange x kx a t1 cx = (Ok (s, t2), cx') ->
  exchanged c rnd suite (kx_params kx) s /\ covers t ms t2.
Proof.
  intros (<- & _ & <- & <- & _) Hc Hh. unfold client_key_exchange in Hh. cx_step. apply decoded_ok in Hm as (rd & Hrd & Ha).
  destruct (find_kx_group _ _) as [g|] eqn:Hg; [|done]. cx_step. apply start_kx_ok in Hm as [seed Hs]. cx_step. apply emit_ok in Hm as ->. do 2 cx_step.
  assert (covers t ms v2) as Hc3.
  { destruct a as [[ctx0|ck signer ctx0]|]; [by repeat cx_step; apply covers_sent| |by repeat cx_step; apply covers_sent]. eapply certverify_covers; [|done]. auto. }
  do 2 cx_step. unfold res in Hm2. injection Hm2 as Hkx <-. do 3 cx_step. injection Hh as <- <- _. split; [|done].
  by eexists v, rd, g, seed, _, _.
Qed.
Lemma tls12_done x sc kx a ms m (cx cx' : ctx) st :
  at_ x ms -> shown ms (cert_chain sc) -> offered ms kx -> handle_server_done x sc kx a m cx = (Ok st, cx') -> history st (ms ++ [m]).
Proof.
  intros Hx Hs Ho Hh. unfold handle_server_done in Hh. destruct (Message.payload m) as [|[ty p] enc| |]; try done. destruct p; try done.
  assert (at_ (add x m) (ms ++ [m])) as Hx1 by auto. do 2 cx_step. apply (check_server_ok _ _ _ _ _ _ _ Hx1 (shown_more _ m _ Hs) (offered_more _ m _ Ho)) in Hm0. do 2 cx_step.
  assert (covers t (ms ++ [m]) v2) as Hc2.
  { destruct Hx1 as (_ & _ & _ & _ & Hc). destruct a as [[|]|]; [by apply emit_ok in Hm2 as ->; apply covers_sent|by apply emit_ok in Hm2 as ->; apply covers_sent|by injection Hm2 as <- _]. }
  cx_step. cx_pairs. eapply client_kx_ok in Hm3 as [Hk Hc3]; [|done|done]. cx_step. unfold emit_finished in Hm3. cx_step. apply emit_ok in Hm3 as ->. cx_step.
  assert (proved (ms ++ [m]) c0) as Hpr by (apply Hproved; by exists (kx_params kx)). cbn [must_issue_new_ticket add set_transcript]. destruct (must_issue_new_ticket x); (split; [by apply covers_sent|done]).
Qed.
Lemma tls12_ccs k tk ms m (cx cx' : ctx) st : covers t ms (k_transcript k) -> proved ms (secrets k) -> handle_ccs k tk m cx = (Ok st, cx') -> history st (ms ++ [m]).
Proof.
  intros Hc Hp Hh. unfold handle_ccs in Hh. destruct (Message.payload m) eqn:Hm; try done. repeat cx_step. cbn. split; [|auto]. apply covers_other; [done|]. by rewrite Hm.
Qed.
Lemma tls12_finished k tk ms m (cx cx' : ctx) st : covers t ms (k_transcript k) -> proved ms (secrets k) -> handle_finished k tk m cx = (Ok st, cx') -> history st (ms ++ [m]).
Proof.
  intros Hc Hp Hh. unfold handle_finished in Hh. cx_step. required Hm. do 2 cx_step. unfold res in Hm0. injection Hm0 as Hhash <-. cx_step; [cx_step|].
  apply negb_false_iff, bool_decide_eq_true in Hb.
  do 3 (apply cx_bind_ok in Hh as (? & ? & _ & Hh)). injection Hh as <- _. exists ms, m, []. split; [done|]. split; [done|].
  eexists _, _. split; [done|]. split; [done|]. cbn [secrets k_add]. rewrite Hb. by exists parsed, enc.
Qed.
Lemma tls12_traffic_stays s m (cx cx' : ctx) st : handle_traffic s m cx = (Ok st, cx') -> st = ExpectTraffic s.
Proof. unfold handle_traffic. destruct (Message.payload m) as [|[ty p] enc| |p]; try done. intros Hh. by repeat cx_step. Qed.
Lemma tls12_step st ms m (cx cx' : ctx) st' : history st ms -> handle_tls12 st m cx = (Ok st', cx') -> history st' (ms ++ [m]).
Proof.
  intros Hst Hh. destruct st as [x b|x ch|x ch|x sc|x sc kx|x sc kx|x sc kx a|k|k tk|k tk|s]; cbn [handle_tls12] in Hh; cbn [history] in Hst; try (match type of Hst with _ /\ _ => destruct Hst as [Hx Hs] end).
  - by eapply tls12_certificate.
  - unfold handle_certificate_status_or_server_kx in Hh. destruct (Message.payload m) as [|[ty p] enc| |]; try done.
    destruct p; try done; [exact (tls12_kx x {| cert_chain := ch; ocsp_response := [] |} _ _ _ _ _ Hx Hs Hh)|exact (tls12_status _ _ _ _ _ _ _ Hx Hs Hh)].
  - by eapply tls12_status.
  - by eapply tls12_kx.
  - destruct Hs as [Hs Ho]. unfold handle_server_done_or_cert_req in Hh.
    assert (at_ (set_transcript x (HandshakeHash.abandon_client_auth (transcript x))) ms) as Hx1
      by (destruct Hx as (?&?&?&?&?); unfold at_; cbn; split_and!; try done; by eapply covers_ctx).
    pose proof (fun a => tls12_done _ sc kx a ms m cx cx' st' Hx1 Hs Ho) as Hdone.
    destruct (Message.payload m) as [|[ty p] enc| |]; try exact (Hdone _ Hh). destruct p; try exact (Hdone _ Hh). exact (tls12_request _ _ _ _ _ _ _ _ Hx Hs Ho Hh).
  - destruct Hs as [Hs Ho]. by eapply tls12_request.
  - destruct Hs as [Hs Ho]. by eapply tls12_done.
  - unfold handle_new_ticket in Hh. cx_step. required Hm. cx_step. cbn. auto.
  - by eapply tls12_ccs.
  - by eapply tls12_finished.
  - apply tls12_traffic_stays in Hh as ->. destruct Hst as (pre & mf & post & -> & Hp & Hf). exists pre, mf, (post ++ [m]). by rewrite <- app_assoc.
Qed.
End history.

Definition in_traffic (st : Tls12State) : Prop := match st with ExpectTraffic _ => True | _ => False end.
Lemma tls12_traffic_final st m (cx cx' : ctx) st' : in_traffic st -> handle_tls12 st m cx = (Ok st', cx') -> in_traffic st'.
Proof. intros Ht Hh. destruct st; try done. cbn [handle_tls12] in Hh. by apply tls12_traffic_stays in Hh as ->. Qed.
Lemma certverify_still t signer : stillx (emit_certverify (Store:=Store) t signer).
Proof. unfold emit_certverify. destruct (HandshakeHash.take_handshake_buf t) as [[buf|] t']; frame. Qed.
Lemma client_kx_still x kx a t : stillx (client_key_exchange (Store:=Store) x kx a t).
Proof. unfold client_key_exchange. frame. all: try apply certverify_still. Qed.
Lemma hello_still c r n rnd t suite sh b : stillx (handle_server_hello (Store:=Store) c r n rnd t suite sh b).
Proof. unfold handle_server_hello. frame. Qed.
Hint Resolve certverify_still client_kx_still : frame.
Lemma done_still x sc kx a m : stillx (handle_server_done (Store:=Store) x sc kx a m).
Proof. unfold handle_server_done, emit_certificate, emit_finished, check_server. frame. Qed.
Lemma tls12_step_still st m (cx cx' : ctx) st' : handle_tls12 st m cx = (Ok st', cx') -> ~ in_traffic st' -> gate (cx_common cx') = gate (cx_common cx).
Proof.
  intros Hh Ht. assert (stillx (handle_tls12 (Store:=Store) st m) -> gate (cx_common cx') = gate (cx_common cx)) as Hs.
  { intros Hs. specialize (Hs cx). by rewrite Hh in Hs. }
  destruct st; cbn [handle_tls12] in *; auto using done_still.
  - apply Hs. unfold handle_certificate. frame.
  - apply Hs. unfold handle_certificate_status_or_server_kx, handle_server_kx, handle_certificate_status. frame.
  - apply Hs. unfold handle_certificate_status. frame.
  - apply Hs. unfold handle_server_kx. frame.
  - apply Hs. unfold handle_server_done_or_cert_req. destruct (Message.payload m) as [|[ty []]| |]; auto using done_still. unfold handle_certificate_request. frame.
  - apply Hs. unfold handle_certificate_request. frame.
  - apply Hs. unfold handle_new_ticket. frame.
  - apply Hs. unfold handle_ccs. frame.
  - exfalso. unfold handle_finished in Hh. do 3 (apply cx_bind_ok in Hh as (? & ? & _ & Hh)). cx_step; [cx_step|]. do 3 (apply cx_bind_ok in Hh as (? & ? & _ & Hh)). by injection Hh as <- _.
  - by apply tls12_traffic_stays in Hh as ->.
Qed.

(** C13: A TLS 1.2 client sends data to nobody it has not authenticated.  Let it
    accept a ServerHello, and any messages come in any order.  A client that offered
    TLS 1.3 refuses a server random with the mark of a downgrade.  Until the traffic
    state is reached, the permission to send application data and the data that
    waits for it are as they were.  In the traffic state with secrets [s], a
    Finished message came with the code, under [s], of a transcript that holds all
    messages before it; and [s] was either exchanged with a point that the key of a
    chain which the verifier accepts for the server's name has signed together with
    both randoms, or derived from the session that the client had offered and the
    server named. *)
Theorem client12_authenticates c r n rnd t suite sh tls13_supported (cx0 cx : ctx) st ms st' cx' :
  handle_server_hello c r n rnd t suite sh tls13_supported cx0 = (Ok st, cx) -> runs12 st cx ms st' cx' ->
  let rnd := {| random_client := random_client rnd; random_server := ServerHelloPayload.random sh |} in
  (tls13_supported = true -> drop 24 (ServerHelloPayload.random sh) <> DOWNGRADE_SENTINEL) /\
  (~ in_traffic st' -> gate (cx_common cx') = gate (cx_common cx0)) /\
  (forall s, st' = ExpectTraffic s -> exists pre mf post, ms = pre ++ mf :: post /\ finished_proof s t pre mf /\
    (server_proof c n rnd suite pre s \/
     exists session, r = Some session /\ SessionId.eqb (Tls12ClientSessionValue.session_id session) (ServerHelloPayload.session_id sh) = true /\
       suite_id (common12 (Tls12ClientSessionValue.suite session)) = suite_id (common12 suite) /\
       new_resume (E:=Error.t) rnd suite (ClientSessionCommon.secret (Tls12ClientSessionValue.common session)) = Ok s)).
Proof.
  intros Hh Hr rnd'. pose proof (hello_still c r n rnd t suite sh tls13_supported cx0) as Hst. rewrite Hh in Hst. cbn [snd] in Hst.
  set (resumed := fun s => exists session, r = Some session /\ SessionId.eqb (Tls12ClientSessionValue.session_id session) (ServerHelloPayload.session_id sh) = true /\
    suite_id (common12 (Tls12ClientSessionValue.suite session)) = suite_id (common12 suite) /\
    new_resume (E:=Error.t) rnd' suite (ClientSessionCommon.secret (Tls12ClientSessionValue.common session)) = Ok s).
  set (proved := fun ms s => server_proof c n rnd' suite ms s \/ resumed s).
  assert ((tls13_supported = true -> drop 24 (ServerHelloPayload.random sh) <> DOWNGRADE_SENTINEL) /\ history c n rnd' suite t proved st []) as [Hd H0'].
  { unfold handle_server_hello in Hh. cx_step; [cx_step|]. split; [intros -> Heq; cbn in Hb; by rewrite Heq in Hb|].
    destruct r as [session|]; [|injection Hh as <- _; by split_and!]. cx_step; [|injection Hh as <- _; by split_and!].
    cx_step; [cx_step|]. apply negb_false_iff, bool_decide_eq_true in Hb1. cx_step; [cx_step|]. cx_step. unfold res in Hm. injection Hm as Hs _.
    do 3 (apply cx_bind_ok in Hh as (? & ? & _ & Hh)). injection Hh as <- _. assert (resumed v) as Hre by by exists session.
    case_match; (split; [apply covers_nil|by right]). }
  split; [done|]. split; [intros Hn; rewrite <- Hst|].
  { apply (runs_still _ in_traffic) with (2 := tls12_step_still) (3 := Hr); [exact tls12_traffic_final|done]. }
  intros s ->.
  pose proof (runs_history _ _ (tls12_step c n rnd' suite t proved (fun ms s Hp => or_introl Hp) (proved_more _ _ _ _ _)) _ _ _ _ _ [] Hr H0') as Hfin.
  cbn [app] in Hfin. destruct Hfin as (pre & mf & post & -> & Hp & Hf).
  by exists pre, mf, post.
Qed.
End tls12.

(** ** An instance *)

#[local] Existing Instances sum_hashing sum_ring.
#[local] Instance names12 : DnsNames := {| dns_try_from _ := true |}.
#[local] Instance profile12 : Profile := true.
Definition ex12_randoms : ConnectionRandoms := {| random_client := replicate 32 1; random_server := replicate 32 2 |}.
Definition ex12_hello : ServerHelloPayload.t := {|
  ServerHelloPayload.legacy_version := Known TLSv1_2; ServerHelloPayload.random := random_server ex12_randoms; ServerHelloPayload.session_id := SessionId.empty;
  ServerHelloPayload.cipher_suite := Known CipherSuite.TLS_ECDHE_ECDSA_WITH_AES_128_GCM_SHA256; ServerHelloPayload.compression_method := Known Compression.Null;
  ServerHelloPayload.extensions := [] |}.
Definition ex12_transcript : HandshakeHash.t := HandshakeHash.start_hash HandshakeHashBuffer.new SHA256.
Definition ex12_cx : Context (ClientConnectionData unit) := {| cx_common := CommonState.new Client; cx_data := new_data tt; cx_world := draws 40 |}.
#[local] Instance store12 : ClientSessionStore unit := no_client_session_storage.
Abbreviation ex12_accept := (handle_server_hello (sample_client [NamedGroup.X25519] false) None sample_name ex12_randoms ex12_transcript
  TLS_ECDHE_ECDSA_WITH_AES_128_GCM_SHA256 ex12_hello false ex12_cx).
(** The server's flight, signed with the key of certificate 7. *)
Definition ex12_params : ServerEcdhParams.t := ServerEcdhParams.new (Known NamedGroup.X25519) (replicate 32 3).
Definition ex12_flight : list Message.t := [
  hs_message (Known TLSv1_2) HandshakeType.Certificate (HandshakePayload.Certificate [[7]]);
  hs_message (Known TLSv1_2) HandshakeType.ServerKeyExchange (HandshakePayload.ServerKeyExchange (ServerKeyExchangePayload.Unknown
    (encode (Codec:=EcdheServerKeyExchange.codec) {| EcdheServerKeyExchange.params := ex12_params; EcdheServerKeyExchange.dss := {|
       DigitallySignedStruct.scheme := Known SignatureScheme.ED25519;
       DigitallySignedStruct.sig := toy_sign 7 (random_client ex12_randoms ++ random_server ex12_randoms ++ encode (Codec:=ServerEcdhParams.codec) ex12_params []) |} |} [])));
  hs_message (Known TLSv1_2) HandshakeType.ServerHelloDone HandshakePayload.ServerHelloDone; ccs_message].
Abbreviation ex12_context := (Context (ClientConnectionData unit)).
Definition shake (r : result Error.t Tls12State * ex12_context) : option (Tls12State * ex12_context * list Message.t * Tls12State * ex12_context) :=
  match r with
  | (Ok st, cx) =>
      '(st1, cx1) ← run handle_tls12 ex12_flight st cx;
      match st1 with
      | ExpectFinished k _ =>
          match HandshakeHash.get_current_hash (E:=Error.t) (k_transcript k) with
          | Ok h =>
              let ms := ex12_flight ++ [hs_message (Known TLSv1_2) HandshakeType.Finished (HandshakePayload.Finished (server_verify_data (secrets k) h))] in
              '(st', cx') ← run handle_tls12 ms st cx; Some (st, cx, ms, st', cx')
          | _ => None
          end
      | _ => None
      end
  | _ => None
  end.
Definition shaken (r : result Error.t Tls12State * ex12_context) : bool := match shake r with Some (_, _, _, ExpectTraffic _, _) => true | _ => false end.
Lemma ex12_shaken : shaken ex12_accept = true.
Proof. vm_compute. reflexivity. Qed.
Lemma shaken_parts r : shaken r = true -> exists st cx ms s cx', r = (Ok st, cx) /\ runs handle_tls12 st cx ms (ExpectTraffic s) cx'.
Proof.
  unfold shaken, shake. destruct r as [[st|e|] cx]; try discriminate. destruct (run handle_tls12 ex12_flight st cx) as [[st1 cx1]|]; [|discriminate]. cbn [mbind option_bind].
  destruct st1; try discriminate. destruct (HandshakeHash.get_current_hash _); try discriminate. cbn zeta.
  match goal with |- context [run handle_tls12 ?ms st cx] => destruct (run handle_tls12 ms st cx) as [[st' cx']|] eqn:Hr; [|discriminate] end.
  cbn [mbind option_bind]. destruct st'; try discriminate. intros _. eexists _, _, _, _, _. split; [reflexivity|by apply run_runs].
Qed.
Lemma client12_authenticates_witness :
  exists st cx ms s cx', ex12_accept = (Ok st, cx) /\ runs handle_tls12 st cx ms (ExpectTraffic s) cx' /\
    exists pre, server_proof (sample_client [NamedGroup.X25519] false) sample_name ex12_randoms TLS_ECDHE_ECDSA_WITH_AES_128_GCM_SHA256 pre s.
Proof.
  destruct (shaken_parts ex12_accept ex12_shaken) as (st & cx & ms & s & cx' & Ha & Hr). exists st, cx, ms, s, cx'. split; [exact Ha|]. split; [exact Hr|].
  destruct (client12_authenticates _ None _ _ _ _ _ _ _ _ _ _ _ _ Ha Hr) as (_ & _ & Hp). destruct (Hp s eq_refl) as (pre & mf & post & _ & _ & Hs).
  exists pre. destruct Hs as [Hs|(session & Hn & _)]; [exact Hs|discriminate Hn].
Defined.
