(* ===== verification/ServerTls12Laws.v ===== *)
(** * What a TLS 1.2 server has checked when it takes data
    (orcax/rustls-fork/rustls/src/server/tls12.rs) *)
From S2P Require Import Prelude Codec RustStd TlsLayer VecBuf Enums Wire Messages Payloads Ciphers Suites Errors Common Hkdf KeySchedule Transcript Tls12 Persist Conn Context Frames ClientBase ServerBase Samples ServerExt ServerTls12.
Import CommonState.

Section tls12.
Context {H : Hashing} {A : RingAead} `{DnsNames} {Store : Type} {S : StoresServerSessions Store}.
Abbreviation ctx := (Context (ServerConnectionData Store)).
Abbreviation runs12 := (runs (handle_tls12 (Store:=Store))).

(** ** The hello *)

(** The server's ServerHello: its random, and the suite. *)
Definition says_hello (rnd : ConnectionRandoms) (suite : Tls12CipherSuite) (m : Message.t) : Prop :=
  exists p, carries m (HandshakePayload.ServerHello p) /\ ServerHelloPayload.random p = random_server rnd /\ ServerHelloPayload.cipher_suite p = suite_id (common12 suite).
(** A message that is there or not. *)
Definition at_most (P : Message.t -> Prop) (ms : list Message.t) : Prop := ms = [] \/ exists m, ms = [m] /\ P m.
Lemma hello_emitted x o hello r (cx cx' : ctx) b o' t' : emit_server_hello x o hello r cx = (Ok (b, o', t'), cx') ->
  exists sh, says_hello (s_randoms x) (s_suite x) sh /\ t' = HandshakeHash.add_message (s_transcript x) sh.
Proof.
  intros Hh. unfold emit_server_hello in Hh. cx_step. cx_pairs. cx_step. apply emit_ok in Hm0 as ->. injection Hh as _ _ <- _. eexists. split; [|reflexivity]. eexists. split; [by eexists _, _|done].
Qed.
(** The flight of a resumed handshake, after the transcript [t]: the hello, a ticket if
    one is sent, and the Finished message with the code of all that under [s]. *)
Definition resumed_flight (rnd : ConnectionRandoms) (suite : Tls12CipherSuite) (s : ConnectionSecrets) (t : HandshakeHash.t) (fl : list Message.t) : Prop :=
  exists sh ticket h mf, fl = sh :: ticket ++ [mf] /\ says_hello rnd suite sh /\ at_most (fun m => exists p, carries m (HandshakePayload.NewSessionTicket p)) ticket /\
    HandshakeHash.get_current_hash (E:=Error.t) (adds t (sh :: ticket)) = Ok h /\ carries mf (HandshakePayload.Finished (server_verify_data s h)).
Lemma last_flight_emitted k (cx cx' : ctx) t' : last_flight k cx = (Ok t', cx') ->
  exists ticket h mf, at_most (fun m => exists p, carries m (HandshakePayload.NewSessionTicket p)) ticket /\ HandshakeHash.get_current_hash (E:=Error.t) (adds (k_transcript k) ticket) = Ok h /\
    carries mf (HandshakePayload.Finished (server_verify_data (secrets k) h)) /\ t' = adds (k_transcript k) (ticket ++ [mf]).
Proof.
  intros Hh. unfold last_flight in Hh. cx_step.
  assert (exists ticket, at_most (fun m => exists p, carries m (HandshakePayload.NewSessionTicket p)) ticket /\ v = adds (k_transcript k) ticket) as (ticket & Htk & ->).
  { destruct (k_send_ticket k); [|injection Hm as <- _; exists []; split; [by left|done]]. unfold emit_ticket in Hm. do 3 (apply cx_bind_ok in Hm as (? & ? & _ & Hm)). apply emit_ok in Hm as ->.
    match goal with |- context [HandshakeHash.add_message _ ?m] => exists [m] end. split; [|done]. right. eexists. split; [done|]. eexists. by eexists _, _. }
  do 2 (apply cx_bind_ok in Hh as (? & ? & _ & Hh)). unfold emit_finished in Hh. cx_step. unfold res in Hm0. injection Hm0 as Hhash <-. apply emit_ok in Hh as ->.
  eexists ticket, _, _. split; [done|]. split; [exact Hhash|]. split; [|by rewrite adds_snoc]. by eexists _, _.
Qed.
(** The request for a certificate, if the server makes one. *)
Definition request12 (c : ServerConfig) (req : list Message.t) : Prop :=
  if offer_client_auth (verifier c) then exists m r, req = [m] /\ carries m (HandshakePayload.CertificateRequest r) else req = [].
(** The point of the server's key exchange, signed with its key together with the
    randoms. *)
Definition offers_point (rnd : ConnectionRandoms) (k : CertifiedKey) (kx : ActiveKeyExchange) (m : Message.t) : Prop :=
  exists signer sig schemes, choose_scheme (key k) schemes = Some signer /\
    sign signer (encode (Codec:=ServerEcdhParams.codec) (ServerEcdhParams.new (group kx) (pub_key kx)) (random_client rnd ++ random_server rnd)) = Ok sig /\
    carries m (HandshakePayload.ServerKeyExchange (ServerKeyExchangePayload.Ecdhe {|
      EcdheServerKeyExchange.params := ServerEcdhParams.new (group kx) (pub_key kx);
      EcdheServerKeyExchange.dss := {| DigitallySignedStruct.scheme := scheme signer; DigitallySignedStruct.sig := sig |} |})).
(** The flight of a full handshake: the hello, the chain, a certificate status if there
    is one, the signed point, the request, and the end of the flight. *)
Definition full_flight (c : ServerConfig) (rnd : ConnectionRandoms) (suite : Tls12CipherSuite) (k : CertifiedKey) (kx : ActiveKeyExchange) (fl : list Message.t) : Prop :=
  exists sh mc status mk req md, fl = sh :: mc :: status ++ mk :: req ++ [md] /\ says_hello rnd suite sh /\ carries mc (HandshakePayload.Certificate (cert k)) /\
    at_most (fun m => exists p, carries m (HandshakePayload.CertificateStatus p)) status /\ offers_point rnd k kx mk /\ request12 c req /\ carries md HandshakePayload.ServerHelloDone.
Lemma server_kx_emitted t l g k rnd (cx cx' : ctx) kx t' : emit_server_kx t l g (key k) rnd cx = (Ok (kx, t'), cx') -> exists mk, offers_point rnd k kx mk /\ t' = HandshakeHash.add_message t mk.
Proof.
  intros Hh. unfold emit_server_kx in Hh. cx_step. destruct (choose_scheme (key k) l) as [sg|] eqn:Hs; [|done]. do 2 cx_step. unfold res in Hm0. injection Hm0 as Hsig <-. apply emit_ok in Hm1 as ->. injection Hh as <- <- _.
  eexists. split; [|reflexivity]. eexists sg, _, l. split; [done|]. split; [done|]. by eexists _, _.
Qed.
Lemma certificate_req_emitted c t (cx cx' : ctx) b t' : emit_certificate_req c t cx = (Ok (b, t'), cx') -> b = offer_client_auth (verifier c) /\ exists req, request12 c req /\ t' = adds t req.
Proof.
  intros Hh. unfold emit_certificate_req, request12 in *. destruct (offer_client_auth (verifier c)); cbn [negb] in Hh; [|injection Hh as <- <- _; split; [done|]; by exists []].
  cx_step. apply emit_ok in Hm as ->. injection Hh as <- <- _. split; [done|]. match goal with |- context [HandshakeHash.add_message _ ?m] => exists [m] end. split; [|done]. eexists _, _. split; [done|by eexists _, _].
Qed.
(** What the server's first flight leaves: a session that was found, or the fresh
    key exchange of a full handshake. *)
Definition offered_ems (x : Base) (hello : ClientHelloPayload.t) : bool := ClientHelloPayload.ems_support_offered hello || s_using_ems x.
Definition hello_randoms (x : Base) (tls13_enabled : bool) : ConnectionRandoms := if tls13_enabled then mark_downgrade (s_randoms x) else s_randoms x.
Definition resumed (x : Base) (hello : ClientHelloPayload.t) (tls13_enabled : bool) (cx0 : ctx) (s : ConnectionSecrets) : Prop :=
  exists data b cx1, find_session (s_config x) (s_suite x) (offered_ems x hello) hello cx0 = (Ok (Some data, b), cx1) /\
    new_resume (E:=Error.t) (hello_randoms x tls13_enabled) (s_suite x) (ServerSessionValue.master_secret data) = Ok s.
Definition started (x : Base) (k : CertifiedKey) (chm : Message.t) (hello : ClientHelloPayload.t) (tls13_enabled : bool) (cx0 : ctx) (st : Tls12State) (fl : list Message.t) : Prop :=
  let t := adds (s_transcript x) (chm :: fl) in
  match st with
  | ExpectCcs kd true => k_transcript kd = t /\ resumed x hello tls13_enabled cx0 (secrets kd) /\
      resumed_flight (hello_randoms x tls13_enabled) (s_suite x) (secrets kd) (adds (s_transcript x) [chm]) fl
  | ExpectCertificate b kx => s_transcript b = t /\ s_config b = s_config x /\ s_randoms b = hello_randoms x tls13_enabled /\ s_suite b = s_suite x /\
      full_flight (s_config x) (hello_randoms x tls13_enabled) (s_suite x) k kx fl
  | ExpectClientKx b kx None => s_transcript b = t /\ s_config b = s_config x /\ s_randoms b = hello_randoms x tls13_enabled /\ s_suite b = s_suite x /\
      full_flight (s_config x) (hello_randoms x tls13_enabled) (s_suite x) k kx fl /\ offer_client_auth (verifier (s_config x)) = false
  | _ => False
  end.
Lemma resumption_ok x hello id data (cx cx' : ctx) st : start_resumption x hello id data cx = (Ok st, cx') ->
  exists k fl, st = ExpectCcs k true /\ k_transcript k = adds (s_transcript x) fl /\ resumed_flight (s_randoms x) (s_suite x) (secrets k) (s_transcript x) fl /\
    new_resume (E:=Error.t) (s_randoms x) (s_suite x) (ServerSessionValue.master_secret data) = Ok (secrets k).
Proof.
  intros Hh. unfold start_resumption in Hh. cx_step; [cx_step|]. cx_step. cx_pairs. apply hello_emitted in Hm as (sh & Hsh & ->). cbn [s_transcript s_randoms s_suite] in Hsh |- *. cx_step. unfold res in Hm. injection Hm as Hs <-.
  do 3 (apply cx_bind_ok in Hh as (? & ? & _ & Hh)). cx_step. apply last_flight_emitted in Hm as (ticket & h & mf & Htk & Hhash & Hmf & ->). injection Hh as <- _. cbn [k_transcript secrets] in *.
  eexists _, (sh :: ticket ++ [mf]). split; [done|]. split; [done|]. split; [|done]. by exists sh, ticket, h, mf.
Qed.
Lemma full_ok x k hello sigs gs eps b (cx cx' : ctx) st : full_handshake x k hello sigs gs eps b cx = (Ok st, cx') ->
  exists b kx fl, s_transcript b = adds (s_transcript x) fl /\ full_flight (s_config x) (s_randoms x) (s_suite x) k kx fl /\ s_config b = s_config x /\ s_randoms b = s_randoms x /\ s_suite b = s_suite x /\
    st = if offer_client_auth (verifier (s_config x)) then ExpectCertificate b kx else ExpectClientKx b kx None.
Proof.
  intros Hh. unfold full_handshake in Hh. cx_step; [cx_step|]. do 4 (apply cx_bind_ok in Hh as (? & ? & _ & Hh)). cx_step. cx_pairs. apply hello_emitted in Hm as (sh & Hsh & ->). cbn [s_transcript s_randoms s_suite] in Hsh, Hh.
  cx_step. apply emit_ok in Hm as ->. set (mc := hs_message _ HandshakeType.Certificate _) in Hh. cx_step. set (t1 := HandshakeHash.add_message (HandshakeHash.add_message _ sh) mc) in *.
  assert (exists status, at_most (fun m => exists p, carries m (HandshakePayload.CertificateStatus p)) status /\ v = adds t1 status) as (status & Hstat & ->).
  { destruct o; [apply emit_ok in Hm as ->|injection Hm as <- _; exists []; split; [by left|done]]. match goal with |- context [HandshakeHash.add_message _ ?m] => exists [m] end. split; [|done].
    right. eexists. split; [done|]. eexists. by eexists _, _. }
  clear Hm. cx_step. cx_pairs. apply server_kx_emitted in Hm as (mk & Hmk & ->). cx_step. cx_pairs. apply certificate_req_emitted in Hm as (-> & req & Hreq & ->). cx_step. apply emit_ok in Hm as ->.
  set (md := hs_message _ HandshakeType.ServerHelloDone _) in Hh. injection Hh as <- _. match goal with |- context [ExpectCertificate ?b0 ?kx0] => exists b0, kx0 end. exists (sh :: mc :: status ++ mk :: req ++ [md]).
  split; [|split; [|by split_and!]].
  - cbn [s_transcript]. change (sh :: mc :: status ++ mk :: req ++ [md]) with ([sh; mc] ++ status ++ [mk] ++ req ++ [md]). rewrite !adds_app. reflexivity.
  - exists sh, mc, status, mk, req, md. split_and!; try done; by eexists _, _.
Qed.
Lemma client_hello12_ok x k chm hello sigs tls13 (cx cx' : ctx) st : handle_client_hello x k chm hello sigs tls13 cx = (Ok st, cx') -> exists fl, started x k chm hello tls13 cx st fl.
Proof.
  intros Hh. unfold handle_client_hello in Hh. destruct (ClientHelloPayload.get_namedgroups_extension hello) as [gs|]; [|by cx_step; apply alert_ok in Hm].
  destruct (ClientHelloPayload.get_ecpoints_extension hello) as [eps|]; [|by do 2 cx_step; apply alert_ok in Hm0].
  do 2 cx_step. injection Hm as <- <-. injection Hm0 as <- <-. cx_step; [cx_step|]. cx_step. cx_pairs. destruct o as [data|].
  - apply resumption_ok in Hh as (kd & fl & -> & Ht & Hfl & Hs). exists fl. split; [done|]. split; [by eexists data, b, _|done].
  - apply full_ok in Hh as (bs & kx & fl & Ht & Hfl & Hc & Hr & Hsu & ->). exists fl. unfold started. destruct (offer_client_auth _) eqn:Ho; by split_and!.
Qed.

(** ** After the hello *)

(** The client has shown a chain that the verifier accepts, and its key has signed
    all messages up to the key exchange. *)
Definition client_proof (c : ServerConfig) (t : HandshakeHash.t) (ms : list Message.t) : Prop :=
  exists mc mk mv sig ee ints now msgs, [mc; mk; mv] `prefix_of` ms /\ carries mc (HandshakePayload.Certificate (ee :: ints)) /\
    carries mv (HandshakePayload.CertificateVerify sig) /\ verify_client_cert (verifier c) ee ints now = Ok tt /\
    HandshakeHash.client_auth (adds t [mc; mk]) = Some msgs /\ sv_verify_tls12_signature (verifier c) msgs ee sig = Ok tt.
(** The secrets come from the server's key exchange with the point the client sent. *)
Definition exchanged (kx : ActiveKeyExchange) (rnd : ConnectionRandoms) (suite : Tls12CipherSuite) (ms : list Message.t) (s : ConnectionSecrets) : Prop :=
  exists mk params point rd ems, mk ∈ ms /\ carries mk (HandshakePayload.ClientKeyExchange params) /\
    read (Codec:=client_ecdh_params_codec) (init params) = (Ok point, rd) /\ any_left rd = false /\ from_key_exchange (complete kx) point ems rnd suite = Ok s.
Definition client_finished (s : ConnectionSecrets) (t : HandshakeHash.t) (ms : list Message.t) (m : Message.t) : Prop :=
  exists h, HandshakeHash.get_current_hash (E:=Error.t) (adds t ms) = Ok h /\ carries m (HandshakePayload.Finished (client_verify_data s h)).

Section history.
Context (c : ServerConfig) (rnd : ConnectionRandoms) (suite : Tls12CipherSuite) (t : HandshakeHash.t) (kx0 : ActiveKeyExchange) (asked : bool).
Context (resumes : ConnectionSecrets -> Prop).
Definition shown (ms : list Message.t) : Prop := asked = true -> client_auth_mandatory (verifier c) = true -> client_proof c t ms.
Definition proved (ms : list Message.t) (s : ConnectionSecrets) : Prop := resumes s \/ exchanged kx0 rnd suite ms s /\ shown ms.
Definition same_hash (t1 t2 : HandshakeHash.t) : Prop := HandshakeHash.ctx t1 = HandshakeHash.ctx t2.
Definition at_ (x : Base) (kx : ActiveKeyExchange) : Prop := s_config x = c /\ s_randoms x = rnd /\ s_suite x = suite /\ kx = kx0.
(** The chain of the client, accepted, in the first message. *)
Definition accepted (mc : Message.t) (chain : list bytes) : Prop := exists ee ints now, chain = ee :: ints /\ carries mc (HandshakePayload.Certificate (ee :: ints)) /\
  verify_client_cert (verifier c) ee ints now = Ok tt.
Definition history (st : Tls12State) (ms : list Message.t) : Prop :=
  match st with
  | ExpectCertificate x kx => at_ x kx /\ s_transcript x = t /\ ms = []
  | ExpectClientKx x kx None => at_ x kx /\ same_hash (s_transcript x) (adds t ms) /\ (asked = true -> client_auth_mandatory (verifier c) = false)
  | ExpectClientKx x kx (Some chain) => at_ x kx /\ exists mc, ms = [mc] /\ s_transcript x = adds t [mc] /\ accepted mc chain
  | ExpectCertificateVerify k chain => k_config k = c /\ exchanged kx0 rnd suite ms (secrets k) /\
      exists mc mk, ms = [mc; mk] /\ k_transcript k = adds t [mc; mk] /\ accepted mc chain
  | ExpectCcs k _ | ExpectFinished k _ => same_hash (k_transcript k) (adds t ms) /\ proved ms (secrets k)
  | ExpectTraffic s => exists pre mf post, ms = pre ++ mf :: post /\ proved pre s /\ client_finished s t pre mf
  end.
Lemma same_hash_add t1 ms m : same_hash t1 (adds t ms) -> same_hash (HandshakeHash.add_message t1 m) (adds t (ms ++ [m])).
Proof. intros Hs. rewrite adds_snoc. by apply ctx_add. Qed.
Lemma exchanged_more ms s m : exchanged kx0 rnd suite ms s -> exchanged kx0 rnd suite (ms ++ [m]) s.
Proof. intros (mk & p & pt & rd & e & Hi & Hr). exists mk, p, pt, rd, e. split; [set_solver|done]. Qed.
Lemma tls12_proved_more ms s m : proved ms s -> proved (ms ++ [m]) s.
Proof.
  intros [Hr|[He Hs]]; [by left|right]. split; [by apply exchanged_more|]. intros Ha Hma. destruct (Hs Ha Hma) as (mc & mk & mv & sig & ee & ints & now & msgs & Hp & Hr).
  exists mc, mk, mv, sig, ee, ints, now, msgs. split; [by apply prefix_app_r|done].
Qed.

Lemma server12_certificate x kx m (cx cx' : ctx) st : history (ExpectCertificate x kx) [] -> handle_certificate x kx m cx = (Ok st, cx') -> history st [m].
Proof.
  intros ((Hc & Hx) & Ht & _) Hh. unfold handle_certificate in Hh. cx_step. required Hm. destruct v as [|ee ints].
  - cbn [add set_transcript s_config] in Hh. rewrite Hc in Hh. cx_step; [cx_step|]. cx_step. split; [done|]. split; [|done]. unfold same_hash. cbn. by rewrite Ht.
  - do 2 cx_step. apply verified_ok in Hm0 as [Hv ->]. cx_step. split; [done|]. exists m. split; [done|]. cbn. rewrite Ht. split; [done|].
    exists ee, ints, v. split; [done|]. split; [by exists parsed, enc|by rewrite <- Hc].
Qed.
Lemma server12_kx x kx cc ms m (cx cx' : ctx) st : history (ExpectClientKx x kx cc) ms -> handle_client_kx x kx cc m cx = (Ok st, cx') -> history st (ms ++ [m]).
Proof.
  intros Hst Hh. unfold handle_client_kx in Hh. cx_step. required Hm. cx_step. clear Hm. cx_step. apply decoded_ok in Hm as (rd & Hrd & Ha). cx_step. unfold res in Hm. injection Hm as Hs <-.
  do 2 (apply cx_bind_ok in Hh as (? & ? & _ & Hh)). injection Hh as <- _. cbn [s_transcript s_randoms s_suite add set_transcript] in *.
  assert (at_ x kx) as (Hc & Hr & Hsu & ->) by by destruct cc; destruct Hst. rewrite Hr, Hsu in Hs.
  assert (exchanged kx0 rnd suite (ms ++ [m]) v2) as Hex by (eexists m, v, _, rd, _; split; [set_solver|]; split; [by exists parsed, enc|done]).
  destruct cc as [chain|].
  - destruct Hst as (_ & mc & -> & Ht & Hac). split; [done|]. split; [done|]. exists mc, m. split; [done|]. cbn. by rewrite Ht.
  - destruct Hst as (_ & Ht & Ho). split; [by apply same_hash_add|]. right. split; [done|]. intros Hq Hma. rewrite (Ho Hq) in Hma. done.
Qed.
Lemma server12_verify k chain ms m (cx cx' : ctx) st :
  history (ExpectCertificateVerify k chain) ms -> handle_certificate_verify k chain m cx = (Ok st, cx') -> history st (ms ++ [m]).
Proof.
  intros (Hc & Hex & mc & mk & -> & Ht & ee & ints & now & -> & Hca & Hv) Hh. unfold handle_certificate_verify in Hh. cx_step. required Hm.
  unfold HandshakeHash.take_handshake_buf in Hh. destruct (HandshakeHash.client_auth (k_transcript k)) as [msgs|] eqn:Hb; [|by apply alert_ok in Hh].
  cx_step. apply verified_ok in Hm as [Hsig ->]. cx_step. injection Hh as <- _. split; [apply same_hash_add; unfold same_hash; cbn; by rewrite Ht|].
  right. split; [by apply exchanged_more|]. intros _ _. rewrite Hc in Hsig. rewrite Ht in Hb. exists mc, mk, m, v, ee, ints, now, msgs. split_and!; try done. by exists parsed, enc.
Qed.
Lemma server12_ccs k b ms m (cx cx' : ctx) st : history (ExpectCcs k b) ms -> handle_ccs k b m cx = (Ok st, cx') -> history st (ms ++ [m]).
Proof.
  intros [Ht Hp] Hh. unfold handle_ccs in Hh. destruct (Message.payload m) eqn:Hm; try done. do 2 cx_step. injection Hh as <- _. split; [|by apply tls12_proved_more].
  rewrite adds_snoc. unfold HandshakeHash.add_message. by rewrite Hm.
Qed.
Lemma server12_finished k b ms m (cx cx' : ctx) st : history (ExpectFinished k b) ms -> handle_finished k b m cx = (Ok st, cx') -> history st (ms ++ [m]).
Proof.
  intros [Ht Hp] Hh. unfold handle_finished in Hh. cx_step. required Hm. do 2 cx_step. unfold res in Hm0. injection Hm0 as Hhash <-. cx_step; [cx_step|].
  apply negb_false_iff, bool_decide_eq_true in Hb. do 3 (apply cx_bind_ok in Hh as (? & ? & _ & Hh)). injection Hh as <- _. exists ms, m, []. split; [done|]. split; [done|].
  eexists. split; [unfold HandshakeHash.get_current_hash in *; rewrite <- Ht; done|]. cbn [secrets k_set_transcript]. rewrite Hb. by exists parsed, enc.
Qed.
Lemma server12_traffic_stays s m (cx cx' : ctx) st : handle_traffic s m cx = (Ok st, cx') -> st = ExpectTraffic s.
Proof. unfold handle_traffic. destruct (Message.payload m) as [|[ty p] enc| |p]; try done. intros Hh. by repeat cx_step. Qed.
Lemma server12_step st ms m (cx cx' : ctx) st' : history st ms -> handle_tls12 st m cx = (Ok st', cx') -> history st' (ms ++ [m]).
Proof.
  intros Hst Hh. destruct st as [x kx|x kx cc|k ch|k b|k b|s]; cbn [handle_tls12] in Hh.
  - destruct Hst as (Hx & Ht & ->). by eapply server12_certificate.
  - by eapply server12_kx.
  - by eapply server12_verify.
  - by eapply server12_ccs.
  - by eapply server12_finished.
  - apply server12_traffic_stays in Hh as ->. destruct Hst as (pre & mf & post & -> & Hp & Hf). exists pre, mf, (post ++ [m]). by rewrite <- app_assoc.
Qed.
End history.

(** The key exchange that the server's flight has started. *)
Definition kx_of (st : Tls12State) : option ActiveKeyExchange := match st with ExpectCertificate _ kx | ExpectClientKx _ kx _ => Some kx | _ => None end.
Definition no_exchange : ActiveKeyExchange := {| group := Unknown 0; pub_key := []; complete _ := Panic |}.
Lemma no_exchange_fails rnd suite ms s : ~ exchanged no_exchange rnd suite ms s.
Proof. intros (mk & p & pt & rd & ems & _ & _ & _ & _ & Hs). unfold from_key_exchange, for_key_exchange in Hs. by destruct ems. Qed.
Definition in_traffic (st : Tls12State) : Prop := match st with ExpectTraffic _ => True | _ => False end.
Lemma server12_traffic_final st m (cx cx' : ctx) st' : in_traffic st -> handle_tls12 st m cx = (Ok st', cx') -> in_traffic st'.
Proof. intros Ht Hh. destruct st; try done. cbn [handle_tls12] in Hh. by apply server12_traffic_stays in Hh as ->. Qed.
Lemma process_common_still c o hello r exts : stillx (process_common (Store:=Store) c o hello r exts).
Proof. unfold process_common, process_alpn, process_quic. frame. Qed.
Lemma server_hello12_still x o hello r : stillx (emit_server_hello (Store:=Store) x o hello r).
Proof. unfold emit_server_hello. apply stillx_bind; [apply process_common_still|]. intros [exts o']. destruct (process_tls12 _ _ _). frame. Qed.
Lemma raw_draw_still : stillx (raw_draw (D:=ServerConnectionData Store)).
Proof. by apply stillx_same. Qed.
Lemma random_vec_still k : stillx (random_vec (D:=ServerConnectionData Store) k).
Proof. apply stillx_same. intros cx. unfold random_vec. by destruct (rng (cx_world cx)) as [|[]]. Qed.
Hint Resolve process_common_still server_hello12_still raw_draw_still random_vec_still : frame.
Lemma last_flight_still k : stillx (last_flight (Store:=Store) k).
Proof. unfold last_flight, emit_ticket, get_server_connection_value_tls12, emit_finished, emit_ccs. frame. Qed.
Hint Resolve last_flight_still : frame.
Lemma client_hello12_still x k chm hello l b : stillx (handle_client_hello (Store:=Store) x k chm hello l b).
Proof.
  unfold handle_client_hello, find_session, start_resumption, full_handshake, emit_server_kx, emit_certificate_req, emit_certificate, emit_cert_status, emit_server_hello_done. frame.
Qed.
Lemma server12_step_still st m (cx cx' : ctx) st' : handle_tls12 st m cx = (Ok st', cx') -> ~ in_traffic st' -> gate (cx_common cx') = gate (cx_common cx).
Proof.
  intros Hh Ht. assert (stillx (handle_tls12 (Store:=Store) st m) -> gate (cx_common cx') = gate (cx_common cx)) as Hs.
  { intros Hs. specialize (Hs cx). by rewrite Hh in Hs. }
  destruct st; cbn [handle_tls12] in *.
  - apply Hs. unfold handle_certificate. frame.
  - apply Hs. unfold handle_client_kx, log_master_secret. frame.
  - apply Hs. unfold handle_certificate_verify. frame.
  - apply Hs. unfold handle_ccs. frame.
  - exfalso. unfold handle_finished in Hh. do 3 (apply cx_bind_ok in Hh as (? & ? & _ & Hh)). cx_step; [cx_step|]. do 3 (apply cx_bind_ok in Hh as (? & ? & _ & Hh)).
    by injection Hh as <- _.
  - by apply server12_traffic_stays in Hh as ->.
Qed.

(** C15: A TLS 1.2 server takes no client for another.  Let the server answer a hello,
    and any messages come in any order.  Until the traffic state is reached, the
    permission to send application data and the data that waits for it are as they
    were before the hello.  In the traffic state with secrets [s], the client's
    Finished message came with the code, under [s], of exactly this: what was in the
    transcript, the hello, the server's flight and all messages before it.  Either [s] is
    that of a session which the server found for this hello, and its flight is a
    ServerHello, a ticket if it sends one, and a Finished message with the code of all
    that; or [s] was exchanged by the key exchange of the server's flight, which is a
    ServerHello, the server's chain, a certificate status if it has one, the point of
    that exchange signed by the key of the chain, a request if it asks for a certificate,
    and the end of the flight, with the point of the client; in this case, if the server
    demands a certificate, the first three messages show a chain that the verifier
    accepts and a signature of its key over the messages up to the key exchange. *)
Theorem server12_authenticates x k chm hello sigs tls13_enabled (cx0 cx : ctx) st ms st' cx' :
  handle_client_hello x k chm hello sigs tls13_enabled cx0 = (Ok st, cx) -> runs12 st cx ms st' cx' ->
  (~ in_traffic st' -> gate (cx_common cx') = gate (cx_common cx0)) /\
  (forall s, st' = ExpectTraffic s -> exists fl pre mf post, ms = pre ++ mf :: post /\ client_finished s (adds (s_transcript x) (chm :: fl)) pre mf /\
    ((resumed x hello tls13_enabled cx0 s /\ resumed_flight (hello_randoms x tls13_enabled) (s_suite x) s (adds (s_transcript x) [chm]) fl) \/
     exists kx, kx_of st = Some kx /\ full_flight (s_config x) (hello_randoms x tls13_enabled) (s_suite x) k kx fl /\
       exchanged kx (hello_randoms x tls13_enabled) (s_suite x) pre s /\
       (offer_client_auth (verifier (s_config x)) = true -> client_auth_mandatory (verifier (s_config x)) = true ->
         client_proof (s_config x) (adds (s_transcript x) (chm :: fl)) pre))).
Proof.
  intros Hh Hr. pose proof (client_hello12_still x k chm hello sigs tls13_enabled cx0) as Hst. rewrite Hh in Hst. cbn [snd] in Hst. split.
  { intros Hn. rewrite <- Hst. apply (runs_still _ in_traffic) with (2 := server12_step_still) (3 := Hr); [exact server12_traffic_final|done]. }
  intros s ->. apply client_hello12_ok in Hh as (fl & Hs). unfold started in Hs. set (t := adds (s_transcript x) (chm :: fl)) in *. set (rnd := hello_randoms x tls13_enabled) in *.
  set (R := fun s => resumed x hello tls13_enabled cx0 s /\ resumed_flight rnd (s_suite x) s (adds (s_transcript x) [chm]) fl).
  assert (exists kx, (kx_of st = Some kx /\ full_flight (s_config x) rnd (s_suite x) k kx fl \/ kx = no_exchange) /\
    history (s_config x) rnd (s_suite x) t kx (offer_client_auth (verifier (s_config x))) R st []) as (kx & Hkx & H0').
  { destruct st as [b kx|b kx [ch|]|kd ch|kd []|kd b|s']; try done.
    - destruct Hs as (Ht & Hc & Hrn & Hsu & Hfl). exists kx. split; [by left|]. by split_and!.
    - destruct Hs as (Ht & Hc & Hrn & Hsu & Hfl & Ho). exists kx. split; [by left|]. split; [by split_and!|]. split; [by rewrite Ht|]. by rewrite Ho.
    - destruct Hs as (Ht & Hre & Hfl). exists no_exchange. split; [by right|]. split; [by rewrite Ht|by left]. }
  pose proof (runs_history _ _ (server12_step _ _ _ _ _ _ _) _ _ _ _ _ [] Hr H0') as Hfin. cbn [app] in Hfin. destruct Hfin as (pre & mf & post & -> & Hp & Hf).
  exists fl, pre, mf, post. split_and!; try done. destruct Hp as [Hp|[He Hsh]]; [by left|right]. destruct Hkx as [[Hkx Hfl]| ->]; [by exists kx|by apply no_exchange_fails in He].
Qed.
End tls12.

(** ** An instance *)

#[local] Existing Instances sum_hashing sum_ring.
#[local] Instance server_names12 : DnsNames := {| dns_try_from _ := true |}.
#[local] Instance server_store12 : StoresServerSessions unit := no_server_session_storage.
Definition ex12_offer : ClientHelloPayload.t := {|
  ClientHelloPayload.client_version := Known TLSv1_2; ClientHelloPayload.random := replicate 32 1; ClientHelloPayload.session_id := SessionId.empty;
  ClientHelloPayload.cipher_suites := [Known CipherSuite.TLS_ECDHE_ECDSA_WITH_AES_128_GCM_SHA256]; ClientHelloPayload.compression_methods := [Known Compression.Null];
  ClientHelloPayload.extensions := [ClientExtension.NamedGroups [Known NamedGroup.X25519]; ClientExtension.EcPointFormats [Known ECPointFormat.Uncompressed]] |}.
Definition ex12_chm : Message.t := hs_message (Known TLSv1_2) HandshakeType.ClientHello (HandshakePayload.ClientHello ex12_offer).
Definition ex12_base : Base := {|
  s_config := sample_server [NamedGroup.X25519] None true;
  s_transcript := HandshakeHash.start_hash (HandshakeHashBuffer.set_client_auth_enabled HandshakeHashBuffer.new) SHA256; s_session_id := SessionId.empty;
  s_suite := TLS_ECDHE_ECDSA_WITH_AES_128_GCM_SHA256; s_using_ems := false; s_randoms := {| random_client := replicate 32 1; random_server := replicate 32 2 |};
  s_send_ticket := false; s_extra_exts := [] |}.
Definition ex12_server_cx : Context (ServerConnectionData unit) := {| cx_common := CommonState.new Server; cx_data := new_server_data tt; cx_world := draws 40 |}.
Abbreviation ex12_answer := (handle_client_hello ex12_base (toy_certified 7) ex12_chm ex12_offer [Known SignatureScheme.ED25519] true ex12_server_cx).
(** The client's flight, from the transcript of the server. *)
Definition ex12_reply (t : HandshakeHash.t) : list Message.t :=
  let mc := hs_message (Known TLSv1_2) HandshakeType.Certificate (HandshakePayload.Certificate [[9]]) in
  let mk := hs_message (Known TLSv1_2) HandshakeType.ClientKeyExchange (HandshakePayload.ClientKeyExchange (encode (Codec:=payload_u8) (replicate 32 3) [])) in
  [mc; mk; hs_message (Known TLSv1_2) HandshakeType.CertificateVerify (HandshakePayload.CertificateVerify {|
     DigitallySignedStruct.scheme := Known SignatureScheme.ED25519;
     DigitallySignedStruct.sig := toy_sign 9 (default [] (HandshakeHash.client_auth (adds t [mc; mk]))) |}); ccs_message].
Abbreviation ex12_context := (Context (ServerConnectionData unit)).
Definition serve12 (r : result Error.t Tls12State * ex12_context) : option (Tls12State * ex12_context * list Message.t * Tls12State * ex12_context) :=
  match r with
  | (Ok (ExpectCertificate b kx), cx) =>
      '(st1, _) ← run handle_tls12 (ex12_reply (s_transcript b)) (ExpectCertificate b kx) cx;
      match st1 with
      | ExpectFinished k _ =>
          match HandshakeHash.get_current_hash (E:=Error.t) (k_transcript k) with
          | Ok h =>
              let ms := ex12_reply (s_transcript b) ++
                        [hs_message (Known TLSv1_2) HandshakeType.Finished (HandshakePayload.Finished (client_verify_data (secrets k) h))] in
              '(st', cx') ← run handle_tls12 ms (ExpectCertificate b kx) cx; Some (ExpectCertificate b kx, cx, ms, st', cx')
          | _ => None
          end
      | _ => None
      end
  | _ => None
  end.
Definition served12 (r : result Error.t Tls12State * ex12_context) : bool := match serve12 r with Some (_, _, _, ExpectTraffic _, _) => true | _ => false end.
Lemma ex12_served : served12 ex12_answer = true.
Proof. vm_compute. reflexivity. Qed.
Lemma served12_parts r : served12 r = true -> exists st cx ms s cx', r = (Ok st, cx) /\ runs handle_tls12 st cx ms (ExpectTraffic s) cx'.
Proof.
  unfold served12, serve12. destruct r as [[[b kx| | | | |]|e|] cx]; try discriminate. destruct (run handle_tls12 _ _ cx) as [[st1 cx1]|]; [|discriminate]. cbn [mbind option_bind].
  destruct st1; try discriminate. destruct (HandshakeHash.get_current_hash _); try discriminate. cbn zeta.
  match goal with |- context [run handle_tls12 ?ms ?st cx] => destruct (run handle_tls12 ms st cx) as [[st' cx']|] eqn:Hr; [|discriminate] end.
  cbn [mbind option_bind]. destruct st'; try discriminate. intros _. eexists _, _, _, _, _. split; [reflexivity|by apply run_runs].
Qed.
Lemma server12_authenticates_witness :
  exists st cx ms s cx', ex12_answer = (Ok st, cx) /\ runs handle_tls12 st cx ms (ExpectTraffic s) cx' /\
    exists fl pre, resumed ex12_base ex12_offer true ex12_server_cx s \/
      ((exists kx, full_flight (s_config ex12_base) (hello_randoms ex12_base true) (s_suite ex12_base) (toy_certified 7) kx fl) /\ client_proof (s_config ex12_base) (adds (s_transcript ex12_base) (ex12_chm :: fl)) pre).
Proof.
  destruct (served12_parts ex12_answer ex12_served) as (st & cx & ms & s & cx' & Ha & Hr). exists st, cx, ms, s, cx'. split; [exact Ha|]. split; [exact Hr|].
  destruct (server12_authenticates _ _ _ _ _ _ _ _ _ _ _ _ Ha Hr) as (_ & Hp). destruct (Hp s eq_refl) as (fl & pre & mf & post & _ & _ & [[Hs _]|(kx & _ & Hfl & _ & Hs)]);
    exists fl, pre; [by left|right]. split; [by exists kx|]. apply Hs; reflexivity.
Defined.
