(* ===== verification/TrafficLaws.v ===== *)
(** * The data path of a TLS connection, end to end

    Application data written at one end and read at the other: the sender's
    fragmentation and encryption, the bytes cut in any way by the transport, the
    receiver's deframer, decryption, protocol state and plaintext buffer. *)
From S2P Require Import Prelude Codec TlsLayer VecBuf Deframer DeframerFeed Enums Wire Messages Payloads Ciphers Suites Errors Common CommonLaws Hkdf KeySchedule Conn.
Import CommonState.

Section path.
Context {A : RingAead} {AL : RingAeadLaws A} `{DnsNames} {St D : Type} (handle : Handler (K:=cipher) St D).
Abbreviation core := (ConnectionCore (K:=cipher) (St:=St) (D:=D)).
Abbreviation delivers := CommonLaws.delivers.
Implicit Types (x : core) (r l : RecordLayer (K:=cipher)).

(** A state that takes application data. *)
Definition takes_data (st : St) : Prop := forall v p d c,
  handle st {| Message.version := v; Message.payload := MessagePayload.ApplicationData p |} d c = (d, (Ok st, set_received_plaintext (append p (received_plaintext c)).2 c)).

(** ** Records *)

Definition plain_todo (t : bytes) : spec := {| sp_error := None; sp_pending := None; sp_todo := t |}.
Lemma delivers_cons c cs r data r' : delivers (c :: cs) r data r' ->
  exists d r1 data', app_record c /\ decrypt_incoming c r = (Ok (Some d), r1) /\ typ (plaintext d) = Known ApplicationData /\
    data = payload (plaintext d) ++ data' /\ delivers cs r1 data' r'.
Proof.
  intros (ds & Hd & <- & Ht & Hr). cbn [decrypt_all] in Hd. destruct (decrypt_incoming c r) as [[o|e|] r1] eqn:Hc; [|done|done].
  destruct (decrypt_all cs r1) as [[os|e|] r2] eqn:Hcs; [|done|done]. injection Hd as Hds <-. destruct ds as [|d ds]; [done|]. injection Hds as -> ->.
  inversion Ht; inversion Hr; subst. exists d, r1, (concat (map (fun d => payload (plaintext d)) ds)). split_and!; try done. by exists ds.
Qed.
Lemma turn_record neg c rest l d l1 :
  app_record c -> decrypt_incoming c l = (Ok (Some d), l1) -> typ (plaintext d) = Known ApplicationData ->
  spec_turn neg (plain_todo (opaque_encode c ++ rest)) l = (Some (plain_result (plaintext d)), plain_todo rest, l1).
Proof.
  intros [Hwf Ht] Hd Hp. unfold spec_turn, plain_todo. cbn [sp_error sp_pending]. unfold spec_record. cbn [sp_todo sp_pending]. rewrite opaque_outcome_encode by done.
  unfold allowed_plaintext. rewrite Ht. cbn [andb]. rewrite Hd. unfold spec_decrypted. rewrite Hp, bool_decide_eq_false_2 by done. cbn [sp_pending]. by rewrite drop_app_length.
Qed.
Lemma turn_partial neg c t l : app_record c -> (length t < length (opaque_encode c))%nat -> t `prefix_of` opaque_encode c ->
  spec_turn neg (plain_todo t) l = (Some (Ok None), plain_todo t, l).
Proof.
  intros [Hwf _] Hl [w Hw]. destruct (proj1 opaque_message_prefix c (length t) Hwf Hl) as (e & He & Hi). rewrite Hw, take_app_length in He.
  destruct (opaque_read_outcome t) as [Ho _]. rewrite Ho in He. unfold spec_turn, plain_todo. cbn [sp_error sp_pending]. unfold spec_record. cbn [sp_todo].
  destruct (opaque_outcome t) as [[m n]|e'|]; [done| |done]. cbn in He. injection He as ->. by destruct Hi as [-> | ->].
Qed.
Lemma turn_empty neg l : spec_turn neg (plain_todo []) l = (Some (Ok None), plain_todo [], l).
Proof. done. Qed.

(** ** One call of [process_new_packets] *)

Lemma deframe_turn x s s' a l : repr (message_deframer x) s ->
  spec_turn (negotiated_version (common_state x)) s (record_layer (common_state x)) = (Some a, s', l) ->
  exists d, repr d s' /\ pop (negotiated_version (common_state x)) (message_deframer x) (record_layer (common_state x)) = Some (a, d, l).
Proof.
  intros Hr Ht. destruct (pop_refines (negotiated_version (common_state x)) _ _ (record_layer (common_state x)) Hr) as (r & d & s1 & l1 & Hp & _ & Hr1 & Hps).
  destruct (pops_det _ _ _ _ _ _ _ _ _ Hps (pops_return _ _ _ _ _ _ Ht)) as (-> & -> & ->). eauto.
Qed.
Lemma deframe_wait x t : repr (message_deframer x) (plain_todo t) ->
  spec_turn (negotiated_version (common_state x)) (plain_todo t) (record_layer (common_state x)) = (Some (Ok None), plain_todo t, record_layer (common_state x)) ->
  exists d, repr d (plain_todo t) /\ deframe x = (Ok None, set_deframer x d).
Proof.
  intros Hr Ht. destruct (deframe_turn _ _ _ _ _ Hr Ht) as (d & Hd & Hp). exists d. split; [done|]. unfold deframe. rewrite Hp. by destruct x as [? ? [] ?].
Qed.
Lemma deframe_record x c rest d l1 : repr (message_deframer x) (plain_todo (opaque_encode c ++ rest)) -> app_record c ->
  decrypt_incoming c (record_layer (common_state x)) = (Ok (Some d), l1) -> typ (plaintext d) = Known ApplicationData ->
  exists df, repr df (plain_todo rest) /\
    deframe x = (Ok (Some (plaintext d)), set_deframer (set_common x (set_aligned_handshake true (set_record_layer l1 (common_state x)))) df).
Proof.
  intros Hr Hc Hd Ht. destruct (deframe_turn _ _ _ _ _ Hr (turn_record _ _ _ _ _ _ Hc Hd Ht)) as (df & Hdf & Hp). exists df. split; [done|].
  unfold deframe. rewrite Hp. done.
Qed.
Lemma process_app st m d c : takes_data st -> typ m = Known ApplicationData ->
  process_msg handle m st d c = (d, (Ok st, set_received_plaintext (append (payload m) (received_plaintext c)).2 c)).
Proof.
  intros Hh Ht. destruct m as [ty v p]. cbn [typ payload] in *. subst ty. unfold process_msg. cbn [typ].
  rewrite bool_decide_eq_false_2 by done. cbn [andb]. unfold Message.try_from, MessagePayload.new. cbn [typ version payload mbind result_bind Message.payload].
  unfold process_main_protocol. unfold Message.is_handshake_type. cbn [Message.payload]. rewrite andb_false_r. by rewrite Hh.
Qed.

Definition plain_ok (b : ChunkVecBuffer) : Prop := Forall (fun c => c <> []) (chunks b).
Lemma append_contents p b : plain_ok b -> plain_ok (append p b).2 /\ concat (chunks (append p b).2) = concat (chunks b) ++ p /\ limit (append p b).2 = limit b.
Proof.
  intros Hb. unfold append. cbn [snd]. case_bool_decide as Hp; cbn [negb]; [subst p; by rewrite app_nil_r|].
  unfold plain_ok. cbn [chunks limit]. split; [apply Forall_app; split; [done|by constructor]|]. split; [|done]. rewrite concat_app. cbn. by rewrite app_nil_r.
Qed.

(** What is left of a stream of records when the next one is not complete. *)
Definition partial (t w : bytes) (cs : list message) : Prop :=
  t ++ w = concat (map opaque_encode cs) /\ match cs with [] => t = [] | c :: _ => (length t < length (opaque_encode c))%nat end.
Lemma partial_end t cs : partial t [] cs -> cs = [] /\ t = [].
Proof.
  intros [Ht Hp]. rewrite app_nil_r in Ht. destruct cs; [done|]. apply (f_equal length) in Ht. cbn [map concat] in Ht. rewrite length_app in Ht. lia.
Qed.
(** What application data leaves alone. *)
Definition same_flow (c c' : CommonState (K:=cipher)) : Prop :=
  sendable_tls c' = sendable_tls c /\ may_send_application_data c' = may_send_application_data c /\
  may_receive_application_data c' = may_receive_application_data c /\ has_received_close_notify c' = has_received_close_notify c.
Lemma loop_receives fuel st cs t w x data r' :
  repr (message_deframer x) (plain_todo t) -> t ++ w = concat (map opaque_encode cs) -> delivers cs (record_layer (common_state x)) data r' -> takes_data st ->
  (length t < fuel)%nat -> plain_ok (received_plaintext (common_state x)) ->
  exists x' t2 cs2 d1 d2, process_loop handle fuel st x = Some (Ok (current_io_state (common_state x')), x') /\ core_state x' = inl st /\ core_data x' = core_data x /\
    repr (message_deframer x') (plain_todo t2) /\ partial t2 w cs2 /\ delivers cs2 (record_layer (common_state x')) d2 r' /\ data = d1 ++ d2 /\
    plain_ok (received_plaintext (common_state x')) /\ concat (chunks (received_plaintext (common_state x'))) = concat (chunks (received_plaintext (common_state x))) ++ d1 /\
    limit (received_plaintext (common_state x')) = limit (received_plaintext (common_state x)) /\ same_flow (common_state x) (common_state x').
Proof.
  revert fuel t x data. induction cs as [|c cs IH]; intros fuel t x data Hr Ht Hd Hh Hf Hp.
  - cbn in Ht. apply app_eq_nil in Ht as [-> ->]. destruct Hd as (ds & Hda & <- & _). cbn in Hda. injection Hda as Hds <-. destruct ds; [|done].
    destruct fuel as [|fuel]; [lia|]. cbn [process_loop]. destruct (deframe_wait x [] Hr (turn_empty _ _)) as (d & Hd & ->).
    exists (set_state (set_deframer x d) (inl st)), [], [], [], []. cbn [core_state common_state message_deframer].
    split_and!; try done; [by exists []|by rewrite app_nil_r].
  - cbn [map concat] in Ht. destruct (delivers_cons _ _ _ _ _ Hd) as (d & r1 & data' & Hc & Hdec & Hty & -> & Hd').
    destruct fuel as [|fuel]; [lia|]. cbn [process_loop]. destruct (Nat.lt_ge_cases (length t) (length (opaque_encode c))) as [Hlt|Hge].
    + assert (t `prefix_of` opaque_encode c) as Hpre.
      { destruct (prefix_weak_total t (opaque_encode c) (opaque_encode c ++ concat (map opaque_encode cs))) as [?|Hp2];
          [by exists w|by eexists|done|]. apply prefix_length in Hp2. lia. }
      destruct (deframe_wait x t Hr (turn_partial _ c t _ Hc Hlt Hpre)) as (df & Hdf & ->).
      exists (set_state (set_deframer x df) (inl st)), t, (c :: cs), [], (payload (plaintext d) ++ data').
      cbn [core_state common_state message_deframer]. split_and!; try done. by rewrite app_nil_r.
    + assert (exists t', t = opaque_encode c ++ t' /\ t' ++ w = concat (map opaque_encode cs)) as (t' & -> & Ht').
      { exists (drop (length (opaque_encode c)) t). rewrite <- (take_drop (length (opaque_encode c)) t) in Ht at 1. rewrite <- app_assoc in Ht.
        apply app_inj_1 in Ht as [H1 H2]; [|rewrite length_take; lia]. split; [by rewrite <- H1 at 1; rewrite take_drop|done]. }
      destruct (deframe_record x c t' d r1 Hr Hc Hdec Hty) as (df & Hdf & ->). unfold on_message. cbn [common_state core_data set_deframer set_common set_context]. rewrite (process_app st _ _ _ Hh Hty).
      match goal with |- context [process_loop handle fuel st ?y] => destruct (IH fuel t' y data') as (x' & t2 & cs2 & d1 & d2 & H1 & H2 & H2' & H3 & H4 & H5 & H6 & H7 & H8 & H9 & H10) end.
      * done.
      * done.
      * by destruct x as [? ? [] ?].
      * done.
      * rewrite length_app in Hf. assert (length (opaque_encode c) <> 0)%nat by (pose proof (opaque_encode_nonempty c); destruct (opaque_encode c); done). lia.
      * cbn. by apply append_contents.
      * exists x', t2, cs2, (payload (plaintext d) ++ d1), d2. rewrite H1. split_and!; try done; [by rewrite H6, app_assoc| |].
        -- rewrite H8, app_assoc. f_equal. destruct (append_contents (payload (plaintext d)) _ Hp) as (_ & H' & _). by destruct x as [? ? [] ?].
        -- rewrite H9. destruct (append_contents (payload (plaintext d)) _ Hp) as (_ & _ & H'). by destruct x as [? ? [] ?].
Qed.

Lemma process_receives st cs t w x data r' :
  core_state x = inl st -> repr (message_deframer x) (plain_todo t) -> t ++ w = concat (map opaque_encode cs) -> delivers cs (record_layer (common_state x)) data r' -> takes_data st ->
  plain_ok (received_plaintext (common_state x)) ->
  exists x' t2 cs2 d1 d2, process_new_packets handle x = Some (Ok (current_io_state (common_state x')), x') /\ core_state x' = inl st /\ core_data x' = core_data x /\
    repr (message_deframer x') (plain_todo t2) /\ partial t2 w cs2 /\ delivers cs2 (record_layer (common_state x')) d2 r' /\ data = d1 ++ d2 /\
    plain_ok (received_plaintext (common_state x')) /\ concat (chunks (received_plaintext (common_state x'))) = concat (chunks (received_plaintext (common_state x))) ++ d1 /\
    same_flow (common_state x) (common_state x').
Proof.
  intros Hs Hr Ht Hd Hh Hp. unfold process_new_packets. rewrite Hs. destruct (repr_wf_spec _ _ Hr) as [_ Hu]. cbn [sp_todo plain_todo] in Hu.
  match goal with |- context [process_loop handle ?f st ?y] => destruct (loop_receives f st cs t w y data r')
    as (x' & t2 & cs2 & d1 & d2 & -> & H2 & H2' & H3 & H4 & H5 & -> & H7 & H8 & _ & H10) end; try done.
  - cbn in *. lia.
  - exists x', t2, cs2, d1, d2. split_and!; try done; apply H10.
Qed.

(** ** The receiver *)

(** One round of a receiver: the transport offers at most [k] more bytes, the
    packets are processed, the application reads what the [IoState] announces.
    The result is what it read, what the transport still holds, and the
    connection. *)
Definition round (k : nat) (src : bytes) x : option (bytes * bytes * core) :=
  match read_tls (Some (take k src)) x with
  | (Ok n, x) =>
      match process_new_packets handle x with
      | Some (Ok io, x) =>
          match reader_read (plaintext_bytes_to_read io) x with
          | Some (Ok out, x) => Some (out, drop n src, x)
          | _ => None
          end
      | _ => None
      end
  | _ => None
  end.
Fixpoint pump (ks : list nat) (src : bytes) x : option (bytes * bytes * core) :=
  match ks, src with
  | [], _ | _, [] => Some ([], src, x)
  | k :: ks, _ =>
      '(out, src, x) ← round k src x;
      '(outs, src, x) ← pump ks src x;
      Some (out ++ outs, src, x)
  end.

(** A receiver in state [st], its data [d0], that holds the bytes [t] of the records [cs], whose
    other bytes [w] are under way, and that has nothing left to read. *)
Record receiving (st : St) (d0 : D) (cs : list message) (t w data : bytes) r' x : Prop := {
  rcv_state : core_state x = inl st;
  rcv_data : core_data x = d0;
  rcv_deframer : repr (message_deframer x) (plain_todo t);
  rcv_partial : partial t w cs;
  rcv_delivers : delivers cs (record_layer (common_state x)) data r';
  rcv_plain : chunks (received_plaintext (common_state x)) = []
}.

Lemma record_length c : app_record c -> (length (opaque_encode c) < Z.to_nat MAX_WIRE_SIZE)%nat.
Proof.
  intros [(_ & _ & _ & _ & Hp & _) _]. unfold opaque_encode, MAX_WIRE_SIZE, zlen in *. rewrite !length_app. unfold MAX_PAYLOAD, HEADER_SIZE in *.
  cbn. lia.
Qed.
Lemma receiving_room st d0 cs t w data r' x : receiving st d0 cs t w data r' x -> (d_used (message_deframer x) < allow_max (message_deframer x))%nat.
Proof.
  intros [_ _ Hr [_ Hp] Hd _]. pose proof (repr_layout _ _ Hr) as Hl. unfold layout, plain_todo in Hl. cbn [sp_pending sp_todo] in Hl. unfold allow_max.
  destruct (joining_hs (message_deframer x)) as [m|]; [done|]. destruct Hl as (z & _ & ->). destruct cs as [|c cs]; [subst t; cbn; unfold MAX_WIRE_SIZE, MAX_PAYLOAD, HEADER_SIZE; lia|].
  destruct (delivers_cons _ _ _ _ _ Hd) as (d & r1 & data' & Hc & _). pose proof (record_length _ Hc). lia.
Qed.
Lemma read_receives k st d0 cs t w data r' x : receiving st d0 cs t w data r' x -> w <> [] -> (0 < k)%nat ->
  exists (n : nat) (d : MessageDeframer), Conn.read_tls (Some (take k w)) x = (Ok n, set_deframer x d) /\
    (0 < n <= length (take k w))%nat /\ repr d (plain_todo (t ++ take n w)).
Proof.
  intros Hx Hw Hk. pose proof (receiving_room _ _ _ _ _ _ _ _ Hx) as Hroom. destruct Hx as [Hs _ Hr _ _ Hp]. unfold read_tls.
  replace (is_full (received_plaintext (common_state x))) with false by (unfold is_full; rewrite len_concat, Hp; by destruct (limit _)).
  pose proof (read_refines _ _ (take k w) Hr) as Hrd. destruct (read_from (Some (take k w)) (message_deframer x)) as [[n|e|] d]; [|lia|done].
  destruct Hrd as (Hr' & Hn & Hn0). assert (n <> 0)%nat as Hz by (apply Hn0; destruct k, w; [lia|lia|done|done]). rewrite length_take in Hn |- *.
  exists n, d. destruct (Nat.eqb_spec n 0); [done|]. split; [by destruct x|]. split; [lia|].
  rewrite take_take, Nat.min_l in Hr' by lia. exact Hr'.
Qed.
Lemma reader_drains x : plain_ok (received_plaintext (common_state x)) ->
  exists b, reader_read (plaintext_bytes_to_read (current_io_state (common_state x))) x =
    Some (Ok (concat (chunks (received_plaintext (common_state x)))), set_common x (set_received_plaintext b (common_state x))) /\ chunks b = [].
Proof.
  intros Hp. unfold reader_read, current_io_state. cbn [plaintext_bytes_to_read]. rewrite len_concat. unfold read_into.
  match goal with |- context [read_loop ?f ?cap [] ?b] => destruct (read_loop_spec f cap [] b) as (b' & -> & Hc & _ & Hne) end; [lia|cbn; lia|done|].
  cbn [mbind option_bind app length] in *. rewrite Nat.sub_0_r in *. rewrite drop_all in Hc. rewrite take_ge by done. exists b'. split.
  - f_equal. destruct (Nat.eqb_spec (length (concat (chunks (received_plaintext (common_state x))))) 0) as [->|]; done.
  - destruct Hne as [|c cs Hc0 _]; [done|]. by destruct c.
Qed.
Lemma round_receives k st d0 cs t w data r' x : takes_data st -> receiving st d0 cs t w data r' x -> w <> [] -> (0 < k)%nat ->
  exists n out x' cs' t' data', round k w x = Some (out, drop n w, x') /\ (0 < n)%nat /\ data = out ++ data' /\ receiving st d0 cs' t' (drop n w) data' r' x'.
Proof.
  intros Hh Hx Hw Hk. destruct (read_receives k _ _ _ _ _ _ _ _ Hx Hw Hk) as (n & d & Hrd & Hn & Hr). unfold round. rewrite Hrd.
  destruct Hx as [Hs Hd0 _ [Ht _] Hd Hp]. destruct (process_receives st cs (t ++ take n w) (drop n w) (set_deframer x d) data r')
    as (x' & t2 & cs2 & d1 & d2 & -> & H2 & H2' & H3 & H4 & H5 & -> & H7 & H8 & _); try done.
  - by rewrite <- app_assoc, take_drop.
  - unfold plain_ok. cbn. by rewrite Hp.
  - destruct (reader_drains x' H7) as (b & -> & Hb). cbn [common_state set_state set_deframer] in H8. rewrite Hp in H8. cbn [concat app] in H8. rewrite H8.
    eexists n, d1, _, cs2, t2, d2. split; [done|]. rewrite length_take in Hn. split; [lia|]. split; [done|]. split; destruct x' as [? ? [] ?]; try done; cbn in *; congruence.
Qed.
Lemma pump_receives ks st d0 cs t w data r' x : takes_data st -> receiving st d0 cs t w data r' x -> Forall (fun k => 0 < k)%nat ks -> (length w <= length ks)%nat ->
  exists x', pump ks w x = Some (data, [], x') /\ receiving st d0 [] [] [] [] r' x'.
Proof.
  intros Hh. revert cs t w data x. induction ks as [|k ks IH]; intros cs t w data x Hx Hks Hl.
  all: destruct w as [|b w]; [|try (cbn in Hl; lia)].
  1,2: exists x; assert (cs = [] /\ t = []) as [-> ->]
    by (by eapply partial_end, rcv_partial);
    assert (data = []) as -> by (destruct Hx as [_ _ _ _ (ds & Hda & <- & _) _]; by destruct ds); by split.
  inversion Hks; subst. destruct (round_receives k _ _ _ _ _ _ _ _ Hh Hx) as (n & out & x1 & cs1 & t1 & d1 & Hr & Hn & -> & Hx1); [done|done|].
  cbn [pump]. rewrite Hr. cbn [mbind option_bind]. destruct (IH _ _ _ _ _ Hx1) as (x' & -> & Hx'); [done|rewrite length_drop; cbn in *; lia|].
  by exists x'.
Qed.

(** ** From one end to the other *)

(** A receiver in state [st], its data [d0], to which nothing has come yet. *)
Definition listening (st : St) (d0 : D) x : Prop :=
  core_state x = inl st /\ core_data x = d0 /\ repr (message_deframer x) (plain_todo []) /\ chunks (received_plaintext (common_state x)) = [].
(** What [s] writes comes out at [x], however the transport cuts it. *)
Definition arrives (ke kd : cipher) s (datas : list bytes) (st : St) (d0 : D) x : Prop :=
  exists ns s', write_all datas s = (Ok ns, s') /\ length ns = length datas /\
    forall ks, Forall (fun k => 0 < k)%nat ks -> (length (concat (chunks (sendable_tls s'))) <= length ks)%nat ->
      exists x', pump ks (concat (chunks (sendable_tls s'))) x = Some (accepted ns datas, [], x') /\
        listening st d0 x' /\ in_step ke kd (record_layer s') (record_layer (common_state x')).
Lemma data_arrives ke kd s datas st d0 x :
  takes_data st -> may_send_application_data s = true -> queued_key_update_message s = None -> chunks (sendable_tls s) = [] ->
  write_seq (record_layer s) + zlen (concat datas) <= SEQ_SOFT_LIMIT -> connected ke kd s (record_layer (common_state x)) -> listening st d0 x ->
  arrives ke kd s datas st d0 x.
Proof.
  intros Hh Hm Hq Hw Hz Hc (H1 & H1' & H2 & H3). destruct (write_sent ke kd datas s _ Hm Hq Hc Hz) as (ns & cs & l & r' & Hwr & Hd & Hst & Hl).
  exists ns, (sent cs l s). split; [done|]. split; [done|]. intros ks Hks Hlk.
  assert (concat (chunks (sendable_tls (sent cs l s))) = concat (map opaque_encode cs)) as Hcs by (destruct s; cbn in *; by rewrite Hw). rewrite Hcs in *.
  destruct (pump_receives ks st d0 cs [] (concat (map opaque_encode cs)) (accepted ns datas) r' x Hh) as (x' & Hp & [P1 P1' P2 P3 P4 P5]); [|done|done|].
  - split; try done. split; [done|]. destruct cs as [|c cs]; [done|]. pose proof (opaque_encode_nonempty c). destruct (opaque_encode c); cbn; [done|lia].
  - exists x'. split; [done|]. split; [done|]. destruct P4 as (ds & Hda & _). cbn in Hda. injection Hda as _ ->. by destruct s.
Qed.
End path.
