(* ===== verification/CompleteIo.v ===== *)
(** * Blocking I/O of a TLS connection
    (orcax/rustls-fork/rustls/src/conn.rs, ConnectionCommon::complete_io)

    [complete_io] writes, reads and processes until the handshake is done, or once
    when it is.  The transport is a list of what its reads give and what its writes
    accept.  The loop ends when the handshake does, when it fails or when the
    transport ends; it does not end when the peer sends close_notify first. *)
From S2P Require Import Prelude Codec TlsLayer VecBuf Deframer DeframerFeed Enums Wire Messages Payloads Ciphers Suites Errors Common Hkdf KeySchedule Conn TrafficLaws.
Import CommonState.

Inductive read_event : Type := Data (bs : bytes) | Interrupted | ReadFails.
(** What reads give, what writes accept and whether flushes succeed.  After the last
    event a read gives 0 bytes, a write takes everything and a flush succeeds. *)
Record transport : Type := { inbound : list read_event; accepts : list (option nat); flushes : list bool; outbound : bytes }.
Definition flush_step (io : transport) : bool * transport :=
  (default true (head (flushes io)), {| inbound := inbound io; accepts := accepts io; flushes := drop 1 (flushes io); outbound := outbound io |}).
(** An I/O error, or an error of the protocol wrapped in one. *)
Inductive complete_error : Type := IoFailed | EndOfFile | BufferIsFull | InvalidData (e : Error.t).

Section complete.
Context {A : RingAead} {AL : RingAeadLaws A} `{DnsNames} {St D : Type} (handle : Handler (K:=cipher) St D).
Abbreviation core := (ConnectionCore (K:=cipher) (St:=St) (D:=D)).
Implicit Types (x : core).

(** [write_tls] to the transport, which takes at most so many bytes of what it is
    offered; [None] is an I/O error. *)
Definition write_step x (io : transport) : option nat * core * transport :=
  let offer := length (offered (sendable_tls (common_state x))) in
  let accept := match head (accepts io) with Some accept => Nat.min offer <$> accept | None => Some offer end in
  match write_tls accept x with
  | (Some (n, bs), x) => (Some n, x, {| inbound := inbound io; accepts := drop 1 (accepts io); flushes := flushes io; outbound := outbound io ++ bs |})
  | (None, x) => (None, x, {| inbound := inbound io; accepts := drop 1 (accepts io); flushes := flushes io; outbound := outbound io |})
  end.
(** [while self.wants_write()]; [None] is a loop that has not ended. *)
Fixpoint write_loop (fuel : nat) (wrlen : nat) x (io : transport) : option (result complete_error nat * core * transport) :=
  if wants_write (common_state x) then
    match fuel with
    | O => None
    | S fuel' =>
        match write_step x io with
        | (Some n, x, io) => write_loop fuel' (wrlen + n) x io
        | (None, x, io) => Some (Err IoFailed, x, io)
        end
    end
  else Some (Ok wrlen, x, io).
(** [while !eof && self.wants_read()]: the number of bytes of the read that was not
    interrupted, if there was one.  An interrupted read takes its event. *)
Fixpoint read_loop (events : list read_event) x : result complete_error (option nat) * core * list read_event :=
  if wants_read (common_state x) then
    match events with
    | Interrupted :: rest => read_loop rest x
    | ReadFails :: rest => match read_tls None x with (Err BufferFull, x) => (Err BufferIsFull, x, rest) | (_, x) => (Err IoFailed, x, rest) end
    | Data bs :: rest =>
        match read_tls (Some bs) x with
        | (Ok n, x) => (Ok (Some n), x, if (n <? length bs)%nat then Data (drop n bs) :: rest else rest)
        | (Err BufferFull, x) => (Err BufferIsFull, x, Data bs :: rest)
        | (Err _, x) => (Err IoFailed, x, Data bs :: rest)
        | (Panic, x) => (Panic, x, Data bs :: rest)
        end
    | [] =>
        match read_tls (Some []) x with
        | (Ok n, x) => (Ok (Some n), x, [])
        | (Err BufferFull, x) => (Err BufferIsFull, x, [])
        | (Err _, x) => (Err IoFailed, x, [])
        | (Panic, x) => (Panic, x, [])
        end
    end
  else (Ok None, x, events).
(** One turn of the loop of [complete_io]: it returns, or goes round again.  [fuel]
    bounds the loop of writes, [None] is one that has not ended. *)
Inductive turn : Type :=
| Return (r : result complete_error (nat * nat)) (x : core) (io : transport)
| Again (eof : bool) (rdlen wrlen : nat) (x : core) (io : transport).
Definition complete_turn (fuel : nat) (eof : bool) (rdlen wrlen : nat) x (io : transport) : option turn :=
  let until_handshaked := is_handshaking (common_state x) in
  '(w, x, io) ← write_loop fuel wrlen x io;
  match w with
  | Err e => Some (Return (Err e) x io)
  | Panic => Some (Return Panic x io)
  | Ok wrlen =>
      let '(flushed, io) := flush_step io in
      if negb flushed then Some (Return (Err IoFailed) x io)
      else if negb until_handshaked && (0 <? wrlen)%nat then Some (Return (Ok (rdlen, wrlen)) x io)
      else
        let '(r, x, events) := if eof then (Ok None, x, inbound io) else read_loop (inbound io) x in
        let io := {| inbound := events; accepts := accepts io; flushes := flushes io; outbound := outbound io |} in
        match r with
        | Err e => Some (Return (Err e) x io)
        | Panic => Some (Return Panic x io)
        | Ok n =>
            let eof := eof || bool_decide (n = Some 0%nat) in
            let rdlen := (rdlen + default 0 n)%nat in
            '(p, x) ← process_new_packets handle x;
            match p with
            | Panic => Some (Return Panic x io)
            | Err e => let '(_, x, io) := write_step x io in Some (Return (Err (InvalidData e)) x (flush_step io).2)
            | Ok _ =>
                let handshaking := is_handshaking (common_state x) in
                if until_handshaked && negb handshaking && wants_write (common_state x) then Some (Again eof rdlen wrlen x io)
                else if negb until_handshaked || negb handshaking then Some (Return (Ok (rdlen, wrlen)) x io)
                else if eof then Some (Return (Err EndOfFile) x io)
                else Some (Again eof rdlen wrlen x io)
            end
        end
  end.
(** [complete_io]; [fuel] bounds the turns and each loop of writes. *)
Fixpoint complete_loop (fuel : nat) (eof : bool) (rdlen wrlen : nat) x (io : transport) : option (result complete_error (nat * nat) * core * transport) :=
  match fuel with
  | O => None
  | S fuel' =>
      t ← complete_turn fuel eof rdlen wrlen x io;
      match t with
      | Return r x io => Some (r, x, io)
      | Again eof rdlen wrlen x io => complete_loop fuel' eof rdlen wrlen x io
      end
  end.
Definition complete_io (fuel : nat) x (io : transport) : option (result complete_error (nat * nat) * core * transport) := complete_loop fuel false 0 0 x io.
(** The loop after a number of turns. *)
Fixpoint after_turns (n fuel : nat) (t : turn) : option turn :=
  match n, t with
  | S n', Again eof rdlen wrlen x io => t ← complete_turn fuel eof rdlen wrlen x io; after_turns n' fuel t
  | _, _ => Some t
  end.

(** ** After close_notify *)

(** A connection in its handshake, with nothing to send or to process, whose peer has
    said that it will send no more. *)
Record stuck x : Prop := {
  stuck_state : exists st, core_state x = inl st;
  stuck_handshaking : is_handshaking (common_state x) = true;
  stuck_closed : has_received_close_notify (common_state x) = true;
  stuck_quiet : is_empty (sendable_tls (common_state x)) = true;
  stuck_deframer : repr (message_deframer x) (plain_todo [])
}.
Lemma stuck_process x : stuck x -> exists io x', process_new_packets handle x = Some (Ok io, x') /\ stuck x'.
Proof.
  intros [[st Hs] Hh Hc Hq Hd]. unfold process_new_packets. rewrite Hs. cbn [process_loop].
  destruct (deframe_wait (set_state x (inr Error.HandshakeNotComplete)) [] Hd (turn_empty _ _)) as (d & Hd' & ->). eexists _, _. split; [done|]. split; eauto.
Qed.
Lemma stuck_turn fuel rdlen wrlen x io : stuck x -> flushes io = [] ->
  exists x', complete_turn fuel false rdlen wrlen x io = Some (Again false rdlen wrlen x' io) /\ stuck x'.
Proof.
  intros Hx Hfl. destruct (stuck_process x Hx) as (o & x' & Hp & Hx'). exists x'. split; [|done].
  destruct Hx as [_ Hh Hc Hq _]. assert (write_loop fuel wrlen x io = Some (Ok wrlen, x, io)) as Hw by (destruct fuel; cbn [write_loop]; unfold wants_write; by rewrite Hq).
  unfold complete_turn. rewrite Hw, Hh. cbn [negb mbind option_bind andb]. unfold flush_step. rewrite Hfl. cbn [head default negb drop inbound accepts outbound flushes].
  assert (wants_read (common_state x) = false) as Hr by (unfold wants_read; rewrite Hc; by rewrite andb_false_r).
  assert (read_loop (inbound io) x = (Ok None, x, inbound io)) as -> by (destruct (inbound io); cbn [read_loop]; by rewrite Hr).
  cbn [mbind option_bind]. rewrite Hp. cbn [mbind option_bind]. destruct Hx' as [S1 S2 S3 S4 S5]. rewrite S2. cbn [negb orb andb]. rewrite bool_decide_eq_false_2 by done.
  cbn [orb default]. rewrite Nat.add_0_r. destruct io; cbn in *; by subst.
Qed.
Lemma stuck_spins fuel rdlen wrlen x io : stuck x -> flushes io = [] -> complete_loop fuel false rdlen wrlen x io = None.
Proof.
  intros Hx Hfl. revert x Hx. induction fuel as [|fuel IH]; intros x Hx; [done|]. cbn [complete_loop]. destruct (stuck_turn (S fuel) rdlen wrlen x io Hx Hfl) as (x' & -> & Hx').
  cbn [mbind option_bind]. by apply IH.
Qed.
Lemma stuck_stays n fuel rdlen wrlen x io : stuck x -> flushes io = [] -> exists x', after_turns n fuel (Again false rdlen wrlen x io) = Some (Again false rdlen wrlen x' io).
Proof.
  intros Hx Hfl. revert x Hx. induction n as [|n IH]; intros x Hx; [by exists x|]. cbn [after_turns]. destruct (stuck_turn fuel rdlen wrlen x io Hx Hfl) as (x' & -> & Hx').
  cbn [mbind option_bind]. by apply IH.
Qed.

(** *** The first turn *)

(** A connection in its handshake that has got nothing yet, and has [q] queued. *)
Record opening (q : bytes) x : Prop := {
  op_state : exists st, core_state x = inl st;
  op_handshaking : is_handshaking (common_state x) = true;
  op_clear : decrypt_state (record_layer (common_state x)) <> Active;
  op_open : has_received_close_notify (common_state x) = false;
  op_unread : is_empty (received_plaintext (common_state x)) = true;
  op_deframer : message_deframer x = new_deframer;
  op_queue : exists b, abstracts (sendable_tls (common_state x)) {| contents := q; bound := b |}
}.
Definition takes_all (out : bytes) (io : transport) : transport := {| inbound := inbound io; accepts := []; flushes := flushes io; outbound := outbound io ++ out |}.
Definition with_queue x (b : ChunkVecBuffer) : core := set_common x (set_sendable_tls b (common_state x)).
(** A transport that takes everything gets the queue. *)
Lemma write_step_all x io q : abstracts (sendable_tls (common_state x)) q -> accepts io = [] -> wants_write (common_state x) = true ->
  exists n b, write_step x io = (Some n, with_queue x b, takes_all (take n (contents q)) io) /\ abstracts b (skip q n) /\ (0 < n <= length (contents q))%nat.
Proof.
  intros Ha Hacc Hw. apply negb_true_iff in Hw. destruct (offered_front _ _ Ha Hw) as (H1 & _ & H3 & H4). unfold write_step. rewrite Hacc. cbn [head]. unfold write_tls, write_to. rewrite Hw.
  set (n := length (offered (sendable_tls (common_state x)))). exists n, (consume n (sendable_tls (common_state x))). split; [|split; [by apply consume_spec|]].
  - assert (take n (contents q) = take n (offered (sendable_tls (common_state x)))) as E by (rewrite H4; by apply take_app_le). unfold takes_all, with_queue. rewrite E. reflexivity.
  - unfold n, offered. rewrite H4, length_app. split; [|lia]. destruct H3 as [|c cs Hc _]; [done|]. destruct c; [done|]. cbn. lia.
Qed.
Lemma write_loop_all q : forall x io w bd, accepts io = [] -> abstracts (sendable_tls (common_state x)) {| contents := q; bound := bd |} ->
  exists b, is_empty b = true /\ let r := Some (Ok (w + length q)%nat, with_queue x b, takes_all q io) in
  (forall fuel, write_loop fuel w x io = None \/ write_loop fuel w x io = r) /\ (forall fuel, (length q <= fuel)%nat -> write_loop fuel w x io = r).
Proof.
  induction q as [q IH] using (induction_ltof1 _ (@length Z)). unfold ltof in IH. intros x io w bd Hacc Ha. destruct (wants_write (common_state x)) eqn:Hw.
  - destruct (write_step_all x io _ Ha Hacc Hw) as (n & b1 & Hs & Ha1 & Hn). cbn [contents] in *.
    destruct (IH (drop n q)) with (x := with_queue x b1) (io := takes_all (take n q) io) (w := (w + n)%nat) (bd := bd) as (b & Hb & Hr1 & Hr2); [rewrite length_drop; lia|done|done|].
    assert (with_queue (with_queue x b1) b = with_queue x b /\ takes_all (drop n q) (takes_all (take n q) io) = takes_all q io /\ (w + n + length (drop n q) = w + length q)%nat) as (E1 & E2 & E3).
    { split; [by destruct x|]. split; [unfold takes_all; cbn; by rewrite <- app_assoc, take_drop|]. rewrite length_drop. lia. }
    cbv zeta in *. rewrite E1, E2, E3 in *. exists b. split; [done|]. split; intros fuel; [|intros Hf]; (destruct fuel as [|fuel]; cbn [write_loop]; rewrite Hw; [|rewrite Hs]); [by left|apply Hr1|lia|].
    apply Hr2. rewrite length_drop. lia.
  - assert (is_empty (sendable_tls (common_state x)) = true) as He by (unfold wants_write in Hw; by apply negb_false_iff in Hw).
    assert (q = []) as -> by by apply (abstracts_empty _ _ Ha). exists (sendable_tls (common_state x)). split; [done|]. cbv zeta.
    assert (forall fuel, write_loop fuel w x io = Some (Ok (w + 0)%nat, with_queue x (sendable_tls (common_state x)), takes_all [] io)) as E; [|split; [by right|done]].
    intros fuel. assert (with_queue x (sendable_tls (common_state x)) = x) as -> by (by destruct x as [? ? [] ?]). unfold takes_all. rewrite app_nil_r, Nat.add_0_r, <- Hacc.
    destruct fuel; cbn [write_loop]; rewrite Hw; by destruct io.
Qed.

Definition close_notify_record : bytes := [21; 3; 3; 0; 2; 1; 0].
Definition close_notify_message : message := {| typ := Known Alert; version := Known TLSv1_2; payload := [1; 0] |}.
Lemma turn_close_notify neg (l : RecordLayer (K:=cipher)) : decrypt_state l <> Active ->
  spec_turn neg (plain_todo close_notify_record) l = (Some (plain_result close_notify_message), plain_todo [], l).
Proof.
  intros Hl. unfold spec_turn, plain_todo. cbn [sp_error sp_pending]. unfold spec_record. cbn [sp_todo sp_pending].
  assert (opaque_outcome close_notify_record = Ok (close_notify_message, 7%nat)) as -> by (vm_compute; reflexivity).
  match goal with |- context [if ?c then _ else _] => destruct c end; [reflexivity|]. unfold decrypt_incoming. rewrite bool_decide_eq_false_2 by done. reflexivity.
Qed.
(** The record is read and processed, and leaves the connection stuck. *)
Lemma close_notify_sticks x : opening [] x ->
  exists x1 io x', read_tls (Some close_notify_record) x = (Ok 7%nat, x1) /\ process_new_packets handle x1 = Some (Ok io, x') /\ stuck x'.
Proof.
  intros [[st Hst] Hh Hcl Hop Hun Hd [bd Hq]]. destruct x as [st0 data c d0]. cbn [core_state core_data common_state message_deframer] in *. subst st0 d0.
  assert (is_empty (sendable_tls c) = true) as He by by apply (abstracts_empty _ _ Hq).
  assert (is_full (received_plaintext c) = false) as Hfull by (unfold is_full, is_empty, len in *; destruct (VecBuf.chunks (received_plaintext c)); [by destruct (limit _)|done]).
  assert ((read_from (Some close_notify_record) new_deframer).1 = Ok 7%nat) as Hn by (vm_compute; reflexivity).
  pose proof (read_refines new_deframer no_bytes close_notify_record repr_new) as Hr. destruct (read_from (Some close_notify_record) new_deframer) as [r d] eqn:Hf.
  cbn [fst] in Hn. subst r. destruct Hr as [Hr _]. change (more no_bytes (take 7 close_notify_record)) with (plain_todo close_notify_record) in Hr.
  set (x := {| core_state := inl st; core_data := data; common_state := c; message_deframer := d |} : core). exists x.
  pose proof (turn_close_notify (negotiated_version c) (record_layer c) Hcl) as Ht.
  destruct (deframe_turn (set_state x (inr Error.HandshakeNotComplete)) _ _ _ _ Hr Ht) as (d1 & Hd1 & Hp).
  destruct (repr_wf_spec _ _ Hr) as [_ Hu]. assert (exists k, d_used d = S (S k)) as [k Hk] by (exists (d_used d - 2)%nat; change (weight (plain_todo close_notify_record)) with 7%nat in Hu; lia).
  set (c1 := set_aligned_handshake true (set_record_layer (record_layer c) c) : CommonState (K:=cipher)).
  assert (deframe (set_state x (inr Error.HandshakeNotComplete)) = (Ok (Some close_notify_message), {| core_state := inr Error.HandshakeNotComplete; core_data := data; common_state := c1; message_deframer := d1 |}))
    as Hdf by (unfold deframe; rewrite Hp; reflexivity).
  assert (process_msg handle close_notify_message st data c1 = (data, (Ok st, set_has_received_close_notify true c1))) as Hm by reflexivity.
  destruct (deframe_wait ({| core_state := inr Error.HandshakeNotComplete; core_data := data; common_state := set_has_received_close_notify true c1; message_deframer := d1 |} : core) [] Hd1
    (turn_empty _ _)) as (d2 & Hd2 & Hw).
  eexists _, _. split; [unfold read_tls; cbn [common_state message_deframer]; by rewrite Hfull, Hf|]. unfold process_new_packets. cbn [core_state x message_deframer]. rewrite Hk. cbn [process_loop]. rewrite Hdf.
  unfold on_message. cbn [common_state core_data]. rewrite Hm. unfold set_context. cbn [core_state message_deframer]. rewrite Hw. split; [reflexivity|].
  split; [by exists st|exact Hh|reflexivity|exact He|exact Hd2].
Qed.
(** The first turn, on a transport that takes the queue and then gives the alert. *)
Lemma first_turn q x io rest : opening q x -> accepts io = [] -> flushes io = [] -> inbound io = Data close_notify_record :: rest ->
  exists x', stuck x' /\ let r := Some (Again false 7 (length q) x' {| inbound := rest; accepts := []; flushes := []; outbound := outbound io ++ q |}) in
  (forall fuel, complete_turn fuel false 0 0 x io = None \/ complete_turn fuel false 0 0 x io = r) /\ (forall fuel, (length q <= fuel)%nat -> complete_turn fuel false 0 0 x io = r).
Proof.
  intros [Hst Hh Hcl Hop Hun Hd [bd Hq]] Ha Hf Hi. destruct (write_loop_all q x io 0 bd Ha Hq) as (b & Hb & Hw). cbv zeta in Hw. cbn [Nat.add] in Hw.
  assert (opening [] (with_queue x b)) as Hop'. { split; try done. exists (limit b). split; [|split; [done|]]; unfold is_empty in Hb; destruct b as [[|] ?]; try done; by apply Forall_nil. }
  destruct (close_notify_sticks _ Hop') as (x1 & o & x' & Hr & Hp & Hx). exists x'. split; [done|]. cbv zeta.
  assert (forall fuel, write_loop fuel 0 x io = Some (Ok (length q), with_queue x b, takes_all q io) ->
    complete_turn fuel false 0 0 x io = Some (Again false 7 (length q) x' {| inbound := rest; accepts := []; flushes := []; outbound := outbound io ++ q |})) as Ht.
  { intros fuel E. unfold complete_turn. rewrite E, Hh. cbn [mbind option_bind negb andb]. unfold flush_step, takes_all. cbn [flushes inbound accepts outbound]. rewrite Hf, Hi. cbn [head default negb drop read_loop].
    assert (wants_read (common_state (with_queue x b)) = true) as -> by (unfold wants_read, with_queue; cbn; by rewrite Hun, Hop, Hb, orb_true_r).
    rewrite Hr. cbn [length close_notify_record Nat.ltb Nat.leb mbind option_bind]. rewrite Hp. cbn [mbind option_bind]. rewrite (stuck_handshaking _ Hx). cbn [negb andb orb].
    by rewrite bool_decide_eq_false_2 by done. }
  destruct Hw as [Hw1 Hw2]. split; [|intros fuel Hfu; by apply Ht, Hw2]. intros fuel. destruct (Hw1 fuel) as [E|E]; [left; unfold complete_turn; by rewrite E|right; by apply Ht].
Qed.

(** C23: A peer can hold [complete_io] forever.  When the first bytes that a connection
    in its handshake gets are a close_notify alert, in clear, [complete_io] never
    returns, whatever the connection has queued, such as the hello of a client, and
    whatever the transport would give after the alert: no number of turns is enough.
    In the first turn it writes what is queued and reads the alert; after every further
    turn it is where it was, and the transport as that first turn left it: it neither
    reads nor writes.  (The transport takes all it is given, and its flushes succeed.) *)
Theorem complete_io_spins q x io rest :
  opening q x -> accepts io = [] -> flushes io = [] -> inbound io = Data close_notify_record :: rest ->
  (forall fuel, complete_io fuel x io = None) /\
  (forall n fuel, (length q <= fuel)%nat -> exists x', after_turns (S n) fuel (Again false 0 0 x io) =
     Some (Again false 7 (length q) x' {| inbound := rest; accepts := []; flushes := []; outbound := outbound io ++ q |})).
Proof.
  intros Hx Ha Hf Hi. destruct (first_turn q x io rest Hx Ha Hf Hi) as (x1 & Hs & H1 & H2). split.
  - intros [|fuel]; [done|]. unfold complete_io. cbn [complete_loop]. destruct (H1 (S fuel)) as [E|E]; rewrite E; [done|]. cbn [mbind option_bind]. by apply stuck_spins.
  - intros n fuel Hfu. cbn [after_turns]. rewrite (H2 fuel Hfu). cbn [mbind option_bind]. by apply stuck_stays.
Qed.
End complete.

(** ** Instances *)

#[local] Instance no_names_in_io : DnsNames := {| dns_try_from _ := false |}.
(** A client whose hello is queued. *)
Definition ex_hello_record : bytes := [22; 3; 1; 0; 2; 1; 0].
Definition ex_opening : ConnectionCore (K:=cipher) (St:=unit) (D:=unit) :=
  core_new tt tt (set_sendable_tls (append ex_hello_record (sendable_tls (CommonState.new (K:=cipher) Client))).2 (CommonState.new Client)).
Lemma complete_io_spins_witness :
  complete_io (A:=toy_ring) ex_handle 1000 ex_opening {| inbound := [Data close_notify_record; Data [22; 3; 1]; ReadFails]; accepts := []; flushes := []; outbound := [] |} = None /\
  exists x', after_turns (A:=toy_ring) ex_handle 50 20 (Again false 0 0 ex_opening {| inbound := [Data close_notify_record; Data [22; 3; 1]; ReadFails]; accepts := []; flushes := []; outbound := [] |}) =
    Some (Again false 7 7 x' {| inbound := [Data [22; 3; 1]; ReadFails]; accepts := []; flushes := []; outbound := ex_hello_record |}).
Proof.
  destruct (complete_io_spins (A:=toy_ring) (AL:=toy_ring_laws) ex_handle ex_hello_record ex_opening
    {| inbound := [Data close_notify_record; Data [22; 3; 1]; ReadFails]; accepts := []; flushes := []; outbound := [] |} [Data [22; 3; 1]; ReadFails]) as [H1 H2]; try reflexivity.
  - split; try reflexivity; [by exists tt|discriminate|]. eexists. split; [reflexivity|]. split; [reflexivity|]. by repeat constructor.
  - split; [apply H1|]. apply (H2 49%nat 20%nat). cbn. lia.
Defined.
(** Without the alert the end of the transport is reported; an alert that the peer
    sends is returned, and one for the peer is written before the error returns. *)
Definition outcome {St D} (r : option (result complete_error (nat * nat) * ConnectionCore (K:=cipher) (St:=St) (D:=D) * transport)) : option (result complete_error (nat * nat) * transport) :=
  '(r, _, io) ← r; Some (r, io).
Lemma complete_io_reports :
  outcome (complete_io (A:=toy_ring) ex_handle 3 (core_new tt tt (CommonState.new Server)) {| inbound := [Interrupted; Data [22; 3; 1]]; accepts := []; flushes := []; outbound := [] |}) =
    Some (Err EndOfFile, {| inbound := []; accepts := []; flushes := []; outbound := [] |}) /\
  outcome (complete_io (A:=toy_ring) ex_handle 3 (core_new tt tt (CommonState.new Server)) {| inbound := [Data [21; 3; 3; 0; 2; 2; 40]]; accepts := []; flushes := []; outbound := [] |}) =
    Some (Err (InvalidData (Error.AlertReceived 40)), {| inbound := []; accepts := []; flushes := []; outbound := [] |}) /\
  outcome (complete_io (A:=toy_ring) ex_handle 3 (core_new tt tt (CommonState.new Server)) {| inbound := [Data [21; 3; 3; 0; 2; 7; 40]]; accepts := []; flushes := []; outbound := [] |}) =
    Some (Err (InvalidData (Error.AlertReceived 40)), {| inbound := []; accepts := []; flushes := []; outbound := [21; 3; 3; 0; 2; 2; 47] |}).
Proof. vm_compute. split_and!; reflexivity. Qed.
