(* ===== verification/EndToEnd.v ===== *)
(** * A client and a server of the TLS fork, connected

    The state machines of both ends, the record layer, the deframer and the buffers
    put together: application data in both directions, and whole connections from
    the first hello on, run on concrete parameters. *)
From S2P Require Import Prelude Codec TlsLayer VecBuf Deframer DeframerFeed Enums Wire Messages Payloads Ciphers Suites Errors Common CommonLaws Hkdf KeySchedule Transcript Tls12 Crates Reality Persist Conn Context TrafficLaws SessionCache ClientBase ClientTls13 ClientTls12 ClientHs ServerBase ServerExt ServerTls12 ServerTls13 ServerHs Samples.
Import CommonState.

(** ** The two ends *)

(** The states in which a connection carries data. *)
Definition client_data {H : Hashing} `{DnsNames} (st : ClientHs.ClientState) : Prop :=
  match st with ClientHs.InTls13 (ClientTls13.ExpectTraffic _) | ClientHs.InTls12 (ClientTls12.ExpectTraffic _) => True | _ => False end.
Definition server_data {H : Hashing} `{DnsNames} (st : ServerHs.ServerState) : Prop :=
  match st with ServerHs.InTls13 (ServerTls13.ExpectTraffic _) | ServerHs.InTls12 (ServerTls12.ExpectTraffic _) => True | _ => False end.

Section ends.
Context {H : Hashing} {P : Hkdf} {A : RingAead} {AL : RingAeadLaws A} `{DnsNames} `{Profile} {RH : Hmac}.
Lemma client_takes {Store} {S : ClientSessionStore Store} st : client_data st -> takes_data (as_handler (handle_client (S:=S))) st.
Proof. destruct st as [x|x e|st|st]; try done; destruct st; try done; intros _ v p [d w] c; reflexivity. Qed.
Lemma server_takes {Store} {S : StoresServerSessions Store} st : server_data st -> takes_data (as_handler (handle_server (S:=S))) st.
Proof. destruct st as [x|n x|st|st|]; try done; destruct st; try done; intros _ v p [d w] c; reflexivity. Qed.

(** C20: Application data crosses the connection whole and in order, in both
    directions.  What one end writes while it may send is fragmented, encrypted and
    queued; the transport cuts the bytes in any way, at least one byte at a time; the
    other end, the state machine of a client or of a server in a traffic state of
    TLS 1.3 or TLS 1.2, reads exactly the accepted bytes, refuses none, is again
    where it was with its data unchanged, and both sequence numbers agree.  (The writer
    starts with nothing queued and no key update to send, and stays below the soft
    limit of its sequence numbers; the two record layers hold paired keys and agree on
    the next number; the reader has nothing unread or unprocessed.) *)
Theorem data_crosses ke kd s datas :
  may_send_application_data s = true -> queued_key_update_message s = None -> chunks (sendable_tls s) = [] ->
  write_seq (record_layer s) + zlen (concat datas) <= SEQ_SOFT_LIMIT ->
  (forall Store (S : StoresServerSessions Store) st d x, server_data st -> connected ke kd s (record_layer (common_state x)) -> listening st d x ->
    arrives (as_handler handle_server) ke kd s datas st d x) /\
  (forall Store (S : ClientSessionStore Store) st d x, client_data st -> connected ke kd s (record_layer (common_state x)) -> listening st d x ->
    arrives (as_handler handle_client) ke kd s datas st d x).
Proof. intros Hm Hq Hw Hz. split; intros; apply data_arrives; auto using client_takes, server_takes. Qed.
End ends.

(** ** Instances *)

#[local] Existing Instances toy_hashing toy_ring.
#[local] Instance no_server_names : DnsNames := {| dns_try_from _ := false |}.
#[local] Instance ex_traffic_profile : Profile := true.
Definition ex_keys : KeyScheduleTraffic.t :=
  {| KeyScheduleTraffic.ks := KeySchedulePreHandshake.ks (KeySchedulePreHandshake.new TLS13_AES_128_GCM_SHA256); KeyScheduleTraffic.client_traffic_secret := replicate 32 1;
     KeyScheduleTraffic.server_traffic_secret := replicate 32 2; KeyScheduleTraffic.exporter_secret := replicate 32 3 |}.
Definition ex_writer : CommonState (K:=cipher) := set_may_send_application_data true (set_record_layer (set_message_encrypter ex_enc new_layer) (CommonState.new Client)).
Definition ex_state : ServerHs.ServerState := ServerHs.InTls13 (ServerTls13.ExpectTraffic ex_keys).
Definition ex_data : ServerConnectionData unit * world := (new_server_data tt, {| rng := []; now := 0; key_lines := [] |}).
Definition ex_reader : ConnectionCore (K:=cipher) (St:=ServerHs.ServerState) (D:=ServerConnectionData unit * world) :=
  core_new ex_state ex_data (set_record_layer (set_message_decrypter ex_dec new_layer) (CommonState.new Server)).
Lemma data_crosses_witness : arrives (as_handler (handle_server (RH:=toy_hmac))) ex_enc ex_dec ex_writer [[1; 2]; []; [3]] ex_state ex_data ex_reader.
Proof.
  destruct (data_crosses (A:=toy_ring) (RH:=toy_hmac) ex_enc ex_dec ex_writer [[1; 2]; []; [3]]) as [Hs _]; [reflexivity|reflexivity|reflexivity|by vm_compute|].
  apply Hs; [exact I| |split; [reflexivity|split; [reflexivity|split; [exact repr_new|reflexivity]]]].
  split; [by split|]. change (max_frag (message_fragmenter ex_writer)) with MAX_FRAGMENT_LEN. unfold MAX_FRAGMENT_LEN. lia.
Defined.

(** ** Whole connections *)

Section link.
Context {H : Hashing} {P : Hkdf} {A : RingAead} `{DnsNames} `{Profile} {RH : Hmac}.
Abbreviation Store := (Limited.LimitedCache bytes bytes).
Abbreviation ClientConn := (ConnectionCore (K:=cipher) (St:=ClientHs.ClientState) (D:=ClientConnectionData MemoryCache * world)).
Abbreviation ServerConn := (ConnectionCore (K:=cipher) (St:=ServerHs.ServerState) (D:=ServerConnectionData Store * world)).
(** Takes what one end has to send; gives it to the other. *)
Definition flush {St D} (x : ConnectionCore (K:=cipher) (St:=St) (D:=D)) : bytes * ConnectionCore (K:=cipher) (St:=St) (D:=D) :=
  match write_tls (Some (len (sendable_tls (common_state x)))) x with (Some (_, bs), x) => (bs, x) | (None, x) => ([], x) end.
Definition deliver {St D} (handle : Handler (K:=cipher) St D) (bs : bytes) (x : ConnectionCore (K:=cipher) (St:=St) (D:=D)) : result Error.t (ConnectionCore (K:=cipher) (St:=St) (D:=D)) :=
  match bs, read_tls (Some bs) x with
  | [], _ => Ok x
  | _, (Ok _, x) => match process_new_packets handle x with Some (Ok _, x) => Ok x | Some (Err e, _) => Err e | _ => Panic end
  | _, _ => Panic
  end.
(** A number of flights in each direction. *)
Fixpoint talk (flights : nat) (c : ClientConn) (s : ServerConn) : result Error.t (ClientConn * ServerConn) :=
  match flights with
  | O => Ok (c, s)
  | S flights =>
      let '(bs, c) := flush c in
      s ← deliver (as_handler handle_server) bs s;
      let '(bs, s) := flush s in
      c ← deliver (as_handler handle_client) bs c;
      talk flights c s
  end.
(** Where the ends are, whether their logs hold the same secrets, and what each reads
    when the other writes. *)
Inductive stage : Type := Shaking | Traffic12 | Traffic13 | Broken (e : Error.t).
Definition client_stage (c : ClientConn) : stage :=
  match core_state c with
  | inl (ClientHs.InTls13 (ClientTls13.ExpectTraffic _)) => Traffic13
  | inl (ClientHs.InTls12 (ClientTls12.ExpectTraffic _)) => Traffic12
  | inl _ => Shaking
  | inr e => Broken e
  end.
Definition server_stage (s : ServerConn) : stage :=
  match core_state s with
  | inl (ServerHs.InTls13 (ServerTls13.ExpectTraffic _)) => Traffic13
  | inl (ServerHs.InTls12 (ServerTls12.ExpectTraffic _)) => Traffic12
  | inl _ => Shaking
  | inr e => Broken e
  end.
Definition secrets {St D} (x : ConnectionCore (K:=cipher) (St:=St) (D:=D * world)) : list bytes := map line_secret (key_lines (core_data x).2).
Definition read_all {St D} (x : ConnectionCore (K:=cipher) (St:=St) (D:=D)) : bytes :=
  match reader_read (len (received_plaintext (common_state x))) x with Some (Ok bs, _) => bs | _ => [] end.
Record report : Type := { client_at : stage; server_at : stage; secrets_agree : bool; server_read : bytes; client_read : bytes; server_knows : option (list bytes) }.
Definition use (c : ClientConn) (s : ServerConn) : result Error.t report :=
  let c := (writer_write (ascii_bytes "ping") c).2 in
  let s := (writer_write (ascii_bytes "pong") s).2 in
  '(c, s) ← talk 1 c s;
  Ok {| client_at := client_stage c; server_at := server_stage s; secrets_agree := bool_decide (secrets c = secrets s);
        server_read := read_all s; client_read := read_all c; server_knows := peer_certificates (common_state s) |}.
(** A connection from the configurations on. *)
Definition connect (c : ClientConfig) (s : ServerConfig) (wc ws : world) (cs : MemoryCache) (ss : Store) : result Error.t (ClientConn * ServerConn) :=
  c ← for_client c sample_name [] Tcp cs wc;
  s ← for_server s [] ss ws;
  talk 4 c s.
(** A second connection with the sessions of the first, and early data. *)
Definition resume (cc : ClientConfig) (sc : ServerConfig) (early : bytes) (first : result Error.t (ClientConn * ServerConn)) : result Error.t (ClientConn * ServerConn) :=
  '(c, s) ← first;
  c ← for_client cc sample_name [] Tcp (session_store (core_data c).1) (draws 60);
  s ← for_server sc [] (session_storage (core_data s).1) (draws 80);
  let '(d, w) := core_data c in
  match write_early_data early {| cx_common := common_state c; cx_data := d; cx_world := w |} with
  | (Ok _, cx) => talk 4 (set_context c (cx_data cx, cx_world cx) (cx_common cx)) s
  | _ => Panic
  end.
Definition early_received (s : ServerConn) : bytes :=
  match EarlyDataState.read 100 (ServerBase.early_data (core_data s).1) with Some (bs, _) => bs | None => [] end.
End link.

Module Runs.
#[local] Existing Instances sum_hashing sum_ring toy_hmac.
#[local] Instance any_name : DnsNames := {| dns_try_from _ := true |}.
#[local] Instance checked : Profile := true.
Abbreviation X := NamedGroup.X25519.
Abbreviation Y := NamedGroup.secp256r1.
Definition report_of (r : result Error.t _) : result Error.t report := '(c, s) ← r; use c s.
(** First connections: no sessions yet. *)
Definition first (c : ClientConfig) (s : ServerConfig) (wc : world) := connect c s wc (draws 30) (Sessions.new_store 64) (Limited.new 8).
Definition completes (v : stage) (client_certs : option (list bytes)) : result Error.t report := Ok {|
  client_at := v; server_at := v; secrets_agree := true; server_read := ascii_bytes "ping"; client_read := ascii_bytes "pong"; server_knows := client_certs |}.
(** With this key the code of a random is the random itself, so a client whose
    session id and random are the same draws is a Reality client. *)
Definition reality_key : Reality.Fork.RealityConfig := Reality.Fork.new (replicate 32 7).
Definition equal_draws (b : Z) : world := {| rng := replicate 12 (Some (replicate 32 b)); now := 1700000000; key_lines := [] |}.
Definition second (early : bytes) := resume (sample_client [X] true) (sample_server [X] None false) early (first (sample_client [X] true) (sample_server [X] None false) (draws 10)).

(** Whole connections.  From the configurations on, through the wire formats,
    the record layer, the deframer and both state machines, with concrete
    parameters: a TLS 1.3 and a TLS 1.2 handshake, both with and without a client
    certificate and the TLS 1.3 one also after a HelloRetryRequest, end with both
    ends in traffic, the same secrets, and data in both directions; a second TLS 1.3
    connection resumes the session of the first and its early data arrives; a
    Reality server accepts a client whose session id has the code, and refuses one
    without it in TLS 1.3. *)
Theorem connections_run :
  report_of (first (sample_client [X] true) (sample_server [X] None false) (draws 10)) = completes Traffic13 None /\
  report_of (first (sample_client [Y; X] true) (sample_server [X] None true) (draws 10)) = completes Traffic13 (Some [[9]]) /\
  report_of (first (sample_client [X] false) (sample_server [X] None false) (draws 10)) = completes Traffic12 None /\
  report_of (first (sample_client [Y; X] false) (sample_server [X] None true) (draws 10)) = completes Traffic12 (Some [[9]]) /\
  report_of (second (ascii_bytes "early")) = completes Traffic13 None /\
  ('(_, s) ← second (ascii_bytes "early"); Ok (early_received s)) = Ok (ascii_bytes "early") /\
  report_of (first (sample_client [X] true) (sample_server [X] (Some reality_key) false) (equal_draws 10)) = completes Traffic13 None /\
  report_of (first (sample_client [X] true) (sample_server [X] (Some reality_key) false) (draws 10)) = Err (pi PeerIncompatible.NoKxGroupsInCommon).
Proof. vm_compute. split_and!; reflexivity. Qed.

(** The check of Reality clients is one of TLS 1.3 only: the server that refuses a
    client without the code takes the same client, with the same draws, when it
    offers only TLS 1.2, although [verify_client] is set. *)
Theorem reality_not_checked_in_tls12 :
  Reality.Fork.verify_client_flag reality_key = true /\
  report_of (first (sample_client [X] true) (sample_server [X] (Some reality_key) false) (draws 10)) = Err (pi PeerIncompatible.NoKxGroupsInCommon) /\
  report_of (first (sample_client [X] false) (sample_server [X] (Some reality_key) false) (draws 10)) = completes Traffic12 None.
Proof. vm_compute. split_and!; reflexivity. Qed.
End Runs.
