(* ===== verification/Quic.v ===== *)
(** * QUIC connections of the TLS fork (orcax/rustls-fork/rustls/src/quic.rs)

    A QUIC implementation drives the handshake itself: it hands over the handshake
    data that came in its own packets, takes what is to be sent, and is told when
    to change keys.  Whole handshakes are run on concrete parameters. *)
From S2P Require Import Prelude Codec TlsLayer VecBuf Deframer DeframerFeed Enums Wire Messages Payloads Ciphers Suites Errors Common Hkdf KeySchedule KeyScheduleLaws Transcript Crates Reality Persist Conn Context SessionCache ClientBase ClientTls13 ClientHs ServerBase ServerExt ServerTls13 ServerHs Samples QuicKeys.
Import CommonState.

Section quic.
Context {H : Hashing} {P : Hkdf} {A : RingAead} {Q : RingQuic} `{DnsNames} `{Profile} {RH : Hmac}.

(** ** The shared part *)

Section common.
Context {St D : Type} (handle : Handler (K:=cipher) St D).
Abbreviation core := (ConnectionCore (K:=cipher) (St:=St) (D:=D)).
Implicit Types x : core.
Definition on_quic x (f : QuicState -> QuicState) : core := set_common x (set_quic (f (Common.CommonState.quic (common_state x))) (common_state x)).
Definition quic_transport_parameters x : option bytes := q_params (Common.CommonState.quic (common_state x)).
Definition zero_rtt_keys {E} x : result E (option DirectionalKeys) :=
  match Common.CommonState.suite (common_state x), q_early_secret (Common.CommonState.quic (common_state x)) with
  | Some (Suites.Tls13 suite), Some secret =>
      if Suites.quic suite then k ← directional_keys suite secret (q_version (Common.CommonState.quic (common_state x))); Ok (Some k) else Ok None
  | _, _ => Ok None
  end.
(** [None] is a loop that has not ended. *)
Definition read_hs (plaintext : bytes) x : option (result Error.t unit * core) :=
  match push (Known TLSv1_3) plaintext (message_deframer x) with
  | (Ok _, d) => '(r, x) ← process_new_packets handle (set_deframer x d); Some (_ ← r; Ok tt, x)
  | (Err e, d) => Some (Err (of_deframe_error e), set_deframer x d)
  | (Panic, d) => Some (Panic, set_deframer x d)
  end.
Definition write_hs {E} x (buf : bytes) : result E (bytes * option KeyChange * core) :=
  '(buf, change, q) ← quic_write_hs (Common.CommonState.quic (common_state x)) buf; Ok (buf, change, on_quic x (fun _ => q)).
Definition quic_alert x : option Z := q_alert (Common.CommonState.quic (common_state x)).
End common.

(** ** Client and server *)

Definition set_q_version (v : QuicVersion) (s : QuicState) : QuicState :=
  {| q_params := q_params s; q_alert := q_alert s; q_hs_queue := q_hs_queue s; q_early_secret := q_early_secret s; q_hs_secrets := q_hs_secrets s;
     q_traffic_secrets := q_traffic_secrets s; q_returned_traffic_keys := q_returned_traffic_keys s; q_version := v |}.
Definition client_params (v : QuicVersion) (params : bytes) : ClientExtension.t :=
  match v with V1Draft => ClientExtension.TransportParametersDraft params | V1 | V2 => ClientExtension.TransportParameters params end.
Definition server_params (v : QuicVersion) (params : bytes) : ServerExtension.t :=
  match v with V1Draft => ServerExtension.TransportParametersDraft params | V1 | V2 => ServerExtension.TransportParameters params end.
Definition quic_client {Store} {S : ClientSessionStore Store} (c : ClientConfig) (v : QuicVersion) (name : ServerName) (params : bytes) (store : Store) (w : world) :
    result Error.t (ConnectionCore (K:=cipher) (St:=ClientHs.ClientState) (D:=ClientConnectionData Store * world)) :=
  if negb (ClientBase.supports_version c (Known TLSv1_3)) then Err Error.General
  else if negb (ClientBase.supports_protocol c Quic) then Err Error.General
  else
    x ← for_client c name [client_params v params] Quic store w;
    Ok (on_quic x (set_q_version v)).
Definition quic_server {Store} {S : StoresServerSessions Store} (c : ServerConfig) (v : QuicVersion) (params : bytes) (store : Store) (w : world) :
    result Error.t (ConnectionCore (K:=cipher) (St:=ServerHs.ServerState) (D:=ServerConnectionData Store * world)) :=
  if negb (ServerBase.supports_version c (Known TLSv1_3)) then Err Error.General
  else if negb (ServerBase.supports_protocol c Quic) then Err Error.General
  else if negb (max_early_data_size c =? 0) && negb (max_early_data_size c =? 0xffffffff) then Err Error.General
  else
    x ← for_server c [server_params v params] store w;
    Ok (on_quic (set_common x (set_protocol Quic (common_state x))) (set_q_version v)).
End quic.

(** ** Whole handshakes *)

Section link.
Context {H : Hashing} {P : Hkdf} {A : RingAead} {Q : RingQuic} `{DnsNames} `{Profile} {RH : Hmac}.
Abbreviation Store := (Limited.LimitedCache bytes bytes).
Abbreviation ClientConn := (ConnectionCore (K:=cipher) (St:=ClientHs.ClientState) (D:=ClientConnectionData MemoryCache * world)).
Abbreviation ServerConn := (ConnectionCore (K:=cipher) (St:=ServerHs.ServerState) (D:=ServerConnectionData Store * world)).
(** Takes what an end has to send, level by level, with the keys it is given. *)
Fixpoint drain {St D} (levels : nat) (x : ConnectionCore (K:=cipher) (St:=St) (D:=D)) :
    result Error.t (list bytes * list KeyChange * ConnectionCore (K:=cipher) (St:=St) (D:=D)) :=
  match levels with
  | O => Ok ([], [], x)
  | S levels =>
      '(bs, change, x) ← write_hs x [];
      '(bss, changes, x) ← drain levels x;
      Ok (bs :: bss, option_list change ++ changes, x)
  end.
Fixpoint feed {St D} (handle : Handler (K:=cipher) St D) (bss : list bytes) (x : ConnectionCore (K:=cipher) (St:=St) (D:=D)) :
    result Error.t (ConnectionCore (K:=cipher) (St:=St) (D:=D)) :=
  match bss with
  | [] => Ok x
  | [] :: bss => feed handle bss x
  | bs :: bss => match read_hs handle bs x with Some (Ok _, x) => feed handle bss x | Some (Err e, _) => Err e | _ => Panic end
  end.
Fixpoint exchange (flights : nat) (c : ClientConn) (s : ServerConn) : result Error.t (ClientConn * list KeyChange * (ServerConn * list KeyChange)) :=
  match flights with
  | O => Ok (c, [], (s, []))
  | S flights =>
      '(bss, kc, c) ← drain 3 c;
      s ← feed (as_handler handle_server) bss s;
      '(bss, ks, s) ← drain 3 s;
      c ← feed (as_handler handle_client) bss c;
      '(c, kc', (s, ks')) ← exchange flights c s;
      Ok (c, kc ++ kc', (s, ks ++ ks'))
  end.
(** Two ends are given the same kinds of keys, and packets cross under each. *)
Definition crosses (a b : PacketKey.t) : bool :=
  match PacketKey.encrypt_in_place a 5 [1; 2; 3] (ascii_bytes "ping") with
  | Ok (c, tag) => match PacketKey.decrypt_in_place b 5 [1; 2; 3] (c ++ tag) with Ok p => bool_decide (p = ascii_bytes "ping") | _ => false end
  | _ => false
  end.
Definition both (a b : Keys) : bool := crosses (packet (local a)) (packet (remote b)) && crosses (packet (local b)) (packet (remote a)).
Definition both_next (a b : QuicSecrets) : bool :=
  match next_packet_keys (E:=Error.t) a, next_packet_keys (E:=Error.t) b with
  | Ok (ka, _), Ok (kb, _) => crosses (pks_local ka) (pks_remote kb) && crosses (pks_local kb) (pks_remote ka)
  | _, _ => false
  end.
Definition keys_match (kc ks : list KeyChange) : bool :=
  match kc, ks with
  | [ChangeHandshake ac; ChangeOneRtt bc nc], [ChangeHandshake as_; ChangeOneRtt bs ns] => both ac as_ && both bc bs && both_next nc ns
  | _, _ => false
  end.
(** The peers' parameters, and whether the keys match. *)
Definition quic_report (v : QuicVersion) (c : ClientConfig) (s : ServerConfig) (ws : world) : result Error.t (option bytes * option bytes * bool) :=
  c ← quic_client c v sample_name [1; 2] (Sessions.new_store 64) (draws 10);
  s ← quic_server s v [3; 4; 5] (Limited.new 8) ws;
  '(c, kc, (s, ks)) ← exchange 3 c s;
  Ok (quic_transport_parameters c, quic_transport_parameters s, keys_match kc ks).
End link.

Module QuicRuns.
#[local] Existing Instances sum_hashing sum_ring toy_hmac toy_mask.
#[local] Instance any_name : DnsNames := {| dns_try_from _ := true |}.
#[local] Instance checked : Profile := true.
Abbreviation X := NamedGroup.X25519.
Abbreviation Y := NamedGroup.secp256r1.
Definition set_max_early (n : Z) (c : ServerConfig) : ServerConfig := {|
  reality_config := reality_config c; ServerBase.provider := ServerBase.provider c; ignore_client_order := ignore_client_order c; ServerBase.max_fragment := ServerBase.max_fragment c;
  ticketer := ticketer c; cert_resolver := cert_resolver c; ServerBase.alpn_protocols := ServerBase.alpn_protocols c; ServerBase.versions := ServerBase.versions c;
  ServerBase.verifier := ServerBase.verifier c; ServerBase.key_log := ServerBase.key_log c; ServerBase.enable_extraction := ServerBase.enable_extraction c;
  max_early_data_size := n; send_half_rtt_data := send_half_rtt_data c; send_tls13_tickets := send_tls13_tickets c |}.

(** Whole QUIC handshakes.  From the configurations on, through both state
    machines and the handshake data of each level, in every QUIC version and also
    with a HelloRetryRequest and a client certificate: both ends learn the other's
    transport parameters, are given handshake keys and then 1-RTT keys, once each,
    and packets cross in both directions under them and under the keys of the next
    update.  A client without TLS 1.3, and a server with another amount of early
    data than none or all, are refused. *)
Theorem quic_connections_run :
  (forall v, quic_report v (sample_client [X] true) (set_max_early 0 (sample_server [X] None false)) (draws 30) = Ok (Some [3; 4; 5], Some [1; 2], true)) /\
  quic_report V1 (sample_client [Y; X] true) (set_max_early 0xffffffff (sample_server [X] None true)) (draws 30) = Ok (Some [3; 4; 5], Some [1; 2], true) /\
  quic_report V1 (sample_client [X] false) (set_max_early 0 (sample_server [X] None false)) (draws 30) = Err Error.General /\
  quic_report V1 (sample_client [X] true) (sample_server [X] None false) (draws 30) = Err Error.General.
Proof. split; [intros []; vm_compute; reflexivity|]. vm_compute. split_and!; reflexivity. Qed.
End QuicRuns.
