(* ===== verification/TlsStream.v ===== *)
(** * Blocking streams over a TLS connection (orcax/rustls-fork/rustls/src/stream.rs)

    [Stream] and [StreamOwned] join a connection and a transport into an object that
    the application reads and writes like a socket.  The contract is about the bytes:
    what the calls report as written is what the records carry, and what the peer
    reads from its stream, whatever the transport does in between. *)
From S2P Require Import Prelude Codec TlsLayer VecBuf Deframer DeframerFeed Enums Wire Messages Payloads Ciphers Suites Errors Common CommonLaws Hkdf KeySchedule Crates Reality Persist Conn Context TrafficLaws CompleteIo SessionCache ClientBase ClientTls13 ClientTls12 ClientHs ServerBase ServerExt ServerTls12 ServerTls13 ServerHs Samples EndToEnd.
Import CommonState.

(** ** The code *)

(** An error of the transport or of the protocol, or one of the reader. *)
Inductive stream_error : Type := OfIo (e : complete_error) | OfReader (e : io_error).

Section stream.
Context {A : RingAead} {AL : RingAeadLaws A} `{DnsNames} {St D : Type} (handle : Handler (K:=cipher) St D).
Abbreviation core := (ConnectionCore (K:=cipher) (St:=St) (D:=D)).
Implicit Types (x : core).
Record Stream : Type := { conn : core; sock : transport }.
(** Calls on a stream; [None] is a call that has not returned yet. *)
Definition Sm (T : Type) : Type := Stream -> option (result stream_error T * Stream).
#[local] Instance Sm_ret : MRet Sm := fun T v s => Some (Ok v, s).
#[local] Instance Sm_bind : MBind Sm := fun T U f m s =>
  match m s with
  | Some (Ok v, s) => f v s
  | Some (Err e, s) => Some (Err e, s)
  | Some (Panic, s) => Some (Panic, s)
  | None => None
  end.
Definition asks {T} (f : CommonState (K:=cipher) -> T) : Sm T := fun s => Some (Ok (f (common_state (conn s))), s).
Definition completes (fuel : nat) : Sm (nat * nat) := fun s =>
  '(r, x, io) ← complete_io handle fuel (conn s) (sock s); Some (map_err OfIo r, {| conn := x; sock := io |}).

Definition complete_prior_io (fuel : nat) : Sm unit :=
  handshaking ← asks is_handshaking;
  _ ← (if handshaking : bool then completes fuel else mret (0, 0)%nat);
  writing ← asks wants_write;
  _ ← (if writing : bool then completes fuel else mret (0, 0)%nat);
  mret tt.
(** The loop of [read]: at most [turns]. *)
Fixpoint fill (turns fuel : nat) : Sm unit := fun s =>
  if wants_read (common_state (conn s)) then
    match turns with
    | O => None
    | S turns => ('(rdlen, _) ← completes fuel; if (rdlen =? 0)%nat then mret tt else fill turns fuel) s
    end
  else Some (Ok tt, s).
Definition read_plain (cap : nat) : Sm bytes := fun s =>
  '(r, x) ← reader_read cap (conn s); Some (map_err OfReader r, {| conn := x; sock := sock s |}).
Definition read (fuel cap : nat) : Sm bytes := _ ← complete_prior_io fuel; _ ← fill fuel fuel; read_plain cap.

(** The writer of a connection has no errors of its own. *)
Definition on_writer (f : core -> result Error.t nat * core) : Sm nat := fun s =>
  let '(r, x) := f (conn s) in Some (map_err (fun e => OfIo (InvalidData e)) r, {| conn := x; sock := sock s |}).
(** [let _ = self.conn.complete_io(self.sock)]: errors are dropped. *)
Definition try_complete (fuel : nat) : Sm unit := fun s =>
  match completes fuel s with
  | Some (Panic, s) => Some (Panic, s)
  | Some (_, s) => Some (Ok tt, s)
  | None => None
  end.
Definition write (fuel : nat) (buf : bytes) : Sm nat :=
  _ ← complete_prior_io fuel; len ← on_writer (writer_write buf); _ ← try_complete fuel; mret len.
Definition write_vectored (fuel : nat) (bufs : list bytes) : Sm nat :=
  _ ← complete_prior_io fuel; len ← on_writer (writer_write_vectored bufs); _ ← try_complete fuel; mret len.
(** [Writer::flush] does nothing. *)
Definition flush (fuel : nat) : Sm unit :=
  _ ← complete_prior_io fuel;
  writing ← asks wants_write;
  _ ← (if writing : bool then completes fuel else mret (0, 0)%nat);
  mret tt.

(** [StreamOwned]: the same object, owned.  [write_vectored] is the default of
    [io::Write], which writes the first buffer that is not empty. *)
Definition StreamOwned : Type := Stream.
Definition into_parts (s : StreamOwned) : core * transport := (conn s, sock s).
Definition as_stream (s : StreamOwned) : Stream := {| conn := conn s; sock := sock s |}.
Definition owned_write_vectored (fuel : nat) (bufs : list bytes) : Sm nat := fun s =>
  write fuel (default [] (head (filter (fun b => b <> []) bufs))) (as_stream s).

(** ** Sending *)

(** The bytes that wait to be sent. *)
Definition pending x : bytes := concat (chunks (sendable_tls (common_state x))).
Definition only_sends (x x' : core) : Prop := exists b, x' = set_common x (set_sendable_tls b (common_state x)) /\ plain_ok b /\ limit b = limit (sendable_tls (common_state x)).
Lemma only_sends_refl x : plain_ok (sendable_tls (common_state x)) -> only_sends x x.
Proof. intros Hx. exists (sendable_tls (common_state x)). split; [by destruct x as [? ? [] ?]|done]. Qed.
Lemma only_sends_trans x y z : only_sends x y -> only_sends y z -> only_sends x z.
Proof. intros (b & -> & Hb & Hl) (b' & -> & Hb' & Hl'). exists b'. split; [by destruct x as [? ? [] ?]|]. split; [done|]. rewrite Hl'. by destruct x as [? ? [] ?]. Qed.
Lemma pending_empty x : plain_ok (sendable_tls (common_state x)) -> wants_write (common_state x) = negb (bool_decide (pending x = [])).
Proof.
  unfold wants_write, is_empty, pending, plain_ok. destruct (chunks _) as [|c cs]; [done|]. inversion 1; subst. cbn [concat negb]. rewrite bool_decide_eq_false_2; [done|].
  by destruct c.
Qed.
(** One write: every byte stays accounted for, and something is used up. *)
Lemma write_step_conserves x io : plain_ok (sendable_tls (common_state x)) -> wants_write (common_state x) = true ->
  exists r x' io', write_step x io = (r, x', io') /\ only_sends x x' /\ outbound io' ++ pending x' = outbound io ++ pending x /\
    inbound io' = inbound io /\ flushes io' = flushes io /\ accepts io' = drop 1 (accepts io) /\
    (length (pending x') + length (accepts io') < length (pending x) + length (accepts io))%nat /\
    match r with Some n => length (pending x) = (n + length (pending x'))%nat | None => None ∈ accepts io end.
Proof.
  intros Hx Hw. unfold wants_write in Hw. apply negb_true_iff in Hw. unfold write_step, write_tls, write_to. rewrite Hw.
  set (b := sendable_tls (common_state x)) in *. set (offer := length (offered b)).
  assert (concat (chunks b) = offered b ++ concat (drop IOV_MAX (chunks b))) as Hsplit by (unfold offered; rewrite <- concat_app; by rewrite take_drop).
  assert (0 < offer)%nat as Hoff by (unfold offer, offered; unfold is_empty in Hw; destruct Hx as [|c cs Hc _]; [done|]; destruct c; [done|cbn; lia]).
  assert (forall n, (n <= offer)%nat -> let x' := set_common x (set_sendable_tls (consume n b) (common_state x)) in
    only_sends x x' /\ take n (offered b) ++ pending x' = pending x /\ length (pending x) = (n + length (pending x'))%nat) as Hn.
  { intros n Hn. destruct (consume_chunks_spec n (chunks b) Hx) as [H1 H2]. cbn zeta. unfold pending. replace (sendable_tls (common_state (set_common x (set_sendable_tls (consume n b) (common_state x))))) with (consume n b) by by destruct x as [? ? [] ?].
    fold b. cbn [consume chunks]. split; [by exists (consume n b)|]. rewrite H1. split; [rewrite Hsplit, drop_app_le by done; by rewrite app_assoc, take_drop|].
    rewrite length_drop, Hsplit, length_app. fold offer. lia. }
  destruct (accepts io) as [|[n|] rest]; cbn [head fmap option_fmap option_map drop].
  - destruct (Hn offer) as (H1 & H2 & H3); [done|]. eexists _, _, _. split; [reflexivity|]. split; [exact H1|]. cbn [outbound inbound flushes accepts length]. rewrite <- app_assoc, H2. split_and!; try done. lia.
  - destruct (Hn (Nat.min offer n)) as (H1 & H2 & H3); [lia|]. eexists _, _, _. split; [reflexivity|]. split; [exact H1|]. cbn [outbound inbound flushes accepts length]. rewrite <- app_assoc, H2. split_and!; try done. rewrite drop_0. lia.
  - eexists _, _, _. split; [reflexivity|]. split; [by exists b|]. cbn [outbound inbound flushes accepts length].
    replace (pending (set_common x (set_sendable_tls b (common_state x)))) with (pending x) by by destruct x as [? ? [] ?]. split_and!; try done; [rewrite drop_0; lia|left].
Qed.
Definition set_flushes (io : transport) (fs : list bool) : transport := {| inbound := inbound io; accepts := accepts io; flushes := fs; outbound := outbound io |}.
(** What a call that only sends does: nothing is read, no byte is lost or repeated,
    and events of the transport are taken in order. *)
Record sends x (io : transport) x' (io' : transport) : Prop := {
  snd_only : only_sends x x';
  snd_bytes : outbound io' ++ pending x' = outbound io ++ pending x;
  snd_inbound : inbound io' = inbound io;
  snd_accepts : accepts io' `suffix_of` accepts io;
  snd_flushes : flushes io' `suffix_of` flushes io;
  snd_measure : (length (pending x') + length (accepts io') <= length (pending x) + length (accepts io))%nat
}.
Lemma sends_refl x io : plain_ok (sendable_tls (common_state x)) -> sends x io x io.
Proof. intros Hx. split; try done. by apply only_sends_refl. Qed.
Lemma sends_trans x io y io1 z io2 : sends x io y io1 -> sends y io1 z io2 -> sends x io z io2.
Proof. intros [] []. split; try congruence; [by eapply only_sends_trans|by etransitivity|by etransitivity|lia]. Qed.
Lemma sends_ok x io x' io' : sends x io x' io' -> plain_ok (sendable_tls (common_state x')).
Proof. intros [(b & -> & Hb & _) _ _ _ _ _]. by destruct x as [? ? [] ?]. Qed.
(** No write and no flush of the transport fails. *)
Definition healthy (io : transport) : Prop := (None ∉ accepts io) /\ (false ∉ flushes io).
Lemma suffix_healthy x io x' io' : sends x io x' io' -> healthy io -> healthy io'.
Proof. intros [_ _ _ [a Ha] [f Hf] _] [H1 H2]. split; intros Hi; [apply H1; rewrite Ha|apply H2; rewrite Hf]; set_solver. Qed.
Lemma write_loop_sends N wrlen x io : plain_ok (sendable_tls (common_state x)) -> (length (pending x) + length (accepts io) <= N)%nat ->
  exists r x' io', (forall fuel, (N <= fuel)%nat -> write_loop fuel wrlen x io = Some (r, x', io')) /\ sends x io x' io' /\ flushes io' = flushes io /\
    ((r = Ok (wrlen + length (pending x))%nat /\ pending x' = []) \/ (r = Err IoFailed /\ None ∈ accepts io)).
Proof.
  revert wrlen x io. induction N as [|N IH]; intros wrlen x io Hx Hf; pose proof (pending_empty _ Hx) as Hw; case_bool_decide as He; cbn [negb] in Hw.
  1,3: eexists _, _, _; split; [intros fuel _; destruct fuel; cbn [write_loop]; rewrite Hw; reflexivity|]; split; [by apply sends_refl|]; split; [done|]; left; rewrite He; split; [f_equal; cbn; lia|done].
  { exfalso. destruct (pending x); [done|cbn in Hf; lia]. }
  destruct (write_step_conserves x io Hx Hw) as (r & x1 & io1 & Hst & H1 & H2 & H3 & H4 & H5 & H6 & H7).
  assert (sends x io x1 io1) as Hs by (split; try done; [rewrite H5; apply suffix_drop|by rewrite H4|lia]). destruct r as [n|].
  - destruct (IH (wrlen + n)%nat x1 io1 (sends_ok _ _ _ _ Hs)) as (r & x2 & io2 & Hl & Hs2 & Hf2 & Hr); [lia|]. eexists _, _, _.
    split; [intros [|fuel] Hfu; [lia|]; cbn [write_loop]; rewrite Hw, Hst; apply Hl; lia|].
    split; [by eapply sends_trans|]. split; [congruence|]. destruct Hr as [[-> ?]|[-> Hi]]; [left; split; [f_equal; lia|done]|right; split; [done|]].
    rewrite H5 in Hi. rewrite <- (take_drop 1 (accepts io)). set_solver.
  - eexists _, _, _. split; [intros [|fuel] Hfu; [lia|]; cbn [write_loop]; by rewrite Hw, Hst|]. split; [done|]. split; [done|]. by right.
Qed.
(** [complete_io] outside the handshake with something to send: it sends, and reads nothing. *)
Lemma complete_sends x io : plain_ok (sendable_tls (common_state x)) -> is_handshaking (common_state x) = false -> pending x <> [] ->
  exists r x' io', (forall fuel, (length (pending x) + length (accepts io) < fuel)%nat -> complete_io handle fuel x io = Some (r, x', io')) /\ sends x io x' io' /\
    ((exists n, r = Ok n /\ pending x' = []) \/ (r = Err IoFailed /\ ~ healthy io)).
Proof.
  intros Hx Hh Hp. destruct (write_loop_sends (length (pending x) + length (accepts io)) 0 x io Hx) as (r & x1 & io1 & Hl & Hs & Hfl & Hr); [lia|].
  assert (forall fuel, (length (pending x) + length (accepts io) < S fuel)%nat -> write_loop (S fuel) 0 x io = Some (r, x1, io1)) as Hl' by (intros; apply Hl; lia). clear Hl.
  destruct Hr as [[-> Hr]|[-> Hi]].
  2: { eexists _, _, _. split; [intros [|fuel] Hf; [lia|]; unfold complete_io; cbn [complete_loop]; unfold complete_turn; rewrite (Hl' _ Hf); reflexivity|]. split; [done|]. right. split; [done|]. by intros []. }
  assert (sends x io x1 (flush_step io1).2) as Hs' by (destruct Hs; split; try done; cbn; rewrite Hfl; apply suffix_drop).
  destruct (flush_step io1) as [[] io2] eqn:Hfs; cbn [snd] in Hs'.
  - eexists _, _, _. split; [|split; [exact Hs'|left; by eexists]]. intros [|fuel] Hf; [lia|]. unfold complete_io. cbn [complete_loop]. unfold complete_turn. rewrite (Hl' _ Hf). cbn [mbind option_bind].
    rewrite Hfs, Hh. cbn [negb andb]. by replace (0 <? 0 + length (pending x))%nat with true by by destruct (pending x).
  - eexists _, _, _. split; [|split; [exact Hs'|right]].
    + intros [|fuel] Hf; [lia|]. unfold complete_io. cbn [complete_loop]. unfold complete_turn. rewrite (Hl' _ Hf). cbn [mbind option_bind]. by rewrite Hfs.
    + split; [done|]. intros [_ Hn]. apply Hn. rewrite <- Hfl. unfold flush_step in Hfs. destruct (flushes io1) as [|[] fs]; try done. left.
Qed.
(** Calls on streams: the sending part, with enough fuel. *)
Definition outcome_of {T} (s : Stream) (f : nat -> Sm T) (r : result stream_error T) (s' : Stream) : Prop := exists F, forall fuel, (F <= fuel)%nat -> f fuel s = Some (r, s').
Lemma outcome_bind {T U} s (f : nat -> Sm T) (g : T -> nat -> Sm U) v s1 r s2 :
  outcome_of s f (Ok v) s1 -> outcome_of s1 (g v) r s2 -> outcome_of s (fun n => x ← f n; g x n) r s2.
Proof. intros [F1 H1] [F2 H2]. exists (F1 + F2)%nat. intros fuel Hf. unfold mbind, Sm_bind. rewrite H1 by lia. apply H2. lia. Qed.
Lemma outcome_err {T U} s (f : nat -> Sm T) (g : T -> nat -> Sm U) e s1 :
  outcome_of s f (Err e) s1 -> outcome_of s (fun n => x ← f n; g x n) (Err e) s1.
Proof. intros [F1 H1]. exists F1. intros fuel Hf. unfold mbind, Sm_bind. by rewrite H1. Qed.
Lemma outcome_ret {T} s (v : T) : outcome_of s (fun _ => mret v) (Ok v) s.
Proof. by exists 0%nat. Qed.
Abbreviation stream_sends s s' := (sends (conn s) (sock s) (conn s') (sock s')).
Abbreviation queue s := (sendable_tls (common_state (conn s))).
Lemma completes_sends s : plain_ok (queue s) -> is_handshaking (common_state (conn s)) = false ->
  exists r s', outcome_of s (fun n => b ← asks wants_write; if b : bool then completes n else mret (0, 0)%nat) r s' /\ stream_sends s s' /\
    ((exists n, r = Ok n /\ pending (conn s') = []) \/ (r = Err (OfIo IoFailed) /\ ~ healthy (sock s))).
Proof.
  intros Hx Hh. unfold asks, mbind, Sm_bind. pose proof (pending_empty _ Hx) as Hw. case_bool_decide as He; cbn [negb] in Hw.
  - exists (Ok (0, 0)%nat), s. split; [exists 0%nat; intros; by rewrite Hw|]. split; [by apply sends_refl|]. left. by eexists.
  - destruct (complete_sends _ (sock s) Hx Hh He) as (r & x' & io' & Hc & Hs & Hr). eexists _, {| conn := x'; sock := io' |}.
    split; [eexists; intros fuel Hf; rewrite Hw; unfold completes; rewrite (Hc fuel Hf); reflexivity|]. split; [done|].
    destruct Hr as [(n & -> & Hp)|[-> Hn]]; [left; by eexists|by right].
Qed.
Lemma prior_sends s : plain_ok (queue s) -> is_handshaking (common_state (conn s)) = false ->
  exists r s', outcome_of s complete_prior_io r s' /\ stream_sends s s' /\
    ((r = Ok tt /\ pending (conn s') = []) \/ (r = Err (OfIo IoFailed) /\ ~ healthy (sock s))).
Proof.
  intros Hx Hh. destruct (completes_sends s Hx Hh) as (r & s' & [F Hc] & Hs & Hr).
  assert (forall fuel, complete_prior_io fuel s = (_ ← (b ← asks wants_write; if b : bool then completes fuel else mret (0, 0)%nat); mret tt) s) as Heq.
  { intros fuel. unfold complete_prior_io, asks, mbind, Sm_bind. rewrite Hh. done. }
  destruct Hr as [(n & -> & Hp)|[-> Hn]].
  - exists (Ok tt), s'. split; [exists F; intros fuel Hf; rewrite Heq; unfold mbind at 1, Sm_bind at 1; by rewrite Hc|]. split; [done|]. by left.
  - exists (Err (OfIo IoFailed)), s'. split; [exists F; intros fuel Hf; rewrite Heq; unfold mbind at 1, Sm_bind at 1; by rewrite Hc|]. split; [done|]. by right.
Qed.

(** A stream in traffic whose records, once all are opened, leave the peer's layer as [r]. *)
Record sender (ke kd : cipher) (r : RecordLayer (K:=cipher)) (s : Stream) : Prop := {
  snd_traffic : is_handshaking (common_state (conn s)) = false;
  snd_update : queued_key_update_message (common_state (conn s)) = None;
  snd_queue : plain_ok (queue s);
  snd_limit : limit (queue s) <> Some 0%nat;
  snd_connected : connected ke kd (common_state (conn s)) r
}.
Lemma sender_sends ke kd r s s' : sender ke kd r s -> stream_sends s s' -> sender ke kd r s' /\ record_layer (common_state (conn s')) = record_layer (common_state (conn s)).
Proof.
  intros [H1 H2 H3 H4 [H5 H5']] Hs. pose proof (sends_ok _ _ _ _ Hs). destruct Hs as [(b & Hb & Hb' & Hl) _ _ _ _ _]. destruct s' as [x' io']; cbn [conn] in *; subst x'. destruct s as [[? ? [] ?] ?]. split; [|done].
  split; cbn in *; try done; by rewrite Hl.
Qed.
Definition carried (s s' : Stream) (bs : bytes) : Prop :=
  outbound (sock s') ++ pending (conn s') = outbound (sock s) ++ pending (conn s) ++ bs /\ inbound (sock s') = inbound (sock s).
Lemma sends_carried s s1 s2 bs : stream_sends s s1 -> carried s1 s2 bs -> carried s s2 bs.
Proof. intros [_ Hb Hi _ _ _] [H1 H2]. split; [rewrite H1, !app_assoc; congruence|congruence]. Qed.
Lemma carried_sends s s1 s2 bs : carried s s1 bs -> stream_sends s1 s2 -> carried s s2 bs.
Proof. intros [H1 H2] [_ Hb Hi _ _ _]. split; congruence. Qed.
(** The writer of a connection in traffic. *)
Lemma writer_sends ke kd r s buf : sender ke kd r s -> pending (conn s) = [] -> buf <> [] -> write_seq (record_layer (common_state (conn s))) + zlen buf <= SEQ_SOFT_LIMIT ->
  exists n s' cs r', on_writer (writer_write buf) s = Some (Ok n, s') /\ sender ke kd r' s' /\ carried s s' (concat (map opaque_encode cs)) /\ delivers cs r (take n buf) r' /\
    (0 < n <= length buf)%nat /\ write_seq (record_layer (common_state (conn s'))) <= write_seq (record_layer (common_state (conn s))) + zlen buf /\ pending (conn s') <> [] /\ sock s' = sock s.
Proof.
  intros [H1 H2 H3 H4 H5] Hp Hb Hz. set (c := common_state (conn s)) in *. destruct (appdata_sent ke kd c r buf Yes H5 Hz) as (cs & l & r' & Hs & Hd & Hst & Hseq & Hn).
  set (n := apply_limit (sendable_tls c) (length buf)) in *. assert (0 < n)%nat as Hn0.
  { unfold n, apply_limit. rewrite len_concat. change (concat (chunks (sendable_tls c))) with (pending (conn s)). rewrite Hp. unfold c in H4 |- *.
    destruct (limit _) as [[|k]|]; [done| |]; destruct buf; cbn; try done; lia. }
  assert (map opaque_encode cs <> []) as Hcs.
  { destruct cs; [|done]. destruct Hd as (ds & Hd & Hda & _). cbn in Hd. injection Hd as Hds _. destruct ds; [|done]. cbn in Hda. destruct buf; [done|]. destruct n; [lia|done]. }
  assert (chunks (sendable_tls c) = []) as Hch by (unfold pending in Hp; fold c in Hp; destruct H3 as [|b bs Hb0 _]; [done|]; by destruct b).
  assert (may_send_application_data c = true) as Hm by (unfold is_handshaking in H1; destruct (may_send_application_data c); done).
  exists n, {| conn := set_common (conn s) (sent cs l c); sock := sock s |}, cs, r'.
  assert (pending (set_common (conn s) (sent cs l c)) = concat (map opaque_encode cs)) as Hpend by (unfold pending; cbn; rewrite Hch; done). split_and!; try done.
  - unfold on_writer, writer_write, with_common, send_some_plaintext, perhaps_write_key_update, mbind, Cm_bind, modify. fold c. rewrite H2. unfold send_plain, mbind, Cm_bind, gets. rewrite Hm. cbn [negb].
    destruct buf as [|b0 buf]; [done|]. by rewrite Hs.
  - split; cbn; try done; [|by eapply connected_sent]. unfold plain_ok. cbn. rewrite Hch. apply Forall_map, Forall_true. intros m. apply opaque_encode_nonempty.
  - split; [|done]. cbn [conn sock]. by rewrite Hp, Hpend.
  - cbn. unfold zlen. lia.
  - cbn [conn]. rewrite Hpend. destruct cs as [|m cs]; [done|]. cbn. pose proof (opaque_encode_nonempty m). by destruct (opaque_encode m).
Qed.
(** One call, with what it reports to have written. *)
Inductive call : Type := Write (buf : bytes) | Flush.
Inductive answer : Type := Wrote (r : result stream_error nat) | Flushed (r : result stream_error unit).
Definition perform (fuel : nat) (k : call) (s : Stream) : option (answer * Stream) :=
  match k with
  | Write buf => '(r, s) ← write fuel buf s; Some (Wrote r, s)
  | Flush => '(r, s) ← flush fuel s; Some (Flushed r, s)
  end.
Definition reported (k : call) (a : answer) : bytes := match k, a with Write buf, Wrote (Ok n) => take n buf | _, _ => [] end.
Definition succeeded (a : answer) : Prop := match a with Wrote (Ok n) => (0 < n)%nat | Flushed (Ok _) => True | _ => False end.
Definition panicked (a : answer) : Prop := match a with Wrote Panic | Flushed Panic => True | _ => False end.
Definition size (k : call) : Z := match k with Write buf => zlen buf | Flush => 0 end.
(** What a call does to a sender: its records carry what it reports, and nothing of it
    is lost; if the transport does not fail, it succeeds and everything has left. *)
Record performed ke kd (k : call) r s (a : answer) r' s' : Prop := {
  pf_fuel : exists F, forall fuel, (F <= fuel)%nat -> perform fuel k s = Some (a, s');
  pf_sender : sender ke kd r' s';
  pf_carried : exists cs, carried s s' (concat (map opaque_encode cs)) /\ delivers cs r (reported k a) r';
  pf_seq : write_seq (record_layer (common_state (conn s'))) <= write_seq (record_layer (common_state (conn s))) + size k;
  pf_panic : ~ panicked a;
  pf_healthy : healthy (sock s) -> succeeded a /\ pending (conn s') = [] /\ healthy (sock s')
}.
Lemma performed_idle ke kd k r s a s' : sender ke kd r s -> stream_sends s s' -> (exists F, forall fuel, (F <= fuel)%nat -> perform fuel k s = Some (a, s')) ->
  reported k a = [] -> ~ panicked a -> (healthy (sock s) -> succeeded a /\ pending (conn s') = []) -> performed ke kd k r s a r s'.
Proof.
  intros Hs Hss HF Hr Hp Hh. destruct (sender_sends _ _ _ _ _ Hs Hss) as [Hs' Hl]. split; try done.
  - exists []. rewrite Hr. split; [|apply delivers_nil]. apply (sends_carried _ s'); [done|]. split; [cbn; by rewrite app_nil_r|done].
  - rewrite Hl. destruct k; cbn; unfold zlen; lia.
  - intros Hhe. destruct (Hh Hhe). split; [done|]. split; [done|]. by eapply suffix_healthy.
Qed.
Lemma write_performed ke kd r s buf : sender ke kd r s -> buf <> [] -> write_seq (record_layer (common_state (conn s))) + zlen buf <= SEQ_SOFT_LIMIT ->
  exists a r' s', performed ke kd (Write buf) r s a r' s'.
Proof.
  intros Hs Hb Hz. destruct (prior_sends s (snd_queue _ _ _ _ Hs) (snd_traffic _ _ _ _ Hs)) as (r0 & s1 & [F1 HF1] & Hs1 & Hr). destruct (sender_sends _ _ _ _ _ Hs Hs1) as [Hsd1 Hl1].
  destruct Hr as [[-> Hp]|[-> Hn]].
  2: { exists (Wrote (Err (OfIo IoFailed))), r, s1. apply performed_idle; try done; try by intros []. exists F1. intros fuel Hf. cbn [perform]. unfold write, mbind, Sm_bind. rewrite HF1 by done. done. }
  destruct (writer_sends ke kd r s1 buf Hsd1 Hp Hb) as (n & s2 & cs & r' & Hw & Hsd2 & Hca & Hd & Hn & Hseq & Hp2 & Hso); [by rewrite Hl1|].
  destruct (complete_sends _ (sock s2) (snd_queue _ _ _ _ Hsd2) (snd_traffic _ _ _ _ Hsd2) Hp2) as (rc & x3 & io3 & Hc & Hs3 & Hrc).
  set (s3 := {| conn := x3; sock := io3 |}). assert (stream_sends s2 s3) as Hs3' by done. destruct (sender_sends _ _ _ _ _ Hsd2 Hs3') as [Hsd3 Hl3].
  exists (Wrote (Ok n)), r', s3. split; try done.
  - exists (S (F1 + length (pending (conn s2)) + length (accepts (sock s2))))%nat. intros fuel Hf. cbn [perform]. unfold write, mbind, Sm_bind. rewrite HF1, Hw by lia. unfold try_complete, completes. rewrite Hc by lia.
    cbn [mbind option_bind]. destruct Hrc as [(m & -> & _)|[-> _]]; reflexivity.
  - exists cs. split; [|done]. eapply sends_carried; [done|]. by eapply carried_sends.
  - rewrite Hl3. rewrite Hl1 in Hseq. exact Hseq.
  - by intros [].
  - intros Hh. assert (healthy (sock s2)) as Hh2 by (rewrite Hso; by eapply suffix_healthy). split; [cbn; lia|]. destruct Hrc as [(m & -> & Hp3)|[-> Hbad]]; [|done]. split; [done|]. by eapply suffix_healthy.
Qed.
Lemma flush_performed ke kd r s : sender ke kd r s -> exists a r' s', performed ke kd Flush r s a r' s'.
Proof.
  intros Hs. destruct (prior_sends s (snd_queue _ _ _ _ Hs) (snd_traffic _ _ _ _ Hs)) as (r0 & s1 & [F1 HF1] & Hs1 & Hr). destruct (sender_sends _ _ _ _ _ Hs Hs1) as [Hsd1 Hl1].
  exists (Flushed r0), r, s1. apply performed_idle; try done; destruct Hr as [[-> Hp]|[-> Hn]]; try done; try by intros [].
  - exists F1. intros fuel Hf. cbn [perform]. unfold flush, asks, mbind, Sm_bind. rewrite HF1 by done. rewrite (pending_empty _ (snd_queue _ _ _ _ Hsd1)), bool_decide_eq_true_2 by done. done.
  - exists F1. intros fuel Hf. cbn [perform]. unfold flush, mbind, Sm_bind. rewrite HF1 by done. done.
Qed.
Fixpoint perform_all (fuel : nat) (ks : list call) (s : Stream) : option (list answer * Stream) :=
  match ks with
  | [] => Some ([], s)
  | k :: ks => '(a, s) ← perform fuel k s; '(rest, s) ← perform_all fuel ks s; Some (a :: rest, s)
  end.
Definition total (ks : list call) : Z := foldr (fun k n => size k + n) 0 ks.
Lemma total_nonneg ks : 0 <= total ks.
Proof. induction ks as [|k ks IH]; cbn [total foldr]; [done|]. fold (total ks). destruct k; cbn [size]; unfold zlen; lia. Qed.
Lemma calls_performed ke kd r s ks : sender ke kd r s -> Forall (fun k => k <> Write []) ks -> write_seq (record_layer (common_state (conn s))) + total ks <= SEQ_SOFT_LIMIT ->
  exists F ans r' s' cs, (forall fuel, (F <= fuel)%nat -> perform_all fuel ks s = Some (ans, s')) /\ length ans = length ks /\ sender ke kd r' s' /\
    carried s s' (concat (map opaque_encode cs)) /\ delivers cs r (concat (zip_with reported ks ans)) r' /\ Forall (fun a => ~ panicked a) ans /\
    (healthy (sock s) -> pending (conn s) = [] -> Forall succeeded ans /\ pending (conn s') = []).
Proof.
  revert r s. induction ks as [|k ks IH]; intros r s Hs Hk Hz.
  - exists 0%nat, [], r, s, []. split_and!; try done; [split; [cbn; by rewrite app_nil_r|done]|apply delivers_nil].
  - apply Forall_cons_iff in Hk as [Hk0 Hk]. cbn [total foldr] in Hz. fold (total ks) in Hz. pose proof (total_nonneg ks).
    assert (exists a r1 s1, performed ke kd k r s a r1 s1) as (a & r1 & s1 & [[F1 HF1] Hs1 (cs1 & Hc1 & Hd1) Hq1 Hp1 Hh1]).
    { destruct k as [buf|]; [apply write_performed; [done|by intros ->|cbn in Hz; lia]|by apply flush_performed]. }
    destruct (IH r1 s1 Hs1 Hk) as (F2 & ans & r' & s' & cs2 & HF2 & Hl & Hs' & Hc2 & Hd2 & Hp2 & Hh2); [lia|].
    exists (F1 + F2)%nat, (a :: ans), r', s', (cs1 ++ cs2). split_and!; try done.
    + intros fuel Hf. cbn [perform_all]. rewrite HF1 by lia. cbn [mbind option_bind]. rewrite HF2 by lia. done.
    + cbn. by rewrite Hl.
    + destruct Hc1 as [E1 I1], Hc2 as [E2 I2]. split; [|congruence]. rewrite E2, map_app, concat_app, !app_assoc, E1, !app_assoc. done.
    + cbn. by eapply delivers_app.
    + by constructor.
    + intros Hh Hpd. destruct (Hh1 Hh) as (Ha & Hpe & Hh'). destruct (Hh2 Hh' Hpe). split; [by constructor|done].
Qed.

(** ** Receiving *)

Definition bytes_of (evs : list read_event) : bytes := concat (map (fun e => match e with Data bs => bs | _ => [] end) evs).
(** A stream in traffic with nothing to send, whose application has yet to read [data]:
    in part it has been decrypted, the rest is in the bytes that the transport gives,
    in pieces of any size, with interrupted and failing reads between them. *)
Record reading (st : St) (d0 : D) (r' : RecordLayer (K:=cipher)) (s : Stream) (data : bytes) : Prop := {
  rd_state : core_state (conn s) = inl st;
  rd_data : core_data (conn s) = d0;
  rd_rest : exists cs t rest, repr (message_deframer (conn s)) (plain_todo t) /\ partial t (bytes_of (inbound (sock s))) cs /\
    delivers cs (record_layer (common_state (conn s))) rest r' /\ data = concat (chunks (received_plaintext (common_state (conn s)))) ++ rest;
  rd_plain : plain_ok (received_plaintext (common_state (conn s)));
  rd_traffic : is_handshaking (common_state (conn s)) = false;
  rd_quiet : wants_write (common_state (conn s)) = false;
  rd_open : has_received_close_notify (common_state (conn s)) = false;
  rd_lively : Forall (fun e => e <> Data []) (inbound (sock s))
}.
Definition events (s : Stream) : nat := (length (inbound (sock s)) + length (flushes (sock s)))%nat.
Lemma reading_wants st d0 r' s data : reading st d0 r' s data ->
  wants_read (common_state (conn s)) = bool_decide (concat (chunks (received_plaintext (common_state (conn s)))) = []).
Proof.
  intros [_ _ _ Hp Ht Hq Ho _]. unfold wants_read. rewrite Ho. unfold wants_write in Hq. apply negb_false_iff in Hq. rewrite Hq. cbn [negb]. rewrite orb_true_r, !andb_true_r. unfold is_empty.
  destruct Hp as [|c cs Hc _]; [done|]. cbn. rewrite bool_decide_eq_false_2; [done|]. by destruct c.
Qed.
(** The reads of [complete_io] on a connection with nothing to read: some bytes, the
    end of the transport, or a failure.  Nothing is lost. *)
Lemma read_loop_reads st d0 cs t w rest r' evs x : receiving st d0 cs t w rest r' x -> bytes_of evs = w -> wants_read (common_state x) = true -> Forall (fun e => e <> Data []) evs ->
  exists res x' evs', CompleteIo.read_loop evs x = (res, x', evs') /\ Forall (fun e => e <> Data []) evs' /\ (length evs' <= length evs)%nat /\
    ((exists n d, res = Ok (Some n) /\ x' = set_deframer x d /\ repr d (plain_todo (t ++ take n w)) /\ bytes_of evs' = drop n w /\ (0 < n <= length w)%nat) \/
     (exists d, res = Ok (Some 0%nat) /\ x' = set_deframer (set_common x (set_has_seen_eof true (common_state x))) d /\ repr d (plain_todo t) /\ w = [] /\ evs' = []) \/
     (exists d, res = Err IoFailed /\ x' = set_deframer x d /\ repr d (plain_todo t) /\ bytes_of evs' = w /\ (length evs' < length evs)%nat)).
Proof.
  intros Hx. pose proof (receiving_room _ _ _ _ _ _ _ _ Hx) as Hroom. revert evs. induction evs as [|e evs IH]; intros Hw Hr Hl; cbn [CompleteIo.read_loop]; rewrite Hr.
  all: assert (is_full (received_plaintext (common_state x)) = false) as Hfull by (unfold is_full; rewrite len_concat, (rcv_plain _ _ _ _ _ _ _ _ Hx); by destruct (limit _)).
  - unfold read_tls. rewrite Hfull. pose proof (read_refines _ _ [] (rcv_deframer _ _ _ _ _ _ _ _ Hx)) as Hrd.
    destruct (read_from (Some []) (message_deframer x)) as [[n|e|] d]; [|lia|done]. destruct Hrd as (Hd & Hn & _). assert (n = 0%nat) as -> by (cbn in Hn; lia). cbn [Nat.eqb].
    eexists _, _, _. split; [reflexivity|]. split; [done|]. split; [done|]. right. left. exists d. subst w. split_and!; try done. rewrite <- (app_nil_r t). exact Hd.
  - apply Forall_cons_iff in Hl as [He Hl]. destruct e as [bs| |].
    + subst w. destruct bs as [|b0 bs]; [done|]. set (bs' := b0 :: bs) in *. change (bytes_of (Data bs' :: evs)) with (bs' ++ bytes_of evs) in *.
      destruct (read_receives (length bs') _ _ _ _ _ _ _ _ Hx) as (n & d & Hrd & Hn & Hd); [done|cbn; lia|]. rewrite take_app_length in Hrd, Hn. rewrite Hrd.
      eexists _, _, _. split; [reflexivity|]. split; [destruct (Nat.ltb_spec n (length bs')); [constructor; [|done]|done]|].
      { intros [= E]. apply (f_equal length) in E. rewrite length_drop in E. cbn [length] in E. lia. }
      split; [destruct (_ <? _)%nat; cbn; lia|]. left. exists n, d. split_and!; try done; [|lia|rewrite length_app; lia].
      rewrite drop_app_le by lia. destruct (Nat.ltb_spec n (length bs')); [done|]. by rewrite drop_ge by lia.
    + destruct IH as (res & x' & evs' & -> & Hl' & Hlen & Hc); try done. eexists _, _, _. split; [reflexivity|]. split; [done|]. split; [cbn; lia|].
      destruct Hc as [Hc|[Hc|(d & H1 & H2 & H3 & H4 & H5)]]; [by left|by right; left|right; right]. exists d. split_and!; try done. cbn. lia.
    + unfold read_tls. rewrite Hfull. pose proof (prepare_refines _ _ (rcv_deframer _ _ _ _ _ _ _ _ Hx)) as Hp. unfold read_from. destruct (prepare_read (message_deframer x)) as [d|e|]; [|lia|done].
      destruct Hp as (Hd & _). eexists _, _, _. split; [reflexivity|]. split; [done|]. split; [cbn; lia|]. right. right. exists d. split_and!; try done. cbn. lia.
Qed.
Definition left (s : Stream) : nat := length (bytes_of (inbound (sock s))).
Lemma process_reads st d0 r' cs t x io data : takes_data handle st -> core_state x = inl st -> core_data x = d0 -> repr (message_deframer x) (plain_todo t) ->
  t ++ bytes_of (inbound io) = concat (map opaque_encode cs) -> delivers cs (record_layer (common_state x)) data r' -> plain_ok (received_plaintext (common_state x)) ->
  concat (chunks (received_plaintext (common_state x))) = [] -> is_handshaking (common_state x) = false -> wants_write (common_state x) = false ->
  has_received_close_notify (common_state x) = false -> Forall (fun e => e <> Data []) (inbound io) ->
  exists o x', process_new_packets handle x = Some (Ok o, x') /\ reading st d0 r' {| conn := x'; sock := io |} data.
Proof.
  intros Hh Hs Hd Hr Ht Hde Hpl Hp Htr Hq Ho Hli. destruct (process_receives handle st cs t (bytes_of (inbound io)) x data r') as (x' & t2 & cs2 & d1 & d2 & -> & H2 & H3 & H4 & H5 & H6 & -> & H8 & H9 & F1 & F2 & F3 & F4); try done.
  eexists _, x'. split; [reflexivity|]. split; cbn [conn sock]; try done; try congruence; unfold is_handshaking, wants_write in *; try congruence.
  exists cs2, t2, d2. rewrite H9, Hp. done.
Qed.
(** One call of [complete_io] on such a stream. *)
Lemma complete_reads st d0 r' s data : takes_data handle st -> reading st d0 r' s data -> concat (chunks (received_plaintext (common_state (conn s)))) = [] ->
  exists r s', outcome_of s completes r s' /\ reading st d0 r' s' data /\ (events s' <= events s)%nat /\
    ((exists n m, r = Ok (n, m) /\ (0 < n)%nat /\ (left s' < left s)%nat) \/ (exists m, r = Ok (0%nat, m) /\ data = []) \/ (exists e, r = Err e /\ (events s' < events s)%nat)).
Proof.
  intros Hh Hr Hp. pose proof (reading_wants _ _ _ _ _ Hr) as Hw. rewrite bool_decide_eq_true_2 in Hw by done. destruct s as [x [evs acc fls out]].
  destruct Hr as [Hst Hdat (cs & t & rest & Hd & Hpa & Hde & Hda) Hpl Htr Hq Ho Hli]. cbn [conn sock inbound] in *. rewrite Hp in Hda. cbn in Hda. subst rest.
  assert (receiving st d0 cs t (bytes_of evs) data r' x) as Hrc by (split; try done; destruct Hpl as [|c cks Hc _]; [done|]; by destruct c).
  assert (forall fuel, write_loop fuel 0 x {| inbound := evs; accepts := acc; flushes := fls; outbound := out |} = Some (Ok 0%nat, x, {| inbound := evs; accepts := acc; flushes := fls; outbound := out |}))
    as Hwl by (intros [|fuel]; cbn [write_loop]; by rewrite Hq).
  destruct (default true (head fls)) eqn:Hfl.
  2: { eexists (Err (OfIo IoFailed)), {| conn := x; sock := {| inbound := evs; accepts := acc; flushes := drop 1 fls; outbound := out |} |}. split.
    { exists 1%nat. intros [|fuel] Hf; [lia|]. unfold completes, complete_io. cbn [complete_loop conn sock]. unfold complete_turn. rewrite Hwl. cbn [mbind option_bind]. unfold flush_step. cbn [flushes inbound accepts outbound]. by rewrite Hfl. }
    split; [split; try done; exists cs, t, data; split_and!; try done; cbn [conn]; by rewrite Hp|]. unfold events. cbn [sock inbound flushes]. destruct fls; [done|]. cbn. rewrite drop_0. split; [lia|]. right. right. eexists. split; [done|]. lia. }
  destruct (read_loop_reads _ _ _ _ _ _ _ evs x Hrc eq_refl Hw Hli) as (res & x1 & evs' & Hrl & Hli' & Hlen & Hc).
  set (io' := {| inbound := evs'; accepts := acc; flushes := drop 1 fls; outbound := out |}).
  assert (forall fuel, complete_io handle (S fuel) x {| inbound := evs; accepts := acc; flushes := fls; outbound := out |} =
    match res with
    | Err e => Some (Err e, x1, io')
    | Panic => Some (Panic, x1, io')
    | Ok n => '(p, x2) ← process_new_packets handle x1;
        match p with
        | Panic => Some (Panic, x2, io')
        | Err e => let '(_, x, io) := write_step x2 io' in Some (Err (InvalidData e), x, (flush_step io).2)
        | Ok _ => Some (Ok ((0 + default 0 n)%nat, 0%nat), x2, io')
        end
    end) as Heq.
  { intros fuel. unfold complete_io. cbn [complete_loop]. unfold complete_turn. rewrite Hwl. cbn [mbind option_bind]. unfold flush_step at 1. cbn [flushes inbound accepts outbound]. rewrite Hfl, Htr. cbn [negb andb Nat.ltb Nat.leb]. rewrite Hrl.
    destruct res as [n|e|]; [|done|done]. destruct (process_new_packets handle x1) as [[[p|e|] x2]|]; [done| |done|done]. cbn [mbind option_bind]. fold io'. by destruct (write_step x2 io') as [[? ?] ?]. }
  clear Hrl Hwl. assert (events {| conn := x1; sock := io' |} <= events {| conn := x; sock := {| inbound := evs; accepts := acc; flushes := fls; outbound := out |} |})%nat as Hev
    by (unfold events; cbn [sock inbound flushes io']; rewrite length_drop; lia).
  destruct Hc as [(n & d & -> & -> & Hrd & Hb & Hn)|[(d & -> & -> & Hrd & Hb & ->)|(d & -> & -> & Hrd & Hb & Hlt)]].
  - destruct (process_reads st d0 r' cs (t ++ take n (bytes_of evs)) (set_deframer x d) io' data) as (o & x2 & Hpr & Hrd2); try done.
    { cbn [io' inbound]. rewrite Hb, <- app_assoc, take_drop. apply Hpa. }
    eexists _, {| conn := x2; sock := io' |}. split; [exists 1%nat; intros [|fuel] Hf; [lia|]; unfold completes; cbn [conn sock]; rewrite Heq, Hpr; reflexivity|].
    split; [done|]. split; [exact Hev|]. left. eexists _, _. split; [reflexivity|]. split; [cbn; lia|]. unfold left. cbn [sock io' inbound]. rewrite Hb, length_drop. lia.
  - rewrite Hb in Hpa. destruct (partial_end _ _ Hpa) as [-> ->]. assert (data = []) as -> by (destruct Hde as (ds & Hda & <- & _); by destruct ds).
    destruct (process_reads st d0 r' [] [] (set_deframer (set_common x (set_has_seen_eof true (common_state x))) d) io' []) as (o & x2 & Hpr & Hrd2); try (by destruct x as [? ? [] ?]).
    eexists _, {| conn := x2; sock := io' |}. split; [exists 1%nat; intros [|fuel] Hf; [lia|]; unfold completes; cbn [conn sock]; rewrite Heq, Hpr; reflexivity|].
    split; [done|]. split; [exact Hev|]. right. left. by eexists.
  - eexists _, {| conn := set_deframer x d; sock := io' |}. split; [exists 1%nat; intros [|fuel] Hf; [lia|]; unfold completes; cbn [conn sock]; rewrite Heq; reflexivity|].
    split; [split; try done; exists cs, t, data; cbn [conn sock io' inbound]; rewrite Hb; split_and!; try done; cbn [set_deframer common_state]; by rewrite Hp|]. split; [exact Hev|]. right. right. eexists. split; [reflexivity|].
    unfold events. cbn [sock io' inbound flushes]. rewrite length_drop. lia.
Qed.
Lemma fill_reads N st d0 r' s data : takes_data handle st -> reading st d0 r' s data -> (left s < N)%nat ->
  exists F r s', (forall turns fuel, (N <= turns)%nat -> (F <= fuel)%nat -> fill turns fuel s = Some (r, s')) /\ reading st d0 r' s' data /\ (events s' <= events s)%nat /\
    ((r = Ok tt /\ (concat (chunks (received_plaintext (common_state (conn s')))) = [] -> data = [])) \/ (exists e, r = Err e /\ (events s' < events s)%nat)).
Proof.
  intros Hh. revert s. induction N as [|N IH]; intros s Hr Hl; [lia|]. pose proof (reading_wants _ _ _ _ _ Hr) as Hw. case_bool_decide as Hp.
  2: { exists 0%nat, (Ok tt), s. split; [intros [|turns] fuel _ _; cbn [fill]; by rewrite Hw|]. split; [done|]. split; [done|]. by left. }
  destruct (complete_reads _ _ _ _ _ Hh Hr Hp) as (r & s1 & [F1 HF1] & Hr1 & He1 & Hc).
  assert (forall turns fuel, (F1 <= fuel)%nat -> fill (S turns) fuel s =
    match r with Ok (rdlen, _) => if (rdlen =? 0)%nat then Some (Ok tt, s1) else fill turns fuel s1 | Err e => Some (Err e, s1) | Panic => Some (Panic, s1) end) as Hf.
  { intros turns fuel Hfu. cbn [fill]. rewrite Hw. unfold mbind, Sm_bind. rewrite HF1 by done. destruct r as [[n m]|e|]; [|done|done]. by destruct (n =? 0)%nat. }
  destruct Hc as [(n & m & -> & Hn & Hlt)|[(m & -> & Hd)|(e & -> & Hlt)]].
  - destruct (IH s1 Hr1) as (F2 & r & s2 & HF2 & Hr2 & He2 & Hc2); [lia|]. exists (F1 + F2)%nat, r, s2. split.
    { intros [|turns] fuel Ht Hfu; [lia|]. rewrite Hf by lia. destruct (Nat.eqb_spec n 0); [lia|]. apply HF2; lia. }
    split; [done|]. split; [lia|]. destruct Hc2 as [?|(e & ? & ?)]; [by left|]. right. exists e. split; [done|lia].
  - exists F1, (Ok tt), s1. split; [intros [|turns] fuel Ht Hfu; [lia|]; by rewrite Hf|]. split; [done|]. split; [done|]. by left.
  - exists F1, (Err e), s1. split; [intros [|turns] fuel Ht Hfu; [lia|]; by rewrite Hf|]. split; [done|]. split; [done|]. right. by exists e.
Qed.
Lemma read_plain_reads st d0 r' s data cap : reading st d0 r' s data -> (0 < cap)%nat -> (concat (chunks (received_plaintext (common_state (conn s)))) = [] -> data = []) ->
  exists r s', read_plain cap s = Some (r, s') /\ events s' = events s /\
    ((exists out rest, r = Ok out /\ out <> [] /\ data = out ++ rest /\ reading st d0 r' s' rest) \/ (data = [] /\ exists e, r = Err e /\ reading st d0 r' s' data)).
Proof.
  intros [Hst Hdat (cs & t & rest & Hd & Hpa & Hde & Hda) Hpl Htr Hq Ho Hli] Hcap Hz. unfold read_plain, reader_read. rewrite Ho. cbn [andb].
  set (b := received_plaintext (common_state (conn s))) in *. destruct (read_loop_spec (S (length (chunks b))) cap [] b) as (b' & Hrd & Hcon & _ & Hne); [lia|cbn; lia|done|].
  unfold read_into. rewrite Hrd. cbn [mbind option_bind app length] in *. rewrite Nat.sub_0_r in *. set (x' := set_common (conn s) (set_received_plaintext b' (common_state (conn s)))).
  assert (reading st d0 r' {| conn := x'; sock := sock s |} (drop cap (concat (chunks b)) ++ rest)) as Hr'.
  { destruct s as [[? ? [] ?] ?]. split; cbn [conn sock] in *; try done. exists cs, t, rest. split_and!; try done. cbn. by rewrite Hcon. }
  replace (0 <? cap)%nat with true by (destruct cap; [lia|done]). rewrite length_take. destruct (concat (chunks b)) as [|p0 ps] eqn:Hp.
  - rewrite Nat.min_0_r. cbn [Nat.eqb andb]. rewrite drop_nil in Hr'. cbn in Hr'. rewrite (Hz eq_refl) in *. destruct rest; [|done].
    destruct (has_seen_eof _); (eexists _, _; split; [reflexivity|]; split; [done|]; right; split; [done|]; by eexists).
  - replace (Nat.min cap (length (p0 :: ps)) =? 0)%nat with false by (destruct cap; [lia|done]). cbn [andb]. eexists _, _. split; [reflexivity|]. split; [done|]. left.
    eexists _, _. split; [reflexivity|]. split; [destruct cap; [lia|done]|]. split; [|exact Hr']. by rewrite app_assoc, take_drop.
Qed.
(** One call: it returns data that was not read before, or fails without losing any. *)
Lemma read_call st d0 r' s data cap : takes_data handle st -> reading st d0 r' s data -> (0 < cap)%nat ->
  exists F r s' rest, (forall fuel, (F <= fuel)%nat -> read fuel cap s = Some (r, s')) /\ reading st d0 r' s' rest /\ data = match r with Ok out => out | _ => [] end ++ rest /\ r <> Panic /\
    (data <> [] -> length rest + events s' < length data + events s)%nat.
Proof.
  intros Hh Hr Hcap. destruct (fill_reads (S (left s)) _ _ _ _ _ Hh Hr) as (F & r & s1 & HF & Hr1 & He1 & Hc); [lia|].
  assert (forall fuel, complete_prior_io fuel s = Some (Ok tt, s)) as Hprior.
  { intros fuel. unfold complete_prior_io, asks, mbind, Sm_bind. rewrite (rd_traffic _ _ _ _ _ Hr). unfold mret, Sm_ret. cbn beta iota. rewrite (rd_quiet _ _ _ _ _ Hr). done. }
  destruct Hc as [[-> Hz]|(e & -> & Hlt)].
  - destruct (read_plain_reads _ _ _ _ _ cap Hr1 Hcap Hz) as (r & s2 & Hrp & He2 & Hc). assert (forall fuel, (S (F + left s) <= fuel)%nat -> read fuel cap s = Some (r, s2)) as HF2.
    { intros fuel Hf. unfold read, mbind, Sm_bind. rewrite Hprior, HF by lia. done. }
    destruct Hc as [(out & rest & -> & Ho & -> & Hr2)|(-> & e & -> & Hr2)].
    + eexists _, _, _, rest. split; [exact HF2|]. split_and!; try done. intros _. rewrite length_app. destruct out; [done|]. cbn. lia.
    + eexists _, _, _, []. split; [exact HF2|]. split_and!; done.
  - exists (S (F + left s))%nat, (Err e), s1, data. split; [intros fuel Hf; unfold read, mbind, Sm_bind; rewrite Hprior, HF by lia; done|]. split_and!; try done. lia.
Qed.
Fixpoint read_all (fuel : nat) (caps : list nat) (s : Stream) : option (list (result stream_error bytes) * Stream) :=
  match caps with
  | [] => Some ([], s)
  | cap :: caps => '(r, s) ← read fuel cap s; '(rs, s) ← read_all fuel caps s; Some (r :: rs, s)
  end.
Definition got (rs : list (result stream_error bytes)) : bytes := concat (map (fun r => match r with Ok out => out | _ => [] end) rs).
Lemma read_calls st d0 r' s data caps : takes_data handle st -> reading st d0 r' s data -> Forall (fun cap => 0 < cap)%nat caps ->
  exists F rs s' rest, (forall fuel, (F <= fuel)%nat -> read_all fuel caps s = Some (rs, s')) /\ reading st d0 r' s' rest /\ data = got rs ++ rest /\ Forall (fun r => r <> Panic) rs /\
    (length data + events s <= length caps -> rest = [])%nat.
Proof.
  intros Hh. revert s data. induction caps as [|cap caps IH]; intros s data Hr Hcaps.
  { exists 0%nat, [], s, data. split_and!; try done. cbn. intros. destruct data; [done|cbn in *; lia]. }
  apply Forall_cons_iff in Hcaps as [Hcap Hcaps]. destruct (read_call _ _ _ _ _ cap Hh Hr Hcap) as (F1 & r & s1 & rest1 & HF1 & Hr1 & -> & Hp1 & Hm1).
  destruct (IH s1 rest1 Hr1 Hcaps) as (F2 & rs & s2 & rest & HF2 & Hr2 & -> & Hp2 & Hm2). exists (F1 + F2)%nat, (r :: rs), s2, rest. split_and!; try done.
  - intros fuel Hf. cbn [read_all]. rewrite HF1 by lia. cbn [mbind option_bind]. by rewrite HF2 by lia.
  - unfold got. cbn [map concat]. by rewrite app_assoc.
  - by constructor.
  - intros Hl. destruct (decide (match r with Ok out => out | _ => [] end ++ got rs ++ rest = [])) as [E|E].
    + apply app_eq_nil in E as [_ E]. by apply app_eq_nil in E as [_ ->].
    + apply Hm2. specialize (Hm1 E). cbn [length] in Hl. lia.
Qed.
End stream.

(** ** From one stream to the other *)

Section ends.
Context {A : RingAead} {AL : RingAeadLaws A} `{DnsNames} {Sw Dw Sr Dr : Type} (hw : Handler (K:=cipher) Sw Dw) (hr : Handler (K:=cipher) Sr Dr).
(** A connection in traffic with nothing to read and nothing to send. *)
Definition ready (st : Sr) (d0 : Dr) (x : ConnectionCore (K:=cipher) (St:=Sr) (D:=Dr)) : Prop :=
  listening st d0 x /\ is_handshaking (common_state x) = false /\ wants_write (common_state x) = false /\ has_received_close_notify (common_state x) = false.
(** The calls [ks] return, without panic, whatever the transport does to them, and
    succeed if it does not fail.  Once everything has left, the peer reads exactly
    what they report as written, in calls with buffers of any size, however its own
    transport cuts the bytes and whatever else it does. *)
Definition carries (ks : list call) (s : Stream (St:=Sw) (D:=Dw)) (x : ConnectionCore (K:=cipher) (St:=Sr) (D:=Dr)) : Prop :=
  exists F ans s', (forall fuel, (F <= fuel)%nat -> perform_all hw fuel ks s = Some (ans, s')) /\ length ans = length ks /\ Forall (fun a => ~ panicked a) ans /\
    (healthy (sock s) -> Forall succeeded ans /\ pending (conn s') = []) /\
    (pending (conn s') = [] -> exists bs, outbound (sock s') = outbound (sock s) ++ bs /\
       forall io caps, bytes_of (inbound io) = bs -> Forall (fun e => e <> Data []) (inbound io) -> Forall (fun cap => 0 < cap)%nat caps ->
         (length (concat (zip_with reported ks ans)) + length (inbound io) + length (flushes io) <= length caps)%nat ->
         exists F rs s2, (forall fuel, (F <= fuel)%nat -> read_all hr fuel caps {| conn := x; sock := io |} = Some (rs, s2)) /\
           got rs = concat (zip_with reported ks ans) /\ Forall (fun r => r <> Panic) rs).
Lemma stream_carries ke kd ks s st d0 x : takes_data hr st -> Forall (fun k => k <> Write []) ks ->
  sender ke kd (record_layer (common_state x)) s -> pending (conn s) = [] -> write_seq (record_layer (common_state (conn s))) + total ks <= SEQ_SOFT_LIMIT ->
  ready st d0 x -> carries ks s x.
Proof.
  intros Hh Hk Hs Hp Hz ((H1 & H2 & H3 & H4) & H5 & H6 & H7). destruct (calls_performed hw ke kd _ s ks Hs Hk Hz) as (F & ans & r' & s' & cs & HF & Hl & _ & [Hc _] & Hd & Hpn & Hhe).
  exists F, ans, s'. split; [done|]. split; [done|]. split; [done|]. split; [by auto|]. intros Hp'. rewrite Hp, Hp', app_nil_r in Hc. cbn [app] in Hc.
  exists (concat (map opaque_encode cs)). split; [done|]. intros io caps Hio Hli Hcaps Hlen.
  destruct (read_calls hr st d0 r' {| conn := x; sock := io |} (concat (zip_with reported ks ans)) caps Hh) as (F2 & rs & s2 & rest & HF2 & _ & Hg & Hpn2 & Hr); [|done|].
  - split; cbn [conn sock]; try done; [|unfold plain_ok; by rewrite H4]. exists cs, [], (concat (zip_with reported ks ans)). rewrite Hio, H4. split_and!; try done.
    split; [done|]. destruct cs as [|c cs]; [done|]. pose proof (opaque_encode_nonempty c). destruct (opaque_encode c); cbn; [done|lia].
  - exists F2, rs, s2. split; [done|]. split; [|done]. rewrite Hg, Hr, app_nil_r; [done|]. unfold events. cbn [sock]. lia.
Qed.
End ends.

Section contract.
Context {H : Hashing} {P : Hkdf} {A : RingAead} {AL : RingAeadLaws A} `{DnsNames} `{Profile} {RH : Hmac}.
(** C21: Streams carry exactly what they report.  The application of one end writes
    and flushes through a [Stream], each write with at least one byte (what an empty
    write does instead is [empty_write_reads]), over a transport that may take any part
    of what it is offered, fail to write and fail to flush; the stream starts with
    nothing left to send and stays below the soft limit of its record numbers.  Then
    every call returns without panic, succeeds if the transport does not fail, and the
    bytes it reports as written, those of calls whose own sending failed included, are
    once nothing is left to send, what the records on the wire carry, each once and in
    order.  The application of the other end, a client or a server in a traffic state
    that gets all of those records, reads exactly those bytes from its own [Stream],
    with buffers of any size but zero, however the transport cuts, interrupts or fails
    reads; as many calls are enough as there are bytes and events. *)
Theorem streams_carry ke kd ks : Forall (fun k => k <> Write []) ks ->
  (forall Store (S : StoresServerSessions Store) Sw Dw (hw : Handler Sw Dw) s st d x, sender ke kd (record_layer (common_state x)) s -> pending (conn s) = [] ->
    write_seq (record_layer (common_state (conn s))) + total ks <= SEQ_SOFT_LIMIT -> server_data st -> ready st d x -> carries hw (as_handler handle_server) ks s x) /\
  (forall Store (S : ClientSessionStore Store) Sw Dw (hw : Handler Sw Dw) s st d x, sender ke kd (record_layer (common_state x)) s -> pending (conn s) = [] ->
    write_seq (record_layer (common_state (conn s))) + total ks <= SEQ_SOFT_LIMIT -> client_data st -> ready st d x -> carries hw (as_handler handle_client) ks s x).
Proof. intros Hk. split; intros; eapply stream_carries; eauto using client_takes, server_takes. Qed.
End contract.

(** ** Instances *)

#[local] Existing Instances toy_hashing toy_ring.
#[local] Instance no_stream_names : DnsNames := {| dns_try_from _ := false |}.
#[local] Instance ex_stream_profile : Profile := true.
Definition in_traffic (c : CommonState (K:=cipher)) : CommonState (K:=cipher) := set_may_receive_application_data true (set_may_send_application_data true c).
(** A client stream whose transport takes two bytes, fails once, takes three, fails to
    flush, and then works. *)
Definition ex_client : Stream (St:=unit) (D:=unit) :=
  {| conn := core_new tt tt (in_traffic ex_writer); sock := {| inbound := [Data [1]]; accepts := [Some 2%nat; None; Some 3%nat]; flushes := [false]; outbound := [] |} |}.
Definition ex_server : ConnectionCore (K:=cipher) (St:=ServerHs.ServerState) (D:=ServerConnectionData unit * world) :=
  core_new ex_state ex_data (in_traffic (set_record_layer (set_message_decrypter ex_dec new_layer) (CommonState.new Server))).
Lemma streams_carry_witness : carries ex_handle (as_handler (handle_server (RH:=toy_hmac))) [Write [1; 2]; Flush; Write [3]; Flush] ex_client ex_server.
Proof.
  destruct (streams_carry (A:=toy_ring) (RH:=toy_hmac) ex_enc ex_dec [Write [1; 2]; Flush; Write [3]; Flush]) as [Hs _]; [by repeat constructor|].
  apply (Hs _ _ _ _ _ _ ex_state ex_data); [|reflexivity|by vm_compute|exact I|split; [split; [reflexivity|split; [reflexivity|split; [exact repr_new|reflexivity]]]|split_and!; reflexivity]].
  split; try reflexivity; [by constructor|done|]. split; [by split|]. change (max_frag _) with MAX_FRAGMENT_LEN. unfold MAX_FRAGMENT_LEN. lia.
Defined.
(** The calls of that client: the first write reports its bytes although the
    transport failed while it was sending them, the flush meets the failing flush, and
    later calls send everything.  A server whose reads come in small pieces, one
    interrupted and one failing, reads the three bytes. *)
Definition ex_answers := perform_all ex_handle 100 [Write [1; 2]; Flush; Write [3]; Flush] ex_client.
Definition in_pieces (bs : bytes) : list read_event := [Data (take 4 bs); Interrupted; Data (take 30 (drop 4 bs)); ReadFails; Data (drop 34 bs)].
Definition ex_reads : option (list (result stream_error bytes)) :=
  '(_, s) ← ex_answers;
  '(rs, _) ← read_all (as_handler (handle_server (RH:=toy_hmac))) 100 [1; 5; 5; 5]%nat {| conn := ex_server; sock := {| inbound := in_pieces (outbound (sock s)); accepts := []; flushes := []; outbound := [] |} |};
  Some rs.
Lemma streams_run : fst <$> ex_answers = Some [Wrote (Ok 2%nat); Flushed (Err (OfIo IoFailed)); Wrote (Ok 1%nat); Flushed (Ok tt)] /\
  ex_reads = Some [Ok [1]; Ok [2]; Err (OfIo IoFailed); Ok [3]].
Proof. vm_compute. split; reflexivity. Qed.
(** Writing nothing reads: with nothing to send, [complete_io] waits for the peer, so
    a write of an empty buffer takes what the transport gives, and blocks if it gives
    nothing. *)
Theorem empty_write_reads :
  (fun '(r, s) => (r, inbound (sock s), outbound (sock s))) <$>
    write ex_handle 5 [] {| conn := core_new tt tt (in_traffic ex_writer); sock := {| inbound := [Data [23; 3]]; accepts := []; flushes := []; outbound := [] |} |} =
  Some (Ok 0%nat, [], []).
Proof. vm_compute. reflexivity. Qed.
